(* ===== verification/_CoqProject ===== *)
-Q . S2P
Prelude.v
AntiReplay.v
Pack.v
PolicyMsg.v
MemPool.v
RttTemplate.v
L2Reflector.v
SimpleFwdPkt.v
SimpleFwdFt.v
RteHash.v
PipesManager.v
CString.v
FlowTypes.v
InetPton.v
SimpleFwd.v
SimpleFwdSpec.v
SimpleFwdTheorems.v
FlowFields.v
FlowParser.v
FlowParserSpec.v
FlowParserReturns.v
Mbuf.v
EspPacket.v
EspPacketSpec.v
EspGateway.v
GatewayAddr.v
GatewayRules.v
Policy.v
PolicySpec.v
PolicyInstall.v
PolicyTheorems.v
Proc.v
ProcSpec.v
DocaCommon.v
DmaCopy.v
DocaSpec.v
DmaCopySpec.v
DmaCopyHost.v
DmaCopyDpu.v
DmaCopyTheorems.v
FileIntegrity.v
FileIntegritySpec.v
FileIntegritySides.v
FileIntegrityTheorems.v
AllreduceReducer.v
Allreduce.v
AllreduceSpec.v
AllreduceClient.v
AllreduceTheorems.v
AllreduceNetwork.v
FlowPipes.v
Json.v
RuleText.v
Nat.v
NatSpec.v
NatRun.v
PipeDemo.v
NatTheorems.v
Firewall.v
FirewallSpec.v
FirewallRun.v
FirewallPipes.v
FirewallTheorems.v
GatewayConfig.v
GatewayConfigSpec.v
GatewayConfigRun.v
GatewayConfigTheorems.v
GatewayConfigInstall.v
