(* ===== verification/Prelude.v ===== *)
(** * Verification of the DOCA reference applications

    The repository holds NVIDIA's DOCA applications (C programs for BlueField
    network processors and their hosts), samples of the libraries, the
    libraries' headers and some tools.  This library models the parts of the
    applications that carry logic of their own - packet and text parsers, flow
    and resource tables, protocol windows, device programs - and proves what
    makes them correct.  Code that is not in the repository (DOCA, DPDK, FlexIO,
    CUDA, the C library's allocators) is a parameter of the definitions that use
    it, or an interface with its documented laws.

    ** Conventions

    - Integers are [Z] at the width of their C type: [u8] ... [u64], [s32] and
      [s64] reduce a result, [shl] is a shift that is undefined when its amount
      is not below the width.
    - Memory is a list of bytes (or of slots) with an index; [rd] and [wr] fail
      outside it.  Shared objects (tables of tables, arrays of queues) live in
      heaps indexed by address.
    - A definition in [option] returns [None] for undefined behaviour: an access
      out of bounds, a use after free, a NULL that is dereferenced, a shift that
      is too large.  Theorems that a run is [Some] are the memory safety of the
      code.  Errors the code reports are values of [doca_error].
    - Loops that are not structural take fuel, and a theorem gives an amount
      that is enough: the bytes that are missing (PolicyMsg), the pending
      completions (L2Reflector), the entries of the table and one (SimpleFwdFt),
      the length of the line and one (FlowParser), the tries left and one
      (EspGateway, [tx_tries]), the depth of two queues (GatewayRules,
      [drain_loop]: 1024 polls).
    - Answers of the environment (allocators, sockets, clocks, counters of the
      hardware, files) are arguments: functions of the call's number or name, or
      lists of events.  Theorems hold for all of them, or say which they need.
    - Logging is left out.

    ** Files

    - Prelude.v: machine integers, error codes (doca_error.h), buffers, bytes, a
      state monad, tactics and the hint database [doca].
    - AntiReplay.v: the software anti-replay window of the IPsec gateway
      ([init_anti_replay_states] of ipsec_security_gw.c, [anti_replay] of
      flow_decrypt.c), as a refinement of the receiver of RFC 4303: a window of
      sequence numbers and the set of those received.  No number is accepted
      twice, numbers in order are accepted.
    - Pack.v: common/src/pack.c.  Round trip of every width and of blobs, in
      network byte order.
    - PolicyMsg.v: reading a policy from the gateway's control socket
      (ipsec_security_gw.c), on top of Pack.v: fragmentation of the stream,
      errors; policies sent in bursts arrive in order and once; the loss of
      synchronisation when a record arrives later than its length.
    - MemPool.v: allreduce/src/allreduce_mem_pool.c.  Elements are handed out
      exclusively, the pool grows by doubling, destruction frees each free
      element once.
    - RttTemplate.v: the congestion control algorithm of the PCC device program
      (pcc/src/device).  Bounds of rates, additive increase and multiplicative
      decrease, recovery, the measured round trip time.
    - L2Reflector.v: the device program of the L2 reflector.  The event handler
      reflects every pending frame, and what it tells the NIC, doorbells, indices
      and fences, is given action by action; the owner-bit protocol of the
      completion queue.
    - SimpleFwdPkt.v: the packet parser of the simple forward VNF
      (simple_fwd_pkt.c).  Memory safety for arbitrary bytes, decoding of plain
      and of VXLAN packets built from their fields.
    - SimpleFwdFt.v: its flow table (simple_fwd_ft.c), over the parser's results.
      Conservation of flows over insertion, lookup, aging and removal; lookup
      after insertion; termination and effect of an aging round.
    - SimpleFwd.v: the VNF over both (simple_fwd.c, simple_fwd_vnf_core.c): packets
      in, flows and hardware entries, aging; a hardware entry is a handle that is
      live or removed, or refused its removal.
    - SimpleFwdSpec.v: its invariant, and every step of the VNF keeps it.
    - SimpleFwdTheorems.v: each flow of the table has the hardware entry made for
      it and no entry whose removal was not requested is left without a flow; no
      run is undefined (under the conditions below); what becomes of a packet; keys
      are of their types.
    - RteHash.v: the hash tables of DPDK as a type class with laws, and a
      finite-map instance of bounded size.
    - PipesManager.v: common/src/flow_pipes_manager.c, for every instance of
      that class.  In all runs the tables of pipes, entries and ports stay
      consistent, nothing is used after it is freed, nothing leaks.
    - CString.v: C strings, strlcpy (utils.c), strtok, strtol and strtoull, and
      decimal numerals.
    - FlowTypes.v: the structures of doca_flow.h and doca_flow_net.h with their
      unions as bytes.
    - FlowFields.v: the value and field parsers of common/src/flow_parser.c.
    - FlowParser.v: structures, parameters, command handlers and command sets of
      flow_parser.c.
    - FlowParserSpec.v: theorems on the flow parser.  The fuel is enough; a
      structure is the sequence of its fields; a firewall rule and an added
      entry reach their callbacks as written; files of the dump are closed.
    - FlowParserReturns.v: the lines for which the parser returns ([complete]), and
      that every session of such lines does.
    - Mbuf.v: DPDK packet buffers.  A packet is a chain of segments with
      headroom; the operations the gateway uses (prepend, append, adj, trim, the
      address of an offset) are a class [Dpdk] with laws [DpdkLaws], stated on
      the bytes of the packet, and [dpdk_ref] is an instance on segment lists.
    - EspPacket.v: the software data path of the IPsec gateway: flow_common.c,
      and the parts of flow_encrypt.c and flow_decrypt.c that a packet runs
      through (ESP header, trailer and ICV, tunnel headers, sequence numbers,
      removal of the padding).
    - EspPacketSpec.v: the ESP frame a packet becomes, in transport and tunnel
      mode, and the packet a frame becomes again; the conditions on lengths.
    - EspGateway.v: bursts of packets between the ports (ipsec_security_gw.c,
      flow_encrypt.c, flow_decrypt.c).  What the encryption side sends the
      decryption side restores; two gateways deliver the packets in order; no
      sequence number is used twice; every packet of a burst is sent, dropped or
      counted as lost.
    - InetPton.v: inet_pton for IPv6, executable; what it accepts has 16 bytes, and
      the text of eight groups gives these groups.
    - GatewayAddr.v: addresses in config.c and policy.c, and the table of IPv6
      addresses as a class.
    - GatewayRules.v: the rules of the IPsec gateway in the hardware
      (ipsec_ctx.c, flow_common.c, flow_encrypt.c, flow_decrypt.c): security
      associations, shared objects, entries of pipes, in order, in a history of
      calls.  The libraries are a class [Hardware] whose answers depend on that
      history.
    - Policy.v: policy.c and the loop of ipsec_security_gw.c that installs the
      policies it receives.
    - PolicySpec.v: the invariants of rules, counters and queues, what hardware
      that completes entries when polled promises ([PromptHardware]), and that
      the operations keep them and end.
    - PolicyInstall.v: the calls a policy leads to on hardware that accepts them
      ([AcceptingHardware]), as a list.
    - PolicyTheorems.v: the theorems on policies.  The control loop is safe; a
      policy is installed as it is written; all that fit are accepted; the rules
      of the configuration are installed; and two places where the code does not
      do what it means to: the number in the packets of a run-time rule, and the
      sources of IPv6 rules.
    - Proc.v: a program as a tree of calls whose answers the environment gives:
      memory, files, library calls, messages and DMA between a host and a DPU.  A
      process is a program with its memory and handles; two processes and two
      channels are a system with a step relation.
    - ProcSpec.v: a contract between the two sides and weakest preconditions
      against it.  Two programs that meet a contract never run into undefined
      behaviour and never wait for each other for ever ([pair_reach],
      [pair_progress], [pair_ends]).
    - DocaCommon.v: samples/common.c: opening devices, the core objects (memory
      map, buffer inventory, context, work queue) and their destruction.
    - DocaSpec.v: what these functions allocate, keep and release.
    - DmaCopy.v: applications/dma_copy, both sides, from [main] on, with the
      callbacks of its arguments.
    - DmaCopySpec.v: the messages of the two sides (descriptors, direction and
      status), the contracts, and the parts both sides share.
    - DmaCopyHost.v, DmaCopyDpu.v: each side meets its contract.
    - DmaCopyTheorems.v: the two programs together: the file is copied, whichever
      side has it; everything is released; that a failed creation of the core
      objects is undefined behaviour, and that a failure of fclose is not noticed.
    - FileIntegrity.v: applications/file_integrity, client and server, from [main]
      on; the SHA engine is a parameter, its partial tasks keep what they were fed.
    - FileIntegritySpec.v: the engine's promises, the messages of the client and what
      a server makes of messages ([server_outcome]); the parts both sides share.
    - FileIntegritySides.v: each side meets its contract.
    - FileIntegrityTheorems.v: the server with any client, the two programs together,
      and the undefined behaviour after a message that does not come or that is
      longer than the buffer for the digest.
    - AllreduceReducer.v: the reduction of vectors (allreduce_reducer.c) for the
      four element types; what the loops compute, when they are defined.
    - Allreduce.v: one participant of allreduce (allreduce_core.c,
      allreduce_daemon.c, allreduce_client.c, the callbacks of allreduce_ucx.c):
      a state with heaps for vectors, requests and super requests, a handler per
      event, and an oracle for allocations and completions.
    - AllreduceSpec.v: what the handlers do, as equations on states.
    - AllreduceClient.v: the invariant of a non-offloaded client and its
      preservation by every event.
    - AllreduceTheorems.v: runs of a client whose peers keep to the protocol
      ([protocol]) and whose receives of one operation do not overlap
      ([sequential]): no undefined behaviour, the result of a batch, its completion,
      the memory it holds; the wrong result of overlapping receives.
    - AllreduceNetwork.v: several clients: all end with the same vectors, the sum
      or product of what they submitted.
    - FlowPipes.v: what the NAT and the firewall ask of the platform, as a history
      of calls and replies ([Platform]); what is held after it, the parsed JSON
      object included; what pipes and
      entries do to a packet ([steer]) and the hardware that does it ([Steering]).
    - Json.v: json-c as a class; reading a file of rules (the same functions in
      nat_core.c, firewall_core.c and, for the buffer, config.c).
    - RuleText.v: what a file of rules holds, and the lemmas on addresses, ports and
      lists shared by both programs.
    - Nat.v: applications/nat (nat_core.c and [main] of nat.c).
    - NatSpec.v: the loops over rules and completions end, with the entries of the
      rules; what the pipes of each mode do to a packet.
    - NatRun.v: the rest of [main]: arguments, ports, the file, the labels at its
      end; the notion of a history that only grows by set-up calls.
    - PipeDemo.v: a platform, a json-c and hardware for the witnesses.
    - NatTheorems.v: everything is released but the JSON object; addresses are translated and answers
      come back (static, PAT over TCP); answers over UDP are dropped; two
      interfaces one of which is a prefix of the other.
    - Firewall.v: applications/firewall (firewall_core.c and [main] of firewall.c),
      whose interactive mode is the parser of FlowParser.v.
    - FirewallSpec.v, FirewallRun.v: what its functions leave held; arguments, ports
      and the file.
    - FirewallPipes.v: the two pipes of each port and the entries of both modes.
    - FirewallTheorems.v: everything is released but the JSON object; what the ports drop in static
      mode, where ports are exchanged, and in interactive mode, where they are not.
    - GatewayConfig.v: the configuration of the IPsec gateway: config.c and the start
      of [main] of ipsec_security_gw.c, over the platform of FlowPipes.v and the
      rules of GatewayRules.v.
    - GatewayConfigSpec.v: the shapes its parsers keep: arrays, keys, addresses.
    - GatewayConfigRun.v: the start of the gateway: with a file that can be read and
      rules that are arrays it is defined, whatever fails, and the configuration it ends with may be run ([config_ok]).
    - GatewayConfigTheorems.v: rules as a person writes them ([enc_line],
      [dec_line]), the files that describe them ([config_file]), and that the
      gateway's arrays are what the file says; keys that are accepted and wrong.
    - GatewayConfigInstall.v: from the file to the hardware: associations, marks and
      headers of the lines.

    ** How the parts interact

    The IPsec gateway receives policies as messages (PolicyMsg over Pack), makes
    rules and hardware entries of them (Policy over GatewayRules and the address
    parsers of FlowFields and GatewayAddr) or of a configuration file (GatewayConfig
    over Json; GatewayConfigInstall), turns packets into ESP frames and back (EspPacket over Mbuf) and checks
    their numbers with AntiReplay.  The simple forward VNF parses a packet
    (SimpleFwdPkt), finds or adds its flow (SimpleFwdFt, whose keys are made of the
    parser's getters) and keeps the entries of a flow in the hardware (SimpleFwd).
    The host and the DPU program of the DMA copy exchange messages over a channel
    and the DPU reads and writes the host's memory by DMA: each side is proved
    against a contract on what the other sends and touches (ProcSpec), and the two
    proofs are composed (DmaCopyTheorems).  The file integrity client and server are
    composed in the same way (FileIntegrityTheorems).  The NAT and the firewall read
    rules from JSON and turn them into pipes and entries, over one model of the
    platform and the hardware (FlowPipes, Json); the firewall's interactive mode
    runs the callbacks that the flow parser calls (FlowParser), so that the text of
    a rule is followed to the packets that are dropped.
    Participants of allreduce exchange messages (Allreduce); what one sends the
    others receive, in any order (AllreduceNetwork).

    ** Bounds

    The flow table is proved for up to 2^26 flows, above which the size that is
    allocated overflows 32 bits.  RTT rates are proved for at most 32 transmit
    events between two RTT responses, above which the abort limit is shifted by
    more than its width.  The packet parser stays within 181 bytes, the longest
    headers it follows.  Parameters of an "add entry" are proved for lines below
    512 characters, the size of the parser's buffers; the command library limits
    a token to 128.  Packets of the gateway have lengths below 2^16, the width of
    an mbuf's length fields; its theorems name the headroom and tailroom they
    need.  The arrays of its configuration have 1024 rules, and files are
    followed under the hypotheses that the rules are JSON arrays, that json-c
    accepts text as [JsonC] says, that SPI and salt are below 2^31 (larger numbers
    become 2^31 - 1) and that keys are full and in lower case; for the addresses of
    a file to be in the table it must have room ([RoomyTable]).  Clients of allreduce
    have fewer than 2^63 - 1 peers, receive the vectors of an operation one at a
    time, and sum no ints, whose overflow is undefined.  In a process a loop that
    waits for an answer of the library is one interaction that ends with the
    answer; a file that cannot be read counts as absent; sizes have 64 bits.  The
    DMA copy is proved for a library whose creation of core objects succeeds,
    since a failure there is undefined behaviour ([core_failure_undefined]); every
    other call may fail.  A file that is written is stored when it is closed: a
    close may store a part only and say so ([Fclose]); the programs do not look, so
    that the other side's file is a prefix of the one that was sent, and all of it
    where closes are reliable.
    The file integrity programs are proved for libraries that do what they are
    asked and messages that come in time, since most failures after the server has
    opened its file are undefined behaviour ([timeout_undefined]); the client of
    the server may send any messages that fit the server's buffers ([receivable];
    a longer digest overflows the heap, [overflow_undefined]).  The server does not
    truncate its file, and the theorem says what follows the received bytes.
    In the simple forward VNF packets, aging passes and events are handled one at a
    time ([new_flow_race] shows the race of the aging thread), packets are in
    buffers of at least 181 bytes, status structures can be allocated, and the
    hardware ages no entry whose removal was requested; it may refuse the removal,
    which the code does not look at ([aging_of_refused_removal]).
    A buffer on the stack is taken not to start at a page, so that munmap refuses
    it; the number of parts has 32 bits and the timeout at most 2147 seconds.
    The loop of the NAT that waits for entries is given more than 2^17 polls
    ([polls]), two for each of fewer than 2^16 rules: hardware that reports at least
    one entry per successful poll ([PromptFlow]) needs no more.  Files of rules are
    read under [ReadableFile]: fseek finds the end, and the memory from malloc happens
    to end in a zero, neither of which the programs ensure; rules are JSON arrays,
    as json-c asserts.  The object of a parsed file stays held: no program gives it
    back.  In PAT mode and in the interactive firewall the release theorems need
    hardware that accepts entries, and lines that name the two ports.  A pipe is known by the number of the call that made
    it; where the documentation does not say what becomes of a packet (two entries
    that match, an entry of another protocol) the theorems say nothing.

    ** What is not modelled

    The set-up of ports, pipes and queues through the libraries; the
    creation of the pipes of the IPsec gateway; the daemon's
    theorems, configuration and connections of allreduce; the
    switch program, the secure channel and file compression; the
    ports and the statistics of the simple forward VNF.  These are the next steps.  The
    samples and tools are not part of the plan: they show library calls one at a
    time. *)

From Stdlib Require Export ZArith Lia.
From stdpp Require Export prelude list_numbers.

#[global] Open Scope Z_scope.

(** ** Machine integers

    A C unsigned integer of width [w] is a [Z] in [0, 2^w); every operation
    that can leave that interval is followed by its reduction. *)

Definition wrap (w x : Z) : Z := x `mod` 2 ^ w.

Abbreviation u8 := (wrap 8).
Abbreviation u16 := (wrap 16).
Abbreviation u32 := (wrap 32).
Abbreviation u64 := (wrap 64).

(** Conversion to a signed type of width [w] (two's complement). *)
Definition swrap (w x : Z) : Z := (x + 2 ^ (w - 1)) `mod` 2 ^ w - 2 ^ (w - 1).

Abbreviation s32 := (swrap 32).
Abbreviation s64 := (swrap 64).

(** [x] is a value of the unsigned type of width [w]. *)
Definition in_u (w x : Z) : Prop := 0 <= x < 2 ^ w.

#[global] Instance in_u_dec w x : Decision (in_u w x).
Proof. unfold in_u. apply _. Defined.

Definition UINT32_MAX : Z := 2 ^ 32 - 1.

(** The truth value of a C integer. *)
Definition truthy (x : Z) : bool := negb (x =? 0).

Create HintDb doca.
Create Rewrite HintDb doca.

Lemma wrap_range w x : 0 <= w -> in_u w (wrap w x).
Proof. intros. unfold in_u, wrap. apply Z.mod_pos_bound. lia. Qed.

Lemma wrap_id w x : in_u w x -> wrap w x = x.
Proof. unfold in_u, wrap. intros. by apply Z.mod_small. Qed.

Lemma wrap_small w x : 0 <= x < 2 ^ w -> wrap w x = x.
Proof. apply wrap_id. Qed.

Lemma wrap_idemp w x : 0 <= w -> wrap w (wrap w x) = wrap w x.
Proof. intros. by apply wrap_id, wrap_range. Qed.

Lemma wrap_nonneg w x : 0 <= w -> 0 <= wrap w x.
Proof. intros. apply wrap_range; lia. Qed.

Lemma wrap_add_l w x y : wrap w (wrap w x + y) = wrap w (x + y).
Proof. unfold wrap. apply Zplus_mod_idemp_l. Qed.

Lemma wrap_add_r w x y : wrap w (x + wrap w y) = wrap w (x + y).
Proof. unfold wrap. apply Zplus_mod_idemp_r. Qed.

#[export] Hint Resolve wrap_range wrap_nonneg : doca.
#[export] Hint Rewrite wrap_add_l wrap_add_r : doca.

(** Turn every [wrap] with a literal width into a [mod] that [lia] solves. *)
Ltac solve_wrap :=
  unfold in_u, wrap, swrap, UINT32_MAX, truthy in *;
  repeat match goal with
         | |- context [2 ^ ?n] =>
             let v := eval vm_compute in (2 ^ n) in change (2 ^ n) with v
         | H : context [2 ^ ?n] |- _ =>
             let v := eval vm_compute in (2 ^ n) in change (2 ^ n) with v in H
         end;
  Z.div_mod_to_equations; lia.

(** Destruct the innermost boolean test of the goal or of a hypothesis. *)
Ltac case_bool :=
  match goal with
  | |- context [if ?b then _ else _] =>
      lazymatch b with
      | context [if _ then _ else _] => fail
      | _ => destruct b eqn:?
      end
  | H : context [if ?b then _ else _] |- _ =>
      lazymatch b with
      | context [if _ then _ else _] => fail
      | _ => destruct b eqn:?
      end
  end.

(** ** Bits *)

Lemma shiftl_1 k : Z.shiftl 1 k = 2 ^ k.
Proof. apply Z.shiftl_1_l. Qed.

(** The C idiom [x & (1 << k)] tests bit [k]. *)
Lemma truthy_land_pow2 x k :
  0 <= k -> truthy (Z.land x (2 ^ k)) = Z.testbit x k.
Proof.
  intros Hk. unfold truthy.
  destruct (Z.testbit x k) eqn:E.
  - destruct (Z.eqb_spec (Z.land x (2 ^ k)) 0) as [H0|]; [|done].
    apply (f_equal (fun z => Z.testbit z k)) in H0.
    rewrite Z.land_spec, E, Z.pow2_bits_true, Z.bits_0 in H0; done.
  - destruct (Z.eqb_spec (Z.land x (2 ^ k)) 0) as [|H0]; [done|].
    destruct H0. apply Z.bits_inj'. intros n Hn.
    rewrite Z.land_spec, Z.pow2_bits_eqb, Z.bits_0 by done.
    destruct (Z.eqb_spec k n) as [<-|]; [by rewrite E | apply andb_false_r].
Qed.

(** A value fits in [w] bits when it has no bit at or above [w]. *)
Lemma in_u_testbit w x :
  0 <= w -> 0 <= x ->
  (forall i, w <= i -> Z.testbit x i = false) -> in_u w x.
Proof.
  intros Hw Hx Hb. split; [done|].
  destruct (Z.eq_dec x 0) as [->|]; [apply Z.pow_pos_nonneg; lia|].
  apply Z.log2_lt_pow2; [lia|].
  destruct (Z.lt_ge_cases (Z.log2 x) w) as [|Hge]; [done|].
  pose proof (Z.bit_log2 x ltac:(lia)). rewrite Hb in *; done.
Qed.

Lemma testbit_in_u w x i : in_u w x -> w <= i -> 0 <= w -> Z.testbit x i = false.
Proof.
  intros [? ?] ? ?. destruct (Z.eq_dec x 0) as [->|]; [apply Z.bits_0|].
  apply Z.bits_above_log2; [lia|].
  apply Z.lt_le_trans with w; [|done]. apply Z.log2_lt_pow2; lia.
Qed.

Lemma in_u_lor w x y : 0 <= w -> in_u w x -> in_u w y -> in_u w (Z.lor x y).
Proof.
  intros Hw Hx Hy. apply in_u_testbit; [done| |].
  - apply Z.lor_nonneg. split; [apply Hx | apply Hy].
  - intros i Hi. rewrite Z.lor_spec.
    by rewrite (testbit_in_u w x i), (testbit_in_u w y i).
Qed.

Lemma in_u_shiftr w x k : 0 <= w -> 0 <= k -> in_u w x -> in_u w (Z.shiftr x k).
Proof.
  intros Hw Hk Hx. apply in_u_testbit; [done| |].
  - apply Z.shiftr_nonneg, Hx.
  - intros i Hi. rewrite Z.shiftr_spec by lia.
    apply (testbit_in_u w); [done|lia|done].
Qed.

Lemma in_u_pow2 w k : 0 <= k < w -> in_u w (2 ^ k).
Proof. intros. split; [lia|]. apply Z.pow_lt_mono_r; lia. Qed.

#[export] Hint Resolve in_u_lor in_u_shiftr in_u_pow2 : doca.

(** A left shift of a [w]-bit unsigned operand: shifting by the width or more
    is undefined in C. *)
Definition shl (w x k : Z) : option Z :=
  if decide (0 <= k < w) then Some (wrap w (Z.shiftl x k)) else None.

(** ** doca_error_t (include/doca_error.h) *)

Inductive doca_error :=
| DOCA_SUCCESS
| DOCA_ERROR_UNKNOWN
| DOCA_ERROR_NOT_PERMITTED
| DOCA_ERROR_IN_USE
| DOCA_ERROR_NOT_SUPPORTED
| DOCA_ERROR_AGAIN
| DOCA_ERROR_INVALID_VALUE
| DOCA_ERROR_NO_MEMORY
| DOCA_ERROR_INITIALIZATION
| DOCA_ERROR_TIME_OUT
| DOCA_ERROR_SHUTDOWN
| DOCA_ERROR_CONNECTION_RESET
| DOCA_ERROR_CONNECTION_ABORTED
| DOCA_ERROR_CONNECTION_INPROGRESS
| DOCA_ERROR_NOT_CONNECTED
| DOCA_ERROR_NO_LOCK
| DOCA_ERROR_NOT_FOUND
| DOCA_ERROR_IO_FAILED
| DOCA_ERROR_BAD_STATE
| DOCA_ERROR_UNSUPPORTED_VERSION
| DOCA_ERROR_OPERATING_SYSTEM
| DOCA_ERROR_DRIVER
| DOCA_ERROR_UNEXPECTED
| DOCA_ERROR_ALREADY_EXIST
| DOCA_ERROR_FULL
| DOCA_ERROR_EMPTY
| DOCA_ERROR_IN_PROGRESS
| DOCA_ERROR_TOO_BIG.

#[global] Instance doca_error_eq_dec : EqDecision doca_error.
Proof. solve_decision. Defined.

(** ** Undefined behaviour

    A computation that may read or write outside an object, dereference NULL
    or shift by too much returns [option]: [None] is undefined behaviour, and
    everything the C code can observe, errors included, is inside [Some].
    stdpp's [x <- m; k] notation sequences such computations. *)

(** Reading and writing [mem[i]] with a C index. *)
Definition rd {A} (mem : list A) (i : Z) : option A :=
  if decide (0 <= i) then mem !! Z.to_nat i else None.

Definition wr {A} (mem : list A) (i : Z) (v : A) : option (list A) :=
  if decide (0 <= i < Z.of_nat (length mem))
  then Some (<[Z.to_nat i := v]> mem) else None.

Lemma rd_Some {A} (mem : list A) i :
  0 <= i < Z.of_nat (length mem) -> exists v, rd mem i = Some v.
Proof.
  intros. unfold rd. rewrite decide_True by lia.
  destruct (lookup_lt_is_Some_2 mem (Z.to_nat i)) as [v Hv]; [lia | eauto].
Qed.

Lemma rd_range {A} (mem : list A) i v :
  rd mem i = Some v -> 0 <= i < Z.of_nat (length mem).
Proof.
  unfold rd. case_decide; [|done]. intros ?%lookup_lt_Some. lia.
Qed.

Lemma wr_Some {A} (mem : list A) i v :
  0 <= i < Z.of_nat (length mem) -> wr mem i v = Some (<[Z.to_nat i := v]> mem).
Proof. intros. unfold wr. by rewrite decide_True by lia. Qed.

Lemma wr_inv {A} (mem mem' : list A) i v :
  wr mem i v = Some mem' ->
  0 <= i < Z.of_nat (length mem) /\ mem' = <[Z.to_nat i := v]> mem.
Proof. unfold wr. case_decide; [|done]. intros [= <-]. done. Qed.

Lemma wr_length {A} (mem mem' : list A) i v :
  wr mem i v = Some mem' -> length mem' = length mem.
Proof. intros [_ ->]%wr_inv. apply length_insert. Qed.

Lemma rd_wr_eq {A} (mem mem' : list A) i v :
  wr mem i v = Some mem' -> rd mem' i = Some v.
Proof.
  intros [Hi ->]%wr_inv. unfold rd. rewrite decide_True by lia.
  apply list_lookup_insert_eq. lia.
Qed.

Lemma rd_wr_ne {A} (mem mem' : list A) i j v :
  i <> j -> wr mem i v = Some mem' -> rd mem' j = rd mem j.
Proof.
  intros Hne [Hi ->]%wr_inv. unfold rd. case_decide; [|done].
  apply list_lookup_insert_ne. lia.
Qed.

#[export] Hint Resolve rd_wr_eq wr_length : doca.

(** ** State monad with undefined behaviour

    [ST S A] threads a mutable object of type [S]; stdpp's [x ← m; k] is its
    bind. *)

Definition ST (S A : Type) : Type := S -> option (A * S).

#[global] Instance ST_ret S : MRet (ST S) := fun A a s => Some (a, s).
#[global] Instance ST_bind S : MBind (ST S) :=
  fun A B k m s => match m s with Some (a, s') => k a s' | None => None end.

Definition get {S} : ST S S := fun s => Some (s, s).
Definition put {S} (s' : S) : ST S unit := fun _ => Some (tt, s').
Definition undef {S A} : ST S A := fun _ => None.

Lemma ST_bind_Some {S A B} (m : ST S A) (k : A -> ST S B) s a s' :
  m s = Some (a, s') -> (m ≫= k) s = k a s'.
Proof. intros Hm. unfold mbind, ST_bind. by rewrite Hm. Qed.

Lemma ST_bind_ret {S A B} (a : A) (k : A -> ST S B) s : (mret a ≫= k) s = k a s.
Proof. done. Qed.

Lemma ST_bind_inv {S A B} (m : ST S A) (k : A -> ST S B) s r :
  (m ≫= k) s = Some r -> exists a s', m s = Some (a, s') /\ k a s' = Some r.
Proof. unfold mbind, ST_bind. destruct (m s) as [[a s']|] eqn:E; naive_solver. Qed.

(** [result = m; if (result != DOCA_SUCCESS) return result; k] *)
Definition or_return {S} (m k : ST S doca_error) : ST S doca_error :=
  result ← m; if decide (result = DOCA_SUCCESS) then k else mret result.

Declare Scope doca_scope.
Delimit Scope doca_scope with doca.
Notation "m '>>?' k" := (or_return m k) (at level 100, k at level 200, right associativity) : doca_scope.

Lemma or_return_Some {S} (m k : ST S doca_error) s r s' :
  m s = Some (r, s') ->
  or_return m k s = if decide (r = DOCA_SUCCESS) then k s' else Some (r, s').
Proof. intros Hm. unfold or_return. rewrite (ST_bind_Some _ _ _ _ _ Hm). by case_decide. Qed.

Lemma or_return_inv {S} (m k : ST S doca_error) s r s' :
  or_return m k s = Some (r, s') ->
  exists r1 s1, m s = Some (r1, s1) /\
    (r1 = DOCA_SUCCESS /\ k s1 = Some (r, s') \/ r1 <> DOCA_SUCCESS /\ r = r1 /\ s' = s1).
Proof.
  intros (r1 & s1 & Hm & Hk)%ST_bind_inv. exists r1, s1. split; [done|].
  case_decide; [by left|]. right. injection Hk as -> ->. done.
Qed.

(** A run that is defined, and what holds after it. *)
Definition runs {S A} (m : ST S A) (s : S) (Q : A -> S -> Prop) : Prop :=
  exists a s', m s = Some (a, s') /\ Q a s'.

Lemma runs_ret {S A} (a : A) (s : S) (Q : A -> S -> Prop) : Q a s -> runs (mret a) s Q.
Proof. intros. by exists a, s. Qed.

Lemma runs_bind {S A B} (m : ST S A) (k : A -> ST S B) s Q :
  runs m s (fun a s' => runs (k a) s' Q) -> runs (m ≫= k) s Q.
Proof.
  intros (a & s1 & Hm & b & s2 & Hk & HQ). exists b, s2. split; [|done]. by rewrite (ST_bind_Some _ _ _ _ _ Hm).
Qed.

Lemma runs_or_return {S} (m k : ST S doca_error) s Q :
  runs m s (fun r s' => if decide (r = DOCA_SUCCESS) then runs k s' Q else Q r s') -> runs (or_return m k) s Q.
Proof.
  intros (r & s1 & Hm & HQ). unfold runs. rewrite (or_return_Some _ _ _ _ _ Hm). case_decide; [done|]. by exists r, s1.
Qed.

Lemma runs_mono {S A} (m : ST S A) s (P Q : A -> S -> Prop) :
  runs m s P -> (forall a s', P a s' -> Q a s') -> runs m s Q.
Proof. intros (a & s' & Hm & HP) HPQ. exists a, s'. auto. Qed.

Lemma runs_get {S} (s : S) (Q : S -> S -> Prop) : Q s s -> runs get s Q.
Proof. intros. by exists s, s. Qed.

Lemma runs_put {S} (s s' : S) (Q : unit -> S -> Prop) : Q tt s' -> runs (put s') s Q.
Proof. intros. by exists tt, s'. Qed.

#[export] Hint Resolve runs_ret runs_get runs_put : doca.

(** ** Big-endian byte strings

    The reference encoding of the network byte order. *)

Definition byte_ok (b : Z) : Prop := in_u 8 b.

Fixpoint be_bytes (n : nat) (v : Z) : list Z :=
  match n with
  | O => []
  | S m => Z.shiftr v (8 * Z.of_nat m) `mod` 256 :: be_bytes m v
  end.

Fixpoint be_value (bs : list Z) : Z :=
  match bs with
  | [] => 0
  | b :: bs' => b * 2 ^ (8 * Z.of_nat (length bs')) + be_value bs'
  end.

Lemma length_be_bytes n v : length (be_bytes n v) = n.
Proof. induction n; simpl; congruence. Qed.

Lemma be_bytes_ok n v : Forall byte_ok (be_bytes n v).
Proof.
  induction n; simpl; constructor; [|done].
  unfold byte_ok, in_u. apply Z.mod_pos_bound. lia.
Qed.

Lemma be_value_bytes n v : be_value (be_bytes n v) = v `mod` 2 ^ (8 * Z.of_nat n).
Proof.
  induction n as [|n IH]; [simpl; by rewrite Z.mod_1_r|].
  cbn [be_bytes be_value]. rewrite length_be_bytes, IH.
  rewrite Z.shiftr_div_pow2 by lia.
  replace (8 * Z.of_nat (S n)) with (8 * Z.of_nat n + 8) by lia.
  rewrite Z.pow_add_r, (Z.rem_mul_r v) by lia. change (2 ^ 8) with 256. ring.
Qed.

Lemma be_value_bound bs :
  Forall byte_ok bs -> 0 <= be_value bs < 2 ^ (8 * Z.of_nat (length bs)).
Proof.
  induction 1 as [|b bs [? Hb] Hbs IH]; cbn [be_value length]; [done|].
  change (2 ^ 8) with 256 in Hb.
  replace (8 * Z.of_nat (S (length bs))) with (8 * Z.of_nat (length bs) + 8) by lia.
  rewrite Z.pow_add_r by lia. change (2 ^ 8) with 256. nia.
Qed.

Lemma be_bytes_add n v q : be_bytes n (v + q * 2 ^ (8 * Z.of_nat n)) = be_bytes n v.
Proof.
  revert v q. induction n as [|n IH]; intros v q; [done|]. cbn [be_bytes]. f_equal.
  - rewrite !Z.shiftr_div_pow2 by lia.
    replace (8 * Z.of_nat (S n)) with (8 + 8 * Z.of_nat n) by lia. rewrite Z.pow_add_r by lia.
    rewrite Z.mul_assoc, Z.div_add by lia. by rewrite Z.mod_add.
  - replace (q * 2 ^ (8 * Z.of_nat (S n))) with (q * 256 * 2 ^ (8 * Z.of_nat n)); [apply IH|].
    replace (8 * Z.of_nat (S n)) with (8 + 8 * Z.of_nat n) by lia. rewrite Z.pow_add_r by lia.
    change (2 ^ 8) with 256. ring.
Qed.

Lemma be_bytes_value bs : Forall byte_ok bs -> be_bytes (length bs) (be_value bs) = bs.
Proof.
  induction 1 as [|b bs Hb Hbs IH]; [done|]. cbn [length be_bytes be_value].
  pose proof (be_value_bound bs Hbs) as Hv.
  rewrite (Z.add_comm (b * _)), be_bytes_add, IH. f_equal.
  rewrite Z.shiftr_div_pow2, Z.div_add, Z.div_small by lia. apply Z.mod_small. apply Hb.
Qed.

#[export] Hint Resolve be_bytes_ok : doca.

(** Or-ing a byte under a multiple of its weight adds it. *)
Lemma lor_byte_add q b k :
  0 <= k -> 0 <= b < 256 -> Z.lor (q * 2 ^ (k + 8)) (Z.shiftl b k) = q * 2 ^ (k + 8) + b * 2 ^ k.
Proof.
  intros Hk Hb. rewrite <- (Z.shiftl_mul_pow2 b k) by done.
  assert (Hu : in_u 8 b) by (split; [lia|]; change (2 ^ 8) with 256; lia).
  assert (Hd : Z.land (q * 2 ^ (k + 8)) (Z.shiftl b k) = 0).
  { apply Z.bits_inj'. intros i Hi. rewrite Z.land_spec, Z.bits_0.
    destruct (Z.lt_ge_cases i (k + 8)).
    - rewrite Z.mul_pow2_bits_low by lia. done.
    - rewrite (Z.shiftl_spec b) by lia. rewrite (testbit_in_u 8 b) by (done || lia). apply andb_false_r. }
  rewrite (Z.add_nocarry_lxor _ _ Hd). symmetry. by apply Z.lxor_lor.
Qed.

(** Run the next bind of an [option] computation. *)
Ltac obind := cbn beta iota delta [mbind option_bind].

(** A fact about bytes, by evaluation. *)
Lemma byte_check (P : Z -> bool) :
  forallb P (seqZ 0 256) = true -> forall b, 0 <= b < 256 -> P b = true.
Proof.
  intros Hf b Hb. rewrite forallb_forall in Hf. apply Hf, list_elem_of_In, elem_of_seqZ. lia.
Qed.
