(* ===== verification/AntiReplay.v ===== *)
(** * The software anti-replay window of the IPsec security gateway

    Models [init_anti_replay_states] (ipsec_security_gw.c) and [anti_replay]
    (flow_decrypt.c).  The abstract specification is the receiver of RFC 4303:
    the highest sequence number of the window and the set of the sequence
    numbers that were accepted. *)

From S2P Require Import Prelude.
From stdpp Require Import gmap.
From Stdlib Require Import Sorted.
#[local] Open Scope Z_scope.

Definition WINDOW_SIZE : Z := 64.

(** [struct antireplay_state] *)
Record antireplay_state := {
  window_size : Z;   (* uint32_t *)
  end_win_sn : Z;    (* uint32_t *)
  bitmap : Z         (* uint64_t *)
}.

(** [init_anti_replay_states]: the loop writes [states[i]] for
    [0 <= i < nb_entries]. *)
Fixpoint fill_states (st : antireplay_state) (n : nat)
    (states : list antireplay_state) : option (list antireplay_state) :=
  match n with
  | O => Some states
  | S m => states' ← fill_states st m states; wr states' (Z.of_nat m) st
  end.

Definition init_anti_replay_states (nb_entries initial_sn : Z)
    (states : list antireplay_state) : option (doca_error * list antireplay_state) :=
  let end_win := u32 (initial_sn + WINDOW_SIZE - 1) in
  if u32 (UINT32_MAX - initial_sn) <? WINDOW_SIZE then
    Some (DOCA_ERROR_BAD_STATE, states)
  else
    states' ← fill_states {| window_size := WINDOW_SIZE; end_win_sn := end_win; bitmap := 0 |}
                (Z.to_nat nb_entries) states;
    Some (DOCA_SUCCESS, states').

(** [anti_replay]: the result is [drop] and the new state. *)
Definition anti_replay (sn : Z) (st : antireplay_state) : option (bool * antireplay_state) :=
  let ws := window_size st in
  let beg_win_sn := u32 (end_win_sn st + 1 - ws) in
  if sn <? beg_win_sn then Some (true, st)
  else if sn <=? end_win_sn st then
    let diff := u32 (sn - beg_win_sn) in
    bit ← shl 64 1 diff;
    if truthy (Z.land (bitmap st) bit) then Some (true, st)
    else Some (false, {| window_size := ws; end_win_sn := end_win_sn st;
                         bitmap := Z.lor (bitmap st) bit |})
  else
    let diff := u32 (sn - end_win_sn st) in
    last ← shl 64 1 (u32 (ws - 1));
    if ws <=? diff then
      Some (false, {| window_size := ws; end_win_sn := sn; bitmap := last |})
    else if diff <? 64 then
      Some (false, {| window_size := ws; end_win_sn := sn;
                      bitmap := Z.lor (Z.shiftr (bitmap st) diff) last |})
    else None.

(** A receiver that handles a sequence of packets of one rule; [accepted] is
    in order of arrival. *)
Fixpoint receive (sns : list Z) (st : antireplay_state) : option (list Z * antireplay_state) :=
  match sns with
  | [] => Some ([], st)
  | sn :: sns' =>
      r ← anti_replay sn st;
      let '(drop, st') := r in
      r' ← receive sns' st';
      let '(acc, st'') := r' in
      Some (if (drop : bool) then acc else sn :: acc, st'')
  end.

(** ** Abstract specification *)

Record window := { top : Z; seen : gset Z }.

Definition spec_step (sn : Z) (w : window) : bool * window :=
  if decide (sn <= top w - 64 \/ sn ∈ seen w) then (true, w)
  else (false, {| top := Z.max (top w) sn; seen := {[sn]} ∪ seen w |}).

Fixpoint spec_receive (sns : list Z) (w : window) : list Z * window :=
  match sns with
  | [] => ([], w)
  | sn :: sns' =>
      let '(drop, w') := spec_step sn w in
      let '(acc, w'') := spec_receive sns' w' in
      (if (drop : bool) then acc else sn :: acc, w'')
  end.

Definition refines (st : antireplay_state) (w : window) : Prop :=
  window_size st = 64 /\ end_win_sn st = top w /\
  63 <= top w < 2 ^ 32 /\ in_u 64 (bitmap st) /\
  (forall s, s ∈ seen w -> s <= top w) /\
  (forall i, 0 <= i < 64 -> Z.testbit (bitmap st) i = bool_decide (top w - 63 + i ∈ seen w)).

(** ** Lemmas *)

Lemma shl64_1 k : 0 <= k < 64 -> shl 64 1 k = Some (2 ^ k).
Proof.
  intros. unfold shl. rewrite decide_True by done.
  rewrite shiftl_1, wrap_id; [done | by apply in_u_pow2].
Qed.

Lemma testbit_set x k i :
  0 <= k -> 0 <= i -> Z.testbit (Z.lor x (2 ^ k)) i = (Z.testbit x i || (k =? i)).
Proof. intros. by rewrite Z.lor_spec, Z.pow2_bits_eqb. Qed.

Section Step.
Context (sn : Z) (st : antireplay_state) (w : window).
Context (Hsn : in_u 32 sn) (HR : refines st w).

Lemma anti_replay_below : sn <= top w - 64 -> anti_replay sn st = Some (true, st).
Proof.
  destruct HR as (Hws & Hend & Htop & _). intros Hlt. unfold anti_replay.
  rewrite Hws, Hend, wrap_small by (change (2 ^ 32) with 4294967296 in *; lia).
  replace (sn <? top w + 1 - 64) with true by (symmetry; apply Z.ltb_lt; lia). done.
Qed.

Lemma anti_replay_inside : top w - 64 < sn <= top w ->
  anti_replay sn st =
    if bool_decide (sn ∈ seen w) then Some (true, st)
    else Some (false, {| window_size := 64; end_win_sn := top w;
                         bitmap := Z.lor (bitmap st) (2 ^ (sn - (top w - 63))) |}).
Proof.
  destruct HR as (Hws & Hend & Htop & Hb & _ & Hbits). intros Hin.
  unfold anti_replay. change (2 ^ 32) with 4294967296 in *.
  rewrite Hws, Hend, (wrap_small _ (top w + 1 - 64)) by (change (2 ^ 32) with 4294967296; lia).
  replace (sn <? top w + 1 - 64) with false by (symmetry; apply Z.ltb_ge; lia).
  replace (sn <=? top w) with true by (symmetry; apply Z.leb_le; lia).
  rewrite wrap_small by (change (2 ^ 32) with 4294967296; lia).
  replace (sn - (top w + 1 - 64)) with (sn - (top w - 63)) by lia.
  rewrite shl64_1 by lia; simpl.
  rewrite truthy_land_pow2 by lia. rewrite (Hbits (sn - (top w - 63))) by lia.
  replace (top w - 63 + (sn - (top w - 63))) with sn by lia. done.
Qed.

Lemma anti_replay_above : top w < sn ->
  anti_replay sn st =
    Some (false, {| window_size := 64; end_win_sn := sn;
                    bitmap := if 64 <=? sn - top w then 2 ^ 63
                              else Z.lor (Z.shiftr (bitmap st) (sn - top w)) (2 ^ 63) |}).
Proof.
  destruct HR as (Hws & Hend & Htop & _). intros Hgt.
  unfold anti_replay. destruct Hsn as [_ Hsn']. change (2 ^ 32) with 4294967296 in *.
  rewrite Hws, Hend, (wrap_small _ (top w + 1 - 64)) by (change (2 ^ 32) with 4294967296; lia).
  replace (sn <? top w + 1 - 64) with false by (symmetry; apply Z.ltb_ge; lia).
  replace (sn <=? top w) with false by (symmetry; apply Z.leb_gt; lia).
  rewrite !wrap_small by (change (2 ^ 32) with 4294967296; lia).
  rewrite shl64_1 by lia; simpl.
  destruct (Z.leb_spec 64 (sn - top w)); [done|].
  by replace (sn - top w <? 64) with true by (symmetry; apply Z.ltb_lt; lia).
Qed.

Lemma seen_above : top w < sn -> sn ∉ seen w.
Proof. destruct HR as (_ & _ & _ & _ & Hle & _). intros ? ?%Hle. lia. Qed.
End Step.

Lemma refines_inside sn st w :
  refines st w -> top w - 64 < sn <= top w -> sn ∉ seen w ->
  refines {| window_size := 64; end_win_sn := top w;
             bitmap := Z.lor (bitmap st) (2 ^ (sn - (top w - 63))) |}
          {| top := Z.max (top w) sn; seen := {[sn]} ∪ seen w |}.
Proof.
  intros (Hws & Hend & Htop & Hb & Hle & Hbits) Hin Hnew.
  unfold refines; simpl. rewrite Z.max_l by lia.
  repeat split; try done; try lia.
  - apply Z.lor_nonneg. split; [apply Hb | lia].
  - apply in_u_lor; [lia|done|]. apply in_u_pow2; lia.
  - intros s. rewrite elem_of_union, elem_of_singleton. intros [->|?%Hle]; lia.
  - intros i Hi. rewrite testbit_set, Hbits by lia.
    destruct (Z.eqb_spec (sn - (top w - 63)) i) as [E|NE]; rewrite ?orb_true_r, ?orb_false_r;
      [symmetry; apply bool_decide_eq_true_2 | apply bool_decide_ext]; set_solver by lia.
Qed.

Lemma refines_above sn st w :
  in_u 32 sn -> refines st w -> top w < sn ->
  refines {| window_size := 64; end_win_sn := sn;
             bitmap := if 64 <=? sn - top w then 2 ^ 63
                       else Z.lor (Z.shiftr (bitmap st) (sn - top w)) (2 ^ 63) |}
          {| top := Z.max (top w) sn; seen := {[sn]} ∪ seen w |}.
Proof.
  intros [_ Hsn] (Hws & Hend & Htop & Hb & Hle & Hbits) Hgt.
  unfold refines; simpl. rewrite Z.max_r by lia.
  assert (Hb' : in_u 64 (if 64 <=? sn - top w then 2 ^ 63
                         else Z.lor (Z.shiftr (bitmap st) (sn - top w)) (2 ^ 63))).
  { case_match; [by apply in_u_pow2|].
    apply in_u_lor; [done| |by apply in_u_pow2]. apply in_u_shiftr; lia || done. }
  repeat split; try done; try lia; try apply Hb'.
  - intros s. rewrite elem_of_union, elem_of_singleton. intros [->|?%Hle]; lia.
  - intros i Hi.
    assert (Hold : i <> 63 -> sn - 63 + i ∈ {[sn]} ∪ seen w <-> sn - 63 + i ∈ seen w)
      by (rewrite elem_of_union, elem_of_singleton; intuition lia).
    destruct (Z.leb_spec 64 (sn - top w)).
    + rewrite Z.pow2_bits_eqb by lia. destruct (Z.eqb_spec 63 i) as [<-|NE]; symmetry.
      * apply bool_decide_eq_true_2. set_solver by lia.
      * apply bool_decide_eq_false_2. rewrite Hold by lia. intros ?%Hle. lia.
    + rewrite testbit_set, Z.shiftr_spec by lia.
      destruct (Z.eqb_spec 63 i) as [<-|NE]; rewrite ?orb_true_r, ?orb_false_r.
      * symmetry. apply bool_decide_eq_true_2. set_solver by lia.
      * destruct (Z.lt_ge_cases (i + (sn - top w)) 64).
        -- rewrite Hbits by lia. apply bool_decide_ext. rewrite Hold by lia.
           by replace (top w - 63 + (i + (sn - top w))) with (sn - 63 + i) by lia.
        -- rewrite (testbit_in_u 64) by (done || lia). symmetry.
           apply bool_decide_eq_false_2. rewrite Hold by lia. intros ?%Hle. lia.
Qed.

(** The code takes the abstract step, from every refined state. *)
Lemma anti_replay_step sn st w :
  in_u 32 sn -> refines st w ->
  exists st', anti_replay sn st = Some ((spec_step sn w).1, st') /\
              refines st' (spec_step sn w).2.
Proof.
  intros Hsn HR. unfold spec_step.
  destruct (Z.le_gt_cases sn (top w - 64)) as [Hlo|Hlo].
  { rewrite decide_True by auto. eauto using anti_replay_below. }
  destruct (Z.le_gt_cases sn (top w)) as [Hin|Hgt].
  - rewrite anti_replay_inside with (w := w) by (done || lia).
    case_bool_decide as Hs; [rewrite decide_True by auto; eauto|].
    rewrite decide_False by (intros [?|?]; [lia|done]).
    eauto using refines_inside.
  - rewrite decide_False by (intros [?|Hs]; [lia|revert Hs; by apply (seen_above _ st)]).
    eexists. split; [by apply anti_replay_above|]. by apply refines_above.
Qed.

Lemma fill_states_Some st n states :
  (n <= length states)%nat ->
  exists states', fill_states st n states = Some states' /\
    length states' = length states /\
    (forall i, (i < n)%nat -> states' !! i = Some st) /\
    (forall i, (n <= i)%nat -> states' !! i = states !! i).
Proof.
  induction n as [|n IH]; simpl; intros Hn; [naive_solver lia|].
  destruct IH as (s1 & -> & Hlen & Hlt & Hge); [lia|]; simpl.
  rewrite wr_Some by lia. eexists. split; [done|]. rewrite Nat2Z.id, length_insert.
  split; [done|]. split; intros i Hi.
  - destruct (decide (i = n)) as [->|]; [apply list_lookup_insert_eq; lia|].
    rewrite list_lookup_insert_ne by done. apply Hlt. lia.
  - rewrite list_lookup_insert_ne by lia. apply Hge. lia.
Qed.

Lemma refines_init sn0 :
  0 <= sn0 <= UINT32_MAX - WINDOW_SIZE ->
  refines {| window_size := WINDOW_SIZE; end_win_sn := u32 (sn0 + WINDOW_SIZE - 1); bitmap := 0 |}
          {| top := sn0 + 63; seen := ∅ |}.
Proof.
  intros Hsn. unfold refines, UINT32_MAX, WINDOW_SIZE in *; simpl.
  change (2 ^ 32) with 4294967296 in *.
  rewrite wrap_small by (change (2 ^ 32) with 4294967296; lia).
  repeat split; try lia; try set_solver.
  - intros i Hi. rewrite Z.bits_0. symmetry. apply bool_decide_eq_false_2. set_solver.
Qed.

(** Every run of the receiver is the run of the specification. *)
Lemma receive_sim sns st w :
  Forall (in_u 32) sns -> refines st w ->
  exists st', receive sns st = Some ((spec_receive sns w).1, st') /\
              refines st' (spec_receive sns w).2.
Proof.
  revert st w. induction sns as [|sn sns IH]; intros st w Hall HR; simpl; [eauto|].
  apply Forall_cons in Hall as [Hsn Hall].
  destruct (anti_replay_step sn st w) as (st1 & -> & HR1); [done..|]; simpl.
  destruct (spec_step sn w) as [drop w1]; simpl in *.
  destruct (IH st1 w1) as (st2 & -> & HR2); [done..|]; simpl.
  destruct (spec_receive sns w1) as [acc w2]; simpl in *. eauto.
Qed.

Lemma spec_step_accept sn w w' :
  spec_step sn w = (false, w') ->
  top w - 64 < sn /\ sn ∉ seen w /\ top w <= top w' /\ seen w' = {[sn]} ∪ seen w.
Proof.
  unfold spec_step. case_decide as Hd; [done|]. intros [= <-]. simpl.
  apply Decidable.not_or in Hd as [? ?]. split_and!; done || lia.
Qed.

Lemma spec_step_drop sn w w' : spec_step sn w = (true, w') -> w' = w.
Proof. unfold spec_step. case_decide; naive_solver. Qed.

Lemma spec_receive_acc sns w acc w' :
  spec_receive sns w = (acc, w') ->
  NoDup acc /\ (forall s, s ∈ acc -> s ∉ seen w /\ top w - 64 < s).
Proof.
  revert w acc. induction sns as [|sn sns IH]; intros w acc; simpl.
  { intros [= <- <-]. split; [constructor | set_solver]. }
  destruct (spec_step sn w) as [drop w1] eqn:E1.
  destruct (spec_receive sns w1) as [acc1 w2] eqn:E2.
  intros [= <- <-]. destruct (IH _ _ E2) as [Hnd Hacc].
  destruct drop; [apply spec_step_drop in E1 as ->; done|].
  apply spec_step_accept in E1 as (? & ? & ? & Hseen). split.
  - constructor; [|done]. intros [Hin _]%Hacc. set_solver.
  - intros s [->|Hs]%elem_of_cons; [done|]. apply Hacc in Hs as [Hs ?].
    split; [set_solver | lia].
Qed.

Lemma spec_receive_increasing sns w :
  Forall (fun s => top w - 64 < s /\ forall s', s' ∈ seen w -> s' < s) sns ->
  StronglySorted Z.lt sns -> (spec_receive sns w).1 = sns.
Proof.
  revert w. induction sns as [|sn sns IH]; intros w Hall Hs; [done|]. simpl.
  apply Forall_cons in Hall as [[Hlo Hnew] Hall].
  apply StronglySorted_inv in Hs as [Hs Hlt].
  destruct (spec_step sn w) as [drop w1] eqn:E1.
  unfold spec_step in E1. rewrite decide_False in E1 by (intros [?|?%Hnew]; lia).
  injection E1 as <- <-.
  destruct (spec_receive _ _) as [acc w2] eqn:E2; simpl. f_equal.
  change acc with ((acc, w2).1). rewrite <- E2. apply IH; [|done].
  apply Forall_and in Hall as [Htop Hseen]. rewrite Forall_forall in Htop, Hseen, Hlt |- *.
  intros s Hs'. simpl. pose proof (Hlt s Hs'). pose proof (Htop s Hs'). pose proof (Hseen s Hs').
  split; [lia|]. set_solver.
Qed.

(** The state array that the gateway starts with. *)
Definition initial_state (sn0 : Z) : antireplay_state :=
  {| window_size := WINDOW_SIZE; end_win_sn := u32 (sn0 + WINDOW_SIZE - 1); bitmap := 0 |}.

Lemma init_states_ok n sn0 states i :
  0 <= sn0 <= UINT32_MAX - WINDOW_SIZE -> 0 <= n <= Z.of_nat (length states) -> 0 <= i < n ->
  exists states', init_anti_replay_states n sn0 states = Some (DOCA_SUCCESS, states') /\
                  rd states' i = Some (initial_state sn0).
Proof.
  intros Hsn Hn Hi. unfold init_anti_replay_states.
  destruct (fill_states_Some (initial_state sn0) (Z.to_nat n) states) as (s' & Hf & _ & Hlt & _);
    [lia|]. unfold initial_state in Hf. rewrite Hf. simpl.
  unfold UINT32_MAX, WINDOW_SIZE in *. change (2 ^ 32) with 4294967296 in *.
  rewrite wrap_small by (change (2 ^ 32) with 4294967296; lia).
  replace (_ <? 64) with false by (symmetry; apply Z.ltb_ge; lia).
  eexists. split; [done|]. unfold rd. rewrite decide_True by lia. apply Hlt. lia.
Qed.

(** ** Properties *)

(** C21: the anti-replay window implements the receiver of RFC 4303.  For every
    initial sequence number that [init_anti_replay_states] accepts, every entry
    of the state array it fills and every sequence of 32-bit sequence numbers,
    the code accepts exactly the packets that the specification (highest
    sequence number and set of accepted numbers) accepts, without any undefined
    shift, and ends in a state that represents the specification's. *)
Theorem anti_replay_refines_rfc4303 n sn0 states i sns :
  0 <= sn0 <= UINT32_MAX - WINDOW_SIZE -> 0 <= n <= Z.of_nat (length states) -> 0 <= i < n ->
  Forall (in_u 32) sns ->
  exists states' st st',
    init_anti_replay_states n sn0 states = Some (DOCA_SUCCESS, states') /\
    rd states' i = Some st /\
    receive sns st = Some ((spec_receive sns {| top := sn0 + 63; seen := ∅ |}).1, st') /\
    refines st' (spec_receive sns {| top := sn0 + 63; seen := ∅ |}).2.
Proof.
  intros Hsn Hn Hi Hall.
  destruct (init_states_ok n sn0 states i) as (states' & Hinit & Hrd); [done..|].
  destruct (receive_sim sns (initial_state sn0) {| top := sn0 + 63; seen := ∅ |})
    as (st' & ? & ?); [done | by apply refines_init | naive_solver].
Qed.

Lemma anti_replay_refines_rfc4303_witness :
  exists states' st st',
    init_anti_replay_states 2 5 (repeat (initial_state 0) 3) = Some (DOCA_SUCCESS, states') /\
    rd states' 1 = Some st /\
    receive [70; 5; 70; 200; 136; 137] st =
      Some ((spec_receive [70; 5; 70; 200; 136; 137] {| top := 5 + 63; seen := ∅ |}).1, st') /\
    refines st' (spec_receive [70; 5; 70; 200; 136; 137] {| top := 5 + 63; seen := ∅ |}).2.
Proof.
  apply anti_replay_refines_rfc4303; [unfold UINT32_MAX, WINDOW_SIZE; lia | simpl; lia | lia |].
  by apply (bool_decide_unpack _); vm_compute.
Defined.

(** No sequence number is ever accepted twice, and none before the initial
    one is accepted: for every stream of packets of a rule, the accepted
    numbers are distinct and at least the initial sequence number. *)
Theorem anti_replay_no_replay sn0 sns :
  0 <= sn0 <= UINT32_MAX - WINDOW_SIZE -> Forall (in_u 32) sns ->
  exists acc st', receive sns (initial_state sn0) = Some (acc, st') /\
    NoDup acc /\ Forall (fun s => sn0 <= s) acc.
Proof.
  intros Hsn Hall.
  destruct (receive_sim sns _ _ Hall (refines_init _ Hsn)) as (st' & Hr & _).
  destruct (spec_receive sns _) as [acc w'] eqn:E; simpl in *.
  apply spec_receive_acc in E as [Hnd Hacc]; simpl in *.
  exists acc, st'. split_and!; [done..|]. apply Forall_forall. intros s [_ ?]%Hacc. lia.
Qed.

Lemma anti_replay_no_replay_witness :
  exists acc st', receive [7; 7; 100; 36; 37; 37; 4294967295] (initial_state 1) = Some (acc, st') /\
    NoDup acc /\ Forall (fun s => 1 <= s) acc.
Proof.
  apply anti_replay_no_replay; [unfold UINT32_MAX, WINDOW_SIZE; lia|].
  by apply (bool_decide_unpack _); vm_compute.
Defined.

(** the window never loses legitimate traffic that arrives in order: every
    packet of a strictly increasing stream that starts at or after the initial
    sequence number is accepted. *)
Theorem anti_replay_in_order_accepted sn0 sns :
  0 <= sn0 <= UINT32_MAX - WINDOW_SIZE -> Forall (fun s => in_u 32 s /\ sn0 <= s) sns ->
  StronglySorted Z.lt sns ->
  exists st', receive sns (initial_state sn0) = Some (sns, st').
Proof.
  intros Hsn Hall Hs. apply Forall_and in Hall as [Hu Hlo].
  destruct (receive_sim sns _ _ Hu (refines_init _ Hsn)) as (st' & Hr & _).
  rewrite spec_receive_increasing in Hr; [eauto| |done].
  eapply Forall_impl; [exact Hlo|]. simpl. intros s ?. split; [lia | set_solver].
Qed.

Lemma anti_replay_in_order_accepted_witness :
  exists st', receive [3; 4; 90; 91; 4294967295] (initial_state 3) = Some ([3; 4; 90; 91; 4294967295], st').
Proof.
  apply anti_replay_in_order_accepted; [unfold UINT32_MAX, WINDOW_SIZE; lia | |].
  - by apply (bool_decide_unpack _); vm_compute.
  - repeat constructor; lia.
Defined.
