(* ===== verification/Pack.v ===== *)
(** * Big-endian packing of integers and blobs (applications/common/src/pack.c)

    [uint8_t **buffer] is a cursor: the bytes of the work buffer and the
    position of the read or write head in it. *)

From S2P Require Import Prelude.
#[local] Open Scope Z_scope.

Record cursor := { mem : list Z; pos : Z }.

(** [GET_BYTE] and [SET_BYTE] of pack.h. *)
Definition GET_BYTE (v n : Z) : Z := u8 (Z.land (Z.shiftr v (n * 8)) 255).
Definition SET_BYTE (v n : Z) : Z := Z.shiftl (Z.land v 255) (n * 8).

(** [ntohq] on a little-endian machine ([htonq] is the same function). *)
Definition ntohq (little_endian : bool) (value : Z) : Z :=
  if negb little_endian then value
  else
    Z.lor (Z.lor (Z.lor (Z.lor (Z.lor (Z.lor (Z.lor
      (SET_BYTE (GET_BYTE value 0) 7) (SET_BYTE (GET_BYTE value 1) 6))
      (SET_BYTE (GET_BYTE value 2) 5)) (SET_BYTE (GET_BYTE value 3) 4))
      (SET_BYTE (GET_BYTE value 4) 3)) (SET_BYTE (GET_BYTE value 5) 2))
      (SET_BYTE (GET_BYTE value 6) 1)) (SET_BYTE (GET_BYTE value 7) 0).

(** [*write_head++ = b] *)
Definition write_byte (b : Z) : ST cursor unit := fun c =>
  m ← wr (mem c) (pos c) b; Some (tt, {| mem := m; pos := pos c + 1 |}).

(** [*read_head++] *)
Definition read_byte : ST cursor Z := fun c =>
  b ← rd (mem c) (pos c); Some (b, {| mem := mem c; pos := pos c + 1 |}).

Definition pack_uint8 (value : Z) : ST cursor unit := write_byte value.

Definition pack_uint16 (value : Z) : ST cursor unit :=
  write_byte (GET_BYTE value 1);; write_byte (GET_BYTE value 0).

Definition pack_uint32 (value : Z) : ST cursor unit :=
  write_byte (GET_BYTE value 3);; write_byte (GET_BYTE value 2);;
  write_byte (GET_BYTE value 1);; write_byte (GET_BYTE value 0).

Definition pack_uint64 (value : Z) : ST cursor unit :=
  write_byte (GET_BYTE value 7);; write_byte (GET_BYTE value 6);;
  write_byte (GET_BYTE value 5);; write_byte (GET_BYTE value 4);;
  write_byte (GET_BYTE value 3);; write_byte (GET_BYTE value 2);;
  write_byte (GET_BYTE value 1);; write_byte (GET_BYTE value 0).

(** [memcpy] of [object] to the write head. *)
Fixpoint pack_blob (object : list Z) : ST cursor unit :=
  match object with
  | [] => mret tt
  | b :: bs => write_byte b;; pack_blob bs
  end.

Definition unpack_uint8 : ST cursor Z := read_byte.

(** [value |= SET_BYTE( *read_head++, n)] with [value] of [w] bits *)
Definition or_byte (w n value : Z) : ST cursor Z :=
  b ← read_byte; mret (wrap w (Z.lor value (SET_BYTE b n))).

Definition unpack_uint16 : ST cursor Z :=
  v ← or_byte 16 1 0; or_byte 16 0 v.

Definition unpack_uint32 : ST cursor Z :=
  v ← or_byte 32 3 0; v ← or_byte 32 2 v; v ← or_byte 32 1 v; or_byte 32 0 v.

Definition unpack_uint64 : ST cursor Z :=
  v ← or_byte 64 7 0; v ← or_byte 64 6 v; v ← or_byte 64 5 v; v ← or_byte 64 4 v;
  v ← or_byte 64 3 v; v ← or_byte 64 2 v; v ← or_byte 64 1 v; or_byte 64 0 v.

Fixpoint unpack_blob (length : nat) : ST cursor (list Z) :=
  match length with
  | O => mret []
  | S n => b ← read_byte; bs ← unpack_blob n; mret (b :: bs)
  end.

(** ** Specifications of writers and readers *)

(** [m] overwrites the bytes at the cursor with [bs], and nothing else. *)
Definition writes (m : ST cursor unit) (bs : list Z) : Prop :=
  forall pre old post, length old = length bs ->
    m {| mem := pre ++ old ++ post; pos := Z.of_nat (length pre) |} =
    Some (tt, {| mem := pre ++ bs ++ post; pos := Z.of_nat (length pre + length bs) |}).

(** [m] reads [v] from the bytes [bs] at the cursor and leaves the buffer. *)
Definition reads {A} (m : ST cursor A) (bs : list Z) (v : A) : Prop :=
  forall pre post,
    m {| mem := pre ++ bs ++ post; pos := Z.of_nat (length pre) |} =
    Some (v, {| mem := pre ++ bs ++ post; pos := Z.of_nat (length pre + length bs) |}).

Lemma writes_byte b : writes (write_byte b) [b].
Proof.
  intros pre [|x [|]] post Hl; try done. unfold write_byte; simpl.
  rewrite wr_Some by (rewrite length_app; simpl; lia). rewrite Nat2Z.id; simpl.
  rewrite insert_app_r_alt, Nat.sub_diag by done. simpl. do 3 f_equal. lia.
Qed.

Lemma reads_byte b : reads read_byte [b] b.
Proof.
  intros pre post. unfold read_byte, rd; simpl. rewrite decide_True by lia.
  rewrite Nat2Z.id, lookup_app_r, Nat.sub_diag by done. simpl. do 3 f_equal. lia.
Qed.

Lemma writes_seq m1 m2 b1 b2 :
  writes m1 b1 -> writes m2 b2 -> writes (m1;; m2) (b1 ++ b2).
Proof.
  intros H1 H2 pre old post Hl. rewrite length_app in Hl.
  rewrite <- (take_drop (length b1) old), <- !app_assoc.
  erewrite ST_bind_Some by (apply H1; rewrite length_take; lia).
  rewrite (app_assoc pre b1), <- length_app.
  rewrite H2 by (rewrite length_drop; lia).
  rewrite <- !app_assoc, !length_app. do 3 f_equal. lia.
Qed.

Lemma reads_ret {A} (v : A) : reads (mret v) [] v.
Proof. intros pre post. simpl. by rewrite Nat.add_0_r. Qed.

Lemma reads_bind {A B} (m : ST cursor A) (k : A -> ST cursor B) b1 b2 v r :
  reads m b1 v -> reads (k v) b2 r -> reads (m ≫= k) (b1 ++ b2) r.
Proof.
  intros H1 H2 pre post. rewrite <- app_assoc.
  erewrite ST_bind_Some by apply H1.
  rewrite (app_assoc pre b1), <- length_app. rewrite H2.
  rewrite <- !app_assoc, !length_app. do 3 f_equal. lia.
Qed.

Create HintDb pack.
#[export] Hint Resolve writes_byte reads_byte reads_ret : pack.

Lemma GET_BYTE_be v n : 0 <= n -> GET_BYTE v n = Z.shiftr v (8 * n) `mod` 256.
Proof.
  intros. unfold GET_BYTE. change 255 with (Z.ones 8). rewrite Z.land_ones by lia.
  unfold wrap. change (2 ^ 8) with 256. rewrite Z.mod_mod by lia. by rewrite Z.mul_comm.
Qed.

Ltac solve_writes :=
  rewrite ?GET_BYTE_be by lia; cbn [be_bytes Z.of_nat Z.mul];
  repeat first [ apply writes_byte | eapply (writes_seq _ _ [_]) ].

Lemma pack_uint8_writes v : writes (pack_uint8 v) [v].
Proof. apply writes_byte. Qed.

Lemma pack_uint16_writes v : writes (pack_uint16 v) (be_bytes 2 v).
Proof. unfold pack_uint16. solve_writes. Qed.

Lemma pack_uint32_writes v : writes (pack_uint32 v) (be_bytes 4 v).
Proof. unfold pack_uint32. solve_writes. Qed.

Lemma pack_uint64_writes v : writes (pack_uint64 v) (be_bytes 8 v).
Proof. unfold pack_uint64. solve_writes. Qed.

Lemma pack_blob_writes bs : writes (pack_blob bs) bs.
Proof.
  induction bs as [|b bs IH]; [|apply (writes_seq _ _ [_]); auto with pack].
  intros pre [|] post Hl; [|done]. simpl. by rewrite Nat.add_0_r.
Qed.

(** One step of the unpacking loops: the bytes read so far are a multiple of
    the weight of the byte that comes next. *)
Lemma or_byte_reads w n q b :
  0 <= n -> 0 <= q -> byte_ok b -> q * 2 ^ (n * 8 + 8) + b * 2 ^ (n * 8) < 2 ^ w ->
  reads (or_byte w n (q * 2 ^ (n * 8 + 8))) [b] ((q * 256 + b) * 2 ^ (n * 8)).
Proof.
  intros Hn Hq Hb Hlt. unfold or_byte.
  eapply (reads_bind _ _ [b] []); [apply reads_byte|].
  replace (wrap w _) with ((q * 256 + b) * 2 ^ (n * 8)); [apply reads_ret|].
  destruct Hb as [Hb0 Hb1]. change (2 ^ 8) with 256 in Hb1.
  unfold SET_BYTE. change 255 with (Z.ones 8). rewrite Z.land_ones, Z.mod_small by (simpl; lia).
  rewrite lor_byte_add by lia. rewrite wrap_small by nia.
  rewrite Z.pow_add_r by lia. change (2 ^ 8) with 256. ring.
Qed.

(** The unpacking functions are this loop, unrolled. *)
Fixpoint or_bytes (w : Z) (n : nat) (v : Z) : ST cursor Z :=
  match n with
  | O => mret v
  | S m => v' ← or_byte w (Z.of_nat m) v; or_bytes w m v'
  end.

Lemma or_bytes_reads w n q bs :
  length bs = n -> 0 <= q -> Forall byte_ok bs ->
  q * 2 ^ (8 * Z.of_nat n) + be_value bs < 2 ^ w ->
  reads (or_bytes w n (q * 2 ^ (8 * Z.of_nat n))) bs (q * 2 ^ (8 * Z.of_nat n) + be_value bs).
Proof.
  revert q bs. induction n as [|n IH]; intros q [|b bs] Hl Hq Hok Hlt; try done.
  { cbn [or_bytes be_value]. rewrite Z.add_0_r. apply reads_ret. }
  apply Forall_cons in Hok as [Hb Hok]. injection Hl as Hl.
  pose proof (be_value_bound bs Hok) as Hv. rewrite Hl in Hv.
  cbn [or_bytes be_value] in *. rewrite Hl in *.
  replace (8 * Z.of_nat (S n)) with (Z.of_nat n * 8 + 8) in * by lia.
  replace (8 * Z.of_nat n) with (Z.of_nat n * 8) in * by lia.
  eapply (reads_bind _ _ [b]).
  - apply or_byte_reads; [lia|done|done|lia].
  - rewrite Z.pow_add_r in * by lia. change (2 ^ 8) with 256 in *.
    replace (q * (2 ^ (Z.of_nat n * 8) * 256) + (b * 2 ^ (Z.of_nat n * 8) + be_value bs))
      with ((q * 256 + b) * 2 ^ (Z.of_nat n * 8) + be_value bs) in * by ring.
    destruct Hb. specialize (IH (q * 256 + b) bs Hl ltac:(lia) Hok).
    replace (8 * Z.of_nat n) with (Z.of_nat n * 8) in IH by lia. apply IH. lia.
Qed.

Lemma reads_ext {A} (m m' : ST cursor A) bs v :
  (forall s, m s = m' s) -> reads m' bs v -> reads m bs v.
Proof. intros E H pre post. rewrite E. apply H. Qed.

Lemma unpack_reads n (m : ST cursor Z) bs :
  (forall s, m s = or_bytes (8 * Z.of_nat n) n 0 s) ->
  length bs = n -> Forall byte_ok bs -> reads m bs (be_value bs).
Proof.
  intros E Hl Hok. eapply reads_ext; [exact E|].
  apply (or_bytes_reads _ n 0 bs Hl); [done|done|].
  rewrite <- Hl. apply be_value_bound. done.
Qed.

Ltac solve_unrolled :=
  intros s; unfold unpack_uint16, unpack_uint32, unpack_uint64; cbn [or_bytes];
  repeat match goal with |- context [Z.of_nat ?n] =>
    let v := eval vm_compute in (Z.of_nat n) in change (Z.of_nat n) with v end;
  change (8 * 2) with 16; change (8 * 4) with 32; change (8 * 8) with 64;
  unfold mbind, ST_bind, mret, ST_ret; repeat case_match; simplify_eq; done.

Lemma unpack_uint8_reads b : reads unpack_uint8 [b] b.
Proof. apply reads_byte. Qed.

Lemma unpack_uint16_reads bs :
  length bs = 2%nat -> Forall byte_ok bs -> reads unpack_uint16 bs (be_value bs).
Proof. apply (unpack_reads 2). solve_unrolled. Qed.

Lemma unpack_uint32_reads bs :
  length bs = 4%nat -> Forall byte_ok bs -> reads unpack_uint32 bs (be_value bs).
Proof. apply (unpack_reads 4). solve_unrolled. Qed.

Lemma unpack_uint64_reads bs :
  length bs = 8%nat -> Forall byte_ok bs -> reads unpack_uint64 bs (be_value bs).
Proof. apply (unpack_reads 8). solve_unrolled. Qed.

Lemma unpack_blob_reads bs : reads (unpack_blob (length bs)) bs bs.
Proof.
  induction bs as [|b bs IH]; [apply reads_ret|]. simpl.
  apply (reads_bind _ _ [b] bs b); [apply reads_byte|].
  rewrite <- (app_nil_r bs) at 2. eapply reads_bind; [exact IH|]. apply reads_ret.
Qed.

(** Unpacking what the reference encoding of [n] bytes holds. *)
Lemma reads_be n m v :
  (forall bs, length bs = n -> Forall byte_ok bs -> reads m bs (be_value bs)) ->
  in_u (8 * Z.of_nat n) v -> reads m (be_bytes n v) v.
Proof.
  intros Hm Hv. rewrite <- (wrap_id _ v Hv) at 2. unfold wrap. rewrite <- be_value_bytes.
  apply Hm; [apply length_be_bytes | apply be_bytes_ok].
Qed.

Lemma unpack_uint16_be v : in_u 16 v -> reads unpack_uint16 (be_bytes 2 v) v.
Proof. apply (reads_be 2), unpack_uint16_reads. Qed.
Lemma unpack_uint32_be v : in_u 32 v -> reads unpack_uint32 (be_bytes 4 v) v.
Proof. apply (reads_be 4), unpack_uint32_reads. Qed.
Lemma unpack_uint64_be v : in_u 64 v -> reads unpack_uint64 (be_bytes 8 v) v.
Proof. apply (reads_be 8), unpack_uint64_reads. Qed.

#[export] Hint Resolve unpack_uint8_reads unpack_uint16_be unpack_uint32_be unpack_uint64_be
  unpack_blob_reads : pack.

(** [m] takes exactly [n] bytes, whatever they are, and cannot fail on them. *)
Definition consumes {A} (n : nat) (m : ST cursor A) : Prop :=
  forall pre bs post, length bs = n ->
    exists v, m {| mem := pre ++ bs ++ post; pos := Z.of_nat (length pre) |} =
      Some (v, {| mem := pre ++ bs ++ post; pos := Z.of_nat (length pre + n) |}).

Lemma consumes_ret {A} (v : A) : consumes 0 (mret v).
Proof. intros pre [|] post Hl; [|done]. exists v. simpl. by rewrite Nat.add_0_r. Qed.

Lemma consumes_bind {A B} n1 n2 (m : ST cursor A) (k : A -> ST cursor B) :
  consumes n1 m -> (forall v, consumes n2 (k v)) -> consumes (n1 + n2) (m ≫= k).
Proof.
  intros H1 H2 pre bs post Hl.
  rewrite <- (take_drop n1 bs), <- !app_assoc.
  destruct (H1 pre (take n1 bs) (drop n1 bs ++ post)) as [v Hv]; [rewrite length_take; lia|].
  erewrite ST_bind_Some by exact Hv.
  destruct (H2 v (pre ++ take n1 bs) (drop n1 bs) post) as [r Hr]; [rewrite length_drop; lia|].
  rewrite length_app, length_take, Nat.min_l, <- app_assoc in Hr by lia.
  exists r. rewrite Hr. do 3 f_equal. lia.
Qed.

Lemma consumes_map {A B} n (m : ST cursor A) (f : A -> B) :
  consumes n m -> consumes n (m ≫= fun v => mret (f v)).
Proof.
  intros H. rewrite <- (Nat.add_0_r n).
  apply consumes_bind; [exact H | intros; apply consumes_ret].
Qed.

Lemma consumes_read_byte : consumes 1 read_byte.
Proof. intros pre [|b [|]] post Hl; try done. exists b. apply reads_byte. Qed.

Lemma consumes_or_byte w n v : consumes 1 (or_byte w n v).
Proof. apply (consumes_bind 1 0); [apply consumes_read_byte | intros; apply consumes_ret]. Qed.

Lemma consumes_uint8 : consumes 1 unpack_uint8.
Proof. apply consumes_read_byte. Qed.

Lemma consumes_uint16 : consumes 2 unpack_uint16.
Proof. apply (consumes_bind 1 1); intros; apply consumes_or_byte. Qed.

Lemma consumes_uint32 : consumes 4 unpack_uint32.
Proof.
  apply (consumes_bind 1 3); [|intros; apply (consumes_bind 1 2);
    [|intros; apply (consumes_bind 1 1); intros]]; apply consumes_or_byte.
Qed.

Lemma consumes_blob n : consumes n (unpack_blob n).
Proof.
  induction n as [|n IH]; [apply consumes_ret|].
  apply (consumes_bind 1 n); [apply consumes_read_byte|]. intros b. by apply consumes_map.
Qed.

#[export] Hint Resolve consumes_uint8 consumes_uint16 consumes_uint32 consumes_blob consumes_ret : pack.

(** ** A record of every width, packed and unpacked in the same order *)

Record item := { i8 : Z; i16 : Z; i32 : Z; i64 : Z; blob : list Z }.

Definition item_ok (x : item) : Prop :=
  in_u 8 (i8 x) /\ in_u 16 (i16 x) /\ in_u 32 (i32 x) /\ in_u 64 (i64 x).

Definition pack_item (x : item) : ST cursor unit :=
  pack_uint8 (i8 x);; pack_uint16 (i16 x);; pack_uint32 (i32 x);; pack_uint64 (i64 x);;
  pack_blob (blob x).

Definition unpack_item (blob_length : nat) : ST cursor item :=
  a ← unpack_uint8; b ← unpack_uint16; c ← unpack_uint32; d ← unpack_uint64;
  e ← unpack_blob blob_length;
  mret {| i8 := a; i16 := b; i32 := c; i64 := d; blob := e |}.

Definition item_bytes (x : item) : list Z :=
  [i8 x] ++ be_bytes 2 (i16 x) ++ be_bytes 4 (i32 x) ++ be_bytes 8 (i64 x) ++ blob x.

Lemma pack_item_writes x : writes (pack_item x) (item_bytes x).
Proof.
  unfold pack_item, item_bytes.
  repeat apply writes_seq; auto using pack_uint8_writes, pack_uint16_writes, pack_uint32_writes,
    pack_uint64_writes, pack_blob_writes.
Qed.

Lemma unpack_item_reads x :
  item_ok x -> reads (unpack_item (length (blob x))) (item_bytes x) x.
Proof.
  intros (? & ? & ? & ?). unfold unpack_item.
  replace (item_bytes x) with ([i8 x] ++ be_bytes 2 (i16 x) ++ be_bytes 4 (i32 x) ++
    be_bytes 8 (i64 x) ++ blob x ++ []) by (unfold item_bytes; by rewrite app_nil_r).
  eapply reads_bind; [apply unpack_uint8_reads|].
  eapply reads_bind; [by apply unpack_uint16_be|].
  eapply reads_bind; [by apply unpack_uint32_be|].
  eapply reads_bind; [by apply unpack_uint64_be|].
  eapply reads_bind; [apply unpack_blob_reads|].
  destruct x; apply reads_ret.
Qed.

(** Round trip and framing of the packing library.  Packing an 8-, a 16-, a
    32-, a 64-bit value and a blob at any position of a large enough buffer
    writes exactly their network-order bytes, leaves every other byte of the
    buffer alone, moves the head past them, and unpacking from the same position
    gives the values back. *)
Theorem pack_unpack_roundtrip x pre old post :
  item_ok x -> length old = length (item_bytes x) ->
  let start := {| mem := pre ++ old ++ post; pos := Z.of_nat (length pre) |} in
  let packed := pre ++ item_bytes x ++ post in
  let stop := Z.of_nat (length pre + length (item_bytes x)) in
  pack_item x start = Some (tt, {| mem := packed; pos := stop |}) /\
  unpack_item (length (blob x)) {| mem := packed; pos := Z.of_nat (length pre) |} =
    Some (x, {| mem := packed; pos := stop |}).
Proof.
  intros Hx Hl. simpl. split; [by apply pack_item_writes | by apply unpack_item_reads].
Qed.

Lemma pack_unpack_roundtrip_witness :
  let x := {| i8 := 200; i16 := 4660; i32 := 3735928559; i64 := 81985529216486895; blob := [1; 2; 3] |} in
  pack_item x {| mem := [9] ++ repeat 0 18 ++ [7; 7]; pos := 1 |} =
    Some (tt, {| mem := [9] ++ item_bytes x ++ [7; 7]; pos := 19 |}) /\
  unpack_item 3 {| mem := [9] ++ item_bytes x ++ [7; 7]; pos := 1 |} =
    Some (x, {| mem := [9] ++ item_bytes x ++ [7; 7]; pos := 19 |}).
Proof.
  intros x. apply (pack_unpack_roundtrip x [9] (repeat 0 18) [7; 7]); [|reflexivity].
  unfold item_ok, in_u; simpl; lia.
Defined.
