(* ===== verification/PolicyMsg.v ===== *)
(** * Policy records received on the control socket of the IPsec gateway

    Models [unpack_policy_buffer], [fill_buffer_from_socket],
    [read_message_length] and [read_message_from_socket]
    (ipsec_security_gw.c); the record layout is the one policy.h documents. *)

From S2P Require Import Prelude Pack.
#[local] Open Scope Z_scope.

(** INET6_ADDRSTRLEN of <netinet/in.h>. *)
Definition MAX_IP_ADDR_LEN : nat := 46.
Definition MAX_KEY_LEN : nat := 32.
Definition POLICY_RECORD_MIN_SIZE : Z := 224.
Definition POLICY_RECORD_MAX_SIZE : Z := 240.

(** [struct ipsec_security_gw_ipsec_policy]; the strings are the arrays of
    [MAX_IP_ADDR_LEN + 1] chars. *)
Record policy := {
  src_port : Z; dst_port : Z;
  l3_protocol : Z; l4_protocol : Z; outer_l3_protocol : Z;
  policy_direction : Z; policy_mode : Z;
  esn : Z; icv_length : Z; key_type : Z;
  spi : Z; salt : Z;
  enc_key_data : list Z;
  src_ip_addr : list Z; dst_ip_addr : list Z; outer_src_ip : list Z; outer_dst_ip : list Z
}.

(** [memset(&policy, 0, sizeof(policy))] *)
Definition policy0 : policy :=
  {| src_port := 0; dst_port := 0; l3_protocol := 0; l4_protocol := 0; outer_l3_protocol := 0;
     policy_direction := 0; policy_mode := 0; esn := 0; icv_length := 0; key_type := 0;
     spi := 0; salt := 0; enc_key_data := replicate MAX_KEY_LEN 0;
     src_ip_addr := replicate (S MAX_IP_ADDR_LEN) 0; dst_ip_addr := replicate (S MAX_IP_ADDR_LEN) 0;
     outer_src_ip := replicate (S MAX_IP_ADDR_LEN) 0; outer_dst_ip := replicate (S MAX_IP_ADDR_LEN) 0 |}.

(** [unpack_blob(&ptr, MAX_IP_ADDR_LEN + 1, addr); addr[MAX_IP_ADDR_LEN] = 0] *)
Definition unpack_addr : ST cursor (list Z) :=
  bs ← unpack_blob (S MAX_IP_ADDR_LEN); mret (<[MAX_IP_ADDR_LEN := 0]> bs).

Definition unpack_policy_buffer (nb_bytes : Z) (p : policy) : ST cursor policy :=
  sp ← unpack_uint16; dp ← unpack_uint16;
  l3 ← unpack_uint8; l4 ← unpack_uint8; ol3 ← unpack_uint8; dir ← unpack_uint8;
  mode ← unpack_uint8; e ← unpack_uint8; icv ← unpack_uint8; kt ← unpack_uint8;
  sp_i ← unpack_uint32; sa ← unpack_uint32;
  src ← unpack_addr; dst ← unpack_addr; osrc ← unpack_addr; odst ← unpack_addr;
  key ← unpack_blob (if nb_bytes =? POLICY_RECORD_MAX_SIZE then 32 else 16);
  mret {| src_port := sp; dst_port := dp; l3_protocol := l3; l4_protocol := l4;
          outer_l3_protocol := ol3; policy_direction := dir; policy_mode := mode; esn := e;
          icv_length := icv; key_type := kt; spi := sp_i; salt := sa;
          enc_key_data := key ++ drop (length key) (enc_key_data p);
          src_ip_addr := src; dst_ip_addr := dst; outer_src_ip := osrc; outer_dst_ip := odst |}.

(** ** The socket

    The connection is a non-blocking stream socket: what the peer has made
    available is a list of events, one per call of [recv] (a chunk longer than
    the request is consumed over several calls); after the last event the
    socket would block. *)
Inductive recv_event :=
| Data (bs : list Z)
| WouldBlock
| Closed
| Fault.

Inductive recv_result := Received (bs : list Z) | RecvAgain | RecvError.

Definition recv (n : nat) (evs : list recv_event) : recv_result * list recv_event :=
  match evs with
  | [] => (RecvAgain, [])
  | WouldBlock :: evs' => (RecvAgain, evs')
  | Fault :: evs' => (RecvError, evs')
  | Closed :: _ => (Received [], evs)
  | Data bs :: evs' =>
      if (length bs <=? n)%nat then (Received bs, evs')
      else (Received (take n bs), Data (drop n bs) :: evs')
  end.

(** [fill_buffer_from_socket]: [buf] holds the bytes received so far.  Each
    turn of the loop receives at least one byte or leaves it, so
    [bytes_to_read + 1] turns are enough. *)
Fixpoint fill_loop (fuel : nat) (bytes_to_read : nat) (buf : list Z) (evs : list recv_event)
    : option (doca_error * list Z * list recv_event) :=
  match fuel with
  | O => None
  | S fuel' =>
      let '(r, evs') := recv (bytes_to_read - length buf) evs in
      match r with
      | RecvAgain => Some (DOCA_ERROR_AGAIN, buf, evs')
      | RecvError => Some (DOCA_ERROR_IO_FAILED, buf, evs')
      | Received [] => Some (DOCA_ERROR_AGAIN, buf, evs')
      | Received bs =>
          let buf' := buf ++ bs in
          if (length buf' <? bytes_to_read)%nat then fill_loop fuel' bytes_to_read buf' evs'
          else Some (DOCA_SUCCESS, buf', evs')
      end
  end.

Definition fill_buffer_from_socket (bytes_to_read : nat) (evs : list recv_event) :=
  fill_loop (S bytes_to_read) bytes_to_read [] evs.

(** [uint8_t buf[8] = {0}] *)
Definition read_message_length (evs : list recv_event)
    : option (doca_error * Z * list recv_event) :=
  '(result, got, evs') ← fill_buffer_from_socket 4 evs;
  if decide (result = DOCA_SUCCESS) then
    '(policy_length, _) ← unpack_uint32 {| mem := got ++ replicate (8 - length got) 0; pos := 0 |};
    if negb (policy_length =? POLICY_RECORD_MIN_SIZE) && negb (policy_length =? POLICY_RECORD_MAX_SIZE)
    then Some (DOCA_ERROR_IO_FAILED, 0, evs')
    else Some (DOCA_SUCCESS, policy_length, evs')
  else Some (result, 0, evs').

(** [uint8_t buffer[1024] = {0}]; [p] is the caller's zeroed policy. *)
Definition read_message_from_socket (p : policy) (evs : list recv_event)
    : option (doca_error * policy * list recv_event) :=
  '(result, policy_length, evs1) ← read_message_length evs;
  if decide (result = DOCA_SUCCESS) then
    '(result, got, evs2) ← fill_buffer_from_socket (Z.to_nat policy_length) evs1;
    if decide (result = DOCA_SUCCESS) then
      '(p', _) ← unpack_policy_buffer policy_length p
                   {| mem := got ++ replicate (1024 - length got) 0; pos := 0 |};
      Some (DOCA_SUCCESS, p', evs2)
    else Some (result, p, evs2)
  else Some (result, p, evs1).

(** ** The wire format of policy.h *)

(** A policy that the format can carry: a key of 16 or 32 bytes (zero padded in
    the structure) and NUL-terminated addresses. *)
Record policy_ok (k : nat) (p : policy) : Prop := {
  ok_ports : in_u 16 (src_port p) /\ in_u 16 (dst_port p);
  ok_words : in_u 32 (spi p) /\ in_u 32 (salt p);
  ok_key : length (enc_key_data p) = MAX_KEY_LEN /\ drop k (enc_key_data p) = replicate (MAX_KEY_LEN - k) 0;
  ok_addrs : Forall (fun a => length a = S MAX_IP_ADDR_LEN /\ a !! MAX_IP_ADDR_LEN = Some 0)
               [src_ip_addr p; dst_ip_addr p; outer_src_ip p; outer_dst_ip p]
}.

Definition record_bytes (k : nat) (p : policy) : list Z :=
  be_bytes 2 (src_port p) ++ be_bytes 2 (dst_port p) ++
  [l3_protocol p] ++ [l4_protocol p] ++ [outer_l3_protocol p] ++ [policy_direction p] ++
  [policy_mode p] ++ [esn p] ++ [icv_length p] ++ [key_type p] ++
  be_bytes 4 (spi p) ++ be_bytes 4 (salt p) ++
  src_ip_addr p ++ dst_ip_addr p ++ outer_src_ip p ++ outer_dst_ip p ++
  take k (enc_key_data p).

(** The record length is 224 or 240. *)
Definition message (k : nat) (p : policy) : list Z :=
  be_bytes 4 (208 + Z.of_nat k) ++ record_bytes k p.

(** ** Lemmas: decoding a record *)

Lemma unpack_addr_reads a :
  length a = S MAX_IP_ADDR_LEN -> a !! MAX_IP_ADDR_LEN = Some 0 -> reads unpack_addr a a.
Proof.
  intros Hl Hz. unfold unpack_addr. rewrite <- (app_nil_r a) at 1. rewrite <- Hl.
  eapply reads_bind; [apply unpack_blob_reads|].
  rewrite list_insert_id by done. apply reads_ret.
Qed.

Lemma unpack_blob_reads' n bs : length bs = n -> reads (unpack_blob n) bs bs.
Proof. intros <-. apply unpack_blob_reads. Qed.

Lemma key_padding k p :
  policy_ok k p -> (k <= MAX_KEY_LEN)%nat ->
  take k (enc_key_data p) ++ drop k (enc_key_data policy0) = enc_key_data p.
Proof.
  intros [_ _ [Hl Hk] _] Hle.
  change (enc_key_data policy0) with (replicate MAX_KEY_LEN 0).
  rewrite drop_replicate, <- Hk. apply take_drop.
Qed.

Ltac read_field lem := eapply reads_bind; [by (apply lem || eapply lem)|].

Lemma unpack_policy_buffer_reads k p :
  (k = 16 \/ k = 32)%nat -> policy_ok k p ->
  reads (unpack_policy_buffer (208 + Z.of_nat k) policy0) (record_bytes k p) p.
Proof.
  intros Hk Hp. pose proof (key_padding k p Hp) as Hpad.
  destruct Hp as [[? ?] [? ?] [Hkl _] Haddr].
  repeat (apply Forall_cons in Haddr as [[? ?] Haddr]). clear Haddr.
  assert (Hkn : (if 208 + Z.of_nat k =? POLICY_RECORD_MAX_SIZE then 32%nat else 16%nat) = k)
    by (destruct Hk; subst; reflexivity).
  assert (Hlen : length (take k (enc_key_data p)) = k)
    by (rewrite length_take, Hkl; unfold MAX_KEY_LEN; destruct Hk; subst; lia).
  assert (Hle : (k <= MAX_KEY_LEN)%nat) by (unfold MAX_KEY_LEN; destruct Hk; lia).
  unfold unpack_policy_buffer. rewrite Hkn.
  replace (record_bytes k p) with (record_bytes k p ++ []) by apply app_nil_r.
  unfold record_bytes. rewrite <- !app_assoc.
  do 2 read_field unpack_uint16_be. do 8 read_field unpack_uint8_reads.
  do 2 read_field unpack_uint32_be. do 4 read_field unpack_addr_reads.
  read_field unpack_blob_reads'. rewrite Hlen, Hpad by done.
  destruct p; apply reads_ret.
Qed.

Lemma length_record k p :
  (k = 16 \/ k = 32)%nat -> policy_ok k p -> length (record_bytes k p) = (208 + k)%nat.
Proof.
  intros Hk [_ _ [Hkl _] Haddr].
  repeat (apply Forall_cons in Haddr as [[? ?] Haddr]). clear Haddr.
  unfold record_bytes. rewrite !length_app, !length_be_bytes, length_take. simpl.
  repeat match goal with H : length _ = _ |- _ => rewrite H; clear H end.
  unfold MAX_KEY_LEN, MAX_IP_ADDR_LEN. destruct Hk; subst; simpl; lia.
Qed.

(** ** Lemmas: reassembling the stream *)

(** The socket delivers the bytes [bs], in whatever chunks, and then [later]. *)
Definition delivers (later evs : list recv_event) (bs : list Z) : Prop :=
  exists chunks, evs = map Data chunks ++ later /\ Forall (fun c => c <> []) chunks /\ concat chunks = bs.

Section Later.
Context (later : list recv_event).

Lemma fill_loop_data fuel n buf evs bs :
  delivers later evs bs -> (length buf < n)%nat -> (n - length buf <= length bs)%nat ->
  (n - length buf < fuel)%nat ->
  exists evs', fill_loop fuel n buf evs = Some (DOCA_SUCCESS, buf ++ take (n - length buf) bs, evs') /\
    delivers later evs' (drop (n - length buf) bs).
Proof.
  revert buf evs bs. induction fuel as [|fuel IH]; intros buf evs bs (cs & -> & Hne & Hbs) Hlt Hn Hf; [lia|].
  destruct cs as [|c cs]; [subst bs; simpl in *; lia|].
  apply Forall_cons in Hne as [Hc Hne]. cbn [concat] in Hbs.
  destruct c as [|x c]; [done|]. cbn [fill_loop map app recv].
  destruct (Nat.leb_spec (length (x :: c)) (n - length buf)) as [Hle|Hgt]; cbn beta iota.
  - destruct (Nat.ltb_spec (length (buf ++ x :: c)) n) as [Hlt'|Hge].
    + rewrite length_app in Hlt'.
      destruct (IH (buf ++ x :: c) (map Data cs ++ later) (concat cs)) as (evs' & -> & Hd).
      { by exists cs. } { by rewrite length_app. }
      { subst bs. rewrite length_app in *. lia. } { rewrite length_app. simpl in *. lia. }
      exists evs'. rewrite <- Hbs. rewrite length_app, <- app_assoc in *.
      replace (n - (length buf + length (x :: c)))%nat
        with (n - length buf - length (x :: c))%nat in * by lia.
      rewrite take_app_ge, drop_app_ge by lia. done.
    + rewrite length_app in Hge. exists (map Data cs ++ later).
      assert (E : (n - length buf = length (x :: c))%nat) by lia.
      rewrite <- Hbs, E, take_app_length, drop_app_length.
      split; [done|]. by exists cs.
  - assert (Htake : exists y t, take (n - length buf) (x :: c) = y :: t).
    { destruct (n - length buf)%nat eqn:E; [lia | simpl; eauto]. }
    destruct Htake as (y & t & Ht). rewrite Ht, <- Ht.
    assert (Hl : length (buf ++ take (n - length buf) (x :: c)) = n)
      by (rewrite length_app, length_take; lia).
    rewrite Hl, Nat.ltb_irrefl. eexists. split.
    { rewrite <- Hbs. rewrite take_app_le by lia. done. }
    exists (drop (n - length buf) (x :: c) :: cs). split; [done|]. split.
    + constructor; [|done]. intros E%(f_equal length). rewrite length_drop in E. cbn [length] in *. lia.
    + rewrite <- Hbs. by rewrite drop_app_le by lia.
Qed.

Lemma fill_buffer_data n evs bs rest :
  delivers later evs (bs ++ rest) -> (0 < n)%nat -> length bs = n ->
  exists evs', fill_buffer_from_socket n evs = Some (DOCA_SUCCESS, bs, evs') /\ delivers later evs' rest.
Proof.
  intros Hd Hn Hl. unfold fill_buffer_from_socket.
  destruct (fill_loop_data (S n) n [] evs (bs ++ rest)) as (evs' & -> & Hd');
    [done | simpl; rewrite ?length_app; lia..|].
  exists evs'. cbn [length] in *. rewrite Nat.sub_0_r in *. subst n.
  rewrite take_app_length. rewrite drop_app_length in Hd'. done.
Qed.
End Later.

(** Totality of the loop, and what an unsuccessful read means. *)
Definition read_status (r : doca_error) : Prop :=
  r = DOCA_SUCCESS \/ r = DOCA_ERROR_AGAIN \/ r = DOCA_ERROR_IO_FAILED.

#[local] Hint Unfold read_status : core.

Lemma fill_loop_total fuel n buf evs :
  (length buf < n)%nat -> (n - length buf < fuel)%nat ->
  exists r got evs', fill_loop fuel n buf evs = Some (r, got, evs') /\
    read_status r /\ (r = DOCA_SUCCESS -> length got = n) /\ (length got <= n)%nat.
Proof.
  revert buf evs. induction fuel as [|fuel IH]; intros buf evs Hlt Hf; [lia|]. cbn [fill_loop].
  assert (Hstep : forall bs evs', (length bs <= n - length buf)%nat ->
    exists r got evs'', match bs with
      | [] => Some (DOCA_ERROR_AGAIN, buf, evs')
      | _ => if (length (buf ++ bs) <? n)%nat then fill_loop fuel n (buf ++ bs) evs'
             else Some (DOCA_SUCCESS, buf ++ bs, evs') end = Some (r, got, evs'') /\
      read_status r /\ (r = DOCA_SUCCESS -> length got = n) /\ (length got <= n)%nat).
  { intros [|b bs] evs' Hbs; [repeat eexists; auto; done || lia|].
    destruct (Nat.ltb_spec (length (buf ++ b :: bs)) n) as [Hlt'|Hge].
    - apply IH; [done|]. rewrite length_app in *. cbn [length] in *. lia.
    - rewrite length_app in *. repeat eexists; rewrite ?length_app; auto; lia. }
  destruct evs as [|[bs| | |] evs]; cbn [recv].
  2: destruct (Nat.leb_spec (length bs) (n - length buf)).
  - repeat eexists; auto; done || lia.
  - by apply Hstep.
  - apply Hstep. rewrite length_take. lia.
  - repeat eexists; auto; done || lia.
  - apply (Hstep []). simpl; lia.
  - repeat eexists; auto; done || lia.
Qed.

Lemma fill_buffer_total n evs :
  (0 < n)%nat -> exists r got evs', fill_buffer_from_socket n evs = Some (r, got, evs') /\
    read_status r /\ (r = DOCA_SUCCESS -> length got = n) /\ (length got <= n)%nat.
Proof. intros. apply fill_loop_total; simpl; lia. Qed.

Lemma consumes_addr : consumes (S MAX_IP_ADDR_LEN) unpack_addr.
Proof. apply consumes_map, consumes_blob. Qed.

(** Decoding takes at most 240 bytes and cannot fail. *)
Lemma unpack_policy_buffer_consumes nb p :
  exists n, (n <= 240)%nat /\ consumes n (unpack_policy_buffer nb p).
Proof.
  set (k := if nb =? POLICY_RECORD_MAX_SIZE then 32%nat else 16%nat).
  exists (2 + (2 + (1 + (1 + (1 + (1 + (1 + (1 + (1 + (1 + (4 + (4 +
    (47 + (47 + (47 + (47 + (k + 0)))))))))))))))))%nat.
  split; [subst k; case_match; lia|]. unfold unpack_policy_buffer.
  repeat (apply consumes_bind; [auto using consumes_addr with pack | intros]).
  apply consumes_ret.
Qed.

Lemma read_message_length_total evs :
  exists r len evs', read_message_length evs = Some (r, len, evs') /\
    read_status r /\ (r = DOCA_SUCCESS -> len = POLICY_RECORD_MIN_SIZE \/ len = POLICY_RECORD_MAX_SIZE).
Proof.
  unfold read_message_length.
  destruct (fill_buffer_total 4 evs) as (r & got & evs' & -> & Hst & Hlen & _); [lia|]; obind.
  case_decide as Hr; [|naive_solver]. specialize (Hlen Hr).
  destruct (consumes_uint32 [] got (replicate (8 - length got) 0) Hlen) as [v Hv].
  cbn [app length] in Hv. change (Z.of_nat 0) with 0 in Hv. rewrite Hv. obind.
  destruct (Z.eqb_spec v POLICY_RECORD_MIN_SIZE), (Z.eqb_spec v POLICY_RECORD_MAX_SIZE);
    simpl; repeat eexists; unfold read_status; naive_solver.
Qed.

Definition is_policy_length (v : Z) : bool :=
  (v =? POLICY_RECORD_MIN_SIZE) || (v =? POLICY_RECORD_MAX_SIZE).

Lemma is_policy_length_known k :
  (k = 16 \/ k = 32)%nat -> is_policy_length (208 + Z.of_nat k) = true.
Proof. by intros [-> | ->]. Qed.

Lemma in_u_length k : (k = 16 \/ k = 32)%nat -> in_u 32 (208 + Z.of_nat k).
Proof. intros [-> | ->]; by apply (bool_decide_unpack _). Qed.

(** Reading a length from the bytes that hold one. *)
Lemma read_message_length_bytes evs evs' v :
  fill_buffer_from_socket 4 evs = Some (DOCA_SUCCESS, be_bytes 4 v, evs') -> in_u 32 v ->
  read_message_length evs =
    Some (if is_policy_length v then (DOCA_SUCCESS, v, evs') else (DOCA_ERROR_IO_FAILED, 0, evs')).
Proof.
  intros He Hv. unfold read_message_length. rewrite He. obind. rewrite decide_True by done.
  pose proof (unpack_uint32_be v Hv [] (replicate (8 - length (be_bytes 4 v)) 0)) as Hu.
  cbn [app length] in Hu. change (Z.of_nat 0) with 0 in Hu.
  rewrite Hu. obind. unfold is_policy_length. rewrite <- negb_orb. by destruct (_ || _).
Qed.

Lemma read_message_length_data later evs v rest :
  delivers later evs (be_bytes 4 v ++ rest) -> in_u 32 v ->
  exists evs', delivers later evs' rest /\
    read_message_length evs =
      Some (if is_policy_length v then (DOCA_SUCCESS, v, evs') else (DOCA_ERROR_IO_FAILED, 0, evs')).
Proof.
  intros Hd Hv.
  destruct (fill_buffer_data later 4 evs (be_bytes 4 v) rest) as (evs1 & He & Hd1);
    [done|lia|apply length_be_bytes|].
  exists evs1. split; [done|]. by apply read_message_length_bytes.
Qed.

(** Two 16-bit fields are the bytes of one 32-bit number. *)
Lemma be_bytes_pair a b :
  in_u 16 a -> in_u 16 b -> be_bytes 2 a ++ be_bytes 2 b = be_bytes 4 (a * 65536 + b).
Proof.
  intros Ha Hb. simpl. rewrite !Z.shiftr_div_pow2 by lia.
  cbn -[Z.pow Z.div Z.mul Z.add]. f_equal; [|f_equal; [|f_equal; [|f_equal]]].
  all: solve_wrap.
Qed.

(** *** Totality of reading *)

(** The addresses of the structure are C strings. *)
Definition terminated (p : policy) : Prop :=
  Forall (fun a => existsb (Z.eqb 0) a = true) [src_ip_addr p; dst_ip_addr p; outer_src_ip p; outer_dst_ip p].

Lemma unpack_blob_length n c bs c' : unpack_blob n c = Some (bs, c') -> length bs = n.
Proof.
  revert c bs c'. induction n as [|n IH]; cbn [unpack_blob]; intros c bs c' Hu.
  - by injection Hu as <- <-.
  - apply ST_bind_inv in Hu as (b & c1 & _ & Hu). apply ST_bind_inv in Hu as (bs1 & c2 & Hu & Hr).
    injection Hr as <- <-. cbn. f_equal. by eapply IH.
Qed.

Lemma unpack_addr_terminated c a c' : unpack_addr c = Some (a, c') -> existsb (Z.eqb 0) a = true.
Proof.
  intros Hu. apply ST_bind_inv in Hu as (bs & c1 & Hb & Hr). injection Hr as <- <-.
  apply unpack_blob_length in Hb. apply existsb_exists. exists 0. split; [|done].
  apply list_elem_of_In, list_elem_of_lookup. exists MAX_IP_ADDR_LEN.
  apply list_lookup_insert_eq. rewrite Hb. unfold MAX_IP_ADDR_LEN. lia.
Qed.

Lemma unpack_policy_terminated nb p c p' c' : unpack_policy_buffer nb p c = Some (p', c') -> terminated p'.
Proof.
  unfold unpack_policy_buffer. intros Hu.
  repeat match type of Hu with
  | (_ ≫= _) _ = Some _ =>
      let Hm := fresh "Hm" in apply ST_bind_inv in Hu as (? & ? & Hm & Hu);
      first [apply unpack_addr_terminated in Hm | clear Hm]
  end.
  injection Hu as <- <-. unfold terminated. cbn. by repeat constructor.
Qed.

(** Whatever is sent: a policy with strings for addresses, or an error. *)
Lemma read_message_defined p evs :
  exists r p' evs', read_message_from_socket p evs = Some (r, p', evs') /\
    (r = DOCA_SUCCESS /\ terminated p' \/ (r = DOCA_ERROR_AGAIN \/ r = DOCA_ERROR_IO_FAILED) /\ p' = p).
Proof.
  unfold read_message_from_socket.
  destruct (read_message_length_total evs) as (r & len & evs1 & -> & Hst & Hlen).
  obind.
  case_decide as Hr; [|unfold read_status in Hst; naive_solver].
  destruct (fill_buffer_total (Z.to_nat len) evs1) as (r2 & got & evs2 & -> & Hst2 & Hgot & _);
    [destruct (Hlen Hr) as [->| ->]; vm_compute; lia|]. obind.
  case_decide as Hr2; [|unfold read_status in Hst2; naive_solver].
  destruct (unpack_policy_buffer_consumes len p) as (n & Hn & Hc).
  assert (Hle : (length got <= 240)%nat)
    by (rewrite Hgot by done; destruct (Hlen Hr) as [->| ->]; vm_compute; lia).
  set (buf := got ++ replicate (1024 - length got) 0).
  assert (Hbuf : (n <= length buf)%nat) by (unfold buf; rewrite length_app, length_replicate; lia).
  destruct (Hc [] (take n buf) (drop n buf)) as [v Hv]; [by apply length_take_le|].
  cbn [app length] in Hv. rewrite take_drop in Hv. change (Z.of_nat 0) with 0 in Hv.
  rewrite Hv. obind. pose proof (unpack_policy_terminated _ _ _ _ _ Hv). eauto 8.
Qed.

(** ** Properties *)

(** receiving policies is total and memory safe, and a failure reports an
    error without touching the policy.  Whatever the peer sends and however the
    socket delivers it, [read_message_from_socket] returns, performs no access
    outside its buffers, and either fills the policy (DOCA_SUCCESS) or returns
    DOCA_ERROR_AGAIN or DOCA_ERROR_IO_FAILED with the caller's policy as it was. *)
Theorem read_message_total p evs :
  exists r p' evs', read_message_from_socket p evs = Some (r, p', evs') /\
    (r = DOCA_SUCCESS \/ (r = DOCA_ERROR_AGAIN \/ r = DOCA_ERROR_IO_FAILED) /\ p' = p).
Proof.
  destruct (read_message_defined p evs) as (r & p' & evs' & Hrun & Hr). exists r, p', evs'. split; [done|].
  destruct Hr as [[? _]|?]; auto.
Qed.

(** One message of the stream, and what comes after it. *)
Lemma read_message_one later evs k p rest :
  (k = 16 \/ k = 32)%nat -> policy_ok k p -> delivers later evs (message k p ++ rest) ->
  exists evs', read_message_from_socket policy0 evs = Some (DOCA_SUCCESS, p, evs') /\ delivers later evs' rest.
Proof.
  intros Hk Hp Hd. pose proof (length_record k p Hk Hp) as Hlen. unfold read_message_from_socket.
  destruct (read_message_length_data later evs (208 + Z.of_nat k) (record_bytes k p ++ rest))
    as (evs1 & Hd1 & ->); [by unfold message in Hd; rewrite <- app_assoc in Hd|by apply in_u_length|].
  rewrite is_policy_length_known by done. obind. rewrite decide_True by done.
  destruct (fill_buffer_data later (Z.to_nat (208 + Z.of_nat k)) evs1 (record_bytes k p) rest)
    as (evs2 & -> & Hd2); [done|lia|rewrite Hlen; lia|].
  obind. rewrite decide_True by done.
  pose proof (unpack_policy_buffer_reads k p Hk Hp []) as Hr.
  cbn [app length] in Hr. change (Z.of_nat 0) with 0 in Hr. rewrite Hr. obind. eauto.
Qed.

(** The reads of a control loop, one after the other. *)
Fixpoint read_messages (n : nat) (evs : list recv_event) : option (list (doca_error * policy) * list recv_event) :=
  match n with
  | O => Some ([], evs)
  | S n' =>
      '(r, p, evs1) ← read_message_from_socket policy0 evs;
      '(l, evs2) ← read_messages n' evs1;
      Some ((r, p) :: l, evs2)
  end.

(** A time in which nothing comes, as often as it is asked, and messages that then
    come without a pause in any chunks. *)
Record burst := Burst { pauses : nat; messages : list (nat * policy); chunks : list (list Z) }.

Definition burst_ok (b : burst) : Prop :=
  Forall (fun m => (m.1 = 16 \/ m.1 = 32)%nat /\ policy_ok m.1 m.2) (messages b) /\
  Forall (fun c => c <> []) (chunks b) /\ concat (chunks b) = concat (map (fun m => message m.1 m.2) (messages b)).
Definition burst_events (b : burst) : list recv_event := replicate (pauses b) WouldBlock ++ map Data (chunks b).
Definition burst_results (b : burst) : list (doca_error * policy) :=
  replicate (pauses b) (DOCA_ERROR_AGAIN, policy0) ++ map (fun m => (DOCA_SUCCESS, m.2)) (messages b).

Lemma read_messages_app n m evs l evs1 r :
  read_messages n evs = Some (l, evs1) -> read_messages m evs1 = r ->
  read_messages (n + m) evs = ('(l2, evs2) ← r; Some (l ++ l2, evs2)).
Proof.
  intros H <-. revert evs l H. induction n as [|n IH]; intros evs l H; cbn [read_messages Nat.add] in *.
  - injection H as <- <-. by destruct (read_messages m evs) as [[]|].
  - destruct (read_message_from_socket policy0 evs) as [[[r p] e]|]; [|done]. revert H. obind.
    destruct (read_messages n e) as [[l1 e1]|] eqn:E; [|done]. intros H. obind. injection H as <- ->.
    rewrite (IH e l1 E). by destruct (read_messages m evs1) as [[]|].
Qed.

Lemma read_pauses n evs :
  read_messages n (replicate n WouldBlock ++ evs) = Some (replicate n (DOCA_ERROR_AGAIN, policy0), evs).
Proof. induction n as [|n IH]; [done|]. cbn [replicate app read_messages].
  change (read_message_from_socket policy0 (WouldBlock :: replicate n WouldBlock ++ evs)) with
    (Some (DOCA_ERROR_AGAIN, policy0, replicate n WouldBlock ++ evs)). obind. by rewrite IH.
Qed.

Lemma read_stream later ms evs :
  Forall (fun m => (m.1 = 16 \/ m.1 = 32)%nat /\ policy_ok m.1 m.2) ms ->
  delivers later evs (concat (map (fun m => message m.1 m.2) ms)) ->
  read_messages (length ms) evs = Some (map (fun m => (DOCA_SUCCESS, m.2)) ms, later).
Proof.
  intros Hms. revert evs. induction Hms as [|[k p] ms [Hk Hp] Hms IH]; intros evs Hd.
  - destruct Hd as (cs & -> & Hne & Hc). destruct cs as [|c cs]; [done|]. apply Forall_cons in Hne as [Hne _].
    cbn [concat map] in Hc. by destruct c.
  - cbn [length read_messages map]. destruct (read_message_one later evs k p _ Hk Hp Hd) as (e1 & -> & Hd1). obind.
    by rewrite (IH e1 Hd1).
Qed.

(** C37: the control socket delivers every policy, in order and once.  A sender
    that writes messages of policy.h (length, then the record with a 16- or
    32-byte key) in bursts, with any pauses between the bursts, has exactly these
    policies delivered by successive reads - a read during a pause returns
    DOCA_ERROR_AGAIN and takes nothing - however each burst is cut into chunks,
    messages and lengths split or run together, and whatever comes later.  The
    socket must not run dry inside a message: [read_message_split_desync] below
    shows that the message is then lost. *)
Theorem read_message_delivers bs later :
  Forall burst_ok bs ->
  read_messages (length (concat (map burst_results bs))) (concat (map burst_events bs) ++ later) =
    Some (concat (map burst_results bs), later).
Proof.
  induction 1 as [|b bs (Hm & Hne & Hc) Hbs IH]; [done|]. cbn [map concat]. rewrite length_app, <- app_assoc.
  assert (Hb : read_messages (length (burst_results b)) (burst_events b ++ concat (map burst_events bs) ++ later) =
    Some (burst_results b, concat (map burst_events bs) ++ later)).
  { unfold burst_results, burst_events. rewrite length_app, length_replicate, length_map, <- app_assoc.
    erewrite read_messages_app; [|apply read_pauses|apply read_stream; [done|by exists (chunks b)]]. done. }
  erewrite read_messages_app; [|exact Hb|exact IH]. done.
Qed.

(** A policy. *)
Definition sample_policy : policy :=
  {| src_port := 4660; dst_port := 80; l3_protocol := 4; l4_protocol := 17; outer_l3_protocol := 4;
     policy_direction := 1; policy_mode := 1; esn := 0; icv_length := 16; key_type := 0;
     spi := 3735928559; salt := 7; enc_key_data := replicate 16 170 ++ replicate 16 0;
     src_ip_addr := replicate 47 0; dst_ip_addr := replicate 47 0;
     outer_src_ip := replicate 47 0; outer_dst_ip := replicate 47 0 |}.

Lemma sample_policy_ok : policy_ok 16 sample_policy.
Proof. split; unfold in_u; cbn; repeat constructor; lia. Qed.

(** Two messages in one burst, the second cut inside its length, then a pause and
    another. *)
Definition sample_bursts : list burst :=
  let m := message 16 sample_policy in
  [Burst 1 [(16%nat, sample_policy); (16%nat, sample_policy)] [take 2 m; drop 2 m ++ take 3 m; drop 3 m];
   Burst 2 [(16%nat, sample_policy)] [m]].

Lemma read_message_delivers_witness :
  read_messages 6 (concat (map burst_events sample_bursts) ++ [Closed]) =
    Some ([(DOCA_ERROR_AGAIN, policy0); (DOCA_SUCCESS, sample_policy); (DOCA_SUCCESS, sample_policy);
           (DOCA_ERROR_AGAIN, policy0); (DOCA_ERROR_AGAIN, policy0); (DOCA_SUCCESS, sample_policy)], [Closed]).
Proof.
  apply (read_message_delivers sample_bursts [Closed]).
  repeat (apply Forall_cons; split); try apply Forall_nil; try done; split_and!;
    try (repeat (apply Forall_cons; split); try apply Forall_nil; try done; split; [by left|exact sample_policy_ok]);
    try reflexivity; repeat constructor; done.
Defined.

(** a policy whose record arrives later than its length is lost, and the
    stream is misread from there on.  When the socket has only the 4 length
    bytes of a well-formed message, the call returns DOCA_ERROR_AGAIN ("no new
    policy, try again") and drops them; the next call then takes the first four
    bytes of the record for a length and fails with DOCA_ERROR_IO_FAILED, which
    ends the gateway's control loop, unless the ports happen to spell 224 or
    240. *)
Theorem read_message_split_desync k p :
  (k = 16 \/ k = 32)%nat -> policy_ok k p ->
  src_port p * 65536 + dst_port p <> 224 -> src_port p * 65536 + dst_port p <> 240 ->
  exists evs' evs'',
    read_message_from_socket policy0
      [Data (be_bytes 4 (208 + Z.of_nat k)); WouldBlock; Data (record_bytes k p)] =
      Some (DOCA_ERROR_AGAIN, policy0, evs') /\
    read_message_from_socket policy0 evs' = Some (DOCA_ERROR_IO_FAILED, policy0, evs'').
Proof.
  intros Hk Hp H224 H240. unfold read_message_from_socket.
  rewrite (read_message_length_bytes _ [WouldBlock; Data (record_bytes k p)] (208 + Z.of_nat k))
    by (reflexivity || by apply in_u_length).
  rewrite is_policy_length_known by done. obind. rewrite decide_True by done.
  set (len := Z.to_nat (208 + Z.of_nat k)).
  assert (Hlen : exists m, len = S m) by (exists (pred len); subst len; lia).
  destruct Hlen as [m ->]. exists [Data (record_bytes k p)].
  destruct (read_message_length_data [] [Data (record_bytes k p)]
    (src_port p * 65536 + dst_port p) (drop 4 (record_bytes k p))) as (e2 & _ & ->).
  { exists [record_bytes k p]. split_and!; [done| |].
    - constructor; [|done]. intros E%(f_equal length). by rewrite length_record in E.
    - rewrite <- be_bytes_pair by apply Hp. simpl. by rewrite app_nil_r. }
  { destruct Hp as [[? ?] _ _ _]. solve_wrap. }
  exists e2. split; [done|]. unfold is_policy_length.
  destruct (Z.eqb_spec (src_port p * 65536 + dst_port p) POLICY_RECORD_MIN_SIZE); [done|].
  by destruct (Z.eqb_spec (src_port p * 65536 + dst_port p) POLICY_RECORD_MAX_SIZE).
Qed.

Lemma read_message_split_desync_witness :
  exists evs' evs'',
    read_message_from_socket policy0
      [Data (be_bytes 4 224); WouldBlock; Data (record_bytes 16 sample_policy)] =
      Some (DOCA_ERROR_AGAIN, policy0, evs') /\
    read_message_from_socket policy0 evs' = Some (DOCA_ERROR_IO_FAILED, policy0, evs'').
Proof.
  apply (read_message_split_desync 16 sample_policy);
    [auto | exact sample_policy_ok | vm_compute; discriminate..].
Defined.
