(* ===== verification/MemPool.v ===== *)
(** * The memory pool of the allreduce application

    Models allreduce_mem_pool.c: [struct mpool] and its operations
    [_populate_mem_pool_range], [allreduce_create_mpool],
    [allreduce_destroy_mpool], [allreduce_aloc_vec], [allreduce_free_vec] and
    [allreduce_free_vecs].  The allocators are an oracle: call number [k]
    fails when [oom k], and otherwise returns the fresh object [k]. *)

From S2P Require Import Prelude.
#[local] Open Scope Z_scope.

(** [enum memory_types], and the values outside it. *)
Inductive mem_type := CPU | CUDA | CUDA_MANAGED | CUSTOM | UnknownType.

#[global] Instance mem_type_eq_dec : EqDecision mem_type.
Proof. solve_decision. Defined.

(** What an entry of the array of pointers holds. *)
Inductive slot := Uninit | Null | Elem (p : nat).

(** The pointer to that array. *)
Inductive stack_ptr := NoStack | FreedStack | Stack (slots : list slot).

Record mpool := Mpool {
  stack : stack_ptr;
  size : Z;
  head : Z;
  mtype : mem_type;
  elem_size : Z
}.

(** The allocators' state: how often they were called, the pool elements they
    have returned, and those freed. *)
Record heap := Heap { calls : nat; elems : list nat; freed : list nat }.

Definition set_stack (mp : mpool) (s : list slot) : mpool :=
  Mpool (Stack s) (size mp) (head mp) (mtype mp) (elem_size mp).
Definition set_size (mp : mpool) (n : Z) : mpool :=
  Mpool (stack mp) n (head mp) (mtype mp) (elem_size mp).
Definition set_head (mp : mpool) (h : Z) : mpool :=
  Mpool (stack mp) (size mp) h (mtype mp) (elem_size mp).

Definition sizeof_ptr : Z := 8.

Section Pool.
(** The build flag GPU_SUPPORT, and the oracle of the allocators. *)
Context (gpu_support : bool) (oom : nat -> bool).

Definition called (w : heap) : heap := Heap (S (calls w)) (elems w) (freed w).

(** malloc, cudaMalloc, cudaMallocManaged or the pool's own generator. *)
Definition new_elem (w : heap) : option nat * heap :=
  if oom (calls w) then (None, called w)
  else (Some (calls w), Heap (S (calls w)) (calls w :: elems w) (freed w)).

(** The array itself: no object is larger than PTRDIFF_MAX bytes. *)
Definition array_fails (bytes : Z) (w : heap) : bool := (2 ^ 63 <=? bytes) || oom (calls w).

Definition malloc_array (bytes : Z) (w : heap) : stack_ptr * heap :=
  (if array_fails bytes w then NoStack
   else Stack (replicate (Z.to_nat (bytes / sizeof_ptr)) Uninit), called w).

(** [None]: the pointer is dangling, or the new size is 0 (the result and the
    fate of the old array are then not defined). *)
Definition realloc_array (st : stack_ptr) (bytes : Z) (w : heap)
    : option (stack_ptr * heap) :=
  if bytes =? 0 then None
  else match st with
       | FreedStack => None
       | NoStack => Some (malloc_array bytes w)
       | Stack s =>
           let n := Z.to_nat (bytes / sizeof_ptr) in
           Some (if array_fails bytes w then NoStack
                 else Stack (take n s ++ replicate (n - length s) Uninit), called w)
       end.

Definition stack_slots (mp : mpool) : option (list slot) :=
  match stack mp with Stack s => Some s | _ => None end.

(** [mpool->stack[i] = v] *)
Definition set_slot (mp : mpool) (i : Z) (v : slot) : option mpool :=
  s ← stack_slots mp; s' ← wr s i v; Some (set_stack mp s').

(** The types the switch statements list. *)
Definition mtype_handled (t : mem_type) : bool :=
  match t with
  | CPU | CUSTOM => true
  | CUDA | CUDA_MANAGED => gpu_support
  | UnknownType => false
  end.

(** A failed malloc or generator stores its NULL, a failed cudaMalloc leaves
    the entry. *)
Definition stores_null (t : mem_type) : bool :=
  match t with CPU | CUSTOM => true | _ => false end.

Fixpoint populate_loop (n : nat) (i : Z) (mp : mpool) (w : heap)
    : option (doca_error * mpool * heap) :=
  match n with
  | O => Some (DOCA_SUCCESS, mp, w)
  | S n' =>
      match new_elem w with
      | (Some p, w') => mp' ← set_slot mp i (Elem p); populate_loop n' (i + 1) mp' w'
      | (None, w') =>
          mp' ← (if stores_null (mtype mp) then set_slot mp i Null else Some mp);
          Some (DOCA_ERROR_NO_MEMORY, set_size mp' i, w')
      end
  end.

Definition _populate_mem_pool_range (mp : mpool) (start stop : Z) (w : heap)
    : option (doca_error * mpool * heap) :=
  if mtype_handled (mtype mp) then populate_loop (Z.to_nat (stop - start)) start mp w
  else Some (DOCA_ERROR_INVALID_VALUE, mp, w).

Definition allreduce_create_mpool (nb_elems esize : Z) (t : mem_type) (w : heap)
    : option (doca_error * mpool * heap) :=
  let '(st, w') := malloc_array (u64 (nb_elems * sizeof_ptr)) w in
  let mp := Mpool st nb_elems 0 t esize in
  match st with
  | NoStack => Some (DOCA_ERROR_NO_MEMORY, mp, w')
  | _ => _populate_mem_pool_range mp 0 nb_elems w'
  end.

(** Freeing an entry; [None] for an indeterminate pointer or a double free. *)
Definition free_slot (v : slot) (w : heap) : option heap :=
  match v with
  | Uninit => None
  | Null => Some w
  | Elem p => if decide (p ∈ freed w) then None
              else Some (Heap (calls w) (elems w) (p :: freed w))
  end.

Fixpoint free_range (n : nat) (i : Z) (s : list slot) (w : heap) : option heap :=
  match n with
  | O => Some w
  | S n' => v ← rd s i; w' ← free_slot v w; free_range n' (i + 1) s w'
  end.

(** The pool keeps its pointer to the array it frees. *)
Definition allreduce_destroy_mpool (mp : mpool) (w : heap)
    : option (doca_error * mpool * heap) :=
  match stack mp with
  | NoStack => Some (DOCA_ERROR_INVALID_VALUE, mp, w)
  | FreedStack => None
  | Stack s =>
      if mtype_handled (mtype mp) then
        w' ← free_range (Z.to_nat (size mp - head mp)) (head mp) s w;
        Some (DOCA_SUCCESS, Mpool FreedStack (size mp) (head mp) (mtype mp) (elem_size mp), w')
      else Some (DOCA_ERROR_INVALID_VALUE, mp, w)
  end.

(** [*vec_p = mp->stack[mp->head++]] *)
Definition take_head (mp : mpool) (w : heap) : option (doca_error * option slot * mpool * heap) :=
  s ← stack_slots mp;
  v ← rd s (head mp);
  Some (DOCA_SUCCESS, Some v, set_head mp (u64 (head mp + 1)), w).

(** The second component is what [*vec_p] was set to, if it was. *)
Definition allreduce_aloc_vec (mp : mpool) (w : heap)
    : option (doca_error * option slot * mpool * heap) :=
  if head mp =? size mp then
    '(tmp, w1) ← realloc_array (stack mp) (u64 (2 * size mp * sizeof_ptr)) w;
    match tmp with
    | NoStack => Some (DOCA_ERROR_NO_MEMORY, None, mp, w1)
    | _ =>
        let mp1 := Mpool tmp (u64 (size mp * 2)) (head mp) (mtype mp) (elem_size mp) in
        '(result, mp2, w2) ← _populate_mem_pool_range mp1 (head mp1) (size mp1) w1;
        if decide (result = DOCA_SUCCESS) then take_head mp2 w2
        else Some (result, None, mp2, w2)
    end
  else take_head mp w.

Definition allreduce_free_vec (mp : mpool) (vec : slot) : option mpool :=
  let mp1 := set_head mp (u64 (head mp - 1)) in
  set_slot mp1 (head mp1) vec.

Fixpoint allreduce_free_vecs (mp : mpool) (vecs : list slot) : option mpool :=
  match vecs with
  | [] => Some mp
  | v :: vecs' => mp' ← allreduce_free_vec mp v; allreduce_free_vecs mp' vecs'
  end.
End Pool.

(** The allocators never return an object twice. *)
Definition heap_ok (w : heap) : Prop :=
  NoDup (elems w) /\ Forall (fun e => (e < calls w)%nat) (elems w).

(** ** The invariant

    [free] lists the free elements, the next one to hand out first; [out] the
    elements the clients hold. *)
Record pool_ok (gpu : bool) (mp : mpool) (w : heap) (free out : list nat) : Prop := {
  ok_slots : exists s, stack mp = Stack s /\ size mp <= Z.of_nat (length s) < 2 ^ 60 /\
    take (Z.to_nat (size mp - head mp)) (drop (Z.to_nat (head mp)) s) = map Elem free;
  ok_head : head mp = Z.of_nat (length out);
  ok_size : 0 < size mp /\ head mp <= size mp;
  ok_type : mtype_handled gpu (mtype mp) = true;
  ok_elems : free ++ out ≡ₚ elems w;
  ok_heap : heap_ok w;
  ok_freed : freed w = []
}.

(** ** Lemmas *)

Lemma heap_ok_called w : heap_ok w -> heap_ok (called w).
Proof.
  intros [? Hf]. split; [done|]. eapply Forall_impl; [exact Hf|]. simpl. lia.
Qed.

Lemma heap_ok_new w :
  heap_ok w -> heap_ok (Heap (S (calls w)) (calls w :: elems w) (freed w)).
Proof.
  intros [Hn Hf]. split; simpl.
  - apply NoDup_cons. split; [|done]. intros Hin.
    rewrite Forall_forall in Hf. specialize (Hf _ Hin). lia.
  - constructor; [lia|]. eapply Forall_impl; [exact Hf|]. simpl. lia.
Qed.

#[export] Hint Resolve heap_ok_called heap_ok_new : doca.

Lemma set_slot_Some mp s i v :
  stack mp = Stack s -> 0 <= i < Z.of_nat (length s) ->
  set_slot mp i v = Some (set_stack mp (<[Z.to_nat i := v]> s)).
Proof.
  intros Hs Hi. unfold set_slot, stack_slots. rewrite Hs. obind.
  by rewrite wr_Some.
Qed.

(** What a run of the allocation loop that stored [new] did. *)
Record populated (i : Z) (n : nat) (mp : mpool) (s : list slot) (w : heap)
    (new : list nat) (r : doca_error) (mp' : mpool) (w' : heap) : Prop := {
  pop_stack : exists s', mp' = set_size (set_stack mp s') (size mp') /\
    length s' = length s /\ take (length new) (drop (Z.to_nat i) s') = map Elem new /\
    (forall j, (j < Z.to_nat i)%nat -> s' !! j = s !! j);
  pop_result : r = DOCA_SUCCESS /\ length new = n /\ size mp' = size mp \/
    r = DOCA_ERROR_NO_MEMORY /\ (length new < n)%nat /\ size mp' = i + Z.of_nat (length new);
  pop_elems : new ++ elems w ≡ₚ elems w';
  pop_heap : heap_ok w';
  pop_freed : freed w' = freed w
}.

Lemma take_S_lookup {A} (l : list A) n m x :
  l !! n = Some x -> take (S m) (drop n l) = x :: take m (drop (S n) l).
Proof. intros H. by rewrite (drop_S l x n H). Qed.

Lemma populate_loop_spec (oom : nat -> bool) n i mp w s :
  stack mp = Stack s -> 0 <= i -> i + Z.of_nat n <= Z.of_nat (length s) -> heap_ok w ->
  exists r mp' w' new, populate_loop oom n i mp w = Some (r, mp', w') /\
    populated i n mp s w new r mp' w' /\
    ((forall j, oom j = false) -> r = DOCA_SUCCESS).
Proof.
  revert i mp w s. induction n as [|n IH]; intros i mp w s Hs Hi Hl Hw; cbn [populate_loop].
  { exists DOCA_SUCCESS, mp, w, []. split_and!; [done| |done].
    split; [|auto..|done|done]. exists s. destruct mp; simpl in *; subst. done. }
  unfold new_elem. destruct (oom (calls w)) eqn:Ho.
  - set (s' := if stores_null (mtype mp) then <[Z.to_nat i := Null]> s else s).
    exists DOCA_ERROR_NO_MEMORY, (set_size (set_stack mp s') i), (called w), [].
    assert (Hs' : length s' = length s) by (subst s'; case_match; rewrite ?length_insert; done).
    split_and!.
    + subst s'. destruct (stores_null _); obind.
      * by rewrite (set_slot_Some _ s) by (done || lia).
      * destruct mp; simpl in *; by subst.
    + split; simpl; auto with doca.
      * exists s'. split_and!; [done|done|done|]. intros j Hj. subst s'.
        case_match; [|done]. rewrite list_lookup_insert_ne by lia. done.
      * right. split_and!; [done|lia|lia].
    + intros H. rewrite H in Ho. done.
  - rewrite (set_slot_Some _ s) by (done || lia). obind.
    set (s1 := <[Z.to_nat i := Elem (calls w)]> s).
    set (w1 := Heap _ _ _).
    destruct (IH (i + 1) (set_stack mp s1) w1 s1) as (r & mp' & w' & new & Hrun & Hp & Hok);
      [done|lia|subst s1; rewrite length_insert; lia|by apply heap_ok_new|].
    exists r, mp', w', (calls w :: new). split_and!; [done| |done].
    destruct Hp as [(s' & Hmp' & Hlen & Htake & Hbelow) Hr He Hh Hfr]. split.
    + exists s'. split_and!; [by rewrite Hmp'|by rewrite Hlen; subst s1; rewrite length_insert| |].
      * assert (Hat : s' !! Z.to_nat i = Some (Elem (calls w))).
        { rewrite Hbelow by lia. subst s1. apply list_lookup_insert_eq. lia. }
        cbn [length map]. rewrite (take_S_lookup _ _ _ _ Hat). f_equal.
        rewrite <- Htake. do 2 f_equal. lia.
      * intros j Hj. rewrite Hbelow by lia. subst s1. apply list_lookup_insert_ne. lia.
    + simpl in *. destruct Hr as [(? & ? & ?) | (? & ? & ?)]; [left | right]; split_and!; auto; lia.
    + rewrite <- He. simpl. apply Permutation_middle.
    + done.
    + done.
Qed.

Lemma in_u64_small x : 0 <= x < 2 ^ 63 -> u64 x = x.
Proof. intros. apply wrap_small. lia. Qed.

Lemma pool_ok_length gpu mp w free out :
  pool_ok gpu mp w free out -> Z.of_nat (length free) = size mp - head mp.
Proof.
  intros [(s & _ & Hl & Ht) Hh [? ?] _ _ _ _].
  apply (f_equal length) in Ht. rewrite length_map, length_take, length_drop in Ht. lia.
Qed.

Lemma take_head_ok gpu mp w v free out :
  pool_ok gpu mp w (v :: free) out ->
  exists mp', take_head mp w = Some (DOCA_SUCCESS, Some (Elem v), mp', w) /\
    size mp' = size mp /\ pool_ok gpu mp' w free (v :: out).
Proof.
  intros Hp. pose proof (pool_ok_length _ _ _ _ _ Hp) as Hl. cbn [length] in Hl.
  destruct Hp as [(s & Hs & Hl1 & Ht) Hh [? ?] Hty He Hhp Hf].
  assert (Hv : s !! Z.to_nat (head mp) = Some (Elem v)).
  { apply (f_equal (fun l => l !! 0%nat)) in Ht. simpl in Ht.
    rewrite lookup_take_lt, lookup_drop in Ht by lia. by rewrite Nat.add_0_r in Ht. }
  exists (set_head mp (head mp + 1)). split_and!; [|done|].
  - unfold take_head, stack_slots, rd. rewrite Hs. obind. rewrite decide_True by lia.
    rewrite Hv. obind. rewrite in_u64_small by lia. done.
  - split; simpl; [|lia..|done| |done|done].
    + exists s. split_and!; [done|lia|lia|].
      replace (Z.to_nat (size mp - head mp)) with (S (Z.to_nat (size mp - (head mp + 1)))) in Ht by lia.
      rewrite (take_S_lookup _ _ _ _ Hv) in Ht. injection Ht as Ht. rewrite <- Ht.
      do 2 f_equal. lia.
    + rewrite <- He. symmetry. apply Permutation_middle.
Qed.

Lemma free_vec_ok gpu mp w v free out out' :
  pool_ok gpu mp w free out -> out ≡ₚ v :: out' ->
  exists mp', allreduce_free_vec mp (Elem v) = Some mp' /\ pool_ok gpu mp' w (v :: free) out'.
Proof.
  intros [(s & Hs & Hl1 & Ht) Hh [? ?] Hty He Hhp Hf] Ho.
  assert (Hlen : length out = S (length out')) by (by rewrite Ho).
  unfold allreduce_free_vec.
  rewrite (set_slot_Some _ s); simpl; [|done|rewrite in_u64_small; lia].
  rewrite in_u64_small by lia.
  eexists. split; [done|]. set (h := head mp - 1).
  split; simpl; [|lia..|done| |done|done].
  - exists (<[Z.to_nat h := Elem v]> s). rewrite length_insert. split_and!; [done|lia|lia|].
    replace (Z.to_nat (size mp - h)) with (S (Z.to_nat (size mp - head mp))) by lia.
    rewrite (take_S_lookup _ _ _ (Elem v)) by (apply list_lookup_insert_eq; lia).
    f_equal. rewrite drop_insert_lt by lia. rewrite <- Ht. do 2 f_equal. lia.
  - rewrite <- He, Ho. apply Permutation_middle.
Qed.

Lemma free_vecs_ok gpu vs mp w free out rest :
  pool_ok gpu mp w free out -> out ≡ₚ vs ++ rest ->
  exists mp', allreduce_free_vecs mp (map Elem vs) = Some mp' /\
    pool_ok gpu mp' w (rev vs ++ free) rest.
Proof.
  revert mp free out. induction vs as [|v vs IH]; intros mp free out Hp Ho.
  { exists mp. split; [done|]. destruct Hp as [? Hh ? ? He ? ?]. split; auto.
    - rewrite Hh. by rewrite Ho.
    - simpl in *. by rewrite <- Ho. }
  destruct (free_vec_ok _ _ _ v free out (vs ++ rest) Hp Ho) as (mp1 & Hf & Hp1).
  destruct (IH mp1 (v :: free) (vs ++ rest) Hp1) as (mp2 & Hf2 & Hp2); [done|].
  exists mp2. cbn [map allreduce_free_vecs]. rewrite Hf. obind. split; [done|].
  simpl. by rewrite <- app_assoc.
Qed.

(** The loop turns entries [i, i + n) of a pool into free elements. *)
Lemma populate_ok gpu mp w s out r mp' w' new :
  let i := head mp in let n := Z.to_nat (size mp - i) in
  populated i n mp s w new r mp' w' ->
  head mp = Z.of_nat (length out) -> 0 < size mp -> i <= size mp ->
  size mp <= Z.of_nat (length s) < 2 ^ 60 ->
  mtype_handled gpu (mtype mp) = true ->
  out ≡ₚ elems w -> freed w = [] -> 0 < size mp' ->
  pool_ok gpu mp' w' new out.
Proof.
  intros i n [(s' & Hmp' & Hlen & Htake & _) Hr He Hh Hfr] Hhd Hsz Hi Hs Hty Ho Hf Hpos.
  assert (Hsize : size mp' = i + Z.of_nat (length new)).
  { destruct Hr as [(_ & Hl & ->) | (_ & _ & ->)]; [|done]. rewrite Hl. lia. }
  assert (Hle : (length new <= n)%nat) by (destruct Hr; lia).
  assert (Hh' : head mp' = i) by (by rewrite Hmp').
  split.
  - exists s'. rewrite Hlen, Hh', Hsize. split_and!; [by rewrite Hmp'|lia|lia|].
    rewrite <- Htake. do 2 f_equal. lia.
  - by rewrite Hh'.
  - lia.
  - by rewrite Hmp'.
  - by rewrite Ho.
  - done.
  - by rewrite Hfr.
Qed.

(** An allocation from an exhausted pool. *)
Lemma aloc_grow gpu (oom : nat -> bool) mp w out :
  pool_ok gpu mp w [] out ->
  exists r vec mp' w' free', allreduce_aloc_vec gpu oom mp w = Some (r, vec, mp', w') /\
    (r = DOCA_SUCCESS /\ (exists v, vec = Some (Elem v) /\ pool_ok gpu mp' w' free' (v :: out)) /\
       size mp' = 2 * size mp \/
     r = DOCA_ERROR_NO_MEMORY /\ vec = None /\ pool_ok gpu mp' w' free' out) /\
    ((forall j, oom j = false) -> size mp < 2 ^ 59 -> r = DOCA_SUCCESS).
Proof.
  intros Hp. pose proof (pool_ok_length _ _ _ _ _ Hp) as Hl. cbn [length] in Hl.
  pose proof Hp as [(s & Hs & Hls & _) Hh [Hpos ?] Hty He Hhp Hf].
  unfold allreduce_aloc_vec. replace (head mp =? size mp) with true by lia.
  assert (Hbytes : u64 (2 * size mp * sizeof_ptr) = 2 * size mp * sizeof_ptr)
    by (apply wrap_small; unfold sizeof_ptr; lia).
  rewrite Hbytes. unfold realloc_array. rewrite Hs.
  replace (2 * size mp * sizeof_ptr =? 0) with false by (unfold sizeof_ptr; lia). obind.
  unfold array_fails. destruct (Z.leb_spec (2 ^ 63) (2 * size mp * sizeof_ptr)) as [Hbig|Hsmall];
    [|destruct (oom (calls w)) eqn:Ho]; cbn [orb]; obind.
  1,2: do 4 eexists; exists []; split; [done|]; split;
    [|intros Hn; try (rewrite Hn in Ho; done); unfold sizeof_ptr in *; lia].
  1,2: right; split_and!; [done..|]; destruct Hp; split; auto using heap_ok_called.
  rewrite Z.div_mul by done. rewrite (wrap_small 64 (size mp * 2)) by (unfold sizeof_ptr in *; lia).
  unfold _populate_mem_pool_range. cbn [mtype size head]. rewrite Hty.
  set (s1 := take _ s ++ _).
  assert (Hl1 : Z.of_nat (length s1) = 2 * size mp).
  { subst s1. rewrite length_app, length_take, length_replicate. unfold sizeof_ptr in *. lia. }
  set (mp1 := Mpool (Stack s1) _ _ _ _).
  destruct (populate_loop_spec oom (Z.to_nat (size mp * 2 - head mp)) (head mp) mp1 (called w) s1)
    as (r & mp2 & w2 & new & -> & Hpop & Hok); [done|lia|lia|by apply heap_ok_called|]. obind.
  assert (Hp2 : pool_ok gpu mp2 w2 new out).
  { eapply (populate_ok gpu mp1 (called w) s1); eauto; subst mp1; unfold sizeof_ptr in *;
      cbn [head size mtype] in *; try lia.
    destruct (pop_result _ _ _ _ _ _ _ _ _ Hpop) as [(_ & _ & ->) | (_ & _ & ->)]; simpl; lia. }
  destruct (pop_result _ _ _ _ _ _ _ _ _ Hpop) as [(-> & Hn & Hsz) | (-> & _ & _)].
  - rewrite decide_True by done. destruct new as [|v new]; [simpl in Hn; lia|].
    destruct (take_head_ok _ _ _ _ _ _ Hp2) as (mp3 & -> & Hsz3 & Hp3).
    do 4 eexists. exists new. split; [done|]. split; [|done]. left.
    split_and!; [done|eauto|]. rewrite Hsz3, Hsz. subst mp1. simpl. lia.
  - do 4 eexists. exists new. split; [done|]. split; [|intros Hn; by specialize (Hok Hn)].
    right. auto.
Qed.

(** What an allocation does in every state of the pool. *)
Definition aloc_outcome (gpu : bool) (oom : nat -> bool) (mp : mpool) (w : heap)
    (free out : list nat) : Prop :=
  exists r vec mp' w' free', allreduce_aloc_vec gpu oom mp w = Some (r, vec, mp', w') /\
    (r = DOCA_SUCCESS /\ (exists v, vec = Some (Elem v) /\ pool_ok gpu mp' w' free' (v :: out)) \/
     r = DOCA_ERROR_NO_MEMORY /\ free = [] /\ vec = None /\ pool_ok gpu mp' w' free' out).

Lemma aloc_total gpu oom mp w free out :
  pool_ok gpu mp w free out -> aloc_outcome gpu oom mp w free out.
Proof.
  intros Hp. unfold aloc_outcome. destruct free as [|v free].
  - destruct (aloc_grow gpu oom _ _ _ Hp) as (r & vec & mp' & w' & free' & -> & H & _).
    do 4 eexists. exists free'. split; [done|]. naive_solver.
  - pose proof (pool_ok_length _ _ _ _ _ Hp) as Hl. cbn [length] in Hl.
    unfold allreduce_aloc_vec. replace (head mp =? size mp) with false by lia.
    destruct (take_head_ok _ _ _ _ _ _ Hp) as (mp' & -> & _ & Hp'). do 4 eexists.
    exists free. split; [done|]. left. eauto.
Qed.

Lemma create_ok gpu oom nb es t w mp w' :
  allreduce_create_mpool gpu oom nb es t w = Some (DOCA_SUCCESS, mp, w') ->
  0 < nb < 2 ^ 60 -> elems w = [] -> freed w = [] ->
  exists free, pool_ok gpu mp w' free [] /\ size mp = nb.
Proof.
  unfold allreduce_create_mpool, malloc_array, array_fails. intros Hc Hnb He Hf.
  rewrite (wrap_small 64) in Hc by (unfold sizeof_ptr; lia).
  destruct (_ || _); [done|]. rewrite Z.div_mul in Hc by done.
  unfold _populate_mem_pool_range in Hc. cbn [mtype] in Hc.
  destruct (mtype_handled gpu t) eqn:Hty; [|done].
  set (s := replicate (Z.to_nat nb) Uninit) in *.
  assert (Hs : Z.of_nat (length s) = nb) by (subst s; rewrite length_replicate; lia).
  assert (Hw : heap_ok (called w)) by (split; simpl; rewrite He; constructor).
  destruct (populate_loop_spec oom (Z.to_nat (nb - 0)) 0 (Mpool (Stack s) nb 0 t es) (called w) s)
    as (r & mp1 & w1 & new & Hrun & Hpop & _); [done|lia|lia|done|].
  rewrite Hrun in Hc. injection Hc as -> -> ->. exists new.
  destruct (pop_result _ _ _ _ _ _ _ _ _ Hpop) as [(_ & _ & Hsz) | (? & _)]; [|done].
  split; [|done].
  apply (populate_ok gpu (Mpool (Stack s) nb 0 t es) (called w) s [] _ _ _ _ Hpop);
    simpl in *; try lia; auto.
  by rewrite He.
Qed.

Lemma free_range_ok fr i (s : list slot) w :
  take (length fr) (drop (Z.to_nat i) s) = map Elem fr -> 0 <= i ->
  NoDup fr -> (forall e, e ∈ fr -> e ∉ freed w) ->
  free_range (length fr) i s w = Some (Heap (calls w) (elems w) (rev fr ++ freed w)).
Proof.
  revert i w. induction fr as [|v fr IH]; intros i w Ht Hi Hnd Hd; cbn [length free_range].
  { by destruct w. }
  assert (Hv : s !! Z.to_nat i = Some (Elem v)).
  { apply (f_equal (fun l => l !! 0%nat)) in Ht. cbn [length] in Ht.
    rewrite lookup_take_lt, lookup_drop, Nat.add_0_r in Ht by lia. done. }
  unfold rd. rewrite decide_True by done. rewrite Hv. obind. cbn [free_slot].
  rewrite decide_False by (apply Hd; set_solver). obind.
  apply NoDup_cons in Hnd as [Hnv Hnd].
  rewrite IH; simpl.
  - by rewrite <- app_assoc.
  - cbn [length map] in Ht. rewrite (take_S_lookup _ _ _ _ Hv) in Ht. injection Ht as <-.
    do 2 f_equal. lia.
  - lia.
  - done.
  - intros e He. apply not_elem_of_cons. split; [by intros ->|]. apply Hd. set_solver.
Qed.

(** ** Clients

    A client takes elements out and gives back elements it holds, one at a
    time or in a batch; an allocation may fail.  [held] is what clients hold. *)
Record sys := Sys { pool : mpool; mem : heap; held : list nat }.

Inductive client (gpu : bool) (oom : nat -> bool) : sys -> sys -> Prop :=
| client_aloc s v p w :
    allreduce_aloc_vec gpu oom (pool s) (mem s) = Some (DOCA_SUCCESS, Some (Elem v), p, w) ->
    client gpu oom s (Sys p w (v :: held s))
| client_aloc_fails s r p w :
    allreduce_aloc_vec gpu oom (pool s) (mem s) = Some (r, None, p, w) -> r <> DOCA_SUCCESS ->
    client gpu oom s (Sys p w (held s))
| client_free s v rest p :
    held s ≡ₚ v :: rest -> allreduce_free_vec (pool s) (Elem v) = Some p ->
    client gpu oom s (Sys p (mem s) rest)
| client_free_vecs s vs rest p :
    held s ≡ₚ vs ++ rest -> allreduce_free_vecs (pool s) (map Elem vs) = Some p ->
    client gpu oom s (Sys p (mem s) rest).

Definition sys_ok (gpu : bool) (s : sys) : Prop :=
  exists free, pool_ok gpu (pool s) (mem s) free (held s).

Lemma client_ok gpu oom s s' : client gpu oom s s' -> sys_ok gpu s -> sys_ok gpu s'.
Proof.
  intros Hc [free Hp]. destruct Hc as [s v p w Ha | s r p w Ha Hr | s v rest p Hh Hf | s vs rest p Hh Hf].
  - destruct (aloc_total gpu oom _ _ _ _ Hp) as (r' & vec & mp' & w' & free' & Ha' & Ho).
    rewrite Ha' in Ha. injection Ha as -> -> -> ->.
    destruct Ho as [(_ & (v' & [= <-] & Hp') ) | (? & _)]; [|done]. by exists free'.
  - destruct (aloc_total gpu oom _ _ _ _ Hp) as (r' & vec & mp' & w' & free' & Ha' & Ho).
    rewrite Ha' in Ha. injection Ha as -> -> -> ->.
    destruct Ho as [(? & _) | (_ & _ & _ & Hp')]; [done|]. by exists free'.
  - destruct (free_vec_ok gpu _ _ v free _ rest Hp Hh) as (mp' & Hf' & Hp').
    rewrite Hf' in Hf. injection Hf as <-. by eexists.
  - destruct (free_vecs_ok gpu vs _ _ free _ rest Hp Hh) as (mp' & Hf' & Hp').
    rewrite Hf' in Hf. injection Hf as <-. by eexists.
Qed.

Lemma reach_ok gpu oom s s' : rtc (client gpu oom) s s' -> sys_ok gpu s -> sys_ok gpu s'.
Proof. induction 1; eauto using client_ok. Qed.

(** A pool that was created, and the states its clients can bring it to. *)
Definition reachable (gpu : bool) (oom : nat -> bool) (nb es : Z) (t : mem_type) (s : sys) : Prop :=
  exists mp w, allreduce_create_mpool gpu oom nb es t (Heap 0 [] []) = Some (DOCA_SUCCESS, mp, w) /\
    rtc (client gpu oom) (Sys mp w []) s.

Lemma reachable_ok gpu oom nb es t s :
  0 < nb < 2 ^ 60 -> reachable gpu oom nb es t s -> sys_ok gpu s.
Proof.
  intros Hnb (mp & w & Hc & Hr). eapply reach_ok; [exact Hr|].
  destruct (create_ok _ _ _ _ _ _ _ _ Hc Hnb) as (free & Hp & _); [done..|]. by exists free.
Qed.

Lemma pool_ok_NoDup gpu mp w free out : pool_ok gpu mp w free out -> NoDup (free ++ out).
Proof. intros [_ _ _ _ He [Hn _] _]. by rewrite He. Qed.

(** ** Properties *)

(** C33: the pool never shares an element.  Whatever sequence of allocations,
    single and batch frees the clients run, with allocations failing at any
    point, no operation reads or writes outside the pool's array, an allocated
    element is never one that a client already holds, and [head] counts the
    elements in use. *)
Theorem mpool_exclusive gpu oom nb es t s :
  0 < nb < 2 ^ 60 -> reachable gpu oom nb es t s ->
  NoDup (held s) /\ head (pool s) = Z.of_nat (length (held s)) /\
  (exists r vec p w, allreduce_aloc_vec gpu oom (pool s) (mem s) = Some (r, vec, p, w) /\
     (r = DOCA_SUCCESS /\ (exists v, vec = Some (Elem v) /\ v ∉ held s) \/
      r = DOCA_ERROR_NO_MEMORY /\ vec = None)) /\
  (forall vs rest, held s ≡ₚ vs ++ rest ->
     exists p, allreduce_free_vecs (pool s) (map Elem vs) = Some p).
Proof.
  intros Hnb Hr. destruct (reachable_ok _ _ _ _ _ _ Hnb Hr) as [free Hp]. split_and!.
  - apply pool_ok_NoDup, NoDup_app in Hp. apply Hp.
  - apply (ok_head _ _ _ _ _ Hp).
  - destruct (aloc_total gpu oom _ _ _ _ Hp) as (r & vec & p & w & free' & Ha & Ho).
    exists r, vec, p, w. split; [done|].
    destruct Ho as [(-> & v & -> & Hp') | (-> & _ & -> & _)]; [left | auto].
    split; [done|]. exists v. split; [done|].
    apply pool_ok_NoDup, NoDup_app in Hp' as (_ & _ & Hn). by apply NoDup_cons in Hn as [? _].
  - intros vs rest Hh. destruct (free_vecs_ok _ _ _ _ _ _ _ Hp Hh) as (p & Hf & _). eauto.
Qed.

(** Destroying a pool frees every element exactly once.  At any moment of a
    pool's life, destroying it succeeds, never frees an element twice, and what
    it freed together with what clients still hold is exactly what the
    allocators returned: nothing leaks once all elements are back. *)
Theorem mpool_destroy_frees_all gpu oom nb es t s :
  0 < nb < 2 ^ 60 -> reachable gpu oom nb es t s ->
  exists p w, allreduce_destroy_mpool gpu (pool s) (mem s) = Some (DOCA_SUCCESS, p, w) /\
    freed w ++ held s ≡ₚ elems w /\ NoDup (freed w) /\ stack p = FreedStack.
Proof.
  intros Hnb Hr. destruct (reachable_ok _ _ _ _ _ _ Hnb Hr) as [free Hp].
  pose proof (pool_ok_length _ _ _ _ _ Hp) as Hl.
  pose proof (pool_ok_NoDup _ _ _ _ _ Hp) as Hn. apply NoDup_app in Hn as (Hn & _ & _).
  destruct Hp as [(sl & Hs & _ & Ht) Hh [_ ?] Hty He Hhp Hf].
  unfold allreduce_destroy_mpool. rewrite Hs, Hty.
  replace (Z.to_nat (size (pool s) - head (pool s))) with (length free) in * by lia.
  rewrite (free_range_ok free _ sl) by (rewrite ?Hf; auto using not_elem_of_nil; lia).
  obind. do 2 eexists. split_and!; [done| | |done]; simpl; rewrite Hf, app_nil_r.
  - by rewrite <- He, <- Permutation_rev.
  - by rewrite <- Permutation_rev.
Qed.

(** An exhausted pool grows.  When every element of a reachable pool is in
    use and the allocators do not fail, an allocation succeeds, doubles the pool
    and returns an element nobody holds. *)
Theorem mpool_grows gpu (oom : nat -> bool) nb es t s :
  0 < nb < 2 ^ 60 -> reachable gpu oom nb es t s ->
  head (pool s) = size (pool s) -> size (pool s) < 2 ^ 59 -> (forall k, oom k = false) ->
  exists v p w, allreduce_aloc_vec gpu oom (pool s) (mem s) = Some (DOCA_SUCCESS, Some (Elem v), p, w) /\
    size p = 2 * size (pool s) /\ v ∉ held s.
Proof.
  intros Hnb Hr Hfull Hsz Ho. destruct (reachable_ok _ _ _ _ _ _ Hnb Hr) as [free Hp].
  assert (free = []) as ->.
  { apply length_zero_iff_nil. pose proof (pool_ok_length _ _ _ _ _ Hp). lia. }
  destruct (aloc_grow gpu oom _ _ _ Hp) as (r & vec & p & w & free' & Ha & Hout & Hok).
  rewrite (Hok Ho Hsz) in *. destruct Hout as [(_ & (v & -> & Hp') & ?) | (? & _)]; [|done].
  exists v, p, w. split_and!; [done..|].
  apply pool_ok_NoDup, NoDup_app in Hp' as (_ & _ & Hn). by apply NoDup_cons in Hn as [? _].
Qed.

(** the pool is last in, first out.  The element just returned is the next
    one handed out, without calling an allocator. *)
Theorem mpool_lifo gpu oom nb es t s v rest :
  0 < nb < 2 ^ 60 -> reachable gpu oom nb es t s -> held s ≡ₚ v :: rest ->
  exists p p', allreduce_free_vec (pool s) (Elem v) = Some p /\
    allreduce_aloc_vec gpu oom p (mem s) = Some (DOCA_SUCCESS, Some (Elem v), p', mem s).
Proof.
  intros Hnb Hr Hh. destruct (reachable_ok _ _ _ _ _ _ Hnb Hr) as [free Hp].
  destruct (free_vec_ok _ _ _ _ _ _ _ Hp Hh) as (p & Hf & Hp').
  pose proof (pool_ok_length _ _ _ _ _ Hp') as Hl. cbn [length] in Hl.
  destruct (take_head_ok _ _ _ _ _ _ Hp') as (p' & Ht & _). exists p, p'. split; [done|].
  unfold allreduce_aloc_vec. by replace (head p =? size p) with false by lia.
Qed.

(** A pool of two whose elements 1 and 2 were taken out; the allocators never
    fail. *)
Definition sample_sys : sys :=
  Sys (Mpool (Stack [Elem 1; Elem 2]) 2 2 CPU 64) (Heap 3 [2; 1]%nat []) [2; 1]%nat.

Lemma sample_sys_reachable : reachable false (fun _ => false) 2 64 CPU sample_sys.
Proof.
  do 2 eexists. split; [vm_compute; reflexivity|].
  eapply rtc_l; [eapply client_aloc; vm_compute; reflexivity|].
  eapply rtc_l; [eapply client_aloc; vm_compute; reflexivity|]. apply rtc_refl.
Qed.

Lemma mpool_exclusive_witness :
  exists p, allreduce_free_vecs (pool sample_sys) (map Elem [1; 2]%nat) = Some p.
Proof.
  apply (mpool_exclusive false (fun _ => false) 2 64 CPU sample_sys ltac:(lia) sample_sys_reachable)
    with (rest := []). apply Permutation_swap.
Defined.

Lemma mpool_destroy_frees_all_witness :
  exists p w, allreduce_destroy_mpool false (pool sample_sys) (mem sample_sys) = Some (DOCA_SUCCESS, p, w) /\
    freed w ++ held sample_sys ≡ₚ elems w /\ NoDup (freed w) /\ stack p = FreedStack.
Proof.
  apply (mpool_destroy_frees_all false (fun _ => false) 2 64 CPU); [lia | exact sample_sys_reachable].
Defined.

Lemma mpool_grows_witness :
  exists v p w, allreduce_aloc_vec false (fun _ => false) (pool sample_sys) (mem sample_sys) =
      Some (DOCA_SUCCESS, Some (Elem v), p, w) /\ size p = 2 * size (pool sample_sys) /\ v ∉ held sample_sys.
Proof.
  apply (mpool_grows false (fun _ => false) 2 64 CPU);
    [lia | exact sample_sys_reachable | reflexivity | reflexivity | reflexivity].
Defined.

Lemma mpool_lifo_witness :
  exists p p', allreduce_free_vec (pool sample_sys) (Elem 2) = Some p /\
    allreduce_aloc_vec false (fun _ => false) p (mem sample_sys) =
      Some (DOCA_SUCCESS, Some (Elem 2), p', mem sample_sys).
Proof.
  apply (mpool_lifo false (fun _ => false) 2 64 CPU sample_sys 2 [1%nat]);
    [lia | exact sample_sys_reachable | reflexivity].
Defined.

(** A pool created with no element cannot grow: the first allocation resizes
    its array to zero bytes. *)
Example mpool_empty_pool :
  exists mp w, allreduce_create_mpool false (fun _ => false) 0 64 CPU (Heap 0 [] []) =
      Some (DOCA_SUCCESS, mp, w) /\
    allreduce_aloc_vec false (fun _ => false) mp w = None.
Proof. do 2 eexists. split; [vm_compute; reflexivity|]. vm_compute. reflexivity. Qed.
