(* ===== verification/RttTemplate.v ===== *)
(** * The RTT-based congestion control algorithm of the PCC device program

    Models pcc/src/device/algo/rtt_template.c (the algorithm and its
    initialisation), its context and parameter headers, and the dispatch of
    pcc/src/device/pcc_dev_main.c.  An event is the record of what its getters
    return. *)

From stdpp Require Import strings.
From S2P Require Import Prelude.
#[local] Open Scope Z_scope.

(** ** Constants *)

Definition DOCA_PCC_DEV_MAX_RATE : Z := Z.shiftl 1 20.
Definition UPDATE_FACTOR : Z := (Z.shiftl 1 16 * 10) / 100.
Definition AI : Z := (Z.shiftl 1 20 * 5) / 100.
Definition BASE_RTT : Z := 13000.
Definition NEW_FLOW_RATE : Z := Z.shiftl 1 20.
Definition MIN_RATE : Z := Z.shiftl 1 (20 - 14).
Definition MAX_DELAY : Z := 150000.
Definition UPDATE_FACTOR_MAX : Z := 10 * Z.shiftl 1 16.
Definition AI_MAX : Z := Z.shiftl 1 20.
Definition RATE_MAX : Z := Z.shiftl 1 20.
Definition ABORT_TIME : Z := 300000.
Definition RTT_TEMPLATE_PARAM_NUM : Z := 6.
Definition RTT_TEMPLATE_COUNTER_NUM : Z := 2.

(** [doca_pcc_dev_event_type], the numbers of the events the code names. *)
Definition DOCA_PCC_DEV_EVNT_ROCE_CNP : Z := 2.
Definition DOCA_PCC_DEV_EVNT_ROCE_TX : Z := 3.
Definition DOCA_PCC_DEV_EVNT_ROCE_NACK : Z := 5.
Definition DOCA_PCC_DEV_EVNT_RTT : Z := 6.
Definition DOCA_PCC_DEV_TX_FLAG_RTT_REQ_SENT : Z := Z.shiftl 1 2.

(** ** Data *)

(** The configurable parameters, [param[0]] to [param[5]]. *)
Record params := {
  update_factor : Z; ai : Z; base_rtt : Z; new_flow_rate : Z; min_rate : Z; max_delay : Z
}.

(** [cc_ctxt_rtt_template_t] *)
Record ctxt := Ctxt {
  cur_rate : Z;
  start_delay : Z;
  rtt : Z;
  was_nack : bool;
  was_cnp : bool;
  abort_cnt : Z;
  rtt_meas_psn : Z;
  rtt_req_to_rtt_sent : Z
}.

Record event := {
  ev_type : Z; ev_flags : Z; port_num : Z;
  timestamp : Z; rtt_req_send_timestamp : Z; rtt_req_recv_timestamp : Z
}.

(** [doca_pcc_dev_results_t] *)
Record results := Results { rate : Z; rtt_req : Z }.

(** ** Operations *)

Definition doca_pcc_dev_mult (a b : Z) : Z := u64 (u64 a * u64 b).
Definition doca_pcc_dev_fxp_mult (a b : Z) : Z :=
  u32 (Z.land (Z.shiftr (doca_pcc_dev_mult a b) 16) (2 ^ 32 - 1)).

Definition DEC_FACTOR (p : params) : Z := u32 (Z.shiftl 1 16 - update_factor p).
Definition CNP_DEC_FACTOR (p : params) : Z := u32 (Z.shiftl 1 16 - u32 (2 * update_factor p)).
Definition NACK_DEC_FACTOR (p : params) : Z := u32 (Z.shiftl 1 16 - u32 (5 * update_factor p)).

(** The rate the three cases of the algorithm compute, and the flags left. *)
Definition adjust (c : ctxt) (r cur : Z) (p : params) : Z * bool * bool :=
  if was_nack c && (max_delay p <=? r) then
    (doca_pcc_dev_fxp_mult (NACK_DEC_FACTOR p) cur, false, was_cnp c)
  else if was_cnp c || (max_delay p <=? r) then
    (doca_pcc_dev_fxp_mult (CNP_DEC_FACTOR p) cur, was_nack c, false)
  else
    (if base_rtt p <? r then doca_pcc_dev_fxp_mult (DEC_FACTOR p) cur else u32 (cur + ai p),
     was_nack c, was_cnp c).

Definition clip (p : params) (cur : Z) : Z :=
  let cur := if DOCA_PCC_DEV_MAX_RATE <? cur then DOCA_PCC_DEV_MAX_RATE else cur in
  if cur <? min_rate p then min_rate p else cur.

Definition algorithm_core (c : ctxt) (r cur : Z) (p : params) : Z * ctxt :=
  let '(cur', nack, cnp) := adjust c r cur p in
  (clip p cur', Ctxt (cur_rate c) (start_delay c) (rtt c) nack cnp (abort_cnt c) (rtt_meas_psn c)
                  (rtt_req_to_rtt_sent c)).

(** [None]: the shift by [abort_cnt] reaches the width of its operand. *)
Definition rtt_template_handle_roce_tx (e : event) (cur : Z) (c : ctxt) : option (ctxt * results) :=
  if truthy (Z.land (ev_flags e) DOCA_PCC_DEV_TX_FLAG_RTT_REQ_SENT) && (rtt_meas_psn c =? 0) then
    Some (Ctxt cur (timestamp e) (rtt c) (was_nack c) (was_cnp c) (abort_cnt c) 1 0, Results cur 0)
  else
    let till0 := u32 (timestamp e - start_delay c) in
    let till1 := if timestamp e <? start_delay c then u32 (till0 + UINT32_MAX) else till0 in
    let till := if rtt_meas_psn c =? 0 then 0 else till1 in
    let sent := if rtt_meas_psn c =? 0 then u8 (rtt_req_to_rtt_sent c + 1) else rtt_req_to_rtt_sent c in
    limit ← shl 32 ABORT_TIME (abort_cnt c);
    let abort := (limit <? till) || (2 <? sent) in
    Some (Ctxt cur (start_delay c) (rtt c) (was_nack c) (was_cnp c)
            (if abort && (limit <? till) then u8 (abort_cnt c + 1) else abort_cnt c)
            (rtt_meas_psn c) (if abort then 1 else sent),
          Results cur (if abort then 1 else 0)).

(** Without TIME_SYNC the round trip ends at the event's own timestamp. *)
Definition end_rtt (time_sync : bool) (e : event) : Z :=
  if time_sync then rtt_req_recv_timestamp e else timestamp e.

(** [int32_t rtt], as the value stored in the context and passed on. *)
Definition rtt_value (time_sync : bool) (e : event) : Z :=
  let start := rtt_req_send_timestamp e in
  let d := s32 (u32 (end_rtt time_sync e - start)) in
  u32 (if end_rtt time_sync e <? start then s32 (u32 (u32 d + UINT32_MAX)) else d).

Definition rtt_template_handle_roce_rtt (time_sync : bool) (e : event) (cur : Z) (p : params)
    (c : ctxt) : ctxt * results :=
  if (rtt_meas_psn c =? 0) && (rtt_req_to_rtt_sent c =? 0) then (c, Results cur 0)
  else
    let r := rtt_value time_sync e in
    let c1 := Ctxt (cur_rate c) (start_delay c) r (was_nack c) (was_cnp c) 0 0 (rtt_req_to_rtt_sent c) in
    let '(cur', c2) := algorithm_core c1 r cur p in
    (Ctxt cur' (start_delay c2) (rtt c2) (was_nack c2) (was_cnp c2) (abort_cnt c2) (rtt_meas_psn c2) 1,
     Results cur' 1).

Definition rtt_template_handle_roce_cnp (cur : Z) (c : ctxt) : ctxt * results :=
  (Ctxt cur (start_delay c) (rtt c) (was_nack c) true (abort_cnt c) (rtt_meas_psn c)
     (rtt_req_to_rtt_sent c), Results cur 0).

(** [results->rtt_req] keeps the value it had. *)
Definition rtt_template_handle_roce_nack (cur : Z) (c : ctxt) (res : results) : ctxt * results :=
  (Ctxt cur (start_delay c) (rtt c) true (was_cnp c) (abort_cnt c) (rtt_meas_psn c)
     (rtt_req_to_rtt_sent c), Results cur (rtt_req res)).

Definition rtt_template_handle_new_flow (e : event) (p : params) (c : ctxt) : ctxt * results :=
  (Ctxt (new_flow_rate p) (timestamp e) (rtt c) false (was_cnp c) 0 0 1, Results (new_flow_rate p) 1).

(** The two counters; [None] is a NULL pointer. *)
Definition counters : Type := option (Z * Z).

Definition count_tx (k : counters) : counters := prod_map (fun n => u32 (n + 1)) id <$> k.
Definition count_rtt (k : counters) : counters := prod_map id (fun n => u32 (n + 1)) <$> k.

Definition rtt_template_algo (time_sync : bool) (e : event) (p : params) (k : counters) (c : ctxt)
    (res : results) : option (ctxt * counters * results) :=
  let t := ev_type e in
  if cur_rate c =? 0 then
    let '(c', res') := rtt_template_handle_new_flow e p c in Some (c', k, res')
  else if t =? DOCA_PCC_DEV_EVNT_ROCE_TX then
    '(c', res') ← rtt_template_handle_roce_tx e (cur_rate c) c; Some (c', count_tx k, res')
  else if t =? DOCA_PCC_DEV_EVNT_RTT then
    let '(c', res') := rtt_template_handle_roce_rtt time_sync e (cur_rate c) p c in
    Some (c', count_rtt k, res')
  else if t =? DOCA_PCC_DEV_EVNT_ROCE_CNP then
    let '(c', res') := rtt_template_handle_roce_cnp (cur_rate c) c in Some (c', k, res')
  else if t =? DOCA_PCC_DEV_EVNT_ROCE_NACK then
    let '(c', res') := rtt_template_handle_roce_nack (cur_rate c) c res in Some (c', k, res')
  else Some (c, k, Results (cur_rate c) 0).

(** [doca_pcc_dev_error_t]; the value of [params] is never written. *)
Inductive pcc_status := DOCA_PCC_DEV_STATUS_OK | DOCA_PCC_DEV_STATUS_FAIL.

Definition rtt_template_set_algo_params (param_id_base param_num : Z)
    (new_param_values : option (list Z)) (cur : option (list Z)) : pcc_status * option (list Z) :=
  if (RTT_TEMPLATE_PARAM_NUM <? param_num) || (RTT_TEMPLATE_PARAM_NUM <=? param_id_base)
  then (DOCA_PCC_DEV_STATUS_FAIL, cur)
  else match new_param_values, cur with
       | None, _ | _, None => (DOCA_PCC_DEV_STATUS_FAIL, cur)
       | Some _, Some _ => (DOCA_PCC_DEV_STATUS_OK, cur)
       end.

(** ** Initialisation (the calls to the PCC library, in order) *)

Inductive init_call :=
| algo_init_metadata (algo_idx algo_id major minor param_num counter_num : Z) (desc : string)
| algo_init_param (algo_idx param_id default_value max_value min_value permissions : Z) (desc : string)
| algo_init_counter (algo_idx counter_id max_value permissions : Z) (desc : string)
| init_algo_slot (port slot algo_idx algo_en : Z).

Definition rtt_template_init (algo_idx : Z) : list init_call :=
  [algo_init_metadata algo_idx 49151 0 1 RTT_TEMPLATE_PARAM_NUM RTT_TEMPLATE_COUNTER_NUM "Rtt template v0.1";
   algo_init_param algo_idx 0 UPDATE_FACTOR UPDATE_FACTOR_MAX 1 1 "UPDATE_FACTOR, update factor";
   algo_init_param algo_idx 1 AI AI_MAX 1 1 "AI, ai";
   algo_init_param algo_idx 2 BASE_RTT UINT32_MAX 1 1 "BASE_RTT, base rtt";
   algo_init_param algo_idx 3 NEW_FLOW_RATE RATE_MAX 1 1 "NEW_FLOW_RATE, new flow rate";
   algo_init_param algo_idx 4 MIN_RATE RATE_MAX 1 1 "MIN_RATE, min rate";
   algo_init_param algo_idx 5 MAX_DELAY UINT32_MAX 1 1 "MAX_DELAY, max delay";
   algo_init_counter algo_idx 0 UINT32_MAX 2 "COUNTER_TX_EVENT, number of tx events handled";
   algo_init_counter algo_idx 1 UINT32_MAX 2 "COUNTER_RTT_EVENT, number of rtt events handled"].

Definition DOCA_PCC_DEV_MAX_NUM_PORTS : nat := 4.
Definition DOCA_PCC_DEV_EVNT_ROCE_ACK_MASK : Z := Z.shiftl 1 4.

(** The calls, and [*disable_event_bitmask]. *)
Definition doca_pcc_dev_user_init : list init_call * Z :=
  (rtt_template_init 0 ++
   map (fun port => init_algo_slot (Z.of_nat port) 0 0 1) (seq 0 DOCA_PCC_DEV_MAX_NUM_PORTS),
   DOCA_PCC_DEV_EVNT_ROCE_ACK_MASK).

(** The parameters a port starts with: the default values given above. *)
Definition default_of (calls : list init_call) (id : Z) : Z :=
  foldr (fun c v => match c with
                    | algo_init_param _ i d _ _ _ _ => if i =? id then d else v
                    | _ => v
                    end) 0 calls.

Definition default_params : params :=
  let d := default_of (fst doca_pcc_dev_user_init) in
  {| update_factor := d 0; ai := d 1; base_rtt := d 2; new_flow_rate := d 3; min_rate := d 4;
     max_delay := d 5 |}.

(** ** Dispatch

    The library keeps parameters and counters per port; its own algorithm
    serves the other slots. *)
Definition doca_pcc_dev_user_algo
    (internal : ctxt -> event -> Z -> results -> option (ctxt * results)) (time_sync : bool)
    (algo_slot : Z) (e : event) (port_params : Z -> params) (port_counters : Z -> counters)
    (c : ctxt) (res : results) : option (ctxt * (Z -> counters) * results) :=
  if algo_slot =? 0 then
    let port := port_num e in
    '(c', k', res') ← rtt_template_algo time_sync e (port_params port) (port_counters port) c res;
    Some (c', fun q => if q =? port then k' else port_counters q, res')
  else
    '(c', res') ← internal c e algo_slot res; Some (c', port_counters, res').

Definition doca_pcc_dev_user_set_algo_params (algo_index : Z -> Z -> Z) (port algo_slot : Z)
    (param_id_base param_num : Z) (new_param_values cur : option (list Z))
    : pcc_status * option (list Z) :=
  if algo_slot =? 0 then
    if algo_index port algo_slot =? 0
    then rtt_template_set_algo_params param_id_base param_num new_param_values cur
    else (DOCA_PCC_DEV_STATUS_FAIL, cur)
  else (DOCA_PCC_DEV_STATUS_OK, cur).

(** A flow's events one after the other, with the results sent to the NIC. *)
Fixpoint run (time_sync : bool) (evs : list event) (p : params) (k : counters) (c : ctxt)
    (res : results) : option (ctxt * counters * list results) :=
  match evs with
  | [] => Some (c, k, [])
  | e :: evs' =>
      '(c1, k1, res1) ← rtt_template_algo time_sync e p k c res;
      '(c2, k2, out) ← run time_sync evs' p k1 c1 res1;
      Some (c2, k2, res1 :: out)
  end.

(** ** Specification *)

(** Parameters within the limits of [rtt_template_init], with a starting rate
    above the minimal one. *)
Record params_ok (p : params) : Prop := {
  ok_uf : 1 <= update_factor p <= UPDATE_FACTOR_MAX;
  ok_ai : 1 <= ai p <= AI_MAX;
  ok_base : 1 <= base_rtt p <= UINT32_MAX;
  ok_delay : 1 <= max_delay p <= UINT32_MAX;
  ok_min : 1 <= min_rate p;
  ok_new : min_rate p <= new_flow_rate p <= RATE_MAX
}.

Definition rate_ok (p : params) (r : Z) : Prop := min_rate p <= r <= DOCA_PCC_DEV_MAX_RATE.

(** The invariant of a flow context. *)
Record ctxt_ok (p : params) (c : ctxt) : Prop := {
  ok_rate : cur_rate c = 0 \/ rate_ok p (cur_rate c) /\
    (rtt_meas_psn c = 1 \/ rtt_meas_psn c = 0 /\ 1 <= rtt_req_to_rtt_sent c <= 2);
  ok_sent : cur_rate c = 0 \/ 0 <= rtt_req_to_rtt_sent c <= 2;
  ok_abort : 0 <= abort_cnt c < 256
}.

(** No more than 32 TX events between two RTT events ([n] seen so far). *)
Fixpoint tx_bursts_ok (n : nat) (evs : list event) : bool :=
  match evs with
  | [] => true
  | e :: evs' =>
      if ev_type e =? DOCA_PCC_DEV_EVNT_ROCE_TX then (n <? 32)%nat && tx_bursts_ok (S n) evs'
      else if ev_type e =? DOCA_PCC_DEV_EVNT_RTT then tx_bursts_ok 0 evs'
      else tx_bursts_ok n evs'
  end.

(** ** Lemmas *)

Ltac unfold_consts :=
  unfold rate_ok, DOCA_PCC_DEV_MAX_RATE, AI_MAX, RATE_MAX, UPDATE_FACTOR_MAX, UINT32_MAX in *;
  change (Z.shiftl 1 20) with 1048576 in *; change (Z.shiftl 1 16) with 65536 in *;
  change (2 ^ 32) with 4294967296 in *.

Lemma clip_spec p r :
  min_rate p <= DOCA_PCC_DEV_MAX_RATE ->
  clip p r = Z.max (min_rate p) (Z.min DOCA_PCC_DEV_MAX_RATE r).
Proof. intros. unfold clip. repeat case_bool; lia. Qed.

Lemma min_le_max p : params_ok p -> min_rate p <= DOCA_PCC_DEV_MAX_RATE.
Proof. intros [? ? ? ? ? ?]. unfold_consts. lia. Qed.

Lemma clip_ok p r : params_ok p -> rate_ok p (clip p r).
Proof.
  intros Hp. pose proof (min_le_max p Hp). rewrite clip_spec by done. unfold rate_ok. lia.
Qed.

Lemma core_ok c r cur p :
  params_ok p -> rate_ok p (fst (algorithm_core c r cur p)).
Proof.
  intros Hp. unfold algorithm_core. destruct (adjust c r cur p) as [[cur' nack] cnp]. by apply clip_ok.
Qed.

Lemma core_ctxt c r cur p :
  exists nack cnp, snd (algorithm_core c r cur p) =
    Ctxt (cur_rate c) (start_delay c) (rtt c) nack cnp (abort_cnt c) (rtt_meas_psn c) (rtt_req_to_rtt_sent c).
Proof. unfold algorithm_core. destruct (adjust c r cur p) as [[? nack] cnp]. by exists nack, cnp. Qed.

(** The abort branch, taken or not. *)
Ltac case_count :=
  repeat match goal with
         | |- context [if ?b then 1 else _] => destruct b eqn:?
         | |- context [if ?b then u8 _ else _] => destruct b eqn:?
         end; rewrite ?orb_true_r in *; try lia.

(** A TX event keeps the invariant, and counts at most one abort. *)
Lemma roce_tx_ok e c p :
  params_ok p -> ctxt_ok p c -> cur_rate c <> 0 -> abort_cnt c < 32 ->
  exists c' res', rtt_template_handle_roce_tx e (cur_rate c) c = Some (c', res') /\
    ctxt_ok p c' /\ cur_rate c' <> 0 /\ rate_ok p (rate res') /\ abort_cnt c' <= abort_cnt c + 1.
Proof.
  intros Hp [[?|[Hr Hpsn]] Hs Ha] Hne Hlt; [done|]. destruct Hs as [?|Hs]; [done|].
  unfold rtt_template_handle_roce_tx. case_bool.
  { do 2 eexists. split; [done|]. split_and!; simpl; [|done|done|lia].
    split; simpl; [by auto|right; lia|lia]. }
  assert (Hsent : rtt_meas_psn c = 0 -> u8 (rtt_req_to_rtt_sent c + 1) = rtt_req_to_rtt_sent c + 1)
    by (intros; apply wrap_small; lia).
  assert (Hab : u8 (abort_cnt c + 1) = abort_cnt c + 1) by (apply wrap_small; lia).
  unfold shl. rewrite decide_True by lia. obind.
  do 2 eexists. split; [done|].
  destruct (Z.eqb_spec (rtt_meas_psn c) 0) as [E|E]; cbn [cur_rate rate abort_cnt rtt_meas_psn rtt_req_to_rtt_sent].
  - rewrite (Hsent E). split_and!; [|done|done|case_count].
    split; cbn [cur_rate rate abort_cnt rtt_meas_psn rtt_req_to_rtt_sent]; [| |case_count].
    + right. split; [done|]. right. split; [done|].
      destruct (Z.ltb_spec 2 (rtt_req_to_rtt_sent c + 1)); case_count.
    + right. destruct (Z.ltb_spec 2 (rtt_req_to_rtt_sent c + 1)); case_count.
  - split_and!; [|done|done|case_count].
    split; cbn [cur_rate rate abort_cnt rtt_meas_psn rtt_req_to_rtt_sent]; [|right; case_count|case_count].
    right. split; [done|]. left. lia.
Qed.

Lemma roce_rtt_ok ts e c p :
  params_ok p -> ctxt_ok p c -> cur_rate c <> 0 ->
  exists c' res', rtt_template_handle_roce_rtt ts e (cur_rate c) p c = (c', res') /\
    ctxt_ok p c' /\ cur_rate c' <> 0 /\ rate_ok p (rate res') /\ abort_cnt c' = 0 /\ rtt_req res' = 1.
Proof.
  intros Hp [[?|[Hr Hpsn]] Hs Ha] Hne; [done|].
  unfold rtt_template_handle_roce_rtt.
  replace ((rtt_meas_psn c =? 0) && (rtt_req_to_rtt_sent c =? 0)) with false by lia.
  set (c1 := Ctxt _ _ _ _ _ _ _ _).
  pose proof (core_ok c1 (rtt_value ts e) (cur_rate c) p Hp) as Hcore.
  destruct (core_ctxt c1 (rtt_value ts e) (cur_rate c) p) as (nack & cnp & Hc).
  destruct (algorithm_core _ _ _ _) as [cur' c2]. simpl in Hcore, Hc. subst c2.
  do 2 eexists. split; [done|]. simpl. split_and!; [|destruct Hp, Hcore; lia|done|done|done].
  split; simpl; [right; split; [done|lia]|lia|lia].
Qed.

Lemma new_flow_ok e c p :
  params_ok p ->
  ctxt_ok p (fst (rtt_template_handle_new_flow e p c)) /\ rate_ok p (new_flow_rate p) /\
  new_flow_rate p <> 0.
Proof.
  intros [? ? ? ? ? ?]. unfold_consts. split_and!; try lia.
  split; simpl; unfold_consts; lia.
Qed.

(** One event: the abort count grows by one with a TX event and is reset by an
    RTT event. *)
Lemma algo_ok ts e p k c res :
  params_ok p -> ctxt_ok p c -> abort_cnt c < 32 \/ ev_type e <> DOCA_PCC_DEV_EVNT_ROCE_TX ->
  exists c' k' res', rtt_template_algo ts e p k c res = Some (c', k', res') /\
    ctxt_ok p c' /\ cur_rate c' <> 0 /\ rate_ok p (rate res') /\
    (abort_cnt c' = 0 \/
     cur_rate c <> 0 /\ ev_type e <> DOCA_PCC_DEV_EVNT_RTT /\
     (abort_cnt c' <= abort_cnt c + if ev_type e =? DOCA_PCC_DEV_EVNT_ROCE_TX then 1 else 0)).
Proof.
  intros Hp Hc Hab. unfold rtt_template_algo.
  destruct (Z.eqb_spec (cur_rate c) 0) as [H0|H0].
  { destruct (new_flow_ok e c p Hp) as (H1 & H2 & H3). do 3 eexists. split; [reflexivity|]. simpl.
    split_and!; auto; apply H2. }
  assert (Hr : rate_ok p (cur_rate c)) by (destruct Hc as [[?|[? _]] _ _]; [by destruct H0|done]).
  destruct (Z.eqb_spec (ev_type e) DOCA_PCC_DEV_EVNT_ROCE_TX) as [Htx|Htx].
  { destruct (roce_tx_ok e c p Hp Hc H0) as (c' & res' & -> & ? & ? & ? & ?); [by destruct Hab|].
    obind. do 3 eexists. split; [reflexivity|]. split_and!; auto. right.
    split_and!; [done| |lia]. by rewrite Htx. }
  destruct (Z.eqb_spec (ev_type e) DOCA_PCC_DEV_EVNT_RTT) as [Hrtt|Hrtt].
  { destruct (roce_rtt_ok ts e c p Hp Hc H0) as (c' & res' & -> & ? & ? & ? & ? & _).
    do 3 eexists. split; [reflexivity|]. auto. }
  assert (Hkeep : forall nack cnp, ctxt_ok p (Ctxt (cur_rate c) (start_delay c) (rtt c) nack cnp
    (abort_cnt c) (rtt_meas_psn c) (rtt_req_to_rtt_sent c))) by (intros; destruct Hc; by split).
  destruct (Z.eqb_spec (ev_type e) DOCA_PCC_DEV_EVNT_ROCE_CNP);
    [|destruct (Z.eqb_spec (ev_type e) DOCA_PCC_DEV_EVNT_ROCE_NACK)];
    do 3 eexists; (split; [reflexivity|]); simpl;
    (split_and!; [first [apply Hkeep | done]|done|apply Hr..|right; split_and!; [done|done|lia]]).
Qed.

Lemma run_ok ts p evs : forall n k c res,
  params_ok p -> ctxt_ok p c -> abort_cnt c <= Z.of_nat n -> tx_bursts_ok n evs = true ->
  exists c' k' out, run ts evs p k c res = Some (c', k', out) /\
    ctxt_ok p c' /\ length out = length evs /\ Forall (fun r => rate_ok p (rate r)) out /\
    (evs <> [] \/ cur_rate c <> 0 -> cur_rate c' <> 0).
Proof.
  induction evs as [|e evs IH]; intros n k c res Hp Hc Hn Hb; cbn [run].
  { exists c, k, []. split_and!; try done. by intros [?|?]. }
  cbn [tx_bursts_ok] in Hb.
  assert (Hab : abort_cnt c < 32 \/ ev_type e <> DOCA_PCC_DEV_EVNT_ROCE_TX).
  { revert Hb. destruct (Z.eqb_spec (ev_type e) DOCA_PCC_DEV_EVNT_ROCE_TX); [intros [?%Nat.ltb_lt _]%andb_true_iff; left; lia | by right]. }
  destruct (algo_ok ts e p k c res Hp Hc Hab) as (c1 & k1 & res1 & -> & Hc1 & Hr1 & Hres1 & Hcnt). obind.
  assert (Hnext : exists n', abort_cnt c1 <= Z.of_nat n' /\ tx_bursts_ok n' evs = true).
  { revert Hb Hcnt. destruct (Z.eqb_spec (ev_type e) DOCA_PCC_DEV_EVNT_ROCE_TX) as [Htx|Htx]; intros Hb Hcnt.
    - exists (S n). apply andb_true_iff in Hb as [? ?]. split; [lia|done].
    - destruct (Z.eqb_spec (ev_type e) DOCA_PCC_DEV_EVNT_RTT); [exists 0%nat|exists n]; (split; [|done]);
        [destruct Hcnt as [?|(_ & Hno & _)]; [lia|done] | lia]. }
  destruct Hnext as (n' & Hn' & Hb').
  destruct (IH n' k1 c1 res1 Hp Hc1 Hn' Hb') as (c2 & k2 & out & -> & Hc2 & Hl & Hout & Hne). obind.
  exists c2, k2, (res1 :: out). split; [done|]. split_and!; [done|simpl; congruence|by constructor|].
  intros _. apply Hne. by right.
Qed.

(** A context the library hands out for a new flow. *)
Definition ctxt0 : ctxt := Ctxt 0 0 0 false false 0 0 0.

Lemma ctxt0_ok p : ctxt_ok p ctxt0.
Proof. split; simpl; lia. Qed.

Lemma fxp_mult_spec a b :
  0 <= a <= 65536 -> 0 <= b <= DOCA_PCC_DEV_MAX_RATE ->
  doca_pcc_dev_fxp_mult a b = a * b / 65536.
Proof.
  intros Ha Hb. unfold_consts. unfold doca_pcc_dev_fxp_mult, doca_pcc_dev_mult.
  rewrite !(wrap_small 64) by (rewrite ?(wrap_small 64); nia).
  change (2 ^ 32 - 1) with (Z.ones 32). rewrite Z.land_ones by lia.
  rewrite Z.shiftr_div_pow2 by lia. change (2 ^ 16) with 65536.
  assert (0 <= a * b / 65536 <= 1048576) by
    (split; [apply Z.div_pos; nia | apply Z.div_le_upper_bound; nia]).
  rewrite (Z.mod_small _ (2 ^ 32)) by lia. apply wrap_small. lia.
Qed.

(** ** The control law *)

Inductive congestion := Nack | Cnp | HighRtt | NoCongestion.

Definition signal (c : ctxt) (r : Z) (p : params) : congestion :=
  if was_nack c && (max_delay p <=? r) then Nack
  else if was_cnp c || (max_delay p <=? r) then Cnp
  else if base_rtt p <? r then HighRtt else NoCongestion.

(** Multiplicative decrease by a signal-dependent multiple of the update
    factor (fixed point 16), additive increase. *)
Definition target (s : congestion) (cur : Z) (p : params) : Z :=
  match s with
  | Nack => (65536 - 5 * update_factor p) * cur / 65536
  | Cnp => (65536 - 2 * update_factor p) * cur / 65536
  | HighRtt => (65536 - update_factor p) * cur / 65536
  | NoCongestion => cur + ai p
  end.

Definition aimd (s : congestion) (cur : Z) (p : params) : Z :=
  Z.max (min_rate p) (Z.min DOCA_PCC_DEV_MAX_RATE (target s cur p)).

Lemma factor_spec k p :
  0 <= k -> k * update_factor p <= 65536 -> 0 <= update_factor p ->
  u32 (Z.shiftl 1 16 - u32 (k * update_factor p)) = 65536 - k * update_factor p.
Proof.
  intros. unfold_consts. rewrite (wrap_small 32 (k * update_factor p)) by nia.
  apply wrap_small. nia.
Qed.

Lemma core_aimd c r cur p :
  params_ok p -> 5 * update_factor p <= 65536 -> rate_ok p cur ->
  fst (algorithm_core c r cur p) = aimd (signal c r p) cur p.
Proof.
  intros Hp Huf [Hr1 Hr2]. pose proof (min_le_max p Hp) as Hmm. destruct Hp.
  unfold algorithm_core, adjust, aimd, signal, target.
  assert (H1 : DEC_FACTOR p = 65536 - update_factor p)
    by (unfold DEC_FACTOR; unfold_consts; apply wrap_small; lia).
  assert (H2 : CNP_DEC_FACTOR p = 65536 - 2 * update_factor p) by (apply factor_spec; lia).
  assert (H5 : NACK_DEC_FACTOR p = 65536 - 5 * update_factor p) by (apply factor_spec; lia).
  destruct (was_nack c && _); [|destruct (was_cnp c || _); [|destruct (base_rtt p <? r)]];
    cbn [fst]; rewrite clip_spec by done; rewrite ?H1, ?H2, ?H5, ?fxp_mult_spec by (unfold_consts; lia);
    try done.
  rewrite wrap_small by (unfold_consts; lia). done.
Qed.

(** An RTT event that reports an uncongested path. *)
Definition uncongested (ts : bool) (p : params) (e : event) : Prop :=
  ev_type e = DOCA_PCC_DEV_EVNT_RTT /\ rtt_value ts e <= base_rtt p.

Lemma algo_uncongested ts p k c res e :
  params_ok p -> base_rtt p < max_delay p -> ctxt_ok p c -> cur_rate c <> 0 ->
  was_cnp c = false -> uncongested ts p e ->
  exists c' k' res', rtt_template_algo ts e p k c res = Some (c', k', res') /\
    ctxt_ok p c' /\ was_cnp c' = false /\ cur_rate c' <> 0 /\ rate res' = cur_rate c' /\
    cur_rate c' = Z.min DOCA_PCC_DEV_MAX_RATE (cur_rate c + ai p).
Proof.
  intros Hp Hbd Hc H0 Hcnp [Ht Hr].
  destruct (algo_ok ts e p k c res Hp Hc) as (c' & k' & res' & Ha & Hc' & Hne & Hres & _);
    [right; by rewrite Ht|].
  exists c', k', res'. split; [done|]. split; [done|].
  unfold rtt_template_algo in Ha. rewrite Ht in Ha.
  rewrite (proj2 (Z.eqb_neq _ _) H0) in Ha. cbn [Z.eqb] in Ha.
  change (DOCA_PCC_DEV_EVNT_RTT =? DOCA_PCC_DEV_EVNT_ROCE_TX) with false in Ha.
  change (DOCA_PCC_DEV_EVNT_RTT =? DOCA_PCC_DEV_EVNT_RTT) with true in Ha. cbn beta iota in Ha.
  unfold rtt_template_handle_roce_rtt in Ha.
  destruct Hc as [[?|[Hrate Hpsn]] Hs _]; [done|].
  replace ((rtt_meas_psn c =? 0) && (rtt_req_to_rtt_sent c =? 0)) with false in Ha by lia.
  unfold algorithm_core, adjust in Ha. cbn [was_nack was_cnp] in Ha.
  replace (max_delay p <=? rtt_value ts e) with false in Ha by lia.
  replace (base_rtt p <? rtt_value ts e) with false in Ha by lia.
  rewrite Hcnp, andb_false_r in Ha. cbn [orb] in Ha. injection Ha as <- <- <-.
  cbn [was_cnp cur_rate rate] in *. split_and!; [done|done|done|].
  rewrite clip_spec by by apply min_le_max. destruct Hp, Hrate.
  rewrite wrap_small by (unfold_consts; lia). unfold_consts. lia.
Qed.

(** ** Properties *)

(** C38: every rate sent to the NIC is legal.  For any sequence of events of a
    new flow (of any type, in any order, with any timestamps and flags) in
    which at most 32 TX events separate RTT events, the algorithm runs without
    undefined behaviour and every rate it returns lies between the minimal-rate
    parameter and the maximal rate. *)
Theorem rtt_rates_in_bounds ts p k res evs :
  params_ok p -> tx_bursts_ok 0 evs = true ->
  exists c k' out, run ts evs p k ctxt0 res = Some (c, k', out) /\ length out = length evs /\
    Forall (fun r => rate_ok p (rate r)) out.
Proof.
  intros Hp Hb.
  destruct (run_ok ts p evs 0 k ctxt0 res Hp (ctxt0_ok p)) as (c & k' & out & Hr & _ & Hl & Hf & _);
    [simpl; lia|done|]. eauto 6.
Qed.

(** the control law is additive increase, multiplicative decrease.  With an
    update factor of at most a fifth (the default is a tenth), one run of the
    algorithm core returns exactly the rate of the law [aimd], clipped to the
    legal rates, and a congestion signal never raises a rate. *)
Theorem rtt_core_is_aimd c r cur p :
  params_ok p -> 5 * update_factor p <= 65536 -> rate_ok p cur ->
  fst (algorithm_core c r cur p) = aimd (signal c r p) cur p /\
  (signal c r p <> NoCongestion -> fst (algorithm_core c r cur p) <= cur) /\
  (signal c r p = NoCongestion -> cur <= fst (algorithm_core c r cur p)).
Proof.
  intros Hp Huf Hr. rewrite core_aimd by done. destruct Hr as [Hr1 Hr2], Hp.
  assert (Hdec : forall n, 0 <= n -> (65536 - n * update_factor p) * cur / 65536 <= cur).
  { intros n Hn. apply Z.div_le_upper_bound; [lia|].
    assert (0 <= n * update_factor p * cur) by (repeat apply Z.mul_nonneg_nonneg; lia). nia. }
  split_and!; [done| |]; unfold aimd; destruct (signal c r p); try done; intros _; unfold target.
  - specialize (Hdec 5). lia.
  - specialize (Hdec 2). lia.
  - specialize (Hdec 1). rewrite Z.mul_1_l in Hdec. lia.
  - lia.
Qed.

(** The measured round trip time is right, except that a measurement whose
    timestamps straddle the wrap of the 32-bit clock is one tick short. *)
Theorem rtt_measured ts e d :
  in_u 32 (rtt_req_send_timestamp e) -> in_u 32 d ->
  end_rtt ts e = u32 (rtt_req_send_timestamp e + d) ->
  rtt_value ts e = if rtt_req_send_timestamp e + d <? 2 ^ 32 then d else d - 1.
Proof.
  intros Hs Hd He. unfold rtt_value. rewrite He.
  set (s := rtt_req_send_timestamp e) in *. clearbody s. clear He.
  assert (Hsu : forall x, u32 (s32 x) = u32 x).
  { intros x. unfold wrap, swrap. change (2 ^ (32 - 1)) with 2147483648. change (2 ^ 32) with 4294967296.
    Z.div_mod_to_equations. lia. }
  destruct (Z.ltb_spec (s + d) (2 ^ 32)).
  - rewrite (wrap_small 32 (s + d)) by (unfold in_u in *; lia).
    replace (s + d <? s) with false by (unfold in_u in *; lia). rewrite Hsu.
    rewrite wrap_idemp by lia. replace (s + d - s) with d by lia. by apply wrap_id.
  - assert (Hw : u32 (s + d) = s + d - 2 ^ 32) by solve_wrap. rewrite Hw.
    replace (s + d - 2 ^ 32 <? s) with true by (unfold in_u in *; lia).
    rewrite !Hsu. rewrite !wrap_idemp by lia. rewrite wrap_add_l. solve_wrap.
Qed.

(** no RTT response is ever ignored.  The guard that is to drop the RTT
    response of an aborted request never holds once the flow exists: after any
    sequence of events, the next RTT event resets the abort counter, requests
    another measurement and changes the rate by the control law. *)
Theorem rtt_response_always_used ts p k res evs e :
  params_ok p -> tx_bursts_ok 0 evs = true -> evs <> [] ->
  exists c k' out, run ts evs p k ctxt0 res = Some (c, k', out) /\
    let '(c', res') := rtt_template_handle_roce_rtt ts e (cur_rate c) p c in
    abort_cnt c' = 0 /\ rtt_req res' = 1 /\
    rate res' = fst (algorithm_core c (rtt_value ts e) (cur_rate c) p).
Proof.
  intros Hp Hb Hne.
  destruct (run_ok ts p evs 0 k ctxt0 res Hp (ctxt0_ok p)) as (c & k' & out & Hr & Hc & _ & _ & H0);
    [simpl; lia|done|].
  exists c, k', out. split; [done|]. specialize (H0 (or_introl Hne)).
  destruct (roce_rtt_ok ts e c p Hp Hc H0) as (c' & res' & Hrun & _ & _ & _ & Hab & Hreq).
  rewrite Hrun. split_and!; [done..|].
  unfold rtt_template_handle_roce_rtt in Hrun. destruct Hc as [[?|[_ Hpsn]] _ _]; [done|].
  replace ((rtt_meas_psn c =? 0) && (rtt_req_to_rtt_sent c =? 0)) with false in Hrun by lia.
  unfold algorithm_core, adjust in *. cbn [was_nack was_cnp] in *.
  destruct (was_nack c && _); [|destruct (was_cnp c || _)]; by injection Hrun as <- <-.
Qed.

(** A flow recovers.  After [n] RTT events that report an uncongested
    path, the rate has grown by [n] additive increases, up to the maximal
    rate. *)
Theorem rtt_recovers ts p evs k c res :
  params_ok p -> base_rtt p < max_delay p -> ctxt_ok p c -> cur_rate c <> 0 -> was_cnp c = false ->
  Forall (uncongested ts p) evs -> evs <> [] ->
  exists c' k' out, run ts evs p k c res = Some (c', k', out) /\
    cur_rate c' = Z.min DOCA_PCC_DEV_MAX_RATE (cur_rate c + Z.of_nat (length evs) * ai p).
Proof.
  intros Hp Hbd Hc H0 Hcnp Hevs Hne. revert k c res Hc H0 Hcnp Hne.
  induction Hevs as [|e evs He Hevs IH]; intros k c res Hc H0 Hcnp Hne; [done|]. cbn [run].
  destruct (algo_uncongested ts p k c res e) as (c1 & k1 & res1 & -> & Hc1 & Hcnp1 & Hne1 & _ & Hr1);
    [done..|]. obind.
  destruct evs as [|e2 evs].
  { cbn [run]. obind. do 3 eexists. split; [done|]. simpl length. rewrite Hr1. f_equal. lia. }
  destruct (IH k1 c1 res1) as (c2 & k2 & out & -> & Hr2); [done..|]. obind.
  do 3 eexists. split; [done|]. rewrite Hr2, Hr1. destruct Hp. unfold_consts.
  cbn [length] in *. lia.
Qed.

(** ** Witnesses: the default parameters *)

Lemma default_params_ok : params_ok default_params.
Proof. split; vm_compute; split || idtac; discriminate. Qed.

Definition mk_event (t flags now sent : Z) : event :=
  {| ev_type := t; ev_flags := flags; port_num := 0; timestamp := now;
     rtt_req_send_timestamp := sent; rtt_req_recv_timestamp := 0 |}.

Definition sample_events : list event :=
  [mk_event 3 0 100 0; mk_event 3 4 200 0; mk_event 6 0 20200 200; mk_event 2 0 20300 0;
   mk_event 6 0 30300 20300].

Lemma rtt_rates_in_bounds_witness :
  exists c k' out, run false sample_events default_params None ctxt0 (Results 0 0) = Some (c, k', out) /\
    length out = length sample_events /\ Forall (fun r => rate_ok default_params (rate r)) out.
Proof. apply rtt_rates_in_bounds; [exact default_params_ok | reflexivity]. Defined.

(** The rates of that run: the starting rate, then decreases of 10% and 20%. *)
Example sample_run :
  (fun '(_, _, out) => map rate out) <$> run false sample_events default_params None ctxt0 (Results 0 0) =
  Some [1048576; 1048576; 943728; 943728; 754999].
Proof. reflexivity. Qed.

Lemma rtt_core_is_aimd_witness :
  fst (algorithm_core ctxt0 200000 1000000 default_params) = 800018.
Proof.
  rewrite (proj1 (rtt_core_is_aimd ctxt0 200000 1000000 default_params default_params_ok
    ltac:(vm_compute; discriminate) ltac:(vm_compute; split; discriminate))).
  reflexivity.
Defined.

Lemma rtt_measured_witness : rtt_value false (mk_event 6 0 5 (2 ^ 32 - 10)) = 14.
Proof.
  apply (rtt_measured false (mk_event 6 0 5 (2 ^ 32 - 10)) 15);
    [vm_compute; split; congruence | vm_compute; split; congruence | reflexivity].
Defined.

Lemma rtt_response_always_used_witness :
  exists c k' out, run false sample_events default_params None ctxt0 (Results 0 0) = Some (c, k', out) /\
    let '(c', res') := rtt_template_handle_roce_rtt false (mk_event 6 0 9 3) (cur_rate c) default_params c in
    abort_cnt c' = 0 /\ rtt_req res' = 1 /\
    rate res' = fst (algorithm_core c 6 (cur_rate c) default_params).
Proof.
  apply (rtt_response_always_used false default_params None (Results 0 0) sample_events (mk_event 6 0 9 3));
    [exact default_params_ok | reflexivity | discriminate].
Defined.

Definition slow_ctxt : ctxt := Ctxt 64 0 0 false false 0 0 1.

Lemma slow_ctxt_ok : ctxt_ok default_params slow_ctxt.
Proof.
  split; [right; split; [vm_compute; split; discriminate | right; simpl; lia] | right; simpl; lia | simpl; lia].
Qed.

Lemma rtt_recovers_witness :
  exists c' k' out, run false (replicate 20 (mk_event 6 0 1000 0)) default_params None slow_ctxt (Results 0 0) =
      Some (c', k', out) /\ cur_rate c' = 1048576 .
Proof.
  apply (rtt_recovers false default_params (replicate 20 (mk_event 6 0 1000 0)) None slow_ctxt (Results 0 0));
    [exact default_params_ok | reflexivity | exact slow_ctxt_ok | discriminate | reflexivity | | discriminate].
  apply Forall_replicate. split; [reflexivity | vm_compute; discriminate].
Defined.

(** With 33 TX events in a row, each over the abort time, the shift by the
    abort counter is undefined. *)
Example rtt_abort_overflow :
  run false (map (fun i => mk_event 3 (if i =? 1 then 4 else 0) (if i =? 1 then 0 else 2 ^ 32 - 1) 0)
               (seqZ 0 35)) default_params None ctxt0 (Results 0 0) = None.
Proof. vm_compute. reflexivity. Qed.
