(* ===== verification/L2Reflector.v ===== *)
(** * The device program of the L2 reflector

    Models l2_reflector/src/device/l2_reflector_device.c with the ring
    constants of l2_reflector_common.h.  The FlexIO getters are the fields of
    the completion and work queue entries; what the FlexIO setters write is
    kept as the arguments they were given, and doorbells, fences and the end of
    the thread are recorded in a trace. *)

From S2P Require Import Prelude.
#[local] Open Scope Z_scope.

(** ** Constants *)

Definition L2_LOG_SQ_RING_DEPTH : Z := 7.
Definition L2_LOG_RQ_RING_DEPTH : Z := 7.
Definition L2_LOG_CQ_RING_DEPTH : Z := 7.
Definition L2_LOG_WQ_DATA_ENTRY_BSIZE : Z := 11.
Definition L2_CQ_IDX_MASK : Z := Z.shiftl 1 L2_LOG_CQ_RING_DEPTH - 1.
Definition L2_RQ_IDX_MASK : Z := Z.shiftl 1 L2_LOG_RQ_RING_DEPTH - 1.
Definition L2_DATA_IDX_MASK : Z := Z.shiftl 1 L2_LOG_SQ_RING_DEPTH - 1.

(** ** Data *)

(** A completion queue entry, as its getters show it. *)
Record cqe64 := { owner : Z; wqe_counter : Z; byte_cnt : Z }.

(** [struct cq_ctx_t]; the pointer [cqe] is its index in the ring. *)
Record cq_ctx_t := Cq {
  cq_number : Z; cq_ring : Z; cqe : Z; cq_idx : Z; cq_hw_owner_bit : Z; cq_dbr : Z
}.

Record rq_ctx_t := Rq { rq_number : Z; rq_ring : Z; rq_dbr : Z }.

Record sq_ctx_t := Sq {
  sq_number : Z; sq_wqe_seg_idx : Z; sq_ring : Z; sq_dbr : Z; sq_pi : Z
}.

Record dt_ctx_t := Dt { sq_tx_buff : Z; tx_buff_idx : Z }.

Record dev_ctx_t := DevCtx {
  lkey : Z; is_initalized : Z;
  rqcq_ctx : cq_ctx_t; sqcq_ctx : cq_ctx_t;
  rq_ctx : rq_ctx_t; sq_ctx : sq_ctx_t; dt_ctx : dt_ctx_t;
  packets_count : Z
}.

(** A segment of a send work queue entry: the setter last called on it. *)
Inductive seg :=
| SegNone
| SegCtrl (pi sqn : Z)
| SegEth (mss checksum : Z)
| SegData (size key addr : Z).

Inductive action :=
| Fence
| SetCqCi (dbr ci : Z)
| RingSqDb (pi sqn : Z)
| IncRqPi (dbr : Z)
| ArmCq (ci cqn : Z)
| Reschedule.

(** The memory the device shares with the NIC. *)
Record shared := Shared {
  cqes : list cqe64;       (* the RQ's completion queue *)
  rwqes : list Z;          (* where each receive WQE points in [rx] *)
  rx : list Z;             (* received bytes *)
  tx : list Z;             (* the transmit buffer *)
  sq_segs : list seg;      (* the send queue *)
  trace : list action      (* latest first *)
}.

Record device := Device { ctx : dev_ctx_t; shm : shared }.

(** What the host passes to the initialisation. *)
Record app_transfer_cq := { cq_num : Z; cq_ring_daddr : Z; cq_dbr_daddr : Z }.
Record app_transfer_wq := {
  wq_num : Z; wqd_mkey_id : Z; wq_ring_daddr : Z; wq_dbr_daddr : Z; wqd_daddr : Z
}.
Record l2_reflector_data := {
  rq_cq_data : app_transfer_cq; rq_data : app_transfer_wq;
  sq_cq_data : app_transfer_cq; sq_data : app_transfer_wq
}.

(** ** Operations *)

Definition init_cq (app_cq : app_transfer_cq) (c : cq_ctx_t) : cq_ctx_t :=
  Cq (cq_num app_cq) (cq_ring_daddr app_cq) 0 0 1 (cq_dbr_daddr app_cq).

Definition init_rq (app_rq : app_transfer_wq) (c : rq_ctx_t) : rq_ctx_t :=
  Rq (wq_num app_rq) (wq_ring_daddr app_rq) (wq_dbr_daddr app_rq).

(** [sq_dbr++] steps over one 4-byte record; [sq_pi] is not set. *)
Definition init_sq (app_sq : app_transfer_wq) (c : sq_ctx_t) : sq_ctx_t :=
  Sq (wq_num app_sq) 0 (wq_ring_daddr app_sq) (wq_dbr_daddr app_sq + 4) (sq_pi c).

Definition l2_reflector_device_init (data : l2_reflector_data) (c : dev_ctx_t) : Z * dev_ctx_t :=
  (0, DevCtx (wqd_mkey_id (sq_data data)) 1
        (init_cq (rq_cq_data data) (rqcq_ctx c)) (init_cq (sq_cq_data data) (sqcq_ctx c))
        (init_rq (rq_data data) (rq_ctx c)) (init_sq (sq_data data) (sq_ctx c))
        (Dt (wqd_daddr (sq_data data)) 0) (packets_count c)).

(** The entry, as an offset in the buffer. *)
Definition get_next_dte (d : dt_ctx_t) (dt_idx_mask log_dt_entry_sz : Z) : Z * dt_ctx_t :=
  (u32 (Z.shiftl (Z.land (tx_buff_idx d) dt_idx_mask) log_dt_entry_sz),
   Dt (sq_tx_buff d) (u32 (tx_buff_idx d + 1))).

(** The segment, as an index in the ring. *)
Definition get_next_sqe (s : sq_ctx_t) (sq_idx_mask : Z) : Z * sq_ctx_t :=
  (Z.land (sq_wqe_seg_idx s) sq_idx_mask,
   Sq (sq_number s) (u32 (sq_wqe_seg_idx s + 1)) (sq_ring s) (sq_dbr s) (sq_pi s)).

Definition step_cq (c : cq_ctx_t) (cq_idx_mask : Z) : cq_ctx_t * list action :=
  let idx := u32 (cq_idx c + 1) in
  let own := if Z.land idx cq_idx_mask =? 0 then (if cq_hw_owner_bit c =? 0 then 1 else 0)
             else cq_hw_owner_bit c in
  (Cq (cq_number c) (cq_ring c) (Z.land idx cq_idx_mask) idx own (cq_dbr c),
   [SetCqCi (cq_dbr c) idx; Fence]).

(** [memcpy(dst + off, src + from, n)] between the two buffers. *)
Definition memcpy (dst src : list Z) (off from n : Z) : option (list Z) :=
  if decide (0 <= off /\ 0 <= from /\ 0 <= n /\ off + n <= Z.of_nat (length dst) /\
             from + n <= Z.of_nat (length src))
  then Some (take (Z.to_nat off) dst ++ take (Z.to_nat n) (drop (Z.to_nat from) src) ++
             drop (Z.to_nat (off + n)) dst)
  else None.

Definition nb_mac_address_bytes : Z := 6.

(** The loop that exchanges the MAC addresses, from index [byte] on. *)
Fixpoint swap_macs (n : nat) (byte off : Z) (buf : list Z) : option (list Z) :=
  match n with
  | O => Some buf
  | S n' =>
      tmp ← rd buf (off + byte);
      b ← rd buf (off + byte + nb_mac_address_bytes);
      buf1 ← wr buf (off + byte) b;
      buf2 ← wr buf1 (off + byte + nb_mac_address_bytes) tmp;
      swap_macs n' (byte + 1) off buf2
  end.

Section Device.
(** FlexIO's constant: a send WQE has [2 ^ LOG_SQE_NUM_SEGS] segments. *)
Context (LOG_SQE_NUM_SEGS : Z).

Definition L2_SQ_IDX_MASK : Z := Z.shiftl 1 (L2_LOG_SQ_RING_DEPTH + LOG_SQE_NUM_SEGS) - 1.

Definition process_packet (d : device) : option device :=
  let c := ctx d in
  let m := shm d in
  e ← rd (cqes m) (cqe (rqcq_ctx c));
  rq_data ← rd (rwqes m) (Z.land (wqe_counter e) L2_RQ_IDX_MASK);
  let '(off, dt1) := get_next_dte (dt_ctx c) L2_DATA_IDX_MASK L2_LOG_WQ_DATA_ENTRY_BSIZE in
  tx1 ← memcpy (tx m) (rx m) off rq_data (byte_cnt e);
  tx2 ← swap_macs (Z.to_nat nb_mac_address_bytes) 0 off tx1;
  let '(s1, q1) := get_next_sqe (sq_ctx c) L2_SQ_IDX_MASK in
  r1 ← wr (sq_segs m) s1 (SegCtrl (sq_pi q1) (sq_number q1));
  let '(s2, q2) := get_next_sqe q1 L2_SQ_IDX_MASK in
  r2 ← wr r1 s2 (SegEth 0 0);
  let '(s3, q3) := get_next_sqe q2 L2_SQ_IDX_MASK in
  r3 ← wr r2 s3 (SegData (byte_cnt e) (lkey c) (u64 (sq_tx_buff dt1 + off)));
  let '(_, q4) := get_next_sqe q3 L2_SQ_IDX_MASK in
  let q5 := Sq (sq_number q4) (sq_wqe_seg_idx q4) (sq_ring q4) (sq_dbr q4) (u32 (sq_pi q4 + 1)) in
  Some (Device
    (DevCtx (lkey c) (is_initalized c) (rqcq_ctx c) (sqcq_ctx c) (rq_ctx c) q5 dt1 (packets_count c))
    (Shared (cqes m) (rwqes m) (rx m) tx2 r3
       ([IncRqPi (rq_dbr (rq_ctx c)); Fence; RingSqDb (sq_pi q5) (sq_number q5); Fence] ++ trace m))).

Definition add_trace (acts : list action) (m : shared) : shared :=
  Shared (cqes m) (rwqes m) (rx m) (tx m) (sq_segs m) (acts ++ trace m).

(** The polling loop; [fuel] bounds its turns. *)
Fixpoint poll (fuel : nat) (d : device) : option device :=
  match fuel with
  | O => None
  | S fuel' =>
      let q := rqcq_ctx (ctx d) in
      e ← rd (cqes (shm d)) (cqe q);
      if owner e =? cq_hw_owner_bit q then Some d
      else
        d1 ← process_packet (Device (ctx d) (add_trace [Fence] (shm d)));
        let c1 := ctx d1 in
        let '(q', acts) := step_cq (rqcq_ctx c1) L2_CQ_IDX_MASK in
        poll fuel' (Device
          (DevCtx (lkey c1) (is_initalized c1) q' (sqcq_ctx c1) (rq_ctx c1) (sq_ctx c1) (dt_ctx c1)
             (packets_count c1))
          (add_trace acts (shm d1)))
  end.

(** [flexio_dev_thread_reschedule] ends the thread's run. *)
Definition l2_reflector_device_event_handler (fuel : nat) (d : device) : option device :=
  if is_initalized (ctx d) =? 0 then Some (Device (ctx d) (add_trace [Reschedule] (shm d)))
  else
    d1 ← poll fuel d;
    let q := rqcq_ctx (ctx d1) in
    Some (Device (ctx d1) (add_trace [Reschedule; ArmCq (cq_idx q) (cq_number q); Fence] (shm d1))).
End Device.

(** ** Specification *)

(** The completion queue protocol: entry number [k] (from 0, the initial
    entries counting as -128 to -1) lies at [k mod 128], and carries the parity
    of its epoch as the owner bit. *)
Definition owner_at (k : Z) : Z := (k / 128) mod 2.

(** The queue after the NIC posted [pi] entries. *)
Definition cq_posted (ring : list cqe64) (pi : Z) : Prop :=
  length ring = 128%nat /\
  forall k, pi - 128 <= k < pi -> exists e, rd ring (k mod 128) = Some e /\ owner e = owner_at k.

(** A consumer that has taken the entries before [ci]. *)
Record consumer_at (c : cq_ctx_t) (ci : Z) : Prop := {
  con_idx : cq_idx c = u32 ci;
  con_cqe : cqe c = ci mod 128;
  con_bit : cq_hw_owner_bit c = 1 - owner_at ci
}.

Definition slice (off n : Z) (l : list Z) : list Z := take (Z.to_nat n) (drop (Z.to_nat off) l).

(** A frame with its first two six-byte fields exchanged. *)
Definition reflect (p : list Z) : list Z := take 6 (drop 6 p) ++ take 6 p ++ drop 12 p.

(** The buffers the host sets up: 128 receive WQEs, each with room for 2048
    bytes, a transmit buffer of 128 entries and a send queue of 128 WQEs. *)
Record buffers_ok (m : shared) : Prop := {
  buf_rwqes : length (rwqes m) = 128%nat;
  buf_rx : Forall (fun a => 0 <= a /\ a + 2048 <= Z.of_nat (length (rx m))) (rwqes m);
  buf_tx : Z.of_nat (length (tx m)) = 128 * 2048;
  buf_sq : length (sq_segs m) = 512%nat
}.

(** The device after [n] packets. *)
Record device_at (d : device) (n : Z) : Prop := {
  dev_nonneg : 0 <= n;
  dev_init : is_initalized (ctx d) = 1;
  dev_cq : consumer_at (rqcq_ctx (ctx d)) n;
  dev_dt : tx_buff_idx (dt_ctx (ctx d)) = u32 n;
  dev_seg : sq_wqe_seg_idx (sq_ctx (ctx d)) = u32 (4 * n);
  dev_pi : sq_pi (sq_ctx (ctx d)) = u32 n;
  dev_buffers : buffers_ok (shm d)
}.

(** The received frame that completion entry [e] announces. *)
Definition frame (m : shared) (e : cqe64) : option (list Z) :=
  a ← rd (rwqes m) (Z.land (wqe_counter e) L2_RQ_IDX_MASK); Some (slice a (byte_cnt e) (rx m)).

(** Completion entry [k] is there and announces a whole frame. *)
Definition pending (m : shared) (k : Z) : Prop :=
  exists e, rd (cqes m) (k mod 128) = Some e /\ 12 <= byte_cnt e <= 2048 /\ 0 <= wqe_counter e.

(** Packet [k] was reflected: its entry of the transmit buffer holds the
    reflected frame, and its send WQE points there. *)
Definition reflected (c : dev_ctx_t) (m : shared) (k : Z) : Prop :=
  exists e p, rd (cqes m) (k mod 128) = Some e /\ 12 <= byte_cnt e <= 2048 /\ frame m e = Some p /\
    slice (k mod 128 * 2048) (byte_cnt e) (tx m) = reflect p /\
    rd (sq_segs m) (4 * k mod 512) = Some (SegCtrl (u32 k) (sq_number (sq_ctx c))) /\
    rd (sq_segs m) (4 * k mod 512 + 1) = Some (SegEth 0 0) /\
    rd (sq_segs m) (4 * k mod 512 + 2) =
      Some (SegData (byte_cnt e) (lkey c) (u64 (sq_tx_buff (dt_ctx c) + k mod 128 * 2048))).

(** What the program does to the NIC for packet [k], latest first: it reads the
    completion before the packet, announces the send WQE, gives the receive WQE
    back and takes the completion. *)
Definition packet_actions (c : dev_ctx_t) (k : Z) : list action :=
  [SetCqCi (cq_dbr (rqcq_ctx c)) (u32 (k + 1)); Fence; IncRqPi (rq_dbr (rq_ctx c)); Fence;
   RingSqDb (u32 (k + 1)) (sq_number (sq_ctx c)); Fence; Fence].
Definition packets_actions (c : dev_ctx_t) (n p : Z) : list action :=
  concat (map (packet_actions c) (rev (seqZ n p))).

(** The parts of the context that only the initialisation sets. *)
Definition setup (c : dev_ctx_t) :=
  (lkey c, is_initalized c, cq_number (rqcq_ctx c), cq_dbr (rqcq_ctx c), rq_ctx c, sqcq_ctx c,
   sq_number (sq_ctx c), sq_tx_buff (dt_ctx c)).

Lemma packets_actions_first c n p :
  0 <= p -> packets_actions c n (p + 1) = packets_actions c (n + 1) p ++ packet_actions c n.
Proof.
  intros Hp. unfold packets_actions. rewrite seqZ_cons by lia. cbn [rev]. rewrite map_app, concat_app. cbn [map concat].
  rewrite app_nil_r. do 5 f_equal; lia.
Qed.

Lemma packets_actions_setup c c' n p : setup c = setup c' -> packets_actions c n p = packets_actions c' n p.
Proof.
  intros [= _ _ _ Hd Hr _ Hs _]. unfold packets_actions. f_equal. apply map_ext. intros k.
  unfold packet_actions. by rewrite Hd, Hr, Hs.
Qed.

(** ** Lemmas: indices *)

Lemma land_127 x : Z.land x 127 = x mod 128.
Proof. change 127 with (Z.ones 7). by rewrite Z.land_ones. Qed.

Lemma land_511 x : Z.land x 511 = x mod 512.
Proof. change 511 with (Z.ones 9). by rewrite Z.land_ones. Qed.

Lemma u32_mod_128 k : u32 k mod 128 = k mod 128.
Proof. unfold wrap. change (2 ^ 32) with (128 * 33554432). by rewrite Z.rem_mul_r, Z.mul_comm, Z_mod_plus_full, Zmod_mod. Qed.

Lemma u32_mod_512 k : u32 k mod 512 = k mod 512.
Proof. unfold wrap. change (2 ^ 32) with (512 * 8388608). by rewrite Z.rem_mul_r, Z.mul_comm, Z_mod_plus_full, Zmod_mod. Qed.

Lemma owner_at_cases k : owner_at k = 0 \/ owner_at k = 1.
Proof. unfold owner_at. Z.div_mod_to_equations. lia. Qed.

(** The parity of the epoch flips exactly at the multiples of the depth. *)
Lemma owner_at_next k :
  owner_at (k + 1) = if (k + 1) mod 128 =? 0 then 1 - owner_at k else owner_at k.
Proof. unfold owner_at. destruct (Z.eqb_spec ((k + 1) mod 128) 0); Z.div_mod_to_equations; lia. Qed.

Lemma owner_at_epoch k : owner_at (k - 128) = 1 - owner_at k.
Proof. unfold owner_at. Z.div_mod_to_equations. lia. Qed.

Lemma step_cq_consumer c k :
  consumer_at c k -> consumer_at (fst (step_cq c L2_CQ_IDX_MASK)) (k + 1).
Proof.
  intros [Hi Hc Hb]. unfold step_cq. change L2_CQ_IDX_MASK with 127.
  rewrite land_127, Hi, wrap_add_l, u32_mod_128. split; cbn [fst cq_idx cqe cq_hw_owner_bit]; try done.
  rewrite Hb, owner_at_next. destruct (owner_at_cases k) as [-> | ->]; by case_bool.
Qed.

(** The polling test tells whether another entry has been posted. *)
Lemma poll_test ring pi c ci :
  cq_posted ring pi -> consumer_at c ci -> pi - 128 <= ci <= pi ->
  exists e, rd ring (cqe c) = Some e /\ (owner e =? cq_hw_owner_bit c) = (ci =? pi).
Proof.
  intros [_ Hr] [_ Hc Hb] Hle. rewrite Hc, Hb. destruct (Z.eqb_spec ci pi) as [->|Hne].
  - destruct (Hr (pi - 128)) as (e & He & Ho); [lia|]. exists e. split.
    + rewrite <- He. f_equal. Z.div_mod_to_equations. lia.
    + rewrite Ho, owner_at_epoch. apply Z.eqb_refl.
  - destruct (Hr ci) as (e & He & Ho); [lia|]. exists e. split; [done|].
    rewrite Ho. destruct (owner_at_cases ci) as [-> | ->]; done.
Qed.

(** ** Lemmas: bytes *)

Lemma length_slice off n l :
  0 <= off -> 0 <= n -> off + n <= Z.of_nat (length l) -> Z.of_nat (length (slice off n l)) = n.
Proof. intros. unfold slice. rewrite length_take, length_drop. lia. Qed.

Lemma memcpy_Some dst src off from n :
  0 <= off -> 0 <= from -> 0 <= n -> off + n <= Z.of_nat (length dst) ->
  from + n <= Z.of_nat (length src) ->
  exists dst', memcpy dst src off from n = Some dst' /\ length dst' = length dst /\
    slice off n dst' = slice from n src /\
    (forall o m, 0 <= o -> 0 <= m -> o + m <= off \/ off + n <= o ->
       slice o m dst' = slice o m dst).
Proof.
  intros. unfold memcpy. rewrite decide_True by (split_and!; lia). eexists. split; [done|].
  set (new := take (Z.to_nat n) (drop (Z.to_nat from) src)).
  assert (Hn : length new = Z.to_nat n) by (subst new; rewrite length_take, length_drop; lia).
  assert (Ho : length (take (Z.to_nat off) dst) = Z.to_nat off) by (rewrite length_take; lia).
  split_and!.
  - rewrite !length_app, length_drop, Hn, Ho. lia.
  - unfold slice. rewrite drop_app_length' by done. by rewrite take_app_length' by done.
  - intros o m ? ? [Hlo | Hhi]; unfold slice.
    + apply list_eq. intros i. destruct (Nat.lt_ge_cases i (Z.to_nat m)).
      * rewrite !lookup_take_lt, !lookup_drop by done. rewrite lookup_app_l by (rewrite Ho; lia).
        by rewrite lookup_take_lt by lia.
      * by rewrite !lookup_take_ge by done.
    + f_equal. rewrite app_assoc, drop_app, drop_drop, length_app, Hn, Ho.
      rewrite drop_ge by (rewrite length_app, Hn, Ho; lia). simpl. f_equal. lia.
Qed.

Definition swapped (byte off : Z) (buf : list Z) (i : Z) : option Z :=
  if decide (off + byte <= i < off + 6) then rd buf (i + 6)
  else if decide (off + 6 + byte <= i < off + 12) then rd buf (i - 6)
  else rd buf i.

Lemma rd_insert {A} (l : list A) i v j :
  0 <= i < Z.of_nat (length l) -> rd (<[Z.to_nat i := v]> l) j = if decide (i = j) then Some v else rd l j.
Proof.
  intros Hi. assert (Hw := wr_Some l i v Hi).
  case_decide as E; [subst; by eapply rd_wr_eq | by eapply rd_wr_ne].
Qed.

Lemma swap_macs_spec n byte off buf :
  0 <= byte -> byte + Z.of_nat n = 6 -> 0 <= off -> off + 12 <= Z.of_nat (length buf) ->
  exists buf', swap_macs n byte off buf = Some buf' /\ length buf' = length buf /\
    forall i, rd buf' i = swapped byte off buf i.
Proof.
  revert byte buf. induction n as [|n IH]; intros byte buf Hb Hn Ho Hl; cbn [swap_macs].
  { exists buf. split_and!; [done..|]. intros i. unfold swapped.
    by rewrite !decide_False by lia. }
  unfold nb_mac_address_bytes.
  destruct (rd_Some buf (off + byte)) as [t Ht]; [lia|].
  destruct (rd_Some buf (off + byte + 6)) as [b Hb6]; [lia|].
  rewrite Ht. obind. rewrite Hb6. obind. rewrite wr_Some by lia. obind.
  rewrite wr_Some by (rewrite length_insert; lia). obind.
  set (buf2 := <[_:=_]> _).
  assert (H2 : forall i, rd buf2 i = if decide (off + byte + 6 = i) then Some t
                                      else if decide (off + byte = i) then Some b else rd buf i).
  { intros i. subst buf2. by rewrite !rd_insert by (rewrite ?length_insert; lia). }
  destruct (IH (byte + 1) buf2) as (buf' & -> & Hlen & Hsw); [lia|lia|done| |].
  { subst buf2. rewrite !length_insert. lia. }
  exists buf'. split; [done|]. split; [subst buf2; by rewrite Hlen, !length_insert|].
  intros i. rewrite Hsw. unfold swapped. rewrite !H2.
  repeat case_decide; try lia; try done; rewrite <- ?Ht, <- ?Hb6; f_equal; lia.
Qed.

Lemma lookup_slice off n l (j : nat) :
  0 <= off -> 0 <= n -> Z.of_nat j < n -> slice off n l !! j = rd l (off + Z.of_nat j).
Proof.
  intros. unfold slice, rd. rewrite decide_True by lia.
  rewrite lookup_take_lt, lookup_drop by lia. f_equal. lia.
Qed.

Lemma slice_ext off n l l' :
  0 <= off -> 0 <= n -> (forall j, 0 <= j < n -> rd l (off + j) = rd l' (off + j)) ->
  slice off n l = slice off n l'.
Proof.
  intros. apply list_eq. intros j. destruct (Z.lt_ge_cases (Z.of_nat j) n).
  - rewrite !lookup_slice by lia. apply H1. lia.
  - unfold slice. by rewrite !lookup_take_ge by lia.
Qed.

Lemma reflect_lookup p (j : nat) :
  (12 <= length p)%nat ->
  reflect p !! j = if decide (j < 6)%nat then p !! (j + 6)%nat
                   else if decide (j < 12)%nat then p !! (j - 6)%nat else p !! j.
Proof.
  intros Hl. unfold reflect.
  assert (H1 : length (take 6 (drop 6 p)) = 6%nat) by (rewrite length_take, length_drop; lia).
  assert (H2 : length (take 6 p) = 6%nat) by (rewrite length_take; lia).
  case_decide.
  - rewrite lookup_app_l by lia. rewrite lookup_take_lt, lookup_drop by lia. f_equal. lia.
  - rewrite lookup_app_r by lia. case_decide.
    + rewrite lookup_app_l by lia. by rewrite lookup_take_lt, H1 by lia.
    + rewrite lookup_app_r by lia. rewrite lookup_drop. f_equal. lia.
Qed.

(** Exchanging the addresses at the head of a slice reflects it. *)
Lemma swap_macs_reflect off n buf :
  0 <= off -> 12 <= n -> off + n <= Z.of_nat (length buf) ->
  exists buf', swap_macs 6 0 off buf = Some buf' /\ length buf' = length buf /\
    slice off n buf' = reflect (slice off n buf) /\
    (forall o m, 0 <= o -> 0 <= m -> o + m <= off \/ off + n <= o -> slice o m buf' = slice o m buf).
Proof.
  intros Ho Hn Hl. destruct (swap_macs_spec 6 0 off buf) as (buf' & Hs & Hlen & Hi); [lia..|].
  exists buf'. split_and!; [done..| |].
  - apply list_eq. intros j. pose proof (length_slice off n buf Ho ltac:(lia) Hl) as Hsl.
    rewrite reflect_lookup by lia. destruct (Z.lt_ge_cases (Z.of_nat j) n).
    + rewrite lookup_slice, Hi by lia. unfold swapped.
      repeat case_decide; try lia; rewrite lookup_slice by lia; f_equal; lia.
    + repeat case_decide; try lia. unfold slice. by rewrite !lookup_take_ge by lia.
  - intros o m ? ? Hd. apply slice_ext; [done..|]. intros j Hj. rewrite Hi. unfold swapped.
    by rewrite !decide_False by lia.
Qed.

Lemma get_next_dte_at d k :
  tx_buff_idx d = u32 k -> 0 <= k ->
  get_next_dte d L2_DATA_IDX_MASK L2_LOG_WQ_DATA_ENTRY_BSIZE =
    (k mod 128 * 2048, Dt (sq_tx_buff d) (u32 (k + 1))).
Proof.
  intros Hi Hk. unfold get_next_dte. change L2_DATA_IDX_MASK with 127.
  rewrite Hi, land_127, u32_mod_128, wrap_add_l, Z.shiftl_mul_pow2 by done.
  change (2 ^ L2_LOG_WQ_DATA_ENTRY_BSIZE) with 2048. f_equal. apply wrap_small.
  Z.div_mod_to_equations. lia.
Qed.

Lemma get_next_sqe_at q k :
  sq_wqe_seg_idx q = u32 k ->
  get_next_sqe q (L2_SQ_IDX_MASK 2) =
    (k mod 512, Sq (sq_number q) (u32 (k + 1)) (sq_ring q) (sq_dbr q) (sq_pi q)).
Proof.
  intros Hi. unfold get_next_sqe. change (L2_SQ_IDX_MASK 2) with 511.
  by rewrite Hi, land_511, u32_mod_512, wrap_add_l.
Qed.

Lemma frame_Some m e :
  buffers_ok m -> 12 <= byte_cnt e <= 2048 ->
  exists a, rd (rwqes m) (Z.land (wqe_counter e) L2_RQ_IDX_MASK) = Some a /\ 0 <= a /\
    a + byte_cnt e <= Z.of_nat (length (rx m)).
Proof.
  intros [Hl Hf _ _] Hb. change L2_RQ_IDX_MASK with 127. rewrite land_127.
  destruct (rd_Some (rwqes m) (wqe_counter e mod 128)) as [a Ha];
    [rewrite Hl; pose proof (Z.mod_pos_bound (wqe_counter e) 128); lia|].
  exists a. split; [done|]. unfold rd in Ha. case_decide; [|done].
  rewrite Forall_lookup in Hf. destruct (Hf _ _ Ha). lia.
Qed.

(** The three segments written for packet [k]. *)
Definition wqe_segs (k : Z) (v1 v2 v3 : seg) (segs : list seg) : list seg :=
  <[Z.to_nat (4 * k mod 512 + 2) := v3]> (<[Z.to_nat (4 * k mod 512 + 1) := v2]>
    (<[Z.to_nat (4 * k mod 512) := v1]> segs)).

Lemma wqe_segs_rd k v1 v2 v3 segs i :
  length segs = 512%nat ->
  rd (wqe_segs k v1 v2 v3 segs) i =
    if decide (4 * k mod 512 + 2 = i) then Some v3
    else if decide (4 * k mod 512 + 1 = i) then Some v2
    else if decide (4 * k mod 512 = i) then Some v1 else rd segs i.
Proof.
  intros Hl. unfold wqe_segs.
  assert (0 <= 4 * k mod 512 /\ 4 * k mod 512 + 3 < 512) by (Z.div_mod_to_equations; lia).
  by rewrite !rd_insert by (rewrite ?length_insert, Hl; lia).
Qed.

Definition same_input (m m' : shared) : Prop :=
  cqes m' = cqes m /\ rwqes m' = rwqes m /\ rx m' = rx m.

Lemma process_packet_ok d k :
  device_at d k -> pending (shm d) k ->
  exists d', process_packet 2 d = Some d' /\ same_input (shm d) (shm d') /\
    rqcq_ctx (ctx d') = rqcq_ctx (ctx d) /\ is_initalized (ctx d') = 1 /\
    tx_buff_idx (dt_ctx (ctx d')) = u32 (k + 1) /\
    sq_wqe_seg_idx (sq_ctx (ctx d')) = u32 (4 * (k + 1)) /\ sq_pi (sq_ctx (ctx d')) = u32 (k + 1) /\
    setup (ctx d') = setup (ctx d) /\
    trace (shm d') = [IncRqPi (rq_dbr (rq_ctx (ctx d))); Fence;
      RingSqDb (u32 (k + 1)) (sq_number (sq_ctx (ctx d))); Fence] ++ trace (shm d) /\
    buffers_ok (shm d') /\ reflected (ctx d') (shm d') k /\
    (forall j, k - 128 < j < k -> reflected (ctx d) (shm d) j -> reflected (ctx d') (shm d') j).
Proof.
  intros [Hk Hin [_ Hcqe _] Hdt Hseg Hpi Hbuf] (e & He & Hcnt & Hw).
  destruct (frame_Some _ e Hbuf Hcnt) as (a & Ha & Ha0 & Ha1).
  pose proof Hbuf as [Hrw Hrx Htx Hsq].
  unfold process_packet. rewrite Hcqe, He. obind. rewrite Ha. obind.
  rewrite (get_next_dte_at _ k) by done.
  set (off := k mod 128 * 2048).
  assert (Hoff : 0 <= off /\ off + 2048 <= 128 * 2048) by (subst off; Z.div_mod_to_equations; lia).
  destruct (memcpy_Some (tx (shm d)) (rx (shm d)) off a (byte_cnt e))
    as (tx1 & -> & Hl1 & Hs1 & Hf1); [lia..|]. obind.
  destruct (swap_macs_reflect off (byte_cnt e) tx1) as (tx2 & Hsw & Hl2 & Hs2 & Hf2); [lia..|].
  change (Z.to_nat nb_mac_address_bytes) with 6%nat. rewrite Hsw. obind.
  assert (Hmod : forall i, 0 <= i < 4 -> (4 * k + i) mod 512 = 4 * k mod 512 + i)
    by (intros; Z.div_mod_to_equations; lia).
  assert (0 <= 4 * k mod 512 /\ 4 * k mod 512 + 3 < 512) by (Z.div_mod_to_equations; lia).
  rewrite (get_next_sqe_at _ (4 * k)) by done. cbn [sq_pi sq_number].
  rewrite wr_Some by (rewrite Hsq; lia). obind.
  rewrite (get_next_sqe_at _ (4 * k + 1)) by done. rewrite Hmod by lia.
  rewrite wr_Some by (rewrite length_insert, Hsq; lia). obind.
  rewrite (get_next_sqe_at _ (4 * k + 1 + 1)) by done. rewrite <- (Z.add_assoc (4 * k) 1 1), Hmod by lia.
  rewrite wr_Some by (rewrite !length_insert, Hsq; lia). obind.
  rewrite (get_next_sqe_at _ (4 * k + (1 + 1) + 1)) by done.
  set (v1 := SegCtrl _ _). set (v3 := SegData _ _ _).
  set (segs' := <[_ := v3]> _). assert (Hsegs : segs' = wqe_segs k v1 (SegEth 0 0) v3 (sq_segs (shm d))) by done.
  eexists. split; [reflexivity|]. cbn [ctx shm sq_ctx dt_ctx rqcq_ctx is_initalized sq_pi tx_buff_idx sq_wqe_seg_idx].
  rewrite Hpi, wrap_add_l. split; [done|]. split_and!; [done|done|done|f_equal; lia|done|..].
  - unfold setup. cbn. destruct (sq_ctx (ctx d)), (dt_ctx (ctx d)). done.
  - done.
  - split; cbn [rwqes rx tx sq_segs]; [done|done|lia|].
    rewrite Hsegs. unfold wqe_segs. by rewrite !length_insert.
  - exists e, (slice a (byte_cnt e) (rx (shm d))). unfold frame. cbn [cqes rwqes rx tx sq_segs sq_number].
    rewrite Ha. obind. fold off. split_and!; [done|lia|lia|done|by rewrite Hs2, Hs1|..]; rewrite Hsegs, wqe_segs_rd by done;
      repeat case_decide; try lia; try done. subst v1. by rewrite Hpi.
  - intros j Hj (e' & p & He' & Hcnt' & Hp & Hsl & Hr1 & Hr2 & Hr3). exists e', p.
    unfold frame in *. cbn [cqes rwqes rx tx sq_segs sq_number]. split_and!; [done|lia|lia|done| | | |].
    + rewrite Hf2, Hf1; [done|..]; subst off; Z.div_mod_to_equations; lia.
    + rewrite Hsegs, wqe_segs_rd by done. rewrite !decide_False by (Z.div_mod_to_equations; lia). done.
    + rewrite Hsegs, wqe_segs_rd by done. rewrite !decide_False by (Z.div_mod_to_equations; lia). done.
    + rewrite Hsegs, wqe_segs_rd by done. rewrite !decide_False by (Z.div_mod_to_equations; lia). done.
Qed.

Lemma add_trace_at acts d k : device_at d k -> device_at (Device (ctx d) (add_trace acts (shm d))) k.
Proof. intros [? ? ? ? ? ? [? ? ? ?]]. by split. Qed.

(** One turn of the loop. *)
Definition turn (d : device) : option device :=
  d1 ← process_packet 2 (Device (ctx d) (add_trace [Fence] (shm d)));
  let c1 := ctx d1 in
  let '(q', acts) := step_cq (rqcq_ctx c1) L2_CQ_IDX_MASK in
  Some (Device
    (DevCtx (lkey c1) (is_initalized c1) q' (sqcq_ctx c1) (rq_ctx c1) (sq_ctx c1) (dt_ctx c1)
       (packets_count c1))
    (add_trace acts (shm d1))).

Lemma turn_ok d k :
  device_at d k -> pending (shm d) k ->
  exists d', turn d = Some d' /\ device_at d' (k + 1) /\ same_input (shm d) (shm d') /\
    setup (ctx d') = setup (ctx d) /\ trace (shm d') = packet_actions (ctx d) k ++ trace (shm d) /\
    reflected (ctx d') (shm d') k /\
    (forall j, k - 128 < j < k -> reflected (ctx d) (shm d) j -> reflected (ctx d') (shm d') j).
Proof.
  intros Hd Hp. unfold turn.
  destruct (process_packet_ok _ k (add_trace_at [Fence] d k Hd) Hp)
    as (d1 & -> & Hsame & Hq & Hin & Hdt & Hseg & Hpi & Hset & Htr & Hbuf & Hr & Hold). obind. cbn [ctx] in *.
  pose proof (step_cq_consumer _ _ (dev_cq _ _ Hd)) as Hcon.
  assert (Hacts : step_cq (rqcq_ctx (ctx d)) L2_CQ_IDX_MASK = (fst (step_cq (rqcq_ctx (ctx d)) L2_CQ_IDX_MASK),
    [SetCqCi (cq_dbr (rqcq_ctx (ctx d))) (u32 (k + 1)); Fence])).
  { unfold step_cq. by rewrite (con_idx _ _ (dev_cq _ _ Hd)), wrap_add_l. }
  assert (Hq' : cq_number (fst (step_cq (rqcq_ctx (ctx d)) L2_CQ_IDX_MASK)) = cq_number (rqcq_ctx (ctx d)) /\
    cq_dbr (fst (step_cq (rqcq_ctx (ctx d)) L2_CQ_IDX_MASK)) = cq_dbr (rqcq_ctx (ctx d))) by done.
  rewrite Hq, Hacts. set (q' := fst _) in *. clearbody q'.
  eexists. split; [reflexivity|]. split_and!; [|done| | |done|exact Hold].
  2:{ injection Hset as ? ? ? ? ? ? ? ?. destruct Hq' as [? ?]. unfold setup. cbn. congruence. }
  2:{ cbn [shm add_trace trace]. by rewrite Htr. }
  pose proof (dev_nonneg _ _ Hd). destruct Hbuf. split; try done; simpl; lia.
Qed.

Lemma poll_step d k pi fuel :
  device_at d k -> cq_posted (cqes (shm d)) pi -> pi - 128 <= k <= pi ->
  poll 2 (S fuel) d = if k =? pi then Some d else d' ← turn d; poll 2 fuel d'.
Proof.
  intros Hd Hcq Hk. cbn [poll].
  destruct (poll_test _ _ _ _ Hcq (dev_cq _ _ Hd) Hk) as (e & He & Ht).
  rewrite He. obind. rewrite Ht. case_bool; [done|]. unfold turn. destruct (process_packet 2 _) as [d1|]; obind; [|done].
  by destruct (step_cq _ _).
Qed.

Lemma poll_ok n : forall fuel d k s,
  device_at d k -> cq_posted (cqes (shm d)) (k + Z.of_nat n) -> k + Z.of_nat n <= s + 128 -> s <= k ->
  (forall j, k <= j < k + Z.of_nat n -> pending (shm d) j) ->
  (forall j, s <= j < k -> reflected (ctx d) (shm d) j) -> (n < fuel)%nat ->
  exists d', poll 2 fuel d = Some d' /\ device_at d' (k + Z.of_nat n) /\ same_input (shm d) (shm d') /\
    setup (ctx d') = setup (ctx d) /\ trace (shm d') = packets_actions (ctx d) k (Z.of_nat n) ++ trace (shm d) /\
    (forall j, s <= j < k + Z.of_nat n -> reflected (ctx d') (shm d') j).
Proof.
  induction n as [|n IH]; intros [|fuel] d k s Hd Hcq Hle Hs Hpend Hrefl Hfuel; try lia;
    rewrite (poll_step d k _ fuel Hd Hcq) by lia.
  - change (Z.of_nat 0) with 0 in *. rewrite Z.add_0_r in *. rewrite Z.eqb_refl. exists d. done.
  - rewrite (proj2 (Z.eqb_neq k _)) by lia.
    destruct (turn_ok d k Hd) as (d1 & -> & Hd1 & (Hc & Hw & Hx) & Hset & Htr & Hr & Hold); [apply Hpend; lia|]. obind.
    replace (k + Z.of_nat (S n)) with (k + 1 + Z.of_nat n) in * by lia.
    destruct (IH fuel d1 (k + 1) s) as (d2 & -> & Hd2 & (Hc2 & Hw2 & Hx2) & Hset2 & Htr2 & Hr2); [done|by rewrite Hc|lia..| | |lia|].
    + intros j Hj. unfold pending. rewrite Hc. apply Hpend. lia.
    + intros j Hj. destruct (Z.eq_dec j k) as [->|]; [done|]. apply Hold; [lia|]. apply Hrefl. lia.
    + exists d2. split; [done|]. split; [done|]. unfold same_input. split_and!; [by rewrite Hc2|by rewrite Hw2|by rewrite Hx2|by rewrite Hset2| |done].
      rewrite Htr2, Htr, (packets_actions_setup _ (ctx d)) by done. replace (Z.of_nat (S n)) with (Z.of_nat n + 1) by lia.
      by rewrite packets_actions_first, <- app_assoc by lia.
Qed.

(** ** Properties *)

(** C35: the event handler reflects every pending frame.  On an initialised
    device that has handled [n] packets, with [p] more completions posted (at
    most the depth of the queue, each for a whole Ethernet frame), the handler
    terminates within [p + 1] tests of the queue, stops exactly at the last
    posted completion, and has sent each frame with its MAC addresses exchanged:
    the transmit entry holds the reflected frame, the three segments of the
    send WQE describe it, and the doorbell of the send queue is rung for it.  All
    that the device tells the NIC is, for each packet in order, that doorbell
    with the next producer index, the return of the receive WQE and the new
    consumer index, with the fences between them, and at the end the arming of
    the completion queue and the end of the thread's run.  The indices stay right
    when the 32-bit counters wrap, and what the initialisation set (key, numbers
    and doorbell addresses of the queues, buffer) stays as it was. *)
Theorem handler_reflects_all d n p fuel :
  device_at d n -> (p <= 128)%nat -> cq_posted (cqes (shm d)) (n + Z.of_nat p) ->
  (forall k, n <= k < n + Z.of_nat p -> pending (shm d) k) -> (p < fuel)%nat ->
  exists d', l2_reflector_device_event_handler 2 fuel d = Some d' /\
    device_at d' (n + Z.of_nat p) /\ rx (shm d') = rx (shm d) /\ setup (ctx d') = setup (ctx d) /\
    (forall k, n <= k < n + Z.of_nat p -> reflected (ctx d') (shm d') k) /\
    trace (shm d') = [Reschedule; ArmCq (u32 (n + Z.of_nat p)) (cq_number (rqcq_ctx (ctx d))); Fence] ++
      packets_actions (ctx d) n (Z.of_nat p) ++ trace (shm d).
Proof.
  intros Hd Hp Hcq Hpend Hf. unfold l2_reflector_device_event_handler. rewrite (dev_init _ _ Hd).
  destruct (poll_ok p fuel d n n) as (d1 & -> & Hd1 & (_ & _ & Hx) & Hset & Htr & Hr); [done..|lia|lia|done|lia|done|].
  obind. cbn [Z.eqb]. eexists. split; [reflexivity|]. split_and!; [by apply add_trace_at|done|done|exact Hr|].
  cbn [shm add_trace trace]. rewrite (con_idx _ _ (dev_cq _ _ Hd1)), Htr. by injection Hset as _ _ -> _ _ _ _ _.
Qed.

(** the completion queue protocol.  From the state [init_cq] sets up, after
    any number of steps, the owner-bit test finds the next entry new exactly
    when the NIC has posted it, never re-reading an entry of an earlier epoch
    nor missing one, provided the NIC is at most a queue's depth ahead. *)
Theorem cq_owner_protocol app c0 ring pi n :
  cq_posted ring pi -> pi - 128 <= Z.of_nat n <= pi ->
  let c := Nat.iter n (fun c => fst (step_cq c L2_CQ_IDX_MASK)) (init_cq app c0) in
  exists e, rd ring (cqe c) = Some e /\ (owner e <> cq_hw_owner_bit c <-> Z.of_nat n < pi).
Proof.
  intros Hcq Hn. cbv zeta. set (c := Nat.iter n _ _).
  assert (Hc : consumer_at c (Z.of_nat n)).
  { subst c. clear. induction n as [|n IH]; [by split|].
    replace (Z.of_nat (S n)) with (Z.of_nat n + 1) by lia. by apply step_cq_consumer. }
  destruct (poll_test _ _ _ _ Hcq Hc Hn) as (e & He & Ht). exists e. split; [done|].
  destruct (Z.eqb_spec (owner e) (cq_hw_owner_bit c)), (Z.eqb_spec (Z.of_nat n) pi); try done; lia.
Qed.

(** exchanging the addresses is its own inverse, keeps the payload and the
    rest of the buffer.  *)
Theorem reflect_frame off n buf :
  0 <= off -> 12 <= n -> off + n <= Z.of_nat (length buf) ->
  exists buf1, swap_macs 6 0 off buf = Some buf1 /\ slice off n buf1 = reflect (slice off n buf) /\
    slice 0 off buf1 = slice 0 off buf /\
    swap_macs 6 0 off buf1 = Some buf.
Proof.
  intros Ho Hn Hl. destruct (swap_macs_spec 6 0 off buf) as (b1 & Hs & Hlen & Hi); [lia..|].
  destruct (swap_macs_reflect off n buf Ho Hn Hl) as (b1' & Hs' & _ & Href & Hrest).
  assert (b1' = b1) as -> by congruence.
  exists b1. split_and!; [done|done|apply Hrest; lia|].
  destruct (swap_macs_spec 6 0 off b1) as (b2 & -> & Hlen2 & Hi2); [lia..|]. f_equal.
  apply list_eq. intros i. assert (Hrd : forall l : list Z, l !! i = rd l (Z.of_nat i)).
  { intros l. unfold rd. rewrite decide_True by lia. by rewrite Nat2Z.id. }
  rewrite !Hrd, Hi2. unfold swapped. rewrite !Hi. unfold swapped.
  repeat case_decide; try lia; f_equal; lia.
Qed.

(** ** Witnesses: two frames on a fresh device *)

Definition cq_posted_b (ring : list cqe64) (pi : Z) : bool :=
  (length ring =? 128)%nat &&
  forallb (fun k => match rd ring (k mod 128) with Some e => owner e =? owner_at k | None => false end)
    (seqZ (pi - 128) 128).

Lemma cq_posted_b_ok ring pi : cq_posted_b ring pi = true -> cq_posted ring pi.
Proof.
  intros [Hl Hf]%andb_true_iff. split; [by apply Nat.eqb_eq|]. intros k Hk.
  rewrite forallb_forall in Hf.
  assert (Hin : k ∈ seqZ (pi - 128) 128) by (apply elem_of_seqZ; lia).
  apply list_elem_of_In in Hin. specialize (Hf k Hin). destruct (rd ring (k mod 128)) as [e|]; [|done].
  exists e. split; [done|]. lia.
Qed.

Definition sample_cqes : list cqe64 :=
  [{| owner := 0; wqe_counter := 0; byte_cnt := 64 |}; {| owner := 0; wqe_counter := 1; byte_cnt := 64 |}] ++
  replicate 126 {| owner := 1; wqe_counter := 0; byte_cnt := 0 |}.

Definition sample_host : l2_reflector_data :=
  {| rq_cq_data := {| cq_num := 5; cq_ring_daddr := 4096; cq_dbr_daddr := 8192 |};
     rq_data := {| wq_num := 6; wqd_mkey_id := 1; wq_ring_daddr := 12288; wq_dbr_daddr := 16384; wqd_daddr := 0 |};
     sq_cq_data := {| cq_num := 7; cq_ring_daddr := 20480; cq_dbr_daddr := 24576 |};
     sq_data := {| wq_num := 8; wqd_mkey_id := 2; wq_ring_daddr := 28672; wq_dbr_daddr := 32768;
                   wqd_daddr := 65536 |} |}.

Definition zero_ctx : dev_ctx_t :=
  DevCtx 0 0 (Cq 0 0 0 0 0 0) (Cq 0 0 0 0 0 0) (Rq 0 0 0) (Sq 0 0 0 0 0) (Dt 0 0) 0.

Definition sample_device : device :=
  Device (snd (l2_reflector_device_init sample_host zero_ctx))
    (Shared sample_cqes (replicate 128 0) (map Z.of_nat (seq 0 2048)) (replicate (Z.to_nat (128 * 2048)) 0)
       (replicate 512 SegNone) []).

Lemma sample_device_at : device_at sample_device 0.
Proof.
  split; [done|done|by split|done..|]. split; [done| | |done].
  - by apply Forall_replicate.
  - cbn [sample_device shm tx]. rewrite length_replicate. apply Z2Nat.id. lia.
Qed.

Lemma sample_pending k : 0 <= k < 2 -> pending (shm sample_device) k.
Proof.
  intros Hk. assert (k = 0 \/ k = 1) as [-> | ->] by lia;
    (eexists; split; [reflexivity | split; [split; discriminate | discriminate]]).
Qed.

Lemma handler_reflects_all_witness :
  exists d', l2_reflector_device_event_handler 2 3 sample_device = Some d' /\ device_at d' 2 /\
    rx (shm d') = rx (shm sample_device) /\
    setup (ctx d') = setup (ctx sample_device) /\
    (forall k, 0 <= k < 2 -> reflected (ctx d') (shm d') k) /\
    trace (shm d') = [Reschedule; ArmCq 2 5; Fence;
      SetCqCi 8192 2; Fence; IncRqPi 16384; Fence; RingSqDb 2 8; Fence; Fence;
      SetCqCi 8192 1; Fence; IncRqPi 16384; Fence; RingSqDb 1 8; Fence; Fence].
Proof.
  apply (handler_reflects_all sample_device 0 2);
    [exact sample_device_at | lia | by apply cq_posted_b_ok | exact sample_pending | lia].
Defined.

Lemma cq_owner_protocol_witness :
  let c := init_cq (rq_cq_data sample_host) (Cq 0 0 0 0 0 0) in
  exists e, rd sample_cqes (cqe c) = Some e /\ (owner e <> cq_hw_owner_bit c <-> 0 < 2).
Proof.
  apply (cq_owner_protocol (rq_cq_data sample_host) (Cq 0 0 0 0 0 0) sample_cqes 2 0);
    [by apply cq_posted_b_ok | lia].
Defined.

Lemma reflect_frame_witness :
  exists buf1, swap_macs 6 0 1 (map Z.of_nat (seq 0 20)) = Some buf1 /\
    slice 1 14 buf1 = reflect (slice 1 14 (map Z.of_nat (seq 0 20))) /\
    slice 0 1 buf1 = slice 0 1 (map Z.of_nat (seq 0 20)) /\
    swap_macs 6 0 1 buf1 = Some (map Z.of_nat (seq 0 20)).
Proof. apply reflect_frame; [lia | lia | vm_compute; discriminate]. Defined.
