(* ===== verification/SimpleFwdPkt.v ===== *)
(** * Packet parsing of the simple forward VNF

    Models simple_fwd_vnf/src/simple_fwd_pkt.c.  A packet is a byte buffer and
    pointers into it are offsets; reading outside the buffer is undefined
    behaviour ([None]).  The header structures are DPDK's: their sizes and field
    offsets are the record [dpdk], a parameter of every operation. *)

From S2P Require Import Prelude.
#[local] Open Scope Z_scope.

(** ** The header structures of DPDK *)

Record dpdk := {
  sizeof_ether_hdr : Z; ether_dst_addr : Z; ether_src_addr : Z; ether_type_off : Z;
  ip_version_ihl : Z; ip_next_proto_id : Z; ip_src_addr : Z; ip_dst_addr : Z;
  sizeof_udp_hdr : Z; udp_src_port : Z; udp_dst_port : Z;
  tcp_src_port : Z; tcp_dst_port : Z; tcp_data_off : Z;
  sizeof_gre_hdr : Z; gre_flags : Z; gre_proto : Z;
  sizeof_vxlan_gpe_hdr : Z; vxlan_flags : Z; vxlan_vni : Z;
  sizeof_gtp_hdr : Z; gtp_info : Z; gtp_msg : Z; gtp_teid : Z
}.

(** Their documented layout: the wire formats of RFC 894, 791, 768, 793, 2890,
    of VXLAN GPE and of GTPv1-U. *)
Definition wire : dpdk :=
  {| sizeof_ether_hdr := 14; ether_dst_addr := 0; ether_src_addr := 6; ether_type_off := 12;
     ip_version_ihl := 0; ip_next_proto_id := 9; ip_src_addr := 12; ip_dst_addr := 16;
     sizeof_udp_hdr := 8; udp_src_port := 0; udp_dst_port := 2;
     tcp_src_port := 0; tcp_dst_port := 2; tcp_data_off := 12;
     sizeof_gre_hdr := 4; gre_flags := 0; gre_proto := 2;
     sizeof_vxlan_gpe_hdr := 8; vxlan_flags := 0; vxlan_vni := 4;
     sizeof_gtp_hdr := 8; gtp_info := 0; gtp_msg := 1; gtp_teid := 4 |}.

(** RTE_ETHER_TYPE_* and IPPROTO_ICMP; the rest is doca_flow_net.h. *)
Definition RTE_ETHER_TYPE_IPV4 : Z := 2048.
Definition RTE_ETHER_TYPE_IPV6 : Z := 34525.
Definition RTE_ETHER_TYPE_ARP : Z := 2054.
Definition DOCA_PROTO_ICMP : Z := 1.
Definition DOCA_PROTO_TCP : Z := 6.
Definition DOCA_PROTO_UDP : Z := 17.
Definition DOCA_PROTO_GRE : Z := 47.
Definition DOCA_GTPU_PORT : Z := 2152.
Definition DOCA_VXLAN_DEFAULT_PORT : Z := 4789.
Definition IPV4 : Z := 4.
Definition IPV6 : Z := 6.

(** ** Data *)

Inductive tun_type := TUN_NONE | TUN_VXLAN | TUN_GTPU | TUN_GRE.

#[global] Instance tun_type_eq_dec : EqDecision tun_type.
Proof. solve_decision. Defined.

(** [struct simple_fwd_pkt_format]; [None] is the NULL pointer. *)
Record pkt_format := Fmt {
  l2 : option Z; l3 : option Z; l4 : option Z; l7 : option Z;
  l3_type : Z; l4_type : Z
}.

(** [struct simple_fwd_pkt_tun_format]: the union is its eight bytes, which
    [vni], [gre_key]/[proto] and [gtp_msg_type]/[gtp_flags]/[teid] share. *)
Record tun_format := Tun { tun_l2 : bool; tun_union : list Z }.

Record pkt_info := Pinfo {
  outer : pkt_format;
  ptun_type : tun_type;
  tun : tun_format;
  inner : pkt_format;
  pkt_len : Z
}.

Definition fmt0 : pkt_format := Fmt None None None None 0 0.
Definition pinfo0 : pkt_info := Pinfo fmt0 TUN_NONE (Tun false (replicate 8 0)) fmt0 0.

(** Writing a field of the union, and reading it back as a big-endian number. *)
Definition set_union (t : tun_format) (off : nat) (bs : list Z) : tun_format :=
  Tun (tun_l2 t) (take off (tun_union t) ++ bs ++ drop (off + length bs) (tun_union t)).
Definition union_field (t : tun_format) (off n : nat) : Z := be_value (take n (drop off (tun_union t))).

Definition vni (t : tun_format) : Z := union_field t 0 4.
Definition gre_key (t : tun_format) : Z := union_field t 0 4.
Definition gre_proto_f (t : tun_format) : Z := union_field t 4 2.
Definition gtp_msg_type (t : tun_format) : Z := union_field t 0 1.
Definition gtp_flags (t : tun_format) : Z := union_field t 1 1.
Definition teid (t : tun_format) : Z := union_field t 4 4.

Definition set_l2 (t : tun_format) (b : bool) : tun_format := Tun b (tun_union t).

(** ** Reading headers *)

Fixpoint rd_bytes (buf : list Z) (off : Z) (n : nat) : option (list Z) :=
  match n with
  | O => Some []
  | S n' => b ← rd buf off; bs ← rd_bytes buf (off + 1) n'; Some (b :: bs)
  end.

(** The value of a big-endian field (also how the code's byte swaps see it). *)
Definition rd_be (buf : list Z) (off : Z) (n : nat) : option Z := be_value <$> rd_bytes buf off n.

Section Parser.
Context (D : dpdk) (buf : list Z).

(** [rte_ipv4_hdr_len] *)
Definition rte_ipv4_hdr_len (version_ihl : Z) : Z := Z.land version_ihl 15 * 4.

(** The part of the parser from the IPv4 header on. *)
Definition parse_ipv4 (data l3_off len : Z) (f : pkt_format) : option (Z * pkt_format) :=
  let iphdr := data + l3_off in
  vihl ← rd buf (iphdr + ip_version_ihl D);
  if negb (Z.shiftr vihl 4 =? 4) then Some (-1, f)
  else
    src ← rd_be buf (iphdr + ip_src_addr D) 4;
    dst ← (if src =? 0 then Some 0 else rd_be buf (iphdr + ip_dst_addr D) 4);
    if dst =? 0 then Some (-1, f)
    else
      let l4_off := l3_off + rte_ipv4_hdr_len vihl in
      let f := Fmt (l2 f) (Some iphdr) (Some (data + l4_off)) (l7 f) IPV4 (l4_type f) in
      proto ← rd buf (iphdr + ip_next_proto_id D);
      if proto =? DOCA_PROTO_TCP then
        d ← rd buf (data + l4_off + tcp_data_off D);
        let l7_off := l4_off + Z.shiftr (Z.land d 240) 2 in
        if len <? l7_off then Some (-1, f)
        else Some (0, Fmt (l2 f) (l3 f) (l4 f) (Some (data + l7_off)) (l3_type f) DOCA_PROTO_TCP)
      else if proto =? DOCA_PROTO_UDP then
        let l7_off := l4_off + sizeof_udp_hdr D in
        let f := Fmt (l2 f) (l3 f) (l4 f) (l7 f) (l3_type f) DOCA_PROTO_UDP in
        if len <? l7_off then Some (-1, f)
        else Some (0, Fmt (l2 f) (l3 f) (l4 f) (Some (data + l7_off)) (l3_type f) DOCA_PROTO_UDP)
      else if proto =? DOCA_PROTO_GRE then
        Some (0, Fmt (l2 f) (l3 f) (l4 f) (l7 f) (l3_type f) DOCA_PROTO_GRE)
      else if proto =? DOCA_PROTO_ICMP then
        Some (0, Fmt (l2 f) (l3 f) (l4 f) (l7 f) (l3_type f) DOCA_PROTO_ICMP)
      else Some (-1, f).

Definition simple_fwd_parse_pkt_format (data len : Z) (with_l2 : bool) (f : pkt_format)
    : option (Z * pkt_format) :=
  let f := Fmt (Some data) (l3 f) (l4 f) (l7 f) (l3_type f) (l4_type f) in
  if with_l2 then
    ty ← rd_be buf (data + ether_type_off D) 2;
    if ty =? RTE_ETHER_TYPE_IPV4 then parse_ipv4 data (sizeof_ether_hdr D) len f
    else if ty =? RTE_ETHER_TYPE_IPV6 then
      Some (-1, Fmt (l2 f) (l3 f) (l4 f) (l7 f) IPV6 (l4_type f))
    else Some (-1, f)
  else parse_ipv4 data 0 len f.

Definition GTP_ESPN_FLAGS_ON (p : Z) : bool := truthy (Z.land p 7).

Definition parse_gre (p : pkt_info) (l4o : Z) : option (Z * pkt_info) :=
  flags ← rd buf (l4o + gre_flags D);
  if Z.testbit flags 7 then Some (-1, p)
  else
    let k := Z.testbit flags 5 in
    t ← (if k then key ← rd_bytes buf (l4o + sizeof_gre_hdr D) 4;
                   Some (set_l2 (set_union (tun p) 0 key) true)
         else Some (tun p));
    let optional_off := (if k then 4 else 0) + (if Z.testbit flags 4 then 4 else 0) in
    proto ← rd_bytes buf (l4o + gre_proto D) 2;
    Some (sizeof_gre_hdr D + optional_off,
          Pinfo (outer p) TUN_GRE (set_union t 4 proto) (inner p) (pkt_len p)).

Definition parse_vxlan (p : pkt_info) (udp_data : Z) : option (Z * pkt_info) :=
  flags ← rd buf (udp_data + vxlan_flags D);
  let off := sizeof_vxlan_gpe_hdr D + sizeof_udp_hdr D in
  if truthy (Z.land flags 8) then
    v ← rd_bytes buf (udp_data + vxlan_vni D) 4;
    Some (off, Pinfo (outer p) TUN_VXLAN (set_l2 (set_union (tun p) 0 v) true) (inner p) (pkt_len p))
  else Some (off, p).

Definition parse_gtp (p : pkt_info) (udp_data : Z) : option (Z * pkt_info) :=
  t ← rd_bytes buf (udp_data + gtp_teid D) 4;
  msg ← rd buf (udp_data + gtp_msg D);
  info ← rd buf (udp_data + gtp_info D);
  let u := set_union (set_union (set_union (tun p) 4 t) 0 [msg]) 1 [info] in
  Some (sizeof_gtp_hdr D + sizeof_udp_hdr D + (if GTP_ESPN_FLAGS_ON (gtp_flags u) then 4 else 0),
        Pinfo (outer p) TUN_GTPU (set_l2 u false) (inner p) (pkt_len p)).

(** [None] for a NULL layer-4 pointer, too. *)
Definition simple_fwd_parse_is_tun (p : pkt_info) : option (Z * pkt_info) :=
  if negb (l3_type (outer p) =? IPV4) then Some (0, p)
  else if l4_type (outer p) =? DOCA_PROTO_GRE then
    l4o ← l4 (outer p); parse_gre p l4o
  else if l4_type (outer p) =? DOCA_PROTO_UDP then
    l4o ← l4 (outer p);
    let udp_data := l4o + sizeof_udp_hdr D in
    dport ← rd_be buf (l4o + udp_dst_port D) 2;
    if dport =? DOCA_VXLAN_DEFAULT_PORT then parse_vxlan p udp_data
    else if dport =? DOCA_GTPU_PORT then parse_gtp p udp_data
    else Some (0, p)
  else Some (0, p).

Definition parse_inner (p : pkt_info) (data len off : Z) (with_l2 : bool) : option (Z * pkt_info) :=
  l4o ← l4 (outer p);
  let inner_off := l4o - data + off in
  '(r, f) ← simple_fwd_parse_pkt_format (data + inner_off) (len - inner_off) with_l2 (inner p);
  Some (if r =? 0 then 0 else -1, Pinfo (outer p) (ptun_type p) (tun p) f (pkt_len p)).

(** [pinfo] is not NULL. *)
Definition simple_fwd_parse_packet (data len : Z) (p : pkt_info) : option (Z * pkt_info) :=
  let p := Pinfo (outer p) (ptun_type p) (tun p) (inner p) len in
  '(r, f) ← simple_fwd_parse_pkt_format data len true (outer p);
  let p := Pinfo f (ptun_type p) (tun p) (inner p) (pkt_len p) in
  if negb (r =? 0) then Some (-1, p)
  else
    '(off, p) ← simple_fwd_parse_is_tun p;
    match ptun_type p with
    | TUN_NONE => Some (0, p)
    | t =>
        if off <? 0 then Some (0, p)
        else match t with
             | TUN_GRE => parse_inner p data len off false
             | _ => parse_inner p data len off (tun_l2 (tun p))
             end
    end.

(** ** The getters *)

Definition simple_fwd_pinfo_outer_mac_dst (p : pkt_info) : option (list Z) :=
  o ← l2 (outer p); rd_bytes buf (o + ether_dst_addr D) 6.
Definition simple_fwd_pinfo_outer_mac_src (p : pkt_info) : option (list Z) :=
  o ← l2 (outer p); rd_bytes buf (o + ether_src_addr D) 6.
Definition simple_fwd_pinfo_outer_ipv4_dst (p : pkt_info) : option Z :=
  o ← l3 (outer p); rd_be buf (o + ip_dst_addr D) 4.
Definition simple_fwd_pinfo_outer_ipv4_src (p : pkt_info) : option Z :=
  o ← l3 (outer p); rd_be buf (o + ip_src_addr D) 4.
Definition simple_fwd_pinfo_inner_ipv4_dst (p : pkt_info) : option Z :=
  o ← l3 (inner p); rd_be buf (o + ip_dst_addr D) 4.
Definition simple_fwd_pinfo_inner_ipv4_src (p : pkt_info) : option Z :=
  o ← l3 (inner p); rd_be buf (o + ip_src_addr D) 4.

Definition simple_fwd_pinfo_src_port (f : pkt_format) : option Z :=
  if l4_type f =? DOCA_PROTO_TCP then o ← l4 f; rd_be buf (o + tcp_src_port D) 2
  else if l4_type f =? DOCA_PROTO_UDP then o ← l4 f; rd_be buf (o + udp_src_port D) 2
  else Some 0.
Definition simple_fwd_pinfo_dst_port (f : pkt_format) : option Z :=
  if l4_type f =? DOCA_PROTO_TCP then o ← l4 f; rd_be buf (o + tcp_dst_port D) 2
  else if l4_type f =? DOCA_PROTO_UDP then o ← l4 f; rd_be buf (o + udp_dst_port D) 2
  else Some 0.

Definition simple_fwd_pinfo_inner_src_port (p : pkt_info) := simple_fwd_pinfo_src_port (inner p).
Definition simple_fwd_pinfo_inner_dst_port (p : pkt_info) := simple_fwd_pinfo_dst_port (inner p).
Definition simple_fwd_pinfo_outer_src_port (p : pkt_info) := simple_fwd_pinfo_src_port (outer p).
Definition simple_fwd_pinfo_outer_dst_port (p : pkt_info) := simple_fwd_pinfo_dst_port (outer p).
End Parser.

(** Only VXLAN is removed; the protocol numbers of [outer] stay. *)
Definition simple_fwd_pinfo_decap (p : pkt_info) : pkt_info :=
  match ptun_type p with
  | TUN_VXLAN =>
      Pinfo (Fmt (l2 (inner p)) (l3 (inner p)) (l4 (inner p)) (l7 (inner p))
               (l3_type (outer p)) (l4_type (outer p)))
        TUN_NONE (tun p) (inner p) (pkt_len p)
  | _ => p
  end.

(** ** Reference encoder *)

Record eth := { eth_dst : list Z; eth_src : list Z }.
Definition eth_ok (e : eth) : Prop := length (eth_dst e) = 6%nat /\ length (eth_src e) = 6%nat.
Definition eth_bytes (e : eth) (ty : Z) : list Z := eth_dst e ++ eth_src e ++ be_bytes 2 ty.

(** [ip_mid]: the bytes between the version and the protocol; then the
    checksum. *)
Record ip4 := {
  ip_ihl : Z; ip_mid : list Z; ip_cksum : list Z; ip_src : Z; ip_dst : Z; ip_opts : list Z
}.
Definition ip_ok (h : ip4) : Prop :=
  5 <= ip_ihl h <= 15 /\ length (ip_mid h) = 8%nat /\ length (ip_cksum h) = 2%nat /\
  0 < ip_src h < 2 ^ 32 /\ 0 < ip_dst h < 2 ^ 32 /\
  Z.of_nat (length (ip_opts h)) = 4 * (ip_ihl h - 5).
Definition ip_bytes (h : ip4) (proto : Z) : list Z :=
  [64 + ip_ihl h] ++ ip_mid h ++ [proto] ++ ip_cksum h ++ be_bytes 4 (ip_src h) ++
  be_bytes 4 (ip_dst h) ++ ip_opts h.

Inductive transport :=
| Tcp (sport dport doff low : Z) (seq_ack flags opts : list Z)
| Udp (sport dport : Z) (len_cksum : list Z).
Definition l4_proto (t : transport) : Z :=
  match t with Tcp _ _ _ _ _ _ _ => DOCA_PROTO_TCP | Udp _ _ _ => DOCA_PROTO_UDP end.
Definition sport (t : transport) : Z := match t with Tcp s _ _ _ _ _ _ | Udp s _ _ => s end.
Definition dport (t : transport) : Z := match t with Tcp _ d _ _ _ _ _ | Udp _ d _ => d end.
Definition transport_ok (t : transport) : Prop :=
  in_u 16 (sport t) /\ in_u 16 (dport t) /\
  match t with
  | Tcp _ _ doff low sa fl opts => 5 <= doff <= 15 /\ 0 <= low < 16 /\ length sa = 8%nat /\
      length fl = 7%nat /\ Z.of_nat (length opts) = 4 * (doff - 5)
  | Udp _ _ lc => length lc = 4%nat
  end.
Definition transport_bytes (t : transport) : list Z :=
  match t with
  | Tcp s d doff low sa fl opts => be_bytes 2 s ++ be_bytes 2 d ++ sa ++ [16 * doff + low] ++ fl ++ opts
  | Udp s d lc => be_bytes 2 s ++ be_bytes 2 d ++ lc
  end.

(** An Ethernet frame with IPv4 and TCP or UDP. *)
Record flow_frame := { f_eth : eth; f_ip : ip4; f_l4 : transport; f_payload : list Z }.
Definition frame_ok (f : flow_frame) : Prop :=
  eth_ok (f_eth f) /\ ip_ok (f_ip f) /\ transport_ok (f_l4 f).
Definition frame_headers (f : flow_frame) : list Z :=
  eth_bytes (f_eth f) RTE_ETHER_TYPE_IPV4 ++ ip_bytes (f_ip f) (l4_proto (f_l4 f)) ++
  transport_bytes (f_l4 f).
Definition frame_bytes (f : flow_frame) : list Z := frame_headers f ++ f_payload f.

(** What parsing a frame that starts at [data] stores. *)
Definition frame_fmt (data : Z) (f : flow_frame) : pkt_format :=
  let o3 := data + 14 in
  let o4 := o3 + 4 * ip_ihl (f_ip f) in
  Fmt (Some data) (Some o3) (Some o4) (Some (o4 + Z.of_nat (length (transport_bytes (f_l4 f)))))
    IPV4 (l4_proto (f_l4 f)).

(** ** Lemmas: fields of a buffer *)

Definition field_at (buf : list Z) (off : Z) (bs : list Z) : Prop :=
  rd_bytes buf off (length bs) = Some bs.

Lemma field_at_cons buf off b bs :
  field_at buf off (b :: bs) <-> rd buf off = Some b /\ field_at buf (off + 1) bs.
Proof.
  unfold field_at. cbn [length rd_bytes]. destruct (rd buf off) as [b'|]; obind; [|naive_solver].
  destruct (rd_bytes buf (off + 1) (length bs)); obind; naive_solver.
Qed.

Lemma field_at_app buf off a b :
  field_at buf off (a ++ b) <-> field_at buf off a /\ field_at buf (off + Z.of_nat (length a)) b.
Proof.
  revert off. induction a as [|x a IH]; intros off; cbn [app].
  - change (Z.of_nat (length [])) with 0. rewrite Z.add_0_r. unfold field_at at 2. simpl. naive_solver.
  - rewrite !field_at_cons, IH. cbn [length].
    replace (off + Z.of_nat (S (length a))) with (off + 1 + Z.of_nat (length a)) by lia. tauto.
Qed.

Lemma field_at_here pre bs post : field_at (pre ++ bs ++ post) (Z.of_nat (length pre)) bs.
Proof.
  revert pre. induction bs as [|b bs IH]; intros pre; [done|]. apply field_at_cons. split.
  - unfold rd. rewrite decide_True by lia. rewrite Nat2Z.id. by rewrite lookup_app_r, Nat.sub_diag by done.
  - specialize (IH (pre ++ [b])). rewrite length_app in IH. cbn [length] in IH.
    rewrite <- app_assoc in IH. cbn [app] in *.
    by replace (Z.of_nat (length pre) + 1) with (Z.of_nat (length pre + 1)) by lia.
Qed.

Lemma rd_be_field buf off n v :
  field_at buf off (be_bytes n v) -> in_u (8 * Z.of_nat n) v -> rd_be buf off n = Some v.
Proof.
  unfold field_at, rd_be. rewrite length_be_bytes. intros -> Hv. simpl. f_equal.
  rewrite be_value_bytes. by apply Z.mod_small.
Qed.

Lemma rd_bytes_field buf off n bs :
  field_at buf off bs -> length bs = n -> rd_bytes buf off n = Some bs.
Proof. by intros H <-. Qed.

(** Split what is known about a buffer at a concatenation. *)
Ltac split_field H :=
  lazymatch type of H with
  | field_at _ _ (_ ++ _) =>
      let H1 := fresh H in
      apply field_at_app in H as [H1 H]; split_field H1; split_field H
  | field_at _ _ [_] => apply field_at_cons in H as [H _]
  | _ => idtac
  end.

(** Bring the offset of a fact about the buffer into the form of the goal. *)
Ltac at_off H := match type of H with
  | field_at ?b ?o ?l => match goal with
      | |- field_at b ?o' l => replace o' with o by (cbn [length]; lia); exact H
      end
  | rd ?b ?o = _ => match goal with
      | |- rd b ?o' = _ => replace o' with o by (cbn [length]; lia); exact H
      end
  end.

Lemma transport_len t : transport_ok t -> 8 <= Z.of_nat (length (transport_bytes t)) <= 60.
Proof.
  destruct t; intros (_ & _ & H); cbn [transport_bytes]; rewrite ?length_app, ?length_be_bytes;
    cbn [length] in *; lia.
Qed.

Lemma length_ip_bytes h proto : ip_ok h -> Z.of_nat (length (ip_bytes h proto)) = 4 * ip_ihl h.
Proof.
  intros (? & Hm & Hc & _ & _ & Ho). unfold ip_bytes.
  rewrite !length_app, !length_be_bytes, Hm, Hc. cbn [length]. lia.
Qed.

Lemma ip_fields buf o h proto :
  field_at buf o (ip_bytes h proto) -> ip_ok h ->
  rd buf o = Some (64 + ip_ihl h) /\ rd buf (o + 9) = Some proto /\
  rd_be buf (o + 12) 4 = Some (ip_src h) /\ rd_be buf (o + 16) 4 = Some (ip_dst h).
Proof.
  intros Hi (Hihl & Hmid & Hck & Hsrc & Hdst & Hopts). unfold ip_bytes in Hi.
  apply field_at_app in Hi as [Hv Hi]. apply field_at_app in Hi as [_ Hi].
  apply field_at_app in Hi as [Hpr Hi]. apply field_at_app in Hi as [_ Hi].
  apply field_at_app in Hi as [Hs Hi]. apply field_at_app in Hi as [Hd _].
  apply field_at_cons in Hv as [Hv _]. apply field_at_cons in Hpr as [Hpr _].
  rewrite ?length_be_bytes, ?Hmid, ?Hck in *. cbn [length] in *.
  split_and!; [done| at_off Hpr | |];
    (apply rd_be_field; [(at_off Hs) || (at_off Hd) | unfold in_u; simpl; lia]).
Qed.

Lemma transport_ports buf o t :
  field_at buf o (transport_bytes t) -> transport_ok t ->
  rd_be buf o 2 = Some (sport t) /\ rd_be buf (o + 2) 2 = Some (dport t).
Proof.
  intros Hb (Hs & Hd & _).
  destruct t; cbn [transport_bytes] in Hb; apply field_at_app in Hb as [H1 Hb];
    apply field_at_app in Hb as [H2 _]; rewrite ?length_be_bytes in *;
    split; apply rd_be_field; try done.
Qed.

(** The length of the header as the parser computes it. *)
Lemma tcp_header_len buf o s d doff low sa fl opts :
  let t := Tcp s d doff low sa fl opts in
  field_at buf o (transport_bytes t) -> transport_ok t ->
  exists b, rd buf (o + 12) = Some b /\ Z.shiftr (Z.land b 240) 2 = Z.of_nat (length (transport_bytes t)).
Proof.
  intros t Hb (_ & _ & Hdoff & Hlow & Hsa & Hfl & Hopts). subst t. cbn [transport_bytes] in *.
  exists (16 * doff + low). split.
  - apply field_at_app in Hb as [_ Hb]. apply field_at_app in Hb as [_ Hb].
    apply field_at_app in Hb as [_ Hb]. apply field_at_app in Hb as [Hb _].
    apply field_at_cons in Hb as [Hb _]. rewrite ?length_be_bytes, ?Hsa in *. at_off Hb.
  - rewrite !length_app, !length_be_bytes, Hsa, Hfl. cbn [length].
    pose proof (byte_check (fun b => Z.shiftr (Z.land b 240) 2 =? 4 * (b / 16)) eq_refl
      (16 * doff + low) ltac:(lia)) as Hc.
    apply Z.eqb_eq in Hc. rewrite Hc. Z.div_mod_to_equations. lia.
Qed.

(** The part of the parser from the IPv4 header on. *)
Lemma parse_ipv4_frame buf data l3o len f0 h t :
  field_at buf (data + l3o) (ip_bytes h (l4_proto t) ++ transport_bytes t) -> ip_ok h -> transport_ok t ->
  l3o + 4 * ip_ihl h + Z.of_nat (length (transport_bytes t)) <= len ->
  let o4 := data + l3o + 4 * ip_ihl h in
  parse_ipv4 wire buf data l3o len f0 =
    Some (0, Fmt (l2 f0) (Some (data + l3o)) (Some o4)
               (Some (o4 + Z.of_nat (length (transport_bytes t)))) IPV4 (l4_proto t)).
Proof.
  intros Hb Hh Ht Hlen o4. apply field_at_app in Hb as [Hi Hb].
  rewrite length_ip_bytes in Hb by done.
  destruct (ip_fields _ _ _ _ Hi Hh) as (Hv & Hp & Hs & Hd).
  destruct Hh as (Hihl & _ & _ & Hsrc & Hdst & _).
  unfold parse_ipv4. cbn [wire ip_version_ihl ip_src_addr ip_dst_addr ip_next_proto_id].
  rewrite Z.add_0_r, Hv. obind.
  pose proof (byte_check (fun b => Z.shiftr b 4 =? b / 16) eq_refl (64 + ip_ihl h) ltac:(lia)) as Hver.
  pose proof (byte_check (fun b => Z.land b 15 =? b mod 16) eq_refl (64 + ip_ihl h) ltac:(lia)) as Hlo.
  apply Z.eqb_eq in Hver, Hlo.
  replace ((64 + ip_ihl h) / 16) with 4 in Hver by (Z.div_mod_to_equations; lia).
  replace ((64 + ip_ihl h) mod 16) with (ip_ihl h) in Hlo by (Z.div_mod_to_equations; lia).
  rewrite Hver. cbn [negb Z.eqb Pos.eqb]. rewrite Hs. obind.
  rewrite (proj2 (Z.eqb_neq (ip_src h) 0)) by lia. rewrite Hd. obind.
  rewrite (proj2 (Z.eqb_neq (ip_dst h) 0)) by lia. rewrite Hp. obind.
  unfold rte_ipv4_hdr_len. rewrite Hlo.
  replace (data + (l3o + ip_ihl h * 4)) with o4 by (subst o4; lia).
  destruct t as [s d doff low sa fl opts | s d lc]; cbn [l4_proto].
  - destruct (tcp_header_len _ _ _ _ _ _ _ _ _ Hb Ht) as (b & Hb12 & Hl).
    cbn [DOCA_PROTO_TCP Z.eqb Pos.eqb wire tcp_data_off].
    change (DOCA_PROTO_TCP =? DOCA_PROTO_TCP) with true. cbn beta iota.
    fold o4 in Hb12. rewrite Hb12. obind. rewrite Hl. rewrite (proj2 (Z.ltb_ge _ _)) by lia.
    do 4 f_equal. subst o4. lia.
  - change (DOCA_PROTO_UDP =? DOCA_PROTO_TCP) with false.
    change (DOCA_PROTO_UDP =? DOCA_PROTO_UDP) with true. cbn beta iota.
    assert (Hl : Z.of_nat (length (transport_bytes (Udp s d lc))) = 8).
    { destruct Ht as (_ & _ & Ht). cbn [transport_bytes]. rewrite !length_app, !length_be_bytes, Ht. done. }
    cbn [wire sizeof_udp_hdr]. rewrite Hl in *. rewrite (proj2 (Z.ltb_ge _ _)) by lia.
    do 4 f_equal. subst o4. lia.
Qed.

Lemma length_frame_headers f :
  frame_ok f ->
  Z.of_nat (length (frame_headers f)) =
    14 + 4 * ip_ihl (f_ip f) + Z.of_nat (length (transport_bytes (f_l4 f))).
Proof.
  intros ([Hd Hs] & Hi & _). unfold frame_headers. rewrite !length_app.
  pose proof (length_ip_bytes _ (l4_proto (f_l4 f)) Hi).
  unfold eth_bytes. rewrite !length_app, length_be_bytes, Hd, Hs. lia.
Qed.

Lemma frame_fields buf o f :
  field_at buf o (frame_headers f) -> frame_ok f ->
  field_at buf o (eth_dst (f_eth f)) /\ field_at buf (o + 6) (eth_src (f_eth f)) /\
  rd_be buf (o + 12) 2 = Some RTE_ETHER_TYPE_IPV4 /\
  field_at buf (o + 14) (ip_bytes (f_ip f) (l4_proto (f_l4 f)) ++ transport_bytes (f_l4 f)).
Proof.
  intros Hb ([Hd Hs] & Hi & Ht). unfold frame_headers in Hb.
  apply field_at_app in Hb as [He Hb]. unfold eth_bytes in He, Hb.
  apply field_at_app in He as [H1 He]. apply field_at_app in He as [H2 H3].
  rewrite ?length_app, ?length_be_bytes, ?Hd, ?Hs in *. cbn [length] in *.
  split_and!; [done|at_off H2| |at_off Hb].
  apply rd_be_field; [at_off H3 | split; vm_compute; congruence].
Qed.

Lemma parse_pkt_format_frame buf o len f fmt :
  field_at buf o (frame_headers f) -> frame_ok f -> Z.of_nat (length (frame_headers f)) <= len ->
  simple_fwd_parse_pkt_format wire buf o len true fmt = Some (0, frame_fmt o f).
Proof.
  intros Hb Hf Hlen. destruct (frame_fields _ _ _ Hb Hf) as (_ & _ & Hty & Hip).
  rewrite length_frame_headers in Hlen by done. destruct Hf as (_ & Hi & Ht).
  unfold simple_fwd_parse_pkt_format. cbn [wire ether_type_off sizeof_ether_hdr].
  rewrite Hty. obind. change (RTE_ETHER_TYPE_IPV4 =? RTE_ETHER_TYPE_IPV4) with true. cbn beta iota.
  by rewrite (parse_ipv4_frame _ _ _ _ _ (f_ip f) (f_l4 f)) by (done || lia).
Qed.

(** The getters on a parsed frame. *)
Record getters_agree (buf : list Z) (o : Z) (f : flow_frame) : Prop := {
  get_src : rd_be buf (o + 14 + 12) 4 = Some (ip_src (f_ip f));
  get_dst : rd_be buf (o + 14 + 16) 4 = Some (ip_dst (f_ip f));
  get_sport : simple_fwd_pinfo_src_port wire buf (frame_fmt o f) = Some (sport (f_l4 f));
  get_dport : simple_fwd_pinfo_dst_port wire buf (frame_fmt o f) = Some (dport (f_l4 f));
  get_macs : rd_bytes buf (o + 0) 6 = Some (eth_dst (f_eth f)) /\
    rd_bytes buf (o + 6) 6 = Some (eth_src (f_eth f))
}.

Lemma getters_frame buf o f :
  field_at buf o (frame_headers f) -> frame_ok f -> getters_agree buf o f.
Proof.
  intros Hb Hf. destruct (frame_fields _ _ _ Hb Hf) as (Hd & Hs & _ & Hip).
  destruct Hf as ([Hl1 Hl2] & Hi & Ht). apply field_at_app in Hip as [Hip Htr].
  rewrite length_ip_bytes in Htr by done.
  destruct (ip_fields _ _ _ _ Hip Hi) as (_ & _ & ? & ?). clear Hip.
  destruct (transport_ports _ _ _ Htr Ht) as [H2 H3].
  split; [done..| | |].
  1,2: unfold simple_fwd_pinfo_src_port, simple_fwd_pinfo_dst_port, frame_fmt; cbn [l4 l4_type];
    revert H2 H3; destruct (f_l4 f); intros H2 H3; cbn [l4_proto wire tcp_src_port udp_src_port tcp_dst_port udp_dst_port];
    try change (DOCA_PROTO_TCP =? DOCA_PROTO_TCP) with true;
    try change (DOCA_PROTO_UDP =? DOCA_PROTO_TCP) with false;
    try change (DOCA_PROTO_UDP =? DOCA_PROTO_UDP) with true; cbn beta iota; obind;
    rewrite ?Z.add_0_r; done.
  rewrite Z.add_0_r. split; by apply rd_bytes_field.
Qed.

(** A VXLAN header: the I flag, three reserved bytes, the VNI word. *)
Record vxlan := { vx_flags : Z; vx_rsvd : list Z; vx_vni : Z }.
Definition vxlan_ok (v : vxlan) : Prop :=
  0 <= vx_flags v < 256 /\ Z.testbit (vx_flags v) 3 = true /\ length (vx_rsvd v) = 3%nat /\
  in_u 32 (vx_vni v).
Definition vxlan_bytes (v : vxlan) : list Z := [vx_flags v] ++ vx_rsvd v ++ be_bytes 4 (vx_vni v).

Lemma vxlan_fields buf o v :
  field_at buf o (vxlan_bytes v) -> vxlan_ok v ->
  rd buf o = Some (vx_flags v) /\ truthy (Z.land (vx_flags v) 8) = true /\
  rd_bytes buf (o + 4) 4 = Some (be_bytes 4 (vx_vni v)).
Proof.
  intros Hb (Hf & Hbit & Hr & Hv). unfold vxlan_bytes in Hb.
  apply field_at_app in Hb as [H1 Hb]. apply field_at_app in Hb as [_ Hb].
  apply field_at_cons in H1 as [H1 _]. rewrite Hr in Hb. cbn [length] in *.
  split_and!; [done|by rewrite (truthy_land_pow2 _ 3)|].
  apply rd_bytes_field; [at_off Hb | by rewrite length_be_bytes].
Qed.

Lemma vni_set t v : (8 <= length (tun_union t))%nat -> in_u 32 v -> vni (set_union t 0 (be_bytes 4 v)) = v.
Proof.
  intros Hl Hv. unfold vni, union_field, set_union. cbn [tun_union].
  rewrite drop_0, take_0, app_nil_l, take_app_le by (by rewrite length_be_bytes).
  rewrite take_ge by (by rewrite length_be_bytes). rewrite be_value_bytes. by apply Z.mod_small.
Qed.

(** A frame that is not a tunnel the parser knows. *)
Definition not_tunnel (t : transport) : Prop :=
  match t with
  | Tcp _ _ _ _ _ _ _ => True
  | Udp _ d _ => d <> DOCA_VXLAN_DEFAULT_PORT /\ d <> DOCA_GTPU_PORT
  end.

Lemma is_tun_plain buf o f p :
  field_at buf o (frame_headers f) -> frame_ok f -> not_tunnel (f_l4 f) -> outer p = frame_fmt o f ->
  simple_fwd_parse_is_tun wire buf p = Some (0, p).
Proof.
  intros Hb Hf Hnt Hp. destruct (getters_frame _ _ _ Hb Hf) as [_ _ _ Hdp _].
  unfold simple_fwd_parse_is_tun. rewrite Hp. cbn [frame_fmt l3_type l4_type l4]. cbn [IPV4 Z.eqb Pos.eqb negb].
  unfold simple_fwd_pinfo_dst_port in Hdp. cbn [frame_fmt l4_type l4] in Hdp.
  change (IPV4 =? IPV4) with true. cbn [negb].
  destruct (f_l4 f) as [|s d lc]; cbn [l4_proto not_tunnel] in *.
  - by change (DOCA_PROTO_TCP =? DOCA_PROTO_GRE) with false; change (DOCA_PROTO_TCP =? DOCA_PROTO_UDP) with false.
  - change (DOCA_PROTO_UDP =? DOCA_PROTO_TCP) with false in Hdp.
    change (DOCA_PROTO_UDP =? DOCA_PROTO_UDP) with true in Hdp. cbn beta iota in Hdp.
    change (DOCA_PROTO_UDP =? DOCA_PROTO_GRE) with false. change (DOCA_PROTO_UDP =? DOCA_PROTO_UDP) with true.
    cbn beta iota. obind. cbn [mbind option_bind] in Hdp. rewrite Hdp. obind.
    rewrite !(proj2 (Z.eqb_neq _ _)) by apply Hnt. done.
Qed.

Lemma is_tun_vxlan buf o f p s lc v :
  field_at buf o (frame_headers f ++ vxlan_bytes v) -> frame_ok f -> vxlan_ok v ->
  f_l4 f = Udp s DOCA_VXLAN_DEFAULT_PORT lc -> outer p = frame_fmt o f -> length (tun_union (tun p)) = 8%nat ->
  exists t, simple_fwd_parse_is_tun wire buf p =
      Some (16, Pinfo (outer p) TUN_VXLAN t (inner p) (pkt_len p)) /\ vni t = vx_vni v /\ tun_l2 t = true.
Proof.
  intros Hb Hf Hv Hl4 Hp Hlen. apply field_at_app in Hb as [Hb Hx].
  destruct (getters_frame _ _ _ Hb Hf) as [_ _ _ Hdp _].
  assert (H8 : Z.of_nat (length (transport_bytes (f_l4 f))) = 8).
  { destruct Hf as (_ & _ & _ & _ & Ht). rewrite Hl4 in *. cbn [transport_bytes].
    rewrite !length_app, !length_be_bytes, Ht. done. }
  rewrite length_frame_headers, H8 in Hx by done.
  destruct (vxlan_fields _ _ _ Hx Hv) as (Hfl & Hi & Hvni).
  unfold simple_fwd_parse_is_tun. rewrite Hp. cbn [frame_fmt l3_type l4_type l4].
  unfold simple_fwd_pinfo_dst_port in Hdp. cbn [frame_fmt l4_type l4] in Hdp. rewrite Hl4 in *. cbn [l4_proto] in *.
  change (IPV4 =? IPV4) with true. cbn [negb]. change (DOCA_PROTO_UDP =? DOCA_PROTO_TCP) with false in Hdp.
  change (DOCA_PROTO_UDP =? DOCA_PROTO_UDP) with true in *. change (DOCA_PROTO_UDP =? DOCA_PROTO_GRE) with false.
  cbn beta iota in *. obind. cbn [mbind option_bind] in Hdp. rewrite Hdp. obind. cbn [dport].
  change (DOCA_VXLAN_DEFAULT_PORT =? DOCA_VXLAN_DEFAULT_PORT) with true. cbn beta iota.
  unfold parse_vxlan. cbn [wire vxlan_flags vxlan_vni sizeof_udp_hdr sizeof_vxlan_gpe_hdr].
  rewrite Z.add_0_r. set (u := o + 14 + 4 * ip_ihl (f_ip f) + 8).
  replace (o + (14 + 4 * ip_ihl (f_ip f) + 8)) with u in * by (subst u; lia).
  rewrite Hfl. obind. rewrite Hi. rewrite Hvni. obind. rewrite Hp. eexists. split; [reflexivity|].
  split; [|done]. apply vni_set; [lia|apply Hv].
Qed.

(** ** Lemmas: memory safety *)

Lemma rd_bytes_Some buf off n :
  0 <= off -> off + Z.of_nat n <= Z.of_nat (length buf) ->
  exists bs, rd_bytes buf off n = Some bs /\ length bs = n.
Proof.
  revert off. induction n as [|n IH]; intros off Ho Hl; cbn [rd_bytes]; [by exists []|].
  destruct (rd_Some buf off) as [b ->]; [lia|]. obind.
  destruct (IH (off + 1)) as (bs & -> & Hn); [lia..|]. obind. exists (b :: bs). simpl. eauto.
Qed.

Lemma rd_be_Some buf off n :
  0 <= off -> off + Z.of_nat n <= Z.of_nat (length buf) -> exists v, rd_be buf off n = Some v.
Proof.
  intros Ho Hl. destruct (rd_bytes_Some buf off n Ho Hl) as (bs & Hbs & _). unfold rd_be. rewrite Hbs. eauto.
Qed.

(** What the parser stores from the IPv4 header on, whatever the packet holds:
    on success the layer-4 header is at most 60 bytes further, and the header
    of TCP or UDP ends within the length. *)
Definition fmt_bounds (data l3o len : Z) (r : Z) (f : pkt_format) : Prop :=
  r = 0 -> l3 f = Some (data + l3o) /\ l3_type f = IPV4 /\
    exists o4, l4 f = Some o4 /\ data + l3o <= o4 <= data + l3o + 60 /\
      (l4_type f = DOCA_PROTO_TCP \/ l4_type f = DOCA_PROTO_UDP ->
         exists o7, l7 f = Some o7 /\ o4 <= o7 <= data + len).

Lemma parse_ipv4_safe buf data l3o len f :
  0 <= data + l3o -> data + l3o + 73 <= Z.of_nat (length buf) ->
  exists r f', parse_ipv4 wire buf data l3o len f = Some (r, f') /\ fmt_bounds data l3o len r f'.
Proof.
  intros H0 Hl. unfold parse_ipv4. cbn [wire ip_version_ihl ip_src_addr ip_dst_addr ip_next_proto_id].
  assert (Hfail : forall f', fmt_bounds data l3o len (-1) f') by (intros ? [=]).
  destruct (rd_Some buf (data + l3o + 0)) as [vihl ->]; [lia|]. obind.
  destruct (negb _); [eauto|].
  destruct (rd_be_Some buf (data + l3o + 12) 4) as [src ->]; [lia|simpl; lia|]. obind.
  assert (Hd : exists dst, (if src =? 0 then Some 0 else rd_be buf (data + l3o + 16) 4) = Some dst).
  { destruct (src =? 0); [eauto|]. apply rd_be_Some; simpl; lia. }
  destruct Hd as [dst ->]. obind. destruct (dst =? 0); [eauto|].
  destruct (rd_Some buf (data + l3o + 9)) as [proto ->]; [lia|]. obind.
  assert (Hihl : 0 <= rte_ipv4_hdr_len vihl <= 60).
  { unfold rte_ipv4_hdr_len. change 15 with (Z.ones 4). rewrite Z.land_ones by lia.
    pose proof (Z.mod_pos_bound vihl (2 ^ 4)). lia. }
  set (h := rte_ipv4_hdr_len vihl) in *. clearbody h.
  destruct (proto =? DOCA_PROTO_TCP).
  { destruct (rd_Some buf (data + (l3o + h) + tcp_data_off wire)) as [d ->]; [simpl; lia|]. obind.
    assert (Hoff : 0 <= Z.shiftr (Z.land d 240) 2).
    { apply Z.shiftr_nonneg, Z.land_nonneg. lia. }
    case_bool; [eauto|]. do 2 eexists. split; [reflexivity|]. intros _. cbn.
    split_and!; [done..|]. eexists. split_and!; [done|lia|lia|]. intros _. eexists. split; [done|]. lia. }
  destruct (proto =? DOCA_PROTO_UDP).
  { case_bool; [eauto|]. do 2 eexists. split; [reflexivity|]. intros _.
    cbn [l3 l3_type l4 l4_type l7 wire sizeof_udp_hdr] in *.
    split_and!; [done..|]. eexists. split_and!; [done|lia|lia|]. intros _. eexists. split; [done|]. lia. }
  destruct (proto =? DOCA_PROTO_GRE); [|destruct (proto =? DOCA_PROTO_ICMP); [|eauto]];
    (do 2 eexists; split; [reflexivity|]; intros _; cbn [l3 l3_type l4 l4_type l7];
     split_and!; [done..|]; eexists; split_and!; [done|lia|lia|]; intros [[=]|[=]]).
Qed.

Lemma parse_pkt_format_safe buf data len (with_l2 : bool) f :
  0 <= data -> data + 87 <= Z.of_nat (length buf) ->
  exists r f', simple_fwd_parse_pkt_format wire buf data len with_l2 f = Some (r, f') /\
    fmt_bounds data (if with_l2 then 14 else 0) len r f'.
Proof.
  intros H0 Hl. unfold simple_fwd_parse_pkt_format.
  assert (Hfail : forall o f', fmt_bounds data o len (-1) f') by (intros ? ? [=]).
  destruct with_l2; [|apply parse_ipv4_safe; lia].
  destruct (rd_be_Some buf (data + ether_type_off wire) 2) as [ty ->]; [simpl; lia..|]. obind.
  destruct (ty =? RTE_ETHER_TYPE_IPV4); [|destruct (ty =? RTE_ETHER_TYPE_IPV6); eauto].
  apply parse_ipv4_safe; cbn [wire sizeof_ether_hdr]; lia.
Qed.

(** The offset of the inner packet from the layer-4 header is at most 20. *)
Lemma parse_is_tun_safe buf p o4 :
  l4 (outer p) = Some o4 -> 0 <= o4 -> o4 + 16 <= Z.of_nat (length buf) ->
  exists off p', simple_fwd_parse_is_tun wire buf p = Some (off, p') /\ outer p' = outer p /\
    inner p' = inner p /\ pkt_len p' = pkt_len p /\ -1 <= off <= 20.
Proof.
  intros H4 H0 Hl. unfold simple_fwd_parse_is_tun. rewrite H4.
  destruct (negb _); [do 2 eexists; split; [reflexivity|]; split_and!; done || lia|].
  destruct (_ =? DOCA_PROTO_GRE).
  { obind. unfold parse_gre. cbn [wire gre_flags gre_proto sizeof_gre_hdr].
    destruct (rd_Some buf (o4 + 0)) as [fl ->]; [lia|]. obind.
    destruct (Z.testbit fl 7); [do 2 eexists; split; [reflexivity|]; split_and!; done || lia|].
    assert (Ht : exists t, (if Z.testbit fl 5
        then key ← rd_bytes buf (o4 + 4) 4; Some (set_l2 (set_union (tun p) 0 key) true)
        else Some (tun p)) = Some t).
    { destruct (Z.testbit fl 5); [|eauto].
      destruct (rd_bytes_Some buf (o4 + 4) 4) as (k & -> & _); [lia..|]. obind. eauto. }
    destruct Ht as [t ->]. obind.
    destruct (rd_bytes_Some buf (o4 + 2) 2) as (pr & -> & _); [lia..|]. obind.
    do 2 eexists. split; [reflexivity|]. split_and!; [done..| |];
      destruct (Z.testbit fl 5), (Z.testbit fl 4); lia. }
  destruct (_ =? DOCA_PROTO_UDP); [|do 2 eexists; split; [reflexivity|]; split_and!; done || lia].
  obind. cbn [wire udp_dst_port sizeof_udp_hdr].
  destruct (rd_be_Some buf (o4 + 2) 2) as [dp ->]; [lia|simpl; lia|]. obind.
  destruct (dp =? DOCA_VXLAN_DEFAULT_PORT).
  { unfold parse_vxlan. cbn [wire vxlan_flags vxlan_vni sizeof_udp_hdr sizeof_vxlan_gpe_hdr].
    destruct (rd_Some buf (o4 + 8 + 0)) as [fl ->]; [lia|]. obind.
    destruct (truthy _); [|do 2 eexists; split; [reflexivity|]; split_and!; done || lia].
    destruct (rd_bytes_Some buf (o4 + 8 + 4) 4) as (k & -> & _); [lia..|]. obind.
    do 2 eexists; split; [reflexivity|]; split_and!; done || lia. }
  destruct (dp =? DOCA_GTPU_PORT); [|do 2 eexists; split; [reflexivity|]; split_and!; done || lia].
  unfold parse_gtp. cbn [wire gtp_teid gtp_msg gtp_info sizeof_udp_hdr sizeof_gtp_hdr].
  destruct (rd_bytes_Some buf (o4 + 8 + 4) 4) as (k & -> & _); [lia..|]. obind.
  destruct (rd_Some buf (o4 + 8 + 1)) as [m ->]; [lia|]. obind.
  destruct (rd_Some buf (o4 + 8 + 0)) as [i ->]; [lia|]. obind.
  do 2 eexists. split; [reflexivity|]. split_and!; [done..| |]; case_bool; lia.
Qed.

(** The payload pointer of TCP and UDP lies within the packet. *)
Definition in_packet (len : Z) (f : pkt_format) : Prop :=
  l4_type f = DOCA_PROTO_TCP \/ l4_type f = DOCA_PROTO_UDP ->
  exists o7, l7 f = Some o7 /\ 0 <= o7 <= len.

Lemma fmt_bounds_in_packet data l3o len r f :
  0 <= data + l3o -> fmt_bounds data l3o len r f -> r = 0 -> in_packet (data + len) f.
Proof.
  intros H0 Hb Hr Ht. destruct (Hb Hr) as (_ & _ & o4 & _ & ? & H7).
  destruct (H7 Ht) as (o7 & ? & ?). exists o7. split; [done|lia].
Qed.

Lemma parse_inner_safe buf p o4 len off with_l2 :
  l4 (outer p) = Some o4 -> 0 <= o4 + off -> o4 + off + 87 <= Z.of_nat (length buf) ->
  exists r p', parse_inner wire buf p 0 len off with_l2 = Some (r, p') /\ outer p' = outer p /\
    (r = 0 -> in_packet len (inner p')).
Proof.
  intros H4 H0 Hl. unfold parse_inner. rewrite H4. obind. replace (0 + (o4 - 0 + off)) with (o4 + off) by lia.
  destruct (parse_pkt_format_safe buf (o4 + off) (len - (o4 - 0 + off)) with_l2 (inner p))
    as (r & f & -> & Hb); [lia..|]. obind.
  do 2 eexists. split; [reflexivity|]. split; [done|]. cbn [inner]. intros Hr.
  destruct (Z.eqb_spec r 0); [|done].
  eapply fmt_bounds_in_packet in Hb; [|destruct with_l2; lia|done].
  by replace (o4 + off + (len - (o4 - 0 + off))) with len in Hb by lia.
Qed.

(** The layer-2 pointer of what is parsed is its start. *)
Lemma parse_pkt_format_l2 D buf data len (with_l2 : bool) f r f' :
  simple_fwd_parse_pkt_format D buf data len with_l2 f = Some (r, f') -> l2 f' = Some data.
Proof.
  unfold simple_fwd_parse_pkt_format.
  assert (Hip : forall o g, l2 g = Some data -> parse_ipv4 D buf data o len g = Some (r, f') -> l2 f' = Some data).
  { intros o g Hg. unfold parse_ipv4. cbv zeta.
    destruct (rd buf (data + o + ip_version_ihl D)) as [v|]; obind; [|done]. destruct (negb _); [by intros [= _ <-]|].
    destruct (rd_be buf (data + o + ip_src_addr D) 4) as [src|]; obind; [|done].
    destruct (if src =? 0 then Some 0 else _) as [dst|]; obind; [|done].
    destruct (dst =? 0); [by intros [= _ <-]|].
    destruct (rd buf (data + o + ip_next_proto_id D)) as [proto|]; obind; [|done].
    destruct (proto =? DOCA_PROTO_TCP).
    { destruct (rd buf _); obind; [|done]. by case_bool; intros [= _ <-]. }
    destruct (proto =? DOCA_PROTO_UDP); [by case_bool; intros [= _ <-]|].
    destruct (proto =? DOCA_PROTO_GRE); [by intros [= _ <-]|]. by destruct (proto =? DOCA_PROTO_ICMP); intros [= _ <-]. }
  destruct with_l2; [|by apply Hip]. destruct (rd_be buf _ 2); obind; [|done].
  destruct (_ =? RTE_ETHER_TYPE_IPV4); [by apply Hip|]. by destruct (_ =? RTE_ETHER_TYPE_IPV6); intros [= _ <-].
Qed.

(** A negative offset tells that no tunnel was found. *)
Lemma parse_is_tun_neg buf p off p' :
  simple_fwd_parse_is_tun wire buf p = Some (off, p') -> off < 0 -> p' = p.
Proof.
  unfold simple_fwd_parse_is_tun. destruct (negb _); [by intros [= <- <-]|].
  destruct (_ =? DOCA_PROTO_GRE).
  { destruct (l4 (outer p)); obind; [|done]. unfold parse_gre. destruct (rd buf _) as [fl|]; obind; [|done].
    destruct (Z.testbit fl 7); [by intros [= <- <-]|].
    match goal with |- context [mbind _ ?m] => destruct m; obind; [|done] end.
    destruct (rd_bytes buf _ 2); obind; [|done]. intros [= <- _] Hneg. exfalso. revert Hneg. cbn [wire sizeof_gre_hdr].
    repeat match goal with |- context [if ?b then 4 else 0] => destruct b end; lia. }
  destruct (_ =? DOCA_PROTO_UDP); [|by intros [= <- <-]].
  destruct (l4 (outer p)); obind; [|done]. destruct (rd_be buf _ 2); obind; [|done].
  destruct (_ =? DOCA_VXLAN_DEFAULT_PORT).
  { unfold parse_vxlan. destruct (rd buf _); obind; [|done]. destruct (truthy _); [|intros [= <- _]; done].
    destruct (rd_bytes buf _ 4); obind; [|done]. intros [= <- _]. done. }
  destruct (_ =? DOCA_GTPU_PORT); [|by intros [= <- <-]]. unfold parse_gtp.
  destruct (rd_bytes buf _ 4); obind; [|done]. destruct (rd buf (_ + gtp_msg wire)); obind; [|done].
  destruct (rd buf _); obind; [|done]. intros [= <- _] Hneg. exfalso. revert Hneg.
  cbn [wire sizeof_gtp_hdr sizeof_udp_hdr]. case_bool; lia.
Qed.

(** Where the headers of an accepted packet are. *)
Lemma parse_packet_bounds buf len :
  181 <= Z.of_nat (length buf) ->
  exists r p, simple_fwd_parse_packet wire buf 0 len pinfo0 = Some (r, p) /\
    (r = 0 -> l2 (outer p) = Some 0 /\ fmt_bounds 0 14 len 0 (outer p) /\
      (ptun_type p <> TUN_NONE -> exists d o n, 0 <= d + o /\ d + o + 73 <= Z.of_nat (length buf) /\
         fmt_bounds d o n 0 (inner p))).
Proof.
  intros Hl. unfold simple_fwd_parse_packet. cbn [pinfo0 outer inner tun ptun_type].
  destruct (parse_pkt_format_safe buf 0 len true fmt0) as (r & f & Hp & Hb); [lia..|].
  pose proof (parse_pkt_format_l2 _ _ _ _ _ _ _ _ Hp) as Hl2. rewrite Hp. obind.
  destruct (Z.eqb_spec r 0) as [->|Hr]; cbn [negb]; [|do 2 eexists; split; [done|intros [=]]].
  destruct (Hb eq_refl) as (_ & _ & o4 & H4 & Ho4 & _). cbn beta iota in Ho4.
  set (p1 := Pinfo f TUN_NONE _ _ _).
  destruct (parse_is_tun_safe buf p1 o4) as (off & p2 & Htun & Hout2 & Hin2 & _ & Hoff);
    [done|lia..|].
  pose proof (parse_is_tun_neg _ _ _ _ Htun) as Hneg. rewrite Htun. obind.
  assert (Hf : outer p2 = f) by (by rewrite Hout2).
  assert (Hinner : forall with_l2, 0 <= off -> exists r p, parse_inner wire buf p2 0 len off with_l2 = Some (r, p) /\
    (r = 0 -> l2 (outer p) = Some 0 /\ fmt_bounds 0 14 len 0 (outer p) /\
      (ptun_type p <> TUN_NONE -> exists d o n, 0 <= d + o /\ d + o + 73 <= Z.of_nat (length buf) /\
         fmt_bounds d o n 0 (inner p)))).
  { intros with_l2 H0. unfold parse_inner. rewrite Hf, H4. obind.
    destruct (parse_pkt_format_safe buf (0 + (o4 - 0 + off)) (len - (o4 - 0 + off)) with_l2 (inner p2))
      as (r & g & -> & Hg); [lia..|]. obind. do 2 eexists. split; [reflexivity|]. cbn [outer inner ptun_type].
    intros Hr. split_and!; [done|done|]. intros _. destruct (Z.eqb_spec r 0) as [->|]; [|done].
    do 3 eexists. split_and!; [| |exact Hg]; destruct with_l2; lia. }
  destruct (ptun_type p2) eqn:Ht.
  { do 2 eexists. split; [done|]. intros _. rewrite Hf, Ht. done. }
  all: case_bool; [|apply Hinner; lia].
  all: rewrite Hneg in Ht by lia; done.
Qed.

(** ** Lemmas: types *)

(** The fields of a parsing result are within their C types. *)
Record pinfo_ok (p : pkt_info) : Prop := {
  ok_outer_l4 : in_u 8 (l4_type (outer p));
  ok_inner_l4 : in_u 8 (l4_type (inner p));
  ok_union : length (tun_union (tun p)) = 8%nat /\ Forall byte_ok (tun_union (tun p))
}.

Lemma rd_byte buf i b : Forall byte_ok buf -> rd buf i = Some b -> byte_ok b.
Proof.
  intros Hb Hr. unfold rd in Hr. destruct (decide _); [|done]. rewrite Forall_lookup in Hb. by eapply Hb.
Qed.

Lemma rd_bytes_byte buf i n bs : Forall byte_ok buf -> rd_bytes buf i n = Some bs -> Forall byte_ok bs /\ length bs = n.
Proof.
  intros Hb. revert i bs. induction n as [|n IH]; intros i bs; cbn [rd_bytes]; [by intros [= <-]|].
  destruct (rd buf i) as [b|] eqn:Hr; obind; [|done]. destruct (rd_bytes buf (i + 1) n) as [l|] eqn:Hl; obind; [|done].
  intros [= <-]. destruct (IH _ _ Hl) as [? <-]. split; [|done]. constructor; [by apply (rd_byte buf i)|done].
Qed.

Lemma rd_be_in_u buf i n v : Forall byte_ok buf -> rd_be buf i n = Some v -> in_u (8 * Z.of_nat n) v.
Proof.
  intros Hb. unfold rd_be. destruct (rd_bytes buf i n) as [bs|] eqn:Hr; [|done]. intros [= <-].
  destruct (rd_bytes_byte _ _ _ _ Hb Hr) as [Hbs <-]. pose proof (be_value_bound bs Hbs) as Hv.
  exact Hv.
Qed.

Lemma set_union_ok t off bs :
  length (tun_union t) = 8%nat /\ Forall byte_ok (tun_union t) -> (off + length bs <= 8)%nat -> Forall byte_ok bs ->
  length (tun_union (set_union t off bs)) = 8%nat /\ Forall byte_ok (tun_union (set_union t off bs)).
Proof.
  intros [Hl Hb] Ho Hbs. cbn [tun_union set_union]. split.
  - rewrite !length_app, length_take, length_drop. lia.
  - repeat apply Forall_app_2; [by apply Forall_take|done|by apply Forall_drop].
Qed.

Lemma union_field_in_u t off n :
  length (tun_union t) = 8%nat /\ Forall byte_ok (tun_union t) -> (off + n <= 8)%nat ->
  in_u (8 * Z.of_nat n) (union_field t off n).
Proof.
  intros [Hl Hb] Ho. unfold union_field. set (l := take n (drop off (tun_union t))).
  assert (Hln : length l = n) by (subst l; rewrite length_take, length_drop; lia).
  pose proof (be_value_bound l ltac:(by apply Forall_take, Forall_drop)) as Hv. rewrite Hln in Hv.
  exact Hv.
Qed.

Section Types.
Context (D : dpdk) (buf : list Z) (Hbuf : Forall byte_ok buf).

Lemma parse_ipv4_l4 data o len f r f' :
  in_u 8 (l4_type f) -> parse_ipv4 D buf data o len f = Some (r, f') -> in_u 8 (l4_type f').
Proof using.
  intros Hf. unfold parse_ipv4. cbv zeta.
  destruct (rd buf (data + o + ip_version_ihl D)) as [v|]; obind; [|done]. destruct (negb _); [by intros [= _ <-]|].
  destruct (rd_be buf (data + o + ip_src_addr D) 4) as [src|]; obind; [|done].
  destruct (if src =? 0 then Some 0 else _) as [dst|]; obind; [|done].
  destruct (dst =? 0); [by intros [= _ <-]|].
  destruct (rd buf (data + o + ip_next_proto_id D)) as [proto|]; obind; [|done].
  destruct (proto =? DOCA_PROTO_TCP).
  { destruct (rd buf _); obind; [|done]. by case_bool; intros [= _ <-]. }
  destruct (proto =? DOCA_PROTO_UDP); [by case_bool; intros [= _ <-]|].
  destruct (proto =? DOCA_PROTO_GRE); [by intros [= _ <-]|]. by destruct (proto =? DOCA_PROTO_ICMP); intros [= _ <-].
Qed.

Lemma parse_pkt_format_l4 data len (with_l2 : bool) f r f' :
  in_u 8 (l4_type f) -> simple_fwd_parse_pkt_format D buf data len with_l2 f = Some (r, f') -> in_u 8 (l4_type f').
Proof using.
  intros Hf. unfold simple_fwd_parse_pkt_format. destruct with_l2; [|by apply parse_ipv4_l4].
  destruct (rd_be buf _ 2); obind; [|done]. destruct (_ =? RTE_ETHER_TYPE_IPV4); [by apply parse_ipv4_l4|].
  by destruct (_ =? RTE_ETHER_TYPE_IPV6); intros [= _ <-].
Qed.

Lemma parse_is_tun_typed p off p' : pinfo_ok p -> simple_fwd_parse_is_tun D buf p = Some (off, p') -> pinfo_ok p'.
Proof using Hbuf.
  intros [Ho Hi Hu]. unfold simple_fwd_parse_is_tun. destruct (negb _); [by intros [= _ <-]|].
  destruct (_ =? DOCA_PROTO_GRE).
  { destruct (l4 (outer p)); obind; [|done]. unfold parse_gre. destruct (rd buf _) as [fl|]; obind; [|done].
    destruct (Z.testbit fl 7); [by intros [= _ <-]|].
    match goal with |- context [mbind _ ?m] => destruct m as [t|] eqn:Ht; obind; [|done] end.
    destruct (rd_bytes buf (_ + gre_proto D) 2) as [pr|] eqn:Hpr; obind; [|done].
    intros H. injection H as _ <-. apply rd_bytes_byte in Hpr as [Hpr Hl]; [|done].
    split; cbn [outer inner tun]; [done..|]. apply set_union_ok; [|lia|done].
    destruct (Z.testbit fl 5); [|by injection Ht as <-].
    destruct (rd_bytes buf (_ + sizeof_gre_hdr D) 4) as [k|] eqn:Hk; [|done]. injection Ht as <-.
    apply rd_bytes_byte in Hk as [Hk Hkl]; [|done]. apply set_union_ok; [done|lia|done]. }
  destruct (_ =? DOCA_PROTO_UDP); [|by intros [= _ <-]].
  destruct (l4 (outer p)) as [o|]; obind; [|done]. destruct (rd_be buf _ 2); obind; [|done].
  destruct (_ =? DOCA_VXLAN_DEFAULT_PORT).
  { unfold parse_vxlan. destruct (rd buf _); obind; [|done]. destruct (truthy _); [|by intros [= _ <-]].
    destruct (rd_bytes buf (_ + vxlan_vni D) 4) as [v|] eqn:Hv; obind; [|done]. intros [= _ <-].
    apply rd_bytes_byte in Hv as [Hv Hl]; [|done].
    split; cbn [outer inner tun]; [done..|]. cbn [tun_union set_l2]. apply set_union_ok; [done|lia|done]. }
  destruct (_ =? DOCA_GTPU_PORT); [|by intros [= _ <-]]. unfold parse_gtp.
  destruct (rd_bytes buf (_ + gtp_teid D) 4) as [t|] eqn:Ht; obind; [|done].
  destruct (rd buf (_ + gtp_msg D)) as [m|] eqn:Hm; obind; [|done].
  destruct (rd buf (_ + gtp_info D)) as [g|] eqn:Hg; obind; [|done].
  intros H. injection H as _ <-. apply rd_bytes_byte in Ht as [Ht Hl]; [|done].
  apply rd_byte in Hm; [|done]. apply rd_byte in Hg; [|done].
  split; cbn [outer inner tun]; [done..|]. cbn [tun_union set_l2].
  apply set_union_ok; [apply set_union_ok; [apply set_union_ok; [done|lia|done]|cbn; lia|by apply Forall_singleton]
    |cbn; lia|by apply Forall_singleton].
Qed.

(** The parser stores values of the fields' types. *)
Lemma parse_packet_typed data len p r p' :
  pinfo_ok p -> simple_fwd_parse_packet D buf data len p = Some (r, p') -> pinfo_ok p'.
Proof using Hbuf.
  intros [Ho Hi Hu]. unfold simple_fwd_parse_packet. cbn [outer inner tun ptun_type pkt_len].
  destruct (simple_fwd_parse_pkt_format D buf data len true (outer p)) as [[r1 f]|] eqn:Hf; obind; [|done].
  apply parse_pkt_format_l4 in Hf; [|done]. destruct (negb _); [by intros [= _ <-]|].
  destruct (simple_fwd_parse_is_tun D buf _) as [[off p2]|] eqn:Ht; obind; [|done].
  apply parse_is_tun_typed in Ht; [|done]. destruct Ht as [Ho2 Hi2 Hu2].
  assert (Hin : forall w, parse_inner D buf p2 data len off w = Some (r, p') -> pinfo_ok p').
  { intros w. unfold parse_inner. destruct (l4 (outer p2)); obind; [|done].
    destruct (simple_fwd_parse_pkt_format D buf _ _ w (inner p2)) as [[r2 g]|] eqn:Hg; obind; [|done].
    intros [= _ <-]. by apply parse_pkt_format_l4 in Hg. }
  destruct (ptun_type p2); [by intros [= _ <-]|..]; (destruct (off <? 0); [by intros [= _ <-]|]); apply Hin.
Qed.
End Types.

Lemma pinfo0_ok : pinfo_ok pinfo0.
Proof. split; [done..|]. split; [done|]. by repeat constructor. Qed.

(** What the getters read of a layer is there. *)
Lemma layer_getters buf d o n f :
  fmt_bounds d o n 0 f -> 0 <= d + o -> d + o + 73 <= Z.of_nat (length buf) ->
  l3_type f = IPV4 /\ exists o3 src dst sp dp, l3 f = Some o3 /\
    rd_be buf (o3 + ip_src_addr wire) 4 = Some src /\ rd_be buf (o3 + ip_dst_addr wire) 4 = Some dst /\
    simple_fwd_pinfo_src_port wire buf f = Some sp /\ simple_fwd_pinfo_dst_port wire buf f = Some dp.
Proof.
  intros Hb H0 Hl. destruct (Hb eq_refl) as (H3 & Hty & o4 & H4 & Ho4 & _). split; [done|].
  unfold simple_fwd_pinfo_src_port, simple_fwd_pinfo_dst_port. rewrite H4.
  destruct (rd_be_Some buf (d + o + ip_src_addr wire) 4) as [src Hs]; [cbn; lia..|].
  destruct (rd_be_Some buf (d + o + ip_dst_addr wire) 4) as [dst Hd]; [cbn; lia..|].
  destruct (rd_be_Some buf (o4 + 0) 2) as [sp Hsp]; [cbn; lia..|].
  destruct (rd_be_Some buf (o4 + 2) 2) as [dp Hdp]; [cbn; lia..|].
  exists (d + o), src, dst, (if (l4_type f =? DOCA_PROTO_TCP) || (l4_type f =? DOCA_PROTO_UDP) then sp else 0),
    (if (l4_type f =? DOCA_PROTO_TCP) || (l4_type f =? DOCA_PROTO_UDP) then dp else 0).
  split_and!; [done..| |]; destruct (l4_type f =? DOCA_PROTO_TCP), (l4_type f =? DOCA_PROTO_UDP); obind; done.
Qed.

Definition has_ports (f : pkt_format) : Prop := l4_type f = DOCA_PROTO_TCP \/ l4_type f = DOCA_PROTO_UDP.

(** TCP and UDP have their ports at the same place. *)
Lemma ports_same_place buf f g :
  l4 f = l4 g -> has_ports f -> has_ports g ->
  simple_fwd_pinfo_src_port wire buf f = simple_fwd_pinfo_src_port wire buf g /\
  simple_fwd_pinfo_dst_port wire buf f = simple_fwd_pinfo_dst_port wire buf g.
Proof.
  intros H4. unfold has_ports, simple_fwd_pinfo_src_port, simple_fwd_pinfo_dst_port. rewrite H4.
  intros [-> | ->] [-> | ->]; done.
Qed.

Lemma frame_fmt_ports o f : has_ports (frame_fmt o f).
Proof. unfold has_ports. cbn [frame_fmt l4_type]. destruct (f_l4 f); auto. Qed.

(** ** Properties *)

(** C39: parsing any packet is memory safe and never leaves the packet.  For
    every content and every claimed length, as long as the buffer has 181 bytes
    (DPDK's mbufs have 2048), no header field is read outside it; and when the
    packet is accepted, the payload pointers of the outer and the inner TCP or
    UDP packet point into the packet (or to its end). *)
Theorem parse_packet_safe buf len :
  181 <= Z.of_nat (length buf) ->
  exists r p, simple_fwd_parse_packet wire buf 0 len pinfo0 = Some (r, p) /\
    (r = 0 -> in_packet len (outer p) /\ in_packet len (inner p)).
Proof.
  intros Hl. unfold simple_fwd_parse_packet. cbn [pinfo0 outer inner tun ptun_type].
  destruct (parse_pkt_format_safe buf 0 len true fmt0) as (r & f & -> & Hb); [lia..|]. obind.
  destruct (Z.eqb_spec r 0) as [Hr|Hr]; cbn [negb]; [|do 2 eexists; split; [done|intros [=]]].
  pose proof (fmt_bounds_in_packet 0 14 len r f ltac:(lia) Hb Hr) as Hout. cbn [Z.add] in Hout.
  destruct (Hb Hr) as (_ & _ & o4 & H4 & Ho4 & _). cbn beta iota in Ho4.
  set (p1 := Pinfo f TUN_NONE _ _ _).
  assert (Hin0 : in_packet len fmt0) by (intros [[=]|[=]]).
  destruct (parse_is_tun_safe buf p1 o4) as (off & p2 & -> & Hout2 & Hin2 & _ & Hoff); [done|lia..|]. obind.
  assert (Hf : outer p2 = f) by (by rewrite Hout2).
  assert (Hin2' : inner p2 = fmt0) by (by rewrite Hin2).
  destruct (ptun_type p2).
  { do 2 eexists. split; [done|]. intros _. by rewrite Hf, Hin2'. }
  all: case_bool; [do 2 eexists; split; [done|]; intros _; by rewrite Hf, Hin2'|].
  all: destruct (parse_inner_safe buf p2 o4 len off (tun_l2 (tun p2))) as (r3 & p3 & Hp3 & Ho3 & Hi3);
    [by rewrite Hf|lia..|].
  all: destruct (parse_inner_safe buf p2 o4 len off false) as (r4 & p4 & Hp4 & Ho4' & Hi4);
    [by rewrite Hf|lia..|].
  1,2: do 2 eexists; split; [exact Hp3|]; intros Hr3; rewrite Ho3, Hf; auto.
  do 2 eexists; split; [exact Hp4|]; intros Hr4; rewrite Ho4', Hf; auto.
Qed.

(** an ordinary packet is decoded to its flow.  Parsing an Ethernet frame
    with an IPv4 header (any options) and TCP (any options) or UDP that is not
    a known tunnel succeeds, and the getters return the addresses and ports that
    were encoded. *)
Theorem parse_plain_roundtrip f post len :
  frame_ok f -> not_tunnel (f_l4 f) -> Z.of_nat (length (frame_bytes f)) <= len ->
  let buf := frame_bytes f ++ post in
  exists p, simple_fwd_parse_packet wire buf 0 len pinfo0 = Some (0, p) /\
    ptun_type p = TUN_NONE /\ outer p = frame_fmt 0 f /\
    simple_fwd_pinfo_outer_ipv4_src wire buf p = Some (ip_src (f_ip f)) /\
    simple_fwd_pinfo_outer_ipv4_dst wire buf p = Some (ip_dst (f_ip f)) /\
    simple_fwd_pinfo_outer_src_port wire buf p = Some (sport (f_l4 f)) /\
    simple_fwd_pinfo_outer_dst_port wire buf p = Some (dport (f_l4 f)) /\
    simple_fwd_pinfo_outer_mac_dst wire buf p = Some (eth_dst (f_eth f)) /\
    simple_fwd_pinfo_outer_mac_src wire buf p = Some (eth_src (f_eth f)).
Proof.
  intros Hf Hnt Hlen buf.
  assert (Hb : field_at buf 0 (frame_headers f)).
  { subst buf. unfold frame_bytes. rewrite <- app_assoc. apply (field_at_here []). }
  unfold frame_bytes in Hlen. rewrite length_app in Hlen.
  unfold simple_fwd_parse_packet. rewrite (parse_pkt_format_frame _ _ _ f) by (done || lia). obind.
  cbn [Z.eqb negb]. rewrite (is_tun_plain buf 0 f) by done. obind.
  destruct (getters_frame _ _ _ Hb Hf) as [? ? ? ? [? ?]].
  eexists. split; [reflexivity|]. by split_and!.
Qed.

(** A VXLAN packet is decoded to its tunnel and its inner flow.  Parsing a
    frame to UDP port 4789 whose payload is a VXLAN header and an inner frame
    succeeds; the VNI, the outer and the inner addresses and ports are those
    that were encoded, and decapsulation makes the outer getters return the
    inner flow. *)
Theorem parse_vxlan_roundtrip out v inn s lc post len :
  frame_ok out -> frame_ok inn -> vxlan_ok v ->
  f_l4 out = Udp s DOCA_VXLAN_DEFAULT_PORT lc -> f_payload out = vxlan_bytes v ++ frame_bytes inn ->
  Z.of_nat (length (frame_bytes out)) <= len ->
  let buf := frame_bytes out ++ post in
  exists p, simple_fwd_parse_packet wire buf 0 len pinfo0 = Some (0, p) /\
    ptun_type p = TUN_VXLAN /\ vni (tun p) = vx_vni v /\
    simple_fwd_pinfo_outer_ipv4_src wire buf p = Some (ip_src (f_ip out)) /\
    simple_fwd_pinfo_outer_ipv4_dst wire buf p = Some (ip_dst (f_ip out)) /\
    simple_fwd_pinfo_inner_ipv4_src wire buf p = Some (ip_src (f_ip inn)) /\
    simple_fwd_pinfo_inner_ipv4_dst wire buf p = Some (ip_dst (f_ip inn)) /\
    simple_fwd_pinfo_inner_src_port wire buf p = Some (sport (f_l4 inn)) /\
    simple_fwd_pinfo_inner_dst_port wire buf p = Some (dport (f_l4 inn)) /\
    let q := simple_fwd_pinfo_decap p in
    ptun_type q = TUN_NONE /\
    simple_fwd_pinfo_outer_ipv4_src wire buf q = Some (ip_src (f_ip inn)) /\
    simple_fwd_pinfo_outer_ipv4_dst wire buf q = Some (ip_dst (f_ip inn)) /\
    simple_fwd_pinfo_outer_src_port wire buf q = Some (sport (f_l4 inn)) /\
    simple_fwd_pinfo_outer_dst_port wire buf q = Some (dport (f_l4 inn)) /\
    simple_fwd_pinfo_outer_mac_dst wire buf q = Some (eth_dst (f_eth inn)).
Proof.
  intros Hout Hinn Hv Hl4 Hpl Hlen buf.
  assert (Hb : field_at buf 0 ((frame_headers out ++ vxlan_bytes v) ++ frame_headers inn)).
  { subst buf. unfold frame_bytes. rewrite Hpl. unfold frame_bytes.
    replace ((frame_headers out ++ vxlan_bytes v ++ frame_headers inn ++ f_payload inn) ++ post)
      with ([] ++ ((frame_headers out ++ vxlan_bytes v) ++ frame_headers inn) ++ (f_payload inn ++ post))
      by (by rewrite app_nil_l, <- !app_assoc).
    apply (field_at_here []). }
  unfold frame_bytes in Hlen. rewrite Hpl in Hlen. unfold frame_bytes in Hlen. rewrite !length_app in Hlen.
  apply field_at_app in Hb as [Hbv Hbi]. pose proof Hbv as [Hbo _]%field_at_app.
  rewrite length_app in Hbi.
  unfold simple_fwd_parse_packet. rewrite (parse_pkt_format_frame _ _ _ out) by (done || lia). obind.
  cbn [Z.eqb negb]. set (p1 := Pinfo _ _ _ _ _).
  destruct (is_tun_vxlan buf 0 out p1 s lc v) as (t & -> & Hvni & Hl2); [done..|]. obind.
  cbn [ptun_type tun outer Z.ltb Z.compare]. rewrite Hl2. unfold parse_inner. cbn [outer p1 frame_fmt l4]. obind.
  assert (Hvl : length (vxlan_bytes v) = 8%nat).
  { destruct Hv as (_ & _ & Hr & _). unfold vxlan_bytes. by rewrite !length_app, length_be_bytes, Hr. }
  assert (H8 : Z.of_nat (length (transport_bytes (f_l4 out))) = 8).
  { destruct Hout as (_ & _ & _ & _ & Ht). rewrite Hl4 in *. cbn [transport_bytes].
    rewrite !length_app, !length_be_bytes, Ht. done. }
  pose proof (length_frame_headers out Hout) as Hlo. rewrite H8 in Hlo.
  set (d := 0 + _). assert (Hd : d = Z.of_nat (length (frame_headers out) + length (vxlan_bytes v)))
    by (subst d; lia).
  rewrite Z.add_0_l, <- Hd in Hbi.
  rewrite (parse_pkt_format_frame _ _ _ inn) by (done || lia). obind.
  destruct (getters_frame _ _ _ Hbo Hout) as [? ? _ _ _].
  destruct (getters_frame _ _ _ Hbi Hinn) as [? ? Hsp Hdp [? _]].
  eexists. split; [reflexivity|]. cbn [ptun_type tun].
  split_and!; try done; unfold simple_fwd_pinfo_outer_src_port, simple_fwd_pinfo_outer_dst_port.
  all: cbn [simple_fwd_pinfo_decap ptun_type outer inner].
  - rewrite <- Hsp. apply ports_same_place; [done| |apply frame_fmt_ports].
    apply (frame_fmt_ports 0 out).
  - rewrite <- Hdp. apply ports_same_place; [done| |apply frame_fmt_ports].
    apply (frame_fmt_ports 0 out).
Qed.

(** ** Witnesses *)

Definition sample_eth : eth := {| eth_dst := [2; 0; 0; 0; 0; 1]; eth_src := [2; 0; 0; 0; 0; 2] |}.
Definition sample_ip (s d : Z) : ip4 :=
  {| ip_ihl := 5; ip_mid := [0; 0; 60; 0; 0; 64; 0; 64]; ip_cksum := [0; 0]; ip_src := s; ip_dst := d;
     ip_opts := [] |}.
Definition sample_tcp : flow_frame :=
  {| f_eth := sample_eth; f_ip := sample_ip 167772161 167772162;
     f_l4 := Tcp 40000 443 5 0 (replicate 8 0) (replicate 7 0) []; f_payload := [104; 105] |}.
Definition sample_vxlan : vxlan := {| vx_flags := 8; vx_rsvd := [0; 0; 0]; vx_vni := 25600 |}.
Definition sample_tunnel : flow_frame :=
  {| f_eth := sample_eth; f_ip := sample_ip 3232235777 3232235778;
     f_l4 := Udp 50000 4789 [0; 0; 0; 0]; f_payload := vxlan_bytes sample_vxlan ++ frame_bytes sample_tcp |}.

Lemma sample_tcp_ok : frame_ok sample_tcp.
Proof. repeat split; vm_compute; congruence. Qed.

Lemma sample_tunnel_ok : frame_ok sample_tunnel.
Proof. repeat split; vm_compute; congruence. Qed.

Lemma parse_packet_safe_witness :
  exists r p, simple_fwd_parse_packet wire (replicate 181 69) 0 60 pinfo0 = Some (r, p) /\
    (r = 0 -> in_packet 60 (outer p) /\ in_packet 60 (inner p)).
Proof. apply parse_packet_safe. vm_compute. discriminate. Defined.

Lemma parse_plain_roundtrip_witness :
  exists p, simple_fwd_parse_packet wire (frame_bytes sample_tcp ++ [0]) 0 57 pinfo0 = Some (0, p) /\
    simple_fwd_pinfo_outer_dst_port wire (frame_bytes sample_tcp ++ [0]) p = Some 443.
Proof.
  destruct (parse_plain_roundtrip sample_tcp [0] 57) as (p & Hp & _ & _ & _ & _ & _ & Hd & _);
    [exact sample_tcp_ok | exact I | vm_compute; discriminate | exists p; split; [exact Hp | exact Hd]].
Defined.

Lemma parse_vxlan_roundtrip_witness :
  exists p, simple_fwd_parse_packet wire (frame_bytes sample_tunnel ++ []) 0 200 pinfo0 = Some (0, p) /\
    vni (tun p) = 25600.
Proof.
  destruct (parse_vxlan_roundtrip sample_tunnel sample_vxlan sample_tcp 50000 [0; 0; 0; 0] [] 200)
    as (p & Hp & _ & Hv & _);
    [exact sample_tunnel_ok | exact sample_tcp_ok | repeat split; vm_compute; congruence | reflexivity
    | reflexivity | vm_compute; discriminate | exists p; split; [exact Hp | exact Hv]].
Defined.

(** The parser reads past a packet that is shorter than its headers: a 14-byte
    Ethernet frame that announces IPv4. *)
Example parse_short_frame :
  simple_fwd_parse_packet wire (eth_bytes sample_eth RTE_ETHER_TYPE_IPV4) 0 14 pinfo0 = None.
Proof. reflexivity. Qed.
