(* ===== verification/SimpleFwdFt.v ===== *)
(** * The flow table of the simple forward VNF

    Models simple_fwd_vnf/src/simple_fwd_ft.c.  An entry's address is its number
    [eid]; a bucket is the list of its entries, first to last.  The locks have
    no effect on one thread; [trylock] may fail.  The time stamp counter, the
    hardware packet counters, the allocator and DPDK's power-of-two functions
    are arguments. *)

From S2P Require Import Prelude SimpleFwdPkt.
#[local] Open Scope Z_scope.

(** ** Data *)

(** [struct simple_fwd_ft_key] *)
Record ft_key := Key {
  ipv4_1 : Z; ipv4_2 : Z; port_1 : Z; port_2 : Z; key_vni : Z;
  protocol : Z; key_tun_type : Z; port_id : Z; pad : Z; rss_hash : Z
}.

Definition key0 : ft_key := Key 0 0 0 0 0 0 0 0 0 0.

(** [struct simple_fwd_ft_entry] with the id of its [user_ctx]. *)
Record ft_entry := Entry {
  eid : nat;
  key : ft_key;
  expiration : Z; age_sec : Z; last_counter : Z; sw_ctr : Z; hw_off : Z;
  buckets_index : Z;
  fid : Z
}.

(** [struct simple_fwd_ft]; [aged] logs the calls of the aging callback. *)
Record ft := Ft {
  size : Z; mask : Z; user_data_size : Z; entry_size : Z;
  st_add : Z; st_rm : Z;
  has_age_thread : bool; stop_aging_thread : bool;
  fid_ctr : Z;
  buckets : list (list ft_entry);
  next_eid : nat;
  aged : list nat
}.

(** What the table reads of a packet: its buffer, its parsing result, the port
    it came from and its hash. *)
Record packet := { p_buf : list Z; p_info : pkt_info; p_port : Z; p_rss : Z }.

Definition with_buckets (t : ft) (b : list (list ft_entry)) : ft :=
  Ft (size t) (mask t) (user_data_size t) (entry_size t) (st_add t) (st_rm t) (has_age_thread t)
    (stop_aging_thread t) (fid_ctr t) b (next_eid t) (aged t).

(** ** Keys *)

Definition tun_type_nb (t : tun_type) : Z :=
  match t with TUN_NONE => 0 | TUN_VXLAN => 1 | TUN_GTPU => 2 | TUN_GRE => 3 end.

Section Keys.
Context (D : dpdk).

Definition simple_fwd_ft_key_get_ipv4_src (inn : bool) (p : packet) : option Z :=
  if inn then simple_fwd_pinfo_inner_ipv4_src D (p_buf p) (p_info p)
  else simple_fwd_pinfo_outer_ipv4_src D (p_buf p) (p_info p).
Definition simple_fwd_ft_key_get_ipv4_dst (inn : bool) (p : packet) : option Z :=
  if inn then simple_fwd_pinfo_inner_ipv4_dst D (p_buf p) (p_info p)
  else simple_fwd_pinfo_outer_ipv4_dst D (p_buf p) (p_info p).
Definition simple_fwd_ft_key_get_src_port (inn : bool) (p : packet) : option Z :=
  if inn then simple_fwd_pinfo_inner_src_port D (p_buf p) (p_info p)
  else simple_fwd_pinfo_outer_src_port D (p_buf p) (p_info p).
Definition simple_fwd_ft_key_get_dst_port (inn : bool) (p : packet) : option Z :=
  if inn then simple_fwd_pinfo_inner_dst_port D (p_buf p) (p_info p)
  else simple_fwd_pinfo_outer_dst_port D (p_buf p) (p_info p).

Definition simple_fwd_ft_key_fill (p : packet) (k : ft_key) : option (Z * ft_key) :=
  let i := p_info p in
  let inn := negb (bool_decide (ptun_type i = TUN_NONE)) in
  if negb (l3_type (outer i) =? IPV4) then Some (-1, k)
  else
    let proto := if inn then l4_type (inner i) else l4_type (outer i) in
    s ← simple_fwd_ft_key_get_ipv4_src inn p;
    d ← simple_fwd_ft_key_get_ipv4_dst inn p;
    sp ← simple_fwd_ft_key_get_src_port inn p;
    dp ← simple_fwd_ft_key_get_dst_port inn p;
    Some (0, Key s d sp dp (if inn then vni (tun i) else key_vni k) proto
               (if inn then tun_type_nb (ptun_type i) else key_tun_type k)
               (p_port p) (pad k) (p_rss p)).
End Keys.

(** The bytes of a key in memory, and its 64-bit words (the comparison does not
    depend on the byte order of the machine). *)
Definition key_bytes (k : ft_key) : list Z :=
  be_bytes 4 (ipv4_1 k) ++ be_bytes 4 (ipv4_2 k) ++ be_bytes 2 (port_1 k) ++ be_bytes 2 (port_2 k) ++
  be_bytes 4 (key_vni k) ++ be_bytes 1 (protocol k) ++ be_bytes 1 (key_tun_type k) ++
  be_bytes 2 (port_id k) ++ be_bytes 4 (pad k) ++ be_bytes 4 (rss_hash k).
Definition key_word (k : ft_key) (i : nat) : Z := be_value (take 8 (drop (8 * i) (key_bytes k))).

Definition simple_fwd_ft_key_equal (k1 k2 : ft_key) : bool :=
  let res := Z.lxor (key_word k1 0) (key_word k2 0) in
  let res := Z.lor res (Z.lxor (key_word k1 1) (key_word k2 1)) in
  let res := Z.lor res (Z.lxor (key_word k1 2) (key_word k2 2)) in
  res =? 0.

(** ** Entries *)

Definition set_age (e : ft_entry) (exp age last : Z) : ft_entry :=
  Entry (eid e) (key e) exp age last (sw_ctr e) (hw_off e) (buckets_index e) (fid e).

Definition simple_fwd_ft_update_age_sec (e : ft_entry) (secs : Z) : ft_entry :=
  set_age e (expiration e) secs (last_counter e).

Definition simple_fwd_ft_update_expiration (now hz : Z) (e : ft_entry) : ft_entry :=
  if age_sec e =? 0 then e
  else set_age e (u64 (now + u64 (hz * age_sec e))) (age_sec e) (last_counter e).

(** [query]: the hardware counter of the entry, if it can be read. *)
Definition simple_fwd_ft_update_counter (query : option Z) (e : ft_entry) : bool * ft_entry :=
  match query with
  | Some total => (truthy (u64 (total - last_counter e)), set_age e (expiration e) (age_sec e) total)
  | None => (false, e)
  end.

(** ** Lookup and insertion *)

Definition bucket_idx (t : ft) (rss : Z) : Z := Z.land rss (mask t).

(** The first matching node, its expiration updated in place. *)
Fixpoint find_node (now hz : Z) (k : ft_key) (b : list ft_entry) : option (ft_entry * list ft_entry) :=
  match b with
  | [] => None
  | e :: b' =>
      if simple_fwd_ft_key_equal (key e) k then
        let e' := simple_fwd_ft_update_expiration now hz e in Some (e', e' :: b')
      else match find_node now hz k b' with
           | Some (r, b'') => Some (r, e :: b'')
           | None => None
           end
  end.

(** The outer option is undefined behaviour: an index outside the table. *)
Definition _simple_fwd_ft_find (now hz : Z) (t : ft) (k : ft_key) : option (option ft_entry * ft) :=
  let idx := bucket_idx t (rss_hash k) in
  b ← rd (buckets t) idx;
  match find_node now hz k b with
  | Some (e, b') => bs ← wr (buckets t) idx b'; Some (Some e, with_buckets t bs)
  | None => Some (None, t)
  end.

Definition simple_fwd_ft_find (D : dpdk) (now hz : Z) (t : ft) (p : packet)
    : option (doca_error * option ft_entry * ft) :=
  '(r, k) ← simple_fwd_ft_key_fill D p key0;
  if negb (r =? 0) then Some (DOCA_ERROR_UNEXPECTED, None, t)
  else
    '(fe, t') ← _simple_fwd_ft_find now hz t k;
    match fe with
    | None => Some (DOCA_ERROR_NOT_FOUND, None, t')
    | Some e => Some (DOCA_SUCCESS, Some e, t')
    end.

(** [oom]: the allocation fails.  A NULL table gives [false], that is 0. *)
Definition simple_fwd_ft_add_new (D : dpdk) (now hz : Z) (oom : bool) (ot : option ft) (p : packet)
    : option (doca_error * option ft_entry * option ft) :=
  match ot with
  | None => Some (DOCA_SUCCESS, None, None)
  | Some t =>
      '(r, k) ← simple_fwd_ft_key_fill D p key0;
      if negb (r =? 0) then Some (DOCA_ERROR_UNEXPECTED, None, ot)
      else if oom then Some (DOCA_ERROR_NO_MEMORY, None, ot)
      else
        let idx := bucket_idx t (p_rss p) in
        let new_e := simple_fwd_ft_update_expiration now hz (Entry (next_eid t) key0 0 0 0 0 0 0 0) in
        let new_e := Entry (next_eid t) k (expiration new_e) (age_sec new_e) 0 0 0 (u16 idx) (fid_ctr t) in
        b ← rd (buckets t) idx;
        bs ← wr (buckets t) idx (new_e :: b);
        Some (DOCA_SUCCESS, Some new_e,
              Some (Ft (size t) (mask t) (user_data_size t) (entry_size t) (u64 (st_add t + 1)) (st_rm t)
                      (has_age_thread t) (stop_aging_thread t) (u32 (fid_ctr t + 1)) bs (S (next_eid t))
                      (aged t)))
  end.

(** ** Removal *)

Definition not_eid (x : nat) (e : ft_entry) : bool := negb (eid e =? x)%nat.

(** [LIST_REMOVE] unlinks the node from whatever list holds it. *)
Definition _ft_destroy_entry (t : ft) (x : nat) : ft :=
  Ft (size t) (mask t) (user_data_size t) (entry_size t) (st_add t) (u64 (st_rm t + 1)) (has_age_thread t)
    (stop_aging_thread t) (fid_ctr t) (map (List.filter (not_eid x)) (buckets t)) (next_eid t) (x :: aged t).

(** The lock taken is the one of the stored 16-bit index, which must exist. *)
Definition simple_fwd_ft_destroy_entry (t : ft) (e : ft_entry) : option ft :=
  b ← rd (buckets t) (buckets_index e); Some (_ft_destroy_entry t (eid e)).

(** One pass over a bucket: the entries passed, with their counters read, and
    the one that has expired without new packets, if any. *)
Fixpoint age_scan (now : Z) (query : nat -> option Z) (b : list ft_entry)
    : list ft_entry * option ft_entry * list ft_entry :=
  match b with
  | [] => ([], None, [])
  | e :: b' =>
      if truthy (age_sec e) && (expiration e <? now) then
        let '(active, e') := simple_fwd_ft_update_counter (query (eid e)) e in
        if active then let '(pre, x, post) := age_scan now query b' in (e' :: pre, x, post)
        else ([], Some e', b')
      else let '(pre, x, post) := age_scan now query b' in (e :: pre, x, post)
  end.

Definition simple_fwd_ft_aging_ft_entry (now : Z) (query : nat -> option Z) (trylock : bool) (t : ft)
    (i : Z) : option (bool * ft) :=
  b ← rd (buckets t) i;
  if trylock then
    let '(pre, x, post) := age_scan now query b in
    match x with
    | Some e =>
        bs ← wr (buckets t) i (pre ++ e :: post);
        Some (true, _ft_destroy_entry (with_buckets t bs) (eid e))
    | None => bs ← wr (buckets t) i pre; Some (false, with_buckets t bs)
    end
  else Some (false, t).

(** [do next = ... while (next)] on one bucket; [env] gives the time, counters
    and lock of each pass. *)
Fixpoint aging_bucket (fuel : nat) (env : nat -> Z * (nat -> option Z) * bool) (n : nat) (t : ft) (i : Z)
    : option (nat * ft) :=
  match fuel with
  | O => None
  | S fuel' =>
      let '(now, query, lock) := env n in
      '(next, t') ← simple_fwd_ft_aging_ft_entry now query lock t i;
      if (next : bool) then aging_bucket fuel' env (S n) t' i else Some (S n, t')
  end.

(** One round of the aging thread, over the buckets [i, i + k). *)
Fixpoint aging_buckets (fuel : nat) (env : nat -> Z * (nat -> option Z) * bool) (n : nat) (t : ft)
    (i : Z) (k : nat) : option ft :=
  match k with
  | O => Some t
  | S k' => '(n', t') ← aging_bucket fuel env n t i; aging_buckets fuel env n' t' (i + 1) k'
  end.

Definition simple_fwd_ft_aging_round (fuel : nat) (env : nat -> Z * (nat -> option Z) * bool) (t : ft)
    : option ft :=
  if swrap 32 (st_add t - st_rm t) =? 0 then Some t
  else aging_buckets fuel env 0 t 0 (Z.to_nat (size t)).

(** ** Creation and destruction *)

(** [is_pow2], [align]: rte_is_power_of_2 and rte_align32pow2; [sz_ft],
    [sz_bucket]: the sizes of the table's header and of a bucket; [oom]: calloc
    fails; [thread]: starting the aging thread succeeds.  [None]: the
    initialisation runs past the allocated buckets. *)
Definition simple_fwd_ft_create (is_pow2 : Z -> bool) (align : Z -> Z) (sz_ft sz_bucket sz_entry : Z)
    (oom thread : bool) (nb_flows uds : Z) (age_thread : bool) : option (option ft) :=
  if nb_flows <=? 0 then Some None
  else
    let aligned := if is_pow2 nb_flows then nb_flows else align nb_flows in
    let n := u32 (Z.shiftl aligned 1) in
    let alloc_size := u32 (sz_ft + sz_bucket * n) in
    if oom then Some None
    else if alloc_size <? sz_ft + sz_bucket * n then None
    else if age_thread && negb thread then Some None
    else Some (Some (Ft n (u32 (n - 1)) uds (u32 (sz_entry + uds)) 0 0 age_thread false 0
                       (replicate (Z.to_nat n) []) 0 [])).

Definition destroy_list (t : ft) (b : list ft_entry) : ft :=
  foldl (fun t e => _ft_destroy_entry t (eid e)) t b.

(** The buckets from [i] on; the aging thread has been joined. *)
Fixpoint destroy_buckets (t : ft) (i : Z) (k : nat) : option ft :=
  match k with
  | O => Some t
  | S k' => b ← rd (buckets t) i; destroy_buckets (destroy_list t b) (i + 1) k'
  end.

(** The state the freed table was left in. *)
Definition simple_fwd_ft_destroy (ot : option ft) : option (doca_error * option ft) :=
  match ot with
  | None => Some (DOCA_ERROR_INVALID_VALUE, None)
  | Some t =>
      let t := Ft (size t) (mask t) (user_data_size t) (entry_size t) (st_add t) (st_rm t) (has_age_thread t)
                 (has_age_thread t || stop_aging_thread t) (fid_ctr t) (buckets t) (next_eid t) (aged t) in
      t' ← destroy_buckets t 0 (Z.to_nat (size t)); Some (DOCA_SUCCESS, Some t')
  end.

(** ** Specification *)

(** The fields two keys must share to be the same flow: all but the hash. *)
Definition same_flow (k1 k2 : ft_key) : Prop :=
  ipv4_1 k1 = ipv4_1 k2 /\ ipv4_2 k1 = ipv4_2 k2 /\ port_1 k1 = port_1 k2 /\ port_2 k1 = port_2 k2 /\
  key_vni k1 = key_vni k2 /\ protocol k1 = protocol k2 /\ key_tun_type k1 = key_tun_type k2 /\
  port_id k1 = port_id k2 /\ pad k1 = pad k2.

(** Every field is within its width. *)
Record key_ok (k : ft_key) : Prop := {
  ok_ip : in_u 32 (ipv4_1 k) /\ in_u 32 (ipv4_2 k);
  ok_ports : in_u 16 (port_1 k) /\ in_u 16 (port_2 k);
  ok_vni : in_u 32 (key_vni k);
  ok_proto : in_u 8 (protocol k) /\ in_u 8 (key_tun_type k);
  ok_port_id : in_u 16 (port_id k);
  ok_pad : in_u 32 (pad k);
  ok_rss : in_u 32 (rss_hash k)
}.

Definition live (t : ft) : list ft_entry := concat (buckets t).

(** An entry that belongs in bucket [i]. *)
Definition located (t : ft) (i : nat) (e : ft_entry) : Prop :=
  bucket_idx t (rss_hash (key e)) = Z.of_nat i /\ buckets_index e = u16 (Z.of_nat i).

(** The invariant of a table: entry number [n] was either removed, its aging
    callback called once, or is in the table once, in the bucket of its hash;
    the statistics tell how many entries there are. *)
Record ft_ok (t : ft) : Prop := {
  ok_size : exists n, 0 < n < 32 /\ size t = 2 ^ n;
  ok_mask : mask t = size t - 1;
  ok_buckets : Z.of_nat (length (buckets t)) = size t;
  ok_located : forall i b, buckets t !! i = Some b -> Forall (located t i) b;
  ok_conserved : map eid (live t) ++ aged t ≡ₚ seq 0 (next_eid t);
  ok_stats : u64 (st_add t - st_rm t) = u64 (Z.of_nat (length (live t)))
}.

(** ** Lemmas: keys *)

Lemma be_value_inj a b :
  Forall byte_ok a -> Forall byte_ok b -> length a = length b -> be_value a = be_value b -> a = b.
Proof.
  intros Ha. revert b. induction Ha as [|x a Hx Ha IH]; intros [|y b] Hb Hl Hv; try done.
  apply Forall_cons in Hb as [Hy Hb]. injection Hl as Hl. cbn [be_value] in Hv. rewrite Hl in Hv.
  pose proof (be_value_bound a Ha) as Ba. pose proof (be_value_bound b Hb) as Bb. rewrite Hl in Ba.
  assert (x = y) as -> by nia. f_equal. apply IH; [done..|lia].
Qed.

Lemma be_bytes_inj n x y :
  in_u (8 * Z.of_nat n) x -> in_u (8 * Z.of_nat n) y -> be_bytes n x = be_bytes n y -> x = y.
Proof.
  intros Hx Hy H. apply (f_equal be_value) in H. rewrite !be_value_bytes in H.
  by rewrite !Z.mod_small in H.
Qed.

Lemma key_bytes_ok k : Forall byte_ok (key_bytes k).
Proof. unfold key_bytes. repeat apply Forall_app_2; apply be_bytes_ok. Qed.

Lemma length_key_bytes k : length (key_bytes k) = 28%nat.
Proof. unfold key_bytes. by rewrite !length_app, !length_be_bytes. Qed.

Lemma app_inj_len {A} (a a' b b' : list A) :
  length a = length a' -> a ++ b = a' ++ b' -> a = a' /\ b = b'.
Proof. apply app_inj_1. Qed.

(** The first 24 bytes are those of every field but the hash. *)
Lemma key_bytes_flow k1 k2 :
  key_ok k1 -> key_ok k2 -> take 24 (key_bytes k1) = take 24 (key_bytes k2) <-> same_flow k1 k2.
Proof.
  intros [[? ?] [? ?] ? [? ?] ? ? ?] [[? ?] [? ?] ? [? ?] ? ? ?].
  assert (Ht : forall k, take 24 (key_bytes k) =
    be_bytes 4 (ipv4_1 k) ++ be_bytes 4 (ipv4_2 k) ++ be_bytes 2 (port_1 k) ++ be_bytes 2 (port_2 k) ++
    be_bytes 4 (key_vni k) ++ be_bytes 1 (protocol k) ++ be_bytes 1 (key_tun_type k) ++
    be_bytes 2 (port_id k) ++ be_bytes 4 (pad k)) by reflexivity.
  rewrite !Ht. unfold same_flow. split.
  - intros E. repeat (apply app_inj_len in E as [? E]; [|by rewrite !length_be_bytes]).
    split_and!; match goal with
      | E : be_bytes ?n ?x = be_bytes ?n ?y |- ?x = ?y => by apply (be_bytes_inj n)
      end.
  - intros (-> & -> & -> & -> & -> & -> & -> & -> & ->). done.
Qed.

Lemma lxor_zero a b : Z.lxor a b = 0 <-> a = b.
Proof. split; [apply Z.lxor_eq | intros ->; apply Z.lxor_nilpotent]. Qed.

Lemma take_24_words (l l' : list Z) :
  length l = 28%nat -> length l' = 28%nat ->
  take 24 l = take 24 l' <->
  take 8 l = take 8 l' /\ take 8 (drop 8 l) = take 8 (drop 8 l') /\ take 8 (drop 16 l) = take 8 (drop 16 l').
Proof.
  intros Hl Hl'.
  assert (H24 : forall m : list Z, length m = 28%nat ->
    take 24 m = take 8 m ++ take 8 (drop 8 m) ++ take 8 (drop 16 m)).
  { intros m Hm. rewrite <- (take_drop 8 (take 24 m)), <- (take_drop 8 (drop 8 (take 24 m))).
    rewrite !skipn_firstn_comm, !take_take, !drop_drop. done. }
  rewrite !H24 by done. split; [|by intros (-> & -> & ->)].
  intros E. apply app_inj_len in E as [E1 E]; [|rewrite !length_take; lia].
  apply app_inj_len in E as [E2 E3]; [done|rewrite !length_take, !length_drop; lia].
Qed.

Lemma key_word_eq k1 k2 i :
  (8 * i + 8 <= 28)%nat ->
  key_word k1 i = key_word k2 i <->
  take 8 (drop (8 * i) (key_bytes k1)) = take 8 (drop (8 * i) (key_bytes k2)).
Proof.
  intros Hi. unfold key_word. split; [|by intros ->]. apply be_value_inj.
  1,2: apply Forall_take, Forall_drop, key_bytes_ok.
  rewrite !length_take, !length_drop, !length_key_bytes. done.
Qed.

Lemma key_equal_same_flow k1 k2 :
  key_ok k1 -> key_ok k2 -> simple_fwd_ft_key_equal k1 k2 = true <-> same_flow k1 k2.
Proof.
  intros H1 H2. rewrite <- key_bytes_flow by done.
  rewrite take_24_words by apply length_key_bytes. unfold simple_fwd_ft_key_equal.
  rewrite Z.eqb_eq, !Z.lor_eq_0_iff, !lxor_zero.
  rewrite !key_word_eq by lia. rewrite drop_0. tauto.
Qed.

(** ** Lemmas: buckets *)

Lemma bucket_split {A} (bs : list A) i b :
  rd bs i = Some b ->
  exists pre post, bs = pre ++ b :: post /\ Z.of_nat (length pre) = i /\
    forall b', wr bs i b' = Some (pre ++ b' :: post).
Proof.
  intros Hr. pose proof (rd_range _ _ _ Hr) as Hi. unfold rd in Hr. rewrite decide_True in Hr by lia.
  apply list_elem_of_split_length in Hr as (pre & post & -> & Hl). exists pre, post.
  split_and!; [done|lia|]. intros b'. rewrite wr_Some by done. f_equal.
  rewrite insert_app_r_alt by lia. by replace (Z.to_nat i - length pre)%nat with 0%nat by lia.
Qed.

Lemma map_eid_remove x l :
  NoDup (map eid l) -> x ∈ map eid l -> map eid l ≡ₚ x :: map eid (List.filter (not_eid x) l).
Proof.
  induction l as [|e l IH]; cbn [map]; intros Hn Hx; [by apply not_elem_of_nil in Hx|].
  apply NoDup_cons in Hn as [He Hn]. cbn [List.filter].
  assert (Hkeep : forall l', x ∉ map eid l' -> List.filter (not_eid x) l' = l').
  { clear. induction l' as [|e l' IH]; [done|]. cbn [map List.filter].
    intros [H1 H2]%not_elem_of_cons. unfold not_eid at 1.
    rewrite (proj2 (Nat.eqb_neq (eid e) x)) by done. cbn. by rewrite IH. }
  unfold not_eid at 1. destruct (Nat.eqb_spec (eid e) x) as [<-|Hne]; cbn [negb].
  - by rewrite Hkeep.
  - apply elem_of_cons in Hx as [->|Hx]; [done|]. cbn [map].
    rewrite perm_swap. apply Permutation_cons; [done|]. by apply IH.
Qed.

Lemma elem_of_filter_b (f : ft_entry -> bool) e l : e ∈ List.filter f l -> e ∈ l.
Proof. rewrite !list_elem_of_In. intros H. by apply filter_In in H as [? _]. Qed.

Lemma live_destroy t x : live (_ft_destroy_entry t x) = List.filter (not_eid x) (live t).
Proof. unfold live. simpl. apply concat_filter_map. Qed.

Lemma ft_NoDup t : ft_ok t -> NoDup (map eid (live t)).
Proof.
  intros Ht. pose proof (NoDup_seq 0 (next_eid t)) as Hn. rewrite <- (ok_conserved t Ht) in Hn.
  by apply NoDup_app in Hn as (? & _).
Qed.

Lemma destroy_ok t x :
  ft_ok t -> x ∈ map eid (live t) ->
  ft_ok (_ft_destroy_entry t x) /\
  map eid (live t) ≡ₚ x :: map eid (live (_ft_destroy_entry t x)).
Proof.
  intros Ht Hx. pose proof (ft_NoDup t Ht) as Hn. destruct Ht as [Hs Hm Hb Hloc Hc Hst].
  pose proof (map_eid_remove _ _ Hn Hx) as Hp. rewrite live_destroy. split; [|done].
  split; cbn [_ft_destroy_entry size mask buckets next_eid aged st_add st_rm]; try done.
  - by rewrite length_map.
  - intros i b. rewrite list_lookup_fmap. destruct (buckets t !! i) as [b0|] eqn:E; [|done].
    intros [= <-]. specialize (Hloc i b0 E). rewrite Forall_forall in *.
    intros e He%elem_of_filter_b. by apply Hloc.
  - rewrite live_destroy, <- Hc, Hp. simpl. by rewrite <- Permutation_middle.
  - rewrite live_destroy. apply (f_equal u64) in Hst.
    apply Permutation_length in Hp. cbn [length] in Hp. rewrite !length_map in Hp.
    rewrite Hp in Hst. unfold wrap in *. rewrite !Zmod_mod in Hst.
    rewrite Zminus_mod_idemp_r.
    replace (st_add t - (st_rm t + 1)) with (st_add t - st_rm t - 1) by lia.
    rewrite <- Zminus_mod_idemp_l, Hst, Zminus_mod_idemp_l. f_equal. lia.
Qed.

(** Replacing a bucket by one with the same entries. *)
Definition same_id (e e' : ft_entry) : Prop :=
  eid e' = eid e /\ key e' = key e /\ buckets_index e' = buckets_index e /\ fid e' = fid e.

Lemma same_ids_eid l l' : Forall2 same_id l l' -> map eid l' = map eid l.
Proof. induction 1 as [|e e' l l' (He & _) Hl IH]; [done|]. cbn [map]. by rewrite He, IH. Qed.

Lemma same_ids_located t i l l' : Forall2 same_id l l' -> Forall (located t i) l -> Forall (located t i) l'.
Proof.
  induction 1 as [|e e' l l' (_ & Hk & Hb & _) Hl IH]; [done|]. intros [[H1 H2] Hloc]%Forall_cons.
  constructor; [|by apply IH]. split; by rewrite ?Hk, ?Hb.
Qed.

Lemma rebucket_ok t i b b' bs :
  ft_ok t -> rd (buckets t) i = Some b -> Forall2 same_id b b' -> wr (buckets t) i b' = Some bs ->
  ft_ok (with_buckets t bs) /\ map eid (concat bs) = map eid (live t).
Proof.
  intros [Hs Hm Hb Hloc Hc Hst] Hr Hsame Hw.
  destruct (bucket_split _ _ _ Hr) as (pre & post & Hbs & Hi & Hwr). rewrite Hwr in Hw. injection Hw as <-.
  assert (Heid : map eid (concat (pre ++ b' :: post)) = map eid (live t)).
  { unfold live. rewrite Hbs, !concat_app, !map_app. cbn [concat]. rewrite !map_app.
    by rewrite (same_ids_eid _ _ Hsame). }
  split; [|done]. split; cbn [with_buckets size mask buckets next_eid aged st_add st_rm]; try done.
  - rewrite <- Hb, Hbs, !length_app. done.
  - intros j bj Hj. rewrite Hbs in Hloc. destruct (decide (j = length pre)) as [->|Hne].
    + rewrite list_lookup_middle in Hj by done. injection Hj as <-.
      eapply same_ids_located; [exact Hsame|]. apply Hloc. by rewrite list_lookup_middle.
    + apply Hloc. destruct (decide (j < length pre)%nat).
      * rewrite lookup_app_l in * by lia. done.
      * rewrite lookup_app_r in * by lia. destruct (j - length pre)%nat eqn:E; [lia|]. done.
  - unfold live. cbn [buckets with_buckets]. rewrite Heid. done.
  - unfold live. cbn [buckets with_buckets]. rewrite Hst. do 2 f_equal.
    apply (f_equal length) in Heid. by rewrite !length_map in Heid.
Qed.

(** ** Lemmas: operations *)

Lemma update_expiration_same now hz e : same_id e (simple_fwd_ft_update_expiration now hz e).
Proof. unfold simple_fwd_ft_update_expiration. by destruct (age_sec e =? 0). Qed.

Lemma same_id_refl e : same_id e e.
Proof. done. Qed.

Lemma same_ids_refl l : Forall2 same_id l l.
Proof. induction l; constructor; auto using same_id_refl. Qed.

(** The lookup finds the first entry with an equal key. *)
Lemma find_node_spec now hz k b :
  match find_node now hz k b with
  | Some (e, b') => exists e0, List.find (fun x => simple_fwd_ft_key_equal (key x) k) b = Some e0 /\
      same_id e0 e /\ Forall2 same_id b b'
  | None => List.find (fun x => simple_fwd_ft_key_equal (key x) k) b = None
  end.
Proof.
  induction b as [|e b IH]; cbn [find_node List.find]; [done|].
  destruct (simple_fwd_ft_key_equal (key e) k).
  - exists e. split; [done|]. pose proof (update_expiration_same now hz e). split; [done|].
    constructor; [done|apply same_ids_refl].
  - destruct (find_node now hz k b) as [[r b']|]; [|done]. destruct IH as (e0 & ? & ? & ?).
    exists e0. split_and!; [done..|]. constructor; [apply same_id_refl|done].
Qed.

(** A pass over a bucket passes entries over, up to an expired, idle one. *)
Definition expired (now : Z) (e : ft_entry) : Prop := age_sec e <> 0 /\ expiration e < now.
Definition idle (query : nat -> option Z) (e : ft_entry) : Prop :=
  forall total, query (eid e) = Some total -> u64 (total - last_counter e) = 0.

Lemma age_scan_spec now query b :
  let '(pre, x, post) := age_scan now query b in
  match x with
  | Some e => exists pre0 e0, b = pre0 ++ e0 :: post /\ Forall2 same_id pre0 pre /\ same_id e0 e /\
      expired now e0 /\ idle query e0
  | None => post = [] /\ Forall2 same_id b pre
  end.
Proof.
  induction b as [|e b IH]; cbn [age_scan]; [done|].
  assert (Hskip : forall e', same_id e e' ->
    let '(pre, x, post) := (let '(pre, x, post) := age_scan now query b in (e' :: pre, x, post)) in
    match x with
    | Some f => exists pre0 e0, e :: b = pre0 ++ e0 :: post /\ Forall2 same_id pre0 pre /\ same_id e0 f /\
        expired now e0 /\ idle query e0
    | None => post = [] /\ Forall2 same_id (e :: b) pre
    end).
  { intros e' He. destruct (age_scan now query b) as [[pre x] post]. destruct x as [f|].
    - destruct IH as (pre0 & e0 & -> & ? & ?). exists (e :: pre0), e0. split; [done|].
      split; [by constructor|done].
    - destruct IH as [-> ?]. split; [done|]. by constructor. }
  case_bool; [|apply Hskip, same_id_refl].
  assert (Hx : expired now e) by (unfold expired, truthy in *; lia).
  unfold simple_fwd_ft_update_counter. destruct (query (eid e)) as [total|] eqn:Hq.
  - destruct (truthy (u64 (total - last_counter e))) eqn:Ht; [by apply Hskip|].
    exists [], e. split_and!; [done|constructor|done|done|]. intros t' [= <-]%(eq_trans (eq_sym Hq)).
    unfold truthy in Ht. lia.
  - exists [], e. split_and!; [done|constructor|done|done|]. intros t' Ht'. by rewrite Hq in Ht'.
Qed.

(** A pass either leaves the entries as they are or removes one. *)
Lemma aging_pass_ok now query lock t i :
  ft_ok t -> 0 <= i < size t ->
  exists next t', simple_fwd_ft_aging_ft_entry now query lock t i = Some (next, t') /\ ft_ok t' /\
    size t' = size t /\
    (next = false -> map eid (live t') = map eid (live t) /\ aged t' = aged t) /\
    (next = true -> exists e, e ∈ live t /\ expired now e /\ idle query e /\
       aged t' = eid e :: aged t /\ map eid (live t) ≡ₚ eid e :: map eid (live t')).
Proof.
  intros Ht Hi. unfold simple_fwd_ft_aging_ft_entry.
  destruct (rd_Some (buckets t) i) as [b Hb]; [rewrite (ok_buckets t Ht); done|]. rewrite Hb. obind.
  destruct lock; [|do 2 eexists; split; [reflexivity|]; by split_and!].
  pose proof (age_scan_spec now query b) as Hs. destruct (age_scan now query b) as [[pre x] post].
  destruct (bucket_split _ _ _ Hb) as (l1 & l2 & Hbs & Hl & Hwr). destruct x as [e|].
  - destruct Hs as (pre0 & e0 & Hb0 & Hpre & Hid & Hexp & Hidle).
    pose proof (Hwr (pre ++ e :: post)) as Hw. rewrite Hw. obind.
    assert (Hsame : Forall2 same_id b (pre ++ e :: post)).
    { rewrite Hb0. apply Forall2_app; [done|]. constructor; [done|apply same_ids_refl]. }
    destruct (rebucket_ok _ _ _ _ _ Ht Hb Hsame Hw) as [Ht1 Hm1].
    set (t1 := with_buckets t _) in *.
    assert (He0 : e0 ∈ live t).
    { unfold live. rewrite Hbs, concat_app. cbn [concat]. rewrite Hb0. set_solver. }
    assert (Hin : eid e ∈ map eid (live t1)).
    { change (live t1) with (concat (l1 ++ (pre ++ e :: post) :: l2)). rewrite Hm1.
      destruct Hid as [-> _]. by apply list_elem_of_fmap_2. }
    destruct (destroy_ok t1 (eid e) Ht1 Hin) as [Hok Hp].
    do 2 eexists. split; [reflexivity|]. split; [done|]. split; [done|]. split; [done|]. intros _.
    exists e0. split_and!; [done..| |].
    + cbn. by destruct Hid as [-> _].
    + destruct Hid as [<- _]. rewrite <- Hp.
      change (live t1) with (concat (l1 ++ (pre ++ e :: post) :: l2)). by rewrite Hm1.
  - destruct Hs as [_ Hsame]. pose proof (Hwr pre) as Hw. rewrite Hw. obind.
    destruct (rebucket_ok _ _ _ _ _ Ht Hb Hsame Hw) as [Ht1 Hm1].
    do 2 eexists. split; [reflexivity|]. split_and!; try done. 
Qed.

Lemma bucket_idx_range t rss : ft_ok t -> 0 <= bucket_idx t rss < size t.
Proof.
  intros Ht. destruct (ok_size t Ht) as (n & Hn & Hs). unfold bucket_idx. rewrite (ok_mask t Ht), Hs.
  rewrite Z.sub_1_r, <- Z.ones_equiv, Z.land_ones by lia. apply Z.mod_pos_bound. lia.
Qed.

Lemma key_fill_cases D p :
  forall r k, simple_fwd_ft_key_fill D p key0 = Some (r, k) -> r = -1 \/ r = 0 /\ rss_hash k = p_rss p.
Proof.
  intros r k. unfold simple_fwd_ft_key_fill. destruct (negb _); [intros [= <- <-]; by left|].
  destruct (simple_fwd_ft_key_get_ipv4_src D _ p); obind; [|done].
  destruct (simple_fwd_ft_key_get_ipv4_dst D _ p); obind; [|done].
  destruct (simple_fwd_ft_key_get_src_port D _ p); obind; [|done].
  destruct (simple_fwd_ft_key_get_dst_port D _ p); obind; [|done]. intros [= <- <-]. by right.
Qed.

(** An insertion puts the new entry, number [next_eid], at the head of its
    bucket. *)
Lemma add_new_ok D now hz t p r e t' :
  ft_ok t -> simple_fwd_ft_add_new D now hz false (Some t) p = Some (r, e, Some t') ->
  r = DOCA_ERROR_UNEXPECTED /\ e = None /\ t' = t \/
  exists k b bs new_e, simple_fwd_ft_key_fill D p key0 = Some (0, k) /\ r = DOCA_SUCCESS /\ e = Some new_e /\
    key new_e = k /\ eid new_e = next_eid t /\ fid new_e = fid_ctr t /\
    rd (buckets t) (bucket_idx t (p_rss p)) = Some b /\
    wr (buckets t) (bucket_idx t (p_rss p)) (new_e :: b) = Some bs /\
    buckets t' = bs /\ mask t' = mask t /\ ft_ok t'.
Proof.
  intros Ht. unfold simple_fwd_ft_add_new.
  destruct (simple_fwd_ft_key_fill D p key0) as [[r0 k]|] eqn:Hk; obind; [|done].
  destruct (key_fill_cases _ _ _ _ Hk) as [-> | [-> Hrss]]; cbn [negb Z.eqb].
  { intros [= <- <- <-]. by left. }
  pose proof (bucket_idx_range t (p_rss p) Ht) as Hidx.
  destruct (rd_Some (buckets t) (bucket_idx t (p_rss p))) as [b Hb]; [rewrite (ok_buckets t Ht); done|].
  rewrite Hb. obind. destruct (bucket_split _ _ _ Hb) as (pre & post & Hbs & Hpre & Hwr). rewrite Hwr. obind.
  set (new_e := Entry _ k _ _ _ _ _ _ _). intros [= <- <- <-]. right.
  exists k, b, (pre ++ (new_e :: b) :: post), new_e. split_and!; try done. clear Hk.
  destruct Ht as [Hs Hm Hb0 Hloc Hc Hst].
  assert (Hlive : concat (pre ++ (new_e :: b) :: post) ≡ₚ new_e :: live t).
  { unfold live. rewrite Hbs, !concat_app. cbn [concat app]. by rewrite <- Permutation_middle. }
  split; cbn [size mask buckets next_eid aged st_add st_rm]; try done.
  - rewrite <- Hb0, Hbs, !length_app. done.
  - intros j bj Hj. rewrite Hbs in Hloc. destruct (decide (j = length pre)) as [->|Hne].
    + rewrite list_lookup_middle in Hj by done. injection Hj as <-. constructor.
      * split; subst new_e; cbn [key buckets_index]; [|by rewrite Hpre].
        unfold bucket_idx in *. cbn [mask]. rewrite Hrss. by rewrite Hpre.
      * apply Hloc. by rewrite list_lookup_middle.
    + apply Hloc. destruct (decide (j < length pre)%nat).
      * rewrite lookup_app_l in * by lia. done.
      * rewrite lookup_app_r in * by lia. destruct (j - length pre)%nat eqn:E; [lia|]. done.
  - unfold live at 1. cbn [buckets]. rewrite Hlive. cbn [map]. rewrite seq_S. cbn [Nat.add].
    rewrite <- Permutation_cons_append. cbn [app]. by apply Permutation_cons.
  - unfold live. cbn [buckets]. apply Permutation_length in Hlive. rewrite Hlive. cbn [length].
    apply (f_equal u64) in Hst. unfold wrap in *. rewrite !Zmod_mod in Hst.
    rewrite Zminus_mod_idemp_l. replace (st_add t + 1 - st_rm t) with (st_add t - st_rm t + 1) by lia.
    rewrite <- Zplus_mod_idemp_l, Hst, Zplus_mod_idemp_l. f_equal. lia.
Qed.

(** What a search by a key returns. *)
Definition lookup (t : ft) (k : ft_key) : option ft_entry :=
  b ← rd (buckets t) (bucket_idx t (rss_hash k)); List.find (fun x => simple_fwd_ft_key_equal (key x) k) b.

Lemma find_ok now hz t k :
  ft_ok t ->
  exists r t', _simple_fwd_ft_find now hz t k = Some (r, t') /\ ft_ok t' /\ map eid (live t') = map eid (live t) /\
    aged t' = aged t /\ (eid <$> r) = (eid <$> lookup t k) /\ (fid <$> r) = (fid <$> lookup t k).
Proof.
  intros Ht. pose proof (bucket_idx_range t (rss_hash k) Ht) as Hidx.
  unfold _simple_fwd_ft_find, lookup.
  destruct (rd_Some (buckets t) (bucket_idx t (rss_hash k))) as [b Hb]; [rewrite (ok_buckets t Ht); done|].
  rewrite Hb. obind. pose proof (find_node_spec now hz k b) as Hf.
  destruct (find_node now hz k b) as [[e b']|].
  - destruct Hf as (e0 & He0 & Hid & Hsame).
    destruct (bucket_split _ _ _ Hb) as (pre & post & Hbs & Hpre & Hwr).
    pose proof (Hwr b') as Hw. rewrite Hw. obind.
    destruct (rebucket_ok _ _ _ _ _ Ht Hb Hsame Hw) as [Ht1 Hm1].
    do 2 eexists. split; [reflexivity|]. rewrite He0. simpl.
    destruct Hid as (-> & _ & _ & ->). by split_and!.
  - do 2 eexists. split; [reflexivity|]. rewrite Hf. by split_and!.
Qed.

(** ** Lemmas: aging and destruction *)

Lemma remove_perm e l :
  NoDup (map eid l) -> e ∈ l -> l ≡ₚ e :: List.filter (not_eid (eid e)) l.
Proof.
  induction l as [|a l IH]; cbn [map]; intros Hn He; [by apply not_elem_of_nil in He|].
  apply NoDup_cons in Hn as [Ha Hn]. cbn [List.filter]. unfold not_eid at 1.
  apply elem_of_cons in He as [->|He].
  - rewrite Nat.eqb_refl. cbn [negb]. apply Permutation_cons; [done|].
    enough (List.filter (not_eid (eid a)) l = l) as -> by done.
    clear IH Hn. induction l as [|b l IH]; [done|]. cbn [map List.filter] in *.
    apply not_elem_of_cons in Ha as [H1 H2]. unfold not_eid at 1.
    rewrite (proj2 (Nat.eqb_neq (eid b) (eid a))) by done. cbn. by rewrite IH.
  - destruct (Nat.eqb_spec (eid a) (eid e)) as [Heq|Hne]; cbn [negb].
    + destruct Ha. rewrite Heq. by apply list_elem_of_fmap_2.
    + rewrite perm_swap. apply Permutation_cons; [done|]. by apply IH.
Qed.

(** What aging does not change of an entry: its identity and its deadline. *)
Definition timer (e : ft_entry) : nat * ft_key * Z * Z := (eid e, key e, age_sec e, expiration e).

Lemma age_scan_timer now query b :
  let '(pre, x, post) := age_scan now query b in
  map timer b = map timer (pre ++ match x with Some e => [e] | None => [] end ++ post).
Proof.
  induction b as [|e b IH]; cbn [age_scan]; [done|].
  destruct (age_scan now query b) as [[pre x] post].
  case_bool; [|cbn [app map]; by rewrite IH].
  unfold simple_fwd_ft_update_counter. destruct (query (eid e)); [case_bool|]; cbn [app map]; by rewrite ?IH.
Qed.

(** A pass, with the deadlines: as [aging_pass_ok], and a removed entry had the
    deadline it has in the table. *)
Lemma aging_pass_timer now query lock t i next t' :
  ft_ok t -> simple_fwd_ft_aging_ft_entry now query lock t i = Some (next, t') ->
  if next then exists e, expired now e /\ idle query e /\ aged t' = eid e :: aged t /\
      map timer (live t) ≡ₚ timer e :: map timer (live t')
  else map timer (live t') = map timer (live t) /\ aged t' = aged t.
Proof.
  intros Ht. unfold simple_fwd_ft_aging_ft_entry.
  destruct (rd (buckets t) i) as [b|] eqn:Hb; obind; [|done]. destruct lock; [|by intros [= <- <-]].
  pose proof (age_scan_spec now query b) as Hs. pose proof (age_scan_timer now query b) as Htm.
  destruct (age_scan now query b) as [[pre x] post].
  destruct (bucket_split _ _ _ Hb) as (l1 & l2 & Hbs & Hl & Hwr). destruct x as [e|].
  - destruct Hs as (pre0 & e0 & Hb0 & Hpre & Hid & Hexp & Hidle).
    pose proof (Hwr (pre ++ e :: post)) as Hw. rewrite Hw. obind. intros [= <- <-].
    assert (Hsame : Forall2 same_id b (pre ++ e :: post)).
    { rewrite Hb0. apply Forall2_app; [done|]. constructor; [done|apply same_ids_refl]. }
    destruct (rebucket_ok _ _ _ _ _ Ht Hb Hsame Hw) as [Ht1 Hm1].
    assert (Hlive : map timer (live t) = map timer (concat (l1 ++ (pre ++ e :: post) :: l2))).
    { unfold live. rewrite Hbs, !concat_app, !map_app. cbn [concat]. rewrite !map_app, Htm, !map_app.
      cbn [app map]. by rewrite <- app_assoc. }
    assert (Ht0 : timer e0 = timer e).
    { rewrite Hb0, !map_app in Htm. cbn [map app] in Htm.
      apply app_inj_len in Htm as [_ Htm]; [by injection Htm; intros; unfold timer; congruence|].
      rewrite !length_map. by eapply Forall2_length. }
    exists e0. split_and!; [done|done|by injection Ht0 as ->|].
    rewrite Hlive, live_destroy, Ht0.
    set (t1 := with_buckets t _) in *. change (concat _) with (live t1).
    rewrite (remove_perm e (live t1)) at 1; [done|by apply ft_NoDup|].
    unfold live, t1. cbn [buckets with_buckets]. rewrite concat_app. cbn [concat]. set_solver.
  - destruct Hs as [-> _]. rewrite Hwr. obind. intros [= <- <-]. split; [|done].
    unfold live. cbn [buckets with_buckets]. rewrite Hbs, !concat_app, !map_app. cbn [concat].
    rewrite !map_app, Htm. cbn [app]. by rewrite app_nil_r.
Qed.

(** ** Lemmas: numbers and keys *)

(** Which entry of the table has which key. *)
Definition ident (e : ft_entry) : nat * ft_key := (eid e, key e).
Definition keys (t : ft) : list (nat * ft_key) := map ident (live t).

Lemma keys_fst t : map fst (keys t) = map eid (live t).
Proof. unfold keys. rewrite map_map. done. Qed.

Lemma keys_timer t t' : map timer (live t) = map timer (live t') -> keys t = keys t'.
Proof.
  intros H. unfold keys. pose proof (f_equal (map (fun '(x, k, _, _) => (x, k) : nat * ft_key)) H) as H'.
  by rewrite !map_map in H'.
Qed.

Lemma same_ids_ident l l' : Forall2 same_id l l' -> map ident l' = map ident l.
Proof. induction 1 as [|e e' l l' (He & Hk & _) Hl IH]; [done|]. cbn [map]. unfold ident at 1 3. by rewrite He, Hk, IH. Qed.

Lemma rebucket_keys t i b b' bs :
  rd (buckets t) i = Some b -> Forall2 same_id b b' -> wr (buckets t) i b' = Some bs ->
  keys (with_buckets t bs) = keys t.
Proof.
  intros Hr Hsame Hw. destruct (bucket_split _ _ _ Hr) as (pre & post & Hbs & _ & Hwr).
  rewrite Hwr in Hw. injection Hw as <-. unfold keys, live. cbn [buckets with_buckets].
  rewrite Hbs, !concat_app, !map_app. cbn [concat]. rewrite !map_app. by rewrite (same_ids_ident _ _ Hsame).
Qed.

Lemma find_keys now hz t k r t' :
  _simple_fwd_ft_find now hz t k = Some (r, t') -> ft_ok t ->
  ft_ok t' /\ keys t' = keys t /\ aged t' = aged t /\
  match r with Some e => eid e ∈ map eid (live t') | None => t' = t end.
Proof.
  intros Hf Ht. destruct (find_ok now hz t k Ht) as (r' & t1 & Hf' & Ht' & Hl & Hag & Hr & _).
  rewrite Hf in Hf'. injection Hf' as <- <-. unfold _simple_fwd_ft_find in Hf.
  destruct (rd (buckets t) (bucket_idx t (rss_hash k))) as [b|] eqn:Hb; obind; [|done].
  cbn [mbind option_bind] in Hf. pose proof (find_node_spec now hz k b) as Hn.
  destruct (find_node now hz k b) as [[e b']|]; [|by injection Hf as <- <-].
  destruct Hn as (e0 & He0 & Hid & Hsame). destruct (wr _ _ b') as [bs|] eqn:Hw; [|done].
  injection Hf as <- <-. split_and!; [done|by eapply rebucket_keys|done|].
  rewrite Hl. destruct Hid as (-> & _). apply list_elem_of_fmap_2.
  apply List.find_some in He0 as [He0 _]. unfold live. apply list_elem_of_In, in_concat.
  exists b. split; [|done]. apply list_elem_of_In. apply list_elem_of_lookup.
  unfold rd in Hb. destruct (decide _); [|done]. eauto.
Qed.

Lemma add_new_keys D now hz t p e t' :
  ft_ok t -> simple_fwd_ft_add_new D now hz false (Some t) p = Some (DOCA_SUCCESS, Some e, Some t') ->
  ft_ok t' /\ aged t' = aged t /\ eid e = next_eid t /\ keys t' ≡ₚ (eid e, key e) :: keys t /\
  simple_fwd_ft_key_fill D p key0 = Some (0, key e).
Proof.
  intros Ht Ha. pose proof (add_new_ok _ _ _ _ _ _ _ _ Ht Ha) as [(? & _) | Hadd]; [done|].
  destruct Hadd as (k & b & bs & e' & Hk & _ & [= <-] & Hke & He & _ & Hb & Hw & Hbs & _ & Ht').
  split_and!; [done| |done| |by rewrite Hke].
  - unfold simple_fwd_ft_add_new in Ha. rewrite Hk in Ha. cbn [mbind option_bind negb Z.eqb] in Ha.
    rewrite Hb in Ha. cbn [mbind option_bind] in Ha. destruct (wr _ _ _); [|done]. by injection Ha as _ <-.
  - destruct (bucket_split _ _ _ Hb) as (pre & post & Hpp & _ & Hwr). rewrite Hwr in Hw. injection Hw as <-.
    unfold keys, live. rewrite Hbs, Hpp, !concat_app, !map_app. cbn [concat]. rewrite !map_app. cbn [map app].
    by rewrite <- Permutation_middle.
Qed.

Lemma destroy_keys t x k :
  ft_ok t -> (x, k) ∈ keys t ->
  ft_ok (_ft_destroy_entry t x) /\ keys t ≡ₚ (x, k) :: keys (_ft_destroy_entry t x).
Proof.
  intros Ht Hx. assert (Hin : x ∈ map eid (live t)).
  { rewrite <- keys_fst. by apply (list_elem_of_fmap_2 fst) in Hx. }
  split; [by apply destroy_ok|]. unfold keys in *. apply list_elem_of_fmap in Hx as (e & [= -> ->] & He).
  rewrite live_destroy. rewrite (remove_perm e (live t)) at 1; [done|by apply ft_NoDup|done].
Qed.

(** A pass of the aging thread, on numbers and keys. *)
Lemma aging_pass_keys now query lock t i next t' :
  ft_ok t -> simple_fwd_ft_aging_ft_entry now query lock t i = Some (next, t') ->
  if next then exists x k, aged t' = x :: aged t /\ keys t ≡ₚ (x, k) :: keys t'
  else keys t' = keys t /\ aged t' = aged t.
Proof.
  intros Ht Ha. pose proof (aging_pass_timer _ _ _ _ _ _ _ Ht Ha) as Hp. destruct next.
  - destruct Hp as (e & _ & _ & Hag & Hp). exists (eid e), (key e). split; [done|].
    apply (Permutation_map (fun '(x, k, _, _) => (x, k) : nat * ft_key)) in Hp.
    cbn [map timer] in Hp. by rewrite !map_map in Hp.
  - destruct Hp as [Hp ?]. split; [|done]. by apply keys_timer.
Qed.

(** The filter that destroying a list of entries amounts to. *)
Definition none_of (l : list ft_entry) (e : ft_entry) : bool := forallb (fun x => not_eid (eid x) e) l.

Lemma destroy_list_ok b t :
  ft_ok t -> NoDup (map eid b) -> (forall e, e ∈ b -> e ∈ live t) ->
  ft_ok (destroy_list t b) /\ size (destroy_list t b) = size t /\
  next_eid (destroy_list t b) = next_eid t /\
  buckets (destroy_list t b) = map (List.filter (none_of b)) (buckets t).
Proof.
  revert t. induction b as [|e b IH]; intros t Ht Hn Hin.
  { split_and!; try done. simpl. rewrite <- (map_id (buckets t)) at 1. apply map_ext.
    intros l. induction l as [|a l IHl]; [done|]. simpl. by rewrite <- IHl. }
  cbn [map] in Hn. apply NoDup_cons in Hn as [He Hn].
  destruct (destroy_ok t (eid e) Ht) as [Ht1 _].
  { apply list_elem_of_fmap_2, Hin. set_solver. }
  destruct (IH (_ft_destroy_entry t (eid e)) Ht1 Hn) as (H1 & H2 & H3 & H4).
  { intros f Hf. rewrite live_destroy. apply list_elem_of_In, filter_In. split.
    - apply list_elem_of_In, Hin. set_solver.
    - unfold not_eid. destruct (Nat.eqb_spec (eid f) (eid e)) as [E|]; [|done].
      destruct He. rewrite <- E. by apply list_elem_of_fmap_2. }
  change (destroy_list t (e :: b)) with (destroy_list (_ft_destroy_entry t (eid e)) b).
  split_and!; [done..|].
  rewrite H4. cbn [_ft_destroy_entry buckets]. rewrite map_map. apply map_ext. intros l.
  clear. induction l as [|a l IHl]; [done|]. cbn [List.filter none_of forallb].
  destruct (not_eid (eid e) a); cbn [andb List.filter]; [|done].
  change (forallb (fun x => not_eid (eid x) a) b) with (none_of b a).
  destruct (none_of b a); by rewrite IHl.
Qed.

Lemma buckets_live t i b e : buckets t !! i = Some b -> e ∈ b -> e ∈ live t.
Proof.
  intros Hi He. unfold live. apply list_elem_of_split_length in Hi as (l1 & l2 & -> & _).
  rewrite concat_app. cbn [concat]. set_solver.
Qed.

Lemma bucket_NoDup t i b : ft_ok t -> buckets t !! i = Some b -> NoDup (map eid b).
Proof.
  intros Ht Hi. pose proof (ft_NoDup t Ht) as Hn. unfold live in Hn.
  apply list_elem_of_split_length in Hi as (l1 & l2 & Hbs & _). rewrite Hbs, concat_app, map_app in Hn.
  cbn [concat] in Hn. rewrite map_app in Hn.
  apply NoDup_app in Hn as (_ & _ & Hn). by apply NoDup_app in Hn as (Hn & _ & _).
Qed.

Lemma filter_none_of b : List.filter (none_of b) b = [].
Proof.
  assert (H : forall l, (forall e, e ∈ l -> e ∈ b) -> List.filter (none_of b) l = []).
  { induction l as [|e l IH]; intros Hl; [done|]. cbn [List.filter].
    replace (none_of b e) with false; [apply IH; set_solver|]. symmetry.
    unfold none_of. apply not_true_is_false. rewrite forallb_forall. intros Hf.
    specialize (Hf e (proj1 (list_elem_of_In _ _) (Hl e ltac:(set_solver)))). unfold not_eid in Hf.
    by rewrite Nat.eqb_refl in Hf. }
  by apply H.
Qed.

Lemma destroy_buckets_ok k : forall t i,
  ft_ok t -> 0 <= i -> i + Z.of_nat k = size t -> (forall j, (j < Z.to_nat i)%nat -> buckets t !! j = Some []) ->
  exists t', destroy_buckets t i k = Some t' /\ ft_ok t' /\ next_eid t' = next_eid t /\ live t' = [].
Proof.
  induction k as [|k IH]; intros t i Ht Hi Hk Hempty; cbn [destroy_buckets].
  - exists t. split_and!; [done..|]. unfold live. pose proof (ok_buckets t Ht) as Hl.
    assert (Hall : forall b, b ∈ buckets t -> b = []).
    { intros b [j Hj]%list_elem_of_lookup. pose proof (lookup_lt_Some _ _ _ Hj).
      rewrite Hempty in Hj by lia. by injection Hj as <-. }
    clear -Hall. induction (buckets t) as [|b l IH]; [done|]. cbn [concat].
    rewrite (Hall b) by set_solver. apply IH. set_solver.
  - destruct (rd_Some (buckets t) i) as [b Hb]; [rewrite (ok_buckets t Ht); lia|]. rewrite Hb. obind.
    unfold rd in Hb. rewrite decide_True in Hb by lia.
    destruct (destroy_list_ok b t) as (H1 & H2 & H3 & H4);
      [done|by eapply bucket_NoDup|intros e; by eapply buckets_live|].
    destruct (IH (destroy_list t b) (i + 1)) as (t' & Hd & Hok & Hne & Hlive); [done|lia|rewrite H2; lia| |].
    + intros j Hj. rewrite H4, list_lookup_fmap. destruct (decide (j = Z.to_nat i)) as [->|].
      * rewrite Hb. simpl. by rewrite filter_none_of.
      * by rewrite Hempty by lia.
    + exists t'. split_and!; [done..|by rewrite Hne|done].
Qed.

Record pow2_ok (is_pow2 : Z -> bool) (align : Z -> Z) : Prop := {
  pow2_iff : forall n, 0 < n < 2 ^ 31 -> is_pow2 n = true <-> exists k, 0 <= k /\ n = 2 ^ k;
  align_up : forall n, 0 < n <= 2 ^ 31 -> align n = 2 ^ Z.log2_up n
}.

Lemma create_size is_pow2 align nb :
  pow2_ok is_pow2 align -> 0 < nb <= 2 ^ 26 ->
  exists n, 0 < n <= 27 /\ u32 (Z.shiftl (if is_pow2 nb then nb else align nb) 1) = 2 ^ n /\ 2 * nb <= 2 ^ n.
Proof.
  intros [Hp Ha] Hnb.
  assert (H : exists k, 0 <= k <= 26 /\ (if is_pow2 nb then nb else align nb) = 2 ^ k /\ nb <= 2 ^ k).
  { destruct (is_pow2 nb) eqn:E.
    - apply Hp in E as (k & Hk & ->); [|lia]. exists k. split_and!; [done| |done|done].
      destruct Hnb as [_ Hnb]. apply Z.pow_le_mono_r_iff in Hnb; lia.
    - exists (Z.log2_up nb). rewrite Ha by lia. split_and!; [apply Z.log2_up_nonneg| |done|].
      + change 26 with (Z.log2_up (2 ^ 26)). apply Z.log2_up_le_mono. lia.
      + destruct (Z.eq_dec nb 1) as [->|]; [done|]. apply Z.log2_up_spec. lia. }
  destruct H as (k & Hk & -> & Hle). exists (k + 1).
  rewrite Z.shiftl_mul_pow2, Z.pow_add_r by lia. change (2 ^ 1) with 2.
  split_and!; [lia..| |lia]. apply wrap_small. split; [lia|].
  pose proof (Z.pow_le_mono_r 2 k 26). lia.
Qed.

Lemma concat_replicate_nil {A} n : concat (replicate n (@nil A)) = [].
Proof. by induction n. Qed.

Lemma ft_create_ok is_pow2 align sz_ft sz_bucket sz_entry oom thread nb uds age_thread t :
  pow2_ok is_pow2 align -> nb <= 2 ^ 26 ->
  simple_fwd_ft_create is_pow2 align sz_ft sz_bucket sz_entry oom thread nb uds age_thread = Some (Some t) ->
  ft_ok t /\ 2 * nb <= size t.
Proof.
  intros Hp Hnb. unfold simple_fwd_ft_create. case_bool; [done|].
  destruct (create_size _ _ nb Hp) as (n & Hn & -> & Hle); [lia|].
  destruct oom; [done|]. case_bool; [done|]. case_bool; [done|]. intros [= <-]. split; [|done].
  assert (H2n : 0 < 2 ^ n < 2 ^ 32) by (split; [lia|apply Z.pow_lt_mono_r; lia]).
  split; cbn [size mask buckets next_eid aged st_add st_rm]; try done.
  - exists n. split; [lia|done].
  - apply wrap_small. lia.
  - rewrite length_replicate. lia.
  - intros i b [-> _]%lookup_replicate. done.
  - unfold live. cbn [buckets]. by rewrite concat_replicate_nil.
  - unfold live. cbn [buckets]. by rewrite concat_replicate_nil.
Qed.

(** ** The table over time *)

Inductive ft_step (D : dpdk) : ft -> ft -> Prop :=
| step_add now hz p r e t t' :
    simple_fwd_ft_add_new D now hz false (Some t) p = Some (r, e, Some t') -> ft_step D t t'
| step_find now hz p r e t t' :
    simple_fwd_ft_find D now hz t p = Some (r, e, t') -> ft_step D t t'
| step_destroy e t t' :
    e ∈ live t -> simple_fwd_ft_destroy_entry t e = Some t' -> ft_step D t t'
| step_age now query lock i next t t' :
    0 <= i < size t -> simple_fwd_ft_aging_ft_entry now query lock t i = Some (next, t') -> ft_step D t t'.

Lemma ft_step_ok D t t' : ft_step D t t' -> ft_ok t -> ft_ok t'.
Proof.
  intros Hs Ht. destruct Hs as [now hz p r e t t' Ha | now hz p r e t t' Hf | e t t' He Hd |
    now query lock i next t t' Hi Ha].
  - destruct (add_new_ok _ _ _ _ _ _ _ _ Ht Ha) as [(_ & _ & ->) | (k & b & bs & e' & H)]; [done|].
    apply H.
  - unfold simple_fwd_ft_find in Hf. destruct (simple_fwd_ft_key_fill D p key0) as [[r0 k]|]; obind; [|done].
    cbn [mbind option_bind] in Hf. destruct (negb _); [by injection Hf as _ _ <-|].
    destruct (find_ok now hz t k Ht) as (o & t1 & Hf1 & Ht1 & _). rewrite Hf1 in Hf.
    cbn [mbind option_bind] in Hf. destruct o; by injection Hf as _ _ <-.
  - unfold simple_fwd_ft_destroy_entry in Hd. destruct (rd (buckets t) (buckets_index e)); [|done].
    injection Hd as <-. apply destroy_ok; [done|]. by apply list_elem_of_fmap_2.
  - destruct (aging_pass_ok now query lock t i Ht Hi) as (n & t1 & Ha1 & Ht1 & _).
    rewrite Ha1 in Ha. by injection Ha as _ <-.
Qed.

Lemma located_destroy t e : ft_ok t -> e ∈ live t -> exists t', simple_fwd_ft_destroy_entry t e = Some t'.
Proof.
  intros Ht He. unfold live in He. apply list_elem_of_In, in_concat in He as (b & Hb & He).
  apply list_elem_of_In, list_elem_of_lookup in Hb as [i Hb].
  pose proof (ok_located t Ht i b Hb) as Hl. rewrite Forall_forall in Hl.
  destruct (Hl e) as [Hidx Hbi]; [by apply list_elem_of_In|]. unfold simple_fwd_ft_destroy_entry.
  pose proof (lookup_lt_Some _ _ _ Hb). destruct (rd_Some (buckets t) (buckets_index e)) as [b' ->];
    [|obind; eauto].
  rewrite Hbi. split; [by apply wrap_nonneg|]. apply Z.le_lt_trans with (Z.of_nat i); [|lia].
  unfold wrap. apply Z.mod_le; lia.
Qed.

(** ** Properties *)

(** C31: the flow table neither loses nor duplicates a flow.  After any sequence
    of insertions, lookups, removals and aging passes on a table that was
    created for up to 2^26 flows: every entry ever inserted is either in the
    table once, in the bucket of its hash, or has had its aging callback called
    exactly once; the statistics count the entries of the table; and removing
    any entry that is there is defined. *)
Theorem ft_conservation D is_pow2 align sz_ft sz_bucket sz_entry oom thread nb uds age_thread t0 t :
  pow2_ok is_pow2 align -> nb <= 2 ^ 26 ->
  simple_fwd_ft_create is_pow2 align sz_ft sz_bucket sz_entry oom thread nb uds age_thread = Some (Some t0) ->
  rtc (ft_step D) t0 t ->
  map eid (live t) ++ aged t ≡ₚ seq 0 (next_eid t) /\
  (forall i b e, buckets t !! i = Some b -> e ∈ b -> bucket_idx t (rss_hash (key e)) = Z.of_nat i) /\
  u64 (st_add t - st_rm t) = u64 (Z.of_nat (length (live t))) /\
  (forall e, e ∈ live t -> exists t', simple_fwd_ft_destroy_entry t e = Some t').
Proof.
  intros Hp Hnb Hc Hr. destruct (ft_create_ok _ _ _ _ _ _ _ _ _ _ _ Hp Hnb Hc) as [H0 _].
  assert (Ht : ft_ok t) by (clear Hc; induction Hr; eauto using ft_step_ok).
  split_and!; [apply Ht| |apply Ht|intros e; by apply located_destroy].
  intros i b e Hi He. pose proof (ok_located t Ht i b Hi) as Hl. rewrite Forall_forall in Hl.
  by apply Hl.
Qed.

(** A lookup after an insertion.  Once a packet's flow has been inserted,
    the lookup of any packet of the same flow and hash returns the new entry
    with its id, and the lookup of a packet of another flow returns what it
    returned before. *)
Theorem ft_find_after_add D now hz t p e t1 k p2 k2 :
  ft_ok t -> simple_fwd_ft_add_new D now hz false (Some t) p = Some (DOCA_SUCCESS, Some e, Some t1) ->
  simple_fwd_ft_key_fill D p key0 = Some (0, k) -> simple_fwd_ft_key_fill D p2 key0 = Some (0, k2) ->
  key_ok k -> key_ok k2 ->
  (same_flow k k2 -> p_rss p2 = p_rss p ->
   exists e2 t2, simple_fwd_ft_find D now hz t1 p2 = Some (DOCA_SUCCESS, Some e2, t2) /\
     eid e2 = next_eid t /\ fid e2 = fid_ctr t) /\
  (~ same_flow k k2 ->
   exists r o o' t2 t2', simple_fwd_ft_find D now hz t p2 = Some (r, o, t2) /\
     simple_fwd_ft_find D now hz t1 p2 = Some (r, o', t2') /\ eid <$> o' = eid <$> o).
Proof.
  intros Ht Ha Hk Hk2 Hok Hok2.
  destruct (add_new_ok _ _ _ _ _ _ _ _ Ht Ha) as [(? & _) | (k' & b & bs & e' & Hk' & _ & _ & He' & Hid & Hfid & Hb & Hw & Hbs & Hm & Ht1)];
    [done|]. rewrite Hk in Hk'. injection Hk' as <-.
  destruct (key_fill_cases _ _ _ _ Hk) as [? | [_ Hr]]; [done|].
  destruct (key_fill_cases _ _ _ _ Hk2) as [? | [_ Hr2]]; [done|].
  destruct (find_ok now hz t1 k2 Ht1) as (o1 & t2 & Hf1 & _ & _ & _ & He1 & Hfd1).
  destruct (find_ok now hz t k2 Ht) as (o & t2' & Hf & _ & _ & _ & Heo & _).
  unfold simple_fwd_ft_find. rewrite Hk2. obind. cbn [negb Z.eqb]. rewrite Hf, Hf1. obind.
  unfold lookup, bucket_idx in He1, Hfd1, Heo. unfold bucket_idx in Hb, Hw.
  rewrite Hm, Hbs, Hr2 in He1, Hfd1. rewrite Hr2 in Heo.
  split.
  - intros Hsame Hrss. rewrite Hrss in *. rewrite (rd_wr_eq _ _ _ _ Hw) in He1, Hfd1.
    cbn [mbind option_bind List.find] in He1, Hfd1. rewrite He' in He1, Hfd1.
    rewrite (proj2 (key_equal_same_flow k k2 Hok Hok2) Hsame) in He1, Hfd1.
    destruct o1 as [e2|]; [|done]. injection He1 as He1. injection Hfd1 as Hfd1.
    do 2 eexists. split; [reflexivity|]. by rewrite He1, Hfd1.
  - intros Hdiff. assert (Hlk : eid <$> o1 = eid <$> o).
    { rewrite He1, Heo. destruct (Z.eq_dec (Z.land (p_rss p2) (mask t)) (Z.land (p_rss p) (mask t))) as [E|E].
      - rewrite E, Hb, (rd_wr_eq _ _ _ _ Hw). cbn [mbind option_bind List.find]. rewrite He'.
        destruct (simple_fwd_ft_key_equal k k2) eqn:Eq; [|done].
        by apply key_equal_same_flow in Eq.
      - by rewrite (rd_wr_ne _ _ _ _ _ (not_eq_sym E) Hw). }
    destruct o as [e0|], o1 as [e1|]; try done; do 5 eexists; (split; [reflexivity|]); (split; [reflexivity|]); done.
Qed.

(** Aging a bucket terminates and only removes flows whose time is over.
    The loop of the aging thread on a bucket returns after at most one pass per
    entry of the table and one more; what it removed, with one callback each,
    had passed its deadline and showed no new packets at the pass that removed
    it, and every other entry keeps its place in the table and its deadline. *)
Theorem ft_aging_bucket env t i fuel n :
  ft_ok t -> 0 <= i < size t -> (length (live t) < fuel)%nat ->
  exists n' t' removed, aging_bucket fuel env n t i = Some (n', t') /\ ft_ok t' /\
    aged t' = map eid removed ++ aged t /\
    map timer (live t) ≡ₚ map timer removed ++ map timer (live t') /\
    Forall (fun e => exists m, (n <= m)%nat /\ expired (fst (fst (env m))) e /\ idle (snd (fst (env m))) e) removed.
Proof.
  revert t n. induction fuel as [|fuel IH]; intros t n Ht Hi Hf; [lia|]. cbn [aging_bucket].
  destruct (env n) as [[now query] lock] eqn:En.
  destruct (aging_pass_ok now query lock t i Ht Hi) as (next & t1 & Ha & Ht1 & Hs1 & Hno & Hyes).
  pose proof (aging_pass_timer _ _ _ _ _ _ _ Ht Ha) as Htm. rewrite Ha. obind. destruct next.
  - destruct Htm as (e & Hexp & Hidle & Haged & Hp).
    destruct (IH t1 (S n) Ht1) as (n' & t' & rem & Hrun & Ht' & Hag & Hp' & Hall).
    { by rewrite Hs1. }
    { apply Permutation_length in Hp. cbn [length] in Hp. rewrite !length_map in Hp. lia. }
    exists n', t', (rem ++ [e]). split_and!; [done|done| | |].
    + rewrite Hag, Haged, map_app, <- app_assoc. done.
    + rewrite Hp, Hp', map_app. cbn [map]. rewrite <- app_assoc. cbn [app].
      by rewrite <- Permutation_middle.
    + apply Forall_app. split.
      * eapply Forall_impl; [exact Hall|]. intros x (m & ? & ?). exists m. split; [lia|done].
      * constructor; [|done]. exists n. rewrite En. done.
  - destruct Htm as [Hl Hag]. exists (S n), t1, []. split_and!; [done|done|done| |constructor].
    by rewrite Hl.
Qed.

(** Destroying the table releases every entry exactly once: the callback
    has been called for each entry ever inserted, no entry is left. *)
Theorem ft_destroy_releases_all t :
  ft_ok t ->
  exists t', simple_fwd_ft_destroy (Some t) = Some (DOCA_SUCCESS, Some t') /\
    live t' = [] /\ aged t' ≡ₚ seq 0 (next_eid t) /\ u64 (st_rm t') = u64 (st_add t').
Proof.
  intros Ht. unfold simple_fwd_ft_destroy. set (t1 := Ft _ _ _ _ _ _ _ _ _ _ _ _).
  assert (Ht1 : ft_ok t1) by (destruct Ht; by split).
  destruct (destroy_buckets_ok (Z.to_nat (size t)) t1 0 Ht1) as (t' & Hd & Ht' & Hne & Hl);
    [lia|destruct (ok_size t Ht) as (n & ? & Hs); cbn [size t1]; rewrite Z2Nat.id; [done|rewrite Hs; lia]|lia|].
  change (size t1) with (size t). rewrite Hd. obind. exists t'. split; [done|]. split; [done|].
  pose proof (ok_conserved t' Ht') as Hc. pose proof (ok_stats t' Ht') as Hst. rewrite Hl in Hc, Hst.
  split; [rewrite Hne in Hc; exact Hc|]. cbn [length] in Hst. change (u64 (Z.of_nat 0)) with 0 in Hst.
  unfold wrap in *. change (2 ^ 64) with 18446744073709551616 in *. Z.div_mod_to_equations. lia.
Qed.

(** Two keys compare equal exactly when they are of the same flow, whatever
    their hashes: the comparison of three words covers every other field. *)
Theorem ft_key_equal k1 k2 :
  key_ok k1 -> key_ok k2 -> (simple_fwd_ft_key_equal k1 k2 = true <-> same_flow k1 k2).
Proof. apply key_equal_same_flow. Qed.

(** ** Witnesses *)

Definition is_pow2_ref (n : Z) : bool := n =? 2 ^ Z.log2 n.
Definition align_ref (n : Z) : Z := 2 ^ Z.log2_up n.

Lemma pow2_ref_ok : pow2_ok is_pow2_ref align_ref.
Proof.
  split; [|done]. intros n Hn. unfold is_pow2_ref. rewrite Z.eqb_eq. split.
  - intros ->. exists (Z.log2 n). split; [apply Z.log2_nonneg|done].
  - intros (k & Hk & ->). by rewrite Z.log2_pow2.
Qed.

(** A table for three flows, a TCP packet of [sample_tcp] and one of another
    flow with the same hash. *)
Definition sample_ft : ft :=
  Ft 8 7 16 96 0 0 false false 0 (replicate 8 []) 0 [].

Definition packet_of (f : flow_frame) (rss : Z) : packet :=
  {| p_buf := frame_bytes f; p_info := Pinfo (frame_fmt 0 f) TUN_NONE (Tun false (replicate 8 0)) fmt0 60;
     p_port := 1; p_rss := rss |}.
Definition sample_udp : flow_frame :=
  {| f_eth := sample_eth; f_ip := sample_ip 167772161 167772162;
     f_l4 := Udp 40000 443 [0; 0; 0; 0]; f_payload := [] |}.

Definition sample_create :
  simple_fwd_ft_create is_pow2_ref align_ref 80 16 80 false true 3 16 false = Some (Some sample_ft) :=
  eq_refl.

Lemma sample_ft_ok : ft_ok sample_ft.
Proof. by eapply ft_create_ok; [exact pow2_ref_ok| |exact sample_create]. Qed.

(** The table with the flow of [sample_tcp]. *)
Definition sample_ft1 : ft :=
  match simple_fwd_ft_add_new wire 0 1 false (Some sample_ft) (packet_of sample_tcp 12) with
  | Some (_, _, Some t) => t
  | _ => sample_ft
  end.

Lemma sample_ft1_step : ft_step wire sample_ft sample_ft1.
Proof. eapply (step_add wire 0 1 (packet_of sample_tcp 12)). vm_compute. reflexivity. Qed.

Lemma ft_conservation_witness :
  map eid (live sample_ft1) ++ aged sample_ft1 ≡ₚ [0%nat].
Proof.
  apply (ft_conservation wire is_pow2_ref align_ref 80 16 80 false true 3 16 false sample_ft sample_ft1);
    [exact pow2_ref_ok | vm_compute; discriminate | exact sample_create
    | eapply rtc_l; [exact sample_ft1_step | apply rtc_refl]].
Defined.

Definition sample_key (f : flow_frame) : ft_key :=
  match simple_fwd_ft_key_fill wire (packet_of f 12) key0 with Some (_, k) => k | None => key0 end.

Lemma sample_keys_ok : key_ok (sample_key sample_tcp) /\ key_ok (sample_key sample_udp).
Proof. split; split; vm_compute; repeat split; congruence. Qed.

Lemma ft_find_after_add_witness :
  exists e t1,
    simple_fwd_ft_add_new wire 5 1 false (Some sample_ft) (packet_of sample_tcp 12) = Some (DOCA_SUCCESS, Some e, Some t1) /\
    exists e2 t2, simple_fwd_ft_find wire 5 1 t1 (packet_of sample_tcp 12) = Some (DOCA_SUCCESS, Some e2, t2) /\
      eid e2 = 0%nat /\ fid e2 = 0.
Proof.
  do 2 eexists. split; [vm_compute; reflexivity|].
  eapply (ft_find_after_add wire 5 1 sample_ft (packet_of sample_tcp 12) _ _ (sample_key sample_tcp)
    (packet_of sample_tcp 12) (sample_key sample_tcp));
    [exact sample_ft_ok | vm_compute; reflexivity | vm_compute; reflexivity | vm_compute; reflexivity
    | apply sample_keys_ok | apply sample_keys_ok | repeat split | reflexivity].
Defined.

(** An entry that expires after ten seconds. *)
Definition aging_entry : ft_entry := Entry 0 (sample_key sample_tcp) 10 10 7 0 0 4 0.
Definition aging_ft : ft :=
  Ft 8 7 16 96 1 0 false false 1 (<[4%nat := [aging_entry]]> (replicate 8 [])) 1 [].

Lemma aging_ft_ok : ft_ok aging_ft.
Proof.
  split; cbn [size mask buckets next_eid aged aging_ft]; try done.
  - exists 3. split; [lia|done].
  - intros i b. destruct (decide (i = 4%nat)) as [->|Hne].
    + intros [= <-]. constructor; [|done]. split; vm_compute; reflexivity.
    + rewrite list_lookup_insert_ne by done. intros [-> _]%lookup_replicate. done.
Qed.

Lemma ft_aging_bucket_witness :
  exists n' t' removed,
    aging_bucket 2 (fun _ => (11, fun _ => Some 7, true)) 0 aging_ft 4 = Some (n', t') /\ ft_ok t' /\
    aged t' = map eid removed ++ [] /\
    map timer [aging_entry] ≡ₚ map timer removed ++ map timer (live t') /\
    Forall (fun e => exists m, (0 <= m)%nat /\ expired 11 e /\ idle (fun _ => Some 7) e) removed.
Proof.
  apply (ft_aging_bucket (fun _ => (11, fun _ => Some 7, true)) aging_ft 4 2 0);
    [exact aging_ft_ok | split; [discriminate | reflexivity] | vm_compute; lia].
Defined.

(** A flow that received packets is removed all the same when an earlier flow
    of its bucket ages out in the same round: the second pass compares its
    counter with the value the first pass has just stored. *)
Example active_flow_aged_out :
  let busy := Entry 0 (sample_key sample_tcp) 10 10 7 0 0 4 0 in
  let idle_one := Entry 1 (sample_key sample_udp) 10 10 7 0 0 4 1 in
  let t := Ft 8 7 16 96 2 0 false false 2 (<[4%nat := [busy; idle_one]]> (replicate 8 [])) 2 [] in
  let query n := if (n =? 0)%nat then Some 100 else Some 7 in
  (fun '(_, t') => aged t') <$> aging_bucket 4 (fun _ => (11, query, true)) 0 t 4 = Some [0; 1]%nat.
Proof. reflexivity. Qed.

(** Two GTP tunnels that differ in their TEID only have the same key: the VNI
    field it reads is the message type and the flags. *)
Example gtp_same_key :
  let tun_of t := set_union (set_union (set_union (Tun false (replicate 8 0)) 4 t) 0 [255]) 1 [48] in
  vni (tun_of [0; 0; 0; 1]) = vni (tun_of [0; 0; 0; 2]) /\
  teid (tun_of [0; 0; 0; 1]) <> teid (tun_of [0; 0; 0; 2]).
Proof. split; [reflexivity | discriminate]. Qed.

Lemma ft_destroy_releases_all_witness :
  exists t', simple_fwd_ft_destroy (Some sample_ft1) = Some (DOCA_SUCCESS, Some t') /\ live t' = [] /\
    aged t' ≡ₚ [0%nat] /\ u64 (st_rm t') = u64 (st_add t').
Proof.
  apply (ft_destroy_releases_all sample_ft1). exact (ft_step_ok _ _ _ sample_ft1_step sample_ft_ok).
Defined.

Lemma ft_key_equal_witness :
  simple_fwd_ft_key_equal (sample_key sample_tcp) (sample_key sample_tcp) = true.
Proof. apply ft_key_equal; [apply sample_keys_ok | apply sample_keys_ok | repeat split]. Defined.
