(* ===== verification/RteHash.v ===== *)
(** * DPDK's hash tables, as the pipes manager uses them

    The interface [RteHash] is what the code calls of rte_hash (create, lookup,
    add, delete, iterate, with 64-bit keys); [RteHashLaws] is the documented
    behaviour the manager relies on.  A table of bounded capacity over finite
    maps is an instance. *)

From stdpp Require Import gmap.
From S2P Require Import Prelude.
#[local] Open Scope Z_scope.

Class RteHash (T : Type -> Type) := {
  h_empty : forall V, T V;
  h_lookup : forall {V}, T V -> Z -> option V;
  (** [None]: the table is full. *)
  h_add : forall {V}, T V -> Z -> V -> option (T V);
  h_del : forall {V}, T V -> Z -> T V;
  h_iter : forall {V}, T V -> list (Z * V)
}.

Class RteHashLaws (T : Type -> Type) `{RteHash T} : Prop := {
  h_lookup_empty : forall V k, h_lookup (h_empty V) k = None;
  h_lookup_add : forall V (t t' : T V) k v j,
    h_add t k v = Some t' -> h_lookup t' j = if decide (j = k) then Some v else h_lookup t j;
  h_lookup_del : forall V (t : T V) k j,
    h_lookup (h_del t k) j = if decide (j = k) then None else h_lookup t j;
  (** Adding to a key that is there replaces its value. *)
  h_add_present : forall V (t : T V) k v w, h_lookup t k = Some w -> exists t', h_add t k v = Some t';
  h_iter_lookup : forall V (t : T V) k v, (k, v) ∈ h_iter t <-> h_lookup t k = Some v;
  h_iter_NoDup : forall V (t : T V), NoDup (map fst (h_iter t))
}.

(** DEFAULT_ENTRIES_NUM *)
Definition DEFAULT_ENTRIES_NUM : nat := 128.

Abbreviation table := (gmap Z).

#[export] Instance table_hash : RteHash table := {
  h_empty := fun V => ∅;
  h_lookup := fun V t k => t !! k;
  h_add := fun V t k v =>
    if bool_decide (is_Some (t !! k)) || (size t <? DEFAULT_ENTRIES_NUM)%nat then Some (<[k := v]> t) else None;
  h_del := fun V t k => delete k t;
  h_iter := fun V t => map_to_list t
}.

#[export] Instance table_laws : RteHashLaws table.
Proof.
  split; intros V; cbn.
  - intros k. apply lookup_empty.
  - intros t t' k v j. destruct (_ || _); [|done]. intros [= <-]. case_decide as E.
    + subst. apply lookup_insert_eq.
    + by apply lookup_insert_ne.
  - intros t k j. case_decide as E.
    + subst. apply lookup_delete_eq.
    + by apply lookup_delete_ne.
  - intros t k v w Hk. rewrite Hk. eauto.
  - intros t k v. apply elem_of_map_to_list.
  - intros t. apply NoDup_fst_map_to_list.
Qed.

(** Deleting a list of keys. *)
Definition del_all {T} `{RteHash T} {V} (t : T V) (ks : list Z) : T V := foldl h_del t ks.

Lemma lookup_del_all {T} `{RteHashLaws T} {V} ks (t : T V) j :
  h_lookup (del_all t ks) j = if decide (j ∈ ks) then None else h_lookup t j.
Proof.
  revert t. induction ks as [|k ks IH]; intros t; cbn [del_all foldl].
  - rewrite decide_False by apply not_elem_of_nil. done.
  - change (foldl h_del (h_del t k) ks) with (del_all (h_del t k) ks). rewrite IH, h_lookup_del.
    repeat case_decide; set_solver.
Qed.

Lemma lookup_del_Some {T} `{RteHashLaws T} {V} (t : T V) k j v :
  h_lookup (h_del t k) j = Some v <-> j <> k /\ h_lookup t j = Some v.
Proof. rewrite h_lookup_del. case_decide; naive_solver. Qed.

Lemma lookup_add_Some {T} `{RteHashLaws T} {V} (t t' : T V) k v j w :
  h_add t k v = Some t' ->
  h_lookup t' j = Some w <-> j = k /\ w = v \/ j <> k /\ h_lookup t j = Some w.
Proof. intros Ha. rewrite (h_lookup_add _ _ _ _ _ _ Ha). case_decide; naive_solver. Qed.

Lemma lookup_del_all_Some {T} `{RteHashLaws T} {V} ks (t : T V) j v :
  h_lookup (del_all t ks) j = Some v <-> j ∉ ks /\ h_lookup t j = Some v.
Proof. rewrite lookup_del_all. case_decide; naive_solver. Qed.

Lemma iter_keys {T} `{RteHashLaws T} {V} (t : T V) k :
  k ∈ map fst (h_iter t) <-> exists v, h_lookup t k = Some v.
Proof.
  rewrite list_elem_of_fmap. split.
  - intros ([k' v] & -> & Hin). exists v. by apply h_iter_lookup.
  - intros [v Hv]. exists (k, v). split; [done|]. by apply h_iter_lookup.
Qed.
