(* ===== verification/PipesManager.v ===== *)
(** * The flow pipes manager

    Models applications/common/src/flow_pipes_manager.c over any implementation
    of the hash tables of RteHash.v.  Tables that the code allocates per port
    and per pipe live in two heaps, [ptabs] and [etabs], indexed by their
    address; a freed table is no longer there, and using it is undefined
    behaviour.  An entry stores a pointer to the key of its pipe, modelled by the
    id that is there: [ok_entry] says that the key outlives the entry. *)

From stdpp Require Import gmap strings.
From S2P Require Import Prelude RteHash.
#[local] Open Scope Z_scope.

Definition FNV_OFFSET : Z := 14695981039346656037.
Definition FNV_PRIME : Z := 1099511628211.

(** ** Data *)

(** [struct pipe_info]: the pipe, the port's table of pipe ids, the entries. *)
Record pipe_info := PipeInfo { pipe : Z; port_id_to_pipes_table : nat; entries_table : nat }.

Section Manager.
Context {T : Type -> Type} `{RteHash T}.

(** [struct flow_pipes_manager] and the tables it reaches; [names] are the names
    of the live tables. *)
Record flow_pipes_manager := Manager {
  pipe_id_to_pipe_info_table : T pipe_info;
  entry_id_to_pipe_id_table : T Z;
  port_id_to_pipes_id_table : T nat;
  ptabs : gmap nat (T unit);
  etabs : gmap nat (T Z);
  names : list string;
  next_tab : nat
}.

(** What the allocators answer during one call: the address rte_malloc gives
    for an id ([None] is NULL), whether it gives memory for a port key and for a
    pipe_info, and whether a table of some name can be created beside the live
    ones. *)
Record env := {
  id_addr : option Z; port_key_mem : bool; info_mem : bool;
  create_ok : list string -> string -> bool
}.

(** The first bytes of the object at an address, as many as a pointer has. *)
Context (content : Z -> list Z).

(** ** Ids *)

Definition fnv_step (id byte : Z) : Z := u64 (Z.lxor byte id * FNV_PRIME).

Definition generateID (ptr : Z) : Z := foldl fnv_step FNV_OFFSET (content ptr).

(** ** Tables of tables *)

Definition entries_name : string := "Entries Table".
Definition pipes_name : string := "Pipe id's only".

Fixpoint remove_name (n : string) (l : list string) : list string :=
  match l with
  | [] => []
  | x :: l' => if String.eqb x n then l' else x :: remove_name n l'
  end.

Definition set_infos (m : flow_pipes_manager) (t : T pipe_info) : flow_pipes_manager :=
  Manager t (entry_id_to_pipe_id_table m) (port_id_to_pipes_id_table m) (ptabs m) (etabs m) (names m) (next_tab m).
Definition set_entries (m : flow_pipes_manager) (t : T Z) : flow_pipes_manager :=
  Manager (pipe_id_to_pipe_info_table m) t (port_id_to_pipes_id_table m) (ptabs m) (etabs m) (names m) (next_tab m).
Definition set_ports (m : flow_pipes_manager) (t : T nat) : flow_pipes_manager :=
  Manager (pipe_id_to_pipe_info_table m) (entry_id_to_pipe_id_table m) t (ptabs m) (etabs m) (names m) (next_tab m).
Definition set_ptab (m : flow_pipes_manager) (n : nat) (t : T unit) : flow_pipes_manager :=
  Manager (pipe_id_to_pipe_info_table m) (entry_id_to_pipe_id_table m) (port_id_to_pipes_id_table m)
    (<[n := t]> (ptabs m)) (etabs m) (names m) (next_tab m).
Definition set_etab (m : flow_pipes_manager) (n : nat) (t : T Z) : flow_pipes_manager :=
  Manager (pipe_id_to_pipe_info_table m) (entry_id_to_pipe_id_table m) (port_id_to_pipes_id_table m)
    (ptabs m) (<[n := t]> (etabs m)) (names m) (next_tab m).

(** rte_hash_create and rte_hash_free of the two kinds of tables. *)
Definition create_ptab (m : flow_pipes_manager) : nat * flow_pipes_manager :=
  (next_tab m, Manager (pipe_id_to_pipe_info_table m) (entry_id_to_pipe_id_table m) (port_id_to_pipes_id_table m)
    (<[next_tab m := h_empty unit]> (ptabs m)) (etabs m) (pipes_name :: names m) (S (next_tab m))).
Definition create_etab (m : flow_pipes_manager) : nat * flow_pipes_manager :=
  (next_tab m, Manager (pipe_id_to_pipe_info_table m) (entry_id_to_pipe_id_table m) (port_id_to_pipes_id_table m)
    (ptabs m) (<[next_tab m := h_empty Z]> (etabs m)) (entries_name :: names m) (S (next_tab m))).
Definition free_ptab (m : flow_pipes_manager) (n : nat) : flow_pipes_manager :=
  Manager (pipe_id_to_pipe_info_table m) (entry_id_to_pipe_id_table m) (port_id_to_pipes_id_table m)
    (delete n (ptabs m)) (etabs m) (remove_name pipes_name (names m)) (next_tab m).
Definition free_etab (m : flow_pipes_manager) (n : nat) : flow_pipes_manager :=
  Manager (pipe_id_to_pipe_info_table m) (entry_id_to_pipe_id_table m) (port_id_to_pipes_id_table m)
    (ptabs m) (delete n (etabs m)) (remove_name entries_name (names m)) (next_tab m).

(** ** Operations *)

(** The three tables of a new manager are created under names of their own. *)
Definition create_pipes_manager (mem : bool) (ok : string -> bool) : doca_error * option flow_pipes_manager :=
  if negb mem then (DOCA_ERROR_NO_MEMORY, None)
  else if negb (ok "Pipe id to Pipe info Entries"%string) then (DOCA_ERROR_DRIVER, None)
  else if negb (ok "Entry id to Pipe id Table"%string) then (DOCA_ERROR_DRIVER, None)
  else if negb (ok "Port id to Pipe Entries Table"%string) then (DOCA_ERROR_DRIVER, None)
  else (DOCA_SUCCESS, Some (Manager (h_empty pipe_info) (h_empty Z) (h_empty nat) ∅ ∅
          ["Port id to Pipe Entries Table"; "Entry id to Pipe id Table"; "Pipe id to Pipe info Entries"]%string 0)).

Definition create_pipe_info (e : env) (m : flow_pipes_manager) (p : Z) (pt : nat)
    : option (pipe_info * flow_pipes_manager) :=
  if info_mem e && create_ok e (names m) entries_name then
    let '(et, m') := create_etab m in Some (PipeInfo p pt et, m')
  else None.

Definition destroy_pipe_info (m : flow_pipes_manager) (i : pipe_info) : flow_pipes_manager :=
  free_etab m (entries_table i).

(** Undoing the insertion of [id] in the port's table, and the table itself when
    it is new. *)
Definition undo_port (m : flow_pipes_manager) (port id : Z) (pt : nat) (is_new : bool)
    : option flow_pipes_manager :=
  tab ← ptabs m !! pt;
  let m1 := set_ptab m pt (h_del tab id) in
  Some (if is_new then free_ptab (set_ports m1 (h_del (port_id_to_pipes_id_table m1) port)) pt else m1).

(** From the creation of the pipe_info on. *)
Definition pipe_create_info (e : env) (m : flow_pipes_manager) (p port id : Z) (pt : nat) (is_new : bool)
    : option (doca_error * option Z * flow_pipes_manager) :=
  match create_pipe_info e m p pt with
  | None => m' ← undo_port m port id pt is_new; Some (DOCA_ERROR_NO_MEMORY, None, m')
  | Some (info, m1) =>
      match h_add (pipe_id_to_pipe_info_table m1) id info with
      | None =>
          m' ← undo_port (destroy_pipe_info m1 info) port id pt is_new;
          Some (DOCA_ERROR_INVALID_VALUE, None, m')
      | Some infos => Some (DOCA_SUCCESS, Some id, set_infos m1 infos)
      end
  end.

(** [None]: a NULL from rte_malloc is written to, or a freed table is used. *)
Definition pipes_manager_pipe_create (e : env) (m : flow_pipes_manager) (p port : Z)
    : option (doca_error * option Z * flow_pipes_manager) :=
  match id_addr e with
  | None => None
  | Some _ =>
      let id := generateID p in
      match h_lookup (pipe_id_to_pipe_info_table m) id with
      | Some _ => Some (DOCA_ERROR_INVALID_VALUE, None, m)
      | None =>
          match h_lookup (port_id_to_pipes_id_table m) port with
          | None =>
              if negb (port_key_mem e) then None
              else if negb (create_ok e (names m) pipes_name) then Some (DOCA_ERROR_NO_MEMORY, None, m)
              else
                let '(pt, m1) := create_ptab m in
                match h_add (h_empty unit) id tt with
                | None => Some (DOCA_ERROR_INVALID_VALUE, None, free_ptab m1 pt)
                | Some tab =>
                    let m2 := set_ptab m1 pt tab in
                    match h_add (port_id_to_pipes_id_table m2) port pt with
                    | None => Some (DOCA_ERROR_INVALID_VALUE, None, free_ptab m2 pt)
                    | Some ports => pipe_create_info e (set_ports m2 ports) p port id pt true
                    end
                end
          | Some pt =>
              tab ← ptabs m !! pt;
              match h_add tab id tt with
              | None => Some (DOCA_ERROR_INVALID_VALUE, None, m)
              | Some tab' => pipe_create_info e (set_ptab m pt tab') p port id pt false
              end
          end
      end
  end.

(** The duplicate check looks up the address of the new id, not the id. *)
Definition pipes_manager_pipe_add_entry (e : env) (m : flow_pipes_manager) (entry pipe_id : Z)
    : option (doca_error * option Z * flow_pipes_manager) :=
  match id_addr e with
  | None => None
  | Some addr =>
      let id := generateID entry in
      match h_lookup (pipe_id_to_pipe_info_table m) pipe_id with
      | None => Some (DOCA_ERROR_INVALID_VALUE, None, m)
      | Some info =>
          et ← etabs m !! entries_table info;
          match h_lookup et addr with
          | Some _ => Some (DOCA_ERROR_INVALID_VALUE, None, m)
          | None =>
              match h_add et id entry with
              | None => Some (DOCA_ERROR_INVALID_VALUE, None, m)
              | Some et' =>
                  let m1 := set_etab m (entries_table info) et' in
                  match h_add (entry_id_to_pipe_id_table m1) id pipe_id with
                  | None =>
                      Some (DOCA_ERROR_INVALID_VALUE, None, set_etab m1 (entries_table info) (h_del et' id))
                  | Some es => Some (DOCA_SUCCESS, Some id, set_entries m1 es)
                  end
              end
          end
      end
  end.

Definition pipes_manager_get_pipe (m : flow_pipes_manager) (pipe_id : Z) : doca_error * option Z :=
  match h_lookup (pipe_id_to_pipe_info_table m) pipe_id with
  | None => (DOCA_ERROR_NOT_FOUND, None)
  | Some info => (DOCA_SUCCESS, Some (pipe info))
  end.

Definition pipes_manager_get_entry (m : flow_pipes_manager) (entry_id : Z) : option (doca_error * option Z) :=
  match h_lookup (entry_id_to_pipe_id_table m) entry_id with
  | None => Some (DOCA_ERROR_NOT_FOUND, None)
  | Some pipe_id =>
      match h_lookup (pipe_id_to_pipe_info_table m) pipe_id with
      | None => Some (DOCA_ERROR_NOT_FOUND, None)
      | Some info =>
          et ← etabs m !! entries_table info;
          match h_lookup et entry_id with
          | None => Some (DOCA_ERROR_NOT_FOUND, None)
          | Some entry => Some (DOCA_SUCCESS, Some entry)
          end
      end
  end.

(** Forgetting a pipe: its entries, its info and its entries table. *)
Definition forget_pipe (m : flow_pipes_manager) (pipe_id : Z) (info : pipe_info) : option flow_pipes_manager :=
  et ← etabs m !! entries_table info;
  let m1 := set_entries m (del_all (entry_id_to_pipe_id_table m) (map fst (h_iter et))) in
  Some (destroy_pipe_info (set_infos m1 (h_del (pipe_id_to_pipe_info_table m1) pipe_id)) info).

Definition pipes_manager_pipe_destroy (m : flow_pipes_manager) (pipe_id : Z)
    : option (doca_error * flow_pipes_manager) :=
  match h_lookup (pipe_id_to_pipe_info_table m) pipe_id with
  | None => Some (DOCA_ERROR_INVALID_VALUE, m)
  | Some info =>
      pt ← ptabs m !! port_id_to_pipes_table info;
      match h_lookup pt pipe_id with
      | None => Some (DOCA_ERROR_NOT_FOUND, m)
      | Some _ =>
          m' ← forget_pipe (set_ptab m (port_id_to_pipes_table info) (h_del pt pipe_id)) pipe_id info;
          Some (DOCA_SUCCESS, m')
      end
  end.

Definition pipes_manager_pipe_rm_entry (m : flow_pipes_manager) (entry_id : Z)
    : option (doca_error * flow_pipes_manager) :=
  match h_lookup (entry_id_to_pipe_id_table m) entry_id with
  | None => Some (DOCA_ERROR_INVALID_VALUE, m)
  | Some pipe_id =>
      match h_lookup (pipe_id_to_pipe_info_table m) pipe_id with
      | None => Some (DOCA_ERROR_INVALID_VALUE, m)
      | Some info =>
          let m1 := set_entries m (h_del (entry_id_to_pipe_id_table m) entry_id) in
          et ← etabs m1 !! entries_table info;
          match h_lookup et entry_id with
          | None => Some (DOCA_ERROR_NOT_FOUND, m1)
          | Some _ => Some (DOCA_SUCCESS, set_etab m1 (entries_table info) (h_del et entry_id))
          end
      end
  end.

(** The loop over the port's pipes. *)
Fixpoint flush_pipes (m : flow_pipes_manager) (pipe_ids : list Z) : option flow_pipes_manager :=
  match pipe_ids with
  | [] => Some m
  | pipe_id :: rest =>
      match h_lookup (pipe_id_to_pipe_info_table m) pipe_id with
      | None => flush_pipes m rest
      | Some info => m' ← forget_pipe m pipe_id info; flush_pipes m' rest
      end
  end.

Definition pipes_manager_pipes_flush (m : flow_pipes_manager) (port : Z)
    : option (doca_error * flow_pipes_manager) :=
  match h_lookup (port_id_to_pipes_id_table m) port with
  | None => Some (DOCA_ERROR_INVALID_VALUE, m)
  | Some pt =>
      tab ← ptabs m !! pt;
      m1 ← flush_pipes m (map fst (h_iter tab));
      let m2 := free_ptab m1 pt in
      Some (DOCA_SUCCESS, set_ports m2 (h_del (port_id_to_pipes_id_table m2) port))
  end.

(** The loops of the destruction: the entries tables of all pipes, then the
    tables of all ports. *)
Fixpoint destroy_infos (m : flow_pipes_manager) (l : list (Z * pipe_info)) : option flow_pipes_manager :=
  match l with
  | [] => Some m
  | (_, info) :: l' => et ← etabs m !! entries_table info; destroy_infos (destroy_pipe_info m info) l'
  end.
Fixpoint destroy_ports (m : flow_pipes_manager) (l : list (Z * nat)) : option flow_pipes_manager :=
  match l with
  | [] => Some m
  | (_, pt) :: l' => tab ← ptabs m !! pt; destroy_ports (free_ptab m pt) l'
  end.

(** The heaps the destruction leaves; the manager itself is freed. *)
Definition destroy_pipes_manager (m : flow_pipes_manager) : option flow_pipes_manager :=
  m1 ← destroy_infos m (h_iter (pipe_id_to_pipe_info_table m));
  destroy_ports m1 (h_iter (port_id_to_pipes_id_table m1)).
End Manager.

Arguments flow_pipes_manager : clear implicits.

(** ** Specification *)

Section Correctness.
Context {T : Type -> Type} `{RteHashLaws T} (content : Z -> list Z).
Implicit Types m : flow_pipes_manager T.

(** The consistency of the tables. *)
Record manager_ok m : Prop := {
  (** a pipe's tables are live, and its port's table lists it *)
  ok_info : forall p i, h_lookup (pipe_id_to_pipe_info_table m) p = Some i ->
    (exists et, etabs m !! entries_table i = Some et) /\
    (exists tab, ptabs m !! port_id_to_pipes_table i = Some tab /\ h_lookup tab p = Some tt) /\
    exists port, h_lookup (port_id_to_pipes_id_table m) port = Some (port_id_to_pipes_table i);
  (** an entry's pipe is there and holds the entry *)
  ok_entry : forall e p, h_lookup (entry_id_to_pipe_id_table m) e = Some p ->
    exists i et v, h_lookup (pipe_id_to_pipe_info_table m) p = Some i /\
      etabs m !! entries_table i = Some et /\ h_lookup et e = Some v;
  (** a port's table is live and lists pipes of that table only *)
  ok_port : forall port pt, h_lookup (port_id_to_pipes_id_table m) port = Some pt ->
    exists tab, ptabs m !! pt = Some tab /\
      forall p, h_lookup tab p = Some tt ->
        exists i, h_lookup (pipe_id_to_pipe_info_table m) p = Some i /\ port_id_to_pipes_table i = pt;
  (** no table is shared *)
  ok_etab_inj : forall p q i j, h_lookup (pipe_id_to_pipe_info_table m) p = Some i ->
    h_lookup (pipe_id_to_pipe_info_table m) q = Some j -> entries_table i = entries_table j -> p = q;
  ok_ptab_inj : forall a b n, h_lookup (port_id_to_pipes_id_table m) a = Some n ->
    h_lookup (port_id_to_pipes_id_table m) b = Some n -> a = b;
  (** no live table is unreachable *)
  ok_etab_used : forall n et, etabs m !! n = Some et ->
    (n < next_tab m)%nat /\ exists p i, h_lookup (pipe_id_to_pipe_info_table m) p = Some i /\ entries_table i = n;
  ok_ptab_used : forall n tab, ptabs m !! n = Some tab ->
    (n < next_tab m)%nat /\ exists port, h_lookup (port_id_to_pipes_id_table m) port = Some n
}.

(** Every pipe but one, and the entries mapped to them, as before. *)
Record frame m m' (p : Z) : Prop := {
  fr_pipes : forall q, q <> p ->
    h_lookup (pipe_id_to_pipe_info_table m') q = h_lookup (pipe_id_to_pipe_info_table m) q;
  fr_gone : h_lookup (pipe_id_to_pipe_info_table m') p = None
}.

(** ** Lemmas *)

Lemma unit_eq (u : unit) : u = tt.
Proof. by destruct u. Qed.

(** Removing a pipe from its port's table and forgetting it. *)
Lemma remove_pipe_ok m p i tab :
  manager_ok m -> h_lookup (pipe_id_to_pipe_info_table m) p = Some i ->
  ptabs m !! port_id_to_pipes_table i = Some tab ->
  exists m', forget_pipe (set_ptab m (port_id_to_pipes_table i) (h_del tab p)) p i = Some m' /\
    manager_ok m' /\ frame m m' p /\
    port_id_to_pipes_id_table m' = port_id_to_pipes_id_table m /\
    (forall e, h_lookup (entry_id_to_pipe_id_table m) e = Some p ->
       h_lookup (entry_id_to_pipe_id_table m') e = None).
Proof.
  intros [Hi He Hp Hei Hpi Heu Hpu] Hinfo Htab.
  destruct (Hi p i Hinfo) as ([et Het] & (tab' & Htab' & Hlist) & _).
  rewrite Htab in Htab'. injection Htab' as <-.
  unfold forget_pipe. cbn [set_ptab etabs]. rewrite Het. obind. eexists. split; [reflexivity|].
  assert (Hkeys : forall e, e ∈ map fst (h_iter et) <-> exists v, h_lookup et e = Some v) by apply iter_keys.
  split; [split|split; [split|split]]; cbn [set_infos set_entries destroy_pipe_info free_etab set_ptab
    pipe_id_to_pipe_info_table entry_id_to_pipe_id_table port_id_to_pipes_id_table ptabs etabs next_tab].
  - intros q j [Hne Hj]%lookup_del_Some. destruct (Hi q j Hj) as ([et' Het'] & (t & Ht & Hq) & Hport).
    split_and!; [|destruct (decide (port_id_to_pipes_table j = port_id_to_pipes_table i)) as [E|E]|done].
    + exists et'. rewrite lookup_delete_ne; [done|]. intros E. by destruct Hne; eapply Hei.
    + rewrite E in *. exists (h_del tab p). rewrite lookup_insert_eq. split; [done|].
      apply lookup_del_Some. split; [done|]. congruence.
    + exists t. by rewrite lookup_insert_ne by congruence.
  - intros e q [Hne Hq]%lookup_del_all_Some. destruct (He e q Hq) as (j & et' & v & Hj & Het' & Hv).
    assert (q <> p).
    { intros ->. assert (j = i) as -> by congruence. destruct Hne. apply Hkeys. exists v. congruence. }
    exists j, et', v. split_and!; [by apply lookup_del_Some| |done].
    rewrite lookup_delete_ne; [done|]. intros E. by eapply H1, Hei.
  - intros port pt Hport. destruct (Hp port pt Hport) as (t & Ht & Hall).
    destruct (decide (pt = port_id_to_pipes_table i)) as [->|E].
    + exists (h_del tab p). rewrite lookup_insert_eq. split; [done|]. intros q [Hne Hq]%lookup_del_Some.
      rewrite Htab in Ht. injection Ht as <-. destruct (Hall q Hq) as (j & Hj & Hjt). exists j.
      split; [by apply lookup_del_Some|done].
    + exists t. rewrite lookup_insert_ne by congruence. split; [done|]. intros q Hq.
      destruct (Hall q Hq) as (j & Hj & Hjt). exists j. split; [|done]. apply lookup_del_Some. split; [|done].
      intros ->. congruence.
  - intros q r j k [_ Hj]%lookup_del_Some [_ Hk]%lookup_del_Some. by eapply Hei.
  - done.
  - intros n et' [Hne Hn]%lookup_delete_Some. destruct (Heu n et' Hn) as (Hlt & q & j & Hj & Hjn).
    split; [done|]. exists q, j. split; [|done]. apply lookup_del_Some. split; [|done]. intros ->. congruence.
  - intros n t. destruct (decide (n = port_id_to_pipes_table i)) as [->|E].
    + intros _. by apply (Hpu _ tab).
    + rewrite lookup_insert_ne by congruence. apply Hpu.
  - intros q Hq. rewrite h_lookup_del. by rewrite decide_False.
  - rewrite h_lookup_del. by rewrite decide_True.
  - done.
  - intros e Hep. rewrite lookup_del_all, decide_True; [done|]. apply Hkeys.
    destruct (He e p Hep) as (j & et' & v & Hj & Het' & Hv). exists v. congruence.
Qed.

(** Consistency only depends on what lookups return. *)
Lemma manager_ok_ext m m' :
  manager_ok m ->
  (forall p, h_lookup (pipe_id_to_pipe_info_table m') p = h_lookup (pipe_id_to_pipe_info_table m) p) ->
  (forall e, h_lookup (entry_id_to_pipe_id_table m') e = h_lookup (entry_id_to_pipe_id_table m) e) ->
  (forall a, h_lookup (port_id_to_pipes_id_table m') a = h_lookup (port_id_to_pipes_id_table m) a) ->
  etabs m' = etabs m -> (next_tab m <= next_tab m')%nat ->
  (forall n tab, ptabs m !! n = Some tab ->
     exists tab', ptabs m' !! n = Some tab' /\ forall k, h_lookup tab' k = h_lookup tab k) ->
  (forall n tab', ptabs m' !! n = Some tab' -> exists tab, ptabs m !! n = Some tab) ->
  manager_ok m'.
Proof.
  intros [Hi He Hp Hei Hpi Heu Hpu] Ei Ee Ea Et En Ep Ep'. split.
  - intros p i. rewrite Ei. intros Hin. destruct (Hi p i Hin) as (Hx & (tab & Ht & Hl) & Hport).
    rewrite Et. split_and!; [done| |by setoid_rewrite Ea].
    destruct (Ep _ _ Ht) as (tab' & ? & Hk). exists tab'. by rewrite Hk.
  - intros e p. rewrite Ee, Et. setoid_rewrite Ei. apply He.
  - intros port pt. rewrite Ea. intros Hport. destruct (Hp port pt Hport) as (tab & Ht & Hall).
    destruct (Ep _ _ Ht) as (tab' & ? & Hk). exists tab'. split; [done|]. intros p. rewrite Hk.
    setoid_rewrite Ei. apply Hall.
  - intros p q i j. rewrite !Ei. apply Hei.
  - intros a b n. rewrite !Ea. apply Hpi.
  - intros n et. rewrite Et. intros Hn. destruct (Heu n et Hn) as [? ?]. split; [lia|]. by setoid_rewrite Ei.
  - intros n tab' Hn. destruct (Ep' n tab' Hn) as [tab Ht]. destruct (Hpu n tab Ht) as [? ?].
    split; [lia|]. by setoid_rewrite Ea.
Qed.

(** A new port, with an empty table. *)
Definition new_port m (ports : T nat) : flow_pipes_manager T := set_ports (snd (create_ptab m)) ports.

Lemma new_port_ok m port ports :
  manager_ok m -> h_lookup (port_id_to_pipes_id_table m) port = None ->
  h_add (port_id_to_pipes_id_table m) port (next_tab m) = Some ports -> manager_ok (new_port m ports).
Proof.
  intros [Hi He Hp Hei Hpi Heu Hpu] Hnone Hadd.
  assert (Hfresh : forall n tab, ptabs m !! n = Some tab -> n <> next_tab m)
    by (intros n tab Hn; destruct (Hpu n tab Hn); lia).
  split; unfold new_port, create_ptab; cbn [snd set_ports pipe_id_to_pipe_info_table entry_id_to_pipe_id_table
    port_id_to_pipes_id_table ptabs etabs next_tab].
  - intros p i Hin. destruct (Hi p i Hin) as (Hx & (tab & Ht & Hl) & (port' & Hport)).
    split_and!; [done| |].
    + exists tab. rewrite lookup_insert_ne; [done|]. by apply not_eq_sym, (Hfresh _ tab).
    + exists port'. apply (lookup_add_Some _ _ _ _ _ _ Hadd). right. split; [congruence|done].
  - done.
  - intros port' pt [[-> ->]|[Hne Hport]]%(lookup_add_Some _ _ _ _ _ _ Hadd).
    + exists (h_empty unit). rewrite lookup_insert_eq. split; [done|]. intros p. by rewrite h_lookup_empty.
    + destruct (Hp port' pt Hport) as (tab & Ht & Hall). exists tab. split; [|done].
      rewrite lookup_insert_ne; [done|]. by apply not_eq_sym, (Hfresh _ tab).
  - done.
  - intros a b n Ha Hb. apply (lookup_add_Some _ _ _ _ _ _ Hadd) in Ha, Hb.
    assert (Hlt : forall c, h_lookup (port_id_to_pipes_id_table m) c = Some (next_tab m) -> False).
    { intros c Hc. destruct (Hp c _ Hc) as (tab & Ht & _). by destruct (Hfresh _ tab Ht). }
    destruct Ha as [[-> ->]|[? Ha]], Hb as [[-> Hn]|[? Hb]]; try done.
    + by destruct (Hlt b).
    + subst n. by destruct (Hlt a).
    + by eapply Hpi.
  - intros n et Hn. destruct (Heu n et Hn) as [? ?]. split; [lia|done].
  - intros n tab [[<- <-]|[Hne Hn]]%lookup_insert_Some.
    + split; [lia|]. exists port. apply (lookup_add_Some _ _ _ _ _ _ Hadd). by left.
    + destruct (Hpu n tab Hn) as (? & port' & Hport). split; [lia|]. exists port'.
      apply (lookup_add_Some _ _ _ _ _ _ Hadd). right. split; [congruence|done].
Qed.

(** Removing a port whose table is empty. *)
Lemma delete_port_ok m port pt tab :
  manager_ok m -> h_lookup (port_id_to_pipes_id_table m) port = Some pt -> ptabs m !! pt = Some tab ->
  (forall p, h_lookup tab p = None) ->
  manager_ok (set_ports (free_ptab m pt) (h_del (port_id_to_pipes_id_table m) port)).
Proof.
  intros [Hi He Hp Hei Hpi Heu Hpu] Hport Htab Hempty.
  split; cbn [set_ports free_ptab pipe_id_to_pipe_info_table entry_id_to_pipe_id_table
    port_id_to_pipes_id_table ptabs etabs next_tab]; try done.
  - intros p i Hin. destruct (Hi p i Hin) as (Hx & (t & Ht & Hl) & (port' & Hport')).
    assert (port_id_to_pipes_table i <> pt).
    { intros E. rewrite E in Ht. rewrite Htab in Ht. injection Ht as <-. by rewrite Hempty in Hl. }
    split_and!; [done| |].
    + exists t. by rewrite lookup_delete_ne by done.
    + exists port'. apply lookup_del_Some. split; [congruence|done].
  - intros a n [Hne Ha]%lookup_del_Some. destruct (Hp a n Ha) as (t & Ht & Hall). exists t.
    split; [|done]. rewrite lookup_delete_ne; [done|]. intros <-. destruct Hne. by eapply Hpi.
  - intros a b n [_ Ha]%lookup_del_Some [_ Hb]%lookup_del_Some. by eapply Hpi.
  - intros n t [Hne Hn]%lookup_delete_Some. destruct (Hpu n t Hn) as (? & a & Ha). split; [done|].
    exists a. apply lookup_del_Some. split; [|done]. intros ->. congruence.
Qed.

(** A new pipe, with an empty entries table. *)
Definition new_pipe m (pt : nat) (tab' : T unit) (infos : T pipe_info) : flow_pipes_manager T :=
  set_infos (snd (create_etab (set_ptab m pt tab'))) infos.

Lemma new_pipe_ok m port pt tab tab' p id infos :
  manager_ok m -> h_lookup (port_id_to_pipes_id_table m) port = Some pt -> ptabs m !! pt = Some tab ->
  h_lookup (pipe_id_to_pipe_info_table m) id = None -> h_add tab id tt = Some tab' ->
  h_add (pipe_id_to_pipe_info_table m) id (PipeInfo p pt (next_tab m)) = Some infos ->
  manager_ok (new_pipe m pt tab' infos).
Proof.
  intros [Hi He Hp Hei Hpi Heu Hpu] Hport Htab Hnone Ht' Hadd.
  assert (Hfresh : forall n et, etabs m !! n = Some et -> n <> next_tab m)
    by (intros n et Hn; destruct (Heu n et Hn); lia).
  assert (Hold : forall q i, h_lookup (pipe_id_to_pipe_info_table m) q = Some i -> entries_table i <> next_tab m).
  { intros q i Hq. destruct (Hi q i Hq) as ([et Het] & _). by eapply Hfresh. }
  split; unfold new_pipe, create_etab; cbn [snd set_infos set_ptab pipe_id_to_pipe_info_table
    entry_id_to_pipe_id_table port_id_to_pipes_id_table ptabs etabs next_tab]; try done.
  - intros q i [[-> ->]|[Hne Hq]]%(lookup_add_Some _ _ _ _ _ _ Hadd); cbn [entries_table port_id_to_pipes_table].
    + split_and!; [exists (h_empty Z); by rewrite lookup_insert_eq| |by exists port].
      exists tab'. rewrite lookup_insert_eq. split; [done|]. apply (lookup_add_Some _ _ _ _ _ _ Ht'). by left.
    + destruct (Hi q i Hq) as ([et Het] & (t & Ht & Hl) & Hp'). split_and!; [| |done].
      * exists et. rewrite lookup_insert_ne; [done|]. by apply not_eq_sym, (Hfresh _ et).
      * destruct (decide (port_id_to_pipes_table i = pt)) as [E|E].
        -- exists tab'. rewrite E, lookup_insert_eq. split; [done|]. apply (lookup_add_Some _ _ _ _ _ _ Ht').
           right. split; [done|]. congruence.
        -- exists t. by rewrite lookup_insert_ne by congruence.
  - intros e q Hq. destruct (He e q Hq) as (i & et & v & Hin & Het & Hv). exists i, et, v. split_and!; [| |done].
    + apply (lookup_add_Some _ _ _ _ _ _ Hadd). right. split; [congruence|done].
    + rewrite lookup_insert_ne; [done|]. by apply not_eq_sym, (Hfresh _ et).
  - intros a n Ha. destruct (Hp a n Ha) as (t & Ht & Hall). destruct (decide (n = pt)) as [->|E].
    + exists tab'. rewrite lookup_insert_eq. split; [done|]. rewrite Htab in Ht. injection Ht as <-.
      intros q [[-> _]|[Hne Hq]]%(lookup_add_Some _ _ _ _ _ _ Ht').
      * eexists. split; [apply (lookup_add_Some _ _ _ _ _ _ Hadd); by left|done].
      * destruct (Hall q Hq) as (i & Hq' & Hit). exists i. split; [|done].
        apply (lookup_add_Some _ _ _ _ _ _ Hadd). by right.
    + exists t. rewrite lookup_insert_ne by congruence. split; [done|]. intros q Hq.
      destruct (Hall q Hq) as (i & Hq' & Hit). exists i. split; [|done].
      apply (lookup_add_Some _ _ _ _ _ _ Hadd). right. split; [congruence|done].
  - intros a b i j Ha Hb E. apply (lookup_add_Some _ _ _ _ _ _ Hadd) in Ha, Hb.
    destruct Ha as [[-> ->]|[? Ha]], Hb as [[-> ->]|[? Hb]]; cbn [entries_table] in E; try done.
    + by destruct (Hold b j Hb).
    + by destruct (Hold a i Ha).
    + by eapply Hei.
  - intros n et [[<- <-]|[Hne Hn]]%lookup_insert_Some.
    + split; [lia|]. eexists id, _. split; [apply (lookup_add_Some _ _ _ _ _ _ Hadd); by left|done].
    + destruct (Heu n et Hn) as (? & q & i & Hq & Hin). split; [lia|]. exists q, i. split; [|done].
      apply (lookup_add_Some _ _ _ _ _ _ Hadd). right. split; [congruence|done].
  - intros n t. destruct (decide (n = pt)) as [->|E].
    + intros _. destruct (Hpu pt tab Htab) as [? ?]. split; [lia|]. by exists port.
    + rewrite lookup_insert_ne by congruence. intros Hn. destruct (Hpu n t Hn) as [? ?]. split; [lia|done].
Qed.

(** A state in which only the ports and their tables may differ. *)
Definition same_pipes m m' : Prop :=
  (forall q, h_lookup (pipe_id_to_pipe_info_table m') q = h_lookup (pipe_id_to_pipe_info_table m) q) /\
  (forall e, h_lookup (entry_id_to_pipe_id_table m') e = h_lookup (entry_id_to_pipe_id_table m) e) /\
  etabs m' = etabs m.

(** Undoing the insertion restores the port, or removes it when it is new. *)
Lemma undo_port_ok m m1 port pt tab tab' id is_new :
  manager_ok m -> h_lookup (port_id_to_pipes_id_table m) port = Some pt -> ptabs m !! pt = Some tab ->
  h_lookup (pipe_id_to_pipe_info_table m) id = None -> h_add tab id tt = Some tab' ->
  (is_new = true -> forall k, h_lookup tab k = None) ->
  pipe_id_to_pipe_info_table m1 = pipe_id_to_pipe_info_table m ->
  entry_id_to_pipe_id_table m1 = entry_id_to_pipe_id_table m ->
  port_id_to_pipes_id_table m1 = port_id_to_pipes_id_table m ->
  etabs m1 = etabs m -> (next_tab m <= next_tab m1)%nat -> ptabs m1 = <[pt := tab']> (ptabs m) ->
  exists m', undo_port m1 port id pt is_new = Some m' /\ manager_ok m' /\ same_pipes m m'.
Proof.
  intros Hok Hport Htab Hnone Hadd Hnew Ei Ee Ea Et En Ep.
  unfold undo_port. rewrite Ep, lookup_insert_eq. obind.
  assert (Hid : h_lookup tab id = None).
  { destruct (h_lookup tab id) as [[]|] eqn:E; [|done].
    destruct (ok_port m Hok port pt Hport) as (t & Ht & Hall). rewrite Htab in Ht. injection Ht as <-.
    destruct (Hall id E) as (i & Hi & _). congruence. }
  assert (Hdel : forall k, h_lookup (h_del tab' id) k = h_lookup tab k).
  { intros k. rewrite h_lookup_del, (h_lookup_add _ _ _ _ _ _ Hadd). repeat case_decide; by subst. }
  set (m2 := set_ptab m1 pt (h_del tab' id)).
  assert (Hm2 : manager_ok m2).
  { apply (manager_ok_ext m); try done; subst m2;
      cbn [set_ptab pipe_id_to_pipe_info_table entry_id_to_pipe_id_table port_id_to_pipes_id_table ptabs etabs next_tab];
      rewrite ?Ei, ?Ee, ?Ea, ?Ep; try done; rewrite insert_insert_eq.
    - intros n t Ht. destruct (decide (n = pt)) as [->|E].
      + exists (h_del tab' id). rewrite lookup_insert_eq. split; [done|]. rewrite Htab in Ht. by injection Ht as <-.
      + exists t. by rewrite lookup_insert_ne by congruence.
    - intros n t [[<- _]|[_ Ht]]%lookup_insert_Some; eauto. }
  assert (Hsame : same_pipes m m2) by (subst m2; split_and!; cbn; by rewrite ?Ei, ?Ee).
  destruct is_new; [|by exists m2].
  exists (set_ports (free_ptab m2 pt) (h_del (port_id_to_pipes_id_table m2) port)).
  split; [done|]. split; [|exact Hsame].
  apply (delete_port_ok m2 port pt (h_del tab' id) Hm2).
  - subst m2. cbn. by rewrite Ea.
  - subst m2. cbn. by rewrite lookup_insert_eq.
  - intros k. rewrite Hdel. by apply Hnew.
Qed.

(** What a creation may do. *)
Definition created m (p id : Z) (r : doca_error) (out : option Z) m' : Prop :=
  manager_ok m' /\
  (r = DOCA_SUCCESS /\ out = Some id /\ h_lookup (pipe_id_to_pipe_info_table m) id = None /\
     (exists i, h_lookup (pipe_id_to_pipe_info_table m') id = Some i /\ pipe i = p) /\
     (forall q, q <> id ->
        h_lookup (pipe_id_to_pipe_info_table m') q = h_lookup (pipe_id_to_pipe_info_table m) q) \/
   r <> DOCA_SUCCESS /\ out = None /\ same_pipes m m').

Lemma pipe_create_info_ok e m p port id pt tab tab' is_new :
  manager_ok m -> h_lookup (port_id_to_pipes_id_table m) port = Some pt -> ptabs m !! pt = Some tab ->
  h_lookup (pipe_id_to_pipe_info_table m) id = None -> h_add tab id tt = Some tab' ->
  (is_new = true -> forall k, h_lookup tab k = None) ->
  exists r out m', pipe_create_info e (set_ptab m pt tab') p port id pt is_new = Some (r, out, m') /\
    created m p id r out m'.
Proof.
  intros Hok Hport Htab Hnone Hadd Hnew. unfold pipe_create_info, create_pipe_info.
  destruct (info_mem e && _).
  - unfold create_etab. cbn [set_ptab next_tab pipe_id_to_pipe_info_table].
    destruct (h_add (pipe_id_to_pipe_info_table m) id _) as [infos|] eqn:Hi.
    + do 3 eexists. split; [reflexivity|]. split.
      * by eapply (new_pipe_ok m port pt tab tab').
      * left. split_and!; [done..| |]; cbn [set_infos pipe_id_to_pipe_info_table].
        -- eexists. split; [apply (lookup_add_Some _ _ _ _ _ _ Hi); by left|done].
        -- intros q Hq. rewrite (h_lookup_add _ _ _ _ _ _ Hi). by rewrite decide_False.
    + edestruct (undo_port_ok m) as (m' & Hu & Hm' & Hs);
        [exact Hok|exact Hport|exact Htab|exact Hnone|exact Hadd|exact Hnew| | | | | | |rewrite Hu];
        cbn; try done.
      * rewrite delete_insert_id; [done|]. destruct (etabs m !! next_tab m) eqn:E; [|done].
        destruct (ok_etab_used m Hok _ _ E). lia.
      * lia.
      * obind. do 3 eexists. split; [reflexivity|]. split; [done|]. by right.
  - edestruct (undo_port_ok m (set_ptab m pt tab')) as (m' & Hu & Hm' & Hs);
      [exact Hok|exact Hport|exact Htab|exact Hnone|exact Hadd|exact Hnew|done|done|done|done|done|done|].
    rewrite Hu. obind. do 3 eexists. split; [reflexivity|]. split; [done|]. by right.
Qed.

Lemma pipe_create_ok e m p port :
  manager_ok m -> id_addr e <> None -> port_key_mem e = true ->
  exists r out m', pipes_manager_pipe_create content e m p port = Some (r, out, m') /\
    created m p (generateID content p) r out m'.
Proof.
  intros Hok Ha Hk. unfold pipes_manager_pipe_create. destruct (id_addr e); [|done].
  set (id := generateID content p).
  assert (Hsame : forall r, r <> DOCA_SUCCESS -> created m p id r None m).
  { intros r Hr. split; [done|]. right. split_and!; try done. }
  destruct (h_lookup (pipe_id_to_pipe_info_table m) id) eqn:Hid.
  { do 3 eexists. split; [reflexivity|]. by apply Hsame. }
  destruct (h_lookup (port_id_to_pipes_id_table m) port) as [pt|] eqn:Hport.
  - destruct (ok_port m Hok port pt Hport) as (tab & Htab & Hall). rewrite Htab. obind.
    destruct (h_add tab id tt) as [tab'|] eqn:Hadd.
    + by eapply pipe_create_info_ok.
    + do 3 eexists. split; [reflexivity|]. by apply Hsame.
  - rewrite Hk. cbn [negb]. destruct (create_ok e (names m) pipes_name); cbn [negb].
    2: { do 3 eexists. split; [reflexivity|]. by apply Hsame. }
    unfold create_ptab.
    assert (Hfresh : ptabs m !! next_tab m = None).
    { destruct (ptabs m !! next_tab m) eqn:E; [|done]. destruct (ok_ptab_used m Hok _ _ E). lia. }
    assert (Hback : forall m', pipe_id_to_pipe_info_table m' = pipe_id_to_pipe_info_table m ->
      entry_id_to_pipe_id_table m' = entry_id_to_pipe_id_table m ->
      port_id_to_pipes_id_table m' = port_id_to_pipes_id_table m -> etabs m' = etabs m ->
      ptabs m' = ptabs m -> next_tab m' = S (next_tab m) ->
      created m p id DOCA_ERROR_INVALID_VALUE None m').
    { intros m' Ei Ee Ea Et Ep En. split.
      - apply (manager_ok_ext m); rewrite ?Ei, ?Ee, ?Ea, ?Ep, ?En; try done; [lia|eauto..].
      - right. unfold same_pipes. by rewrite Ei, Ee. }
    destruct (h_add (h_empty unit) id tt) as [tab|] eqn:Hadd.
    + cbn [set_ptab port_id_to_pipes_id_table].
      destruct (h_add (port_id_to_pipes_id_table m) port (next_tab m)) as [ports|] eqn:Hpadd.
      * pose proof (new_port_ok m port ports Hok Hport Hpadd) as Hok1.
        destruct (pipe_create_info_ok e (new_port m ports) p port id (next_tab m) (h_empty unit) tab true)
          as (r & out & m' & Hrun & Hcr); [done| | |done|done|intros _ k; apply h_lookup_empty|].
        -- apply (lookup_add_Some _ _ _ _ _ _ Hpadd). by left.
        -- unfold new_port, create_ptab. cbn. by rewrite lookup_insert_eq.
        -- exists r, out, m'. split; [exact Hrun|exact Hcr].
      * do 3 eexists. split; [reflexivity|]. apply Hback; try done. cbn.
        rewrite insert_insert_eq. by rewrite delete_insert_id.
    + do 3 eexists. split; [reflexivity|]. apply Hback; try done. cbn. by rewrite delete_insert_id.
Qed.

(** Changing the entries of one pipe. *)
Lemma set_etab_ok m p i et et' es :
  manager_ok m -> h_lookup (pipe_id_to_pipe_info_table m) p = Some i -> etabs m !! entries_table i = Some et ->
  (forall e q, h_lookup es e = Some q ->
     q = p /\ (exists v, h_lookup et' e = Some v) \/ q <> p /\ h_lookup (entry_id_to_pipe_id_table m) e = Some q) ->
  manager_ok (set_entries (set_etab m (entries_table i) et') es).
Proof.
  intros [Hi He Hp Hei Hpi Heu Hpu] Hin Het Hes.
  split; cbn [set_entries set_etab pipe_id_to_pipe_info_table entry_id_to_pipe_id_table
    port_id_to_pipes_id_table ptabs etabs next_tab]; try done.
  - intros q j Hj. destruct (Hi q j Hj) as ([t Ht] & ? & ?). split_and!; [|done..].
    destruct (decide (entries_table j = entries_table i)) as [E|E].
    + exists et'. by rewrite E, lookup_insert_eq.
    + exists t. by rewrite lookup_insert_ne by congruence.
  - intros e q Hq. destruct (Hes e q Hq) as [[-> [v Hv]]|[Hne Hold]].
    + exists i, et', v. by rewrite lookup_insert_eq.
    + destruct (He e q Hold) as (j & t & v & Hj & Ht & Hv). exists j, t, v. split_and!; [done| |done].
      rewrite lookup_insert_ne; [done|]. intros E. by eapply Hne, eq_sym, Hei.
  - intros n t [[<- _]|[_ Hn]]%lookup_insert_Some; [|by eapply Heu]. by eapply Heu.
Qed.

Lemma set_entries_same m : set_entries m (entry_id_to_pipe_id_table m) = m.
Proof. by destruct m. Qed.

(** Pipes and ports as before. *)
Definition same_infos m m' : Prop :=
  pipe_id_to_pipe_info_table m' = pipe_id_to_pipe_info_table m /\
  port_id_to_pipes_id_table m' = port_id_to_pipes_id_table m /\ ptabs m' = ptabs m.

Lemma add_entry_ok e m entry pid :
  manager_ok m -> id_addr e <> None ->
  exists r out m', pipes_manager_pipe_add_entry content e m entry pid = Some (r, out, m') /\
    manager_ok m' /\ same_infos m m' /\
    (r = DOCA_SUCCESS /\ out = Some (generateID content entry) /\
       h_lookup (entry_id_to_pipe_id_table m') (generateID content entry) = Some pid /\
       pipes_manager_get_entry m' (generateID content entry) = Some (DOCA_SUCCESS, Some entry) /\
       (forall k, k <> generateID content entry ->
          h_lookup (entry_id_to_pipe_id_table m') k = h_lookup (entry_id_to_pipe_id_table m) k) \/
     r <> DOCA_SUCCESS /\ out = None /\ entry_id_to_pipe_id_table m' = entry_id_to_pipe_id_table m).
Proof.
  intros Hok Ha. unfold pipes_manager_pipe_add_entry. destruct (id_addr e) as [addr|]; [|done].
  set (id := generateID content entry).
  destruct (h_lookup (pipe_id_to_pipe_info_table m) pid) as [i|] eqn:Hi.
  2: { do 3 eexists. split; [reflexivity|]. split_and!; try done. by right. }
  destruct (ok_info m Hok pid i Hi) as ([et Het] & _). rewrite Het. obind.
  destruct (h_lookup et addr).
  { do 3 eexists. split; [reflexivity|]. split_and!; try done. by right. }
  destruct (h_add et id entry) as [et'|] eqn:Hadd.
  2: { do 3 eexists. split; [reflexivity|]. split_and!; try done. by right. }
  cbn [set_etab entry_id_to_pipe_id_table].
  destruct (h_add (entry_id_to_pipe_id_table m) id pid) as [es|] eqn:Hes.
  - do 3 eexists. split; [reflexivity|]. split_and!; try done.
    + apply (set_etab_ok m pid i et); try done. intros k q.
      intros [[-> ->]|[Hne Hk]]%(lookup_add_Some _ _ _ _ _ _ Hes).
      * left. split; [done|]. exists entry. apply (lookup_add_Some _ _ _ _ _ _ Hadd). by left.
      * destruct (decide (q = pid)) as [->|]; [left|by right]. split; [done|].
        destruct (ok_entry m Hok k pid Hk) as (j & t & v & Hj & Ht & Hv). exists v.
        apply (lookup_add_Some _ _ _ _ _ _ Hadd). right. split; [done|]. congruence.
    + left. cbn [set_entries entry_id_to_pipe_id_table].
      assert (Hnew : h_lookup es id = Some pid) by (apply (lookup_add_Some _ _ _ _ _ _ Hes); by left).
      split_and!; try done.
      * unfold pipes_manager_get_entry.
        cbn [set_entries set_etab entry_id_to_pipe_id_table pipe_id_to_pipe_info_table etabs].
        rewrite Hnew, Hi, lookup_insert_eq. obind. rewrite (h_lookup_add _ _ _ _ _ _ Hadd).
        by rewrite decide_True.
      * intros k Hk. rewrite (h_lookup_add _ _ _ _ _ _ Hes). by rewrite decide_False.
  - do 3 eexists. split; [reflexivity|]. split_and!; try done; [|by right].
    assert (Hno : h_lookup (entry_id_to_pipe_id_table m) id = None).
    { destruct (h_lookup _ id) eqn:E; [|done]. destruct (h_add_present _ _ _ pid _ E) as [? ?]. congruence. }
    rewrite <- (set_entries_same (set_etab (set_etab _ _ _) _ _)).
    replace (set_etab (set_etab m _ et') _ (h_del et' id)) with (set_etab m (entries_table i) (h_del et' id))
      by (unfold set_etab; cbn; by rewrite insert_insert_eq).
    apply (set_etab_ok m pid i et); try done. cbn [set_etab entry_id_to_pipe_id_table]. intros k q Hk.
    destruct (decide (q = pid)) as [->|]; [left|by right]. split; [done|].
    destruct (ok_entry m Hok k pid Hk) as (j & t & v & Hj & Ht & Hv). exists v.
    assert (k <> id) by congruence.
    apply lookup_del_Some. split; [done|]. apply (lookup_add_Some _ _ _ _ _ _ Hadd). right.
    split; [done|]. congruence.
Qed.

Lemma rm_entry_ok m eid :
  manager_ok m ->
  exists r m', pipes_manager_pipe_rm_entry m eid = Some (r, m') /\ manager_ok m' /\ same_infos m m' /\
    (forall k, h_lookup (entry_id_to_pipe_id_table m') k =
       if decide (k = eid) then None else h_lookup (entry_id_to_pipe_id_table m) k) /\
    (r = DOCA_SUCCESS <-> exists p, h_lookup (entry_id_to_pipe_id_table m) eid = Some p).
Proof.
  intros Hok. unfold pipes_manager_pipe_rm_entry.
  destruct (h_lookup (entry_id_to_pipe_id_table m) eid) as [p|] eqn:He.
  - destruct (ok_entry m Hok eid p He) as (i & et & v & Hi & Het & Hv). rewrite Hi.
    cbn [set_entries etabs]. rewrite Het. obind. rewrite Hv. do 2 eexists. split; [reflexivity|].
    split_and!; [|done| |].
    + apply (set_etab_ok m p i et); try done. intros k q [Hne Hk]%lookup_del_Some.
      destruct (decide (q = p)) as [->|]; [left|by right]. split; [done|].
      destruct (ok_entry m Hok k p Hk) as (j & t & w & Hj & Ht & Hw). exists w.
      apply lookup_del_Some. split; [done|]. congruence.
    + intros k. apply h_lookup_del.
    + split; [|done]. intros _. by exists p.
  - do 2 eexists. split; [reflexivity|]. split_and!; try done.
    + intros k. case_decide; [by subst|done].
    + split; [done|]. by intros [q ?].
Qed.

(** *** Destroying and flushing *)

Lemma pipe_destroy_ok m p :
  manager_ok m ->
  exists r m', pipes_manager_pipe_destroy m p = Some (r, m') /\ manager_ok m' /\
    (r = DOCA_SUCCESS <-> exists i, h_lookup (pipe_id_to_pipe_info_table m) p = Some i) /\
    frame m m' p /\
    (forall e, h_lookup (entry_id_to_pipe_id_table m) e = Some p ->
       h_lookup (entry_id_to_pipe_id_table m') e = None).
Proof.
  intros Hok. unfold pipes_manager_pipe_destroy.
  destruct (h_lookup (pipe_id_to_pipe_info_table m) p) as [i|] eqn:Hi.
  - destruct (ok_info m Hok p i Hi) as (_ & (tab & Htab & Hl) & _). rewrite Htab. obind. rewrite Hl.
    destruct (remove_pipe_ok m p i tab Hok Hi Htab) as (m' & Hrun & Hm' & Hfr & _ & He).
    rewrite Hrun. obind. do 2 eexists. split; [reflexivity|]. split_and!; try done. split; [|done]. by exists i.
  - do 2 eexists. split; [reflexivity|]. split_and!; try done.
    + split; [done|]. by intros [i ?].
    + intros e He. destruct (ok_entry m Hok e p He) as (i & ? & ? & ? & _). congruence.
Qed.

Lemma set_ptab_set_ptab m n x y : set_ptab (set_ptab m n x) n y = set_ptab m n y.
Proof. unfold set_ptab. cbn. by rewrite insert_insert_eq. Qed.

(** Forgetting a pipe does not look at its port's table. *)
Lemma forget_pipe_set_ptab m p i n x m' :
  forget_pipe (set_ptab m n x) p i = Some m' ->
  exists m0, forget_pipe m p i = Some m0 /\ m' = set_ptab m0 n x.
Proof.
  unfold forget_pipe. cbn [set_ptab etabs].
  destruct (etabs m !! entries_table i) as [et|]; [|done]. obind. intros [= <-]. by eexists.
Qed.

(** The loop, over a state whose port table lags behind: the consistent state is
    the one with the table [t] of the pipes still to be forgotten. *)
Lemma flush_pipes_ok m port pt ks t :
  manager_ok (set_ptab m pt t) ->
  h_lookup (port_id_to_pipes_id_table m) port = Some pt ->
  (forall k, h_lookup t k = Some tt -> k ∈ ks) ->
  (forall k i, k ∈ ks -> h_lookup (pipe_id_to_pipe_info_table m) k = Some i -> port_id_to_pipes_table i = pt) ->
  exists m' t', flush_pipes m ks = Some m' /\ manager_ok (set_ptab m' pt t') /\
    (forall k, h_lookup t' k = None) /\ port_id_to_pipes_id_table m' = port_id_to_pipes_id_table m /\
    (forall q, h_lookup (pipe_id_to_pipe_info_table m') q =
       if decide (q ∈ ks) then None else h_lookup (pipe_id_to_pipe_info_table m) q).
Proof.
  clear content. revert m t. induction ks as [|k ks IH]; intros m t Hok Hport Ht Hks; cbn [flush_pipes].
  { exists m, t. split_and!; try done.
    intros k. destruct (h_lookup t k) as [[]|] eqn:E; [|done]. by apply Ht, elem_of_nil in E. }
  destruct (h_lookup (pipe_id_to_pipe_info_table m) k) as [i|] eqn:Hi.
  - assert (Hpt : port_id_to_pipes_table i = pt) by (eapply Hks; [by left|done]).
    destruct (remove_pipe_ok (set_ptab m pt t) k i t Hok Hi) as (m1 & Hrun & Hok1 & [Hfr Hgone] & Hports & _).
    { rewrite Hpt. cbn. by rewrite lookup_insert_eq. }
    rewrite Hpt, set_ptab_set_ptab in Hrun. destruct (forget_pipe_set_ptab _ _ _ _ _ _ Hrun) as (m0 & Hm0 & ->).
    rewrite Hm0. obind. cbn [set_ptab port_id_to_pipes_id_table pipe_id_to_pipe_info_table] in *.
    destruct (IH m0 (h_del t k)) as (m' & t' & Hf & Hok' & Hemp & Hp' & Hq'); [done|by rewrite Hports| | |].
    + intros q [Hne Hq]%lookup_del_Some. apply Ht in Hq. set_solver.
    + intros q j Hq Hj. destruct (decide (q = k)) as [->|Hne]; [congruence|].
      rewrite Hfr in Hj by done. eapply Hks; [by right|done].
    + exists m', t'. split_and!; try done; [congruence|]. intros q. rewrite Hq'.
      destruct (decide (q = k)) as [->|Hne].
      * rewrite Hgone. repeat case_decide; try done; set_solver.
      * rewrite Hfr by done. repeat case_decide; try done; set_solver.
  - destruct (IH m t) as (m' & t' & Hf & Hok' & Hemp & Hp' & Hq'); [done|done| | |].
    + intros q Hq. assert (q <> k).
      { intros ->. destruct (ok_port _ Hok port pt Hport) as (tab & Htab & Hall).
        cbn in Htab. rewrite lookup_insert_eq in Htab. injection Htab as <-.
        destruct (Hall k Hq) as (i & Hi' & _). cbn in Hi'. congruence. }
      apply Ht in Hq. set_solver.
    + intros q i Hq. apply Hks. by right.
    + exists m', t'. split_and!; try done. intros q. rewrite Hq'.
      destruct (decide (q = k)) as [->|Hne].
      * rewrite Hi. repeat case_decide; try done; set_solver.
      * repeat case_decide; try done; set_solver.
Qed.

Lemma set_ptab_id m n t : ptabs m !! n = Some t -> set_ptab m n t = m.
Proof. destruct m; unfold set_ptab; cbn. intros E. by rewrite insert_id. Qed.

Lemma flush_ok m port :
  manager_ok m ->
  exists r m', pipes_manager_pipes_flush m port = Some (r, m') /\ manager_ok m' /\
    (r = DOCA_SUCCESS <-> exists pt, h_lookup (port_id_to_pipes_id_table m) port = Some pt) /\
    h_lookup (port_id_to_pipes_id_table m') port = None /\
    (forall q i, h_lookup (pipe_id_to_pipe_info_table m') q = Some i <->
       h_lookup (pipe_id_to_pipe_info_table m) q = Some i /\
       h_lookup (port_id_to_pipes_id_table m) port <> Some (port_id_to_pipes_table i)).
Proof.
  clear content. intros Hok. unfold pipes_manager_pipes_flush.
  destruct (h_lookup (port_id_to_pipes_id_table m) port) as [pt|] eqn:Hport.
  2: { do 2 eexists. split; [reflexivity|]. split_and!; try done; [split; [done|by intros []]|]. naive_solver. }
  destruct (ok_port m Hok port pt Hport) as (tab & Htab & Hall). rewrite Htab. obind.
  assert (Hkeys : forall k, k ∈ map fst (h_iter tab) <-> h_lookup tab k = Some tt).
  { intros k. rewrite iter_keys. split; [|eauto]. by intros [[] ?]. }
  destruct (flush_pipes_ok m port pt (map fst (h_iter tab)) tab) as (m1 & t' & Hf & Hok1 & Hemp & Hp1 & Hq1).
  - by rewrite set_ptab_id.
  - done.
  - intros k. by rewrite Hkeys.
  - intros k i Hk Hi. apply Hkeys in Hk. destruct (Hall k Hk) as (j & Hj & Hjt). congruence.
  - rewrite Hf. obind. do 2 eexists. split; [reflexivity|]. split_and!; [|split; [eauto|done]| |].
    + pose proof (delete_port_ok (set_ptab m1 pt t') port pt t' Hok1) as Hd.
      unfold free_ptab, set_ptab in *. cbn in *. rewrite delete_insert_eq in Hd. apply Hd; [congruence|by rewrite lookup_insert_eq|done].
    + cbn. rewrite h_lookup_del. by rewrite decide_True.
    + cbn. intros q i. rewrite Hq1. case_decide as E; rewrite Hkeys in E.
      * split; [done|]. intros [Hi Hne]. destruct (Hall q E) as (j & Hj & Hjt). congruence.
      * split; [|by intros []]. intros Hi. split; [done|]. intros [= Ept].
        destruct (ok_info m Hok q i Hi) as (_ & (t & Ht & Hl) & _). congruence.
Qed.

(** *** Destroying the manager *)

Lemma destroy_infos_ok l m :
  NoDup (map (fun x => entries_table (snd x)) l) ->
  (forall x, x ∈ l -> exists et, etabs m !! entries_table (snd x) = Some et) ->
  exists m', destroy_infos m l = Some m' /\
    port_id_to_pipes_id_table m' = port_id_to_pipes_id_table m /\ ptabs m' = ptabs m /\
    (forall n, n ∈ map (fun x => entries_table (snd x)) l -> etabs m' !! n = None) /\
    (forall n et, etabs m' !! n = Some et -> etabs m !! n = Some et).
Proof.
  revert m. induction l as [|[p i] l IH]; intros m Hnd Hlive; cbn [destroy_infos].
  { exists m. split_and!; try done. intros n Hn. by apply elem_of_nil in Hn. }
  cbn [map snd] in Hnd. apply NoDup_cons in Hnd as [Hnot Hnd].
  destruct (Hlive (p, i)) as [et Het]; [by left|]. cbn [snd] in Het. rewrite Het. obind.
  destruct (IH (destroy_pipe_info m i)) as (m' & Hrun & Hp & Ht & Hgone & Hold); [done| |].
  { intros x Hx. destruct (Hlive x) as [et' Het']; [by right|]. exists et'. cbn.
    rewrite lookup_delete_ne; [done|]. intros E. apply Hnot. rewrite E.
    apply list_elem_of_fmap. by exists x. }
  exists m'. split_and!; try done.
  - intros n [->|Hn]%elem_of_cons; [|by apply Hgone]. destruct (etabs m' !! _) eqn:E; [|done].
    apply Hold in E. cbn in E. by rewrite lookup_delete_eq in E.
  - intros n et' Hn. apply Hold in Hn. cbn in Hn. by apply lookup_delete_Some in Hn as [_ Hn].
Qed.

Lemma destroy_ports_ok l m :
  NoDup (map snd l) -> (forall x, x ∈ l -> exists t, ptabs m !! snd x = Some t) ->
  exists m', destroy_ports m l = Some m' /\ etabs m' = etabs m /\
    (forall n, n ∈ map snd l -> ptabs m' !! n = None) /\
    (forall n t, ptabs m' !! n = Some t -> ptabs m !! n = Some t).
Proof.
  revert m. induction l as [|[a n] l IH]; intros m Hnd Hlive; cbn [destroy_ports].
  { exists m. split_and!; try done. intros k Hk. by apply elem_of_nil in Hk. }
  cbn [map snd] in Hnd. apply NoDup_cons in Hnd as [Hnot Hnd].
  destruct (Hlive (a, n)) as [t Ht]; [by left|]. cbn [snd] in Ht. rewrite Ht. obind.
  destruct (IH (free_ptab m n)) as (m' & Hrun & He & Hgone & Hold); [done| |].
  { intros x Hx. destruct (Hlive x) as [t' Ht']; [by right|]. exists t'. cbn.
    rewrite lookup_delete_ne; [done|]. intros ->. apply Hnot, list_elem_of_fmap. by exists x. }
  exists m'. split_and!; try done.
  - intros k [->|Hk]%elem_of_cons; [|by apply Hgone]. destruct (ptabs m' !! _) eqn:E; [|done].
    apply Hold in E. cbn in E. by rewrite lookup_delete_eq in E.
  - intros k t' Hk. apply Hold in Hk. cbn in Hk. by apply lookup_delete_Some in Hk as [_ Hk].
Qed.

(** The values an iteration gives are distinct when different keys have different ones. *)
Lemma iter_NoDup_values {V B} (t : T V) (f : V -> B) :
  (forall k l v w, h_lookup t k = Some v -> h_lookup t l = Some w -> f v = f w -> k = l) ->
  NoDup (map (fun x => f (snd x)) (h_iter t)).
Proof.
  intros Hinj. apply NoDup_fmap_2_strong; [|eapply NoDup_fmap_1, h_iter_NoDup].
  intros [k v] [l w] Hx Hy E. apply h_iter_lookup in Hx, Hy. cbn [snd] in E.
  assert (k = l) as -> by by eapply Hinj. congruence.
Qed.

Lemma manager_destroy_ok m :
  manager_ok m -> exists m', destroy_pipes_manager m = Some m' /\ etabs m' = ∅ /\ ptabs m' = ∅.
Proof.
  intros Hok. unfold destroy_pipes_manager.
  destruct (destroy_infos_ok (h_iter (pipe_id_to_pipe_info_table m)) m) as (m1 & Hrun & Hp & Ht & Hgone & Hold).
  - apply iter_NoDup_values. apply (ok_etab_inj m Hok).
  - intros [p i] Hx. apply h_iter_lookup in Hx. by apply (ok_info m Hok p i Hx).
  - rewrite Hrun. obind.
    destruct (destroy_ports_ok (h_iter (port_id_to_pipes_id_table m1)) m1) as (m2 & Hrun2 & He2 & Hgone2 & Hold2).
    + apply (iter_NoDup_values _ id). intros k l v w Hk Hl E. rewrite Hp in *. cbn in E. subst.
      by eapply (ok_ptab_inj m Hok).
    + intros [a n] Hx. apply h_iter_lookup in Hx. rewrite Hp in Hx. cbn [snd].
      destruct (ok_port m Hok a n Hx) as (t & Htab & _). exists t. by rewrite Ht.
    + exists m2. split; [done|]. split; apply map_empty; intros n.
      * rewrite He2. destruct (etabs m1 !! n) as [et|] eqn:E; [|done].
        destruct (ok_etab_used m Hok n et (Hold _ _ E)) as (_ & p & i & Hi & <-).
        rewrite Hgone in E; [done|]. apply list_elem_of_fmap. exists (p, i).
        split; [done|]. by apply h_iter_lookup.
      * destruct (ptabs m2 !! n) as [tab|] eqn:E; [|done]. pose proof (Hold2 _ _ E) as E1. rewrite Ht in E1.
        destruct (ok_ptab_used m Hok n tab E1) as (_ & a & Ha).
        rewrite Hgone2 in E; [done|]. apply list_elem_of_fmap. exists (a, n).
        split; [done|]. rewrite Hp. by apply h_iter_lookup.
Qed.

Lemma create_ok_inv mem ok m :
  create_pipes_manager (T := T) mem ok = (DOCA_SUCCESS, Some m) -> manager_ok m.
Proof.
  unfold create_pipes_manager. repeat case_match; try done. intros [= <-].
  split; cbn; intros *; rewrite ?h_lookup_empty; try done; by rewrite lookup_empty.
Qed.

End Correctness.

(** ** Runs *)

Inductive op :=
  | PipeCreate (e : env) (p port : Z)
  | AddEntry (e : env) (entry pipe_id : Z)
  | PipeDestroy (pipe_id : Z)
  | RmEntry (entry_id : Z)
  | Flush (port : Z).

(** rte_malloc gives memory for the keys. *)
Definition op_mem (o : op) : Prop :=
  match o with
  | PipeCreate e _ _ => id_addr e <> None /\ port_key_mem e = true
  | AddEntry e _ _ => id_addr e <> None
  | _ => True
  end.

Section Runs.
Context {T : Type -> Type} `{RteHash T} (content : Z -> list Z).

Definition run_op (m : flow_pipes_manager T) (o : op) : option (flow_pipes_manager T) :=
  match o with
  | PipeCreate e p port => '(_, _, m') ← pipes_manager_pipe_create content e m p port; Some m'
  | AddEntry e entry pid => '(_, _, m') ← pipes_manager_pipe_add_entry content e m entry pid; Some m'
  | PipeDestroy pid => '(_, m') ← pipes_manager_pipe_destroy m pid; Some m'
  | RmEntry eid => '(_, m') ← pipes_manager_pipe_rm_entry m eid; Some m'
  | Flush port => '(_, m') ← pipes_manager_pipes_flush m port; Some m'
  end.

Fixpoint run_ops (m : flow_pipes_manager T) (os : list op) : option (flow_pipes_manager T) :=
  match os with
  | [] => Some m
  | o :: os' => m' ← run_op m o; run_ops m' os'
  end.
End Runs.

Lemma run_op_ok {T} `{RteHashLaws T} content (m : flow_pipes_manager T) o :
  manager_ok m -> op_mem o -> exists m', run_op content m o = Some m' /\ manager_ok m'.
Proof.
  intros Hok Hmem. destruct o as [e p port|e entry pid|pid|eid|port]; cbn [run_op op_mem] in *.
  - destruct Hmem as [Ha Hk]. destruct (pipe_create_ok content e m p port Hok Ha Hk) as (r & out & m' & -> & Hm' & _).
    obind. by exists m'.
  - destruct (add_entry_ok content e m entry pid Hok Hmem) as (r & out & m' & -> & Hm' & _). obind. by exists m'.
  - destruct (pipe_destroy_ok m pid Hok) as (r & m' & -> & Hm' & _). obind. by exists m'.
  - destruct (rm_entry_ok m eid Hok) as (r & m' & -> & Hm' & _). obind. by exists m'.
  - destruct (flush_ok m port Hok) as (r & m' & -> & Hm' & _). obind. by exists m'.
Qed.

Lemma run_ops_ok {T} `{RteHashLaws T} content os (m : flow_pipes_manager T) :
  manager_ok m -> Forall op_mem os -> exists m', run_ops content m os = Some m' /\ manager_ok m'.
Proof.
  revert m. induction os as [|o os IH]; intros m Hok Hmem; [by exists m|].
  apply Forall_cons in Hmem as [Ho Hos]. cbn [run_ops].
  destruct (run_op_ok content m o Hok Ho) as (m1 & -> & Hm1). obind. by apply IH.
Qed.

(** ** Properties *)

(** C32: Whatever the operations and the answers of the allocators of tables
    and infos, no call uses a table that was freed; in every state reached the
    tables are consistent ([manager_ok]: pipes, ports and entries refer to live
    tables that list them, none is shared and none is unreachable), so that
    destroying the manager frees every table that is left, each once.  That
    rte_malloc gives memory for keys is assumed, the code does not check it. *)
Theorem pipes_manager_no_use_after_free {T} `{RteHashLaws T} content mem ok os (m : flow_pipes_manager T) :
  create_pipes_manager mem ok = (DOCA_SUCCESS, Some m) -> Forall op_mem os ->
  exists m' end_, run_ops content m os = Some m' /\ manager_ok m' /\
    destroy_pipes_manager m' = Some end_ /\ etabs end_ = ∅ /\ ptabs end_ = ∅.
Proof.
  intros Hc Hmem. destruct (run_ops_ok content os m (create_ok_inv _ _ _ Hc) Hmem) as (m' & Hrun & Hok).
  destruct (manager_destroy_ok m' Hok) as (me & Hd & He & Hp). by exists m', me.
Qed.

(** A pipe is created under the id generated for it, if that is not in use,
    and can then be looked up; when the creation fails no pipe and no entry has
    changed.  Other pipes are not touched either way. *)
Theorem pipes_manager_create_get {T} `{RteHashLaws T} content e (m : flow_pipes_manager T) p port :
  manager_ok m -> op_mem (PipeCreate e p port) ->
  exists r out m', pipes_manager_pipe_create content e m p port = Some (r, out, m') /\
    (r = DOCA_SUCCESS /\ out = Some (generateID content p) /\
       fst (pipes_manager_get_pipe m (generateID content p)) = DOCA_ERROR_NOT_FOUND /\
       pipes_manager_get_pipe m' (generateID content p) = (DOCA_SUCCESS, Some p) /\
       (forall q, q <> generateID content p -> pipes_manager_get_pipe m' q = pipes_manager_get_pipe m q) \/
     r <> DOCA_SUCCESS /\ out = None /\
       (forall q, pipes_manager_get_pipe m' q = pipes_manager_get_pipe m q) /\
       (forall k, pipes_manager_get_entry m' k = pipes_manager_get_entry m k)).
Proof.
  intros Hok [Ha Hk]. destruct (pipe_create_ok content e m p port Hok Ha Hk) as (r & out & m' & Hrun & _ & Hcr).
  exists r, out, m'. split; [done|]. unfold pipes_manager_get_pipe.
  destruct Hcr as [(-> & -> & Hnone & (i & Hi & <-) & Hother)|(Hr & -> & Hi & He & Ht)]; [left|right].
  - rewrite Hnone, Hi. split_and!; try done. intros q Hq. by rewrite Hother.
  - split_and!; [done..| |].
    + intros q. by rewrite Hi.
    + intros k. unfold pipes_manager_get_entry. rewrite He. destruct (h_lookup _ k); [|done]. by rewrite Hi, Ht.
Qed.

(** An entry that is added is found under its id, through the pipe it was
    added to; a failing addition changes no entry's pipe; removing the entry
    succeeds and it is not found any more. *)
Theorem pipes_manager_entry_lifecycle {T} `{RteHashLaws T} content e (m : flow_pipes_manager T) entry pid :
  manager_ok m -> op_mem (AddEntry e entry pid) ->
  exists r out m', pipes_manager_pipe_add_entry content e m entry pid = Some (r, out, m') /\
    (r = DOCA_SUCCESS /\ out = Some (generateID content entry) /\
       pipes_manager_get_entry m' (generateID content entry) = Some (DOCA_SUCCESS, Some entry) /\
       (exists m'', pipes_manager_pipe_rm_entry m' (generateID content entry) = Some (DOCA_SUCCESS, m'') /\
          pipes_manager_get_entry m'' (generateID content entry) = Some (DOCA_ERROR_NOT_FOUND, None)) \/
     r <> DOCA_SUCCESS /\ out = None /\ entry_id_to_pipe_id_table m' = entry_id_to_pipe_id_table m).
Proof.
  intros Hok Ha. destruct (add_entry_ok content e m entry pid Hok Ha) as (r & out & m' & Hrun & Hok' & _ & Hcase).
  exists r, out, m'. split; [done|]. destruct Hcase as [(-> & -> & Hl & Hget & _)|]; [left|by right].
  split_and!; try done. destruct (rm_entry_ok m' (generateID content entry) Hok') as (r & m'' & Hrm & _ & _ & Hk & Hs).
  exists m''. rewrite Hrm. assert (r = DOCA_SUCCESS) as -> by (apply Hs; eauto). split; [done|].
  unfold pipes_manager_get_entry. rewrite Hk. by rewrite decide_True.
Qed.

(** Destroying a pipe removes it and the entries mapped to it, and flushing
    a port removes exactly the pipes that were created on it. *)
Theorem pipes_manager_destroy_flush {T} `{RteHashLaws T} (m : flow_pipes_manager T) pid port :
  manager_ok m ->
  (exists r m', pipes_manager_pipe_destroy m pid = Some (r, m') /\
     (r = DOCA_SUCCESS <-> fst (pipes_manager_get_pipe m pid) = DOCA_SUCCESS) /\
     (forall q, pipes_manager_get_pipe m' q =
        if decide (q = pid) then (DOCA_ERROR_NOT_FOUND, None) else pipes_manager_get_pipe m q) /\
     (forall k, h_lookup (entry_id_to_pipe_id_table m) k = Some pid ->
        pipes_manager_get_entry m' k = Some (DOCA_ERROR_NOT_FOUND, None))) /\
  (exists r m', pipes_manager_pipes_flush m port = Some (r, m') /\
     (r = DOCA_SUCCESS <-> exists pt, h_lookup (port_id_to_pipes_id_table m) port = Some pt) /\
     (forall q i, h_lookup (pipe_id_to_pipe_info_table m') q = Some i <->
        h_lookup (pipe_id_to_pipe_info_table m) q = Some i /\
        h_lookup (port_id_to_pipes_id_table m) port <> Some (port_id_to_pipes_table i))).
Proof.
  intros Hok. split.
  - destruct (pipe_destroy_ok m pid Hok) as (r & m' & Hrun & _ & Hr & [Hfr Hgone] & He).
    exists r, m'. unfold pipes_manager_get_pipe. split_and!; [done| | |].
    + rewrite Hr. destruct (h_lookup _ pid); [naive_solver|]. split; [by intros [? ?]|done].
    + intros q. case_decide as E; [by rewrite E, Hgone|by rewrite Hfr].
    + intros k Hk. unfold pipes_manager_get_entry. by rewrite He.
  - destruct (flush_ok m port Hok) as (r & m' & Hrun & _ & Hr & _ & Hq). by exists r, m'.
Qed.

(** The entries table of every pipe and the table of every port have fixed
    names, and rte_hash_create fails (EEXIST) when a table of the name is there:
    while the entries table of a pipe is live no other pipe can be created. *)
Theorem pipes_manager_second_pipe_fails {T} `{RteHashLaws T} content e (m : flow_pipes_manager T) p port :
  manager_ok m -> op_mem (PipeCreate e p port) ->
  (forall live n, In n live -> create_ok e live n = false) -> In entries_name (names m) ->
  exists r m', pipes_manager_pipe_create content e m p port = Some (r, None, m') /\ r <> DOCA_SUCCESS.
Proof.
  intros Hok [Ha Hk] Hex Hin.
  destruct (pipe_create_ok content e m p port Hok Ha Hk) as (r & out & m' & Hrun & _ & Hcr).
  destruct Hcr as [(-> & -> & _)|(Hr & -> & _)]; [|by exists r, m'].
  assert (Hno : forall m1 pt isnew id res out' m2, In entries_name (names m1) ->
    pipe_create_info e m1 p port id pt isnew = Some (res, out', m2) -> res <> DOCA_SUCCESS).
  { intros m1 pt isnew id res out' m2 Hn. unfold pipe_create_info, create_pipe_info.
    rewrite (Hex _ _ Hn), andb_false_r. destruct (undo_port _ _ _ _ _); [|done]. by intros [= <- _ _]. }
  exfalso. revert Hrun. unfold pipes_manager_pipe_create. repeat (case_match || obind); try done.
  - destruct (ptabs m !! _); [|done]. obind. case_match; [|done].
    intros Hc. by eapply Hno in Hc.
  - unfold create_ptab in *. simplify_eq. intros Hc. eapply Hno in Hc; [done|]. cbn. by right.
Qed.

(** ** Witnesses *)

Definition ex_content (ptr : Z) : list Z := [ptr; 0; 0; 0; 0; 0; 0; 0].
Definition ex_env : env := {| id_addr := Some 9999; port_key_mem := true; info_mem := true; create_ok := fun _ _ => true |}.
Definition ex_manager : flow_pipes_manager table :=
  Manager ∅ ∅ ∅ ∅ ∅
    ["Port id to Pipe Entries Table"; "Entry id to Pipe id Table"; "Pipe id to Pipe info Entries"]%string 0.
Definition ex_ops : list op :=
  [PipeCreate ex_env 10 0; PipeCreate ex_env 11 0; PipeCreate ex_env 12 1;
   AddEntry ex_env 50 (generateID ex_content 10); AddEntry ex_env 51 (generateID ex_content 11)].
Definition ex_run : flow_pipes_manager table := default ex_manager (run_ops ex_content ex_manager ex_ops).

Lemma ex_manager_ok : manager_ok ex_manager.
Proof. by apply (create_ok_inv true (fun _ => true)). Qed.
Lemma ex_ops_mem : Forall op_mem ex_ops.
Proof. by repeat constructor. Qed.
Lemma ex_run_ok : manager_ok ex_run.
Proof.
  unfold ex_run. destruct (run_ops_ok ex_content ex_ops ex_manager ex_manager_ok ex_ops_mem) as (m' & -> & Hm').
  exact Hm'.
Qed.

Example ex_run_pipes :
  pipes_manager_get_pipe ex_run (generateID ex_content 12) = (DOCA_SUCCESS, Some 12) /\
  pipes_manager_get_entry ex_run (generateID ex_content 50) = Some (DOCA_SUCCESS, Some 50).
Proof. vm_compute. by split. Qed.

Lemma pipes_manager_no_use_after_free_witness :
  create_pipes_manager (T := table) true (fun _ => true) = (DOCA_SUCCESS, Some ex_manager) /\ Forall op_mem ex_ops /\
  exists m' end_, run_ops ex_content ex_manager ex_ops = Some m' /\ manager_ok m' /\
    destroy_pipes_manager m' = Some end_ /\ etabs end_ = ∅ /\ ptabs end_ = ∅.
Proof.
  split; [reflexivity|]. split; [exact ex_ops_mem|].
  apply (pipes_manager_no_use_after_free ex_content true (fun _ => true)); [reflexivity|exact ex_ops_mem].
Defined.

Lemma pipes_manager_create_get_witness :
  exists r out m', pipes_manager_pipe_create ex_content ex_env ex_run 13 1 = Some (r, out, m') /\
    (r = DOCA_SUCCESS /\ out = Some (generateID ex_content 13) /\
       fst (pipes_manager_get_pipe ex_run (generateID ex_content 13)) = DOCA_ERROR_NOT_FOUND /\
       pipes_manager_get_pipe m' (generateID ex_content 13) = (DOCA_SUCCESS, Some 13) /\
       (forall q, q <> generateID ex_content 13 -> pipes_manager_get_pipe m' q = pipes_manager_get_pipe ex_run q) \/
     r <> DOCA_SUCCESS /\ out = None /\
       (forall q, pipes_manager_get_pipe m' q = pipes_manager_get_pipe ex_run q) /\
       (forall k, pipes_manager_get_entry m' k = pipes_manager_get_entry ex_run k)).
Proof. apply pipes_manager_create_get; [exact ex_run_ok|by split]. Defined.

Lemma pipes_manager_entry_lifecycle_witness :
  exists r out m', pipes_manager_pipe_add_entry ex_content ex_env ex_run 52 (generateID ex_content 12) = Some (r, out, m') /\
    (r = DOCA_SUCCESS /\ out = Some (generateID ex_content 52) /\
       pipes_manager_get_entry m' (generateID ex_content 52) = Some (DOCA_SUCCESS, Some 52) /\
       (exists m'', pipes_manager_pipe_rm_entry m' (generateID ex_content 52) = Some (DOCA_SUCCESS, m'') /\
          pipes_manager_get_entry m'' (generateID ex_content 52) = Some (DOCA_ERROR_NOT_FOUND, None)) \/
     r <> DOCA_SUCCESS /\ out = None /\ entry_id_to_pipe_id_table m' = entry_id_to_pipe_id_table ex_run).
Proof. apply pipes_manager_entry_lifecycle; [exact ex_run_ok|done]. Defined.

Lemma pipes_manager_destroy_flush_witness :
  exists r m', pipes_manager_pipes_flush ex_run 0 = Some (r, m') /\
     (r = DOCA_SUCCESS <-> exists pt, h_lookup (port_id_to_pipes_id_table ex_run) 0 = Some pt) /\
     (forall q i, h_lookup (pipe_id_to_pipe_info_table m') q = Some i <->
        h_lookup (pipe_id_to_pipe_info_table ex_run) q = Some i /\
        h_lookup (port_id_to_pipes_id_table ex_run) 0 <> Some (port_id_to_pipes_table i)).
Proof. apply (pipes_manager_destroy_flush ex_run (generateID ex_content 10) 0). exact ex_run_ok. Defined.

(** An rte_hash_create that refuses the names of live tables. *)
Definition ex_env_names : env :=
  {| id_addr := Some 9999; port_key_mem := true; info_mem := true;
     create_ok := fun live n => negb (existsb (String.eqb n) live) |}.

Lemma pipes_manager_second_pipe_fails_witness :
  exists r m', pipes_manager_pipe_create ex_content ex_env_names ex_run 13 5 = Some (r, None, m') /\ r <> DOCA_SUCCESS.
Proof.
  apply pipes_manager_second_pipe_fails; [exact ex_run_ok|by split| |].
  - intros live n Hn. cbn. apply negb_false_iff, existsb_exists. exists n. by rewrite String.eqb_refl.
  - vm_compute. by left.
Defined.

(** An entry added twice: the duplicate check does not see the first one. *)
Example duplicate_entry_accepted :
  (fun o => fst (fst o)) <$> pipes_manager_pipe_add_entry ex_content ex_env ex_run 50 (generateID ex_content 10)
  = Some DOCA_SUCCESS.
Proof. reflexivity. Qed.
