(* ===== verification/CString.v ===== *)
(** * C strings

    The string functions of the C library that the parsers call, on strings as
    lists of character codes up to the terminating NUL, and strlcpy of
    applications/common/src/utils.c.  A pointer into a string is the rest of the
    string from there; moving it past the NUL is undefined.  Decimal numerals
    ([dec]) and how the number parsers read them back close the file. *)

From Stdlib Require Import Ascii String.
Export StringSyntax.
From S2P Require Import Prelude.
#[local] Open Scope Z_scope.

Definition cstring : Type := list Z.

Definition str (s : string) : cstring := map (fun a => Z.of_N (N_of_ascii a)) (list_ascii_of_string s).
Arguments str _%_string.

(** ** Comparison *)

Fixpoint strcmp (s t : cstring) : bool :=
  match s, t with
  | [], [] => true
  | c :: s', d :: t' => (c =? d) && strcmp s' t'
  | _, _ => false
  end.

(** strncmp(s, p, strlen(p)) == 0 *)
Fixpoint starts_with (p s : cstring) : bool :=
  match p, s with
  | [], _ => true
  | c :: p', d :: s' => (c =? d) && starts_with p' s'
  | _ :: _, [] => false
  end.

(** ** Walking *)

(** [p + n]: the NUL is the last character there is. *)
Definition adv (n : nat) (s : cstring) : option cstring :=
  if (n <=? List.length s)%nat then Some (drop n s) else None.

(** [*p++]; after the NUL nothing may be read. *)
Definition next (s : cstring) : Z * option cstring :=
  match s with [] => (0, None) | c :: s' => (c, Some s') end.

(** strchr for a character other than NUL: the rest from its first occurrence. *)
Fixpoint strchr (s : cstring) (c : Z) : option cstring :=
  match s with
  | [] => None
  | d :: s' => if d =? c then Some s else strchr s' c
  end.

Fixpoint span (f : Z -> bool) (s : cstring) : cstring * cstring :=
  match s with
  | [] => ([], [])
  | c :: s' => if f c then let '(a, b) := span f s' in (c :: a, b) else ([], s)
  end.

(** The first call of strtok with one delimiter: delimiters are skipped, the
    token ends before the next one; [None] when no character is left. *)
Definition strtok (s : cstring) (d : Z) : option cstring :=
  match snd (span (Z.eqb d) s) with
  | [] => None
  | s' => Some (fst (span (fun c => negb (c =? d)) s'))
  end.

(** What a buffer of [size] > 0 bytes holds after strlcpy from [src]. *)
Definition strlcpy (src : cstring) (size : nat) : cstring := take (size - 1) src.

Definition strnlen (s : cstring) (n : nat) : nat := Nat.min (length s) n.

(** ** Numbers *)

Definition isspace (c : Z) : bool := (c =? 32) || ((9 <=? c) && (c <=? 13)).

Definition digit (c : Z) : option Z :=
  if (48 <=? c) && (c <=? 57) then Some (c - 48)
  else if (97 <=? c) && (c <=? 122) then Some (c - 97 + 10)
  else if (65 <=? c) && (c <=? 90) then Some (c - 65 + 10)
  else None.

Definition digit_of (b c : Z) : option Z :=
  match digit c with
  | Some d => if d <? b then Some d else None
  | None => None
  end.

(** The value of the digits of base [b] at the front, and the rest. *)
Fixpoint digits (b acc : Z) (s : cstring) : Z * cstring :=
  match s with
  | [] => (acc, [])
  | c :: s' => match digit_of b c with Some d => digits b (acc * b + d) s' | None => (acc, s) end
  end.

(** The sign: + and - are skipped. *)
Definition sign (s : cstring) : bool * cstring :=
  match s with
  | 45 :: s' => (true, s')
  | 43 :: s' => (false, s')
  | _ => (false, s)
  end.

(** The base and the digits: 0x (before a digit) means 16, a leading 0 means 8. *)
Definition detect (base : Z) (s : cstring) : Z * cstring :=
  if (base =? 0) || (base =? 16) then
    match s with
    | 48 :: x :: h :: s' =>
        if ((x =? 120) || (x =? 88)) && bool_decide (is_Some (digit_of 16 h)) then (16, h :: s')
        else (if base =? 0 then 8 else 16, s)
    | 48 :: _ => (if base =? 0 then 8 else 16, s)
    | _ => (if base =? 0 then 10 else 16, s)
    end
  else (base, s).

(** Sign, magnitude and end of the numeral; without a digit the end is the
    start of the string. *)
Definition numeral (base : Z) (s : cstring) : bool * Z * cstring :=
  let '(neg, s1) := sign (snd (span isspace s)) in
  let '(b, s2) := detect base s1 in
  let '(v, s3) := digits b 0 s2 in
  if (List.length s3 <? List.length s2)%nat then (neg, v, s3) else (false, 0, s).

(** A base that is neither 0 nor in 2..36 is an error: the value is 0 and the
    end pointer is not written. *)
Definition base_ok (base : Z) : bool := (base =? 0) || ((2 <=? base) && (base <=? 36)).

Definition strtol (s : cstring) (base : Z) : Z * option cstring :=
  if base_ok base then
    let '(neg, v, rest) := numeral base s in
    ((if neg : bool then Z.max (- 2 ^ 63) (- v) else Z.min (2 ^ 63 - 1) v), Some rest)
  else (0, None).

Definition strtoull (s : cstring) (base : Z) : Z * option cstring :=
  if base_ok base then
    let '(neg, v, rest) := numeral base s in
    ((if v <? 2 ^ 64 then (if neg : bool then u64 (- v) else v) else 2 ^ 64 - 1), Some rest)
  else (0, None).

Definition atoi (s : cstring) : Z := s32 (fst (strtol s 10)).

(** ** Lemmas *)

Lemma strcmp_eq s t : strcmp s t = true <-> s = t.
Proof.
  revert t. induction s as [|c s IH]; intros [|d t]; cbn [strcmp]; try done.
  rewrite andb_true_iff, Z.eqb_eq, IH. naive_solver.
Qed.

Lemma strcmp_refl s : strcmp s s = true.
Proof. by apply strcmp_eq. Qed.

Lemma starts_with_app p s : starts_with p (p ++ s) = true.
Proof. induction p; cbn; [done|]. by rewrite Z.eqb_refl. Qed.

Lemma starts_with_length p s : starts_with p s = true -> (List.length p <= List.length s)%nat.
Proof.
  revert s. induction p as [|c p IH]; intros [|d s]; cbn; try done; [lia|].
  intros [_ Hs]%andb_true_iff. apply IH in Hs. lia.
Qed.

Lemma adv_app p s : adv (List.length p) (p ++ s) = Some s.
Proof. unfold adv. rewrite length_app, (proj2 (Nat.leb_le _ _)) by lia. by rewrite drop_app_length. Qed.

Lemma adv_length n s s' : adv n s = Some s' -> List.length s = (n + List.length s')%nat.
Proof.
  unfold adv. destruct (Nat.leb_spec n (List.length s)); [|done]. intros [= <-]. rewrite length_drop. lia.
Qed.

Lemma span_app f s : fst (span f s) ++ snd (span f s) = s.
Proof. induction s as [|c s IH]; cbn; [done|]. destruct (f c); [|done]. destruct (span f s). cbn in *. by f_equal. Qed.

Lemma span_length f s : (List.length (snd (span f s)) <= List.length s)%nat.
Proof. rewrite <- (span_app f s) at 2. rewrite length_app. lia. Qed.

(** A run of characters that satisfy [f], then one that does not. *)
Lemma span_run f a b :
  forallb f a = true -> (forall c b', b = c :: b' -> f c = false) -> span f (a ++ b) = (a, b).
Proof.
  intros Ha Hb. induction a as [|c a IH]; cbn in *.
  - destruct b as [|c b]; [done|]. cbn. by rewrite (Hb c b).
  - apply andb_true_iff in Ha as [-> Ha]. by rewrite IH.
Qed.

(** The first token of [a ++ d :: rest] and of [a], for a nonempty [a] without
    the delimiter. *)
Lemma strtok_run a d b :
  a <> [] -> forallb (fun c => negb (c =? d)) a = true -> (forall c b', b = c :: b' -> c = d) ->
  strtok (a ++ b) d = Some a.
Proof.
  intros Hne Ha Hb. unfold strtok. destruct a as [|c a]; [done|].
  assert (Hc : (d =? c) = false).
  { cbn in Ha. apply andb_true_iff in Ha as [Ha _]. rewrite Z.eqb_sym. by apply negb_true_iff. }
  assert (snd (span (Z.eqb d) ((c :: a) ++ b)) = (c :: a) ++ b) as -> by (cbn [app span]; by rewrite Hc).
  transitivity (Some (fst (span (fun x => negb (x =? d)) ((c :: a) ++ b)))); [done|].
  rewrite span_run; [done|done|]. intros e b' He. by rewrite (Hb e b' He), Z.eqb_refl.
Qed.

Lemma strtok_length s d t : strtok s d = Some t -> (0 < List.length t <= List.length s)%nat.
Proof.
  unfold strtok. pose proof (span_length (Z.eqb d) s).
  assert (Hhd : forall c l, snd (span (Z.eqb d) s) = c :: l -> (d =? c) = false).
  { clear. induction s as [|c s IH]; cbn; [done|]. intros x l. destruct (d =? c) eqn:E.
    - destruct (span (Z.eqb d) s). cbn in *. eauto.
    - cbn. intros [= <- _]. done. }
  destruct (snd (span (Z.eqb d) s)) as [|c l]; [done|]. intros [= <-].
  specialize (Hhd c l eq_refl). rewrite Z.eqb_sym in Hhd.
  pose proof (f_equal (@List.length Z) (span_app (fun c => negb (c =? d)) l)) as Hl. rewrite length_app in Hl.
  rewrite Hhd. cbn [negb]. destruct (span _ l) as [u v]. cbn [fst snd List.length] in *. lia.
Qed.

Lemma strlcpy_short s n : (List.length s < n)%nat -> strlcpy s n = s.
Proof. intros. unfold strlcpy. apply take_ge. lia. Qed.

Lemma digits_length b acc s : (List.length (snd (digits b acc s)) <= List.length s)%nat.
Proof.
  revert acc. induction s as [|c s IH]; intros acc; cbn [digits]; [done|].
  destruct (digit_of b c); cbn [List.length snd]; [|lia]. specialize (IH (acc * b + z)). lia.
Qed.

Lemma sign_length s : (List.length (snd (sign s)) <= List.length s)%nat.
Proof. unfold sign. repeat case_match; cbn; lia. Qed.

Lemma detect_length b s : (List.length (snd (detect b s)) <= List.length s)%nat.
Proof. unfold detect. repeat case_match; cbn; lia. Qed.

(** The end of a numeral is a rest of the string. *)
Lemma numeral_length b s : (List.length (snd (numeral b s)) <= List.length s)%nat.
Proof.
  unfold numeral. pose proof (span_length isspace s) as H0. pose proof (sign_length (snd (span isspace s))) as H1.
  destruct (sign _) as [neg s1]. cbn [snd] in H1. pose proof (detect_length b s1) as H2.
  destruct (detect b s1) as [b' s2]. cbn [snd] in H2. pose proof (digits_length b' 0 s2) as H3.
  destruct (digits b' 0 s2) as [v s3]. cbn [snd] in H3. case_match; cbn; lia.
Qed.

Lemma strtoull_end s b : base_ok b = true -> exists v s', strtoull s b = (v, Some s') /\ (List.length s' <= List.length s)%nat.
Proof.
  intros Hb. unfold strtoull. rewrite Hb. pose proof (numeral_length b s).
  destruct (numeral b s) as [[neg v] s']. by eexists _, s'.
Qed.

Lemma strtol_end s b : base_ok b = true -> exists v s', strtol s b = (v, Some s') /\ (List.length s' <= List.length s)%nat.
Proof.
  intros Hb. unfold strtol. rewrite Hb. pose proof (numeral_length b s).
  destruct (numeral b s) as [[neg v] s']. by eexists _, s'.
Qed.

(** ** Decimal numerals *)

(** The decimal digits of [n], most significant first, at most [fuel] of them. *)
Fixpoint dec_digits (fuel : nat) (n : Z) : cstring :=
  match fuel with
  | O => []
  | S f => if n <? 10 then [48 + n] else dec_digits f (n / 10) ++ [48 + n mod 10]
  end.

(** 20 digits hold every 64-bit number. *)
Definition dec (n : Z) : cstring := dec_digits 20 n.

(** What may follow a numeral without being read as a part of it. *)
Definition stops (rest : cstring) : Prop := forall c r, rest = c :: r -> digit c = None.

Lemma digits_app b acc d rest :
  forallb (fun c => bool_decide (is_Some (digit_of b c))) d = true ->
  digits b acc (d ++ rest) = digits b (fst (digits b acc d)) rest.
Proof.
  revert acc. induction d as [|c d IH]; intros acc Hd; cbn in *; [done|].
  apply andb_true_iff in Hd as [Hc Hd]. apply bool_decide_eq_true in Hc as [x Hx]. rewrite Hx.
  by apply IH.
Qed.

Lemma digit_dec b n : 10 <= b -> 0 <= n < 10 -> digit_of b (48 + n) = Some n.
Proof.
  intros Hb Hn. unfold digit_of, digit.
  rewrite (proj2 (Z.leb_le 48 _)), (proj2 (Z.leb_le _ 57)) by lia. cbn [andb].
  replace (48 + n - 48) with n by lia. by rewrite (proj2 (Z.ltb_lt n b)) by lia.
Qed.

Lemma dec_digits_all b fuel n :
  10 <= b -> 0 <= n -> forallb (fun c => bool_decide (is_Some (digit_of b c))) (dec_digits fuel n) = true.
Proof.
  intros Hb. revert n. induction fuel as [|f IH]; intros n Hn; cbn [dec_digits]; [done|].
  destruct (Z.ltb_spec n 10).
  - cbn. rewrite digit_dec by lia. done.
  - rewrite forallb_app, IH by (apply Z.div_pos; lia). cbn.
    rewrite digit_dec by (try apply Z.mod_pos_bound; lia). done.
Qed.

Lemma dec_digits_value fuel n :
  0 <= n < 10 ^ Z.of_nat fuel -> digits 10 0 (dec_digits fuel n) = (n, []).
Proof.
  revert n. induction fuel as [|f IH]; intros n Hn.
  - change (10 ^ Z.of_nat 0) with 1 in Hn. assert (n = 0) as -> by lia. done.
  - rewrite Nat2Z.inj_succ, Z.pow_succ_r in Hn by lia. cbn [dec_digits]. destruct (Z.ltb_spec n 10).
    + cbn [digits]. rewrite digit_dec by lia. done.
    + assert (0 <= n / 10 < 10 ^ Z.of_nat f)
        by (split; [apply Z.div_pos; lia|apply Z.div_lt_upper_bound; lia]).
      rewrite digits_app by (apply dec_digits_all; lia). rewrite IH by lia. cbn [fst digits].
      rewrite digit_dec by (try apply Z.mod_pos_bound; lia).
      by rewrite (Z.mul_comm (n / 10) 10), <- Z.div_mod by lia.
Qed.

(** The first digit is not a zero, unless it is the only one. *)
Lemma dec_digits_head fuel n :
  0 < n < 10 ^ Z.of_nat fuel -> exists c s, dec_digits fuel n = c :: s /\ 49 <= c <= 57.
Proof.
  revert n. induction fuel as [|f IH]; intros n Hn.
  - change (10 ^ Z.of_nat 0) with 1 in Hn. lia.
  - rewrite Nat2Z.inj_succ, Z.pow_succ_r in Hn by lia. cbn [dec_digits]. destruct (Z.ltb_spec n 10).
    + exists (48 + n), []. split; [done|lia].
    + destruct (IH (n / 10)) as (c & s & -> & Hc).
      { split; [apply Z.div_str_pos; lia|apply Z.div_lt_upper_bound; lia]. }
      by exists c, (s ++ [48 + n mod 10]).
Qed.

Lemma stops_digits b acc rest : stops rest -> digits b acc rest = (acc, rest).
Proof. intros Hs. destruct rest as [|c r]; [done|]. cbn. unfold digit_of. by rewrite (Hs c r). Qed.

(** Reading a decimal numeral back, in base 0 and in base 10. *)
Lemma numeral_dec b n rest :
  b = 0 \/ b = 10 -> 0 <= n < 10 ^ 20 -> stops rest -> numeral b (dec n ++ rest) = (false, n, rest).
Proof.
  intros Hb Hn Hs. destruct (decide (n = 0)) as [->|Hn0].
  - change (dec 0) with [48]. cbn [app]. unfold numeral.
    change (sign (snd (span isspace (48 :: rest)))) with (false, 48 :: rest). cbn beta iota zeta.
    assert (Hr : forall b', 2 <= b' -> digits b' 0 (48 :: rest) = (0, rest)).
    { intros b' Hb'. cbn [digits]. replace (digit_of b' 48) with (Some 0).
      - by rewrite stops_digits.
      - unfold digit_of. change (digit 48) with (Some 0). cbn beta iota. by rewrite (proj2 (Z.ltb_lt 0 b')) by lia. }
    assert (Hd : detect b (48 :: rest) = (if b =? 0 then 8 else 10, 48 :: rest)).
    { unfold detect. destruct Hb as [-> | ->]; cbn; [|done]. destruct rest as [|x [|h r]]; try done.
      destruct ((x =? 120) || (x =? 88)) eqn:E; [|done]. exfalso. specialize (Hs x _ eq_refl).
      apply orb_true_iff in E as [E%Z.eqb_eq|E%Z.eqb_eq]; by subst. }
    rewrite Hd, Hr by (case_match; lia). by rewrite (proj2 (Nat.ltb_lt _ _)) by (cbn [List.length]; lia).
  - destruct (dec_digits_head 20 n) as (c & s & Hcs & Hc); [lia|].
    pose proof (dec_digits_value 20 n Hn) as Hv. pose proof (dec_digits_all 10 20 n ltac:(lia) ltac:(lia)) as Ha.
    unfold dec. rewrite Hcs in *. cbn [app]. unfold numeral.
    assert (span isspace (c :: s ++ rest) = ([], c :: s ++ rest)) as ->.
    { cbn. unfold isspace. rewrite (proj2 (Z.eqb_neq c 32)), (proj2 (Z.leb_gt c 13)), andb_false_r by lia. done. }
    cbn [snd].
    assert (sign (c :: s ++ rest) = (false, c :: s ++ rest)) as ->.
    { unfold sign. repeat case_match; try done; lia. }
    assert (detect b (c :: s ++ rest) = (10, c :: s ++ rest)) as ->.
    { unfold detect. destruct Hb as [-> | ->]; cbn; [|done]. repeat case_match; try done; lia. }
    change (c :: s ++ rest) with ((c :: s) ++ rest). rewrite digits_app by done. rewrite Hv. cbn [fst].
    rewrite stops_digits by done. rewrite length_app. cbn [List.length].
    by rewrite (proj2 (Nat.ltb_lt _ _)) by lia.
Qed.

Lemma strtoull_dec n rest : in_u 64 n -> stops rest -> strtoull (dec n ++ rest) 0 = (n, Some rest).
Proof.
  intros Hn Hs. unfold in_u in Hn. unfold strtoull. cbn [base_ok Z.eqb orb].
  rewrite numeral_dec by (try done; lia || auto). by rewrite (proj2 (Z.ltb_lt _ _)) by lia.
Qed.

Lemma strtol_dec b n rest :
  b = 0 \/ b = 10 -> 0 <= n < 2 ^ 63 -> stops rest -> strtol (dec n ++ rest) b = (n, Some rest).
Proof.
  intros Hb Hn Hs. unfold strtol. assert (base_ok b = true) as -> by (destruct Hb; by subst).
  rewrite numeral_dec by (try done; lia). by rewrite Z.min_r by lia.
Qed.

Lemma atoi_dec n rest : 0 <= n < 2 ^ 31 -> stops rest -> atoi (dec n ++ rest) = n.
Proof.
  intros Hn Hs. unfold atoi. rewrite strtol_dec by (try done; lia || auto). cbn [fst]. unfold swrap.
  rewrite Z.mod_small; lia.
Qed.

(** No numeral has a character that is not a digit. *)
Lemma dec_digits_chars fuel n c : 0 <= n -> c ∈ dec_digits fuel n -> 48 <= c <= 57.
Proof.
  revert n. induction fuel as [|f IH]; intros n Hn; cbn [dec_digits]; [by intros ?%elem_of_nil|].
  destruct (Z.ltb_spec n 10).
  - intros ->%list_elem_of_singleton. lia.
  - intros [Hc|Hc]%elem_of_app; [apply (IH (n / 10)); [apply Z.div_pos; lia|done]|].
    apply list_elem_of_singleton in Hc as ->. pose proof (Z.mod_pos_bound n 10). lia.
Qed.

Lemma dec_length n : (List.length (dec n) <= 20)%nat.
Proof.
  unfold dec. assert (forall f k, (List.length (dec_digits f k) <= f)%nat) as Hf; [|apply Hf].
  induction f as [|f IH]; intros k; cbn [dec_digits]; [done|]. case_match; cbn [List.length]; [lia|].
  rewrite length_app. specialize (IH (k / 10)). cbn. lia.
Qed.

Lemma dec_nonempty n : dec n <> [].
Proof.
  unfold dec. generalize 19%nat. intros f. cbn [dec_digits]. case_match; [done|].
  by destruct (dec_digits f (n / 10)).
Qed.

Lemma dec_without n c : 0 <= n -> ~ 48 <= c <= 57 -> forallb (fun d => negb (d =? c)) (dec n) = true.
Proof.
  intros Hn Hc. apply forallb_forall. intros d Hd%list_elem_of_In. apply dec_digits_chars in Hd; [|done].
  apply negb_true_iff, Z.eqb_neq. lia.
Qed.

Lemma stops_nil : stops [].
Proof. done. Qed.

Lemma stops_cons c r : digit c = None -> stops (c :: r).
Proof. by intros ? ? ? [= <- _]. Qed.

#[export] Hint Resolve stops_nil : doca.

(** Decides the comparisons of literals. *)
Ltac eval_names :=
  repeat match goal with
  | |- context [strcmp (str ?a) (str ?b)] =>
      let r := eval vm_compute in (strcmp (str a) (str b)) in change (strcmp (str a) (str b)) with r
  | |- context [starts_with (str ?a) (str ?b)] =>
      let r := eval vm_compute in (starts_with (str a) (str b)) in change (starts_with (str a) (str b)) with r
  end; cbn iota.
