(* ===== verification/FlowTypes.v ===== *)
(** * Flow descriptions

    The structures of include/doca_flow.h and doca_flow_net.h that the flow
    parser fills.  A union is its bytes, so that writing one member shows in the
    others; the members the parser never touches are left out (they stay zero
    from the memset).  The bytes of an integer in host order are those of a
    little-endian machine. *)

From S2P Require Import Prelude.
#[local] Open Scope Z_scope.

Definition bytes : Type := list Z.

(** The low [n] bytes of an integer in memory. *)
Fixpoint le_bytes (n : nat) (v : Z) : bytes :=
  match n with
  | O => []
  | S n' => v mod 256 :: le_bytes n' (v / 256)
  end.

Fixpoint le_value (bs : bytes) : Z :=
  match bs with [] => 0 | b :: bs' => b + 256 * le_value bs' end.

(** Writing at an offset of a union. *)
Definition splice (off : nat) (bs l : bytes) : bytes := take off l ++ bs ++ drop (off + length bs) l.

Definition zeros (n : nat) : bytes := replicate n 0.

(** ** Enumerations *)

Inductive doca_flow_l3_type := L3_NONE | L3_IP4 | L3_IP6.
Inductive doca_flow_l4_type_ext := L4_NONE | L4_TCP | L4_UDP | L4_TRANSPORT.
Inductive doca_flow_tun_type := FTUN_NONE | FTUN_VXLAN | FTUN_GTPU | FTUN_GRE.
Inductive doca_flow_fwd_type := FWD_NONE | FWD_RSS | FWD_PORT | FWD_PIPE | FWD_DROP.
Inductive doca_flow_pipe_type := PIPE_BASIC | PIPE_CONTROL.
Inductive doca_flow_resource_type := RESOURCE_NONE | RESOURCE_SHARED | RESOURCE_NON_SHARED.

#[global] Instance l3_type_eq : EqDecision doca_flow_l3_type.
Proof. solve_decision. Defined.
#[global] Instance l4_type_eq : EqDecision doca_flow_l4_type_ext.
Proof. solve_decision. Defined.
#[global] Instance pipe_type_eq : EqDecision doca_flow_pipe_type.
Proof. solve_decision. Defined.

(** enum doca_flow_match_tcp_flags *)
Definition TCP_FLAG_FIN : Z := 1.
Definition TCP_FLAG_SYN : Z := 2.
Definition TCP_FLAG_RST : Z := 4.
Definition TCP_FLAG_PSH : Z := 8.
Definition TCP_FLAG_ACK : Z := 16.
Definition TCP_FLAG_URG : Z := 32.
Definition TCP_FLAG_ECE : Z := 64.
Definition TCP_FLAG_CWR : Z := 128.

(** ** Headers *)

(** [l3]: ip4 has the source at 0, the destination at 4, the time to live at 13;
    ip6 has the source at 0 and the destination at 16.  [l4]: tcp and udp have
    the source port at 0, the destination port at 2, tcp the flags at 5. *)
Record doca_flow_header_format := Header {
  src_mac : bytes; dst_mac : bytes; eth_type : Z; vlan0_tci : Z; vlan1_tci : Z;
  l3_type : doca_flow_l3_type; l3 : bytes; l4_type_ext : doca_flow_l4_type_ext; l4 : bytes
}.

Definition header0 : doca_flow_header_format :=
  Header (zeros 6) (zeros 6) 0 0 0 L3_NONE (zeros 40) L4_NONE (zeros 6).

Definition set_src_mac (x : bytes) (h : doca_flow_header_format) : doca_flow_header_format :=
  Header x (dst_mac h) (eth_type h) (vlan0_tci h) (vlan1_tci h) (l3_type h) (l3 h) (l4_type_ext h) (l4 h).
Definition set_dst_mac (x : bytes) (h : doca_flow_header_format) : doca_flow_header_format :=
  Header (src_mac h) x (eth_type h) (vlan0_tci h) (vlan1_tci h) (l3_type h) (l3 h) (l4_type_ext h) (l4 h).
Definition set_eth_type (x : Z) (h : doca_flow_header_format) : doca_flow_header_format :=
  Header (src_mac h) (dst_mac h) x (vlan0_tci h) (vlan1_tci h) (l3_type h) (l3 h) (l4_type_ext h) (l4 h).
Definition set_vlan0 (x : Z) (h : doca_flow_header_format) : doca_flow_header_format :=
  Header (src_mac h) (dst_mac h) (eth_type h) x (vlan1_tci h) (l3_type h) (l3 h) (l4_type_ext h) (l4 h).
Definition set_vlan1 (x : Z) (h : doca_flow_header_format) : doca_flow_header_format :=
  Header (src_mac h) (dst_mac h) (eth_type h) (vlan0_tci h) x (l3_type h) (l3 h) (l4_type_ext h) (l4 h).
Definition set_l3_type (x : doca_flow_l3_type) (h : doca_flow_header_format) : doca_flow_header_format :=
  Header (src_mac h) (dst_mac h) (eth_type h) (vlan0_tci h) (vlan1_tci h) x (l3 h) (l4_type_ext h) (l4 h).
Definition set_l3 (off : nat) (x : bytes) (h : doca_flow_header_format) : doca_flow_header_format :=
  Header (src_mac h) (dst_mac h) (eth_type h) (vlan0_tci h) (vlan1_tci h) (l3_type h) (splice off x (l3 h))
    (l4_type_ext h) (l4 h).
Definition set_l4_type (x : doca_flow_l4_type_ext) (h : doca_flow_header_format) : doca_flow_header_format :=
  Header (src_mac h) (dst_mac h) (eth_type h) (vlan0_tci h) (vlan1_tci h) (l3_type h) (l3 h) x (l4 h).
Definition set_l4 (off : nat) (x : bytes) (h : doca_flow_header_format) : doca_flow_header_format :=
  Header (src_mac h) (dst_mac h) (eth_type h) (vlan0_tci h) (vlan1_tci h) (l3_type h) (l3 h) (l4_type_ext h)
    (splice off x (l4 h)).

(** Reading the unions back. *)
Definition ip4_src (h : doca_flow_header_format) : bytes := take 4 (l3 h).
Definition ip4_dst (h : doca_flow_header_format) : bytes := take 4 (drop 4 (l3 h)).
Definition l4_src_port (h : doca_flow_header_format) : bytes := take 2 (l4 h).
Definition l4_dst_port (h : doca_flow_header_format) : bytes := take 2 (drop 2 (l4 h)).

(** [tun_u]: vxlan_tun_id and gtp_teid are at 0, gre_key is at 4. *)
Record doca_flow_tun := Tun { tun_ty : doca_flow_tun_type; tun_u : bytes }.
Definition tun0 : doca_flow_tun := Tun FTUN_NONE (zeros 8).
Definition set_tun_type (x : doca_flow_tun_type) (t : doca_flow_tun) : doca_flow_tun := Tun x (tun_u t).
Definition set_tun_u (off : nat) (x : bytes) (t : doca_flow_tun) : doca_flow_tun :=
  Tun (tun_ty t) (splice off x (tun_u t)).

(** ** Structures *)

Record doca_flow_match := Match {
  m_flags : Z; port_meta : Z;
  outer : doca_flow_header_format; tun : doca_flow_tun; inner : doca_flow_header_format
}.
Definition match0 : doca_flow_match := Match 0 0 header0 tun0 header0.
Definition set_outer (h : doca_flow_header_format) (m : doca_flow_match) : doca_flow_match :=
  Match (m_flags m) (port_meta m) h (tun m) (inner m).
Definition set_inner (h : doca_flow_header_format) (m : doca_flow_match) : doca_flow_match :=
  Match (m_flags m) (port_meta m) (outer m) (tun m) h.
Definition set_tun (t : doca_flow_tun) (m : doca_flow_match) : doca_flow_match :=
  Match (m_flags m) (port_meta m) (outer m) t (inner m).

Record doca_flow_actions := Actions {
  decap : bool; a_outer : doca_flow_header_format; has_encap : bool;
  encap_outer : doca_flow_header_format; encap_tun : doca_flow_tun
}.
Definition actions0 : doca_flow_actions := Actions false header0 false header0 tun0.
Definition set_a_outer (h : doca_flow_header_format) (a : doca_flow_actions) : doca_flow_actions :=
  Actions (decap a) h (has_encap a) (encap_outer a) (encap_tun a).
Definition set_encap_outer (h : doca_flow_header_format) (a : doca_flow_actions) : doca_flow_actions :=
  Actions (decap a) (a_outer a) (has_encap a) h (encap_tun a).
Definition set_encap_tun (t : doca_flow_tun) (a : doca_flow_actions) : doca_flow_actions :=
  Actions (decap a) (a_outer a) (has_encap a) (encap_outer a) t.

Record doca_flow_monitor := Monitor {
  meter_type : doca_flow_resource_type; cir : Z; cbs : Z;
  counter_type : doca_flow_resource_type; aging_enabled : bool; aging_sec : Z
}.
Definition monitor0 : doca_flow_monitor := Monitor RESOURCE_NONE 0 0 RESOURCE_NONE false 0.

(** [port_id] of the union is the low half of [rss_outer_flags]; [rss_queues] is
    a pointer into the heap of queue arrays. *)
Record doca_flow_fwd := Fwd {
  fwd_type : doca_flow_fwd_type; rss_outer_flags : Z; rss_inner_flags : Z;
  rss_queues_ptr : option nat; num_of_queues : Z
}.
Definition fwd0 : doca_flow_fwd := Fwd FWD_NONE 0 0 None 0.
Definition fwd_port_id (f : doca_flow_fwd) : Z := rss_outer_flags f mod 2 ^ 16.
Definition set_port_id (p : Z) (f : doca_flow_fwd) : doca_flow_fwd :=
  Fwd (fwd_type f) (rss_outer_flags f - fwd_port_id f + u16 p) (rss_inner_flags f) (rss_queues_ptr f)
    (num_of_queues f).

(** What the parser sets of struct doca_flow_pipe_cfg; pointers to the parser's
    own structures are whether they are set. *)
Record doca_flow_pipe_cfg := PipeCfg {
  name : option (list Z); pipe_type : doca_flow_pipe_type; is_root : bool;
  nb_actions : Z; cfg_match : bool; cfg_match_mask : bool; cfg_actions : bool; cfg_monitor : bool
}.
Definition pipe_cfg0 : doca_flow_pipe_cfg := PipeCfg None PIPE_BASIC false 0 false false false false.

(** ** Lemmas *)

Lemma length_le_bytes n v : length (le_bytes n v) = n.
Proof. revert v. induction n as [|n IH]; intros v; cbn; [done|]. by rewrite IH. Qed.

Lemma le_value_bytes n v : le_value (le_bytes n v) = v mod 2 ^ (8 * Z.of_nat n).
Proof.
  revert v. induction n as [|n IH]; intros v; cbn [le_bytes le_value].
  - by rewrite Z.mod_1_r.
  - rewrite IH. replace (8 * Z.of_nat (S n)) with (8 + 8 * Z.of_nat n) by lia.
    rewrite Z.pow_add_r by lia. change (2 ^ 8) with 256. rewrite Z.rem_mul_r by lia. lia.
Qed.

Lemma length_splice off bs l : (off + length bs <= length l)%nat -> length (splice off bs l) = length l.
Proof. intros. unfold splice. rewrite !length_app, length_take, length_drop. lia. Qed.

(** Reading what was written, and bytes before and after it. *)
Lemma splice_read off bs l :
  (off + length bs <= length l)%nat -> take (length bs) (drop off (splice off bs l)) = bs.
Proof.
  intros. unfold splice. rewrite drop_app_length' by (rewrite length_take; lia). by rewrite take_app_length.
Qed.

Lemma splice_before off bs l n : (n <= off)%nat -> (off <= length l)%nat -> take n (splice off bs l) = take n l.
Proof.
  intros. unfold splice. rewrite take_app_le by (rewrite length_take; lia).
  rewrite take_take. by rewrite Nat.min_l.
Qed.

Lemma splice_after off bs l n :
  (off + length bs <= n)%nat -> (n <= length l)%nat -> drop n (splice off bs l) = drop n l.
Proof.
  intros. unfold splice. rewrite app_assoc, drop_app_ge by (rewrite length_app, length_take; lia).
  rewrite length_app, length_take, Nat.min_l by lia. rewrite drop_drop. f_equal. lia.
Qed.
