(* ===== verification/InetPton.v ===== *)
(** * Addresses as text: inet_pton of the C library for IPv6

    [inet_pton6] follows the loop of the library: groups of at most four
    hexadecimal digits between colons, one run of zeros written as two colons, an
    IPv4 address in the last four bytes.  What it accepts has 16 bytes; the text
    of eight groups gives these groups back. *)

From S2P Require Import Prelude CString FlowTypes.
#[local] Open Scope Z_scope.

(** The octets that ended with a dot, and the one that is being read. *)
Fixpoint inet_pton4_loop (s : cstring) (octets : bytes) (cur : option Z) : option bytes :=
  match s with
  | [] =>
      match cur with
      | Some v => if (length octets =? 3)%nat then Some (octets ++ [v]) else None
      | None => None
      end
  | ch :: s' =>
      match digit_of 10 ch with
      | Some d =>
          if bool_decide (cur = Some 0) then None
          else
            let v := default 0 cur * 10 + d in
            if (255 <? v) || (3 <? length octets)%nat then None else inet_pton4_loop s' octets (Some v)
      | None =>
          match cur with
          | Some v => if (ch =? 46) && (length octets <? 3)%nat then inet_pton4_loop s' (octets ++ [v]) None else None
          | None => None
          end
      end
  end.
Definition inet_pton4 (s : cstring) : option bytes := inet_pton4_loop s [] None.

(** A group of 16 bits in network byte order. *)
Definition group (v : Z) : bytes := [v / 256; v mod 256].

(** At the end of the text: the last group, and the zeros of the two colons. *)
Definition inet_pton6_end (xdigits : nat) (val : Z) (out : bytes) (colonp : option nat) : option bytes :=
  let store := if (0 <? xdigits)%nat then (if (length out + 2 <=? 16)%nat then Some (out ++ group val) else None) else Some out in
  match store with
  | None => None
  | Some out =>
      match colonp with
      | Some p => if (length out =? 16)%nat then None else Some (take p out ++ zeros (16 - length out) ++ drop p out)
      | None => if (length out =? 16)%nat then Some out else None
      end
  end.

(** [curtok] is the text from the start of the group. *)
Fixpoint inet_pton6_loop (s curtok : cstring) (xdigits : nat) (val : Z) (out : bytes) (colonp : option nat) : option bytes :=
  match s with
  | [] => inet_pton6_end xdigits val out colonp
  | ch :: s' =>
      match digit_of 16 ch with
      | Some d =>
          if (xdigits =? 4)%nat then None else inet_pton6_loop s' curtok (S xdigits) (val * 16 + d) out colonp
      | None =>
          if ch =? 58 then
            if (xdigits =? 0)%nat then
              match colonp with
              | Some _ => None
              | None => inet_pton6_loop s' s' 0 val out (Some (length out))
              end
            else if bool_decide (s' = []) then None
            else if (length out + 2 <=? 16)%nat then inet_pton6_loop s' s' 0 0 (out ++ group val) colonp
            else None
          else if (ch =? 46) && (length out + 4 <=? 16)%nat then
            match inet_pton4 curtok with
            | Some ip4 => inet_pton6_end 0 val (out ++ ip4) colonp
            | None => None
            end
          else None
      end
  end.

(** A single colon at the start is refused. *)
Definition inet_pton6 (s : cstring) : option bytes :=
  match s with
  | [] => None
  | 58 :: s' => match s' with 58 :: _ => inet_pton6_loop s' s' 0 0 [] None | _ => None end
  | _ => inet_pton6_loop s s 0 0 [] None
  end.

Example pton6_full : inet_pton6 (str "2001:db8:0:0:1:0:0:1") = Some [32; 1; 13; 184; 0; 0; 0; 0; 0; 1; 0; 0; 0; 0; 0; 1].
Proof. reflexivity. Qed.
Example pton6_short : inet_pton6 (str "fe80::A:1") = Some [254; 128; 0; 0; 0; 0; 0; 0; 0; 0; 0; 0; 0; 10; 0; 1].
Proof. reflexivity. Qed.
Example pton6_any : inet_pton6 (str "::") = Some (zeros 16).
Proof. reflexivity. Qed.
Example pton6_mapped : inet_pton6 (str "::ffff:192.168.0.1") = Some (zeros 10 ++ [255; 255; 192; 168; 0; 1]).
Proof. reflexivity. Qed.
Example pton6_refused :
  map inet_pton6
    [[]; str ":1"; str "1:2:3:4:5:6:7"; str "1:2:3:4:5:6:7:8:9"; str "1::2::3"; str "12345::"; str "::1.2.3";
     str "::1.2.3.256"; str "1:"; str "g::"] = replicate 10 None.
Proof. reflexivity. Qed.

(** ** An address has 16 bytes *)

Lemma pton4_length s octets cur a : inet_pton4_loop s octets cur = Some a -> length a = 4%nat.
Proof.
  revert octets cur. induction s as [|ch s IH]; intros octets cur; cbn [inet_pton4_loop].
  - destruct cur; [|done]. destruct (Nat.eqb_spec (length octets) 3) as [E|]; [|done]. intros [= <-].
    rewrite length_app, E. done.
  - repeat case_match; try done; apply IH.
Qed.

(** What the loop keeps: at most 16 bytes, and the two colons among them. *)
Definition pton6_ok (out : bytes) (colonp : option nat) : Prop :=
  (length out <= 16)%nat /\ forall p, colonp = Some p -> (p <= length out)%nat.

Lemma pton6_end_length x v out colonp a : pton6_ok out colonp -> inet_pton6_end x v out colonp = Some a -> length a = 16%nat.
Proof.
  intros [Hl Hp]. unfold inet_pton6_end.
  set (store := if (0 <? x)%nat then _ else _). destruct store as [out'|] eqn:E; [|done].
  assert (length out <= length out' <= 16)%nat.
  { unfold store in E. repeat case_bool; simplify_eq; [|lia]. rewrite length_app. apply Nat.leb_le in Heqb0. cbn in *. lia. }
  destruct colonp as [p|]; destruct (Nat.eqb_spec (length out') 16); intros [= <-]; [|lia]. specialize (Hp p eq_refl).
  rewrite !length_app, length_take, length_drop. unfold zeros. rewrite length_replicate. lia.
Qed.

Lemma pton6_loop_length s curtok x v out colonp a :
  pton6_ok out colonp -> inet_pton6_loop s curtok x v out colonp = Some a -> length a = 16%nat.
Proof.
  revert curtok x v out colonp. induction s as [|ch s IH]; intros curtok x v out colonp Hok; cbn [inet_pton6_loop].
  { by apply pton6_end_length. }
  pose proof Hok as [Hl Hp]. destruct (digit_of 16 ch); [case_bool; [done|]; by apply IH|]. case_bool.
  - case_bool.
    + destruct colonp; [done|]. apply IH. split; [done|]. by intros p [= <-].
    + case_bool; [done|]. destruct (Nat.leb_spec (length out + 2) 16); [|done]. apply IH. split.
      * rewrite length_app. cbn. lia.
      * intros p Hc. rewrite length_app. specialize (Hp p Hc). lia.
  - destruct (Nat.leb_spec (length out + 4) 16); rewrite ?andb_false_r, ?andb_true_r; [|done]. case_bool; [|done].
    destruct (inet_pton4 curtok) as [ip4|] eqn:E; [|done]. apply pton4_length in E.
    apply pton6_end_length. split.
    + rewrite length_app. lia.
    + intros p Hc. rewrite length_app. specialize (Hp p Hc). lia.
Qed.

Lemma inet_pton6_length s a : inet_pton6 s = Some a -> length a = 16%nat.
Proof.
  assert (Hok : pton6_ok [] None) by (split; [cbn; lia|done]).
  unfold inet_pton6. repeat case_match; try done; by apply pton6_loop_length.
Qed.

(** ** Eight groups, written and read *)

Definition hex_char (v : Z) : Z := if v <? 10 then 48 + v else 87 + v.

(** The lower-case digits of [v], most significant first, at most [fuel]. *)
Fixpoint hex_digits (fuel : nat) (v : Z) : cstring :=
  match fuel with
  | O => []
  | S f => if v <? 16 then [hex_char v] else hex_digits f (v / 16) ++ [hex_char (v mod 16)]
  end.
Definition hex (v : Z) : cstring := hex_digits 4 v.

Fixpoint groups_text (gs : list Z) : cstring :=
  match gs with
  | [] => []
  | g :: gs' => match gs' with [] => hex g | _ => hex g ++ 58 :: groups_text gs' end
  end.
Definition groups_bytes (gs : list Z) : bytes := concat (map group gs).

(** An address: eight groups of 16 bits. *)
Definition ip6_ok (gs : list Z) : Prop := length gs = 8%nat /\ Forall (in_u 16) gs.

Lemma digit_hex_char v : 0 <= v < 16 -> digit_of 16 (hex_char v) = Some v.
Proof.
  intros Hv. assert (H : forallb (fun v => bool_decide (digit_of 16 (hex_char v) = Some v)) (seqZ 0 16) = true) by reflexivity.
  rewrite forallb_forall in H. apply (bool_decide_eq_true_1 _), H, list_elem_of_In, elem_of_seqZ. lia.
Qed.

Lemma hex_head fuel v : (0 < fuel)%nat -> 0 <= v -> exists ch s, hex_digits fuel v = ch :: s /\ ch <> 58.
Proof.
  intros Hf. revert v. induction fuel as [|f IH]; intros v Hv; [lia|]. cbn [hex_digits].
  assert (forall d, 0 <= d < 16 -> hex_char d <> 58) by (unfold hex_char; intros d Hd; case_bool; lia).
  destruct (Z.ltb_spec v 16); [by exists (hex_char v), []; auto|]. destruct f as [|f].
  - exists (hex_char (v mod 16)), []. split; [done|]. auto using Z.mod_pos_bound with lia.
  - destruct (IH ltac:(lia) (v / 16)) as (ch & s & -> & Hch); [apply Z.div_pos; lia|]. by eexists _, _.
Qed.

(** Digits are read one after the other; the first [x] of the group are known. *)
Lemma hex_digits_run fuel w rest curtok x out c :
  0 <= w < 16 ^ Z.of_nat fuel -> (x + fuel <= 4)%nat -> (0 < fuel)%nat ->
  exists n, (0 < n <= fuel)%nat /\ forall v,
    inet_pton6_loop (hex_digits fuel w ++ rest) curtok x v out c = inet_pton6_loop rest curtok (x + n) (v * 16 ^ Z.of_nat n + w) out c.
Proof.
  revert w rest x. induction fuel as [|f IH]; intros w rest x Hw Hx Hf; [lia|]. cbn [hex_digits].
  destruct (Z.ltb_spec w 16) as [Hs|Hs].
  - exists 1%nat. split; [lia|]. intros v. cbn [app inet_pton6_loop]. rewrite digit_hex_char by lia.
    rewrite (proj2 (Nat.eqb_neq x 4)) by lia. f_equal; lia.
  - rewrite Nat2Z.inj_succ, Z.pow_succ_r in Hw by lia.
    assert (Hd : 0 <= w / 16 < 16 ^ Z.of_nat f).
    { split; [apply Z.div_pos; lia|]. apply Z.div_lt_upper_bound; lia. }
    destruct f as [|f].
    { change (16 ^ Z.of_nat 0) with 1 in Hw. lia. }
    destruct (IH (w / 16) (hex_char (w mod 16) :: rest) x Hd ltac:(lia) ltac:(lia)) as (n & Hn & E).
    exists (S n). split; [lia|]. intros v. rewrite <- app_assoc. cbn [app]. rewrite E. cbn [inet_pton6_loop].
    rewrite digit_hex_char by (apply Z.mod_pos_bound; lia). rewrite (proj2 (Nat.eqb_neq (x + n) 4)) by lia.
    rewrite Nat2Z.inj_succ, Z.pow_succ_r by lia. f_equal; [lia|].
    rewrite (Z.div_mod w 16) at 3 by lia. lia.
Qed.

Lemma group_run g rest curtok out c :
  in_u 16 g ->
  exists n, (0 < n <= 4)%nat /\ inet_pton6_loop (hex g ++ rest) curtok 0 0 out c = inet_pton6_loop rest curtok n g out c.
Proof.
  intros Hg. destruct (hex_digits_run 4 g rest curtok 0 out c) as (n & Hn & E); [done|lia..|].
  exists n. split; [lia|]. unfold hex. by rewrite E.
Qed.

Lemma groups_run gs curtok out :
  gs <> [] -> Forall (in_u 16) gs -> (length out + 2 * length gs = 16)%nat ->
  inet_pton6_loop (groups_text gs) curtok 0 0 out None = Some (out ++ groups_bytes gs).
Proof.
  revert curtok out. induction gs as [|g gs IH]; intros curtok out Hne Hgs Hl; [done|]. clear Hne.
  apply Forall_cons in Hgs as [Hg Hgs]. cbn [length] in Hl. destruct gs as [|g' gs].
  - cbn [groups_text]. rewrite <- (app_nil_r (hex g)). destruct (group_run g [] curtok out None Hg) as (n & Hn & ->).
    cbn [inet_pton6_loop]. unfold inet_pton6_end. rewrite (proj2 (Nat.ltb_lt 0 n)) by lia. cbn [length] in Hl.
    rewrite (proj2 (Nat.leb_le _ 16)) by lia. rewrite (proj2 (Nat.eqb_eq _ 16)) by (rewrite length_app; cbn; lia). done.
  - change (groups_text (g :: g' :: gs)) with (hex g ++ 58 :: groups_text (g' :: gs)).
    destruct (group_run g (58 :: groups_text (g' :: gs)) curtok out None Hg) as (n & Hn & ->).
    cbn [inet_pton6_loop]. change (digit_of 16 58) with (@None Z). change (58 =? 58) with true. cbn beta iota.
    rewrite (proj2 (Nat.eqb_neq n 0)) by lia. cbn [length] in Hl. rewrite (proj2 (Nat.leb_le _ 16)) by lia.
    rewrite bool_decide_eq_false_2.
    2:{ cbn [groups_text]. apply Forall_cons in Hgs as [Hg' _].
      destruct (hex_head 4 g') as (ch & s & Eh & _); [lia|apply Hg'|]. unfold hex. rewrite Eh. by destruct gs. }
    rewrite IH by (try done; rewrite length_app; cbn [length group]; lia).
    unfold groups_bytes. cbn [map concat]. by rewrite <- app_assoc.
Qed.

(** Reading the text of an address. *)
Lemma inet_pton6_groups gs : ip6_ok gs -> inet_pton6 (groups_text gs) = Some (groups_bytes gs).
Proof.
  intros [Hl Hgs]. assert (gs <> []) as Hne by (by intros ->).
  pose proof (groups_run gs (groups_text gs) [] Hne Hgs) as E. rewrite Hl in E. specialize (E eq_refl).
  transitivity (inet_pton6_loop (groups_text gs) (groups_text gs) 0 0 [] None); [|apply E].
  clear E. unfold inet_pton6. destruct (groups_text gs) as [|ch s] eqn:Et; [done|].
  destruct gs as [|g gs]; [done|]. apply Forall_cons in Hgs as [Hg _].
  destruct (hex_head 4 g) as (ch' & s' & Eh & Hch); [lia|apply Hg|].
  assert (ch = ch') as -> by (cbn [groups_text] in Et; unfold hex in Et; rewrite Eh in Et; destruct gs; by injection Et).
  by repeat case_match.
Qed.
