(* ===== verification/SimpleFwd.v ===== *)
(** * The simple forward VNF: packets, flows and hardware entries

    Models the packet path of simple_fwd_vnf/src/simple_fwd.c and of
    simple_fwd_vnf_core.c, on top of the parser (SimpleFwdPkt) and the flow table
    (SimpleFwdFt).  The hardware is the map [a_hw] of the entries it was given;
    what DOCA Flow answers and which completions it reports are the environment
    [env].  [None] is undefined behaviour: a status structure, a flow entry or a
    hardware entry used after it was released, an index outside an array, a
    field read outside the packet's buffer.  The theorems are in
    SimpleFwdTheorems.v. *)

From stdpp Require Import gmap.
From S2P Require Import Prelude SimpleFwdPkt SimpleFwdFt.
From S2P Require FlowTypes.
#[local] Open Scope Z_scope.

Module F := FlowTypes.

(** ** Data *)

(** [struct simple_fwd_pipe_entry], the user data of a flow entry. *)
Record simple_fwd_pipe_entry := PipeEntry {
  is_hw : bool; total_pkts : Z; total_bytes : Z; pipe_queue : Z; hw_entry : option nat
}.
Definition pipe_entry0 : simple_fwd_pipe_entry := PipeEntry false 0 0 0 None.

(** [struct entries_status] *)
Record entries_status := Status { failure : bool; nb_processed : Z; ft_ptr : option nat }.
Definition status0 : entries_status := Status false 0 None.

(** A pipe is named by the tunnel and the port it was created for. *)
Definition pipe : Type := tun_type * Z.

(** What the hardware was given: the arguments of doca_flow_pipe_add_entry.
    [h_removable]: what doca_flow_pipe_rm_entry will answer for the entry;
    [h_gone]: its removal was requested, and the hardware removes it if it
    accepted that. *)
Record hw_flow := HwFlow {
  h_queue : Z; h_pipe : pipe; h_match : F.doca_flow_match; h_meta : Z;
  h_monitor : F.doca_flow_monitor; h_status : nat; h_removable : bool; h_gone : bool
}.

(** [struct simple_fwd_app] with the structures it allocates. *)
Record app := App {
  a_ft : ft;
  a_data : gmap nat simple_fwd_pipe_entry;
  a_status : gmap nat entries_status;
  a_hw : gmap nat hw_flow;
  a_next : nat;
  nb_queues : Z
}.

Definition with_ft (t : ft) (a : app) : app := App t (a_data a) (a_status a) (a_hw a) (a_next a) (nb_queues a).
Definition with_data (d : gmap nat simple_fwd_pipe_entry) (a : app) : app :=
  App (a_ft a) d (a_status a) (a_hw a) (a_next a) (nb_queues a).
Definition with_status (s : gmap nat entries_status) (a : app) : app :=
  App (a_ft a) (a_data a) s (a_hw a) (a_next a) (nb_queues a).
Definition with_hw (h : gmap nat hw_flow) (a : app) : app :=
  App (a_ft a) (a_data a) (a_status a) h (a_next a) (nb_queues a).
Definition with_next (n : nat) (a : app) : app :=
  App (a_ft a) (a_data a) (a_status a) (a_hw a) n (nb_queues a).

Inductive entry_op := OP_ADD | OP_DEL | OP_UPD | OP_AGED.

(** A call of the entry processing callback: the user context, whether the
    status is DOCA_FLOW_ENTRY_STATUS_SUCCESS, the operation. *)
Record completion := Completion { c_ctx : option nat; c_ok : bool; c_op : entry_op }.

(** The environment of handling one packet. *)
Record env := Env {
  e_now : Z; e_hz : Z; e_now2 : Z;     (* time stamp counter and its frequency *)
  e_oom_ft : bool; e_oom_status : bool; (* an allocation fails *)
  e_rand : Z;                          (* rte_rand *)
  e_add : bool;                        (* doca_flow_pipe_add_entry accepts *)
  e_cbs : app -> list completion;      (* what doca_flow_entries_process reports *)
  e_process : bool;                    (* ... and that it succeeds *)
  e_rm : bool                          (* doca_flow_pipe_rm_entry will accept the removal of the new entry *)
}.

(** ** Entries of the hardware *)

Definition SIMPLE_FWD_PORTS : Z := 2.

Definition simple_fwd_select_pipe (p : packet) : option (option pipe) :=
  match ptun_type (p_info p) with
  | TUN_NONE => Some None
  | t => if (0 <=? p_port p) && (p_port p <? SIMPLE_FWD_PORTS) then Some (Some (t, p_port p)) else None
  end.

Definition flow_tun_type (t : tun_type) : F.doca_flow_tun_type :=
  match t with
  | TUN_NONE => F.FTUN_NONE | TUN_VXLAN => F.FTUN_VXLAN | TUN_GTPU => F.FTUN_GTPU | TUN_GRE => F.FTUN_GRE
  end.

Definition simple_fwd_match_set_tun (i : pkt_info) (m : F.doca_flow_match) : F.doca_flow_match :=
  match ptun_type i with
  | TUN_NONE => m
  | t =>
      let u := F.set_tun_type (flow_tun_type t) (F.tun m) in
      F.set_tun match t with
                | TUN_VXLAN => F.set_tun_u 0 (be_bytes 4 (vni (tun i))) u
                | TUN_GRE => F.set_tun_u 4 (be_bytes 4 (gre_key (tun i))) u
                | _ => F.set_tun_u 0 (be_bytes 4 (teid (tun i))) u
                end m
  end.

Definition simple_fwd_l3_type_transfer (pkt_l4_type : Z) : F.doca_flow_l4_type_ext :=
  if pkt_l4_type =? DOCA_PROTO_TCP then F.L4_TCP
  else if pkt_l4_type =? DOCA_PROTO_UDP then F.L4_UDP
  else F.L4_NONE.

(** SET_L4_PORT: tcp and udp keep their ports at the same places of the union. *)
Definition set_l4_port (off : nat) (v : Z) (h : F.doca_flow_header_format) : F.doca_flow_header_format :=
  match F.l4_type_ext h with
  | F.L4_NONE => h
  | _ => F.set_l4 off (be_bytes 2 v) h
  end.

Section Match.
Context (D : dpdk).

(** A layer of the match: addresses, then the protocol, then its ports. *)
Definition match_layer (dst src proto sport dport : Z) (h : F.doca_flow_header_format)
    : F.doca_flow_header_format :=
  let h := F.set_l3_type F.L3_IP4 h in
  let h := F.set_l3 4 (be_bytes 4 dst) h in
  let h := F.set_l3 0 (be_bytes 4 src) h in
  let h := F.set_l4_type (simple_fwd_l3_type_transfer proto) h in
  let h := set_l4_port 0 sport h in
  set_l4_port 2 dport h.

Definition simple_fwd_build_entry_match (p : packet) : option F.doca_flow_match :=
  let b := p_buf p in
  let i := p_info p in
  dmac ← simple_fwd_pinfo_outer_mac_dst D b i;
  smac ← simple_fwd_pinfo_outer_mac_src D b i;
  dst ← simple_fwd_pinfo_outer_ipv4_dst D b i;
  src ← simple_fwd_pinfo_outer_ipv4_src D b i;
  sport ← simple_fwd_pinfo_outer_src_port D b i;
  dport ← simple_fwd_pinfo_outer_dst_port D b i;
  let o := F.set_src_mac smac (F.set_dst_mac dmac F.header0) in
  let m := F.set_outer (match_layer dst src (l4_type (outer i)) sport dport o) F.match0 in
  match ptun_type i with
  | TUN_NONE => Some m
  | _ =>
      let m := simple_fwd_match_set_tun i m in
      dst ← simple_fwd_pinfo_inner_ipv4_dst D b i;
      src ← simple_fwd_pinfo_inner_ipv4_src D b i;
      sport ← simple_fwd_pinfo_inner_src_port D b i;
      dport ← simple_fwd_pinfo_inner_dst_port D b i;
      Some (F.set_inner (match_layer dst src (l4_type (inner i)) sport dport (F.inner m)) m)
  end.

Definition simple_fwd_build_entry_monitor (rand : Z) : F.doca_flow_monitor :=
  F.Monitor F.RESOURCE_NONE 0 0 F.RESOURCE_NON_SHARED true (u32 (u32 rand mod 55 + 5)).

(** ** Removal and completions *)

(** doca_flow_pipe_rm_entry, and whether it succeeds: the entry must be one whose
    removal was not requested before.  When it fails the hardware keeps the
    entry; no caller looks at the result. *)
Definition rm_entry (h : nat) (a : app) : option (bool * app) :=
  f ← a_hw a !! h;
  if h_gone f then None
  else Some (h_removable f,
             with_hw (<[h := HwFlow (h_queue f) (h_pipe f) (h_match f) (h_meta f) (h_monitor f) (h_status f)
                               (h_removable f) true]> (a_hw a)) a).

(** The callback, then the release of the entry the data is part of. *)
Definition simple_fwd_aged_flow_cb (x : nat) (a : app) : option app :=
  d ← a_data a !! x;
  if is_hw d then
    h ← hw_entry d;
    '(_, a) ← rm_entry h a;
    Some (with_data (delete x (a_data a)) a)
  else Some (with_data (delete x (a_data a)) a).

(** The table has become [t], which calls the callback for each entry it
    removed. *)
Definition run_aged (t : ft) (a : app) : option app :=
  let removed := take (length (aged t) - length (aged (a_ft a))) (aged t) in
  foldl (fun oa x => a ← oa; simple_fwd_aged_flow_cb x a) (Some (with_ft t a)) (rev removed).

Definition find_live (t : ft) (x : nat) : option ft_entry :=
  List.find (fun e => (eid e =? x)%nat) (live t).

(** [simple_fwd_ft_destroy_entry] of the entry numbered [x]. *)
Definition destroy_flow (x : nat) (a : app) : option app :=
  e ← find_live (a_ft a) x;
  t ← simple_fwd_ft_destroy_entry (a_ft a) e;
  run_aged t a.

Definition simple_fwd_check_for_valid_entry (c : completion) (a : app) : option app :=
  match c_ctx c with
  | None => Some a
  | Some s =>
      st ← a_status a !! s;
      let st := Status (failure st || negb (c_ok c)) (nb_processed st) (ft_ptr st) in
      let a := with_status (<[s := st]> (a_status a)) a in
      match c_op c with
      | OP_AGED => x ← ft_ptr st; destroy_flow x a
      | OP_ADD =>
          let st := Status (failure st) (swrap 32 (nb_processed st + 1)) (ft_ptr st) in
          Some (with_status (<[s := st]> (a_status a)) a)
      | OP_DEL => Some (with_status (delete s (a_status a)) a)
      | OP_UPD => Some a
      end
  end.

(** The hardware reports a completion; after that of a removal it has forgotten
    the entry. *)
Definition deliver (c : completion) (a : app) : option app :=
  a ← simple_fwd_check_for_valid_entry c a;
  match c_op c, c_ctx c with
  | OP_DEL, Some s => Some (with_hw (filter (fun '(_, f) => h_status f <> s) (a_hw a)) a)
  | _, _ => Some a
  end.

Fixpoint process_completions (cs : list completion) (a : app) : option app :=
  match cs with
  | [] => Some a
  | c :: cs' => a ← deliver c a; process_completions cs' a
  end.

(** ** Packets *)

(** The new entry and its aging time; [None] inside for a NULL entry. *)
Definition simple_fwd_pipe_add_entry (E : env) (queue : Z) (p : packet) (user_ctx : nat) (a : app)
    : option (option (nat * Z) * app) :=
  let s := a_next a in
  pp ← simple_fwd_select_pipe p;
  match pp with
  | None => Some (None, a)
  | Some pp =>
      if e_oom_status E then None
      else
        m ← simple_fwd_build_entry_match p;
        let mon := simple_fwd_build_entry_monitor (e_rand E) in
        if negb (e_add E) then Some (None, a)
        else
          let h := S s in
          let a := with_next (S (S s)) a in
          let a := with_status (<[s := Status false 0 (Some user_ctx)]> (a_status a)) a in
          let a := with_hw (<[h := HwFlow queue pp m 1 mon s (e_rm E) false]> (a_hw a)) a in
          a ← process_completions (e_cbs E a) a;
          if negb (e_process E) then '(_, a) ← rm_entry h a; Some (None, a)
          else
            st ← a_status a !! s;
            if negb (nb_processed st =? 1) || failure st then '(_, a) ← rm_entry h a; Some (None, a)
            else Some (Some (h, F.aging_sec mon), a)
  end.

(** A write to the entry numbered [x], which must be in the table. *)
Definition ft_update (f : ft_entry -> ft_entry) (x : nat) (t : ft) : ft :=
  with_buckets t (map (map (fun e => if (eid e =? x)%nat then f e else e)) (buckets t)).
Definition update_flow (f : ft_entry -> ft_entry) (x : nat) (a : app) : option app :=
  _ ← find_live (a_ft a) x; Some (with_ft (ft_update f x (a_ft a)) a).
Definition update_data (f : simple_fwd_pipe_entry -> simple_fwd_pipe_entry) (x : nat) (a : app) : option app :=
  d ← a_data a !! x; Some (with_data (<[x := f d]> (a_data a)) a).

Definition set_queue_hw (q : Z) (h : option nat) (d : simple_fwd_pipe_entry) : simple_fwd_pipe_entry :=
  PipeEntry (is_hw d) (total_pkts d) (total_bytes d) q h.
Definition set_is_hw (d : simple_fwd_pipe_entry) : simple_fwd_pipe_entry :=
  PipeEntry true (total_pkts d) (total_bytes d) (pipe_queue d) (hw_entry d).
Definition count_pkt (d : simple_fwd_pipe_entry) : simple_fwd_pipe_entry :=
  PipeEntry (is_hw d) (u64 (total_pkts d + 1)) (total_bytes d) (pipe_queue d) (hw_entry d).

(** 0 with the entry's number, or -1. *)
Definition simple_fwd_handle_new_flow (E : env) (queue : Z) (p : packet) (a : app)
    : option (option nat * app) :=
  '(r, oe, ot) ← simple_fwd_ft_add_new D (e_now E) (e_hz E) (e_oom_ft E) (Some (a_ft a)) p;
  match oe, ot with
  | Some e, Some t =>
      let x := eid e in
      let a := with_data (<[x := pipe_entry0]> (a_data a)) (with_ft t a) in
      a ← update_data (set_queue_hw queue None) x a;
      '(he, a) ← simple_fwd_pipe_add_entry E queue p x a;
      a ← update_data (set_queue_hw queue (fst <$> he)) x a;
      match he with
      | None => a ← destroy_flow x a; Some (None, a)
      | Some (h, age) =>
          a ← update_flow (fun e => simple_fwd_ft_update_age_sec e age) x a;
          a ← update_flow (simple_fwd_ft_update_expiration (e_now2 E) (e_hz E)) x a;
          a ← update_data set_is_hw x a;
          Some (Some x, a)
      end
  | _, _ => Some (None, a)
  end.

Definition simple_fwd_need_new_ft (p : packet) : bool :=
  let o := outer (p_info p) in
  if negb (l3_type o =? IPV4) then false
  else (l4_type o =? DOCA_PROTO_TCP) || (l4_type o =? DOCA_PROTO_UDP) || (l4_type o =? DOCA_PROTO_GRE).

Definition simple_fwd_handle_packet (E : env) (queue : Z) (p : packet) (a : app) : option (Z * app) :=
  if negb (simple_fwd_need_new_ft p) then Some (-1, a)
  else
    '(r, oe, t) ← simple_fwd_ft_find D (e_now E) (e_hz E) (a_ft a) p;
    let a := with_ft t a in
    '(ox, a) ← match oe with
               | Some e => Some (Some (eid e), a)
               | None => simple_fwd_handle_new_flow E queue p a
               end;
    match ox with
    | None => Some (-1, a)
    | Some x => a ← update_data count_pkt x a; Some (0, a)
    end.

(** A received packet: its bytes, its length, its port and its hash. *)
Record mbuf := Mbuf { m_data : list Z; m_len : Z; m_port : Z; m_hash : Z }.

(** The bytes cut off the packet in front, and the new state. *)
Definition simple_fwd_process_offload (E : env) (m : mbuf) (queue : Z) (a : app) : option (Z * app) :=
  '(r, i) ← simple_fwd_parse_packet D (m_data m) 0 (m_len m) pinfo0;
  if negb (r =? 0) then Some (0, a)
  else if negb (l3_type (outer i) =? IPV4) then Some (0, a)
  else
    let p := {| p_buf := m_data m; p_info := i; p_port := m_port m; p_rss := m_hash m |} in
    '(_, a) ← simple_fwd_handle_packet E queue p a;
    diff ← l2 (outer i);
    Some (diff, a).
End Match.

(** ** Aging *)

(** doca_flow_aging_handle reports [cs]. *)
Definition simple_fwd_handle_aging (cs : list completion) (queue : Z) (a : app) : option app :=
  if nb_queues a <? queue then Some a else process_completions cs a.

(** A pass of the aging thread over the bucket [i]. *)
Definition aging_pass (now : Z) (query : nat -> option Z) (lock : bool) (i : Z) (a : app)
    : option (bool * app) :=
  '(next, t) ← simple_fwd_ft_aging_ft_entry now query lock (a_ft a) i;
  a ← run_aged t a; Some (next, a).

(** ** The loop of a core *)

(** What happens to a received packet. *)
Inductive disposal := Freed (m : mbuf) | Sent (port queue : Z) (m : mbuf).

Section Loop.
Context (D : dpdk).

(** [simple_fwd_process_pkts] on the packets of a burst received on [port]. *)
Fixpoint process_burst (hw_offload rx_only : bool) (port queue : Z) (ms : list (env * mbuf)) (a : app)
    : option (list disposal * app) :=
  match ms with
  | [] => Some ([], a)
  | (E, m) :: ms' =>
      a ← (if hw_offload then snd <$> simple_fwd_process_offload D E m queue a else Some a);
      let d := if rx_only then Freed m else Sent (Z.lxor port 1) queue m in
      '(ds, a) ← process_burst hw_offload rx_only port queue ms' a;
      Some (d :: ds, a)
  end.

(** One round of the loop over the ports: a burst and the hardware's aging
    events of each. *)
Record round_in := RoundIn { r_rx : list (env * mbuf); r_aged : list completion }.

Fixpoint process_ports (hw_offload rx_only age_thread : bool) (queues : list Z) (port : Z)
    (ins : list round_in) (a : app) : option (list disposal * app) :=
  match queues, ins with
  | q :: queues', i :: ins' =>
      '(ds, a) ← process_burst hw_offload rx_only port q (r_rx i) a;
      a ← (if age_thread then simple_fwd_handle_aging (r_aged i) q a else Some a);
      '(ds', a) ← process_ports hw_offload rx_only age_thread queues' (port + 1) ins' a;
      Some (ds ++ ds', a)
  | _, _ => Some ([], a)
  end.
End Loop.

(** ** Queues of the cores *)

(** [struct vnf_per_core_params]: the queue of a used core. *)
Fixpoint map_queue (enabled : list bool) (queue_idx nb_queues : Z) : list (option Z) :=
  match enabled with
  | [] => []
  | false :: es => None :: map_queue es queue_idx nb_queues
  | true :: es =>
      let i := queue_idx + 1 in
      Some queue_idx ::
        (if nb_queues <=? i then replicate (length es) None else map_queue es i nb_queues)
  end.

(** [enabled]: which of the lcores are. *)
Definition simple_fwd_map_queue (enabled : list bool) (nb_queues : Z) : list (option Z) :=
  map_queue enabled 0 nb_queues.
