(* ===== verification/SimpleFwdSpec.v ===== *)
(** * Flows and hardware entries: the invariant

    The relation between the flow table and the hardware that every step of the
    simple forward VNF (SimpleFwd.v) keeps.  While a packet is handled one flow
    and one hardware entry may be on their way into it: the parameters [px] and
    [ph] of the invariant.  The theorems are in SimpleFwdTheorems.v. *)

From stdpp Require Import gmap.
From S2P Require Import Prelude SimpleFwdPkt SimpleFwdFt SimpleFwd.
#[local] Open Scope Z_scope.

(** ** The invariant *)

(** The hardware entry matches the flow of the key: its pipe is the one of the
    tunnel and the port, and it matches the inner addresses and ports. *)
Record matches (k : ft_key) (f : hw_flow) : Prop := {
  mt_pipe : tun_type_nb (fst (h_pipe f)) = key_tun_type k /\ snd (h_pipe f) = port_id k;
  mt_tunnel : fst (h_pipe f) <> TUN_NONE;
  mt_src : F.ip4_src (F.inner (h_match f)) = be_bytes 4 (ipv4_1 k);
  mt_dst : F.ip4_dst (F.inner (h_match f)) = be_bytes 4 (ipv4_2 k);
  mt_proto : F.l4_type_ext (F.inner (h_match f)) = simple_fwd_l3_type_transfer (protocol k);
  mt_ports : protocol k = DOCA_PROTO_TCP \/ protocol k = DOCA_PROTO_UDP ->
    F.l4_src_port (F.inner (h_match f)) = be_bytes 2 (port_1 k) /\
    F.l4_dst_port (F.inner (h_match f)) = be_bytes 2 (port_2 k);
  mt_age : 5 <= F.aging_sec (h_monitor f) < 60
}.

(** The entry [h] is installed for the flow [x] of the table. *)
Definition backs (a : app) (h x : nat) : Prop :=
  exists f st k, a_hw a !! h = Some f /\ h_gone f = false /\ a_status a !! h_status f = Some st /\
    ft_ptr st = Some x /\ (x, k) ∈ keys (a_ft a) /\ matches k f.

(** ... and the flow knows it. *)
Definition owns (a : app) (h x : nat) : Prop :=
  backs a h x /\ exists d, a_data a !! x = Some d /\ is_hw d = true /\ hw_entry d = Some h.

Record app_ok (px ph : option nat) (a : app) : Prop := {
  ok_table : ft_ok (a_ft a);
  ok_data : forall x, is_Some (a_data a !! x) <-> x ∈ map fst (keys (a_ft a));
  ok_flow : forall x, is_Some (a_data a !! x) -> Some x <> px -> exists h, owns a h x;
  ok_entry : forall h f, a_hw a !! h = Some f -> h_gone f = false -> Some h <> ph -> exists x, owns a h x;
  ok_px : forall x, px = Some x -> exists d, a_data a !! x = Some d /\ is_hw d = false;
  ok_ph : forall h, ph = Some h -> exists x, px = Some x /\ backs a h x;
  ok_status : forall s, is_Some (a_status a !! s) <-> exists h f, a_hw a !! h = Some f /\ h_status f = s;
  ok_inj : forall h h' f f', a_hw a !! h = Some f -> a_hw a !! h' = Some f' -> h_status f = h_status f' -> h = h';
  ok_fresh : forall h f, a_hw a !! h = Some f -> (h < a_next a)%nat /\ (h_status f < a_next a)%nat
}.

(** An entry on its way in is not known to any flow. *)
Lemma pending_not_owned px ph a h x : app_ok px ph a -> owns a h x -> Some x <> px.
Proof. intros Ha (_ & d & Hd & Hhw & _) E. destruct (ok_px _ _ _ Ha x) as (d' & Hd' & ?); [done|]. congruence. Qed.

Lemma keys_unique t x k k' : ft_ok t -> (x, k) ∈ keys t -> (x, k') ∈ keys t -> k = k'.
Proof.
  intros Ht. pose proof (ft_NoDup t Ht) as Hn. rewrite <- keys_fst in Hn. revert Hn.
  induction (keys t) as [|[y ky] l IH]; cbn [map fst]; [by rewrite elem_of_nil|].
  intros [Hy Hn]%NoDup_cons Hk Hk'. rewrite elem_of_cons in Hk, Hk'.
  assert (Hin : forall q, (x, q) ∈ l -> x ∈ map fst l) by (intros q; apply (list_elem_of_fmap_2 fst)).
  destruct Hk as [Hk|Hk], Hk' as [Hk'|Hk']; simplify_eq.
  - done.
  - destruct Hy. by apply (Hin k').
  - destruct Hy. by apply (Hin k).
  - by apply IH.
Qed.

Lemma backs_flow a h x y : backs a h x -> backs a h y -> x = y.
Proof. intros (f & st & k & ? & _ & ? & ? & _) (f' & st' & k' & ? & _ & ? & ? & _). congruence. Qed.

(** ** The table *)

(** Only the keys of the table matter to the relation. *)
Lemma backs_table a t h x : (forall k, (x, k) ∈ keys (a_ft a) -> (x, k) ∈ keys t) -> backs a h x -> backs (with_ft t a) h x.
Proof. intros Hk (f & st & k & ? & ? & ? & ? & ? & ?). exists f, st, k. split_and!; auto. Qed.

Lemma table_ok px ph a t :
  app_ok px ph a -> ft_ok t -> keys t = keys (a_ft a) -> app_ok px ph (with_ft t a).
Proof.
  intros Ha Ht Hk.
  assert (Hb : forall h x, backs a h x -> backs (with_ft t a) h x).
  { intros h x. apply backs_table. by rewrite Hk. }
  destruct Ha as [Htab Hd Hf He Hpx Hph Hs Hi Hn]. split; cbn [a_ft a_data a_hw a_status a_next with_ft]; try done.
  - intros x. by rewrite Hk.
  - intros x Hx Hne. destruct (Hf x Hx Hne) as (h & ? & ?). exists h. split; auto.
  - intros h f Hh Hg Hne. destruct (He h f Hh Hg Hne) as (x & ? & ?). exists x. split; auto.
  - intros h Hh. destruct (Hph h Hh) as (x & ? & ?). exists x. auto.
Qed.

(** A flow enters the table, its data zeroed. *)
Lemma add_flow_ok a t x k d :
  app_ok None None a -> ft_ok t -> keys t ≡ₚ (x, k) :: keys (a_ft a) -> is_hw d = false ->
  app_ok (Some x) None (with_data (<[x := d]> (a_data a)) (with_ft t a)).
Proof.
  intros Ha Ht Hk Hhw.
  assert (Hx : x ∉ map fst (keys (a_ft a))).
  { pose proof (ft_NoDup t Ht) as Hn. rewrite <- keys_fst, Hk in Hn. cbn [map fst] in Hn. by apply NoDup_cons in Hn as [? _]. }
  destruct Ha as [Htab Hd Hf He Hpx Hph Hs Hi Hn].
  assert (Ho : forall h y, owns a h y -> owns (with_data (<[x := d]> (a_data a)) (with_ft t a)) h y).
  { intros h y [Hb (dy & Hdy & ? & ?)]. split.
    - destruct Hb as (f & st & ky & ? & ? & ? & ? & ? & ?). exists f, st, ky. split_and!; try done.
      cbn [a_ft with_data with_ft]. rewrite Hk. by apply elem_of_cons; right.
    - exists dy. split_and!; try done. cbn [a_data with_data]. rewrite lookup_insert_ne; [done|].
      intros <-. apply Hx, Hd. by eexists. }
  split; cbn [a_ft a_data a_hw a_status a_next with_ft with_data]; try done.
  - intros y. rewrite Hk. cbn [map fst]. rewrite elem_of_cons, lookup_insert_is_Some, <- Hd.
    destruct (decide (y = x)); naive_solver.
  - intros y Hy Hne. rewrite lookup_insert_ne in Hy by congruence. destruct (Hf y Hy) as [h ?]; [done|]. eauto.
  - intros h f Hh Hg _. destruct (He h f Hh Hg) as [y ?]; [done|]. eauto.
  - intros y [= <-]. exists d. by rewrite lookup_insert_eq.
Qed.

(** ** Status structures and data *)

Lemma status_ok px ph a s st st' :
  app_ok px ph a -> a_status a !! s = Some st -> ft_ptr st' = ft_ptr st ->
  app_ok px ph (with_status (<[s := st']> (a_status a)) a).
Proof.
  intros Ha Hst Hp.
  assert (Hb : forall h x, backs a h x -> backs (with_status (<[s := st']> (a_status a)) a) h x).
  { intros h x (f & st0 & k & ? & ? & Hs & ? & ? & ?). destruct (decide (h_status f = s)) as [<-|Hne].
    - exists f, st', k. split_and!; try done; [|congruence]. cbn [a_status with_status]. by rewrite lookup_insert_eq.
    - exists f, st0, k. split_and!; try done. cbn [a_status with_status]. by rewrite lookup_insert_ne. }
  destruct Ha as [Htab Hd Hf He Hpx Hph Hs Hi Hn]. split; cbn [a_ft a_data a_hw a_status a_next with_status]; try done.
  - intros x Hx Hne. destruct (Hf x Hx Hne) as (h & ? & ?). exists h. split; auto.
  - intros h f Hh Hg Hne. destruct (He h f Hh Hg Hne) as (x & ? & ?). exists x. split; auto.
  - intros h Hh. destruct (Hph h Hh) as (x & ? & ?). exists x. auto.
  - intros s'. rewrite <- Hs, lookup_insert_is_Some. split; [intros [<-|[_ ?]]; [by eexists|done]|].
    intros ?. destruct (decide (s = s')); auto.
Qed.

Lemma data_ok px ph a x d d' :
  app_ok px ph a -> a_data a !! x = Some d -> is_hw d' = is_hw d -> (is_hw d = true -> hw_entry d' = hw_entry d) ->
  app_ok px ph (with_data (<[x := d']> (a_data a)) a).
Proof.
  intros Ha Hdx Hhw Hh.
  assert (Ho : forall h y, owns a h y -> owns (with_data (<[x := d']> (a_data a)) a) h y).
  { intros h y [Hb (dy & Hdy & Hy & ?)]. split; [exact Hb|]. destruct (decide (y = x)) as [->|Hne].
    - exists d'. cbn [a_data with_data]. rewrite lookup_insert_eq. rewrite Hdx in Hdy. injection Hdy as <-.
      split_and!; [done|congruence|by rewrite Hh].
    - exists dy. cbn [a_data with_data]. by rewrite lookup_insert_ne. }
  destruct Ha as [Htab Hd Hf He Hpx Hph Hs Hi Hn].
  assert (Hdom : forall y, is_Some (<[x := d']> (a_data a) !! y) <-> is_Some (a_data a !! y)).
  { intros y. rewrite lookup_insert_is_Some. split; [intros [<-|[_ ?]]; [by eexists|done]|].
    intros ?. destruct (decide (x = y)); auto. }
  split; cbn [a_ft a_data a_hw a_status a_next with_data]; try done.
  - intros y. by rewrite Hdom.
  - intros y Hy Hne. rewrite Hdom in Hy. destruct (Hf y Hy Hne) as [h ?]. eauto.
  - intros h f Hf' Hg Hne. destruct (He h f Hf' Hg Hne) as [y ?]. eauto.
  - intros y Hy. destruct (Hpx y Hy) as (dy & Hdy & ?). destruct (decide (y = x)) as [->|Hne].
    + exists d'. rewrite lookup_insert_eq. split; [done|]. congruence.
    + exists dy. by rewrite lookup_insert_ne.
Qed.

(** ** Removal *)

(** The hardware forgets an entry that was removed. *)
Lemma forget_ok px ph a h f :
  app_ok px ph a -> a_hw a !! h = Some f -> h_gone f = true ->
  app_ok px ph (with_hw (filter (fun '(_, g) => h_status g <> h_status f) (a_hw a))
                  (with_status (delete (h_status f) (a_status a)) a)).
Proof.
  intros Ha Hf Hg. set (a' := with_hw _ _).
  assert (Hl : forall h' g, a_hw a' !! h' = Some g <-> a_hw a !! h' = Some g /\ h' <> h).
  { intros h' g. cbn [a_hw a' with_hw]. rewrite map_lookup_filter_Some. split; intros [Hh Hne]; (split; [done|]).
    - intros ->. rewrite Hf in Hh. injection Hh as <-. done.
    - intros E. apply Hne. by apply (ok_inj _ _ _ Ha h' h g f). }
  assert (Hb : forall h' x, backs a h' x -> backs a' h' x).
  { intros h' x (g & st & k & Hh & Hgg & Hs & ? & ? & ?). exists g, st, k.
    assert (h' <> h) by (intros ->; congruence). split_and!; try done; [by apply Hl|].
    cbn [a_status a' with_hw with_status]. rewrite lookup_delete_ne; [done|]. intros E.
    pose proof (ok_inj _ _ _ Ha h h' f g Hf Hh E). congruence. }
  destruct Ha as [Htab Hd Hfl He Hpx Hph Hs Hi Hn]. split; try done.
  - intros x Hx Hne. destruct (Hfl x Hx Hne) as (h' & ? & ?). exists h'. split; auto.
  - intros h' g [Hh _]%Hl Hgg Hne. destruct (He h' g Hh Hgg Hne) as (x & ? & ?). exists x. split; auto.
  - intros h' Hh. destruct (Hph h' Hh) as (x & ? & ?). exists x. auto.
  - intros s. cbn [a_status a' with_hw with_status]. rewrite lookup_delete_is_Some, Hs. split.
    + intros [Hne (h' & g & Hh & <-)]. exists h', g. split; [|done]. apply Hl. split; [done|].
      intros ->. congruence.
    + intros (h' & g & [Hh Hne]%Hl & <-). split; [|eauto]. intros E. apply Hne. by apply (Hi h' h g f).
  - intros h1 h2 g1 g2 [? _]%Hl [? _]%Hl. by apply Hi.
  - intros h' g [? _]%Hl. by apply (Hn h' g).
Qed.

Definition gone (f : hw_flow) : hw_flow :=
  HwFlow (h_queue f) (h_pipe f) (h_match f) (h_meta f) (h_monitor f) (h_status f)
    (h_removable f) true.

Lemma rm_entry_eq a h f :
  a_hw a !! h = Some f -> h_gone f = false -> rm_entry h a = Some (h_removable f, with_hw (<[h := gone f]> (a_hw a)) a).
Proof. intros Hf Hg. unfold rm_entry. rewrite Hf. obind. by rewrite Hg. Qed.

(** The flows that do not own the entry [h] keep theirs when it is removed. *)
Lemma rm_backs a h f h' x :
  a_hw a !! h = Some f -> h' <> h -> backs a h' x -> backs (with_hw (<[h := gone f]> (a_hw a)) a) h' x.
Proof.
  intros Hf Hne (g & st & k & Hh & ?). exists g, st, k. split; [|done]. cbn [a_hw with_hw]. by rewrite lookup_insert_ne.
Qed.

(** The parts of the invariant that do not tell flows. *)
Lemma rm_statuses px ph a h f :
  app_ok px ph a -> a_hw a !! h = Some f ->
  let a' := with_hw (<[h := gone f]> (a_hw a)) a in
  (forall s, is_Some (a_status a' !! s) <-> exists h f, a_hw a' !! h = Some f /\ h_status f = s) /\
  (forall h h' f f', a_hw a' !! h = Some f -> a_hw a' !! h' = Some f' -> h_status f = h_status f' -> h = h') /\
  (forall h f, a_hw a' !! h = Some f -> (h < a_next a)%nat /\ (h_status f < a_next a)%nat).
Proof.
  intros Ha Hf a'.
  assert (Hl : forall h' g, a_hw a' !! h' = Some g -> exists g', a_hw a !! h' = Some g' /\ h_status g' = h_status g).
  { intros h' g. cbn [a_hw a' with_hw]. rewrite lookup_insert_Some. intros [[<- <-]|[_ Hg]]; eauto. }
  split_and!.
  - intros s. cbn [a_status a' with_hw]. rewrite (ok_status _ _ _ Ha). split.
    + intros (h' & g & Hg & <-). destruct (decide (h' = h)) as [->|Hne].
      * exists h, (gone f). cbn [a_hw a' with_hw]. rewrite lookup_insert_eq. split; [done|]. cbn. congruence.
      * exists h', g. cbn [a_hw a' with_hw]. by rewrite lookup_insert_ne.
    + intros (h' & g & (g' & Hg & E)%Hl & <-). eauto.
  - intros h1 h2 f1 f2 (g1 & Hg1 & E1)%Hl (g2 & Hg2 & E2)%Hl E. apply (ok_inj _ _ _ Ha h1 h2 g1 g2); congruence.
  - intros h' g (g' & Hg & <-)%Hl. by apply (ok_fresh _ _ _ Ha).
Qed.

(** A pending entry is given up. *)
Lemma give_up_ok x a h :
  app_ok (Some x) (Some h) a -> exists b a', rm_entry h a = Some (b, a') /\ app_ok (Some x) None a' /\ a_ft a' = a_ft a /\
    a_data a' = a_data a.
Proof.
  intros Ha. destruct (ok_ph _ _ _ Ha h eq_refl) as (y & [= <-] & Hb).
  pose proof Hb as (f & _ & _ & Hf & Hg & _). rewrite (rm_entry_eq _ _ _ Hf Hg). do 2 eexists. split; [done|].
  split; [|done]. destruct (rm_statuses _ _ _ _ _ Ha Hf) as (Hs & Hi & Hn).
  assert (Hne : forall h' y, owns a h' y -> h' <> h).
  { intros h' y Ho ->. pose proof (pending_not_owned _ _ _ _ _ Ha Ho). destruct Ho as [Hb' _].
    pose proof (backs_flow _ _ _ _ Hb Hb'). congruence. }
  split; try done; try apply Ha.
  - intros y Hy Hyx. destruct (ok_flow _ _ _ Ha y Hy Hyx) as (h' & Ho). exists h'. split; [|apply Ho].
    apply rm_backs; [done|by eapply Hne|apply Ho].
  - intros h' g Hh Hgg _. cbn [a_hw with_hw] in Hh. rewrite lookup_insert_Some in Hh.
    destruct Hh as [[<- <-]|[Hn' Hh]]; [done|].
    destruct (ok_entry _ _ _ Ha h' g Hh Hgg) as (y & Ho); [congruence|]. exists y. split; [|apply Ho].
    apply rm_backs; [done|congruence|apply Ho].
Qed.

(** A flow leaves the table with its data, once its entry is out of the way. *)
Lemma drop_flow_ok px ph a t x k :
  ft_ok (a_ft a) -> (forall y, is_Some (a_data a !! y) <-> y ∈ map fst (keys (a_ft a))) ->
  ft_ok t -> keys (a_ft a) ≡ₚ (x, k) :: keys t ->
  (forall y, is_Some (a_data a !! y) -> y <> x -> Some y <> px -> exists h, owns a h y) ->
  (forall h f, a_hw a !! h = Some f -> h_gone f = false -> Some h <> ph -> exists y, y <> x /\ owns a h y) ->
  (forall y, px = Some y -> y <> x /\ exists d, a_data a !! y = Some d /\ is_hw d = false) ->
  (forall h, ph = Some h -> exists y, y <> x /\ px = Some y /\ backs a h y) ->
  (forall s, is_Some (a_status a !! s) <-> exists h f, a_hw a !! h = Some f /\ h_status f = s) ->
  (forall h h' f f', a_hw a !! h = Some f -> a_hw a !! h' = Some f' -> h_status f = h_status f' -> h = h') ->
  (forall h f, a_hw a !! h = Some f -> (h < a_next a)%nat /\ (h_status f < a_next a)%nat) ->
  app_ok px ph (with_data (delete x (a_data a)) (with_ft t a)).
Proof.
  intros Hta Hd Ht Hk Hf He Hpx Hph Hs Hi Hn. set (a' := with_data _ _).
  assert (Hx : x ∉ map fst (keys t)).
  { pose proof (ft_NoDup _ Hta) as Hnd. rewrite <- keys_fst, Hk in Hnd. cbn [map fst] in Hnd.
    by apply NoDup_cons in Hnd as [? _]. }
  assert (Hb : forall h y, y <> x -> backs a h y -> backs a' h y).
  { intros h y Hy (f & st & ky & ? & ? & ? & ? & Hin & ?). exists f, st, ky. split_and!; try done.
    rewrite Hk in Hin. apply elem_of_cons in Hin as [[= -> _]|Hin]; done. }
  assert (Ho : forall h y, y <> x -> owns a h y -> owns a' h y).
  { intros h y Hy [Hb' (d & ? & ?)]. split; [by apply Hb|]. exists d. split; [|done].
    cbn [a_data a' with_data]. by rewrite lookup_delete_ne. }
  split; try done.
  - intros y. cbn [a_data a_ft a' with_data with_ft]. rewrite lookup_delete_is_Some, Hd, Hk. cbn [map fst].
    rewrite elem_of_cons. split; [naive_solver|]. intros Hy. split; [|by right]. intros <-. done.
  - intros y Hy Hne. cbn [a_data a' with_data] in Hy. apply lookup_delete_is_Some in Hy as [Hyx Hy].
    destruct (Hf y Hy) as [h ?]; [done..|]. exists h. by apply Ho.
  - intros h f Hh Hg Hne. destruct (He h f Hh Hg Hne) as (y & ? & ?). exists y. by apply Ho.
  - intros y Hy. destruct (Hpx y Hy) as (? & d & ? & ?). exists d. cbn [a_data a' with_data].
    by rewrite lookup_delete_ne.
  - intros h Hh. destruct (Hph h Hh) as (y & ? & ? & ?). exists y. split; [done|]. by apply Hb.
Qed.

(** A flow that has its entry is removed with it. *)
Lemma remove_owned_ok px ph a t x k :
  app_ok px ph a -> ft_ok t -> keys (a_ft a) ≡ₚ (x, k) :: keys t -> Some x <> px ->
  exists a', simple_fwd_aged_flow_cb x (with_ft t a) = Some a' /\ app_ok px ph a' /\ a_ft a' = t.
Proof.
  intros Ha Ht Hk Hpx.
  assert (Hx : is_Some (a_data a !! x)).
  { apply (ok_data _ _ _ Ha). rewrite Hk. by apply elem_of_cons; left. }
  destruct (ok_flow _ _ _ Ha x Hx Hpx) as (h & Hb & d & Hd & Hhw & Hh).
  pose proof Hb as (f & st & kf & Hf & Hg & Hst & Hp & _).
  unfold simple_fwd_aged_flow_cb. cbn [a_data with_ft]. rewrite Hd. obind. rewrite Hhw, Hh. obind.
  rewrite (rm_entry_eq (with_ft t a) h f Hf Hg). obind.
  set (a1 := with_hw (<[h := gone f]> (a_hw a)) a).
  eexists. split; [reflexivity|]. split; [|done]. change (app_ok px ph (with_data (delete x (a_data a1)) (with_ft t a1))).
  destruct (rm_statuses _ _ _ _ _ Ha Hf) as (Hs & Hi & Hn).
  assert (Hne : forall h' y, y <> x -> backs a h' y -> h' <> h).
  { intros h' y Hy Hb' ->. by pose proof (backs_flow _ _ _ _ Hb Hb'). }
  apply (drop_flow_ok px ph a1 t x k); try done; try apply Ha.
  - intros y Hy Hyx Hyp. destruct (ok_flow _ _ _ Ha y Hy Hyp) as (h' & Ho). exists h'. split; [|apply Ho].
    apply rm_backs; [done| |apply Ho]. by apply (Hne h' y); [|apply Ho].
  - intros h' g Hh' Hgg Hph. cbn [a_hw a1 with_hw] in Hh'. rewrite lookup_insert_Some in Hh'.
    destruct Hh' as [[<- <-]|[Hn' Hh']]; [done|].
    destruct (ok_entry _ _ _ Ha h' g Hh' Hgg Hph) as (y & Hby & Hdy). exists y. split.
    + intros ->. destruct Hdy as (d' & ? & _ & ?). congruence.
    + split; [|exact Hdy]. by apply rm_backs.
  - intros y ->. split; [congruence|]. by apply (ok_px _ _ _ Ha).
  - intros h' ->. destruct (ok_ph _ _ _ Ha h' eq_refl) as (y & Hy & Hby). assert (y <> x) by congruence.
    exists y. split_and!; [done..|]. apply rm_backs; [done| |done]. by apply (Hne h' y).
Qed.

(** A flow that never got one is removed alone. *)
Lemma remove_pending_ok a t x k :
  app_ok (Some x) None a -> ft_ok t -> keys (a_ft a) ≡ₚ (x, k) :: keys t ->
  exists a', simple_fwd_aged_flow_cb x (with_ft t a) = Some a' /\ app_ok None None a' /\ a_ft a' = t /\
    a_hw a' = a_hw a.
Proof.
  intros Ha Ht Hk. destruct (ok_px _ _ _ Ha x eq_refl) as (d & Hd & Hhw).
  unfold simple_fwd_aged_flow_cb. cbn [a_data with_ft]. rewrite Hd. obind. rewrite Hhw.
  eexists. split; [reflexivity|]. split; [|done]. apply (drop_flow_ok None None a t x k); try done; try apply Ha.
  - intros y Hy Hyx _. apply (ok_flow _ _ _ Ha y Hy). congruence.
  - intros h f Hh Hg Hph. destruct (ok_entry _ _ _ Ha h f Hh Hg Hph) as (y & Ho). exists y. split; [|done].
    intros ->. by pose proof (pending_not_owned _ _ _ _ _ Ha Ho).
Qed.

(** [run_aged] when the table lost one entry, or none. *)
Lemma run_aged_one a t x :
  aged t = x :: aged (a_ft a) -> run_aged t a = simple_fwd_aged_flow_cb x (with_ft t a).
Proof.
  intros Hag. unfold run_aged. rewrite Hag. cbn [length].
  replace (S (length (aged (a_ft a))) - length (aged (a_ft a)))%nat with 1%nat by lia. reflexivity.
Qed.

Lemma run_aged_none a t : aged t = aged (a_ft a) -> run_aged t a = Some (with_ft t a).
Proof. intros Hag. unfold run_aged. rewrite Hag, Nat.sub_diag. reflexivity. Qed.

(** ** Looking up an entry by its number *)

Lemma find_live_Some t x : x ∈ map fst (keys t) -> exists e, find_live t x = Some e /\ e ∈ live t /\ eid e = x.
Proof.
  rewrite keys_fst. intros (e & -> & He)%list_elem_of_fmap. unfold find_live.
  destruct (List.find (fun e0 => (eid e0 =? eid e)%nat) (live t)) as [e'|] eqn:Hf.
  - apply List.find_some in Hf as [Hin E]. apply Nat.eqb_eq in E. exists e'. split_and!; [done| |done].
    by apply list_elem_of_In.
  - apply list_elem_of_In in He. pose proof (List.find_none _ _ Hf e He) as E. cbn beta in E. by rewrite Nat.eqb_refl in E.
Qed.

(** Destroying a flow, whatever [simple_fwd_aged_flow_cb] makes of it. *)
Lemma destroy_flow_eq px ph a x :
  app_ok px ph a -> is_Some (a_data a !! x) ->
  exists t k, destroy_flow x a = simple_fwd_aged_flow_cb x (with_ft t a) /\ ft_ok t /\
    keys (a_ft a) ≡ₚ (x, k) :: keys t /\ aged t = x :: aged (a_ft a).
Proof.
  intros Ha Hx%(ok_data _ _ _ Ha). destruct (find_live_Some _ _ Hx) as (e & He & Hin & Hid).
  unfold destroy_flow. rewrite He. obind.
  destruct (located_destroy _ _ (ok_table _ _ _ Ha) Hin) as [t Ht]. rewrite Ht. obind.
  unfold simple_fwd_ft_destroy_entry in Ht. destruct (rd _ _); [|done]. injection Ht as <-. rewrite Hid.
  apply list_elem_of_fmap in Hx as ([x' k] & -> & Hxk). cbn [fst] in *.
  destruct (destroy_keys _ _ _ (ok_table _ _ _ Ha) Hxk) as [Hok Hk].
  eexists _, k. split; [|split; [exact Hok|done]]. by apply run_aged_one.
Qed.

(** ** Completions *)

(** What DOCA Flow documents of the callback: it is called with the context of an
    entry it was given and has not reported as deleted; a deletion is reported
    once it was requested and accepted; aging is reported by
    doca_flow_aging_handle only.  Assumed beyond that: aging is not reported of an
    entry whose removal was requested, even if the request was refused
    ([aging_of_refused_removal] in SimpleFwdTheorems.v). *)
Definition may (aging : bool) (c : completion) (a : app) : Prop :=
  forall s, c_ctx c = Some s -> exists h f, a_hw a !! h = Some f /\ h_status f = s /\
    match c_op c with
    | OP_DEL => h_gone f = true /\ h_removable f = true
    | OP_AGED => aging = true /\ h_gone f = false
    | _ => True
    end.

Fixpoint allowed (aging : bool) (cs : list completion) (a : app) : Prop :=
  match cs with
  | [] => True
  | c :: cs' => may aging c a /\ forall a', deliver c a = Some a' -> allowed aging cs' a'
  end.

(** What completions other than aging leave as it is. *)
Record kept (a a' : app) : Prop := {
  kept_ft : a_ft a' = a_ft a;
  kept_data : a_data a' = a_data a;
  kept_nbq : nb_queues a' = nb_queues a;
  kept_hw : forall h f, h_gone f = false -> a_hw a' !! h = Some f <-> a_hw a !! h = Some f
}.

Lemma kept_refl a : kept a a.
Proof. done. Qed.

Lemma kept_trans a b c : kept a b -> kept b c -> kept a c.
Proof.
  intros [H1 H2 H3 H4] [H1' H2' H3' H4']. split; try congruence. intros h f Hg. rewrite H4' by done. by apply H4.
Qed.

(** Flows only leave the table. *)
Definition fewer_keys (a a' : app) : Prop := forall q, q ∈ keys (a_ft a') -> q ∈ keys (a_ft a).

Lemma fewer_eq a a' : a_ft a' = a_ft a -> fewer_keys a a'.
Proof. intros E q. by rewrite E. Qed.

Lemma aged_ok a x : app_ok None None a -> is_Some (a_data a !! x) ->
  exists a', destroy_flow x a = Some a' /\ app_ok None None a' /\ fewer_keys a a'.
Proof.
  intros Ha Hx. destruct (destroy_flow_eq _ _ _ _ Ha Hx) as (t & k & -> & Ht & Hk & _).
  destruct (remove_owned_ok _ _ _ _ _ _ Ha Ht Hk) as (a' & -> & ? & Hft); [done|]. exists a'. split_and!; [done..|].
  intros q. rewrite Hft, Hk. intros ?. by apply elem_of_cons; right.
Qed.

Lemma backs_data px ph a h x : app_ok px ph a -> backs a h x -> is_Some (a_data a !! x).
Proof.
  intros Ha (f & st & k & _ & _ & _ & _ & Hk & _). apply (ok_data _ _ _ Ha).
  by apply (list_elem_of_fmap_2 fst) in Hk.
Qed.

Lemma deliver_ok px ph aging c a :
  app_ok px ph a -> may aging c a -> (aging = true -> px = None /\ ph = None) ->
  exists a', deliver c a = Some a' /\ app_ok px ph a' /\ (aging = false -> kept a a') /\ fewer_keys a a'.
Proof.
  intros Ha Hmay Hag. unfold deliver, simple_fwd_check_for_valid_entry.
  destruct (c_ctx c) as [s|] eqn:Hc; [|obind; exists a; destruct (c_op c); split_and!; try done; by apply fewer_eq].
  destruct (Hmay s Hc) as (h & f & Hf & <- & Hop).
  destruct (proj2 (ok_status _ _ _ Ha (h_status f))) as [st Hst]; [by exists h, f|]. rewrite Hst. obind.
  set (st1 := Status (failure st || negb (c_ok c)) (nb_processed st) (ft_ptr st)).
  pose proof (status_ok _ _ _ _ _ st1 Ha Hst eq_refl) as H1. set (a1 := with_status _ a) in *.
  assert (Hst1 : a_status a1 !! h_status f = Some st1) by apply lookup_insert_eq.
  assert (Hk1 : kept a a1) by done. destruct (c_op c); obind.
  - eexists. split; [reflexivity|]. split; [by eapply status_ok|]. split; [done|by apply fewer_eq].
  - destruct Hop as [Hgone _]. eexists. split; [reflexivity|]. split; [by apply (forget_ok _ _ a1 h)|]. split; [|by apply fewer_eq].
    intros _. split; try done. intros h' g Hg. cbn [a_hw with_hw with_status a1]. rewrite map_lookup_filter_Some.
    split; [naive_solver|]. intros Hh. split; [done|]. intros E.
    pose proof (ok_inj _ _ _ Ha h h' f g Hf Hh (eq_sym E)). congruence.
  - eexists. split; [reflexivity|]. split; [done|]. split; [done|by apply fewer_eq].
  - destruct Hop as [-> Hg]. destruct (Hag eq_refl) as [-> ->].
    destruct (ok_entry _ _ _ Ha h f Hf Hg) as (x & Hb & _); [done|].
    pose proof Hb as (f' & st' & k & Hf' & _ & Hs' & Hp & _).
    rewrite Hf in Hf'. injection Hf' as <-. rewrite Hst in Hs'. injection Hs' as <-.
    cbn [ft_ptr st1]. rewrite Hp. obind.
    destruct (aged_ok a1 x H1) as (a2 & -> & H2 & Hf2); [by apply (backs_data _ _ _ _ _ Ha Hb)|]. obind.
    exists a2. done.
Qed.

Lemma completions_ok px ph aging cs a :
  app_ok px ph a -> allowed aging cs a -> (aging = true -> px = None /\ ph = None) ->
  exists a', process_completions cs a = Some a' /\ app_ok px ph a' /\ (aging = false -> kept a a') /\ fewer_keys a a'.
Proof.
  revert a. induction cs as [|c cs IH]; intros a Ha Hal Hag; cbn [process_completions].
  { exists a. split_and!; [done..| |by apply fewer_eq]. intros _. apply kept_refl. }
  destruct Hal as [Hmay Hal]. destruct (deliver_ok _ _ _ _ _ Ha Hmay Hag) as (a1 & Hd & H1 & Hk1 & Hf1). rewrite Hd. obind.
  destruct (IH a1 H1 (Hal a1 Hd) Hag) as (a2 & -> & H2 & Hk2 & Hf2). exists a2. split_and!; [done..| |].
  - intros E. eapply kept_trans; auto.
  - intros q Hq. by apply Hf1, Hf2.
Qed.

(** ** A new entry *)

Lemma install_pending_ok a x k d queue pp m mon rm :
  app_ok (Some x) None a -> (x, k) ∈ keys (a_ft a) -> a_data a !! x = Some d -> is_hw d = false ->
  let s := a_next a in
  let f := HwFlow queue pp m 1 mon s rm false in
  matches k f ->
  app_ok (Some x) (Some (S s))
    (with_hw (<[S s := f]> (a_hw a))
      (with_status (<[s := Status false 0 (Some x)]> (a_status a)) (with_next (S (S s)) a))).
Proof.
  intros Ha Hk Hd Hhw s f Hm. set (a' := with_hw _ _).
  assert (Hfr : forall h g, a_hw a !! h = Some g -> h <> S s /\ h_status g <> s).
  { intros h g Hg. destruct (ok_fresh _ _ _ Ha h g Hg). subst s. lia. }
  assert (Hl : forall h g, a_hw a !! h = Some g -> a_hw a' !! h = Some g).
  { intros h g Hg. destruct (Hfr h g Hg). cbn [a_hw a' with_hw]. by rewrite lookup_insert_ne. }
  assert (Hb : forall h y, backs a h y -> backs a' h y).
  { intros h y (g & st & ky & Hg & ? & Hs & ? & ? & ?). exists g, st, ky. split_and!; try done; [by apply Hl|].
    destruct (Hfr h g Hg). cbn [a_status a' with_hw with_status]. by rewrite lookup_insert_ne. }
  destruct Ha as [Htab Hdom Hf He Hpx Hph Hs Hi Hn]. split; try done.
  - intros y Hy Hne. destruct (Hf y Hy Hne) as (h & ? & ?). exists h. split; auto.
  - intros h g Hh Hg Hne. cbn [a_hw a' with_hw] in Hh. rewrite lookup_insert_ne in Hh by congruence.
    destruct (He h g Hh Hg) as (y & ? & ?); [done|]. exists y. split; auto.
  - intros h [= <-]. exists x. split; [done|]. exists f, (Status false 0 (Some x)), k. split_and!; try done;
      cbn [a_hw a_status a' with_hw with_status with_next]; by rewrite lookup_insert_eq.
  - intros s'. cbn [a_hw a_status a' with_hw with_status with_next]. rewrite lookup_insert_is_Some, Hs. split.
    + intros [<-|[_ (h & g & Hg & <-)]]; [exists (S s), f; by rewrite lookup_insert_eq|]. exists h, g. split; [|done].
      by apply Hl.
    + intros (h & g & Hg & <-). rewrite lookup_insert_Some in Hg. destruct Hg as [[<- <-]|[? Hg]]; [by left|].
      right. split; [|eauto]. by destruct (Hfr h g Hg).
  - intros h1 h2 f1 f2 H1 H2 E. cbn [a_hw a' with_hw] in H1, H2. rewrite !lookup_insert_Some in H1, H2.
    destruct H1 as [[<- <-]|[? H1]], H2 as [[<- <-]|[? H2]]; try done.
    + by destruct (Hfr h2 f2 H2).
    + by destruct (Hfr h1 f1 H1).
    + by apply (Hi h1 h2 f1 f2).
  - intros h g Hh. cbn [a_hw a' with_hw] in Hh. rewrite lookup_insert_Some in Hh. cbn [a_next a' with_hw with_status with_next].
    destruct Hh as [[<- <-]|[_ Hh]]; [cbn; lia|]. destruct (Hn h g Hh). lia.
Qed.

(** The pending entry becomes the one of the pending flow. *)
Lemma commit_ok a x h d :
  app_ok (Some x) (Some h) a -> a_data a !! x = Some d -> hw_entry d = Some h ->
  app_ok None None (with_data (<[x := set_is_hw d]> (a_data a)) a).
Proof.
  intros Ha Hd Hh. destruct (ok_ph _ _ _ Ha h eq_refl) as (x' & [= <-] & Hbx).
  set (a' := with_data _ a).
  assert (Ho : forall h y, owns a h y -> owns a' h y).
  { intros h' y Hy. pose proof (pending_not_owned _ _ _ _ _ Ha Hy). destruct Hy as [Hb (dy & ? & ?)].
    split; [exact Hb|]. exists dy. split; [|done]. cbn [a_data a' with_data]. rewrite lookup_insert_ne; congruence. }
  assert (Hx : owns a' h x).
  { split; [exact Hbx|]. exists (set_is_hw d). split_and!; [|done|done]. cbn [a_data a' with_data].
    by rewrite lookup_insert_eq. }
  destruct Ha as [Htab Hdom Hf He Hpx Hph Hs Hi Hn].
  assert (Hsame : forall y, is_Some (a_data a' !! y) <-> is_Some (a_data a !! y)).
  { intros y. cbn [a_data a' with_data]. rewrite lookup_insert_is_Some. split; [intros [<-|[_ ?]]; [by eexists|done]|].
    intros ?. destruct (decide (x = y)); auto. }
  split; try done.
  - intros y. rewrite Hsame. apply Hdom.
  - intros y Hy%Hsame _. destruct (decide (y = x)) as [->|Hne]; [by exists h|].
    destruct (Hf y Hy) as (h' & ?); [congruence|]. exists h'. auto.
  - intros h' g Hg Hgg _. destruct (decide (h' = h)) as [->|Hne]; [by exists x|].
    destruct (He h' g Hg Hgg) as (y & ?); [congruence|]. exists y. auto.
Qed.

(** ** The match of an entry *)

Lemma match_layer_fields dst src proto sport dport :
  let h := match_layer dst src proto sport dport F.header0 in
  F.ip4_src h = be_bytes 4 src /\ F.ip4_dst h = be_bytes 4 dst /\
  F.l4_type_ext h = simple_fwd_l3_type_transfer proto /\
  (proto = DOCA_PROTO_TCP \/ proto = DOCA_PROTO_UDP ->
   F.l4_src_port h = be_bytes 2 sport /\ F.l4_dst_port h = be_bytes 2 dport).
Proof.
  unfold match_layer, set_l4_port. cbn [F.l4_type_ext F.set_l4_type].
  destruct (simple_fwd_l3_type_transfer proto) eqn:E; cbn [F.l4_type_ext F.set_l4 F.set_l4_type];
    (split_and!; [reflexivity..|]); try (intros _; split; reflexivity).
  intros [-> | ->]; discriminate.
Qed.

Lemma monitor_age r : 5 <= F.aging_sec (simple_fwd_build_entry_monitor r) < 60.
Proof.
  cbn [F.aging_sec simple_fwd_build_entry_monitor]. pose proof (Z.mod_pos_bound (u32 r) 55 ltac:(lia)).
  rewrite wrap_small by lia. lia.
Qed.

Lemma select_pipe_tunnel p pp :
  simple_fwd_select_pipe p = Some (Some pp) -> pp = (ptun_type (p_info p), p_port p) /\ ptun_type (p_info p) <> TUN_NONE.
Proof.
  unfold simple_fwd_select_pipe. destruct (ptun_type (p_info p)); [done|..];
    (destruct (_ && _); [|done]); intros [= <-]; done.
Qed.

(** The entry a packet gives rise to matches the flow of the packet. *)
Lemma build_matches D p k m pp q r s rm :
  simple_fwd_ft_key_fill D p key0 = Some (0, k) -> simple_fwd_build_entry_match D p = Some m ->
  simple_fwd_select_pipe p = Some (Some pp) ->
  matches k (HwFlow q pp m 1 (simple_fwd_build_entry_monitor r) s rm false).
Proof.
  intros Hk Hm [-> Ht]%select_pipe_tunnel. unfold simple_fwd_ft_key_fill in Hk.
  rewrite (bool_decide_false _ Ht) in Hk. cbn [negb] in Hk.
  destruct (negb (l3_type _ =? _)) in Hk; [done|].
  unfold simple_fwd_ft_key_get_ipv4_src, simple_fwd_ft_key_get_ipv4_dst, simple_fwd_ft_key_get_src_port,
    simple_fwd_ft_key_get_dst_port in Hk. unfold simple_fwd_build_entry_match in Hm.
  destruct (simple_fwd_pinfo_inner_ipv4_src D _ _) as [src|]; [|done].
  destruct (simple_fwd_pinfo_inner_ipv4_dst D _ _) as [dst|]; [|done].
  destruct (simple_fwd_pinfo_inner_src_port D _ _) as [sp|]; [|done].
  destruct (simple_fwd_pinfo_inner_dst_port D _ _) as [dp|]; [|done].
  cbn [mbind option_bind] in Hk. injection Hk as <-.
  destruct (simple_fwd_pinfo_outer_mac_dst D _ _); [|done].
  destruct (simple_fwd_pinfo_outer_mac_src D _ _); [|done].
  destruct (simple_fwd_pinfo_outer_ipv4_dst D _ _); [|done].
  destruct (simple_fwd_pinfo_outer_ipv4_src D _ _); [|done].
  destruct (simple_fwd_pinfo_outer_src_port D _ _); [|done].
  destruct (simple_fwd_pinfo_outer_dst_port D _ _); [|done]. cbn [mbind option_bind] in Hm.
  assert (Hin : F.inner m = match_layer dst src (l4_type (inner (p_info p))) sp dp F.header0).
  { unfold simple_fwd_match_set_tun in Hm. destruct (ptun_type (p_info p)); [done|..]; by injection Hm as <-. }
  destruct (match_layer_fields dst src (l4_type (inner (p_info p))) sp dp) as (H1 & H2 & H3 & H4).
  split; cbn [h_pipe h_match h_monitor fst snd ipv4_1 ipv4_2 port_1 port_2 protocol key_tun_type port_id]; rewrite ?Hin;
    try done. apply monitor_age.
Qed.

(** ** Writes to a flow *)

Lemma update_keys f x t :
  (forall e, same_id e (f e)) -> ft_ok t -> ft_ok (ft_update f x t) /\ keys (ft_update f x t) = keys t /\
  aged (ft_update f x t) = aged t.
Proof.
  intros Hf Ht. set (g := fun e => if (eid e =? x)%nat then f e else e).
  assert (Hg : forall e, same_id e (g e)) by (intros e; unfold g; destruct (eid e =? x)%nat; [apply Hf|apply same_id_refl]).
  assert (Hids : forall l, Forall2 same_id l (map g l)) by (induction l; constructor; auto).
  assert (Hlive : live (ft_update f x t) = map g (live t)) by (unfold live; cbn [buckets ft_update with_buckets]; by rewrite concat_map).
  assert (Hk : keys (ft_update f x t) = keys t) by (unfold keys; rewrite Hlive; by apply same_ids_ident).
  split_and!; [|done|done]. assert (He : map eid (live (ft_update f x t)) = map eid (live t)) by (by rewrite <- !keys_fst, Hk).
  destruct Ht as [Hs Hm Hb Hloc Hc Hst]. split; cbn [ft_update with_buckets size mask buckets next_eid aged st_add st_rm]; try done.
  - by rewrite length_map.
  - intros i b. rewrite list_lookup_fmap. destruct (buckets t !! i) as [b0|] eqn:E; [|done]. intros [= <-].
    eapply same_ids_located; [apply Hids|]. by apply (Hloc i b0).
  - change (with_buckets t _) with (ft_update f x t). by rewrite He.
  - change (with_buckets t _) with (ft_update f x t). rewrite Hst. do 2 f_equal.
    apply (f_equal length) in He. by rewrite !length_map in He.
Qed.

Lemma update_flow_ok px ph a f x :
  (forall e, same_id e (f e)) -> app_ok px ph a -> is_Some (a_data a !! x) ->
  exists t, update_flow f x a = Some (with_ft t a) /\ app_ok px ph (with_ft t a) /\ keys t = keys (a_ft a).
Proof.
  intros Hf Ha Hx%(ok_data _ _ _ Ha). destruct (find_live_Some _ _ Hx) as (e & He & _). unfold update_flow.
  rewrite He. obind. destruct (update_keys f x (a_ft a) Hf (ok_table _ _ _ Ha)) as (Ht & Hk & _).
  eexists. split; [done|]. split; [by apply table_ok|done].
Qed.

(** ** A new flow *)

Definition installed (a : app) (h : nat) (f : hw_flow) : Prop := a_hw a !! h = Some f /\ h_gone f = false.

(** The entries in the hardware are those there were. *)
Definition same_entries (a a' : app) : Prop := forall h f, installed a' h f <-> installed a h f.

(** ... and a new one. *)
Definition one_more_entry (h : nat) (a a' : app) : Prop :=
  (forall f, ~ installed a h f) /\ (exists f, installed a' h f) /\
  forall h' f, h' <> h -> installed a' h' f <-> installed a h' f.

(** DOCA Flow reports what it documents, and the status structure can be
    allocated (the code does not check that). *)
Record env_ok (E : env) : Prop := {
  env_status : e_oom_status E = false;
  env_cbs : forall a, allowed false (e_cbs E a) a
}.

(** The getters find what they read, and the port is one of the application's. *)
Record readable (D : dpdk) (p : packet) : Prop := {
  rd_key : exists r k, simple_fwd_ft_key_fill D p key0 = Some (r, k);
  rd_match : ptun_type (p_info p) <> TUN_NONE -> exists m, simple_fwd_build_entry_match D p = Some m;
  rd_port : 0 <= p_port p < SIMPLE_FWD_PORTS
}.

Lemma select_pipe_readable D p : readable D p -> exists pp, simple_fwd_select_pipe p = Some pp.
Proof.
  intros [_ _ Hp]. unfold simple_fwd_select_pipe, SIMPLE_FWD_PORTS in *. destruct (ptun_type _); [eauto|..];
    (rewrite (proj2 (andb_true_iff _ _)) by lia; eauto).
Qed.

Lemma kept_entries a a' h f : kept a a' -> installed a' h f <-> installed a h f.
Proof. intros Hk. split; intros [Hh Hg]; (split; [|done]); by apply (kept_hw _ _ Hk). Qed.

Lemma rm_entries h a b a' : rm_entry h a = Some (b, a') -> forall h' f, installed a' h' f <-> h' <> h /\ installed a h' f.
Proof.
  unfold rm_entry. destruct (a_hw a !! h) as [g|] eqn:Hg; obind; [|done]. destruct (h_gone g) eqn:Hgg; [done|].
  intros [= _ <-] h' f. unfold installed. cbn [a_hw with_hw]. split.
  - intros [Hl Hf]. rewrite lookup_insert_Some in Hl. destruct Hl as [[<- <-]|[? Hl]]; [done|]. auto.
  - intros [Hne [Hl Hf]]. by rewrite lookup_insert_ne.
Qed.

Lemma pipe_add_entry_ok D E queue p x k d a :
  app_ok (Some x) None a -> env_ok E -> readable D p -> simple_fwd_ft_key_fill D p key0 = Some (0, k) ->
  (x, k) ∈ keys (a_ft a) -> a_data a !! x = Some d -> is_hw d = false ->
  exists r a', simple_fwd_pipe_add_entry D E queue p x a = Some (r, a') /\ a_ft a' = a_ft a /\ a_data a' = a_data a /\
    match r with
    | None => app_ok (Some x) None a' /\ same_entries a a'
    | Some (h, age) => app_ok (Some x) (Some h) a' /\ one_more_entry h a a' /\ 5 <= age < 60
    end.
Proof.
  intros Ha HE Hp Hk Hxk Hd Hhw. unfold simple_fwd_pipe_add_entry.
  destruct (select_pipe_readable _ _ Hp) as [opp Hpp]. rewrite Hpp. obind.
  assert (Hnone : app_ok (Some x) None a /\ same_entries a a) by done.
  destruct opp as [pp|]; [|by exists None, a].
  rewrite (env_status _ HE). destruct (select_pipe_tunnel _ _ Hpp) as [_ Ht].
  destruct (rd_match _ _ Hp Ht) as [m Hm]. rewrite Hm. obind.
  destruct (e_add E); cbn [negb]; [|by exists None, a].
  pose proof (build_matches D p k m pp queue (e_rand E) (a_next a) (e_rm E) Hk Hm Hpp) as Hmt.
  pose proof (install_pending_ok a x k d queue pp m _ (e_rm E) Ha Hxk Hd Hhw Hmt) as H1. cbn zeta in H1.
  set (mon := simple_fwd_build_entry_monitor (e_rand E)) in *. set (h := S (a_next a)) in *.
  set (f := HwFlow queue pp m 1 mon (a_next a) (e_rm E) false) in *.
  set (a1 := with_hw (<[h := f]> (a_hw a)) _) in H1.
  change (with_hw _ _) with a1.
  assert (Hfresh : forall g, ~ installed a h g).
  { intros g [Hg _]. destruct (ok_fresh _ _ _ Ha h g Hg). subst h. lia. }
  assert (Hi1 : forall h' g, installed a1 h' g <-> h' = h /\ g = f \/ installed a h' g).
  { intros h' g. unfold installed at 1. cbn [a_hw a1 with_hw]. rewrite lookup_insert_Some. split.
    - intros [[[<- <-]|[? ?]] ?]; [by left|by right].
    - intros [[-> ->]|Hi]; [by auto|]. split; [|apply Hi]. right. split; [|apply Hi]. intros <-. by apply (Hfresh g). }
  destruct (completions_ok _ _ false _ _ H1 (env_cbs _ HE a1)) as (a2 & Hpr & H2 & Hkept & _); [done|]. specialize (Hkept eq_refl).
  rewrite Hpr. obind. pose proof Hkept as [Hft Hda _ Hhw2].
  assert (Hi2 : forall h' g, installed a2 h' g <-> installed a1 h' g) by (intros; by apply kept_entries).
  destruct (give_up_ok _ _ _ H2) as (b & a3 & Hrm & H3 & Hft3 & Hda3).
  assert (Hgive : same_entries a a3).
  { intros h' g. rewrite (rm_entries _ _ _ _ Hrm), Hi2, Hi1. split; [naive_solver|]. intros Hi. split; [|by right].
    intros ->. by apply (Hfresh g). }
  assert (Hfail : exists r a', ('(_, a) ← rm_entry h a2; Some (None, a)) = Some (r, a') /\ a_ft a' = a_ft a /\ a_data a' = a_data a /\
    match r with
    | None => app_ok (Some x) None a' /\ same_entries a a'
    | Some (h, age) => app_ok (Some x) (Some h) a' /\ one_more_entry h a a' /\ 5 <= age < 60
    end).
  { rewrite Hrm. obind. exists None, a3. split_and!; [done|by rewrite Hft3, Hft|by rewrite Hda3, Hda|done|done]. }
  destruct (e_process E); cbn [negb]; [|exact Hfail].
  destruct (ok_ph _ _ _ H2 h eq_refl) as (_ & _ & f2 & st & k2 & Hf2 & Hg2 & Hst & _).
  assert (Hf2' : f2 = f) by (apply Hhw2 in Hf2; [|done]; cbn [a_hw a1 with_hw] in Hf2; rewrite lookup_insert_eq in Hf2; congruence).
  subst f2. cbn [h_status f] in Hst. rewrite Hst. obind. destruct (_ || _); [exact Hfail|].
  eexists (Some (h, _)), a2. split_and!; [reflexivity|done|done|done| |apply monitor_age|apply monitor_age].
  split_and!; [done| |].
  - exists f. apply Hi2, Hi1. by left.
  - intros h' g Hne. rewrite Hi2, Hi1. naive_solver.
Qed.

(** A flow is kept with an entry of its own, or nothing is kept. *)
Definition new_flow_outcome (D : dpdk) (p : packet) (r : option nat) (a a' : app) : Prop :=
  match r with
  | None => keys (a_ft a') ≡ₚ keys (a_ft a) /\ same_entries a a'
  | Some x => exists k h, simple_fwd_ft_key_fill D p key0 = Some (0, k) /\
      keys (a_ft a') ≡ₚ (x, k) :: keys (a_ft a) /\ owns a' h x /\ one_more_entry h a a'
  end.

Lemma add_new_cases D now hz oom t p r oe ot :
  simple_fwd_ft_add_new D now hz oom (Some t) p = Some (r, oe, ot) ->
  oe = None /\ ot = Some t \/ exists e t', oe = Some e /\ ot = Some t' /\
    simple_fwd_ft_add_new D now hz false (Some t) p = Some (DOCA_SUCCESS, Some e, Some t').
Proof.
  unfold simple_fwd_ft_add_new. destruct (simple_fwd_ft_key_fill D p key0) as [[r0 k]|]; obind; [|done].
  destruct (negb (r0 =? 0)); [intros [= _ <- <-]; by left|]. destruct oom; [intros [= _ <- <-]; by left|].
  destruct (rd _ _); obind; [|done]. destruct (wr _ _ _); obind; [|done]. intros [= _ <- <-]. right. eauto.
Qed.

Lemma add_new_defined D now hz oom t p :
  ft_ok t -> (exists r k, simple_fwd_ft_key_fill D p key0 = Some (r, k)) ->
  exists r oe ot, simple_fwd_ft_add_new D now hz oom (Some t) p = Some (r, oe, ot).
Proof.
  intros Ht (r & k & Hk). unfold simple_fwd_ft_add_new. rewrite Hk. obind.
  destruct (negb _); [eauto|]. destruct oom; [eauto|].
  destruct (rd_Some (buckets t) (bucket_idx t (p_rss p))) as [b Hb];
    [rewrite (ok_buckets t Ht); by apply bucket_idx_range|]. rewrite Hb. obind.
  destruct (bucket_split _ _ _ Hb) as (pre & post & _ & _ & Hwr). rewrite Hwr. obind. eauto.
Qed.

(** The data of the pending flow. *)
Lemma update_pending_ok ph a x q h d :
  app_ok (Some x) ph a -> a_data a !! x = Some d -> is_hw d = false ->
  update_data (set_queue_hw q h) x a = Some (with_data (<[x := set_queue_hw q h d]> (a_data a)) a) /\
  app_ok (Some x) ph (with_data (<[x := set_queue_hw q h d]> (a_data a)) a).
Proof.
  intros Ha Hd Hhw. unfold update_data. rewrite Hd. split; [done|].
  eapply data_ok; [done|exact Hd|done|]. intros E. congruence.
Qed.

(** The pending entry is installed: the last steps of a new flow ... *)
Lemma install_ok a x h d age now hz :
  app_ok (Some x) (Some h) a -> a_data a !! x = Some d -> is_hw d = false -> hw_entry d = Some h ->
  exists a', (a ← update_flow (fun e => simple_fwd_ft_update_age_sec e age) x a;
              a ← update_flow (simple_fwd_ft_update_expiration now hz) x a;
              update_data set_is_hw x a) = Some a' /\
    app_ok None None a' /\ keys (a_ft a') = keys (a_ft a) /\ owns a' h x /\ a_hw a' = a_hw a /\
    a_data a' = <[x := set_is_hw d]> (a_data a).
Proof.
  intros H4 Hd Hhw Hh.
  destruct (update_flow_ok (Some x) (Some h) a (fun e => simple_fwd_ft_update_age_sec e age) x) as (t5 & -> & H5 & Hk5);
    [done|done|by eexists|]. obind.
  destruct (update_flow_ok (Some x) (Some h) (with_ft t5 a) (simple_fwd_ft_update_expiration now hz) x)
    as (t6 & -> & H6 & Hk6); [apply update_expiration_same|done|by eexists|]. obind.
  set (a6 := with_ft t6 _) in *.
  pose proof (commit_ok a6 x h d H6 Hd Hh) as H7. unfold update_data. change (a_data a6) with (a_data a) in *.
  rewrite Hd. obind. eexists. split_and!; [done|exact H7| | |done|done].
  - cbn [a_ft a6 with_data with_ft] in *. congruence.
  - destruct (ok_ph _ _ _ H6 h eq_refl) as (x' & [= <-] & Hb). split; [exact Hb|].
    exists (set_is_hw d). split_and!; [|done|done]. cbn [a_data with_data]. by rewrite lookup_insert_eq.
Qed.

(** ... or the flow is given up. *)
Lemma abandon_ok a x k l :
  app_ok (Some x) None a -> (x, k) ∈ keys (a_ft a) -> keys (a_ft a) ≡ₚ (x, k) :: l ->
  exists a', destroy_flow x a = Some a' /\ app_ok None None a' /\ keys (a_ft a') ≡ₚ l /\ a_hw a' = a_hw a.
Proof.
  intros H4 Hin Hk. destruct (ok_px _ _ _ H4 x eq_refl) as (d & Hd & _).
  destruct (destroy_flow_eq _ _ a x H4) as (t5 & k5 & -> & Ht5 & Hk5 & _); [by eexists|].
  destruct (remove_pending_ok a t5 x k5 H4 Ht5 Hk5) as (a5 & -> & H5 & Hft5 & Hhw5).
  exists a5. split_and!; [done|done| |done]. rewrite Hft5.
  assert (k5 = k) as ->.
  { apply (keys_unique (a_ft a) x); [apply H4| |done]. rewrite Hk5. by apply elem_of_cons; left. }
  rewrite Hk in Hk5. by apply Permutation_cons_inv in Hk5.
Qed.

Lemma handle_new_flow_ok D E queue p a :
  app_ok None None a -> env_ok E -> readable D p ->
  exists r a', simple_fwd_handle_new_flow D E queue p a = Some (r, a') /\ app_ok None None a' /\
    new_flow_outcome D p r a a' /\
    match r with
    | Some x => exists d, a_data a' = <[x := d]> (a_data a) /\ total_pkts d = 0
    | None => True
    end.
Proof.
  intros Ha HE Hp. unfold simple_fwd_handle_new_flow.
  destruct (add_new_defined D (e_now E) (e_hz E) (e_oom_ft E) _ _ (ok_table _ _ _ Ha) (rd_key _ _ Hp))
    as (r & oe & ot & Hadd). rewrite Hadd. obind.
  apply add_new_cases in Hadd as [[-> ->]|(e & t & -> & -> & Hadd)]; [by exists None, a|].
  destruct (add_new_keys _ _ _ _ _ _ _ (ok_table _ _ _ Ha) Hadd) as (Ht & Hag & _ & Hk & Hfill). clear Hadd.
  set (x := eid e) in *. set (k := key e) in *. clearbody x k.
  pose proof (add_flow_ok a t x k pipe_entry0 Ha Ht Hk eq_refl) as H1. set (a1 := with_data _ (with_ft t a)) in *.
  destruct (update_pending_ok None a1 x queue None pipe_entry0 H1) as [Hu2 H2]; [apply lookup_insert_eq|done|].
  rewrite Hu2. obind. set (d2 := set_queue_hw _ _ _) in *. set (a2 := with_data (<[x := d2]> _) a1) in *.
  destruct (pipe_add_entry_ok D E queue p x k d2 a2 H2 HE Hp Hfill) as (rh & a3 & Hadd & Hft3 & Hda3 & H3);
    [|apply lookup_insert_eq|done|].
  { cbn [a_ft a2 a1 with_data with_ft]. rewrite Hk. by apply elem_of_cons; left. }
  rewrite Hadd. obind.
  assert (Hd3 : a_data a3 !! x = Some d2) by (rewrite Hda3; apply lookup_insert_eq).
  destruct rh as [[h age]|]; cbn [fmap option_fmap option_map fst].
  - destruct H3 as (H3 & Hone & _).
    destruct (update_pending_ok _ a3 x queue (Some h) d2 H3 Hd3) as [Hu4 H4]; [done|].
    rewrite Hu4. obind. set (d4 := set_queue_hw queue (Some h) d2) in *. set (a4 := with_data _ a3) in *.
    destruct (install_ok a4 x h d4 age (e_now2 E) (e_hz E) H4) as (a7 & Hrun & H7 & Hk7 & Ho & Hhw7 & Hda7);
      [apply lookup_insert_eq|done|done|].
    exists (Some x), a7. split_and!; [|done| |].
    + destruct (update_flow _ x a4) as [a5|]; [|done]. cbn [mbind option_bind] in *.
      destruct (update_flow _ x a5) as [a6|]; [|done]. cbn [mbind option_bind] in *. by rewrite Hrun.
    + exists k, h. split_and!; [done| |done|].
      * rewrite Hk7. cbn [a_ft a4 with_data]. by rewrite Hft3.
      * unfold one_more_entry, installed. rewrite Hhw7. exact Hone.
    + exists (set_is_hw d4). split; [|done]. rewrite Hda7. cbn [a_data a4 with_data].
      rewrite Hda3. cbn [a_data a2 a1 with_data with_ft]. by rewrite !insert_insert_eq.
  - destruct H3 as (H3 & Hsame).
    destruct (update_pending_ok _ a3 x queue None d2 H3 Hd3) as [Hu4 H4]; [done|].
    rewrite Hu4. obind. set (a4 := with_data _ a3) in *.
    assert (Hk4 : keys (a_ft a4) ≡ₚ (x, k) :: keys (a_ft a)) by (cbn [a_ft a4 with_data]; by rewrite Hft3).
    destruct (abandon_ok a4 x k (keys (a_ft a)) H4) as (a5 & -> & H5 & Hk5 & Hhw5); [|done|].
    { rewrite Hk4. by apply elem_of_cons; left. } obind.
    exists None, a5. split_and!; [done|done| |done]. split; [done|].
    intros h' g. unfold installed. rewrite Hhw5. apply (Hsame h' g).
Qed.

(** ** Packets *)

Lemma parsed_readable m q h :
  181 <= Z.of_nat (length m) -> 0 <= q < SIMPLE_FWD_PORTS -> forall len,
  exists r i, simple_fwd_parse_packet wire m 0 len pinfo0 = Some (r, i) /\
    (r = 0 -> l2 (outer i) = Some 0 /\
       readable wire {| p_buf := m; p_info := i; p_port := q; p_rss := h |}).
Proof.
  intros Hl Hq len. destruct (parse_packet_bounds m len Hl) as (r & i & Hp & Hr). exists r, i. split; [done|].
  intros E. destruct (Hr E) as (Hl2 & Hout & Hin). split; [done|].
  destruct (layer_getters m _ _ _ _ Hout) as (Hty & o3 & src & dst & sp & dp & H3 & Hs & Hd & Hsp & Hdp); [lia..|].
  destruct (rd_bytes_Some m (0 + ether_dst_addr wire) 6) as (dm & Hdm & _); [cbn; lia..|].
  destruct (rd_bytes_Some m (0 + ether_src_addr wire) 6) as (sm & Hsm & _); [cbn; lia..|].
  assert (Hinner : ptun_type i <> TUN_NONE -> exists o3 src dst sp dp, l3 (inner i) = Some o3 /\
    rd_be m (o3 + ip_src_addr wire) 4 = Some src /\ rd_be m (o3 + ip_dst_addr wire) 4 = Some dst /\
    simple_fwd_pinfo_src_port wire m (inner i) = Some sp /\ simple_fwd_pinfo_dst_port wire m (inner i) = Some dp).
  { intros Ht. destruct (Hin Ht) as (d & o & n & ? & ? & Hb). by apply (layer_getters m _ _ _ _ Hb). }
  split; cbn [p_info p_buf p_port]; [| |done].
  - unfold simple_fwd_ft_key_fill, simple_fwd_ft_key_get_ipv4_src, simple_fwd_ft_key_get_ipv4_dst,
      simple_fwd_ft_key_get_src_port, simple_fwd_ft_key_get_dst_port, simple_fwd_pinfo_outer_ipv4_src,
      simple_fwd_pinfo_outer_ipv4_dst, simple_fwd_pinfo_inner_ipv4_src, simple_fwd_pinfo_inner_ipv4_dst,
      simple_fwd_pinfo_inner_src_port, simple_fwd_pinfo_inner_dst_port, simple_fwd_pinfo_outer_src_port,
      simple_fwd_pinfo_outer_dst_port.
    cbn [p_info p_buf p_port]. rewrite Hty. cbn [negb Z.eqb IPV4 Pos.eqb].
    destruct (bool_decide_reflect (ptun_type i = TUN_NONE)) as [Ht|Ht]; cbn [negb].
    + rewrite H3. obind. rewrite Hs, Hd, Hsp, Hdp. obind. eauto.
    + destruct (Hinner Ht) as (o3' & src' & dst' & sp' & dp' & H3' & Hs' & Hd' & Hsp' & Hdp').
      rewrite H3'. obind. rewrite Hs', Hd', Hsp', Hdp'. obind. eauto.
  - intros Ht. destruct (Hinner Ht) as (o3' & src' & dst' & sp' & dp' & H3' & Hs' & Hd' & Hsp' & Hdp').
    unfold simple_fwd_build_entry_match, simple_fwd_pinfo_outer_mac_dst, simple_fwd_pinfo_outer_mac_src,
      simple_fwd_pinfo_outer_ipv4_src,
      simple_fwd_pinfo_outer_ipv4_dst, simple_fwd_pinfo_inner_ipv4_src, simple_fwd_pinfo_inner_ipv4_dst,
      simple_fwd_pinfo_inner_src_port, simple_fwd_pinfo_inner_dst_port, simple_fwd_pinfo_outer_src_port,
      simple_fwd_pinfo_outer_dst_port.
    cbn [p_info p_buf p_port]. rewrite Hl2, H3, H3'. obind.
    rewrite Hdm. obind. rewrite Hsm. obind. rewrite Hd, Hs, Hsp, Hdp, Hd', Hs', Hsp', Hdp'. obind.
    destruct (ptun_type i); eauto.
Qed.

(** The entry [x] is in the bucket of the hash. *)
Definition in_bucket (t : ft) (x : nat) (hash : Z) : Prop :=
  exists b, rd (buckets t) (bucket_idx t hash) = Some b /\ x ∈ map eid b.

Lemma lookup_found t k e : SimpleFwdFt.lookup t k = Some e ->
  (eid e, key e) ∈ keys t /\ simple_fwd_ft_key_equal (key e) k = true /\ in_bucket t (eid e) (rss_hash k).
Proof.
  unfold SimpleFwdFt.lookup. destruct (rd _ _) as [b|] eqn:Hb; obind; [|done].
  intros [Hin Heq]%List.find_some. split_and!; [|done|exists b; split; [done|]; by apply list_elem_of_fmap_2, list_elem_of_In].
  unfold keys. apply (list_elem_of_fmap_2 ident). unfold live. apply list_elem_of_In, in_concat.
  exists b. split; [|done]. apply list_elem_of_In. unfold rd in Hb. destruct (decide _); [|done]. by eapply list_elem_of_lookup_2.
Qed.

(** What handling a packet does: it finds the flow of its key, and counts the
    packet there; it adds one; or it changes nothing. *)
Inductive packet_outcome (D : dpdk) (p : packet) (r : Z) (a a' : app) : Prop :=
| out_ignored : r = -1 -> a' = a -> simple_fwd_need_new_ft p = false -> packet_outcome D p r a a'
| out_found x k k' d h : r = 0 -> simple_fwd_ft_key_fill D p key0 = Some (0, k) ->
    (x, k') ∈ keys (a_ft a) -> simple_fwd_ft_key_equal k' k = true -> in_bucket (a_ft a) x (rss_hash k) ->
    keys (a_ft a') = keys (a_ft a) -> a_hw a' = a_hw a -> a_data a !! x = Some d -> a_data a' = <[x := count_pkt d]> (a_data a) -> owns a' h x ->
    packet_outcome D p r a a'
| out_new x k h : r = 0 -> simple_fwd_ft_key_fill D p key0 = Some (0, k) ->
    SimpleFwdFt.lookup (a_ft a) k = None ->
    keys (a_ft a') ≡ₚ (x, k) :: keys (a_ft a) -> owns a' h x -> one_more_entry h a a' ->
    (exists d, a_data a' = <[x := d]> (a_data a) /\ total_pkts d = 1) -> packet_outcome D p r a a'
| out_refused : r = -1 -> keys (a_ft a') ≡ₚ keys (a_ft a) -> same_entries a a' -> packet_outcome D p r a a'.

Lemma ft_find_keys D now hz t p :
  ft_ok t -> (exists r k, simple_fwd_ft_key_fill D p key0 = Some (r, k)) ->
  exists r oe t', simple_fwd_ft_find D now hz t p = Some (r, oe, t') /\ ft_ok t' /\ keys t' = keys t /\
    match oe with
    | Some e => exists k k', simple_fwd_ft_key_fill D p key0 = Some (0, k) /\ (eid e, k') ∈ keys t /\
        simple_fwd_ft_key_equal k' k = true /\ in_bucket t (eid e) (rss_hash k)
    | None => t' = t /\ forall k, simple_fwd_ft_key_fill D p key0 = Some (0, k) -> SimpleFwdFt.lookup t k = None
    end.
Proof.
  intros Ht (r & k & Hk). unfold simple_fwd_ft_find. rewrite Hk. obind.
  destruct (Z.eqb_spec r 0) as [->|Hr]; cbn [negb].
  2:{ do 3 eexists. split; [reflexivity|]. split_and!; try done. intros k' [= ? _]. done. }
  destruct (find_ok now hz t k Ht) as (o & t' & Hf & _ & _ & _ & Hl & _). rewrite Hf. obind.
  destruct (find_keys _ _ _ _ _ _ Hf Ht) as (Ht' & Hk' & _ & Ho).
  destruct (SimpleFwdFt.lookup t k) as [e0|] eqn:He; destruct o as [e|]; try done; do 3 eexists; (split; [reflexivity|]).
  - injection Hl as Hid. destruct (lookup_found _ _ _ He) as (? & ? & ?). split_and!; [done..|].
    exists k, (key e0). by rewrite Hid.
  - split_and!; [done..|]. by intros k' [= <-].
Qed.

Lemma count_pkt_ok a x d : app_ok None None a -> a_data a !! x = Some d ->
  app_ok None None (with_data (<[x := count_pkt d]> (a_data a)) a).
Proof. intros Ha Hd. by eapply data_ok. Qed.

Lemma handle_packet_ok D E queue p a :
  app_ok None None a -> env_ok E -> readable D p ->
  exists r a', simple_fwd_handle_packet D E queue p a = Some (r, a') /\ app_ok None None a' /\
    packet_outcome D p r a a'.
Proof.
  intros Ha HE Hp. unfold simple_fwd_handle_packet.
  destruct (simple_fwd_need_new_ft p) eqn:Hneed; cbn [negb].
  2:{ exists (-1), a. split_and!; [done..|]. by apply out_ignored. }
  destruct (ft_find_keys D (e_now E) (e_hz E) _ p (ok_table _ _ _ Ha) (rd_key _ _ Hp)) as (r & oe & t & -> & Ht & Hk & Ho).
  obind. pose proof (table_ok _ _ _ t Ha Ht Hk) as H1. destruct oe as [e|]; obind.
  - destruct Ho as (k & k' & Hfill & Hin & Heq & Hb).
    assert (Hx : is_Some (a_data a !! eid e)) by (apply (ok_data _ _ _ Ha); by apply (list_elem_of_fmap_2 fst) in Hin).
    destruct Hx as [d Hd]. unfold update_data. cbn [a_data with_ft]. rewrite Hd. obind.
    pose proof (count_pkt_ok _ _ _ H1 Hd) as H2. do 2 eexists. split; [reflexivity|]. split; [exact H2|].
    destruct (ok_flow _ _ _ H2 (eid e)) as [h Hh]; [cbn [a_data with_data]; rewrite lookup_insert_eq; by eexists|done|].
    by apply (out_found D p _ _ _ (eid e) k k' d h).
  - destruct Ho as [-> Habs]. destruct (handle_new_flow_ok D E queue p (with_ft (a_ft a) a) H1 HE Hp) as (ox & a2 & Hn & H2 & Hout & Hx).
    rewrite Hn. obind. destruct ox as [x|].
    + destruct Hx as (d & Hda & Hd0). unfold update_data.
      assert (Hd : a_data a2 !! x = Some d) by (rewrite Hda; apply lookup_insert_eq). rewrite Hd. obind.
      do 2 eexists. split; [reflexivity|]. split; [by apply count_pkt_ok|].
      destruct Hout as (k & h & Hfill & Hk2 & Hown & Hone). apply out_new with x k h; [done|done|by apply Habs|done| |done|].
      2:{ exists (count_pkt d). cbn [a_data with_data]. rewrite Hda, insert_insert_eq. split; [done|]. cbn [total_pkts count_pkt]. by rewrite Hd0. }
      destruct Hown as [Hb (d' & Hd' & Hhw & He)]. split; [exact Hb|]. exists (count_pkt d).
      rewrite Hd in Hd'. injection Hd' as <-. split_and!; [|done|done]. cbn [a_data with_data]. by rewrite lookup_insert_eq.
    + do 2 eexists. split; [reflexivity|]. split; [done|]. destruct Hout. by apply out_refused.
Qed.

(** ** Types and uniqueness of keys *)

Record packet_typed (p : packet) : Prop := {
  ty_buf : Forall byte_ok (p_buf p);
  ty_info : pinfo_ok (p_info p);
  ty_port : in_u 16 (p_port p);
  ty_rss : in_u 32 (p_rss p)
}.

Lemma port_typed D buf f v : Forall byte_ok buf ->
  simple_fwd_pinfo_src_port D buf f = Some v \/ simple_fwd_pinfo_dst_port D buf f = Some v -> in_u 16 v.
Proof.
  intros Hb. unfold simple_fwd_pinfo_src_port, simple_fwd_pinfo_dst_port.
  destruct (l4_type f =? DOCA_PROTO_TCP), (l4_type f =? DOCA_PROTO_UDP), (l4 f); obind; intros [H|H]; try done;
    solve [by apply (rd_be_in_u _ _ 2) in H | by injection H as <-].
Qed.

Lemma ip_typed buf o v : Forall byte_ok buf -> rd_be buf o 4 = Some v -> in_u 32 v.
Proof. intros Hb Hv. by apply (rd_be_in_u _ _ 4) in Hv. Qed.

(** The key of a packet has values of its fields' types. *)
Lemma key_fill_typed D p k : packet_typed p -> simple_fwd_ft_key_fill D p key0 = Some (0, k) -> key_ok k.
Proof.
  intros [Hb [Ho Hi Hu] Hp Hr] Hk. unfold simple_fwd_ft_key_fill in Hk.
  destruct (negb (l3_type _ =? _)) in Hk; [done|].
  unfold simple_fwd_ft_key_get_ipv4_src, simple_fwd_ft_key_get_ipv4_dst, simple_fwd_ft_key_get_src_port,
    simple_fwd_ft_key_get_dst_port, simple_fwd_pinfo_outer_ipv4_src, simple_fwd_pinfo_outer_ipv4_dst,
    simple_fwd_pinfo_inner_ipv4_src, simple_fwd_pinfo_inner_ipv4_dst, simple_fwd_pinfo_inner_src_port,
    simple_fwd_pinfo_inner_dst_port, simple_fwd_pinfo_outer_src_port, simple_fwd_pinfo_outer_dst_port in Hk.
  assert (Hty : in_u 8 (tun_type_nb (ptun_type (p_info p)))) by (by destruct (ptun_type (p_info p))).
  pose proof (union_field_in_u _ 0 4 Hu ltac:(lia)) as Hv.
  destruct (bool_decide _); cbn [negb] in Hk.
  - destruct (l3 (outer (p_info p))) as [o3|]; [|done]. cbn [mbind option_bind] in Hk.
    destruct (rd_be _ (o3 + ip_src_addr D) 4) as [src|] eqn:H1; [|done]. destruct (rd_be _ (o3 + ip_dst_addr D) 4) as [dst|] eqn:H2; [|done].
    destruct (simple_fwd_pinfo_src_port D _ _) as [sp|] eqn:H3; [|done].
    destruct (simple_fwd_pinfo_dst_port D _ _) as [dp|] eqn:H4; [|done]. cbn [mbind option_bind] in Hk. injection Hk as <-.
    split; cbn; split_and?; try done; try (by eapply ip_typed); by eapply port_typed; eauto.
  - destruct (l3 (inner (p_info p))) as [o3|]; [|done]. cbn [mbind option_bind] in Hk.
    destruct (rd_be _ (o3 + ip_src_addr D) 4) as [src|] eqn:H1; [|done]. destruct (rd_be _ (o3 + ip_dst_addr D) 4) as [dst|] eqn:H2; [|done].
    destruct (simple_fwd_pinfo_src_port D _ _) as [sp|] eqn:H3; [|done].
    destruct (simple_fwd_pinfo_dst_port D _ _) as [dp|] eqn:H4; [|done]. cbn [mbind option_bind] in Hk. injection Hk as <-.
    split; cbn; split_and?; try done; try (by eapply ip_typed); by eapply port_typed; eauto.
Qed.

(** Keys are well typed, and those of one flow and hash are one entry's. *)
Record keys_ok (l : list (nat * ft_key)) : Prop := {
  keys_typed : forall x k, (x, k) ∈ l -> key_ok k;
  keys_distinct : forall x k x' k', (x, k) ∈ l -> (x', k') ∈ l -> same_flow k k' -> rss_hash k = rss_hash k' -> x = x'
}.

Lemma keys_ok_incl l l' : (forall q, q ∈ l' -> q ∈ l) -> keys_ok l -> keys_ok l'.
Proof.
  intros Hi [H1 H2]. split; [intros x k Hx; by apply (H1 x k), Hi|].
  intros x k x' k' Hx Hx'. by apply H2; apply Hi.
Qed.

#[global] Instance keys_ok_perm : Proper (Permutation ==> iff) keys_ok.
Proof. intros l l' Hl. split; apply keys_ok_incl; intros q; by rewrite Hl. Qed.

(** A key that a search does not find is new. *)
Lemma lookup_none t k x k' :
  ft_ok t -> key_ok k -> key_ok k' -> SimpleFwdFt.lookup t k = None -> (x, k') ∈ keys t ->
  same_flow k' k -> rss_hash k' = rss_hash k -> False.
Proof.
  intros Ht Hk Hk' Hl Hin Hs Hr. unfold keys in Hin. apply list_elem_of_fmap in Hin as (e & [= -> ->] & He).
  unfold live in He. apply list_elem_of_In, in_concat in He as (b & Hb & He).
  apply list_elem_of_In, list_elem_of_lookup in Hb as [i Hb].
  pose proof (ok_located t Ht i b Hb) as Hloc. rewrite Forall_forall in Hloc.
  destruct (Hloc e) as [Hidx _]; [by apply list_elem_of_In|].
  unfold SimpleFwdFt.lookup in Hl. rewrite <- Hr, Hidx in Hl.
  assert (Hrd : rd (buckets t) (Z.of_nat i) = Some b).
  { unfold rd. pose proof (lookup_lt_Some _ _ _ Hb). rewrite decide_True by lia. by rewrite Nat2Z.id. }
  rewrite Hrd in Hl. cbn [mbind option_bind] in Hl. pose proof (List.find_none _ _ Hl e He) as E. cbn beta in E.
  by rewrite (proj2 (key_equal_same_flow _ _ Hk' Hk) Hs) in E.
Qed.

Lemma same_flow_sym k k' : same_flow k k' -> same_flow k' k.
Proof. unfold same_flow. naive_solver. Qed.

Lemma keys_ok_cons t x k :
  ft_ok t -> keys_ok (keys t) -> key_ok k -> SimpleFwdFt.lookup t k = None -> keys_ok ((x, k) :: keys t).
Proof.
  intros Ht [H1 H2] Hk Hl. split.
  - intros y ky [[= -> ->]|Hy]%elem_of_cons; [done|by eapply H1].
  - intros y ky y' ky' Hy Hy' Hs Hr. apply elem_of_cons in Hy as [[= -> ->]|Hy], Hy' as [[= -> ->]|Hy']; [done|..].
    + exfalso. apply (lookup_none t k y' ky' Ht Hk (H1 _ _ Hy') Hl Hy'); [by apply same_flow_sym|done].
    + exfalso. by apply (lookup_none t k y ky Ht Hk (H1 _ _ Hy) Hl Hy).
    + by apply (H2 y ky y' ky').
Qed.

Lemma outcome_keys D p r a a' :
  app_ok None None a -> packet_typed p -> packet_outcome D p r a a' -> keys_ok (keys (a_ft a)) -> keys_ok (keys (a_ft a')).
Proof.
  intros Ha Hp Ho Hk. destruct Ho as [_ -> _ | x k k' d h _ _ _ _ _ Heq _ _ _ _ | x k h _ Hf Hl Heq _ _ _ | _ Heq _].
  - done.
  - by rewrite Heq.
  - rewrite Heq. apply keys_ok_cons; try done; [apply Ha|by eapply key_fill_typed].
  - by rewrite Heq.
Qed.

(** A packet that was handled with success has its flow in the table. *)
Lemma outcome_flow D p a a' :
  packet_typed p -> keys_ok (keys (a_ft a)) -> packet_outcome D p 0 a a' ->
  exists x k k', simple_fwd_ft_key_fill D p key0 = Some (0, k) /\ (x, k') ∈ keys (a_ft a') /\ same_flow k' k.
Proof.
  intros Hp [Hty _] Ho. destruct Ho as [[=] | x k k' d h _ Hk Hin Heq _ Hks _ _ _ _ | x k h _ Hk _ Heq _ _ _ | [=]].
  - exists x, k, k'. rewrite Hks. split_and!; [done..|].
    apply key_equal_same_flow in Heq; [done|by eapply Hty|by eapply key_fill_typed].
  - exists x, k, k. split_and!; [done| |done]. rewrite Heq. by apply elem_of_cons; left.
Qed.
