(* ===== verification/SimpleFwdTheorems.v ===== *)
(** * The simple forward VNF: theorems

    Runs of the application (SimpleFwd.v): packets of the ports, passes of the
    aging thread and events of the hardware, in any order, one at a time.  The
    invariant is that of SimpleFwdSpec.v. *)

From stdpp Require Import gmap.
From S2P Require Import Prelude SimpleFwdPkt SimpleFwdFt SimpleFwd SimpleFwdSpec.
#[local] Open Scope Z_scope.

(** ** Runs *)

(** A received packet: a buffer of bytes with room for the longest headers, and
    the fields the driver sets. *)
Record mbuf_ok (m : mbuf) : Prop := {
  mb_bytes : Forall byte_ok (m_data m);
  mb_room : 181 <= Z.of_nat (length (m_data m));
  mb_port : 0 <= m_port m < SIMPLE_FWD_PORTS;
  mb_hash : in_u 32 (m_hash m)
}.

Inductive step (a : app) : app -> Prop :=
| step_packet E m queue diff a' :
    mbuf_ok m -> env_ok E -> simple_fwd_process_offload wire E m queue a = Some (diff, a') -> step a a'
| step_hw_aging cs queue a' :
    allowed true cs a -> simple_fwd_handle_aging cs queue a = Some a' -> step a a'
| step_sw_aging now query lock i next a' :
    0 <= i < size (a_ft a) -> aging_pass now query lock i a = Some (next, a') -> step a a'.

(** The application after [simple_fwd_create_ins]. *)
Definition app0 (t : ft) (queues : Z) : app := App t ∅ ∅ ∅ 0 queues.

Definition SIMPLE_FWD_MAX_FLOWS : Z := 8096.

Lemma app0_ok t queues : ft_ok t -> live t = [] -> app_ok None None (app0 t queues).
Proof.
  intros Ht Hl. split; cbn [app0 a_ft a_data a_status a_hw a_next]; try done.
  - intros x. unfold keys. rewrite Hl, lookup_empty. split; [by intros []|]. by rewrite elem_of_nil.
  - intros x [? Hx]. by rewrite lookup_empty in Hx.
  - intros s. rewrite lookup_empty. split; [by intros []|]. intros (h & f & Hf & _). by rewrite lookup_empty in Hf.
Qed.

Lemma aging_pass_app_ok now query lock i a :
  app_ok None None a -> 0 <= i < size (a_ft a) ->
  exists next a', aging_pass now query lock i a = Some (next, a') /\ app_ok None None a' /\
    forall q, q ∈ keys (a_ft a') -> q ∈ keys (a_ft a).
Proof.
  intros Ha Hi. unfold aging_pass.
  destruct (aging_pass_ok now query lock _ i (ok_table _ _ _ Ha) Hi) as (next & t & Hp & Ht & _). rewrite Hp. obind.
  pose proof (aging_pass_keys _ _ _ _ _ _ _ (ok_table _ _ _ Ha) Hp) as Hk. destruct next.
  - destruct Hk as (x & k & Hag & Hk). rewrite (run_aged_one _ _ _ Hag).
    destruct (remove_owned_ok _ _ _ _ _ _ Ha Ht Hk) as (a' & -> & H' & Hft); [done|]. obind.
    exists true, a'. split_and!; [done..|]. intros q. rewrite Hft, Hk. intros ?. by apply elem_of_cons; right.
  - destruct Hk as [Hk Hag]. rewrite (run_aged_none _ _ Hag). obind. exists false, (with_ft t a).
    split_and!; [done|by apply table_ok|]. intros q. cbn [a_ft with_ft]. by rewrite Hk.
Qed.

Lemma hw_aging_ok cs queue a :
  app_ok None None a -> allowed true cs a ->
  exists a', simple_fwd_handle_aging cs queue a = Some a' /\ app_ok None None a' /\ fewer_keys a a'.
Proof.
  intros Ha Hal. unfold simple_fwd_handle_aging. destruct (_ <? _); [exists a; split_and!; [done..|by apply fewer_eq]|].
  destruct (completions_ok _ _ _ _ _ Ha Hal) as (a' & ? & ? & _ & ?); [done|]. by exists a'.
Qed.

Lemma offload_ok E m queue a :
  app_ok None None a -> env_ok E -> mbuf_ok m ->
  exists a', simple_fwd_process_offload wire E m queue a = Some (0, a') /\ app_ok None None a' /\
    (keys_ok (keys (a_ft a)) -> keys_ok (keys (a_ft a'))).
Proof.
  intros Ha HE [Hb Hl Hp Hh]. unfold simple_fwd_process_offload.
  destruct (parsed_readable (m_data m) (m_port m) (m_hash m) Hl Hp (m_len m)) as (r & i & Hparse & Hr).
  pose proof (parse_packet_typed _ _ Hb _ _ _ _ _ pinfo0_ok Hparse) as Hty. rewrite Hparse. obind.
  destruct (Z.eqb_spec r 0) as [->|]; cbn [negb]; [|by exists a]. destruct (Hr eq_refl) as [Hl2 Hread].
  destruct (negb _); [by exists a|]. set (p := Build_packet _ _ _ _) in *.
  destruct (handle_packet_ok wire E queue p a Ha HE Hread) as (r & a' & -> & H' & Hout). obind. rewrite Hl2. obind.
  exists a'. split_and!; [done..|]. apply (outcome_keys wire p r a a' Ha); [|done].
  split; cbn [p_buf p_info p_port p_rss p]; try done. unfold SIMPLE_FWD_PORTS in Hp. unfold in_u. lia.
Qed.

Lemma step_ok a a' : step a a' -> app_ok None None a /\ keys_ok (keys (a_ft a)) -> app_ok None None a' /\ keys_ok (keys (a_ft a')).
Proof.
  intros Hs [Ha Hk]. destruct Hs as [E m queue diff a' Hm HE Hp | cs queue a' Hal Hp | now query lock i next a' Hi Hp].
  - destruct (offload_ok E m queue a Ha HE Hm) as (a1 & Hp' & H1 & Hk1). rewrite Hp' in Hp. injection Hp as _ <-. auto.
  - destruct (hw_aging_ok cs queue a Ha Hal) as (a1 & Hp' & H1 & Hf). rewrite Hp' in Hp. injection Hp as <-.
    split; [done|]. by eapply keys_ok_incl.
  - destruct (aging_pass_app_ok now query lock i a Ha Hi) as (n & a1 & Hp' & H1 & Hf).
    rewrite Hp' in Hp. injection Hp as _ <-. split; [done|]. by eapply keys_ok_incl.
Qed.

Lemma keys_ok_nil : keys_ok [].
Proof. split; [intros x k H|intros x k x' k' H]; by apply elem_of_nil in H. Qed.

Lemma vnf_run_ok t queues a : ft_ok t -> live t = [] -> rtc step (app0 t queues) a ->
  app_ok None None a /\ keys_ok (keys (a_ft a)).
Proof.
  intros Ht Hl Hr.
  assert (H0 : app_ok None None (app0 t queues) /\ keys_ok (keys (a_ft (app0 t queues)))).
  { split; [by apply app0_ok|]. unfold keys. cbn [a_ft app0]. rewrite Hl. apply keys_ok_nil. }
  induction Hr; eauto using step_ok.
Qed.

(** ** A hardware that accepts *)

(** DOCA Flow accepts the entry and reports its addition at once. *)
Record accepting (E : env) : Prop := {
  acc_alloc : e_oom_ft E = false;
  acc_add : e_add E = true;
  acc_process : e_process E = true;
  acc_cbs : forall a f, a_hw a !! pred (a_next a) = Some f -> h_status f = pred (pred (a_next a)) ->
    e_cbs E a = [Completion (Some (h_status f)) true OP_ADD]
}.

Lemma pipe_add_accepted E queue p x a :
  env_ok E -> accepting E -> readable wire p -> ptun_type (p_info p) <> TUN_NONE ->
  exists h age a', simple_fwd_pipe_add_entry wire E queue p x a = Some (Some (h, age), a').
Proof.
  intros HE [_ Hadd Hproc Hcbs] Hp Ht. unfold simple_fwd_pipe_add_entry.
  destruct (select_pipe_readable _ _ Hp) as [opp Hpp]. rewrite Hpp. obind.
  destruct opp as [pp|].
  2:{ exfalso. unfold simple_fwd_select_pipe in Hpp. destruct (ptun_type (p_info p)); [done|..]; by destruct (_ && _). }
  rewrite (env_status _ HE). destruct (rd_match _ _ Hp Ht) as [m Hm]. rewrite Hm, Hadd. obind. cbn [negb].
  set (f := HwFlow _ _ _ _ _ _ _ _). set (a1 := with_hw _ _).
  rewrite (Hcbs a1 f); [|cbn [a1 a_hw a_next with_hw with_status with_next pred]; by rewrite lookup_insert_eq|done].
  cbn [process_completions deliver c_op c_ctx]. unfold deliver, simple_fwd_check_for_valid_entry.
  cbn [c_ctx c_op c_ok h_status f a1 a_status with_hw with_status]. rewrite lookup_insert_eq. obind.
  cbn [a_status with_hw with_status]. rewrite Hproc. cbn [negb]. rewrite lookup_insert_eq. obind.
  cbn [nb_processed failure]. change (swrap 32 (0 + 1) =? 1) with true. cbn [negb orb]. eauto.
Qed.

Lemma new_flow_accepted E queue p a r a' :
  app_ok None None a -> env_ok E -> accepting E -> readable wire p -> simple_fwd_need_new_ft p = true ->
  ptun_type (p_info p) <> TUN_NONE -> simple_fwd_handle_new_flow wire E queue p a = Some (r, a') -> r <> None.
Proof.
  intros Ha HE Hacc Hp Hneed Ht. unfold simple_fwd_handle_new_flow. intros Hn ->. revert Hn.
  destruct (rd_key _ _ Hp) as (r & k & Hk).
  assert (r = 0) as ->.
  { unfold simple_fwd_ft_key_fill in Hk. unfold simple_fwd_need_new_ft in Hneed.
    destruct (negb (l3_type _ =? _)); [done|]. revert Hk.
    repeat match goal with |- context [mbind _ ?m] => destruct m; obind; [|done] end. by intros [= <- _]. }
  destruct (add_new_defined wire (e_now E) (e_hz E) (e_oom_ft E) _ p (ok_table _ _ _ Ha)) as (rc & oe & ot & Hadd); [eauto|].
  rewrite Hadd. obind. rewrite (acc_alloc _ Hacc) in Hadd.
  assert (exists e t, oe = Some e /\ ot = Some t) as (e & t & -> & ->).
  { unfold simple_fwd_ft_add_new in Hadd. rewrite Hk in Hadd. cbn [mbind option_bind negb Z.eqb] in Hadd.
    destruct (rd _ _); [|done]. cbn [mbind option_bind] in Hadd. destruct (wr _ _ _); [|done]. injection Hadd as _ <- <-. eauto. }
  destruct (update_data _ _ _) as [a1|]; obind; [|done].
  destruct (pipe_add_accepted E queue p (eid e) a1 HE Hacc Hp Ht) as (h & age & a2 & ->). obind.
  destruct (update_data _ _ a2) as [a3|]; obind; [|done].
  destruct (update_flow _ _ a3) as [a4|]; obind; [|done].
  destruct (update_flow _ _ a4) as [a5|]; obind; [|done].
  by destruct (update_data _ _ a5) as [a6|]; obind.
Qed.

(** ** Properties *)

(** The entry [h] is the one of the flow [e] of the table. *)
Definition flow_entry (a : app) (e : ft_entry) (h : nat) : Prop :=
  exists d f, a_data a !! eid e = Some d /\ is_hw d = true /\ hw_entry d = Some h /\ installed a h f /\
    matches (key e) f.

Lemma owns_flow_entry a h x : app_ok None None a -> owns a h x ->
  exists e, e ∈ live (a_ft a) /\ eid e = x /\ flow_entry a e h.
Proof.
  intros Ha [(f & st & k & Hf & Hg & _ & _ & Hk & Hm) (d & Hd & Hhw & Hh)].
  unfold keys in Hk. apply list_elem_of_fmap in Hk as (e & [= -> ->] & He).
  exists e. split_and!; [done..|]. exists d, f. done.
Qed.

Lemma entry_owner a h x y : app_ok None None a -> owns a h x -> 
  (exists d, a_data a !! y = Some d /\ hw_entry d = Some h) -> y = x.
Proof.
  intros Ha Hx (d & Hd & Hh).
  destruct (ok_flow _ _ _ Ha y) as (h' & Ho); [by eexists|done|].
  assert (h' = h) as -> by (destruct Ho as [_ (d' & ? & _ & ?)]; congruence).
  destruct Ho as [Ho _], Hx as [Hx _]. by apply (backs_flow a h).
Qed.

(** C17: flows and hardware entries correspond one to one.  After any sequence of
    packets (with any bytes, tunnels, failures of the allocation of a flow and
    refusals of the hardware), aging passes and aging events of the hardware, one
    at a time: every flow of the table has an entry installed in the hardware
    that matches its addresses, ports, tunnel and port; every installed entry,
    that is one whose removal the application has not requested, is the one of
    exactly one flow of the table; and there is one status structure for each
    entry that the hardware still has to report on, no more.  (An entry whose
    removal the hardware refused stays in it without an owner: nothing looks at
    the result of the request.) *)
Theorem vnf_flows_and_entries t queues a :
  ft_ok t -> live t = [] -> rtc step (app0 t queues) a ->
  (forall e, e ∈ live (a_ft a) -> exists h, flow_entry a e h) /\
  (forall h f, installed a h f ->
     exists e, e ∈ live (a_ft a) /\ flow_entry a e h /\
       forall e', e' ∈ live (a_ft a) -> flow_entry a e' h -> eid e' = eid e) /\
  (forall s, is_Some (a_status a !! s) <-> exists h f, a_hw a !! h = Some f /\ h_status f = s).
Proof.
  intros Ht Hl Hr. destruct (vnf_run_ok _ _ _ Ht Hl Hr) as [Ha _]. split_and!; [| |apply Ha].
  - intros e He.
    assert (Hx : is_Some (a_data a !! eid e)).
    { apply (ok_data _ _ _ Ha). rewrite keys_fst. by apply list_elem_of_fmap_2. }
    destruct (ok_flow _ _ _ Ha _ Hx) as (h & [(f & st & k & Hf & Hg & _ & _ & Hk & Hm) (d & Hd & Hhw & Hh)]); [done|].
    assert (Hke : k = key e).
    { apply (keys_unique (a_ft a) (eid e)); [apply Ha|done|]. unfold keys. by apply (list_elem_of_fmap_2 ident). }
    exists h, d, f. by rewrite <- Hke.
  - intros h f [Hf Hg]. destruct (ok_entry _ _ _ Ha h f Hf Hg) as (x & Ho); [done|].
    destruct (owns_flow_entry _ _ _ Ha Ho) as (e & He & <- & Hfe). exists e. split_and!; [done..|].
    intros e' He' (d & f' & Hd & _ & Hh & _). apply (entry_owner a h (eid e) (eid e') Ha Ho). eauto.
Qed.

(** C18: the packet path is defined in every state a run can reach: handling any
    bytes received into a buffer of at least 181 bytes, any pass of the aging
    thread and any aging event reads nothing outside that buffer, uses no flow,
    entry or status structure after its release, and releases none twice; and the
    packet is handed on uncut.  Assumed: packets, passes and events are handled
    one at a time ([new_flow_race] shows the race of the aging thread); the
    allocation of a status structure succeeds (its result is not checked); the
    hardware reports no aging of an entry whose removal was requested, even if it
    refused the request ([aging_of_refused_removal]).  Not claimed: that reads stay
    within the packet; they stay within the buffer, and do leave a short packet
    (parse_short_frame in SimpleFwdPkt.v). *)
Theorem vnf_never_undefined t queues a :
  ft_ok t -> live t = [] -> rtc step (app0 t queues) a ->
  (forall E m queue, mbuf_ok m -> env_ok E ->
     exists a', simple_fwd_process_offload wire E m queue a = Some (0, a')) /\
  (forall cs queue, allowed true cs a -> exists a', simple_fwd_handle_aging cs queue a = Some a') /\
  (forall now query lock i, 0 <= i < size (a_ft a) ->
     exists next a', aging_pass now query lock i a = Some (next, a')).
Proof.
  intros Ht Hl Hr. destruct (vnf_run_ok _ _ _ Ht Hl Hr) as [Ha _]. split_and!.
  - intros E m queue Hm HE. destruct (offload_ok E m queue a Ha HE Hm) as (a' & ? & _). eauto.
  - intros cs queue Hal. destruct (hw_aging_ok cs queue a Ha Hal) as (a' & ? & _). eauto.
  - intros now query lock i Hi. destruct (aging_pass_app_ok now query lock i a Ha Hi) as (n & a' & ? & _). eauto.
Qed.

(** C19: what handling a packet does, on every branch ([packet_outcome]).  A
    packet that is not IPv4 with TCP, UDP or GRE changes nothing.  Otherwise
    either the table has an entry in the bucket of the packet's hash whose key
    equals the packet's, and the only change is that the counter of this entry
    grows by one (and its deadline moves); or no entry has the key, and then a
    flow with the packet's key, counted once, and one hardware entry that matches
    it are added, or neither: when the table, the allocator or the hardware
    refuses, or the packet has no tunnel, the table has the flows and the hardware
    the entries they had.  A packet handled with success whose fields have their
    types has its flow, with its addresses, ports, protocol and tunnel, in the
    table afterwards.  A tunnelled packet of a new flow is not refused when memory
    is available and the hardware accepts. *)
Theorem vnf_packet_outcome t queues a E queue p :
  ft_ok t -> live t = [] -> rtc step (app0 t queues) a -> env_ok E -> readable wire p ->
  exists r a', simple_fwd_handle_packet wire E queue p a = Some (r, a') /\ packet_outcome wire p r a a' /\
    (packet_typed p -> r = 0 -> exists x k k', simple_fwd_ft_key_fill wire p key0 = Some (0, k) /\
       (x, k') ∈ keys (a_ft a') /\ same_flow k' k) /\
    (accepting E -> simple_fwd_need_new_ft p = true -> ptun_type (p_info p) <> TUN_NONE -> r = 0).
Proof.
  intros Ht Hl Hr HE Hp. destruct (vnf_run_ok _ _ _ Ht Hl Hr) as [Ha Hko].
  destruct (handle_packet_ok wire E queue p a Ha HE Hp) as (r & a' & Hh & H' & Hout). exists r, a'.
  split_and!; [done..| |].
  { intros Hpt ->. by eapply outcome_flow. }
  intros Hacc Hneed Htun. unfold simple_fwd_handle_packet in Hh. rewrite Hneed in Hh. cbn [negb] in Hh.
  destruct (ft_find_keys wire (e_now E) (e_hz E) _ p (ok_table _ _ _ Ha) (rd_key _ _ Hp)) as (rc & oe & t1 & Hf & Ht1 & Hk & Ho).
  rewrite Hf in Hh. cbn [mbind option_bind] in Hh. pose proof (table_ok _ _ _ t1 Ha Ht1 Hk) as H1.
  destruct oe as [e|]; cbn [mbind option_bind] in Hh.
  - destruct (update_data _ _ _); [|done]. by injection Hh as <- _.
  - destruct (simple_fwd_handle_new_flow wire E queue p (with_ft t1 a)) as [[ox a2]|] eqn:Hn; [|done].
    cbn [mbind option_bind] in Hh. destruct ox as [x|].
    + destruct (update_data _ _ _); [|done]. by injection Hh as <- _.
    + by pose proof (new_flow_accepted E queue p _ _ _ H1 HE Hacc Hp Hneed Htun Hn).
Qed.

(** C20: the keys of the table are well typed and distinct.  In every state a run
    can reach, each field of each key is within the width of its C type (so that
    the comparison of the keys' 64-bit words decides whether two packets are of
    one flow), and no two entries of the table have the same flow and hash. *)
Theorem vnf_keys_typed t queues a e e' :
  ft_ok t -> live t = [] -> rtc step (app0 t queues) a -> e ∈ live (a_ft a) -> e' ∈ live (a_ft a) ->
  key_ok (key e) /\
  (simple_fwd_ft_key_equal (key e) (key e') = true -> rss_hash (key e) = rss_hash (key e') -> eid e = eid e').
Proof.
  intros Ht Hl Hr He He'. destruct (vnf_run_ok _ _ _ Ht Hl Hr) as [_ [Hty Hd]].
  assert (Hin : forall e, e ∈ live (a_ft a) -> (eid e, key e) ∈ keys (a_ft a)) by (intros ?; apply (list_elem_of_fmap_2 ident)).
  split; [by eapply Hty, Hin|]. intros Heq Hh.
  apply key_equal_same_flow in Heq; [|by eapply Hty, Hin..]. by apply (Hd _ (key e) _ (key e')); auto.
Qed.

(** The queues of the cores. *)
Lemma map_queue_range enabled q n i j :
  q < n -> map_queue enabled q n !! i = Some (Some j) -> q <= j < n.
Proof.
  revert q i. induction enabled as [|[] es IH]; intros q i Hq; cbn [map_queue]; [done|..].
  - destruct i as [|i]; cbn; [intros [= <-]; lia|]. destruct (Z.leb_spec n (q + 1)).
    + intros [? ?]%lookup_replicate. done.
    + intros Hi. apply IH in Hi; lia.
  - destruct i as [|i]; cbn; [done|]. by apply IH.
Qed.

Lemma map_queue_distinct enabled q n i i' j :
  q < n -> map_queue enabled q n !! i = Some (Some j) -> map_queue enabled q n !! i' = Some (Some j) -> i = i'.
Proof.
  revert q i i'. induction enabled as [|[] es IH]; intros q i i' Hq; cbn [map_queue]; [done|..].
  - assert (Hne : forall k, (if n <=? q + 1 then replicate (length es) None else map_queue es (q + 1) n) !! k = Some (Some q) -> False).
    { intros k. destruct (Z.leb_spec n (q + 1)); [intros [? ?]%lookup_replicate; done|].
      intros Hk%map_queue_range; lia. }
    destruct i as [|i], i' as [|i']; cbn; [done|intros [= <-] H; by apply Hne in H|intros H [= <-]; by apply Hne in H|].
    destruct (Z.leb_spec n (q + 1)); [intros [? ?]%lookup_replicate; done|]. intros. f_equal. by apply (IH (q + 1)); [lia|..].
  - destruct i as [|i], i' as [|i']; cbn; [done..|]. intros. f_equal. by apply (IH q).
Qed.

(** Each used core has a queue of its own, below the number of queues. *)
Lemma simple_fwd_map_queue_ok enabled n i i' j :
  0 < n -> simple_fwd_map_queue enabled n !! i = Some (Some j) -> simple_fwd_map_queue enabled n !! i' = Some (Some j) ->
  0 <= j < n /\ i = i'.
Proof. intros Hn Hi Hi'. split; [by eapply map_queue_range|by eapply map_queue_distinct]. Qed.

(** ** Witnesses *)

(** A hardware that accepts every entry and reports it at once. *)
Definition prompt_cbs (a : app) : list completion :=
  match a_hw a !! pred (a_next a) with
  | Some f => if (h_status f =? pred (pred (a_next a)))%nat then [Completion (Some (h_status f)) true OP_ADD] else []
  | None => []
  end.
Definition sample_env : env := Env 5 1 6 false false 7 true prompt_cbs true true.

Lemma sample_env_ok : env_ok sample_env.
Proof.
  split; [done|]. intros a. cbn [e_cbs sample_env]. unfold prompt_cbs.
  destruct (a_hw a !! pred (a_next a)) as [f|] eqn:Hf; [|done]. destruct (_ =? _)%nat; [|done].
  split; [|done]. intros s [= <-]. exists (pred (a_next a)), f. done.
Qed.

Lemma sample_env_accepting : accepting sample_env.
Proof.
  split; try done. intros a f Hf Hs. cbn [e_cbs sample_env]. unfold prompt_cbs. rewrite Hf.
  by rewrite (proj2 (Nat.eqb_eq _ _) Hs).
Qed.

(** A TCP packet in a VXLAN tunnel, received on port 1. *)
Definition sample_mbuf : mbuf :=
  let bytes := frame_headers sample_tunnel ++ vxlan_bytes sample_vxlan ++ frame_bytes sample_tcp in
  Mbuf (bytes ++ replicate 100 0) (Z.of_nat (length bytes)) 1 12.

Definition sample_app : app :=
  match simple_fwd_process_offload wire sample_env sample_mbuf 0 (app0 sample_ft 1) with
  | Some (_, a) => a
  | None => app0 sample_ft 1
  end.

Lemma sample_mbuf_ok : mbuf_ok sample_mbuf.
Proof.
  split; [|vm_compute; discriminate|split; vm_compute; congruence|split; vm_compute; congruence].
  apply (bool_decide_unpack _). vm_compute. exact I.
Qed.

Lemma sample_step : step (app0 sample_ft 1) sample_app.
Proof. apply (step_packet _ sample_env sample_mbuf 0 0); [exact sample_mbuf_ok|exact sample_env_ok|vm_compute; reflexivity]. Qed.

(** The flow is in the table with an entry in the VXLAN pipe of port 1. *)
Example sample_app_state :
  map eid (live (a_ft sample_app)) = [0%nat] /\
  (fun f => (h_pipe f, F.ip4_src (F.inner (h_match f)), h_gone f)) <$> (a_hw sample_app !! 1%nat)
    = Some ((TUN_VXLAN, 1), [10; 0; 0; 1], false).
Proof. vm_compute. split; reflexivity. Qed.

Lemma sample_vnf_run : rtc step (app0 sample_ft 1) sample_app.
Proof. eapply rtc_l; [exact sample_step | apply rtc_refl]. Qed.

Definition sample_entry : ft_entry :=
  match live (a_ft sample_app) with e :: _ => e | [] => aging_entry end.

Lemma vnf_flows_and_entries_witness :
  rtc step (app0 sample_ft 1) sample_app /\ sample_entry ∈ live (a_ft sample_app) /\
  exists h, flow_entry sample_app sample_entry h.
Proof.
  split; [exact sample_vnf_run|]. split; [vm_compute; left|].
  apply (vnf_flows_and_entries sample_ft 1 sample_app sample_ft_ok eq_refl sample_vnf_run). vm_compute. left.
Defined.

Lemma vnf_never_undefined_witness :
  exists a', simple_fwd_process_offload wire sample_env sample_mbuf 0 sample_app = Some (0, a').
Proof.
  apply (vnf_never_undefined sample_ft 1 sample_app sample_ft_ok eq_refl sample_vnf_run);
    [exact sample_mbuf_ok | exact sample_env_ok].
Defined.

Definition sample_packet : packet :=
  match simple_fwd_parse_packet wire (m_data sample_mbuf) 0 (m_len sample_mbuf) pinfo0 with
  | Some (_, i) => {| p_buf := m_data sample_mbuf; p_info := i; p_port := 1; p_rss := 12 |}
  | None => packet_of sample_tcp 12
  end.

Lemma sample_packet_readable : readable wire sample_packet.
Proof.
  split; [|intros _|split; vm_compute; congruence].
  - exists 0. eexists. vm_compute. reflexivity.
  - eexists. vm_compute. reflexivity.
Qed.

Lemma vnf_packet_outcome_witness :
  exists a', simple_fwd_handle_packet wire sample_env 0 sample_packet (app0 sample_ft 1) = Some (0, a') /\
    packet_outcome wire sample_packet 0 (app0 sample_ft 1) a'.
Proof.
  destruct (vnf_packet_outcome sample_ft 1 (app0 sample_ft 1) sample_env 0 sample_packet sample_ft_ok eq_refl
    (rtc_refl _ _) sample_env_ok sample_packet_readable) as (r & a' & Hh & Ho & _ & Hr).
  assert (r = 0) as ->.
  { apply Hr; [exact sample_env_accepting | vm_compute; reflexivity | vm_compute; discriminate]. }
  exists a'. split; [exact Hh | exact Ho].
Defined.

Lemma vnf_keys_typed_witness : key_ok (key sample_entry) /\ (true = true -> eid sample_entry = 0%nat).
Proof.
  destruct (vnf_keys_typed sample_ft 1 sample_app sample_entry sample_entry sample_ft_ok eq_refl sample_vnf_run)
    as [Hk _]; [vm_compute; left | vm_compute; left | split; [exact Hk | reflexivity]].
Defined.

(** The state of [simple_fwd_handle_new_flow] between setting the aging time and
    setting the deadline and [is_hw], with the numbers of the entry and flow. *)
Definition race_window : option (nat * nat * app) :=
  '(_, oe, ot) ← simple_fwd_ft_add_new wire 5 1 false (Some sample_ft) sample_packet;
  e ← oe; t ← ot;
  let a := with_data (<[eid e := pipe_entry0]> ∅) (with_ft t (app0 sample_ft 1)) in
  '(he, a) ← simple_fwd_pipe_add_entry wire sample_env 0 sample_packet (eid e) a;
  '(h, age) ← he;
  a ← update_data (set_queue_hw 0 (Some h)) (eid e) a;
  a ← update_flow (fun e => simple_fwd_ft_update_age_sec e age) (eid e) a;
  Some (h, eid e, a).

(** These writes are made without the bucket's lock, and the deadline is still
    0: a pass of the aging thread now removes the flow.  Its hardware entry
    stays behind without an owner, and the thread that handles the packet goes
    on to write to the released flow. *)
Example new_flow_race :
  match race_window with
  | Some (h, x, a) =>
      match aging_pass 6 (fun _ => Some 0) true 4 a with
      | Some (removed, a') =>
          (removed, length (live (a_ft a')), h_gone <$> (a_hw a' !! h), bool_decide (is_Some (a_data a' !! x)),
           bool_decide (is_Some (update_flow (simple_fwd_ft_update_expiration 6 1) x a')))
      | None => (false, 0%nat, None, true, true)
      end
  | None => (false, 0%nat, None, true, true)
  end = (true, 0%nat, Some false, false, false).
Proof. vm_compute. reflexivity. Qed.

(** A hardware that does not report the new entry in time and refuses to remove
    it: the flow is released, the entry stays, and when it ages its event is
    handled with the released flow. *)
Definition refusing_env : env := Env 5 1 6 false false 7 true (fun _ => []) true false.

Example aging_of_refused_removal :
  match simple_fwd_process_offload wire refusing_env sample_mbuf 0 (app0 sample_ft 1) with
  | Some (_, a) =>
      ((fun f => (h_gone f, h_removable f)) <$> (a_hw a !! 1%nat), length (live (a_ft a)),
       bool_decide (is_Some (simple_fwd_handle_aging [Completion (Some 0%nat) true OP_AGED] 0 a)))
  | None => (None, 1%nat, true)
  end = (Some (true, false), 0%nat, false).
Proof. vm_compute. reflexivity. Qed.
