(* ===== verification/FlowFields.v ===== *)
(** * Parsing the fields of flow descriptions

    The value and field parsers of applications/common/src/flow_parser.c, to
    parse_fw_match_field.  A parser takes the value its out parameter has and
    returns the result with the value after the call; [None] is undefined
    behaviour. *)

From stdpp Require Import gmap.
From S2P Require Import Prelude CString FlowTypes.
#[local] Open Scope Z_scope.

Definition MAC_ADDR_LEN : nat := 6.
Definition IP_ADDR_LEN : nat := 4.
(** As the code has it. *)
Definition HEXADECIMAL_BASE : Z := 1.
Definition UINT32_CHANGEABLE_FIELD : cstring := str "0xffffffff".

(** The bytes of BE_IPV4_ADDR in memory. *)
Definition BE_IPV4_ADDR (a b c d : Z) : bytes :=
  be_bytes 4 (u32 (Z.shiftl a 24 + Z.shiftl b 16 + Z.shiftl c 8 + d)).

(** ** Values *)

(** The loop over the octets before the last: [n] are left. *)
Fixpoint ipv4_octets (n : nat) (s : cstring) : option (list Z * cstring) :=
  match n with
  | O => Some ([], s)
  | S n' =>
      match strchr s 46 with
      | None => None
      | Some ptr => '(ips, rest) ← ipv4_octets n' (drop 1 ptr); Some (atoi s :: ips, rest)
      end
  end.

Definition parse_ipv4_str (str_ip : cstring) (old : bytes) : doca_error * bytes :=
  if strcmp str_ip UINT32_CHANGEABLE_FIELD then (DOCA_SUCCESS, be_bytes 4 UINT32_MAX)
  else match ipv4_octets 3 str_ip with
       | Some ([a; b; c], ptr) => (DOCA_SUCCESS, BE_IPV4_ADDR a b c (atoi ptr))
       | _ => (DOCA_ERROR_INVALID_VALUE, old)
       end.

Definition parse_protocol_string (s : cstring) (old : doca_flow_l4_type_ext) : doca_error * doca_flow_l4_type_ext :=
  if strcmp s (str "tcp") then (DOCA_SUCCESS, L4_TCP)
  else if strcmp s (str "udp") then (DOCA_SUCCESS, L4_UDP)
  else (DOCA_ERROR_INVALID_VALUE, old).

Definition parse_tun_type_string (s : cstring) (old : doca_flow_tun_type) : doca_error * doca_flow_tun_type :=
  if strcmp s (str "vxlan") then (DOCA_SUCCESS, FTUN_VXLAN)
  else if strcmp s (str "gtpu") then (DOCA_SUCCESS, FTUN_GTPU)
  else if strcmp s (str "gre") then (DOCA_SUCCESS, FTUN_GRE)
  else (DOCA_ERROR_INVALID_VALUE, old).

Definition parse_fwd_type (s : cstring) (old : doca_flow_fwd_type) : doca_error * doca_flow_fwd_type :=
  if strcmp s (str "rss") then (DOCA_SUCCESS, FWD_RSS)
  else if strcmp s (str "port") then (DOCA_SUCCESS, FWD_PORT)
  else if strcmp s (str "pipe") then (DOCA_SUCCESS, FWD_PIPE)
  else if strcmp s (str "drop") then (DOCA_SUCCESS, FWD_DROP)
  else (DOCA_ERROR_INVALID_VALUE, old).

Definition parse_pipe_type (s : cstring) (old : doca_flow_pipe_type) : doca_error * doca_flow_pipe_type :=
  if strcmp s (str "basic") then (DOCA_SUCCESS, PIPE_BASIC)
  else if strcmp s (str "control") then (DOCA_SUCCESS, PIPE_CONTROL)
  else (DOCA_ERROR_INVALID_VALUE, old).

Definition parse_ip_type (s : cstring) (old : doca_flow_l3_type) : doca_error * doca_flow_l3_type :=
  if strcmp s (str "ipv4") then (DOCA_SUCCESS, L3_IP4)
  else if strcmp s (str "ipv6") then (DOCA_SUCCESS, L3_IP6)
  else (DOCA_ERROR_INVALID_VALUE, old).

Definition parse_l3_type (s : cstring) (old : doca_flow_l3_type) : doca_error * doca_flow_l3_type :=
  if strcmp s (str "ipv4") then (DOCA_SUCCESS, L3_IP4)
  else if strcmp s (str "ipv6") then (DOCA_SUCCESS, L3_IP6)
  else (DOCA_ERROR_INVALID_VALUE, old).

Definition parse_tcp_flag_string (s : cstring) (old : Z) : doca_error * Z :=
  if strcmp s (str "FIN") then (DOCA_SUCCESS, TCP_FLAG_FIN)
  else if strcmp s (str "SYN") then (DOCA_SUCCESS, TCP_FLAG_SYN)
  else if strcmp s (str "RST") then (DOCA_SUCCESS, TCP_FLAG_RST)
  else if strcmp s (str "PSH") then (DOCA_SUCCESS, TCP_FLAG_PSH)
  else if strcmp s (str "ACK") then (DOCA_SUCCESS, TCP_FLAG_ACK)
  else if strcmp s (str "URG") then (DOCA_SUCCESS, TCP_FLAG_URG)
  else if strcmp s (str "ECE") then (DOCA_SUCCESS, TCP_FLAG_ECE)
  else if strcmp s (str "CWR") then (DOCA_SUCCESS, TCP_FLAG_CWR)
  else (DOCA_ERROR_INVALID_VALUE, old).

Definition parse_bool_string (s : cstring) (old : bool) : doca_error * bool :=
  if strcmp s (str "true") then (DOCA_SUCCESS, true)
  else if strcmp s (str "false") then (DOCA_SUCCESS, false)
  else (DOCA_ERROR_INVALID_VALUE, old).

(** mac_addr[i] is written before the colon after it is looked for; [i] runs to
    [MAC_ADDR_LEN - 1], [n] iterations are left. *)
Fixpoint mac_loop (n i : nat) (s : cstring) (mac : bytes) : doca_error * bytes :=
  let mac' := <[i := u8 (fst (strtol s HEXADECIMAL_BASE))]> mac in
  match n with
  | O => (DOCA_SUCCESS, mac')
  | S n' =>
      match strchr s 58 with
      | None => (DOCA_ERROR_INVALID_VALUE, mac')
      | Some ptr => mac_loop n' (S i) (drop 1 ptr) mac'
      end
  end.

Definition parse_mac_address (s : cstring) (mac : bytes) : doca_error * bytes :=
  mac_loop (MAC_ADDR_LEN - 1) 0 s mac.

(** [ptr] is a local that is not initialised: [None].  strtol writes it, unless
    the base is wrong; it never writes NULL. *)
Definition ipv6_half (s : cstring) (ptr : option cstring) : option (Z * cstring * option cstring) :=
  let '(v, e) := strtol s HEXADECIMAL_BASE in
  match (match e with Some e' => Some e' | None => ptr end) with
  | None => None
  | Some p => p' ← adv 1 p; Some (s32 v, p', Some p')
  end.

Fixpoint ipv6_loop (n i : nat) (s : cstring) (ptr : option cstring) (addr : bytes) : option (doca_error * bytes) :=
  match n with
  | O => Some (DOCA_SUCCESS, addr)
  | S n' =>
      '(hi, s1, ptr1) ← ipv6_half s ptr;
      '(lo, s2, ptr2) ← ipv6_half s1 ptr1;
      ipv6_loop n' (S i) s2 ptr2 (splice (4 * i) (be_bytes 4 (u32 (Z.shiftl hi 16 + lo))) addr)
  end.

Definition parse_ipv6_str (s : cstring) (addr : bytes) : option (doca_error * bytes) :=
  ipv6_loop IP_ADDR_LEN 0 s None addr.

(** *** RSS queues *)

(** The global rss_queues and the arrays malloc gave for it that are not freed. *)
Record rss_heap := RssHeap { arrays : gmap nat (list Z); rss_queues : option nat; next_array : nat }.

(** The queue numbers are read two characters apart. *)
Fixpoint read_queues (n : nat) (s : cstring) : option (list Z) :=
  let q := u16 (fst (strtol s 0)) in
  match n with
  | O => Some [q]
  | S n' => s' ← adv 2 s; qs ← read_queues n' s'; Some (q :: qs)
  end.

Section Malloc.
(** Whether malloc gives memory for a size. *)
Context (malloc : Z -> bool).

(** The pointer is not reset. *)
Definition free_rss (h : rss_heap) : rss_heap :=
  match rss_queues h with
  | Some p => RssHeap (delete p (arrays h)) (rss_queues h) (next_array h)
  | None => h
  end.

(** [None] also when the last queue, at index [num_of_queues - 1], is outside
    the array. *)
Definition parse_rss_queues (s : cstring) (num_of_queues : Z) (h : rss_heap) : option (doca_error * rss_heap) :=
  let h1 := free_rss h in
  if negb (malloc (u64 (2 * u64 num_of_queues))) then
    Some (DOCA_ERROR_NO_MEMORY, RssHeap (arrays h1) None (next_array h1))
  else if num_of_queues <? 1 then None
  else
    qs ← read_queues (Z.to_nat (num_of_queues - 1)) s;
    Some (DOCA_SUCCESS, RssHeap (<[next_array h1 := qs]> (arrays h1)) (Some (next_array h1)) (S (next_array h1))).

(** ** Fields *)

Definition tol (v : cstring) : Z := fst (strtol v 0).
Definition toull (v : cstring) : Z := fst (strtoull v 0).
(** rte_cpu_to_be_16 of a long, and a 16 or 32-bit number in host order. *)
Definition be16 (v : cstring) : bytes := be_bytes 2 (u16 (tol v)).
Definition host16 (v : cstring) : bytes := le_bytes 2 (u16 (tol v)).
Definition host32 (v : cstring) : bytes := le_bytes 4 (u32 (tol v)).

Definition parse_monitor_field (field_name value : cstring) (m : doca_flow_monitor)
    : option (doca_error * doca_flow_monitor) :=
  Some (
  if strcmp field_name (str "flags") then
    let flags := u8 (tol value) in
    (DOCA_SUCCESS,
     Monitor (if truthy (Z.land flags 2) then RESOURCE_NON_SHARED else meter_type m) (cir m) (cbs m)
       (if truthy (Z.land flags 4) then RESOURCE_NON_SHARED else counter_type m)
       (if truthy (Z.land flags 8) then true else aging_enabled m) (aging_sec m))
  else if strcmp field_name (str "cir") then
    (DOCA_SUCCESS, Monitor (meter_type m) (toull value) (cbs m) (counter_type m) (aging_enabled m) (aging_sec m))
  else if strcmp field_name (str "cbs") then
    (DOCA_SUCCESS, Monitor (meter_type m) (cir m) (toull value) (counter_type m) (aging_enabled m) (aging_sec m))
  else if strcmp field_name (str "aging_sec") then
    (DOCA_SUCCESS, Monitor (meter_type m) (cir m) (cbs m) (counter_type m) (aging_enabled m) (u32 (tol value)))
  else (DOCA_ERROR_INVALID_VALUE, m)).

(** A forward with what its parser also writes: the queues and the id of the
    next pipe. *)
Record fwd_state := FwdState { f_fwd : doca_flow_fwd; f_rss : rss_heap; f_next_pipe_id : Z }.

Definition with_fwd (f : doca_flow_fwd) (s : fwd_state) : fwd_state := FwdState f (f_rss s) (f_next_pipe_id s).

Definition parse_fwd_field (field_name value : cstring) (s : fwd_state) : option (doca_error * fwd_state) :=
  let fwd := f_fwd s in
  if strcmp field_name (str "type") then
    let '(r, t) := parse_fwd_type value (fwd_type fwd) in
    Some (r, with_fwd (Fwd t (rss_outer_flags fwd) (rss_inner_flags fwd) (rss_queues_ptr fwd) (num_of_queues fwd)) s)
  else if strcmp field_name (str "rss_outer_flags") then
    Some (DOCA_SUCCESS, with_fwd (Fwd (fwd_type fwd) (u32 (tol value)) (rss_inner_flags fwd) (rss_queues_ptr fwd) (num_of_queues fwd)) s)
  else if strcmp field_name (str "rss_inner_flags") then
    Some (DOCA_SUCCESS, with_fwd (Fwd (fwd_type fwd) (rss_outer_flags fwd) (u32 (tol value)) (rss_queues_ptr fwd) (num_of_queues fwd)) s)
  else if strcmp field_name (str "rss_queues") then
    '(r, h) ← parse_rss_queues value (num_of_queues fwd) (f_rss s);
    Some (if bool_decide (r = DOCA_SUCCESS) then
            (DOCA_SUCCESS, FwdState (Fwd (fwd_type fwd) (rss_outer_flags fwd) (rss_inner_flags fwd) (rss_queues h) (num_of_queues fwd)) h (f_next_pipe_id s))
          else (r, FwdState fwd h (f_next_pipe_id s)))
  else if strcmp field_name (str "num_of_queues") then
    Some (DOCA_SUCCESS, with_fwd (Fwd (fwd_type fwd) (rss_outer_flags fwd) (rss_inner_flags fwd) (rss_queues_ptr fwd) (s32 (tol value))) s)
  else if strcmp field_name (str "port_id") then Some (DOCA_SUCCESS, with_fwd (set_port_id (tol value) fwd) s)
  else if strcmp field_name (str "next_pipe_id") then Some (DOCA_SUCCESS, FwdState fwd (f_rss s) (toull value))
  else Some (DOCA_ERROR_INVALID_VALUE, s).

(** The same fields; the next pipe id is that of the miss. *)
Definition parse_fwd_miss_field (field_name value : cstring) (s : fwd_state) : option (doca_error * fwd_state) :=
  let fwd_miss := f_fwd s in
  if strcmp field_name (str "type") then
    let '(r, t) := parse_fwd_type value (fwd_type fwd_miss) in
    Some (r, with_fwd (Fwd t (rss_outer_flags fwd_miss) (rss_inner_flags fwd_miss) (rss_queues_ptr fwd_miss) (num_of_queues fwd_miss)) s)
  else if strcmp field_name (str "rss_outer_flags") then
    Some (DOCA_SUCCESS, with_fwd (Fwd (fwd_type fwd_miss) (u32 (tol value)) (rss_inner_flags fwd_miss) (rss_queues_ptr fwd_miss) (num_of_queues fwd_miss)) s)
  else if strcmp field_name (str "rss_inner_flags") then
    Some (DOCA_SUCCESS, with_fwd (Fwd (fwd_type fwd_miss) (rss_outer_flags fwd_miss) (u32 (tol value)) (rss_queues_ptr fwd_miss) (num_of_queues fwd_miss)) s)
  else if strcmp field_name (str "rss_queues") then
    '(r, h) ← parse_rss_queues value (num_of_queues fwd_miss) (f_rss s);
    Some (if bool_decide (r = DOCA_SUCCESS) then
            (DOCA_SUCCESS, FwdState (Fwd (fwd_type fwd_miss) (rss_outer_flags fwd_miss) (rss_inner_flags fwd_miss) (rss_queues h) (num_of_queues fwd_miss)) h (f_next_pipe_id s))
          else (r, FwdState fwd_miss h (f_next_pipe_id s)))
  else if strcmp field_name (str "num_of_queues") then
    Some (DOCA_SUCCESS, with_fwd (Fwd (fwd_type fwd_miss) (rss_outer_flags fwd_miss) (rss_inner_flags fwd_miss) (rss_queues_ptr fwd_miss) (s32 (tol value))) s)
  else if strcmp field_name (str "port_id") then Some (DOCA_SUCCESS, with_fwd (set_port_id (tol value) fwd_miss) s)
  else if strcmp field_name (str "next_pipe_id") then Some (DOCA_SUCCESS, FwdState fwd_miss (f_rss s) (toull value))
  else Some (DOCA_ERROR_INVALID_VALUE, s).
End Malloc.

(** The address of the layer-3 type that is set, at an offset of each member of
    the union. *)
Definition parse_ip_addr (off4 off6 : nat) (value : cstring) (h : doca_flow_header_format)
    : option (doca_error * doca_flow_header_format) :=
  match l3_type h with
  | L3_IP4 =>
      let '(r, a) := parse_ipv4_str value (take 4 (drop off4 (l3 h))) in Some (r, set_l3 off4 a h)
  | L3_IP6 =>
      '(r, a) ← parse_ipv6_str value (take 16 (drop off6 (l3 h))); Some (r, set_l3 off6 a h)
  | L3_NONE => Some (DOCA_ERROR_INVALID_VALUE, h)
  end.
Definition parse_src_ip : cstring -> doca_flow_header_format -> option (doca_error * doca_flow_header_format) :=
  parse_ip_addr 0 0.
Definition parse_dst_ip : cstring -> doca_flow_header_format -> option (doca_error * doca_flow_header_format) :=
  parse_ip_addr 4 16.

Definition parse_actions_field (field_name value : cstring) (a : doca_flow_actions)
    : option (doca_error * doca_flow_actions) :=
  let o := a_outer a in
  let e := encap_outer a in
  if strcmp field_name (str "decap") then
    let '(r, x) := parse_bool_string value (decap a) in
    Some (r, Actions x (a_outer a) (has_encap a) (encap_outer a) (encap_tun a))
  else if strcmp field_name (str "outer.eth.src_mac") then
    let '(r, x) := parse_mac_address value (src_mac o) in Some (r, set_a_outer (set_src_mac x o) a)
  else if strcmp field_name (str "outer.eth.dst_mac") then
    let '(r, x) := parse_mac_address value (dst_mac o) in Some (r, set_a_outer (set_dst_mac x o) a)
  else if strcmp field_name (str "outer.l3_type") then
    let '(r, x) := parse_ip_type value (l3_type o) in Some (r, set_a_outer (set_l3_type x o) a)
  else if strcmp field_name (str "outer.src_ip_addr") then
    '(r, h) ← parse_src_ip value o; Some (r, set_a_outer h a)
  else if strcmp field_name (str "outer.dst_ip_addr") then
    '(r, h) ← parse_dst_ip value o; Some (r, set_a_outer h a)
  else if strcmp field_name (str "outer.l4_type_ext") then
    let '(r, x) := parse_protocol_string value (l4_type_ext o) in Some (r, set_a_outer (set_l4_type x o) a)
  else if strcmp field_name (str "outer.tcp_src_port") then
    Some (DOCA_SUCCESS, set_a_outer (set_l4 0 (host16 value) o) a)
  else if strcmp field_name (str "outer.tcp_dst_port") then
    Some (DOCA_SUCCESS, set_a_outer (set_l4 2 (host16 value) o) a)
  else if strcmp field_name (str "outer.udp_src_port") then
    Some (DOCA_SUCCESS, set_a_outer (set_l4 0 (host16 value) o) a)
  else if strcmp field_name (str "outer.udp_dst_port") then
    Some (DOCA_SUCCESS, set_a_outer (set_l4 2 (host16 value) o) a)
  else if strcmp field_name (str "outer.ip4.ttl") then
    Some (DOCA_SUCCESS, set_a_outer (set_l3 13 [u8 (tol value)] o) a)
  else if strcmp field_name (str "has_encap") then
    let '(r, x) := parse_bool_string value (has_encap a) in
    Some (r, Actions (decap a) (a_outer a) x (encap_outer a) (encap_tun a))
  else if strcmp field_name (str "encap_src_mac") then
    let '(r, x) := parse_mac_address value (src_mac e) in Some (r, set_encap_outer (set_src_mac x e) a)
  else if strcmp field_name (str "encap_dst_mac") then
    let '(r, x) := parse_mac_address value (dst_mac e) in Some (r, set_encap_outer (set_dst_mac x e) a)
  else if strcmp field_name (str "encap_src_ip_type") then
    let '(r, x) := parse_ip_type value (l3_type e) in Some (r, set_encap_outer (set_l3_type x e) a)
  else if strcmp field_name (str "encap_src_ip_addr") then
    '(r, h) ← parse_src_ip value e; Some (r, set_encap_outer h a)
  else if strcmp field_name (str "encap_dst_ip_type") then
    let '(r, x) := parse_ip_type value (l3_type e) in Some (r, set_encap_outer (set_l3_type x e) a)
  else if strcmp field_name (str "encap_dst_ip_addr") then
    '(r, h) ← parse_dst_ip value e; Some (r, set_encap_outer h a)
  else if strcmp field_name (str "encap_tun_type") then
    let '(r, x) := parse_tun_type_string value (tun_ty (encap_tun a)) in
    Some (r, set_encap_tun (set_tun_type x (encap_tun a)) a)
  else if strcmp field_name (str "encap_vxlan_tun_id") then
    Some (DOCA_SUCCESS, set_encap_tun (set_tun_u 0 (host32 value) (encap_tun a)) a)
  else if strcmp field_name (str "encap_gre_key") then
    Some (DOCA_SUCCESS, set_encap_tun (set_tun_u 4 (host32 value) (encap_tun a)) a)
  else if strcmp field_name (str "encap_gtp_teid") then
    Some (DOCA_SUCCESS, set_encap_tun (set_tun_u 0 (host32 value) (encap_tun a)) a)
  else Some (DOCA_ERROR_INVALID_VALUE, a).

(** strtol(value, NULL, HEXADECIMAL_BASE) *)
Definition tohex (v : cstring) : Z := fst (strtol v HEXADECIMAL_BASE).

(** The ports of the inner header are written to the outer one. *)
Definition parse_match_field (field_name value : cstring) (m : doca_flow_match)
    : option (doca_error * doca_flow_match) :=
  let o := outer m in
  let i := inner m in
  if strcmp field_name (str "flags") then
    Some (DOCA_SUCCESS, Match (u32 (tohex value)) (port_meta m) (outer m) (tun m) (inner m))
  else if strcmp field_name (str "port_meta") then
    Some (DOCA_SUCCESS, Match (m_flags m) (u32 (tol value)) (outer m) (tun m) (inner m))
  else if strcmp field_name (str "outer.eth.src_mac") then
    let '(r, x) := parse_mac_address value (src_mac o) in Some (r, set_outer (set_src_mac x o) m)
  else if strcmp field_name (str "outer.eth.dst_mac") then
    let '(r, x) := parse_mac_address value (dst_mac o) in Some (r, set_outer (set_dst_mac x o) m)
  else if strcmp field_name (str "outer.eth.type") then
    Some (DOCA_SUCCESS, set_outer (set_eth_type (u16 (tohex value)) o) m)
  else if strcmp field_name (str "outer.eth_vlan[0].tci") then
    Some (DOCA_SUCCESS, set_outer (set_vlan0 (u16 (tol value)) o) m)
  else if strcmp field_name (str "outer.eth_vlan[1].tci") then
    Some (DOCA_SUCCESS, set_outer (set_vlan1 (u16 (tol value)) o) m)
  else if strcmp field_name (str "outer.l3_type") then
    let '(r, x) := parse_l3_type value (l3_type o) in Some (r, set_outer (set_l3_type x o) m)
  else if strcmp field_name (str "outer.src_ip_addr") then
    '(r, h) ← parse_src_ip value o; Some (r, set_outer h m)
  else if strcmp field_name (str "outer.dst_ip_addr") then
    '(r, h) ← parse_dst_ip value o; Some (r, set_outer h m)
  else if strcmp field_name (str "outer.l4_type_ext") then
    let '(r, x) := parse_protocol_string value (l4_type_ext o) in Some (r, set_outer (set_l4_type x o) m)
  else if strcmp field_name (str "outer.tcp.flags") then
    let '(r, x) := parse_tcp_flag_string value (nth 5 (l4 o) 0) in Some (r, set_outer (set_l4 5 [x] o) m)
  else if strcmp field_name (str "outer.tcp_src_port") then
    Some (DOCA_SUCCESS, set_outer (set_l4 0 (be16 value) o) m)
  else if strcmp field_name (str "outer.tcp_dst_port") then
    Some (DOCA_SUCCESS, set_outer (set_l4 2 (be16 value) o) m)
  else if strcmp field_name (str "outer.udp_src_port") then
    Some (DOCA_SUCCESS, set_outer (set_l4 0 (be16 value) o) m)
  else if strcmp field_name (str "outer.udp_dst_port") then
    Some (DOCA_SUCCESS, set_outer (set_l4 2 (be16 value) o) m)
  else if strcmp field_name (str "tun_type") then
    let '(r, x) := parse_tun_type_string value (tun_ty (tun m)) in Some (r, set_tun (set_tun_type x (tun m)) m)
  else if strcmp field_name (str "vxlan_tun_id") then
    Some (DOCA_SUCCESS, set_tun (set_tun_u 0 (host32 value) (tun m)) m)
  else if strcmp field_name (str "gre_key") then
    Some (DOCA_SUCCESS, set_tun (set_tun_u 4 (host32 value) (tun m)) m)
  else if strcmp field_name (str "gtp_teid") then
    Some (DOCA_SUCCESS, set_tun (set_tun_u 0 (host32 value) (tun m)) m)
  else if strcmp field_name (str "inner.eth.src_mac") then
    let '(r, x) := parse_mac_address value (src_mac i) in Some (r, set_inner (set_src_mac x i) m)
  else if strcmp field_name (str "inner.eth.dst_mac") then
    let '(r, x) := parse_mac_address value (dst_mac i) in Some (r, set_inner (set_dst_mac x i) m)
  else if strcmp field_name (str "inner.eth.type") then
    Some (DOCA_SUCCESS, set_inner (set_eth_type (u16 (tohex value)) i) m)
  else if strcmp field_name (str "inner.eth_vlan[0].tci") then
    Some (DOCA_SUCCESS, set_inner (set_vlan0 (u16 (tol value)) i) m)
  else if strcmp field_name (str "inner.eth_vlan[1].tci") then
    Some (DOCA_SUCCESS, set_inner (set_vlan1 (u16 (tol value)) i) m)
  else if strcmp field_name (str "inner.l3_type") then
    let '(r, x) := parse_l3_type value (l3_type i) in Some (r, set_inner (set_l3_type x i) m)
  else if strcmp field_name (str "inner.src_ip_addr") then
    '(r, h) ← parse_src_ip value i; Some (r, set_inner h m)
  else if strcmp field_name (str "inner.dst_ip_addr") then
    '(r, h) ← parse_dst_ip value i; Some (r, set_inner h m)
  else if strcmp field_name (str "inner.l4_type_ext") then
    let '(r, x) := parse_protocol_string value (l4_type_ext i) in Some (r, set_inner (set_l4_type x i) m)
  else if strcmp field_name (str "inner.tcp.flags") then
    let '(r, x) := parse_tcp_flag_string value (nth 5 (l4 i) 0) in Some (r, set_inner (set_l4 5 [x] i) m)
  else if strcmp field_name (str "inner.tcp_src_port") then
    Some (DOCA_SUCCESS, set_outer (set_l4 0 (be16 value) o) m)
  else if strcmp field_name (str "inner.tcp_dst_port") then
    Some (DOCA_SUCCESS, set_outer (set_l4 2 (be16 value) o) m)
  else if strcmp field_name (str "inner.udp_src_port") then
    Some (DOCA_SUCCESS, set_outer (set_l4 0 (be16 value) o) m)
  else if strcmp field_name (str "inner.udp_dst_port") then
    Some (DOCA_SUCCESS, set_outer (set_l4 2 (be16 value) o) m)
  else Some (DOCA_ERROR_INVALID_VALUE, m).

(** The firewall's subset: the layer-3 type is always IPv4. *)
Definition parse_fw_match_field (field_name value : cstring) (m0 : doca_flow_match)
    : option (doca_error * doca_flow_match) :=
  let o := set_l3_type L3_IP4 (outer m0) in
  let m := set_outer o m0 in
  Some (
  if strcmp field_name (str "outer.src_ip_addr") then
    let '(r, a) := parse_ipv4_str value (ip4_src o) in (r, set_outer (set_l3 0 a o) m)
  else if strcmp field_name (str "outer.dst_ip_addr") then
    let '(r, a) := parse_ipv4_str value (ip4_dst o) in (r, set_outer (set_l3 4 a o) m)
  else if strcmp field_name (str "outer.l4_type_ext") then
    let '(r, x) := parse_protocol_string value (l4_type_ext o) in (r, set_outer (set_l4_type x o) m)
  else if strcmp field_name (str "outer.tcp_src_port") then
    (DOCA_SUCCESS, set_outer (set_l4 0 (be16 value) o) m)
  else if strcmp field_name (str "outer.tcp_dst_port") then
    (DOCA_SUCCESS, set_outer (set_l4 2 (be16 value) o) m)
  else if strcmp field_name (str "outer.udp_src_port") then
    (DOCA_SUCCESS, set_outer (set_l4 0 (be16 value) o) m)
  else if strcmp field_name (str "outer.udp_dst_port") then
    (DOCA_SUCCESS, set_outer (set_l4 2 (be16 value) o) m)
  else (DOCA_ERROR_INVALID_VALUE, m)).

(** ** Properties of values *)

(** The text of an IPv4 address. *)
Definition dotted (a b c d : Z) : cstring := dec a ++ [46] ++ dec b ++ [46] ++ dec c ++ [46] ++ dec d.

Lemma strchr_run s c r : forallb (fun d => negb (d =? c)) s = true -> strchr (s ++ c :: r) c = Some (c :: r).
Proof.
  induction s as [|d s IH]; cbn; [by rewrite Z.eqb_refl|].
  intros [Hd Hs]%andb_true_iff. apply negb_true_iff in Hd. rewrite Hd. by apply IH.
Qed.

Lemma octet_step n a r :
  0 <= a < 2 ^ 31 -> ipv4_octets (S n) (dec a ++ 46 :: r) = ('(ips, rest) ← ipv4_octets n r; Some (a :: ips, rest)).
Proof.
  intros Ha. cbn [ipv4_octets]. rewrite strchr_run by (apply dec_without; lia). cbn [drop].
  rewrite atoi_dec by (try done; apply stops_cons; done). done.
Qed.

Lemma ipv4_bytes a b c d :
  in_u 8 a -> in_u 8 b -> in_u 8 c -> in_u 8 d -> BE_IPV4_ADDR a b c d = [a; b; c; d].
Proof.
  unfold in_u, BE_IPV4_ADDR. intros. rewrite !Z.shiftl_mul_pow2 by lia.
  rewrite wrap_small by lia. cbn [be_bytes Z.of_nat Z.mul Pos.of_succ_nat Pos.succ Pos.mul Pos.add].
  rewrite !Z.shiftr_div_pow2 by lia.
  change (2 ^ 24) with 16777216. change (2 ^ 16) with 65536. change (2 ^ 8) with 256 in *. change (2 ^ 0) with 1.
  repeat f_equal; Z.to_euclidean_division_equations; lia.
Qed.

Lemma parse_ipv4_dotted a b c d old :
  in_u 8 a -> in_u 8 b -> in_u 8 c -> in_u 8 d ->
  parse_ipv4_str (dotted a b c d) old = (DOCA_SUCCESS, [a; b; c; d]).
Proof.
  intros Ha Hb Hc Hd. unfold in_u in *. unfold parse_ipv4_str.
  destruct (strcmp (dotted a b c d) UINT32_CHANGEABLE_FIELD) eqn:E.
  - apply strcmp_eq in E. exfalso. assert (Hin : 46 ∈ dotted a b c d).
    { unfold dotted. apply elem_of_app. right. by left. }
    rewrite E in Hin. vm_compute in Hin. repeat (apply elem_of_cons in Hin as [Hin|Hin]; [done|]).
    by apply elem_of_nil in Hin.
  - unfold dotted. cbn [app]. rewrite !octet_step by lia. cbn [ipv4_octets]. obind.
    rewrite <- (app_nil_r (dec d)), atoi_dec by (try done; lia). by rewrite ipv4_bytes.
Qed.
