(* ===== verification/FlowParser.v ===== *)
(** * The command line parser of flows

    The rest of applications/common/src/flow_parser.c: structures as
    comma-separated fields, the parameters of commands, the handlers of commands
    and the parser's life.  A handler gives the new state of the parser and the
    callbacks it calls with their arguments.

    The loops take fuel, and theorems show that the length of the input is
    enough.  [Undefined] is undefined behaviour: a pointer moved past the end of
    its string, a NULL token, or what the field parsers have.  strlcpy between
    overlapping parts of one buffer is taken to copy the source as it was. *)

From stdpp Require Import gmap.
From S2P Require Import Prelude CString FlowTypes FlowFields.
#[local] Open Scope Z_scope.

Definition MAX_CMDLINE_INPUT_LEN : nat := 512.
Definition MAX_FIELD_INPUT_LEN : nat := 128.
Definition NAME_STR_LEN : nat := 5.
Definition FWD_STR_LEN : nat := 4.
Definition MISS_FWD_STR_LEN : nat := 9.
Definition MATCH_MASK_STR_LEN : nat := 11.
Definition MONITOR_STR_LEN : nat := 8.
Definition ROOT_ENABLE_STR_LEN : nat := 12.
Definition PORT_ID_STR_LEN : nat := 8.
Definition PIPE_ID_STR_LEN : nat := 8.
Definition ENTRY_ID_STR_LEN : nat := 9.
Definition PIPE_QUEUE_STR_LEN : nat := 11.
Definition PRIORITY_STR_LEN : nat := 9.
Definition FILE_STR_LEN : nat := 5.
Definition TYPE_STR_LEN : nat := 5.

(** ** Outcomes *)

Inductive outcome (A : Type) : Type := Ret (a : A) | Undefined | OutOfFuel.
Arguments Ret {_} _. Arguments Undefined {_}. Arguments OutOfFuel {_}.

Definition of_opt {A B} (o : option A) (k : A -> outcome B) : outcome B :=
  match o with Some a => k a | None => Undefined end.
Definition obnd {A B} (o : outcome A) (k : A -> outcome B) : outcome B :=
  match o with Ret a => k a | Undefined => Undefined | OutOfFuel => OutOfFuel end.

Declare Scope outcome_scope.
Notation "x ⇐ o ; k" := (of_opt o (fun x => k))
  (at level 20, o at level 100, k at level 200, right associativity) : outcome_scope.
Notation "' x ⇐ o ; k" := (of_opt o (fun x => k))
  (at level 20, x pattern, o at level 100, k at level 200, right associativity) : outcome_scope.
Notation "' x <<- o ; k" := (obnd o (fun x => k))
  (at level 20, x pattern, o at level 100, k at level 200, right associativity) : outcome_scope.
Open Scope outcome_scope.

Definition comma : Z := 44.
Definition equals : Z := 61.
Definition is_success (r : doca_error) : bool := bool_decide (r = DOCA_SUCCESS).

(** ** Structures *)

Fixpoint parse_struct {A} (fuel : nat) (fill_struct : cstring -> cstring -> A -> option (doca_error * A))
    (struct_str : cstring) (a : A) : outcome (doca_error * A) :=
  match fuel with
  | O => OutOfFuel
  | S fuel' =>
      match strtok (strlcpy struct_str MAX_CMDLINE_INPUT_LEN) equals with
      | None => Ret (DOCA_ERROR_INVALID_VALUE, a)
      | Some tmp =>
          let field_name := strlcpy tmp MAX_FIELD_INPUT_LEN in
          s1 ⇐ adv (length field_name + 1) struct_str;
          match strtok (strlcpy s1 MAX_CMDLINE_INPUT_LEN) comma with
          | None => Ret (DOCA_ERROR_INVALID_VALUE, a)
          | Some tmp' =>
              let value := strlcpy tmp' MAX_FIELD_INPUT_LEN in
              s2 ⇐ adv (length value) s1;
              let '(tmp_char, s3) := next s2 in
              '(result, a') ⇐ fill_struct field_name value a;
              if negb (is_success result) then Ret (result, a')
              else if tmp_char =? comma then (s4 ⇐ s3; parse_struct fuel' fill_struct s4 a')
              else Ret (DOCA_SUCCESS, a')
          end
      end
  end.

(** ** Parameters *)

Definition parse_pipe_id_input (s : cstring) (pipe_id : Z) : option (doca_error * Z) :=
  if negb (starts_with (str "pipe_id=") s) then Some (DOCA_ERROR_INVALID_VALUE, pipe_id)
  else s1 ← adv PIPE_ID_STR_LEN s; Some (DOCA_SUCCESS, toull s1).

Definition parse_port_id_input (s : cstring) (port_id : Z) : option (doca_error * Z) :=
  if negb (starts_with (str "port_id=") s) then Some (DOCA_ERROR_INVALID_VALUE, port_id)
  else s1 ← adv PORT_ID_STR_LEN s; Some (DOCA_SUCCESS, s32 (tol s1)).

(** The pointer is moved past one character, whatever the length of the number. *)
Definition parse_bool_params_input (s : cstring) (param_str_len : nat) (take_action : bool)
    : option (doca_error * cstring * bool) :=
  s1 ← adv param_str_len s;
  let '(v, e) := strtol s1 0 in
  ptr ← e;
  if (length ptr =? length s1)%nat then Some (DOCA_ERROR_INVALID_VALUE, s1, take_action)
  else
    let value := s32 v in
    if value =? 1 then s2 ← adv 1 s1; Some (DOCA_SUCCESS, s2, true)
    else if negb (value =? 0) then Some (DOCA_ERROR_BAD_STATE, s1, take_action)
    else s2 ← adv 1 s1; Some (DOCA_SUCCESS, s2, take_action).

(** The loop all commands share: parse a parameter, go on after a comma.  The
    branch of a parameter gives its result and the pointer after it. *)
Fixpoint params_loop {A} (fuel : nat) (param : cstring -> A -> option (doca_error * cstring * A))
    (s : cstring) (a : A) : outcome (doca_error * A) :=
  match fuel with
  | O => OutOfFuel
  | S fuel' =>
      '(result, s1, a1) ⇐ param s a;
      if negb (is_success result) then Ret (result, a1)
      else
        let '(tmp_char, s2) := next s1 in
        if tmp_char =? comma then (s3 ⇐ s2; params_loop fuel' param s3 a1) else Ret (DOCA_SUCCESS, a1)
  end.

(** A number at the start of the buffer the parameter is copied to; the pointer
    becomes the end of the number in that buffer. *)
Definition number_param (s : cstring) (len : nat) (conv : cstring -> Z * option cstring)
    : option (Z * cstring) :=
  s1 ← adv len s;
  let '(v, e) := conv (strlcpy s1 MAX_CMDLINE_INPUT_LEN) in
  rest ← e; Some (v, rest).

(** *** create pipe *)

(** [live_names]: names allocated by strndup and not freed. *)
Record create_params := CreateParams {
  cfg : doca_flow_pipe_cfg; port_id : Z; has_port_id : bool;
  fwd_action : bool; fwd_miss_action : bool; live_names : nat
}.

Definition with_cfg (c : doca_flow_pipe_cfg) (a : create_params) : create_params :=
  CreateParams c (port_id a) (has_port_id a) (fwd_action a) (fwd_miss_action a) (live_names a).

(** The error label. *)
Definition create_error (s : cstring) (a : create_params) : doca_error * cstring * create_params :=
  (DOCA_ERROR_INVALID_VALUE, s,
   match name (cfg a) with
   | Some _ => CreateParams (cfg a) (port_id a) (has_port_id a) (fwd_action a) (fwd_miss_action a) (pred (live_names a))
   | None => a
   end).

Definition create_pipe_param (strndup_ok : bool) (s : cstring) (a : create_params)
    : option (doca_error * cstring * create_params) :=
  let c := cfg a in
  if starts_with (str "port_id=") s then
    s1 ← adv PORT_ID_STR_LEN s;
    let ptr := strlcpy s1 MAX_CMDLINE_INPUT_LEN in
    let '(v, e) := strtol ptr 0 in
    endp ← e;
    if (length endp =? length ptr)%nat then Some (DOCA_ERROR_INVALID_VALUE, s1, a)
    else
      param_str_value ← strtok ptr comma;
      s2 ← adv (length param_str_value) s1;
      Some (DOCA_SUCCESS, s2, CreateParams c (u16 v) true (fwd_action a) (fwd_miss_action a) (live_names a))
  else if starts_with (str "name=") s then
    match name c with
    | Some _ => Some (DOCA_SUCCESS, s, a)
    | None =>
        s1 ← adv NAME_STR_LEN s;
        param_str_value ← strtok (strlcpy s1 MAX_CMDLINE_INPUT_LEN) comma;
        s2 ← adv (length param_str_value) s1;
        if negb strndup_ok then Some (create_error s2 a)
        else Some (DOCA_SUCCESS, s2,
               CreateParams (PipeCfg (Some (take MAX_FIELD_INPUT_LEN param_str_value)) (pipe_type c) (is_root c)
                   (nb_actions c) (cfg_match c) (cfg_match_mask c) (cfg_actions c) (cfg_monitor c))
                 (port_id a) (has_port_id a) (fwd_action a) (fwd_miss_action a) (S (live_names a)))
    end
  else if starts_with (str "root_enable=") s then
    '(r, s1, b) ← parse_bool_params_input s ROOT_ENABLE_STR_LEN false;
    if negb (is_success r) then Some (create_error s1 a)
    else Some (DOCA_SUCCESS, s1, with_cfg (PipeCfg (name c) (pipe_type c) (b || is_root c) (nb_actions c)
           (cfg_match c) (cfg_match_mask c) (cfg_actions c) (cfg_monitor c)) a)
  else if starts_with (str "monitor=") s then
    '(r, s1, b) ← parse_bool_params_input s MONITOR_STR_LEN false;
    if negb (is_success r) then Some (create_error s1 a)
    else Some (DOCA_SUCCESS, s1, with_cfg (PipeCfg (name c) (pipe_type c) (is_root c) (nb_actions c)
           (cfg_match c) (cfg_match_mask c) (cfg_actions c) (b || cfg_monitor c)) a)
  else if starts_with (str "match_mask=") s then
    '(r, s1, b) ← parse_bool_params_input s MATCH_MASK_STR_LEN false;
    if negb (is_success r) then Some (create_error s1 a)
    else Some (DOCA_SUCCESS, s1, with_cfg (PipeCfg (name c) (pipe_type c) (is_root c) (nb_actions c)
           (cfg_match c) (b || cfg_match_mask c) (cfg_actions c) (cfg_monitor c)) a)
  else if starts_with (str "fwd_miss=") s then
    '(r, s1, b) ← parse_bool_params_input s MISS_FWD_STR_LEN (fwd_miss_action a);
    if negb (is_success r) then Some (create_error s1 a)
    else Some (DOCA_SUCCESS, s1, CreateParams c (port_id a) (has_port_id a) (fwd_action a) b (live_names a))
  else if starts_with (str "fwd=") s then
    '(r, s1, b) ← parse_bool_params_input s FWD_STR_LEN (fwd_action a);
    if negb (is_success r) then Some (create_error s1 a)
    else Some (DOCA_SUCCESS, s1, CreateParams c (port_id a) (has_port_id a) b (fwd_miss_action a) (live_names a))
  else if starts_with (str "type=") s then
    s1 ← adv TYPE_STR_LEN s;
    type_str ← strtok (strlcpy s1 MAX_FIELD_INPUT_LEN) comma;
    let '(r, t) := parse_pipe_type type_str (pipe_type c) in
    if negb (is_success r) then Some (create_error s1 a)
    else
      s2 ← adv (length type_str) s1;
      Some (DOCA_SUCCESS, s2, with_cfg (PipeCfg (name c) t (is_root c) (nb_actions c)
        (cfg_match c) (cfg_match_mask c) (cfg_actions c) (cfg_monitor c)) a)
  else Some (create_error s a).

Definition parse_create_pipe_params (strndup_ok : bool) (fuel : nat) (s : cstring) (a : create_params)
    : outcome (doca_error * create_params) :=
  '(r, a1) <<- params_loop fuel (create_pipe_param strndup_ok) s a;
  if negb (is_success r) then Ret (r, a1)
  else if negb (has_port_id a1) then let '(r', _, a2) := create_error s a1 in Ret (r', a2)
  else Ret (DOCA_SUCCESS, a1).

(** *** add entry *)

Record entry_params := EntryParams {
  e_fwd : bool; e_monitor : bool; e_mask : bool; e_pipe_id : Z; e_pipe_queue : Z; e_priority : Z;
  has_pipe_id : bool; has_pipe_queue : bool; has_priority : bool
}.
Definition entry_params0 : entry_params := EntryParams false false false 0 0 0 false false false.

Definition set_e_pipe_id (v : Z) (a : entry_params) : entry_params :=
  EntryParams (e_fwd a) (e_monitor a) (e_mask a) v (e_pipe_queue a) (e_priority a) true (has_pipe_queue a) (has_priority a).
Definition set_e_pipe_queue (v : Z) (a : entry_params) : entry_params :=
  EntryParams (e_fwd a) (e_monitor a) (e_mask a) (e_pipe_id a) v (e_priority a) (has_pipe_id a) true (has_priority a).
Definition set_e_priority (v : Z) (a : entry_params) : entry_params :=
  EntryParams (e_fwd a) (e_monitor a) (e_mask a) (e_pipe_id a) (e_pipe_queue a) v (has_pipe_id a) (has_pipe_queue a) true.
Definition set_e_fwd (b : bool) (a : entry_params) : entry_params :=
  EntryParams b (e_monitor a) (e_mask a) (e_pipe_id a) (e_pipe_queue a) (e_priority a) (has_pipe_id a) (has_pipe_queue a) (has_priority a).
Definition set_e_monitor (b : bool) (a : entry_params) : entry_params :=
  EntryParams (e_fwd a) b (e_mask a) (e_pipe_id a) (e_pipe_queue a) (e_priority a) (has_pipe_id a) (has_pipe_queue a) (has_priority a).
Definition set_e_mask (b : bool) (a : entry_params) : entry_params :=
  EntryParams (e_fwd a) (e_monitor a) b (e_pipe_id a) (e_pipe_queue a) (e_priority a) (has_pipe_id a) (has_pipe_queue a) (has_priority a).

Definition add_entry_param (s : cstring) (a : entry_params) : option (doca_error * cstring * entry_params) :=
  if starts_with (str "pipe_id=") s then
    '(v, s1) ← number_param s PIPE_ID_STR_LEN (fun x => strtoull x 0);
    Some (DOCA_SUCCESS, s1, set_e_pipe_id v a)
  else if starts_with (str "pipe_queue=") s then
    '(v, s1) ← number_param s PIPE_QUEUE_STR_LEN (fun x => strtol x 0);
    Some (DOCA_SUCCESS, s1, set_e_pipe_queue (s32 v) a)
  else if starts_with (str "monitor=") s then
    '(r, s1, b) ← parse_bool_params_input s MONITOR_STR_LEN (e_monitor a);
    if negb (is_success r) then Some (DOCA_ERROR_INVALID_VALUE, s1, a)
    else Some (DOCA_SUCCESS, s1, set_e_monitor b a)
  else if starts_with (str "fwd=") s then
    '(r, s1, b) ← parse_bool_params_input s FWD_STR_LEN (e_fwd a);
    if negb (is_success r) then Some (DOCA_ERROR_INVALID_VALUE, s1, a)
    else Some (DOCA_SUCCESS, s1, set_e_fwd b a)
  else Some (DOCA_ERROR_INVALID_VALUE, s, a).

Definition parse_add_entry_params (fuel : nat) (s : cstring) (a : entry_params)
    : outcome (doca_error * entry_params) :=
  '(r, a1) <<- params_loop fuel add_entry_param s a;
  if negb (is_success r) then Ret (r, a1)
  else if negb (has_pipe_id a1) then Ret (DOCA_ERROR_INVALID_VALUE, a1)
  else if negb (has_pipe_queue a1) then Ret (DOCA_ERROR_INVALID_VALUE, a1)
  else Ret (DOCA_SUCCESS, a1).

Definition parse_fw_add_entry_params (s : cstring) (port : Z) : option (doca_error * Z) :=
  if starts_with (str "port_id=") s then
    '(v, _) ← number_param s PORT_ID_STR_LEN (fun x => strtoull x 0); Some (DOCA_SUCCESS, u16 v)
  else Some (DOCA_ERROR_INVALID_VALUE, port).

(** *** add control_pipe entry *)

Definition add_control_pipe_entry_param (s : cstring) (a : entry_params)
    : option (doca_error * cstring * entry_params) :=
  if starts_with (str "pipe_id=") s then
    '(v, s1) ← number_param s PIPE_ID_STR_LEN (fun x => strtoull x 0);
    Some (DOCA_SUCCESS, s1, set_e_pipe_id v a)
  else if starts_with (str "pipe_queue=") s then
    '(v, s1) ← number_param s PIPE_QUEUE_STR_LEN (fun x => strtol x 0);
    Some (DOCA_SUCCESS, s1, set_e_pipe_queue (u16 v) a)
  else if starts_with (str "priority=") s then
    '(v, s1) ← number_param s PRIORITY_STR_LEN (fun x => strtol x 0);
    Some (DOCA_SUCCESS, s1, set_e_priority (u8 v) a)
  else if starts_with (str "match_mask=") s then
    '(r, s1, b) ← parse_bool_params_input s MATCH_MASK_STR_LEN (e_mask a);
    if negb (is_success r) then Some (DOCA_ERROR_INVALID_VALUE, s1, a)
    else Some (DOCA_SUCCESS, s1, set_e_mask b a)
  else if starts_with (str "fwd=") s then
    '(r, s1, b) ← parse_bool_params_input s FWD_STR_LEN (e_fwd a);
    if negb (is_success r) then Some (DOCA_ERROR_INVALID_VALUE, s1, a)
    else Some (DOCA_SUCCESS, s1, set_e_fwd b a)
  else Some (DOCA_ERROR_INVALID_VALUE, s, a).

Definition parse_add_control_pipe_entry_params (fuel : nat) (s : cstring) (a : entry_params)
    : outcome (doca_error * entry_params) :=
  '(r, a1) <<- params_loop fuel add_control_pipe_entry_param s a;
  if negb (is_success r) then Ret (r, a1)
  else if negb (has_pipe_id a1) then Ret (DOCA_ERROR_INVALID_VALUE, a1)
  else if negb (has_pipe_queue a1) then Ret (DOCA_ERROR_INVALID_VALUE, a1)
  else if negb (has_priority a1) then Ret (DOCA_ERROR_INVALID_VALUE, a1)
  else Ret (DOCA_SUCCESS, a1).

(** *** rm entry and query *)

(** [queue]: whether the caller passes a place for the pipe queue.  Without one
    the number is not read and the pointer stays at it. *)
Definition entry_param (queue : bool) (s : cstring) (a : entry_params)
    : option (doca_error * cstring * entry_params) :=
  if starts_with (str "pipe_queue=") s then
    if queue then
      '(v, s1) ← number_param s PIPE_QUEUE_STR_LEN (fun x => strtol x 0);
      Some (DOCA_SUCCESS, s1, set_e_pipe_queue (u16 v) a)
    else
      s1 ← adv PIPE_QUEUE_STR_LEN s;
      Some (DOCA_SUCCESS, s1, set_e_pipe_queue (e_pipe_queue a) a)
  else if starts_with (str "entry_id=") s then
    '(v, s1) ← number_param s ENTRY_ID_STR_LEN (fun x => strtoull x 0);
    Some (DOCA_SUCCESS, s1, set_e_pipe_id v a)
  else Some (DOCA_ERROR_INVALID_VALUE, s, a).

(** The id of the entry is [e_pipe_id] here. *)
Definition parse_entry_params (fuel : nat) (s : cstring) (pipe_queue_mandatory queue : bool) (a : entry_params)
    : outcome (doca_error * entry_params) :=
  '(r, a1) <<- params_loop fuel (entry_param queue) s a;
  if negb (is_success r) then Ret (r, a1)
  else if pipe_queue_mandatory && negb (has_pipe_queue a1) then Ret (DOCA_ERROR_INVALID_VALUE, a1)
  else if negb (has_pipe_id a1) then Ret (DOCA_ERROR_INVALID_VALUE, a1)
  else Ret (DOCA_SUCCESS, a1).

Definition parse_fw_entry_params (s : cstring) (entry_id : Z) : option (doca_error * Z) :=
  if starts_with (str "entry_id=") s then
    '(v, _) ← number_param s ENTRY_ID_STR_LEN (fun x => strtoull x 0); Some (DOCA_SUCCESS, v)
  else Some (DOCA_ERROR_INVALID_VALUE, entry_id).

(** *** port pipes dump *)

(** [file] is the open handle, named by its file; [opened] and [closed] are the
    calls of fopen that succeeded and of fclose. *)
Record dump_params := DumpParams {
  d_port_id : Z; d_has_port_id : bool; file : option cstring; has_file : bool;
  opened : list cstring; closed : list cstring
}.
Definition dump_params0 : dump_params := DumpParams 0 false None false [] [].

Section Files.
(** Whether fopen succeeds. *)
Context (fopen : cstring -> bool).

Definition open_file (n : cstring) (a : dump_params) : dump_params :=
  if fopen n then DumpParams (d_port_id a) (d_has_port_id a) (Some n) (has_file a) (opened a ++ [n]) (closed a)
  else DumpParams (d_port_id a) (d_has_port_id a) None (has_file a) (opened a) (closed a).

(** fclose of the handle, which is then not used again; of NULL it is undefined. *)
Definition close_file (a : dump_params) : option dump_params :=
  n ← file a;
  Some (DumpParams (d_port_id a) (d_has_port_id a) None (has_file a) (opened a) (closed a ++ [n])).

Definition dump_pipe_param (s : cstring) (a : dump_params) : option (doca_error * cstring * dump_params) :=
  if starts_with (str "port_id=") s then
    '(v, s1) ← number_param s PORT_ID_STR_LEN (fun x => strtol x 0);
    Some (DOCA_SUCCESS, s1, DumpParams (u16 v) true (file a) (has_file a) (opened a) (closed a))
  else if starts_with (str "file=") s then
    if has_file a then a1 ← close_file a; Some (DOCA_ERROR_INVALID_VALUE, s, a1)
    else
      s1 ← adv FILE_STR_LEN s;
      name ← strtok (strlcpy s1 MAX_CMDLINE_INPUT_LEN) comma;
      s2 ← adv (length name) s1;
      let a1 := open_file name a in
      match file a1 with
      | None => Some (DOCA_ERROR_INVALID_VALUE, s2, a1)
      | Some _ => Some (DOCA_SUCCESS, s2,
          DumpParams (d_port_id a1) (d_has_port_id a1) (file a1) true (opened a1) (closed a1))
      end
  else Some (DOCA_ERROR_INVALID_VALUE, s, a).

Definition parse_dump_pipe_params (fuel : nat) (s : cstring) (a : dump_params) : outcome (doca_error * dump_params) :=
  '(r, a1) <<- params_loop fuel dump_pipe_param s a;
  if negb (is_success r) then Ret (r, a1)
  else if negb (d_has_port_id a1) then Ret (DOCA_ERROR_INVALID_VALUE, a1)
  else if negb (has_file a1) then
    let a2 := open_file (str "port_info.txt") a1 in
    match file a2 with
    | None => Ret (DOCA_ERROR_IO_FAILED, a2)
    | Some _ => Ret (DOCA_SUCCESS, a2)
    end
  else Ret (DOCA_SUCCESS, a1).
End Files.

(** ** Commands *)

(** The static variables of the file. *)
Record parser := Parser {
  pipe_match : doca_flow_match; entry_match : doca_flow_match; match_mask : doca_flow_match;
  actions : doca_flow_actions; monitor : doca_flow_monitor; fwd : doca_flow_fwd; fwd_miss : doca_flow_fwd;
  pipe_port_id : Z; fwd_next_pipe_id : Z; fwd_miss_next_pipe_id : Z; rss : rss_heap
}.

Definition rss0 : rss_heap := RssHeap ∅ None 0.
(** The state before the program runs. *)
Definition parser0 : parser := Parser match0 match0 match0 actions0 monitor0 fwd0 fwd0 0 0 0 rss0.

(** Which callbacks the set_* functions have registered. *)
Record callbacks := Callbacks {
  create_pipe_func : bool; add_entry_func : bool; add_fw_entry_func : bool; add_control_pipe_entry_func : bool;
  destroy_pipe_func : bool; remove_entry_func : bool; remove_fw_entry_func : bool; port_pipes_flush_func : bool;
  query_func : bool; port_pipes_dump_func : bool
}.

(** A call of a callback: pointers are what they point to at the call. *)
Inductive call :=
  | CreatePipe (c : doca_flow_pipe_cfg) (port : Z) (f : option doca_flow_fwd) (next : Z)
      (miss : option doca_flow_fwd) (miss_next : Z)
  | AddEntry (queue pipe_id : Z) (m : doca_flow_match) (a : doca_flow_actions) (mon : option doca_flow_monitor)
      (f : option doca_flow_fwd) (next : Z)
  | FwAddEntry (port : Z) (m : doca_flow_match)
  | AddControlEntry (queue priority pipe_id : Z) (m : doca_flow_match) (mask : option doca_flow_match)
      (f : option doca_flow_fwd) (next : Z)
  | DestroyPipe (pipe_id : Z)
  | RmEntry (queue entry_id : Z)
  | FwRmEntry (entry_id : Z)
  | FlushPipes (port : Z)
  | Query (entry_id : Z)
  | DumpPipes (port : Z) (f : cstring).

Definition when {A} (b : bool) (a : A) : option A := if b then Some a else None.

Section Commands.
Context (strndup_ok : bool) (malloc : Z -> bool) (fopen : cstring -> bool) (cb : callbacks).

Definition reset_doca_flow_structs (p : parser) : parser :=
  Parser match0 match0 match0 actions0 monitor0 fwd0 fwd0 (pipe_port_id p) (fwd_next_pipe_id p)
    (fwd_miss_next_pipe_id p) (rss p).

Definition cmd_create_pipe_parsed (fuel : nat) (params : cstring) (p : parser) : outcome (parser * list call) :=
  if negb (create_pipe_func cb) then Ret (p, [])
  else
    '(result, a) <<- parse_create_pipe_params strndup_ok fuel params
                       (CreateParams pipe_cfg0 (pipe_port_id p) false false false 0);
    let p1 := Parser (pipe_match p) (entry_match p) (match_mask p) (actions p) (monitor p) (fwd p) (fwd_miss p)
                (port_id a) (fwd_next_pipe_id p) (fwd_miss_next_pipe_id p) (rss p) in
    if negb (is_success result) then Ret (p1, [])
    else
      let c := cfg a in
      let c1 := if bool_decide (pipe_type c <> PIPE_CONTROL)
                then PipeCfg (name c) (pipe_type c) (is_root c) 1 true (cfg_match_mask c) true (cfg_monitor c)
                else c in
      Ret (p1, [CreatePipe c1 (pipe_port_id p1) (when (fwd_action a) (fwd p1)) (fwd_next_pipe_id p1)
                  (when (fwd_miss_action a) (fwd_miss p1)) (fwd_miss_next_pipe_id p1)]).

Definition cmd_add_entry_parsed (fuel : nat) (params : cstring) (p : parser) : outcome (list call) :=
  if negb (add_entry_func cb) then Ret []
  else
    '(result, a) <<- parse_add_entry_params fuel params entry_params0;
    if negb (is_success result) then Ret []
    else Ret [AddEntry (u16 (e_pipe_queue a)) (e_pipe_id a) (entry_match p) (actions p)
                (when (e_monitor a) (monitor p)) (when (e_fwd a) (fwd p)) (fwd_next_pipe_id p)].

Definition cmd_fw_add_entry_parsed (params : cstring) (p : parser) : outcome (list call) :=
  if negb (add_fw_entry_func cb) then Ret []
  else
    '(result, port) ⇐ parse_fw_add_entry_params params 0;
    if negb (is_success result) then Ret [] else Ret [FwAddEntry port (entry_match p)].

Definition cmd_add_control_pipe_entry_parsed (fuel : nat) (params : cstring) (p : parser) : outcome (list call) :=
  if negb (add_control_pipe_entry_func cb) then Ret []
  else
    '(result, a) <<- parse_add_control_pipe_entry_params fuel params entry_params0;
    if negb (is_success result) then Ret []
    else Ret [AddControlEntry (e_pipe_queue a) (e_priority a) (e_pipe_id a) (entry_match p)
                (when (e_mask a) (match_mask p)) (when (e_fwd a) (fwd p)) (fwd_next_pipe_id p)].

Definition cmd_destroy_pipe_parsed (params : cstring) : outcome (list call) :=
  if negb (destroy_pipe_func cb) then Ret []
  else
    '(result, pipe_id) ⇐ parse_pipe_id_input params 0;
    if negb (is_success result) then Ret [] else Ret [DestroyPipe pipe_id].

Definition cmd_rm_entry_parsed (fuel : nat) (params : cstring) : outcome (list call) :=
  if negb (remove_entry_func cb) then Ret []
  else
    '(result, a) <<- parse_entry_params fuel params true true entry_params0;
    if negb (is_success result) then Ret [] else Ret [RmEntry (e_pipe_queue a) (e_pipe_id a)].

Definition cmd_fw_rm_entry_parsed (params : cstring) : outcome (list call) :=
  if negb (remove_fw_entry_func cb) then Ret []
  else
    '(result, entry_id) ⇐ parse_fw_entry_params params 0;
    if negb (is_success result) then Ret [] else Ret [FwRmEntry entry_id].

Definition cmd_flush_pipes_parsed (params : cstring) : outcome (list call) :=
  if negb (port_pipes_flush_func cb) then Ret []
  else
    '(result, port) ⇐ parse_port_id_input params 0;
    if negb (is_success result) then Ret [] else Ret [FlushPipes (u16 port)].

Definition cmd_query_parsed (fuel : nat) (params : cstring) : outcome (list call) :=
  if negb (query_func cb) then Ret []
  else
    '(result, a) <<- parse_entry_params fuel params false false entry_params0;
    if negb (is_success result) then Ret [] else Ret [Query (e_pipe_id a)].

(** The files opened and closed, and the calls. *)
Definition cmd_dump_pipe_parsed (fuel : nat) (params : cstring) : outcome (dump_params * list call) :=
  if negb (port_pipes_dump_func cb) then Ret (dump_params0, [])
  else
    '(result, a) <<- parse_dump_pipe_params fopen fuel params dump_params0;
    if negb (is_success result) then
      match file a with
      | Some _ => a1 ⇐ close_file a; Ret (a1, [])
      | None => Ret (a, [])
      end
    else
      fd ⇐ file a;
      a1 ⇐ close_file a;
      Ret (a1, [DumpPipes (d_port_id a) fd]).

(** The result of parse_struct is not used. *)
Definition cmd_create_struct_parsed (fuel : nat) (flow_struct input : cstring) (p : parser) : outcome parser :=
  if strcmp flow_struct (str "pipe_match") then
    '(_, x) <<- parse_struct fuel parse_match_field input match0;
    Ret (Parser x (entry_match p) (match_mask p) (actions p) (monitor p) (fwd p) (fwd_miss p)
           (pipe_port_id p) (fwd_next_pipe_id p) (fwd_miss_next_pipe_id p) (rss p))
  else if strcmp flow_struct (str "entry_match") then
    '(_, x) <<- parse_struct fuel parse_match_field input match0;
    Ret (Parser (pipe_match p) x (match_mask p) (actions p) (monitor p) (fwd p) (fwd_miss p)
           (pipe_port_id p) (fwd_next_pipe_id p) (fwd_miss_next_pipe_id p) (rss p))
  else if strcmp flow_struct (str "match_mask") then
    '(_, x) <<- parse_struct fuel parse_match_field input match0;
    Ret (Parser (pipe_match p) (entry_match p) x (actions p) (monitor p) (fwd p) (fwd_miss p)
           (pipe_port_id p) (fwd_next_pipe_id p) (fwd_miss_next_pipe_id p) (rss p))
  else if strcmp flow_struct (str "actions") then
    '(_, x) <<- parse_struct fuel parse_actions_field input actions0;
    Ret (Parser (pipe_match p) (entry_match p) (match_mask p) x (monitor p) (fwd p) (fwd_miss p)
           (pipe_port_id p) (fwd_next_pipe_id p) (fwd_miss_next_pipe_id p) (rss p))
  else if strcmp flow_struct (str "monitor") then
    '(_, x) <<- parse_struct fuel parse_monitor_field input monitor0;
    Ret (Parser (pipe_match p) (entry_match p) (match_mask p) (actions p) x (fwd p) (fwd_miss p)
           (pipe_port_id p) (fwd_next_pipe_id p) (fwd_miss_next_pipe_id p) (rss p))
  else if strcmp flow_struct (str "fwd") then
    '(_, x) <<- parse_struct fuel (parse_fwd_field malloc) input (FwdState fwd0 (rss p) (fwd_next_pipe_id p));
    Ret (Parser (pipe_match p) (entry_match p) (match_mask p) (actions p) (monitor p) (f_fwd x) (fwd_miss p)
           (pipe_port_id p) (f_next_pipe_id x) (fwd_miss_next_pipe_id p) (f_rss x))
  else if strcmp flow_struct (str "fwd_miss") then
    '(_, x) <<- parse_struct fuel (parse_fwd_miss_field malloc) input (FwdState fwd0 (rss p) (fwd_miss_next_pipe_id p));
    Ret (Parser (pipe_match p) (entry_match p) (match_mask p) (actions p) (monitor p) (fwd p) (f_fwd x)
           (pipe_port_id p) (fwd_next_pipe_id p) (f_next_pipe_id x) (f_rss x))
  else Ret p.

Definition cmd_fw_create_struct_parsed (fuel : nat) (input : cstring) (p : parser) : outcome parser :=
  '(_, x) <<- parse_struct fuel parse_fw_match_field input match0;
  Ret (Parser (pipe_match p) x (match_mask p) (actions p) (monitor p) (fwd p) (fwd_miss p)
         (pipe_port_id p) (fwd_next_pipe_id p) (fwd_miss_next_pipe_id p) (rss p)).

(** *** The two command sets *)

(** A line that the command line library has matched with the tokens of a
    command, with its last tokens. *)
Inductive command :=
  | CmdQuit
  | CmdStruct (flow_struct input : cstring)
  | CmdCreatePipe (params : cstring)
  | CmdAddEntry (params : cstring)
  | CmdAddControlPipeEntry (params : cstring)
  | CmdDestroyPipe (params : cstring)
  | CmdRmEntry (params : cstring)
  | CmdFlushPipe (params : cstring)
  | CmdDumpPipe (params : cstring)
  | CmdQuery (params : cstring).

(** main_ctx and fw_subset_ctx: a line of a command that the set does not have
    is not matched. *)
Definition in_ctx (fw_subset : bool) (c : command) : bool :=
  match c with
  | CmdQuit | CmdStruct _ _ | CmdAddEntry _ | CmdRmEntry _ | CmdFlushPipe _ | CmdDumpPipe _ => true
  | CmdCreatePipe _ | CmdAddControlPipeEntry _ | CmdDestroyPipe _ | CmdQuery _ => negb fw_subset
  end.

(** The length of a token is enough fuel. *)
Definition fuel_for (s : cstring) : nat := S (length s).

Definition run_command (fw_subset : bool) (c : command) (p : parser) : outcome (parser * list call) :=
  match c with
  | CmdQuit => Ret (p, [])
  | CmdStruct t s =>
      '(p', cs) <<- (if fw_subset then '(x) <<- cmd_fw_create_struct_parsed (fuel_for s) s p; Ret (x, @nil call)
                     else '(x) <<- cmd_create_struct_parsed (fuel_for s) t s p; Ret (x, []));
      Ret (p', cs)
  | CmdCreatePipe s => cmd_create_pipe_parsed (fuel_for s) s p
  | CmdAddEntry s =>
      '(cs) <<- (if fw_subset then cmd_fw_add_entry_parsed s p else cmd_add_entry_parsed (fuel_for s) s p); Ret (p, cs)
  | CmdAddControlPipeEntry s => '(cs) <<- cmd_add_control_pipe_entry_parsed (fuel_for s) s p; Ret (p, cs)
  | CmdDestroyPipe s => '(cs) <<- cmd_destroy_pipe_parsed s; Ret (p, cs)
  | CmdRmEntry s =>
      '(cs) <<- (if fw_subset then cmd_fw_rm_entry_parsed s else cmd_rm_entry_parsed (fuel_for s) s); Ret (p, cs)
  | CmdFlushPipe s => '(cs) <<- cmd_flush_pipes_parsed s; Ret (p, cs)
  | CmdDumpPipe s => '(_, cs) <<- cmd_dump_pipe_parsed (fuel_for s) s; Ret (p, cs)
  | CmdQuery s => '(cs) <<- cmd_query_parsed (fuel_for s) s; Ret (p, cs)
  end.

(** cmdline_interact: the lines until quit or the end of the input. *)
Fixpoint interact (fw_subset : bool) (cs : list command) (p : parser) : outcome (parser * list call) :=
  match cs with
  | [] | CmdQuit :: _ => Ret (p, [])
  | c :: cs' =>
      if in_ctx fw_subset c then
        '(p1, out) <<- run_command fw_subset c p;
        '(p2, out') <<- interact fw_subset cs' p1;
        Ret (p2, out ++ out')
      else interact fw_subset cs' p
  end.

Definition flow_parser_init (cl : bool) (fw_subset : bool) (input : list command) (p : parser)
    : outcome (doca_error * parser * list call) :=
  let p1 := reset_doca_flow_structs p in
  if negb cl then Ret (DOCA_ERROR_INVALID_VALUE, p1, [])
  else '(p2, out) <<- interact fw_subset input p1; Ret (DOCA_SUCCESS, p2, out).

Definition flow_parser_cleanup (p : parser) : parser :=
  Parser (pipe_match p) (entry_match p) (match_mask p) (actions p) (monitor p) (fwd p) (fwd_miss p)
    (pipe_port_id p) (fwd_next_pipe_id p) (fwd_miss_next_pipe_id p) (free_rss (rss p)).
End Commands.
