(* ===== verification/FlowParserSpec.v ===== *)
(** * Properties of the flow parser

    That the fuel is enough, what the parser makes of well-formed input, and the fields it
    does not handle as intended.  Definitions: CString.v, FlowTypes.v,
    FlowFields.v and FlowParser.v. *)

From stdpp Require Import gmap.
From S2P Require Import Prelude CString FlowTypes FlowFields FlowParser.
#[local] Open Scope Z_scope.

(** ** Termination *)

(** The fuel is enough: there is a result, or undefined behaviour is reached
    within it. *)
Definition terminates {A} (o : outcome A) : Prop := o <> OutOfFuel.

(** A parameter that is accepted moves the pointer forward, not back. *)
Definition forward {A} (param : cstring -> A -> option (doca_error * cstring * A)) : Prop :=
  forall s a r s' a', param s a = Some (r, s', a') -> r = DOCA_SUCCESS -> (length s' <= length s)%nat.

Lemma next_length s c s' : next s = (c, Some s') -> length s = S (length s').
Proof. destruct s; cbn; [done|]. by intros [= _ <-]. Qed.

Lemma params_loop_total {A} (param : cstring -> A -> option (doca_error * cstring * A)) fuel s a :
  forward param -> (length s < fuel)%nat -> params_loop fuel param s a <> OutOfFuel.
Proof.
  intros Hf. revert s a. induction fuel as [|fuel IH]; intros s a Hl; [lia|]. cbn [params_loop].
  destruct (param s a) as [[[r s1] a1]|] eqn:E; cbn [of_opt]; [|done].
  unfold is_success. destruct (bool_decide_reflect (r = DOCA_SUCCESS)) as [Hr|]; cbn [negb]; [|done].
  pose proof (Hf _ _ _ _ _ E Hr). destruct (next s1) as [c [s2|]] eqn:En; destruct (c =? comma); cbn [of_opt]; try done.
  apply IH. apply next_length in En. lia.
Qed.

Lemma number_param_length s n conv v s' :
  (forall x, exists w y, conv x = (w, Some y) /\ (length y <= length x)%nat) ->
  number_param s n conv = Some (v, s') -> (length s' <= length s)%nat.
Proof.
  intros Hc. unfold number_param. destruct (adv n s) as [s1|] eqn:Ha; obind; [|done].
  apply adv_length in Ha. destruct (Hc (strlcpy s1 MAX_CMDLINE_INPUT_LEN)) as (w & y & -> & Hy). obind.
  intros [= _ <-]. unfold strlcpy in Hy. rewrite length_take in Hy. lia.
Qed.

Lemma bool_param_length s n b r s' b' :
  parse_bool_params_input s n b = Some (r, s', b') -> (length s' <= length s)%nat.
Proof.
  unfold parse_bool_params_input. destruct (adv n s) as [s1|] eqn:Ha; obind; [|done]. apply adv_length in Ha.
  destruct (strtol s1 0) as [v [ptr|]]; obind; [|done].
  repeat case_match; obind; try done; intros [= _ <- _] || idtac; try lia.
  all: destruct (adv 1 s1) as [s2|] eqn:Ha2; obind; [|done]; apply adv_length in Ha2; intros [= _ <- _]; lia.
Qed.

Lemma strtoull0_end x : exists w y, (fun x => strtoull x 0) x = (w, Some y) /\ (length y <= length x)%nat.
Proof. by apply strtoull_end. Qed.
Lemma strtol0_end x : exists w y, (fun x => strtol x 0) x = (w, Some y) /\ (length y <= length x)%nat.
Proof. by apply strtol_end. Qed.

(** Takes a branch of a parameter apart and bounds the pointers in it. *)
Ltac split_branch H :=
  repeat (cbn [mbind option_bind negb] in H;
    lazymatch type of H with
    | None = Some _ => discriminate H
    | Some _ = Some _ => fail
    | (if ?b then _ else _) = _ => destruct b eqn:?
    | mbind _ (number_param ?s ?n ?c) = _ =>
        let E := fresh in destruct (number_param s n c) as [[? ?]|] eqn:E; [|discriminate H];
        apply number_param_length in E; [|first [exact strtoull0_end|exact strtol0_end]]
    | mbind _ (parse_bool_params_input ?s ?n ?b) = _ =>
        let E := fresh in destruct (parse_bool_params_input s n b) as [[[? ?] ?]|] eqn:E; [|discriminate H];
        apply bool_param_length in E
    | mbind _ (adv ?n ?s) = _ =>
        let E := fresh in destruct (adv n s) eqn:E; [|discriminate H]; apply adv_length in E
    | mbind _ ?o = _ => destruct o; [|discriminate H]
    | match ?x with _ => _ end = _ => destruct x
    end).

(** The branches that fail are excluded by the result, the others move forward. *)
Ltac solve_forward :=
  let H := fresh "H" in
  intros s a r s' a' H ->; unfold create_error in *; split_branch H; simplify_eq/=; lia.

Lemma create_pipe_param_forward ok : forward (create_pipe_param ok).
Proof. unfold create_pipe_param. solve_forward. Qed.
Lemma add_entry_param_forward : forward add_entry_param.
Proof. unfold add_entry_param. solve_forward. Qed.
Lemma add_control_pipe_entry_param_forward : forward add_control_pipe_entry_param.
Proof. unfold add_control_pipe_entry_param. solve_forward. Qed.
Lemma entry_param_forward q : forward (entry_param q).
Proof. unfold entry_param. solve_forward. Qed.
Lemma dump_pipe_param_forward fopen : forward (dump_pipe_param fopen).
Proof. unfold dump_pipe_param. solve_forward. Qed.

Lemma parse_struct_total {A} (fill : cstring -> cstring -> A -> option (doca_error * A)) fuel s a :
  (length s < fuel)%nat -> parse_struct fuel fill s a <> OutOfFuel.
Proof.
  revert s a. induction fuel as [|fuel IH]; intros s a Hl; [lia|]. cbn [parse_struct].
  destruct (strtok _ equals) as [tmp|]; [|done]. destruct (adv _ s) as [s1|] eqn:E1; cbn [of_opt]; [|done].
  destruct (strtok _ comma) as [tmp'|]; [|done]. destruct (adv _ s1) as [s2|] eqn:E2; cbn [of_opt]; [|done].
  apply adv_length in E1, E2. destruct (next s2) as [c s3] eqn:En. destruct (fill _ _ a) as [[r a']|]; [|done].
  cbn [of_opt]. destruct (negb _); [done|]. destruct (c =? comma); [|done].
  destruct s3 as [s4|]; cbn [of_opt]; [|done]. apply IH. apply next_length in En. lia.
Qed.

Lemma obnd_total {A B} (o : outcome A) (k : A -> outcome B) :
  o <> OutOfFuel -> (forall a, k a <> OutOfFuel) -> obnd o k <> OutOfFuel.
Proof. destruct o; cbn; auto. Qed.

Lemma of_opt_total {A B} (o : option A) (k : A -> outcome B) :
  (forall a, k a <> OutOfFuel) -> of_opt o k <> OutOfFuel.
Proof. destruct o; cbn; auto. Qed.

#[local] Hint Resolve create_pipe_param_forward add_entry_param_forward add_control_pipe_entry_param_forward
  entry_param_forward dump_pipe_param_forward params_loop_total parse_struct_total : total.

(** Descends through the sequencing to the loops. *)
Ltac solve_total :=
  repeat first
    [ discriminate
    | apply params_loop_total; [auto with total|lia]
    | apply parse_struct_total; lia
    | apply obnd_total; [|intros ?]
    | apply of_opt_total; intros ?
    | progress cbn beta iota zeta
    | case_match ].

Lemma run_command_total ok malloc fopen cb fw c p : run_command ok malloc fopen cb fw c p <> OutOfFuel.
Proof.
  assert (forall s, (length s < fuel_for s)%nat) as Hf by (intros; unfold fuel_for; lia).
  destruct c as [|t s|s|s|s|s|s|s|s|s]; cbn [run_command]; try specialize (Hf s); revert Hf;
    try (generalize (fuel_for s) as n; intros n Hf);
    unfold cmd_fw_create_struct_parsed, cmd_create_struct_parsed, cmd_create_pipe_parsed, parse_create_pipe_params,
      cmd_add_entry_parsed, parse_add_entry_params, cmd_fw_add_entry_parsed, cmd_add_control_pipe_entry_parsed,
      parse_add_control_pipe_entry_params, cmd_destroy_pipe_parsed, cmd_rm_entry_parsed, parse_entry_params,
      cmd_fw_rm_entry_parsed, cmd_flush_pipes_parsed, cmd_dump_pipe_parsed, parse_dump_pipe_params, cmd_query_parsed;
    solve_total.
Qed.

(** Whatever lines the user enters, in either command set, the loops over fields
    and parameters come to a result or to undefined behaviour (a pointer past the
    end of the line) within the length of the line.  The lines for which there is
    a result are in FlowParserReturns.v. *)
Theorem flow_parser_terminates ok malloc fopen cb cl fw input p :
  terminates (flow_parser_init ok malloc fopen cb cl fw input p).
Proof.
  unfold terminates, flow_parser_init. destruct cl; cbn [negb]; [|done]. apply obnd_total; [|by intros []].
  generalize (reset_doca_flow_structs p). induction input as [|c cs IH]; intros q; [done|].
  cbn [interact]. destruct c; try done; destruct (in_ctx _ _); try apply IH;
    (apply obnd_total; [apply run_command_total|intros [p1 out]]; apply obnd_total; [apply IH|by intros []]).
Qed.

(** ** Structures *)

Definition field : Type := cstring * cstring.

(** A name and a value that the splitting at = and at commas leaves whole. *)
Record field_ok (f : field) : Prop := {
  name_nonempty : fst f <> [];
  name_chars : forallb (fun c => negb (c =? equals)) (fst f) = true;
  name_short : (length (fst f) < MAX_FIELD_INPUT_LEN)%nat;
  value_nonempty : snd f <> [];
  value_chars : forallb (fun c => negb (c =? comma)) (snd f) = true;
  value_short : (length (snd f) < MAX_FIELD_INPUT_LEN)%nat
}.

Definition render_field (f : field) : cstring := fst f ++ [equals] ++ snd f.

(** name=value,name=value,... *)
Fixpoint render (fs : list field) : cstring :=
  match fs with
  | [] => []
  | [f] => render_field f
  | f :: fs' => render_field f ++ [comma] ++ render fs'
  end.

(** The fields one after the other, up to the first that is refused. *)
Fixpoint fill_all {A} (fill : cstring -> cstring -> A -> option (doca_error * A)) (fs : list field) (a : A)
    : option (doca_error * A) :=
  match fs with
  | [] => Some (DOCA_SUCCESS, a)
  | f :: fs' =>
      '(r, a') ← fill (fst f) (snd f) a;
      if is_success r then fill_all fill fs' a' else Some (r, a')
  end.

(** The first token of a buffer that holds a short token and more. *)
Lemma strtok_buffer a d b n :
  a <> [] -> forallb (fun c => negb (c =? d)) a = true -> (length a < n - 1)%nat ->
  (forall c b', b = c :: b' -> c = d) -> strtok (strlcpy (a ++ b) n) d = Some a.
Proof.
  intros Hne Ha Hn Hb. unfold strlcpy. rewrite take_app_ge by lia. apply strtok_run; [done..|].
  intros c b' E. destruct b as [|c0 b0].
  - by rewrite take_nil in E.
  - destruct (n - 1 - length a)%nat as [|k] eqn:Ek; [lia|]. cbn [take] in E. injection E as <- _. by eapply Hb.
Qed.

(** A structure written as name=value pairs separated by commas is parsed
    by handing each name with its value to the field parser, in order, up to
    the first that is refused, whose error is the result. *)
Theorem parse_struct_fields {A} (fill : cstring -> cstring -> A -> option (doca_error * A)) fs a :
  fs <> [] -> Forall field_ok fs ->
  parse_struct (fuel_for (render fs)) fill (render fs) a = of_opt (fill_all fill fs a) Ret.
Proof.
  unfold fuel_for. intros Hne Hok. revert a.
  assert (forall fuel a, (length (render fs) < fuel)%nat ->
    parse_struct fuel fill (render fs) a = of_opt (fill_all fill fs a) Ret) as Hgen; [|intros a; apply Hgen; lia].
  induction fs as [|f fs IH]; [done|]. intros fuel a Hfuel.
  apply Forall_cons in Hok as [[Hn1 Hn2 Hn3 Hv1 Hv2 Hv3] Hok].
  destruct fuel as [|fuel]; [lia|]. cbn [parse_struct fill_all].
  set (tail := match fs with [] => [] | _ => comma :: render fs end).
  assert (Hr : render (f :: fs) = fst f ++ equals :: snd f ++ tail).
  { unfold tail. destruct fs; cbn [render]; unfold render_field; cbn [app]; by rewrite <- ?app_assoc, ?app_nil_r. }
  rewrite Hr in *. unfold MAX_CMDLINE_INPUT_LEN, MAX_FIELD_INPUT_LEN in *.
  rewrite strtok_buffer; [|done|done|lia|by intros c b' [= <- _]]. cbn zeta.
  rewrite strlcpy_short by lia.
  replace (length (fst f) + 1)%nat with (length (fst f ++ [equals])) by (rewrite length_app; done).
  change (equals :: snd f ++ tail) with ([equals] ++ snd f ++ tail). rewrite app_assoc, adv_app. cbn [of_opt].
  rewrite strtok_buffer; [|done|done|lia|].
  2: { unfold tail. intros c b'. by destruct fs; [|intros [= <- _]]. }
  rewrite strlcpy_short by lia. rewrite adv_app. cbn [of_opt].
  destruct (next tail) as [c s3] eqn:En. destruct (fill _ _ a) as [[r a']|]; [|done]. obind. cbn [of_opt].
  destruct (is_success r) eqn:Er; cbn [negb]; [|done].
  unfold tail in En. destruct fs as [|f2 fs2].
  - injection En as <- <-. done.
  - cbn [next] in En. injection En as <- <-. cbn [of_opt]. change (comma =? comma) with true. cbn iota.
    apply IH; [done|done|]. rewrite !length_app in Hfuel. cbn [length] in Hfuel. rewrite length_app in Hfuel.
    unfold tail in Hfuel. cbn [length] in Hfuel. lia.
Qed.

(** ** Firewall rules *)

Record ip4 := Ip { o1 : Z; o2 : Z; o3 : Z; o4 : Z }.
Definition ip4_ok (i : ip4) : Prop := in_u 8 (o1 i) /\ in_u 8 (o2 i) /\ in_u 8 (o3 i) /\ in_u 8 (o4 i).
Definition ip4_text (i : ip4) : cstring := dotted (o1 i) (o2 i) (o3 i) (o4 i).
Definition ip4_bytes (i : ip4) : bytes := [o1 i; o2 i; o3 i; o4 i].

Record fw_rule := FwRule { tcp : bool; sip : ip4; dip : ip4; sport : Z; dport : Z }.
Definition fw_rule_ok (r : fw_rule) : Prop := ip4_ok (sip r) /\ ip4_ok (dip r) /\ in_u 16 (sport r) /\ in_u 16 (dport r).

(** The command text of a rule and the match it stands for. *)
Definition fw_rule_fields (r : fw_rule) : list field :=
  [(str "outer.src_ip_addr", ip4_text (sip r)); (str "outer.dst_ip_addr", ip4_text (dip r));
   (str "outer.l4_type_ext", if tcp r then str "tcp" else str "udp");
   (if tcp r then str "outer.tcp_src_port" else str "outer.udp_src_port", dec (sport r));
   (if tcp r then str "outer.tcp_dst_port" else str "outer.udp_dst_port", dec (dport r))].
Definition fw_rule_match (r : fw_rule) : doca_flow_match :=
  Match 0 0
    (Header (zeros 6) (zeros 6) 0 0 0 L3_IP4 (ip4_bytes (sip r) ++ ip4_bytes (dip r) ++ zeros 32)
       (if tcp r then L4_TCP else L4_UDP) (be_bytes 2 (sport r) ++ be_bytes 2 (dport r) ++ zeros 2))
    tun0 header0.

Lemma dec_field n c : 0 <= n -> ~ 48 <= c <= 57 -> dec n <> [] /\
  forallb (fun x => negb (x =? c)) (dec n) = true /\ (length (dec n) <= 20)%nat.
Proof. intros. split; [apply dec_nonempty|]. split; [by apply dec_without|apply dec_length]. Qed.

Lemma dotted_comma a b c d :
  0 <= a -> 0 <= b -> 0 <= c -> 0 <= d ->
  dotted a b c d <> [] /\ forallb (fun x => negb (x =? comma)) (dotted a b c d) = true /\
  (length (dotted a b c d) < 128)%nat.
Proof.
  intros Ha Hb Hc Hd. unfold dotted.
  destruct (dec_field a comma Ha) as (? & Ea & ?), (dec_field b comma Hb) as (? & Eb & ?),
    (dec_field c comma Hc) as (? & Ec & ?), (dec_field d comma Hd) as (? & Ed & ?); try (unfold comma; lia).
  split_and!.
  - by destruct (dec a).
  - rewrite !forallb_app, Ea, Eb, Ec, Ed. done.
  - rewrite !length_app. cbn [length]. lia.
Qed.

Lemma tol_dec n : 0 <= n < 2 ^ 63 -> tol (dec n) = n.
Proof. intros. unfold tol. rewrite <- (app_nil_r (dec n)), strtol_dec; auto with doca. Qed.

Lemma be16_dec n : in_u 16 n -> be16 (dec n) = be_bytes 2 n.
Proof. intros Hn. unfold be16, in_u in *. by rewrite tol_dec, wrap_small by lia. Qed.

(** A literal field name with a value. *)
Lemma literal_field_ok k v :
  (negb (strcmp k []) && forallb (fun c => negb (c =? equals)) k && (length k <? 128)%nat) = true ->
  v <> [] -> forallb (fun c => negb (c =? comma)) v = true -> (length v < 128)%nat -> field_ok (k, v).
Proof.
  intros [[H1 H2]%andb_true_iff H3%Nat.ltb_lt]%andb_true_iff ? ? ?. split; cbn [fst snd]; try done. by destruct k.
Qed.

Lemma fw_rule_fields_ok r : fw_rule_ok r -> Forall field_ok (fw_rule_fields r).
Proof.
  intros ((A1 & A2 & A3 & A4) & (B1 & B2 & B3 & B4) & Hs & Hd). unfold in_u in *. unfold fw_rule_fields, ip4_text.
  destruct (dotted_comma (o1 (sip r)) (o2 (sip r)) (o3 (sip r)) (o4 (sip r))) as (? & ? & ?); try lia.
  destruct (dotted_comma (o1 (dip r)) (o2 (dip r)) (o3 (dip r)) (o4 (dip r))) as (? & ? & ?); try lia.
  destruct (dec_field (sport r) comma) as (? & ? & ?); [lia|unfold comma; lia|].
  destruct (dec_field (dport r) comma) as (? & ? & ?); [lia|unfold comma; lia|].
  destruct (tcp r); repeat (apply Forall_cons; split); try apply Forall_nil; try done;
    apply literal_field_ok; first [done|lia|cbn; lia].
Qed.

(** The fields of the firewall's subset. *)
Lemma fw_src_field v m x y : (forall old, parse_ipv4_str v old = (x, y)) ->
  parse_fw_match_field (str "outer.src_ip_addr") v m = Some (x, set_outer (set_l3 0 y (set_l3_type L3_IP4 (outer m))) m).
Proof. intros H. unfold parse_fw_match_field. eval_names. by rewrite H. Qed.

Lemma fw_dst_field v m x y : (forall old, parse_ipv4_str v old = (x, y)) ->
  parse_fw_match_field (str "outer.dst_ip_addr") v m = Some (x, set_outer (set_l3 4 y (set_l3_type L3_IP4 (outer m))) m).
Proof. intros H. unfold parse_fw_match_field. eval_names. by rewrite H. Qed.

Lemma fw_l4_field (t : bool) m :
  parse_fw_match_field (str "outer.l4_type_ext") (if t then str "tcp" else str "udp") m =
  Some (DOCA_SUCCESS, set_outer (set_l4_type (if t then L4_TCP else L4_UDP) (set_l3_type L3_IP4 (outer m))) m).
Proof. unfold parse_fw_match_field, parse_protocol_string. destruct t; by eval_names. Qed.

Lemma fw_sport_field (t : bool) v m :
  parse_fw_match_field (if t then str "outer.tcp_src_port" else str "outer.udp_src_port") v m =
  Some (DOCA_SUCCESS, set_outer (set_l4 0 (be16 v) (set_l3_type L3_IP4 (outer m))) m).
Proof. unfold parse_fw_match_field. destruct t; by eval_names. Qed.

Lemma fw_dport_field (t : bool) v m :
  parse_fw_match_field (if t then str "outer.tcp_dst_port" else str "outer.udp_dst_port") v m =
  Some (DOCA_SUCCESS, set_outer (set_l4 2 (be16 v) (set_l3_type L3_IP4 (outer m))) m).
Proof. unfold parse_fw_match_field. destruct t; by eval_names. Qed.

(** What the fields of a rule do to an empty match. *)
Lemma fill_fw_rule r :
  fw_rule_ok r -> fill_all parse_fw_match_field (fw_rule_fields r) match0 = Some (DOCA_SUCCESS, fw_rule_match r).
Proof.
  intros ((A1 & A2 & A3 & A4) & (B1 & B2 & B3 & B4) & Hs & Hd).
  pose proof (be16_dec (sport r) Hs) as Es. pose proof (be16_dec (dport r) Hd) as Ed.
  unfold fw_rule_fields, fw_rule_match, ip4_text, ip4_bytes.
  destruct r as [t s d sp dp]; cbn [tcp sip dip sport dport] in *.
  assert (Hsrc : forall old, parse_ipv4_str (dotted (o1 s) (o2 s) (o3 s) (o4 s)) old =
    (DOCA_SUCCESS, [o1 s; o2 s; o3 s; o4 s])) by (intros; by apply parse_ipv4_dotted).
  assert (Hdst : forall old, parse_ipv4_str (dotted (o1 d) (o2 d) (o3 d) (o4 d)) old =
    (DOCA_SUCCESS, [o1 d; o2 d; o3 d; o4 d])) by (intros; by apply parse_ipv4_dotted).
  cbn [fill_all fst snd]. rewrite (fw_src_field _ _ _ _ Hsrc). obind. change (is_success DOCA_SUCCESS) with true.
  cbn iota. rewrite (fw_dst_field _ _ _ _ Hdst). obind. change (is_success DOCA_SUCCESS) with true. cbn iota.
  rewrite fw_l4_field. obind. change (is_success DOCA_SUCCESS) with true. cbn iota.
  rewrite fw_sport_field. obind. change (is_success DOCA_SUCCESS) with true. cbn iota.
  rewrite fw_dport_field, Es, Ed. obind. change (is_success DOCA_SUCCESS) with true. cbn iota.
  reflexivity.
Qed.

(** The two commands that install a rule, before others. *)
Lemma fw_rule_commands ok malloc fopen cb p r port :
  fw_rule_ok r -> in_u 16 port -> add_fw_entry_func cb = true ->
  exists p', forall cs, interact ok malloc fopen cb true
    (CmdStruct (str "entry_match") (render (fw_rule_fields r)) :: CmdAddEntry (str "port_id=" ++ dec port) :: cs) p =
  match interact ok malloc fopen cb true cs p' with
  | Ret (p2, out) => Ret (p2, FwAddEntry port (fw_rule_match r) :: out)
  | Undefined => Undefined
  | OutOfFuel => OutOfFuel
  end.
Proof.
  intros Hr Hp Hcb. exists (Parser (pipe_match p) (fw_rule_match r) (match_mask p) (actions p) (monitor p) (fwd p) (fwd_miss p)
    (pipe_port_id p) (fwd_next_pipe_id p) (fwd_miss_next_pipe_id p) (rss p)).
  intros cs. cbn [interact in_ctx run_command].
  unfold cmd_fw_create_struct_parsed. rewrite parse_struct_fields; [|done|by apply fw_rule_fields_ok].
  rewrite fill_fw_rule by done. cbn [of_opt obnd]. unfold cmd_fw_add_entry_parsed, parse_fw_add_entry_params.
  rewrite Hcb. cbn [negb]. rewrite starts_with_app. unfold number_param, PORT_ID_STR_LEN.
  change 8%nat with (length (str "port_id=")). rewrite adv_app. obind.
  pose proof (dec_length port). unfold MAX_CMDLINE_INPUT_LEN. rewrite strlcpy_short by lia. unfold in_u in *.
  rewrite <- (app_nil_r (dec port)), strtoull_dec; [|unfold in_u; lia|auto with doca]. obind. cbn [of_opt].
  rewrite wrap_small by lia. cbn [negb].
  change (is_success DOCA_SUCCESS) with true. cbn [negb obnd app].
  match goal with |- context [interact ok malloc fopen cb true cs ?p'] =>
    by destruct (interact ok malloc fopen cb true cs p') as [[]| |] end.
Qed.

(** C36: A firewall rule entered as text is installed as written.  After
    "create entry_match" with the addresses in dotted notation, the protocol and
    the ports in decimal, "add entry port_id=N" calls the firewall's callback
    once, with port N and the match of these addresses and ports in network
    byte order, every other field zero. *)
Theorem fw_rule_installed ok malloc fopen cb p r port :
  fw_rule_ok r -> in_u 16 port -> add_fw_entry_func cb = true ->
  exists p', flow_parser_init ok malloc fopen cb true true
    [CmdStruct (str "entry_match") (render (fw_rule_fields r)); CmdAddEntry (str "port_id=" ++ dec port)] p
  = Ret (DOCA_SUCCESS, p', [FwAddEntry port (fw_rule_match r)]).
Proof.
  intros Hr Hp Hcb. destruct (fw_rule_commands ok malloc fopen cb (reset_doca_flow_structs p) r port Hr Hp Hcb) as [p' H].
  exists p'. unfold flow_parser_init. cbn [negb]. by rewrite H.
Qed.

(** ** Entries *)

(** The parameters of "add entry", in any order. *)
Inductive eparam := PId (n : Z) | PQueue (n : Z) | PMonitor (b : bool) | PFwd (b : bool).

Definition eparam_ok (x : eparam) : Prop :=
  match x with PId n => in_u 64 n | PQueue n => in_u 16 n | _ => True end.
Definition bit (b : bool) : cstring := [if b then 49 else 48].
Definition eparam_text (x : eparam) : cstring :=
  match x with
  | PId n => str "pipe_id=" ++ dec n
  | PQueue n => str "pipe_queue=" ++ dec n
  | PMonitor b => str "monitor=" ++ bit b
  | PFwd b => str "fwd=" ++ bit b
  end.
(** A flag that is 0 leaves what an earlier one has set. *)
Definition eparam_apply (a : entry_params) (x : eparam) : entry_params :=
  match x with
  | PId n => set_e_pipe_id n a
  | PQueue n => set_e_pipe_queue n a
  | PMonitor b => set_e_monitor (b || e_monitor a) a
  | PFwd b => set_e_fwd (b || e_fwd a) a
  end.

(** Texts separated by commas. *)
Fixpoint join (l : list cstring) : cstring :=
  match l with
  | [] => []
  | [x] => x
  | x :: l' => x ++ [comma] ++ join l'
  end.

Definition ends (tail : cstring) : Prop := forall c r, tail = c :: r -> c = comma.

Lemma ends_stops tail : ends tail -> stops tail.
Proof. intros H c r E. by rewrite (H c r E). Qed.

Lemma number_param_text p n v tail conv :
  length p = n -> (length (dec v ++ tail) < 512)%nat -> conv (dec v ++ tail) = (v, Some tail) ->
  number_param (p ++ dec v ++ tail) n conv = Some (v, tail).
Proof.
  intros <- Hl Hc. unfold number_param. rewrite adv_app. obind. unfold MAX_CMDLINE_INPUT_LEN.
  rewrite strlcpy_short by done. by rewrite Hc.
Qed.

Lemma bool_param_text p n b old tail :
  length p = n -> ends tail -> parse_bool_params_input (p ++ bit b ++ tail) n old = Some (DOCA_SUCCESS, tail, b || old).
Proof.
  intros <- Ht. unfold parse_bool_params_input. rewrite adv_app. obind.
  replace (bit b) with (dec (if b then 1 else 0)) by (by destruct b).
  rewrite strtol_dec; [|by left|destruct b; lia|by apply ends_stops]. obind.
  rewrite (proj2 (Nat.eqb_neq _ _)) by (rewrite length_app; destruct b; cbn; lia).
  destruct b; cbn [app dec]; reflexivity.
Qed.

Lemma add_entry_param_text x tail a :
  eparam_ok x -> ends tail -> (length (eparam_text x ++ tail) < 512)%nat ->
  add_entry_param (eparam_text x ++ tail) a = Some (DOCA_SUCCESS, tail, eparam_apply a x).
Proof.
  intros Hx Ht Hl. pose proof (ends_stops tail Ht) as Hs. unfold add_entry_param.
  destruct x as [n|n|b|b]; cbn [eparam_text eparam_ok eparam_apply] in *; rewrite <- app_assoc in *;
    rewrite length_app in Hl.
  - rewrite starts_with_app. rewrite number_param_text with (v := n) (tail := tail); try done; [lia|].
    by apply strtoull_dec.
  - unfold in_u in Hx. change (starts_with (str "pipe_id=") (str "pipe_queue=" ++ dec n ++ tail)) with false.
    cbn iota. rewrite starts_with_app. rewrite number_param_text with (v := n) (tail := tail); try done; [|lia|].
    + obind. unfold swrap. rewrite Z.mod_small by lia. do 3 f_equal. lia.
    + apply strtol_dec; auto. lia.
  - change (starts_with (str "pipe_id=") (str "monitor=" ++ bit b ++ tail)) with false.
    change (starts_with (str "pipe_queue=") (str "monitor=" ++ bit b ++ tail)) with false.
    cbn iota. rewrite starts_with_app. by rewrite bool_param_text.
  - change (starts_with (str "pipe_id=") (str "fwd=" ++ bit b ++ tail)) with false.
    change (starts_with (str "pipe_queue=") (str "fwd=" ++ bit b ++ tail)) with false.
    change (starts_with (str "monitor=") (str "fwd=" ++ bit b ++ tail)) with false.
    cbn iota. rewrite starts_with_app. by rewrite bool_param_text.
Qed.

(** The loop over parameters that are each accepted. *)
Lemma params_loop_join {A X} (param : cstring -> A -> option (doca_error * cstring * A))
    (text : X -> cstring) (app : A -> X -> A) (okx : X -> Prop) :
  (forall x tail a, okx x -> ends tail -> (length (text x ++ tail) < 512)%nat ->
     param (text x ++ tail) a = Some (DOCA_SUCCESS, tail, app a x)) ->
  forall xs fuel a, xs <> [] -> Forall okx xs -> (length (join (map text xs)) < 512)%nat ->
    (length (join (map text xs)) < fuel)%nat ->
    params_loop fuel param (join (map text xs)) a = Ret (DOCA_SUCCESS, foldl app a xs).
Proof.
  intros Hp. induction xs as [|x xs IH]; [done|]. intros fuel a _ [Hx Hxs]%Forall_cons Hl Hf.
  destruct fuel as [|fuel]; [lia|]. cbn [params_loop foldl].
  set (tail := match xs with [] => [] | _ => comma :: join (map text xs) end).
  assert (Hj : join (map text (x :: xs)) = text x ++ tail).
  { unfold tail. destruct xs; cbn [map join]; [by rewrite app_nil_r|done]. }
  rewrite Hj in *. assert (ends tail) by (unfold tail; intros c r; by destruct xs; [|intros [= <- _]]).
  rewrite Hp by done. cbn [of_opt]. unfold is_success. rewrite bool_decide_eq_true_2 by done. cbn [negb].
  unfold tail in *. destruct xs as [|x2 xs2]; cbn [next]; [done|].
  change (comma =? comma) with true. cbn iota. cbn [of_opt]. rewrite length_app in *. cbn [length] in *.
  apply IH; [done|done|lia|lia].
Qed.

(** "add entry" with its parameters in any order - the pipe id and the
    queue at least once, in decimal, the flags as 0 or 1 - calls the callback
    with the last id and queue, the current match and actions, and the monitor
    and the forward exactly when a flag asks for them. *)
Theorem add_entry_called cb p xs n q :
  add_entry_func cb = true -> Forall eparam_ok xs -> (length (join (map eparam_text xs)) < 512)%nat ->
  let a := foldl eparam_apply entry_params0 xs in
  has_pipe_id a = true -> has_pipe_queue a = true -> e_pipe_id a = n -> e_pipe_queue a = q -> in_u 16 q ->
  cmd_add_entry_parsed cb (fuel_for (join (map eparam_text xs))) (join (map eparam_text xs)) p =
  Ret [AddEntry q n (entry_match p) (actions p) (when (e_monitor a) (monitor p)) (when (e_fwd a) (fwd p))
         (fwd_next_pipe_id p)].
Proof.
  intros Hcb Hok Hl a Hi Hq <- <- Hr. unfold cmd_add_entry_parsed, parse_add_entry_params. rewrite Hcb. cbn [negb].
  rewrite (params_loop_join add_entry_param eparam_text eparam_apply eparam_ok); try done.
  - fold a. cbn [obnd]. change (is_success DOCA_SUCCESS) with true. cbn [negb]. rewrite Hi, Hq. cbn [negb obnd].
    change (is_success DOCA_SUCCESS) with true. cbn [negb]. by rewrite wrap_id.
  - intros x tail b. apply add_entry_param_text.
  - intros ->. done.
  - unfold fuel_for. lia.
Qed.

(** ** Files of the dump *)

(** Every file that was opened has been closed, in order and once. *)
Definition all_closed (a : dump_params) : Prop := closed a = opened a /\ file a = None.

Definition handle (a : dump_params) : list cstring := match file a with Some n => [n] | None => [] end.

(** What is open is the handle, and there is one after a file parameter. *)
Record dump_inv (a : dump_params) : Prop := {
  inv_open : opened a = closed a ++ handle a;
  inv_has : has_file a = true <-> exists n, file a = Some n
}.

Lemma dump_param_inv fopen s a r s' a' :
  dump_inv a -> dump_pipe_param fopen s a = Some (r, s', a') ->
  opened a' = closed a' ++ handle a' /\ (r = DOCA_SUCCESS -> dump_inv a').
Proof.
  intros [Ho Hh] H. unfold dump_pipe_param in H. destruct (starts_with (str "port_id=") s).
  { destruct (number_param _ _ _) as [[v s1]|]; [|done]. injection H as <- <- <-. by split. }
  destruct (starts_with (str "file=") s).
  2: { injection H as <- <- <-. by split. }
  destruct (has_file a) eqn:Ef.
  - unfold close_file in H. destruct (file a) as [n|] eqn:En; [|done]. injection H as <- <- <-.
    split; [|done]. cbn. unfold handle in Ho. rewrite En in Ho. by rewrite Ho, app_nil_r.
  - assert (En : file a = None).
    { destruct (file a) eqn:En; [|done]. exfalso. assert (false = true) by (apply Hh; eauto). done. }
    unfold handle in Ho. rewrite En, app_nil_r in Ho.
    destruct (adv _ s) as [s1|]; [|done]. obind. cbn [mbind option_bind] in H.
    destruct (strtok _ _) as [n|]; [|done]. cbn [mbind option_bind] in H.
    destruct (adv _ s1) as [s2|]; [|done]. cbn [mbind option_bind] in H. unfold open_file in H.
    destruct (fopen n); cbn [file] in H; injection H as <- <- <-; unfold handle; cbn.
    + rewrite Ho. split; [done|]. intros _. split; cbn; [done|]. naive_solver.
    + split; [by rewrite app_nil_r|done].
Qed.

Lemma dump_loop_inv fopen fuel s a r a' :
  dump_inv a -> params_loop fuel (dump_pipe_param fopen) s a = Ret (r, a') ->
  opened a' = closed a' ++ handle a' /\ (r = DOCA_SUCCESS -> dump_inv a').
Proof.
  revert s a. induction fuel as [|fuel IH]; intros s a Hi H; [done|]. cbn [params_loop] in H.
  destruct (dump_pipe_param fopen s a) as [[[r1 s1] a1]|] eqn:E; [|done]. cbn [of_opt] in H.
  destruct (dump_param_inv _ _ _ _ _ _ Hi E) as [Ho Hs]. unfold is_success in H.
  destruct (bool_decide_reflect (r1 = DOCA_SUCCESS)) as [->|Hr]; cbn [negb] in H.
  - destruct (next s1) as [c s2]. destruct (c =? comma).
    + destruct s2; [|done]. eapply IH; [|exact H]. by apply Hs.
    + injection H as <- <-. by split.
  - injection H as <- <-. by split.
Qed.

(** What the command promises of its files. *)
Definition dump_post (a : dump_params) (calls : list call) : Prop :=
  all_closed a /\ (calls = [] \/ exists port f, calls = [DumpPipes port f] /\ f ∈ opened a).

Lemma close_file_closes b b' :
  opened b = closed b ++ handle b -> close_file b = Some b' -> all_closed b' /\ opened b' = opened b.
Proof. unfold close_file, handle, all_closed. destruct (file b) as [n|]; [|done]. by intros -> [= <-]. Qed.

(** The two ends of the command: after an error, and with a file for the callback. *)
Lemma dump_failed b a calls :
  opened b = closed b ++ handle b ->
  match file b with Some _ => (a1 ⇐ close_file b; Ret (a1, [])) | None => Ret (b, []) end = Ret (a, calls) ->
  dump_post a calls.
Proof.
  intros Hb. destruct (file b) eqn:Ef.
  - destruct (close_file b) as [b'|] eqn:Ec; [|done]. cbn [of_opt]. intros [= <- <-].
    split; [by apply (close_file_closes b b')|by left].
  - intros [= <- <-]. unfold handle in Hb. rewrite Ef, app_nil_r in Hb. split; [by split|by left].
Qed.

Lemma dump_done b a calls :
  opened b = closed b ++ handle b ->
  (fd ⇐ file b; a1 ⇐ close_file b; Ret (a1, [DumpPipes (d_port_id b) fd])) = Ret (a, calls) -> dump_post a calls.
Proof.
  intros Hb. destruct (file b) as [n|] eqn:Ef; [|done]. cbn [of_opt].
  destruct (close_file b) as [b'|] eqn:Ec; [|done]. cbn [of_opt]. intros [= <- <-].
  destruct (close_file_closes b b' Hb Ec) as [Hc E]. split; [done|]. right. do 2 eexists. split; [done|].
  rewrite E, Hb. unfold handle. rewrite Ef. apply elem_of_app. right. by left.
Qed.

(** "port pipes dump" leaves no file open and closes none twice: on every
    path that returns, errors included, the files it has closed are those it has
    opened, in order, and the callback gets a file that was opened. *)
Theorem dump_closes_files fopen cb fuel params a calls :
  cmd_dump_pipe_parsed fopen cb fuel params = Ret (a, calls) ->
  all_closed a /\ (calls = [] \/ exists port f, calls = [DumpPipes port f] /\ f ∈ opened a).
Proof.
  assert (H0 : dump_inv dump_params0) by (split; cbn; [done|split; [done|by intros [? ?]]]).
  unfold cmd_dump_pipe_parsed. destruct (port_pipes_dump_func cb); cbn [negb].
  2: { intros [= <- <-]. split; [by split|by left]. }
  unfold parse_dump_pipe_params.
  destruct (params_loop _ _ _ _) as [[r a1]| |] eqn:El; cbn [obnd]; try done.
  destruct (dump_loop_inv _ _ _ _ _ _ H0 El) as [Ho Hs].
  destruct (is_success r) eqn:Er; cbn [negb obnd]; [|rewrite Er; by apply dump_failed].
  assert (r = DOCA_SUCCESS) as -> by (by apply bool_decide_eq_true in Er). specialize (Hs eq_refl).
  destruct (d_has_port_id a1); cbn [negb obnd]; [|by apply dump_failed].
  destruct (has_file a1) eqn:Ef; cbn [negb obnd]; [by apply dump_done|].
  assert (Hn : file a1 = None).
  { destruct (file a1) eqn:E; [|done]. assert (has_file a1 = true) by (apply (inv_has _ Hs); eauto). congruence. }
  unfold handle in Ho. rewrite Hn, app_nil_r in Ho. unfold open_file. destruct (fopen _); cbn [file obnd].
  - apply (dump_done (DumpParams _ _ (Some _) _ _ _)). unfold handle. cbn. by rewrite Ho.
  - apply (dump_failed (DumpParams _ _ None _ _ _)). unfold handle. cbn. by rewrite app_nil_r.
Qed.

(** ** Values that are not read as they are written *)

Definition colon : Z := 58.

(** The text of a MAC address or of any groups separated by colons. *)
Fixpoint groups (l : list cstring) : cstring :=
  match l with
  | [] => []
  | [x] => x
  | x :: l' => x ++ [colon] ++ groups l'
  end.

Lemma strtol_base_1 s : strtol s HEXADECIMAL_BASE = (0, None).
Proof. done. Qed.

Lemma mac_loop_zero l i mac n :
  l <> [] -> Forall (fun g => forallb (fun c => negb (c =? colon)) g = true) l -> length l = S n ->
  mac_loop n i (groups l) mac = (DOCA_SUCCESS, foldl (fun m k => <[k := 0]> m) mac (seq i (S n))).
Proof.
  revert i mac n. induction l as [|g l IH]; [done|]. intros i mac n _ [Hg Hl]%Forall_cons Hn.
  destruct l as [|g2 l2].
  - destruct n; [|done]. cbn [groups mac_loop]. by rewrite strtol_base_1.
  - destruct n as [|n]; [done|]. cbn [mac_loop]. rewrite strtol_base_1.
    change (groups (g :: g2 :: l2)) with (g ++ colon :: groups (g2 :: l2)).
    rewrite strchr_run by done. cbn [drop]. rewrite IH; [done|done|done|]. cbn in *. lia.
Qed.

(** The constant HEXADECIMAL_BASE is 1, which strtol does not accept.  Every
    MAC address is therefore read as 00:00:00:00:00:00, every Ethernet type and
    every flags field as 0, and the IPv6 parser goes on with a pointer that
    nothing has written. *)
Theorem hexadecimal_values_lost :
  (forall l mac, length l = MAC_ADDR_LEN -> Forall (fun g => forallb (fun c => negb (c =? colon)) g = true) l ->
     length mac = MAC_ADDR_LEN -> parse_mac_address (groups l) mac = (DOCA_SUCCESS, zeros MAC_ADDR_LEN)) /\
  (forall s addr, parse_ipv6_str s addr = None) /\
  (forall v m, parse_match_field (str "outer.eth.type") v m =
     Some (DOCA_SUCCESS, set_outer (set_eth_type 0 (outer m)) m)) /\
  (forall v m, parse_match_field (str "flags") v m =
     Some (DOCA_SUCCESS, Match 0 (port_meta m) (outer m) (tun m) (inner m))).
Proof.
  split_and!.
  - intros l mac Hl Hg Hm. unfold parse_mac_address. rewrite mac_loop_zero; [|by destruct l|done|done].
    do 6 (destruct mac as [|? mac]; [done|]). by destruct mac.
  - done.
  - intros v m. unfold parse_match_field. eval_names. done.
  - intros v m. unfold parse_match_field. eval_names. done.
Qed.

(** The port fields of the inner header are written to the outer one, and
    the inner header keeps its ports. *)
Theorem inner_ports_go_outer v m :
  parse_match_field (str "inner.tcp_src_port") v m = parse_match_field (str "outer.tcp_src_port") v m /\
  parse_match_field (str "inner.tcp_dst_port") v m = parse_match_field (str "outer.tcp_dst_port") v m /\
  parse_match_field (str "inner.udp_src_port") v m = parse_match_field (str "outer.udp_src_port") v m /\
  parse_match_field (str "inner.udp_dst_port") v m = parse_match_field (str "outer.udp_dst_port") v m /\
  (exists m', parse_match_field (str "inner.tcp_src_port") v m = Some (DOCA_SUCCESS, m') /\ inner m' = inner m).
Proof. unfold parse_match_field. eval_names. split_and!; try done. by eexists. Qed.

(** ** Witnesses and examples *)

Definition all_callbacks : callbacks := Callbacks true true true true true true true true true true.
Definition always {A} (_ : A) : bool := true.

Definition ex_fields : list field := [(str "type", str "port"); (str "port_id", str "3")].
Lemma ex_fields_ok : Forall field_ok ex_fields.
Proof. repeat (apply Forall_cons; split); try done; apply literal_field_ok; first [done|cbn; lia]. Qed.

Lemma parse_struct_fields_witness :
  ex_fields <> [] /\ Forall field_ok ex_fields /\
  parse_struct (fuel_for (render ex_fields)) (parse_fwd_field always) (render ex_fields) (FwdState fwd0 rss0 0)
  = Ret (DOCA_SUCCESS, FwdState (Fwd FWD_PORT 3 0 None 0) rss0 0).
Proof.
  split; [done|]. split; [exact ex_fields_ok|].
  rewrite (parse_struct_fields _ ex_fields); [vm_compute; reflexivity|done|exact ex_fields_ok].
Defined.

Definition ex_rule : fw_rule := FwRule false (Ip 192 168 0 1) (Ip 10 0 0 255) 53 65535.
Lemma ex_rule_ok : fw_rule_ok ex_rule.
Proof. by vm_compute. Qed.

Example ex_rule_text : render (fw_rule_fields ex_rule) =
  str "outer.src_ip_addr=192.168.0.1,outer.dst_ip_addr=10.0.0.255,outer.l4_type_ext=udp,outer.udp_src_port=53,outer.udp_dst_port=65535".
Proof. vm_compute. reflexivity. Qed.

Lemma fw_rule_installed_witness :
  fw_rule_ok ex_rule /\ in_u 16 2 /\ add_fw_entry_func all_callbacks = true /\
  exists p', flow_parser_init true always always all_callbacks true true
    [CmdStruct (str "entry_match") (render (fw_rule_fields ex_rule)); CmdAddEntry (str "port_id=" ++ dec 2)] parser0
  = Ret (DOCA_SUCCESS, p', [FwAddEntry 2 (fw_rule_match ex_rule)]).
Proof.
  split; [exact ex_rule_ok|]. split; [by vm_compute|]. split; [done|].
  apply fw_rule_installed; [exact ex_rule_ok|by vm_compute|done].
Defined.

Definition ex_params : list eparam := [PFwd true; PId 14695981039346656037; PMonitor false; PQueue 7].

Lemma add_entry_called_witness :
  cmd_add_entry_parsed all_callbacks (fuel_for (join (map eparam_text ex_params))) (join (map eparam_text ex_params)) parser0
  = Ret [AddEntry 7 14695981039346656037 match0 actions0 None (Some fwd0) 0].
Proof.
  apply (add_entry_called all_callbacks parser0 ex_params); try reflexivity.
  - repeat (apply Forall_cons; split); try done; by vm_compute.
  - vm_compute. lia.
  - by vm_compute.
Defined.

Lemma dump_closes_files_witness :
  exists a calls, cmd_dump_pipe_parsed always all_callbacks 40 (str "file=out.txt,port_id=1") = Ret (a, calls) /\
    all_closed a /\ (calls = [] \/ exists port f, calls = [DumpPipes port f] /\ f ∈ opened a).
Proof.
  eexists _, _. split; [vm_compute; reflexivity|].
  apply (dump_closes_files always all_callbacks 40 (str "file=out.txt,port_id=1")). vm_compute. reflexivity.
Defined.

Definition ex_mac : list cstring := [str "aa"; str "bb"; str "cc"; str "dd"; str "ee"; str "ff"].

Lemma hexadecimal_values_lost_witness :
  parse_mac_address (str "aa:bb:cc:dd:ee:ff") (replicate 6 255) = (DOCA_SUCCESS, zeros 6).
Proof. exact (proj1 hexadecimal_values_lost ex_mac (replicate 6 255) eq_refl ltac:(by repeat constructor) eq_refl). Defined.

(** A field without = makes the parser read past the end of its input. *)
Example missing_equals : parse_struct 10 parse_monitor_field (str "flags") monitor0 = Undefined.
Proof. reflexivity. Qed.

(** The queues of a forward are freed when those of the miss are read. *)
Example rss_queues_dangling :
  match cmd_create_struct_parsed always 60 (str "fwd") (str "num_of_queues=1,rss_queues=0") parser0 with
  | Ret p =>
      match cmd_create_struct_parsed always 60 (str "fwd_miss") (str "num_of_queues=1,rss_queues=1") p with
      | Ret p' => match rss_queues_ptr (fwd p') with Some q => arrays (rss p') !! q = None | None => False end
      | _ => False
      end
  | _ => False
  end.
Proof. vm_compute. reflexivity. Qed.

(** A query that also names the queue is refused, since the pointer stays at the
    queue's number; the same parameters in the other order are accepted. *)
Example query_with_queue :
  cmd_query_parsed all_callbacks 60 (str "pipe_queue=3,entry_id=5") = Ret [] /\
  cmd_query_parsed all_callbacks 60 (str "entry_id=5,pipe_queue=3") = Ret [Query 5].
Proof. by vm_compute. Qed.

(** The name is not freed when the port after it is no number. *)
Example create_pipe_name_leak :
  match parse_create_pipe_params true 60 (str "name=p,port_id=x") (CreateParams pipe_cfg0 0 false false false 0) with
  | Ret (r, a) => r = DOCA_ERROR_INVALID_VALUE /\ live_names a = 1%nat
  | _ => False
  end.
Proof. by vm_compute. Qed.

(** An empty value has no token. *)
Example empty_type : parse_create_pipe_params true 60 (str "type=") (CreateParams pipe_cfg0 0 false false false 0) = Undefined.
Proof. reflexivity. Qed.

(** Octets are not checked: the first one spills out, others into their neighbours. *)
Example octets_unchecked : parse_ipv4_str (str "1.2.3.256") [0; 0; 0; 0] = (DOCA_SUCCESS, [1; 2; 4; 0]).
Proof. by vm_compute. Qed.
