(* ===== verification/FlowParserReturns.v ===== *)
(** * Command lines that are read to their end

    The parser does not look for the end of a line: a structure without an equals
    sign in its last field, or a name that is empty, makes it read past the line or
    from NULL (Example [missing_equals] of FlowParserSpec.v).  Here: the texts for
    which that cannot happen, and that every session of such lines returns. *)

From S2P Require Import Prelude CString FlowTypes FlowFields FlowParser FlowParserSpec.
#[local] Open Scope Z_scope.

(** ** Parts of a text *)

Definition part (t s : cstring) : Prop := exists a b, s = a ++ t ++ b.

Fixpoint contains (w s : cstring) : bool :=
  starts_with w s || match s with [] => false | _ :: s' => contains w s' end.

(** An equals sign comes after the last comma. *)
Fixpoint named (s : cstring) : bool :=
  match s with
  | [] => false
  | c :: s' => if existsb (Z.eqb comma) s' then named s' else existsb (Z.eqb equals) (c :: s')
  end.

(** Behind every equals sign there is a character other than a comma. *)
Fixpoint valued (s : cstring) : bool :=
  match s with
  | [] => true
  | c :: s' => (negb (c =? equals) || match s' with d :: _ => negb (d =? comma) | [] => false end) && valued s'
  end.

Lemma part_trans r s t : part r s -> part s t -> part r t.
Proof. intros (a & b & ->) (c & d & ->). exists (c ++ a), (b ++ d). by rewrite <- !app_assoc. Qed.
Lemma part_take n s : part (take n s) s.
Proof. exists [], (drop n s). by rewrite take_drop. Qed.
Lemma part_suffix a s : part s (a ++ s).
Proof. exists a, []. by rewrite app_nil_r. Qed.

Lemma contains_part w s : part w s -> contains w s = true.
Proof.
  intros (a & b & ->). induction a as [|c a IH]; cbn [app].
  - destruct (w ++ b) eqn:E; cbn [contains]; rewrite <- E, starts_with_app; done.
  - cbn [contains]. by rewrite IH, orb_true_r.
Qed.

Lemma starts_with_split p s : starts_with p s = true -> exists s1, s = p ++ s1.
Proof.
  revert s. induction p as [|c p IH]; intros [|d s]; cbn; try done; try (intros; by eexists).
  intros [->%Z.eqb_eq H]%andb_true_iff. destruct (IH s H) as [s1 ->]. by exists s1.
Qed.

Lemma adv_some n s : (n <= length s)%nat -> exists s', adv n s = Some s' /\ s = take n s ++ s'.
Proof. intros H. exists (drop n s). unfold adv. rewrite (proj2 (Nat.leb_le _ _)) by done. by rewrite take_drop. Qed.

(** *** Tokens *)

Lemma strtok_part s d t : strtok s d = Some t -> part t s.
Proof.
  unfold strtok. intros H. pose proof (span_app (Z.eqb d) s) as Es. destruct (snd (span _ s)) as [|c l] eqn:E; [done|].
  exists (fst (span (Z.eqb d) s)), (snd (span (fun c => negb (c =? d)) (c :: l))).
  assert (t = fst (span (fun c => negb (c =? d)) (c :: l))) as -> by congruence.
  rewrite span_app. by symmetry.
Qed.

Lemma span_whole f s : length (fst (span f s)) = length s -> forallb f s = true.
Proof.
  induction s as [|c s IH]; cbn; [done|]. destruct (f c); [|done]. destruct (span f s). cbn. intros [= H]. by apply IH.
Qed.

(** A text with the delimiter is longer than its first token. *)
Lemma strtok_shorter s d t : existsb (Z.eqb d) s = true -> strtok s d = Some t -> (length t < length s)%nat.
Proof.
  intros Hd. unfold strtok. pose proof (span_app (Z.eqb d) s) as Es.
  destruct (snd (span _ s)) as [|c l] eqn:E; [done|]. intros Ht.
  assert (t = fst (span (fun x => negb (x =? d)) (c :: l))) as -> by congruence. clear Ht.
  pose proof (span_app (fun x => negb (x =? d)) (c :: l)) as Et. apply (f_equal (@length Z)) in Es as Hl, Et as Hl'.
  rewrite length_app in Hl, Hl'. destruct (fst (span (Z.eqb d) s)) as [|x y]; [|cbn [length] in *; lia].
  cbn [app length] in Hl. destruct (decide (length (fst (span (fun x => negb (x =? d)) (c :: l))) = length (c :: l))) as [Ha|];
    [|cbn [length] in *; lia].
  apply span_whole in Ha. subst s. exfalso. apply existsb_exists in Hd as (z & Hz & ->%Z.eqb_eq).
  rewrite forallb_forall in Ha. specialize (Ha z Hz). by rewrite Z.eqb_refl in Ha.
Qed.

(** There is a first token where the text does not begin with the delimiter. *)
Lemma strtok_head c s n :
  c <> comma -> (2 <= n)%nat ->
  exists t, strtok (strlcpy (c :: s) n) comma = Some t /\ (length t <= length (c :: s))%nat.
Proof.
  intros Hc Hn. destruct (strtok (strlcpy (c :: s) n) comma) as [t|] eqn:E.
  - exists t. split; [done|]. apply strtok_length in E. unfold strlcpy in E. rewrite length_take in E. lia.
  - exfalso. revert E. unfold strtok, strlcpy. destruct n as [|[|n]]; [lia|lia|]. cbn [Nat.sub take].
    change (span (Z.eqb comma) (c :: take n s)) with
      (if comma =? c then let '(a, b) := span (Z.eqb comma) (take n s) in (c :: a, b) else ([], c :: take n s)).
    by rewrite (proj2 (Z.eqb_neq comma c)).
Qed.

(** *** Conditions on what follows *)

Lemma named_equals s : named s = true -> existsb (Z.eqb equals) s = true.
Proof.
  induction s as [|c s IH]; [done|]. cbn [named]. destruct (existsb (Z.eqb comma) s); [|done].
  intros H. cbn. by rewrite IH, orb_true_r.
Qed.

Lemma named_flat s : existsb (Z.eqb comma) s = false -> named s = existsb (Z.eqb equals) s.
Proof. destruct s as [|c s]; [done|]. cbn [named existsb]. by intros [_ ->]%orb_false_iff. Qed.

Lemma named_after a s : named (a ++ comma :: s) = named s.
Proof.
  induction a as [|c a IH]; cbn [app named].
  - destruct (existsb (Z.eqb comma) s) eqn:E; [done|]. by rewrite named_flat.
  - by rewrite existsb_app, orb_true_r.
Qed.

Lemma valued_after a s : valued (a ++ s) = true -> valued s = true.
Proof. induction a as [|c a IH]; [done|]. by intros [_ H]%andb_true_iff; apply IH. Qed.

Lemma valued_value a s : valued ((a ++ [equals]) ++ s) = true -> exists c s', s = c :: s' /\ c <> comma.
Proof.
  rewrite <- app_assoc. intros H%valued_after. cbn [app valued] in H. change (equals =? equals) with true in H.
  cbn [negb orb] in H. destruct s as [|c s]; [done|]. apply andb_true_iff in H as [H _].
  apply negb_true_iff, Z.eqb_neq in H. by exists c, s.
Qed.

(** *** The end of a number *)

Lemma sign_part s : exists a, s = a ++ snd (sign s).
Proof. unfold sign. repeat case_match; subst; first [by exists [] | by eexists [_]]. Qed.
Lemma detect_part b s : exists a, s = a ++ snd (detect b s).
Proof. unfold detect. repeat case_match; subst; first [by exists [] | by eexists [_; _]]. Qed.
Lemma digits_part b acc s : exists a, s = a ++ snd (digits b acc s).
Proof.
  revert acc. induction s as [|c s IH]; intros acc; cbn [digits]; [by exists []|].
  destruct (digit_of b c) as [d|]; [|by exists []]. destruct (IH (acc * b + d)) as [a Ha]. exists (c :: a). cbn [app]. by f_equal.
Qed.
Lemma numeral_part b s : exists a, s = a ++ snd (numeral b s).
Proof.
  unfold numeral. destruct (sign_part (snd (span isspace s))) as [u Hu]. destruct (sign _) as [neg s1] eqn:E1.
  destruct (detect_part b s1) as [v Hv]. destruct (detect b s1) as [b' s2] eqn:E2.
  destruct (digits_part b' 0 s2) as [w Hw]. destruct (digits b' 0 s2) as [x s3] eqn:E3. cbn [snd] in *.
  case_match; cbn [snd]; [|by exists []]. exists (fst (span isspace s) ++ u ++ v ++ w).
  rewrite <- (span_app isspace s) at 1. rewrite Hu, Hv, Hw at 1. by rewrite <- !app_assoc.
Qed.

Lemma strtol_part s : exists v s' a, strtol s 0 = (v, Some s') /\ s = a ++ s'.
Proof.
  unfold strtol. change (base_ok 0) with true. destruct (numeral_part 0 s) as [a Ha].
  destruct (numeral 0 s) as [[neg v] s'] eqn:E. do 2 eexists. by exists a.
Qed.

(** ** Structures *)

(** A field or a parameter is read, and what it leaves satisfies [I]. *)
Definition reads {A} (I : A -> Prop) (o : option (doca_error * A)) : Prop :=
  match o with Some (_, a) => I a | None => False end.

Section Struct.
Context {A : Type} (fill : cstring -> cstring -> A -> option (doca_error * A)) (I : A -> Prop) (words : list cstring).
Context (Hfill : forall f v a, I a -> f ∉ words -> v ∉ words -> reads I (fill f v a)).

Lemma parse_struct_returns fuel s a :
  I a -> named s = true -> Forall (fun w => contains w s = false) words -> (length s < fuel)%nat ->
  exists r, parse_struct fuel fill s a = Ret r.
Proof using Hfill.
  revert s a. induction fuel as [|fuel IH]; intros s a HI Hs Hw Hl; [lia|]. cbn [parse_struct].
  assert (Hpart : forall t, part t s -> t ∉ words).
  { intros t Ht Hin. rewrite Forall_forall in Hw. specialize (Hw t Hin). by rewrite contains_part in Hw. }
  destruct (strtok (strlcpy s MAX_CMDLINE_INPUT_LEN) equals) as [tmp|] eqn:Et; [|by eexists].
  assert (Hn : (length (strlcpy tmp MAX_FIELD_INPUT_LEN) + 1 <= length s)%nat).
  { unfold strlcpy, MAX_FIELD_INPUT_LEN, MAX_CMDLINE_INPUT_LEN in *. rewrite length_take.
    destruct (decide (length s < 128)%nat); [|lia]. rewrite take_ge in Et by lia.
    apply strtok_shorter in Et; [lia|by apply named_equals]. }
  destruct (adv_some _ s Hn) as (s1 & -> & Hs1). cbn [of_opt].
  destruct (strtok (strlcpy s1 MAX_CMDLINE_INPUT_LEN) comma) as [tmp'|] eqn:Et'; [|by eexists].
  assert (Hv : (length (strlcpy tmp' MAX_FIELD_INPUT_LEN) <= length s1)%nat).
  { apply strtok_length in Et'. unfold strlcpy in *. rewrite length_take in *. lia. }
  destruct (adv_some _ s1 Hv) as (s2 & -> & Hs2). cbn [of_opt].
  destruct (next s2) as [c s3] eqn:En.
  assert (Hf : reads I (fill (strlcpy tmp MAX_FIELD_INPUT_LEN) (strlcpy tmp' MAX_FIELD_INPUT_LEN) a)).
  { apply Hfill; [done|apply Hpart..].
    - eapply part_trans; [apply part_take|]. eapply part_trans; [by eapply strtok_part|apply part_take].
    - eapply part_trans; [apply part_take|]. eapply part_trans; [by eapply strtok_part|].
      eapply part_trans; [apply part_take|]. rewrite Hs1. apply part_suffix. }
  destruct (fill _ _ a) as [[r a']|]; [|done]. cbn [of_opt]. destruct (negb _); [by eexists|].
  destruct (Z.eqb_spec c comma) as [->|]; [|by eexists].
  destruct s2 as [|x s4]; [done|]. injection En as -> <-. cbn [of_opt].
  assert (Hend : s = (take (length (strlcpy tmp MAX_FIELD_INPUT_LEN) + 1) s ++
      take (length (strlcpy tmp' MAX_FIELD_INPUT_LEN)) s1) ++ comma :: s4) by (rewrite <- app_assoc, <- Hs2; done).
  apply IH; [done| | |].
  - rewrite Hend, named_after in Hs. done.
  - eapply Forall_impl; [exact Hw|]. intros w Hws. cbn beta in *. destruct (contains w s4) eqn:Ec; [|done].
    rewrite <- Hws. symmetry. apply contains_part. eapply part_trans; [|rewrite Hend; apply part_suffix].
    clear -Ec. eapply part_trans; [|by apply (part_suffix [comma])].
    induction s4 as [|y s4 IH]; cbn [contains] in Ec.
    + rewrite orb_false_r in Ec. apply starts_with_split in Ec as [s1 E]. exists [], s1. done.
    + apply orb_true_iff in Ec as [Ec|Ec].
      * apply starts_with_split in Ec as [s1 E]. exists [], s1. done.
      * destruct (IH Ec) as (u & v & ->). by exists (y :: u), v.
  - apply (f_equal (@length Z)) in Hend. rewrite length_app in Hend. cbn [length] in Hend. lia.
Qed.
End Struct.

(** *** Fields *)

(** Without IPv6 and without queues of RSS no field is undefined. *)
Definition words : list cstring := [str "ipv6"; str "rss_queues"].

Definition no_ip6 (h : doca_flow_header_format) : Prop := l3_type h <> L3_IP6.

Lemma not_word w v : w ∈ words -> v ∉ words -> strcmp v w = false.
Proof. intros Hw Hv. apply not_true_iff_false. by intros ->%strcmp_eq. Qed.

Lemma parse_ip_type_no6 v old : v ∉ words -> old <> L3_IP6 -> (parse_ip_type v old).2 <> L3_IP6.
Proof.
  intros Hv Ho. unfold parse_ip_type. rewrite (not_word (str "ipv6")) by (done || by left). by destruct (strcmp v _).
Qed.
Lemma parse_l3_type_no6 v old : v ∉ words -> old <> L3_IP6 -> (parse_l3_type v old).2 <> L3_IP6.
Proof. apply parse_ip_type_no6. Qed.
Lemma parse_ip_addr_no6 off4 off6 v h : no_ip6 h -> reads no_ip6 (parse_ip_addr off4 off6 v h).
Proof.
  unfold parse_ip_addr, no_ip6. intros Hh. destruct (l3_type h) eqn:E; [cbn; by rewrite E| |done].
  destruct (parse_ipv4_str _ _) as [r x]. cbn. by rewrite E.
Qed.

(** Takes the branch of each name apart. *)
Ltac each_field :=
  repeat match goal with |- reads _ (if strcmp ?f ?k then _ else _) => destruct (strcmp f k) end; cbn beta iota zeta;
  repeat match goal with
  | |- context [parse_ip_type ?v ?o] =>
      let H := fresh in assert (H := parse_ip_type_no6 v o); destruct (parse_ip_type v o); cbn [snd] in H
  | |- context [parse_l3_type ?v ?o] =>
      let H := fresh in assert (H := parse_l3_type_no6 v o); destruct (parse_l3_type v o); cbn [snd] in H
  | |- context [parse_src_ip ?v ?h] =>
      let H := fresh in assert (H := parse_ip_addr_no6 0 0 v h); unfold parse_src_ip;
      destruct (parse_ip_addr 0 0 v h) as [[? ?]|]; cbn [reads mbind option_bind] in *
  | |- context [parse_dst_ip ?v ?h] =>
      let H := fresh in assert (H := parse_ip_addr_no6 4 16 v h); unfold parse_dst_ip;
      destruct (parse_ip_addr 4 16 v h) as [[? ?]|]; cbn [reads mbind option_bind] in *
  | |- reads _ (let '(_, _) := ?p in _) => destruct p
  end; cbn in *; naive_solver.

Definition match_no6 (m : doca_flow_match) : Prop := no_ip6 (outer m) /\ no_ip6 (inner m).
Lemma match_field_reads f v m : match_no6 m -> f ∉ words -> v ∉ words -> reads match_no6 (parse_match_field f v m).
Proof. intros Hm Hf Hv. unfold parse_match_field, match_no6, no_ip6 in *. each_field. Qed.

Definition actions_no6 (a : doca_flow_actions) : Prop := no_ip6 (a_outer a) /\ no_ip6 (encap_outer a).
Lemma actions_field_reads f v a : actions_no6 a -> f ∉ words -> v ∉ words -> reads actions_no6 (parse_actions_field f v a).
Proof. intros Ha Hf Hv. unfold parse_actions_field, actions_no6, no_ip6 in *. each_field. Qed.

Lemma fwd_field_reads malloc f v s : f ∉ words -> reads (fun _ => True) (parse_fwd_field malloc f v s).
Proof.
  intros Hf. unfold parse_fwd_field. rewrite (not_word (str "rss_queues")) by (done || (right; by left)). each_field.
Qed.
Lemma fwd_miss_field_reads malloc f v s : f ∉ words -> reads (fun _ => True) (parse_fwd_miss_field malloc f v s).
Proof.
  intros Hf. unfold parse_fwd_miss_field. rewrite (not_word (str "rss_queues")) by (done || (right; by left)). each_field.
Qed.

(** ** Parameters *)

(** A parameter is read; after one that is accepted the rest satisfies [T], is
    not longer, and [I] holds; after one that is refused, [E]. *)
Definition takes {A} (T : cstring -> Prop) (I E : A -> Prop) (n : nat) (o : option (doca_error * cstring * A)) : Prop :=
  match o with
  | Some (r, s', a) => if is_success r then T s' /\ (length s' <= n)%nat /\ I a else E a
  | None => False
  end.

Section Params.
Context {A : Type} (param : cstring -> A -> option (doca_error * cstring * A)).
Context (T : cstring -> Prop) (I E : A -> Prop).
Context (Hparam : forall s a, T s -> I a -> takes T I E (length s) (param s a)).
Context (Hnext : forall c s, T (c :: s) -> T s).

Lemma params_loop_returns fuel s a :
  T s -> I a -> (length s < fuel)%nat ->
  exists r a', params_loop fuel param s a = Ret (r, a') /\ if is_success r then I a' else E a'.
Proof using Hparam Hnext.
  revert s a. induction fuel as [|fuel IH]; intros s a Hs HI Hl; [lia|]. cbn [params_loop].
  specialize (Hparam s a Hs HI). destruct (param s a) as [[[r s1] a1]|]; [|done]. cbn [takes of_opt] in *.
  destruct (is_success r) eqn:Er; cbn [negb]; [|exists r, a1; by rewrite Er].
  destruct Hparam as (Hs1 & Hl1 & HI1). destruct (next s1) as [c s2] eqn:En.
  destruct (Z.eqb_spec c comma) as [->|]; [|by eexists _, a1].
  destruct s1 as [|x s3]; [done|]. injection En as -> <-. cbn [of_opt]. cbn [length] in Hl1.
  apply IH; [by eapply Hnext|done|lia].
Qed.
End Params.

Definition any {A} (_ : A) : Prop := True.

(** A number behind the name of a parameter. *)
Lemma number_param_some p s n conv :
  starts_with p s = true -> length p = n ->
  (forall x, exists w y, conv x = (w, Some y) /\ (length y <= length x)%nat) ->
  exists v s', number_param s n conv = Some (v, s') /\ (length s' <= length s)%nat.
Proof.
  intros [s1 ->]%starts_with_split <- Hc. unfold number_param. rewrite adv_app. obind.
  destruct (Hc (strlcpy s1 MAX_CMDLINE_INPUT_LEN)) as (v & s' & -> & Hl). obind. exists v, s'. split; [done|].
  unfold strlcpy in Hl. rewrite length_take in Hl. rewrite length_app. lia.
Qed.

(** A flag behind the name of a parameter. *)
Lemma bool_param_some p s n b :
  starts_with p s = true -> length p = n ->
  exists r s' b', parse_bool_params_input s n b = Some (r, s', b') /\ exists a, s = a ++ s'.
Proof.
  intros [s1 ->]%starts_with_split <-. unfold parse_bool_params_input. rewrite adv_app. obind.
  destruct (strtol_part s1) as (v & e & a & -> & Ha). obind.
  destruct (Nat.eqb_spec (length e) (length s1)) as [|Hne]; [do 3 eexists; split; [done|]; by exists p|].
  destruct s1 as [|c s1]; [by destruct a; [rewrite app_nil_l in Ha; subst e|]|].
  assert (Hadv : adv 1 (c :: s1) = Some s1) by (unfold adv; cbn; by rewrite drop_0). rewrite Hadv. obind.
  repeat case_match; do 3 eexists; (split; [done|]); first [by exists p | exists (p ++ [c]); by rewrite <- app_assoc].
Qed.

Ltac settle :=
  cbn [takes]; try change (is_success DOCA_ERROR_INVALID_VALUE) with false; try change (is_success DOCA_SUCCESS) with true;
  cbn iota; unfold any; try first [done | split_and!; first [done|lia]].

(** The parameters whose values are numbers and flags. *)
Ltac number_branch :=
  match goal with
  | H : starts_with ?p ?s = true |- context [number_param ?s ?n ?c] =>
      let E := fresh in let L := fresh in
      destruct (number_param_some p s n c H eq_refl) as (? & ? & E & L);
      [first [exact strtoull0_end|exact strtol0_end]|]; rewrite E; cbn [mbind option_bind takes]
  | H : starts_with ?p ?s = true |- context [parse_bool_params_input ?s ?n ?b] =>
      let E := fresh in
      destruct (bool_param_some p s n b H eq_refl) as (? & ? & ? & E & ? & ->); rewrite E; cbn [mbind option_bind];
      repeat case_match; cbn [takes]; rewrite ?length_app
  end.
Ltac each_param :=
  repeat match goal with |- takes _ _ _ _ (if starts_with ?p ?s then _ else _) => destruct (starts_with p s) eqn:? end;
  try number_branch; settle.

Lemma add_entry_param_takes s a : takes any any any (length s) (add_entry_param s a).
Proof. unfold add_entry_param. each_param. Qed.
Lemma add_control_param_takes s a : takes any any any (length s) (add_control_pipe_entry_param s a).
Proof. unfold add_control_pipe_entry_param. each_param. Qed.
Lemma entry_param_takes q s a : takes any any any (length s) (entry_param q s a).
Proof.
  unfold entry_param. destruct q; each_param.
  apply starts_with_split in Heqb as [s1 ->]. change PIPE_QUEUE_STR_LEN with (length (str "pipe_queue=")).
  rewrite adv_app. cbn [mbind option_bind]. rewrite length_app. settle.
Qed.

(** Names end at a comma, and there is one behind each equals sign. *)
Lemma name_some p s n :
  starts_with (p ++ [equals]) s = true -> valued s = true -> (2 <= n)%nat ->
  exists s1 t s2, s = (p ++ [equals]) ++ s1 /\ strtok (strlcpy s1 n) comma = Some t /\
    adv (length t) s1 = Some s2 /\ exists b, s1 = b ++ s2.
Proof.
  intros [s1 ->]%starts_with_split Hv Hn. destruct (valued_value _ _ Hv) as (c & s' & -> & Hc).
  destruct (strtok_head c s' n Hc Hn) as (t & Ht & Hl). destruct (adv_some _ _ Hl) as (s2 & Ha & Hb).
  exists (c :: s'), t, s2. split_and!; [done..|]. by eexists.
Qed.

Definition has_value (s : cstring) : Prop := valued s = true.

Lemma has_value_app a s : has_value (a ++ s) -> has_value s.
Proof. apply valued_after. Qed.

Ltac name_branch p :=
  match goal with
  | H : starts_with _ ?s = true, Hv : has_value ?s |- context [strlcpy _ ?n] =>
      let s1 := fresh "s1" in let t := fresh "t" in let s2 := fresh "s2" in let b := fresh "b" in
      let Et := fresh in let Ea := fresh in
      destruct (name_some p s n H Hv) as (s1 & t & s2 & -> & Et & Ea & b & ->);
      [unfold MAX_CMDLINE_INPUT_LEN, MAX_FIELD_INPUT_LEN; lia|]
  end.

Lemma create_pipe_param_takes ok s a : has_value s -> takes has_value any any (length s) (create_pipe_param ok s a).
Proof.
  intros Hv. unfold create_pipe_param, create_error.
  destruct (starts_with (str "port_id=") s) eqn:E1.
  { name_branch (str "port_id"). change PORT_ID_STR_LEN with (length (str "port_id" ++ [equals])). rewrite adv_app. obind.
    cbn zeta. destruct (strtol_part (strlcpy (b ++ s2) MAX_CMDLINE_INPUT_LEN)) as (v & e & u & -> & _). obind.
    case_match; [settle|]. rewrite H. obind. rewrite H0. obind. rewrite !length_app. settle. split_and!; [|lia|done].
    by do 2 eapply has_value_app. }
  destruct (starts_with (str "name=") s) eqn:E2.
  { destruct (name (cfg a)); [settle|]. name_branch (str "name").
    change NAME_STR_LEN with (length (str "name" ++ [equals])). rewrite adv_app. obind. rewrite H. obind. rewrite H0. obind.
    rewrite !length_app. repeat case_match; settle; (split_and!; [|lia|done]); by do 2 eapply has_value_app. }
  repeat match goal with |- takes _ _ _ _ (if starts_with ?p ?s then _ else _) => destruct (starts_with p s) eqn:? end.
  1-5: number_branch; settle; (split_and!; [by eapply has_value_app|lia|done]).
  - name_branch (str "type"). change TYPE_STR_LEN with (length (str "type" ++ [equals])). rewrite adv_app. obind.
    rewrite H. obind. destruct (parse_pipe_type _ _) as [r x]. destruct (is_success r) eqn:Er; cbn [negb].
    + rewrite H0. obind. rewrite !length_app. settle. split_and!; [|lia|done]. by do 2 eapply has_value_app.
    + repeat case_match; settle.
  - repeat case_match; settle.
Qed.

(** The line of a dump is also short: a number is read in a copy of its rest, and
    the pointer goes on in the copy. *)
Definition short_line (s : cstring) : Prop := has_value s /\ (length s < MAX_CMDLINE_INPUT_LEN)%nat.

Lemma dump_param_takes fopen s a :
  short_line s -> dump_inv a -> takes short_line dump_inv any (length s) (dump_pipe_param fopen s a).
Proof.
  intros [Hv Hl] Ha. pose proof (dump_param_inv fopen s a) as Hi. revert Hi. unfold dump_pipe_param.
  destruct (starts_with (str "port_id=") s) eqn:E1.
  { apply starts_with_split in E1 as [s1 ->]. unfold number_param.
    change PORT_ID_STR_LEN with (length (str "port_id=")). rewrite adv_app. obind. rewrite length_app in Hl.
    rewrite strlcpy_short by lia. destruct (strtol_part s1) as (v & s2 & u & -> & ->). obind. intros Hi.
    rewrite !length_app in *. settle. split_and!; [split; [by do 2 eapply has_value_app|lia]|lia|by eapply Hi]. }
  destruct (starts_with (str "file=") s) eqn:E2; [|intros; settle].
  destruct (has_file a) eqn:Ef.
  { destruct (proj1 (inv_has a Ha) Ef) as [n Hn]. unfold close_file. rewrite Hn. cbn [mbind option_bind]. intros; settle. }
  name_branch (str "file"). change FILE_STR_LEN with (length (str "file" ++ [equals])). rewrite adv_app. obind.
  rewrite H. obind. rewrite H0. obind. cbn zeta. destruct (file (open_file fopen t a)); intros Hi; settle.
  rewrite !length_app in *. split_and!; [split; [by do 2 eapply has_value_app|lia]|lia|by eapply Hi].
Qed.

(** ** Commands *)

(** What a line needs so that the parser stays within it: an equals sign behind
    the last comma of a structure - in the full command set also no mention of
    IPv6 or of queues of RSS, whose parsers may leave their text -, and a value
    behind each equals sign where a name is read. *)
Definition complete (fw_subset : bool) (c : command) : bool :=
  match c with
  | CmdStruct _ s => named s && (fw_subset || forallb (fun w => negb (contains w s)) words)
  | CmdCreatePipe s => valued s
  | CmdDumpPipe s => valued s && (length s <? MAX_CMDLINE_INPUT_LEN)%nat
  | _ => true
  end.

Section Commands.
Context (ok : bool) (malloc : Z -> bool) (fopen : cstring -> bool) (cb : callbacks).

(** A handler returns, with at most one call. *)
Definition one_call {A} (o : outcome (A * list call)) : Prop :=
  exists a out, o = Ret (a, out) /\ (length out <= 1)%nat.
Definition one_call' (o : outcome (list call)) : Prop := exists out, o = Ret out /\ (length out <= 1)%nat.

Lemma some_calls a : one_call' (Ret [a]).
Proof. by exists [a]. Qed.
Lemma no_calls : one_call' (Ret []).
Proof. exists []. split; [done|]. cbn. lia. Qed.
#[local] Hint Resolve some_calls no_calls : core.

Lemma loop_any {A} (param : cstring -> A -> option (doca_error * cstring * A)) s a :
  (forall s a, takes any any any (length s) (param s a)) ->
  exists r a', params_loop (fuel_for s) param s a = Ret (r, a').
Proof using.
  intros Hp. destruct (params_loop_returns param any any any (fun s a _ _ => Hp s a) (fun _ _ _ => I) (fuel_for s) s a I I)
    as (r & a' & E & _); [unfold fuel_for; lia|]. by exists r, a'.
Qed.

(** What follows the loop over the parameters. *)
Ltac after_loop lem :=
  let r := fresh "r" in let a := fresh "a" in let E := fresh "E" in
  destruct lem as (r & a & E); rewrite E; cbn [obnd]; destruct (is_success r) eqn:?; cbn [negb andb obnd];
  repeat (match goal with |- context [if negb ?b then Ret _ else _] => destruct b end; cbn [negb obnd]);
  try (match goal with H : is_success ?x = _ |- context [is_success ?x] => rewrite H end); cbn [negb];
  try change (is_success DOCA_ERROR_INVALID_VALUE) with false; try change (is_success DOCA_SUCCESS) with true; cbn [negb]; auto.

Lemma add_entry_call s p : one_call' (cmd_add_entry_parsed cb (fuel_for s) s p).
Proof using.
  unfold cmd_add_entry_parsed, parse_add_entry_params. destruct (add_entry_func cb); cbn [negb]; [|auto].
  after_loop (loop_any add_entry_param s entry_params0 add_entry_param_takes).
Qed.

Lemma add_control_entry_call s p : one_call' (cmd_add_control_pipe_entry_parsed cb (fuel_for s) s p).
Proof using.
  unfold cmd_add_control_pipe_entry_parsed, parse_add_control_pipe_entry_params.
  destruct (add_control_pipe_entry_func cb); cbn [negb]; [|auto].
  after_loop (loop_any add_control_pipe_entry_param s entry_params0 add_control_param_takes).
Qed.

Lemma rm_entry_call s : one_call' (cmd_rm_entry_parsed cb (fuel_for s) s).
Proof using.
  unfold cmd_rm_entry_parsed, parse_entry_params. destruct (remove_entry_func cb); cbn [negb]; [|auto].
  after_loop (loop_any (entry_param true) s entry_params0 (entry_param_takes true)).
Qed.

Lemma query_call s : one_call' (cmd_query_parsed cb (fuel_for s) s).
Proof using.
  unfold cmd_query_parsed, parse_entry_params. destruct (query_func cb); cbn [negb]; [|auto].
  after_loop (loop_any (entry_param false) s entry_params0 (entry_param_takes false)).
Qed.

Lemma create_pipe_call s p : valued s = true -> one_call (cmd_create_pipe_parsed ok cb (fuel_for s) s p).
Proof using.
  intros Hv. unfold cmd_create_pipe_parsed, parse_create_pipe_params, one_call.
  destruct (create_pipe_func cb); cbn [negb]; [|exists p, []; split; [done|cbn; lia]].
  set (a0 := CreateParams _ _ _ _ _ _).
  destruct (params_loop_returns (create_pipe_param ok) has_value any any (fun s a Hs _ => create_pipe_param_takes ok s a Hs)
    (fun c s H => has_value_app [c] s H) (fuel_for s) s a0 Hv I) as (r & a & E & _); [unfold fuel_for; lia|].
  rewrite E. cbn [obnd]. destruct (is_success r) eqn:Er; cbn [negb obnd].
  - destruct (has_port_id a); cbn [negb obnd].
    + change (is_success DOCA_SUCCESS) with true. cbn [negb]. do 2 eexists. split; [done|]. cbn. lia.
    + unfold create_error. do 2 eexists. split; [done|]. cbn. lia.
  - rewrite Er. cbn [negb]. do 2 eexists. split; [done|]. cbn. lia.
Qed.

Lemma dump_call s :
  valued s && (length s <? MAX_CMDLINE_INPUT_LEN)%nat = true -> one_call (cmd_dump_pipe_parsed fopen cb (fuel_for s) s).
Proof using.
  intros [Hv Hl%Nat.ltb_lt]%andb_true_iff. unfold cmd_dump_pipe_parsed, parse_dump_pipe_params, one_call.
  destruct (port_pipes_dump_func cb); cbn [negb]; [|exists dump_params0, []; split; [done|cbn; lia]].
  destruct (params_loop_returns (dump_pipe_param fopen) short_line dump_inv any (dump_param_takes fopen)
    (fun c s H => conj (has_value_app [c] s (proj1 H)) (Nat.lt_trans _ _ _ (Nat.lt_succ_diag_r _) (proj2 H)))
    (fuel_for s) s dump_params0) as (r & a & E & Ha); [by split| |unfold fuel_for; lia|].
  { split; cbn; [done|split; [done|by intros [? ?]]]. }
  assert (Hend : forall b, exists a out, match file b with Some _ => (a1 ⇐ close_file b; Ret (a1, @nil call)) | None => Ret (b, []) end
    = Ret (a, out) /\ (length out <= 1)%nat).
  { intros b. destruct (file b) eqn:Ef; [unfold close_file; rewrite Ef; obind; cbn [of_opt]|];
      do 2 eexists; (split; [done|cbn; lia]). }
  rewrite E. cbn [obnd]. destruct (is_success r) eqn:Er; cbn [negb obnd]; [|rewrite Er; apply Hend].
  assert (Hopen : forall b, file b <> None -> exists a out, (fd ⇐ file b; a1 ⇐ close_file b; Ret (a1, [DumpPipes (d_port_id b) fd]))
    = Ret (a, out) /\ (length out <= 1)%nat).
  { intros b Hb. unfold close_file. destruct (file b) as [n|]; [|done]. cbn. do 2 eexists. split; [done|cbn; lia]. }
  destruct (d_has_port_id a); cbn [negb obnd]; [|apply Hend].
  destruct (has_file a) eqn:Ef; cbn [negb obnd]; [apply Hopen|].
  - destruct (proj1 (inv_has a Ha) Ef) as [n Hn]. by rewrite Hn.
  - destruct (file (open_file fopen _ a)) eqn:Ew; cbn [obnd]; [|apply Hend]. apply Hopen. by rewrite Ew.
Qed.

Lemma struct_returns fuel t s p :
  named s = true -> forallb (fun w => negb (contains w s)) words = true -> (length s < fuel)%nat ->
  exists p', cmd_create_struct_parsed malloc fuel t s p = Ret p'.
Proof using.
  intros Hs Hw Hl. assert (Hws : Forall (fun w => contains w s = false) words).
  { apply Forall_forall. intros w Hin. rewrite forallb_forall in Hw. apply negb_true_iff, Hw. by apply list_elem_of_In. }
  assert (Hm : exists r, parse_struct fuel parse_match_field s match0 = Ret r)
    by (by apply (parse_struct_returns _ match_no6 words match_field_reads)).
  assert (Ha : exists r, parse_struct fuel parse_actions_field s actions0 = Ret r)
    by (by apply (parse_struct_returns _ actions_no6 words actions_field_reads)).
  assert (Hn : exists r, parse_struct fuel parse_monitor_field s monitor0 = Ret r).
  { apply (parse_struct_returns _ any words); try done. intros f v a _ _ _. unfold parse_monitor_field. cbn [reads].
    by destruct (if strcmp f _ then _ else _). }
  assert (Hf : forall x, exists r, parse_struct fuel (parse_fwd_field malloc) s x = Ret r).
  { intros x. apply (parse_struct_returns _ (fun _ => True) words); try done. intros f v a _ Hf' _. by apply fwd_field_reads. }
  assert (Hf2 : forall x, exists r, parse_struct fuel (parse_fwd_miss_field malloc) s x = Ret r).
  { intros x. apply (parse_struct_returns _ (fun _ => True) words); try done. intros f v a _ Hf' _. by apply fwd_miss_field_reads. }
  unfold cmd_create_struct_parsed. destruct Hm as [[] ->], Ha as [[] ->], Hn as [[] ->].
  destruct (Hf (FwdState fwd0 (rss p) (fwd_next_pipe_id p))) as [[] ->].
  destruct (Hf2 (FwdState fwd0 (rss p) (fwd_miss_next_pipe_id p))) as [[] ->]. cbn [obnd].
  repeat case_match; by eexists.
Qed.

Lemma fw_struct_returns fuel s p :
  named s = true -> (length s < fuel)%nat -> exists p', cmd_fw_create_struct_parsed fuel s p = Ret p'.
Proof using.
  intros Hs Hl. unfold cmd_fw_create_struct_parsed.
  destruct (parse_struct_returns parse_fw_match_field any [] (fun f v a _ _ _ => ltac:(unfold parse_fw_match_field; cbn [reads];
    by destruct (if strcmp f _ then _ else _))) fuel s match0 I Hs (Forall_nil_2 _) Hl) as [[r m] ->]. cbn [obnd]. by eexists.
Qed.
End Commands.

Section Session.
Context (ok : bool) (malloc : Z -> bool) (fopen : cstring -> bool) (cb : callbacks).

(** The handlers without a loop. *)
Lemma one_command fw c p : complete fw c = true -> one_call (run_command ok malloc fopen cb fw c p).
Proof using.
  assert (Hlift : forall o, one_call' o -> one_call ('(cs) <<- o; Ret (p, cs))).
  { intros o (out & -> & Hl). cbn [obnd]. by exists p, out. }
  assert (Hnum : forall (f : cstring -> option (doca_error * Z)) k s, (forall s, is_Some (f s)) ->
    one_call' ('(result, x) ⇐ f s; if negb (is_success result) then Ret [] else Ret [k x])).
  { intros f k s Hf. destruct (Hf s) as [[r x] ->]. cbn [of_opt]. case_match; [apply no_calls|apply some_calls]. }
  assert (Hp : forall p conv s n d (g : Z -> Z), length p = n -> (forall x, exists w y, conv x = (w, Some y) /\ (length y <= length x)%nat) ->
    is_Some (if starts_with p s then '(v, _) ← number_param s n conv; Some (DOCA_SUCCESS, g v) else Some (DOCA_ERROR_INVALID_VALUE, d))).
  { intros q conv s n d g Hn Hc. destruct (starts_with q s) eqn:E; [|done].
    destruct (number_param_some q s n conv E Hn Hc) as (v & s' & -> & _). done. }
  destruct c as [|t s|s|s|s|s|s|s|s|s]; cbn [complete run_command]; intros Hc.
  - exists p, []. split; [done|cbn; lia].
  - apply andb_true_iff in Hc as [Hs Hw]. destruct fw; cbn [orb] in Hw.
    + destruct (fw_struct_returns (fuel_for s) s p Hs) as [p' ->]; [unfold fuel_for; lia|].
      exists p', []. split; [done|cbn; lia].
    + destruct (struct_returns malloc (fuel_for s) t s p Hs Hw) as [p' ->]; [unfold fuel_for; lia|].
      exists p', []. split; [done|cbn; lia].
  - by apply create_pipe_call.
  - apply Hlift. destruct fw; [|apply add_entry_call]. unfold cmd_fw_add_entry_parsed. destruct (negb _); [apply no_calls|].
    apply (Hnum (fun s => parse_fw_add_entry_params s 0) (fun x => FwAddEntry x (entry_match p))). clear s Hc. intros s.
    exact (Hp (str "port_id=") _ s PORT_ID_STR_LEN 0 u16 eq_refl strtoull0_end).
  - apply Hlift, add_control_entry_call.
  - apply Hlift. unfold cmd_destroy_pipe_parsed. destruct (negb _); [apply no_calls|].
    apply (Hnum (fun s => parse_pipe_id_input s 0) DestroyPipe). clear s Hc. intros s. unfold parse_pipe_id_input.
    destruct (starts_with _ s) eqn:E; [|done]. apply starts_with_split in E as [s1 ->].
    change PIPE_ID_STR_LEN with (length (str "pipe_id=")). by rewrite adv_app.
  - apply Hlift. destruct fw; [|apply rm_entry_call]. unfold cmd_fw_rm_entry_parsed. destruct (negb _); [apply no_calls|].
    apply (Hnum (fun s => parse_fw_entry_params s 0) FwRmEntry). clear s Hc. intros s.
    exact (Hp (str "entry_id=") _ s ENTRY_ID_STR_LEN 0 (fun v => v) eq_refl strtoull0_end).
  - apply Hlift. unfold cmd_flush_pipes_parsed. destruct (negb _); [apply no_calls|].
    apply (Hnum (fun s => parse_port_id_input s 0) (fun x => FlushPipes (u16 x))). clear s Hc. intros s. unfold parse_port_id_input.
    destruct (starts_with _ s) eqn:E; [|done]. apply starts_with_split in E as [s1 ->].
    change PORT_ID_STR_LEN with (length (str "port_id=")). by rewrite adv_app.
  - destruct (dump_call fopen cb s Hc) as (a & out & -> & Hl). cbn [obnd]. by exists p, out.
  - apply Hlift, query_call.
Qed.
End Session.


Definition all_callbacks : callbacks := Callbacks true true true true true true true true true true.

