(* ===== verification/Mbuf.v ===== *)
(** * Packet buffers: the [struct rte_mbuf] the IPsec gateway edits

    An mbuf is a chain of segments; a segment is a buffer with a window of
    [data_len] bytes at [data_off].  The gateway reads and writes the fields of
    the structure and the bytes of the buffers itself; the functions and macros
    of DPDK it calls are the class [Dpdk], and what their documentation promises
    is the class [DpdkLaws].  [pkt] is the abstract view its clients reason
    with: the bytes of the packet and the room around them. *)

From S2P Require Import Prelude.
#[local] Open Scope Z_scope.

Abbreviation zlen l := (Z.of_nat (length l)).

(** ** Bytes of a buffer *)

(** Reading and overwriting a run of bytes ([memcpy], [memmove], fields). *)
Definition load_bytes (b : list Z) (p n : Z) : option (list Z) :=
  if decide (0 <= p /\ 0 <= n /\ p + n <= zlen b)
  then Some (take (Z.to_nat n) (drop (Z.to_nat p) b)) else None.

Definition store_bytes (b : list Z) (p : Z) (bs : list Z) : option (list Z) :=
  if decide (0 <= p /\ p + zlen bs <= zlen b)
  then Some (take (Z.to_nat p) b ++ bs ++ drop (Z.to_nat p + length bs) b) else None.

(** [for (i = n - 1; i >= 0; i--) np[i] = op[i]] *)
Fixpoint copy_back (n : nat) (np op : Z) (b : list Z) : option (list Z) :=
  match n with
  | O => Some b
  | S i =>
      v ← rd b (op + Z.of_nat i);
      b' ← wr b (np + Z.of_nat i) v;
      copy_back i np op b'
  end.

(** ** The structure *)

Record seg := Seg {
  buf : list Z;      (* the memory at buf_addr *)
  data_off : Z;      (* uint16_t *)
  data_len : Z       (* uint16_t *)
}.

Record rte_mbuf := Mbuf {
  segs : list seg;   (* the mbuf and those that [next] chains to it *)
  pkt_len : Z;       (* uint32_t *)
  packet_type : Z;   (* uint32_t *)
  metadata : Z       (* the dynamic field RTE_FLOW_DYNF_METADATA *)
}.

Definition set_segs (m : rte_mbuf) (ss : list seg) : rte_mbuf :=
  Mbuf ss (pkt_len m) (packet_type m) (metadata m).
Definition set_pkt_len (m : rte_mbuf) (n : Z) : rte_mbuf :=
  Mbuf (segs m) n (packet_type m) (metadata m).

(** A pointer into a packet is a segment of the chain and an index of its
    buffer.  [rte_pktmbuf_mtod_offset] computes one from a data offset. *)
Definition mtod_offset (m : rte_mbuf) (i : nat) (o : Z) : option Z :=
  s ← segs m !! i; Some (data_off s + o).

Definition load (m : rte_mbuf) (i : nat) (p n : Z) : option (list Z) :=
  s ← segs m !! i; load_bytes (buf s) p n.

(** A big-endian field of [n] bytes. *)
Definition load_be (m : rte_mbuf) (i : nat) (p n : Z) : option Z := be_value <$> load m i p n.

Definition upd_buf (m : rte_mbuf) (i : nat) (f : list Z -> option (list Z)) : option rte_mbuf :=
  s ← segs m !! i;
  b ← f (buf s);
  Some (set_segs m (<[i := Seg b (data_off s) (data_len s)]> (segs m))).

Definition store (m : rte_mbuf) (i : nat) (p : Z) (bs : list Z) : option rte_mbuf :=
  upd_buf m i (fun b => store_bytes b p bs).

(** [seg->data_len = n] *)
Definition set_data_len (m : rte_mbuf) (i : nat) (n : Z) : option rte_mbuf :=
  s ← segs m !! i;
  Some (set_segs m (<[i := Seg (buf s) (data_off s) (u16 n)]> (segs m))).

Definition data_len_of (m : rte_mbuf) (i : nat) : option Z := data_len <$> segs m !! i.

(** ** DPDK *)

Class Dpdk := {
  rte_pktmbuf_prepend : rte_mbuf -> Z -> option rte_mbuf;   (* None: NULL *)
  rte_pktmbuf_adj : rte_mbuf -> Z -> option rte_mbuf;       (* None: NULL *)
  rte_pktmbuf_trim : rte_mbuf -> Z -> rte_mbuf;             (* the code ignores the result *)
  rte_pktmbuf_lastseg : rte_mbuf -> nat;
  rte_flow_dynf_metadata_avail : bool;
  RTE_ETH_IS_IPV4_HDR : Z -> bool;
  RTE_ETH_IS_IPV6_HDR : Z -> bool;
  rte_ipv4_hdr_len : Z -> Z;                                (* of the version_ihl byte *)
  RTE_ALIGN_CEIL : Z -> Z -> Z
}.

(** rte_mbuf.h: prepend and adj work on the first segment and fail without
    headroom or data; trim works on the last one and does nothing when it is
    too short.  rte_ip.h: the header length is four times the IHL nibble.
    rte_common.h: the lowest multiple of a power of two that is not below. *)
Class DpdkLaws `{Dpdk} := {
  prepend_ok m s r k : segs m = s :: r -> 0 <= k <= data_off s -> data_len s + k < 65536 ->
    rte_pktmbuf_prepend m k =
    Some (Mbuf (Seg (buf s) (data_off s - k) (data_len s + k) :: r) (u32 (pkt_len m + k))
               (packet_type m) (metadata m));
  prepend_null m s r k : segs m = s :: r -> data_off s < k -> rte_pktmbuf_prepend m k = None;
  adj_ok m s r k : segs m = s :: r -> 0 <= k <= data_len s ->
    rte_pktmbuf_adj m k =
    Some (Mbuf (Seg (buf s) (data_off s + k) (data_len s - k) :: r) (u32 (pkt_len m - k))
               (packet_type m) (metadata m));
  adj_null m s r k : segs m = s :: r -> data_len s < k -> rte_pktmbuf_adj m k = None;
  trim_ok m r s k : segs m = r ++ [s] -> 0 <= k <= data_len s ->
    rte_pktmbuf_trim m k =
    Mbuf (r ++ [Seg (buf s) (data_off s) (data_len s - k)]) (u32 (pkt_len m - k))
         (packet_type m) (metadata m);
  trim_short m r s k : segs m = r ++ [s] -> data_len s < k -> rte_pktmbuf_trim m k = m;
  lastseg_ok m r s : segs m = r ++ [s] -> rte_pktmbuf_lastseg m = length r;
  ipv4_hdr_len_ok b : byte_ok b -> rte_ipv4_hdr_len b = 4 * (b mod 16);
  align_ceil_ok v n : 0 <= n -> 0 <= v -> v + 2 ^ n < 2 ^ 32 ->
    RTE_ALIGN_CEIL v (2 ^ n) = (v + 2 ^ n - 1) / 2 ^ n * 2 ^ n
}.

(** ** Lemmas on bytes *)

(** Goals on the lengths of appended lists. *)
Ltac len := repeat (rewrite ?length_app, ?length_be_bytes, ?length_replicate in *; cbn [length app] in *); try lia.

Lemma load_bytes_app a bs c :
  load_bytes (a ++ bs ++ c) (zlen a) (zlen bs) = Some bs.
Proof.
  unfold load_bytes. rewrite decide_True by (rewrite !length_app; lia).
  by rewrite !Nat2Z.id, drop_app_length, take_app_length.
Qed.

Lemma store_bytes_app a old bs c :
  length old = length bs -> store_bytes (a ++ old ++ c) (zlen a) bs = Some (a ++ bs ++ c).
Proof.
  intros Hl. unfold store_bytes. rewrite decide_True by (rewrite !length_app; lia).
  rewrite Nat2Z.id, take_app_length. do 3 f_equal.
  rewrite <- Hl, <- drop_drop, drop_app_length. by rewrite drop_app_length.
Qed.

Lemma split_at (l : list Z) (n : Z) :
  0 <= n <= zlen l -> exists a c, l = a ++ c /\ zlen a = n.
Proof.
  intros Hn. exists (take (Z.to_nat n) l), (drop (Z.to_nat n) l).
  rewrite take_drop, length_take. split; [done|lia].
Qed.

Lemma rd_app_mid (a : list Z) x c i : i = zlen a -> rd (a ++ x :: c) i = Some x.
Proof.
  intros ->. unfold rd. rewrite decide_True by lia. rewrite Nat2Z.id.
  by rewrite lookup_app_r, Nat.sub_diag by lia.
Qed.

Lemma wr_app_mid (a : list Z) x c i y : i = zlen a -> wr (a ++ x :: c) i y = Some (a ++ y :: c).
Proof.
  intros ->. unfold wr. rewrite decide_True by (rewrite length_app; simpl; lia).
  rewrite Nat2Z.id. by rewrite insert_app_r_alt, Nat.sub_diag by lia.
Qed.

(** The backward loop is [memmove] towards higher addresses. *)
Lemma copy_back_move h a g c :
  copy_back (length h) (zlen (a ++ g)) (zlen a) (a ++ h ++ g ++ c) =
  Some (a ++ take (length g) (h ++ g) ++ h ++ c).
Proof.
  revert g c. induction h as [|x h IH] using rev_ind; intros g c.
  { simpl. by rewrite firstn_all. }
  rewrite length_app. cbn [length]. replace (length h + 1)%nat with (S (length h)) by lia.
  cbn [copy_back].
  rewrite <- !app_assoc. cbn [app].
  rewrite (app_assoc a h), (rd_app_mid (a ++ h)) by (rewrite length_app; lia). obind.
  destruct (decide (g = [])) as [->|Hg].
  { cbn [app]. rewrite wr_app_mid by (rewrite !length_app; simpl; lia). obind.
    rewrite <- app_assoc. specialize (IH [] (x :: c)). cbn [app length take] in IH.
    rewrite IH. simpl. done. }
  destruct (exists_last Hg) as (g' & y & ->).
  rewrite <- (app_assoc g'). cbn [app].
  replace ((a ++ h) ++ x :: g' ++ y :: c) with ((a ++ h ++ x :: g') ++ y :: c)
    by (rewrite <- !app_assoc; done).
  rewrite wr_app_mid by (len). obind.
  specialize (IH (x :: g') (x :: c)).
  replace ((a ++ h ++ x :: g') ++ x :: c) with (a ++ h ++ (x :: g') ++ x :: c)
    by (rewrite <- !app_assoc; done).
  replace (zlen (a ++ g' ++ [y])) with (zlen (a ++ x :: g'))
    by (len).
  rewrite IH, <- ?app_assoc. cbn [app]. do 3 f_equal.
  replace (length (g' ++ [y])) with (length (x :: g')) by len.
  change (x :: g' ++ [y]) with ((x :: g') ++ [y]).
  rewrite (app_assoc h), (take_app_le (h ++ x :: g') [y]); [done | len].
Qed.

(** ** The abstract view *)

Definition seg_data (s : seg) : list Z := take (Z.to_nat (data_len s)) (drop (Z.to_nat (data_off s)) (buf s)).

Definition seg_wf (s : seg) : Prop :=
  0 <= data_off s /\ 0 <= data_len s /\ data_off s + data_len s <= zlen (buf s).

(** The bytes of the packet. *)
Definition data (m : rte_mbuf) : list Z := concat (seg_data <$> segs m).

Definition mbuf_wf (m : rte_mbuf) : Prop :=
  segs m <> [] /\ Forall seg_wf (segs m) /\ pkt_len m = zlen (data m) /\ zlen (data m) < 65536.

(** Where there is room: is the packet in one segment, the bytes before the
    first window, the lengths of the first and of the last window, and the
    bytes after the last window. *)
Record room := Room { one : bool; head : Z; first : Z; last : Z; tail : Z }.

Definition mkseg (pre d post : list Z) : seg := Seg (pre ++ d ++ post) (zlen pre) (zlen d).

(** The packet [m] holds the bytes [d] and has room [r]. *)
Definition pkt (m : rte_mbuf) (d : list Z) (r : room) : Prop :=
  pkt_len m = zlen d /\ zlen d < 65536 /\
  if one r then
    exists pre post, segs m = [mkseg pre d post] /\
      r = Room true (zlen pre) (zlen d) (zlen d) (zlen post)
  else
    exists pre1 d1 post1 mid pre2 d2 post2,
      segs m = mkseg pre1 d1 post1 :: mid ++ [mkseg pre2 d2 post2] /\
      d = d1 ++ concat (seg_data <$> mid) ++ d2 /\ Forall seg_wf mid /\
      r = Room false (zlen pre1) (zlen d1) (zlen d2) (zlen post2).

(** The fields the operations on the data leave alone. *)
Definition same_meta (m m' : rte_mbuf) : Prop :=
  packet_type m' = packet_type m /\ metadata m' = metadata m.

Lemma seg_data_mk pre d post : seg_data (mkseg pre d post) = d.
Proof. unfold seg_data. simpl. by rewrite !Nat2Z.id, drop_app_length, take_app_length. Qed.

Lemma seg_wf_mk pre d post : seg_wf (mkseg pre d post).
Proof. unfold seg_wf. simpl. len. Qed.

Lemma seg_wf_view s : seg_wf s -> exists pre post, s = mkseg pre (seg_data s) post.
Proof.
  destruct s as [b o n]. unfold seg_wf, seg_data, mkseg. simpl. intros (? & ? & ?).
  destruct (split_at b o) as (pre & c & -> & Hp); [lia|]. subst o.
  destruct (split_at c n) as (d & post & -> & Hd); [len|]. subst n.
  exists pre, post. by rewrite !Nat2Z.id, drop_app_length, take_app_length.
Qed.

Lemma pkt_data m d r : pkt m d r -> data m = d.
Proof.
  intros (_ & _ & HR). unfold data. destruct (one r).
  - destruct HR as (pre & post & -> & _). cbn. by rewrite seg_data_mk, app_nil_r.
  - destruct HR as (pre1 & d1 & post1 & mid & pre2 & d2 & post2 & -> & -> & _).
    cbn. rewrite fmap_app, concat_app. cbn. by rewrite !seg_data_mk, app_nil_r.
Qed.

(** Every well-formed chain has a view. *)
Lemma mbuf_wf_pkt m : mbuf_wf m -> exists r, pkt m (data m) r.
Proof.
  intros (Hne & Hwf & Hl & Hlt). destruct (segs m) as [|s ss] eqn:E; [done|].
  apply Forall_cons in Hwf as [Hs Hss]. destruct (seg_wf_view s Hs) as (pre & post & Hv).
  unfold data in *. rewrite E in *. destruct (decide (ss = [])) as [->|Hne2].
  - exists (Room true (zlen pre) (zlen (seg_data s)) (zlen (seg_data s)) (zlen post)).
    cbn in *. rewrite app_nil_r in *. split; [done|]. split; [done|]. simpl.
    exists pre, post. rewrite E. split; [by rewrite Hv at 1 | done].
  - destruct (exists_last Hne2) as (mid & s2 & ->).
    apply Forall_app in Hss as [Hmid Hs2]. apply Forall_cons in Hs2 as [Hs2 _].
    destruct (seg_wf_view s2 Hs2) as (pre2 & post2 & Hv2).
    exists (Room false (zlen pre) (zlen (seg_data s)) (zlen (seg_data s2)) (zlen post2)).
    split; [done|]. split; [done|]. simpl.
    exists pre, (seg_data s), post, mid, pre2, (seg_data s2), post2.
    rewrite E, <- Hv, <- Hv2. split; [done|]. split; [|done].
    cbn. rewrite fmap_app, concat_app. cbn. by rewrite app_nil_r.
Qed.

Lemma app_split (a b c d : list Z) :
  a ++ b = c ++ d -> zlen c <= zlen a -> exists e, a = c ++ e /\ d = e ++ b.
Proof.
  intros E Hl. destruct (split_at a (zlen c)) as (c' & e & -> & Hc); [lia|].
  rewrite <- app_assoc in E. apply app_inj_1 in E as [-> <-]; [eauto | lia].
Qed.

Lemma app_split_r (a b c d : list Z) :
  a ++ b = c ++ d -> zlen d <= zlen b -> exists e, b = e ++ d /\ c = a ++ e.
Proof.
  intros E Hl. destruct (app_split c d a b (eq_sym E)) as (e & -> & ->); [|eauto].
  apply (f_equal (@length Z)) in E. len.
Qed.

(** ** Accesses through a segment *)

Lemma load_seg m s1 pre x bs y post s2 p n :
  segs m = s1 ++ mkseg pre (x ++ bs ++ y) post :: s2 ->
  p = zlen pre + zlen x -> n = zlen bs -> load m (length s1) p n = Some bs.
Proof.
  intros E -> ->. unfold load. rewrite E, list_lookup_middle by done. obind. simpl.
  rewrite <- Nat2Z.inj_add, <- length_app.
  rewrite <- !app_assoc, (app_assoc pre x). apply load_bytes_app.
Qed.

Lemma store_seg m s1 pre x old bs y post s2 p :
  segs m = s1 ++ mkseg pre (x ++ old ++ y) post :: s2 ->
  p = zlen pre + zlen x -> length old = length bs ->
  store m (length s1) p bs =
  Some (set_segs m (s1 ++ mkseg pre (x ++ bs ++ y) post :: s2)).
Proof.
  intros E -> Hl. unfold store, upd_buf. rewrite E, list_lookup_middle by done. obind. simpl.
  rewrite <- Nat2Z.inj_add, <- length_app, <- !app_assoc, (app_assoc pre x).
  rewrite store_bytes_app by done. obind. rewrite insert_app_r_alt, Nat.sub_diag by done.
  unfold mkseg. simpl. rewrite <- !app_assoc. do 6 f_equal. len.
Qed.

Lemma mtod_seg m s1 pre d post s2 o :
  segs m = s1 ++ mkseg pre d post :: s2 -> mtod_offset m (length s1) o = Some (zlen pre + o).
Proof. intros E. unfold mtod_offset. by rewrite E, list_lookup_middle by done. Qed.

(** ** Operations on the view *)

Lemma same_meta_refl m : same_meta m m.
Proof. done. Qed.

Lemma same_meta_trans m1 m2 m3 : same_meta m1 m2 -> same_meta m2 m3 -> same_meta m1 m3.
Proof. unfold same_meta. naive_solver congruence. Qed.

#[export] Hint Resolve same_meta_refl same_meta_trans : doca.

(** The pieces of a multi-segment packet that a range of the first, or of the
    last segment falls in. *)
Lemma first_range (d1 rest a old c : list Z) :
  d1 ++ rest = a ++ old ++ c -> zlen a + zlen old <= zlen d1 ->
  exists y, d1 = a ++ old ++ y /\ c = y ++ rest.
Proof.
  rewrite (app_assoc a). intros E Hl. destruct (app_split _ _ _ _ E) as (y & -> & ->); [len|].
  exists y. by rewrite <- app_assoc.
Qed.

Lemma last_range (rest d2 a old c : list Z) :
  rest ++ d2 = a ++ old ++ c -> zlen rest <= zlen a ->
  exists x, d2 = x ++ old ++ c /\ a = rest ++ x.
Proof.
  intros E Hl. destruct (app_split_r rest d2 a (old ++ c) E) as (x & -> & ->); [|eauto].
  apply (f_equal (@length Z)) in E. len.
Qed.

Lemma pkt_eq m d1 d2 r1 r2 : pkt m d1 r1 -> d1 = d2 -> r1 = r2 -> pkt m d2 r2.
Proof. intros ? -> ->. done. Qed.

Section View.
Context (m : rte_mbuf) (d : list Z) (r : room) (HP : pkt m d r).

Lemma pkt_bounds :
  0 <= head r /\ 0 <= first r <= zlen d /\ 0 <= last r <= zlen d /\ 0 <= tail r /\
  zlen d < 65536 /\ pkt_len m = zlen d /\ (one r = true -> first r = zlen d /\ last r = zlen d).
Proof.
  destruct HP as (Hl & Hlt & HR). destruct (one r) eqn:Eo.
  - destruct HR as (pre & post & _ & ->). simpl. lia.
  - destruct HR as (pre1 & d1 & post1 & mid & pre2 & d2 & post2 & _ & -> & _ & ->).
    simpl in *. repeat split; len.
Qed.

Lemma pkt_mtod0 o : mtod_offset m 0 o = Some (head r + o).
Proof.
  destruct HP as (_ & _ & HR). destruct (one r).
  - destruct HR as (pre & post & Hs & ->). by apply (mtod_seg m [] pre d post []).
  - destruct HR as (pre1 & d1 & post1 & mid & pre2 & d2 & post2 & Hs & _ & _ & ->).
    by apply (mtod_seg m [] pre1 d1 post1 (mid ++ [mkseg pre2 d2 post2])).
Qed.

Lemma pkt_load0 a bs c p n :
  d = a ++ bs ++ c -> zlen a + zlen bs <= first r -> p = head r + zlen a -> n = zlen bs ->
  load m 0 p n = Some bs.
Proof.
  intros Hd Hf -> ->. destruct HP as (_ & _ & HR). destruct (one r).
  - destruct HR as (pre & post & Hs & ->). rewrite Hd in Hs.
    by eapply (load_seg m [] _ _ _ _ _ []).
  - destruct HR as (pre1 & d1 & post1 & mid & pre2 & d2 & post2 & Hs & E & _ & ->).
    simpl in *. rewrite Hd in E. destruct (first_range _ _ _ _ _ (eq_sym E)) as (y & -> & ->); [lia|].
    by eapply (load_seg m [] _ _ _ _ _ (mid ++ [mkseg pre2 d2 post2])).
Qed.

Lemma pkt_store0 a old bs c p :
  d = a ++ old ++ c -> length old = length bs -> zlen a + zlen bs <= first r ->
  p = head r + zlen a ->
  exists m', store m 0 p bs = Some m' /\ pkt m' (a ++ bs ++ c) r /\ same_meta m m'.
Proof.
  intros Hd Hl Hf ->. destruct HP as (Hpl & Hlt & HR).
  assert (El : zlen (a ++ bs ++ c) = zlen d) by (rewrite Hd; len).
  unfold pkt. rewrite El. destruct (one r) eqn:Eo.
  - destruct HR as (pre & post & Hs & ->). rewrite Hd in Hs. eexists. split.
    { by eapply (store_seg m [] _ _ _ _ _ _ []). }
    split; [|done]. split; [done|]. split; [done|]. by exists pre, post.
  - destruct HR as (pre1 & d1 & post1 & mid & pre2 & d2 & post2 & Hs & E & Hm & ->).
    simpl in *. rewrite Hd in E.
    destruct (first_range _ _ _ _ _ (eq_sym E)) as (y & -> & ->); [lia|]. eexists. split.
    { by eapply (store_seg m [] _ _ _ _ _ _ (mid ++ [mkseg pre2 d2 post2])). }
    split; [|done]. split; [done|]. split; [done|].
    exists pre1, (a ++ bs ++ y), post1, mid, pre2, d2, post2.
    rewrite <- !app_assoc. split; [done|]. split; [done|]. split; [done|]. f_equal; len.
Qed.

Context `{DpdkLaws}.

(** The last segment, and the view of a packet that differs in it. *)
Lemma pkt_last_seg :
  exists s1 D x pre post, segs m = s1 ++ [mkseg pre x post] /\
    zlen x = last r /\ zlen post = tail r /\ d = D ++ x /\
    rte_pktmbuf_lastseg m = length s1 /\ D = concat (seg_data <$> s1) /\ Forall seg_wf s1 /\
    forall m' x' post', segs m' = s1 ++ [mkseg pre x' post'] ->
      pkt_len m' = zlen (D ++ x') -> zlen (D ++ x') < 65536 ->
      rte_pktmbuf_lastseg m' = rte_pktmbuf_lastseg m /\
      pkt m' (D ++ x') (Room (one r) (head r) (if one r then zlen x' else first r) (zlen x') (zlen post')).
Proof.
  destruct HP as (_ & _ & HR). destruct (one r).
  - destruct HR as (pre & post & Hs & ->). exists [], [], d, pre, post.
    rewrite (lastseg_ok m [] _ Hs). do 7 (split; [done|]).
    intros m' x' post' Hs' ? ?. split; [by apply (lastseg_ok m' [] _ Hs')|].
    split; [done|]. split; [done|]. by exists pre, post'.
  - destruct HR as (pre1 & d1 & post1 & mid & pre2 & d2 & post2 & Hs & -> & Hm & ->).
    exists (mkseg pre1 d1 post1 :: mid), (d1 ++ concat (seg_data <$> mid)), d2, pre2, post2.
    rewrite (lastseg_ok m (mkseg pre1 d1 post1 :: mid) _ Hs). split; [done|]. split; [done|]. split; [done|].
    split; [by rewrite <- app_assoc|]. split; [done|].
    split; [by cbn; rewrite seg_data_mk|]. split; [constructor; [apply seg_wf_mk | done]|].
    intros m' x' post' Hs' ? ?. split; [by rewrite (lastseg_ok m' (mkseg pre1 d1 post1 :: mid) _ Hs')|].
    split; [done|]. split; [done|].
    exists pre1, d1, post1, mid, pre2, x', post'. by rewrite <- app_assoc.
Qed.

Lemma pkt_load_last a bs c o n :
  d = a ++ bs ++ c -> zlen d - last r <= zlen a -> o = zlen a - (zlen d - last r) -> n = zlen bs ->
  exists p, mtod_offset m (rte_pktmbuf_lastseg m) o = Some p /\
    load m (rte_pktmbuf_lastseg m) p n = Some bs.
Proof.
  intros Hd Ha -> ->. destruct pkt_last_seg as (s1 & D & x & pre & post & Hs & Hx & _ & E & Hi & _ & _ & _).
  rewrite Hi. eexists. split; [by apply (mtod_seg _ _ _ _ _ _ _ Hs)|].
  assert (Hlen : zlen d = zlen D + zlen x) by (rewrite E; len).
  rewrite Hd in E. destruct (last_range _ _ _ _ _ (eq_sym E)) as (y & -> & ->); [lia|].
  eapply (load_seg m s1); [exact Hs | len | done].
Qed.

Lemma room_last n :
  n = last r -> r = Room (one r) (head r) (if one r then n else first r) n (tail r).
Proof.
  intros ->. pose proof pkt_bounds as (_ & _ & _ & _ & _ & _ & Ho).
  destruct r as [[] ? ? ? ?]; simpl in *; [|done]. destruct Ho as [-> ->]; done.
Qed.

Lemma pkt_store_last a old bs c o :
  d = a ++ old ++ c -> length old = length bs -> zlen d - last r <= zlen a ->
  o = zlen a - (zlen d - last r) ->
  exists p m', mtod_offset m (rte_pktmbuf_lastseg m) o = Some p /\
    store m (rte_pktmbuf_lastseg m) p bs = Some m' /\ pkt m' (a ++ bs ++ c) r /\
    same_meta m m' /\ rte_pktmbuf_lastseg m' = rte_pktmbuf_lastseg m /\
    (forall o', mtod_offset m' (rte_pktmbuf_lastseg m) o' = Some (p - o + o')).
Proof.
  intros Hd Hl Ha ->.
  destruct pkt_last_seg as (s1 & D & x & pre & post & Hs & Hx & Ht & E & Hi & _ & _ & HV).
  pose proof pkt_bounds as (_ & _ & _ & _ & Hlt & Hpl & _).
  assert (Hlen : zlen d = zlen D + zlen x) by (rewrite E; len).
  rewrite Hd in E. destruct (last_range _ _ _ _ _ (eq_sym E)) as (y & -> & ->); [lia|].
  rewrite Hi in *. eexists _, _. split; [by apply (mtod_seg _ _ _ _ _ _ _ Hs)|].
  split; [eapply (store_seg m s1); [exact Hs | len | done]|].
  destruct (HV (set_segs m (s1 ++ [mkseg pre (y ++ bs ++ c) post])) (y ++ bs ++ c) post) as [Hi' HP'];
    [done | simpl; len | len |].
  split; [|split; [done|]; split; [by rewrite Hi'|]].
  - rewrite (room_last (zlen (y ++ bs ++ c))), <- Ht, <- app_assoc by len. done.
  - intros o'. erewrite mtod_seg by done. f_equal. lia.
Qed.

(** Changing the length of the last window over the bytes after it. *)
Lemma pkt_grow k :
  0 <= k <= tail r -> zlen d + k < 65536 ->
  exists m' junk, set_data_len m (rte_pktmbuf_lastseg m) (last r + k) = Some m' /\
    zlen junk = k /\ same_meta m m' /\ pkt_len m' = zlen d /\
    rte_pktmbuf_lastseg m' = rte_pktmbuf_lastseg m /\
    pkt (set_pkt_len m' (zlen d + k)) (d ++ junk)
      (Room (one r) (head r) (if one r then first r + k else first r) (last r + k) (tail r - k)).
Proof.
  intros Hk Hlt'.
  destruct pkt_last_seg as (s1 & D & x & pre & post & Hs & Hx & Ht & E & Hi & _ & _ & HV).
  pose proof pkt_bounds as (_ & _ & Hlr & _ & _ & Hpl & Ho).
  destruct (split_at post k) as (junk & post' & -> & Hj); [lia|].
  rewrite Hi in *. unfold set_data_len. rewrite Hs, list_lookup_middle by done. obind.
  rewrite wrap_small by (change (2 ^ 16) with 65536; lia).
  rewrite insert_app_r_alt, Nat.sub_diag by done. eexists _, junk. split; [done|].
  split; [done|]. split; [done|]. split; [done|].
  assert (Hs' : mkseg pre (x ++ junk) post' =
                Seg (buf (mkseg pre x (junk ++ post'))) (data_off (mkseg pre x (junk ++ post'))) (last r + k)).
  { unfold mkseg. simpl. rewrite <- app_assoc. f_equal. len. }
  cbn [list_insert insert]. rewrite <- Hs'.
  split; [by apply (lastseg_ok _ s1 (mkseg pre (x ++ junk) post'))|].
  destruct (HV (set_pkt_len (set_segs m (s1 ++ [mkseg pre (x ++ junk) post'])) (zlen d + k))
              (x ++ junk) post') as [_ HP']; [done | simpl; rewrite E; len | rewrite E in *; len |].
  eapply pkt_eq; [exact HP' | by rewrite E, app_assoc |].
  destruct (one r); [destruct Ho; [done|]|]; f_equal; rewrite ?E in *; len.
Qed.

Lemma pkt_shrink d' z k :
  d = d' ++ z -> zlen z = k -> k <= last r ->
  exists m', set_data_len m (rte_pktmbuf_lastseg m) (last r - k) = Some m' /\
    same_meta m m' /\ pkt_len m' = zlen d /\
    pkt (set_pkt_len m' (zlen d')) d'
      (Room (one r) (head r) (if one r then first r - k else first r) (last r - k) (tail r + k)).
Proof.
  intros Hd Hz Hk.
  destruct pkt_last_seg as (s1 & D & x & pre & post & Hs & Hx & Ht & E & Hi & _ & _ & HV).
  pose proof pkt_bounds as (_ & _ & Hlr & _ & Hlt & Hpl & Ho).
  rewrite Hi in *. unfold set_data_len. rewrite Hs, list_lookup_middle by done. obind.
  rewrite wrap_small by (change (2 ^ 16) with 65536; lia).
  rewrite insert_app_r_alt, Nat.sub_diag by done. eexists. split; [done|].
  split; [done|]. split; [done|]. rewrite Hd in E.
  destruct (app_split_r D x d' z (eq_sym E)) as (x' & -> & ->); [lia|].
  assert (Hs' : mkseg pre x' (z ++ post) =
                Seg (buf (mkseg pre (x' ++ z) post)) (data_off (mkseg pre (x' ++ z) post)) (last r - k)).
  { unfold mkseg. simpl. rewrite <- app_assoc. f_equal. len. }
  cbn [list_insert insert]. rewrite <- Hs'.
  destruct (HV (set_pkt_len (set_segs m (s1 ++ [mkseg pre x' (z ++ post)])) (zlen (D ++ x')))
              x' (z ++ post)) as [_ HP']; [done | done | rewrite Hd in *; len |].
  eapply pkt_eq; [exact HP' | done |].
  destruct (one r); [destruct Ho; [done|]|]; f_equal; rewrite ?Hd in *; len.
Qed.

Lemma pkt_trim d' z k :
  d = d' ++ z -> zlen z = k -> k <= last r ->
  same_meta m (rte_pktmbuf_trim m k) /\
  pkt (rte_pktmbuf_trim m k) d'
    (Room (one r) (head r) (if one r then first r - k else first r) (last r - k) (tail r + k)).
Proof.
  intros Hd Hz Hk. destruct (pkt_shrink d' z k Hd Hz Hk) as (m' & E & HM & _ & HP').
  destruct pkt_last_seg as (s1 & D & x & pre & post & Hs & Hx & _ & _ & Hi & _ & _ & _).
  pose proof pkt_bounds as (_ & _ & Hlr & _ & Hlt & Hpl & _).
  assert (Et : rte_pktmbuf_trim m k = set_pkt_len m' (zlen d')).
  { rewrite (trim_ok m s1 _ k Hs) by (simpl; lia).
    unfold set_data_len in E. rewrite Hi, Hs, list_lookup_middle in E by done. revert E. obind.
    rewrite wrap_small by (change (2 ^ 16) with 65536; lia).
    rewrite insert_app_r_alt, Nat.sub_diag by done. intros [= <-].
    unfold set_pkt_len. simpl. rewrite Hx, Hpl, Hd.
    rewrite wrap_small; [f_equal; len | change (2 ^ 32) with 4294967296; rewrite Hd in *; len]. }
  rewrite Et. split; [done | exact HP'].
Qed.

Lemma pkt_prepend k :
  0 <= k <= head r -> zlen d + k < 65536 ->
  exists m' junk, rte_pktmbuf_prepend m k = Some m' /\ zlen junk = k /\ same_meta m m' /\
    pkt m' (junk ++ d)
      (Room (one r) (head r - k) (first r + k) (if one r then last r + k else last r) (tail r)).
Proof.
  intros Hk Hlt. pose proof pkt_bounds as (_ & _ & _ & _ & _ & Hpl & _).
  destruct HP as (_ & _ & HR). destruct (one r).
  - destruct HR as (pre & post & Hs & ->). simpl in *.
    destruct (split_at pre (zlen pre - k)) as (pre' & junk & -> & Hj); [lia|].
    erewrite prepend_ok by (exact Hs || (simpl; len)). eexists _, junk. split; [done|].
    split; [len|]. split; [done|]. split; [|split].
    + simpl. rewrite wrap_small; [len | change (2 ^ 32) with 4294967296; len].
    + len.
    + exists pre', post. unfold mkseg. simpl. rewrite <- !app_assoc. split; f_equal; len.
      f_equal; len.
  - destruct HR as (pre1 & d1 & post1 & mid & pre2 & d2 & post2 & Hs & -> & Hm & ->). simpl in *.
    destruct (split_at pre1 (zlen pre1 - k)) as (pre' & junk & -> & Hj); [lia|].
    erewrite prepend_ok by (exact Hs || (simpl; len)). eexists _, junk. split; [done|].
    split; [len|]. split; [done|]. split; [|split].
    + simpl. rewrite wrap_small; [len | change (2 ^ 32) with 4294967296; len].
    + len.
    + exists pre', (junk ++ d1), post1, mid, pre2, d2, post2. unfold mkseg. simpl.
      rewrite <- !app_assoc. split; [|split; [done|split; [done|]]]; do 2 f_equal; len.
Qed.

Lemma pkt_prepend_null k : head r < k -> rte_pktmbuf_prepend m k = None.
Proof.
  intros Hk. destruct HP as (_ & _ & HR). destruct (one r).
  - destruct HR as (pre & post & Hs & ->). by eapply prepend_null.
  - destruct HR as (pre1 & d1 & post1 & mid & pre2 & d2 & post2 & Hs & -> & Hm & ->).
    by eapply prepend_null.
Qed.

Lemma pkt_adj g d' k :
  d = g ++ d' -> zlen g = k -> k <= first r ->
  exists m', rte_pktmbuf_adj m k = Some m' /\ same_meta m m' /\
    pkt m' d' (Room (one r) (head r + k) (first r - k) (if one r then last r - k else last r) (tail r)).
Proof.
  intros Hd Hg Hk. pose proof pkt_bounds as (_ & _ & _ & _ & Hlt & Hpl & _).
  destruct HP as (_ & _ & HR). destruct (one r).
  - destruct HR as (pre & post & Hs & ->). simpl in *. rewrite Hd in *.
    erewrite adj_ok by (exact Hs || (simpl; len)). eexists. split; [done|].
    split; [done|]. split; [|split].
    + simpl. rewrite wrap_small; [len | change (2 ^ 32) with 4294967296; len].
    + len.
    + exists (pre ++ g), post. unfold mkseg. simpl. rewrite <- !app_assoc. split; f_equal; len.
      f_equal; len.
  - destruct HR as (pre1 & d1 & post1 & mid & pre2 & d2 & post2 & Hs & E & Hm & ->). simpl in *.
    rewrite Hd in E. destruct (app_split _ _ _ _ (eq_sym E)) as (d1' & -> & ->); [lia|].
    rewrite Hd in *. erewrite adj_ok by (exact Hs || (simpl; len)). eexists. split; [done|].
    split; [done|]. split; [|split].
    + simpl. rewrite wrap_small; [len | change (2 ^ 32) with 4294967296; len].
    + len.
    + exists (pre1 ++ g), d1', post1, mid, pre2, d2, post2. unfold mkseg. simpl.
      rewrite <- !app_assoc. split; [|split; [done|split; [done|]]]; do 2 f_equal; len.
Qed.
End View.

(** ** Shape: what a store leaves alone *)

Definition same_shape (m m' : rte_mbuf) : Prop :=
  same_meta m m' /\ pkt_len m' = pkt_len m /\ length (segs m') = length (segs m) /\
  (forall i o, mtod_offset m' i o = mtod_offset m i o).

Lemma upd_buf_shape m i f m' : upd_buf m i f = Some m' -> same_shape m m'.
Proof.
  unfold upd_buf. destruct (segs m !! i) as [s|] eqn:Es; obind; [|intros; congruence].
  destruct (f (buf s)) as [b|] eqn:Eb; obind; [|intros; congruence]. intros [= <-].
  split; [done|]. split; [done|]. split; [simpl; by rewrite length_insert|].
  intros j o. unfold mtod_offset. simpl. destruct (decide (i = j)) as [<-|Hne].
  - rewrite list_lookup_insert_eq by (by eapply lookup_lt_Some). by rewrite Es.
  - by rewrite list_lookup_insert_ne.
Qed.

Lemma same_shape_trans m1 m2 m3 : same_shape m1 m2 -> same_shape m2 m3 -> same_shape m1 m3.
Proof.
  intros ([? ?] & ? & ? & ?) ([? ?] & ? & ? & ?). unfold same_shape, same_meta.
  repeat split; try congruence.
Qed.

Section Shape.
Context `{DpdkLaws}.

Lemma pkt_lastseg m d r : pkt m d r -> rte_pktmbuf_lastseg m = pred (length (segs m)).
Proof.
  intros HP. destruct (pkt_last_seg m d r HP) as (s1 & D & x & pre & post & Hs & _ & _ & _ & -> & _).
  rewrite Hs. len.
Qed.

Lemma same_shape_lastseg m m' d d' r r' :
  pkt m d r -> pkt m' d' r' -> same_shape m m' -> rte_pktmbuf_lastseg m' = rte_pktmbuf_lastseg m.
Proof. intros HP HP' (_ & _ & E & _). by rewrite (pkt_lastseg _ _ _ HP), (pkt_lastseg _ _ _ HP'), E. Qed.

(** Editing the buffer commutes with dropping bytes from the front. *)
Lemma adj_upd m d r k f m' :
  pkt m d r -> 0 <= k <= first r -> upd_buf m 0 f = Some m' ->
  exists m1 m1', rte_pktmbuf_adj m k = Some m1 /\ upd_buf m1 0 f = Some m1' /\
    rte_pktmbuf_adj m' k = Some m1'.
Proof.
  intros (_ & _ & HR) Hk. assert (exists s ss, segs m = s :: ss /\ data_len s = first r) as (s & ss & Hs & Hf).
  { destruct (one r).
    - destruct HR as (pre & post & Hs & ->). eauto.
    - destruct HR as (pre1 & d1 & post1 & mid & pre2 & d2 & post2 & Hs & _ & _ & ->). eauto. }
  unfold upd_buf. rewrite Hs. cbn [lookup list_lookup]. obind.
  destruct (f (buf s)) as [b|] eqn:Ef; [|done]. intros [= <-].
  erewrite adj_ok by (done || lia). eexists _, _. split; [done|]. cbn [segs lookup list_lookup buf].
  obind. cbn [buf]. rewrite Ef. obind. split; [done|].
  erewrite (adj_ok _ (Seg b (data_off s) (data_len s)) ss) by (done || (simpl; lia)). done.
Qed.

End Shape.

(** Moving the bytes [h] at the front of the packet over the gap [g]. *)
Lemma pkt_copy_back m d r h g c np op n :
  pkt m d r -> d = h ++ g ++ c -> zlen h + zlen g <= first r ->
  n = length h -> op = head r -> np = head r + zlen g ->
  exists m', upd_buf m 0 (copy_back n np op) = Some m' /\
    pkt m' (take (length g) (h ++ g) ++ h ++ c) r /\ same_meta m m'.
Proof.
  intros (Hpl & Hlt & HR) Hd Hf -> -> ->.
  assert (El : zlen (take (length g) (h ++ g) ++ h ++ c) = zlen d).
  { rewrite Hd. len. rewrite length_take. len. }
  unfold pkt. rewrite El. destruct (one r) eqn:Eo.
  - destruct HR as (pre & post & Hs & ->). unfold upd_buf. rewrite Hd in Hs. rewrite Hs.
    cbn [lookup list_lookup]. obind. cbn [mkseg buf head]. rewrite <- !app_assoc, <- Nat2Z.inj_add, <- length_app, copy_back_move. obind.
    eexists. split; [done|]. split; [|done]. split; [done|]. split; [done|].
    exists pre, post. split; [|done]. cbn [list_insert insert set_segs segs]. unfold mkseg.
    rewrite <- !app_assoc. do 2 f_equal. simpl. rewrite <- Hd, <- El, <- ?app_assoc. done.
  - destruct HR as (pre1 & d1 & post1 & mid & pre2 & d2 & post2 & Hs & E & Hm & ->). simpl in *.
    rewrite Hd, (app_assoc h) in E.
    destruct (app_split _ _ _ _ (eq_sym E)) as (y & -> & ->); [len|].
    unfold upd_buf. rewrite Hs. cbn [lookup list_lookup]. obind.
    cbn [mkseg buf head]. rewrite <- !app_assoc, <- Nat2Z.inj_add, <- length_app, copy_back_move. obind.
    eexists. split; [done|]. split; [|done]. split; [done|]. split; [done|].
    exists pre1, (take (length g) (h ++ g) ++ h ++ y), post1, mid, pre2, d2, post2.
    cbn [list_insert insert set_segs segs]. unfold mkseg. rewrite <- !app_assoc.
    assert (Ey : zlen (take (length g) (h ++ g) ++ h ++ y) = zlen (h ++ g ++ y)).
    { len. rewrite length_take. len. }
    split; [|split; [done|split; [done|f_equal; lia]]]. do 2 f_equal. simpl. lia.
Qed.

(** ** A DPDK that keeps the documented laws

    It gives the witnesses a concrete packet library to run on. *)

Definition ref_prepend (m : rte_mbuf) (k : Z) : option rte_mbuf :=
  match segs m with
  | s :: r =>
      if k <=? data_off s then
        Some (Mbuf (Seg (buf s) (data_off s - k) (data_len s + k) :: r) (u32 (pkt_len m + k))
                   (packet_type m) (metadata m))
      else None
  | [] => None
  end.

Definition ref_adj (m : rte_mbuf) (k : Z) : option rte_mbuf :=
  match segs m with
  | s :: r =>
      if k <=? data_len s then
        Some (Mbuf (Seg (buf s) (data_off s + k) (data_len s - k) :: r) (u32 (pkt_len m - k))
                   (packet_type m) (metadata m))
      else None
  | [] => None
  end.

Definition ref_trim (m : rte_mbuf) (k : Z) : rte_mbuf :=
  match reverse (segs m) with
  | s :: r =>
      if k <=? data_len s then
        Mbuf (reverse r ++ [Seg (buf s) (data_off s) (data_len s - k)]) (u32 (pkt_len m - k))
             (packet_type m) (metadata m)
      else m
  | [] => m
  end.

(** RTE_PTYPE_L3_IPV4 = 0x10 and RTE_PTYPE_L3_IPV6 = 0x40. *)
Definition dpdk_ref : Dpdk :=
  {| rte_pktmbuf_prepend := ref_prepend;
     rte_pktmbuf_adj := ref_adj;
     rte_pktmbuf_trim := ref_trim;
     rte_pktmbuf_lastseg m := pred (length (segs m));
     rte_flow_dynf_metadata_avail := true;
     RTE_ETH_IS_IPV4_HDR t := truthy (Z.land t 16);
     RTE_ETH_IS_IPV6_HDR t := truthy (Z.land t 64);
     rte_ipv4_hdr_len b := Z.land b 15 * 4;
     RTE_ALIGN_CEIL v a := u32 (Z.land (v + (a - 1)) (Z.lnot (a - 1))) |}.

Lemma land_lnot_ones v n : 0 <= n -> Z.land v (Z.lnot (2 ^ n - 1)) = v / 2 ^ n * 2 ^ n.
Proof.
  intros Hn. replace (2 ^ n - 1) with (Z.ones n) by (rewrite Z.ones_equiv; lia).
  rewrite <- Z.ldiff_land, Z.ldiff_ones_r, Z.shiftr_div_pow2, Z.shiftl_mul_pow2 by done. done.
Qed.

Lemma dpdk_ref_laws : @DpdkLaws dpdk_ref.
Proof.
  split; simpl; unfold ref_prepend, ref_adj, ref_trim.
  - intros m s r k -> Hk _. by replace (k <=? data_off s) with true by lia.
  - intros m s r k -> Hk. by replace (k <=? data_off s) with false by lia.
  - intros m s r k -> Hk. by replace (k <=? data_len s) with true by lia.
  - intros m s r k -> Hk. by replace (k <=? data_len s) with false by lia.
  - intros m r s k -> Hk. rewrite reverse_snoc, reverse_involutive.
    by replace (k <=? data_len s) with true by lia.
  - intros m r s k -> Hk. rewrite reverse_snoc. by replace (k <=? data_len s) with false by lia.
  - intros m r s ->. rewrite length_app. simpl. lia.
  - intros b [? ?]. change 15 with (Z.ones 4). rewrite Z.land_ones by lia. change (2 ^ 4) with 16. lia.
  - intros v n Hn Hv Hlt. rewrite land_lnot_ones by done.
    assert (0 < 2 ^ n) by lia. pose proof (Z.mul_div_le (v + (2 ^ n - 1)) (2 ^ n) ltac:(lia)).
    pose proof (Z.div_pos (v + (2 ^ n - 1)) (2 ^ n) ltac:(lia) ltac:(lia)).
    rewrite wrap_small by nia. by replace (v + 2 ^ n - 1) with (v + (2 ^ n - 1)) by lia.
Qed.
