(* ===== verification/EspPacket.v ===== *)
(** * Software ESP encapsulation of the IPsec security gateway

    Models the packet processing of ipsec_security_gw: [remove_trailing_zeros]
    (flow_common.c), the encapsulation of plain packets (flow_encrypt.c), the
    decapsulation of decrypted ones (flow_decrypt.c) and the forwarding loop
    (ipsec_security_gw.c).  Encryption itself is done by the hardware between the
    two: it fills in the initialisation vector, the cipher text and the integrity
    check value, and the receiving hardware turns the cipher text back.
    EspPacketSpec states what the two sides promise each other. *)

From S2P Require Import Prelude.
From S2P Require Import Pack.
From S2P Require Import AntiReplay.
From S2P Require Import Mbuf.
#[local] Open Scope Z_scope.

(** ** Wire formats: the sizes and field offsets of DPDK's header structures *)

Definition sizeof_ether_hdr : Z := 14.
Definition ether_type_off : Z := 12.
Definition ip4_version_ihl : Z := 0.
Definition ip4_total_length : Z := 2.
Definition ip4_next_proto_id : Z := 9.
Definition sizeof_ipv6_hdr : Z := 40.
Definition ip6_payload_len : Z := 4.
Definition ip6_proto : Z := 6.
Definition sizeof_udp_hdr : Z := 8.
Definition sizeof_esp_hdr : Z := 8.
Definition esp_seq : Z := 4.
Definition sizeof_esp_tail : Z := 2.
Definition esp_pad_len : Z := 0.
Definition esp_next_proto : Z := 1.
Definition RTE_ETHER_TYPE_IPV4 : Z := 2048.
Definition RTE_ETHER_TYPE_IPV6 : Z := 34525.
Definition IPPROTO_UDP : Z := 17.
Definition IPPROTO_IPV6 : Z := 41.
Definition IPPROTO_ESP : Z := 50.

(** ** Rules and the context of a core *)

Definition MAX_NB_RULES : Z := 1024.

Inductive flow_l3_type := DOCA_FLOW_L3_TYPE_NONE | DOCA_FLOW_L3_TYPE_IP4 | DOCA_FLOW_L3_TYPE_IP6.

#[global] Instance flow_l3_type_eq_dec : EqDecision flow_l3_type.
Proof. solve_decision. Defined.

Inductive ipsec_security_gw_mode :=
| IPSEC_SECURITY_GW_TUNNEL | IPSEC_SECURITY_GW_TRANSPORT | IPSEC_SECURITY_GW_UDP_TRANSPORT.

#[global] Instance gw_mode_eq_dec : EqDecision ipsec_security_gw_mode.
Proof. solve_decision. Defined.

(** [struct encrypt_rule]: the fields this code reads; [encap_dst] is the union
    of [encap_dst_ip4] (its first word) and [encap_dst_ip6]. *)
Record encrypt_rule := EncRule {
  enc_l3_type : flow_l3_type;
  encap_l3_type : flow_l3_type;
  encap_dst : Z * Z * Z * Z;
  esp_spi : Z;          (* uint32_t *)
  current_sn : Z;       (* uint32_t *)
  enc_icv_length : Z    (* sa_attrs.icv_length *)
}.

(** [struct decrypt_rule]: [sa_attrs.icv_length]. *)
Record decrypt_rule := DecRule { dec_icv_length : Z }.

Record ipsec_security_gw_config := Config {
  sw_sn_inc_enable : bool;
  sw_antireplay : bool;
  mode : ipsec_security_gw_mode;
  sn_initial : Z        (* uint64_t *)
}.

Record ipsec_security_gw_core_ctx := Ctx {
  config : ipsec_security_gw_config;
  encrypt_rules : list encrypt_rule;
  decrypt_rules : list decrypt_rule;
  antireplay_states : list antireplay_state
}.

Definition set_sn (r : encrypt_rule) (sn : Z) : encrypt_rule :=
  EncRule (enc_l3_type r) (encap_l3_type r) (encap_dst r) (esp_spi r) sn (enc_icv_length r).
Definition set_encrypt_rules (ctx : ipsec_security_gw_core_ctx) (rs : list encrypt_rule) :=
  Ctx (config ctx) rs (decrypt_rules ctx) (antireplay_states ctx).
Definition set_antireplay (ctx : ipsec_security_gw_core_ctx) (ss : list antireplay_state) :=
  Ctx (config ctx) (encrypt_rules ctx) (decrypt_rules ctx) ss.

(** [ctx->encrypt_rules[rule_idx].current_sn++] *)
Definition inc_current_sn (ctx : ipsec_security_gw_core_ctx) (rule_idx : Z) :
    option ipsec_security_gw_core_ctx :=
  r ← rd (encrypt_rules ctx) rule_idx;
  rs ← wr (encrypt_rules ctx) rule_idx (set_sn r (u32 (current_sn r + 1)));
  Some (set_encrypt_rules ctx rs).

(** ** Encapsulation headers *)

Definition ENCAP_DST_IP_IDX_IP4 : nat := 30.
Definition ENCAP_DST_IP_IDX_IP6 : nat := 38.
Definition ENCAP_DST_UDP_PORT_IDX : nat := 2.
Definition ENCAP_ESP_SPI_IDX_TUNNEL_IP4 : nat := 34.
Definition ENCAP_ESP_SPI_IDX_TUNNEL_IP6 : nat := 54.
Definition ENCAP_ESP_SPI_IDX_TRANSPORT : nat := 0.
Definition ENCAP_ESP_SPI_IDX_UDP_TRANSPORT : nat := 8.
Definition ENCAP_ESP_SN_IDX_TUNNEL_IP4 : nat := 38.
Definition ENCAP_ESP_SN_IDX_TUNNEL_IP6 : nat := 58.
Definition ENCAP_ESP_SN_IDX_TRANSPORT : nat := 4.
Definition ENCAP_ESP_SN_IDX_UDP_TRANSPORT : nat := 12.
Definition PADDING_ALIGN : Z := 4.
Definition esp_pad_bytes : list Z := [1; 2; 3; 4; 5; 6; 7; 8; 9; 10; 11; 12; 13; 14; 15].

(** The four assignments of a 32-bit value to an array, high byte first. *)
Definition put_be (i : nat) (v : Z) (a : list Z) : list Z :=
  <[(i + 3)%nat := GET_BYTE v 0]> (<[(i + 2)%nat := GET_BYTE v 1]>
    (<[(i + 1)%nat := GET_BYTE v 2]> (<[i := GET_BYTE v 3]> a))).

(** The same for a value that is already in network byte order. *)
Definition put_raw (i : nat) (v : Z) (a : list Z) : list Z :=
  <[(i + 3)%nat := GET_BYTE v 3]> (<[(i + 2)%nat := GET_BYTE v 2]>
    (<[(i + 1)%nat := GET_BYTE v 1]> (<[i := GET_BYTE v 0]> a))).

Definition create_transport_encap (rule : encrypt_rule) (sw_sn_inc : bool) : list Z :=
  let data := replicate 16 0 in
  let data := put_be ENCAP_ESP_SPI_IDX_TRANSPORT (esp_spi rule) data in
  if sw_sn_inc then put_be ENCAP_ESP_SN_IDX_TRANSPORT (current_sn rule) data else data.

Definition create_udp_transport_encap (rule : encrypt_rule) (sw_sn_inc : bool) : list Z :=
  let udp_dst_port := 4500 in
  let data :=
    [48; 57; 0; 0;        (* UDP src/dst *)
     0; 164; 0; 0]        (* UDP len/sum *)
    ++ replicate 16 0 in  (* SPI, SN, IV *)
  let data := put_be ENCAP_ESP_SPI_IDX_UDP_TRANSPORT (esp_spi rule) data in
  let data := <[ENCAP_DST_UDP_PORT_IDX := GET_BYTE udp_dst_port 1]> data in
  let data := <[(ENCAP_DST_UDP_PORT_IDX + 1)%nat := GET_BYTE udp_dst_port 0]> data in
  if sw_sn_inc then put_be ENCAP_ESP_SN_IDX_UDP_TRANSPORT (current_sn rule) data else data.

Definition create_ipv4_tunnel_encap (rule : encrypt_rule) (sw_sn_inc : bool) : list Z :=
  let '(ip, _, _, _) := encap_dst rule in
  let data :=
    [170; 187; 204; 221; 238; 255;      (* mac_dst *)
     17; 34; 51; 68; 85; 102;           (* mac_src *)
     8; 0;                              (* mac_type *)
     69; 0; 0; 0; 0; 0;                 (* IP v4 *)
     0; 0; 0; 50; 0; 0;
     2; 2; 2; 2;                        (* IP src *)
     0; 0; 0; 0]                        (* IP dst *)
    ++ replicate 16 0 in                (* SPI, SN, IV *)
  let data := put_raw ENCAP_DST_IP_IDX_IP4 ip data in
  let data := put_be ENCAP_ESP_SPI_IDX_TUNNEL_IP4 (esp_spi rule) data in
  if sw_sn_inc then put_be ENCAP_ESP_SN_IDX_TUNNEL_IP4 (current_sn rule) data else data.

Definition create_ipv6_tunnel_encap (rule : encrypt_rule) (sw_sn_inc : bool) : list Z :=
  let '(ip0, ip1, ip2, ip3) := encap_dst rule in
  let data :=
    [170; 187; 204; 221; 238; 255;      (* mac_dst *)
     17; 34; 51; 68; 85; 102;           (* mac_src *)
     134; 221;                          (* mac_type *)
     96; 0; 0; 0;                       (* IP v6 *)
     0; 0; 50; 64]
    ++ replicate 16 2                   (* IP src *)
    ++ replicate 16 1                   (* IP dst *)
    ++ replicate 16 0 in                (* SPI, SN, IV *)
  let data := put_raw ENCAP_DST_IP_IDX_IP6 ip0 data in
  let data := put_raw (ENCAP_DST_IP_IDX_IP6 + 4) ip1 data in
  let data := put_raw (ENCAP_DST_IP_IDX_IP6 + 8) ip2 data in
  let data := put_raw (ENCAP_DST_IP_IDX_IP6 + 12) ip3 data in
  let data := put_be ENCAP_ESP_SPI_IDX_TUNNEL_IP6 (esp_spi rule) data in
  if sw_sn_inc then put_be ENCAP_ESP_SN_IDX_TUNNEL_IP6 (current_sn rule) data else data.

Section Gateway.
Context `{Dpdk}.

(** ** flow_common.c *)

Definition remove_trailing_zeros (m : rte_mbuf) : option rte_mbuf :=
  oh ← mtod_offset m 0 0;
  lens ← (if RTE_ETH_IS_IPV4_HDR (packet_type m) then
            vihl ← load_be m 0 (oh + sizeof_ether_hdr + ip4_version_ihl) 1;
            total_length ← load_be m 0 (oh + sizeof_ether_hdr + ip4_total_length) 2;
            Some (u32 (rte_ipv4_hdr_len vihl + sizeof_ether_hdr),
                  u32 (total_length - rte_ipv4_hdr_len vihl))
          else
            plen ← load_be m 0 (oh + sizeof_ether_hdr + ip6_payload_len) 2;
            Some (sizeof_ipv6_hdr + sizeof_ether_hdr, plen));
  let '(l2_l3_len, payload_len_l3) := lens in
  let payload_len := u32 (pkt_len m - l2_l3_len) in
  if 0 <? u32 (payload_len - payload_len_l3)
  then Some (rte_pktmbuf_trim m (u16 (u32 (payload_len - payload_len_l3))))
  else Some m.

(** The length of the Ethernet and IP headers, which four functions compute in
    the same way from the header at [oh]. *)
Definition l2_l3_length (m : rte_mbuf) (oh : Z) : option Z :=
  if RTE_ETH_IS_IPV4_HDR (packet_type m) then
    vihl ← load_be m 0 (oh + sizeof_ether_hdr + ip4_version_ihl) 1;
    Some (u32 (rte_ipv4_hdr_len vihl + sizeof_ether_hdr))
  else Some (sizeof_ipv6_hdr + sizeof_ether_hdr).

(** ** flow_encrypt.c *)

Definition ctx_result : Type := doca_error * rte_mbuf * ipsec_security_gw_core_ctx.

(** The trailer both modes write at [trailer_pointer] of segment [last_seg]. *)
Definition write_trailer (m : rte_mbuf) (last_seg : nat) (trailer_pointer padding_len next_proto : Z) :
    option rte_mbuf :=
  m ← store m last_seg trailer_pointer
        (take (Z.to_nat (Z.min padding_len (zlen esp_pad_bytes))) esp_pad_bytes);
  let esp_tail := trailer_pointer + padding_len in
  m ← store m last_seg (esp_tail + esp_pad_len) [u8 padding_len];
  store m last_seg (esp_tail + esp_next_proto) [u8 next_proto].

Definition prepare_packet_tunnel (m : rte_mbuf) (ctx : ipsec_security_gw_core_ctx) (rule_idx : Z) :
    option ctx_result :=
  rule ← rd (encrypt_rules ctx) rule_idx;
  let icv_len := enc_icv_length rule in
  let sw_sn_inc := sw_sn_inc_enable (config ctx) in
  let ip4 := bool_decide (encap_l3_type rule = DOCA_FLOW_L3_TYPE_IP4) in
  let reformat_encap_data_len := if ip4 then 50 else 70 in
  m ← remove_trailing_zeros m;
  let payload_len := u32 (pkt_len m - sizeof_ether_hdr) in
  let esp_len := u32 (reformat_encap_data_len - sizeof_ether_hdr) in
  let encrypted_len := RTE_ALIGN_CEIL (u32 (payload_len + sizeof_esp_tail)) PADDING_ALIGN in
  let padding_len := u32 (encrypted_len - payload_len) in
  let trailer_len := u32 (padding_len + icv_len) in
  match rte_pktmbuf_prepend m (u16 esp_len) with
  | None => Some (DOCA_ERROR_NO_MEMORY, m, ctx)
  | Some m =>
      nh ← mtod_offset m 0 0;
      let last_seg := rte_pktmbuf_lastseg m in
      padding_offset ← data_len_of m last_seg;
      m ← set_data_len m last_seg (padding_offset + trailer_len);
      let m := set_pkt_len m (u32 (pkt_len m + trailer_len)) in
      trailer_pointer ← mtod_offset m last_seg padding_offset;
      m ← (if ip4 then
             m ← store m 0 nh (create_ipv4_tunnel_encap rule sw_sn_inc);
             store m 0 (nh + sizeof_ether_hdr + ip4_total_length)
               (be_bytes 2 (u16 (pkt_len m - sizeof_ether_hdr)))
           else
             m ← store m 0 nh (create_ipv6_tunnel_encap rule sw_sn_inc);
             store m 0 (nh + sizeof_ether_hdr + ip6_payload_len)
               (be_bytes 2 (u16 (pkt_len m - sizeof_ether_hdr - sizeof_ipv6_hdr))));
      let padding_len := u32 (padding_len - sizeof_esp_tail) in
      let next_proto := if decide (enc_l3_type rule = DOCA_FLOW_L3_TYPE_IP4) then 4 else 41 in
      m ← write_trailer m last_seg trailer_pointer padding_len next_proto;
      ctx ← inc_current_sn ctx rule_idx;
      Some (DOCA_SUCCESS, m, ctx)
  end.

(** The block that sets the next protocol and the length of the IP header; the
    result has the old protocol. *)
Definition update_l3 (m : rte_mbuf) (nh protocol : Z) : option (rte_mbuf * Z) :=
  if RTE_ETH_IS_IPV4_HDR (packet_type m) then
    let ipv4 := nh + sizeof_ether_hdr in
    next_protocol ← load_be m 0 (ipv4 + ip4_next_proto_id) 1;
    m ← store m 0 (ipv4 + ip4_next_proto_id) [u8 protocol];
    m ← store m 0 (ipv4 + ip4_total_length) (be_bytes 2 (u16 (pkt_len m - sizeof_ether_hdr)));
    Some (m, next_protocol)
  else if RTE_ETH_IS_IPV6_HDR (packet_type m) then
    let ipv6 := nh + sizeof_ether_hdr in
    next_protocol ← load_be m 0 (ipv6 + ip6_proto) 1;
    m ← store m 0 (ipv6 + ip6_proto) [u8 protocol];
    m ← store m 0 (ipv6 + ip6_payload_len)
          (be_bytes 2 (u16 (pkt_len m - sizeof_ether_hdr - sizeof_ipv6_hdr)));
    Some (m, next_protocol)
  else Some (m, 0).

Definition prepare_packet_transport (m : rte_mbuf) (ctx : ipsec_security_gw_core_ctx) (rule_idx : Z)
    (udp_transport : bool) : option ctx_result :=
  rule ← rd (encrypt_rules ctx) rule_idx;
  let icv_len := enc_icv_length rule in
  let sw_sn_inc := sw_sn_inc_enable (config ctx) in
  let reformat_encap_data_len := if udp_transport then 24 else 16 in
  let protocol := if udp_transport then IPPROTO_UDP else IPPROTO_ESP in
  m ← remove_trailing_zeros m;
  oh ← mtod_offset m 0 0;
  l2_l3_len ← l2_l3_length m oh;
  let payload_len := u32 (pkt_len m - l2_l3_len) in
  let esp_len := reformat_encap_data_len in
  let encrypted_len := RTE_ALIGN_CEIL (u32 (payload_len + sizeof_esp_tail)) PADDING_ALIGN in
  let padding_len := u32 (encrypted_len - payload_len) in
  let trailer_len := u32 (padding_len + icv_len) in
  match rte_pktmbuf_prepend m (u16 esp_len) with
  | None => Some (DOCA_ERROR_NO_MEMORY, m, ctx)
  | Some m =>
      nh ← mtod_offset m 0 0;
      let last_seg := rte_pktmbuf_lastseg m in
      padding_offset ← data_len_of m last_seg;
      m ← set_data_len m last_seg (padding_offset + trailer_len);
      let m := set_pkt_len m (u32 (pkt_len m + trailer_len)) in
      trailer_pointer ← mtod_offset m last_seg padding_offset;
      headers ← load m 0 oh l2_l3_len;
      m ← store m 0 nh headers;
      m ← store m 0 (nh + l2_l3_len)
            (if udp_transport then create_udp_transport_encap rule sw_sn_inc
             else create_transport_encap rule sw_sn_inc);
      r ← update_l3 m nh protocol;
      let '(m, next_protocol) := r in
      let padding_len := u32 (padding_len - sizeof_esp_tail) in
      m ← write_trailer m last_seg trailer_pointer padding_len next_protocol;
      ctx ← inc_current_sn ctx rule_idx;
      Some (DOCA_SUCCESS, m, ctx)
  end.

Definition check_if_last_sn (ctx : ipsec_security_gw_core_ctx) (rule_idx : Z) : option doca_error :=
  if negb (sw_sn_inc_enable (config ctx)) then Some DOCA_SUCCESS
  else
    rule ← rd (encrypt_rules ctx) rule_idx;
    Some (if current_sn rule =? UINT32_MAX then DOCA_ERROR_NOT_PERMITTED else DOCA_SUCCESS).

(** One iteration of [handle_unsecured_packets_received]: is the packet
    processed ([true]) or added to the unprocessed ones. *)
Definition handle_unsecured_packet (m : rte_mbuf) (ctx : ipsec_security_gw_core_ctx) :
    option (bool * rte_mbuf * ipsec_security_gw_core_ctx) :=
  if negb rte_flow_dynf_metadata_avail then Some (false, m, ctx)
  else
    let meta_mask := u32 (Z.lor (2 ^ 31) (2 ^ 30) - 1) in
    let rule_idx := Z.land (metadata m) meta_mask in
    last_sn ← check_if_last_sn ctx rule_idx;
    if negb (bool_decide (last_sn = DOCA_SUCCESS)) then Some (false, m, ctx)
    else
      r ← match mode (config ctx) with
          | IPSEC_SECURITY_GW_TRANSPORT => prepare_packet_transport m ctx rule_idx false
          | IPSEC_SECURITY_GW_UDP_TRANSPORT => prepare_packet_transport m ctx rule_idx true
          | IPSEC_SECURITY_GW_TUNNEL => prepare_packet_tunnel m ctx rule_idx
          end;
      let '(result, m, ctx) := r in
      Some (bool_decide (result = DOCA_SUCCESS), m, ctx).

(** ** flow_decrypt.c *)

(** The loop of [mbuf_get_seg_ofs]; running off the chain is a NULL access. *)
Fixpoint seg_walk (ss : list seg) (i : nat) (offset : Z) : option (nat * Z) :=
  match ss with
  | [] => None
  | s :: ss' =>
      if data_len s <=? offset then seg_walk ss' (S i) (u32 (offset - data_len s))
      else Some (i, offset)
  end.

Definition mbuf_get_seg_ofs (m : rte_mbuf) (offset : Z) : option (doca_error + nat * Z) :=
  if pkt_len m <=? offset then Some (inl DOCA_ERROR_INVALID_VALUE)
  else inr <$> seg_walk (segs m) 0 offset.

(** The result is the edited packet and the error or [next_proto]. *)
Definition remove_packet_tail (m : rte_mbuf) (icv_len : Z) : option (rte_mbuf * (doca_error + Z)) :=
  m ← remove_trailing_zeros m;
  let trailer_len := u32 (icv_len + sizeof_esp_tail) in
  let esp_tail_offset := u32 (pkt_len m - trailer_len) in
  r ← mbuf_get_seg_ofs m esp_tail_offset;
  match r with
  | inl e => Some (m, inl e)
  | inr (ml, esp_tail_seg_offset) =>
      esp_tail ← mtod_offset m ml esp_tail_seg_offset;
      next_proto ← load_be m ml (esp_tail + esp_next_proto) 1;
      pad_len ← load_be m ml (esp_tail + esp_pad_len) 1;
      let trailer_len := u32 (trailer_len + pad_len) in
      let esp_tail_seg_offset := u32 (esp_tail_seg_offset - pad_len) in
      let m := set_pkt_len m (u32 (pkt_len m - trailer_len)) in
      m ← set_data_len m ml esp_tail_seg_offset;
      Some (m, inr next_proto)
  end.

Definition decap_packet_tunnel (m : rte_mbuf) (ctx : ipsec_security_gw_core_ctx) (rule_idx : Z) :
    option (doca_error * rte_mbuf) :=
  let iv_len := 8 in
  rule ← rd (decrypt_rules ctx) rule_idx;
  r ← remove_packet_tail m (dec_icv_length rule);
  let '(m, res) := r in
  match res with
  | inl e => Some (e, m)
  | inr proto =>
      l2_header ← mtod_offset m 0 0;
      l3_len ← (if RTE_ETH_IS_IPV4_HDR (packet_type m) then
                  vihl ← load_be m 0 (l2_header + sizeof_ether_hdr + ip4_version_ihl) 1;
                  Some (rte_ipv4_hdr_len vihl)
                else Some sizeof_ipv6_hdr);
      op ← mtod_offset m 0 0;
      match rte_pktmbuf_adj m (u16 (l3_len + sizeof_esp_hdr + iv_len)) with
      | None => Some (DOCA_ERROR_INVALID_VALUE, m)
      | Some m =>
          np ← mtod_offset m 0 0;
          m ← upd_buf m 0 (copy_back (Z.to_nat sizeof_ether_hdr) np op);
          l2_header ← mtod_offset m 0 0;
          m ← store m 0 (l2_header + ether_type_off)
                (be_bytes 2 (if proto =? IPPROTO_IPV6 then RTE_ETHER_TYPE_IPV6 else RTE_ETHER_TYPE_IPV4));
          Some (DOCA_SUCCESS, m)
      end
  end.

(** The block that aligns the IP length and the next protocol. *)
Definition restore_l3 (m : rte_mbuf) (l3_header proto : Z) : option rte_mbuf :=
  if RTE_ETH_IS_IPV4_HDR (packet_type m) then
    m ← store m 0 (l3_header + ip4_next_proto_id) [u8 proto];
    store m 0 (l3_header + ip4_total_length) (be_bytes 2 (u16 (pkt_len m - sizeof_ether_hdr)))
  else
    m ← store m 0 (l3_header + ip6_proto) [u8 proto];
    store m 0 (l3_header + ip6_payload_len)
      (be_bytes 2 (u16 (pkt_len m - sizeof_ether_hdr - sizeof_ipv6_hdr))).

Definition decap_packet_transport (m : rte_mbuf) (ctx : ipsec_security_gw_core_ctx) (rule_idx : Z)
    (udp_transport : bool) : option (doca_error * rte_mbuf) :=
  let iv_len := 8 in
  rule ← rd (decrypt_rules ctx) rule_idx;
  r ← remove_packet_tail m (dec_icv_length rule);
  let '(m, res) := r in
  match res with
  | inl e => Some (e, m)
  | inr proto =>
      l2_header ← mtod_offset m 0 0;
      let l3_header := l2_header + sizeof_ether_hdr in
      l2_l3_len ← l2_l3_length m l2_header;
      op ← mtod_offset m 0 0;
      match rte_pktmbuf_adj m
              (if negb udp_transport then sizeof_esp_hdr + iv_len
               else sizeof_esp_hdr + sizeof_udp_hdr + iv_len) with
      | None => Some (DOCA_ERROR_INVALID_VALUE, m)
      | Some m =>
          np ← mtod_offset m 0 0;
          m ← restore_l3 m l3_header proto;
          m ← upd_buf m 0 (copy_back (Z.to_nat l2_l3_len) np op);
          Some (DOCA_SUCCESS, m)
      end
  end.

Definition get_esp_sn (m : rte_mbuf) (md : ipsec_security_gw_mode) : option Z :=
  oh ← mtod_offset m 0 0;
  l2_l3_len ← l2_l3_length m oh;
  let l2_l3_len :=
    if decide (md = IPSEC_SECURITY_GW_UDP_TRANSPORT) then u32 (l2_l3_len + sizeof_udp_hdr)
    else l2_l3_len in
  esp_hdr ← mtod_offset m 0 l2_l3_len;
  load_be m 0 (esp_hdr + esp_seq) 4.

(** The anti-replay part of the loop body of [handle_secured_packets_received]. *)
Definition check_replay (m : rte_mbuf) (ctx : ipsec_security_gw_core_ctx) (rule_idx : Z) :
    option (bool * ipsec_security_gw_core_ctx) :=
  if sw_antireplay (config ctx) then
    sn ← get_esp_sn m (mode (config ctx));
    st ← rd (antireplay_states ctx) rule_idx;
    r ← anti_replay sn st;
    let '(drop, st') := r in
    ss ← wr (antireplay_states ctx) rule_idx st';
    Some (drop, set_antireplay ctx ss)
  else Some (false, ctx).

Definition handle_secured_packet (m : rte_mbuf) (ctx : ipsec_security_gw_core_ctx) :
    option (bool * rte_mbuf * ipsec_security_gw_core_ctx) :=
  if negb rte_flow_dynf_metadata_avail then Some (false, m, ctx)
  else
    let meta_mask := u32 (2 ^ 30 - 1) in
    let rule_idx := Z.land (metadata m) meta_mask in
    r ← check_replay m ctx rule_idx;
    let '(drop, ctx) := r in
    if (drop : bool) then Some (false, m, ctx)
    else
      r ← match mode (config ctx) with
          | IPSEC_SECURITY_GW_TRANSPORT => decap_packet_transport m ctx rule_idx false
          | IPSEC_SECURITY_GW_UDP_TRANSPORT => decap_packet_transport m ctx rule_idx true
          | IPSEC_SECURITY_GW_TUNNEL => decap_packet_tunnel m ctx rule_idx
          end;
      let '(result, m) := r in
      Some (bool_decide (result = DOCA_SUCCESS), m, ctx).

(** The loop both handlers share: the processed and the unprocessed packets in
    the order of arrival. *)
Fixpoint handle_packets
    (body : rte_mbuf -> ipsec_security_gw_core_ctx -> option (bool * rte_mbuf * ipsec_security_gw_core_ctx))
    (packets : list rte_mbuf) (ctx : ipsec_security_gw_core_ctx) :
    option (list rte_mbuf * list rte_mbuf * ipsec_security_gw_core_ctx) :=
  match packets with
  | [] => Some ([], [], ctx)
  | m :: ms =>
      r ← body m ctx;
      let '(ok, m', ctx') := r in
      r ← handle_packets body ms ctx';
      let '(processed, unprocessed, ctx'') := r in
      Some (if (ok : bool) then (m' :: processed, unprocessed, ctx'')
            else (processed, m' :: unprocessed, ctx''))
  end.

Definition handle_unsecured_packets_received := handle_packets handle_unsecured_packet.
Definition handle_secured_packets_received := handle_packets handle_secured_packet.

End Gateway.
