(* ===== verification/EspPacketSpec.v ===== *)
(** * What the two ends of the ESP software path promise each other

    [esp_frame] is the packet on the wire.  The theorems show that the sender
    builds exactly that frame around the caller's packet, that the receiver
    gives the caller's packet back from any such frame whatever the hardware put
    in the initialisation vector and the integrity check value and whatever
    Ethernet padding the wire added, that sequence numbers are never reused, and
    that a stream of packets crosses two gateways complete. *)

From S2P Require Import Prelude.
From S2P Require Import Pack.
From S2P Require Import AntiReplay.
From S2P Require Import Mbuf.
From S2P Require Import EspPacket.
#[local] Open Scope Z_scope.

(** ** IP headers *)

(** An IP header around its length and protocol fields. *)
Record ip_hdr := IpHdr { v4 : bool; h1 : list Z; h2 : list Z; h3 : list Z }.

Definition ip_bytes (x : ip_hdr) (len proto : Z) : list Z :=
  h1 x ++ be_bytes 2 len ++ h2 x ++ [proto] ++ h3 x.

Definition hdr_len (x : ip_hdr) : Z := zlen (h1 x) + 3 + zlen (h2 x) + zlen (h3 x).

(** IPv4 with the options its IHL announces, or the fixed header of IPv6. *)
Definition ip_hdr_ok (x : ip_hdr) : Prop :=
  if v4 x then
    (exists vihl tos, h1 x = [vihl; tos] /\ byte_ok vihl /\ hdr_len x = 4 * (vihl mod 16)) /\
    length (h2 x) = 5%nat /\ 20 <= hdr_len x
  else length (h1 x) = 4%nat /\ length (h2 x) = 0%nat /\ length (h3 x) = 33%nat.

(** The value of the length field for [n] bytes of payload. *)
Definition ip_len (x : ip_hdr) (n : Z) : Z := if v4 x then hdr_len x + n else n.

Definition len_off (x : ip_hdr) : Z := if v4 x then ip4_total_length else ip6_payload_len.
Definition proto_off (x : ip_hdr) : Z := if v4 x then ip4_next_proto_id else ip6_proto.

(** The complete IP packet, and the frame it arrives in. *)
Definition ip_packet (x : ip_hdr) (proto : Z) (payload : list Z) : list Z :=
  ip_bytes x (ip_len x (zlen payload)) proto ++ payload.

(** ** ESP frames *)

Definition pad_len (n : Z) : Z := (- (n + 2)) mod 4.

Definition esp_trailer (n proto : Z) (icv : list Z) : list Z :=
  take (Z.to_nat (pad_len n)) esp_pad_bytes ++ [pad_len n; proto] ++ icv.

(** RFC 3948's UDP header as the code builds it. *)
Definition udp_hdr : list Z := [48; 57; 17; 148; 0; 164; 0; 0].

Definition esp_hdr (udp : bool) (spi sn : Z) (iv : list Z) : list Z :=
  (if udp then udp_hdr else []) ++ be_bytes 4 spi ++ be_bytes 4 sn ++ iv.

Definition esp_body (udp : bool) (spi sn : Z) (iv payload : list Z) (proto : Z) (icv : list Z) : list Z :=
  esp_hdr udp spi sn iv ++ payload ++ esp_trailer (zlen payload) proto icv.

(** The frame with the Ethernet header [eth] and the IP header [x]. *)
Definition esp_frame (udp : bool) (eth : list Z) (x : ip_hdr) (spi sn : Z)
    (iv payload : list Z) (proto : Z) (icv : list Z) : list Z :=
  eth ++ ip_packet x (if udp then IPPROTO_UDP else IPPROTO_ESP)
           (esp_body udp spi sn iv payload proto icv).

(** ** Arithmetic of the frame *)

Lemma pad_len_range n : 0 <= pad_len n < 4.
Proof. unfold pad_len. apply Z.mod_pos_bound. lia. Qed.

Lemma pad_len_align n : (n + pad_len n + 2) mod 4 = 0.
Proof. unfold pad_len. Z.div_mod_to_equations. lia. Qed.

Lemma length_pad n : zlen (take (Z.to_nat (pad_len n)) esp_pad_bytes) = pad_len n.
Proof. pose proof (pad_len_range n). rewrite length_take. simpl. lia. Qed.

Lemma length_trailer n p icv : zlen (esp_trailer n p icv) = pad_len n + 2 + zlen icv.
Proof. unfold esp_trailer. pose proof (length_pad n). len. Qed.

Lemma length_ip_hdr x len proto : zlen (ip_bytes x len proto) = hdr_len x.
Proof. unfold ip_bytes, hdr_len. len. Qed.

Lemma ip_hdr_ok_len x : ip_hdr_ok x -> 20 <= hdr_len x <= 60.
Proof.
  unfold ip_hdr_ok. destruct (v4 x).
  - intros ((vihl & tos & _ & _ & ->) & _ & ?). Z.div_mod_to_equations. lia.
  - unfold hdr_len. lia.
Qed.

Definition esp_hdr_len (udp : bool) : Z := if udp then 24 else 16.

Lemma length_esp_hdr udp spi sn iv : length iv = 8%nat -> zlen (esp_hdr udp spi sn iv) = esp_hdr_len udp.
Proof. intros. unfold esp_hdr. destruct udp; simpl; len. Qed.

Lemma length_esp_body udp spi sn iv pl p icv :
  length iv = 8%nat ->
  zlen (esp_body udp spi sn iv pl p icv) = esp_hdr_len udp + zlen pl + pad_len (zlen pl) + 2 + zlen icv.
Proof.
  intros Hiv. unfold esp_body. pose proof (length_esp_hdr udp spi sn iv Hiv).
  pose proof (length_trailer (zlen pl) p icv). len.
Qed.

Lemma align_pad `{DpdkLaws} n :
  0 <= n -> n < 2 ^ 31 -> RTE_ALIGN_CEIL (u32 (n + 2)) 4 = n + pad_len n + 2.
Proof.
  intros Hn Hlt. change (2 ^ 31) with 2147483648 in Hlt.
  rewrite wrap_small by (change (2 ^ 32) with 4294967296; lia).
  change 4 with (2 ^ 2). rewrite align_ceil_ok; [|lia|lia|change (2 ^ 32) with 4294967296; simpl; lia].
  change (2 ^ 2) with 4. unfold pad_len. Z.div_mod_to_equations. lia.
Qed.

(** ** The encapsulation headers as byte strings *)

Definition sn_field (inc : bool) (sn : Z) : Z := if inc then sn else 0.

Definition z4 : list Z := [0; 0; 0; 0].

Lemma put_be_bytes v : [GET_BYTE v 3; GET_BYTE v 2; GET_BYTE v 1; GET_BYTE v 0] = be_bytes 4 v.
Proof. rewrite !GET_BYTE_be by lia. done. Qed.

Lemma put_be_at a old c l v i :
  l = a ++ old ++ c -> i = length a -> length old = 4%nat -> put_be i v l = a ++ be_bytes 4 v ++ c.
Proof.
  destruct old as [|? [|? [|? [|? [|]]]]]; intros -> -> Hl; try done. cbn [app]. unfold put_be. rewrite <- put_be_bytes.
  rewrite <- (Nat.add_0_r (length a)) at 4. rewrite !insert_app_r. done.
Qed.

Definition raw_bytes (v : Z) : list Z := [GET_BYTE v 0; GET_BYTE v 1; GET_BYTE v 2; GET_BYTE v 3].

Lemma put_raw_at a old c l v i :
  l = a ++ old ++ c -> i = length a -> length old = 4%nat -> put_raw i v l = a ++ raw_bytes v ++ c.
Proof.
  destruct old as [|? [|? [|? [|? [|]]]]]; intros -> -> Hl; try done. cbn [app]. unfold put_raw, raw_bytes.
  rewrite <- (Nat.add_0_r (length a)) at 4. rewrite !insert_app_r. done.
Qed.

Lemma transport_encap_bytes rule inc :
  create_transport_encap rule inc =
  esp_hdr false (esp_spi rule) (sn_field inc (current_sn rule)) (replicate 8 0).
Proof.
  unfold create_transport_encap, esp_hdr. cbv zeta.
  rewrite (put_be_at [] z4 (replicate 12 0) (replicate 16 0)) by reflexivity. destruct inc; cbn [sn_field]; [|reflexivity].
  by rewrite (put_be_at (be_bytes 4 (esp_spi rule)) z4 (replicate 8 0)) by reflexivity.
Qed.

Lemma udp_encap_bytes rule inc :
  create_udp_transport_encap rule inc =
  esp_hdr true (esp_spi rule) (sn_field inc (current_sn rule)) (replicate 8 0).
Proof.
  unfold create_udp_transport_encap, esp_hdr. cbv zeta.
  rewrite (put_be_at [48; 57; 0; 0; 0; 164; 0; 0] z4 (replicate 12 0) ([48; 57; 0; 0; 0; 164; 0; 0] ++ replicate 16 0)) by reflexivity.
  change (GET_BYTE 4500 1) with 17. change (GET_BYTE 4500 0) with 148.
  destruct inc; cbn [sn_field]; [|reflexivity].
  by rewrite (put_be_at (udp_hdr ++ be_bytes 4 (esp_spi rule)) z4 (replicate 8 0)) by reflexivity.
Qed.

(** The outer headers of tunnel mode. *)
Definition tunnel_eth (ip4 : bool) : list Z :=
  [170; 187; 204; 221; 238; 255; 17; 34; 51; 68; 85; 102] ++ (if ip4 then [8; 0] else [134; 221]).

Definition outer_ip4 (rule : encrypt_rule) : ip_hdr :=
  IpHdr true [69; 0] [0; 0; 0; 0; 0] ([0; 0; 2; 2; 2; 2] ++ raw_bytes (encap_dst rule).1.1.1).

Definition outer_ip6 (rule : encrypt_rule) : ip_hdr :=
  IpHdr false [96; 0; 0; 0] []
    (64 :: replicate 16 2 ++ raw_bytes (encap_dst rule).1.1.1 ++ raw_bytes (encap_dst rule).1.1.2
       ++ raw_bytes (encap_dst rule).1.2 ++ raw_bytes (encap_dst rule).2).

Definition outer_ip (rule : encrypt_rule) : ip_hdr :=
  if decide (encap_l3_type rule = DOCA_FLOW_L3_TYPE_IP4) then outer_ip4 rule else outer_ip6 rule.

Lemma ipv4_tunnel_encap_bytes rule inc :
  create_ipv4_tunnel_encap rule inc =
  tunnel_eth true ++ ip_bytes (outer_ip4 rule) 0 IPPROTO_ESP
    ++ esp_hdr false (esp_spi rule) (sn_field inc (current_sn rule)) (replicate 8 0).
Proof.
  unfold create_ipv4_tunnel_encap, outer_ip4, esp_hdr. destruct (encap_dst rule) as [[[ip ?] ?] ?].
  cbv zeta. cbn [fst snd].
  set (hd := tunnel_eth true ++ [69; 0; 0; 0; 0; 0; 0; 0; 0; 50; 0; 0; 2; 2; 2; 2]).
  match goal with |- context [put_raw _ ip ?l] => set (l0 := l) end.
  rewrite (put_raw_at hd z4 (replicate 16 0) l0 ip) by reflexivity.
  rewrite (put_be_at (hd ++ raw_bytes ip) z4 (replicate 12 0) (hd ++ raw_bytes ip ++ replicate 16 0))
    by reflexivity.
  destruct inc; cbn [sn_field]; [|reflexivity].
  rewrite (put_be_at (hd ++ raw_bytes ip ++ be_bytes 4 (esp_spi rule)) z4 (replicate 8 0)) by reflexivity.
  reflexivity.
Qed.

Lemma ipv6_tunnel_encap_bytes rule inc :
  create_ipv6_tunnel_encap rule inc =
  tunnel_eth false ++ ip_bytes (outer_ip6 rule) 0 IPPROTO_ESP
    ++ esp_hdr false (esp_spi rule) (sn_field inc (current_sn rule)) (replicate 8 0).
Proof.
  unfold create_ipv6_tunnel_encap, outer_ip6, esp_hdr.
  destruct (encap_dst rule) as [[[a b] c] d]. cbv zeta. cbn [fst snd].
  set (hd := tunnel_eth false ++ [96; 0; 0; 0; 0; 0; 50; 64] ++ replicate 16 2).
  match goal with |- context [put_raw _ a ?l] => set (l0 := l) end.
  rewrite (put_raw_at hd (replicate 4 1) (replicate 12 1 ++ replicate 16 0) l0 a) by reflexivity.
  rewrite (put_raw_at (hd ++ raw_bytes a) (replicate 4 1) (replicate 8 1 ++ replicate 16 0)
             (hd ++ raw_bytes a ++ replicate 12 1 ++ replicate 16 0) b) by reflexivity.
  rewrite (put_raw_at (hd ++ raw_bytes a ++ raw_bytes b) (replicate 4 1) (replicate 4 1 ++ replicate 16 0)
             ((hd ++ raw_bytes a) ++ raw_bytes b ++ replicate 8 1 ++ replicate 16 0) c) by reflexivity.
  rewrite (put_raw_at (hd ++ raw_bytes a ++ raw_bytes b ++ raw_bytes c) (replicate 4 1) (replicate 16 0)
             ((hd ++ raw_bytes a ++ raw_bytes b) ++ raw_bytes c ++ replicate 4 1 ++ replicate 16 0) d)
    by reflexivity.
  set (hd2 := hd ++ raw_bytes a ++ raw_bytes b ++ raw_bytes c ++ raw_bytes d).
  rewrite (put_be_at hd2 z4 (replicate 12 0)
             ((hd ++ raw_bytes a ++ raw_bytes b ++ raw_bytes c) ++ raw_bytes d ++ replicate 16 0))
    by reflexivity.
  destruct inc; cbn [sn_field]; [|reflexivity].
  rewrite (put_be_at (hd2 ++ be_bytes 4 (esp_spi rule)) z4 (replicate 8 0)) by reflexivity.
  reflexivity.
Qed.

Lemma outer_ip4_ok rule : ip_hdr_ok (outer_ip4 rule).
Proof.
  unfold ip_hdr_ok, outer_ip4, hdr_len. simpl. split; [|done].
  exists 69, 0. split; [done|]. split; [split; done | done].
Qed.

Lemma outer_ip6_ok rule : ip_hdr_ok (outer_ip6 rule).
Proof. done. Qed.

(** ** Access to the IP header of a packet *)

Lemma be_value1 b : be_value [b] = b.
Proof. simpl. lia. Qed.

Lemma be_value2 n : 0 <= n < 65536 -> be_value (be_bytes 2 n) = n.
Proof. intros. rewrite be_value_bytes. apply Z.mod_small. simpl. lia. Qed.

Lemma be_value4 n : in_u 32 n -> be_value (be_bytes 4 n) = n.
Proof. intros. rewrite be_value_bytes. by apply Z.mod_small. Qed.

(** Remove the wrap-arounds that the bounds exclude, innermost first. *)
Ltac nowrap :=
  repeat match goal with
         | |- context [wrap ?w ?e] =>
             lazymatch e with
             | context [wrap _ _] => fail
             | _ => rewrite (wrap_small w e)
                      by (let v := eval vm_compute in (2 ^ w) in change (2 ^ w) with v; lia)
             end
         end.

(** Reassociate appends to put a piece in the middle. *)
Ltac lassoc := rewrite <- ?app_assoc; cbn [app]; rewrite <- ?app_assoc; cbn [app]; reflexivity.

Section IpAccess.
Context (m : rte_mbuf) (pre eth : list Z) (x : ip_hdr) (len proto : Z) (rest : list Z) (r : room).
Context (HP : pkt m (pre ++ eth ++ ip_bytes x len proto ++ rest) r).
Context (Heth : length eth = 14%nat) (Hx : ip_hdr_ok x).
Context (Hf : zlen pre + 14 + hdr_len x <= first r).

Lemma len_off_h1 : len_off x = zlen (h1 x).
Proof.
  unfold len_off, ip_hdr_ok in *. destruct (v4 x).
  - destruct Hx as ((? & ? & -> & _) & _). done.
  - destruct Hx as (-> & _). done.
Qed.

Lemma proto_off_h2 : proto_off x = zlen (h1 x) + 2 + zlen (h2 x).
Proof.
  unfold proto_off, ip_hdr_ok in *. destruct (v4 x).
  - destruct Hx as ((? & ? & -> & _) & -> & _). done.
  - destruct Hx as (-> & -> & _). done.
Qed.

Lemma ip_load_len o :
  0 <= len < 65536 -> o = head r + zlen pre + 14 + len_off x -> load_be m 0 o 2 = Some len.
Proof.
  intros Hl ->. unfold load_be.
  erewrite (pkt_load0 _ _ _ HP (pre ++ eth ++ h1 x) (be_bytes 2 len) (h2 x ++ [proto] ++ h3 x ++ rest));
    unfold ip_bytes, hdr_len in *; rewrite ?len_off_h1.
  - cbn [fmap option_fmap option_map]. by rewrite be_value2.
  - lassoc.
  - len.
  - len.
  - done.
Qed.

Lemma ip_load_proto o :
  o = head r + zlen pre + 14 + proto_off x -> load_be m 0 o 1 = Some proto.
Proof.
  intros ->. unfold load_be.
  erewrite (pkt_load0 _ _ _ HP (pre ++ eth ++ h1 x ++ be_bytes 2 len ++ h2 x) [proto] (h3 x ++ rest));
    unfold ip_bytes, hdr_len in *; rewrite ?proto_off_h2.
  - simpl. f_equal. lia.
  - lassoc.
  - len.
  - len.
  - done.
Qed.

Lemma ip_store_len o n :
  o = head r + zlen pre + 14 + len_off x ->
  exists m', store m 0 o (be_bytes 2 n) = Some m' /\
    pkt m' (pre ++ eth ++ ip_bytes x n proto ++ rest) r /\ same_meta m m'.
Proof.
  intros ->.
  destruct (pkt_store0 _ _ _ HP (pre ++ eth ++ h1 x) (be_bytes 2 len) (be_bytes 2 n)
              (h2 x ++ [proto] ++ h3 x ++ rest) (head r + zlen pre + 14 + len_off x)) as (m' & E & HP' & HM).
  - unfold ip_bytes. lassoc.
  - len.
  - unfold hdr_len in *. len.
  - rewrite len_off_h1. len.
  - exists m'. split; [done|]. split; [|done]. eapply pkt_eq; [exact HP'| unfold ip_bytes; lassoc | done].
Qed.

Lemma ip_store_proto o p :
  o = head r + zlen pre + 14 + proto_off x ->
  exists m', store m 0 o [p] = Some m' /\
    pkt m' (pre ++ eth ++ ip_bytes x len p ++ rest) r /\ same_meta m m'.
Proof.
  intros ->.
  destruct (pkt_store0 _ _ _ HP (pre ++ eth ++ h1 x ++ be_bytes 2 len ++ h2 x) [proto] [p]
              (h3 x ++ rest) (head r + zlen pre + 14 + proto_off x)) as (m' & E & HP' & HM).
  - unfold ip_bytes. lassoc.
  - len.
  - unfold hdr_len in *. len.
  - rewrite proto_off_h2. len.
  - exists m'. split; [done|]. split; [|done]. eapply pkt_eq; [exact HP'| unfold ip_bytes; lassoc | done].
Qed.

Lemma ip_load_ihl `{DpdkLaws} o :
  v4 x = true -> o = head r + zlen pre + 14 ->
  exists b, load_be m 0 o 1 = Some b /\ rte_ipv4_hdr_len b = hdr_len x.
Proof.
  intros Hv ->. unfold ip_hdr_ok in Hx. rewrite Hv in Hx.
  destruct Hx as ((b & tos & Hh1 & Hb & Hl) & _). exists b.
  rewrite ipv4_hdr_len_ok by done. split; [|done]. unfold load_be.
  erewrite (pkt_load0 _ _ _ HP (pre ++ eth) [b] (tos :: be_bytes 2 len ++ h2 x ++ [proto] ++ h3 x ++ rest));
    unfold ip_bytes, hdr_len in *; rewrite Hh1 in *.
  - simpl. f_equal. lia.
  - lassoc.
  - len.
  - len.
  - done.
Qed.

Lemma ip_l2_l3_length `{DpdkLaws} :
  RTE_ETH_IS_IPV4_HDR (packet_type m) = v4 x ->
  l2_l3_length m (head r + zlen pre) = Some (14 + hdr_len x).
Proof.
  intros Hv. pose proof (ip_hdr_ok_len x Hx). unfold l2_l3_length. rewrite Hv.
  destruct (v4 x) eqn:E.
  - destruct (ip_load_ihl (head r + zlen pre + sizeof_ether_hdr + ip4_version_ihl) E) as (b & -> & Hb).
    { unfold sizeof_ether_hdr, ip4_version_ihl. lia. }
    obind. rewrite Hb, wrap_small; [f_equal; unfold sizeof_ether_hdr; lia|].
    change (2 ^ 32) with 4294967296. unfold sizeof_ether_hdr. lia.
  - unfold ip_hdr_ok, hdr_len in *. rewrite E in Hx. f_equal.
    unfold sizeof_ether_hdr, sizeof_ipv6_hdr. lia.
Qed.

End IpAccess.

(** ** Removing the Ethernet padding *)

Definition shrunk (r : room) (k : Z) : room :=
  Room (one r) (head r) (if one r then first r - k else first r) (last r - k) (tail r + k).

Lemma shrunk_0 r : shrunk r 0 = r.
Proof. destruct r as [[] ? ? ? ?]; unfold shrunk; simpl; f_equal; lia. Qed.

Section Trim.
Context `{DpdkLaws}.
Context (m : rte_mbuf) (eth : list Z) (x : ip_hdr) (proto : Z) (pl z : list Z) (r : room).
Context (HP : pkt m (eth ++ ip_packet x proto pl ++ z) r).
Context (Heth : length eth = 14%nat) (Hx : ip_hdr_ok x).
Context (Hlen : hdr_len x + zlen pl < 65536).
Context (Hf : 14 + hdr_len x <= first r) (Hz : zlen z <= last r).
Context (Hv : RTE_ETH_IS_IPV4_HDR (packet_type m) = v4 x).

Lemma remove_trailing_zeros_ok :
  exists m', remove_trailing_zeros m = Some m' /\ same_meta m m' /\
    pkt m' (eth ++ ip_packet x proto pl) (shrunk r (zlen z)).
Proof.
  pose proof (pkt_bounds _ _ _ HP) as (_ & _ & _ & _ & Hlt & Hpl & _).
  pose proof (ip_hdr_ok_len x Hx) as Hh.
  assert (HP2 : pkt m ([] ++ eth ++ ip_bytes x (ip_len x (zlen pl)) proto ++ pl ++ z) r).
  { eapply pkt_eq; [exact HP | unfold ip_packet; lassoc | done]. }
  assert (Hlens : zlen (eth ++ ip_packet x proto pl ++ z) = 14 + hdr_len x + zlen pl + zlen z).
  { unfold ip_packet. pose proof (length_ip_hdr x (ip_len x (zlen pl)) proto). len. }
  assert (Hl3 : load_be m 0 (head r + 0 + sizeof_ether_hdr + len_off x) 2 = Some (ip_len x (zlen pl))).
  { eapply (ip_load_len _ _ _ _ _ _ _ _ HP2); [done|done|simpl; lia| | unfold sizeof_ether_hdr; simpl; lia].
    unfold ip_len. destruct (v4 x); lia. }
  assert (E : forall e, e = zlen z ->
    exists m', (if 0 <? e then Some (rte_pktmbuf_trim m (u16 e)) else Some m) = Some m' /\
      same_meta m m' /\ pkt m' (eth ++ ip_packet x proto pl) (shrunk r (zlen z))).
  { intros e ->. destruct (Z.ltb_spec 0 (zlen z)).
    - rewrite wrap_small by (change (2 ^ 16) with 65536; lia). eexists. split; [done|].
      apply (pkt_trim _ _ _ HP _ z); [by rewrite <- app_assoc | done | done].
    - assert (z = []) as Ez by (destruct z; [done | simpl in *; lia]).
      eexists. split; [done|]. split; [done|]. rewrite Ez, app_nil_r in HP.
      eapply pkt_eq; [exact HP | done | by rewrite Ez, shrunk_0]. }
  unfold remove_trailing_zeros. rewrite (pkt_mtod0 _ _ _ HP). obind. rewrite Hv.
  unfold len_off, ip_len in Hl3. destruct (v4 x) eqn:Ex.
  - destruct (ip_load_ihl _ _ _ _ _ _ _ _ HP2 Heth Hx ltac:(simpl; lia)
      (head r + 0 + sizeof_ether_hdr + ip4_version_ihl) Ex) as (b & -> & Hb).
    { unfold sizeof_ether_hdr, ip4_version_ihl. simpl. lia. }
    obind. rewrite Hl3. obind. rewrite Hb. apply E.
    unfold sizeof_ether_hdr. rewrite Hpl, Hlens. nowrap. lia.
  - rewrite Hl3. obind. apply E. unfold sizeof_ether_hdr, sizeof_ipv6_hdr. rewrite Hpl, Hlens.
    assert (hdr_len x = 40) by (unfold ip_hdr_ok, hdr_len in *; rewrite Ex in Hx; lia).
    nowrap. lia.
Qed.
End Trim.

(** ** The trailer *)

Lemma mtod_add m i o : mtod_offset m i o = (fun q => q + o) <$> mtod_offset m i 0.
Proof. unfold mtod_offset. destruct (segs m !! i); obind; [|done]. simpl. f_equal. lia. Qed.

Section Trailer.
Context `{DpdkLaws}.

Lemma store_last_at m d r a old bs c q p :
  pkt m d r -> mtod_offset m (rte_pktmbuf_lastseg m) 0 = Some q ->
  d = a ++ old ++ c -> length old = length bs -> zlen d - last r <= zlen a ->
  p = q + (zlen a - (zlen d - last r)) ->
  exists m', store m (rte_pktmbuf_lastseg m) p bs = Some m' /\ pkt m' (a ++ bs ++ c) r /\ same_shape m m'.
Proof.
  intros HP Hq Hd Hl Ha ->.
  destruct (pkt_store_last _ _ _ HP a old bs c _ Hd Hl Ha eq_refl) as (p & m' & Hp & Hs & HP' & _).
  rewrite mtod_add, Hq in Hp. injection Hp as <-. exists m'. split; [done|].
  split; [done|]. by eapply upd_buf_shape.
Qed.

(** The three stores, at a place of the last segment. *)
Lemma write_trailer_ok m r a old icv n np q p :
  pkt m (a ++ old ++ icv) r -> mtod_offset m (rte_pktmbuf_lastseg m) 0 = Some q ->
  zlen old = pad_len n + 2 -> in_u 8 np ->
  zlen (a ++ old ++ icv) - last r <= zlen a ->
  p = q + (zlen a - (zlen (a ++ old ++ icv) - last r)) ->
  exists m', write_trailer m (rte_pktmbuf_lastseg m) p (pad_len n) np = Some m' /\
    pkt m' (a ++ esp_trailer n np icv) r /\ same_shape m m'.
Proof.
  intros HP Hq Hold Hnp Ha Hp. pose proof (pad_len_range n) as Hn. pose proof (length_pad n) as Hpad.
  destruct (split_at old (pad_len n)) as (o1 & o23 & -> & Ho1); [lia|].
  destruct o23 as [|o2 [|o3 [|]]]; [len..| |len].
  set (pad := take (Z.to_nat (pad_len n)) esp_pad_bytes) in *.
  destruct (store_last_at _ _ _ a o1 pad ([o2; o3] ++ icv) q p HP Hq) as (m1 & E1 & HP1 & HS1);
    [lassoc | lia | done | done |].
  pose proof (same_shape_lastseg _ _ _ _ _ _ HP HP1 HS1) as L1.
  destruct (store_last_at _ _ _ (a ++ pad) [o2] [pad_len n] (o3 :: icv) q (p + pad_len n) HP1)
    as (m2 & E2 & HP2 & HS2).
  { destruct HS1 as (_ & _ & _ & HS1). by rewrite L1, HS1. }
  { lassoc. } { done. } { len. } { subst p. len. }
  pose proof (same_shape_lastseg _ _ _ _ _ _ HP1 HP2 HS2) as L2.
  destruct (store_last_at _ _ _ (a ++ pad ++ [pad_len n]) [o3] [np] icv q (p + pad_len n + 1) HP2)
    as (m3 & E3 & HP3 & HS3).
  { destruct HS1 as (_ & _ & _ & HS1), HS2 as (_ & _ & _ & HS2). by rewrite L2, L1, HS2, HS1. }
  { lassoc. } { done. } { len. } { subst p. len. }
  exists m3. split; [|split].
  - unfold write_trailer. replace (Z.min (pad_len n) (zlen esp_pad_bytes)) with (pad_len n) by (simpl; lia).
    fold pad. rewrite E1. obind. unfold esp_pad_len, esp_next_proto. rewrite Z.add_0_r.
    rewrite (wrap_small 8 (pad_len n)) by (change (2 ^ 8) with 256; lia). rewrite (wrap_id 8 np) by done.
    rewrite <- L1, E2. obind. by rewrite <- L2, E3.
  - eapply pkt_eq; [exact HP3 | unfold esp_trailer; fold pad; lassoc | done].
  - eauto using same_shape_trans.
Qed.

End Trailer.

(** ** Making room for the new header and the trailer *)

Definition grown (r : room) (k t : Z) : room :=
  Room (one r) (head r - k) (first r + k + (if one r then t else 0))
    (last r + (if one r then k else 0) + t) (tail r - t).

Section MakeRoom.
Context `{DpdkLaws}.

Lemma pkt_last_ptr m d r :
  pkt m d r -> exists q, mtod_offset m (rte_pktmbuf_lastseg m) 0 = Some q /\
    data_len_of m (rte_pktmbuf_lastseg m) = Some (last r).
Proof.
  intros HP. destruct (pkt_last_seg m d r HP) as (s1 & D & y & pre & post & Hs & Hy & _ & _ & -> & _).
  exists (zlen pre + 0). split; [by eapply mtod_seg|].
  unfold data_len_of. rewrite Hs, list_lookup_middle by done. simpl. by rewrite Hy.
Qed.

Lemma make_room m d r k t :
  pkt m d r -> 0 <= k <= head r -> 0 <= t <= tail r -> zlen d + k + t < 65536 ->
  exists m1 m2 junk junk2 q po,
    rte_pktmbuf_prepend m k = Some m1 /\ mtod_offset m1 0 0 = Some (head r - k) /\
    data_len_of m1 (rte_pktmbuf_lastseg m1) = Some po /\
    set_data_len m1 (rte_pktmbuf_lastseg m1) (po + t) = Some m2 /\
    let m3 := set_pkt_len m2 (u32 (pkt_len m2 + t)) in
    pkt m3 (junk ++ d ++ junk2) (grown r k t) /\ same_meta m m3 /\
    rte_pktmbuf_lastseg m3 = rte_pktmbuf_lastseg m1 /\
    mtod_offset m3 (rte_pktmbuf_lastseg m3) 0 = Some q /\ zlen junk = k /\ zlen junk2 = t /\
    po = last (grown r k t) - t.
Proof.
  intros HP Hk Ht Hlt.
  destruct (pkt_prepend _ _ _ HP k) as (m1 & junk & E1 & Hj & HM1 & HP1); [lia|lia|].
  destruct (pkt_grow _ _ _ HP1 t) as (m2 & junk2 & E2 & Hj2 & HM2 & Hl2 & HL2 & HP2); [simpl; lia|len|].
  destruct (pkt_last_ptr _ _ _ HP1) as (_ & _ & Hpo).
  pose proof (pkt_bounds _ _ _ HP) as (_ & _ & _ & _ & _ & Hpl & _).
  assert (Em3 : set_pkt_len m2 (u32 (pkt_len m2 + t)) = set_pkt_len m2 (zlen (junk ++ d) + t)).
  { rewrite Hl2. rewrite wrap_small; [done|]. change (2 ^ 32) with 4294967296. len. }
  rewrite <- Em3 in HP2.
  destruct (pkt_last_ptr _ _ _ HP2) as (q & Hq & _).
  exists m1, m2, junk, junk2, q, (if one r then last r + k else last r).
  split; [done|]. split; [by rewrite (pkt_mtod0 _ _ _ HP1); simpl; rewrite Z.add_0_r|].
  split; [exact Hpo|]. split; [exact E2|]. cbv zeta.
  split. { eapply pkt_eq; [exact HP2 | lassoc |]. unfold grown. simpl. destruct (one r); f_equal; lia. }
  split; [by eapply same_meta_trans|].
  split. { rewrite (pkt_lastseg _ _ _ HP2), (pkt_lastseg _ _ _ HP1). simpl.
    revert E2. unfold set_data_len. destruct (segs m1 !! _); obind; [|intros; congruence].
    intros [= <-]. simpl. by rewrite length_insert. }
  split; [exact Hq|]. split; [done|]. split; [done|]. unfold grown. simpl. destruct (one r); lia.
Qed.

End MakeRoom.

(** ** The sender *)

Definition bump (ctx : ipsec_security_gw_core_ctx) (i : Z) (rule : encrypt_rule) :=
  set_encrypt_rules ctx (<[Z.to_nat i := set_sn rule (u32 (current_sn rule + 1))]> (encrypt_rules ctx)).

Lemma inc_current_sn_ok ctx i rule :
  rd (encrypt_rules ctx) i = Some rule -> inc_current_sn ctx i = Some (bump ctx i rule).
Proof.
  intros Hr. unfold inc_current_sn. rewrite Hr. obind.
  rewrite wr_Some by (by eapply rd_range). done.
Qed.

Section Transport.
Context `{DpdkLaws}.

Lemma update_l3_ok m eth x len proto body r protocol :
  pkt m (eth ++ ip_bytes x len proto ++ body) r -> length eth = 14%nat -> ip_hdr_ok x ->
  14 + hdr_len x <= first r -> hdr_len x + zlen body < 65536 -> in_u 8 protocol ->
  RTE_ETH_IS_IPV4_HDR (packet_type m) = v4 x ->
  (v4 x = false -> RTE_ETH_IS_IPV6_HDR (packet_type m) = true) ->
  exists m', update_l3 m (head r) protocol = Some (m', proto) /\
    pkt m' (eth ++ ip_packet x protocol body) r /\ same_shape m m'.
Proof.
  intros HP Heth Hx Hf Hlen Hp Hv Hv6.
  assert (HP0 : pkt m ([] ++ eth ++ ip_bytes x len proto ++ body) r) by exact HP.
  destruct (ip_store_proto _ _ _ _ _ _ _ _ HP0 Heth Hx ltac:(simpl; lia)
              (head r + sizeof_ether_hdr + proto_off x) protocol) as (m1 & E1 & HP1 & _).
  { unfold sizeof_ether_hdr. simpl. lia. }
  destruct (ip_store_len _ _ _ _ _ _ _ _ HP1 Heth Hx ltac:(simpl; lia)
              (head r + sizeof_ether_hdr + len_off x) (ip_len x (zlen body))) as (m2 & E2 & HP2 & _).
  { unfold sizeof_ether_hdr. simpl. lia. }
  pose proof (ip_load_proto _ _ _ _ _ _ _ _ HP0 Heth Hx ltac:(simpl; lia)
              (head r + sizeof_ether_hdr + proto_off x) ltac:(unfold sizeof_ether_hdr; simpl; lia)) as El.
  exists m2. split; [|split; [exact HP2 | eapply same_shape_trans; eapply upd_buf_shape; eassumption]].
  assert (Hl : pkt_len m1 = 14 + hdr_len x + zlen body).
  { pose proof (pkt_bounds _ _ _ HP1) as (_ & _ & _ & _ & _ & -> & _).
    pose proof (length_ip_hdr x len protocol). len. }
  pose proof (ip_hdr_ok_len x Hx). unfold update_l3. rewrite Hv.
  unfold len_off, proto_off, ip_len in *. destruct (v4 x) eqn:Ex.
  - rewrite El. obind. rewrite (wrap_id 8) by done. rewrite E1. obind.
    rewrite Hl. unfold sizeof_ether_hdr in *. nowrap.
    replace (14 + hdr_len x + zlen body - 14) with (hdr_len x + zlen body) by lia. by rewrite E2.
  - rewrite Hv6 by done. rewrite El. obind. rewrite (wrap_id 8) by done. rewrite E1. obind.
    assert (hdr_len x = 40) as H40 by (unfold ip_hdr_ok, hdr_len in *; rewrite Ex in Hx; lia).
    rewrite Hl, H40. unfold sizeof_ether_hdr, sizeof_ipv6_hdr in *. nowrap.
    replace (14 + 40 + zlen body - 14 - 40) with (zlen body) by lia. by rewrite E2.
Qed.

(** [memmove] of the headers to the new front, the ESP header behind them. *)
Lemma move_headers m r junk w e rest oh o n :
  pkt m (junk ++ w ++ rest) r -> zlen junk = zlen e -> zlen junk + zlen w <= first r ->
  oh = head r + zlen junk -> o = head r + zlen w -> n = zlen w ->
  load m 0 oh n = Some w /\
  exists m1 m2, store m 0 (head r) w = Some m1 /\ store m1 0 o e = Some m2 /\
    pkt m2 (w ++ e ++ rest) r /\ same_shape m m2.
Proof.
  intros HP Hj Hf -> -> ->. split.
  { eapply (pkt_load0 _ _ _ HP junk w rest); (done || lia). }
  destruct (split_at (junk ++ w) (zlen w)) as (o1 & o2 & Ho & Hl); [len|].
  assert (Hl2 : zlen o2 = zlen e) by (apply (f_equal (@length Z)) in Ho; len).
  destruct (pkt_store0 _ _ _ HP [] o1 w (o2 ++ rest) (head r)) as (m1 & E1 & HP1 & _);
    [by cbn [app]; rewrite !app_assoc, Ho | lia | simpl; len | simpl; lia |].
  destruct (pkt_store0 _ _ _ HP1 w o2 e rest (head r + zlen w)) as (m2 & E2 & HP2 & _);
    [done | lia | lia | done |].
  exists m1, m2. split; [done|]. split; [done|]. split; [exact HP2|].
  eapply same_shape_trans; eapply upd_buf_shape; eassumption.
Qed.

Lemma esp_encap_bytes (udp : bool) rule inc :
  (if udp then create_udp_transport_encap rule inc else create_transport_encap rule inc) =
  esp_hdr udp (esp_spi rule) (sn_field inc (current_sn rule)) (replicate 8 0).
Proof. destruct udp; [apply udp_encap_bytes | apply transport_encap_bytes]. Qed.

(** What a sender needs: a packet, a rule and room for the header and trailer. *)
Record sendable (m : rte_mbuf) (rule : encrypt_rule) (hdr plen : Z) (eth : list Z) (x : ip_hdr)
    (proto : Z) (pl z : list Z) (r : room) : Prop := {
  sd_pkt : pkt m (eth ++ ip_packet x proto pl ++ z) r;
  sd_eth : length eth = 14%nat;
  sd_ip : ip_hdr_ok x;
  sd_proto : in_u 8 proto;
  sd_v4 : RTE_ETH_IS_IPV4_HDR (packet_type m) = v4 x;
  sd_v6 : v4 x = false -> RTE_ETH_IS_IPV6_HDR (packet_type m) = true;
  sd_icv : 0 <= enc_icv_length rule;
  sd_head : 0 <= hdr <= head r;
  sd_first : 14 + hdr_len x <= first r;
  sd_zeros : zlen z <= last r;
  sd_tail : pad_len plen + 2 + enc_icv_length rule <= tail r + zlen z;
  sd_total : 14 + hdr_len x + zlen pl + hdr + pad_len plen + 2 + enc_icv_length rule < 65536
}.

Section Trimmed.
Context (m : rte_mbuf) (rule : encrypt_rule) (hdr plen : Z).
Context (eth : list Z) (x : ip_hdr) (proto : Z) (pl z : list Z) (r : room).
Context (HS : sendable m rule hdr plen eth x proto pl z r).

Lemma length_packet : zlen (eth ++ ip_packet x proto pl) = 14 + hdr_len x + zlen pl.
Proof.
  destruct HS as [_ Heth _ _ _ _ _ _ _ _ _ _]. unfold ip_packet.
  pose proof (length_ip_hdr x (ip_len x (zlen pl)) proto). len.
Qed.

(** The packet without Ethernet padding, as both modes start from it. *)
Lemma sendable_trim :
  exists m0 r0, remove_trailing_zeros m = Some m0 /\ same_meta m m0 /\
    pkt m0 (eth ++ ip_packet x proto pl) r0 /\ head r0 = head r /\ tail r0 = tail r + zlen z /\
    14 + hdr_len x <= first r0 /\ pkt_len m0 = 14 + hdr_len x + zlen pl /\
    mtod_offset m0 0 0 = Some (head r0) /\ l2_l3_length m0 (head r0) = Some (14 + hdr_len x).
Proof.
  destruct HS as [HP Heth Hx Hproto Hv Hv6 Hicv Hhead Hfirst Hz Htail Htotal].
  pose proof (ip_hdr_ok_len x Hx) as Hh. pose proof (pad_len_range plen) as Hpad.
  pose proof length_packet as Hd0. pose proof (pkt_bounds _ _ _ HP) as (Hhd & _).
  destruct (remove_trailing_zeros_ok _ _ _ _ _ _ _ HP Heth Hx) as (m0 & E0 & [Hpt0 Hmd0] & HP0); [lia..|done|].
  pose proof (pkt_bounds _ _ _ HP0) as (_ & _ & _ & _ & _ & Hpl0 & Hone0).
  assert (Hf0 : 14 + hdr_len x <= first (shrunk r (zlen z))).
  { destruct (one r) eqn:Eo; [|by simpl; rewrite Eo]. rewrite (proj1 (Hone0 Eo)). lia. }
  assert (HP0' : pkt m0 ([] ++ eth ++ ip_bytes x (ip_len x (zlen pl)) proto ++ pl) (shrunk r (zlen z))).
  { eapply pkt_eq; [exact HP0 | unfold ip_packet; lassoc | done]. }
  pose proof (ip_l2_l3_length m0 [] eth x _ proto pl _ HP0' Heth Hx ltac:(cbn [length]; lia)
                ltac:(by rewrite Hpt0)) as Hl2.
  cbn [length] in Hl2. change (Z.of_nat 0) with 0 in Hl2. rewrite Z.add_0_r in Hl2.
  exists m0, (shrunk r (zlen z)). repeat (split; [done || lia|]).
  rewrite (pkt_mtod0 _ _ _ HP0). split; [f_equal; lia | done].
Qed.

End Trimmed.

(** The edits of the packet once there is room for header and trailer. *)
Lemma transport_edit m r junk eth x proto pl junk2 udp spi sn icvl q po :
  pkt m (junk ++ (eth ++ ip_packet x proto pl) ++ junk2) r ->
  length eth = 14%nat -> ip_hdr_ok x -> in_u 8 proto ->
  RTE_ETH_IS_IPV4_HDR (packet_type m) = v4 x ->
  (v4 x = false -> RTE_ETH_IS_IPV6_HDR (packet_type m) = true) ->
  zlen junk = esp_hdr_len udp -> zlen junk2 = pad_len (zlen pl) + 2 + icvl -> 0 <= icvl ->
  zlen junk + 14 + hdr_len x <= first r ->
  mtod_offset m (rte_pktmbuf_lastseg m) 0 = Some q ->
  zlen junk2 <= last r -> po = last r - zlen junk2 ->
  let e := esp_hdr udp spi sn (replicate 8 0) in
  let w := eth ++ ip_bytes x (ip_len x (zlen pl)) proto in
  exists m4 m5 m6 m7 icv,
    load m 0 (head r + zlen junk) (14 + hdr_len x) = Some w /\
    store m 0 (head r) w = Some m4 /\ store m4 0 (head r + (14 + hdr_len x)) e = Some m5 /\
    update_l3 m5 (head r) (if udp then IPPROTO_UDP else IPPROTO_ESP) = Some (m6, proto) /\
    write_trailer m6 (rte_pktmbuf_lastseg m) (q + po) (pad_len (zlen pl)) proto = Some m7 /\
    zlen icv = icvl /\ pkt m7 (esp_frame udp eth x spi sn (replicate 8 0) pl proto icv) r /\
    same_shape m m7.
Proof.
  intros HP Heth Hx Hp Hv Hv6 Hj Hj2 Hi Hf Hq Hlast -> e w.
  pose proof (ip_hdr_ok_len x Hx) as Hh. pose proof (pad_len_range (zlen pl)) as Hpad.
  assert (He : zlen e = esp_hdr_len udp) by by apply length_esp_hdr.
  assert (Hw : zlen w = 14 + hdr_len x).
  { unfold w. pose proof (length_ip_hdr x (ip_len x (zlen pl)) proto). len. }
  pose proof (pkt_bounds _ _ _ HP) as (_ & _ & _ & _ & Hlt & _).
  assert (Hd : zlen (junk ++ (eth ++ ip_packet x proto pl) ++ junk2) =
               zlen junk + zlen w + zlen pl + zlen junk2) by (unfold w, ip_packet; len).
  assert (HP' : pkt m (junk ++ w ++ (pl ++ junk2)) r).
  { eapply pkt_eq; [exact HP | unfold w, ip_packet; lassoc | done]. }
  destruct (move_headers m r junk w e _ (head r + zlen junk) (head r + (14 + hdr_len x)) (14 + hdr_len x) HP')
    as (El & m4 & m5 & E4 & E5 & HP5 & HS5); [lia..|].
  destruct (update_l3_ok m5 eth x (ip_len x (zlen pl)) proto (e ++ pl ++ junk2) r
              (if udp then IPPROTO_UDP else IPPROTO_ESP)) as (m6 & E6 & HP6 & HS6).
  { eapply pkt_eq; [exact HP5 | unfold w; lassoc | done]. }
  1-3: done || lia. { len. } { by destruct udp. }
  { destruct HS5 as ([-> _] & _). done. } { destruct HS5 as ([-> _] & _). done. }
  destruct (split_at junk2 (pad_len (zlen pl) + 2)) as (old & icv & -> & Hold); [lia|].
  set (x2 := if udp then IPPROTO_UDP else IPPROTO_ESP) in *.
  pose proof (same_shape_trans _ _ _ HS5 HS6) as HS. pose proof HS as (_ & _ & _ & Hmt).
  pose proof (same_shape_lastseg _ _ _ _ _ _ HP HP6 HS) as HL.
  set (b := ip_len x (zlen (e ++ pl ++ old ++ icv))) in *.
  pose proof (length_ip_hdr x b x2) as Hb.
  destruct (write_trailer_ok m6 r (eth ++ ip_bytes x b x2 ++ e ++ pl) old icv (zlen pl) proto q
              (q + (last r - zlen (old ++ icv)))) as (m7 & E7 & HP7 & HS7).
  { eapply pkt_eq; [exact HP6 | unfold ip_packet; fold b; lassoc | done]. }
  { by rewrite HL, Hmt. } { done. } { done. } { len. } { len. }
  exists m4, m5, m6, m7, icv. split; [done|]. split; [done|]. split; [done|]. split; [done|].
  split; [by rewrite <- HL|]. split; [len|]. split; [|by eapply same_shape_trans].
  eapply pkt_eq; [exact HP7 | | done]. unfold esp_frame, ip_packet, esp_body. fold e. fold x2.
  replace (zlen (e ++ pl ++ esp_trailer (zlen pl) proto icv)) with (zlen (e ++ pl ++ old ++ icv));
    [fold b; lassoc|]. pose proof (length_trailer (zlen pl) proto icv). len.
Qed.

Section Send.
Context (ctx : ipsec_security_gw_core_ctx) (i : Z) (rule : encrypt_rule) (udp : bool).
Context (m : rte_mbuf) (eth : list Z) (x : ip_hdr) (proto : Z) (pl z : list Z) (r : room).
Context (Hrule : rd (encrypt_rules ctx) i = Some rule).
Context (HS : sendable m rule (esp_hdr_len udp) (zlen pl) eth x proto pl z r).

Lemma prepare_transport_ok :
  exists m' icv r',
    prepare_packet_transport m ctx i udp = Some (DOCA_SUCCESS, m', bump ctx i rule) /\
    zlen icv = enc_icv_length rule /\ same_meta m m' /\
    pkt m' (esp_frame udp eth x (esp_spi rule)
              (sn_field (sw_sn_inc_enable (config ctx)) (current_sn rule))
              (replicate 8 0) pl proto icv) r'.
Proof.
  destruct (sendable_trim _ _ _ _ _ _ _ _ _ _ HS)
    as (m0 & r0 & E0 & HM0 & HP0 & Hh0 & Ht0 & Hf0 & Hpl0 & Hoh & Hl2).
  pose proof (length_packet _ _ _ _ _ _ _ _ _ _ HS) as Hd0.
  destruct HS as [_ Heth Hx Hproto Hv Hv6 Hicv Hhead _ _ Htail Htotal].
  pose proof (ip_hdr_ok_len x Hx) as Hh. pose proof (pad_len_range (zlen pl)) as Hpad.
  assert (Hhl : 16 <= esp_hdr_len udp <= 24) by (destruct udp; simpl; lia).
  destruct (make_room m0 _ _ (esp_hdr_len udp) (pad_len (zlen pl) + 2 + enc_icv_length rule) HP0)
    as (m1 & m2 & junk & junk2 & q & po & E1 & Enh & Epo & E2 & HP3 & HM3 & HL3 & Hq & Hj & Hj2 & Hpo);
    [lia..|].
  set (t := pad_len (zlen pl) + 2 + enc_icv_length rule) in *.
  set (m3 := set_pkt_len m2 (u32 (pkt_len m2 + t))) in *. set (r3 := grown r0 (esp_hdr_len udp) t) in *.
  pose proof (pkt_bounds _ _ _ HP0) as (_ & _ & Hl0 & _).
  pose proof (same_meta_trans _ _ _ HM0 HM3) as HM. pose proof HM as [Hpt _].
  destruct (transport_edit m3 r3 junk eth x proto pl junk2 udp (esp_spi rule)
              (sn_field (sw_sn_inc_enable (config ctx)) (current_sn rule)) (enc_icv_length rule) q po HP3)
    as (m4 & m5 & m6 & m7 & icv & El & E4 & E5 & E6 & E7 & Hil & HP7 & HS7);
    rewrite ?Hpt; first [done | lia | unfold r3, grown; cbn [first last]; destruct (one r0); lia | idtac].
  exists m7, icv, r3. split; [|split; [done|split; [|done]]].
  2: { eapply same_meta_trans; [exact HM | apply HS7]. }
  unfold prepare_packet_transport. rewrite Hrule. obind. rewrite E0. obind. rewrite Hoh. obind.
  rewrite Hl2. obind. cbv zeta. unfold PADDING_ALIGN, sizeof_esp_tail.
  rewrite Hpl0. replace (14 + hdr_len x + zlen pl - (14 + hdr_len x)) with (zlen pl) by lia.
  rewrite (wrap_small 32 (zlen pl)) by (change (2 ^ 32) with 4294967296; lia).
  rewrite align_pad by (change (2 ^ 31) with 2147483648; lia).
  replace (zlen pl + pad_len (zlen pl) + 2 - zlen pl) with (pad_len (zlen pl) + 2) by lia.
  change (if udp then 24 else 16) with (esp_hdr_len udp). nowrap.
  rewrite E1, Enh. obind. rewrite Epo. obind. fold t. rewrite E2. obind. fold m3.
  rewrite <- HL3, mtod_add, Hq. cbn [fmap option_fmap option_map]. obind.
  assert (Hhr : head r3 = head r0 - esp_hdr_len udp) by done. rewrite Hj, Hhr in El. rewrite Hhr in E4, E5, E6.
  replace (head r0 - esp_hdr_len udp + esp_hdr_len udp) with (head r0) in El by lia.
  rewrite El. obind. rewrite E4. obind. rewrite esp_encap_bytes, E5. obind. rewrite E6. obind.
  replace (pad_len (zlen pl) + 2 - 2) with (pad_len (zlen pl)) by lia. rewrite E7. obind.
  by rewrite (inc_current_sn_ok _ _ _ Hrule).
Qed.

End Send.
End Transport.

(** ** The sender in tunnel mode *)

Definition is_ip4 (t : flow_l3_type) : bool := bool_decide (t = DOCA_FLOW_L3_TYPE_IP4).

Definition tunnel_hdr_len (rule : encrypt_rule) : Z := if is_ip4 (encap_l3_type rule) then 36 else 56.

(** The next protocol field of the ESP trailer: IPv4 or IPv6 in IP. *)
Definition inner_proto (t : flow_l3_type) : Z := if is_ip4 t then 4 else 41.

Section Tunnel.
Context `{DpdkLaws}.

Lemma outer_ip_ok rule : ip_hdr_ok (outer_ip rule).
Proof. unfold outer_ip. case_decide; [apply outer_ip4_ok | apply outer_ip6_ok]. Qed.

Lemma outer_ip_v4 rule : v4 (outer_ip rule) = is_ip4 (encap_l3_type rule).
Proof. unfold outer_ip. by destruct (encap_l3_type rule). Qed.

Lemma outer_ip_len rule : hdr_len (outer_ip rule) + 16 = tunnel_hdr_len rule.
Proof. unfold outer_ip, tunnel_hdr_len. by destruct (encap_l3_type rule). Qed.

Lemma tunnel_encap_bytes rule inc :
  (if is_ip4 (encap_l3_type rule) then create_ipv4_tunnel_encap rule inc
   else create_ipv6_tunnel_encap rule inc) =
  tunnel_eth (is_ip4 (encap_l3_type rule)) ++ ip_bytes (outer_ip rule) 0 IPPROTO_ESP
    ++ esp_hdr false (esp_spi rule) (sn_field inc (current_sn rule)) (replicate 8 0).
Proof.
  unfold outer_ip. destruct (encap_l3_type rule).
  - apply ipv6_tunnel_encap_bytes.
  - apply ipv4_tunnel_encap_bytes.
  - apply ipv6_tunnel_encap_bytes.
Qed.

(** The edits of the packet once there is room for header and trailer. *)
Lemma tunnel_edit m r junk eth ip junk2 rule inc icvl q po np :
  pkt m (junk ++ (eth ++ ip) ++ junk2) r -> length eth = 14%nat ->
  zlen junk = tunnel_hdr_len rule -> zlen junk2 = pad_len (zlen ip) + 2 + icvl -> 0 <= icvl ->
  zlen junk + 14 <= first r -> in_u 8 np ->
  mtod_offset m (rte_pktmbuf_lastseg m) 0 = Some q ->
  zlen junk2 <= last r -> po = last r - zlen junk2 ->
  let ip4 := is_ip4 (encap_l3_type rule) in
  exists m4 m5 m6 icv,
    store m 0 (head r) (if ip4 then create_ipv4_tunnel_encap rule inc
                        else create_ipv6_tunnel_encap rule inc) = Some m4 /\
    store m4 0 (head r + sizeof_ether_hdr + (if ip4 then ip4_total_length else ip6_payload_len))
      (be_bytes 2 (u16 (if ip4 then pkt_len m4 - sizeof_ether_hdr
                        else pkt_len m4 - sizeof_ether_hdr - sizeof_ipv6_hdr))) = Some m5 /\
    write_trailer m5 (rte_pktmbuf_lastseg m) (q + po) (pad_len (zlen ip)) np = Some m6 /\
    zlen icv = icvl /\ same_shape m m6 /\
    pkt m6 (esp_frame false (tunnel_eth ip4) (outer_ip rule) (esp_spi rule)
              (sn_field inc (current_sn rule)) (replicate 8 0) ip np icv) r.
Proof.
  intros HP Heth Hj Hj2 Hi Hf Hnp Hq Hlast -> ip4. unfold ip4. rewrite tunnel_encap_bytes. fold ip4.
  set (e := esp_hdr false (esp_spi rule) (sn_field inc (current_sn rule)) (replicate 8 0)).
  assert (He : zlen e = 16) by by apply (length_esp_hdr false).
  assert (Hte : length (tunnel_eth ip4) = 14%nat) by by destruct ip4.
  pose proof (outer_ip_len rule) as Ho. pose proof (outer_ip_ok rule) as Hok.
  pose proof (length_ip_hdr (outer_ip rule) 0 IPPROTO_ESP) as Hb0.
  pose proof (pad_len_range (zlen ip)) as Hpad. pose proof (outer_ip_v4 rule) as Hv. fold ip4 in Hv.
  set (enc := tunnel_eth ip4 ++ ip_bytes (outer_ip rule) 0 IPPROTO_ESP ++ e).
  assert (Henc : zlen enc = zlen junk + 14) by (unfold enc; len).
  destruct (pkt_store0 _ _ _ HP [] (junk ++ eth) enc (ip ++ junk2) (head r)) as (m4 & E4 & HP4 & _);
    [lassoc | len | cbn [length]; lia | cbn [length]; lia |].
  assert (HP4' : pkt m4 ([] ++ tunnel_eth ip4 ++ ip_bytes (outer_ip rule) 0 IPPROTO_ESP ++ (e ++ ip ++ junk2)) r).
  { eapply pkt_eq; [exact HP4 | unfold enc; lassoc | done]. }
  set (b := ip_len (outer_ip rule) (zlen (e ++ ip ++ junk2))).
  destruct (ip_store_len _ _ _ _ _ _ _ _ HP4' Hte Hok ltac:(cbn [length]; lia)
              (head r + sizeof_ether_hdr + len_off (outer_ip rule)) b) as (m5 & E5 & HP5 & _).
  { unfold sizeof_ether_hdr. simpl. lia. }
  assert (HS : same_shape m m5) by (eapply same_shape_trans; eapply upd_buf_shape; eassumption).
  pose proof HS as (_ & _ & _ & Hmt). pose proof (same_shape_lastseg _ _ _ _ _ _ HP HP5 HS) as HL.
  destruct (split_at junk2 (pad_len (zlen ip) + 2)) as (old & icv & -> & Hold); [lia|].
  pose proof (length_ip_hdr (outer_ip rule) b IPPROTO_ESP) as Hb.
  destruct (write_trailer_ok m5 r (tunnel_eth ip4 ++ ip_bytes (outer_ip rule) b IPPROTO_ESP ++ e ++ ip)
              old icv (zlen ip) np q (q + (last r - zlen (old ++ icv)))) as (m6 & E6 & HP6 & HS6).
  { eapply pkt_eq; [exact HP5 | lassoc | done]. }
  { by rewrite HL, Hmt. } { done. } { done. } { len. } { len. }
  exists m4, m5, m6, icv. split; [exact E4|]. split.
  { unfold len_off in E5. rewrite Hv in E5. rewrite <- E5. do 2 f_equal.
    pose proof (pkt_bounds _ _ _ HP4') as (_ & _ & _ & _ & Hlt & -> & _).
    pose proof (pkt_bounds _ _ _ HP5) as (_ & _ & _ & _ & Hlt5 & _).
    unfold b, ip_len. rewrite Hv. unfold sizeof_ether_hdr, sizeof_ipv6_hdr.
    assert (ip4 = false -> hdr_len (outer_ip rule) = 40) as H40.
    { unfold tunnel_hdr_len in Ho. fold ip4 in Ho. intros Ei. rewrite Ei in Ho. lia. }
    assert (Ht : zlen ([] ++ tunnel_eth ip4 ++ ip_bytes (outer_ip rule) 0 IPPROTO_ESP ++ e ++ ip ++ old ++ icv)
                 = 14 + hdr_len (outer_ip rule) + zlen (e ++ ip ++ old ++ icv)) by len.
    rewrite Ht in *. clear Hlt5 Hmt. pose proof (ip_hdr_ok_len _ Hok).
    destruct ip4; [|rewrite H40 in * by done]; nowrap; lia. }
  split; [by rewrite <- HL|]. split; [len|]. split; [by eapply same_shape_trans|].
  eapply pkt_eq; [exact HP6 | | done]. unfold esp_frame, ip_packet, esp_body. fold e.
  replace (zlen (e ++ ip ++ esp_trailer (zlen ip) np icv)) with (zlen (e ++ ip ++ old ++ icv));
    [fold b; lassoc|]. pose proof (length_trailer (zlen ip) np icv). len.
Qed.

Section Send.
Context (ctx : ipsec_security_gw_core_ctx) (i : Z) (rule : encrypt_rule).
Context (m : rte_mbuf) (eth : list Z) (x : ip_hdr) (proto : Z) (pl z : list Z) (r : room).
Context (Hrule : rd (encrypt_rules ctx) i = Some rule).
Context (HS : sendable m rule (tunnel_hdr_len rule) (zlen (ip_packet x proto pl)) eth x proto pl z r).

Lemma prepare_tunnel_ok :
  exists m' icv r',
    prepare_packet_tunnel m ctx i = Some (DOCA_SUCCESS, m', bump ctx i rule) /\
    zlen icv = enc_icv_length rule /\ same_meta m m' /\
    pkt m' (esp_frame false (tunnel_eth (is_ip4 (encap_l3_type rule))) (outer_ip rule) (esp_spi rule)
              (sn_field (sw_sn_inc_enable (config ctx)) (current_sn rule))
              (replicate 8 0) (ip_packet x proto pl) (inner_proto (enc_l3_type rule)) icv) r'.
Proof.
  destruct (sendable_trim _ _ _ _ _ _ _ _ _ _ HS)
    as (m0 & r0 & E0 & HM0 & HP0 & Hh0 & Ht0 & Hf0 & Hpl0 & Hoh & _).
  pose proof (length_packet _ _ _ _ _ _ _ _ _ _ HS) as Hd0.
  destruct HS as [_ Heth Hx Hproto Hv Hv6 Hicv Hhead _ _ Htail Htotal].
  set (ip := ip_packet x proto pl) in *.
  pose proof (ip_hdr_ok_len x Hx) as Hh. pose proof (pad_len_range (zlen ip)) as Hpad.
  assert (Hip : zlen ip = hdr_len x + zlen pl) by len.
  assert (Hhl : 36 <= tunnel_hdr_len rule <= 56) by (unfold tunnel_hdr_len; case_match; lia).
  destruct (make_room m0 _ _ (tunnel_hdr_len rule) (pad_len (zlen ip) + 2 + enc_icv_length rule) HP0)
    as (m1 & m2 & junk & junk2 & q & po & E1 & Enh & Epo & E2 & HP3 & HM3 & HL3 & Hq & Hj & Hj2 & Hpo);
    [lia..|].
  set (t := pad_len (zlen ip) + 2 + enc_icv_length rule) in *.
  set (m3 := set_pkt_len m2 (u32 (pkt_len m2 + t))) in *. set (r3 := grown r0 (tunnel_hdr_len rule) t) in *.
  pose proof (pkt_bounds _ _ _ HP0) as (_ & _ & Hl0 & _).
  destruct (tunnel_edit m3 r3 junk eth ip junk2 rule (sw_sn_inc_enable (config ctx)) (enc_icv_length rule)
              q po (inner_proto (enc_l3_type rule)) HP3)
    as (m4 & m5 & m6 & icv & E4 & E5 & E6 & Hil & HS6 & HP6);
    first [done | lia | unfold r3, grown; cbn [first last]; destruct (one r0); lia
          | by (unfold inner_proto; case_match) | idtac].
  exists m6, icv, r3. split; [|split; [done|split; [|done]]].
  2: { eapply same_meta_trans; [exact HM0|]. eapply same_meta_trans; [exact HM3 | apply HS6]. }
  unfold prepare_packet_tunnel. rewrite Hrule. obind. fold (is_ip4 (encap_l3_type rule)).
  rewrite E0. obind. cbv zeta. unfold PADDING_ALIGN, sizeof_esp_tail, sizeof_ether_hdr.
  rewrite Hpl0. replace (14 + hdr_len x + zlen pl - 14) with (zlen ip) by lia.
  rewrite (wrap_small 32 (zlen ip)) by (change (2 ^ 32) with 4294967296; lia).
  rewrite align_pad by (change (2 ^ 31) with 2147483648; lia).
  replace (zlen ip + pad_len (zlen ip) + 2 - zlen ip) with (pad_len (zlen ip) + 2) by lia.
  replace ((if is_ip4 (encap_l3_type rule) then 50 else 70) - 14) with (tunnel_hdr_len rule)
    by (unfold tunnel_hdr_len; case_match; lia).
  nowrap. rewrite E1, Enh. obind. rewrite Epo. obind. fold t. rewrite E2. obind. fold m3.
  rewrite <- HL3, mtod_add, Hq. cbn [fmap option_fmap option_map]. obind.
  replace (head r0 - tunnel_hdr_len rule) with (head r3) by done.
  replace (pad_len (zlen ip) + 2 - 2) with (pad_len (zlen ip)) by lia.
  match goal with |- mbind _ ?b = _ => assert (Eb : b = Some m5) end.
  { destruct (is_ip4 (encap_l3_type rule)); rewrite E4; obind; exact E5. }
  rewrite Eb. obind.
  match goal with |- context [write_trailer _ _ _ _ ?p] => replace p with (inner_proto (enc_l3_type rule)) end;
    [|unfold inner_proto, is_ip4, bool_decide; by destruct (enc_l3_type rule)].
  rewrite E6. obind. by rewrite (inc_current_sn_ok _ _ _ Hrule).
Qed.

End Send.
End Tunnel.

(** ** The receiver *)

Section Receiver.
Context `{DpdkLaws}.

Lemma seg_walk_app s1 s2 i o :
  Forall seg_wf s1 -> zlen (concat (seg_data <$> s1)) <= o < 2 ^ 32 ->
  seg_walk (s1 ++ s2) i o = seg_walk s2 (i + length s1)%nat (o - zlen (concat (seg_data <$> s1))).
Proof.
  revert i o. induction s1 as [|s s1 IH]; intros i o Hwf Ho.
  { cbn. by rewrite Nat.add_0_r, Z.sub_0_r. }
  apply Forall_cons in Hwf as [Hs Hwf]. cbn in Ho. rewrite length_app in Ho.
  destruct (seg_wf_view s Hs) as (pre & post & Es).
  assert (Hd : data_len s = zlen (seg_data s)) by (rewrite Es at 1; done).
  assert (Hd0 : 0 <= zlen (concat (seg_data <$> s1))) by lia.
  cbn [app seg_walk]. replace (data_len s <=? o) with true by (symmetry; apply Z.leb_le; lia).
  rewrite wrap_small by lia. rewrite IH by (done || lia). cbn [length fmap list_fmap concat].
  rewrite length_app, Hd. f_equal; lia.
Qed.

Lemma get_seg_last m d r o :
  pkt m d r -> zlen d - last r <= o < zlen d ->
  mbuf_get_seg_ofs m o = Some (inr (rte_pktmbuf_lastseg m, o - (zlen d - last r))).
Proof.
  intros HP Ho. destruct (pkt_last_seg m d r HP) as (s1 & D & y & pre & post & Hs & Hy & _ & Hd & Hi & HD & Hwf & _).
  pose proof (pkt_bounds _ _ _ HP) as (_ & _ & _ & _ & Hlt & Hpl & _).
  assert (Hdl : zlen d = zlen D + zlen y) by (rewrite Hd; len).
  unfold mbuf_get_seg_ofs. replace (pkt_len m <=? o) with false by (symmetry; apply Z.leb_gt; lia).
  rewrite Hs, seg_walk_app, <- HD by (rewrite <- ?HD; done || (change (2 ^ 32) with 4294967296; lia)).
  cbn [seg_walk mkseg data_len]. replace (zlen y <=? o - zlen D) with false by (symmetry; apply Z.leb_gt; lia).
  rewrite Hi. cbn. do 3 f_equal. lia.
Qed.

Lemma load_last_at m d r a bs c q p n :
  pkt m d r -> mtod_offset m (rte_pktmbuf_lastseg m) 0 = Some q ->
  d = a ++ bs ++ c -> zlen d - last r <= zlen a ->
  p = q + (zlen a - (zlen d - last r)) -> n = zlen bs ->
  load m (rte_pktmbuf_lastseg m) p n = Some bs.
Proof.
  intros HP Hq Hd Ha -> ->.
  destruct (pkt_load_last _ _ _ HP a bs c _ _ Hd Ha eq_refl eq_refl) as (p & Hp & Hl).
  rewrite mtod_add, Hq in Hp. by injection Hp as <-.
Qed.

Lemma set_data_len_pkt_len m n i k :
  set_data_len (set_pkt_len m n) i k = (fun m' => set_pkt_len m' n) <$> set_data_len m i k.
Proof. unfold set_data_len. simpl. by destruct (segs m !! i). Qed.

(** Any packet whose IP payload ends with a trailer in the last segment. *)
Lemma remove_packet_tail_ok m eth x proto inner pad np icv z r :
  let body := inner ++ pad ++ [zlen pad; np] ++ icv in
  let t := zlen pad + 2 + zlen icv in
  pkt m (eth ++ ip_packet x proto body ++ z) r -> length eth = 14%nat -> ip_hdr_ok x ->
  RTE_ETH_IS_IPV4_HDR (packet_type m) = v4 x ->
  hdr_len x + zlen body < 65536 -> 14 + hdr_len x <= first r ->
  zlen z + t <= last r ->
  exists m', remove_packet_tail m (zlen icv) = Some (m', inr np) /\ same_meta m m' /\
    pkt m' (eth ++ ip_bytes x (ip_len x (zlen body)) proto ++ inner) (shrunk (shrunk r (zlen z)) t).
Proof.
  intros body t HP Heth Hx Hv Hlen Hf Hlast.
  destruct (remove_trailing_zeros_ok _ _ _ _ _ _ _ HP Heth Hx) as (m0 & E0 & HM0 & HP0);
    [lia.. | lia | done |].
  set (r0 := shrunk r (zlen z)) in *. set (d0 := eth ++ ip_packet x proto body) in *.
  assert (Hl0 : last r0 = last r - zlen z) by done.
  pose proof (pkt_bounds _ _ _ HP0) as (_ & _ & Hlr & _ & Hlt & Hpl & _).
  destruct (pkt_last_ptr _ _ _ HP0) as (q & Hq & _).
  set (a := eth ++ ip_bytes x (ip_len x (zlen body)) proto ++ inner).
  assert (Hd : d0 = a ++ pad ++ [zlen pad; np] ++ icv) by (unfold d0, a, ip_packet, body; lassoc).
  assert (Hdl : zlen d0 = zlen a + t) by (rewrite Hd; unfold t; len).
  set (o := last r0 - (zlen icv + 2)).
  pose proof (load_last_at _ _ _ (a ++ pad ++ [zlen pad]) [np] icv q (q + o + 1) 1 HP0 Hq) as Enp.
  pose proof (load_last_at _ _ _ (a ++ pad) [zlen pad] (np :: icv) q (q + o + 0) 1 HP0 Hq) as Epl.
  destruct (pkt_shrink _ _ _ HP0 a (pad ++ [zlen pad; np] ++ icv) t Hd) as (m1 & E1 & HM1 & _ & HP1);
    [unfold t; len | lia |].
  exists (set_pkt_len m1 (zlen a)). split; [|split; [by eapply same_meta_trans | exact HP1]].
  unfold remove_packet_tail. rewrite E0. obind. unfold sizeof_esp_tail. rewrite Hpl.
  rewrite !(wrap_small 32 (zlen icv + 2)) by (change (2 ^ 32) with 4294967296; unfold t in *; lia).
  rewrite (wrap_small 32 (zlen d0 - _)) by (change (2 ^ 32) with 4294967296; unfold t in *; lia).
  rewrite (get_seg_last _ _ _ _ HP0) by (unfold t in *; lia). obind.
  replace (zlen d0 - (zlen icv + 2) - (zlen d0 - last r0)) with o by (unfold o; lia).
  rewrite mtod_add, Hq. cbn [fmap option_fmap option_map]. obind. unfold load_be, esp_next_proto, esp_pad_len.
  rewrite Enp by (rewrite ?Hd; unfold o, t in *; first [lassoc | len]).
  cbn [fmap option_fmap option_map]. obind.
  rewrite Epl by (rewrite ?Hd; unfold o, t in *; first [lassoc | len]).
  cbn [fmap option_fmap option_map]. obind. rewrite !be_value1.
  rewrite set_data_len_pkt_len.
  rewrite (wrap_small 32 (o - zlen pad)) by (change (2 ^ 32) with 4294967296; unfold o, t in *; lia).
  replace (o - zlen pad) with (last r0 - t) by (unfold o, t; lia).
  rewrite E1. cbn [fmap option_fmap option_map]. obind.
  rewrite (wrap_small 32 (_ + zlen pad)) by (change (2 ^ 32) with 4294967296; unfold t in *; lia).
  rewrite wrap_small by (change (2 ^ 32) with 4294967296; unfold t in *; lia).
  replace (zlen d0 - (zlen icv + 2 + zlen pad)) with (zlen a) by (unfold t in *; lia). done.
Qed.

(** Restoring the IP header of a packet whose first [k] bytes were dropped is
    restoring it before they are. *)
Lemma restore_l3_ok m eth x len p body r k m1 proto :
  pkt m (eth ++ ip_bytes x len p ++ body) r -> length eth = 14%nat -> ip_hdr_ok x ->
  RTE_ETH_IS_IPV4_HDR (packet_type m) = v4 x -> in_u 8 proto ->
  14 + hdr_len x <= first r -> 0 <= k <= first r -> k <= zlen body ->
  hdr_len x + zlen body < 65536 ->
  rte_pktmbuf_adj m k = Some m1 ->
  exists m2 m3, restore_l3 m1 (head r + sizeof_ether_hdr) proto = Some m3 /\
    rte_pktmbuf_adj m2 k = Some m3 /\ same_meta m m2 /\
    pkt m2 (eth ++ ip_bytes x (ip_len x (zlen body - k)) proto ++ body) r.
Proof.
  intros HP Heth Hx Hv Hp Hf Hk Hkb Hlen Ha.
  pose proof (ip_hdr_ok_len x Hx) as Hh.
  assert (HP0 : pkt m ([] ++ eth ++ ip_bytes x len p ++ body) r) by exact HP.
  destruct (ip_store_proto _ _ _ _ _ _ _ _ HP0 Heth Hx ltac:(cbn [length]; lia)
              (head r + sizeof_ether_hdr + proto_off x) proto) as (m2 & E2 & HP2 & HM2).
  { unfold sizeof_ether_hdr. cbn [length]. lia. }
  destruct (ip_store_len _ _ _ _ _ _ _ _ HP2 Heth Hx ltac:(cbn [length]; lia)
              (head r + sizeof_ether_hdr + len_off x) (ip_len x (zlen body - k))) as (m3 & E3 & HP3 & HM3).
  { unfold sizeof_ether_hdr. cbn [length]. lia. }
  destruct (adj_upd _ _ _ _ _ _ HP0 Hk E2) as (m1' & n2 & Ea1 & Eu1 & Ea2).
  destruct (adj_upd _ _ _ _ _ _ HP2 Hk E3) as (n2' & n3 & Eb1 & Eu2 & Eb2).
  assert (m1' = m1) as -> by congruence. assert (n2' = n2) as -> by congruence.
  exists m3, n3. split; [|split; [done|split; [by eapply same_meta_trans | exact HP3]]].
  assert (Hpl : pkt_len n2 = 14 + hdr_len x + zlen body - k /\ packet_type m1 = packet_type m).
  { pose proof (length_ip_hdr x len proto) as Hb. pose proof (length_ip_hdr x len p) as Hb2.
    destruct (split_at ([] ++ eth ++ ip_bytes x len proto ++ body) k) as (g & d' & Eg & Hg); [len|].
    destruct (pkt_adj _ _ _ HP2 g d' k Eg Hg ltac:(lia)) as (n & En & _ & HPn).
    destruct (split_at ([] ++ eth ++ ip_bytes x len p ++ body) k) as (g2 & d2 & Eg2 & Hg2); [len|].
    destruct (pkt_adj _ _ _ HP0 g2 d2 k Eg2 Hg2 ltac:(lia)) as (n' & En' & [HM' _] & _).
    assert (n = n2) as -> by congruence. assert (n' = m1) as -> by congruence. split; [|done].
    pose proof (pkt_bounds _ _ _ HPn) as (_ & _ & _ & _ & _ & -> & _).
    apply (f_equal (@length Z)) in Eg. len. }
  destruct Hpl as [Hpl Hpt]. unfold restore_l3. rewrite Hpt, Hv.
  unfold len_off, proto_off, ip_len, store in *. destruct (v4 x) eqn:Ex.
  - rewrite (wrap_id 8) by done. rewrite Eu1. obind. rewrite Hpl. unfold sizeof_ether_hdr in *. nowrap.
    replace (14 + hdr_len x + zlen body - k - 14) with (hdr_len x + (zlen body - k)) by lia. exact Eu2.
  - assert (hdr_len x = 40) as H40 by (unfold ip_hdr_ok, hdr_len in *; rewrite Ex in Hx; lia).
    rewrite (wrap_id 8) by done. rewrite Eu1. obind. rewrite Hpl, H40.
    unfold sizeof_ether_hdr, sizeof_ipv6_hdr in *. nowrap.
    replace (14 + 40 + zlen body - k - 14 - 40) with (zlen body - k) by lia. exact Eu2.
Qed.

(** What a receiver needs: a frame, perhaps with Ethernet padding, whose headers
    are in the first segment and whose trailer is in the last one. *)
Record receivable (m : rte_mbuf) (udp : bool) (hdr : Z) (eth : list Z) (x : ip_hdr) (spi sn : Z)
    (iv pl : list Z) (proto : Z) (icv z : list Z) (r : room) : Prop := {
  rv_pkt : pkt m (esp_frame udp eth x spi sn iv pl proto icv ++ z) r;
  rv_eth : length eth = 14%nat;
  rv_ip : ip_hdr_ok x;
  rv_proto : in_u 8 proto;
  rv_iv : length iv = 8%nat;
  rv_v4 : RTE_ETH_IS_IPV4_HDR (packet_type m) = v4 x;
  rv_first : hdr + 14 + hdr_len x <= first r;
  rv_last : zlen z + pad_len (zlen pl) + 2 + zlen icv <= last r;
  rv_total : hdr_len x + esp_hdr_len udp + zlen pl + pad_len (zlen pl) + 2 + zlen icv < 65536
}.

Section Receive.
Context (m : rte_mbuf) (udp : bool) (hdr : Z) (eth : list Z) (x : ip_hdr) (spi sn : Z).
Context (iv pl : list Z) (proto : Z) (icv z : list Z) (r : room).
Context (HR : receivable m udp hdr eth x spi sn iv pl proto icv z r) (Hhdr : 0 <= hdr).

(** The frame without its trailer, as both modes start from it. *)
Lemma receivable_tail :
  exists m0 len r0, remove_packet_tail m (zlen icv) = Some (m0, inr proto) /\ same_meta m m0 /\
    pkt m0 (eth ++ ip_bytes x len (if udp then IPPROTO_UDP else IPPROTO_ESP)
              ++ esp_hdr udp spi sn iv ++ pl) r0 /\
    (hdr <= esp_hdr_len udp + zlen pl -> hdr + 14 + hdr_len x <= first r0).
Proof.
  destruct HR as [HP Heth Hx Hp Hiv Hv Hf Hl Ht].
  pose proof (ip_hdr_ok_len x Hx) as Hh. pose proof (pad_len_range (zlen pl)) as Hpad.
  pose proof (length_pad (zlen pl)) as Hpl. pose proof (length_esp_hdr udp spi sn iv Hiv) as He.
  pose proof (length_esp_body udp spi sn iv pl proto icv Hiv) as Hb.
  set (p := if udp then IPPROTO_UDP else IPPROTO_ESP).
  set (pad := take (Z.to_nat (pad_len (zlen pl))) esp_pad_bytes) in *.
  assert (Eb : esp_body udp spi sn iv pl proto icv =
               (esp_hdr udp spi sn iv ++ pl) ++ pad ++ [zlen pad; proto] ++ icv).
  { unfold esp_body, esp_trailer. fold pad. rewrite Hpl. lassoc. }
  unfold esp_frame in HP. rewrite Eb, <- app_assoc in HP. rewrite Eb in Hb.
  destruct (remove_packet_tail_ok m eth x p _ pad proto icv z r HP Heth Hx Hv) as (m0 & E0 & HM0 & HP0);
    [lia..|].
  eexists m0, _, _. split; [exact E0|]. split; [done|].
  pose proof (pkt_bounds _ _ _ HP0) as (_ & _ & _ & _ & _ & _ & Ho).
  set (len := ip_len x _) in *. pose proof (length_ip_hdr x len p) as Hbl.
  split; [exact HP0|]. intros Hk. destruct (one r) eqn:Eo.
  - rewrite (proj1 (Ho Eo)). len.
  - simpl. rewrite Eo. lia.
Qed.

End Receive.

Lemma decap_transport_ok ctx i rule m udp eth x spi sn iv pl proto icv z r :
  rd (decrypt_rules ctx) i = Some rule -> dec_icv_length rule = zlen icv ->
  receivable m udp (esp_hdr_len udp) eth x spi sn iv pl proto icv z r ->
  exists m' r', decap_packet_transport m ctx i udp = Some (DOCA_SUCCESS, m') /\ same_meta m m' /\
    pkt m' (eth ++ ip_packet x proto pl) r'.
Proof.
  intros Hrule Hicv HR. assert (Hk : 16 <= esp_hdr_len udp <= 24) by (destruct udp; simpl; lia).
  destruct (receivable_tail _ _ _ _ _ _ _ _ _ _ _ _ _ HR ltac:(lia)) as (m0 & len & r0 & E0 & HM0 & HP0 & Hf).
  specialize (Hf ltac:(lia)).
  destruct HR as [_ Heth Hx Hp Hiv Hv _ _ Ht]. pose proof (ip_hdr_ok_len x Hx) as Hh.
  pose proof (pad_len_range (zlen pl)) as Hpad.
  set (e := esp_hdr udp spi sn iv) in *. set (k := esp_hdr_len udp) in *.
  assert (He : zlen e = k) by by apply length_esp_hdr.
  pose proof (proj1 HM0) as Hpt. set (p := if udp then IPPROTO_UDP else IPPROTO_ESP) in *.
  assert (HP0' : pkt m0 ([] ++ eth ++ ip_bytes x len p ++ e ++ pl) r0) by exact HP0.
  pose proof (ip_l2_l3_length m0 [] eth x _ _ _ _ HP0' Heth Hx ltac:(cbn [length]; lia)
                ltac:(by rewrite Hpt)) as Hl2.
  cbn [length] in Hl2. change (Z.of_nat 0) with 0 in Hl2. rewrite Z.add_0_r in Hl2.
  destruct (split_at (eth ++ ip_bytes x len p ++ e ++ pl) k) as (g & d' & Eg & Hg); [len|].
  destruct (pkt_adj _ _ _ HP0 g d' k Eg Hg ltac:(lia)) as (m1 & E1 & HM1 & HP1).
  destruct (restore_l3_ok m0 eth x len p (e ++ pl) r0 k m1 proto HP0 Heth Hx) as (n2 & m2 & E2 & En2 & HMn & HPn);
    [by rewrite Hpt | done | lia | lia | len | len | done |].
  set (h := eth ++ ip_bytes x (ip_len x (zlen (e ++ pl) - k)) proto) in *.
  assert (Hhl : zlen h = 14 + hdr_len x).
  { unfold h. pose proof (length_ip_hdr x (ip_len x (zlen (e ++ pl) - k)) proto). len. }
  destruct (pkt_copy_back n2 _ r0 h e pl (head r0 + k) (head r0) (length h) HPn)
    as (n3 & E3 & HP3 & HM3); [unfold h; lassoc | lia | done | done | lia |].
  destruct (adj_upd _ _ _ k _ _ HPn ltac:(lia) E3) as (m2' & m3 & Ea & Eu & Eb).
  assert (m2' = m2) as -> by congruence.
  destruct (pkt_adj _ _ _ HP3 (take (length e) (h ++ e)) (h ++ pl) k eq_refl) as (m3' & Ec & HM4 & HP4);
    [rewrite length_take; len | lia |].
  assert (m3' = m3) as -> by congruence.
  eexists m3, _. split; [|split].
  2: { eapply same_meta_trans; [exact HM0|]. eapply same_meta_trans; [exact HMn|].
       by eapply same_meta_trans. }
  2: { eapply pkt_eq; [exact HP4 | | done]. unfold h, ip_packet. replace (zlen (e ++ pl) - k) with (zlen pl) by len.
       lassoc. }
  unfold decap_packet_transport. rewrite Hrule. obind. rewrite Hicv, E0. obind.
  rewrite !(pkt_mtod0 _ _ _ HP0), Z.add_0_r. obind. rewrite Hl2. obind. cbv zeta.
  replace (if negb udp then sizeof_esp_hdr + 8 else sizeof_esp_hdr + sizeof_udp_hdr + 8) with k by by destruct udp.
  rewrite E1, (pkt_mtod0 _ _ _ HP1). cbn [head]. rewrite Z.add_0_r. obind. rewrite E2. obind.
  replace (Z.to_nat (14 + hdr_len x)) with (length h) by lia. by rewrite Eu.
Qed.

(** The Ethernet header of a packet that leaves the tunnel. *)
Definition inner_eth (eth : list Z) (proto : Z) : list Z :=
  take 12 eth ++ be_bytes 2 (if proto =? IPPROTO_IPV6 then RTE_ETHER_TYPE_IPV6 else RTE_ETHER_TYPE_IPV4).

Lemma decap_tunnel_ok ctx i rule m eth x spi sn iv pl proto icv z r :
  rd (decrypt_rules ctx) i = Some rule -> dec_icv_length rule = zlen icv ->
  receivable m false 16 eth x spi sn iv pl proto icv z r ->
  exists m' r', decap_packet_tunnel m ctx i = Some (DOCA_SUCCESS, m') /\ same_meta m m' /\
    pkt m' (inner_eth eth proto ++ pl) r'.
Proof.
  intros Hrule Hicv HR.
  destruct (receivable_tail _ _ _ _ _ _ _ _ _ _ _ _ _ HR ltac:(lia)) as (m0 & len & r0 & E0 & HM0 & HP0 & Hf).
  specialize (Hf ltac:(simpl; lia)).
  destruct HR as [_ Heth Hx Hp Hiv Hv _ _ Ht]. pose proof (ip_hdr_ok_len x Hx) as Hh.
  set (e := esp_hdr false spi sn iv) in *.
  assert (He : zlen e = 16) by by apply (length_esp_hdr false).
  pose proof (proj1 HM0) as Hpt. set (hd := ip_bytes x len IPPROTO_ESP) in *.
  assert (Hhd : zlen hd = hdr_len x) by apply length_ip_hdr.
  assert (HP0' : pkt m0 ([] ++ eth ++ ip_bytes x len IPPROTO_ESP ++ e ++ pl) r0) by exact HP0.
  destruct (split_at (eth ++ hd ++ e ++ pl) (hdr_len x + 16)) as (g & d' & Eg & Hg); [len|].
  destruct (pkt_adj _ _ _ HP0 g d' (hdr_len x + 16) Eg Hg ltac:(lia)) as (m1 & E1 & HM1 & HP1).
  destruct (pkt_copy_back m0 _ r0 eth (hd ++ e) pl (head r0 + (hdr_len x + 16)) (head r0) 14%nat HP0)
    as (n2 & E2 & HP2 & HM2); [lassoc | len | done | done | len |].
  destruct (adj_upd _ _ _ (hdr_len x + 16) _ _ HP0 ltac:(lia) E2) as (m1' & m2 & Ea & Eu & Eb).
  assert (m1' = m1) as -> by congruence.
  destruct (pkt_adj _ _ _ HP2 (take (length (hd ++ e)) (eth ++ hd ++ e)) (eth ++ pl) (hdr_len x + 16) eq_refl)
    as (m2' & Ec & HM3 & HP3); [rewrite length_take; len | lia |].
  assert (m2' = m2) as -> by congruence.
  set (r2 := Room _ _ _ _ _) in HP3.
  set (ty := be_bytes 2 (if proto =? IPPROTO_IPV6 then RTE_ETHER_TYPE_IPV6 else RTE_ETHER_TYPE_IPV4)).
  destruct (pkt_store0 _ _ _ HP3 (take 12 eth) (drop 12 eth) ty pl (head r2 + ether_type_off))
    as (m3 & E3 & HP4 & HM4).
  { by rewrite app_assoc, take_drop. } { unfold ty. rewrite length_drop, length_be_bytes. lia. }
  { unfold ty. rewrite length_take, length_be_bytes. unfold r2. cbn [first]. lia. }
  { rewrite length_take. unfold ether_type_off. lia. }
  exists m3, r2. split; [|split].
  2: { repeat (eapply same_meta_trans; [eassumption|]). done. }
  2: { eapply pkt_eq; [exact HP4 | unfold inner_eth; fold ty; lassoc | done]. }
  unfold decap_packet_tunnel. rewrite Hrule. obind. rewrite Hicv, E0. obind.
  rewrite !(pkt_mtod0 _ _ _ HP0), Z.add_0_r. obind.
  match goal with |- mbind _ ?b = _ => assert (El : b = Some (hdr_len x)) end.
  { rewrite Hpt, Hv. destruct (v4 x) eqn:Ex.
    - destruct (ip_load_ihl _ _ _ _ _ _ _ _ HP0' Heth Hx ltac:(cbn [length]; lia)
        (head r0 + sizeof_ether_hdr + ip4_version_ihl) Ex) as (b & -> & Hb).
      { unfold sizeof_ether_hdr, ip4_version_ihl. simpl. lia. }
      obind. by rewrite Hb.
    - unfold ip_hdr_ok, hdr_len in *. rewrite Ex in Hx. unfold sizeof_ipv6_hdr. f_equal. lia. }
  rewrite El. obind. unfold sizeof_esp_hdr.
  replace (hdr_len x + 8 + 8) with (hdr_len x + 16) by lia. nowrap.
  rewrite E1, (pkt_mtod0 _ _ _ HP1). cbn [head]. rewrite Z.add_0_r. obind.
  change (Z.to_nat sizeof_ether_hdr) with 14%nat. rewrite Eu. obind.
  rewrite (pkt_mtod0 _ _ _ HP3), Z.add_0_r. obind. fold ty. by rewrite E3.
Qed.

(** The sequence number the anti-replay check sees. *)
Lemma get_esp_sn_ok m (md : ipsec_security_gw_mode) udp hdr eth x spi sn iv pl proto icv z r :
  receivable m udp hdr eth x spi sn iv pl proto icv z r -> esp_hdr_len udp - 8 <= hdr ->
  udp = bool_decide (md = IPSEC_SECURITY_GW_UDP_TRANSPORT) -> in_u 32 sn ->
  get_esp_sn m md = Some sn.
Proof.
  intros [HP Heth Hx Hp Hiv Hv Hf _ Ht] Hk Hmd Hsn. pose proof (ip_hdr_ok_len x Hx) as Hh.
  unfold esp_frame, ip_packet in HP. set (len := ip_len x _) in HP.
  set (p := if udp then IPPROTO_UDP else IPPROTO_ESP) in HP.
  pose proof (length_ip_hdr x len p) as Hb.
  set (u := if udp then udp_hdr else []).
  assert (Hu : esp_hdr_len udp = zlen u + 16 /\ 0 <= zlen u <= 8) by by destruct udp.
  set (rest := iv ++ pl ++ esp_trailer (zlen pl) proto icv ++ z).
  assert (HP' : pkt m ([] ++ eth ++ ip_bytes x len p ++ (u ++ be_bytes 4 spi ++ be_bytes 4 sn ++ rest)) r).
  { eapply pkt_eq; [exact HP | unfold rest, u, esp_body, esp_hdr; lassoc | done]. }
  pose proof (ip_l2_l3_length m [] eth x _ _ _ _ HP' Heth Hx ltac:(cbn [length]; lia) Hv) as Hl2.
  cbn [length] in Hl2. change (Z.of_nat 0) with 0 in Hl2. rewrite Z.add_0_r in Hl2.
  unfold get_esp_sn. rewrite (pkt_mtod0 _ _ _ HP'), Z.add_0_r. obind. rewrite Hl2. obind.
  match goal with |- context [mtod_offset m 0 ?o] => replace o with (14 + hdr_len x + zlen u) end.
  2: { unfold u. rewrite Hmd. destruct (decide (md = IPSEC_SECURITY_GW_UDP_TRANSPORT)).
       - rewrite bool_decide_true by done. unfold sizeof_udp_hdr. nowrap. cbn [length udp_hdr]. lia.
       - rewrite bool_decide_false by done. cbn [length]. lia. }
  rewrite (pkt_mtod0 _ _ _ HP'). obind. unfold load_be, esp_seq.
  erewrite (pkt_load0 _ _ _ HP' (eth ++ ip_bytes x len p ++ u ++ be_bytes 4 spi) (be_bytes 4 sn) rest);
    [| lassoc | len | len | done].
  cbn [fmap option_fmap option_map]. by rewrite be_value4.
Qed.

End Receiver.
