(* ===== verification/EspGateway.v ===== *)
(** * The forwarding loop of the IPsec gateway, and two gateways end to end

    Models the start of the sequence numbers and [process_queue_packets]
    (ipsec_security_gw.c).  The theorems on round trips, sequence numbers and
    streams put the sender and the receiver of EspPacketSpec and the window of
    AntiReplay together. *)

From stdpp Require Import gmap.
From S2P Require Import Prelude.
From S2P Require Import AntiReplay.
From S2P Require Import Mbuf.
From S2P Require Import EspPacket.
From S2P Require Import EspPacketSpec.
#[local] Open Scope Z_scope.

Definition NB_TX_BURST_TRIES : Z := 5.

(** [for (entry_idx = 0; entry_idx < MAX_NB_RULES; entry_idx++)] of
    [ipsec_security_gw_wait_for_traffic]. *)
Fixpoint set_sequence_numbers (n : nat) (sn : Z) (rules : list encrypt_rule) : option (list encrypt_rule) :=
  match n with
  | O => Some rules
  | S k =>
      rules ← set_sequence_numbers k sn rules;
      rule ← rd rules (Z.of_nat k);
      wr rules (Z.of_nat k) (set_sn rule sn)
  end.

(** The start of [ipsec_security_gw_wait_for_traffic] with ESP in software;
    [calloc] is the array it answers, [None] for NULL. *)
Definition init_traffic (cfg : ipsec_security_gw_config) (rules : list encrypt_rule)
    (drules : list decrypt_rule) (calloc : option (list antireplay_state)) :
    option (doca_error * ipsec_security_gw_core_ctx) :=
  rules ← (if sw_sn_inc_enable cfg
           then set_sequence_numbers (Z.to_nat MAX_NB_RULES) (u32 (sn_initial cfg)) rules
           else Some rules);
  r ← (if sw_antireplay cfg then
         match calloc with
         | None => Some (DOCA_ERROR_NO_MEMORY, [])
         | Some states => init_anti_replay_states MAX_NB_RULES (u32 (sn_initial cfg)) states
         end
       else Some (DOCA_SUCCESS, []));
  let '(result, states) := r in
  Some (result, Ctx cfg rules drules states).

Section Forward.
Context `{Dpdk}.
(** [rte_eth_tx_burst]: how many of the packets the queue takes. *)
Context {nic : Type} (rte_eth_tx_burst : list rte_mbuf -> nic -> Z * nic).

(** The [do ... while] loop; [fuel] bounds its iterations and [num_of_tries--]
    of the least [int] is undefined. *)
Fixpoint tx_tries (fuel : nat) (processed : list rte_mbuf) (nb_pkts num_of_tries : Z) (w : nic) :
    option (Z * Z * nic) :=
  match fuel with
  | O => None
  | S fuel' =>
      let '(n, w) := rte_eth_tx_burst (drop (Z.to_nat nb_pkts) processed) w in
      let nb_pkts := nb_pkts + n in
      if num_of_tries =? - 2 ^ 31 then None
      else
        let num_of_tries := num_of_tries - 1 in
        if (nb_pkts <? zlen processed) && (0 <? num_of_tries)
        then tx_tries fuel' processed nb_pkts num_of_tries w
        else Some (nb_pkts, num_of_tries, w)
  end.

(** What the worker keeps between bursts: [num_of_tries] is initialised once,
    before the loop. *)
Record worker := Worker { wctx : ipsec_security_gw_core_ctx; num_of_tries : Z; wnic : nic }.

Record burst_result := Burst {
  sent : list rte_mbuf;      (* given to the transmit queue *)
  unsent : list rte_mbuf;    (* processed, but neither sent nor freed *)
  freed : list rte_mbuf      (* passed to rte_pktmbuf_free_bulk *)
}.

(** The body of [process_queue_packets] for one burst from one port. *)
Definition process_burst (secured : bool) (packets : list rte_mbuf) (st : worker) :
    option (burst_result * worker) :=
  if bool_decide (packets = []) then Some (Burst [] [] [], st)
  else
    r ← (if secured then handle_secured_packets_received packets (wctx st)
         else handle_unsecured_packets_received packets (wctx st));
    let '(processed, to_drop, ctx) := r in
    r ← tx_tries (S (Z.to_nat (num_of_tries st))) processed 0 (num_of_tries st) (wnic st);
    let '(nb_pkts, tries, w) := r in
    let nb_packets_to_drop := u16 (zlen packets - zlen processed) in
    Some (Burst (take (Z.to_nat nb_pkts) processed) (drop (Z.to_nat nb_pkts) processed)
                (take (Z.to_nat nb_packets_to_drop) to_drop), Worker ctx tries w).

Fixpoint process_bursts (bursts : list (bool * list rte_mbuf)) (st : worker) :
    option (list burst_result * worker) :=
  match bursts with
  | [] => Some ([], st)
  | (secured, packets) :: rest =>
      r ← process_burst secured packets st;
      let '(b, st) := r in
      r ← process_bursts rest st;
      let '(bs, st) := r in
      Some (b :: bs, st)
  end.

End Forward.

(** ** Packets and their frames, by mode *)

(** A packet of the plain side. *)
Record flow_pkt := FlowPkt { f_eth : list Z; f_ip : ip_hdr; f_proto : Z; f_pl : list Z }.

Definition plain (f : flow_pkt) : list Z := f_eth f ++ ip_packet (f_ip f) (f_proto f) (f_pl f).

(** What of a packet goes where in its ESP frame. *)
Record encap := Encap { e_udp : bool; e_eth : list Z; e_ip : ip_hdr; e_pl : list Z; e_proto : Z }.

Definition encapsulate (md : ipsec_security_gw_mode) (rule : encrypt_rule) (f : flow_pkt) : encap :=
  match md with
  | IPSEC_SECURITY_GW_TRANSPORT => Encap false (f_eth f) (f_ip f) (f_pl f) (f_proto f)
  | IPSEC_SECURITY_GW_UDP_TRANSPORT => Encap true (f_eth f) (f_ip f) (f_pl f) (f_proto f)
  | IPSEC_SECURITY_GW_TUNNEL =>
      Encap false (tunnel_eth (is_ip4 (encap_l3_type rule))) (outer_ip rule)
        (ip_packet (f_ip f) (f_proto f) (f_pl f)) (inner_proto (enc_l3_type rule))
  end.

Definition frame (e : encap) (spi sn : Z) (iv icv : list Z) : list Z :=
  esp_frame (e_udp e) (e_eth e) (e_ip e) spi sn iv (e_pl e) (e_proto e) icv.

(** What the receiver hands on. *)
Definition delivered (md : ipsec_security_gw_mode) (rule : encrypt_rule) (f : flow_pkt) : list Z :=
  match md with
  | IPSEC_SECURITY_GW_TUNNEL =>
      inner_eth (tunnel_eth (is_ip4 (encap_l3_type rule))) (inner_proto (enc_l3_type rule))
        ++ ip_packet (f_ip f) (f_proto f) (f_pl f)
  | _ => plain f
  end.

Section Modes.
Context `{DpdkLaws}.

(** The packet [m] holds [f] (and Ethernet padding) and has the room its mode
    needs. *)
Definition can_send (md : ipsec_security_gw_mode) (rule : encrypt_rule) (m : rte_mbuf) (f : flow_pkt) : Prop :=
  exists z r,
    match md with
    | IPSEC_SECURITY_GW_TUNNEL =>
        sendable m rule (tunnel_hdr_len rule) (zlen (ip_packet (f_ip f) (f_proto f) (f_pl f)))
          (f_eth f) (f_ip f) (f_proto f) (f_pl f) z r
    | _ =>
        sendable m rule (esp_hdr_len (bool_decide (md = IPSEC_SECURITY_GW_UDP_TRANSPORT))) (zlen (f_pl f))
          (f_eth f) (f_ip f) (f_proto f) (f_pl f) z r
    end.

(** The packet [m] holds the frame of [f], whatever its vector and check value
    and the padding behind it, laid out as the receiver can read it. *)
Definition carries (md : ipsec_security_gw_mode) (rule : encrypt_rule) (icv_len sn : Z)
    (m : rte_mbuf) (f : flow_pkt) : Prop :=
  exists iv icv z r, let e := encapsulate md rule f in
    zlen icv = icv_len /\
    receivable m (e_udp e) (esp_hdr_len (e_udp e)) (e_eth e) (e_ip e) (esp_spi rule) sn iv
      (e_pl e) (e_proto e) icv z r.

Definition enc_rule_idx (m : rte_mbuf) : Z := Z.land (metadata m) (u32 (Z.lor (2 ^ 31) (2 ^ 30) - 1)).
Definition dec_rule_idx (m : rte_mbuf) : Z := Z.land (metadata m) (u32 (2 ^ 30 - 1)).

Definition holds_frame (e : encap) (rule : encrypt_rule) (sn : Z) (m : rte_mbuf) : Prop :=
  exists icv r, zlen icv = enc_icv_length rule /\
    pkt m (frame e (esp_spi rule) sn (replicate 8 0) icv) r.

(** The branch of the sending loop that a good packet takes. *)
Lemma handle_unsecured_ok m ctx rule f :
  rte_flow_dynf_metadata_avail = true ->
  rd (encrypt_rules ctx) (enc_rule_idx m) = Some rule -> can_send (mode (config ctx)) rule m f ->
  let inc := sw_sn_inc_enable (config ctx) in
  (inc = true -> current_sn rule <> UINT32_MAX) ->
  exists m', handle_unsecured_packet m ctx = Some (true, m', bump ctx (enc_rule_idx m) rule) /\
    same_meta m m' /\
    holds_frame (encapsulate (mode (config ctx)) rule f) rule (sn_field inc (current_sn rule)) m'.
Proof.
  intros Hav Hr (z & r & HS) inc Hsn. unfold handle_unsecured_packet. rewrite Hav. cbn [negb].
  fold (enc_rule_idx m). set (i := enc_rule_idx m) in *.
  assert (Ec : check_if_last_sn ctx i = Some DOCA_SUCCESS).
  { unfold check_if_last_sn. fold inc. destruct inc; cbn [negb]; [|done].
    rewrite Hr. obind. destruct (Z.eqb_spec (current_sn rule) UINT32_MAX); [naive_solver | done]. }
  rewrite Ec. obind. cbn [bool_decide negb]. unfold holds_frame, frame, encapsulate.
  destruct (mode (config ctx)) eqn:Em; cbn [e_udp e_eth e_ip e_pl e_proto].
  - destruct (prepare_tunnel_ok ctx i rule m _ _ _ _ z r Hr HS) as (m' & icv & r' & E & Hi & HM & HP).
    exists m'. rewrite E. split; [done|]. split; [done|]. eauto.
  - destruct (prepare_transport_ok ctx i rule false m _ _ _ _ z r Hr HS) as (m' & icv & r' & E & Hi & HM & HP).
    exists m'. rewrite E. split; [done|]. split; [done|]. eauto.
  - destruct (prepare_transport_ok ctx i rule true m _ _ _ _ z r Hr HS) as (m' & icv & r' & E & Hi & HM & HP).
    exists m'. rewrite E. split; [done|]. split; [done|]. eauto.
Qed.

(** The branch of the receiving loop that a frame takes once its sequence number
    is accepted. *)
Lemma handle_secured_ok m ctx ctx' drule md rule sn f :
  rte_flow_dynf_metadata_avail = true -> mode (config ctx) = md ->
  check_replay m ctx (dec_rule_idx m) = Some (false, ctx') ->
  config ctx' = config ctx -> decrypt_rules ctx' = decrypt_rules ctx ->
  rd (decrypt_rules ctx) (dec_rule_idx m) = Some drule ->
  carries md rule (dec_icv_length drule) sn m f ->
  exists m', handle_secured_packet m ctx = Some (true, m', ctx') /\ data m' = delivered md rule f.
Proof.
  intros Hav Hmd Hck Hcfg Hdr Hr (iv & icv & z & r & Hicv & HR). symmetry in Hicv.
  rewrite <- Hdr in Hr. unfold handle_secured_packet. rewrite Hav. cbn [negb].
  fold (dec_rule_idx m). rewrite Hck. obind. rewrite Hcfg, Hmd. unfold encapsulate, delivered, plain in *.
  destruct md; cbn [e_udp e_eth e_ip e_pl e_proto] in HR.
  - destruct (decap_tunnel_ok _ _ _ _ _ _ _ _ _ _ _ _ _ _ Hr Hicv HR) as (m' & r' & E & _ & HP).
    rewrite E. exists m'. split; [done|]. by rewrite (pkt_data _ _ _ HP).
  - destruct (decap_transport_ok _ _ _ _ _ _ _ _ _ _ _ _ _ _ _ Hr Hicv HR) as (m' & r' & E & _ & HP).
    rewrite E. exists m'. split; [done|]. by rewrite (pkt_data _ _ _ HP).
  - destruct (decap_transport_ok _ _ _ _ _ _ _ _ _ _ _ _ _ _ _ Hr Hicv HR) as (m' & r' & E & _ & HP).
    rewrite E. exists m'. split; [done|]. by rewrite (pkt_data _ _ _ HP).
Qed.

Lemma carries_sn md rule n sn m f : carries md rule n sn m f -> in_u 32 sn -> get_esp_sn m md = Some sn.
Proof.
  intros (iv & icv & z & r & _ & HR) Hsn. destruct md; cbn in HR; (eapply get_esp_sn_ok; [exact HR|..]);
    try done; simpl; lia.
Qed.

(** The replay check accepts a sequence number that the window has not seen. *)
Lemma check_replay_fresh m ctx md rule n sn f st w :
  mode (config ctx) = md -> carries md rule n sn m f -> in_u 32 sn ->
  (sw_antireplay (config ctx) = true -> rd (antireplay_states ctx) (dec_rule_idx m) = Some st) ->
  refines st w -> top w - 64 < sn -> sn ∉ seen w ->
  exists ctx' st', check_replay m ctx (dec_rule_idx m) = Some (false, ctx') /\
    config ctx' = config ctx /\ decrypt_rules ctx' = decrypt_rules ctx /\
    (sw_antireplay (config ctx) = true -> rd (antireplay_states ctx') (dec_rule_idx m) = Some st') /\
    refines st' {| top := Z.max (top w) sn; seen := {[sn]} ∪ seen w |}.
Proof.
  intros Hmd HC Hsn Hst HR Hlo Hns. unfold check_replay.
  destruct (anti_replay_step sn st w Hsn HR) as (st' & E & HR'). unfold spec_step in E, HR'.
  rewrite decide_False in E, HR' by (intros [?|?]; [lia | done]).
  destruct (sw_antireplay (config ctx)) eqn:Ea.
  - rewrite Hmd, (carries_sn _ _ _ _ _ _ HC Hsn). obind. rewrite Hst by done. obind. rewrite E. obind.
    cbn [fst]. destruct (rd_range _ _ _ (Hst eq_refl)). rewrite wr_Some by done. obind.
    eexists _, st'. split; [done|]. split; [done|]. split; [done|]. split; [|done].
    intros _. eapply rd_wr_eq. by apply wr_Some.
  - exists ctx, st'. done.
Qed.

(** A sequence of packets with increasing sequence numbers. *)
Fixpoint stream (P : Z -> rte_mbuf -> flow_pkt -> Prop) (sn : Z) (ms : list rte_mbuf) (fs : list flow_pkt) : Prop :=
  match ms, fs with
  | [], [] => True
  | m :: ms', f :: fs' => P sn m f /\ stream P (sn + 1) ms' fs'
  | _, _ => False
  end.

Lemma rd_bump ctx i rule :
  rd (encrypt_rules ctx) i = Some rule ->
  rd (encrypt_rules (bump ctx i rule)) i = Some (set_sn rule (u32 (current_sn rule + 1))).
Proof.
  intros Hr. eapply rd_wr_eq. apply wr_Some. by eapply rd_range.
Qed.

Lemma can_send_set_sn md rule n m f : can_send md rule m f -> can_send md (set_sn rule n) m f.
Proof. intros (z & r & HS). exists z, r. destruct md; destruct HS; by split. Qed.

(** The sender numbers the packets of a rule one after the other. *)
Lemma send_stream ms fs ctx i rule :
  rte_flow_dynf_metadata_avail = true -> sw_sn_inc_enable (config ctx) = true ->
  rd (encrypt_rules ctx) i = Some rule -> 0 <= current_sn rule ->
  current_sn rule + zlen ms <= UINT32_MAX ->
  Forall2 (fun m f => enc_rule_idx m = i /\ can_send (mode (config ctx)) rule m f) ms fs ->
  exists out ctx', handle_unsecured_packets_received ms ctx = Some (out, [], ctx') /\
    stream (fun sn m f => holds_frame (encapsulate (mode (config ctx)) rule f) rule sn m) (current_sn rule) out fs /\
    rd (encrypt_rules ctx') i = Some (set_sn rule (current_sn rule + zlen ms)).
Proof.
  intros Hav. revert fs ctx rule. induction ms as [|m ms IH]; intros fs ctx rule Hinc Hr H0r Hmax HF.
  { apply Forall2_nil_inv_l in HF as ->. exists [], ctx. split; [done|]. split; [done|].
    rewrite Hr. simpl. destruct rule. unfold set_sn. simpl. do 2 f_equal. lia. }
  apply Forall2_cons_inv_l in HF as (f & fs' & [Hi HS] & HF & ->). cbn [length] in Hmax.
  destruct (handle_unsecured_ok m ctx rule f Hav) as (m' & E & HM & Hfr).
  { by rewrite Hi. } { done. } { unfold UINT32_MAX in *. lia. }
  rewrite Hi, Hinc in *. cbn [sn_field] in Hfr.
  set (rule' := set_sn rule (u32 (current_sn rule + 1))).
  assert (Hsn' : current_sn rule' = current_sn rule + 1).
  { unfold rule'. simpl. apply wrap_small. unfold UINT32_MAX in *. lia. }
  destruct (IH fs' (bump ctx i rule) rule') as (out & ctx' & E' & Hst & Hr').
  { done. } { by apply rd_bump. } { lia. } { lia. }
  { eapply Forall2_impl; [exact HF|]. intros a b [? ?]. split; [done|]. by apply can_send_set_sn. }
  exists (m' :: out), ctx'. unfold handle_unsecured_packets_received in *. cbn [handle_packets].
  rewrite E. obind. rewrite E'. obind. split; [done|]. rewrite Hsn' in *. split; [split; [done | exact Hst]|].
  rewrite Hr'. unfold rule', set_sn. simpl. do 2 f_equal. lia.
Qed.

(** The receiver takes in a numbered stream whole. *)
Lemma receive_stream ws fs ctx j drule rule sn st w :
  rte_flow_dynf_metadata_avail = true -> rd (decrypt_rules ctx) j = Some drule ->
  (sw_antireplay (config ctx) = true -> rd (antireplay_states ctx) j = Some st) ->
  refines st w -> top w - 64 < sn -> (forall s, s ∈ seen w -> s < sn) ->
  0 <= sn -> sn + zlen ws <= UINT32_MAX ->
  stream (fun sn m f => dec_rule_idx m = j /\ carries (mode (config ctx)) rule (dec_icv_length drule) sn m f)
    sn ws fs ->
  exists out ctx', handle_secured_packets_received ws ctx = Some (out, [], ctx') /\
    Forall2 (fun m f => data m = delivered (mode (config ctx)) rule f) out fs.
Proof.
  intros Hav. revert fs ctx sn st w. induction ws as [|m ws IH]; intros fs ctx sn st w Hr Hst HR Hlo Hseen H0s Hmax HS.
  { destruct fs; [|done]. exists [], ctx. by split; [|constructor]. }
  destruct fs as [|f fs]; [done|]. destruct HS as [[Hj HC] HS]. cbn [length] in Hmax.
  assert (Hsn : in_u 32 sn) by (unfold UINT32_MAX in *; split; lia).
  destruct (check_replay_fresh m ctx (mode (config ctx)) rule _ sn f st w eq_refl HC Hsn)
    as (ctx1 & st1 & Eck & Hcfg & Hdr & Hst1 & HR1).
  { by rewrite Hj. } { done. } { done. } { intros ?%Hseen. lia. }
  destruct (handle_secured_ok m ctx ctx1 drule _ rule sn f Hav eq_refl Eck Hcfg Hdr) as (m' & E & Hd).
  { by rewrite Hj. } { done. }
  rewrite Hj in *. destruct (IH fs ctx1 (sn + 1) st1 {| top := Z.max (top w) sn; seen := {[sn]} ∪ seen w |}) as (out & ctx' & E' & HF).
  { by rewrite Hdr. } { by rewrite Hcfg. } { exact HR1. } { simpl. lia. }
  { simpl. intros s. rewrite elem_of_union, elem_of_singleton. intros [->|?%Hseen]; lia. }
  { lia. } { lia. } { by rewrite Hcfg. }
  exists (m' :: out), ctx'. unfold handle_secured_packets_received in *. cbn [handle_packets].
  rewrite E. obind. rewrite E'. obind. split; [done|]. constructor; [done|]. by rewrite <- Hcfg.
Qed.

End Modes.

(** ** Start-up *)

Lemma set_sequence_numbers_ok n sn rules :
  (n <= length rules)%nat ->
  exists rules', set_sequence_numbers n sn rules = Some rules' /\ length rules' = length rules /\
    (forall i, (n <= i)%nat -> rules' !! i = rules !! i) /\
    (forall i rule, (i < n)%nat -> rules !! i = Some rule -> rules' !! i = Some (set_sn rule sn)).
Proof.
  induction n as [|n IH]; intros Hn; cbn [set_sequence_numbers]; [naive_solver lia|].
  destruct IH as (rs & -> & Hl & Hge & Hlt); [lia|]. obind.
  destruct (lookup_lt_is_Some_2 rs n) as [rule Hrule]; [lia|].
  unfold rd. rewrite decide_True by lia. rewrite Nat2Z.id, Hrule. obind.
  rewrite wr_Some by lia. rewrite Nat2Z.id. eexists. split; [done|].
  split; [by rewrite length_insert|]. split; intros i; [intros Hi | intros r Hi Hr].
  - rewrite list_lookup_insert_ne by lia. apply Hge. lia.
  - destruct (decide (i = n)) as [->|Hne].
    + rewrite list_lookup_insert_eq by lia. do 2 f_equal. rewrite Hge in Hrule by lia. congruence.
    + rewrite list_lookup_insert_ne by done. apply Hlt; [lia|done].
Qed.

(** Both ends of a rule start from the configured sequence number. *)
Lemma init_traffic_ok cfg rules drules states :
  sw_sn_inc_enable cfg = true -> sw_antireplay cfg = true ->
  0 <= sn_initial cfg <= UINT32_MAX - WINDOW_SIZE ->
  zlen rules = MAX_NB_RULES -> zlen states = MAX_NB_RULES ->
  exists ctx, init_traffic cfg rules drules (Some states) = Some (DOCA_SUCCESS, ctx) /\
    config ctx = cfg /\ decrypt_rules ctx = drules /\
    (forall i rule, rd rules i = Some rule -> rd (encrypt_rules ctx) i = Some (set_sn rule (sn_initial cfg))) /\
    (forall i, 0 <= i < MAX_NB_RULES -> rd (antireplay_states ctx) i = Some (initial_state (sn_initial cfg))).
Proof.
  intros Hinc Har Hsn Hl Hl2.
  assert (Hu : u32 (sn_initial cfg) = sn_initial cfg).
  { apply wrap_id. unfold UINT32_MAX, WINDOW_SIZE, in_u in *. lia. }
  unfold init_traffic. rewrite Hinc, Har, Hu.
  destruct (set_sequence_numbers_ok (Z.to_nat MAX_NB_RULES) (sn_initial cfg) rules) as (rs & -> & Hlr & _ & Hlt).
  { lia. }
  obind. destruct (init_states_ok MAX_NB_RULES (sn_initial cfg) states 0) as (ss & E & _);
    [done | unfold MAX_NB_RULES in *; lia | done |].
  rewrite E. obind. eexists. split; [done|]. split; [done|]. split; [done|]. split.
  - intros i rule Hr. pose proof (rd_range _ _ _ Hr). unfold rd in *. rewrite decide_True in * by lia.
    apply Hlt; [unfold MAX_NB_RULES in *; lia | done].
  - intros i Hi. destruct (init_states_ok MAX_NB_RULES (sn_initial cfg) states i) as (ss' & E' & Hi');
      [done | lia | done |].
    assert (ss' = ss) as -> by congruence. exact Hi'.
Qed.

(** ** The transmit loop *)

Section Transmit.
Context `{Dpdk} {nic : Type} (tx : list rte_mbuf -> nic -> Z * nic).
(** rte_ethdev.h: the number of packets actually stored in the queue. *)
Context (tx_count : forall ps w, 0 <= (tx ps w).1 <= zlen ps).

Lemma tx_tries_ok fuel processed nb tries w :
  0 <= nb <= zlen processed -> - 2 ^ 31 < tries -> tries < Z.of_nat fuel -> (0 < fuel)%nat ->
  exists nb' tries' w', tx_tries tx fuel processed nb tries w = Some (nb', tries', w') /\
    nb <= nb' <= zlen processed /\ Z.min tries 1 - 1 <= tries' < tries /\
    (nb' = zlen processed \/ tries' <= 0).
Proof.
  revert nb tries w. induction fuel as [|fuel IH]; intros nb tries w Hnb Ht Hf H0; [lia|].
  cbn [tx_tries]. pose proof (tx_count (drop (Z.to_nat nb) processed) w) as Hn.
  destruct (tx (drop (Z.to_nat nb) processed) w) as [n w1]. cbn [fst] in Hn. rewrite length_drop in Hn.
  replace (tries =? - 2 ^ 31) with false by lia.
  destruct ((nb + n <? zlen processed) && (0 <? tries - 1)) eqn:E.
  - apply andb_true_iff in E as [E1 E2]. apply Z.ltb_lt in E1, E2.
    destruct (IH (nb + n) (tries - 1) w1) as (nb' & t' & w' & -> & ? & ? & ?); [lia..|].
    exists nb', t', w'. split; [done|]. repeat split; (lia || done).
  - exists (nb + n), (tries - 1), w1. split; [done|]. apply andb_false_iff in E.
    rewrite !Z.ltb_ge in E. repeat split; lia.
Qed.

Lemma tx_tries_once fuel processed tries w :
  - 2 ^ 31 < tries <= 1 ->
  tx_tries tx (S fuel) processed 0 tries w =
  Some ((tx processed w).1, tries - 1, (tx processed w).2).
Proof.
  intros Ht. cbn [tx_tries]. rewrite drop_0. destruct (tx processed w) as [n w1]. cbn [fst snd].
  replace (tries =? - 2 ^ 31) with false by lia.
  replace (0 <? tries - 1) with false by lia. by rewrite andb_false_r.
Qed.

Lemma handle_packets_lengths body packets ctx ok bad ctx' :
  handle_packets body packets ctx = Some (ok, bad, ctx') ->
  (length ok + length bad)%nat = length packets.
Proof.
  revert ctx ok bad ctx'. induction packets as [|m ms IH]; intros ctx ok bad ctx'; cbn [handle_packets].
  { by intros [= <- <- <-]. }
  destruct (body m ctx) as [[[b m'] ctx1]|]; obind; [|done].
  destruct (handle_packets body ms ctx1) as [[[ok1 bad1] ctx2]|] eqn:E; obind; [|done].
  apply IH in E. destruct b; intros [= <- <- <-]; simpl; lia.
Qed.

Lemma process_burst_inv secured packets st b st' :
  process_burst tx secured packets st = Some (b, st') -> packets <> [] ->
  exists processed to_drop ctx nb tries w,
    (if secured then handle_secured_packets_received packets (wctx st)
     else handle_unsecured_packets_received packets (wctx st)) = Some (processed, to_drop, ctx) /\
    tx_tries tx (S (Z.to_nat (num_of_tries st))) processed 0 (num_of_tries st) (wnic st) = Some (nb, tries, w) /\
    (length processed + length to_drop)%nat = length packets /\
    b = Burst (take (Z.to_nat nb) processed) (drop (Z.to_nat nb) processed)
          (take (Z.to_nat (u16 (zlen packets - zlen processed))) to_drop) /\ st' = Worker ctx tries w.
Proof.
  intros HE Hne. unfold process_burst in HE. rewrite bool_decide_false in HE by done. revert HE.
  match goal with |- context [mbind _ ?x] => destruct x as [[[ok bad] ctx]|] eqn:E; obind; [|done] end.
  destruct (tx_tries _ _ _ _ _ _) as [[[nb tries] w]|] eqn:Et; obind; [|done].
  intros [= <- <-]. exists ok, bad, ctx, nb, tries, w. split; [done|]. split; [done|]. split; [|done].
  destruct secured; eauto using handle_packets_lengths.
Qed.

Lemma process_bursts_tries bursts st bs st' :
  process_bursts tx bursts st = Some (bs, st') -> Forall (fun b => b.2 <> []) bursts ->
  - 2 ^ 31 + zlen bursts < Z.min (num_of_tries st) 1 ->
  Z.min (num_of_tries st) 1 - zlen bursts <= num_of_tries st' <= num_of_tries st - zlen bursts.
Proof.
  revert st bs st'. induction bursts as [|[sec ps] rest IH]; intros st bs st' HE HF Ht; cbn [process_bursts] in HE.
  { injection HE as <- <-. simpl in *. lia. }
  apply Forall_cons in HF as [Hne HF]. simpl in Hne. revert HE.
  destruct (process_burst tx sec ps st) as [[b st1]|] eqn:E1; obind; [|done].
  destruct (process_bursts tx rest st1) as [[bs1 st2]|] eqn:E2; obind; [|done].
  intros [= <- <-]. destruct (process_burst_inv _ _ _ _ _ E1 Hne)
    as (ok & bad & ctx & nb & tries & w & _ & Et & _ & _ & ->).
  destruct (tx_tries_ok (S (Z.to_nat (num_of_tries st))) ok 0 (num_of_tries st) (wnic st))
    as (nb' & t' & w' & Et' & _ & Htr & _); [lia..|].
  assert (t' = tries) as -> by congruence. cbn [length] in *.
  destruct (IH _ _ _ E2 HF); cbn [num_of_tries] in *; lia.
Qed.

End Transmit.

(** ** Sequence numbers under several rules *)

Section Numbers.
Context `{DpdkLaws}.

(** The packet [m] is the frame of rule [l.1] with sequence number [l.2]. *)
Definition labelled (ctx : ipsec_security_gw_core_ctx) (m : rte_mbuf) (l : Z * Z) : Prop :=
  enc_rule_idx m = l.1 /\
  exists rule f, rd (encrypt_rules ctx) l.1 = Some rule /\
    holds_frame (encapsulate (mode (config ctx)) rule f) rule l.2 m.

Definition numbered (ctx : ipsec_security_gw_core_ctx) (l : Z * Z) : Prop :=
  exists rule, rd (encrypt_rules ctx) l.1 = Some rule /\ current_sn rule <= l.2 < UINT32_MAX.

Definition ready (ctx : ipsec_security_gw_core_ctx) (m : rte_mbuf) : Prop :=
  exists rule f, rd (encrypt_rules ctx) (enc_rule_idx m) = Some rule /\
    can_send (mode (config ctx)) rule m f.

Lemma rd_bump_inv ctx i rule j rj :
  rd (encrypt_rules ctx) i = Some rule -> in_u 32 (current_sn rule) -> current_sn rule <> UINT32_MAX ->
  rd (encrypt_rules (bump ctx i rule)) j = Some rj ->
  exists r0, rd (encrypt_rules ctx) j = Some r0 /\ rj = set_sn r0 (current_sn rj) /\
    current_sn rj = current_sn r0 + (if decide (j = i) then 1 else 0).
Proof.
  intros Hr Hu Hne Hj. destruct (decide (j = i)) as [->|Hji].
  - rewrite (rd_bump _ _ _ Hr) in Hj. injection Hj as <-. exists rule. split; [done|]. split; [done|].
    simpl. apply wrap_small. unfold UINT32_MAX, in_u in *. lia.
  - pose proof (rd_range _ _ _ Hr). erewrite rd_wr_ne in Hj; [|done|by apply wr_Some].
    exists rj. split; [done|]. split; [by destruct rj | lia].
Qed.

Lemma labelled_bump ctx i rule m l :
  rd (encrypt_rules ctx) i = Some rule -> in_u 32 (current_sn rule) -> current_sn rule <> UINT32_MAX ->
  labelled (bump ctx i rule) m l -> labelled ctx m l.
Proof.
  intros Hr Hu Hne (Hl & rj & f & Hj & HF). split; [done|].
  destruct (rd_bump_inv _ _ _ _ _ Hr Hu Hne Hj) as (r0 & H0' & E & _). rewrite E in HF.
  exists r0, f. split; [done|]. unfold encapsulate in *. by destruct (mode (config ctx)) eqn:Em;
    simpl in HF; rewrite Em in HF.
Qed.

Lemma ready_bump ctx i rule m :
  rd (encrypt_rules ctx) i = Some rule -> ready ctx m -> ready (bump ctx i rule) m.
Proof.
  intros Hr (r0 & f & H0' & HS). destruct (decide (enc_rule_idx m = i)) as [<-|Hne].
  - rewrite Hr in H0'. injection H0' as <-. eexists _, f. split; [by apply rd_bump|]. by apply can_send_set_sn.
  - exists r0, f. split; [|done]. pose proof (rd_range _ _ _ Hr).
    erewrite rd_wr_ne; [exact H0' | | by apply wr_Some]. done.
Qed.

Lemma handle_unsecured_exhausted m ctx rule :
  rte_flow_dynf_metadata_avail = true -> sw_sn_inc_enable (config ctx) = true ->
  rd (encrypt_rules ctx) (enc_rule_idx m) = Some rule -> current_sn rule = UINT32_MAX ->
  handle_unsecured_packet m ctx = Some (false, m, ctx).
Proof.
  intros Hav Hinc Hr Hsn. unfold handle_unsecured_packet. rewrite Hav. cbn [negb].
  fold (enc_rule_idx m). unfold check_if_last_sn. rewrite Hinc. cbn [negb]. rewrite Hr. obind.
  by rewrite Hsn, Z.eqb_refl.
Qed.

Lemma bump_in_u ctx i rule :
  Forall (fun r => in_u 32 (current_sn r)) (encrypt_rules ctx) ->
  Forall (fun r => in_u 32 (current_sn r)) (encrypt_rules (bump ctx i rule)).
Proof.
  intros HF. apply Forall_insert; [done|]. simpl. by apply wrap_range.
Qed.

Lemma send_numbered ms ctx :
  rte_flow_dynf_metadata_avail = true -> sw_sn_inc_enable (config ctx) = true ->
  Forall (fun r => in_u 32 (current_sn r)) (encrypt_rules ctx) -> Forall (ready ctx) ms ->
  exists out rest ctx' tr, handle_unsecured_packets_received ms ctx = Some (out, rest, ctx') /\
    Forall2 (labelled ctx) out tr /\ NoDup tr /\ Forall (numbered ctx) tr.
Proof.
  intros Hav. revert ctx. induction ms as [|m ms IH]; intros ctx Hinc Hu HF.
  { exists [], [], ctx, []. split; [done|]. repeat split; constructor. }
  apply Forall_cons in HF as [(rule & f & Hr & HS) HF].
  unfold handle_unsecured_packets_received in *. cbn [handle_packets].
  assert (Hru : in_u 32 (current_sn rule)).
  { rewrite Forall_forall in Hu. apply Hu. unfold rd in Hr. case_decide; [|done]. by eapply list_elem_of_lookup_2. }
  destruct (decide (current_sn rule = UINT32_MAX)) as [Hmax|Hmax].
  - rewrite (handle_unsecured_exhausted m ctx rule) by done. obind.
    destruct (IH ctx Hinc Hu HF) as (out & rest & ctx' & tr & E & Htr). rewrite E. obind.
    exists out, (m :: rest), ctx', tr. done.
  - destruct (handle_unsecured_ok m ctx rule f Hav Hr HS) as (m' & E & HM & HL); [done|].
    rewrite E. obind. rewrite Hinc in HL. cbn [sn_field] in HL.
    destruct (IH (bump ctx (enc_rule_idx m) rule)) as (out & rest & ctx' & tr & E' & H2 & HN & HR).
    { done. } { by apply bump_in_u. } { eapply Forall_impl; [exact HF|]. intros x Hx. by apply ready_bump. }
    rewrite E'. obind. exists (m' :: out), rest, ctx', ((enc_rule_idx m, current_sn rule) :: tr).
    split; [done|].
    assert (HR' : Forall (fun l => numbered ctx l /\ (l.1 = enc_rule_idx m -> current_sn rule < l.2)) tr).
    { eapply Forall_impl; [exact HR|]. intros l (rj & Hj & Hlj).
      destruct (rd_bump_inv _ _ _ _ _ Hr Hru Hmax Hj) as (r0 & H0' & _ & Es).
      case_decide as Ed; [|split; [exists r0; split; [done|lia] | done]].
      split; [exists r0; split; [done|lia]|]. intros _. rewrite Ed, Hr in H0'. injection H0' as <-. lia. }
    split; [|split].
    + constructor; [|eapply Forall2_impl; [exact H2|]; intros; by eapply labelled_bump].
      split; [unfold enc_rule_idx; by destruct HM as [_ ->] | by exists rule, f].
    + constructor; [|done]. intros Hin. rewrite Forall_forall in HR'.
      destruct (HR' _ Hin) as [_ Hlt]. specialize (Hlt eq_refl). simpl in Hlt. lia.
    + constructor; [|eapply Forall_impl; [exact HR'|]; naive_solver].
      exists rule. split; [done|]. simpl. unfold UINT32_MAX, in_u in *. lia.
Qed.

End Numbers.

(** ** Streams *)

Lemma stream_impl (P Q : Z -> rte_mbuf -> flow_pkt -> Prop) sn ms fs :
  (forall sn m f, P sn m f -> Q sn m f) -> stream P sn ms fs -> stream Q sn ms fs.
Proof.
  intros HPQ. revert sn fs. induction ms as [|m ms IH]; intros sn [|f fs]; cbn [stream]; try done.
  intros [? ?]. auto.
Qed.

Lemma stream_length P sn ms fs : stream P sn ms fs -> length ms = length fs.
Proof.
  revert sn fs. induction ms as [|m ms IH]; intros sn [|f fs]; cbn [stream]; try done.
  intros [_ HS]. simpl. f_equal. eauto.
Qed.

Lemma holds_frame_set_sn md rule n f sn m :
  holds_frame (encapsulate md (set_sn rule n) f) (set_sn rule n) sn m ->
  holds_frame (encapsulate md rule f) rule sn m.
Proof. by destruct md. Qed.

(** ** Properties *)

(** Concrete packets for the witnesses: one segment with 64 bytes of room on
    either side. *)
Definition mk_mbuf (d : list Z) (ptype md : Z) : rte_mbuf :=
  Mbuf [Seg (replicate 64 0 ++ d ++ replicate 64 0) 64 (zlen d)] (zlen d) ptype md.

Lemma mk_pkt d ptype md :
  zlen d < 65536 -> pkt (mk_mbuf d ptype md) d (Room true 64 (zlen d) (zlen d) 64).
Proof. intros. split; [done|]. split; [done|]. by exists (replicate 64 0), (replicate 64 0). Qed.

Definition ex_ip : ip_hdr := IpHdr true [69; 0] [0; 0; 0; 0; 64] [1; 2; 10; 0; 0; 1; 10; 0; 0; 2].
Definition ex_flow : flow_pkt := FlowPkt [2; 0; 0; 0; 0; 1; 2; 0; 0; 0; 0; 2; 8; 0] ex_ip 17 [9; 8; 7; 6; 5].
Definition ex_rule : encrypt_rule :=
  EncRule DOCA_FLOW_L3_TYPE_IP4 DOCA_FLOW_L3_TYPE_IP6 (1, 2, 3, 4) 4660 7 16.
Definition ex_ctx (md : ipsec_security_gw_mode) : ipsec_security_gw_core_ctx :=
  Ctx (Config true true md 7) [ex_rule] [DecRule 16] [initial_state 7].
(** The packet with one byte of Ethernet padding. *)
Definition ex_mbuf : rte_mbuf := mk_mbuf (plain ex_flow ++ [0]) 16 0.

(** The fields of [sendable] and [receivable] of a concrete packet. *)
Ltac check_fields ip_ok :=
  split; [apply mk_pkt; reflexivity|..]; try done; try (apply ip_ok); try (by split); try (vm_compute; discriminate).

Lemma ex_ip_ok : ip_hdr_ok ex_ip.
Proof. split; [|done]. exists 69, 0. split; [done|]. split; [by split | done]. Qed.

Lemma ex_sendable hdr plen :
  0 <= hdr <= 56 -> pad_len plen <= 3 ->
  @sendable dpdk_ref ex_mbuf ex_rule hdr plen (f_eth ex_flow) ex_ip 17 (f_pl ex_flow) [0] (Room true 64 40 40 64).
Proof.
  intros Hh Hp. split; try done; try (apply ex_ip_ok); try (simpl; lia).
  - by apply (mk_pkt (plain ex_flow ++ [0])).
  - change (hdr_len ex_ip) with 20. simpl. lia.
Qed.

(** C28: transport mode (also over UDP) is transparent.  From a packet with room
    for the headers the sender builds the ESP frame of its rule, with the
    rule's SPI and current sequence number, and counts that number.  Whatever
    initialisation vector, integrity check value and Ethernet padding such a
    frame has when it arrives, and however its bytes lie in memory, the receiver
    turns it into the packet the sender was given: headers, length, protocol and
    payload. *)
Theorem transport_round_trip `{DpdkLaws} ctx i rule (udp : bool) m f z r :
  rd (encrypt_rules ctx) i = Some rule ->
  sendable m rule (esp_hdr_len udp) (zlen (f_pl f)) (f_eth f) (f_ip f) (f_proto f) (f_pl f) z r ->
  let sn := sn_field (sw_sn_inc_enable (config ctx)) (current_sn rule) in
  (exists m' icv r',
     prepare_packet_transport m ctx i udp = Some (DOCA_SUCCESS, m', bump ctx i rule) /\
     zlen icv = enc_icv_length rule /\
     pkt m' (esp_frame udp (f_eth f) (f_ip f) (esp_spi rule) sn (replicate 8 0) (f_pl f) (f_proto f) icv) r') /\
  (forall w iv icv z' r' ctx' j drule,
     receivable w udp (esp_hdr_len udp) (f_eth f) (f_ip f) (esp_spi rule) sn iv (f_pl f) (f_proto f) icv z' r' ->
     rd (decrypt_rules ctx') j = Some drule -> dec_icv_length drule = zlen icv ->
     exists w', decap_packet_transport w ctx' j udp = Some (DOCA_SUCCESS, w') /\
       data w' = plain f).
Proof.
  intros Hr HS sn. split.
  - destruct (prepare_transport_ok ctx i rule udp m _ _ _ _ z r Hr HS) as (m' & icv & r' & E & Hi & _ & HP).
    eauto 10.
  - intros w iv icv z' r' ctx' j drule HR Hj Hicv.
    destruct (decap_transport_ok _ _ _ _ _ _ _ _ _ _ _ _ _ _ _ Hj Hicv HR) as (w' & rw & E & _ & HP).
    exists w'. by rewrite (pkt_data _ _ _ HP).
Qed.

Lemma transport_round_trip_witness :
  exists w', @decap_packet_transport dpdk_ref
    (mk_mbuf (esp_frame true (f_eth ex_flow) ex_ip 4660 7 (replicate 8 3) (f_pl ex_flow) 17 (replicate 16 5)
              ++ [0; 0; 0]) 16 0) (ex_ctx IPSEC_SECURITY_GW_UDP_TRANSPORT) 0 true = Some (DOCA_SUCCESS, w') /\
    data w' = plain ex_flow.
Proof.
  destruct (@transport_round_trip dpdk_ref dpdk_ref_laws (ex_ctx IPSEC_SECURITY_GW_UDP_TRANSPORT) 0 ex_rule true
    ex_mbuf ex_flow [0] (Room true 64 40 40 64)) as [_ Hd].
  - done.
  - apply ex_sendable; [done|]. by apply (bool_decide_unpack _); vm_compute.
  - eapply (Hd _ (replicate 8 3) (replicate 16 5) [0; 0; 0]); [|done..].
    check_fields ex_ip_ok.
Defined.

(** C29: tunnel mode is transparent for IP packets.  The sender puts the whole IP
    packet, without its Ethernet header, into the ESP frame of the rule's
    tunnel; the receiver turns any such frame into the same IP packet behind the
    tunnel's Ethernet addresses and the Ethernet type the trailer tells. *)
Theorem tunnel_round_trip `{DpdkLaws} ctx i rule m f z r :
  rd (encrypt_rules ctx) i = Some rule ->
  let ip := ip_packet (f_ip f) (f_proto f) (f_pl f) in
  let np := inner_proto (enc_l3_type rule) in
  let teth := tunnel_eth (is_ip4 (encap_l3_type rule)) in
  let sn := sn_field (sw_sn_inc_enable (config ctx)) (current_sn rule) in
  sendable m rule (tunnel_hdr_len rule) (zlen ip) (f_eth f) (f_ip f) (f_proto f) (f_pl f) z r ->
  (exists m' icv r',
     prepare_packet_tunnel m ctx i = Some (DOCA_SUCCESS, m', bump ctx i rule) /\
     zlen icv = enc_icv_length rule /\
     pkt m' (esp_frame false teth (outer_ip rule) (esp_spi rule) sn (replicate 8 0) ip np icv) r') /\
  (forall w iv icv z' r' ctx' j drule,
     receivable w false 16 teth (outer_ip rule) (esp_spi rule) sn iv ip np icv z' r' ->
     rd (decrypt_rules ctx') j = Some drule -> dec_icv_length drule = zlen icv ->
     exists w', decap_packet_tunnel w ctx' j = Some (DOCA_SUCCESS, w') /\
       data w' = delivered IPSEC_SECURITY_GW_TUNNEL rule f).
Proof.
  intros Hr ip np teth sn HS. split.
  - destruct (prepare_tunnel_ok ctx i rule m _ _ _ _ z r Hr HS) as (m' & icv & r' & E & Hi & _ & HP).
    eauto 10.
  - intros w iv icv z' r' ctx' j drule HR Hj Hicv.
    destruct (decap_tunnel_ok _ _ _ _ _ _ _ _ _ _ _ _ _ _ Hj Hicv HR) as (w' & rw & E & _ & HP).
    exists w'. by rewrite (pkt_data _ _ _ HP).
Qed.

Lemma tunnel_round_trip_witness :
  exists w', @decap_packet_tunnel dpdk_ref
    (mk_mbuf (esp_frame false (tunnel_eth false) (outer_ip ex_rule) 4660 7 (replicate 8 3)
                (ip_packet ex_ip 17 (f_pl ex_flow)) 4 (replicate 16 5)) 64 0)
    (ex_ctx IPSEC_SECURITY_GW_TUNNEL) 0 = Some (DOCA_SUCCESS, w') /\
    data w' = [170; 187; 204; 221; 238; 255; 17; 34; 51; 68; 85; 102; 8; 0] ++ ip_packet ex_ip 17 (f_pl ex_flow).
Proof.
  destruct (@tunnel_round_trip dpdk_ref dpdk_ref_laws (ex_ctx IPSEC_SECURITY_GW_TUNNEL) 0 ex_rule
    ex_mbuf ex_flow [0] (Room true 64 40 40 64)) as [_ Hd].
  - done.
  - apply ex_sendable; [done|]. by apply (bool_decide_unpack _); vm_compute.
  - eapply (Hd _ (replicate 8 3) (replicate 16 5) []); [|done..]. check_fields outer_ip6_ok.
Defined.

(** C30: an ESP sequence number is never used twice under one rule.  Whatever
    packets of whatever rules arrive in whatever order, every packet the gateway
    sends is the frame of its rule with a number of its own, from the rule's
    counter on and below the last value of 32 bits. *)
Theorem esp_sequence_never_reused `{DpdkLaws} ctx ms :
  rte_flow_dynf_metadata_avail = true -> sw_sn_inc_enable (config ctx) = true ->
  Forall (fun r => in_u 32 (current_sn r)) (encrypt_rules ctx) -> Forall (ready ctx) ms ->
  exists out rest ctx' labels,
    handle_unsecured_packets_received ms ctx = Some (out, rest, ctx') /\
    Forall2 (labelled ctx) out labels /\ NoDup labels /\ Forall (numbered ctx) labels.
Proof. apply send_numbered. Qed.

Lemma esp_sequence_never_reused_witness :
  exists out rest ctx' labels,
    @handle_unsecured_packets_received dpdk_ref [ex_mbuf; ex_mbuf] (ex_ctx IPSEC_SECURITY_GW_TRANSPORT)
      = Some (out, rest, ctx') /\
    Forall2 (labelled (ex_ctx IPSEC_SECURITY_GW_TRANSPORT)) out labels /\ NoDup labels /\
    Forall (numbered (ex_ctx IPSEC_SECURITY_GW_TRANSPORT)) labels.
Proof.
  assert (HR : @ready dpdk_ref (ex_ctx IPSEC_SECURITY_GW_TRANSPORT) ex_mbuf).
  { exists ex_rule, ex_flow. split; [done|]. exists [0], (Room true 64 40 40 64).
    apply ex_sendable; [done|]. by apply (bool_decide_unpack _); vm_compute. }
  apply (@esp_sequence_never_reused dpdk_ref dpdk_ref_laws); [done|done| |by repeat constructor].
  by apply (bool_decide_unpack _); vm_compute.
Defined.

(** C1: a stream of packets crosses two gateways complete and in order.  Two
    gateways that start with the same configuration agree on the first sequence
    number; the first one sends every packet of a rule's stream, in order; and
    when the second one gets those frames, it accepts every sequence number and
    hands on every packet as it was. *)
Theorem gateway_to_gateway `{DpdkLaws} cfg rules drules_s states_s rules_r drules states i j rule drule ms fs :
  rte_flow_dynf_metadata_avail = true ->
  sw_sn_inc_enable cfg = true -> sw_antireplay cfg = true ->
  0 <= sn_initial cfg <= UINT32_MAX - WINDOW_SIZE -> sn_initial cfg + zlen ms <= UINT32_MAX ->
  zlen rules = MAX_NB_RULES -> zlen states_s = MAX_NB_RULES ->
  zlen rules_r = MAX_NB_RULES -> zlen states = MAX_NB_RULES ->
  rd rules i = Some rule -> rd drules j = Some drule -> j < MAX_NB_RULES ->
  Forall2 (fun m f => enc_rule_idx m = i /\ can_send (mode cfg) rule m f) ms fs ->
  exists ctx_s ctx_r out ctx_s',
    init_traffic cfg rules drules_s (Some states_s) = Some (DOCA_SUCCESS, ctx_s) /\
    init_traffic cfg rules_r drules (Some states) = Some (DOCA_SUCCESS, ctx_r) /\
    handle_unsecured_packets_received ms ctx_s = Some (out, [], ctx_s') /\
    stream (fun sn m f => holds_frame (encapsulate (mode cfg) rule f) rule sn m) (sn_initial cfg) out fs /\
    forall ws,
      stream (fun sn w f => dec_rule_idx w = j /\ carries (mode cfg) rule (dec_icv_length drule) sn w f)
        (sn_initial cfg) ws fs ->
      exists received ctx_r', handle_secured_packets_received ws ctx_r = Some (received, [], ctx_r') /\
        Forall2 (fun m f => data m = delivered (mode cfg) rule f) received fs.
Proof.
  intros Hav Hinc Har Hsn Hmax Hl1 Hl2 Hl3 Hl4 Hr Hd Hj HF.
  destruct (init_traffic_ok cfg rules drules_s states_s) as (cs & Es & Hcs & _ & Hrs & _); [done..|].
  destruct (init_traffic_ok cfg rules_r drules states) as (cr & Er & Hcr & Hdr & _ & Hst); [done..|].
  destruct (send_stream ms fs cs i (set_sn rule (sn_initial cfg))) as (out & cs' & Eo & Hout & _);
    [done | by rewrite Hcs | by apply Hrs | simpl; lia | done | |].
  { rewrite Hcs. eapply Forall2_impl; [exact HF|]. intros m f [? ?]. split; [done|]. by apply can_send_set_sn. }
  exists cs, cr, out, cs'. split; [done|]. split; [done|]. split; [done|]. split.
  { rewrite Hcs in Hout. eapply stream_impl; [|exact Hout]. intros sn m f. apply holds_frame_set_sn. }
  intros ws HS. pose proof (stream_length _ _ _ _ HS) as Hlw.
  pose proof (Forall2_length _ _ _ HF) as Hlm. pose proof (rd_range _ _ _ Hd).
  destruct (receive_stream ws fs cr j drule rule (sn_initial cfg) (initial_state (sn_initial cfg))
              {| top := sn_initial cfg + 63; seen := ∅ |}) as (rcv & cr' & E & HR);
    rewrite ?Hcr, ?Hdr; try done.
  { intros _. apply Hst. lia. } { by apply refines_init. } { simpl. lia. } { lia. } { lia. }
  rewrite Hcr in HR. eauto.
Qed.

Lemma ex_carries :
  @carries dpdk_ref IPSEC_SECURITY_GW_TRANSPORT ex_rule 16 7
    (mk_mbuf (esp_frame false (f_eth ex_flow) ex_ip 4660 7 (replicate 8 3) (f_pl ex_flow) 17 (replicate 16 5)) 16 0) ex_flow.
Proof.
  exists (replicate 8 3), (replicate 16 5), []. eexists. split; [done|]. check_fields ex_ip_ok.
Qed.

(** A stream of one packet, over the whole rule table. *)
Lemma gateway_to_gateway_witness :
  exists received ctx_r ctx_r',
    init_traffic (config (ex_ctx IPSEC_SECURITY_GW_TRANSPORT)) (replicate 1024 ex_rule) [DecRule 16]
      (Some (replicate 1024 (initial_state 0))) = Some (DOCA_SUCCESS, ctx_r) /\
    @handle_secured_packets_received dpdk_ref
      [mk_mbuf (esp_frame false (f_eth ex_flow) ex_ip 4660 7 (replicate 8 3) (f_pl ex_flow) 17 (replicate 16 5)) 16 0]
      ctx_r = Some (received, [], ctx_r') /\
    data <$> received = [plain ex_flow].
Proof.
  destruct (@gateway_to_gateway dpdk_ref dpdk_ref_laws (config (ex_ctx IPSEC_SECURITY_GW_TRANSPORT))
    (replicate 1024 ex_rule) [DecRule 16] (replicate 1024 (initial_state 0))
    (replicate 1024 ex_rule) [DecRule 16] (replicate 1024 (initial_state 0)) 0 0 ex_rule (DecRule 16)
    [ex_mbuf] [ex_flow]) as (cs & cr & out & cs' & _ & Er & _ & _ & HR).
  1-3: reflexivity. 1-2: apply (bool_decide_unpack _); vm_compute; exact I.
  1-4: by rewrite length_replicate. 1-2: reflexivity. 1: reflexivity.
  - constructor; [|done]. split; [done|]. exists [0], (Room true 64 40 40 64).
    apply ex_sendable; [done|]. by apply (bool_decide_unpack _); vm_compute.
  - destruct (HR [mk_mbuf (esp_frame false (f_eth ex_flow) ex_ip 4660 7 (replicate 8 3) (f_pl ex_flow) 17
                             (replicate 16 5)) 16 0]) as (rcv & cr' & E & HD).
    + split; [split; [reflexivity | apply ex_carries] | exact I].
    + exists rcv, cr, cr'. split; [exact Er|]. split; [exact E|].
      apply Forall2_cons_inv_r in HD as (m & l & Hm & Hl & ->). apply Forall2_nil_inv_r in Hl as ->.
      simpl. by rewrite Hm.
Defined.

(** A packet without headroom is refused cleanly.  When the first segment has
    less room than the new headers need, both preparations return
    DOCA_ERROR_NO_MEMORY, no sequence number is used up, and the packet is the
    one that was given, less its Ethernet padding. *)
Theorem prepare_no_headroom `{DpdkLaws} ctx i rule m f z r :
  rd (encrypt_rules ctx) i = Some rule ->
  pkt m (plain f ++ z) r -> length (f_eth f) = 14%nat -> ip_hdr_ok (f_ip f) ->
  hdr_len (f_ip f) + zlen (f_pl f) < 65536 -> 14 + hdr_len (f_ip f) <= first r -> zlen z <= last r ->
  RTE_ETH_IS_IPV4_HDR (packet_type m) = v4 (f_ip f) ->
  exists m', data m' = plain f /\
    (head r < tunnel_hdr_len rule ->
     prepare_packet_tunnel m ctx i = Some (DOCA_ERROR_NO_MEMORY, m', ctx)) /\
    (forall udp, head r < esp_hdr_len udp ->
     prepare_packet_transport m ctx i udp = Some (DOCA_ERROR_NO_MEMORY, m', ctx)).
Proof.
  destruct f as [eth x proto pl]. unfold plain. cbn [f_eth f_ip f_proto f_pl]. rewrite <- app_assoc.
  intros Hr HP Heth Hx Hlen Hf Hz Hv.
  destruct (remove_trailing_zeros_ok _ _ _ _ _ _ _ HP Heth Hx) as (m0 & E0 & [Hpt _] & HP0); [lia..|done|].
  exists m0. split; [by rewrite (pkt_data _ _ _ HP0)|].
  assert (Hhl : 36 <= tunnel_hdr_len rule <= 56) by (unfold tunnel_hdr_len; case_match; lia). split.
  - intros Hh. unfold prepare_packet_tunnel. rewrite Hr. obind. rewrite E0. obind. cbv zeta.
    fold (is_ip4 (encap_l3_type rule)). unfold sizeof_ether_hdr.
    replace ((if is_ip4 (encap_l3_type rule) then 50 else 70) - 14) with (tunnel_hdr_len rule)
      by (unfold tunnel_hdr_len; case_match; lia).
    rewrite (wrap_small 32 (tunnel_hdr_len rule)) by (change (2 ^ 32) with 4294967296; lia).
    rewrite (wrap_small 16 (tunnel_hdr_len rule)) by (change (2 ^ 16) with 65536; lia).
    by rewrite (pkt_prepend_null _ _ _ HP0) by exact Hh.
  - intros udp Hh. assert (HP0' : pkt m0 ([] ++ eth ++ ip_bytes x (ip_len x (zlen pl)) proto ++ pl) (shrunk r (zlen z))).
    { eapply pkt_eq; [exact HP0 | unfold ip_packet; lassoc | done]. }
    pose proof (pkt_bounds _ _ _ HP0) as (_ & _ & _ & _ & _ & _ & Ho).
    assert (Hf0 : 14 + hdr_len x <= first (shrunk r (zlen z))).
    { pose proof (length_ip_hdr x (ip_len x (zlen pl)) proto) as Hb. destruct (one r) eqn:Eo; [|by simpl; rewrite Eo].
      rewrite (proj1 (Ho Eo)). unfold ip_packet. len. }
    pose proof (ip_l2_l3_length m0 [] eth x _ proto pl _ HP0' Heth Hx ltac:(cbn [length]; lia)
                  ltac:(by rewrite Hpt)) as Hl2.
    cbn [length] in Hl2. change (Z.of_nat 0) with 0 in Hl2.
    unfold prepare_packet_transport. rewrite Hr. obind. rewrite E0. obind.
    rewrite (pkt_mtod0 _ _ _ HP0). obind. rewrite Hl2. obind. cbv zeta.
    change (if udp then 24 else 16) with (esp_hdr_len udp).
    rewrite (wrap_small 16 (esp_hdr_len udp)) by (change (2 ^ 16) with 65536; destruct udp; simpl; lia).
    by rewrite (pkt_prepend_null _ _ _ HP0) by exact Hh.
Qed.

(** An IPv4 packet whose buffer has 8 bytes of headroom. *)
Lemma prepare_no_headroom_witness :
  exists m', @prepare_packet_tunnel dpdk_ref
    (Mbuf [Seg (replicate 8 0 ++ plain ex_flow) 8 39] 39 16 0) (ex_ctx IPSEC_SECURITY_GW_TUNNEL) 0 =
    Some (DOCA_ERROR_NO_MEMORY, m', ex_ctx IPSEC_SECURITY_GW_TUNNEL).
Proof.
  destruct (@prepare_no_headroom dpdk_ref dpdk_ref_laws (ex_ctx IPSEC_SECURITY_GW_TUNNEL) 0 ex_rule
    (Mbuf [Seg (replicate 8 0 ++ plain ex_flow) 8 39] 39 16 0) ex_flow []
    (Room true 8 39 39 0)) as (m' & _ & Ht & _); [done| |done|apply ex_ip_ok|done|done|done|done|].
  - split; [done|]. split; [done|]. by exists (replicate 8 0), [].
  - exists m'. by apply Ht.
Defined.

(** A burst accounts for every packet, and its transmit loop ends.  Of a burst
    that the handlers can process, every packet is given to the queue, or freed,
    or - when the queue did not take it within the tries left - neither; the
    last happens only after the last try. *)
Theorem burst_accounts_for_packets `{Dpdk} {nic : Type} (tx : list rte_mbuf -> nic -> Z * nic)
    (secured : bool) packets st processed to_drop ctx :
  (forall ps w, 0 <= (tx ps w).1 <= zlen ps) -> zlen packets < 65536 -> - 2 ^ 31 < num_of_tries st ->
  (if secured then handle_secured_packets_received packets (wctx st)
   else handle_unsecured_packets_received packets (wctx st)) = Some (processed, to_drop, ctx) ->
  packets <> [] ->
  exists b st', process_burst tx secured packets st = Some (b, st') /\
    sent b ++ unsent b = processed /\ freed b = to_drop /\
    (length (sent b) + length (unsent b) + length (freed b))%nat = length packets /\
    (unsent b = [] \/ num_of_tries st' <= 0).
Proof.
  intros Htx Hlen Ht HE Hne.
  destruct (tx_tries_ok tx Htx (S (Z.to_nat (num_of_tries st))) processed 0 (num_of_tries st) (wnic st))
    as (nb & tries & w & E & Hnb & _ & Hend); [lia..|].
  assert (Hl : (length processed + length to_drop)%nat = length packets)
    by (destruct secured; eauto using handle_packets_lengths).
  assert (Hd : take (Z.to_nat (u16 (zlen packets - zlen processed))) to_drop = to_drop).
  { rewrite wrap_small by (change (2 ^ 16) with 65536; lia). apply take_ge. lia. }
  eexists _, _. split.
  { unfold process_burst. rewrite bool_decide_false by done. rewrite HE. obind. rewrite E. obind. done. }
  cbn [sent unsent freed num_of_tries]. rewrite Hd, take_drop. split; [done|]. split; [done|]. split.
  - rewrite length_take, length_drop. lia.
  - destruct Hend as [->|Hend]; [|auto]. left. apply drop_ge. lia.
Qed.

(** A rule that has used up its sequence numbers: both packets are freed. *)
Lemma burst_accounts_for_packets_witness :
  exists b st', @process_burst dpdk_ref nat (fun ps w => (Z.of_nat (Nat.min w (length ps)), 1%nat)) false [ex_mbuf; ex_mbuf]
    (Worker (set_encrypt_rules (ex_ctx IPSEC_SECURITY_GW_TRANSPORT) [set_sn ex_rule UINT32_MAX]) 5 0%nat) = Some (b, st') /\
    freed b = [ex_mbuf; ex_mbuf].
Proof.
  destruct (@burst_accounts_for_packets dpdk_ref nat (fun ps w => (Z.of_nat (Nat.min w (length ps)), 1%nat)) false
    [ex_mbuf; ex_mbuf] (Worker (set_encrypt_rules (ex_ctx IPSEC_SECURITY_GW_TRANSPORT) [set_sn ex_rule UINT32_MAX]) 5 0%nat)
    [] [ex_mbuf; ex_mbuf] (set_encrypt_rules (ex_ctx IPSEC_SECURITY_GW_TRANSPORT) [set_sn ex_rule UINT32_MAX]))
    as (b & st' & E & _ & Hf & _); [simpl; lia | done | done | by vm_compute | done | eauto].
Defined.

(** The retries of the transmit loop run out for good.  The budget of five
    tries is set before the loop over bursts and never again: after any four
    bursts with packets, each later burst is offered to the queue once, and
    what the queue does not take then is neither sent nor freed. *)
Theorem tx_retries_exhausted `{Dpdk} {nic : Type} (tx : list rte_mbuf -> nic -> Z * nic)
    ctx w bursts bs st secured packets b st' :
  (forall ps w, 0 <= (tx ps w).1 <= zlen ps) ->
  process_bursts tx bursts (Worker ctx NB_TX_BURST_TRIES w) = Some (bs, st) ->
  Forall (fun b => b.2 <> []) bursts -> (4 <= length bursts)%nat -> zlen bursts < 2 ^ 31 - 1 ->
  process_burst tx secured packets st = Some (b, st') -> packets <> [] ->
  let processed := sent b ++ unsent b in
  let taken := Z.to_nat (tx processed (wnic st)).1 in
  sent b = take taken processed /\ unsent b = drop taken processed.
Proof.
  intros Htx Hb HF Hlo Hhi HE Hne.
  destruct (process_bursts_tries tx Htx _ _ _ _ Hb HF) as [Hl Hu]; [cbn [num_of_tries]; unfold NB_TX_BURST_TRIES; lia|].
  cbn [num_of_tries] in *. unfold NB_TX_BURST_TRIES in *.
  destruct (process_burst_inv tx _ _ _ _ _ HE Hne) as (ok & bad & ctx' & nb & tries & w' & _ & Et & _ & -> & ->).
  rewrite tx_tries_once in Et by lia. injection Et as <- <- <-.
  cbn [sent unsent]. rewrite take_drop. done.
Qed.

(** Four empty answers of the queue later, a packet it does not take is lost. *)
Lemma tx_retries_exhausted_witness :
  let tx := fun (ps : list rte_mbuf) (w : nat) => (0, w) in
  let st0 := Worker (ex_ctx IPSEC_SECURITY_GW_TRANSPORT) NB_TX_BURST_TRIES 0%nat in
  exists bs st b st', @process_bursts dpdk_ref nat tx (replicate 4 (false, [ex_mbuf])) st0 = Some (bs, st) /\
    @process_burst dpdk_ref nat tx false [ex_mbuf] st = Some (b, st') /\
    sent b = [] /\ length (unsent b) = 1%nat /\ freed b = [].
Proof.
  intros tx st0.
  destruct (@process_bursts dpdk_ref nat tx (replicate 4 (false, [ex_mbuf])) st0) as [[bs st]|] eqn:E;
    [|by vm_compute in E].
  destruct (@process_burst dpdk_ref nat tx false [ex_mbuf] st) as [[b st']|] eqn:E1;
    [|by vm_compute in E; injection E as <- <-; vm_compute in E1].
  exists bs, st, b, st'. split; [done|]. split; [done|].
  destruct (@tx_retries_exhausted dpdk_ref nat tx _ _ _ _ _ false [ex_mbuf] b st'
              (fun ps _ => conj (Z.le_refl 0) (Nat2Z.is_nonneg (length ps))) E) as [Hs Hu];
    [by repeat constructor | simpl; lia | done | exact E1 | done |].
  split; [exact Hs|]. vm_compute in E. injection E as <- <-. vm_compute in E1. by injection E1 as <- <-.
Defined.

(** An ESP trailer that announces 200 bytes of padding in a packet of 61: the
    packet length wraps around. *)
Example long_padding_underflows :
  exists m, @remove_packet_tail dpdk_ref
    (mk_mbuf (f_eth ex_flow ++ ip_bytes ex_ip 47 50 ++ replicate 25 0 ++ [200; 17]) 16 0) 0
    = Some (m, inr 17) /\ pkt_len m = 2 ^ 32 - 141.
Proof. eexists. split; vm_compute; reflexivity. Qed.
