(* ===== verification/GatewayAddr.v ===== *)
(** * IPv6 addresses of the IPsec gateway

    [parse_ipv6_str] of config.c, which the configuration and the policies use
    (the function of the same name in flow_parser.c is local to that file), and
    the table of IPv6 addresses, DPDK's hash table through the class [Ip6Hash]. *)

From S2P Require Import Prelude CString FlowTypes InetPton.
#[local] Open Scope Z_scope.

(** rte_hash with keys of 16 bytes: the position of a key, negative when it is
    not there or cannot be added. *)
Class Ip6Hash (T : Type) := {
  h6_lookup : T -> bytes -> Z;
  h6_add : T -> bytes -> Z * T
}.

(** A present key has a position of its own, which adding others does not
    change; a failed addition changes nothing. *)
Class Ip6HashLaws (T : Type) `{Ip6Hash T} : Prop := {
  h6_add_lookup : forall t k id t', h6_add t k = (id, t') -> 0 <= id -> h6_lookup t' k = id;
  h6_add_other : forall t k id t' k', h6_add t k = (id, t') -> k' <> k -> h6_lookup t' k' = h6_lookup t k';
  h6_add_failed : forall t k id t', h6_add t k = (id, t') -> id < 0 -> t' = t;
  h6_unique : forall t k k', 0 <= h6_lookup t k -> h6_lookup t k = h6_lookup t k' -> k = k'
}.

(** config.c: four words are copied to the array. *)
Definition parse_ipv6_str (str_ip : cstring) (ipv6_addr : bytes) : doca_error * bytes :=
  match inet_pton6 str_ip with
  | None => (DOCA_ERROR_INVALID_VALUE, ipv6_addr)
  | Some ip => (DOCA_SUCCESS, foldl (fun a i => splice (4 * i) (take 4 (drop (4 * i) ip)) a) ipv6_addr (seq 0 4))
  end.

Section Table.
Context {T : Type} `{Ip6Hash T}.

(** Add an address to the table unless it is there. *)
Definition ip6_table_add (k : bytes) (t : T) : doca_error * T :=
  if h6_lookup t k <? 0 then
    let '(ret, t') := h6_add t k in
    if ret <? 0 then (DOCA_ERROR_DRIVER, t') else (DOCA_SUCCESS, t')
  else (DOCA_SUCCESS, t).

(** After a success the address is in the table, and nothing else has moved. *)
Lemma ip6_table_add_ok `{!Ip6HashLaws T} k (t t' : T) :
  ip6_table_add k t = (DOCA_SUCCESS, t') ->
  0 <= h6_lookup t' k /\ forall k', 0 <= h6_lookup t k' -> h6_lookup t' k' = h6_lookup t k'.
Proof.
  unfold ip6_table_add. destruct (Z.ltb_spec (h6_lookup t k) 0) as [Hk|Hk].
  - destruct (h6_add t k) as [ret t1] eqn:E. destruct (Z.ltb_spec ret 0); intros [= <-].
    rewrite (h6_add_lookup _ _ _ _ E) by done. split; [done|]. intros k' Hk'.
    apply (h6_add_other _ _ _ _ _ E). intros ->. lia.
  - by intros [= <-].
Qed.
End Table.

(** Four words are the sixteen bytes. *)
Lemma copy_words ip a :
  length ip = 16%nat -> length a = 16%nat ->
  foldl (fun a i => splice (4 * i) (take 4 (drop (4 * i) ip)) a) a (seq 0 4) = ip.
Proof.
  intros Hi Ha. do 16 (destruct ip as [|? ip]; [done|]). destruct ip; [|done].
  do 16 (destruct a as [|? a]; [done|]). by destruct a.
Qed.

Lemma parse_ipv6_text gs old :
  ip6_ok gs -> length old = 16%nat -> parse_ipv6_str (groups_text gs) old = (DOCA_SUCCESS, groups_bytes gs).
Proof.
  intros Hgs Ho. unfold parse_ipv6_str. pose proof (inet_pton6_groups gs Hgs) as E. rewrite E.
  f_equal. apply copy_words; [by eapply inet_pton6_length|done].
Qed.

Lemma parse_ipv6_length s old : length old = 16%nat -> length (snd (parse_ipv6_str s old)) = 16%nat.
Proof.
  intros Ho. unfold parse_ipv6_str. destruct (inet_pton6 s) as [ip|] eqn:E; [|done]. cbn [snd].
  rewrite copy_words; [|by eapply inet_pton6_length|done]. by eapply inet_pton6_length.
Qed.
