(* ===== verification/GatewayRules.v ===== *)
(** * Rules of the IPsec gateway and the entries that implement them

    Models what turns a rule into security associations and flow entries:
    [ipsec_security_gw_create_ipsec_sa] and the destruction of associations
    (ipsec_ctx.c), [process_entries] (flow_common.c), the insertion of encryption
    rules (flow_encrypt.c) and of decryption rules (flow_decrypt.c).  The
    libraries - the IPsec tasks and the flow pipes - are the class [Hardware]:
    the answer to a call may depend on all calls before it. *)

From S2P Require Import Prelude.
From S2P Require Import CString.
From S2P Require Import FlowTypes.
From S2P Require Import AntiReplay.
From S2P Require Import Mbuf.
From S2P Require Import EspPacket.
#[local] Open Scope Z_scope.
#[local] Open Scope doca_scope.

Definition ENCRYPT_DUMMY_ID : Z := MAX_NB_RULES * 2 + 1.
Definition DECRYPT_DUMMY_ID : Z := MAX_NB_RULES * 2 + 2.
Definition NUM_OF_SYNDROMES : Z := 4.
Definition QUEUE_DEPTH : Z := 512.

(** ** ipsec_ctx.h *)

Inductive doca_encryption_key_type := DOCA_ENCRYPTION_KEY_AESGCM_128 | DOCA_ENCRYPTION_KEY_AESGCM_256.
Inductive doca_ipsec_direction := DOCA_IPSEC_DIRECTION_INGRESS_DECRYPT | DOCA_IPSEC_DIRECTION_EGRESS_ENCRYPT.

#[global] Instance direction_eq_dec : EqDecision doca_ipsec_direction.
Proof. solve_decision. Defined.

(** The values of enum doca_ipsec_icv_length. *)
Definition DOCA_IPSEC_ICV_LENGTH_8 : Z := 8.
Definition DOCA_IPSEC_ICV_LENGTH_12 : Z := 12.
Definition DOCA_IPSEC_ICV_LENGTH_16 : Z := 16.

(** [struct ipsec_security_gw_sa_attrs] *)
Record gw_sa_attrs := SaAttrs {
  sa_icv_length : Z;
  sa_key_type : doca_encryption_key_type;
  sa_enc_key_data : list Z;
  sa_salt : Z;
  sa_direction : doca_ipsec_direction
}.

(** [struct encrypt_rule].  [e_addrs] is the union of [ip4] (source at 0,
    destination at 4) and [ip6] (source at 0, destination at 16), [e_encap_dst]
    that of [encap_dst_ip4] and [encap_dst_ip6], as bytes. *)
Record gw_encrypt_rule := GwEnc {
  e_l3_type : doca_flow_l3_type;
  e_protocol : doca_flow_l4_type_ext;
  e_addrs : bytes;
  e_src_port : Z; e_dst_port : Z;
  e_encap_l3_type : doca_flow_l3_type;
  e_encap_dst : bytes;
  e_esp_spi : Z;
  e_current_sn : Z;
  e_sa : option Z;
  e_sa_attrs : gw_sa_attrs
}.

(** [struct decrypt_rule]; [d_entries]: which bad-syndrome entries are set. *)
Record gw_decrypt_rule := GwDec {
  d_l3_type : doca_flow_l3_type;
  d_dst : bytes;
  d_esp_spi : Z;
  d_inner_l3_type : doca_flow_l3_type;
  d_sa : option Z;
  d_sa_attrs : gw_sa_attrs;
  d_entries : list bool
}.

(** What calloc gives. *)
Definition sa_attrs0 : gw_sa_attrs :=
  SaAttrs 0 DOCA_ENCRYPTION_KEY_AESGCM_128 (zeros 32) 0 DOCA_IPSEC_DIRECTION_INGRESS_DECRYPT.
Definition encrypt_rule0 : gw_encrypt_rule :=
  GwEnc L3_NONE L4_NONE (zeros 32) 0 0 L3_NONE (zeros 16) 0 0 None sa_attrs0.
Definition decrypt_rule0 : gw_decrypt_rule :=
  GwDec L3_NONE (zeros 16) 0 L3_NONE None sa_attrs0 (replicate 4 false).

Definition ip4_src_ip (r : gw_encrypt_rule) : bytes := take 4 (e_addrs r).
Definition ip4_dst_ip (r : gw_encrypt_rule) : bytes := take 4 (drop 4 (e_addrs r)).
Definition ip6_src_ip (r : gw_encrypt_rule) : bytes := take 16 (e_addrs r).
Definition ip6_dst_ip (r : gw_encrypt_rule) : bytes := take 16 (drop 16 (e_addrs r)).

Definition set_e_sa (sa : option Z) (r : gw_encrypt_rule) : gw_encrypt_rule :=
  GwEnc (e_l3_type r) (e_protocol r) (e_addrs r) (e_src_port r) (e_dst_port r) (e_encap_l3_type r)
    (e_encap_dst r) (e_esp_spi r) (e_current_sn r) sa (e_sa_attrs r).
Definition set_d_sa (sa : option Z) (r : gw_decrypt_rule) : gw_decrypt_rule :=
  GwDec (d_l3_type r) (d_dst r) (d_esp_spi r) (d_inner_l3_type r) sa (d_sa_attrs r) (d_entries r).
Definition set_d_entry (i : nat) (r : gw_decrypt_rule) : gw_decrypt_rule :=
  GwDec (d_l3_type r) (d_dst r) (d_esp_spi r) (d_inner_l3_type r) (d_sa r) (d_sa_attrs r)
    (<[i := true]> (d_entries r)).

Inductive ipsec_security_gw_flow_mode := IPSEC_SECURITY_GW_VNF | IPSEC_SECURITY_GW_SWITCH.
Inductive ipsec_security_gw_esp_offload :=
| IPSEC_SECURITY_GW_ESP_OFFLOAD_BOTH | IPSEC_SECURITY_GW_ESP_OFFLOAD_ENCAP
| IPSEC_SECURITY_GW_ESP_OFFLOAD_DECAP | IPSEC_SECURITY_GW_ESP_OFFLOAD_NONE.

#[global] Instance flow_mode_eq_dec : EqDecision ipsec_security_gw_flow_mode.
Proof. solve_decision. Defined.
#[global] Instance offload_eq_dec : EqDecision ipsec_security_gw_esp_offload.
Proof. solve_decision. Defined.

(** The constant part of [struct ipsec_security_gw_config]. *)
Record gw_config := GwConfig {
  base : ipsec_security_gw_config;
  flow_mode : ipsec_security_gw_flow_mode;
  offload : ipsec_security_gw_esp_offload;
  socket_conf : bool
}.

(** The fields of a rule that the packet path reads (EspPacket). *)
Definition path_l3_type (t : doca_flow_l3_type) : flow_l3_type :=
  match t with
  | L3_NONE => DOCA_FLOW_L3_TYPE_NONE | L3_IP4 => DOCA_FLOW_L3_TYPE_IP4 | L3_IP6 => DOCA_FLOW_L3_TYPE_IP6
  end.
Definition be32_word (a : bytes) (i : nat) : Z := le_value (take 4 (drop (4 * i) a)).
Definition path_encrypt_rule (r : gw_encrypt_rule) : encrypt_rule :=
  EncRule (path_l3_type (e_l3_type r)) (path_l3_type (e_encap_l3_type r))
    (be32_word (e_encap_dst r) 0, be32_word (e_encap_dst r) 1, be32_word (e_encap_dst r) 2,
     be32_word (e_encap_dst r) 3)
    (e_esp_spi r) (e_current_sn r) (sa_icv_length (e_sa_attrs r)).
Definition path_decrypt_rule (r : gw_decrypt_rule) : decrypt_rule := DecRule (sa_icv_length (d_sa_attrs r)).

(** ** The libraries *)

(** The pipes of [struct encrypt_pipes] and [struct decrypt_pipes] that entries
    are added to. *)
Inductive gw_pipe :=
| ipv4_encrypt_pipe | ipv6_encrypt_pipe
| ipv4_tcp_pipe | ipv4_udp_pipe | ipv6_tcp_pipe | ipv6_udp_pipe | ipv6_src_tcp_pipe | ipv6_src_udp_pipe
| decrypt_ipv4_pipe | decrypt_ipv6_pipe
| syndrome_ipv4_pipe | syndrome_ipv6_pipe | bad_syndrome_ipv4_pipe | bad_syndrome_ipv6_pipe.

Inductive gw_port := secured_port | unsecured_port | switch_port.
Inductive flow_flags := DOCA_FLOW_NO_WAIT | DOCA_FLOW_WAIT_FOR_BATCH.

#[global] Instance gw_pipe_eq_dec : EqDecision gw_pipe.
Proof. solve_decision. Defined.
#[global] Instance gw_port_eq_dec : EqDecision gw_port.
Proof. solve_decision. Defined.

(** The members of struct doca_flow_match and struct doca_flow_actions that the
    rules set; the others stay zero. *)
Record gw_match := GwMatch {
  m_pkt_meta : Z; m_u32_0 : Z; m_ipsec_syndrome : Z;
  m_outer : doca_flow_header_format;
  m_tun_esp : bool;       (* tun.type == DOCA_FLOW_TUN_ESP *)
  m_esp_spi : bytes
}.
Record gw_actions := GwActions {
  a_pkt_meta : Z; a_u32_0 : Z; a_action_idx : Z; a_crypto_id : Z;
  a_encap_data : list Z; a_icv_size : Z
}.
Definition gw_match0 : gw_match := GwMatch 0 0 0 header0 false (zeros 4).
Definition gw_actions0 : gw_actions := GwActions 0 0 0 0 [] 0.

(** [struct doca_ipsec_sa_attrs], and whether the context of full offload gets
    the task. *)
Record sa_task := SaTask {
  t_icv_length : Z; t_key_type : doca_encryption_key_type; t_salt : Z; t_key : list Z;
  t_direction : doca_ipsec_direction; t_sn_initial : Z;
  t_antireplay_enable : bool; t_sn_inc_enable : bool; t_full_offload : bool
}.

(** The local [struct entries_status] an entry is charged to. *)
Inductive status_id := hairpin_status | crypt_status.

#[global] Instance status_id_eq_dec : EqDecision status_id.
Proof. solve_decision. Defined.

Inductive hw_call :=
| SaCreate (t : sa_task)
| SaDestroy (sa : Z) (full_offload : bool)
| SharedResourceCfg (dir : doca_ipsec_direction) (sa : option Z) (id : Z)
| SharedResourcesBind (id : Z) (port : gw_port)
| PipeAddEntry (pipe : gw_pipe) (m : gw_match) (a : option gw_actions) (flags : flow_flags) (ctx : status_id)
| EntriesProcess (port : gw_port) (max : Z).

(** The task for a security association fails before it runs, or completes
    with a status and an object. *)
Inductive sa_answer := SaRejected (e : doca_error) | SaCompleted (status : doca_error) (sa : option Z).

(** One call of the entry callback. *)
Record completion := Completion { user_ctx : option status_id; success : bool; op_add : bool }.

(** The answer to the last call of a history. *)
Class Hardware := {
  sa_create : list hw_call -> sa_answer;
  sa_destroy : list hw_call -> doca_error;
  shared_resource_cfg : list hw_call -> doca_error;
  shared_resources_bind : list hw_call -> doca_error;
  pipe_add_entry : list hw_call -> doca_error;
  flow_entries_process : list hw_call -> doca_error * list completion
}.

Record entries_status := Status { failure : bool; nb_processed : Z; entries_in_queue : Z }.
Definition status0 : entries_status := Status false 0 0.

(** The calls made so far and the two statuses. *)
Record hw_state := HwState { calls : list hw_call; hairpin : entries_status; crypt : entries_status }.

Definition status_of (i : status_id) (s : hw_state) : entries_status :=
  match i with hairpin_status => hairpin s | crypt_status => crypt s end.
Definition set_status (i : status_id) (st : entries_status) (s : hw_state) : hw_state :=
  match i with
  | hairpin_status => HwState (calls s) st (crypt s)
  | crypt_status => HwState (calls s) (hairpin s) st
  end.
Definition reset_status (i : status_id) : ST hw_state unit := fun s => Some (tt, set_status i status0 s).

(** Make a call and look at the answer. *)
Definition call {A} (c : hw_call) (answer : list hw_call -> A) : ST hw_state A :=
  fun s => let h := calls s ++ [c] in Some (answer h, HwState h (hairpin s) (crypt s)).

(** flow_common.c *)
Definition check_for_valid_entry (c : completion) (s : hw_state) : hw_state :=
  match user_ctx c with
  | None => s
  | Some i =>
      if negb (op_add c) then s
      else
        let st := status_of i s in
        set_status i (Status (failure st || negb (success c)) (nb_processed st + 1) (entries_in_queue st - 1)) s
  end.

Section Rules.
Context `{HW : Hardware}.
(** How many turns a loop that waits for entries is followed; see
    [drain_enough]. *)
Context (polls : nat).

Definition doca_flow_entries_process (port : gw_port) (max : Z) : ST hw_state doca_error :=
  '(result, cs) ← call (EntriesProcess port max) flow_entries_process;
  s ← get;
  _ ← put (foldl (flip check_for_valid_entry) s cs);
  mret result.

Definition process_entries (port : gw_port) (i : status_id) : ST hw_state doca_error :=
  s ← get;
  result ← doca_flow_entries_process port (entries_in_queue (status_of i s));
  if decide (result = DOCA_SUCCESS) then
    s ← get;
    if failure (status_of i s) || (entries_in_queue (status_of i s) =? QUEUE_DEPTH)
    then mret DOCA_ERROR_BAD_STATE else mret DOCA_SUCCESS
  else mret result.

(** [do { process_entries } while (entries_in_queue > 0)]; [None] when the
    turns do not suffice. *)
Fixpoint drain_loop (fuel : nat) (port : gw_port) (i : status_id) : ST hw_state doca_error :=
  match fuel with
  | O => undef
  | S fuel' =>
      result ← process_entries port i;
      if decide (result = DOCA_SUCCESS) then
        s ← get;
        if 0 <? entries_in_queue (status_of i s) then drain_loop fuel' port i else mret DOCA_SUCCESS
      else mret result
  end.

Definition drain (port : gw_port) (i : status_id) : ST hw_state doca_error := drain_loop polls port i.

(** ** Security associations (ipsec_ctx.c) *)

Definition sa_attrs_of (a : gw_sa_attrs) (cfg : gw_config) : sa_task :=
  let hw_antireplay := bool_decide (sa_direction a = DOCA_IPSEC_DIRECTION_INGRESS_DECRYPT) &&
                       negb (sw_antireplay (base cfg)) in
  let hw_sn := bool_decide (sa_direction a = DOCA_IPSEC_DIRECTION_EGRESS_ENCRYPT) &&
               negb (sw_sn_inc_enable (base cfg)) in
  SaTask (sa_icv_length a) (sa_key_type a) (sa_salt a) (sa_enc_key_data a) (sa_direction a)
    (sn_initial (base cfg)) hw_antireplay hw_sn (hw_antireplay || hw_sn).

(** The result and what is written to [*sa], if anything.  The wait for the
    task is not modelled: the answer is the one of the completed task. *)
Definition ipsec_security_gw_create_ipsec_sa (a : gw_sa_attrs) (cfg : gw_config) (sa : option Z) :
    ST hw_state (doca_error * option Z) :=
  answer ← call (SaCreate (sa_attrs_of a cfg)) sa_create;
  mret (match answer with
        | SaRejected e => (e, sa)
        | SaCompleted status sa' => (status, sa')
        end).

(** doca_ipsec_task_sa_destroy: [false] is the crypto-offload context. *)
Definition ipsec_security_gw_destroy_ipsec_sa (sa : Z) (is_full_offload : bool) : ST hw_state doca_error :=
  call (SaDestroy sa is_full_offload) sa_destroy.

Definition destroy_rule_sa (sa : option Z) (is_full_offload : bool) : ST hw_state unit :=
  match sa with
  | None => mret tt
  | Some sa => _ ← ipsec_security_gw_destroy_ipsec_sa sa is_full_offload; mret tt
  end.

Fixpoint destroy_rules_sas (sas : list (option Z)) (is_full_offload : bool) : ST hw_state unit :=
  match sas with
  | [] => mret tt
  | sa :: sas' => _ ← destroy_rule_sa sa is_full_offload; destroy_rules_sas sas' is_full_offload
  end.

(** [None] when a counter is larger than its array. *)
Definition ipsec_security_gw_destroy_sas (cfg : gw_config) (dummy_encrypt_sa dummy_decrypt_sa : option Z)
    (encrypt_rules : list gw_encrypt_rule) (nb_encrypted_rules : Z)
    (decrypt_rules : list gw_decrypt_rule) (nb_decrypted_rules : Z) : ST hw_state unit :=
  let hw_sn := negb (sw_sn_inc_enable (base cfg)) in
  let hw_antireplay := negb (sw_antireplay (base cfg)) in
  if (zlen encrypt_rules <? nb_encrypted_rules) || (zlen decrypt_rules <? nb_decrypted_rules) then undef
  else
    _ ← destroy_rule_sa dummy_encrypt_sa hw_sn;
    _ ← destroy_rule_sa dummy_decrypt_sa hw_antireplay;
    _ ← destroy_rules_sas (map e_sa (take (Z.to_nat nb_encrypted_rules) encrypt_rules)) hw_sn;
    destroy_rules_sas (map d_sa (take (Z.to_nat nb_decrypted_rules) decrypt_rules)) hw_antireplay.

(** The same text in flow_encrypt.c and flow_decrypt.c, but for the domain. *)
Definition create_ipsec_shared_object (dir : doca_ipsec_direction) (port : gw_port) (sa : option Z) (ipsec_id : Z) :
    ST hw_state doca_error :=
  call (SharedResourceCfg dir sa ipsec_id) shared_resource_cfg >>?
  call (SharedResourcesBind ipsec_id port) shared_resources_bind.

Definition create_ipsec_encrypt_shared_object := create_ipsec_shared_object DOCA_IPSEC_DIRECTION_EGRESS_ENCRYPT.
Definition create_ipsec_decrypt_shared_object := create_ipsec_shared_object DOCA_IPSEC_DIRECTION_INGRESS_DECRYPT.

(** The dummy association that the encryption pipe is created with: the result
    and [dummy_encrypt_sa], or [dummy_decrypt_sa]. *)
Definition dummy_sa_attr (dir : doca_ipsec_direction) : gw_sa_attrs :=
  SaAttrs DOCA_IPSEC_ICV_LENGTH_16 DOCA_ENCRYPTION_KEY_AESGCM_256 (1 :: zeros 31) 305419896 dir.

Definition create_ipsec_dummy_shared_object (dir : doca_ipsec_direction) (id : Z) (cfg : gw_config) (port : gw_port) (sa : option Z) :
    ST hw_state (doca_error * option Z) :=
  '(result, sa') ← ipsec_security_gw_create_ipsec_sa (dummy_sa_attr dir) cfg sa;
  if decide (result = DOCA_SUCCESS) then
    result ← create_ipsec_shared_object dir port sa' id;
    mret (result, sa')
  else mret (result, sa').

Definition create_ipsec_encrypt_dummy_shared_object :=
  create_ipsec_dummy_shared_object DOCA_IPSEC_DIRECTION_EGRESS_ENCRYPT ENCRYPT_DUMMY_ID.
Definition create_ipsec_decrypt_dummy_shared_object :=
  create_ipsec_dummy_shared_object DOCA_IPSEC_DIRECTION_INGRESS_DECRYPT DECRYPT_DUMMY_ID.

(** ** Encryption entries (flow_encrypt.c) *)

Definition get_pipe_for_rule (r : gw_encrypt_rule) (src_ip6 : bool) : gw_pipe :=
  if negb src_ip6 then
    if decide (e_l3_type r = L3_IP4) then
      if decide (e_protocol r = L4_TCP) then ipv4_tcp_pipe else ipv4_udp_pipe
    else if decide (e_protocol r = L4_TCP) then ipv6_tcp_pipe else ipv6_udp_pipe
  else if decide (e_protocol r = L4_TCP) then ipv6_src_tcp_pipe else ipv6_src_udp_pipe.

(** doca_flow_pipe_add_entry with [status] as user context, and what follows it
    in the hairpin pipes: counting, and processing a full queue. *)
Definition add_entry (pipe : gw_pipe) (m : gw_match) (a : option gw_actions) (flags : flow_flags) (i : status_id) :
    ST hw_state doca_error :=
  call (PipeAddEntry pipe m a flags i) pipe_add_entry.

Definition count_entries (i : status_id) (n : Z) : ST hw_state unit :=
  s ← get;
  let st := status_of i s in
  put (set_status i (Status (failure st) (nb_processed st) (entries_in_queue st + n)) s).

Definition add_counted (port : gw_port) (pipe : gw_pipe) (m : gw_match) (a : gw_actions) (flags : flow_flags)
    (i : status_id) : ST hw_state doca_error :=
  add_entry pipe m (Some a) flags i >>?
  _ ← count_entries i 1;
  s ← get;
  if entries_in_queue (status_of i s) =? QUEUE_DEPTH then process_entries port i else mret DOCA_SUCCESS.

(** [last]: whether the entry is the last one to be added. *)
Definition batch_flags (last : bool) (i : status_id) : ST hw_state flow_flags :=
  s ← get;
  mret (if last || (entries_in_queue (status_of i s) =? QUEUE_DEPTH - 1)
        then DOCA_FLOW_NO_WAIT else DOCA_FLOW_WAIT_FOR_BATCH).

Definition add_src_ip6_entry (port : gw_port) (r : gw_encrypt_rule) (src_ip_id : Z) : ST hw_state doca_error :=
  let m := GwMatch 0 0 0 (set_l3 0 (ip6_src_ip r) header0) false (zeros 4) in
  let a := GwActions 0 src_ip_id 0 0 [] 0 in
  flags ← batch_flags false hairpin_status;
  add_counted port (get_pipe_for_rule r true) m a flags hairpin_status.

(** [SET_L4_PORT]: the ports of tcp and of udp are at the same place. *)
Definition SET_L4_PORT (off : nat) (value : bytes) (h : doca_flow_header_format) : doca_flow_header_format :=
  if decide (l4_type_ext h = L4_TCP) then set_l4 off value h
  else if decide (l4_type_ext h = L4_UDP) then set_l4 off value h
  else h.

Definition five_tuple_match (r : gw_encrypt_rule) (src_ip_id : Z) : gw_match :=
  let h := set_l4_type (e_protocol r) header0 in
  let h := SET_L4_PORT 0 (be_bytes 2 (u16 (e_src_port r))) h in
  let h := SET_L4_PORT 2 (be_bytes 2 (u16 (e_dst_port r))) h in
  if decide (e_l3_type r = L3_IP4) then
    GwMatch 0 0 0 (set_l3 0 (ip4_src_ip r) (set_l3 4 (ip4_dst_ip r) h)) false (zeros 4)
  else GwMatch 0 src_ip_id 0 (set_l3 16 (ip6_dst_ip r) h) false (zeros 4).

(** [lookup] is rte_hash_lookup in the table of IPv6 addresses; negative when
    the key is not there. *)
Definition add_five_tuple_match_entry (lookup : bytes -> Z) (port : gw_port) (r : gw_encrypt_rule) (nb_rules i : Z) :
    ST hw_state doca_error :=
  let src_ip_id := if decide (e_l3_type r = L3_IP6) then lookup (ip6_dst_ip r) else 0 in
  (if decide (e_l3_type r = L3_IP6) then
     if src_ip_id <? 0 then mret DOCA_ERROR_NOT_FOUND else add_src_ip6_entry port r src_ip_id
   else mret DOCA_SUCCESS) >>?
  let a := GwActions (u32 (Z.lor (2 ^ 30) i)) 0 0 0 [] 0 in
  flags ← batch_flags (i =? nb_rules - 1) hairpin_status;
  add_counted port (get_pipe_for_rule r false) (five_tuple_match r src_ip_id) a flags hairpin_status.

(** create_ipsec_encrypt_shared_object_transport, _transport_over_udp and
    _tunnel: the data of the encapsulation. *)
Definition create_ipsec_encrypt_shared_object_transport (r : gw_encrypt_rule) : list Z :=
  create_transport_encap (path_encrypt_rule r) false.
Definition create_ipsec_encrypt_shared_object_transport_over_udp (r : gw_encrypt_rule) : list Z :=
  create_udp_transport_encap (path_encrypt_rule r) false.
Definition create_ipsec_encrypt_shared_object_tunnel (r : gw_encrypt_rule) : list Z :=
  if decide (e_encap_l3_type r = L3_IP4) then create_ipv4_tunnel_encap (path_encrypt_rule r) false
  else create_ipv6_tunnel_encap (path_encrypt_rule r) false.

(** The pipe and the actions that both ways of adding a rule compute. *)
Definition encrypt_pipe_of (cfg : gw_config) (r : gw_encrypt_rule) : gw_pipe :=
  if bool_decide (mode (base cfg) = IPSEC_SECURITY_GW_TUNNEL) &&
     (bool_decide (offload cfg = IPSEC_SECURITY_GW_ESP_OFFLOAD_NONE) ||
      bool_decide (offload cfg = IPSEC_SECURITY_GW_ESP_OFFLOAD_DECAP))
  then if decide (e_encap_l3_type r = L3_IP4) then ipv4_encrypt_pipe else ipv6_encrypt_pipe
  else if decide (e_l3_type r = L3_IP4) then ipv4_encrypt_pipe else ipv6_encrypt_pipe.

Definition encrypt_actions (cfg : gw_config) (r : gw_encrypt_rule) (id : Z) : gw_actions :=
  match mode (base cfg) with
  | IPSEC_SECURITY_GW_TUNNEL =>
      GwActions 0 0 (if decide (e_encap_l3_type r = L3_IP4) then 0 else 1) id
        (create_ipsec_encrypt_shared_object_tunnel r) (sa_icv_length (e_sa_attrs r))
  | IPSEC_SECURITY_GW_TRANSPORT =>
      GwActions 0 0 0 id (create_ipsec_encrypt_shared_object_transport r) (sa_icv_length (e_sa_attrs r))
  | IPSEC_SECURITY_GW_UDP_TRANSPORT =>
      GwActions 0 0 0 id (create_ipsec_encrypt_shared_object_transport_over_udp r) (sa_icv_length (e_sa_attrs r))
  end.

(** ports[SECURED_IDX]->port and ports[UNSECURED_IDX]->port, or the port of the
    switch. *)
Definition secured (cfg : gw_config) : gw_port :=
  if decide (flow_mode cfg = IPSEC_SECURITY_GW_SWITCH) then switch_port else secured_port.
Definition unsecured (cfg : gw_config) : gw_port :=
  if decide (flow_mode cfg = IPSEC_SECURITY_GW_SWITCH) then switch_port else unsecured_port.

(** A rule added at run time: [rule_id] is the number of rules there are. *)
Definition add_encrypt_entry (lookup : bytes -> Z) (cfg : gw_config) (r : gw_encrypt_rule) (rule_id : Z) :
    ST hw_state doca_error :=
  _ ← reset_status hairpin_status;
  _ ← reset_status crypt_status;
  add_five_tuple_match_entry lookup (unsecured cfg) r (rule_id + 1) rule_id >>?
  create_ipsec_encrypt_shared_object (secured cfg) (e_sa r) rule_id >>?
  add_entry (encrypt_pipe_of cfg r) (GwMatch (u32 rule_id) 0 0 header0 false (zeros 4))
    (Some (encrypt_actions cfg r rule_id)) DOCA_FLOW_NO_WAIT crypt_status >>?
  _ ← count_entries crypt_status 1;
  drain (secured cfg) crypt_status >>?
  drain (unsecured cfg) hairpin_status.

(** One turn of the loop over the rules of the configuration: the result, and
    the rule with its association. *)
Definition add_encrypt_rule (lookup : bytes -> Z) (cfg : gw_config) (nb_rules i : Z) (r : gw_encrypt_rule) :
    ST hw_state (doca_error * gw_encrypt_rule) :=
  '(result, sa) ← ipsec_security_gw_create_ipsec_sa (e_sa_attrs r) cfg (e_sa r);
  let r := set_e_sa sa r in
  if decide (result = DOCA_SUCCESS) then
    result ←
      (add_five_tuple_match_entry lookup (unsecured cfg) r nb_rules i >>?
       create_ipsec_encrypt_shared_object (secured cfg) (e_sa r) i >>?
       flags ← batch_flags (i =? nb_rules - 1) crypt_status;
       add_counted (secured cfg) (encrypt_pipe_of cfg r) (GwMatch (u32 i) 0 0 header0 false (zeros 4))
         (encrypt_actions cfg r i) flags crypt_status);
    mret (result, r)
  else mret (result, r).

(** The rules from index [i] on; the rules afterwards. *)
Fixpoint add_encrypt_rules (lookup : bytes -> Z) (cfg : gw_config) (nb_rules i : Z) (rules : list gw_encrypt_rule) :
    ST hw_state (doca_error * list gw_encrypt_rule) :=
  match rules with
  | [] => mret (DOCA_SUCCESS, [])
  | r :: rules' =>
      '(result, r') ← add_encrypt_rule lookup cfg nb_rules i r;
      if decide (result = DOCA_SUCCESS) then
        '(result, rs) ← add_encrypt_rules lookup cfg nb_rules (i + 1) rules';
        mret (result, r' :: rs)
      else mret (result, r' :: rules')
  end.

(** [None] also when there are fewer rules than [nb_rules]. *)
Definition add_encrypt_entries (lookup : bytes -> Z) (cfg : gw_config) (rules : list gw_encrypt_rule) (nb_rules : Z) :
    ST hw_state (doca_error * list gw_encrypt_rule) :=
  _ ← reset_status hairpin_status;
  _ ← reset_status crypt_status;
  if zlen rules <? nb_rules then undef
  else
    '(result, rs) ← add_encrypt_rules lookup cfg nb_rules 0 (take (Z.to_nat nb_rules) rules);
    let rs := rs ++ drop (Z.to_nat nb_rules) rules in
    if decide (result = DOCA_SUCCESS) then
      result ← (drain (secured cfg) crypt_status >>? drain (unsecured cfg) hairpin_status);
      mret (result, rs)
    else mret (result, rs).

(** ** Decryption entries (flow_decrypt.c) *)

Definition DECAP_MAC_TYPE_IDX : nat := 12.

Definition create_ipsec_decrypt_shared_object_tunnel (inner_l3_type : doca_flow_l3_type) : list Z :=
  let reformat_decap_data :=
    [170; 187; 204; 221; 238; 255;      (* mac_dst *)
     17; 34; 51; 68; 85; 102;           (* mac_src *)
     0; 0] in                           (* mac_type *)
  if decide (inner_l3_type = L3_IP4) then
    <[(DECAP_MAC_TYPE_IDX + 1)%nat := 0]> (<[DECAP_MAC_TYPE_IDX := 8]> reformat_decap_data)
  else <[(DECAP_MAC_TYPE_IDX + 1)%nat := 221]> (<[DECAP_MAC_TYPE_IDX := 134]> reformat_decap_data).

(** The match of a rule, written into [m]. *)
Definition decrypt_match (r : gw_decrypt_rule) (m : gw_match) : gw_match :=
  let h := set_l3_type (d_l3_type r) (m_outer m) in
  let h := if decide (d_l3_type r = L3_IP4) then set_l3 4 (take 4 (d_dst r)) h else set_l3 16 (d_dst r) h in
  GwMatch (m_pkt_meta m) (m_u32_0 m) (m_ipsec_syndrome m) h true (be_bytes 4 (d_esp_spi r)).

Definition decrypt_meta (id : Z) : Z := u32 (Z.lor (2 ^ 31) id).

Definition add_decrypt_entry (cfg : gw_config) (r : gw_decrypt_rule) (rule_id : Z) (port : gw_port) :
    ST hw_state doca_error :=
  _ ← reset_status crypt_status;
  create_ipsec_decrypt_shared_object port (d_sa r) rule_id >>?
  let save_meta :=
    bool_decide (flow_mode cfg = IPSEC_SECURITY_GW_SWITCH) ||
    bool_decide (offload cfg = IPSEC_SECURITY_GW_ESP_OFFLOAD_NONE) ||
    bool_decide (offload cfg = IPSEC_SECURITY_GW_ESP_OFFLOAD_ENCAP) in
  add_entry (if decide (d_l3_type r = L3_IP4) then decrypt_ipv4_pipe else decrypt_ipv6_pipe)
    (decrypt_match r gw_match0)
    (Some (GwActions (if save_meta then decrypt_meta rule_id else 0) 0 0 rule_id [] 0))
    DOCA_FLOW_NO_WAIT crypt_status >>?
  _ ← count_entries crypt_status 1;
  drain port crypt_status.

(** The four entries: what they match, and the flags. *)
Definition bad_syndrome_match (rule_id syndrome u32_0 : Z) : gw_match :=
  GwMatch (decrypt_meta rule_id) u32_0 syndrome header0 false (zeros 4).

Definition add_syndrome_entry (pipe : gw_pipe) (m : gw_match) (flags : flow_flags) (i : nat) (r : gw_decrypt_rule) :
    ST hw_state (doca_error * gw_decrypt_rule) :=
  result ← add_entry pipe m None flags crypt_status;
  mret (result, if decide (result = DOCA_SUCCESS) then set_d_entry i r else r).

Definition add_bad_syndrome_pipe_entry (pipe : gw_pipe) (r : gw_decrypt_rule) (rule_id : Z) (flags : flow_flags) :
    ST hw_state (doca_error * gw_decrypt_rule) :=
  '(result, r) ← add_syndrome_entry pipe (bad_syndrome_match rule_id 1 0) DOCA_FLOW_WAIT_FOR_BATCH 0 r;
  if decide (result = DOCA_SUCCESS) then
    '(result, r) ← add_syndrome_entry pipe (bad_syndrome_match rule_id 2 0) DOCA_FLOW_WAIT_FOR_BATCH 1 r;
    if decide (result = DOCA_SUCCESS) then
      '(result, r) ← add_syndrome_entry pipe (bad_syndrome_match rule_id 0 1) DOCA_FLOW_WAIT_FOR_BATCH 2 r;
      if decide (result = DOCA_SUCCESS) then
        add_syndrome_entry pipe (bad_syndrome_match rule_id 0 2) flags 3 r
      else mret (result, r)
    else mret (result, r)
  else mret (result, r).

(** The locals that the loop over the rules does not reset. *)
Record decrypt_locals := Locals { l_match : gw_match; l_actions : gw_actions }.

Definition syndrome_pipes (r : gw_decrypt_rule) : gw_pipe * gw_pipe * gw_pipe :=
  if decide (d_l3_type r = L3_IP4) then (decrypt_ipv4_pipe, syndrome_ipv4_pipe, bad_syndrome_ipv4_pipe)
  else (decrypt_ipv6_pipe, syndrome_ipv6_pipe, bad_syndrome_ipv6_pipe).

(** After a turn: the queue is processed when it may be too full for another
    rule. *)
Definition decrypt_batch (port : gw_port) : ST hw_state doca_error :=
  s ← get;
  if QUEUE_DEPTH - 8 <=? entries_in_queue (crypt s) then
    result ← doca_flow_entries_process port (entries_in_queue (crypt s));
    if decide (result = DOCA_SUCCESS) then
      s ← get;
      if failure (crypt s) || (entries_in_queue (crypt s) =? QUEUE_DEPTH)
      then mret DOCA_ERROR_BAD_STATE else mret DOCA_SUCCESS
    else mret result
  else mret DOCA_SUCCESS.

Definition add_decrypt_rule (cfg : gw_config) (port : gw_port) (nb_encrypt_rules nb_rules i : Z)
    (r : gw_decrypt_rule) (l : decrypt_locals) : ST hw_state (doca_error * gw_decrypt_rule * decrypt_locals) :=
  s ← get;
  let flags := if (i =? nb_rules - 1) || (entries_in_queue (crypt s) =? QUEUE_DEPTH - 8)
               then DOCA_FLOW_NO_WAIT else DOCA_FLOW_WAIT_FOR_BATCH in
  let id := nb_encrypt_rules + i in
  '(result, sa) ← ipsec_security_gw_create_ipsec_sa (d_sa_attrs r) cfg (d_sa r);
  let r := set_d_sa sa r in
  if decide (result = DOCA_SUCCESS) then
    let m := decrypt_match r (l_match l) in
    let a := GwActions (decrypt_meta i) (a_u32_0 (l_actions l)) 0 id (a_encap_data (l_actions l))
               (a_icv_size (l_actions l)) in
    let a' := GwActions (decrypt_meta i) (a_u32_0 a) 0 id
                (if decide (mode (base cfg) = IPSEC_SECURITY_GW_TUNNEL)
                 then create_ipsec_decrypt_shared_object_tunnel (d_inner_l3_type r) else a_encap_data a)
                (sa_icv_length (d_sa_attrs r)) in
    let '(decrypt_pipe, syndrome_pipe, bad_syndrome_pipe) := syndrome_pipes r in
    result ←
      (create_ipsec_decrypt_shared_object port (d_sa r) id >>?
       add_entry decrypt_pipe m (Some a) DOCA_FLOW_WAIT_FOR_BATCH crypt_status >>?
       _ ← count_entries crypt_status 1;
       add_entry syndrome_pipe (GwMatch (decrypt_meta i) 0 0 header0 false (zeros 4)) (Some a')
         DOCA_FLOW_WAIT_FOR_BATCH crypt_status >>?
       _ ← count_entries crypt_status 1;
       mret DOCA_SUCCESS);
    if decide (result = DOCA_SUCCESS) then
      '(result, r) ← add_bad_syndrome_pipe_entry bad_syndrome_pipe r i flags;
      if decide (result = DOCA_SUCCESS) then
        _ ← count_entries crypt_status NUM_OF_SYNDROMES;
        result ← decrypt_batch port;
        mret (result, r, Locals m a')
      else mret (result, r, l)
    else mret (result, r, l)
  else mret (result, r, l).

Fixpoint add_decrypt_rules (cfg : gw_config) (port : gw_port) (nb_encrypt_rules nb_rules i : Z)
    (rules : list gw_decrypt_rule) (l : decrypt_locals) : ST hw_state (doca_error * list gw_decrypt_rule) :=
  match rules with
  | [] => mret (DOCA_SUCCESS, [])
  | r :: rules' =>
      '(result, r', l') ← add_decrypt_rule cfg port nb_encrypt_rules nb_rules i r l;
      if decide (result = DOCA_SUCCESS) then
        '(result, rs) ← add_decrypt_rules cfg port nb_encrypt_rules nb_rules (i + 1) rules' l';
        mret (result, r' :: rs)
      else mret (result, r' :: rules')
  end.

Definition add_decrypt_entries (cfg : gw_config) (rules : list gw_decrypt_rule) (nb_rules nb_encrypt_rules : Z)
    (port : gw_port) : ST hw_state (doca_error * list gw_decrypt_rule) :=
  _ ← reset_status crypt_status;
  if zlen rules <? nb_rules then undef
  else
    '(result, rs) ← add_decrypt_rules cfg port nb_encrypt_rules nb_rules 0 (take (Z.to_nat nb_rules) rules)
                      (Locals (GwMatch 0 0 0 header0 true (zeros 4)) gw_actions0);
    let rs := rs ++ drop (Z.to_nat nb_rules) rules in
    if decide (result = DOCA_SUCCESS) then
      result ← drain port crypt_status;
      mret (result, rs)
    else mret (result, rs).

End Rules.
