(* ===== verification/Policy.v ===== *)
(** * Policies received at run time

    Models policy.c and the loop of [ipsec_security_gw_wait_for_traffic]
    (ipsec_security_gw.c): a policy from the socket (PolicyMsg) becomes a rule in
    the next free place of its array, gets a security association and flow
    entries (GatewayRules), and is counted.  Addresses and the
    table of IPv6 addresses are those of GatewayAddr. *)

From S2P Require Import Prelude.
From S2P Require Import CString.
From S2P Require Import FlowTypes.
From S2P Require Import FlowFields.
From S2P Require Import AntiReplay.
From S2P Require Import PolicyMsg.
From S2P Require Import Mbuf.
From S2P Require Import EspPacket.
From S2P Require Import GatewayAddr.
From S2P Require Import GatewayRules.
#[local] Open Scope Z_scope.
#[local] Open Scope doca_scope.

Definition POLICY_DIR_IN : Z := 0.
Definition POLICY_DIR_OUT : Z := 1.
Definition POLICY_MODE_TRANSPORT : Z := 0.
Definition POLICY_MODE_TUNNEL : Z := 1.
Definition POLICY_L3_TYPE_IPV4 : Z := 4.
Definition POLICY_L3_TYPE_IPV6 : Z := 6.
Definition POLICY_L4_TYPE_UDP : Z := 17.
Definition POLICY_KEY_TYPE_128 : Z := 0.

(** The string in a char array; [None] when no NUL ends it. *)
Definition c_str (a : list Z) : option cstring :=
  if existsb (Z.eqb 0) a then Some (fst (span (fun c => negb (c =? 0)) a)) else None.

(** ** policy.c *)

Definition convert_to_doca_icv (icv_length : Z) : doca_error * option Z :=
  if icv_length =? 8 then (DOCA_SUCCESS, Some DOCA_IPSEC_ICV_LENGTH_8)
  else if icv_length =? 12 then (DOCA_SUCCESS, Some DOCA_IPSEC_ICV_LENGTH_12)
  else if icv_length =? 16 then (DOCA_SUCCESS, Some DOCA_IPSEC_ICV_LENGTH_16)
  else (DOCA_ERROR_NOT_SUPPORTED, None).

Definition convert_to_doca_key_type (key_type : Z) : doca_encryption_key_type :=
  if key_type =? POLICY_KEY_TYPE_128 then DOCA_ENCRYPTION_KEY_AESGCM_128 else DOCA_ENCRYPTION_KEY_AESGCM_256.

Definition parse_sa_attrs (p : policy) (a : gw_sa_attrs) : doca_error * gw_sa_attrs :=
  match convert_to_doca_icv (icv_length p) with
  | (result, Some icv) =>
      (DOCA_SUCCESS,
       SaAttrs icv (convert_to_doca_key_type (key_type p)) (enc_key_data p) (salt p) (sa_direction a))
  | (result, None) => (result, a)
  end.

Definition set_direction (d : doca_ipsec_direction) (a : gw_sa_attrs) : gw_sa_attrs :=
  SaAttrs (sa_icv_length a) (sa_key_type a) (sa_enc_key_data a) (sa_salt a) d.

Definition policy_l3_type (l3 : Z) : doca_flow_l3_type := if l3 =? POLICY_L3_TYPE_IPV4 then L3_IP4 else L3_IP6.

(** Updates of a rule. *)
Definition set_addrs (off : nat) (a : bytes) (r : gw_encrypt_rule) : gw_encrypt_rule :=
  GwEnc (e_l3_type r) (e_protocol r) (splice off a (e_addrs r)) (e_src_port r) (e_dst_port r) (e_encap_l3_type r)
    (e_encap_dst r) (e_esp_spi r) (e_current_sn r) (e_sa r) (e_sa_attrs r).
Definition set_encap (t : doca_flow_l3_type) (a : bytes) (r : gw_encrypt_rule) : gw_encrypt_rule :=
  GwEnc (e_l3_type r) (e_protocol r) (e_addrs r) (e_src_port r) (e_dst_port r) t
    (splice 0 a (e_encap_dst r)) (e_esp_spi r) (e_current_sn r) (e_sa r) (e_sa_attrs r).
Definition set_e_sa_attrs (a : gw_sa_attrs) (r : gw_encrypt_rule) : gw_encrypt_rule :=
  GwEnc (e_l3_type r) (e_protocol r) (e_addrs r) (e_src_port r) (e_dst_port r) (e_encap_l3_type r)
    (e_encap_dst r) (e_esp_spi r) (e_current_sn r) (e_sa r) a.

Section Policies.
Context {T : Type} `{Ip6Hash T}.

(** The addresses of an encryption rule. *)
Definition parse_encrypt_addresses (p : policy) (r : gw_encrypt_rule) (t : T) :
    option (doca_error * gw_encrypt_rule * T) :=
  src ← c_str (src_ip_addr p);
  dst ← c_str (dst_ip_addr p);
  if decide (e_l3_type r = L3_IP4) then
    let '(result, a) := parse_ipv4_str src (ip4_src_ip r) in
    let r := set_addrs 0 a r in
    if decide (result = DOCA_SUCCESS) then
      let '(result, a) := parse_ipv4_str dst (ip4_dst_ip r) in
      Some (result, set_addrs 4 a r, t)
    else Some (result, r, t)
  else
    let '(result, a) := parse_ipv6_str src (ip6_src_ip r) in
    let r := set_addrs 0 a r in
    if decide (result = DOCA_SUCCESS) then
      let '(result, t) := ip6_table_add (ip6_src_ip r) t in
      if decide (result = DOCA_SUCCESS) then
        let '(result, a) := parse_ipv6_str dst (ip6_dst_ip r) in
        let r := set_addrs 16 a r in
        if decide (result = DOCA_SUCCESS) then
          let '(result, t) := ip6_table_add (ip6_dst_ip r) t in
          Some (result, r, t)
        else Some (result, r, t)
      else Some (result, r, t)
    else Some (result, r, t).

(** The outer header, in tunnel mode. *)
Definition parse_encrypt_outer (p : policy) (r : gw_encrypt_rule) : option (doca_error * gw_encrypt_rule) :=
  if policy_mode p =? POLICY_MODE_TUNNEL then
    let l3 := policy_l3_type (outer_l3_protocol p) in
    dst ← c_str (outer_dst_ip p);
    if decide (l3 = L3_IP4) then
      let '(result, a) := parse_ipv4_str dst (take 4 (e_encap_dst r)) in
      Some (result, set_encap l3 a r)
    else
      let '(result, a) := parse_ipv6_str dst (e_encap_dst r) in
      Some (result, set_encap l3 a r)
  else Some (DOCA_SUCCESS, r).

Definition ipsec_security_gw_policy_encrypt_parse (p : policy) (r : gw_encrypt_rule) (t : T) :
    option (doca_error * gw_encrypt_rule * T) :=
  let r :=
    GwEnc (policy_l3_type (l3_protocol p))
      (if l4_protocol p =? POLICY_L4_TYPE_UDP then L4_UDP else L4_TCP)
      (e_addrs r) (PolicyMsg.src_port p) (PolicyMsg.dst_port p) (e_encap_l3_type r) (e_encap_dst r) (PolicyMsg.spi p)
      (e_current_sn r) (e_sa r) (e_sa_attrs r) in
  '(result, r, t) ← parse_encrypt_addresses p r t;
  if decide (result = DOCA_SUCCESS) then
    '(result, r) ← parse_encrypt_outer p r;
    if decide (result = DOCA_SUCCESS) then
      let '(result, a) := parse_sa_attrs p (e_sa_attrs r) in
      if decide (result = DOCA_SUCCESS) then
        Some (DOCA_SUCCESS, set_e_sa_attrs (set_direction DOCA_IPSEC_DIRECTION_EGRESS_ENCRYPT a) r, t)
      else Some (result, set_e_sa_attrs a r, t)
    else Some (result, r, t)
  else Some (result, r, t).

Definition ipsec_security_gw_policy_decrypt_parse (p : policy) (m : ipsec_security_gw_mode) (r : gw_decrypt_rule) :
    option (doca_error * gw_decrypt_rule) :=
  let inner_l3_type := policy_l3_type (l3_protocol p) in
  let l3 := if decide (m = IPSEC_SECURITY_GW_TUNNEL) then policy_l3_type (outer_l3_protocol p) else inner_l3_type in
  dst_ip ← c_str (if decide (m = IPSEC_SECURITY_GW_TUNNEL) then outer_dst_ip p else dst_ip_addr p);
  let '(result, dst) :=
    (if decide (l3 = L3_IP4) then
       let '(result, a) := parse_ipv4_str dst_ip (take 4 (d_dst r)) in (result, splice 0 a (d_dst r))
     else parse_ipv6_str dst_ip (d_dst r)) in
  if decide (result = DOCA_SUCCESS) then
    let '(result, a) := parse_sa_attrs p (d_sa_attrs r) in
    let a := if decide (result = DOCA_SUCCESS)
             then set_direction DOCA_IPSEC_DIRECTION_INGRESS_DECRYPT a else a in
    Some (result, GwDec l3 dst (PolicyMsg.spi p) inner_l3_type (d_sa r) a (d_entries r))
  else Some (result, GwDec l3 dst (d_esp_spi r) inner_l3_type (d_sa r) (d_sa_attrs r) (d_entries r)).

(** ** Rules and counters: [app_rules] and [ip6_table] of the configuration *)

Record gw_state := GwState {
  hw : hw_state;
  ip6_table : T;
  g_encrypt_rules : list gw_encrypt_rule;
  g_decrypt_rules : list gw_decrypt_rule;
  nb_encrypted_rules : Z; nb_decrypted_rules : Z; nb_rules : Z
}.

Definition set_hw (h : hw_state) (g : gw_state) : gw_state :=
  GwState h (ip6_table g) (g_encrypt_rules g) (g_decrypt_rules g) (nb_encrypted_rules g) (nb_decrypted_rules g)
    (nb_rules g).
Definition set_encrypt_rule (i : Z) (r : gw_encrypt_rule) (t : T) : ST gw_state unit := fun g =>
  rs ← wr (g_encrypt_rules g) i r;
  Some (tt, GwState (hw g) t rs (g_decrypt_rules g) (nb_encrypted_rules g) (nb_decrypted_rules g) (nb_rules g)).
Definition set_decrypt_rule (i : Z) (r : gw_decrypt_rule) : ST gw_state unit := fun g =>
  rs ← wr (g_decrypt_rules g) i r;
  Some (tt, GwState (hw g) (ip6_table g) (g_encrypt_rules g) rs (nb_encrypted_rules g) (nb_decrypted_rules g)
              (nb_rules g)).
Definition count_encrypted : ST gw_state unit := fun g =>
  Some (tt, GwState (hw g) (ip6_table g) (g_encrypt_rules g) (g_decrypt_rules g) (nb_encrypted_rules g + 1)
              (nb_decrypted_rules g) (nb_rules g + 1)).
Definition count_decrypted : ST gw_state unit := fun g =>
  Some (tt, GwState (hw g) (ip6_table g) (g_encrypt_rules g) (g_decrypt_rules g) (nb_encrypted_rules g)
              (nb_decrypted_rules g + 1) (nb_rules g + 1)).

(** A computation of the flow part. *)
Definition with_hw {A} (m : ST hw_state A) : ST gw_state A := fun g =>
  '(a, h) ← m (hw g); Some (a, set_hw h g).

Context `{HW : Hardware} (polls : nat) (cfg : gw_config).

Definition get_encrypt_rule (i : Z) : ST gw_state gw_encrypt_rule := fun g =>
  r ← rd (g_encrypt_rules g) i; Some (r, g).
Definition get_decrypt_rule (i : Z) : ST gw_state gw_decrypt_rule := fun g =>
  r ← rd (g_decrypt_rules g) i; Some (r, g).
Definition defined {A} (o : option A) : ST gw_state A := fun g => a ← o; Some (a, g).

(** [rule] is the place at index [i] of the array. *)
Definition ipsec_security_gw_handle_encrypt_policy (p : policy) (i : Z) : ST gw_state doca_error :=
  g ← get;
  r ← get_encrypt_rule i;
  '(result, r, t) ← defined (ipsec_security_gw_policy_encrypt_parse p r (ip6_table g));
  _ ← set_encrypt_rule i r t;
  mret result >>?
  '(result, sa) ← with_hw (ipsec_security_gw_create_ipsec_sa (e_sa_attrs r) cfg (e_sa r));
  _ ← set_encrypt_rule i (set_e_sa sa r) t;
  mret result >>?
  with_hw (add_encrypt_entry polls (h6_lookup t) cfg (set_e_sa sa r) (nb_rules g)) >>?
  _ ← count_encrypted;
  mret DOCA_SUCCESS.

Definition ipsec_security_gw_handle_decrypt_policy (port : gw_port) (p : policy) (i : Z) : ST gw_state doca_error :=
  g ← get;
  r ← get_decrypt_rule i;
  '(result, r) ← defined (ipsec_security_gw_policy_decrypt_parse p (mode (base cfg)) r);
  _ ← set_decrypt_rule i r;
  mret result >>?
  '(result, sa) ← with_hw (ipsec_security_gw_create_ipsec_sa (d_sa_attrs r) cfg (d_sa r));
  _ ← set_decrypt_rule i (set_d_sa sa r);
  mret result >>?
  with_hw (add_decrypt_entry polls cfg (set_d_sa sa r) (nb_rules g) port) >>?
  _ ← count_decrypted;
  mret DOCA_SUCCESS.

(** ** The loop of ipsec_security_gw_wait_for_traffic *)

(** What a turn does with a policy that was read; an error leaves the loop.
    Other directions are passed over. *)
Definition handle_policy (p : policy) : ST gw_state doca_error :=
  g ← get;
  if policy_direction p =? POLICY_DIR_OUT then
    if MAX_NB_RULES <=? nb_encrypted_rules g then mret DOCA_ERROR_BAD_STATE
    else ipsec_security_gw_handle_encrypt_policy p (nb_encrypted_rules g)
  else if policy_direction p =? POLICY_DIR_IN then
    if MAX_NB_RULES <=? nb_decrypted_rules g then mret DOCA_ERROR_BAD_STATE
    else ipsec_security_gw_handle_decrypt_policy (secured cfg) p (nb_decrypted_rules g)
  else mret DOCA_SUCCESS.

(** [turns] of the loop happen before [force_quit] is set; [result] is the
    variable's value, [evs] what the socket will deliver. *)
Fixpoint policy_loop (turns : nat) (result : doca_error) (evs : list recv_event) : ST gw_state doca_error :=
  match turns with
  | O => mret result
  | S turns' =>
      if negb (socket_conf cfg) then policy_loop turns' result evs
      else
        '(result, p, evs) ← defined (read_message_from_socket policy0 evs);
        if decide (result = DOCA_SUCCESS) then
          result ← handle_policy p;
          if decide (result = DOCA_SUCCESS) then policy_loop turns' result evs else mret result
        else if decide (result = DOCA_ERROR_AGAIN) then policy_loop turns' result evs
        else mret result
  end.

(** A sequence of policies, without the socket. *)
Fixpoint handle_policies (ps : list policy) : ST gw_state doca_error :=
  match ps with
  | [] => mret DOCA_SUCCESS
  | p :: ps' => handle_policy p >>? handle_policies ps'
  end.
End Policies.
