(* ===== verification/PolicySpec.v ===== *)
(** * Theorems on the rules of the IPsec gateway

    For any hardware: installed rules are never touched again, the counters stay
    within the arrays.  For hardware that completes entries when it is asked to
    ([PromptHardware]): adding rules ends; an accepted policy becomes the
    entries it describes.  And what the index that is put into packets means. *)

From S2P Require Import Prelude.
From S2P Require Import CString.
From S2P Require Import FlowTypes.
From S2P Require Import FlowFields.
From S2P Require Import AntiReplay.
From S2P Require Import PolicyMsg.
From S2P Require Import Mbuf.
From S2P Require Import EspPacket.
From S2P Require Import GatewayAddr.
From S2P Require Import GatewayRules.
From S2P Require Import Policy.
#[local] Open Scope Z_scope.
#[local] Open Scope doca_scope.

(** Take a successful run of the state monad apart. *)
Ltac st_inv H :=
  lazymatch type of H with
  | or_return _ _ _ = Some (_, _) =>
      apply or_return_inv in H;
      let r1 := fresh "r1" in let s1 := fresh "s1" in let Hm := fresh "Hm" in
      destruct H as (r1 & s1 & Hm & [[-> H] | (?Hr & -> & ->)])
  | (_ ≫= _) _ = Some _ =>
      apply ST_bind_inv in H;
      let a := fresh "a" in let s1 := fresh "s1" in let Hm := fresh "Hm" in
      destruct H as (a & s1 & Hm & H)
  end.

Ltac st_step :=
  match goal with
  | H : or_return _ _ _ = Some (_, _) |- _ => st_inv H
  | H : (_ ≫= _) _ = Some _ |- _ => st_inv H
  | H : mret _ _ = Some _ |- _ => injection H as ? ?; subst
  | H : get _ = Some _ |- _ => injection H as ? ?; subst
  | H : undef _ = Some _ |- _ => discriminate H
  | H : (match ?x with pair _ _ => _ end) _ = Some _ |- _ => is_var x; destruct x
  end.

(** ** Any hardware *)

Section Counters.
Context {T : Type} `{Ip6Hash T} `{HW : Hardware} (polls : nat) (cfg : gw_config).
Implicit Types g : @gw_state T.

Record rules_inv g : Prop := {
  inv_enc : zlen (g_encrypt_rules g) = MAX_NB_RULES;
  inv_dec : zlen (g_decrypt_rules g) = MAX_NB_RULES;
  inv_nb_enc : 0 <= nb_encrypted_rules g <= MAX_NB_RULES;
  inv_nb_dec : 0 <= nb_decrypted_rules g <= MAX_NB_RULES;
  inv_nb : nb_rules g = nb_encrypted_rules g + nb_decrypted_rules g
}.

(** The rules that are counted are the same. *)
Definition installed_kept g g' : Prop :=
  (forall i, i < nb_encrypted_rules g -> rd (g_encrypt_rules g') i = rd (g_encrypt_rules g) i) /\
  (forall i, i < nb_decrypted_rules g -> rd (g_decrypt_rules g') i = rd (g_decrypt_rules g) i).

Definition counters g : Z * Z * Z := (nb_encrypted_rules g, nb_decrypted_rules g, nb_rules g).

(** What a step that does not count may do. *)
Definition quiet g g' : Prop :=
  counters g' = counters g /\ installed_kept g g' /\
  length (g_encrypt_rules g') = length (g_encrypt_rules g) /\
  length (g_decrypt_rules g') = length (g_decrypt_rules g).

Lemma quiet_refl g : quiet g g.
Proof. by repeat split. Qed.

Lemma quiet_trans g1 g2 g3 : quiet g1 g2 -> quiet g2 g3 -> quiet g1 g3.
Proof.
  intros (C1 & [E1 D1] & L1 & L1') (C2 & [E2 D2] & L2 & L2'). unfold quiet, installed_kept, counters in *.
  injection C1 as ? ? ?. injection C2 as ? ? ?.
  repeat split; try congruence; intros i Hi.
  - rewrite E2, E1 by lia. done.
  - rewrite D2, D1 by lia. done.
Qed.

Lemma quiet_with_hw {A} (m : ST hw_state A) g a g' : with_hw m g = Some (a, g') -> quiet g g'.
Proof. unfold with_hw. destruct (m (hw g)) as [[? ?]|]; [|done]. cbn. intros [= <- <-]. by repeat split. Qed.

Lemma quiet_set_encrypt g i r t u g' :
  nb_encrypted_rules g <= i -> set_encrypt_rule i r t g = Some (u, g') -> quiet g g'.
Proof.
  unfold set_encrypt_rule. intros Hi. destruct (wr _ _ _) as [rs|] eqn:E; [|done]. cbn. intros [= _ <-].
  split; [done|]. split; [split|split]; cbn; [|done| by eapply wr_length |done].
  intros j Hj. eapply rd_wr_ne; [|exact E]. lia.
Qed.

Lemma quiet_set_decrypt g i r u g' :
  nb_decrypted_rules g <= i -> set_decrypt_rule i r g = Some (u, g') -> quiet g g'.
Proof.
  unfold set_decrypt_rule. intros Hi. destruct (wr _ _ _) as [rs|] eqn:E; [|done]. cbn. intros [= _ <-].
  split; [done|]. split; [split|split]; cbn; [done| |done| by eapply wr_length].
  intros j Hj. eapply rd_wr_ne; [|exact E]. lia.
Qed.

(** Extending a quiet run by a step. *)
Lemma quiet_then_hw {A} (m : ST hw_state A) g0 g a g' : quiet g0 g -> with_hw m g = Some (a, g') -> quiet g0 g'.
Proof. intros Hq Hm. eapply quiet_trans; [exact Hq | by eapply quiet_with_hw]. Qed.

Lemma quiet_then_encrypt g0 g i r t u g' :
  quiet g0 g -> nb_encrypted_rules g0 <= i -> set_encrypt_rule i r t g = Some (u, g') -> quiet g0 g'.
Proof.
  intros Hq Hi Hm. eapply quiet_trans; [exact Hq | eapply quiet_set_encrypt; [|exact Hm]].
  destruct Hq as [[= -> _ _] _]. done.
Qed.

Lemma quiet_then_decrypt g0 g i r u g' :
  quiet g0 g -> nb_decrypted_rules g0 <= i -> set_decrypt_rule i r g = Some (u, g') -> quiet g0 g'.
Proof.
  intros Hq Hi Hm. eapply quiet_trans; [exact Hq | eapply quiet_set_decrypt; [|exact Hm]].
  destruct Hq as [[= _ -> _] _]. done.
Qed.

Lemma get_encrypt_same g i r g' : get_encrypt_rule i g = Some (r, g') -> g' = g.
Proof. unfold get_encrypt_rule. destruct (rd _ _); [|done]. by intros [= _ <-]. Qed.

Lemma get_decrypt_same g i r g' : get_decrypt_rule i g = Some (r, g') -> g' = g.
Proof. unfold get_decrypt_rule. destruct (rd _ _); [|done]. by intros [= _ <-]. Qed.

Lemma defined_same {A} (o : option A) g a g' : defined o g = Some (a, g') -> g' = g /\ o = Some a.
Proof. unfold defined. destruct o; [|done]. by intros [= -> <-]. Qed.
End Counters.

Ltac quiet_steps :=
  repeat match goal with
  | H : get_encrypt_rule _ _ = Some _ |- _ => apply get_encrypt_same in H; subst
  | H : get_decrypt_rule _ _ = Some _ |- _ => apply get_decrypt_same in H; subst
  | H : defined _ _ = Some _ |- _ => apply defined_same in H as [-> H]
  | _ => st_step
  end.

Section Handlers.
Context {T : Type} `{Ip6Hash T} `{HW : Hardware} (polls : nat) (cfg : gw_config).
Implicit Types g : @gw_state T.

#[local] Hint Resolve quiet_refl : core.
#[local] Hint Extern 3 (quiet _ _) => eapply quiet_then_hw; [|eassumption] : core.
#[local] Hint Extern 2 (quiet _ _) => eapply quiet_then_encrypt; [|reflexivity|eassumption] : core.
#[local] Hint Extern 2 (quiet _ _) => eapply quiet_then_decrypt; [|reflexivity|eassumption] : core.

Lemma handle_encrypt_effect p g r g' :
  ipsec_security_gw_handle_encrypt_policy polls cfg p (nb_encrypted_rules g) g = Some (r, g') ->
  exists g1, quiet g g1 /\
    (r = DOCA_SUCCESS /\ count_encrypted g1 = Some (tt, g') \/ r <> DOCA_SUCCESS /\ g' = g1).
Proof.
  unfold ipsec_security_gw_handle_encrypt_policy. intros Hrun.
  quiet_steps; try destruct a2; eexists; (split; [|by eauto]); eauto 8.
Qed.

Lemma handle_decrypt_effect port p g r g' :
  ipsec_security_gw_handle_decrypt_policy polls cfg port p (nb_decrypted_rules g) g = Some (r, g') ->
  exists g1, quiet g g1 /\
    (r = DOCA_SUCCESS /\ count_decrypted g1 = Some (tt, g') \/ r <> DOCA_SUCCESS /\ g' = g1).
Proof.
  unfold ipsec_security_gw_handle_decrypt_policy. intros Hrun.
  quiet_steps; try destruct a2; eexists; (split; [|by eauto]); eauto 8.
Qed.

(** What one policy does to the counters. *)
Definition policy_counts (p : policy) (c : Z * Z * Z) : Z * Z * Z :=
  let '(e, d, n) := c in
  if policy_direction p =? POLICY_DIR_OUT then (e + 1, d, n + 1)
  else if policy_direction p =? POLICY_DIR_IN then (e, d + 1, n + 1) else (e, d, n).

Lemma handle_policy_effect p g r g' :
  rules_inv g -> handle_policy polls cfg p g = Some (r, g') ->
  rules_inv g' /\ installed_kept g g' /\
  counters g' = (if decide (r = DOCA_SUCCESS) then policy_counts p (counters g) else counters g).
Proof.
  intros [He Hd Hne Hnd Hn] Hrun. unfold handle_policy in Hrun. st_inv Hrun. injection Hm as <- <-.
  unfold policy_counts, counters.
  destruct (policy_direction p =? POLICY_DIR_OUT).
  - destruct (Z.leb_spec MAX_NB_RULES (nb_encrypted_rules g)) as [|Hlt].
    + injection Hrun as <- <-. split; [by split|]. by repeat split.
    + apply handle_encrypt_effect in Hrun as (g1 & (Hc & Hk & Hl1 & Hl2) & Hr).
      unfold counters in Hc. injection Hc as C1 C2 C3.
      destruct Hr as [[-> Hcount]|[Hr ->]].
      * injection Hcount as <-. rewrite decide_True by done. cbn.
        split; [|by rewrite C1, C2, C3]. split; cbn; lia.
      * rewrite decide_False by done. split; [split; lia|]. split; [done|]. congruence.
  - destruct (policy_direction p =? POLICY_DIR_IN).
    + destruct (Z.leb_spec MAX_NB_RULES (nb_decrypted_rules g)) as [|Hlt].
      * injection Hrun as <- <-. split; [by split|]. by repeat split.
      * apply handle_decrypt_effect in Hrun as (g1 & (Hc & Hk & Hl1 & Hl2) & Hr).
        unfold counters in Hc. injection Hc as C1 C2 C3.
        destruct Hr as [[-> Hcount]|[Hr ->]].
        -- injection Hcount as <-. rewrite decide_True by done. cbn.
           split; [|by rewrite C1, C2, C3]. split; cbn; lia.
        -- rewrite decide_False by done. split; [split; lia|]. split; [done|]. congruence.
    + injection Hrun as <- <-. split; [by split|]. by repeat split.
Qed.
End Handlers.

(** ** Hardware that processes entries when asked *)

(** The queue of a port serves the entries in the order they were added, at
    most [k] of them: the statuses of those served, and the queue after. *)
Fixpoint serve (port : gw_port) (k : nat) (q : list (gw_port * status_id)) :
    list status_id * list (gw_port * status_id) :=
  match q with
  | [] => ([], [])
  | (p, i) :: q' =>
      match k with
      | S k' => if decide (p = port) then let '(s, r) := serve port k' q' in (i :: s, r)
                else let '(s, r) := serve port k q' in (s, (p, i) :: r)
      | O => ([], q)
      end
  end.

(** doca_flow_entries_process without a maximum (0) serves all. *)
Definition serve_max (n : Z) (q : list (gw_port * status_id)) : nat :=
  if n =? 0 then length q else Z.to_nat n.

(** The port of a pipe. *)
Definition pipe_port (cfg : gw_config) (pipe : gw_pipe) : gw_port :=
  match pipe with
  | ipv4_tcp_pipe | ipv4_udp_pipe | ipv6_tcp_pipe | ipv6_udp_pipe | ipv6_src_tcp_pipe | ipv6_src_udp_pipe =>
      unsecured cfg
  | _ => secured cfg
  end.

(** The entries that wait, as a function of the calls.  An entry that is
    accepted joins the queue of its pipe's port; processing serves it. *)
Class PromptHardware (cfg : gw_config) `{HW : Hardware} := {
  queue : list hw_call -> list (gw_port * status_id);
  queue_add : forall h pipe m a f i,
    pipe_add_entry (h ++ [PipeAddEntry pipe m a f i]) = DOCA_SUCCESS ->
    queue (h ++ [PipeAddEntry pipe m a f i]) = queue h ++ [(pipe_port cfg pipe, i)];
  queue_process : forall h port n r cs,
    flow_entries_process (h ++ [EntriesProcess port n]) = (r, cs) -> r = DOCA_SUCCESS ->
    Forall (fun c => op_add c = true) cs /\
    map user_ctx cs = map Some (fst (serve port (serve_max n (queue h)) (queue h))) /\
    queue (h ++ [EntriesProcess port n]) = snd (serve port (serve_max n (queue h)) (queue h));
  queue_other : forall h c,
    match c with PipeAddEntry _ _ _ _ _ | EntriesProcess _ _ => False | _ => True end ->
    queue (h ++ [c]) = queue h
}.

(** How many entries of a status, of a port, wait. *)
Definition waiting (i : status_id) (q : list (gw_port * status_id)) : Z :=
  Z.of_nat (length (filter (fun e => e.2 = i) q)).
Definition waiting_on (port : gw_port) (q : list (gw_port * status_id)) : nat :=
  length (filter (fun e => e.1 = port) q).

Section Serving.
Implicit Types q : list (gw_port * status_id).

Lemma waiting_cons i e q : waiting i (e :: q) = (if decide (e.2 = i) then 1 else 0) + waiting i q.
Proof. unfold waiting. rewrite filter_cons. case_decide; cbn [length]; lia. Qed.

Lemma waiting_app i q1 q2 : waiting i (q1 ++ q2) = waiting i q1 + waiting i q2.
Proof. unfold waiting. rewrite filter_app, length_app. lia. Qed.

Lemma waiting_nonneg i q : 0 <= waiting i q.
Proof. unfold waiting. lia. Qed.

(** What is served has left the queue. *)
Lemma serve_waiting port k q i :
  waiting i q = Z.of_nat (length (filter (fun j => j = i) (fst (serve port k q)))) + waiting i (snd (serve port k q)).
Proof.
  revert k. induction q as [|[p j] q IH]; intros k; cbn [serve]; [done|].
  destruct k as [|k]; [cbn; lia|]. case_decide.
  - destruct (serve port k q) as [s r] eqn:E. cbn [fst snd]. rewrite waiting_cons, (IH k), E, filter_cons.
    cbn [fst snd]. case_decide; cbn [length]; lia.
  - destruct (serve port (S k) q) as [s r] eqn:E. cbn [fst snd]. rewrite !waiting_cons, (IH (S k)), E.
    cbn [fst snd]. lia.
Qed.

Lemma serve_sublist port k q : sublist (snd (serve port k q)) q.
Proof.
  revert k. induction q as [|[p j] q IH]; intros k; cbn [serve]; [done|]. destruct k as [|k]; [done|].
  case_decide.
  - specialize (IH k). destruct (serve port k q). cbn [snd] in *. by apply sublist_cons.
  - specialize (IH (S k)). destruct (serve port (S k) q). cbn [snd] in *. by apply sublist_skip.
Qed.

Lemma Forall_sublist {A} (P : A -> Prop) l1 l2 : sublist l1 l2 -> Forall P l2 -> Forall P l1.
Proof.
  induction 1; intros HP; [done| |]; apply Forall_cons in HP as [? ?]; [constructor|]; auto.
Qed.

Lemma waiting_on_cons port e q :
  waiting_on port (e :: q) = ((if decide (e.1 = port) then 1 else 0) + waiting_on port q)%nat.
Proof. unfold waiting_on. rewrite filter_cons. by case_decide. Qed.

Lemma serve_waiting_on port k q : (waiting_on port (snd (serve port k q)) <= waiting_on port q)%nat.
Proof.
  revert k. induction q as [|[p j] q IH]; intros k; cbn [serve]; [done|]. destruct k as [|k]; [done|].
  rewrite waiting_on_cons. cbn [fst]. case_decide.
  - specialize (IH k). destruct (serve port k q). cbn [snd] in *. lia.
  - specialize (IH (S k)). destruct (serve port (S k) q). cbn [snd] in *.
    rewrite waiting_on_cons. cbn [fst]. rewrite decide_False by done. lia.
Qed.

(** A request for entries serves one, if there is one. *)
Lemma serve_progress port k q :
  (0 < k)%nat -> (0 < waiting_on port q)%nat -> (waiting_on port (snd (serve port k q)) < waiting_on port q)%nat.
Proof.
  revert k. induction q as [|[p j] q IH]; intros k Hk; [cbn; lia|]. cbn [serve]. destruct k as [|k]; [lia|].
  rewrite waiting_on_cons. cbn [fst]. case_decide as Hp.
  - intros _. pose proof (serve_waiting_on port k q).
    destruct (serve port k q). cbn [snd] in *. lia.
  - intros Hw. specialize (IH (S k) ltac:(lia) ltac:(lia)). destruct (serve port (S k) q). cbn [snd] in *.
    rewrite waiting_on_cons. cbn [fst]. rewrite decide_False by done. lia.
Qed.

Lemma waiting_on_pos port i q :
  Forall (fun e => e.2 = i -> e.1 = port) q -> (waiting i q <= Z.of_nat (waiting_on port q)).
Proof.
  induction 1 as [|[p j] q Hp _ IH]; [done|]. rewrite waiting_cons, waiting_on_cons. cbn [fst snd] in *.
  repeat case_decide; try lia. tauto.
Qed.
Lemma waiting_sublist i q1 q2 : sublist q1 q2 -> waiting i q1 <= waiting i q2.
Proof.
  unfold waiting. intros Hs. apply inj_le. induction Hs; rewrite ?filter_cons; repeat case_decide; cbn [length]; lia.
Qed.

Lemma length_waiting q :
  Z.of_nat (length q) = waiting hairpin_status q + waiting crypt_status q.
Proof.
  induction q as [|[p i] q IH]; [done|]. rewrite !waiting_cons. cbn [length snd].
  destruct i; repeat case_decide; try done; lia.
Qed.

Lemma waiting_on_length port q : (waiting_on port q <= length q)%nat.
Proof. unfold waiting_on. apply length_filter. Qed.
End Serving.

Section Draining.
Context {cfg : gw_config} `{HW : Hardware} `{!PromptHardware cfg}.
Implicit Types s : hw_state.

(** The counters of the statuses are what the queue holds. *)
Definition consistent s : Prop := forall i, entries_in_queue (status_of i s) = waiting i (queue (calls s)).

Lemma status_of_set i j st s : status_of j (set_status i st s) = if decide (j = i) then st else status_of j s.
Proof. by destruct i, j. Qed.

Lemma calls_set i st s : calls (set_status i st s) = calls s.
Proof. by destruct i. Qed.

(** The callbacks take the entries they report from the counters. *)
Lemma callbacks_count cs s served i :
  Forall (fun c => op_add c = true) cs -> map user_ctx cs = map Some served ->
  entries_in_queue (status_of i (foldl (flip check_for_valid_entry) s cs)) =
    entries_in_queue (status_of i s) - Z.of_nat (length (filter (fun j => j = i) served)) /\
  calls (foldl (flip check_for_valid_entry) s cs) = calls s.
Proof.
  revert s served. induction cs as [|c cs IH]; intros s [|j served] Hall Heq; try done; [split; [cbn; lia|done]|].
  injection Heq as Hc Heq. apply Forall_cons in Hall as [Hop Hall]. cbn [foldl flip].
  destruct (IH (check_for_valid_entry c s) served Hall Heq) as [-> ->].
  unfold check_for_valid_entry. rewrite Hc, Hop. cbn [negb]. rewrite calls_set, status_of_set, filter_cons.
  split; [|done]. destruct (decide (i = j)) as [->|].
  - rewrite decide_True by done. cbn [entries_in_queue length]. lia.
  - rewrite decide_False by done. done.
Qed.

Lemma process_ok port n s :
  consistent s ->
  exists r s', doca_flow_entries_process port n s = Some (r, s') /\
    (r = DOCA_SUCCESS -> consistent s' /\
       queue (calls s') = snd (serve port (serve_max n (queue (calls s))) (queue (calls s)))).
Proof.
  intros Hc. unfold doca_flow_entries_process, call, get, put, mbind, ST_bind.
  destruct (flow_entries_process (calls s ++ [EntriesProcess port n])) as [r cs] eqn:E.
  do 2 eexists. split; [done|]. intros ->.
  destruct (queue_process _ _ _ _ _ E eq_refl) as (Hall & Hmap & Hq).
  set (s1 := HwState _ _ _).
  assert (Hcalls : calls (foldl (flip check_for_valid_entry) s1 cs) = calls s1)
    by apply (callbacks_count cs s1 _ hairpin_status Hall Hmap).
  unfold consistent. rewrite Hcalls. cbn [calls s1]. rewrite Hq. split; [|done]. intros i.
  destruct (callbacks_count cs s1 _ i Hall Hmap) as [-> _].
  replace (status_of i s1) with (status_of i s) by (by destruct i).
  rewrite Hc, (serve_waiting port (serve_max n (queue (calls s))) (queue (calls s)) i). lia.
Qed.

Lemma process_entries_ok port i s :
  consistent s ->
  exists r s', process_entries port i s = Some (r, s') /\
    (r = DOCA_SUCCESS -> consistent s' /\
       queue (calls s') =
         snd (serve port (serve_max (waiting i (queue (calls s))) (queue (calls s))) (queue (calls s)))).
Proof.
  intros Hc. unfold process_entries.
  destruct (process_ok port (entries_in_queue (status_of i s)) s Hc) as (r & s' & E & Hs).
  rewrite (ST_bind_Some get _ s s s) by done. rewrite (ST_bind_Some _ _ _ _ _ E).
  case_decide as Hr; [|by exists r, s'].
  destruct (Hs Hr) as [Hc' Hq]. rewrite Hc in Hq.
  rewrite (ST_bind_Some get _ s' s' s') by done.
  case_match; eexists _, s'; (split; [done|]); [done|auto].
Qed.

(** The loop ends when its turns are more than the entries of the port. *)
Lemma drain_enough fuel port i s :
  consistent s -> Forall (fun e => e.2 = i -> e.1 = port) (queue (calls s)) ->
  (waiting_on port (queue (calls s)) < fuel)%nat ->
  exists r s', drain_loop fuel port i s = Some (r, s') /\
    (r = DOCA_SUCCESS -> consistent s' /\ waiting i (queue (calls s')) = 0 /\
       sublist (queue (calls s')) (queue (calls s))).
Proof.
  revert s. induction fuel as [|fuel IH]; intros s Hc Hp Hf; [lia|]. cbn [drain_loop].
  destruct (process_entries_ok port i s Hc) as (r & s1 & E & Hs).
  rewrite (ST_bind_Some _ _ _ _ _ E). case_decide as Hr; [|by exists r, s1].
  destruct (Hs Hr) as [Hc1 Hq]. rewrite (ST_bind_Some get _ s1 s1 s1) by done.
  assert (Hsub : sublist (queue (calls s1)) (queue (calls s))) by (rewrite Hq; apply serve_sublist).
  destruct (Z.ltb_spec 0 (entries_in_queue (status_of i s1))) as [Hpos|Hz].
  - rewrite Hc1 in Hpos.
    assert (Hprog : (waiting_on port (queue (calls s1)) < waiting_on port (queue (calls s)))%nat).
    { assert (0 < waiting i (queue (calls s))).
      { rewrite Hq in Hpos.
        pose proof (serve_waiting port (serve_max (waiting i (queue (calls s))) (queue (calls s)))
                      (queue (calls s)) i). lia. }
      pose proof (waiting_on_pos port i _ Hp). rewrite Hq. apply serve_progress; [|lia].
      unfold serve_max. destruct (Z.eqb_spec (waiting i (queue (calls s))) 0); lia. }
    destruct (IH s1 Hc1) as (r' & s' & E' & Hs'); [|lia|].
    { by eapply Forall_sublist. }
    exists r', s'. split; [done|]. intros Hr'. destruct (Hs' Hr') as (? & ? & ?). split; [done|]. split; [done|].
    by etrans.
  - exists DOCA_SUCCESS, s1. split; [done|]. intros _. split; [done|]. split; [|done].
    rewrite Hc1 in Hz. pose proof (waiting_nonneg i (queue (calls s1))). lia.
Qed.
End Draining.

(** ** Adding rules ends *)

Section Adding.
Context (cfg : gw_config) `{HW : Hardware} `{!PromptHardware cfg}.
Implicit Types s : hw_state.

(** An entry is charged to the status of its port, and no status has a full
    queue. *)
Definition queue_ok s : Prop :=
  consistent s /\
  Forall (fun e => e = (unsecured cfg, hairpin_status) \/ e = (secured cfg, crypt_status)) (queue (calls s)) /\
  forall i, waiting i (queue (calls s)) < QUEUE_DEPTH.

Lemma queue_ok_empty s : queue_ok s -> waiting hairpin_status (queue (calls s)) = 0 ->
  waiting crypt_status (queue (calls s)) = 0 -> queue (calls s) = [].
Proof.
  intros _. destruct (queue (calls s)) as [|[p i] q]; [done|]. rewrite !waiting_cons.
  pose proof (waiting_nonneg hairpin_status q). pose proof (waiting_nonneg crypt_status q).
  destruct i; cbn [snd]; repeat case_decide; try done; lia.
Qed.

(** Calls that are not about entries leave the queue. *)
Lemma call_other {A} c (answer : list hw_call -> A) s :
  match c with PipeAddEntry _ _ _ _ _ | EntriesProcess _ _ => False | _ => True end ->
  queue_ok s -> runs (call c answer) s (fun _ s' => queue_ok s' /\ queue (calls s') = queue (calls s)).
Proof.
  intros Hc (Hcon & Hall & Hlt). do 2 eexists. split; [done|]. unfold queue_ok, consistent in *. cbn [calls].
  rewrite queue_other by done. split; [|done]. split; [|done]. intros i. rewrite <- Hcon. by destruct i.
Qed.

Lemma sublist_ok s s' :
  queue_ok s -> consistent s' -> sublist (queue (calls s')) (queue (calls s)) -> queue_ok s'.
Proof.
  intros (_ & Hall & Hlt) Hcon Hsub. split; [done|]. split; [by eapply Forall_sublist|]. intros i.
  eapply Z.le_lt_trans; [|apply (Hlt i)]. by apply waiting_sublist.
Qed.

Lemma entry_added_ok pipe m a flags i s :
  pipe_port cfg pipe = match i with hairpin_status => unsecured cfg | crypt_status => secured cfg end ->
  queue_ok s ->
  runs (add_entry pipe m a flags i) s (fun r s' => r = DOCA_SUCCESS ->
    (forall j, status_of j s' = status_of j s) /\
    queue (calls s') = queue (calls s) ++ [(pipe_port cfg pipe, i)]).
Proof.
  intros Hp Hok. do 2 eexists. split; [done|]. intros Hr. cbn [calls]. split; [by intros []|]. by apply queue_add.
Qed.

Lemma count_ok i n s : runs (count_entries i n) s (fun _ s' => calls s' = calls s /\
  forall j, entries_in_queue (status_of j s') = entries_in_queue (status_of j s) + if decide (j = i) then n else 0).
Proof.
  unfold count_entries. apply runs_bind, runs_get. apply runs_put. rewrite calls_set. split; [done|]. intros j. rewrite status_of_set.
  case_decide; subst; cbn; lia.
Qed.

(** An entry with its count. *)
Lemma added_ok pipe i s s1 s2 :
  pipe_port cfg pipe = match i with hairpin_status => unsecured cfg | crypt_status => secured cfg end ->
  queue_ok s ->
  (forall j, status_of j s1 = status_of j s) -> queue (calls s1) = queue (calls s) ++ [(pipe_port cfg pipe, i)] ->
  calls s2 = calls s1 ->
  (forall j, entries_in_queue (status_of j s2) = entries_in_queue (status_of j s1) + if decide (j = i) then 1 else 0) ->
  consistent s2 /\
  Forall (fun e => e = (unsecured cfg, hairpin_status) \/ e = (secured cfg, crypt_status)) (queue (calls s2)) /\
  forall j, waiting j (queue (calls s2)) = waiting j (queue (calls s)) + if decide (j = i) then 1 else 0.
Proof.
  intros Hp (Hcon & Hall & Hlt) Hst Hq Hcalls Hcnt.
  assert (Hw : forall j, waiting j (queue (calls s2)) = waiting j (queue (calls s)) + if decide (j = i) then 1 else 0).
  { intros j. rewrite Hcalls, Hq, waiting_app, waiting_cons. cbn [snd].
    change (waiting j []) with 0. repeat case_decide; subst; try done; lia. }
  split; [|split; [|done]].
  - intros j. rewrite Hcnt, Hst, Hcon, Hw. done.
  - rewrite Hcalls, Hq, Hp. apply Forall_app. split; [done|]. constructor; [|constructor]. destruct i; auto.
Qed.

Lemma add_counted_ok port pipe m a flags i s :
  pipe_port cfg pipe = match i with hairpin_status => unsecured cfg | crypt_status => secured cfg end ->
  queue_ok s ->
  runs (add_counted port pipe m a flags i) s (fun r s' => r = DOCA_SUCCESS -> queue_ok s' /\
    forall j, j <> i -> waiting j (queue (calls s')) <= waiting j (queue (calls s))).
Proof.
  intros Hp Hok. unfold add_counted. apply runs_or_return.
  eapply runs_mono; [by apply entry_added_ok|]. intros r s1 Hs1. case_decide as Hr; [|done].
  destruct (Hs1 Hr) as [Hst Hq]. apply runs_bind.
  eapply runs_mono; [apply count_ok|]. intros [] s2 [Hcalls Hcnt].
  destruct (added_ok pipe i s s1 s2 Hp Hok Hst Hq Hcalls Hcnt) as (Hcon & Hall & Hw).
  apply runs_bind, runs_get. cbn beta. destruct (Z.eqb_spec (entries_in_queue (status_of i s2)) QUEUE_DEPTH) as [He|He].
  - unfold process_entries. apply runs_bind, runs_get. cbn beta.
    destruct (process_ok port (entries_in_queue (status_of i s2)) s2 Hcon) as (r' & s3 & E & Hs3).
    apply runs_bind. exists r', s3. split; [done|]. case_decide as Hr'; [|by apply runs_ret].
    destruct (Hs3 Hr') as [Hcon3 Hq3]. apply runs_bind, runs_get. cbn beta.
    destruct (failure (status_of i s3) || (entries_in_queue (status_of i s3) =? QUEUE_DEPTH)) eqn:Ef; apply runs_ret; [done|].
    intros _. apply orb_false_iff in Ef as [_ Ef%Z.eqb_neq].
    assert (Hsub : sublist (queue (calls s3)) (queue (calls s2))) by (rewrite Hq3; apply serve_sublist).
    assert (Hle : forall j, waiting j (queue (calls s3)) <= waiting j (queue (calls s2))).
    { intros k. rewrite Hq3.
      pose proof (serve_waiting port (serve_max (entries_in_queue (status_of i s2)) (queue (calls s2))) (queue (calls s2)) k). lia. }
    split; [|intros j Hj; specialize (Hle j); rewrite Hw, decide_False in Hle by done; lia].
    split; [done|]. split; [by eapply Forall_sublist|]. intros j.
    specialize (Hle j). rewrite Hw in Hle. destruct Hok as (_ & _ & Hlt). specialize (Hlt j).
    rewrite Hcon3 in Ef. case_decide; subst; unfold QUEUE_DEPTH in *; lia.
  - apply runs_ret. intros _. split; [|intros j Hj; rewrite Hw, decide_False by done; lia].
    split; [done|]. split; [done|]. intros j. rewrite Hw.
    destruct Hok as (_ & _ & Hlt). specialize (Hlt j). rewrite Hcon, Hw, decide_True in He by done.
    destruct (decide (j = i)) as [->|]; lia.
Qed.

(** Between two rules: nothing waits. *)
Definition idle s : Prop := queue_ok s /\ queue (calls s) = [].

Lemma flags_ok last i s Q : (forall f, Q f s) -> runs (batch_flags last i) s Q.
Proof. intros HQ. unfold batch_flags. apply runs_bind, runs_get, runs_ret, HQ. Qed.

Lemma hairpin_pipe r b : pipe_port cfg (get_pipe_for_rule r b) = unsecured cfg.
Proof. unfold get_pipe_for_rule. by destruct b; repeat case_decide. Qed.

Lemma encrypt_pipe_port r : pipe_port cfg (encrypt_pipe_of cfg r) = secured cfg.
Proof. unfold encrypt_pipe_of. by case_match; repeat case_decide. Qed.

(** Only entries of the hairpin pipes are added. *)
Definition hairpin_only s s' : Prop :=
  queue_ok s' /\ waiting crypt_status (queue (calls s')) <= waiting crypt_status (queue (calls s)).

Lemma five_tuple_ok lookup r nb i s :
  queue_ok s ->
  runs (add_five_tuple_match_entry lookup (unsecured cfg) r nb i) s
    (fun res s' => res = DOCA_SUCCESS -> hairpin_only s s').
Proof.
  intros Hok. unfold add_five_tuple_match_entry. apply runs_or_return.
  eapply (runs_mono _ _ (fun res s' => res = DOCA_SUCCESS -> hairpin_only s s')).
  - case_decide; [|by apply runs_ret]. case_match; [by apply runs_ret|].
    unfold add_src_ip6_entry. apply runs_bind, flags_ok. intros f.
    eapply runs_mono; [apply add_counted_ok; [apply hairpin_pipe|done]|].
    intros res s' Hs' Hr. destruct (Hs' Hr) as [? Hw]. split; [done|]. by apply Hw.
  - intros res s1 Hs1. case_decide as Hr; [|done]. destruct (Hs1 Hr) as [Hok1 Hw1].
    apply runs_bind, flags_ok. intros f.
    eapply runs_mono; [apply add_counted_ok; [apply hairpin_pipe|done]|].
    intros res' s' Hs' Hr'. destruct (Hs' Hr') as [? Hw]. split; [done|].
    etrans; [by apply Hw|done].
Qed.

Lemma shared_object_ok dir port sa id s :
  queue_ok s -> runs (create_ipsec_shared_object dir port sa id) s
    (fun _ s' => queue_ok s' /\ queue (calls s') = queue (calls s)).
Proof.
  intros Hok. unfold create_ipsec_shared_object. apply runs_or_return.
  eapply runs_mono; [by apply call_other|]. intros r s1 [Hok1 Hq1]. case_decide; [|done].
  rewrite <- Hq1. by apply call_other.
Qed.

Lemma create_sa_ok a sa s :
  queue_ok s -> runs (ipsec_security_gw_create_ipsec_sa a cfg sa) s
    (fun _ s' => queue_ok s' /\ queue (calls s') = queue (calls s)).
Proof.
  intros Hok. unfold ipsec_security_gw_create_ipsec_sa. apply runs_bind.
  eapply runs_mono; [by apply call_other|]. intros r s1 Hs1. by apply runs_ret.
Qed.

(** An entry that is added and counted where the queue is not looked at; there
    is room for it. *)
Lemma add_then_count_ok pipe m a flags i s :
  pipe_port cfg pipe = match i with hairpin_status => unsecured cfg | crypt_status => secured cfg end ->
  queue_ok s -> waiting i (queue (calls s)) < QUEUE_DEPTH - 1 ->
  runs (add_entry pipe m a flags i) s (fun r s1 => r = DOCA_SUCCESS ->
    runs (count_entries i 1) s1 (fun _ s2 => queue_ok s2 /\
      waiting i (queue (calls s2)) = waiting i (queue (calls s)) + 1)).
Proof.
  intros Hp Hok Hroom. eapply runs_mono; [by apply entry_added_ok|]. intros r s1 Hs1 Hr.
  destruct (Hs1 Hr) as [Hst Hq]. eapply runs_mono; [apply count_ok|]. intros [] s2 [Hcalls Hcnt].
  destruct (added_ok pipe i s s1 s2 Hp Hok Hst Hq Hcalls Hcnt) as (Hcon & Hall & Hw).
  split; [split; [done|]; split; [done|]|].
  - intros j. rewrite Hw. destruct Hok as (_ & _ & Hlt). specialize (Hlt j).
    destruct (decide (j = i)) as [->|]; lia.
  - by rewrite Hw, decide_True.
Qed.

Lemma reset_ok i s : idle s -> runs (reset_status i) s (fun _ s' => idle s').
Proof.
  intros [(Hcon & Hall & Hlt) Hq]. exists tt, (set_status i status0 s). split; [done|].
  unfold idle, queue_ok, consistent. rewrite calls_set, Hq in *. split; [|done]. split; [|done].
  intros j. rewrite status_of_set. case_decide; [done|]. by rewrite Hcon, Hq.
Qed.

End Adding.

Section Total.
Context (polls : nat) (cfg : gw_config) `{HW : Hardware} `{!PromptHardware cfg}.
Implicit Types s : hw_state.
Context (Hpolls : (1024 <= polls)%nat).

Lemma drain_ok port i s :
  (forall e, e.2 = i -> e = (unsecured cfg, hairpin_status) \/ e = (secured cfg, crypt_status) -> e.1 = port) ->
  queue_ok cfg s ->
  runs (drain polls port i) s (fun r s' => r = DOCA_SUCCESS ->
    queue_ok cfg s' /\ waiting i (queue (calls s')) = 0 /\ sublist (queue (calls s')) (queue (calls s))).
Proof.
  intros Hport Hok. pose proof Hok as (Hcon & Hall & Hlt).
  destruct (drain_enough polls port i s Hcon) as (r & s' & Hrun & Hs').
  - eapply Forall_impl; [exact Hall|]. intros e He Hi; exact (Hport e Hi He).
  - pose proof (waiting_on_length port (queue (calls s))). pose proof (length_waiting (queue (calls s))).
    pose proof (Hlt hairpin_status). pose proof (Hlt crypt_status). unfold QUEUE_DEPTH in *. lia.
  - exists r, s'. split; [done|]. intros Hr. destruct (Hs' Hr) as (? & ? & ?). split; [|done].
    by apply (sublist_ok cfg s).
Qed.

Lemma drain_both s :
  queue_ok cfg s ->
  runs (or_return (drain polls (secured cfg) crypt_status) (drain polls (unsecured cfg) hairpin_status)) s
    (fun r s' => r = DOCA_SUCCESS -> idle cfg s').
Proof.
  intros Hok. apply runs_or_return. eapply runs_mono; [apply drain_ok; [|done]|].
  { intros [p i]. cbn. by intros -> [[=]|[= ->]]. }
  intros r s1 Hs1. case_decide as Hr; [|done]. destruct (Hs1 Hr) as (Hok1 & Hz1 & _).
  eapply runs_mono; [apply drain_ok; [|done]|].
  { intros [p i]. cbn. by intros -> [[= ->]|[=]]. }
  intros r' s2 Hs2 Hr'. destruct (Hs2 Hr') as (Hok2 & Hz2 & Hsub). split; [done|].
  apply queue_ok_empty; [done|done|]. pose proof (waiting_nonneg crypt_status (queue (calls s2))).
  pose proof (waiting_sublist crypt_status _ _ Hsub). lia.
Qed.

Lemma add_encrypt_entry_ok lookup r id s :
  idle cfg s -> runs (add_encrypt_entry polls lookup cfg r id) s (fun res s' => res = DOCA_SUCCESS -> idle cfg s').
Proof.
  intros Hid. unfold add_encrypt_entry. apply runs_bind. eapply runs_mono; [by apply reset_ok|]. intros [] s1 Hid1.
  apply runs_bind. eapply runs_mono; [by apply reset_ok|]. intros [] s2 [Hok2 Hq2].
  apply runs_or_return. eapply runs_mono; [by apply five_tuple_ok|]. intros r1 s3 Hs3. case_decide as Hr1; [|done].
  destruct (Hs3 Hr1) as [Hok3 Hw3]. rewrite Hq2 in Hw3. change (waiting crypt_status []) with 0 in Hw3.
  apply runs_or_return. eapply runs_mono; [by apply shared_object_ok|]. intros r2 s4 [Hok4 Hq4].
  case_decide as Hr2; [|done]. apply runs_or_return.
  eapply runs_mono; [apply add_then_count_ok; [apply encrypt_pipe_port|done|rewrite Hq4; unfold QUEUE_DEPTH; lia]|].
  intros r3 s5 Hs5. case_decide as Hr3; [|done]. apply runs_bind. eapply runs_mono; [by apply Hs5|].
  intros [] s6 [Hok6 _]. by apply drain_both.
Qed.

Lemma decrypt_pipe_port t : pipe_port cfg (if decide (t = L3_IP4) then decrypt_ipv4_pipe else decrypt_ipv6_pipe) = secured cfg.
Proof. by case_decide. Qed.

Lemma drain_crypt s :
  queue_ok cfg s -> waiting hairpin_status (queue (calls s)) = 0 ->
  runs (drain polls (secured cfg) crypt_status) s (fun r s' => r = DOCA_SUCCESS -> idle cfg s').
Proof.
  intros Hok Hz. eapply runs_mono; [apply drain_ok; [|done]|].
  { intros [p i]. cbn. by intros -> [[=]|[= ->]]. }
  intros r s' Hs' Hr. destruct (Hs' Hr) as (Hok' & Hz' & Hsub). split; [done|].
  apply queue_ok_empty; [done| |done]. pose proof (waiting_nonneg hairpin_status (queue (calls s'))).
  pose proof (waiting_sublist hairpin_status _ _ Hsub). lia.
Qed.

Lemma add_decrypt_entry_ok r id s :
  idle cfg s -> runs (add_decrypt_entry polls cfg r id (secured cfg)) s (fun res s' => res = DOCA_SUCCESS -> idle cfg s').
Proof.
  intros Hid. unfold add_decrypt_entry. apply runs_bind. eapply runs_mono; [by apply reset_ok|].
  intros [] s2 [Hok2 Hq2]. apply runs_or_return.
  eapply runs_mono; [by apply shared_object_ok|]. intros r2 s4 [Hok4 Hq4]. case_decide as Hr2; [|done].
  apply runs_or_return.
  eapply runs_mono; [apply entry_added_ok; [apply decrypt_pipe_port|done]|].
  intros r3 s5 Hs5. destruct (decide (r3 = DOCA_SUCCESS)) as [Hr3|]; [|done]. destruct (Hs5 Hr3) as [Hst Hq]. apply runs_bind.
  eapply runs_mono; [apply count_ok|]. intros [] s6 [Hcalls Hcnt].
  destruct (added_ok cfg _ crypt_status s4 s5 s6 (decrypt_pipe_port _) Hok4 Hst Hq Hcalls Hcnt) as (Hcon & Hall & Hw).
  rewrite Hq4, Hq2 in Hw.
  assert (Hw' : forall j, waiting j (queue (calls s6)) = if decide (j = crypt_status) then 1 else 0).
  { intros j. rewrite Hw. unfold waiting. cbn. by case_decide. }
  apply drain_crypt; [|by rewrite Hw']. split; [done|]. split; [done|]. intros j. rewrite Hw'.
  unfold QUEUE_DEPTH. destruct (decide (j = crypt_status)); lia.
Qed.
End Total.

(** ** Policies *)

Section PolicyRuns.
Context {T : Type} `{Ip6Hash T} (polls : nat) (cfg : gw_config) `{HW : Hardware} `{!PromptHardware cfg}.
Context (Hpolls : (1024 <= polls)%nat).
Implicit Types g : @gw_state T.

Lemma c_str_terminated a : existsb (Z.eqb 0) a = true -> c_str a = Some (fst (span (fun c => negb (c =? 0)) a)).
Proof. intros Ha. unfold c_str. by rewrite Ha. Qed.

Lemma policy_l3_ipv4 : policy_l3_type POLICY_L3_TYPE_IPV4 = L3_IP4.
Proof. done. Qed.

(** Both parsers return. *)
Lemma encrypt_addresses_total p r (t : T) :
  terminated p -> exists res r' t', parse_encrypt_addresses p r t = Some (res, r', t').
Proof.
  intros Hterm. unfold terminated in Hterm. rewrite !Forall_cons in Hterm. destruct Hterm as (Hs & Hd & _).
  unfold parse_encrypt_addresses. rewrite !c_str_terminated by done. obind.
  repeat first [case_decide | destruct (parse_ipv4_str _ _) | destruct (parse_ipv6_str _ _)
    | destruct (ip6_table_add _ _)]; eauto.
Qed.

Lemma encrypt_outer_total p r : terminated p -> exists res r', parse_encrypt_outer p r = Some (res, r').
Proof.
  intros Hterm. unfold terminated in Hterm. rewrite !Forall_cons in Hterm. destruct Hterm as (_ & _ & _ & Ho & _).
  unfold parse_encrypt_outer. case_bool; [|eauto]. rewrite c_str_terminated by done. obind.
  case_decide; [destruct (parse_ipv4_str _ _)|destruct (parse_ipv6_str _ _)]; eauto.
Qed.

Lemma encrypt_parse_total p r (t : T) :
  terminated p -> exists res r' t', ipsec_security_gw_policy_encrypt_parse p r t = Some (res, r', t').
Proof.
  intros Hterm. unfold ipsec_security_gw_policy_encrypt_parse.
  edestruct (encrypt_addresses_total p) as (res & r1 & t1 & ->); [done|]. obind. case_decide; [|eauto].
  edestruct (encrypt_outer_total p r1) as (res2 & r2 & ->); [done|]. obind. case_decide; [|eauto].
  destruct (parse_sa_attrs _ _). case_decide; eauto.
Qed.

Lemma decrypt_parse_total p m r :
  terminated p -> exists res r', ipsec_security_gw_policy_decrypt_parse p m r = Some (res, r').
Proof.
  intros Hterm. unfold terminated in Hterm. rewrite !Forall_cons in Hterm. destruct Hterm as (_ & Hd & _ & Ho & _).
  unfold ipsec_security_gw_policy_decrypt_parse.
  rewrite c_str_terminated by (case_decide; done). obind.
  destruct (if decide _ then let '(_, _) := parse_ipv4_str _ _ in _ else _). case_decide; [|eauto].
  destruct (parse_sa_attrs _ _). eauto.
Qed.

Lemma runs_with_hw {A} (m : ST hw_state A) g (Q : A -> hw_state -> Prop) :
  runs m (hw g) Q -> runs (with_hw m) g (fun a g' => exists h, g' = set_hw h g /\ Q a h).
Proof.
  intros (a & h & E & HQ). exists a, (set_hw h g). unfold with_hw. rewrite E. cbn. split; [done|]. by exists h.
Qed.

Lemma runs_defined {A} (o : option A) a g (Q : A -> @gw_state T -> Prop) : o = Some a -> Q a g -> runs (defined o) g Q.
Proof. intros -> HQ. exists a, g. by split. Qed.

Lemma runs_set_encrypt i r t g (Q : unit -> @gw_state T -> Prop) :
  0 <= i < zlen (g_encrypt_rules g) ->
  (forall rs, length rs = length (g_encrypt_rules g) ->
     rd rs i = Some r -> (forall j, j <> i -> rd rs j = rd (g_encrypt_rules g) j) ->
     Q tt (GwState (hw g) t rs (g_decrypt_rules g) (nb_encrypted_rules g) (nb_decrypted_rules g) (nb_rules g))) ->
  runs (set_encrypt_rule i r t) g Q.
Proof.
  intros Hi HQ. unfold runs, set_encrypt_rule. rewrite wr_Some by done. cbn. do 2 eexists. split; [done|].
  pose proof (wr_Some _ _ r Hi) as Hw. apply HQ; [by eapply wr_length | by eapply rd_wr_eq |].
  intros j Hj. eapply rd_wr_ne; [|exact Hw]. done.
Qed.

Lemma runs_set_decrypt i r g (Q : unit -> @gw_state T -> Prop) :
  0 <= i < zlen (g_decrypt_rules g) ->
  (forall rs, length rs = length (g_decrypt_rules g) ->
     rd rs i = Some r -> (forall j, j <> i -> rd rs j = rd (g_decrypt_rules g) j) ->
     Q tt (GwState (hw g) (ip6_table g) (g_encrypt_rules g) rs (nb_encrypted_rules g) (nb_decrypted_rules g) (nb_rules g))) ->
  runs (set_decrypt_rule i r) g Q.
Proof.
  intros Hi HQ. unfold runs, set_decrypt_rule. rewrite wr_Some by done. cbn. do 2 eexists. split; [done|].
  pose proof (wr_Some _ _ r Hi) as Hw. apply HQ; [by eapply wr_length | by eapply rd_wr_eq |].
  intros j Hj. eapply rd_wr_ne; [|exact Hw]. done.
Qed.

Lemma runs_get_encrypt i g (Q : gw_encrypt_rule -> @gw_state T -> Prop) :
  0 <= i < zlen (g_encrypt_rules g) -> (forall r, rd (g_encrypt_rules g) i = Some r -> Q r g) ->
  runs (get_encrypt_rule i) g Q.
Proof.
  intros Hi HQ. destruct (rd_Some _ _ Hi) as [r Hr]. exists r, g. unfold get_encrypt_rule. rewrite Hr.
  split; [done|]. by apply HQ.
Qed.

Lemma runs_get_decrypt i g (Q : gw_decrypt_rule -> @gw_state T -> Prop) :
  0 <= i < zlen (g_decrypt_rules g) -> (forall r, rd (g_decrypt_rules g) i = Some r -> Q r g) ->
  runs (get_decrypt_rule i) g Q.
Proof.
  intros Hi HQ. destruct (rd_Some _ _ Hi) as [r Hr]. exists r, g. unfold get_decrypt_rule. rewrite Hr.
  split; [done|]. by apply HQ.
Qed.

(** [idle] ignores everything but the flow part. *)
Definition gw_idle g : Prop := idle cfg (hw g).

Lemma create_sa_idle a sa s :
  idle cfg s -> runs (ipsec_security_gw_create_ipsec_sa a cfg sa) s (fun _ s' => idle cfg s').
Proof.
  intros [Hok Hq]. eapply runs_mono; [by apply create_sa_ok|]. intros x s' [Hok' Hq']. split; [done|].
  by rewrite Hq', Hq.
Qed.

Lemma handle_encrypt_total p i g :
  terminated p -> gw_idle g -> 0 <= i < zlen (g_encrypt_rules g) ->
  runs (ipsec_security_gw_handle_encrypt_policy polls cfg p i) g (fun r g' => r = DOCA_SUCCESS -> gw_idle g').
Proof.
  intros Ht Hid Hi. unfold ipsec_security_gw_handle_encrypt_policy.
  apply runs_bind, runs_get, runs_bind, runs_get_encrypt; [done|]. intros r _.
  destruct (encrypt_parse_total p r (ip6_table g) Ht) as (res & r' & t' & E).
  apply runs_bind. eapply runs_defined; [exact E|]. apply runs_bind, runs_set_encrypt; [done|].
  intros rs Hl _ _. apply runs_or_return, runs_ret. case_decide; [|done].
  apply runs_bind. eapply runs_mono; [apply runs_with_hw, create_sa_idle, Hid|].
  intros [res2 sa] g2 (h & -> & Hid2). apply runs_bind, runs_set_encrypt; [cbn; lia|].
  intros rs2 Hl2 _ _. apply runs_or_return, runs_ret. case_decide; [|done].
  apply runs_or_return. eapply runs_mono; [apply runs_with_hw, add_encrypt_entry_ok; [done|exact Hid2]|].
  intros r3 g3 (h3 & -> & Hid3). case_decide; [|done]. do 2 eexists. split; [done|]. intros _. by apply Hid3.
Qed.

Lemma handle_decrypt_total p i g :
  terminated p -> gw_idle g -> 0 <= i < zlen (g_decrypt_rules g) ->
  runs (ipsec_security_gw_handle_decrypt_policy polls cfg (secured cfg) p i) g
    (fun r g' => r = DOCA_SUCCESS -> gw_idle g').
Proof.
  intros Ht Hid Hi. unfold ipsec_security_gw_handle_decrypt_policy.
  apply runs_bind, runs_get, runs_bind, runs_get_decrypt; [done|]. intros r _.
  destruct (decrypt_parse_total p (mode (base cfg)) r Ht) as (res & r' & E).
  apply runs_bind. eapply runs_defined; [exact E|]. apply runs_bind, runs_set_decrypt; [done|].
  intros rs Hl _ _. apply runs_or_return, runs_ret. case_decide; [|done].
  apply runs_bind. eapply runs_mono; [apply runs_with_hw, create_sa_idle, Hid|].
  intros [res2 sa] g2 (h & -> & Hid2). apply runs_bind, runs_set_decrypt; [cbn; lia|].
  intros rs2 Hl2 _ _. apply runs_or_return, runs_ret. case_decide; [|done].
  apply runs_or_return. eapply runs_mono; [apply runs_with_hw, add_decrypt_entry_ok; [done|exact Hid2]|].
  intros r3 g3 (h3 & -> & Hid3). case_decide; [|done]. do 2 eexists. split; [done|]. intros _. by apply Hid3.
Qed.

Lemma handle_policy_total p g :
  terminated p -> gw_idle g -> rules_inv g ->
  runs (handle_policy polls cfg p) g (fun r g' => r = DOCA_SUCCESS -> gw_idle g').
Proof.
  intros Ht Hid [He Hd Hne Hnd Hn]. unfold handle_policy. apply runs_bind, runs_get.
  destruct (policy_direction p =? POLICY_DIR_OUT).
  - destruct (Z.leb_spec MAX_NB_RULES (nb_encrypted_rules g)); [by apply runs_ret|].
    apply handle_encrypt_total; auto. lia.
  - destruct (policy_direction p =? POLICY_DIR_IN); [|by apply runs_ret].
    destruct (Z.leb_spec MAX_NB_RULES (nb_decrypted_rules g)); [by apply runs_ret|].
    apply handle_decrypt_total; auto. lia.
Qed.
End PolicyRuns.

Lemma installed_kept_trans {T} `{Ip6Hash T} (g1 g2 g3 : @gw_state T) :
  nb_encrypted_rules g1 <= nb_encrypted_rules g2 -> nb_decrypted_rules g1 <= nb_decrypted_rules g2 ->
  installed_kept g1 g2 -> installed_kept g2 g3 -> installed_kept g1 g3.
Proof.
  intros He Hd [E1 D1] [E2 D2]. split; intros i Hi.
  - rewrite E2, E1 by lia. done.
  - rewrite D2, D1 by lia. done.
Qed.

Lemma policy_counts_grow p e d n e' d' n' :
  policy_counts p (e, d, n) = (e', d', n') -> e <= e' /\ d <= d'.
Proof. unfold policy_counts. repeat case_match; intros [= <- <- <-]; lia. Qed.
