(* ===== verification/PolicyInstall.v ===== *)
(** * What an accepted policy installs

    For hardware that accepts ([AcceptingHardware]) and completes entries when
    asked ([PromptHardware]): an IPv4 policy becomes the rule, the security
    association and the flow entries that it describes, end to end from the text
    of its addresses.  Then the index that the entries put into packets, which
    the packet path uses for the arrays of rules. *)

From S2P Require Import Prelude.
From S2P Require Import CString.
From S2P Require Import FlowTypes.
From S2P Require Import FlowFields.
From S2P Require Import AntiReplay.
From S2P Require Import PolicyMsg.
From S2P Require Import Mbuf.
From S2P Require Import EspPacket.
From S2P Require Import GatewayAddr.
From S2P Require Import GatewayRules.
From S2P Require Import Policy.
From S2P Require Import PolicySpec.
#[local] Open Scope Z_scope.
#[local] Open Scope doca_scope.

(** The calls that change something: all but the polling. *)
Definition is_order (c : hw_call) : bool := match c with EntriesProcess _ _ => false | _ => true end.
Definition orders (h : list hw_call) : list hw_call := filter (fun c => is_order c = true) h.

Lemma orders_snoc h c : orders (h ++ [c]) = orders h ++ (if is_order c then [c] else []).
Proof. unfold orders. rewrite filter_app, filter_cons. destruct (is_order c) eqn:E; cbn; rewrite ?E; done. Qed.

Class AcceptingHardware `{HW : Hardware} : Prop := {
  accept_sa : forall h t, exists sa, sa_create (h ++ [SaCreate t]) = SaCompleted DOCA_SUCCESS (Some sa);
  accept_cfg : forall h, shared_resource_cfg h = DOCA_SUCCESS;
  accept_bind : forall h, shared_resources_bind h = DOCA_SUCCESS;
  accept_add : forall h, pipe_add_entry h = DOCA_SUCCESS;
  accept_process : forall h, fst (flow_entries_process h) = DOCA_SUCCESS /\
    Forall (fun c => success c = true) (snd (flow_entries_process h))
}.

Definition no_failure (s : hw_state) : Prop := forall i, failure (status_of i s) = false.

Lemma runs_and {S A} (m : ST S A) s (P Q : A -> S -> Prop) :
  runs m s P -> runs m s Q -> runs m s (fun a s' => P a s' /\ Q a s').
Proof. intros (a & s' & E & HP) (a2 & s2 & E2 & HQ). rewrite E in E2. injection E2 as <- <-. by exists a, s'. Qed.

Section Accepting.
Context (polls : nat) (cfg : gw_config) `{HW : Hardware} `{!PromptHardware cfg} `{!AcceptingHardware}.
Implicit Types s : hw_state.

(** [m] succeeds and orders [cs]. *)
Definition succeeds (cs : list hw_call) s (r : doca_error) s' : Prop :=
  r = DOCA_SUCCESS /\ no_failure s' /\ orders (calls s') = orders (calls s) ++ cs.

Lemma succeeds_call c answer s :
  is_order c = true -> answer (calls s ++ [c]) = DOCA_SUCCESS -> no_failure s ->
  runs (call c answer) s (succeeds [c] s).
Proof.
  intros Hc Ha Hn. do 2 eexists. split; [done|]. split; [done|]. split; [intros i; by specialize (Hn i); destruct i|].
  cbn [calls]. by rewrite orders_snoc, Hc.
Qed.

Lemma succeeds_or_return m k cs1 cs2 s :
  runs m s (succeeds cs1 s) -> (forall s', succeeds cs1 s DOCA_SUCCESS s' -> runs k s' (succeeds cs2 s')) ->
  runs (or_return m k) s (succeeds (cs1 ++ cs2) s).
Proof.
  intros Hm Hk. apply runs_or_return. eapply runs_mono; [exact Hm|]. intros r s1 (-> & Hn & Ho).
  rewrite decide_True by done. eapply runs_mono; [apply Hk; by repeat split|].
  intros r s2 (-> & Hn2 & Ho2). split; [done|]. split; [done|]. by rewrite Ho2, Ho, app_assoc.
Qed.

Lemma callbacks_succeed cs s :
  Forall (fun c => success c = true) cs -> no_failure s -> no_failure (foldl (flip check_for_valid_entry) s cs).
Proof.
  revert s. induction cs as [|c cs IH]; intros s Hall Hn; [done|]. apply Forall_cons in Hall as [Hc Hall].
  apply IH; [done|]. cbn. unfold check_for_valid_entry. destruct (user_ctx c) as [i|]; [|done].
  destruct (op_add c); [|done]. cbn. intros j. rewrite status_of_set. case_decide; [|apply Hn].
  cbn. by rewrite Hn, Hc.
Qed.

Lemma calls_callbacks cs s : calls (foldl (flip check_for_valid_entry) s cs) = calls s.
Proof.
  revert s. induction cs as [|c cs IH]; intros s; [done|]. cbn [foldl flip]. rewrite IH.
  unfold check_for_valid_entry. repeat case_match; by rewrite ?calls_set.
Qed.

Lemma process_succeeds port n s : no_failure s -> runs (doca_flow_entries_process port n) s (succeeds [] s).
Proof.
  intros Hn. unfold doca_flow_entries_process, call, get, put, runs, mbind, ST_bind.
  destruct (accept_process (calls s ++ [EntriesProcess port n])) as [Hr Hall].
  destruct (flow_entries_process _) as [r cs]. cbn in Hr, Hall. subst r. do 2 eexists. split; [done|].
  split; [done|]. split.
  - apply callbacks_succeed; [done|]. intros i. specialize (Hn i). by destruct i.
  - rewrite calls_callbacks. cbn [calls]. by rewrite orders_snoc.
Qed.

Lemma process_entries_succeeds port i s :
  queue_ok cfg s -> no_failure s -> runs (process_entries port i) s (succeeds [] s).
Proof.
  intros (Hcon & Hall & Hlt) Hn. unfold process_entries. apply runs_bind, runs_get. apply runs_bind.
  eapply runs_mono; [apply runs_and; [by apply process_succeeds | by apply process_ok]|].
  intros r s1 [(-> & Hn1 & Ho1) Hs1]. destruct (Hs1 eq_refl) as [Hcon1 Hq1]. rewrite decide_True by done.
  apply runs_bind, runs_get. rewrite Hn1. cbn [orb].
  destruct (Z.eqb_spec (entries_in_queue (status_of i s1)) QUEUE_DEPTH) as [Hf|]; [|by apply runs_ret].
  rewrite Hcon1, Hq1 in Hf. specialize (Hlt i).
  pose proof (waiting_sublist i _ _ (serve_sublist port (serve_max (entries_in_queue (status_of i s)) (queue (calls s)))
    (queue (calls s)))). lia.
Qed.

Context (Hpolls : (1024 <= polls)%nat).

Lemma drain_succeeds port i s :
  (forall e, e.2 = i -> e = (unsecured cfg, hairpin_status) \/ e = (secured cfg, crypt_status) -> e.1 = port) ->
  queue_ok cfg s -> no_failure s -> runs (drain polls port i) s (succeeds [] s).
Proof.
  intros Hport Hok Hn. destruct (drain_ok polls cfg Hpolls port i s Hport Hok) as (r & s' & E & _).
  exists r, s'. split; [exact E|]. unfold drain in E. clear Hpolls. revert s Hok Hn E.
  induction polls as [|n IH]; intros s Hok Hn E; [done|]. cbn [drain_loop] in E.
  destruct (process_entries_succeeds port i s Hok Hn) as (r1 & s1 & E1 & -> & Hn1 & Ho1).
  destruct (process_entries_ok port i s (proj1 Hok)) as (r2 & s2 & E2 & Hs2).
  rewrite E1 in E2. injection E2 as <- <-. destruct (Hs2 eq_refl) as [Hcon1 Hq1].
  rewrite (ST_bind_Some _ _ _ _ _ E1), decide_True in E by done.
  rewrite (ST_bind_Some get _ s1 s1 s1) in E by done.
  destruct (0 <? _).
  - apply IH in E; [| |done].
    + destruct E as (-> & Hn' & Ho'). split; [done|]. split; [done|]. by rewrite Ho', Ho1, app_nil_r.
    + apply (sublist_ok cfg s); [done|done|]. rewrite Hq1. apply serve_sublist.
  - injection E as <- <-. by split.
Qed.

Lemma drain_both_succeeds s :
  queue_ok cfg s -> no_failure s ->
  runs (or_return (drain polls (secured cfg) crypt_status) (drain polls (unsecured cfg) hairpin_status)) s
    (succeeds [] s).
Proof.
  intros Hok Hn.
  assert (Hp : forall e : gw_port * status_id, e.2 = crypt_status ->
    e = (unsecured cfg, hairpin_status) \/ e = (secured cfg, crypt_status) -> e.1 = secured cfg).
  { intros [p j]. cbn. by intros -> [[=]|[= ->]]. }
  apply runs_or_return. eapply runs_mono;
    [apply runs_and; [apply drain_succeeds; done | apply drain_ok; done] |].
  intros r s1 [(-> & Hn1 & Ho1) Hs1]. destruct (Hs1 eq_refl) as (Hok1 & _). rewrite decide_True by done.
  eapply runs_mono; [apply drain_succeeds; [|done..]|].
  { intros [p j]. cbn. by intros -> [[= ->]|[=]]. }
  intros r' s2 (-> & Hn2 & Ho2). split; [done|]. split; [done|]. by rewrite Ho2, Ho1, app_nil_r.
Qed.

Lemma add_entry_succeeds pipe m a flags i s :
  no_failure s -> runs (add_entry pipe m a flags i) s (succeeds [PipeAddEntry pipe m a flags i] s).
Proof. intros. apply succeeds_call; [done | apply accept_add | done]. Qed.

Lemma count_succeeds i n s : no_failure s -> runs (count_entries i n) s (fun _ s' => no_failure s' /\ calls s' = calls s).
Proof.
  intros Hn. unfold count_entries. apply runs_bind, runs_get, runs_put. rewrite calls_set. split; [|done].
  intros j. rewrite status_of_set. case_decide; apply Hn.
Qed.

Lemma add_counted_succeeds port pipe m a flags i s :
  no_failure s -> entries_in_queue (status_of i s) < QUEUE_DEPTH - 1 ->
  runs (add_counted port pipe m a flags i) s (succeeds [PipeAddEntry pipe m (Some a) flags i] s).
Proof.
  intros Hn Hroom. unfold add_counted. apply runs_or_return.
  exists DOCA_SUCCESS, (HwState (calls s ++ [PipeAddEntry pipe m (Some a) flags i]) (hairpin s) (crypt s)).
  split; [by unfold add_entry, call; rewrite accept_add|]. rewrite decide_True by done. apply runs_bind.
  eapply runs_mono; [apply runs_and; [apply count_succeeds|apply count_ok]|].
  { intros j. specialize (Hn j). by destruct j. }
  intros [] s1 ((Hn1 & Hc1) & _ & Hcnt). apply runs_bind, runs_get. cbn beta. specialize (Hcnt i).
  rewrite decide_True in Hcnt by done.
  replace (status_of i (HwState _ _ _)) with (status_of i s) in Hcnt by (by destruct i).
  destruct (Z.eqb_spec (entries_in_queue (status_of i s1)) QUEUE_DEPTH); [lia|].
  apply runs_ret. split; [done|]. split; [done|]. rewrite Hc1. cbn [calls]. by rewrite orders_snoc.
Qed.

Lemma shared_object_succeeds dir port sa id s :
  no_failure s ->
  runs (create_ipsec_shared_object dir port sa id) s
    (succeeds [SharedResourceCfg dir sa id; SharedResourcesBind id port] s).
Proof.
  intros Hn. unfold create_ipsec_shared_object.
  apply (succeeds_or_return _ _ [SharedResourceCfg dir sa id] [SharedResourcesBind id port]).
  - apply succeeds_call; [done | apply accept_cfg | done].
  - intros s' (_ & Hn' & _). apply succeeds_call; [done | apply accept_bind | done].
Qed.

(** What adding an IPv4 rule at run time orders. *)
Definition encrypt_orders (r : gw_encrypt_rule) (id : Z) : list hw_call :=
  [PipeAddEntry (get_pipe_for_rule r false) (five_tuple_match r 0)
     (Some (GwActions (u32 (Z.lor (2 ^ 30) id)) 0 0 0 [] 0)) DOCA_FLOW_NO_WAIT hairpin_status;
   SharedResourceCfg DOCA_IPSEC_DIRECTION_EGRESS_ENCRYPT (e_sa r) id; SharedResourcesBind id (secured cfg);
   PipeAddEntry (encrypt_pipe_of cfg r) (GwMatch (u32 id) 0 0 header0 false (zeros 4))
     (Some (encrypt_actions cfg r id)) DOCA_FLOW_NO_WAIT crypt_status].

Definition save_meta : bool :=
  bool_decide (flow_mode cfg = IPSEC_SECURITY_GW_SWITCH) ||
  bool_decide (offload cfg = IPSEC_SECURITY_GW_ESP_OFFLOAD_NONE) ||
  bool_decide (offload cfg = IPSEC_SECURITY_GW_ESP_OFFLOAD_ENCAP).

Definition decrypt_orders (r : gw_decrypt_rule) (id : Z) : list hw_call :=
  [SharedResourceCfg DOCA_IPSEC_DIRECTION_INGRESS_DECRYPT (d_sa r) id; SharedResourcesBind id (secured cfg);
   PipeAddEntry (if decide (d_l3_type r = L3_IP4) then decrypt_ipv4_pipe else decrypt_ipv6_pipe)
     (decrypt_match r gw_match0) (Some (GwActions (if save_meta then decrypt_meta id else 0) 0 0 id [] 0))
     DOCA_FLOW_NO_WAIT crypt_status].

Lemma no_failure_reset i s : no_failure s -> runs (reset_status i) s (fun _ s' => no_failure s' /\ calls s' = calls s).
Proof.
  intros Hn. exists tt, (set_status i status0 s). split; [done|]. split; [|apply calls_set].
  intros j. rewrite status_of_set. case_decide; [done|apply Hn].
Qed.

Lemma five_tuple_ipv4 lookup r id s :
  e_l3_type r = L3_IP4 -> idle cfg s -> no_failure s ->
  runs (add_five_tuple_match_entry lookup (unsecured cfg) r (id + 1) id) s
    (succeeds [PipeAddEntry (get_pipe_for_rule r false) (five_tuple_match r 0)
       (Some (GwActions (u32 (Z.lor (2 ^ 30) id)) 0 0 0 [] 0)) DOCA_FLOW_NO_WAIT hairpin_status] s).
Proof.
  intros Hl3 [(Hcon & _) Hq] Hn. unfold add_five_tuple_match_entry. rewrite Hl3.
  rewrite !(decide_False (P := L3_IP4 = L3_IP6)) by done.
  apply runs_or_return, runs_ret. rewrite decide_True by done.
  apply runs_bind. unfold batch_flags. apply runs_bind, runs_get, runs_ret. cbn beta.
  replace (id =? id + 1 - 1) with true by lia. cbn [orb].
  apply add_counted_succeeds; [done|]. rewrite Hcon, Hq. unfold QUEUE_DEPTH, waiting. cbn. lia.
Qed.

(** After an entry that is not counted yet. *)
Lemma then_count_drain pipe m a flags s s1 :
  pipe_port cfg pipe = secured cfg -> queue_ok cfg s -> waiting crypt_status (queue (calls s)) < QUEUE_DEPTH - 1 ->
  (forall j, status_of j s1 = status_of j s) -> queue (calls s1) = queue (calls s) ++ [(pipe_port cfg pipe, crypt_status)] ->
  succeeds [PipeAddEntry pipe m a flags crypt_status] s DOCA_SUCCESS s1 ->
  forall k, (forall s2, queue_ok cfg s2 -> no_failure s2 ->
               waiting hairpin_status (queue (calls s2)) = waiting hairpin_status (queue (calls s)) ->
               runs k s2 (succeeds [] s2)) ->
  runs (count_entries crypt_status 1 ≫= fun _ => k) s1 (succeeds [] s1).
Proof.
  intros Hp Hok Hroom Hst Hq (_ & Hn1 & _) k Hk. apply runs_bind.
  eapply runs_mono; [apply runs_and; [by apply count_succeeds|apply count_ok]|].
  intros [] s2 ((Hn2 & Hc2) & Hcalls & Hcnt).
  destruct (added_ok cfg pipe crypt_status s s1 s2 Hp Hok Hst Hq Hcalls Hcnt) as (Hcon & Hall & Hw).
  assert (Hok2 : queue_ok cfg s2).
  { split; [done|]. split; [done|]. intros j. rewrite Hw. destruct Hok as (_ & _ & Hlt). specialize (Hlt j).
    destruct (decide (j = crypt_status)) as [->|]; lia. }
  eapply runs_mono; [apply Hk; [done|done|]|].
  - rewrite Hw. destruct (decide (hairpin_status = crypt_status)); [done|lia].
  - intros r s3 (-> & Hn3 & Ho3). split; [done|]. split; [done|]. by rewrite Ho3, Hc2.
Qed.

Lemma add_encrypt_entry_succeeds lookup r id s :
  e_l3_type r = L3_IP4 -> idle cfg s -> no_failure s ->
  runs (add_encrypt_entry polls lookup cfg r id) s (succeeds (encrypt_orders r id) s).
Proof.
  intros Hl3 Hid Hn. unfold add_encrypt_entry.
  apply runs_bind. eapply runs_mono; [apply runs_and; [by apply no_failure_reset | by apply reset_ok]|].
  intros [] s1 [[Hn1 Hc1] Hid1]. cbn beta.
  apply runs_bind. eapply runs_mono; [apply runs_and; [by apply no_failure_reset | by apply reset_ok]|].
  intros [] s2 [[Hn2 Hc2] Hid2]. cbn beta.
  assert (Hcalls : calls s2 = calls s) by congruence.
  unfold succeeds at 1. rewrite <- Hcalls. fold (succeeds (encrypt_orders r id) s2).
  unfold encrypt_orders. set (c1 := PipeAddEntry _ _ _ _ hairpin_status). set (c4 := PipeAddEntry _ _ _ _ crypt_status).
  change [c1; ?a; ?b; c4] with ([c1] ++ [a; b] ++ [c4] ++ []).
  apply runs_or_return. eapply runs_mono;
    [apply runs_and; [by apply five_tuple_ipv4 | apply five_tuple_ok, Hid2]|].
  intros r1 s3 [(-> & Hn3 & Ho3) Hs3]. destruct (Hs3 eq_refl) as [Hok3 Hw3]. rewrite decide_True by done.
  destruct Hid2 as [Hok2 Hq2]. rewrite Hq2 in Hw3. change (waiting crypt_status []) with 0 in Hw3.
  apply runs_or_return. eapply runs_mono; [apply runs_and; [by apply shared_object_succeeds | by apply shared_object_ok]|].
  intros r2 s4 [(-> & Hn4 & Ho4) [Hok4 Hq4]]. rewrite decide_True by done.
  apply runs_or_return. eapply runs_mono;
    [apply runs_and; [by apply add_entry_succeeds | apply (entry_added_ok cfg); [apply encrypt_pipe_port|done]]|].
  intros r3 s5 [Hs5 Hs5']. pose proof Hs5 as (-> & Hn5 & Ho5). destruct (Hs5' eq_refl) as [Hst5 Hq5].
  rewrite decide_True by done.
  eapply runs_mono; [eapply (then_count_drain (encrypt_pipe_of cfg r)); [apply encrypt_pipe_port|exact Hok4| |done|done|exact Hs5|]|].
  - rewrite Hq4. unfold QUEUE_DEPTH. lia.
  - intros s6 Hok6 Hn6 _. by apply drain_both_succeeds.
  - intros r6 s6 (-> & Hn6 & Ho6). split; [done|]. split; [done|].
    rewrite Ho6, Ho5, Ho4, Ho3. by rewrite <- !app_assoc.
Qed.

Lemma drain_crypt_succeeds s :
  queue_ok cfg s -> no_failure s -> runs (drain polls (secured cfg) crypt_status) s (succeeds [] s).
Proof.
  intros Hok Hn. apply drain_succeeds; [|done..]. intros [p j]. cbn. by intros -> [[=]|[= ->]].
Qed.

Lemma add_decrypt_entry_succeeds r id s :
  idle cfg s -> no_failure s ->
  runs (add_decrypt_entry polls cfg r id (secured cfg)) s (succeeds (decrypt_orders r id) s).
Proof.
  intros Hid Hn. unfold add_decrypt_entry.
  apply runs_bind. eapply runs_mono; [apply runs_and; [by apply no_failure_reset | by apply reset_ok]|].
  intros [] s2 [[Hn2 Hcalls] [Hok2 Hq2]]. cbn beta.
  unfold succeeds at 1. rewrite <- Hcalls. fold (succeeds (decrypt_orders r id) s2).
  unfold decrypt_orders. fold save_meta. set (c4 := PipeAddEntry _ _ _ _ crypt_status).
  change [?a; ?b; c4] with ([a; b] ++ [c4] ++ []).
  apply runs_or_return. eapply runs_mono; [apply runs_and; [by apply shared_object_succeeds | by apply shared_object_ok]|].
  intros r2 s4 [(-> & Hn4 & Ho4) [Hok4 Hq4]]. rewrite decide_True by done.
  apply runs_or_return. eapply runs_mono;
    [apply runs_and; [by apply add_entry_succeeds | apply (entry_added_ok cfg); [apply decrypt_pipe_port|done]]|].
  intros r3 s5 [Hs5 Hs5']. pose proof Hs5 as (-> & Hn5 & Ho5). destruct (Hs5' eq_refl) as [Hst5 Hq5].
  rewrite decide_True by done.
  eapply runs_mono; [eapply then_count_drain; [apply decrypt_pipe_port|exact Hok4| |done|exact Hq5|exact Hs5|]|].
  - rewrite Hq4, Hq2. unfold QUEUE_DEPTH, waiting. cbn. lia.
  - intros s6 Hok6 Hn6 _. by apply drain_crypt_succeeds.
  - intros r6 s6 (-> & Hn6 & Ho6). split; [done|]. split; [done|].
    rewrite Ho6, Ho5, Ho4. by rewrite <- !app_assoc.
Qed.

Lemma create_sa_succeeds a sa s :
  no_failure s ->
  runs (ipsec_security_gw_create_ipsec_sa a cfg sa) s (fun x s' => exists sa', x = (DOCA_SUCCESS, Some sa') /\
    no_failure s' /\ orders (calls s') = orders (calls s) ++ [SaCreate (sa_attrs_of a cfg)]).
Proof.
  intros Hn. unfold ipsec_security_gw_create_ipsec_sa.
  destruct (accept_sa (calls s) (sa_attrs_of a cfg)) as [sa' Hsa].
  apply runs_bind. do 2 eexists. split; [done|]. rewrite Hsa. apply runs_ret. exists sa'. split; [done|].
  split; [intros j; specialize (Hn j); by destruct j|]. cbn [calls]. by rewrite orders_snoc.
Qed.
End Accepting.

(** ** The text of a policy *)

(** An IPv4 address as bytes, its text, and the array of 47 chars that carries
    the text. *)
Definition ip_address : Type := Z * Z * Z * Z.
Definition ip_ok (x : ip_address) : Prop := let '(a, b, c, d) := x in in_u 8 a /\ in_u 8 b /\ in_u 8 c /\ in_u 8 d.
Definition ip_bytes (x : ip_address) : bytes := let '(a, b, c, d) := x in [a; b; c; d].
Definition ip_text (x : ip_address) : cstring := let '(a, b, c, d) := x in dotted a b c d.
Definition char_array (s : cstring) : list Z := s ++ replicate (S MAX_IP_ADDR_LEN - length s) 0.

Lemma span_all f (s t : cstring) : forallb f s = true -> span f (s ++ 0 :: t) = if f 0 then span f (s ++ 0 :: t) else (s, 0 :: t).
Proof.
  destruct (f 0) eqn:E; [done|]. induction s as [|c s IH]; cbn; [by rewrite E|].
  intros [Hc Hs]%andb_true_iff. rewrite Hc, IH by done. done.
Qed.

Lemma c_str_char_array s : (length s <= MAX_IP_ADDR_LEN)%nat -> forallb (fun c => negb (c =? 0)) s = true ->
  c_str (char_array s) = Some s.
Proof.
  intros Hl Hs. unfold c_str, char_array.
  replace (S MAX_IP_ADDR_LEN - length s)%nat with (S (MAX_IP_ADDR_LEN - length s)) by lia. cbn [replicate].
  rewrite span_all by done. rewrite existsb_app. cbn. by rewrite orb_true_r.
Qed.

Lemma dec_byte_length b : in_u 8 b -> (length (dec b) <= 3)%nat.
Proof.
  intros Hb. apply Nat.leb_le.
  apply (byte_check (fun b => (length (dec b) <=? 3)%nat)); [by vm_compute|exact Hb].
Qed.

Lemma ip_text_string x : ip_ok x -> c_str (char_array (ip_text x)) = Some (ip_text x).
Proof.
  destruct x as [[[a b] c] d]. unfold ip_ok, ip_text, dotted. intros (Ha & Hb & Hc & Hd).
  pose proof (dec_byte_length a Ha). pose proof (dec_byte_length b Hb). pose proof (dec_byte_length c Hc).
  pose proof (dec_byte_length d Hd). unfold in_u in *. apply c_str_char_array.
  - rewrite !length_app. cbn [length]. unfold MAX_IP_ADDR_LEN. lia.
  - rewrite !forallb_app. rewrite !dec_without by lia. done.
Qed.

Lemma parse_ip_text x old : ip_ok x -> parse_ipv4_str (ip_text x) old = (DOCA_SUCCESS, ip_bytes x).
Proof. destruct x as [[[a b] c] d]. intros (? & ? & ? & ?). by apply parse_ipv4_dotted. Qed.

(** ** Accepted policies *)

(** What policy.h asks for, for IPv4: addresses in dotted notation, an ICV of
    8, 12 or 16 bytes. *)
Record good_policy (p : policy) (src dst outer : ip_address) : Prop := {
  good_l3 : l3_protocol p = POLICY_L3_TYPE_IPV4 /\ outer_l3_protocol p = POLICY_L3_TYPE_IPV4;
  good_addrs : ip_ok src /\ ip_ok dst /\ ip_ok outer;
  good_src : src_ip_addr p = char_array (ip_text src);
  good_dst : dst_ip_addr p = char_array (ip_text dst);
  good_outer : outer_dst_ip p = char_array (ip_text outer);
  good_icv : icv_length p = 8 \/ icv_length p = 12 \/ icv_length p = 16
}.

(** The association a policy asks for. *)
Definition policy_sa (dir : doca_ipsec_direction) (p : policy) : gw_sa_attrs :=
  SaAttrs (icv_length p) (convert_to_doca_key_type (key_type p)) (enc_key_data p) (salt p) dir.

(** The rules that result, in a place that held [r]. *)
Definition policy_encrypt_rule (p : policy) (src dst outer : ip_address) (r : gw_encrypt_rule) (sa : option Z) :
    gw_encrypt_rule :=
  let tunnel := policy_mode p =? POLICY_MODE_TUNNEL in
  GwEnc L3_IP4 (if l4_protocol p =? POLICY_L4_TYPE_UDP then L4_UDP else L4_TCP)
    (splice 4 (ip_bytes dst) (splice 0 (ip_bytes src) (e_addrs r)))
    (PolicyMsg.src_port p) (PolicyMsg.dst_port p)
    (if tunnel then L3_IP4 else e_encap_l3_type r)
    (if tunnel then splice 0 (ip_bytes outer) (e_encap_dst r) else e_encap_dst r)
    (PolicyMsg.spi p) (e_current_sn r) sa (policy_sa DOCA_IPSEC_DIRECTION_EGRESS_ENCRYPT p).

Definition policy_decrypt_rule (m : ipsec_security_gw_mode) (p : policy) (dst outer : ip_address) (r : gw_decrypt_rule)
    (sa : option Z) : gw_decrypt_rule :=
  GwDec L3_IP4 (splice 0 (ip_bytes (if decide (m = IPSEC_SECURITY_GW_TUNNEL) then outer else dst)) (d_dst r))
    (PolicyMsg.spi p) L3_IP4 sa (policy_sa DOCA_IPSEC_DIRECTION_INGRESS_DECRYPT p) (d_entries r).

Lemma good_sa_attrs p a src dst outer :
  good_policy p src dst outer ->
  parse_sa_attrs p a =
    (DOCA_SUCCESS,
     SaAttrs (icv_length p) (convert_to_doca_key_type (key_type p)) (enc_key_data p) (salt p) (sa_direction a)).
Proof.
  intros [_ _ _ _ _ Hicv]. unfold parse_sa_attrs, convert_to_doca_icv.
  destruct Hicv as [-> | [-> | ->]]; done.
Qed.

Section Good.
Context {T : Type} `{Ip6Hash T} (polls : nat) (cfg : gw_config).

Lemma encrypt_parse_good p src dst outer r (t : T) :
  good_policy p src dst outer ->
  ipsec_security_gw_policy_encrypt_parse p r t = Some (DOCA_SUCCESS, policy_encrypt_rule p src dst outer r (e_sa r), t).
Proof.
  intros Hg. pose proof Hg as [[Hl3 Hol3] (Hs & Hd & Ho) Es Ed Eo Hicv].
  unfold ipsec_security_gw_policy_encrypt_parse, parse_encrypt_addresses, parse_encrypt_outer.
  rewrite Hl3, Hol3, policy_l3_ipv4, Es, Ed, Eo, !ip_text_string by done. obind. cbn [e_l3_type].
  rewrite !decide_True by done. rewrite !parse_ip_text by done. obind.
  rewrite !decide_True by done. unfold policy_encrypt_rule.
  destruct (policy_mode p =? POLICY_MODE_TUNNEL).
  all: do 3 (obind; rewrite ?(decide_True (P := DOCA_SUCCESS = DOCA_SUCCESS)), ?(decide_True (P := L3_IP4 = L3_IP4)) by done;
             rewrite ?parse_ip_text by done).
  all: cbn [e_sa_attrs set_encap set_addrs]; rewrite (good_sa_attrs p _ src dst outer Hg), decide_True by done; done.
Qed.

Lemma decrypt_parse_good p src dst outer r :
  good_policy p src dst outer ->
  ipsec_security_gw_policy_decrypt_parse p (mode (base cfg)) r =
    Some (DOCA_SUCCESS, policy_decrypt_rule (mode (base cfg)) p dst outer r (d_sa r)).
Proof.
  intros Hg. pose proof Hg as [[Hl3 Hol3] (Hs & Hd & Ho) Es Ed Eo Hicv].
  unfold ipsec_security_gw_policy_decrypt_parse, policy_decrypt_rule. rewrite Hl3, Hol3, policy_l3_ipv4, Ed, Eo.
  destruct (decide (mode (base cfg) = IPSEC_SECURITY_GW_TUNNEL)).
  all: rewrite ip_text_string by done; obind; rewrite decide_True by done;
    rewrite parse_ip_text by done; obind; rewrite decide_True by done;
    rewrite (good_sa_attrs p _ src dst outer Hg), decide_True by done; done.
Qed.
End Good.

(** ** One policy *)

(** The state between two policies. *)
Record ready {T} `{Ip6Hash T} cfg `{PromptHardware cfg} (g : @gw_state T) : Prop := {
  ready_inv : rules_inv g;
  ready_idle : idle cfg (hw g);
  ready_status : no_failure (hw g)
}.
Arguments ready {T _} cfg {HW _} g : rename.

Section OnePolicy.
Context {T : Type} `{Ip6Hash T} (polls : nat) (cfg : gw_config).
Context `{HW : Hardware} `{!PromptHardware cfg} `{!AcceptingHardware}.
Context (Hpolls : (1024 <= polls)%nat).
Implicit Types g : @gw_state T.

Lemma handle_encrypt_accepted p src dst outer g :
  ready cfg g -> good_policy p src dst outer -> nb_encrypted_rules g < MAX_NB_RULES ->
  exists sa r0 g', rd (g_encrypt_rules g) (nb_encrypted_rules g) = Some r0 /\
    ipsec_security_gw_handle_encrypt_policy polls cfg p (nb_encrypted_rules g) g = Some (DOCA_SUCCESS, g') /\
    rd (g_encrypt_rules g') (nb_encrypted_rules g) = Some (policy_encrypt_rule p src dst outer r0 (Some sa)) /\
    orders (calls (hw g')) = orders (calls (hw g)) ++
      SaCreate (sa_attrs_of (policy_sa DOCA_IPSEC_DIRECTION_EGRESS_ENCRYPT p) cfg) ::
      encrypt_orders cfg (policy_encrypt_rule p src dst outer r0 (Some sa)) (nb_rules g) /\
    idle cfg (hw g') /\ no_failure (hw g') /\ (forall j, j <> nb_encrypted_rules g -> rd (g_encrypt_rules g') j = rd (g_encrypt_rules g) j) /\
    g_decrypt_rules g' = g_decrypt_rules g.
Proof.
  intros [Hinv Hid Hn] Hg Hlt. pose proof Hinv as [He Hd Hne Hnd Hnb].
  destruct (rd_Some (g_encrypt_rules g) (nb_encrypted_rules g)) as [r0 Hr0]; [lia|].
  cut (runs (ipsec_security_gw_handle_encrypt_policy polls cfg p (nb_encrypted_rules g)) g
    (fun r g' => exists sa, r = DOCA_SUCCESS /\
       rd (g_encrypt_rules g') (nb_encrypted_rules g) = Some (policy_encrypt_rule p src dst outer r0 (Some sa)) /\
       orders (calls (hw g')) = orders (calls (hw g)) ++
         SaCreate (sa_attrs_of (policy_sa DOCA_IPSEC_DIRECTION_EGRESS_ENCRYPT p) cfg) ::
         encrypt_orders cfg (policy_encrypt_rule p src dst outer r0 (Some sa)) (nb_rules g) /\
       idle cfg (hw g') /\ no_failure (hw g') /\ (forall j, j <> nb_encrypted_rules g -> rd (g_encrypt_rules g') j = rd (g_encrypt_rules g) j) /\
    g_decrypt_rules g' = g_decrypt_rules g)).
  { intros (r & g' & E & sa & -> & Hx). by exists sa, r0, g'. }
  unfold ipsec_security_gw_handle_encrypt_policy.
  apply runs_bind, runs_get, runs_bind, runs_get_encrypt; [lia|]. intros r Hr.
  assert (r = r0) as -> by congruence.
  apply runs_bind. eapply runs_defined; [by apply encrypt_parse_good|]. apply runs_bind, runs_set_encrypt; [lia|].
  intros rs Hl _ Hrest. apply runs_or_return, runs_ret. rewrite decide_True by done.
  apply runs_bind. eapply runs_mono;
    [apply runs_with_hw, runs_and; [by apply create_sa_succeeds | by apply create_sa_idle]|].
  intros x g2 (h & -> & (sa & -> & Hn2 & Ho2) & Hid2). apply runs_bind, runs_set_encrypt; [cbn; lia|].
  intros rs2 Hl2 Hrd2 Hrest2. apply runs_or_return, runs_ret. rewrite decide_True by done.
  apply runs_or_return. eapply runs_mono;
    [apply runs_with_hw, runs_and; [by apply (add_encrypt_entry_succeeds polls cfg Hpolls)
                                   | by apply (add_encrypt_entry_ok polls cfg Hpolls)]|].
  intros r3 g3 (h3 & -> & (-> & Hn3 & Ho3) & Hid3). rewrite decide_True by done.
  do 2 eexists. split; [done|]. exists sa. cbn [hw set_hw g_encrypt_rules] in *.
  split; [done|]. split; [exact Hrd2|]. split; [rewrite Ho3, Ho2; by rewrite <- app_assoc|].
  split; [by apply Hid3|]. split; [done|]. split; [|done]. intros j Hj. by rewrite Hrest2, Hrest.
Qed.

Lemma handle_decrypt_accepted p src dst outer g :
  ready cfg g -> good_policy p src dst outer -> nb_decrypted_rules g < MAX_NB_RULES ->
  exists sa r0 g', rd (g_decrypt_rules g) (nb_decrypted_rules g) = Some r0 /\
    ipsec_security_gw_handle_decrypt_policy polls cfg (secured cfg) p (nb_decrypted_rules g) g =
      Some (DOCA_SUCCESS, g') /\
    rd (g_decrypt_rules g') (nb_decrypted_rules g) =
      Some (policy_decrypt_rule (mode (base cfg)) p dst outer r0 (Some sa)) /\
    orders (calls (hw g')) = orders (calls (hw g)) ++
      SaCreate (sa_attrs_of (policy_sa DOCA_IPSEC_DIRECTION_INGRESS_DECRYPT p) cfg) ::
      decrypt_orders cfg (policy_decrypt_rule (mode (base cfg)) p dst outer r0 (Some sa)) (nb_rules g) /\
    idle cfg (hw g') /\ no_failure (hw g') /\ (forall j, j <> nb_decrypted_rules g -> rd (g_decrypt_rules g') j = rd (g_decrypt_rules g) j) /\
    g_encrypt_rules g' = g_encrypt_rules g.
Proof.
  intros [Hinv Hid Hn] Hg Hlt. pose proof Hinv as [He Hd Hne Hnd Hnb].
  destruct (rd_Some (g_decrypt_rules g) (nb_decrypted_rules g)) as [r0 Hr0]; [lia|].
  cut (runs (ipsec_security_gw_handle_decrypt_policy polls cfg (secured cfg) p (nb_decrypted_rules g)) g
    (fun r g' => exists sa, r = DOCA_SUCCESS /\
       rd (g_decrypt_rules g') (nb_decrypted_rules g) =
         Some (policy_decrypt_rule (mode (base cfg)) p dst outer r0 (Some sa)) /\
       orders (calls (hw g')) = orders (calls (hw g)) ++
         SaCreate (sa_attrs_of (policy_sa DOCA_IPSEC_DIRECTION_INGRESS_DECRYPT p) cfg) ::
         decrypt_orders cfg (policy_decrypt_rule (mode (base cfg)) p dst outer r0 (Some sa)) (nb_rules g) /\
       idle cfg (hw g') /\ no_failure (hw g') /\ (forall j, j <> nb_decrypted_rules g -> rd (g_decrypt_rules g') j = rd (g_decrypt_rules g) j) /\
    g_encrypt_rules g' = g_encrypt_rules g)).
  { intros (r & g' & E & sa & -> & Hx). by exists sa, r0, g'. }
  unfold ipsec_security_gw_handle_decrypt_policy.
  apply runs_bind, runs_get, runs_bind, runs_get_decrypt; [lia|]. intros r Hr.
  assert (r = r0) as -> by congruence.
  apply runs_bind. eapply runs_defined; [by apply (decrypt_parse_good cfg p src)|].
  apply runs_bind, runs_set_decrypt; [lia|].
  intros rs Hl _ Hrest. apply runs_or_return, runs_ret. rewrite decide_True by done.
  apply runs_bind. eapply runs_mono;
    [apply runs_with_hw, runs_and; [by apply create_sa_succeeds | by apply create_sa_idle]|].
  intros x g2 (h & -> & (sa & -> & Hn2 & Ho2) & Hid2). apply runs_bind, runs_set_decrypt; [cbn; lia|].
  intros rs2 Hl2 Hrd2 Hrest2. apply runs_or_return, runs_ret. rewrite decide_True by done.
  apply runs_or_return. eapply runs_mono;
    [apply runs_with_hw, runs_and; [by apply (add_decrypt_entry_succeeds polls cfg Hpolls)
                                   | by apply (add_decrypt_entry_ok polls cfg Hpolls)]|].
  intros r3 g3 (h3 & -> & (-> & Hn3 & Ho3) & Hid3). rewrite decide_True by done.
  do 2 eexists. split; [done|]. exists sa. cbn [hw set_hw g_decrypt_rules] in *.
  split; [done|]. split; [exact Hrd2|]. split; [rewrite Ho3, Ho2; by rewrite <- app_assoc|].
  split; [by apply Hid3|]. split; [done|]. split; [|done]. intros j Hj. by rewrite Hrest2, Hrest.
Qed.
End OnePolicy.

(** ** Sequences of policies *)

(** A good policy for one of the two directions. *)
Definition acceptable (p : policy) : Prop :=
  (policy_direction p = POLICY_DIR_OUT \/ policy_direction p = POLICY_DIR_IN) /\
  exists src dst outer, good_policy p src dst outer.

Definition count_dir (d : Z) (ps : list policy) : Z :=
  Z.of_nat (length (filter (fun p => policy_direction p = d) ps)).

Lemma count_dir_cons d p ps :
  count_dir d (p :: ps) = (if decide (policy_direction p = d) then 1 else 0) + count_dir d ps.
Proof. unfold count_dir. rewrite filter_cons. case_decide; cbn [length]; lia. Qed.

Lemma count_dir_nonneg d ps : 0 <= count_dir d ps.
Proof. unfold count_dir. lia. Qed.

(** The places of the array of decryption rules that are free. *)
Definition free_decrypt {T} `{Ip6Hash T} (g : @gw_state T) : Prop :=
  forall j, nb_decrypted_rules g <= j < MAX_NB_RULES -> rd (g_decrypt_rules g) j = Some decrypt_rule0.

Section Sequences.
Context {T : Type} `{Ip6Hash T} (polls : nat) (cfg : gw_config).
Context `{HW : Hardware} `{!PromptHardware cfg} `{!AcceptingHardware}.
Context (Hpolls : (1024 <= polls)%nat).
Implicit Types g : @gw_state T.

(** One acceptable policy, with room for its rule. *)
Lemma handle_policy_accepted p g :
  ready cfg g -> acceptable p ->
  nb_encrypted_rules g + count_dir POLICY_DIR_OUT [p] <= MAX_NB_RULES ->
  nb_decrypted_rules g + count_dir POLICY_DIR_IN [p] <= MAX_NB_RULES ->
  exists g', handle_policy polls cfg p g = Some (DOCA_SUCCESS, g') /\ ready cfg g' /\
    nb_encrypted_rules g' = nb_encrypted_rules g + count_dir POLICY_DIR_OUT [p] /\
    nb_decrypted_rules g' = nb_decrypted_rules g + count_dir POLICY_DIR_IN [p] /\
    (free_decrypt g -> free_decrypt g').
Proof.
  intros Hready (Hdir & src & dst & outer & Hg) He Hd.
  assert (Hrun : exists g', handle_policy polls cfg p g = Some (DOCA_SUCCESS, g') /\ idle cfg (hw g') /\
    no_failure (hw g') /\
    forall j, nb_decrypted_rules g + count_dir POLICY_DIR_IN [p] <= j ->
      rd (g_decrypt_rules g') j = rd (g_decrypt_rules g) j).
  { unfold handle_policy. rewrite (ST_bind_Some get _ g g g) by done. rewrite !count_dir_cons in *.
    change (count_dir POLICY_DIR_OUT []) with 0 in *. change (count_dir POLICY_DIR_IN []) with 0 in *.
    destruct Hdir as [Ed | Ed]; rewrite Ed in He, Hd |- *; unfold POLICY_DIR_OUT, POLICY_DIR_IN in *; cbn [Z.eqb Pos.eqb].
    - rewrite (decide_True (P := 1 = 1)), (decide_False (P := 1 = 0)) in * by done.
      destruct (Z.leb_spec MAX_NB_RULES (nb_encrypted_rules g)); [lia|].
      destruct (handle_encrypt_accepted polls cfg Hpolls p src dst outer g Hready Hg)
        as (sa & r0 & g' & _ & E & _ & _ & Hid & Hn & _ & Hother); [lia|].
      exists g'. split; [done|]. split; [done|]. split; [done|]. intros j Hj. by rewrite Hother.
    - rewrite (decide_False (P := 0 = 1)), (decide_True (P := 0 = 0)) in * by done.
      destruct (Z.leb_spec MAX_NB_RULES (nb_decrypted_rules g)); [lia|].
      destruct (handle_decrypt_accepted polls cfg Hpolls p src dst outer g Hready Hg)
        as (sa & r0 & g' & _ & E & _ & _ & Hid & Hn & Hrest & _); [lia|].
      exists g'. split; [done|]. split; [done|]. split; [done|]. intros j Hj. apply Hrest. lia. }
  destruct Hrun as (g' & E & Hid & Hn & Hfree). exists g'. split; [done|].
  destruct (handle_policy_effect polls cfg p g DOCA_SUCCESS g' (ready_inv _ _ Hready) E) as (Hinv' & _ & Hc).
  rewrite decide_True in Hc by done. unfold counters, policy_counts in Hc.
  assert (Hcnt : nb_encrypted_rules g' = nb_encrypted_rules g + count_dir POLICY_DIR_OUT [p] /\
                 nb_decrypted_rules g' = nb_decrypted_rules g + count_dir POLICY_DIR_IN [p]).
  { rewrite !count_dir_cons. change (count_dir POLICY_DIR_OUT []) with 0. change (count_dir POLICY_DIR_IN []) with 0.
    destruct Hdir as [Ed|Ed]; rewrite Ed in *; cbn in Hc; injection Hc as -> -> _;
      repeat (case_decide; try done); lia. }
  split; [done|]. split; [apply Hcnt|]. split; [apply Hcnt|].
  intros Hf j Hj. rewrite Hfree by lia. apply Hf. pose proof (count_dir_nonneg POLICY_DIR_IN [p]). lia.
Qed.

Lemma handle_policies_accepted ps g :
  ready cfg g -> Forall acceptable ps ->
  nb_encrypted_rules g + count_dir POLICY_DIR_OUT ps <= MAX_NB_RULES ->
  nb_decrypted_rules g + count_dir POLICY_DIR_IN ps <= MAX_NB_RULES ->
  exists g', handle_policies polls cfg ps g = Some (DOCA_SUCCESS, g') /\ ready cfg g' /\
    nb_encrypted_rules g' = nb_encrypted_rules g + count_dir POLICY_DIR_OUT ps /\
    nb_decrypted_rules g' = nb_decrypted_rules g + count_dir POLICY_DIR_IN ps /\
    (free_decrypt g -> free_decrypt g').
Proof.
  revert g. induction ps as [|p ps IH]; intros g Hready Hall He Hd.
  { exists g. change (count_dir POLICY_DIR_OUT []) with 0 in *. change (count_dir POLICY_DIR_IN []) with 0 in *. rewrite !Z.add_0_r. by repeat split; try apply Hready. }
  apply Forall_cons in Hall as [Hp Hall].
  rewrite (count_dir_cons POLICY_DIR_OUT p ps) in He. rewrite (count_dir_cons POLICY_DIR_IN p ps) in Hd.
  pose proof (count_dir_nonneg POLICY_DIR_OUT ps). pose proof (count_dir_nonneg POLICY_DIR_IN ps).
  destruct (handle_policy_accepted p g Hready Hp) as (g1 & E1 & Hready1 & Hc1 & Hd1 & Hf1).
  { rewrite count_dir_cons. change (count_dir POLICY_DIR_OUT []) with 0. lia. }
  { rewrite count_dir_cons. change (count_dir POLICY_DIR_IN []) with 0. lia. }
  rewrite count_dir_cons in Hc1. rewrite count_dir_cons in Hd1.
  change (count_dir POLICY_DIR_OUT []) with 0 in Hc1. change (count_dir POLICY_DIR_IN []) with 0 in Hd1.
  destruct (IH g1 Hready1 Hall) as (g' & E' & Hready' & Hc' & Hd' & Hf'); [lia|lia|].
  exists g'. rewrite (count_dir_cons POLICY_DIR_OUT p ps), (count_dir_cons POLICY_DIR_IN p ps). cbn [handle_policies].
  rewrite (or_return_Some _ _ _ _ _ E1), decide_True by done. split; [done|]. split; [done|].
  split; [lia|]. split; [lia|]. auto.
Qed.
End Sequences.
