(* ===== verification/PolicyTheorems.v ===== *)
(** * Properties of the rules of the IPsec gateway

    The policies an honest peer sends are installed as written; what the flow
    entries of a rule match; and three places where the rules and the packet
    path do not fit together: the index that entries put into packets, and the
    pair of pipes for IPv6 sources.  A hardware and a table that satisfy the
    interfaces close the file's examples. *)

From S2P Require Import Prelude.
From S2P Require Import CString.
From S2P Require Import FlowTypes.
From S2P Require Import FlowFields.
From S2P Require Import AntiReplay.
From S2P Require Import PolicyMsg.
From S2P Require Import Mbuf.
From S2P Require Import EspPacket.
From S2P Require Import GatewayAddr.
From S2P Require Import GatewayRules.
From S2P Require Import Policy.
From S2P Require Import PolicySpec.
From S2P Require Import PolicyInstall.
#[local] Open Scope Z_scope.
#[local] Open Scope doca_scope.

(** ** A hardware that accepts and completes everything *)

Section HwOk.
Context (cfg : gw_config).

Definition queue_step (q : list (gw_port * status_id)) (c : hw_call) : list (gw_port * status_id) :=
  match c with
  | PipeAddEntry pipe _ _ _ i => q ++ [(pipe_port cfg pipe, i)]
  | EntriesProcess port n => snd (serve port (serve_max n q) q)
  | _ => q
  end.
Definition queue_of (h : list hw_call) : list (gw_port * status_id) := foldl queue_step [] h.

Definition completions (h : list hw_call) : list completion :=
  match rev h with
  | EntriesProcess port n :: h' =>
      let q := queue_of (rev h') in
      map (fun i => Completion (Some i) true true) (fst (serve port (serve_max n q) q))
  | _ => []
  end.

Definition hw_ok : Hardware := {|
  sa_create := fun h => SaCompleted DOCA_SUCCESS (Some (zlen h));
  sa_destroy := fun _ => DOCA_SUCCESS;
  shared_resource_cfg := fun _ => DOCA_SUCCESS;
  shared_resources_bind := fun _ => DOCA_SUCCESS;
  pipe_add_entry := fun _ => DOCA_SUCCESS;
  flow_entries_process := fun h => (DOCA_SUCCESS, completions h)
|}.

Lemma queue_of_snoc h c : queue_of (h ++ [c]) = queue_step (queue_of h) c.
Proof. unfold queue_of. by rewrite foldl_app. Qed.

#[export] Program Instance hw_ok_prompt : @PromptHardware cfg hw_ok := {| queue := queue_of |}.
Next Obligation. intros. by rewrite queue_of_snoc. Qed.
Next Obligation.
  intros h port n r cs Hp _. injection Hp as <- <-. unfold completions.
  rewrite rev_unit, rev_involutive. split; [|split].
  - apply Forall_map, Forall_forall. done.
  - rewrite map_map. done.
  - by rewrite queue_of_snoc.
Qed.
Next Obligation. intros h c Hc. rewrite queue_of_snoc. by destruct c. Qed.

#[export] Instance hw_ok_accepting : @AcceptingHardware hw_ok.
Proof.
  split; intros; cbn; eauto. split; [done|]. unfold completions.
  destruct (rev h) as [|[]]; try constructor. by apply Forall_map, Forall_forall.
Qed.
End HwOk.

(** A table of addresses: a list of keys. *)
Definition key_index (t : list bytes) (k : bytes) : Z :=
  match list_find (eq k) t with Some (i, _) => Z.of_nat i | None => -1 end.

#[export] Instance list_ip6 : Ip6Hash (list bytes) := {|
  h6_lookup := key_index;
  h6_add := fun t k => if 0 <=? key_index t k then (key_index t k, t) else (zlen t, t ++ [k])
|}.

Lemma key_index_Some t k i : 0 <= i -> key_index t k = i -> t !! Z.to_nat i = Some k.
Proof.
  unfold key_index. destruct (list_find _ _) as [[j x]|] eqn:E; [|lia]. intros _ <-.
  apply list_find_Some in E as (Hj & <- & _). by rewrite Nat2Z.id.
Qed.

Lemma key_index_absent t k : key_index t k < 0 -> list_find (eq k) t = None.
Proof. unfold key_index. destruct (list_find _ _) as [[j x]|]; [lia|done]. Qed.

#[export] Instance list_ip6_laws : Ip6HashLaws (list bytes).
Proof.
  split; cbn.
  - intros t k id t'. destruct (Z.leb_spec 0 (key_index t k)) as [Hk|Hk]; intros [= <- <-] _; [done|].
    apply key_index_absent in Hk. unfold key_index. rewrite list_find_app_r by done. cbn.
    rewrite decide_True by done. cbn. lia.
  - intros t k id t' k'. destruct (Z.leb_spec 0 (key_index t k)); intros [= <- <-] Hne; [done|].
    unfold key_index. destruct (list_find (eq k') t) as [[j x]|] eqn:E.
    + by rewrite (list_find_app_l _ _ _ _ _ E).
    + rewrite list_find_app_r by done. cbn. by rewrite decide_False.
  - intros t k id t'. destruct (Z.leb_spec 0 (key_index t k)); intros [= <- <-]; lia.
  - intros t k k' Hk Heq. pose proof (key_index_Some t k _ Hk eq_refl).
    pose proof (key_index_Some t k' _ Hk (eq_sym Heq)). congruence.
Qed.

(** The state after the gateway has started with a policy socket. *)
Definition start : @gw_state (list bytes) :=
  GwState (HwState [] status0 status0) [] (replicate (Z.to_nat MAX_NB_RULES) encrypt_rule0)
    (replicate (Z.to_nat MAX_NB_RULES) decrypt_rule0) 0 0 0.

Lemma start_ready cfg : @ready (list bytes) _ cfg (hw_ok cfg) _ start.
Proof.
  split.
  - split; cbn [g_encrypt_rules g_decrypt_rules start nb_encrypted_rules nb_decrypted_rules nb_rules];
      rewrite ?length_replicate; unfold MAX_NB_RULES; lia.
  - split; [|done]. split; [intros []; done|]. split; [constructor|]. intros []; done.
  - intros []; done.
Qed.

Lemma start_free : free_decrypt start.
Proof.
  intros j Hj. cbn [g_decrypt_rules start nb_decrypted_rules] in *. unfold rd. rewrite decide_True by lia.
  apply lookup_replicate_2. lia.
Qed.

Definition sample_cfg : gw_config :=
  GwConfig (Config true true IPSEC_SECURITY_GW_TUNNEL 1) IPSEC_SECURITY_GW_VNF IPSEC_SECURITY_GW_ESP_OFFLOAD_NONE true.

(** 10.0.0.1:4660 to 10.0.0.2:80 over UDP, through 192.168.0.9. *)
Definition sample_out (dir : Z) : policy :=
  {| PolicyMsg.src_port := 4660; PolicyMsg.dst_port := 80; l3_protocol := 4; l4_protocol := 17; outer_l3_protocol := 4;
     policy_direction := dir; policy_mode := 1; esn := 0; icv_length := 16; key_type := 0;
     PolicyMsg.spi := 3735928559; salt := 7; enc_key_data := replicate 16 170 ++ replicate 16 0;
     src_ip_addr := char_array (ip_text (10, 0, 0, 1)); dst_ip_addr := char_array (ip_text (10, 0, 0, 2));
     outer_src_ip := char_array (ip_text (192, 168, 0, 8)); outer_dst_ip := char_array (ip_text (192, 168, 0, 9)) |}.

Lemma sample_good dir : good_policy (sample_out dir) (10, 0, 0, 1) (10, 0, 0, 2) (192, 168, 0, 9).
Proof. split; cbn; unfold in_u; auto; lia. Qed.

(** ** The control loop *)

(** What the loop keeps: the invariant, the installed rules, and counters that
    only grow. *)
Definition loop_keeps {T} `{Ip6Hash T} (g g' : @gw_state T) : Prop :=
  rules_inv g' /\ installed_kept g g' /\
  nb_encrypted_rules g <= nb_encrypted_rules g' /\ nb_decrypted_rules g <= nb_decrypted_rules g'.

(** C23: the control loop of the gateway is safe.  Whatever the peer sends on the
    policy socket and however the hardware answers, as long as entries are
    completed when the queue is processed, every turn of the loop is defined: no access leaves the arrays of
    1024 rules, the waits for entries end (1024 polls are enough), and the loop
    ends with a result.  The counters stay within the arrays and add up; the
    rules that were installed are not touched by later policies, accepted or
    not. *)
Theorem policy_loop_safe {T} `{Ip6Hash T} polls cfg `{HW : Hardware} `{!PromptHardware cfg}
    turns result evs (g : @gw_state T) :
  (1024 <= polls)%nat -> rules_inv g -> idle cfg (hw g) ->
  exists r g', policy_loop polls cfg turns result evs g = Some (r, g') /\ loop_keeps g g'.
Proof.
  unfold loop_keeps.
  intros Hpolls. revert result evs g. induction turns as [|turns IH]; intros result evs g Hinv Hid.
  { exists result, g. split; [done|]. split; [done|]. split; [by split|]. lia. }
  cbn [policy_loop]. destruct (socket_conf cfg); cbn [negb]; [|by apply IH].
  destruct (read_message_defined policy0 evs) as (r & p & evs' & E & Hr).
  rewrite (ST_bind_Some _ _ g (r, p, evs') g) by (unfold defined; by rewrite E).
  destruct Hr as [[-> Hterm]|[Hr ->]].
  - rewrite decide_True by done.
    destruct (handle_policy_total polls cfg Hpolls p g Hterm Hid Hinv) as (r1 & g1 & E1 & Hid1).
    destruct (handle_policy_effect polls cfg p g r1 g1 Hinv E1) as (Hinv1 & Hk1 & Hc1).
    rewrite (ST_bind_Some _ _ _ _ _ E1).
    assert (nb_encrypted_rules g <= nb_encrypted_rules g1 /\ nb_decrypted_rules g <= nb_decrypted_rules g1) as [? ?].
    { unfold counters in Hc1. case_decide; [symmetry in Hc1; by apply policy_counts_grow in Hc1|].
      injection Hc1 as -> -> _. lia. }
    case_decide as Hr1.
    + destruct (IH r1 evs' g1 Hinv1 (Hid1 Hr1)) as (r' & g' & E' & Hinv' & Hk' & ? & ?).
      exists r', g'. split; [done|]. split; [done|]. split; [by eapply installed_kept_trans|]. lia.
    + exists r1, g1. split; [done|]. split; [done|]. split; [done|]. lia.
  - rewrite decide_False by (destruct Hr; by subst). destruct Hr as [-> | ->].
    + rewrite decide_True by done. by apply IH.
    + rewrite decide_False by done. exists DOCA_ERROR_IO_FAILED, g. split; [done|]. split; [done|]. split; [by split|]. lia.
Qed.

Lemma policy_loop_safe_witness :
  exists r g', @policy_loop _ _ (hw_ok sample_cfg) 1024 sample_cfg 2 DOCA_SUCCESS [Data (message 16 (sample_out 1))] start =
      Some (r, g') /\ loop_keeps start g'.
Proof.
  apply (@policy_loop_safe _ _ 1024 sample_cfg (hw_ok sample_cfg) _ 2 DOCA_SUCCESS [Data (message 16 (sample_out 1))] start).
  - lia.
  - apply (start_ready sample_cfg).
  - apply (start_ready sample_cfg).
Defined.

(** ** Installed policies *)

Section Installed.
Context {T : Type} `{Ip6Hash T} (polls : nat) (cfg : gw_config).
Context `{HW : Hardware} `{!PromptHardware cfg} `{!AcceptingHardware}.
Implicit Types g : @gw_state T.

(** The addresses of the rule are those of the text. *)
Lemma rule_addresses p src dst outer r sa :
  length (e_addrs r) = 32%nat -> length (e_encap_dst r) = 16%nat ->
  let r' := policy_encrypt_rule p src dst outer r sa in
  ip4_src_ip r' = ip_bytes src /\ ip4_dst_ip r' = ip_bytes dst.
Proof.
  intros Hl He. unfold ip4_src_ip, ip4_dst_ip, policy_encrypt_rule. cbn [e_addrs].
  destruct src as [[[a b] c] d], dst as [[[a' b'] c'] d']. cbn [ip_bytes].
  destruct (e_addrs r) as [|? [|? [|? [|? [|? [|? [|? [|? t]]]]]]]]; try (cbn in Hl; lia). done.
Qed.

(** The match of the five-tuple pipe, read back. *)
Lemma five_tuple_fields p src dst outer r sa :
  length (e_addrs r) = 32%nat -> length (e_encap_dst r) = 16%nat ->
  let m := five_tuple_match (policy_encrypt_rule p src dst outer r sa) 0 in
  ip4_src (m_outer m) = ip_bytes src /\ ip4_dst (m_outer m) = ip_bytes dst /\
  l4_src_port (m_outer m) = be_bytes 2 (u16 (PolicyMsg.src_port p)) /\
  l4_dst_port (m_outer m) = be_bytes 2 (u16 (PolicyMsg.dst_port p)) /\
  l4_type_ext (m_outer m) = if l4_protocol p =? POLICY_L4_TYPE_UDP then L4_UDP else L4_TCP.
Proof.
  intros Hl He. destruct (rule_addresses p src dst outer r sa Hl He) as [Es Ed]. cbn zeta in *.
  unfold five_tuple_match. rewrite Es, Ed. unfold policy_encrypt_rule. cbn [e_l3_type e_protocol e_src_port e_dst_port].
  rewrite decide_True by done.
  destruct src as [[[a b] c] d], dst as [[[a' b'] c'] d'].
  destruct (l4_protocol p =? POLICY_L4_TYPE_UDP); done.
Qed.

(** The entry of a five-tuple pipe marks packets with the rule's number. *)
Definition mark (i : Z) : gw_actions := GwActions (u32 (Z.lor (2 ^ 30) i)) 0 0 0 [] 0.

(** The calls that install rule [r] number [n] under association [sa]; [m] is
    its match. *)
Definition outgoing_calls (p : policy) (r : gw_encrypt_rule) (m : gw_match) (sa n : Z) : list hw_call :=
  [SaCreate (sa_attrs_of (policy_sa DOCA_IPSEC_DIRECTION_EGRESS_ENCRYPT p) cfg);
   PipeAddEntry (if l4_protocol p =? POLICY_L4_TYPE_UDP then ipv4_udp_pipe else ipv4_tcp_pipe) m
     (Some (mark n)) DOCA_FLOW_NO_WAIT hairpin_status;
   SharedResourceCfg DOCA_IPSEC_DIRECTION_EGRESS_ENCRYPT (Some sa) n;
   SharedResourcesBind n (secured cfg);
   PipeAddEntry (encrypt_pipe_of cfg r) (GwMatch (u32 n) 0 0 header0 false (zeros 4))
     (Some (encrypt_actions cfg r n)) DOCA_FLOW_NO_WAIT crypt_status].

Definition incoming_calls (p : policy) (m : gw_match) (sa n : Z) : list hw_call :=
  [SaCreate (sa_attrs_of (policy_sa DOCA_IPSEC_DIRECTION_INGRESS_DECRYPT p) cfg);
   SharedResourceCfg DOCA_IPSEC_DIRECTION_INGRESS_DECRYPT (Some sa) n;
   SharedResourcesBind n (secured cfg);
   PipeAddEntry decrypt_ipv4_pipe m
     (Some (GwActions (if save_meta cfg then decrypt_meta n else 0) 0 0 n [] 0)) DOCA_FLOW_NO_WAIT crypt_status].

(** [ps] fills the places for encryption rules and fits those for decryption. *)
Definition fills (ps : list policy) g : Prop :=
  nb_encrypted_rules g + count_dir POLICY_DIR_OUT ps = MAX_NB_RULES /\
  nb_decrypted_rules g + count_dir POLICY_DIR_IN ps <= MAX_NB_RULES.



Lemma handle_policies_app ps qs g :
  handle_policies polls cfg (ps ++ qs) g = or_return (handle_policies polls cfg ps) (handle_policies polls cfg qs) g.
Proof.
  revert g. induction ps as [|p ps IH]; intros g; cbn [handle_policies app]; [done|].
  unfold or_return, mbind, ST_bind. destruct (handle_policy polls cfg p g) as [[r g1]|]; [|done].
  case_decide; [apply IH|]. cbn. by rewrite decide_False.
Qed.

(** The gateway takes 1024 policies in each direction, in any order, and
    not more.  On hardware that accepts, a sequence of acceptable policies that
    stays within the two arrays is installed to the last one, and the next
    policy for a direction whose array is full is refused with
    DOCA_ERROR_BAD_STATE without changing anything. *)
Theorem policies_accepted ps p g :
  (1024 <= polls)%nat -> ready cfg g -> Forall acceptable ps -> fills ps g ->
  policy_direction p = POLICY_DIR_OUT ->
  exists g', handle_policies polls cfg ps g = Some (DOCA_SUCCESS, g') /\ rules_inv g' /\
    nb_encrypted_rules g' = MAX_NB_RULES /\
    nb_rules g' = nb_rules g + Z.of_nat (length ps) /\
    handle_policies polls cfg (ps ++ [p]) g = Some (DOCA_ERROR_BAD_STATE, g').
Proof.
  intros Hpolls Hready Hall [He Hd] Hp.
  destruct (handle_policies_accepted polls cfg Hpolls ps g Hready Hall) as (g' & E & Hr' & Hc & Hc' & _); [lia|lia|].
  exists g'. split; [done|]. split; [apply Hr'|]. split; [lia|]. split.
  - pose proof (inv_nb _ (ready_inv _ _ Hr')). pose proof (inv_nb _ (ready_inv _ _ Hready)).
    assert (count_dir POLICY_DIR_OUT ps + count_dir POLICY_DIR_IN ps = Z.of_nat (length ps)); [|lia].
    clear -Hall. induction Hall as [|q ps [[Hq|Hq] _] _ IH]; [done| |];
      rewrite !count_dir_cons, Hq; cbn [length]; repeat (case_decide; try done); lia.
  - rewrite (handle_policies_app ps [p]), (or_return_Some _ _ _ _ _ E), decide_True by done.
    cbn [handle_policies]. unfold or_return, handle_policy. rewrite Hp. cbn [Z.eqb POLICY_DIR_OUT Pos.eqb].
    rewrite (ST_bind_Some _ _ g' DOCA_ERROR_BAD_STATE g'); [done|].
    rewrite (ST_bind_Some get _ g' g' g') by done. by replace (MAX_NB_RULES <=? nb_encrypted_rules g') with true by lia.
Qed.

(** ** The index in packets *)

(** What handle_secured_packets_received takes for the rule's index. *)
Definition secured_index (pkt_meta : Z) : Z := Z.land pkt_meta (u32 (2 ^ 30 - 1)).

Lemma secured_index_meta id : 0 <= id < 2 ^ 30 -> secured_index (decrypt_meta id) = id.
Proof.
  intros Hid. unfold secured_index, decrypt_meta.
  rewrite (wrap_small 32 (2 ^ 30 - 1)) by lia. rewrite wrap_id.
  - change (2 ^ 30 - 1) with (Z.ones 30). rewrite Z.land_lor_distr_l.
    rewrite (Z.land_ones id), Z.mod_small by lia. rewrite Z.land_ones by lia.
    change (2 ^ 31 mod 2 ^ 30) with 0. by rewrite Z.lor_0_l.
  - apply in_u_lor; [lia|split; lia|]. unfold in_u. lia.
Qed.

(** The index that a run-time rule puts into packets counts the rules of
    both directions, but the packet path uses it for the array of decryption
    rules.  After policies of which some are for outgoing traffic, a policy for
    incoming traffic is stored at the number of decryption rules, while its
    packets carry the number of all rules: the packet path finds an empty rule
    there (no ICV length), and when there are 1024 rules or more the access is
    outside the arrays, so that with software anti-replay the first packet of the
    rule is undefined behaviour. *)
Theorem decrypt_index_mismatch ps p src dst outer g :
  (1024 <= polls)%nat -> ready cfg g -> free_decrypt g -> nb_rules g = 0 -> save_meta cfg = true ->
  Forall acceptable ps -> good_policy p src dst outer -> policy_direction p = POLICY_DIR_IN ->
  0 < count_dir POLICY_DIR_OUT ps <= MAX_NB_RULES -> count_dir POLICY_DIR_IN ps < MAX_NB_RULES ->
  exists g' r m a,
    handle_policies polls cfg (ps ++ [p]) g = Some (DOCA_SUCCESS, g') /\
    rd (g_decrypt_rules g') (count_dir POLICY_DIR_IN ps) = Some r /\ d_esp_spi r = PolicyMsg.spi p /\
    PipeAddEntry decrypt_ipv4_pipe m (Some a) DOCA_FLOW_NO_WAIT crypt_status ∈ calls (hw g') /\
    m_esp_spi m = be_bytes 4 (PolicyMsg.spi p) /\
    secured_index (a_pkt_meta a) = count_dir POLICY_DIR_OUT ps + count_dir POLICY_DIR_IN ps /\
    rd (g_decrypt_rules g') (secured_index (a_pkt_meta a)) =
      (if count_dir POLICY_DIR_OUT ps + count_dir POLICY_DIR_IN ps <? MAX_NB_RULES then Some decrypt_rule0 else None) /\
    forall (D : Dpdk) (mb : rte_mbuf) (ctx : ipsec_security_gw_core_ctx),
      rte_flow_dynf_metadata_avail = true -> sw_antireplay (config ctx) = true ->
      zlen (antireplay_states ctx) = MAX_NB_RULES -> metadata mb = a_pkt_meta a ->
      MAX_NB_RULES <= count_dir POLICY_DIR_OUT ps + count_dir POLICY_DIR_IN ps ->
      handle_secured_packet mb ctx = None.
Proof.
  intros Hpolls Hready Hfree Hz Hsave Hall Hg Hdir Hout Hin.
  pose proof (ready_inv _ _ Hready) as [_ _ Hne Hnd Hnb].
  destruct (handle_policies_accepted polls cfg Hpolls ps g Hready Hall) as (g1 & E1 & Hr1 & Hc1 & Hd1 & Hf1); [lia|lia|].
  specialize (Hf1 Hfree). pose proof (ready_inv _ _ Hr1) as [_ Hld1 _ _ Hnb1].
  destruct (handle_decrypt_accepted polls cfg Hpolls p src dst outer g1 Hr1 Hg)
    as (sa & r0 & g' & Hr0 & E & Hr & Ho & Hid & Hn & Hrest & _); [lia|].
  set (n := count_dir POLICY_DIR_OUT ps + count_dir POLICY_DIR_IN ps) in *.
  assert (Hn1 : nb_rules g1 = n) by lia. assert (Hd1' : nb_decrypted_rules g1 = count_dir POLICY_DIR_IN ps) by lia.
  assert (Hnr : 0 <= n < 2 ^ 30).
  { pose proof (count_dir_nonneg POLICY_DIR_IN ps). unfold MAX_NB_RULES in *. lia. }
  set (r := policy_decrypt_rule (mode (base cfg)) p dst outer r0 (Some sa)) in *.
  exists g', r, (decrypt_match r gw_match0), (GwActions (decrypt_meta n) 0 0 n [] 0). cbn [a_pkt_meta].
  rewrite secured_index_meta by done. split.
  { rewrite (handle_policies_app ps [p]), (or_return_Some _ _ _ _ _ E1), decide_True by done.
    cbn [handle_policies]. rewrite (or_return_Some _ _ g1 DOCA_SUCCESS g'); [by rewrite decide_True|].
    unfold handle_policy. rewrite (ST_bind_Some get _ g1 g1 g1), Hdir by done. cbn [Z.eqb POLICY_DIR_OUT POLICY_DIR_IN].
    by destruct (Z.leb_spec MAX_NB_RULES (nb_decrypted_rules g1)); [lia|]. }
  split; [by rewrite <- Hd1'|]. split; [done|]. split.
  { assert (Hin' : PipeAddEntry decrypt_ipv4_pipe (decrypt_match r gw_match0)
        (Some (GwActions (decrypt_meta n) 0 0 n [] 0)) DOCA_FLOW_NO_WAIT crypt_status ∈ orders (calls (hw g'))).
    { rewrite Ho, Hn1. unfold decrypt_orders. rewrite Hsave, decide_True by done. set_solver. }
    unfold orders in Hin'. by apply list_elem_of_filter in Hin' as [_ ?]. }
  split; [done|]. split; [done|]. split.
  - destruct (Z.ltb_spec n MAX_NB_RULES) as [Hlt|Hge].
    + rewrite Hrest by (unfold n in *; lia). apply Hf1. unfold n in *. lia.
    + destruct (handle_policy_effect polls cfg p g1 DOCA_SUCCESS g') as ([_ Hld _ _ _] & _).
      { apply Hr1. }
      { unfold handle_policy. rewrite (ST_bind_Some get _ g1 g1 g1), Hdir by done. cbn [Z.eqb POLICY_DIR_OUT POLICY_DIR_IN].
        by destruct (Z.leb_spec MAX_NB_RULES (nb_decrypted_rules g1)); [lia|]. }
      unfold rd. rewrite decide_True by lia. apply lookup_ge_None_2. lia.
  - intros D mb ctx Hav Har Hlen Hmeta Hge. unfold handle_secured_packet. rewrite Hav. cbn [negb].
    unfold check_replay. rewrite Har, Hmeta. change (Z.land (decrypt_meta n) (u32 (2 ^ 30 - 1))) with (secured_index (decrypt_meta n)).
    rewrite secured_index_meta by done. destruct (get_esp_sn mb _); obind; [|done].
    assert (Hnone : rd (antireplay_states ctx) n = None).
    { unfold rd. rewrite decide_True by lia. apply lookup_ge_None_2. lia. }
    by rewrite Hnone.
Qed.
End Installed.

(** ** Rules of the configuration file *)

Section Configured.
Context `{HW : Hardware}.

(** Computations that only add to the calls. *)
Definition grows {A} (m : ST hw_state A) : Prop := forall s a s', m s = Some (a, s') -> calls s `prefix_of` calls s'.

Lemma grows_ret {A} (a : A) : grows (mret a).
Proof. intros s b s' [= _ <-]. done. Qed.

Lemma grows_get : grows get.
Proof. intros s b s' [= _ <-]. done. Qed.

Lemma grows_undef {A} : grows (undef : ST hw_state A).
Proof. done. Qed.

Lemma grows_call {A} c (answer : list hw_call -> A) : grows (call c answer).
Proof. intros s b s' [= _ <-]. by exists [c]. Qed.

Lemma grows_bind {A B} (m : ST hw_state A) (k : A -> ST hw_state B) :
  grows m -> (forall a, grows (k a)) -> grows (m ≫= k).
Proof.
  intros Hm Hk s b s' (a & s1 & E1 & E2)%ST_bind_inv. etrans; [by eapply Hm | by eapply Hk].
Qed.

Lemma grows_or_return (m k : ST hw_state doca_error) : grows m -> grows k -> grows (or_return m k).
Proof.
  intros Hm Hk s b s' (r1 & s1 & E1 & [[_ E2]|(_ & _ & ->)])%or_return_inv; [|by eapply Hm].
  etrans; [by eapply Hm | by eapply Hk].
Qed.

Lemma grows_count i n : grows (count_entries i n).
Proof.
  intros s b s' E. unfold count_entries in E. apply ST_bind_inv in E as (? & ? & [= <- <-] & [= _ <-]).
  by rewrite calls_set.
Qed.

Lemma grows_reset i : grows (reset_status i).
Proof. intros s b s' [= _ <-]. by rewrite calls_set. Qed.

Lemma grows_process port n : grows (doca_flow_entries_process port n).
Proof.
  intros s b s' E. unfold doca_flow_entries_process in E.
  apply ST_bind_inv in E as ([r cs] & s1 & E1 & E). apply grows_call in E1.
  apply ST_bind_inv in E as (? & ? & [= <- <-] & E). apply ST_bind_inv in E as (? & ? & [= <- <-] & [= _ <-]).
  by rewrite calls_callbacks.
Qed.

#[local] Hint Resolve grows_ret grows_get grows_undef grows_call grows_count grows_reset grows_process : grows.
#[local] Hint Extern 2 (grows (_ ≫= _)) => apply grows_bind; [|intros] : grows.
#[local] Hint Extern 2 (grows (or_return _ _)) => apply grows_or_return : grows.
#[local] Hint Extern 3 (grows (if _ then _ else _)) => case_match : grows.
#[local] Hint Extern 3 (grows (match _ with _ => _ end)) => case_match : grows.

Lemma grows_process_entries port i : grows (process_entries port i).
Proof. unfold process_entries. auto 10 with grows. Qed.

Lemma grows_drain fuel port i : grows (drain_loop fuel port i).
Proof.
  induction fuel as [|fuel IH]; cbn [drain_loop]; [apply grows_undef|].
  apply grows_bind; [apply grows_process_entries|]. intros r. auto 10 with grows.
Qed.

Lemma grows_add_counted port pipe m a flags i : grows (add_counted port pipe m a flags i).
Proof. unfold add_counted, add_entry. pose proof grows_process_entries. auto 10 with grows. Qed.

Lemma grows_shared dir port sa id : grows (create_ipsec_shared_object dir port sa id).
Proof. unfold create_ipsec_shared_object. auto with grows. Qed.

Lemma grows_five_tuple lookup port r nb i : grows (add_five_tuple_match_entry lookup port r nb i).
Proof.
  unfold add_five_tuple_match_entry, add_src_ip6_entry, batch_flags. pose proof grows_add_counted. auto 12 with grows.
Qed.

Lemma grows_encrypt_rule lookup cfg nb i r : grows (add_encrypt_rule lookup cfg nb i r).
Proof.
  unfold add_encrypt_rule, ipsec_security_gw_create_ipsec_sa, create_ipsec_encrypt_shared_object, batch_flags.
  pose proof grows_add_counted. pose proof grows_shared. pose proof grows_five_tuple.
  auto 20 with grows.
Qed.

(** A successful [add_counted] has added its entry. *)
Lemma add_counted_called port pipe m a flags i s r s' :
  add_counted port pipe m a flags i s = Some (r, s') -> PipeAddEntry pipe m (Some a) flags i ∈ calls s'.
Proof.
  intros E. unfold add_counted in E. apply or_return_inv in E as (r1 & s1 & [= _ <-] & Hk).
  assert (Hin : forall l : list hw_call, calls s ++ [PipeAddEntry pipe m (Some a) flags i] `prefix_of` l ->
                PipeAddEntry pipe m (Some a) flags i ∈ l).
  { intros l [k ->]. set_solver. }
  apply Hin. destruct Hk as [[_ E]|(_ & _ & ->)]; [|done].
  revert E. apply (grows_bind (count_entries i 1)); [apply grows_count|]. intros _.
  apply grows_bind; [apply grows_get|]. intros s2. pose proof grows_process_entries. auto with grows.
Qed.

Lemma prefix_elem {A} (x : A) l1 l2 : l1 `prefix_of` l2 -> x ∈ l1 -> x ∈ l2.
Proof. intros [k ->] Hx. apply elem_of_app. by left. Qed.

(** The entries of rule [r] with index [i]. *)
Definition configured (cfg : gw_config) (i : Z) (r : gw_encrypt_rule) (h : list hw_call) : Prop :=
  exists id f1 f2,
    SaCreate (sa_attrs_of (e_sa_attrs r) cfg) ∈ h /\
    PipeAddEntry (get_pipe_for_rule r false) (five_tuple_match r id)
      (Some (mark i)) f1 hairpin_status ∈ h /\
    SharedResourceCfg DOCA_IPSEC_DIRECTION_EGRESS_ENCRYPT (e_sa r) i ∈ h /\
    PipeAddEntry (encrypt_pipe_of cfg r) (GwMatch (u32 i) 0 0 header0 false (zeros 4))
      (Some (encrypt_actions cfg r i)) f2 crypt_status ∈ h.

Lemma configured_mono cfg i r h1 h2 : h1 `prefix_of` h2 -> configured cfg i r h1 -> configured cfg i r h2.
Proof.
  intros Hp (id & f1 & f2 & ? & ? & ? & ?). exists id, f1, f2. split_and!; by eapply prefix_elem.
Qed.

(** The result and the rule. *)
Lemma add_encrypt_rule_configured lookup cfg nb i r s r' s' :
  add_encrypt_rule lookup cfg nb i r s = Some ((DOCA_SUCCESS, r'), s') ->
  r' = set_e_sa (e_sa r') r /\ configured cfg i r' (calls s').
Proof.
  intros E. unfold add_encrypt_rule in E. apply ST_bind_inv in E as ([res sa] & s1 & E1 & E).
  case_decide as Hr; [|by injection E as -> <- <-].
  assert (Hsa : SaCreate (sa_attrs_of (e_sa_attrs r) cfg) ∈ calls s1).
  { apply ST_bind_inv in E1 as (ans & s0 & [= _ <-] & [= _ <-]). cbn [calls]. set_solver. }
  apply ST_bind_inv in E as (res2 & s2 & E & E2). injection E2 as -> <- <-. cbn [e_sa set_e_sa]. split; [done|].
  apply or_return_inv in E as (r3 & s3 & E3 & [[-> E]|(? & ? & ?)]); [|congruence].
  apply or_return_inv in E as (r4 & s4 & E4 & [[-> E]|(? & ? & ?)]); [|congruence].
  pose proof E as E'. apply ST_bind_inv in E' as (f2 & s5 & Ef & E5). pose proof (add_counted_called _ _ _ _ _ _ _ _ _ E5) as Hin5.
  assert (G4 : calls s4 `prefix_of` calls s2).
  { revert E. apply grows_bind; [unfold batch_flags; auto with grows|]. intros; apply grows_add_counted. }
  (* the shared object *)
  unfold create_ipsec_encrypt_shared_object in E4. pose proof E4 as E4'. unfold create_ipsec_shared_object in E4'.
  apply or_return_inv in E4' as (r6 & s6 & [= _ <-] & Hk).
  assert (Hcfg : SharedResourceCfg DOCA_IPSEC_DIRECTION_EGRESS_ENCRYPT sa i ∈ calls s4).
  { destruct Hk as [[_ [= _ <-]]|(_ & _ & ->)]; set_solver. }
  (* the five-tuple entry *)
  assert (Htup : exists id f1, PipeAddEntry (get_pipe_for_rule (set_e_sa sa r) false) (five_tuple_match (set_e_sa sa r) id)
            (Some (GwActions (u32 (Z.lor (2 ^ 30) i)) 0 0 0 [] 0)) f1 hairpin_status ∈ calls s3).
  { unfold add_five_tuple_match_entry in E3.
    apply or_return_inv in E3 as (r7 & s7 & _ & [[-> E3]|(? & ? & ?)]); [|congruence].
    apply ST_bind_inv in E3 as (f1 & s8 & _ & E3). apply add_counted_called in E3. by do 2 eexists. }
  destruct Htup as (id & f1 & Htup). apply grows_shared in E4. apply grows_five_tuple in E3.
  exists id, f1, f2. cbn [e_sa e_sa_attrs set_e_sa]. split_and!; [| | |done].
  - eapply prefix_elem; [|exact Hsa]. by do 2 (etrans; [eassumption|]).
  - eapply prefix_elem; [|exact Htup]. by etrans.
  - by eapply prefix_elem.
Qed.

Lemma add_encrypt_rules_configured lookup cfg nb rules i s rs s' :
  add_encrypt_rules lookup cfg nb i rules s = Some ((DOCA_SUCCESS, rs), s') ->
  calls s `prefix_of` calls s' /\ length rs = length rules /\
  forall k r, rules !! k = Some r -> exists sa, rs !! k = Some (set_e_sa sa r) /\
    configured cfg (i + Z.of_nat k) (set_e_sa sa r) (calls s').
Proof.
  revert i s rs s'. induction rules as [|r rules IH]; intros i s rs s' E; cbn [add_encrypt_rules] in E.
  { injection E as <- <-. split; [done|]. split; [done|]. by intros k r. }
  apply ST_bind_inv in E as ([res r'] & s1 & E1 & E). pose proof (grows_encrypt_rule lookup cfg nb i r s _ s1 E1) as G1.
  case_decide as Hr; [subst res|by injection E as -> <- <-].
  apply ST_bind_inv in E as ([res rs'] & s2 & E2 & E). injection E as -> <- <-.
  destruct (IH _ _ _ _ E2) as (G2 & Hl & Hc). apply add_encrypt_rule_configured in E1 as [Er1 Hc1].
  split; [by etrans|]. split; [cbn; by rewrite Hl|]. intros [|k] x Hx; cbn in Hx.
  - injection Hx as <-. exists (e_sa r'). rewrite <- Er1, Z.add_0_r. split; [done|]. by eapply configured_mono.
  - apply Hc in Hx. by replace (i + Z.of_nat (S k)) with (i + 1 + Z.of_nat k) by lia.
Qed.

Section Ends.
Context (polls : nat) (cfg : gw_config) `{!PromptHardware cfg}.

Lemma add_encrypt_rule_ok lookup nb i r s :
  queue_ok cfg s -> runs (add_encrypt_rule lookup cfg nb i r) s (fun x s' => x.1 = DOCA_SUCCESS -> queue_ok cfg s').
Proof.
  intros Hok. unfold add_encrypt_rule. apply runs_bind. eapply runs_mono; [by apply create_sa_ok|].
  intros [res sa] s1 [Hok1 _]. case_decide; [|by apply runs_ret]. apply runs_bind.
  eapply (runs_mono _ _ (fun x s' => x = DOCA_SUCCESS -> queue_ok cfg s')).
  - apply runs_or_return. eapply runs_mono; [by apply five_tuple_ok|]. intros r1 s2 Hs2. case_decide as Hr; [|done].
    destruct (Hs2 Hr) as [Hok2 _]. apply runs_or_return. eapply runs_mono; [by apply shared_object_ok|].
    intros r2 s3 [Hok3 _]. case_decide; [|done]. apply runs_bind, flags_ok. intros f.
    eapply runs_mono; [apply add_counted_ok; [apply encrypt_pipe_port|done]|]. intros r3 s4 Hs4 Hr4. by apply Hs4.
  - intros x s2 Hs2. by apply runs_ret.
Qed.

Lemma add_encrypt_rules_ok lookup nb rules i s :
  queue_ok cfg s ->
  runs (add_encrypt_rules lookup cfg nb i rules) s (fun x s' => x.1 = DOCA_SUCCESS -> queue_ok cfg s').
Proof.
  revert i s. induction rules as [|r rules IH]; intros i s Hok; cbn [add_encrypt_rules]; [by apply runs_ret|].
  apply runs_bind. eapply runs_mono; [by apply add_encrypt_rule_ok|]. intros [res r'] s1 Hs1. cbn [fst] in Hs1.
  case_decide; [|by apply runs_ret]. apply runs_bind. eapply runs_mono; [by apply IH, Hs1|].
  intros [res2 rs] s2 Hs2. by apply runs_ret.
Qed.

(** Every rule gets an association and is otherwise kept. *)
Lemma add_encrypt_entries_ok lookup rules nb s :
  (1024 <= polls)%nat -> idle cfg s -> 0 <= nb <= zlen rules ->
  runs (add_encrypt_entries polls lookup cfg rules nb) s (fun x s' => x.1 = DOCA_SUCCESS ->
    idle cfg s' /\ length x.2 = length rules /\
    forall k r, Z.of_nat k < nb -> rules !! k = Some r -> exists sa, x.2 !! k = Some (set_e_sa sa r) /\
      configured cfg (Z.of_nat k) (set_e_sa sa r) (calls s')).
Proof.
  intros Hpolls Hid Hnb.
  unfold add_encrypt_entries. apply runs_bind. eapply runs_mono; [by apply reset_ok|]. intros [] s1 Hid1.
  apply runs_bind. eapply runs_mono; [by apply reset_ok|]. intros [] s2 [Hok2 _].
  destruct (Z.ltb_spec (zlen rules) nb); [lia|].
  destruct (add_encrypt_rules_ok lookup nb (take (Z.to_nat nb) rules) 0 s2 Hok2) as ([res rs] & s3 & E & Hs3).
  apply runs_bind. exists (res, rs), s3. split; [done|]. cbn [fst] in Hs3. case_decide as Hr; [|by apply runs_ret].
  subst res. destruct (add_encrypt_rules_configured _ _ _ _ _ _ _ _ E) as (_ & Hl & Hc).
  apply runs_bind.
  destruct (drain_both polls cfg Hpolls s3 (Hs3 eq_refl)) as (r4 & s4 & E4 & Hs4).
  exists r4, s4. split; [done|]. apply runs_ret. cbn [fst snd]. intros ->. split; [by apply Hs4|].
  rewrite length_take in Hl. split; [rewrite length_app, length_drop; lia|].
  intros k r Hk Hr. pose proof (lookup_lt_Some _ _ _ Hr).
  destruct (Hc k r) as (sa & Hsa & Hcfg); [rewrite lookup_take, decide_True by lia; done|].
  exists sa. rewrite lookup_app_l by lia. split; [done|]. eapply configured_mono; [|exact Hcfg].
  revert E4. apply grows_or_return; intros ?; apply grows_drain.
Qed.

(** The encryption rules of the configuration file are added to the last
    one, and there the index in packets is the place in the array.  On hardware
    that completes entries when asked the insertion ends (1024 polls are enough
    for any number of rules, the queues never hold more than 511 entries of a
    status); and if it reports success, for every rule there are an entry that
    marks its five-tuple with the rule's place in the array, an association
    under that number, and the entry that encrypts packets with the mark, and no
    entry is left waiting. *)
Theorem config_encrypt_rules_installed lookup rules nb s :
  (1024 <= polls)%nat -> idle cfg s -> 0 <= nb <= zlen rules ->
  exists res rs s', add_encrypt_entries polls lookup cfg rules nb s = Some ((res, rs), s') /\
    (res = DOCA_SUCCESS ->
       idle cfg s' /\ length rs = length rules /\
       forall i r, 0 <= i < nb -> rd rs i = Some r -> configured cfg i r (calls s')).
Proof.
  intros Hpolls Hid Hnb. destruct (add_encrypt_entries_ok lookup rules nb s Hpolls Hid Hnb) as ([res rs] & s' & E & HQ).
  exists res, rs, s'. split; [done|]. intros Hr. destruct (HQ Hr) as (Hid' & Hl & Hc). split; [done|]. split; [done|].
  intros i r Hi Hrd. unfold rd in Hrd. rewrite decide_True in Hrd by lia.
  destruct (lookup_lt_is_Some_2 rules (Z.to_nat i)) as [r0 Hr0]; [lia|].
  destruct (Hc (Z.to_nat i) r0 ltac:(lia) Hr0) as (sa & Hsa & Hcfg). cbn [snd] in Hsa. rewrite Hrd in Hsa. injection Hsa as ->.
  by rewrite Z2Nat.id in Hcfg by lia.
Qed.
End Ends.
End Configured.

(** ** IPv6 sources *)

Section Ipv6.
Context {T : Type} `{Ip6HashLaws T} `{HW : Hardware}.

(** A successful call for an IPv6 rule added the entry of the five tuple with
    the position of the destination. *)
Lemma five_tuple_ipv6_called lookup port r nb i s s' :
  e_l3_type r = L3_IP6 -> add_five_tuple_match_entry lookup port r nb i s = Some (DOCA_SUCCESS, s') ->
  exists f, PipeAddEntry (get_pipe_for_rule r false) (five_tuple_match r (lookup (ip6_dst_ip r)))
    (Some (GwActions (u32 (Z.lor (2 ^ 30) i)) 0 0 0 [] 0)) f hairpin_status ∈ calls s'.
Proof.
  intros Hl3 E. unfold add_five_tuple_match_entry in E. rewrite Hl3 in E.
  rewrite !(decide_True (P := L3_IP6 = L3_IP6)) in E by done.
  apply or_return_inv in E as (r7 & s7 & _ & [[-> E]|(? & ? & ?)]); [|congruence].
  apply ST_bind_inv in E as (f & s8 & _ & E). apply add_counted_called in E. by exists f.
Qed.

(** IPv6 rules that differ in the source only cannot be told apart.  The
    source is matched in a first pipe that writes "source IP unique ID" into the
    metadata, and the five-tuple pipe matches that number; but the code looks up
    the destination.  So two rules with one destination, the same ports and
    protocol, and different sources - to which the table does give different
    numbers - put the same match into the same pipe, with different marks. *)
Theorem ipv6_sources_not_told_apart (t : T) port r1 r2 nb i1 i2 s1 s1' s2 s2' :
  e_l3_type r1 = L3_IP6 -> e_l3_type r2 = L3_IP6 -> e_protocol r1 = e_protocol r2 ->
  e_src_port r1 = e_src_port r2 -> e_dst_port r1 = e_dst_port r2 ->
  ip6_dst_ip r1 = ip6_dst_ip r2 -> ip6_src_ip r1 <> ip6_src_ip r2 ->
  0 <= h6_lookup t (ip6_src_ip r1) ->
  add_five_tuple_match_entry (h6_lookup t) port r1 nb i1 s1 = Some (DOCA_SUCCESS, s1') ->
  add_five_tuple_match_entry (h6_lookup t) port r2 nb i2 s2 = Some (DOCA_SUCCESS, s2') ->
  h6_lookup t (ip6_src_ip r1) <> h6_lookup t (ip6_src_ip r2) /\
  exists pipe m f1 f2,
    PipeAddEntry pipe m (Some (mark i1)) f1 hairpin_status ∈ calls s1' /\
    PipeAddEntry pipe m (Some (mark i2)) f2 hairpin_status ∈ calls s2'.
Proof.
  intros H1 H2 Hp Hsp Hdp Hd Hs Ht E1 E2. split.
  - intros Heq. by apply Hs, (h6_unique t).
  - apply five_tuple_ipv6_called in E1 as [f1 E1]; [|done]. apply five_tuple_ipv6_called in E2 as [f2 E2]; [|done].
    exists (get_pipe_for_rule r1 false), (five_tuple_match r1 (h6_lookup t (ip6_dst_ip r1))), f1, f2. split; [done|].
    replace (get_pipe_for_rule r1 false) with (get_pipe_for_rule r2 false)
      by (unfold get_pipe_for_rule; by rewrite H1, H2, Hp).
    replace (five_tuple_match r1 (h6_lookup t (ip6_dst_ip r1))) with (five_tuple_match r2 (h6_lookup t (ip6_dst_ip r2)));
      [done|]. unfold five_tuple_match. by rewrite H1, H2, Hp, Hsp, Hdp, Hd.
Qed.
End Ipv6.

Definition sample_ip6 (src : Z) : gw_encrypt_rule :=
  GwEnc L3_IP6 L4_UDP (replicate 15 254 ++ [src] ++ replicate 16 1) 1000 2000 L3_NONE (zeros 16) 5 0 None sa_attrs0.
Definition sample_table : list bytes := [ip6_src_ip (sample_ip6 7); ip6_dst_ip (sample_ip6 7); ip6_src_ip (sample_ip6 8)].
Definition hw0 : hw_state := HwState [] status0 status0.

Lemma ipv6_sources_not_told_apart_witness :
  exists s1 s2,
    @add_five_tuple_match_entry (hw_ok sample_cfg) (h6_lookup sample_table) unsecured_port (sample_ip6 7) 2 0 hw0 =
      Some (DOCA_SUCCESS, s1) /\
    @add_five_tuple_match_entry (hw_ok sample_cfg) (h6_lookup sample_table) unsecured_port (sample_ip6 8) 2 1 s1 =
      Some (DOCA_SUCCESS, s2) /\
    h6_lookup sample_table (ip6_src_ip (sample_ip6 7)) <> h6_lookup sample_table (ip6_src_ip (sample_ip6 8)) /\
    exists pipe m f1 f2,
      PipeAddEntry pipe m (Some (mark 0)) f1 hairpin_status ∈ calls s1 /\
      PipeAddEntry pipe m (Some (mark 1)) f2 hairpin_status ∈ calls s2.
Proof.
  assert (exists s1 s2,
    @add_five_tuple_match_entry (hw_ok sample_cfg) (h6_lookup sample_table) unsecured_port (sample_ip6 7) 2 0 hw0 =
      Some (DOCA_SUCCESS, s1) /\
    @add_five_tuple_match_entry (hw_ok sample_cfg) (h6_lookup sample_table) unsecured_port (sample_ip6 8) 2 1 s1 =
      Some (DOCA_SUCCESS, s2)) as (s1 & s2 & E1 & E2)
    by (do 2 eexists; split; vm_compute; reflexivity).
  exists s1, s2. split; [exact E1|]. split; [exact E2|].
  apply (@ipv6_sources_not_told_apart (list bytes) _ _ (hw_ok sample_cfg) sample_table unsecured_port
           (sample_ip6 7) (sample_ip6 8) 2 0 1 hw0 s1 s1 s2 eq_refl eq_refl eq_refl eq_refl eq_refl eq_refl);
    [by vm_compute; intros [=] | by vm_compute | exact E1 | exact E2].
Defined.

(** ** The theorems at concrete policies *)

Lemma shape_start :
  Forall (fun r => length (e_addrs r) = 32%nat /\ length (e_encap_dst r) = 16%nat) (g_encrypt_rules start) /\
  Forall (fun r => length (d_dst r) = 16%nat) (g_decrypt_rules start).
Proof. split; apply Forall_replicate; done. Qed.



Lemma acceptable_sample dir : dir = POLICY_DIR_OUT \/ dir = POLICY_DIR_IN -> acceptable (sample_out dir).
Proof. intros Hd. split; [done|]. do 3 eexists. apply sample_good. Qed.

Lemma count_replicate d n :
  count_dir d (replicate n (sample_out d)) = Z.of_nat n.
Proof.
  induction n as [|n IH]; [done|]. cbn [replicate]. rewrite count_dir_cons, IH, decide_True by done. lia.
Qed.

Lemma count_replicate_other d d' n : d' <> d -> count_dir d (replicate n (sample_out d')) = 0.
Proof.
  intros Hd. induction n as [|n IH]; [done|]. cbn [replicate]. rewrite count_dir_cons, IH, decide_False by done. lia.
Qed.

Lemma policies_accepted_witness :
  exists g', @handle_policies _ _ (hw_ok sample_cfg) 1024 sample_cfg (replicate 1024 (sample_out 1)) start =
      Some (DOCA_SUCCESS, g') /\ rules_inv g' /\
    nb_encrypted_rules g' = MAX_NB_RULES /\ nb_rules g' = nb_rules start + Z.of_nat (length (replicate 1024 (sample_out 1))) /\
    @handle_policies _ _ (hw_ok sample_cfg) 1024 sample_cfg (replicate 1024 (sample_out 1) ++ [sample_out 1]) start =
      Some (DOCA_ERROR_BAD_STATE, g').
Proof.
  apply (@policies_accepted _ _ 1024 sample_cfg (hw_ok sample_cfg) _ _ (replicate 1024 (sample_out 1)) (sample_out 1) start).
  - lia.
  - apply start_ready.
  - apply Forall_replicate, acceptable_sample. by left.
  - unfold fills. by rewrite (count_replicate POLICY_DIR_OUT), (count_replicate_other POLICY_DIR_IN 1).
  - reflexivity.
Defined.

(** 1024 policies out, then one in: the packets of the last rule carry 1024. *)
Lemma decrypt_index_mismatch_witness :
  exists g' r m a,
    @handle_policies _ _ (hw_ok sample_cfg) 1024 sample_cfg (replicate 1024 (sample_out 1) ++ [sample_out 0]) start =
      Some (DOCA_SUCCESS, g') /\
    rd (g_decrypt_rules g') 0 = Some r /\
    PipeAddEntry decrypt_ipv4_pipe m (Some a) DOCA_FLOW_NO_WAIT crypt_status ∈ calls (hw g') /\
    secured_index (a_pkt_meta a) = 1024 /\ rd (g_decrypt_rules g') (secured_index (a_pkt_meta a)) = None.
Proof.
  assert (Hin : count_dir POLICY_DIR_IN (replicate 1024 (sample_out 1)) = 0)
    by (by apply (count_replicate_other POLICY_DIR_IN 1)).
  assert (Hout : count_dir POLICY_DIR_OUT (replicate 1024 (sample_out 1)) = 1024)
    by (by rewrite (count_replicate POLICY_DIR_OUT)).
  destruct (@decrypt_index_mismatch _ _ 1024 sample_cfg (hw_ok sample_cfg) _ _ (replicate 1024 (sample_out 1)) (sample_out 0)
    (10, 0, 0, 1) (10, 0, 0, 2) (192, 168, 0, 9) start) as (g' & r & m & a & E & Hr & _ & Hc & _ & Hi & Hn & _).
  - lia.
  - apply start_ready.
  - apply start_free.
  - reflexivity.
  - reflexivity.
  - apply Forall_replicate, acceptable_sample. by left.
  - apply sample_good.
  - reflexivity.
  - rewrite Hout. unfold MAX_NB_RULES. lia.
  - rewrite Hin. unfold MAX_NB_RULES. lia.
  - exists g', r, m, a. rewrite Hin, Hout in *. repeat (split; [assumption|]). assumption.
Defined.

Lemma config_encrypt_rules_installed_witness :
  exists res rs s',
    @add_encrypt_entries (hw_ok sample_cfg) 1024 (h6_lookup sample_table) sample_cfg [sample_ip6 7; sample_ip6 8] 2 hw0 =
      Some ((res, rs), s') /\
    (res = DOCA_SUCCESS -> @idle sample_cfg (hw_ok sample_cfg) _ s' /\ length rs = 2%nat /\
       forall i r, 0 <= i < 2 -> rd rs i = Some r -> configured sample_cfg i r (calls s')).
Proof.
  apply (@config_encrypt_rules_installed (hw_ok sample_cfg) 1024 sample_cfg _ (h6_lookup sample_table)
    [sample_ip6 7; sample_ip6 8] 2 hw0).
  - lia.
  - apply (start_ready sample_cfg).
  - cbn. lia.
Defined.

(** The insertion of these two rules does succeed. *)
Example config_rules_succeed :
  exists rs s', @add_encrypt_entries (hw_ok sample_cfg) 4 (h6_lookup sample_table) sample_cfg
    [sample_ip6 7; sample_ip6 8] 2 hw0 = Some ((DOCA_SUCCESS, rs), s').
Proof. do 2 eexists. vm_compute. reflexivity. Qed.

(** In switch mode the two statuses share the queue of one port, so that the
    check of each against the depth of 512 does not bound the queue: 300 IPv4
    rules leave 600 entries in it. *)
Definition switch_cfg : gw_config :=
  GwConfig (Config true true IPSEC_SECURITY_GW_TRANSPORT 1) IPSEC_SECURITY_GW_SWITCH IPSEC_SECURITY_GW_ESP_OFFLOAD_NONE false.

Example switch_queue_overfull :
  exists rs s', @add_encrypt_rules (hw_ok switch_cfg) (h6_lookup sample_table) switch_cfg 400 0
      (replicate 300 (policy_encrypt_rule (sample_out 1) (10, 0, 0, 1) (10, 0, 0, 2) (192, 168, 0, 9) encrypt_rule0 None)) hw0 =
      Some ((DOCA_SUCCESS, rs), s') /\
    waiting_on switch_port (queue_of switch_cfg (calls s')) = 600%nat.
Proof. do 2 eexists. split; [vm_compute; reflexivity|]. vm_compute. reflexivity. Qed.

(** A gateway that is stopped while no policy waits reports an error, because
    the result of the last read is the result of the loop. *)
Example idle_gateway_fails {T} `{Ip6Hash T} polls cfg `{HW : Hardware} n (g : @gw_state T) :
  socket_conf cfg = true -> policy_loop polls cfg (S n) DOCA_SUCCESS [] g = Some (DOCA_ERROR_AGAIN, g).
Proof.
  intros Hs.
  assert (Hstep : forall turns r, policy_loop polls cfg (S turns) r [] g = policy_loop polls cfg turns DOCA_ERROR_AGAIN [] g)
    by (intros turns r; cbn [policy_loop]; by rewrite Hs).
  rewrite Hstep. induction n as [|n IH]; [done|]. by rewrite Hstep.
Qed.
