(* ===== verification/Proc.v ===== *)
(** * Two programs and a channel

    Several applications run as a pair: a program on the host and one on the
    DPU, which exchange messages over a DOCA communication channel and, in the
    DMA copy application, reach into each other's memory.  A program is a tree
    of its interactions ([prog]): messages, library calls, memory, files, DMA.
    [pstep] is what one interaction may do, [sstep] runs the two programs in any
    interleaving.  [wp] is the weakest precondition of one program for all
    answers of its environment; [sys_ok] composes two of them.

    A receive waits: the loops of the sources that call
    doca_comm_channel_ep_recvfrom until it no longer answers DOCA_ERROR_AGAIN
    are one interaction. *)

From stdpp Require Import gmap.
From S2P Require Import Prelude.
#[local] Open Scope Z_scope.

(** ** Programs *)

Section Programs.
Context {C : Type}.

Inductive prog (A : Type) : Type :=
| Ret (a : A)
| Undef                                                    (* undefined behaviour *)
| Recv (cap : Z) (k : doca_error -> list Z -> prog A)      (* at most [cap] bytes *)
| Send (m : list Z) (k : doca_error -> prog A)
| Call (c : C) (k : doca_error -> Z -> list Z -> prog A)   (* code, number and bytes it returns *)
| Malloc (n : Z) (k : option Z -> prog A)
| Free (p : Z) (k : prog A)
| Load (p n : Z) (k : list Z -> prog A)
| Store (p : Z) (b : list Z) (k : prog A)
| Access (k : bool -> prog A)                              (* access: does the program's file exist *)
| Fopen (w : bool) (k : bool -> prog A)                    (* the program's file, to write or to read *)
| Fsize (k : option Z -> prog A)                           (* fseek to its end and ftell *)
| Fread (n : Z) (k : list Z -> prog A)
| Fwrite (b : list Z) (k : Z -> prog A)                    (* how many bytes were written *)
| Fclose (c : C) (k : doca_error -> prog A)                (* fclose of a stream that was written *)
| Fcreate (k : bool -> prog A)                             (* open with O_CREAT: what the file holds stays *)
| Fput (off : Z) (b : list Z) (k : Z -> prog A)            (* write at the file offset *)
| Fmap (c : C) (k : doca_error -> Z -> list Z -> prog A)   (* mmap of the file: its address and content *)
| Fremove (k : bool -> prog A)                             (* remove *)
| DmaRead (p n : Z) (k : doca_error -> list Z -> prog A)   (* from the memory of the other side *)
| DmaWrite (p : Z) (b : list Z) (k : doca_error -> prog A).

#[global] Arguments Ret {_}. #[global] Arguments Undef {_}. #[global] Arguments Recv {_}.
#[global] Arguments Send {_}. #[global] Arguments Call {_}. #[global] Arguments Malloc {_}.
#[global] Arguments Free {_}. #[global] Arguments Load {_}. #[global] Arguments Store {_}.
#[global] Arguments Access {_}. #[global] Arguments Fsize {_}.
#[global] Arguments Fopen {_}. #[global] Arguments Fread {_}. #[global] Arguments Fwrite {_}.
#[global] Arguments Fclose {_}. #[global] Arguments Fcreate {_}. #[global] Arguments Fput {_}. #[global] Arguments Fmap {_}. #[global] Arguments Fremove {_}.
#[global] Arguments DmaRead {_}. #[global] Arguments DmaWrite {_}.

#[global] Instance prog_ret : MRet prog := @Ret.
#[global] Instance prog_bind : MBind prog := fun A B f =>
  fix bind p :=
    match p with
    | Ret a => f a
    | Undef => Undef
    | Recv cap k => Recv cap (fun e m => bind (k e m))
    | Send m k => Send m (fun e => bind (k e))
    | Call c k => Call c (fun e n b => bind (k e n b))
    | Malloc n k => Malloc n (fun r => bind (k r))
    | Free p k => Free p (bind k)
    | Load p n k => Load p n (fun b => bind (k b))
    | Store p b k => Store p b (bind k)
    | Access k => Access (fun r => bind (k r))
    | Fopen w k => Fopen w (fun r => bind (k r))
    | Fsize k => Fsize (fun r => bind (k r))
    | Fread n k => Fread n (fun b => bind (k b))
    | Fwrite b k => Fwrite b (fun n => bind (k n))
    | Fclose c k => Fclose c (fun e => bind (k e))
    | Fcreate k => Fcreate (fun r => bind (k r))
    | Fput off b k => Fput off b (fun n => bind (k n))
    | Fmap c k => Fmap c (fun e a b => bind (k e a b))
    | Fremove k => Fremove (fun r => bind (k r))
    | DmaRead p n k => DmaRead p n (fun e b => bind (k e b))
    | DmaWrite p b k => DmaWrite p b (fun e => bind (k e))
    end.

Definition call (c : C) : prog doca_error := Call c (fun e _ _ => Ret e).
Definition call_num (c : C) : prog (doca_error * Z) := Call c (fun e n _ => Ret (e, n)).
Definition call_bytes (c : C) : prog (doca_error * list Z) := Call c (fun e _ b => Ret (e, b)).
Definition recv (cap : Z) : prog (doca_error * list Z) := Recv cap (fun e m => Ret (e, m)).
Definition send (m : list Z) : prog doca_error := Send m Ret.
Definition free (p : Z) : prog unit := Free p (Ret tt).
Definition load (p n : Z) : prog (list Z) := Load p n Ret.
Definition store (p : Z) (b : list Z) : prog unit := Store p b (Ret tt).
End Programs.
Arguments prog : clear implicits.

(** [if (result != DOCA_SUCCESS) ...] *)
Definition ok (e : doca_error) : bool := match e with DOCA_SUCCESS => true | _ => false end.

(** DOCA_ERROR_PROPAGATE *)
Definition propagate (r t : doca_error) : doca_error := if ok r then t else r.

(** ** What an interaction does

    Fwrite hands bytes to a stream, which stores them when it likes; a file is
    what it will hold once the stream is closed.  The bytes that are still in the
    stream's buffer may be lost when [Fclose] fails to store them, and only
    then: what the file holds is a prefix. *)

Section Semantics.
Context {C R : Type}.

(** The state of one side: its file, its memory, what it holds of the libraries
    (and open files), and the bytes that last crossed the bus. *)
Record side := Side { fs : option (list Z); mem : gmap Z (list Z); held : list R; dma : option (list Z) }.

Definition set_fs (f : option (list Z)) (s : side) : side := Side f (mem s) (held s) (dma s).
Definition set_mem (m : gmap Z (list Z)) (s : side) : side := Side (fs s) m (held s) (dma s).
Definition set_held (h : list R) (s : side) : side := Side (fs s) (mem s) h (dma s).
Definition set_dma (b : list Z) (s : side) : side := Side (fs s) (mem s) (held s) (Some b).

(** Which resource a call acquires when it succeeds and which it releases, what
    it may return beside its code, the codes it may return when nothing goes
    wrong, the calls assumed not to go wrong, and whether anything may. *)
Record world := World {
  same : R -> R -> bool; acq : C -> option R; rel : C -> option R; outs : C -> Z -> list Z -> Prop;
  fine : C -> doca_error -> Prop; must : C -> bool; good : bool; file_open : R
}.
Context (W : world).

Fixpoint remove1 (r : R) (l : list R) : list R :=
  match l with
  | [] => []
  | x :: l' => if same W x r then l' else x :: remove1 r l'
  end.

Definition after_held (c : C) (e : doca_error) (h : list R) : list R :=
  let h := match rel W c with Some r => remove1 r h | None => h end in
  match acq W c with Some r => if ok e then r :: h else h | None => h end.
Definition after (c : C) (e : doca_error) (s : side) : side := set_held (after_held c e (held s)) s.

Definition usable_held (c : C) (h : list R) : bool :=
  match rel W c with Some r => existsb (fun x => same W x r) h | None => true end.
Definition usable (c : C) (s : side) : bool := usable_held c (held s).
Definition may (c : C) (e : doca_error) : Prop := fine W c e \/ good W = false /\ must W c = false.
Definition fails (e : doca_error) : Prop := good W = false /\ e <> DOCA_SUCCESS.

(** Writing at an offset: bytes behind it stay, a gap before it reads as zeros. *)
Definition write_at (off : nat) (b f : list Z) : list Z :=
  take off f ++ replicate (off - length f) 0 ++ b ++ drop (off + length b) f.

Inductive label := Tau | In (m : list Z) | Out (m : list Z) | Rd (p n : Z) (b : list Z) | Wr (p : Z) (b : list Z).

(** Overwriting the start of a buffer. *)
Definition overwrite (b c : list Z) : list Z := b ++ drop (length b) c.

Definition pstep {A} (p : prog C A) (s : side) (l : label) (p' : prog C A) (s' : side) : Prop :=
  match p with
  | Ret _ | Undef => False
  | Recv cap k => s' = s /\
      ((exists m, l = In m /\ Z.of_nat (length m) <= cap /\ p' = k DOCA_SUCCESS m) \/
       (l = Tau /\ exists e, fails e /\ p' = k e []))
  | Send m k => s' = s /\ (l = Out m /\ p' = k DOCA_SUCCESS \/ l = Tau /\ exists e, fails e /\ p' = k e)
  | Call c k => l = Tau /\ usable c s = true /\
      exists e n b, may c e /\ outs W c n b /\ p' = k e n b /\ s' = after c e s
  | Malloc n k => l = Tau /\
      ((exists a b, mem s !! a = None /\ 0 < a < 2 ^ 64 /\ Z.of_nat (length b) = n /\
          p' = k (Some a) /\ s' = set_mem (<[a := b]> (mem s)) s) \/
       (good W = false /\ p' = k None /\ s' = s))
  | Free a k => l = Tau /\ is_Some (mem s !! a) /\ p' = k /\ s' = set_mem (delete a (mem s)) s
  | Load a n k => l = Tau /\ s' = s /\ exists b, mem s !! a = Some b /\ 0 <= n <= Z.of_nat (length b) /\
      p' = k (take (Z.to_nat n) b)
  | Store a b k => l = Tau /\ exists c, mem s !! a = Some c /\ (length b <= length c)%nat /\ p' = k /\
      s' = set_mem (<[a := overwrite b c]> (mem s)) s
  | Access k => l = Tau /\ s' = s /\ p' = k (bool_decide (is_Some (fs s)))
  | Fopen w k => l = Tau /\
      ((w = true /\ p' = k true /\ s' = set_fs (Some []) (set_held (file_open W :: held s) s)) \/
       (w = false /\ is_Some (fs s) /\ p' = k true /\ s' = set_held (file_open W :: held s) s) \/
       ((good W = false \/ w = false /\ fs s = None) /\ p' = k false /\ s' = s))
  | Fsize k => l = Tau /\ s' = s /\ exists f, fs s = Some f /\
      (p' = k (Some (Z.of_nat (length f))) \/ good W = false /\ p' = k None)
  | Fread n k => l = Tau /\ s' = s /\ exists f b, fs s = Some f /\ b `prefix_of` f /\ Z.of_nat (length b) <= n /\
      (good W = true -> b = take (Z.to_nat n) f) /\ p' = k b
  | Fwrite b k => l = Tau /\ exists f n, fs s = Some f /\ (n <= length b)%nat /\ (good W = true -> n = length b) /\
      p' = k (Z.of_nat n) /\ s' = set_fs (Some (f ++ take n b)) s
  | Fclose c k => l = Tau /\ usable c s = true /\ exists e f n, may c e /\ fs s = Some f /\ (n <= length f)%nat /\
      (e = DOCA_SUCCESS -> n = length f) /\ p' = k e /\ s' = after c e (set_fs (Some (take n f)) s)
  | Fcreate k => l = Tau /\
      ((p' = k true /\ s' = set_fs (Some (default [] (fs s))) (set_held (file_open W :: held s) s)) \/
       (good W = false /\ p' = k false /\ s' = s))
  | Fput off b k => l = Tau /\ exists f n, fs s = Some f /\ (n <= length b)%nat /\ (good W = true -> n = length b) /\
      p' = k (Z.of_nat n) /\ s' = set_fs (Some (write_at (Z.to_nat off) (take n b) f)) s
  | Fmap c k => l = Tau /\ usable c s = true /\
      exists e n b f, may c e /\ outs W c n b /\ fs s = Some f /\ p' = k e n f /\ s' = after c e s
  | Fremove k => l = Tau /\
      ((p' = k true /\ s' = set_fs None s) \/ (good W = false /\ p' = k false /\ s' = s))
  | DmaRead a n k =>
      (exists b, l = Rd a n b /\ p' = k DOCA_SUCCESS b /\ s' = set_dma b s) \/
      (l = Tau /\ s' = s /\ exists e, fails e /\ p' = k e [])
  | DmaWrite a b k =>
      (l = Wr a b /\ p' = k DOCA_SUCCESS /\ s' = set_dma b s) \/
      (l = Tau /\ s' = s /\ exists e, fails e /\ p' = k e)
  end.

(** What a program does next is defined: it has ended, waits for a message, or
    its interaction can take place.  An access outside a buffer, a release of
    what is not held and [Undef] cannot. *)
Definition proceeds {A} (p : prog C A) (s : side) : Prop :=
  (exists a, p = Ret a) \/ (exists cap k, p = Recv cap k) \/ exists l p' s', pstep p s l p' s'.

(** ** Two sides *)

Definition sent (l : label) : list (list Z) := match l with Out m => [m] | _ => [] end.
Definition got (l : label) : list (list Z) := match l with In m => [m] | _ => [] end.
Definition is_dma (l : label) : bool := match l with Rd _ _ _ | Wr _ _ => true | _ => false end.

(** The steps of one side, with an environment that may do anything. *)
Inductive steps {A} : prog C A -> side -> list label -> prog C A -> side -> Prop :=
| steps_nil p s : steps p s [] p s
| steps_cons p s l p1 s1 ls p' s' : pstep p s l p1 s1 -> steps p1 s1 ls p' s' -> steps p s (l :: ls) p' s'.
Definition received (ls : list label) : list (list Z) := flat_map got ls.
Definition transmitted (ls : list label) : list (list Z) := flat_map sent ls.

(** The host's and the DPU's program and state, and the messages under way. *)
Record sys (A B : Type) := Sys {
  hp : prog C A; hs : side; dp : prog C B; ds : side; to_dpu : list (list Z); to_host : list (list Z)
}.
#[global] Arguments Sys {_ _}. #[global] Arguments hp {_ _}. #[global] Arguments hs {_ _}.
#[global] Arguments dp {_ _}. #[global] Arguments ds {_ _}. #[global] Arguments to_dpu {_ _}. #[global] Arguments to_host {_ _}.

(** DMA at an address where the host has a buffer reads or writes the buffer;
    elsewhere the bytes come from, or go to, memory that is nobody's. *)
Definition dma_read (a n : Z) (b : list Z) (s s' : side) : Prop :=
  Z.of_nat (length b) = n /\ (forall c, mem s !! a = Some c -> take (length c) b = take (Z.to_nat n) c) /\
  s' = set_dma b s.
Definition dma_write (a : Z) (b : list Z) (s : side) : side :=
  set_dma b (match mem s !! a with Some c => set_mem (<[a := overwrite b c]> (mem s)) s | None => s end).

(** Only the DPU uses DMA. *)
Inductive sstep {A B} : sys A B -> sys A B -> Prop :=
| s_host y l p' s' dh' :
    pstep (hp y) (hs y) l p' s' -> is_dma l = false -> to_host y = got l ++ dh' ->
    sstep y (Sys p' s' (dp y) (ds y) (to_dpu y ++ sent l) dh')
| s_dpu y l p' s' hd' :
    pstep (dp y) (ds y) l p' s' -> is_dma l = false -> to_dpu y = got l ++ hd' ->
    sstep y (Sys (hp y) (hs y) p' s' hd' (to_host y ++ sent l))
| s_read y a n b p' s' s1 :
    pstep (dp y) (ds y) (Rd a n b) p' s' -> dma_read a n b (hs y) s1 ->
    sstep y (Sys (hp y) s1 p' s' (to_dpu y) (to_host y))
| s_write y a b p' s' :
    pstep (dp y) (ds y) (Wr a b) p' s' ->
    sstep y (Sys (hp y) (dma_write a b (hs y)) p' s' (to_dpu y) (to_host y)).

(** Every run, whatever the interleaving and the answers, is finite and ends in a
    state with [Q]. *)
Inductive always_ends {A B} (Q : sys A B -> Prop) (y : sys A B) : Prop :=
| ends_now : (forall y', ~ sstep y y') -> Q y -> always_ends Q y
| ends_later : (exists y', sstep y y') -> (forall y', sstep y y' -> always_ends Q y') -> always_ends Q y.

(** ** Weakest preconditions *)

(** What one side assumes: the messages that may come after those it received
    and sent ([rm]), what the other side may do to its memory ([rly]), when it
    may wait ([blk]); what it keeps ([inv]) and promises about its own DMA. *)
Record contract := Contract {
  inv : side -> list (list Z) -> list (list Z) -> Prop;
  rm : list (list Z) -> list (list Z) -> list Z -> Prop;
  rly : list (list Z) -> list (list Z) -> side -> side -> Prop;
  blk : list (list Z) -> list (list Z) -> Prop;
  gd_read : side -> list (list Z) -> list (list Z) -> Z -> Z -> Prop;
  gd_write : side -> list (list Z) -> list (list Z) -> Z -> list Z -> Prop
}.

Record contract_ok (K : contract) : Prop := {
  rly_refl : forall i o s, rly K i o s s;
  rly_trans : forall i o s1 s2 s3, rly K i o s1 s2 -> rly K i o s2 s3 -> rly K i o s1 s3
}.

Context (K : contract).

Fixpoint wp {A} (p : prog C A) (Q : A -> side -> list (list Z) -> list (list Z) -> Prop)
    (s0 : side) (i o : list (list Z)) : Prop :=
  forall s, rly K i o s0 s -> inv K s i o /\
  match p with
  | Ret a => Q a s i o
  | Undef => False
  | Recv cap k => (good W = true -> blk K i o) /\
      (forall m, rm K i o m -> Z.of_nat (length m) <= cap /\ wp (k DOCA_SUCCESS m) Q s (i ++ [m]) o) /\
      (forall e, fails e -> wp (k e []) Q s i o)
  | Send m k => wp (k DOCA_SUCCESS) Q s i (o ++ [m]) /\ (forall e, fails e -> wp (k e) Q s i o)
  | Call c k => usable c s = true /\
      (forall e n b, may c e -> outs W c n b -> wp (k e n b) Q (after c e s) i o)
  | Malloc n k => 0 <= n /\ (exists a, mem s !! a = None /\ 0 < a < 2 ^ 64) /\
      (forall a b, mem s !! a = None -> 0 < a < 2 ^ 64 -> Z.of_nat (length b) = n ->
         wp (k (Some a)) Q (set_mem (<[a := b]> (mem s)) s) i o) /\
      (good W = false -> wp (k None) Q s i o)
  | Free a k => is_Some (mem s !! a) /\ wp k Q (set_mem (delete a (mem s)) s) i o
  | Load a n k => exists b, mem s !! a = Some b /\ 0 <= n <= Z.of_nat (length b) /\
      wp (k (take (Z.to_nat n) b)) Q s i o
  | Store a b k => exists c, mem s !! a = Some c /\ (length b <= length c)%nat /\
      wp k Q (set_mem (<[a := overwrite b c]> (mem s)) s) i o
  | Access k => wp (k (bool_decide (is_Some (fs s)))) Q s i o
  | Fopen w k =>
      (w = true -> wp (k true) Q (set_fs (Some []) (set_held (file_open W :: held s) s)) i o) /\
      (w = false -> is_Some (fs s) -> wp (k true) Q (set_held (file_open W :: held s) s) i o) /\
      (good W = false \/ w = false /\ fs s = None -> wp (k false) Q s i o)
  | Fsize k => exists f, fs s = Some f /\ wp (k (Some (Z.of_nat (length f)))) Q s i o /\
      (good W = false -> wp (k None) Q s i o)
  | Fread n k => 0 <= n /\ exists f, fs s = Some f /\
      forall b, b `prefix_of` f -> Z.of_nat (length b) <= n -> (good W = true -> b = take (Z.to_nat n) f) ->
        wp (k b) Q s i o
  | Fwrite b k => exists f, fs s = Some f /\
      forall n, (n <= length b)%nat -> (good W = true -> n = length b) ->
        wp (k (Z.of_nat n)) Q (set_fs (Some (f ++ take n b)) s) i o
  | Fclose c k => usable c s = true /\ exists f, fs s = Some f /\
      forall e n, may c e -> (n <= length f)%nat -> (e = DOCA_SUCCESS -> n = length f) ->
        wp (k e) Q (after c e (set_fs (Some (take n f)) s)) i o
  | Fcreate k => wp (k true) Q (set_fs (Some (default [] (fs s))) (set_held (file_open W :: held s) s)) i o /\
      (good W = false -> wp (k false) Q s i o)
  | Fput off b k => exists f, fs s = Some f /\
      forall n, (n <= length b)%nat -> (good W = true -> n = length b) ->
        wp (k (Z.of_nat n)) Q (set_fs (Some (write_at (Z.to_nat off) (take n b) f)) s) i o
  | Fmap c k => usable c s = true /\ exists f, fs s = Some f /\
      (forall e n b, may c e -> outs W c n b -> wp (k e n f) Q (after c e s) i o)
  | Fremove k => wp (k true) Q (set_fs None s) i o /\ (good W = false -> wp (k false) Q s i o)
  | DmaRead a n k => 0 <= n /\ gd_read K s i o a n /\
      (forall b, Z.of_nat (length b) = n -> wp (k DOCA_SUCCESS b) Q (set_dma b s) i o) /\
      (forall e, fails e -> wp (k e []) Q s i o)
  | DmaWrite a b k => gd_write K s i o a b /\ wp (k DOCA_SUCCESS) Q (set_dma b s) i o /\
      (forall e, fails e -> wp (k e) Q s i o)
  end.
End Semantics.
#[global] Arguments side : clear implicits.
#[global] Arguments world : clear implicits.
#[global] Arguments contract : clear implicits.
#[global] Arguments sys : clear implicits.
