(* ===== verification/ProcSpec.v ===== *)
(** * Two programs and a channel: proof rules

    The rules of [wp] (Proc.v) and the composition of two sides whose contracts
    fit ([compat]): [pair_ok] holds in every state that any interleaving reaches
    ([pair_reach]), the pair is never stuck ([pair_progress]), and it always
    stops ([sys_acc]). *)

From stdpp Require Import gmap relations.
From S2P Require Import Prelude Proc.
#[local] Open Scope Z_scope.

#[local] Ltac from_hyp := match goal with H : _ |- _ => solve [exact H | by apply H] end.

(** ** Programs that only call

    [hwp] follows what such a program holds. *)

Section Calls.
Context {C R : Type} (W : world C R).

Fixpoint hwp {A} (p : prog C A) (Q : A -> list R -> Prop) (h : list R) : Prop :=
  match p with
  | Ret a => Q a h
  | Call c k => usable_held W c h = true /\
      forall e n b, may W c e -> outs W c n b -> hwp (k e n b) Q (after_held W c e h)
  | _ => False
  end.

Lemma hwp_mono {A} (p : prog C A) (Q Q' : A -> list R -> Prop) h :
  (forall a h, Q a h -> Q' a h) -> hwp p Q h -> hwp p Q' h.
Proof using. intros HQ. revert h. induction p; intros h; cbn [hwp]; naive_solver. Qed.

Lemma hwp_bind {A B} (p : prog C A) (f : A -> prog C B) Q h :
  hwp p (fun a => hwp (f a) Q) h -> hwp (p ≫= f) Q h.
Proof using. revert h. induction p; intros h; cbn [hwp mbind prog_bind]; naive_solver. Qed.

Lemma hwp_call {A} c (k : doca_error -> prog C A) Q h :
  usable_held W c h = true -> (forall e, may W c e -> hwp (k e) Q (after_held W c e h)) -> hwp (call c ≫= k) Q h.
Proof using. intros Hu Hk. split; [done|]. intros e n b He _. by apply Hk. Qed.

Lemma hwp_call_num {A} c (k : doca_error * Z -> prog C A) Q h :
  usable_held W c h = true ->
  (forall e n b, may W c e -> outs W c n b -> hwp (k (e, n)) Q (after_held W c e h)) -> hwp (call_num c ≫= k) Q h.
Proof using. intros Hu Hk. split; [done|]. intros e n b He Ho. by eapply Hk. Qed.

Context (K : contract R).

(** Contracts that do not depend on what the side holds; their invariant only
    on its file and what crossed the bus. *)
Record framed : Prop := {
  f_ok : contract_ok K;
  f_inv : forall s s' i o, fs s' = fs s -> dma s' = dma s -> inv K s i o -> inv K s' i o;
  f_rly : forall h s s' i o, rly K i o s s' -> rly K i o (set_held h s) (set_held h s');
  f_held : forall s s' i o, rly K i o s s' -> held s' = held s;
  f_stable : forall s s' i o, rly K i o s s' -> inv K s i o -> inv K s' i o
}.
Context (HF : framed).

Lemma wp_hwp {A B} (p : prog C A) (P : A -> list R -> Prop) (k : A -> prog C B) Q s i o :
  hwp p P (held s) -> inv K s i o ->
  (forall a h' s1, rly K i o s s1 -> P a h' -> wp W K (k a) Q (set_held h' s1) i o) ->
  wp W K (p ≫= k) Q s i o.
Proof using HF.
  revert s. induction p; intros s0 Hp Hi Hk; cbn [hwp] in Hp; try done.
  - cbn. specialize (Hk a (held s0) s0 (rly_refl _ (f_ok HF) _ _ _) Hp). by destruct s0.
  - destruct Hp as [Hu Hp]. intros s Hr. split; [by eapply f_stable|].
    pose proof (f_held HF _ _ _ _ Hr) as Hh. split; [by unfold usable; rewrite Hh|].
    intros e n b He Ho. apply H.
    + cbn. rewrite Hh. by apply Hp.
    + apply (f_inv HF s); [done..|]. by apply (f_stable HF _ _ _ _ Hr).
    + intros a h' s1 Hr1 HP. specialize (Hk a h' (set_held (held s) s1)). apply Hk; [|done].
      eapply rly_trans; [apply HF|exact Hr|].
      apply (f_rly HF (held s)) in Hr1. by destruct s.
Qed.
End Calls.

Section Rules.
Context {C R : Type} (W : world C R) (K : contract R).
Context (HK : contract_ok K).

Notation post A := (A -> side R -> list (list Z) -> list (list Z) -> Prop).

Lemma wp_inv {A} (p : prog C A) Q s i o : wp W K p Q s i o -> inv K s i o.
Proof using HK. destruct p; intros H; by destruct (H s (rly_refl _ HK _ _ _)) as [? _]. Qed.

Lemma wp_rely {A} (p : prog C A) Q s s1 i o : wp W K p Q s i o -> rly K i o s s1 -> wp W K p Q s1 i o.
Proof using HK. destruct p; intros H Hr s2 Hr2; apply H; by eapply rly_trans. Qed.

Lemma wp_ret_inv {A} (a : A) (Q : post A) s i o : wp W K (Ret a) Q s i o -> inv K s i o /\ Q a s i o.
Proof using HK. intros H. apply (H s), HK. Qed.

(** A step of a program that has a precondition leads to one that has. *)
Lemma wp_step {A} (p p' : prog C A) Q s s' l i o :
  wp W K p Q s i o -> pstep W p s l p' s' ->
  (forall m, l = In m -> rm K i o m) -> (forall a n b, l = Rd a n b -> Z.of_nat (length b) = n) ->
  wp W K p' Q s' (i ++ got l) (o ++ sent l).
Proof using HK.
  intros Hp Hs Hm Hb.
  destruct p; cbn [pstep] in Hs; try done;
    destruct (Hp s (rly_refl _ HK _ _ _)) as [_ Hw]; cbn [wp] in Hw.
  - destruct Hs as [-> [(m & -> & ? & ->) | (-> & e & He & ->)]]; cbn [got sent]; rewrite ?app_nil_r.
    + by apply Hw, Hm.
    + by apply Hw.
  - destruct Hs as [-> [(-> & ->) | (-> & e & He & ->)]]; cbn [got sent]; rewrite ?app_nil_r; by apply Hw.
  - destruct Hs as (-> & _ & e & n & b & He & Ho & -> & ->). cbn [got sent]. rewrite !app_nil_r. by apply Hw.
  - destruct Hs as [-> [(a & b & ? & ? & ? & -> & ->) | (? & -> & ->)]]; cbn [got sent]; rewrite !app_nil_r; by apply Hw.
  - destruct Hs as (-> & _ & -> & ->). cbn [got sent]. rewrite !app_nil_r. by apply Hw.
  - destruct Hs as (-> & -> & b & Hl & _ & ->). cbn [got sent]. rewrite !app_nil_r.
    destruct Hw as (b' & Hl' & _ & Hw). rewrite Hl in Hl'. by injection Hl' as <-.
  - destruct Hs as (-> & c & Hl & _ & -> & ->). cbn [got sent]. rewrite !app_nil_r.
    destruct Hw as (c' & Hl' & _ & Hw). rewrite Hl in Hl'. by injection Hl' as <-.
  - destruct Hs as (-> & -> & ->). cbn [got sent]. by rewrite !app_nil_r.
  - destruct Hw as (Hw1 & Hw2 & Hw3).
    destruct Hs as [-> [(? & -> & ->) | [(? & ? & -> & ->) | (? & -> & ->)]]]; cbn [got sent]; rewrite !app_nil_r;
      [by apply Hw1|by apply Hw2|by apply Hw3].
  - destruct Hw as (f' & Hf' & Hw1 & Hw2). destruct Hs as (-> & -> & f & Hf & Hs). rewrite Hf in Hf'. injection Hf' as <-.
    cbn [got sent]. rewrite !app_nil_r. destruct Hs as [-> | (? & ->)]; [exact Hw1|by apply Hw2].
  - destruct Hs as (-> & -> & f & b & Hf & ? & ? & ? & ->). cbn [got sent]. rewrite !app_nil_r.
    destruct Hw as (_ & f' & Hf' & Hw). rewrite Hf in Hf'. injection Hf' as <-. by apply Hw.
  - destruct Hs as (-> & f & n & Hf & ? & ? & -> & ->). cbn [got sent]. rewrite !app_nil_r.
    destruct Hw as (f' & Hf' & Hw). rewrite Hf in Hf'. injection Hf' as <-. by apply Hw.
  - destruct Hs as (-> & _ & e & f & n & He & Hf & Hn & Hfull & -> & ->). cbn [got sent]. rewrite !app_nil_r.
    destruct Hw as (_ & f' & Hf' & Hw). rewrite Hf in Hf'. injection Hf' as <-. by apply Hw.
  - destruct Hs as [-> [(-> & ->) | (? & -> & ->)]]; cbn [got sent]; rewrite !app_nil_r; by apply Hw.
  - destruct Hs as (-> & f & n & Hf & ? & ? & -> & ->). cbn [got sent]. rewrite !app_nil_r.
    destruct Hw as (f' & Hf' & Hw). rewrite Hf in Hf'. injection Hf' as <-. by apply Hw.
  - destruct Hs as (-> & _ & e & n & b & f & He & Ho & Hf & -> & ->). cbn [got sent]. rewrite !app_nil_r.
    destruct Hw as (_ & f' & Hf' & Hw). rewrite Hf in Hf'. injection Hf' as <-. by eapply Hw.
  - destruct Hs as [-> [(-> & ->) | (? & -> & ->)]]; cbn [got sent]; rewrite !app_nil_r; by apply Hw.
  - destruct Hw as (_ & _ & Hw & Hw').
    destruct Hs as [(b & -> & -> & ->) | (-> & -> & e & ? & ->)]; cbn [got sent]; rewrite !app_nil_r;
      [by apply Hw, (Hb p)|by apply Hw'].
  - destruct Hw as (_ & Hw & Hw').
    destruct Hs as [(-> & -> & ->) | (-> & -> & e & ? & ->)]; cbn [got sent]; rewrite !app_nil_r;
      [by apply Hw|by apply Hw'].
Qed.

Lemma wp_mono {A} (p : prog C A) (Q Q' : post A) s i o :
  (forall a s i o, Q a s i o -> Q' a s i o) -> wp W K p Q s i o -> wp W K p Q' s i o.
Proof using.
  intros HQ. revert s i o. induction p; intros s0 i o Hp s Hr; destruct (Hp s Hr) as [Hi Hw]; (split; [exact Hi|]);
    cbn [wp] in *; naive_solver.
Qed.

Lemma wp_bind {A B} (p : prog C A) (f : A -> prog C B) Q s i o :
  wp W K p (fun a s i o => wp W K (f a) Q s i o) s i o -> wp W K (p ≫= f) Q s i o.
Proof using HK.
  revert s i o. induction p as [a | | cap k IH | m k IH | c k IH | n k IH | a k IH | a n k IH | a b k IH | k IH |
    w k IH | k IH | n k IH | b k IH | c k IH | k IH | off b k IH | c k IH | k IH | a n k IH | a b k IH]; intros s0 i o Hp.
  { cbn. destruct (Hp s0 (rly_refl _ HK _ _ _)) as [_ Hw]. exact Hw. }
  all: intros s Hr; destruct (Hp s Hr) as [Hi Hw]; (split; [exact Hi|]); cbn [wp mbind prog_bind] in *.
  - done.
  - destruct Hw as (Hb & Hw1 & Hw2).
    split_and!; [done|intros m Hm; destruct (Hw1 m Hm); split; [done|by apply IH]|intros e He; by apply IH, Hw2].
  - destruct Hw as [Hw1 Hw2]. split; [by apply IH|intros e He; by apply IH, Hw2].
  - destruct Hw as [Hu Hw]. split; [done|]. intros e n b He Ho. by apply IH, Hw.
  - destruct Hw as (Hn & Hf & Hw1 & Hw2). split_and!; [done|done| |intros Hg; by apply IH, Hw2]. intros. by apply IH, Hw1.
  - destruct Hw as [Hw1 Hw2]. split; [done|by apply IH].
  - destruct Hw as (b & ? & ? & Hw). exists b. split; [done|]. split; [done|by apply IH].
  - destruct Hw as (c & ? & ? & Hw). exists c. split; [done|]. split; [done|by apply IH].
  - by apply IH.
  - destruct Hw as (Hw1 & Hw2 & Hw3). split_and!; intros; apply IH; from_hyp.
  - destruct Hw as (f0 & Hf & Hw1 & Hw2). exists f0. split_and!; [done|..]; intros; apply IH; from_hyp.
  - destruct Hw as (Hn & f0 & Hf & Hw). split; [done|]. exists f0. split; [done|]. intros. apply IH; from_hyp.
  - destruct Hw as (f0 & Hf & Hw). exists f0. split; [done|]. intros. apply IH; from_hyp.
  - destruct Hw as (Hu & f0 & Hf & Hw). split; [done|]. exists f0. split; [done|]. intros. apply IH; from_hyp.
  - destruct Hw as [Hw1 Hw2]. split; intros; apply IH; from_hyp.
  - destruct Hw as (f0 & Hf & Hw). exists f0. split; [done|]. intros. apply IH; from_hyp.
  - destruct Hw as (Hu & f0 & Hf & Hw). split; [done|]. exists f0. split; [done|]. intros e n b He Ho. by eapply IH, Hw.
  - destruct Hw as [Hw1 Hw2]. split; intros; apply IH; from_hyp.
  - destruct Hw as (Hn & Hg & Hw1 & Hw2). split_and!; [done|done|intros; apply IH; from_hyp..].
  - destruct Hw as (Hg & Hw1 & Hw2). split_and!; [done|apply IH; from_hyp|intros; apply IH; from_hyp].
Qed.

Lemma wp_bind_inv {A B} (p : prog C A) (f : A -> prog C B) Q s i o :
  wp W K (p ≫= f) Q s i o -> wp W K p (fun a s i o => wp W K (f a) Q s i o) s i o.
Proof using HK.
  revert s i o. induction p; intros s0 i0 o0 Hp.
  { intros s Hr. change (wp W K (f a) Q s0 i0 o0) in Hp. split; [|by eapply wp_rely]. by eapply wp_inv, wp_rely. }
  all: intros s Hr; destruct (Hp s Hr) as [Hi Hw]; (split; [exact Hi|]);
    cbn [wp mbind prog_bind] in *; naive_solver.
Qed.

Lemma bind_ret {A} (p : prog C A) Q s i o : wp W K (p ≫= mret) Q s i o -> wp W K p Q s i o.
Proof using.
  revert s i o. induction p; intros s0 i0 o0 Hp s Hr; destruct (Hp s Hr) as [Hi Hw]; (split; [exact Hi|]);
    cbn [wp mbind prog_bind mret prog_ret] in *; naive_solver.
Qed.

(** Rules for the moments at which the other side does not touch this one. *)
Definition steady (i o : list (list Z)) : Prop := forall s s', rly K i o s s' -> s' = s.

Section Steady.
Context {A : Type} (Q : post A) (s : side R) (i o : list (list Z)) (Hst : steady i o) (Hi : inv K s i o).

Ltac rule := let s' := fresh in let Hr := fresh in
  intros s' Hr; apply Hst in Hr as ->; (split; [exact Hi|]); cbn [wp].

Lemma wp_ret (a : A) : Q a s i o -> wp W K (mret a) Q s i o.
Proof using Hi Hst. intros HQ. by rule. Qed.

Lemma wp_send m (k : doca_error -> prog C A) :
  wp W K (k DOCA_SUCCESS) Q s i (o ++ [m]) -> (forall e, fails W e -> wp W K (k e) Q s i o) ->
  wp W K (send m ≫= k) Q s i o.
Proof using Hi Hst. intros. by rule. Qed.

Lemma wp_recv cap (k : doca_error * list Z -> prog C A) :
  (good W = true -> blk K i o) ->
  (forall m, rm K i o m -> Z.of_nat (length m) <= cap /\ wp W K (k (DOCA_SUCCESS, m)) Q s (i ++ [m]) o) ->
  (forall e, fails W e -> wp W K (k (e, [])) Q s i o) -> wp W K (recv cap ≫= k) Q s i o.
Proof using Hi Hst. intros. by rule. Qed.

Lemma wp_malloc n (k : option Z -> prog C A) :
  0 <= n -> (exists a, mem s !! a = None /\ 0 < a < 2 ^ 64) ->
  (forall a b, mem s !! a = None -> 0 < a < 2 ^ 64 -> Z.of_nat (length b) = n ->
     wp W K (k (Some a)) Q (set_mem (<[a := b]> (mem s)) s) i o) ->
  (good W = false -> wp W K (k None) Q s i o) -> wp W K (Malloc n Ret ≫= k) Q s i o.
Proof using Hi Hst. intros. by rule. Qed.

Lemma wp_free a (k : unit -> prog C A) :
  is_Some (mem s !! a) -> wp W K (k tt) Q (set_mem (delete a (mem s)) s) i o -> wp W K (free a ≫= k) Q s i o.
Proof using Hi Hst. intros. by rule. Qed.

Lemma wp_load a n b (k : list Z -> prog C A) :
  mem s !! a = Some b -> n = Z.of_nat (length b) -> wp W K (k b) Q s i o -> wp W K (load a n ≫= k) Q s i o.
Proof using Hi Hst.
  intros Hb -> Hk. rule. exists b. split; [done|]. split; [lia|]. by rewrite Nat2Z.id, firstn_all.
Qed.

Lemma wp_store a b c (k : unit -> prog C A) :
  mem s !! a = Some c -> (length b <= length c)%nat ->
  wp W K (k tt) Q (set_mem (<[a := overwrite b c]> (mem s)) s) i o -> wp W K (store a b ≫= k) Q s i o.
Proof using Hi Hst. intros. rule. by exists c. Qed.

Lemma wp_access (k : bool -> prog C A) :
  wp W K (k (bool_decide (is_Some (fs s)))) Q s i o -> wp W K (Access Ret ≫= k) Q s i o.
Proof using Hi Hst. intros. by rule. Qed.

Lemma wp_fopen_r f (k : bool -> prog C A) : fs s = Some f ->
  wp W K (k true) Q (set_held (file_open W :: held s) s) i o -> (good W = false -> wp W K (k false) Q s i o) ->
  wp W K (Fopen false Ret ≫= k) Q s i o.
Proof using Hi Hst. intros Hf H1 H2. rule. split_and!; [done|by intros|]. intros [?|[_ ?]]; [by apply H2|congruence]. Qed.

Lemma wp_fopen_w (k : bool -> prog C A) :
  wp W K (k true) Q (set_fs (Some []) (set_held (file_open W :: held s) s)) i o ->
  (good W = false -> wp W K (k false) Q s i o) -> wp W K (Fopen true Ret ≫= k) Q s i o.
Proof using Hi Hst. intros H1 H2. rule. split_and!; [done..|]. intros [?|[? _]]; [by apply H2|done]. Qed.

Lemma wp_fsize f (k : option Z -> prog C A) : fs s = Some f ->
  wp W K (k (Some (Z.of_nat (length f)))) Q s i o -> (good W = false -> wp W K (k None) Q s i o) ->
  wp W K (Fsize Ret ≫= k) Q s i o.
Proof using Hi Hst. intros. rule. by exists f. Qed.

Lemma wp_fread n f (k : list Z -> prog C A) : 0 <= n -> fs s = Some f ->
  (forall b, b `prefix_of` f -> Z.of_nat (length b) <= n -> (good W = true -> b = take (Z.to_nat n) f) ->
     wp W K (k b) Q s i o) -> wp W K (Fread n Ret ≫= k) Q s i o.
Proof using Hi Hst. intros. rule. split; [done|]. by exists f. Qed.

Lemma wp_fwrite b f (k : Z -> prog C A) : fs s = Some f ->
  (forall n, (n <= length b)%nat -> (good W = true -> n = length b) ->
     wp W K (k (Z.of_nat n)) Q (set_fs (Some (f ++ take n b)) s) i o) -> wp W K (Fwrite b Ret ≫= k) Q s i o.
Proof using Hi Hst. intros. rule. by exists f. Qed.

Lemma wp_fclose c f (k : doca_error -> prog C A) : fs s = Some f -> usable W c s = true ->
  (forall e n, may W c e -> (n <= length f)%nat -> (e = DOCA_SUCCESS -> n = length f) ->
     wp W K (k e) Q (after W c e (set_fs (Some (take n f)) s)) i o) -> wp W K (Fclose c Ret ≫= k) Q s i o.
Proof using Hi Hst. intros. rule. split; [done|]. by exists f. Qed.

Lemma wp_fcreate (k : bool -> prog C A) :
  wp W K (k true) Q (set_fs (Some (default [] (fs s))) (set_held (file_open W :: held s) s)) i o ->
  (good W = false -> wp W K (k false) Q s i o) -> wp W K (Fcreate Ret ≫= k) Q s i o.
Proof using Hi Hst. intros. by rule. Qed.

Lemma wp_fput off b f (k : Z -> prog C A) : fs s = Some f ->
  (forall n, (n <= length b)%nat -> (good W = true -> n = length b) ->
     wp W K (k (Z.of_nat n)) Q (set_fs (Some (write_at (Z.to_nat off) (take n b) f)) s) i o) ->
  wp W K (Fput off b Ret ≫= k) Q s i o.
Proof using Hi Hst. intros. rule. by exists f. Qed.

Lemma wp_fmap c f (k : doca_error * Z * list Z -> prog C A) : fs s = Some f -> usable W c s = true ->
  (forall e n b, may W c e -> outs W c n b -> wp W K (k (e, n, f)) Q (after W c e s) i o) ->
  wp W K (Fmap c (fun e a b => Ret (e, a, b)) ≫= k) Q s i o.
Proof using Hi Hst. intros. rule. split; [done|]. by exists f. Qed.

Lemma wp_fremove (k : bool -> prog C A) :
  wp W K (k true) Q (set_fs None s) i o -> (good W = false -> wp W K (k false) Q s i o) ->
  wp W K (Fremove Ret ≫= k) Q s i o.
Proof using Hi Hst. intros. by rule. Qed.

Lemma wp_dma_read a n (k : doca_error * list Z -> prog C A) : 0 <= n -> gd_read K s i o a n ->
  (forall b, Z.of_nat (length b) = n -> wp W K (k (DOCA_SUCCESS, b)) Q (set_dma b s) i o) ->
  (forall e, fails W e -> wp W K (k (e, [])) Q s i o) -> wp W K (DmaRead a n (fun e b => Ret (e, b)) ≫= k) Q s i o.
Proof using Hi Hst. intros. by rule. Qed.

Lemma wp_dma_write a b (k : doca_error -> prog C A) : gd_write K s i o a b ->
  wp W K (k DOCA_SUCCESS) Q (set_dma b s) i o -> (forall e, fails W e -> wp W K (k e) Q s i o) ->
  wp W K (DmaWrite a b Ret ≫= k) Q s i o.
Proof using Hi Hst. intros. by rule. Qed.
End Steady.

Lemma wp_calls {A B} (p : prog C A) (P : A -> list R -> Prop) (k : A -> prog C B) Q s i o :
  framed K -> steady i o -> inv K s i o -> hwp W p P (held s) ->
  (forall a h', P a h' -> wp W K (k a) Q (set_held h' s) i o) -> wp W K (p ≫= k) Q s i o.
Proof using.
  intros HF Hst Hi Hp Hk. eapply wp_hwp; [done|exact Hp|done|]. intros a h' s1 Hr Ha. apply Hst in Hr as ->. by apply Hk.
Qed.

(** What a program that has a precondition does next. *)
Inductive next_move {A} (Q : post A) (p : prog C A) (s : side R) (i o : list (list Z)) : Prop :=
| nm_done a : p = Ret a -> Q a s i o -> next_move Q p s i o
| nm_recv cap k : p = Recv cap k -> (forall m, rm K i o m -> Z.of_nat (length m) <= cap) ->
    (good W = true -> blk K i o) -> next_move Q p s i o
| nm_step l p' s' : pstep W p s l p' s' -> got l = [] -> is_dma l = false -> next_move Q p s i o
| nm_read a n k : p = DmaRead a n k -> 0 <= n -> gd_read K s i o a n -> next_move Q p s i o
| nm_write a b k : p = DmaWrite a b k -> gd_write K s i o a b -> next_move Q p s i o.

(** Every call has a result. *)
Definition world_ok : Prop := forall c, exists e n b, fine W c e /\ outs W c n b.

Lemma wp_next {A} (p : prog C A) Q s i o : world_ok -> wp W K p Q s i o -> next_move Q p s i o.
Proof using HK.
  intros HW Hp. destruct p as [a | | cap k | m k | c k | n k | a k | a n k | a b k | k | w k | k | n k | b k | c k | k | off b k | c k | k | a n k | a b k];
    destruct (Hp s (rly_refl _ HK _ _ _)) as [_ Hw]; cbn [wp] in Hw.
  - by eapply nm_done.
  - done.
  - destruct Hw as (Hb & Hw & _). eapply nm_recv; [done| |done]. intros m Hm. by destruct (Hw m Hm).
  - eapply (nm_step _ _ _ _ _ (Out m)); [|done..]. cbn. split; [done|]. by left.
  - destruct Hw as [Hu _]. destruct (HW c) as (e & n & b & He & Ho).
    eapply (nm_step _ _ _ _ _ Tau); [|done..]. cbn. split_and!; [done..|].
    exists e, n, b. split_and!; [by left|done..].
  - destruct Hw as (Hn & (a & Ha & Hr) & _).
    eapply (nm_step _ _ _ _ _ Tau); [|done..]. cbn. split; [done|]. left. exists a, (replicate (Z.to_nat n) 0).
    rewrite length_replicate. split_and!; try done; lia.
  - destruct Hw as [? _]. eapply (nm_step _ _ _ _ _ Tau); [|done..]. by cbn.
  - destruct Hw as (b & ? & ? & _). eapply (nm_step _ _ _ _ _ Tau); [|done..]. cbn. eauto 10.
  - destruct Hw as (c & ? & ? & _). eapply (nm_step _ _ _ _ _ Tau); [|done..]. cbn. eauto 10.
  - eapply (nm_step _ _ _ _ _ Tau); [|done..]. cbn. eauto 10.
  - destruct w; [|destruct (fs s) as [f|] eqn:Hf]; (eapply (nm_step _ _ _ _ _ Tau); [|done..]); cbn; (split; [done|]).
    + by left.
    + right. left. by rewrite Hf.
    + right. right. by split_and!; [right|..].
  - destruct Hw as (f & Hf & _). eapply (nm_step _ _ _ _ _ Tau); [|done..]. cbn. eauto 10.
  - destruct Hw as (Hn & f & Hf & _). eapply (nm_step _ _ _ _ _ Tau); [|done..]. cbn. split_and!; [done..|].
    exists f, (take (Z.to_nat n) f). split_and!; try done; [apply prefix_take|rewrite length_take; lia].
  - destruct Hw as (f & Hf & _). eapply (nm_step _ _ _ _ _ Tau); [|done..]. cbn. split; [done|].
    exists f, (length b). split_and!; try done; eauto.
  - destruct Hw as (Hu & f & Hf & _). destruct (HW c) as (e & n & b & He & Ho).
    eapply (nm_step _ _ _ _ _ Tau); [|done..]. cbn. split_and!; [done..|].
    exists e, f, (length f). split_and!; try done. by left.
  - eapply (nm_step _ _ _ _ _ Tau); [|done..]. cbn. split; [done|]. left. eauto.
  - destruct Hw as (f & Hf & _). eapply (nm_step _ _ _ _ _ Tau); [|done..]. cbn. split; [done|].
    exists f, (length b). split_and!; try done; eauto.
  - destruct Hw as (Hu & f & Hf & _). destruct (HW c) as (e & n & b & He & Ho).
    eapply (nm_step _ _ _ _ _ Tau); [|done..]. cbn. split_and!; [done..|].
    exists e, n, b, f. split_and!; [by left|done..].
  - eapply (nm_step _ _ _ _ _ Tau); [|done..]. cbn. split; [done|]. left. eauto.
  - destruct Hw as (? & ? & _). by eapply nm_read.
  - destruct Hw as [? _]. by eapply nm_write.
Qed.

Lemma wp_proceeds {A} (p : prog C A) Q s i o : world_ok -> wp W K p Q s i o -> proceeds W p s.
Proof using HK.
  intros HW Hp. destruct (wp_next p Q s i o HW Hp) as [a -> _ | cap k -> _ _ | l p' s' Hs _ _ | a n k -> _ _ | a b k -> _].
  - left. by exists a.
  - right. left. by exists cap, k.
  - right. right. by exists l, p', s'.
  - right. right. exists (Rd a n []), (k DOCA_SUCCESS []), (set_dma [] s). left. by exists [].
  - right. right. exists (Wr a b), (k DOCA_SUCCESS), (set_dma b s). by left.
Qed.
End Rules.

(** One side that does not use DMA, in any environment whose messages its
    contract allows. *)
Lemma wp_steps {C R A} (W : world C R) (K : contract R) (p p' : prog C A) Q s s' ls i o :
  contract_ok K -> (forall s i o a n, ~ gd_read K s i o a n) -> wp W K p Q s i o -> steps W p s ls p' s' ->
  (forall ls1 m ls2, ls = ls1 ++ In m :: ls2 -> rm K (i ++ received ls1) (o ++ transmitted ls1) m) ->
  wp W K p' Q s' (i ++ received ls) (o ++ transmitted ls).
Proof.
  intros HK Hg Hp Hs. revert i o Hp. induction Hs as [p s|p s l p1 s1 ls p' s' Hstep _ IH]; intros i o Hp Hm.
  { cbn. by rewrite !app_nil_r. }
  cbn [received transmitted flat_map]. rewrite !app_assoc. apply IH.
  - eapply wp_step; [done|exact Hp|exact Hstep| |].
    + intros m ->. specialize (Hm [] m ls eq_refl). cbn in Hm. by rewrite !app_nil_r in Hm.
    + intros a n b ->. destruct p; cbn [pstep] in Hstep; try naive_solver.
      destruct (Hp s (rly_refl _ HK _ _ _)) as (_ & _ & Hr & _). by apply Hg in Hr.
  - intros ls1 m ls2 ->. specialize (Hm (l :: ls1) m ls2 eq_refl). cbn [received transmitted flat_map] in Hm.
    by rewrite !app_assoc in Hm.
Qed.

(** ** Two sides *)

Section Pair.
Context {C R : Type} (W : world C R) (KH KD : contract R).
Context (HKH : contract_ok KH) (HKD : contract_ok KD).

(** What each side assumes is what the other promises, when the messages one
    received and those under way to it are those the other sent, and the last
    bytes that crossed the bus are the same on both sides. *)
Definition linked (sh : side R) (iH oH : list (list Z)) (sd : side R) (iD oD hd dh : list (list Z)) : Prop :=
  inv KH sh iH oH /\ inv KD sd iD oD /\ oH = iD ++ hd /\ oD = iH ++ dh /\ dma sh = dma sd.

Record compat : Prop := {
  c_host_recv : forall sh iH oH sd iD oD hd m dh, linked sh iH oH sd iD oD hd (m :: dh) -> rm KH iH oH m;
  c_dpu_recv : forall sh iH oH sd iD oD hd m dh, linked sh iH oH sd iD oD (m :: hd) dh -> rm KD iD oD m;
  c_read : forall sh iH oH sd iD oD hd dh a n b sh',
    linked sh iH oH sd iD oD hd dh -> gd_read KD sd iD oD a n -> dma_read a n b sh sh' -> rly KH iH oH sh sh';
  c_write : forall sh iH oH sd iD oD hd dh a b,
    linked sh iH oH sd iD oD hd dh -> gd_write KD sd iD oD a b -> rly KH iH oH sh (dma_write a b sh)
}.
Context (HC : compat).

Context {A B : Type} (QH : A -> side R -> list (list Z) -> list (list Z) -> Prop)
  (QD : B -> side R -> list (list Z) -> list (list Z) -> Prop).

Definition pair_ok (y : sys C R A B) : Prop := exists iH oH iD oD,
  wp W KH (hp y) QH (hs y) iH oH /\ wp W KD (dp y) QD (ds y) iD oD /\
  oH = iD ++ to_dpu y /\ oD = iH ++ to_host y /\ dma (hs y) = dma (ds y).

Lemma pair_linked (y : sys C R A B) iH oH iD oD :
  wp W KH (hp y) QH (hs y) iH oH -> wp W KD (dp y) QD (ds y) iD oD ->
  oH = iD ++ to_dpu y -> oD = iH ++ to_host y -> dma (hs y) = dma (ds y) ->
  linked (hs y) iH oH (ds y) iD oD (to_dpu y) (to_host y).
Proof using HKD HKH. intros ? ? ? ? ?. split_and!; [by eapply wp_inv|by eapply wp_inv|done..]. Qed.

Lemma pstep_dma {A'} (p p' : prog C A') s l s' : pstep W p s l p' s' -> is_dma l = false -> dma s' = dma s.
Proof using. intros Hs Hl. destruct p; cbn [pstep] in Hs; naive_solver. Qed.

Lemma pstep_rd {A'} (p p' : prog C A') s a n b s' : pstep W p s (Rd a n b) p' s' ->
  exists k, p = DmaRead a n k /\ p' = k DOCA_SUCCESS b /\ s' = set_dma b s.
Proof using. intros Hs. destruct p; cbn [pstep] in Hs; naive_solver. Qed.

Lemma pstep_wr {A'} (p p' : prog C A') s a b s' : pstep W p s (Wr a b) p' s' ->
  exists k, p = DmaWrite a b k /\ p' = k DOCA_SUCCESS /\ s' = set_dma b s.
Proof using. intros Hs. destruct p; cbn [pstep] in Hs; naive_solver. Qed.

Lemma pair_step (y y' : sys C R A B) : pair_ok y -> sstep W y y' -> pair_ok y'.
Proof using HC HKD HKH.
  intros (iH & oH & iD & oD & HH & HD & E1 & E2 & E3) Hs.
  pose proof (pair_linked y iH oH iD oD HH HD E1 E2 E3) as HL.
  destruct Hs as [y l p' s' dh' Hp Hl Hd | y l p' s' hd' Hp Hl Hd | y a n b p' s' s1 Hp Hr | y a b p' s' Hp].
  - exists (iH ++ got l), (oH ++ sent l), iD, oD; cbn. split_and!.
    + eapply wp_step; [done|exact HH|exact Hp| |intros ? ? ? ->; discriminate Hl]. intros m ->. rewrite Hd in HL. exact (c_host_recv HC _ _ _ _ _ _ _ _ _ HL).
    + done.
    + by rewrite E1, <- app_assoc.
    + by rewrite E2, Hd, <- app_assoc.
    + by rewrite (pstep_dma _ _ _ _ _ Hp Hl).
  - exists iH, oH, (iD ++ got l), (oD ++ sent l); cbn. split_and!.
    + done.
    + eapply wp_step; [done|exact HD|exact Hp| |intros ? ? ? ->; discriminate Hl]. intros m ->. rewrite Hd in HL. exact (c_dpu_recv HC _ _ _ _ _ _ _ _ _ HL).
    + by rewrite E1, Hd, <- app_assoc.
    + by rewrite E2, <- app_assoc.
    + by rewrite (pstep_dma _ _ _ _ _ Hp Hl).
  - exists iH, oH, iD, oD; cbn. destruct (pstep_rd _ _ _ _ _ _ _ Hp) as (k & Hk & -> & ->).
    rewrite Hk in HD. destruct (HD (ds y) (rly_refl _ HKD _ _ _)) as (_ & _ & Hg & Hw & _).
    destruct Hr as (Hn & Hc & ->). split_and!; [|by apply Hw|done..].
    eapply wp_rely; [done|exact HH|]. by eapply c_read.
  - exists iH, oH, iD, oD; cbn. destruct (pstep_wr _ _ _ _ _ _ Hp) as (k & Hk & -> & ->).
    rewrite Hk in HD. destruct (HD (ds y) (rly_refl _ HKD _ _ _)) as (_ & Hg & Hw & _).
    split_and!; [|done..]. eapply wp_rely; [done|exact HH|]. by eapply c_write.
Qed.

Lemma pair_reach (y y' : sys C R A B) : pair_ok y -> rtc (sstep W) y y' -> pair_ok y'.
Proof using HC HKD HKH. intros Hy Hr. induction Hr; [done|]. by eauto using pair_step. Qed.

Lemma dma_read_some (s : side R) a n : 0 <= n -> exists b s', dma_read a n b s s'.
Proof using.
  intros Hn. exists (take (Z.to_nat n) (default [] (mem s !! a) ++ replicate (Z.to_nat n) 0)). eexists.
  split_and!; [|intros c Hc|reflexivity].
  - rewrite length_take, length_app, length_replicate. lia.
  - rewrite Hc. cbn. rewrite take_take, take_app_le by lia.
    destruct (decide (Z.to_nat n <= length c)%nat); [f_equal; lia|rewrite !take_ge by lia; done].
Qed.

(** The pair stops only when both sides have returned. *)
Definition both_done (y : sys C R A B) : Prop := exists a b, hp y = Ret a /\ dp y = Ret b.

Record no_deadlock : Prop := {
  d_both : forall sh iH oH sd iD oD, linked sh iH oH sd iD oD [] [] -> blk KH iH oH -> blk KD iD oD -> False;
  d_host : forall b sh iH oH sd iD oD hd, linked sh iH oH sd iD oD hd [] -> blk KH iH oH -> QD b sd iD oD -> False;
  d_dpu : forall a sh iH oH sd iD oD dh, linked sh iH oH sd iD oD [] dh -> QH a sh iH oH -> blk KD iD oD -> False;
  d_nodma : forall sh iH oH, (forall a n, ~ gd_read KH sh iH oH a n) /\ (forall a b, ~ gd_write KH sh iH oH a b)
}.

Lemma pair_progress (y : sys C R A B) :
  world_ok W -> good W = true -> no_deadlock -> pair_ok y -> both_done y \/ exists y', sstep W y y'.
Proof using HC HKD HKH.
  intros HW HG HN (iH & oH & iD & oD & HH & HD & E1 & E2 & E3).
  pose proof (pair_linked y iH oH iD oD HH HD E1 E2 E3) as HL.
  destruct (wp_next W KD HKD _ _ _ _ _ HW HD) as [b Hb HQ | cap k Hk Hc Hb | l p' s' Hp Hg Hl | a n k Hk Hn Hg | a b k Hk Hg].
  3: { right. eexists. eapply s_dpu; [exact Hp|done|]. by rewrite Hg. }
  3: { right. destruct (dma_read_some (hs y) a n Hn) as (b & s1 & Hr).
    eexists. eapply (s_read _ y a n b); [rewrite Hk; left; eauto|exact Hr]. }
  3: { right. eexists. eapply s_write. rewrite Hk. left. eauto. }
  all: destruct (wp_next W KH HKH _ _ _ _ _ HW HH) as [a Ha HQ' | cap' k' Hk' Hc' Hb' | l p' s' Hp Hg Hl | a n k' Hk' Hn Hg | a b' k' Hk' Hg];
    destruct (d_nodma HN (hs y) iH oH) as [N1 N2]; try (exfalso; first [by eapply N1|by eapply N2]).
  - left. by exists a, b.
  - destruct (to_host y) as [|m dh'] eqn:Hd; [exfalso; eapply (d_host HN); eauto|].
    right. eexists. eapply (s_host _ y (In m)); [|done|exact Hd]. rewrite Hk'. cbn. split; [done|]. left.
    exists m. split_and!; try done. apply Hc'. exact (c_host_recv HC _ _ _ _ _ _ _ _ _ HL).
  - right. eexists. eapply s_host; [exact Hp|done|]. by rewrite Hg.
  - destruct (to_dpu y) as [|m hd'] eqn:Hd; [exfalso; eapply (d_dpu HN); eauto|].
    right. eexists. eapply (s_dpu _ y (In m)); [|done|exact Hd]. rewrite Hk. cbn. split; [done|]. left.
    exists m. split_and!; try done. apply Hc. exact (c_dpu_recv HC _ _ _ _ _ _ _ _ _ HL).
  - destruct (to_dpu y) as [|m hd'] eqn:Hd.
    + destruct (to_host y) as [|m dh'] eqn:Hd'; [exfalso; eapply (d_both HN); eauto|].
      right. eexists. eapply (s_host _ y (In m)); [|done|exact Hd']. rewrite Hk'. cbn. split; [done|]. left.
      exists m. split_and!; try done. apply Hc'. exact (c_host_recv HC _ _ _ _ _ _ _ _ _ HL).
    + right. eexists. eapply (s_dpu _ y (In m)); [|done|exact Hd]. rewrite Hk. cbn. split; [done|]. left.
      exists m. split_and!; try done. apply Hc. exact (c_dpu_recv HC _ _ _ _ _ _ _ _ _ HL).
  - right. eexists. eapply s_host; [exact Hp|done|]. by rewrite Hg.
Qed.
End Pair.

(** ** Termination *)

Section Termination.
Context {C R : Type} (W : world C R).

Lemma prog_acc {A} (p : prog C A) : Acc (fun q p => exists s l s', pstep W p s l q s') p.
Proof using.
  induction p; constructor; intros q (s & l & s' & Hs); cbn [pstep] in Hs; naive_solver.
Qed.

Lemma sys_acc {A B} (y : sys C R A B) : Acc (fun y' y => sstep W y y') y.
Proof using.
  destruct y as [p s q t u v]. revert q s t u v.
  induction (prog_acc p) as [p Hp IHp]. intros q. revert p Hp IHp.
  induction (prog_acc q) as [q Hq IHq]. intros p Hp IHp s t u v.
  constructor. intros y' Hs. inversion Hs as [y l p' s' dh' Hs' | y l q' s' hd' Hs' | y a n b q' s' s1 Hs' | y a b q' s' Hs']; subst;
    cbn in *; [apply IHp|apply IHq..]; eauto 10.
Qed.
End Termination.

(** With the messages it waits for, a side comes to its end. *)
Lemma wp_runs {C R A} (W : world C R) (K : contract R) (p : prog C A) Q s i o ms :
  contract_ok K -> (forall s i o a n, ~ gd_read K s i o a n) -> (forall s i o a b, ~ gd_write K s i o a b) ->
  world_ok W -> good W = true -> wp W K p Q s i o ->
  (forall ms1 m ms2 o', ms = ms1 ++ m :: ms2 -> rm K (i ++ ms1) o' m) -> (forall o', ~ blk K (i ++ ms) o') ->
  exists ls a s' rest, steps W p s ls (Ret a) s' /\ ms = received ls ++ rest.
Proof.
  intros HK Hr Hw HW Hg. revert s i o ms. induction (prog_acc W p) as [p _ IH]. intros s i o ms Hp Hm Hb.
  destruct (wp_next W K HK _ _ _ _ _ HW Hp) as [a -> _ | cap k -> Hc Hbk | l p' s' Hs Hgot Hl | a n k _ _ Hn | a b k _ Hn].
  - exists [], a, s, ms. split; [apply steps_nil|done].
  - destruct ms as [|m ms]; [exfalso; apply (Hb o); rewrite app_nil_r; by apply Hbk|].
    assert (Hmm : rm K i o m) by (specialize (Hm [] m ms o eq_refl); by rewrite app_nil_r in Hm).
    assert (Hs : pstep W (Recv cap k) s (In m) (k DOCA_SUCCESS m) s).
    { split; [done|]. left. exists m. split_and!; [done|by apply Hc|done]. }
    destruct (IH (k DOCA_SUCCESS m)) with (s := s) (i := i ++ [m]) (o := o) (ms := ms) as (ls & a & s' & rest & Hls & ->); [by eauto| | | |].
    + replace o with (o ++ sent (In m)) by apply app_nil_r. eapply (wp_step W K HK _ _ _ _ _ (In m)); [exact Hp|exact Hs| |done].
      by intros m' [= <-].
    + intros ms1 m' ms2 o' ->. rewrite <- app_assoc. by eapply (Hm (m :: ms1)).
    + intros o'. rewrite <- app_assoc. apply Hb.
    + exists (In m :: ls), a, s', rest. split; [by eapply steps_cons|done].
  - destruct (IH p') with (s := s') (i := i) (o := o ++ sent l) (ms := ms) as (ls & a & s2 & rest & Hls & ->); [by eauto| |done|done|].
    + replace i with (i ++ got l) by (rewrite Hgot; apply app_nil_r). eapply wp_step; [done|exact Hp|exact Hs| |].
      * intros m ->. discriminate Hgot.
      * intros a n b ->. discriminate Hl.
    + exists (l :: ls), a, s2, rest. split; [by eapply steps_cons|]. unfold received. cbn [flat_map]. by rewrite Hgot.
  - by apply Hr in Hn.
  - by apply Hw in Hn.
Qed.

(** ** Total correctness *)

Section Total.
Context {C R : Type} (W : world C R) (KH KD : contract R).
Context (HKH : contract_ok KH) (HKD : contract_ok KD) (HC : compat KH KD).
Context {A B : Type} (QH : A -> side R -> list (list Z) -> list (list Z) -> Prop)
  (QD : B -> side R -> list (list Z) -> list (list Z) -> Prop).

Lemma both_done_stops (y y' : sys C R A B) : both_done y -> ~ sstep W y y'.
Proof using.
  intros (a & b & Ha & Hb) Hs. destruct Hs as [y l p' s' dh' Hp _ _ | y l p' s' hd' Hp _ _ | y ? ? ? p' s' s1 Hp _ | y ? ? p' s' Hp];
    rewrite ?Ha, ?Hb in Hp; exact Hp.
Qed.

Lemma pair_ends (Q : sys C R A B -> Prop) :
  world_ok W -> good W = true -> no_deadlock KH KD QH QD ->
  (forall y, pair_ok W KH KD QH QD y -> both_done y -> Q y) ->
  forall y, pair_ok W KH KD QH QD y -> always_ends W Q y.
Proof using HC HKD HKH.
  intros HW HG HN HQ y. induction (sys_acc W y) as [y _ IH]. intros Hy.
  destruct (pair_progress W KH KD HKH HKD HC QH QD y HW HG HN Hy) as [Hd|Hs].
  - apply ends_now; [|by apply HQ]. intros y'. by apply both_done_stops.
  - apply ends_later; [done|]. intros y' Hs'. apply IH; [done|]. by eapply pair_step.
Qed.

Lemma always_ends_some (Q : sys C R A B -> Prop) y : always_ends W Q y -> exists y', rtc (sstep W) y y' /\ Q y'.
Proof using.
  induction 1 as [y _ HQ|y (y1 & Hs) _ IH]; [exists y; split; [apply rtc_refl|done]|].
  destruct (IH y1 Hs) as (y2 & Hr & HQ). exists y2. split; [by eapply rtc_l|done].
Qed.
End Total.
