(* ===== verification/DocaCommon.v ===== *)
(** * DOCA objects and the helpers of samples/common.c

    The DOCA objects a program holds ([dres]), the library calls the modelled
    programs make ([dcall]) with what each acquires and releases
    ([doca_world]), and the functions of samples/common.c over them: opening a
    device, the core objects, stopping a context. *)

From stdpp Require Import gmap.
From S2P Require Import Prelude Pack Proc.
#[local] Open Scope Z_scope.

(** Memory maps, devices and buffers are known by the variable that holds them. *)
Inductive dmap := SrcMmap | DstMmap | RemoteMmap | HostMmap.
Inductive ddev := CcDev | WorkDev.
Inductive dbuf := LocalBuf | RemoteBuf | SrcBuf | DstBuf.

Inductive dres :=
| REp | RDevList | RRepList | RDev (d : ddev) | RRep | RMmap (m : dmap) | RInventory | RPe | REngine | RRunning
| RBuf (b : dbuf) | RTask | RFile | RArgp | RMapping.

Definition dmap_eqb (x y : dmap) : bool :=
  match x, y with
  | SrcMmap, SrcMmap | DstMmap, DstMmap | RemoteMmap, RemoteMmap | HostMmap, HostMmap => true
  | _, _ => false
  end.
Definition ddev_eqb (x y : ddev) : bool := match x, y with CcDev, CcDev | WorkDev, WorkDev => true | _, _ => false end.
Definition dbuf_eqb (x y : dbuf) : bool :=
  match x, y with
  | LocalBuf, LocalBuf | RemoteBuf, RemoteBuf | SrcBuf, SrcBuf | DstBuf, DstBuf => true
  | _, _ => false
  end.
Definition dres_eqb (x y : dres) : bool :=
  match x, y with
  | REp, REp | RDevList, RDevList | RRepList, RRepList | RRep, RRep | RInventory, RInventory | RPe, RPe
  | REngine, REngine | RRunning, RRunning | RTask, RTask | RFile, RFile | RArgp, RArgp
  | RMapping, RMapping => true
  | RDev d, RDev d' => ddev_eqb d d'
  | RMmap m, RMmap m' => dmap_eqb m m'
  | RBuf b, RBuf b' => dbuf_eqb b b'
  | _, _ => false
  end.

(** The calls, named after the functions of the libraries without their
    [doca_]; the arguments are those the modelled code computes. *)
Inductive dcall :=
| log_backend (n : Z) | argp_init | argp_param_create | argp_register_param | argp_register_validation_callback
| argp_register_version_callback | argp_start | argp_destroy
| comm_channel_ep_create | comm_channel_ep_destroy | comm_channel_ep_connect | comm_channel_peer_addr_update_info
| comm_channel_ep_listen | comm_channel_ep_disconnect | ep_set_device | ep_set_max_msg_size (n : Z)
| ep_set_send_queue_size (n : Z) | ep_set_recv_queue_size (n : Z) | ep_set_device_rep
| devinfo_create_list | devinfo_destroy_list | devinfo_is_equal_pci_addr (i : Z) | devinfo_get_ibdev_name (i : Z)
| devinfo_get_iface_name (i : Z) | cap_is_supported (i : Z) | dev_open (d : ddev) (i : Z) | dev_close (d : ddev)
| devinfo_rep_create_list | devinfo_rep_destroy_list | devinfo_rep_is_equal_pci_addr (i : Z)
| devinfo_rep_get_vuid (i : Z) | dev_rep_open (i : Z) | dev_rep_close
| mmap_create (m : dmap) | mmap_add_dev (m : dmap) | mmap_set_permissions (m : dmap) (flags : Z)
| mmap_set_memrange (m : dmap) (p n : Z) | mmap_start (m : dmap) | mmap_export_pci (m : dmap)
| mmap_create_from_export (m : dmap) (desc : list Z) | mmap_destroy (m : dmap)
| buf_inventory_create (n : Z) | buf_inventory_start | buf_inventory_destroy | pe_create | pe_destroy
| engine_create | engine_destroy | pe_connect_ctx | task_set_conf (n : Z) | cap_task_get_max_buf_size
| ctx_set_user_data | ctx_start | ctx_stop | ctx_wait_idle
| buf_get_by_addr (b : dbuf) (m : dmap) (p n : Z) | buf_get_data (b : dbuf) | buf_set_data (b : dbuf) (n : Z)
| buf_dec_refcount (b : dbuf) | task_alloc_init (src dst : dbuf) | task_submit | task_get_status | task_free
| fclose
| ep_get_device | ep_get_device_rep | mmap_set_free_cb (m : dmap) | buf_get_data_len (b : dbuf) | file_map | file_unmap
| sha_cap_get_min_dst_buffer_size | sha_cap_get_partial_hash_block_size | sha_cap_get_max_src_buffer_size
| task_partial_hash_alloc_init (src dst : dbuf) | task_partial_hash_set_src (b : dbuf) | task_partial_hash_set_is_final_buffer
| sha_done (data : list Z) | sha_partial_done (chunks : list (list Z)) (final : bool).

Definition acquires (c : dcall) : option dres :=
  match c with
  | argp_init => Some RArgp
  | comm_channel_ep_create => Some REp
  | devinfo_create_list => Some RDevList
  | devinfo_rep_create_list => Some RRepList
  | dev_open d _ => Some (RDev d)
  | dev_rep_open _ => Some RRep
  | mmap_create m | mmap_create_from_export m _ => Some (RMmap m)
  | buf_inventory_create _ => Some RInventory
  | pe_create => Some RPe
  | engine_create => Some REngine
  | ctx_start => Some RRunning
  | buf_get_by_addr b _ _ _ => Some (RBuf b)
  | task_alloc_init _ _ | task_partial_hash_alloc_init _ _ => Some RTask
  | file_map => Some RMapping
  | _ => None
  end.

Definition releases (c : dcall) : option dres :=
  match c with
  | argp_destroy => Some RArgp
  | comm_channel_ep_destroy => Some REp
  | devinfo_destroy_list => Some RDevList
  | devinfo_rep_destroy_list => Some RRepList
  | dev_close d => Some (RDev d)
  | dev_rep_close => Some RRep
  | mmap_destroy m => Some (RMmap m)
  | buf_inventory_destroy => Some RInventory
  | pe_destroy => Some RPe
  | engine_destroy => Some REngine
  | ctx_stop => Some RRunning
  | buf_dec_refcount b => Some (RBuf b)
  | task_free => Some RTask
  | fclose => Some RFile
  | file_unmap => Some RMapping
  | _ => None
  end.

(** The machine: what its engine answers ([engine]), whether calls, memory,
    files and messages may fail, and the calls assumed not to.  Stopping a
    context may take a while; a machine on which nothing fails has a device. *)
Definition doca_world (engine : dcall -> Z -> list Z -> Prop) (good : bool) (must : dcall -> bool) : world dcall dres := {|
  same := dres_eqb; acq := acquires; rel := releases; file_open := RFile; Proc.good := good; Proc.must := must;
  fine := fun c e => e = DOCA_SUCCESS \/ (c = ctx_stop /\ e = DOCA_ERROR_IN_PROGRESS);
  outs := fun c n b =>
    match c with
    | devinfo_create_list | devinfo_rep_create_list => 0 <= n < 2 ^ 32 /\ (good = true -> 1 <= n)
    | devinfo_is_equal_pci_addr _ | devinfo_rep_is_equal_pci_addr _ => 0 <= n < 256 /\ (good = true -> n <> 0)
    | mmap_export_pci _ => Z.of_nat (length b) <= 4080
    | _ => engine c n b
    end
|}.

(** The DMA engine takes buffers of at most [max_buf] bytes. *)
Definition dma_engine (max_buf : Z) (c : dcall) (n : Z) (_ : list Z) : Prop :=
  match c with cap_task_get_max_buf_size => n = max_buf | _ => True end.

Definition EXIT_SUCCESS : Z := 0.
Definition EXIT_FAILURE : Z := 1.
Definition DOCA_DEVINFO_PCI_ADDR_SIZE : nat := 13.
Definition DOCA_DEVINFO_REP_PCI_ADDR_SIZE : nat := 13.

(** ** Opening a device (samples/common.c) *)

(** The result of a lookup, and a pointer: not written yet, NULL, or an object. *)
Inductive ptr := Garbage | Null | Obj.

Notation io := (prog dcall).

(** A parameter of the command line is created and registered. *)
Definition register_param : io doca_error :=
  result ← call argp_param_create;
  if negb (ok result) then mret result else call argp_register_param.

(** [for (i = 0; i < nb_devs; i++)]: the first index that opens. *)
Fixpoint search (nb : nat) (i : Z) (opens : Z -> io bool) : io bool :=
  match nb with
  | O => mret false
  | S nb' => b ← opens i; if b : bool then mret true else search nb' (i + 1) opens
  end.

Definition open_dev (d : ddev) (func : option (Z -> io doca_error)) (i : Z) : io bool :=
  cap ← (match func with Some f => f i | None => mret DOCA_SUCCESS end);
  if ok cap then res ← call (dev_open d i); mret (ok res) else mret false.

Definition with_dev_list (opens : Z -> io bool) : io (doca_error * ptr) :=
  '(res, nb_devs) ← call_num devinfo_create_list;
  if negb (ok res) then mret (res, Null)
  else
    found ← search (Z.to_nat nb_devs) 0 opens;
    _ ← call devinfo_destroy_list;
    if found : bool then mret (DOCA_SUCCESS, Obj) else mret (DOCA_ERROR_NOT_FOUND, Null).

Definition open_doca_device_with_pci (d : ddev) (func : option (Z -> io doca_error)) : io (doca_error * ptr) :=
  with_dev_list (fun i =>
    '(res, is_addr_equal) ← call_num (devinfo_is_equal_pci_addr i);
    if ok res && truthy is_addr_equal then open_dev d func i else mret false).

Definition open_doca_device_with_capabilities (d : ddev) (func : Z -> io doca_error) : io (doca_error * ptr) :=
  with_dev_list (open_dev d (Some func)).

Definition open_doca_device_rep_with_pci : io (doca_error * ptr) :=
  '(result, nb_rdevs) ← call_num devinfo_rep_create_list;
  if negb (ok result) then mret (DOCA_ERROR_INVALID_VALUE, Null)
  else
    found ← search (Z.to_nat nb_rdevs) 0 (fun i =>
      '(result, is_addr_equal) ← call_num (devinfo_rep_is_equal_pci_addr i);
      if ok result && truthy is_addr_equal then res ← call (dev_rep_open i); mret (ok res) else mret false);
    _ ← call devinfo_rep_destroy_list;
    if found : bool then mret (DOCA_SUCCESS, Obj) else mret (DOCA_ERROR_NOT_FOUND, Null).

(** ** Core objects (samples/common.c) *)

(** struct program_core_objects *)
Record core := Core { dev : ptr; src_mmap : ptr; dst_mmap : ptr; buf_inv : ptr; ctx : ptr; pe : ptr }.

Definition set_dev p (s : core) := Core p (src_mmap s) (dst_mmap s) (buf_inv s) (ctx s) (pe s).
Definition set_src_mmap p (s : core) := Core (dev s) p (dst_mmap s) (buf_inv s) (ctx s) (pe s).
Definition set_dst_mmap p (s : core) := Core (dev s) (src_mmap s) p (buf_inv s) (ctx s) (pe s).
Definition set_buf_inv p (s : core) := Core (dev s) (src_mmap s) (dst_mmap s) p (ctx s) (pe s).
Definition set_ctx p (s : core) := Core (dev s) (src_mmap s) (dst_mmap s) (buf_inv s) p (pe s).
Definition set_pe p (s : core) := Core (dev s) (src_mmap s) (dst_mmap s) (buf_inv s) (ctx s) p.

Definition not_null (p : ptr) : io bool :=
  match p with Garbage => Undef | Null => mret false | Obj => mret true end.

(** The labels of create_core_objects. *)
Definition destroy_src (res : doca_error) (state : core) : io (doca_error * core) :=
  _ ← call (mmap_destroy SrcMmap);
  mret (res, set_src_mmap Null state).
Definition destroy_dst (res : doca_error) (state : core) : io (doca_error * core) :=
  _ ← call (mmap_destroy DstMmap);
  destroy_src res (set_dst_mmap Null state).
Definition destroy_inv (res : doca_error) (state : core) : io (doca_error * core) :=
  b ← not_null (buf_inv state);
  if b : bool then _ ← call buf_inventory_destroy; destroy_dst res (set_buf_inv Null state)
  else destroy_dst res state.

Definition create_core_objects (state : core) (max_bufs : Z) : io (doca_error * core) :=
  res ← call (mmap_create SrcMmap);
  if negb (ok res) then mret (res, state) else
  let state := set_src_mmap Obj state in
  res ← call (mmap_add_dev SrcMmap);
  if negb (ok res) then destroy_src res state else
  res ← call (mmap_create DstMmap);
  if negb (ok res) then destroy_src res state else
  let state := set_dst_mmap Obj state in
  res ← call (mmap_add_dev DstMmap);
  if negb (ok res) then destroy_dst res state else
  let pe_of state :=
    res ← call pe_create;
    if negb (ok res) then destroy_inv res state else mret (DOCA_SUCCESS, set_pe Obj state) in
  if negb (max_bufs =? 0) then
    res ← call (buf_inventory_create max_bufs);
    if negb (ok res) then destroy_dst res state else
    let state := set_buf_inv Obj state in
    res ← call buf_inventory_start;
    if negb (ok res) then destroy_inv res state else pe_of state
  else pe_of state.

Definition request_stop_ctx : io doca_error :=
  tmp_result ← call ctx_stop;
  if decide (tmp_result = DOCA_ERROR_IN_PROGRESS) then
    (* progress until the context is idle or its state cannot be read *)
    tmp_result ← call ctx_wait_idle; mret (propagate DOCA_SUCCESS tmp_result)
  else mret (propagate DOCA_SUCCESS tmp_result).

(** [if (p != NULL) { tmp_result = destroy(p); DOCA_ERROR_PROPAGATE(result, tmp_result); }] *)
Definition destroy_obj (p : ptr) (c : dcall) (result : doca_error) : io doca_error :=
  b ← not_null p;
  if b : bool then tmp_result ← call c; mret (propagate result tmp_result) else mret result.

(** What a memory map does with its memory when it is destroyed
    (doca_mmap_set_free_cb). *)
Definition free_cbs : Type := dmap -> option (io unit).
Definition no_cbs : free_cbs := fun _ => None.
Definition destroy_mmap (cbs : free_cbs) (p : ptr) (m : dmap) (result : doca_error) : io doca_error :=
  match cbs m with
  | None => destroy_obj p (mmap_destroy m) result
  | Some cb =>
      b ← not_null p;
      if b : bool then
        tmp_result ← call (mmap_destroy m);
        _ ← (if ok tmp_result then cb else mret tt);
        mret (propagate result tmp_result)
      else mret result
  end.

Definition destroy_core_objects (cbs : free_cbs) (state : core) : io (doca_error * core) :=
  result ← destroy_obj (pe state) pe_destroy DOCA_SUCCESS;
  let state := set_pe Null state in
  result ← destroy_obj (buf_inv state) buf_inventory_destroy result;
  let state := set_buf_inv Null state in
  result ← destroy_mmap cbs (dst_mmap state) DstMmap result;
  let state := set_dst_mmap Null state in
  result ← destroy_mmap cbs (src_mmap state) SrcMmap result;
  let state := set_src_mmap Null state in
  result ← destroy_obj (dev state) (dev_close WorkDev) result;
  mret (result, set_dev Null state).
