(* ===== verification/DmaCopy.v ===== *)
(** * DMA copy (src/applications/dma_copy)

    The program that runs on the host and on the DPU: main, the communication
    channel, the negotiation of direction and size, the exchange of the memory
    map, the copy itself and every way out of it (dma_copy.c, dma_copy_core.c).
    Its file is the one its [-f] argument names. *)

From stdpp Require Import gmap.
From S2P Require Import Prelude CString Pack Proc DocaCommon.
#[local] Open Scope Z_scope.



Definition CC_MAX_QUEUE_SIZE : Z := 10.
Definition CC_MAX_MSG_SIZE : Z := 4080.
Definition NUM_DMA_TASKS : Z := 1.
Definition STATUS_SUCCESS : bool := true.
Definition STATUS_FAILURE : bool := false.
Definition SIZE_MAX : Z := 2 ^ 64 - 1.
Definition DOCA_ACCESS_FLAG_LOCAL_READ_ONLY : Z := 0.
Definition DOCA_ACCESS_FLAG_LOCAL_READ_WRITE : Z := 1.
Definition DOCA_ACCESS_FLAG_PCI_READ_ONLY : Z := 16.
Definition DOCA_ACCESS_FLAG_PCI_READ_WRITE : Z := 32.

Inductive dma_copy_mode := DMA_COPY_MODE_HOST | DMA_COPY_MODE_DPU.

(** struct dma_copy_cfg, without the strings *)
Record dma_copy_cfg := Cfg { mode : dma_copy_mode; is_file_found_locally : bool; file_size : Z }.

Definition set_file_size (n : Z) (cfg : dma_copy_cfg) : dma_copy_cfg := Cfg (mode cfg) (is_file_found_locally cfg) n.

(** ** Messages, as bytes of memory *)

(** A uint64_t in the memory of a little-endian machine. *)
Definition u64_bytes (v : Z) : list Z := rev (be_bytes 8 v).
Definition bytes_u64 (b : list Z) : Z := be_value (rev b).
Definition htonq (v : Z) : Z := ntohq true v.

(** struct cc_msg_dma_direction: a bool, seven bytes of padding, a uint64_t *)
Definition cc_msg_dma_direction (file_in_host : bool) (size : Z) : list Z :=
  Z.b2z file_in_host :: replicate 7 0 ++ u64_bytes size.
Definition sizeof_direction : Z := 16.
Definition msg_file_in_host (m : list Z) : bool := truthy (hd 0 m).
Definition msg_file_size (m : list Z) : Z := bytes_u64 (take 8 (drop 8 m)).

(** struct cc_msg_dma_status *)
Definition cc_msg_dma_status (is_success : bool) : list Z := [Z.b2z is_success].

(** ** Arguments *)

(** The validation callback: is there a file, and how long is it. *)
Definition validate_file_size : io (doca_error * Z) :=
  fp ← Fopen false Ret;
  if negb fp then mret (DOCA_ERROR_IO_FAILED, 0)
  else
    size ← Fsize Ret;
    _ ← call fclose;
    match size with
    | None => mret (DOCA_ERROR_IO_FAILED, 0)
    | Some n => mret (DOCA_SUCCESS, n)
    end.

Definition args_validation_callback (cfg : dma_copy_cfg) : io (doca_error * dma_copy_cfg) :=
  found ← Access Ret;
  if found : bool then
    '(result, n) ← validate_file_size;
    mret (result, Cfg (mode cfg) true (if ok result then n else file_size cfg))
  else mret (DOCA_SUCCESS, cfg).

(** The strings of struct dma_copy_cfg, and the callbacks that store them: an
    argument that does not fit with its NUL is refused. *)
Definition MAX_ARG_SIZE : nat := 128.
Record cfg_strings := Strings { file_path : cstring; cc_dev_pci_addr : cstring; cc_dev_rep_pci_addr : cstring }.

Definition dev_pci_addr_callback (dev_pci_addr : cstring) (cfg : cfg_strings) : doca_error * cfg_strings :=
  if (strnlen dev_pci_addr DOCA_DEVINFO_PCI_ADDR_SIZE =? DOCA_DEVINFO_PCI_ADDR_SIZE)%nat then (DOCA_ERROR_INVALID_VALUE, cfg)
  else (DOCA_SUCCESS, Strings (file_path cfg) (strlcpy dev_pci_addr DOCA_DEVINFO_PCI_ADDR_SIZE) (cc_dev_rep_pci_addr cfg)).

Definition file_path_callback (path : cstring) (cfg : cfg_strings) : doca_error * cfg_strings :=
  if (strnlen path MAX_ARG_SIZE =? MAX_ARG_SIZE)%nat then (DOCA_ERROR_INVALID_VALUE, cfg)
  else (DOCA_SUCCESS, Strings (strlcpy path MAX_ARG_SIZE) (cc_dev_pci_addr cfg) (cc_dev_rep_pci_addr cfg)).

Definition rep_pci_addr_callback (mode : dma_copy_mode) (rep_pci_addr : cstring) (cfg : cfg_strings)
    : doca_error * cfg_strings :=
  match mode with
  | DMA_COPY_MODE_HOST => (DOCA_SUCCESS, cfg)
  | DMA_COPY_MODE_DPU =>
      if (strnlen rep_pci_addr DOCA_DEVINFO_REP_PCI_ADDR_SIZE =? DOCA_DEVINFO_REP_PCI_ADDR_SIZE)%nat
      then (DOCA_ERROR_INVALID_VALUE, cfg)
      else (DOCA_SUCCESS, Strings (file_path cfg) (cc_dev_pci_addr cfg) (strlcpy rep_pci_addr DOCA_DEVINFO_REP_PCI_ADDR_SIZE))
  end.

(** Three parameters: the file, the device, the representor. *)
Definition register_dma_copy_params : io doca_error :=
  result ← register_param;
  if negb (ok result) then mret result else
  result ← register_param;
  if negb (ok result) then mret result else
  result ← register_param;
  if negb (ok result) then mret result else
  result ← call argp_register_validation_callback;
  if negb (ok result) then mret result else
  result ← call argp_register_version_callback;
  if negb (ok result) then mret result else mret DOCA_SUCCESS.

(** ** Communication channel *)

Definition set_cc_properties (mode : dma_copy_mode) : io doca_error :=
  result ← call ep_set_device;
  if negb (ok result) then mret result else
  result ← call (ep_set_max_msg_size CC_MAX_MSG_SIZE);
  if negb (ok result) then mret result else
  result ← call (ep_set_send_queue_size CC_MAX_QUEUE_SIZE);
  if negb (ok result) then mret result else
  result ← call (ep_set_recv_queue_size CC_MAX_QUEUE_SIZE);
  if negb (ok result) then mret result else
  match mode with
  | DMA_COPY_MODE_DPU => call ep_set_device_rep
  | DMA_COPY_MODE_HOST => mret result
  end.

(** The result of destroying the endpoint is dropped: the test is on [result]. *)
Definition destroy_cc (peer dev_rep : ptr) : io doca_error :=
  result ← destroy_obj peer comm_channel_ep_disconnect DOCA_SUCCESS;
  tmp_result ← call comm_channel_ep_destroy;
  let result := if negb (ok result) then propagate result tmp_result else result in
  result ← destroy_obj dev_rep dev_rep_close result;
  tmp_result ← call (dev_close CcDev);
  mret (propagate result tmp_result).

Definition init_destroy_ep (result : doca_error) : io (doca_error * ptr) :=
  tmp_result ← call comm_channel_ep_destroy;
  mret (propagate result tmp_result, Null).
Definition init_close_device (result : doca_error) : io (doca_error * ptr) :=
  tmp_result ← call (dev_close CcDev);
  init_destroy_ep (propagate result tmp_result).

(** Returns the representor. *)
Definition init_cc (mode : dma_copy_mode) : io (doca_error * ptr) :=
  result ← call comm_channel_ep_create;
  if negb (ok result) then mret (result, Null) else
  '(result, _) ← open_doca_device_with_pci CcDev None;
  if negb (ok result) then init_destroy_ep result else
  '(result, dev_rep) ← (match mode with
    | DMA_COPY_MODE_DPU => open_doca_device_rep_with_pci
    | DMA_COPY_MODE_HOST => mret (DOCA_SUCCESS, Null)
    end);
  if negb (ok result) then init_close_device result else
  result ← set_cc_properties mode;
  if negb (ok result) then
    match mode with
    | DMA_COPY_MODE_DPU => _ ← call dev_rep_close; init_close_device result
    | DMA_COPY_MODE_HOST => init_close_device result
    end
  else mret (result, dev_rep).

(** ** Status messages *)

(** Reading a status that no byte was received for is reading an uninitialised
    variable. *)
Definition wait_for_successful_status_msg : io doca_error :=
  '(result, m) ← recv 1;
  if negb (ok result) then mret result
  else
    match m with
    | [] => Undef
    | b :: _ => mret (if truthy b then DOCA_SUCCESS else DOCA_ERROR_INVALID_VALUE)
    end.

Definition send_status_msg (status : bool) : io doca_error := send (cc_msg_dma_status status).

(** ** Files *)

Definition save_buffer_into_a_file (cfg : dma_copy_cfg) (buffer : Z) : io doca_error :=
  fp ← Fopen true Ret;
  if negb fp then mret DOCA_ERROR_IO_FAILED
  else
    b ← load buffer (file_size cfg);
    n ← Fwrite b Ret;
    _ ← Fclose fclose Ret;
    mret (if n =? file_size cfg then DOCA_SUCCESS else DOCA_ERROR_IO_FAILED).

Definition fill_buffer_with_file_content (cfg : dma_copy_cfg) (buffer : Z) : io doca_error :=
  fp ← Fopen false Ret;
  if negb fp then mret DOCA_ERROR_IO_FAILED
  else
    b ← Fread (file_size cfg) Ret;
    _ ← store buffer b;
    _ ← call fclose;
    mret (if Z.of_nat (length b) =? file_size cfg then DOCA_SUCCESS else DOCA_ERROR_IO_FAILED).

(** ** Memory *)

Definition memory_alloc_and_populate (mmap : dmap) (buffer_len access_flags : Z) : io (doca_error * Z) :=
  result ← call (mmap_set_permissions mmap access_flags);
  if negb (ok result) then mret (result, 0) else
  r ← Malloc buffer_len Ret;
  match r with
  | None => mret (DOCA_ERROR_NO_MEMORY, 0)
  | Some buffer =>
      result ← call (mmap_set_memrange mmap buffer buffer_len);
      if negb (ok result) then _ ← free buffer; mret (result, buffer) else
      result ← call (mmap_start mmap);
      if negb (ok result) then _ ← free buffer; mret (result, buffer) else
      mret (result, buffer)
  end.

(** [check_dev_dma_capable] and [open_dma_device] *)
Definition check_dev_dma_capable (i : Z) : io doca_error := call (cap_is_supported i).
Definition open_dma_device : io (doca_error * ptr) := open_doca_device_with_capabilities WorkDev check_dev_dma_capable.

(** ** The host *)

(** Returns the configuration and whether the peer's address is known. *)
Definition host_negotiate_dma_direction_and_size (cfg : dma_copy_cfg) : io (doca_error * ptr * dma_copy_cfg) :=
  result ← call comm_channel_ep_connect;
  if negb (ok result) then mret (result, Null, cfg) else
  result ← call comm_channel_peer_addr_update_info;
  if negb (ok result) then mret (result, Obj, cfg) else
  let m := if is_file_found_locally cfg then cc_msg_dma_direction true (htonq (file_size cfg))
           else cc_msg_dma_direction false 0 in
  result ← send m;
  if negb (ok result) then mret (result, Obj, cfg) else
  '(result, d) ← recv sizeof_direction;
  if negb (ok result) then mret (result, Obj, cfg) else
  if negb (Z.of_nat (length d) =? sizeof_direction) then mret (DOCA_ERROR_INVALID_VALUE, Obj, cfg) else
  mret (DOCA_SUCCESS, Obj,
        if is_file_found_locally cfg then cfg else set_file_size (ntohq true (msg_file_size d)) cfg).

Definition host_export_memory_map_to_dpu : io doca_error :=
  '(result, desc) ← call_bytes (mmap_export_pci HostMmap);
  if negb (ok result) then mret result else
  result ← send desc;
  if negb (ok result) then mret result else
  wait_for_successful_status_msg.

Definition host_send_addr_and_offset (src_buffer src_buffer_size : Z) : io doca_error :=
  let addr_to_send := htonq src_buffer in
  let length_to_send := htonq src_buffer_size in
  result ← send (u64_bytes addr_to_send);
  if negb (ok result) then mret result else
  result ← wait_for_successful_status_msg;
  if negb (ok result) then mret result else
  result ← send (u64_bytes length_to_send);
  if negb (ok result) then mret result else
  wait_for_successful_status_msg.

(** The labels of host_start_dma_copy. *)
Definition host_close_device (result : doca_error) : io doca_error :=
  tmp_result ← call (dev_close WorkDev);
  mret (propagate result tmp_result).
Definition host_destroy_mmap (result : doca_error) : io doca_error :=
  tmp_result ← call (mmap_destroy HostMmap);
  host_close_device (propagate result tmp_result).
Definition host_free_buffer (buffer : Z) (result : doca_error) : io doca_error :=
  _ ← free buffer;
  host_destroy_mmap result.

(** From the export of the memory map on. *)
Definition host_transfer (cfg : dma_copy_cfg) (buffer : Z) : io doca_error :=
  result ← host_export_memory_map_to_dpu;
  if negb (ok result) then mret result else
  result ← (if is_file_found_locally cfg then fill_buffer_with_file_content cfg buffer else mret DOCA_SUCCESS);
  if negb (ok result) then mret result else
  result ← host_send_addr_and_offset buffer (file_size cfg);
  if negb (ok result) then mret result else
  result ← wait_for_successful_status_msg;
  if negb (ok result) then mret result else
  if negb (is_file_found_locally cfg) then save_buffer_into_a_file cfg buffer else mret result.

(** From the opening of the device on. *)
Definition host_copy (cfg : dma_copy_cfg) : io doca_error :=
  let dpu_access := if is_file_found_locally cfg then DOCA_ACCESS_FLAG_PCI_READ_ONLY else DOCA_ACCESS_FLAG_PCI_READ_WRITE in
  '(result, _) ← open_dma_device;
  if negb (ok result) then mret result else
  result ← call (mmap_create HostMmap);
  if negb (ok result) then host_close_device result else
  result ← call (mmap_add_dev HostMmap);
  if negb (ok result) then host_destroy_mmap result else
  '(result, buffer) ← memory_alloc_and_populate HostMmap (file_size cfg) dpu_access;
  if negb (ok result) then host_destroy_mmap result else
  result ← host_transfer cfg buffer;
  host_free_buffer buffer result.

Definition host_start_dma_copy (cfg : dma_copy_cfg) : io (doca_error * ptr) :=
  '(result, peer, cfg) ← host_negotiate_dma_direction_and_size cfg;
  if negb (ok result) then mret (result, peer) else
  result ← host_copy cfg;
  mret (result, peer).

(** ** The DPU *)

Definition dpu_negotiate_dma_direction_and_size (cfg : dma_copy_cfg) (max_buf_size : Z)
    : io (doca_error * ptr * dma_copy_cfg) :=
  let dpu_dma_direction := if is_file_found_locally cfg then cc_msg_dma_direction false (htonq (file_size cfg))
                           else cc_msg_dma_direction true 0 in
  result ← call comm_channel_ep_listen;
  if negb (ok result) then mret (result, Null, cfg) else
  '(result, h) ← recv sizeof_direction;
  if negb (ok result) then _ ← send_status_msg STATUS_FAILURE; mret (result, Null, cfg) else
  if negb (Z.of_nat (length h) =? sizeof_direction) then
    _ ← send_status_msg STATUS_FAILURE; mret (DOCA_ERROR_INVALID_VALUE, Obj, cfg) else
  if is_file_found_locally cfg && msg_file_in_host h then
    _ ← send_status_msg STATUS_FAILURE; mret (DOCA_ERROR_INVALID_VALUE, Obj, cfg) else
  if negb (is_file_found_locally cfg) && negb (msg_file_in_host h) then
    _ ← send_status_msg STATUS_FAILURE; mret (DOCA_ERROR_INVALID_VALUE, Obj, cfg) else
  let cfg := if is_file_found_locally cfg then cfg else set_file_size (ntohq true (msg_file_size h)) cfg in
  if max_buf_size <? file_size cfg then
    result ← send (cc_msg_dma_status false);
    if negb (ok result) then mret (result, Obj, cfg) else mret (DOCA_ERROR_INVALID_VALUE, Obj, cfg)
  else
    result ← send dpu_dma_direction;
    mret (result, Obj, cfg).

Definition dpu_receive_export_desc : io (doca_error * list Z) :=
  '(result, desc) ← recv CC_MAX_MSG_SIZE;
  if negb (ok result) then _ ← send_status_msg STATUS_FAILURE; mret (result, []) else
  result ← send_status_msg STATUS_SUCCESS;
  mret (result, desc).

(** Receives a number and acknowledges it; a message of fewer than eight bytes
    leaves part of the variable uninitialised. *)
Definition dpu_receive_u64 : io (doca_error * Z) :=
  '(result, m) ← recv 8;
  if negb (ok result) then _ ← send_status_msg STATUS_FAILURE; mret (result, 0) else
  if negb (Z.of_nat (length m) =? 8) then Undef else
  let received := ntohq true (bytes_u64 m) in
  if SIZE_MAX <? received then _ ← send_status_msg STATUS_FAILURE; mret (DOCA_ERROR_INVALID_VALUE, 0) else
  result ← send_status_msg STATUS_SUCCESS;
  mret (result, received).

Definition dpu_receive_addr_and_offset : io (doca_error * Z * Z) :=
  '(result, host_addr) ← dpu_receive_u64;
  if negb (ok result) then mret (result, 0, 0) else
  '(result, host_offset) ← dpu_receive_u64;
  mret (result, host_addr, host_offset).

(** The callbacks of the task: the tasks that remain, and the task's result. *)
Definition dma_memcpy_completed_callback (num_remaining_tasks : Z) : Z * doca_error :=
  (wrap 64 (num_remaining_tasks - 1), DOCA_SUCCESS).
Definition dma_memcpy_error_callback (num_remaining_tasks : Z) (status : doca_error) : Z * doca_error :=
  (wrap 64 (num_remaining_tasks - 1), status).

(** What the engine does with a submitted task, and which callback it runs. *)
Definition run_dma_task (to_host : bool) (buffer host_addr n num_remaining_tasks : Z) : io (Z * doca_error) :=
  e ← (if to_host then b ← load buffer n; DmaWrite host_addr b Ret
       else
         '(e, b) ← DmaRead host_addr n (fun e b => Ret (e, b));
         if ok e then _ ← store buffer b; mret e else mret e);
  mret (if ok e then dma_memcpy_completed_callback num_remaining_tasks
        else dma_memcpy_error_callback num_remaining_tasks e).

(** [while (num_remaining_tasks > 0)]: one task is under way, and the loop ends
    with its callback; it would not end if tasks remained. *)
Definition dpu_submit_dma_task (cfg : dma_copy_cfg) (bytes_to_copy buffer host_addr num_remaining_tasks : Z)
    : io doca_error :=
  let src_buf := if is_file_found_locally cfg then LocalBuf else RemoteBuf in
  let dst_buf := if is_file_found_locally cfg then RemoteBuf else LocalBuf in
  result ← call (buf_get_data src_buf);
  if negb (ok result) then mret result else
  result ← call (buf_set_data src_buf bytes_to_copy);
  if negb (ok result) then mret result else
  result ← call (task_alloc_init src_buf dst_buf);
  if negb (ok result) then mret result else
  let free_task result := _ ← call task_free; mret result in
  result ← call task_submit;
  if negb (ok result) then free_task result else
  '(remaining, task_result) ← run_dma_task (is_file_found_locally cfg) buffer host_addr bytes_to_copy num_remaining_tasks;
  if 0 <? remaining then Undef else
  if negb (ok task_result) then free_task task_result else
  if negb (is_file_found_locally cfg) then
    result ← save_buffer_into_a_file cfg buffer;
    if negb (ok result) then mret result else free_task result
  else free_task result.

(** struct dma_copy_resources: the address and content of [state], [dma_ctx] *)
Record dma_copy_resources := Resources { state_addr : Z; state : core; dma_ctx : ptr }.

Definition destroy_dma_copy_resources (r : dma_copy_resources) : io doca_error :=
  result ← destroy_obj (dma_ctx r) engine_destroy DOCA_SUCCESS;
  '(tmp_result, _) ← destroy_core_objects no_cbs (state r);
  _ ← free (state_addr r);
  mret (propagate result tmp_result).

Definition sizeof_core : Z := 48.
Definition garbage_core : core := Core Garbage Garbage Garbage Garbage Garbage Garbage.

(** The labels of allocate_dma_copy_resources. *)
Definition alloc_free_state (r : dma_copy_resources) (result : doca_error) : io (doca_error * dma_copy_resources) :=
  _ ← free (state_addr r);
  mret (result, r).
Definition alloc_destroy_core_objects (r : dma_copy_resources) (result : doca_error)
    : io (doca_error * dma_copy_resources) :=
  '(tmp_result, _) ← destroy_core_objects no_cbs (state r);
  alloc_free_state r (propagate result tmp_result).
Definition alloc_destroy_dma (r : dma_copy_resources) (result : doca_error) : io (doca_error * dma_copy_resources) :=
  tmp_result ← call engine_destroy;
  alloc_destroy_core_objects r (propagate result tmp_result).

Definition allocate_dma_copy_resources : io (doca_error * dma_copy_resources) :=
  m ← Malloc sizeof_core Ret;
  match m with
  | None => mret (DOCA_ERROR_NO_MEMORY, Resources 0 garbage_core Null)
  | Some a =>
      '(result, d) ← open_dma_device;
      let r := Resources a (set_dev d garbage_core) Null in
      if negb (ok result) then alloc_free_state r result else
      '(result, st) ← create_core_objects (state r) 2;
      let r := Resources a st Null in
      if negb (ok result) then alloc_destroy_core_objects r result else
      result ← call engine_create;
      if negb (ok result) then alloc_destroy_core_objects r result else
      let r := Resources a (set_ctx Obj st) Obj in
      result ← call pe_connect_ctx;
      if negb (ok result) then alloc_destroy_dma r result else
      result ← call (task_set_conf NUM_DMA_TASKS);
      if negb (ok result) then alloc_destroy_dma r result else
      mret (result, r)
  end.

(** The labels of dpu_start_dma_copy. *)
Definition dpu_destroy_dma_resources (r : dma_copy_resources) (result : doca_error) : io doca_error :=
  tmp_result ← destroy_dma_copy_resources r;
  mret (propagate result tmp_result).
Definition dpu_stop_dma (r : dma_copy_resources) (result : doca_error) : io doca_error :=
  tmp_result ← request_stop_ctx;
  dpu_destroy_dma_resources (Resources (state_addr r) (set_ctx Null (state r)) (dma_ctx r)) (propagate result tmp_result).
Definition dpu_destroy_remote_mmap (result : doca_error) : io doca_error :=
  tmp_result ← call (mmap_destroy RemoteMmap);
  mret (propagate result tmp_result).
Definition dpu_destroy_remote_buf (result : doca_error) : io doca_error :=
  tmp_result ← call (buf_dec_refcount RemoteBuf);
  dpu_destroy_remote_mmap (propagate result tmp_result).
Definition dpu_destroy_local_buf (result : doca_error) : io doca_error :=
  tmp_result ← call (buf_dec_refcount LocalBuf);
  dpu_destroy_remote_buf (propagate result tmp_result).

(** From the construction of the two buffers on. *)
Definition dpu_copy (cfg : dma_copy_cfg) (buffer host_dma_addr host_dma_offset num_remaining_tasks : Z) : io doca_error :=
  result ← call (buf_get_by_addr RemoteBuf RemoteMmap host_dma_addr host_dma_offset);
  if negb (ok result) then _ ← send_status_msg STATUS_FAILURE; dpu_destroy_remote_mmap result else
  result ← call (buf_get_by_addr LocalBuf SrcMmap buffer host_dma_offset);
  if negb (ok result) then _ ← send_status_msg STATUS_FAILURE; dpu_destroy_remote_buf result else
  result ← (if is_file_found_locally cfg then fill_buffer_with_file_content cfg buffer else mret DOCA_SUCCESS);
  if negb (ok result) then _ ← send_status_msg STATUS_FAILURE; dpu_destroy_local_buf result else
  result ← dpu_submit_dma_task cfg host_dma_offset buffer host_dma_addr num_remaining_tasks;
  _ ← send_status_msg (if ok result then STATUS_SUCCESS else STATUS_FAILURE);
  dpu_destroy_local_buf result.

(** From the reception of the export descriptor on. *)
Definition dpu_transfer (cfg : dma_copy_cfg) (buffer num_remaining_tasks : Z) : io doca_error :=
  '(result, desc) ← dpu_receive_export_desc;
  if negb (ok result) then mret result else
  result ← call (mmap_create_from_export RemoteMmap desc);
  if negb (ok result) then mret result else
  '(result, host_dma_addr, host_dma_offset) ← dpu_receive_addr_and_offset;
  if negb (ok result) then dpu_destroy_remote_mmap result else
  dpu_copy cfg buffer host_dma_addr host_dma_offset num_remaining_tasks.

Definition get_dma_max_buf_size : io (doca_error * Z) := call_num cap_task_get_max_buf_size.

(** After the negotiation, up to the label stop_dma. *)
Definition dpu_work (cfg : dma_copy_cfg) (access_flags num_remaining_tasks : Z) : io doca_error :=
  '(result, buffer) ← memory_alloc_and_populate SrcMmap (file_size cfg) access_flags;
  if negb (ok result) then mret result else
  result ← dpu_transfer cfg buffer num_remaining_tasks;
  _ ← free buffer;
  mret result.

Definition dpu_start_dma_copy (cfg : dma_copy_cfg) : io (doca_error * ptr) :=
  let access_flags := if is_file_found_locally cfg then DOCA_ACCESS_FLAG_LOCAL_READ_ONLY else DOCA_ACCESS_FLAG_LOCAL_READ_WRITE in
  let num_remaining_tasks := 1 in
  '(result, r) ← allocate_dma_copy_resources;
  if negb (ok result) then mret (result, Null) else
  '(result, max_buf_size) ← get_dma_max_buf_size;
  if negb (ok result) then result ← dpu_destroy_dma_resources r result; mret (result, Null) else
  _ ← call ctx_set_user_data;
  result ← call ctx_start;
  if negb (ok result) then result ← dpu_destroy_dma_resources r result; mret (result, Null) else
  '(result, peer, cfg) ← dpu_negotiate_dma_direction_and_size cfg max_buf_size;
  result ← (if negb (ok result) then mret result else dpu_work cfg access_flags num_remaining_tasks);
  result ← dpu_stop_dma r result;
  mret (result, peer).

(** ** main *)

Definition start_dma_copy (cfg : dma_copy_cfg) : io (doca_error * ptr) :=
  match mode cfg with
  | DMA_COPY_MODE_HOST => host_start_dma_copy cfg
  | DMA_COPY_MODE_DPU => dpu_start_dma_copy cfg
  end.

(** Between doca_argp_init and doca_argp_destroy; doca_argp_start runs the
    parameter callbacks and then the validation callback. *)
Definition run (mode : dma_copy_mode) : io Z :=
  let dma_cfg := Cfg mode false 0 in
  result ← register_dma_copy_params;
  if negb (ok result) then mret EXIT_FAILURE else
  result ← call argp_start;
  if negb (ok result) then mret EXIT_FAILURE else
  '(result, dma_cfg) ← args_validation_callback dma_cfg;
  if negb (ok result) then mret EXIT_FAILURE else
  '(result, dev_rep) ← init_cc mode;
  if negb (ok result) then mret EXIT_FAILURE else
  '(result, peer_addr) ← start_dma_copy dma_cfg;
  _ ← destroy_cc peer_addr dev_rep;
  mret (if ok result then EXIT_SUCCESS else EXIT_FAILURE).

Definition main (mode : dma_copy_mode) : io Z :=
  result ← call (log_backend 0);
  if negb (ok result) then mret EXIT_FAILURE else
  result ← call (log_backend 1);
  if negb (ok result) then mret EXIT_FAILURE else
  result ← call (log_backend 2);
  if negb (ok result) then mret EXIT_FAILURE else
  result ← call argp_init;
  if negb (ok result) then mret EXIT_FAILURE else
  exit_status ← run mode;
  _ ← call argp_destroy;
  mret exit_status.
