(* ===== verification/DocaSpec.v ===== *)
(** * DOCA objects: what the helpers acquire and release

    [hwp] specifications of DocaCommon.v: a device that opens is the only thing
    its search leaves behind, the core objects are all created or none is, and
    destroying them gives everything back.  [wp] rules for the interactions
    that are not calls. *)

From stdpp Require Import gmap.
From S2P Require Import Prelude Proc ProcSpec DocaCommon.
#[local] Open Scope Z_scope.

Lemma ok_true e : ok e = true <-> e = DOCA_SUCCESS.
Proof. by destruct e. Qed.

Lemma propagate_ok t : propagate DOCA_SUCCESS t = t.
Proof. done. Qed.

Lemma ok_propagate r t : ok (propagate r t) = ok r && ok t.
Proof. unfold propagate. by destruct (ok r) eqn:E. Qed.

Section Specs.
Context (mx : dcall -> Z -> list Z -> Prop) (good : bool) (must : dcall -> bool).
Notation W := (doca_world mx good must).

(** The call went wrong, which it may. *)
Definition fault (c : dcall) : Prop := good = false /\ must c = false.

Lemma may_call c e : may W c e -> c <> ctx_stop -> e = DOCA_SUCCESS \/ fault c /\ ok e = false.
Proof using.
  intros [[->|[-> _]]|Hf] Hc; [by left|done|]. destruct (ok e) eqn:E; [apply ok_true in E as ->; by left|by right].
Qed.

Lemma hwp_ret {A} (a : A) (Q : A -> list dres -> Prop) h : Q a h -> hwp W (mret a) Q h.
Proof using. done. Qed.

Lemma hwp_tail (c : dcall) Q h :
  usable_held W c h = true -> (forall e, may W c e -> Q e (after_held W c e h)) -> hwp W (call c) Q h.
Proof using. intros Hu HQ. split; [done|]. intros e n b He _. by apply HQ. Qed.

(** One call: it succeeds, or it is at fault. *)
Ltac hcase :=
  let e := fresh "e" in let He := fresh "He" in
  intros e He; destruct (may_call _ e He ltac:(discriminate)) as [->|[? ?]]; clear He.
Ltac hcall := cbv beta iota; first [apply hwp_call | apply hwp_tail]; [reflexivity|hcase].
Ltac hsimp := unfold after_held; cbn [negb ok andb orb]; repeat match goal with H : ok ?e = false |- _ => rewrite H end;
  cbn [negb ok andb orb acq rel same doca_world acquires releases remove1 dres_eqb ddev_eqb dmap_eqb dbuf_eqb fst snd].

(** ** Devices *)

(** Opening [r] either leaves [r] or nothing. *)
Definition opens_ok (r : dres) (opens : Z -> prog dcall bool) : Prop := forall i h,
  hwp W (opens i) (fun b h' => h' = (if b then r :: h else h) /\ (good = true -> b = true)) h.

Definition opened (r : dres) (h : list dres) (x : doca_error * ptr) (h' : list dres) : Prop :=
  x = (DOCA_SUCCESS, Obj) /\ h' = r :: h \/ ok x.1 = false /\ x.2 = Null /\ h' = h /\ good = false.

Lemma search_ok r opens nb i h : opens_ok r opens -> (good = true -> nb <> O) ->
  hwp W (search nb i opens) (fun b h' => h' = (if b then r :: h else h) /\ (good = true -> b = true)) h.
Proof using.
  intros Ho Hn. revert i. induction nb as [|nb IH]; intros i; cbn [search].
  - split; [done|]. intros Hg. by destruct (Hn Hg).
  - apply hwp_bind. eapply hwp_mono; [|apply Ho]. intros [] h' [-> Hg]; [done|].
    assert (good = false) by (destruct good; [by discriminate Hg|done]).
    destruct nb as [|nb]; [cbn; split; [done|congruence]|]. apply IH. congruence.
Qed.

Lemma open_dev_ok d func :
  (forall f, func = Some f -> forall i h,
     hwp W (f i) (fun e h' => h' = h /\ (good = true -> e = DOCA_SUCCESS)) h) ->
  opens_ok (RDev d) (open_dev d func).
Proof using.
  intros Hf i h. unfold open_dev. apply hwp_bind.
  assert (Hc : hwp W (match func with Some f => f i | None => mret DOCA_SUCCESS end)
    (fun e h' => h' = h /\ (good = true -> e = DOCA_SUCCESS)) h) by (destruct func; [by apply Hf|done]).
  eapply hwp_mono; [|exact Hc]. intros e h' [-> He]. cbv beta.
  destruct (ok e) eqn:E; [|split; [done|]; intros Hg; by rewrite (He Hg) in E].
  hcall; hsimp; (split; [done|]); [done|]. unfold fault in *. destruct good; naive_solver.
Qed.

(** The list is released whatever was found. *)
Lemma with_dev_list_ok r opens h :
  dres_eqb r RDevList = false -> opens_ok r opens -> hwp W (with_dev_list opens) (opened r h) h.
Proof using.
  intros Hr Ho. unfold with_dev_list. apply hwp_call_num; [done|]. intros e n b He [Hn Hg].
  destruct (may_call _ e He ltac:(discriminate)) as [->|[[Hf _] He']]; hsimp; [|by right].
  apply hwp_bind. eapply hwp_mono; [|apply search_ok; [exact Ho|]].
  2: { intros Hgood. specialize (Hg Hgood). lia. }
  intros found h' [-> Hfound]. apply hwp_call; [destruct found; cbn; by rewrite ?Hr|].
  intros e _. unfold after_held. destruct found; cbn; rewrite ?Hr; [by left|].
  right. split_and!; [done..|]. destruct good; [by discriminate Hfound|done].
Qed.
Lemma call_ok c i0 h : acquires (c i0) = None -> releases (c i0) = None -> c i0 <> ctx_stop ->
  hwp W (call (c (i0 : Z))) (fun e h' => h' = h /\ (good = true -> e = DOCA_SUCCESS)) h.
Proof using.
  intros Ha Hr Hc. apply hwp_tail; [by unfold usable_held; cbn; rewrite Hr|]. intros e He.
  unfold after_held. cbn. rewrite Ha, Hr. split; [done|]. intros Hg.
  destruct (may_call _ e He Hc) as [?|[[Hf _] _]]; congruence.
Qed.

Lemma open_with_capabilities_ok d h :
  hwp W (open_doca_device_with_capabilities d (fun i => call (cap_is_supported i))) (opened (RDev d) h) h.
Proof using.
  apply with_dev_list_ok; [done|]. apply open_dev_ok. intros f [= <-] i h'. by apply call_ok.
Qed.

(** A device by its address; [r] is what opening it acquires. *)
Lemma by_addr_ok (c : Z -> dcall) (opens : Z -> prog dcall bool) r :
  (forall i, acquires (c i) = None) -> (forall i, releases (c i) = None) -> (forall i, c i <> ctx_stop) ->
  (forall i n b, outs W (c i) n b -> good = true -> n <> 0) -> opens_ok r opens ->
  opens_ok r (fun i => '(res, is_addr_equal) ← call_num (c i);
                if ok res && truthy is_addr_equal then opens i else mret false).
Proof using.
  intros Ha Hr Hc Hn Ho i h. apply hwp_call_num; [by unfold usable_held; cbn; rewrite Hr|].
  intros e n b He Hout. unfold after_held. cbn [acq rel doca_world]. rewrite Ha, Hr.
  destruct (may_call _ e He (Hc i)) as [->|[[Hf _] ->]]; cbn [ok andb].
  2: { split; [done|]. congruence. }
  unfold truthy. destruct (Z.eqb_spec n 0) as [->|?]; cbn [negb]; [|apply Ho].
  split; [done|]. intros Hg. by destruct (Hn _ _ _ Hout Hg).
Qed.

Lemma open_with_pci_ok d h : hwp W (open_doca_device_with_pci d None) (opened (RDev d) h) h.
Proof using.
  apply with_dev_list_ok; [done|]. apply by_addr_ok; try done; [by intros i n b [_ Hn]|].
  by apply open_dev_ok.
Qed.

Lemma open_rep_with_pci_ok h : hwp W open_doca_device_rep_with_pci (opened RRep h) h.
Proof using.
  unfold open_doca_device_rep_with_pci. apply hwp_call_num; [done|]. intros e n b He [Hn Hg].
  destruct (may_call _ e He ltac:(discriminate)) as [->|[[Hf _] He']]; hsimp; [|by right].
  apply hwp_bind. eapply hwp_mono; [|apply (search_ok RRep)].
  - intros found h' [-> Hfound]. apply hwp_call; [by destruct found|].
    intros e _. unfold after_held. destruct found; cbn; [by left|].
    right. split_and!; [done..|]. destruct good; [by discriminate Hfound|done].
  - apply (by_addr_ok devinfo_rep_is_equal_pci_addr (fun i => res ← call (dev_rep_open i); mret (ok res)) RRep); try done; [by intros i' n' b' [_ Hn']|].
    intros i' h'. hcall; hsimp; (split; [done|]); [done|]. unfold fault in *. destruct good; naive_solver.
  - intros Hgood. specialize (Hg Hgood). lia.
Qed.

(** ** Core objects *)

(** Core objects are created together or not at all. *)
Definition core_res : list dres := [RPe; RInventory; RMmap DstMmap; RMmap SrcMmap].
Definition full_core (st : core) : core := set_pe Obj (set_buf_inv Obj (set_dst_mmap Obj (set_src_mmap Obj st))).
Definition core_call (c : dcall) : bool :=
  match c with
  | mmap_create SrcMmap | mmap_create DstMmap | mmap_add_dev SrcMmap | mmap_add_dev DstMmap
  | buf_inventory_create _ | buf_inventory_start | pe_create => true
  | _ => false
  end.

Lemma create_core_objects_ok st n h : n <> 0 ->
  hwp W (create_core_objects st n)
    (fun x h' => x = (DOCA_SUCCESS, full_core st) /\ h' = core_res ++ h \/
                 ok x.1 = false /\ h' = h /\ exists c, fault c /\ core_call c = true) h.
Proof using.
  intros Hn. apply Z.eqb_neq in Hn. unfold create_core_objects. rewrite Hn. cbn [negb].
  assert (Hsrc : forall e st' c, ok e = false -> fault c -> core_call c = true ->
    hwp W (destroy_src e st') (fun x h' => x = (DOCA_SUCCESS, full_core st) /\ h' = core_res ++ h \/
      ok x.1 = false /\ h' = h /\ exists c, fault c /\ core_call c = true) (RMmap SrcMmap :: h)).
  { intros e st' c He Hf Hc. apply hwp_call; [done|]. intros e' _. unfold after_held. cbn. right. eauto. }
  assert (Hdst : forall e st' c, ok e = false -> fault c -> core_call c = true ->
    hwp W (destroy_dst e st') (fun x h' => x = (DOCA_SUCCESS, full_core st) /\ h' = core_res ++ h \/
      ok x.1 = false /\ h' = h /\ exists c, fault c /\ core_call c = true) (RMmap DstMmap :: RMmap SrcMmap :: h)).
  { intros e st' c He Hf Hc. apply hwp_call; [done|]. intros e' _. unfold after_held. cbn. by eapply Hsrc. }
  assert (Hinv : forall e st' c, buf_inv st' = Obj -> ok e = false -> fault c -> core_call c = true ->
    hwp W (destroy_inv e st') (fun x h' => x = (DOCA_SUCCESS, full_core st) /\ h' = core_res ++ h \/
      ok x.1 = false /\ h' = h /\ exists c, fault c /\ core_call c = true)
      (RInventory :: RMmap DstMmap :: RMmap SrcMmap :: h)).
  { intros e st' c Hb He Hf Hc. unfold destroy_inv. rewrite Hb. cbn [not_null mbind prog_bind mret prog_ret].
    apply hwp_call; [done|]. intros e' _. unfold after_held. cbn. by eapply Hdst. }
  hcall; hsimp; [|apply hwp_ret; right; by eauto].
  do 6 (hcall; hsimp; [|first [eapply Hsrc|eapply Hdst|eapply Hinv]; by eauto]). by left.
Qed.

(** Destroying them gives them back, with the device. *)
Lemma hwp_release {A} c r e h h' (k : doca_error -> prog dcall A) Q :
  releases c = Some r -> acquires c = None -> c <> ctx_stop -> usable_held W c h = true -> remove1 W r h = h' ->
  (forall e', (ok e' = true -> ok e = true) -> (good = true -> e' = e) -> hwp W (k e') Q h') ->
  hwp W (tmp_result ← call c; k (propagate e tmp_result)) Q h.
Proof using.
  intros Hr Ha Hc Hu Hh Hk. apply hwp_call; [done|].
  intros e' He. unfold after_held. cbn [rel acq doca_world]. rewrite Hr, Ha, Hh. apply Hk.
  - rewrite ok_propagate. by intros [? _]%andb_prop.
  - intros Hg. destruct (may_call _ e' He Hc) as [->|[[Hf _] _]]; [|congruence]. unfold propagate. by destruct e.
Qed.

(** What a label of a clean-up does to the result. *)
Definition kept (e : doca_error) (h : list dres) (e' : doca_error) (h' : list dres) : Prop :=
  h' = h /\ (ok e' = true -> ok e = true) /\ (good = true -> e' = e).

Lemma label_kept_trans e e1 e2 h1 h h' : kept e h1 e1 h1 -> kept e1 h e2 h' -> kept e h e2 h'.
Proof using. intros (_ & A1 & A2) (-> & B1 & B2). split_and!; [done|auto|]. intros Hg. rewrite (B2 Hg); auto. Qed.

(** A task may be left behind, above the rest. *)
Definition leak (lk : list dres) : Prop := lk = [] \/ lk = [RTask].

Lemma destroy_obj_ok c r e h h' : releases c = Some r -> acquires c = None -> c <> ctx_stop ->
  usable_held W c h = true -> remove1 W r h = h' -> hwp W (destroy_obj Obj c e) (kept e h') h.
Proof using. intros. by apply (hwp_release _ r e h h' mret). Qed.

Lemma destroy_core_objects_ok st lk h : leak lk ->
  dev st = Obj -> src_mmap st = Obj -> dst_mmap st = Obj -> buf_inv st = Obj -> pe st = Obj ->
  hwp W (destroy_core_objects no_cbs st) (fun x h' => h' = lk ++ h /\ (good = true -> x.1 = DOCA_SUCCESS))
    (lk ++ core_res ++ RDev WorkDev :: h).
Proof using.
  intros Hl H1 H2 H3 H4 H5.
  assert (Hs : forall c r (e0 e : doca_error) (h0 h1 : list dres) A (k : doca_error -> prog dcall A) Q,
    releases c = Some r -> acquires c = None -> c <> ctx_stop -> usable_held W c h0 = true -> remove1 W r h0 = h1 ->
    (good = true -> e = DOCA_SUCCESS) ->
    (forall e', (good = true -> e' = DOCA_SUCCESS) -> hwp W (k e') Q h1) -> hwp W (destroy_obj Obj c e ≫= k) Q h0).
  { intros c r e0 e h0 h1 A k Q Hr Ha Hc Hu Hh He Hk. apply hwp_bind.
    eapply hwp_mono; [|by apply (destroy_obj_ok c r e h0 h1)]. intros e' h' (-> & _ & E). apply Hk. intros Hg. by rewrite E, He. }
  unfold destroy_core_objects. rewrite H5.
  destruct Hl as [-> | ->]; cbn [app core_res].
  all: eapply (Hs _ RPe DOCA_SUCCESS); [done..|]; intros e1 G1; cbn [buf_inv set_pe]; rewrite H4.
  all: eapply (Hs _ RInventory DOCA_SUCCESS); [done..|]; intros e2 G2; cbn [dst_mmap set_buf_inv set_pe]; rewrite H3.
  all: eapply (Hs _ (RMmap DstMmap) DOCA_SUCCESS); [done..|]; intros e3 G3;
    cbn [src_mmap set_dst_mmap set_buf_inv set_pe]; rewrite H2.
  all: eapply (Hs _ (RMmap SrcMmap) DOCA_SUCCESS); [done..|]; intros e4 G4;
    cbn [dev set_src_mmap set_dst_mmap set_buf_inv set_pe]; rewrite H1.
  all: by eapply (Hs _ (RDev WorkDev) DOCA_SUCCESS).
Qed.

Lemma request_stop_ctx_ok lk h : leak lk ->
  hwp W request_stop_ctx (fun e h' => h' = lk ++ h /\ (good = true -> e = DOCA_SUCCESS)) (lk ++ RRunning :: h).
Proof using.
  intros Hl. unfold request_stop_ctx. apply hwp_call; [by destruct Hl as [-> | ->]|]. intros e He.
  replace (after_held W ctx_stop e (lk ++ RRunning :: h)) with (lk ++ h) by (by destruct Hl as [-> | ->]).
  case_decide as Hd.
  - hcall; hsimp; (split; [done|]); unfold fault in *; [done|]. destruct good; naive_solver.
  - split; [done|]. intros Hg. rewrite propagate_ok. destruct He as [[?|[_ ?]]|[Hf _]]; [done|done|]. cbn in Hf. congruence.
Qed.
(** ** Calls that neither acquire nor release *)

(** Leaves what is held alone, and succeeds where nothing fails. *)
Definition plain (h : list dres) (e : doca_error) (h' : list dres) : Prop := h' = h /\ (good = true -> e = DOCA_SUCCESS).

Lemma plain_call c h : acquires c = None -> releases c = None -> c <> ctx_stop -> hwp W (call c) (plain h) h.
Proof using. intros. by apply (call_ok (fun _ => c) 0). Qed.

Lemma plain_then (p : prog dcall doca_error) (q : doca_error -> prog dcall doca_error) h :
  hwp W p (plain h) h -> hwp W (q DOCA_SUCCESS) (plain h) h ->
  hwp W (result ← p; if negb (ok result) then mret result else q result) (plain h) h.
Proof using.
  intros Hp Hq. apply hwp_bind. eapply hwp_mono; [|exact Hp]. intros e h' [-> He]. cbv beta.
  destruct (ok e) eqn:E; [by apply ok_true in E as ->|]. split; [done|]. intros Hg. by rewrite (He Hg) in E.
Qed.

Lemma plain_seq c (q : doca_error -> prog dcall doca_error) h :
  acquires c = None -> releases c = None -> c <> ctx_stop -> hwp W (q DOCA_SUCCESS) (plain h) h ->
  hwp W (result ← call c; if negb (ok result) then mret result else q result) (plain h) h.
Proof using. intros. apply plain_then; [by apply plain_call|done]. Qed.


Lemma register_param_ok h : hwp W register_param (plain h) h.
Proof using. apply (plain_seq _ (fun _ => call argp_register_param)); try done. by apply plain_call. Qed.
End Specs.
#[global] Arguments plain_call {mx good must}. #[global] Arguments plain_then {mx good must}.
#[global] Arguments plain_seq {mx good must}.

(** A call that neither acquires nor releases. *)
Lemma wp_plain {A} mx good must (K : contract dres) (i o : list (list Z)) (Q : A -> side dres -> list (list Z) -> list (list Z) -> Prop)
    c (k : doca_error -> prog dcall A) s :
  framed K -> steady K i o -> inv K s i o -> acquires c = None -> releases c = None -> c <> ctx_stop ->
  wp (doca_world mx good must) K (k DOCA_SUCCESS) Q s i o ->
  (good = false -> forall e, ok e = false -> wp (doca_world mx good must) K (k e) Q s i o) ->
  wp (doca_world mx good must) K (call c ≫= k) Q s i o.
Proof.
  intros HF Hst Hi Ha Hr Hc H1 H2. eapply wp_calls; [done..|by apply plain_call|]. intros e h' [-> He].
  replace (set_held (held s) s) with s by (by destruct s). destruct (ok e) eqn:E; [by apply ok_true in E as ->|].
  destruct good; [by rewrite He in E|]. by apply H2.
Qed.

(** ** Machines on which nothing fails, sides that nobody interferes with *)

Record quiet (K : contract dres) : Prop := {
  q_framed : framed K;
  q_steady : forall i o, steady K i o
}.
Definition calm (K : contract dres) (i o : list (list Z)) : Prop := forall s, inv K s i o.

Section Good.
Context (engine : dcall -> Z -> list Z -> Prop) (must : dcall -> bool).
Notation W := (doca_world engine true must).

Lemma good_may c e : may W c e -> c <> ctx_stop -> e = DOCA_SUCCESS.
Proof using. intros He Hc. by destruct (may_call _ _ _ c e He Hc) as [?|[[? _] _]]. Qed.

Lemma good_fails e : ~ fails W e.
Proof using. by intros [? _]. Qed.

Lemma good_call {A} c (k : doca_error -> prog dcall A) Q h : c <> ctx_stop -> usable_held W c h = true ->
  hwp W (k DOCA_SUCCESS) Q (after_held W c DOCA_SUCCESS h) -> hwp W (call c ≫= k) Q h.
Proof using. intros Hc Hu Hk. apply hwp_call; [done|]. intros e He. by rewrite (good_may c e He Hc). Qed.

Lemma good_tail c Q h : c <> ctx_stop -> usable_held W c h = true ->
  Q DOCA_SUCCESS (after_held W c DOCA_SUCCESS h) -> hwp W (call c) Q h.
Proof using. intros Hc Hu HQ. apply hwp_tail; [done|]. intros e He. by rewrite (good_may c e He Hc). Qed.

Context (K : contract dres) (HQ : quiet K).
Notation post A := (A -> side dres -> list (list Z) -> list (list Z) -> Prop).

Lemma quiet_ok : contract_ok K.
Proof using HQ. apply f_ok, q_framed, HQ. Qed.

Section Rules.
Context (i o : list (list Z)) (Hi : calm K i o) {A : Type} (Q : post A).

Lemma g_hwp {B} (p : prog dcall B) (P : B -> list dres -> Prop) (k : B -> prog dcall A) f m h d :
  hwp W p P h -> (forall a h', P a h' -> wp W K (k a) Q (Side f m h' d) i o) -> wp W K (p ≫= k) Q (Side f m h d) i o.
Proof using HQ Hi. intros Hp Hk. eapply wp_calls; [apply HQ|apply HQ|apply Hi|exact Hp|exact Hk]. Qed.

Lemma g_call c (k : doca_error -> prog dcall A) f m h d : c <> ctx_stop -> usable_held W c h = true ->
  wp W K (k DOCA_SUCCESS) Q (Side f m (after_held W c DOCA_SUCCESS h) d) i o ->
  wp W K (call c ≫= k) Q (Side f m h d) i o.
Proof using HQ Hi.
  intros Hc Hu Hk. eapply (g_hwp (call c) (fun e h' => e = DOCA_SUCCESS /\ h' = after_held W c DOCA_SUCCESS h));
    [by apply good_tail|]. by intros e h' [-> ->].
Qed.

Lemma g_call_num c (k : doca_error * Z -> prog dcall A) f m h d : c <> ctx_stop -> usable_held W c h = true ->
  (forall n b, outs W c n b -> wp W K (k (DOCA_SUCCESS, n)) Q (Side f m (after_held W c DOCA_SUCCESS h) d) i o) ->
  wp W K (call_num c ≫= k) Q (Side f m h d) i o.
Proof using HQ Hi.
  intros Hc Hu Hk. eapply (g_hwp (call_num c)
    (fun x h' => x.1 = DOCA_SUCCESS /\ (exists b, outs W c x.2 b) /\ h' = after_held W c DOCA_SUCCESS h)).
  - split; [done|]. intros e n b He Ho. rewrite (good_may c e He Hc). cbn [hwp fst snd]. eauto.
  - intros [e n] h' (He & (b & Ho) & ->). cbn [fst snd] in *. subst e. by eapply Hk.
Qed.

Lemma g_call_bytes c (k : doca_error * list Z -> prog dcall A) f m h d : c <> ctx_stop -> usable_held W c h = true ->
  (forall n b, outs W c n b -> wp W K (k (DOCA_SUCCESS, b)) Q (Side f m (after_held W c DOCA_SUCCESS h) d) i o) ->
  wp W K (call_bytes c ≫= k) Q (Side f m h d) i o.
Proof using HQ Hi.
  intros Hc Hu Hk. eapply (g_hwp (call_bytes c)
    (fun x h' => x.1 = DOCA_SUCCESS /\ (exists n, outs W c n x.2) /\ h' = after_held W c DOCA_SUCCESS h)).
  - split; [done|]. intros e n b He Ho. rewrite (good_may c e He Hc). cbn [hwp fst snd]. eauto.
  - intros [e b] h' (He & (n & Ho) & ->). cbn [fst snd] in *. subst e. by eapply Hk.
Qed.

Lemma g_ret (a : A) s : Q a s i o -> wp W K (mret a) Q s i o.
Proof using HQ Hi. apply wp_ret; [apply HQ|apply Hi]. Qed.

Lemma g_bind {B} (p : prog dcall B) (k : B -> prog dcall A) s :
  wp W K p (fun b s i o => wp W K (k b) Q s i o) s i o -> wp W K (p ≫= k) Q s i o.
Proof using HQ. apply wp_bind, quiet_ok. Qed.

Lemma g_send msg (k : doca_error -> prog dcall A) s :
  wp W K (k DOCA_SUCCESS) Q s i (o ++ [msg]) -> wp W K (send msg ≫= k) Q s i o.
Proof using HQ Hi. intros Hk. apply wp_send; [apply HQ|apply Hi|done|]. by intros e ?%good_fails. Qed.

Lemma g_recv cap (k : doca_error * list Z -> prog dcall A) s : blk K i o ->
  (forall m, rm K i o m -> Z.of_nat (length m) <= cap /\ wp W K (k (DOCA_SUCCESS, m)) Q s (i ++ [m]) o) ->
  wp W K (recv cap ≫= k) Q s i o.
Proof using HQ Hi. intros Hb Hk. apply wp_recv; [apply HQ|apply Hi|done|done|]. by intros e ?%good_fails. Qed.


Lemma g_malloc n (k : option Z -> prog dcall A) f m h d : 0 <= n -> (exists a, m !! a = None /\ 0 < a < 2 ^ 64) ->
  (forall a b, m !! a = None -> 0 < a < 2 ^ 64 -> Z.of_nat (length b) = n ->
     wp W K (k (Some a)) Q (Side f (<[a := b]> m) h d) i o) ->
  wp W K (Malloc n Ret ≫= k) Q (Side f m h d) i o.
Proof using HQ Hi. intros Hn Ha Hk. by apply wp_malloc; [apply HQ|apply Hi|..]. Qed.

Lemma g_free a (k : unit -> prog dcall A) f m h d : is_Some (m !! a) ->
  wp W K (k tt) Q (Side f (delete a m) h d) i o -> wp W K (free a ≫= k) Q (Side f m h d) i o.
Proof using HQ Hi. intros. by apply wp_free; [apply HQ|apply Hi|..]. Qed.

Lemma g_load a n b (k : list Z -> prog dcall A) f m h d : m !! a = Some b -> n = Z.of_nat (length b) ->
  wp W K (k b) Q (Side f m h d) i o -> wp W K (load a n ≫= k) Q (Side f m h d) i o.
Proof using HQ Hi. intros. by eapply wp_load; [apply HQ|apply Hi|..]. Qed.

Lemma g_store a b c (k : unit -> prog dcall A) f m h d : m !! a = Some c -> (length b <= length c)%nat ->
  wp W K (k tt) Q (Side f (<[a := overwrite b c]> m) h d) i o -> wp W K (store a b ≫= k) Q (Side f m h d) i o.
Proof using HQ Hi. intros. by eapply wp_store; [apply HQ|apply Hi|..]. Qed.

Lemma g_fopen f (k : bool -> prog dcall A) m h d :
  wp W K (k true) Q (Side (Some f) m (RFile :: h) d) i o -> wp W K (Fopen false Ret ≫= k) Q (Side (Some f) m h d) i o.
Proof using HQ Hi. intros. by eapply wp_fopen_r; [apply HQ|apply Hi|..]. Qed.

Lemma g_fsize f (k : option Z -> prog dcall A) m h d :
  wp W K (k (Some (Z.of_nat (length f)))) Q (Side (Some f) m h d) i o ->
  wp W K (Fsize Ret ≫= k) Q (Side (Some f) m h d) i o.
Proof using HQ Hi. intros. by eapply wp_fsize; [apply HQ|apply Hi|..]. Qed.

Lemma g_fmap c f (k : doca_error * Z * list Z -> prog dcall A) m h d : c <> ctx_stop -> usable_held W c h = true ->
  (forall a, wp W K (k (DOCA_SUCCESS, a, f)) Q (Side (Some f) m (after_held W c DOCA_SUCCESS h) d) i o) ->
  wp W K (Fmap c (fun e a b => Ret (e, a, b)) ≫= k) Q (Side (Some f) m h d) i o.
Proof using HQ Hi.
  intros Hc Hu Hk. eapply wp_fmap; [apply HQ|apply Hi|done|done|]. intros e n b He _. rewrite (good_may c e He Hc). apply Hk.
Qed.

Lemma g_access (k : bool -> prog dcall A) f m h d :
  wp W K (k (bool_decide (is_Some f))) Q (Side f m h d) i o -> wp W K (Access Ret ≫= k) Q (Side f m h d) i o.
Proof using HQ Hi. intros. by apply wp_access; [apply HQ|apply Hi|]. Qed.

Lemma g_fcreate (k : bool -> prog dcall A) f m h d :
  wp W K (k true) Q (Side (Some (default [] f)) m (RFile :: h) d) i o -> wp W K (Fcreate Ret ≫= k) Q (Side f m h d) i o.
Proof using HQ Hi. intros. by apply wp_fcreate; [apply HQ|apply Hi|..]. Qed.

Lemma g_fput off b f (k : Z -> prog dcall A) m h d :
  wp W K (k (Z.of_nat (length b))) Q (Side (Some (write_at (Z.to_nat off) b f)) m h d) i o ->
  wp W K (Fput off b Ret ≫= k) Q (Side (Some f) m h d) i o.
Proof using HQ Hi.
  intros Hk. eapply wp_fput; [apply HQ|apply Hi|done|]. intros n _ Hn. rewrite (Hn eq_refl). by rewrite firstn_all.
Qed.

Lemma g_fremove (k : bool -> prog dcall A) f m h d :
  wp W K (k true) Q (Side None m h d) i o -> wp W K (Fremove Ret ≫= k) Q (Side f m h d) i o.
Proof using HQ Hi. intros. by apply wp_fremove; [apply HQ|apply Hi|..]. Qed.
End Rules.
End Good.

(** There is always room for a few buffers. *)
Lemma fresh_addr (m : gmap Z (list Z)) : (size m < 1000)%nat -> exists a, m !! a = None /\ 0 < a < 2 ^ 64.
Proof.
  intros Hm. destruct (decide (Exists (fun a => m !! a = None) (seqZ 1 1000))) as [He|He].
  - apply Exists_exists in He as (a & Ha & Hn). exists a. apply elem_of_seqZ in Ha. split; [done|]. split; [lia|]. apply Z.lt_trans with 2000; [lia|done].
  - exfalso. apply Forall_Exists_neg in He.
    assert (Hs : list_to_set (seqZ 1 1000) ⊆ dom m).
    { intros a Ha. apply elem_of_list_to_set in Ha. rewrite Forall_forall in He. apply elem_of_dom.
      destruct (m !! a) eqn:E; [by eexists|]. by destruct (He a Ha). }
    apply subseteq_size in Hs. rewrite size_dom, size_list_to_set, length_seqZ in Hs by apply NoDup_seqZ.
    change (Z.to_nat 1000) with 1000%nat in Hs. lia.
Qed.

(** One step of a program on such a machine; [HQ] and a [calm] hypothesis are in
    the context. *)
Ltac g_simp :=
  cbn [negb ok andb orb after_held acq rel same doca_world acquires releases remove1 dres_eqb ddev_eqb dmap_eqb dbuf_eqb
       outs fst snd file_open usable_held existsb].
Ltac g_step :=
  lazymatch goal with
  | HQ : quiet ?K, HC : calm ?K ?i ?o |- wp _ ?K _ _ _ ?i ?o =>
      lazymatch goal with
      | |- wp _ _ (call _ ≫= _) _ _ _ _ => eapply (g_call _ _ K HQ i o HC); [discriminate|reflexivity|]
      | |- wp _ _ (call _) _ _ _ _ => apply bind_ret; eapply (g_call _ _ K HQ i o HC); [discriminate|reflexivity|]
      | |- wp _ _ (call_num _ ≫= _) _ _ _ _ => eapply (g_call_num _ _ K HQ i o HC); [discriminate|reflexivity|]
      | |- wp _ _ (call_bytes _ ≫= _) _ _ _ _ => eapply (g_call_bytes _ _ K HQ i o HC); [discriminate|reflexivity|]
      | |- wp _ _ (send _ ≫= _) _ _ _ _ => eapply (g_send _ _ K HQ i o HC)
      | |- wp _ _ (free _ ≫= _) _ _ _ _ => eapply (g_free _ _ K HQ i o HC)
      | |- wp _ _ (Access _ ≫= _) _ _ _ _ => eapply (g_access _ _ K HQ i o HC)
      | |- wp _ _ (Fopen _ _ ≫= _) _ _ _ _ => eapply (g_fopen _ _ K HQ i o HC)
      | |- wp _ _ (Fsize _ ≫= _) _ _ _ _ => eapply (g_fsize _ _ K HQ i o HC)
      | |- wp _ _ (Fcreate _ ≫= _) _ _ _ _ => eapply (g_fcreate _ _ K HQ i o HC)
      | |- wp _ _ (Fput _ _ _ ≫= _) _ _ _ _ => eapply (g_fput _ _ K HQ i o HC)
      | |- wp _ _ (Fremove _ ≫= _) _ _ _ _ => eapply (g_fremove _ _ K HQ i o HC)
      | |- wp _ _ (Fmap _ _ ≫= _) _ _ _ _ => eapply (g_fmap _ _ K HQ i o HC); [discriminate|reflexivity|]
      | |- wp _ _ (mret _) _ _ _ _ => eapply (g_ret _ _ K HQ i o HC)
      | |- wp ?W _ (mret ?x ≫= ?k) ?Q ?s _ _ => change (wp W K (k x) Q s i o)
      | |- wp _ _ (_ ≫= _) _ _ _ _ => eapply (g_bind _ _ K HQ i o)
      end
  end; cbv beta; g_simp.
