(* ===== verification/DmaCopySpec.v ===== *)
(** * DMA copy: contracts and proofs of the two sides

    What the host and the DPU of DmaCopy.v promise each other ([KH], [KD]) and
    the proofs that each keeps its contract, with [h] and [d] the files of the
    two sides, [mx] the largest buffer of the DMA engine. *)

From stdpp Require Import gmap.
From S2P Require Import Prelude CString Pack Proc ProcSpec DocaCommon DocaSpec DmaCopy.
#[local] Open Scope Z_scope.

(** ** Messages *)

Lemma lor_byte_below q k b : 0 <= k -> 0 <= b < 256 -> Z.lor (q * 2 ^ (8 + k)) (Z.shiftl b k) = (q * 256 + b) * 2 ^ k.
Proof.
  intros Hk Hb. rewrite (Z.add_comm 8), lor_byte_add by done. rewrite Z.pow_add_r by lia. change (2 ^ 8) with 256. ring.
Qed.

Lemma ntohq_be v : ntohq true v = be_value (rev (be_bytes 8 v)).
Proof.
  unfold ntohq, SET_BYTE. cbn [negb]. rewrite !GET_BYTE_be by lia.
  assert (HL : forall k, Z.land (Z.shiftr v k `mod` 256) 255 = Z.shiftr v k `mod` 256).
  { intros k. change 255 with (Z.ones 8). rewrite Z.land_ones by lia. apply Z.mod_small. by apply Z.mod_pos_bound. }
  rewrite !HL. cbn [be_bytes rev app].
  assert (HB : forall k, 0 <= Z.shiftr v k `mod` 256 < 256) by (intros k; by apply Z.mod_pos_bound).
  assert (H : forall b0 b1 b2 b3 b4 b5 b6 b7, 0 <= b1 < 256 -> 0 <= b2 < 256 -> 0 <= b3 < 256 -> 0 <= b4 < 256 ->
    0 <= b5 < 256 -> 0 <= b6 < 256 -> 0 <= b7 < 256 ->
    Z.lor (Z.lor (Z.lor (Z.lor (Z.lor (Z.lor (Z.lor (Z.shiftl b0 56) (Z.shiftl b1 48)) (Z.shiftl b2 40))
      (Z.shiftl b3 32)) (Z.shiftl b4 24)) (Z.shiftl b5 16)) (Z.shiftl b6 8)) (Z.shiftl b7 0)
    = be_value [b0; b1; b2; b3; b4; b5; b6; b7]); [|by apply H; apply HB].
  intros. rewrite (Z.shiftl_mul_pow2 b0 56) by lia.
  rewrite (lor_byte_below b0 48), (lor_byte_below _ 40), (lor_byte_below _ 32), (lor_byte_below _ 24),
    (lor_byte_below _ 16), (lor_byte_below _ 8), (lor_byte_below _ 0) by lia.
  cbn [be_value length]. change (2 ^ 0) with 1. rewrite !Nat2Z.inj_succ. cbn [Z.of_nat]. lia.
Qed.

Lemma ntohq_involutive v : in_u 64 v -> ntohq true (htonq v) = v.
Proof.
  intros Hv. unfold htonq. rewrite (ntohq_be v), ntohq_be.
  change 8%nat with (length (rev (be_bytes 8 v))) at 1. rewrite be_bytes_value by (apply Forall_rev, be_bytes_ok).
  rewrite rev_involutive, be_value_bytes. apply Z.mod_small. apply Hv.
Qed.

Lemma u64_roundtrip v : in_u 64 v -> ntohq true (bytes_u64 (u64_bytes (htonq v))) = v.
Proof.
  intros Hv. unfold bytes_u64, u64_bytes. rewrite rev_involutive, be_value_bytes.
  rewrite Z.mod_small; [by apply ntohq_involutive|]. unfold htonq. rewrite ntohq_be.
  pose proof (be_value_bound (rev (be_bytes 8 v))) as Hb. rewrite length_rev, length_be_bytes in Hb.
  apply Hb, Forall_rev, be_bytes_ok.
Qed.

Lemma length_u64 v : length (u64_bytes v) = 8%nat.
Proof. unfold u64_bytes. by rewrite length_rev, length_be_bytes. Qed.

(** Reading a direction message gives back what it was made of. *)
Lemma direction_roundtrip b v : in_u 64 v ->
  let m := cc_msg_dma_direction b (htonq v) in
  msg_file_in_host m = b /\ ntohq true (msg_file_size m) = v /\ Z.of_nat (length m) = sizeof_direction.
Proof.
  intros Hv. cbn zeta. split_and!.
  - by destruct b.
  - unfold msg_file_size, cc_msg_dma_direction. cbn [replicate app drop].
    rewrite drop_0, take_ge by (by rewrite length_u64). by apply u64_roundtrip.
  - unfold cc_msg_dma_direction, sizeof_direction. cbn [length]. by rewrite length_app, length_replicate, length_u64.
Qed.

(** ** Arguments *)

#[global] Instance dma_copy_mode_eq_dec : EqDecision dma_copy_mode.
Proof. solve_decision. Defined.

(** A string argument is stored as it is, or refused when it has no room. *)
Lemma callbacks_store_or_refuse m s c :
  file_path_callback s c =
    (if decide (length s < 128)%nat then (DOCA_SUCCESS, Strings s (cc_dev_pci_addr c) (cc_dev_rep_pci_addr c))
     else (DOCA_ERROR_INVALID_VALUE, c)) /\
  dev_pci_addr_callback s c =
    (if decide (length s < 13)%nat then (DOCA_SUCCESS, Strings (file_path c) s (cc_dev_rep_pci_addr c))
     else (DOCA_ERROR_INVALID_VALUE, c)) /\
  rep_pci_addr_callback m s c =
    (if decide (m = DMA_COPY_MODE_HOST) then (DOCA_SUCCESS, c)
     else if decide (length s < 13)%nat then (DOCA_SUCCESS, Strings (file_path c) (cc_dev_pci_addr c) s)
     else (DOCA_ERROR_INVALID_VALUE, c)).
Proof.
  assert (Hn : forall n, (strnlen s n =? n)%nat = negb (bool_decide (length s < n)%nat)).
  { intros n. unfold strnlen. case_bool_decide; cbn [negb]; [apply Nat.eqb_neq|apply Nat.eqb_eq]; lia. }
  unfold file_path_callback, dev_pci_addr_callback, rep_pci_addr_callback. rewrite !Hn.
  unfold MAX_ARG_SIZE, DOCA_DEVINFO_PCI_ADDR_SIZE, DOCA_DEVINFO_REP_PCI_ADDR_SIZE, bool_decide.
  destruct m; repeat case_decide; try done; cbn [negb]; rewrite ?strlcpy_short by done; done.
Qed.

(** ** Programs that only call *)

Section CallsOnly.
Context (mx : dcall -> Z -> list Z -> Prop) (good : bool) (must : dcall -> bool).
Notation W := (doca_world mx good must).

Notation plain := (plain good).

Lemma register_dma_copy_params_ok h : hwp W register_dma_copy_params (plain h) h.
Proof using.
  unfold register_dma_copy_params. do 3 (apply (plain_then _ (fun _ => _)); [apply register_param_ok|]).
  do 2 (apply (plain_seq _ (fun _ => _)); [done..|]). done.
Qed.

Lemma set_cc_properties_ok m h : hwp W (set_cc_properties m) (plain h) h.
Proof using. unfold set_cc_properties. do 3 (apply (plain_seq _ (fun _ => _)); [done..|]). apply plain_seq; [done..|]. destruct m; [done|]. by apply plain_call. Qed.

(** What the channel holds. *)
Definition cc_res (m : dma_copy_mode) : list dres :=
  match m with DMA_COPY_MODE_HOST => [RDev CcDev; REp] | DMA_COPY_MODE_DPU => [RRep; RDev CcDev; REp] end.
Definition rep_ptr (m : dma_copy_mode) : ptr := match m with DMA_COPY_MODE_HOST => Null | DMA_COPY_MODE_DPU => Obj end.

Definition all_or_none (rs : list dres) (p : ptr) (h : list dres) (x : doca_error * ptr) (h' : list dres) : Prop :=
  x = (DOCA_SUCCESS, p) /\ h' = rs ++ h \/ ok x.1 = false /\ h' = h /\ good = false.

Lemma init_destroy_ep_ok rs p e h : ok e = false -> good = false ->
  hwp W (init_destroy_ep e) (all_or_none rs p h) (REp :: h).
Proof using.
  intros He Hg. apply hwp_call; [done|]. intros e' _. unfold after_held. cbn. right.
  split_and!; [|done..]. cbn. unfold propagate. by rewrite He.
Qed.

Lemma init_close_device_ok rs p e h : ok e = false -> good = false ->
  hwp W (init_close_device e) (all_or_none rs p h) (RDev CcDev :: REp :: h).
Proof using.
  intros He Hg. apply hwp_call; [done|]. intros e' _. unfold after_held. cbn. apply init_destroy_ep_ok; [|done].
  unfold propagate. by rewrite He.
Qed.

(** The channel is set up, or nothing is left of it. *)
Lemma init_cc_ok m h : hwp W (init_cc m) (all_or_none (cc_res m) (rep_ptr m) h) h.
Proof using.
  apply hwp_call; [done|]. intros e He. destruct (may_call _ _ _ _ e He ltac:(discriminate)) as [->|[[Hf _] He']];
    unfold after_held; [cbn [ok negb]|rewrite He'; by right].
  apply hwp_bind. eapply hwp_mono; [|apply open_with_pci_ok]. cbn [acq rel doca_world acquires releases].
  intros [e1 p1] h1 [[[= -> ->] ->]|(He1 & _ & -> & Hg)]; cbn [fst snd] in *.
  2: { rewrite He1. by apply init_destroy_ep_ok. }
  cbn [ok negb]. apply hwp_bind.
  assert (Hrep : hwp W (match m with DMA_COPY_MODE_DPU => open_doca_device_rep_with_pci
                        | DMA_COPY_MODE_HOST => mret (DOCA_SUCCESS, Null) end)
    (fun x h' => x = (DOCA_SUCCESS, rep_ptr m) /\ h' = cc_res m ++ h \/
                 ok x.1 = false /\ h' = RDev CcDev :: REp :: h /\ good = false) (RDev CcDev :: REp :: h)).
  { destruct m; [by left|]. eapply hwp_mono; [|apply open_rep_with_pci_ok].
    intros x h' [[-> ->]|(? & ? & ? & ?)]; [by left|by right]. }
  eapply hwp_mono; [|exact Hrep]. intros [e2 p2] h2 [[[= -> ->] ->]|(He2 & -> & Hg)]; cbn [fst snd] in *.
  2: { rewrite He2. by apply init_close_device_ok. }
  cbn [ok negb]. apply hwp_bind. eapply hwp_mono; [|apply set_cc_properties_ok]. intros e3 h3 [-> He3]. cbv beta.
  destruct (ok e3) eqn:E3; cbn [negb]; [apply ok_true in E3 as ->; by left|].
  assert (Hg : good = false) by (destruct good; [by rewrite He3 in E3|done]).
  destruct m; [by apply init_close_device_ok|]. apply hwp_call; [done|]. intros e4 _. unfold after_held. cbn.
  by apply init_close_device_ok.
Qed.

(** Destroying the channel gives everything back, whatever the results. *)
Lemma destroy_cc_ok m peer lk h : leak lk -> peer <> Garbage ->
  hwp W (destroy_cc peer (rep_ptr m)) (fun _ h' => h' = lk ++ h) (lk ++ cc_res m ++ h).
Proof using.
  intros Hl Hpeer. unfold destroy_cc. apply hwp_bind. eapply (hwp_mono _ _ (fun _ h' => h' = lk ++ cc_res m ++ h)).
  - intros e h1 ->. apply hwp_call; [by destruct Hl as [-> | ->], m|]. intros e1 _.
    replace (after_held _ _ _ _) with (lk ++ match m with DMA_COPY_MODE_HOST => [RDev CcDev] | DMA_COPY_MODE_DPU => [RRep; RDev CcDev] end ++ h)
      by (by destruct Hl as [-> | ->], m).
    apply hwp_bind. destruct m; cbn [rep_ptr destroy_obj not_null mbind prog_bind mret prog_ret].
    + apply hwp_call; [by destruct Hl as [-> | ->]|]. intros e2 _. by destruct Hl as [-> | ->].
    + apply hwp_call; [by destruct Hl as [-> | ->]|]. intros e2 _. apply hwp_call; destruct Hl as [-> | ->]; try done; by intros e3 _.
  - destruct peer; [done|by cbn|]. cbn [destroy_obj not_null mbind prog_bind mret prog_ret].
    apply hwp_call; [done|]. by intros e _.
Qed.
End CallsOnly.

Definition len (f : option (list Z)) : Z := match f with Some b => Z.of_nat (length b) | None => 0 end.

(** ** Memory and files, when the other side does not interfere *)

Section Quiet.
Context (mx : dcall -> Z -> list Z -> Prop) (good : bool) (must : dcall -> bool) (K : contract dres) (HF : framed K).
Notation W := (doca_world mx good must).
Context (i o : list (list Z)) (Hst : steady K i o) (Hinv : forall s, inv K s i o).
Notation post A := (A -> side dres -> list (list Z) -> list (list Z) -> Prop).

Lemma wp_alloc {A} (Q : post A) mm n flags (k : doca_error * Z -> prog dcall A) s :
  0 <= n -> (exists a, mem s !! a = None /\ 0 < a < 2 ^ 64) ->
  (forall a c, mem s !! a = None -> 0 < a < 2 ^ 64 -> Z.of_nat (length c) = n ->
     wp W K (k (DOCA_SUCCESS, a)) Q (set_mem (<[a := c]> (mem s)) s) i o) ->
  (good = false -> forall e a, ok e = false -> wp W K (k (e, a)) Q s i o) ->
  wp W K (memory_alloc_and_populate mm n flags ≫= k) Q s i o.
Proof using HF Hinv Hst.
  intros Hn Hex H1 H2. apply wp_bind; [apply HF|]. unfold memory_alloc_and_populate.
  assert (Hret : forall x, wp W K (k x) Q s i o -> wp W K (mret x) (fun a s i o => wp W K (k a) Q s i o) s i o).
  { intros x Hx. by apply wp_ret. }
  apply wp_plain; [done..| |]. 2: { intros Hg e He. rewrite He. apply Hret. by apply H2. }
  apply wp_malloc; [done|done|done|done| |]. 2: { intros Hg. apply Hret. by apply H2. }
  intros a c Ha Hr Hc.
  assert (Hfree : forall e, ok e = false -> good = false ->
    wp W K (_ ← free a; mret (e, a)) (fun a s i o => wp W K (k a) Q s i o) (set_mem (<[a := c]> (mem s)) s) i o).
  { intros e He Hg. apply wp_free; [done|done|cbn; by rewrite lookup_insert_eq|]. cbn [mem set_mem].
    rewrite delete_insert_id by done. replace (set_mem (mem s) _) with s by (by destruct s). apply Hret. by apply H2. }
  apply wp_plain; [done..| |]. 2: { intros Hg e He. rewrite He. by apply Hfree. }
  apply wp_plain; [done..| |]. 2: { intros Hg e He. rewrite He. by apply Hfree. }
  apply wp_ret; [done|done|]. by apply H1.
Qed.

(** A file that closing a stream may have cut short, unless closing one loses
    nothing. *)
Definition stored (c : list Z) (f : option (list Z)) : Prop :=
  exists c', f = Some c' /\ c' `prefix_of` c /\ (good = true \/ must fclose = true -> c' = c).

Lemma wp_save {A} (Q : post A) cfg a c f m hl dm (k : doca_error -> prog dcall A) :
  m !! a = Some c -> file_size cfg = Z.of_nat (length c) ->
  (forall f', stored c f' -> wp W K (k DOCA_SUCCESS) Q (Side f' m hl dm) i o) ->
  (good = false -> forall e f', ok e = false -> wp W K (k e) Q (Side f' m hl dm) i o) ->
  wp W K (save_buffer_into_a_file cfg a ≫= k) Q (Side f m hl dm) i o.
Proof using HF Hinv Hst.
  intros Hm Hc H1 H2. apply wp_bind; [apply HF|]. unfold save_buffer_into_a_file.
  apply wp_fopen_w; [done|done| |]. 2: { intros Hg. apply wp_ret; [done..|]. by apply H2. }
  eapply wp_load; [done|done|exact Hm|done|]. eapply wp_fwrite; [done|done|done|]. intros n Hn Hfull.
  eapply wp_fclose; [done|done|done|done|]. intros e n' He Hn' Hall.
  unfold after, after_held. cbn [acq rel doca_world acquires releases set_fs set_held fs mem held dma app remove1 same dres_eqb].
  apply wp_ret; [done..|]. rewrite Hc.
  destruct (Z.eqb_spec (Z.of_nat n) (Z.of_nat (length c))) as [E|E].
  { apply H1. eexists. split; [done|]. rewrite (take_ge c n) in * by lia. split; [apply prefix_take|].
    intros Hw. apply take_ge. rewrite Hall; [cbn; lia|].
    destruct (may_call _ _ _ _ e He ltac:(discriminate)) as [->|[[? ?] _]]; [done|]. destruct Hw; congruence. }
  apply H2; [|done]. destruct good; [|done]. cbn in Hfull. by rewrite Hfull in E.
Qed.

Lemma wp_fill {A} (Q : post A) cfg a c f m hl dm (k : doca_error -> prog dcall A) :
  m !! a = Some c -> length c = length f -> file_size cfg = Z.of_nat (length f) ->
  wp W K (k DOCA_SUCCESS) Q (Side (Some f) (<[a := f]> m) hl dm) i o ->
  (good = false -> forall e c', ok e = false -> length c' = length f ->
     wp W K (k e) Q (Side (Some f) (<[a := c']> m) hl dm) i o) ->
  wp W K (fill_buffer_with_file_content cfg a ≫= k) Q (Side (Some f) m hl dm) i o.
Proof using HF Hinv Hst.
  intros Hm Hcf Hf H1 H2. apply wp_bind; [apply HF|]. unfold fill_buffer_with_file_content.
  eapply wp_fopen_r; [done|done|done| |].
  2: { intros Hg. apply wp_ret; [done..|]. rewrite <- (insert_id m a c) by done. by apply H2. }
  eapply wp_fread; [done|done|lia|done|]. intros b Hb Hlen Hfull. rewrite Hf in *.
  pose proof (prefix_length _ _ Hb) as Hle.
  eapply wp_store; [done|done|exact Hm|lia|].
  eapply (wp_calls _ _ _ (fun _ h' => h' = hl)); [done..| |]; [apply hwp_tail; [done|]; by intros e _|].
  intros e h' ->. cbn [set_mem set_held fs mem held dma app]. apply wp_ret; [done..|].
  destruct (Z.eqb_spec (Z.of_nat (length b)) (Z.of_nat (length f))) as [E|E].
  - assert (b = f) as ->.
    { destruct Hb as [x ->]. rewrite length_app in E. destruct x; [by rewrite app_nil_r|cbn in E; lia]. }
    unfold overwrite. by rewrite drop_ge, app_nil_r by lia.
  - apply H2; [|done|].
    + destruct good; [|done]. cbn in Hfull. rewrite Hfull, length_take in E by done. lia.
    + unfold overwrite. rewrite length_app, length_drop. lia.
Qed.

(** The validation callback sets what the program is told about its file. *)
Lemma wp_args {A} (Q : post A) m f s (k : doca_error * dma_copy_cfg -> prog dcall A) : fs s = f ->
  wp W K (k (DOCA_SUCCESS, Cfg m (bool_decide (is_Some f)) (len f))) Q s i o ->
  (good = false -> forall e cfg, ok e = false -> wp W K (k (e, cfg)) Q s i o) ->
  wp W K (args_validation_callback (Cfg m false 0) ≫= k) Q s i o.
Proof using HF Hinv Hst.
  intros Hf H1 H2. apply wp_bind; [apply HF|]. unfold args_validation_callback.
  apply wp_access; [done|done|]. rewrite Hf in *. destruct f as [b|]; cbn [is_Some_dec bool_decide decide decide_rel].
  2: { apply wp_ret; [done..|]. exact H1. }
  apply wp_bind; [apply HF|]. unfold validate_file_size.
  assert (Hfin : forall x : doca_error * Z, (x = (DOCA_SUCCESS, Z.of_nat (length b)) \/ ok x.1 = false /\ good = false) ->
    wp W K (let '(result, n) := x in mret (result, Cfg m true (if ok result then n else 0)))
      (fun a s i o => wp W K (k a) Q s i o) s i o).
  { intros [e n] [[= -> ->]|[He Hg]]; (apply wp_ret; [done..|]); [exact H1|by apply H2]. }
  eapply wp_fopen_r; [done|done|exact Hf| |]. 2: { intros Hg. apply wp_ret; [done..|]. apply (Hfin (DOCA_ERROR_IO_FAILED, 0)). by right. }
  eapply wp_fsize; [done|done|exact Hf| |].
  - eapply (wp_calls _ _ _ (fun _ h' => h' = held s)); [done..| |]; [apply hwp_tail; [done|]; by intros e _|].
    intros e h' ->. cbv beta iota. apply wp_ret; [done..|]. replace (set_held _ _) with s by (by destruct s).
    apply (Hfin (DOCA_SUCCESS, _)). by left.
  - intros Hg. eapply (wp_calls _ _ _ (fun _ h' => h' = held s)); [done..| |]; [apply hwp_tail; [done|]; by intros e _|].
    intros e h' ->. cbv beta iota. apply wp_ret; [done..|]. replace (set_held _ _) with s by (by destruct s).
    apply (Hfin (DOCA_ERROR_IO_FAILED, 0)). by right.
Qed.

(** What main does when the copy has ended. *)
Definition finish (m : dma_copy_mode) (x : doca_error * ptr) : prog dcall Z :=
  exit_status ← (_ ← destroy_cc x.2 (rep_ptr m); mret (if ok x.1 then EXIT_SUCCESS else EXIT_FAILURE));
  _ ← call argp_destroy;
  mret exit_status.

(** main up to the copy: the arguments, the channel. *)
Lemma wp_main (Q : post Z) m f :
  wp W K (start_dma_copy (Cfg m (bool_decide (is_Some f)) (len f))) (fun x s i o => wp W K (finish m x) Q s i o)
    (Side f ∅ (cc_res m ++ [RArgp]) None) i o ->
  (good = false -> Q EXIT_FAILURE (Side f ∅ [] None) i o) ->
  wp W K (main m) Q (Side f ∅ [] None) i o.
Proof using HF Hinv Hst.
  intros H1 H2. unfold main.
  do 3 (eapply wp_plain; [done..| |]; [|intros Hg e He; rewrite He; apply wp_ret; [done..|]; by apply H2]; cbn [ok negb]).
  eapply (wp_calls _ _ _ (fun e h' => e = DOCA_SUCCESS /\ h' = [RArgp] \/ ok e = false /\ good = false /\ h' = [])); [done..| |].
  { apply hwp_tail; [done|]. intros e He. destruct (may_call _ _ _ _ e He ltac:(discriminate)) as [->|[[Hg _] He']]; [by left|].
    right. unfold after_held. cbn. by rewrite He'. }
  intros e h' [[-> ->]|(He & Hg & ->)]; cbn [ok negb]; [|rewrite He; apply wp_ret; [done..|]; by apply H2].
  apply wp_bind; [apply HF|].
  assert (Hfail : good = false -> wp W K (mret EXIT_FAILURE) (fun exit_status s i o =>
    wp W K (_ ← call argp_destroy; mret exit_status) Q s i o) (Side f ∅ [RArgp] None) i o).
  { intros Hg. apply wp_ret; [done..|]. eapply (wp_calls _ _ _ (fun _ h' => h' = [])); [done..| |];
      [apply hwp_tail; [done|]; by intros e _|]. intros e h' ->. apply wp_ret; [done..|]. by apply H2. }
  unfold run. eapply wp_calls; [done..|apply register_dma_copy_params_ok|]. intros e h' [-> He]. cbn [set_held fs mem held dma].
  destruct (ok e) eqn:E; cbn [negb]; [|apply Hfail; destruct good; [by rewrite He in E|done]].
  eapply wp_plain; [done..| |]; [cbn [ok negb]|intros Hg e1 He1; rewrite He1; by apply Hfail].
  eapply wp_args; [done| |]; [cbn [ok negb]|intros Hg e1 cfg He1; rewrite He1; by apply Hfail].
  eapply wp_calls; [done..|apply init_cc_ok|]. cbn [set_held fs mem held dma].
  intros [e1 p1] h1 [[[= -> ->] ->]|(He1 & -> & Hg)]; cbn [fst snd] in *; [cbn [ok negb]|rewrite He1; by apply Hfail].
  apply wp_bind; [apply HF|]. eapply wp_mono; [|exact H1]. intros [e2 p2] s2 i2 o2 Hx. cbv beta iota.
  apply wp_bind_inv in Hx; [exact Hx|apply HF].
Qed.
End Quiet.

(** ** The contracts *)

Section Contracts.
Context (h d : option (list Z)) (mx : Z) (good : bool) (must : dcall -> bool).
Notation W := (doca_world (dma_engine mx) good must).

(** The file that is copied, and whether it may be: one side has it and the
    engine takes its size. *)
Definition src : list Z := match h with Some f => f | None => default [] d end.
Definition size : Z := Z.of_nat (length src).
Definition copies : bool :=
  match h, d with Some _, None | None, Some _ => size <=? mx | _, _ => false end.

Definition dir_h : list Z := match h with Some _ => cc_msg_dma_direction true (htonq (len h)) | None => cc_msg_dma_direction false 0 end.
Definition dir_d : list Z := match d with Some _ => cc_msg_dma_direction false (htonq (len d)) | None => cc_msg_dma_direction true 0 end.
Definition yes : list Z := cc_msg_dma_status true.
Definition no : list Z := cc_msg_dma_status false.

(** What the host may have sent, and the DPU. *)
Definition host_log (desc : list Z) (a : Z) : list (list Z) :=
  [dir_h; desc; u64_bytes (htonq a); u64_bytes (htonq size)].
Definition HM (o : list (list Z)) : Prop :=
  (copies = false -> (length o <= 1)%nat) /\
  exists desc a, Z.of_nat (length desc) <= CC_MAX_MSG_SIZE /\ 0 < a < 2 ^ 64 /\ o `prefix_of` host_log desc a.
Definition DM (o : list (list Z)) : Prop :=
  o = [] \/ o = [no] /\ (good = true -> copies = false) \/
  copies = true /\ exists k, (k <= 4)%nat /\
    (o = dir_d :: replicate k yes \/ good = false /\ (k <= 3)%nat /\ o = dir_d :: replicate k yes ++ [no]).

(** The address the host sent. *)
Definition addr_of (o : list (list Z)) : Z := ntohq true (bytes_u64 (nth 2 o [])).

(** What DMA does to the host: the DPU writes the file, or reads. *)
Definition move (a : Z) (s s' : side dres) : Prop :=
  match h with Some _ => exists b, dma_read a size b s s' | None => s' = dma_write a src s end.

Definition KH : contract dres := {|
  inv := fun _ _ o => HM o;
  rm := fun i _ m => exists r, DM (i ++ m :: r);
  rly := fun i o s s' => s' = s \/ (length o = 4%nat /\ (length i <= 4)%nat /\ move (addr_of o) s s');
  blk := fun i o => i = [] /\ length o = 1%nat \/
                    exists k, (k <= 3)%nat /\ i = dir_d :: replicate k yes /\ length o = Nat.min (k + 2) 4;
  gd_read := fun _ _ _ _ _ => False;
  gd_write := fun _ _ _ _ _ => False
|}.

(** When the DPU has announced success the bytes have crossed, and its file is
    the one that did, as far as closing it stored the bytes. *)
Definition delivered (s : side dres) : Prop :=
  match d with Some f => fs s = Some f /\ dma s <> None | None => exists b, stored good must b (fs s) /\ dma s = Some b end.

Definition KD : contract dres := {|
  inv := fun s _ o => DM o /\ (o = dir_d :: replicate 4 yes -> delivered s);
  rm := fun i _ m => exists r, HM (i ++ m :: r);
  rly := fun _ _ s s' => s' = s;
  blk := fun i o => i = [] /\ o = [] \/ exists k, (k <= 2)%nat /\ length i = S k /\ o = dir_d :: replicate k yes;
  gd_read := fun s i o a n => length i = 4%nat /\ length o = 4%nat /\ a = addr_of i /\ n = size /\ d = None;
  gd_write := fun s i o a b => length i = 4%nat /\ length o = 4%nat /\ a = addr_of i /\ d = Some b
|}.

(** ** They fit *)

Lemma dma_write_twice a b s : dma_write a b (dma_write a b s) = dma_write (R := dres) a b s.
Proof using.
  unfold dma_write. destruct (mem s !! a) as [c|] eqn:E; cbn; [|by rewrite E].
  rewrite lookup_insert_eq. unfold set_dma, set_mem. cbn. f_equal. rewrite insert_insert_eq. f_equal.
  unfold overwrite. f_equal. by rewrite drop_app_length.
Qed.

Lemma move_trans a s1 s2 s3 : move a s1 s2 -> move a s2 s3 -> move a s1 s3.
Proof using.
  unfold move. destruct h.
  - intros (b1 & _ & _ & ->) (b2 & Hl & Hb & ->). exists b2. by split_and!.
  - intros -> ->. apply dma_write_twice.
Qed.

Lemma move_held a s s' : move a s s' -> held s' = held s /\ fs s' = fs s.
Proof using.
  unfold move, dma_write. destruct h; [by intros (b & _ & _ & ->)|intros ->]. by destruct (mem s !! a).
Qed.

Lemma move_set_held a l s s' : move a s s' -> move a (set_held l s) (set_held l s').
Proof using.
  unfold move. destruct h.
  - intros (b & Hn & Hb & ->). by exists b.
  - intros ->. unfold dma_write. cbn. by destruct (mem s !! a).
Qed.

Lemma KH_framed : framed KH.
Proof using.
  split; cbn.
  - split; cbn; [by left|]. intros i o s1 s2 s3 [->|(Ho & Hi & H1)] [->|(Ho2 & Hi2 & H2)]; [by left|by right..|].
    right. split_and!; [done..|]. by eapply move_trans.
  - done.
  - intros l s s' i o [->|(Ho & Hi & Hm)]; [by left|right]. split_and!; [done..|]. by apply move_set_held.
  - intros s s' i o [->|(_ & _ & Hm)]; [done|]. by apply move_held in Hm as [? _].
  - done.
Qed.

Lemma KD_framed : framed KD.
Proof using.
  split; cbn.
  - split; cbn; [done|]. by intros i o s1 s2 s3 -> ->.
  - intros s s' i o Hf Hd [H1 H2]. split; [done|]. intros Ho. specialize (H2 Ho). unfold delivered in *.
    by rewrite Hf, Hd.
  - by intros l s s' i o ->.
  - by intros s s' i o ->.
  - by intros s s' i o ->.
Qed.

Lemma HM_length o : HM o -> (length o <= 4)%nat.
Proof using. intros (_ & desc & a & _ & _ & Hp). by apply prefix_length in Hp. Qed.

Lemma fit : compat KH KD.
Proof using.
  split; cbn.
  - intros sh iH oH sd iD oD td m th (_ & [HD _] & _ & -> & _). by exists th.
  - intros sh iH oH sd iD oD td m th (HH & _ & -> & _ & _). by exists td.
  - intros sh iH oH sd iD oD td th a n b sh' (HH & [HD Hd] & E1 & E2 & _) (Hi & Ho & -> & -> & Hn) Hr.
    assert (oH = iD) as ->.
    { apply HM_length in HH. rewrite E1, length_app in HH. destruct td; [by rewrite E1, app_nil_r|cbn in HH; lia]. }
    right. split_and!; [done|rewrite E2, length_app in Ho; lia|]. unfold move. destruct h as [f|] eqn:Eh; [by exists b|].
    exfalso. destruct HH as [Hc (desc & a & _)]. unfold copies in Hc. rewrite Eh, Hn in Hc. specialize (Hc eq_refl). lia.
  - intros sh iH oH sd iD oD td th a b (HH & [HD Hd] & E1 & E2 & _) (Hi & Ho & -> & Hn).
    assert (oH = iD) as ->.
    { apply HM_length in HH. rewrite E1, length_app in HH. destruct td; [by rewrite E1, app_nil_r|cbn in HH; lia]. }
    right. split_and!; [done|rewrite E2, length_app in Ho; lia|]. unfold move, src. destruct h as [f|] eqn:Eh; [|by rewrite Hn].
    exfalso. destruct HH as [Hc (desc & a & _)]. unfold copies in Hc. rewrite Eh, Hn in Hc. specialize (Hc eq_refl). lia.
Qed.

(** ** Messages in order *)

Lemma dir_d_no : dir_d <> no.
Proof using. unfold dir_d, no. by destruct d. Qed.

Lemma DM_first m r : DM (m :: r) -> m = dir_d /\ copies = true \/ m = no /\ (good = true -> copies = false).
Proof using.
  intros [?|[([= -> ->] & ?)|(? & k & _ & [[= -> _]|(_ & _ & [= -> _])])]]; [done|by right|by left..].
Qed.

Lemma DM_ack k m r : DM (dir_d :: replicate k yes ++ m :: r) ->
  (k <= 3)%nat /\ copies = true /\ (m = yes \/ m = no /\ good = false).
Proof using.
  assert (Hin : m ∈ replicate k yes ++ m :: r) by (apply elem_of_app; right; left).
  intros [?|[([= Hd _] & _)|(Hc & k' & Hk' & [[= E]|(Hg & Hk & [= E])])]]; [done|by destruct dir_d_no| |].
  - rewrite E in Hin. apply elem_of_replicate in Hin as [-> _].
    apply (f_equal length) in E. rewrite length_app, !length_replicate in E. cbn in E.
    split_and!; [lia|done|by left].
  - rewrite E in Hin. apply (f_equal length) in E. rewrite !length_app, !length_replicate in E. cbn in E.
    split_and!; [lia|done|]. apply elem_of_app in Hin as [Hin|Hin].
    + apply elem_of_replicate in Hin as [-> _]. by left.
    + apply list_elem_of_singleton in Hin. by right.
Qed.

Lemma fails_false e : fails W e -> good = false /\ ok e = false.
Proof using. intros [Hg He]. split; [done|]. by destruct e. Qed.
End Contracts.
