(* ===== verification/DmaCopyHost.v ===== *)
(** * DMA copy: the host keeps its contract

    [wp] of the host's program (DmaCopy.v) under [KH] (DmaCopySpec.v): for all
    answers of the libraries and all messages the DPU may send, it releases
    everything, and ends as [host_end] says. *)

From stdpp Require Import gmap.
From S2P Require Import Prelude Pack Proc ProcSpec DocaCommon DocaSpec DmaCopy DmaCopySpec.
#[local] Open Scope Z_scope.

Section Host.
Context (h d : option (list Z)) (mx : Z) (good : bool) (must : dcall -> bool).
Context (Hsize : in_u 64 (size h d)).
Notation W := (doca_world (dma_engine mx) good must).
Notation KH := (KH h d mx good).
Notation HM := (HM h d mx).
Notation copies := (copies h d mx).
Notation src := (src h d).
Notation size := (size h d).
Notation dir_h := (dir_h h).
Notation dir_d := (dir_d d).
Notation host_log := (host_log h d).
Notation HF := (KH_framed h d mx good).

(** A host that ends with success received every acknowledgement; its file is
    the sender's, or what was written to its memory as far as closing the file
    stored it. *)
Definition host_success (s : side dres) (i : list (list Z)) : Prop :=
  copies = true /\ i = dir_d :: replicate 4 yes /\
  match h with
  | Some f => fs s = Some f /\ forall b, dma s = Some b -> b = f
  | None => dma s <> None -> stored good must src (fs s)
  end.

Definition host_end (r : bool) (s : side dres) (i o : list (list Z)) : Prop :=
  (r = true -> host_success s i) /\ (is_Some h -> fs s = h) /\
  (good = true -> if copies then r = true /\ length o = 4%nat else r = false /\ i = [no] /\ fs s = h).

Lemma host_fails s i o : good = false -> (is_Some h -> fs s = h) -> host_end false s i o.
Proof using. intros Hg Hf. split_and!; [done|done|]. congruence. Qed.

Lemma overwrite_full b c : length c = length b -> overwrite b c = b.
Proof using. intros Hl. unfold overwrite. by rewrite drop_ge, app_nil_r by lia. Qed.

Lemma steady_H i o : length o <> 4%nat \/ (4 < length i)%nat -> steady KH i o.
Proof using. intros Hl s s' [->|(Ho & Hi & _)]; [done|lia]. Qed.

Lemma HM_prefix desc a o : copies = true -> Z.of_nat (length desc) <= CC_MAX_MSG_SIZE -> 0 < a < 2 ^ 64 ->
  o `prefix_of` host_log desc a -> HM o.
Proof using. intros Hc Hd Ha Ho. split; [congruence|]. eauto 10. Qed.

Lemma HM_one : HM [dir_h].
Proof using. split; [cbn; lia|]. exists [], 1. split_and!; [done|done|done|]. by eexists. Qed.

Lemma addr_of_log desc a : 0 < a < 2 ^ 64 -> addr_of (host_log desc a) = a.
Proof using. intros Ha. apply u64_roundtrip. unfold in_u. lia. Qed.

(** Waiting for an acknowledgement, from a set of states that the DPU's DMA does
    not leave. *)
Lemma wp_wait (P : side dres -> Prop) k o Q s :
  (k <= 3)%nat -> HM o -> length o = Nat.min (k + 2) 4 ->
  (forall i s s', P s -> rly KH i o s s' -> P s') -> P s ->
  (forall s', P s' -> Q DOCA_SUCCESS s' (dir_d :: replicate (S k) yes) o) ->
  (forall e s' i', P s' -> ok e = false -> good = false -> Q e s' i' o) ->
  wp W KH wait_for_successful_status_msg Q s (dir_d :: replicate k yes) o.
Proof using.
  intros Hk HM Ho HP Ps H1 H2.
  assert (Hret : forall e s i, P s -> (forall s', P s' -> Q e s' i o) -> wp W KH (mret e) Q s i o).
  { intros e s0 i Ps0 HQ s1 Hr. split; [done|]. eapply HQ, HP; eauto. }
  intros s1 Hr. apply HP in Hr; [|done]. split; [done|]. split_and!.
  - intros _. right. by exists k.
  - intros m [r Hm]. apply DM_ack in Hm as (_ & _ & [->|[-> Hg]]); (split; [done|]).
    + replace ((dir_d :: replicate k yes) ++ [yes]) with (dir_d :: replicate (S k) yes) by (cbn; by rewrite <- replicate_cons_app).
      by apply Hret.
    + apply Hret; [done|]. intros s' Ps'. by apply H2.
  - intros e He. apply fails_false in He as [Hg He].
    change (wp W KH (if negb (ok e) then mret e else Undef) Q s1 (dir_d :: replicate k yes) o).
    rewrite He. apply Hret; [done|]. intros s' Ps'. by apply H2.
Qed.

(** ** The transfer *)

(** After it the buffer is still there, with what was held before. *)
Definition transferred (a : Z) (hl : list dres) (r : doca_error) (s : side dres) (i o : list (list Z)) : Prop :=
  (exists c, mem s = {[a := c]}) /\ held s = hl /\ (length o = 4%nat -> addr_of o = a) /\ HM o /\ host_end (ok r) s i o.

Section Transfer.
Context (cfg : dma_copy_cfg) (a : Z) (hl : list dres) (f0 : option (list Z)) (Hc : copies = true) (Ha : 0 < a < 2 ^ 64)
  (Hloc : is_file_found_locally cfg = bool_decide (is_Some h)) (Hsz : file_size cfg = size) (Hf0 : is_Some h -> f0 = h).

Lemma transfer_fails e f c dm i o : ok e = false -> good = false -> (length o <> 4%nat \/ exists desc, o = host_log desc a) ->
  HM o -> (is_Some h -> f = h) -> transferred a hl e (Side f {[a := c]} hl dm) i o.
Proof using Ha.
  intros He Hg Ho HM Hf. unfold transferred. rewrite He. split_and!; [by eexists|done| |done|by apply host_fails].
  intros Hl. destruct Ho as [?|[desc ->]]; [done|by apply addr_of_log].
Qed.

Lemma host_export_ok Q s : 
  (forall desc, Z.of_nat (length desc) <= CC_MAX_MSG_SIZE -> Q DOCA_SUCCESS s (dir_d :: replicate 1 yes) [dir_h; desc]) ->
  (forall e i o, ok e = false -> good = false -> (length o <= 2)%nat -> HM o -> Q e s i o) ->
  wp W KH host_export_memory_map_to_dpu Q s [dir_d] [dir_h].
Proof using Hc.
  intros H1 H2.
  assert (Hst : steady KH [dir_d] [dir_h]) by (apply steady_H; cbn; lia).
  eapply (wp_calls W KH _ (fun x h' => h' = held s /\ Z.of_nat (length x.2) <= CC_MAX_MSG_SIZE /\
            (x.1 = DOCA_SUCCESS \/ ok x.1 = false /\ good = false))); [apply HF|done|apply HM_one| |].
  { split; [done|]. intros e n b He Ho. split_and!; [done|done|].
    destruct (may_call _ _ _ _ e He ltac:(discriminate)) as [->|[[Hg _] He']]; [by left|by right]. }
  intros [e desc] h' (-> & Hd & He); cbn [fst snd] in *. replace (set_held (held s) s) with s by (by destruct s).
  destruct He as [->|[He Hg]]; cbn [ok negb].
  2: { rewrite He. apply wp_ret; [done|apply HM_one|]. apply H2; cbn; auto using HM_one. }
  assert (HM2 : HM [dir_h; desc]) by (eapply (HM_prefix desc 1); [done..|]; by eexists).
  apply wp_send; [done|apply HM_one| |].
  2: { intros e [Hg He]%fails_false. rewrite He. apply wp_ret; [done|apply HM_one|]. apply H2; cbn; auto using HM_one. }
  cbn [ok negb app].
  eapply (wp_wait (eq s) 0 [dir_h; desc]); [lia|done|done| |done|by intros s' <-; apply H1|].
  - intros i s' s'' <- Hr. symmetry. eapply steady_H; [|exact Hr]. cbn. lia.
  - intros e s' i' <- He Hg. by apply H2.
Qed.

(** The states between the sending of the length and the answer. *)
Definition window (s : side dres) : Prop :=
  exists f c dm, s = Side f {[a := c]} hl dm /\ length c = length src /\ (is_Some h -> f = h) /\
    match h with Some f => c = f /\ (dm = None \/ dm = Some f) | None => dm = None \/ c = src end.

Lemma window_stable desc i s s' : window s -> rly KH i (host_log desc a) s s' -> window s'.
Proof using Ha.
  clear - Ha. intros (f & c & dm & -> & Hl & Hf & Hw) [->|(_ & _ & Hm)]; [by exists f, c, dm|].
  rewrite addr_of_log in Hm by done. unfold move, window, dma_write in *. unfold DmaCopySpec.size in Hm.
  destruct h as [g|] eqn:Eh.
  - destruct Hm as (b & Hn & Hb & ->), Hw as [-> _]. specialize (Hb g). cbn [mem] in Hb. rewrite lookup_singleton_eq in Hb.
    specialize (Hb eq_refl). cbn [DmaCopySpec.src] in *. rewrite Nat2Z.id, take_ge, take_ge in Hb by lia. subst b.
    exists f, g, (Some g). split_and!; try done. by right.
  - subst s'. cbn [mem set_mem set_dma fs held dma]. rewrite lookup_singleton_eq, insert_singleton_eq, overwrite_full by done.
    exists f, (DmaCopySpec.src None d), (Some (DmaCopySpec.src None d)). split_and!; try done. by right.
Qed.

Lemma host_send_ok Q s desc : Z.of_nat (length desc) <= CC_MAX_MSG_SIZE -> window s ->
  (forall s', window s' -> Q DOCA_SUCCESS s' (dir_d :: replicate 3 yes) (host_log desc a)) ->
  (forall e s' i o, window s' -> ok e = false -> good = false -> (length o <> 4%nat \/ o = host_log desc a) -> HM o -> Q e s' i o) ->
  wp W KH (host_send_addr_and_offset a size) Q s (dir_d :: replicate 1 yes) [dir_h; desc].
Proof using Ha Hc.
  intros Hd Hw H1 H2.
  assert (HM2 : HM [dir_h; desc]) by (eapply (HM_prefix desc a); [done..|]; by eexists).
  assert (HM3 : HM [dir_h; desc; u64_bytes (htonq a)]) by (eapply (HM_prefix desc a); [done..|]; by eexists).
  assert (HM4 : HM (host_log desc a)) by (eapply (HM_prefix desc a); [done..|]; by eexists).
  apply wp_send; [apply steady_H; cbn; lia|done| |].
  2: { intros e [Hg He]%fails_false. rewrite He. apply wp_ret; [apply steady_H; cbn; lia|done|].
       apply H2; try done. by left. }
  cbn [ok negb app]. apply wp_bind; [apply HF|].
  eapply (wp_wait (eq s) 1 [dir_h; desc; u64_bytes (htonq a)]); [lia|done|done| |done| |].
  1: { intros i s' s'' <- Hr. symmetry. eapply steady_H; [|exact Hr]. cbn. lia. }
  2: { intros e s' i' <- He Hg. rewrite He. apply wp_ret; [apply steady_H; cbn; lia|done|]. apply H2; try done. by left. }
  intros s' <-. cbn [ok negb].
  apply wp_send; [apply steady_H; cbn; lia|done| |].
  2: { intros e [Hg He]%fails_false. rewrite He. apply wp_ret; [apply steady_H; cbn; lia|done|].
       apply H2; try done. by left. }
  cbn [ok negb app]. eapply (wp_wait window 2 (host_log desc a)); [lia|done|done| |done|done|].
  - intros i s' s'' Hs Hr. by eapply window_stable.
  - intros e s' i' Hs He Hg. apply H2; try done. by right.
Qed.

(** From the sending of the address on. *)
Definition host_rest (e : doca_error) : prog dcall doca_error :=
  if negb (ok e) then mret e else
  result ← host_send_addr_and_offset a (file_size cfg);
  if negb (ok result) then mret result else
  result ← wait_for_successful_status_msg;
  if negb (ok result) then mret result else
  if negb (is_file_found_locally cfg) then save_buffer_into_a_file cfg a else mret result.

Lemma window_fails e s i o : window s -> ok e = false -> good = false -> (length o <> 4%nat \/ exists desc, o = host_log desc a) ->
  HM o -> transferred a hl e s i o.
Proof using Ha. intros (f & c & dm & -> & _ & Hf & _) He Hg Ho HMo. by apply transfer_fails. Qed.

(** With the last acknowledgement the window is closed. *)
Lemma host_finish s desc : Z.of_nat (length desc) <= CC_MAX_MSG_SIZE -> window s ->
  wp W KH (if negb (is_file_found_locally cfg) then save_buffer_into_a_file cfg a else mret DOCA_SUCCESS)
    (transferred a hl) s (dir_d :: replicate 4 yes) (host_log desc a).
Proof using Ha Hc Hf0 Hloc Hsize Hsz.
  intros Hd (f & c & dm & -> & Hl & Hf & Hw).
  assert (HM4 : HM (host_log desc a)) by (eapply (HM_prefix desc a); [done..|]; by eexists).
  assert (Hst : steady KH (dir_d :: replicate 4 yes) (host_log desc a)) by (apply steady_H; cbn; lia).
  assert (Hdone : forall f' c' dm', host_success (Side f' {[a := c']} hl dm') (dir_d :: replicate 4 yes) ->
    (is_Some h -> f' = h) ->
    wp W KH (mret DOCA_SUCCESS) (transferred a hl) (Side f' {[a := c']} hl dm') (dir_d :: replicate 4 yes) (host_log desc a)).
  { intros f' c' dm' Hs Hf'. apply wp_ret; [done..|]. split_and!; [by eexists|done|intros _; by apply addr_of_log|done|].
    split_and!; [done|done|]. intros _. by rewrite Hc. }
  rewrite Hloc. destruct (is_Some_dec h) as [Hh|Hh]; [rewrite bool_decide_eq_true_2 by done|rewrite bool_decide_eq_false_2 by done];
    cbn [negb].
  - apply Hdone; [|done]. split_and!; [done|done|]. rewrite (Hf Hh). clear - Hh Hw. destruct h as [g|]; [|by destruct Hh].
    cbn [fs dma]. split; [done|]. intros b ->. destruct Hw as [_ [?|[= ->]]]; done.
  - apply bind_ret. eapply wp_save; [apply HF|done|done|by rewrite lookup_singleton_eq|unfold DmaCopySpec.size in Hsz; lia| |].
    + intros f' Hf'. apply Hdone; [|done]. split_and!; [done|done|]. destruct h as [g|] eqn:Eh; [by destruct Hh|].
      cbn [dma fs]. intros Hdm. destruct Hw as [?| ->]; [done|exact Hf'].
    + intros Hg e f' He. apply wp_ret; [done..|]. apply transfer_fails; try done. by right; exists desc.
Qed.

Lemma host_transfer_ok c0 : Z.of_nat (length c0) = size ->
  wp W KH (host_transfer cfg a) (transferred a hl) (Side f0 {[a := c0]} hl None) [dir_d] [dir_h].
Proof using Ha Hc Hf0 Hloc Hsize Hsz.
  intros Hc0. apply wp_bind; [apply HF|]. apply host_export_ok.
  2: { intros e i o He Hg Ho HMo. rewrite He. apply wp_ret; [apply steady_H; lia|done|].
       apply transfer_fails; try done. left. lia. }
  intros desc Hd. cbn [ok negb].
  assert (HM2 : HM [dir_h; desc]) by (eapply (HM_prefix desc a); [done..|]; by eexists).
  assert (HM4 : HM (host_log desc a)) by (eapply (HM_prefix desc a); [done..|]; by eexists).
  assert (Hst2 : forall i, steady KH i [dir_h; desc]) by (intros i; apply steady_H; cbn; lia).
  assert (Hrest : forall s, window s -> wp W KH (host_rest DOCA_SUCCESS) (transferred a hl) s (dir_d :: replicate 1 yes) [dir_h; desc]).
  { intros s Hw. unfold host_rest. cbn [ok negb]. rewrite Hsz. apply wp_bind; [apply HF|]. eapply host_send_ok; [done|exact Hw| |].
    - intros s' Hw'. cbn [ok negb]. apply wp_bind; [apply HF|].
      eapply (wp_wait window 3 (host_log desc a)); [lia|done|done|by intros; eapply window_stable|done| |].
      + intros s2 Hw2. by apply host_finish.
      + intros e s2 i2 Hw2 He Hg. rewrite He. intros s3 Hr. split; [done|].
        apply window_fails; try done; [by eapply window_stable|]. right. by exists desc.
    - intros e s2 i2 o2 Hw2 He Hg Ho HMo. rewrite He. intros s3 Hr. split; [done|].
      assert (Hw3 : window s3) by (destruct Ho as [Ho| ->]; [by apply (steady_H _ _ (or_introl Ho)) in Hr as ->|by eapply window_stable]).
      apply window_fails; try done. destruct Ho as [?| ->]; [by left|right; by exists desc]. }
  change (wp W KH ((if is_file_found_locally cfg then fill_buffer_with_file_content cfg a else mret DOCA_SUCCESS) ≫= host_rest)
    (transferred a hl) (Side f0 {[a := c0]} hl None) (dir_d :: replicate 1 yes) [dir_h; desc]).
  rewrite Hloc. unfold DmaCopySpec.size in Hc0. destruct (is_Some_dec h) as [Hh|Hh];
    [rewrite bool_decide_eq_true_2 by done|rewrite bool_decide_eq_false_2 by done].
  - destruct Hh as [g Hg0]. assert (src = g) as Hsrc by (unfold DmaCopySpec.src; by rewrite Hg0).
    assert (f0 = Some g) as Hf by (by rewrite Hf0). rewrite Hsrc in Hc0.
    rewrite Hf. eapply wp_fill; [apply HF|apply Hst2|done|by rewrite lookup_singleton_eq|lia| | |].
    + rewrite Hsz. unfold DmaCopySpec.size. by rewrite Hsrc.
    + rewrite insert_singleton_eq. apply Hrest. exists (Some g), g, None. rewrite Hsrc. split_and!; [done..|].
      destruct h; [|done]. injection Hg0 as ->. split; [done|by left].
    + intros Hg e c' He Hc'. rewrite insert_singleton_eq. unfold host_rest. rewrite He. apply wp_ret; [apply Hst2|done|].
      apply transfer_fails; try done. by left.
  - apply Hrest. exists f0, c0, None. split_and!; try done; [lia|]. destruct h; [by destruct Hh|]. by left.
Qed.
End Transfer.

(** ** Before and after *)

(** The state of a host that holds no memory. *)
Definition settled (hl : list dres) (r : bool) (s : side dres) (i o : list (list Z)) : Prop :=
  mem s = ∅ /\ held s = hl /\ HM o /\ host_end r s i o.

Lemma host_end_rly r s s' i o : rly KH i o s s' -> host_end r s i o -> host_end r s' i o.
Proof using.
  intros Hr (H1 & H2 & H3).
  assert (Hfs : fs s' = fs s) by (destruct Hr as [->|(_ & _ & Hm)]; [done|by apply move_held in Hm as [_ ?]]).
  split_and!; rewrite ?Hfs; [|done|done]. intros ->. destruct (H1 eq_refl) as (Hc & -> & Hs).
  assert (s' = s) as -> by (eapply steady_H; [|exact Hr]; right; cbn; lia). done.
Qed.

Lemma host_end_held r l s i o : host_end r s i o -> host_end r (set_held l s) i o.
Proof using. done. Qed.

Lemma host_end_weaken e e' s i o : (ok e' = true -> ok e = true) -> (good = true -> e' = e) ->
  host_end (ok e) s i o -> host_end (ok e') s i o.
Proof using.
  intros H1 H2 (E1 & E2 & E3). split_and!; [by intros H; apply E1, H1|done|]. intros Hg. rewrite (H2 Hg). by apply E3.
Qed.

Lemma settled_rly hl r s s' i o : rly KH i o s s' -> settled hl r s i o -> settled hl r s' i o.
Proof using.
  clear Hsize. intros Hr (Hm & Hh & HMo & He). split_and!; [|by rewrite (f_held _ HF _ _ _ _ Hr)|done|by eapply host_end_rly].
  destruct Hr as [->|(_ & _ & Hmv)]; [done|]. unfold move, dma_write in Hmv.
  destruct h; [by destruct Hmv as (b & _ & _ & ->)|]. rewrite Hmv, Hm, lookup_empty. done.
Qed.

Lemma settled_calls {A B} (p : prog dcall A) P (k : A -> prog dcall B) Q hl r s i o :
  settled hl r s i o -> hwp W p P hl ->
  (forall a h' s', P a h' -> settled h' r s' i o -> wp W KH (k a) Q s' i o) -> wp W KH (p ≫= k) Q s i o.
Proof using.
  intros Hs Hp Hk. pose proof Hs as (_ & Hh & HMo & _). eapply (wp_hwp W KH HF p P); [by rewrite Hh|done|].
  intros a h' s1 Hr HP. apply (Hk a h'); [done|]. apply (settled_rly _ _ _ _ _ _ Hr) in Hs as (? & ? & ? & ?). done.
Qed.

Lemma settled_ret {A} (x : A) (Q : A -> side dres -> list (list Z) -> list (list Z) -> Prop) hl r s i o :
  settled hl r s i o -> (forall s', settled hl r s' i o -> Q x s' i o) -> wp W KH (mret x) Q s i o.
Proof using.
  intros Hs HQ s' Hr. split; [by destruct Hs as (_ & _ & ? & _)|]. by eapply HQ, settled_rly.
Qed.

Definition ends (hl : list dres) (r : doca_error) : side dres -> list (list Z) -> list (list Z) -> Prop := settled hl (ok r).

(** A label that releases [rs]. *)
Lemma host_label (p : doca_error -> prog dcall doca_error) rs hl e s i o :
  (forall e, hwp W (p e) (kept good e hl) (rs ++ hl)) ->
  settled (rs ++ hl) (ok e) s i o -> wp W KH (p e) (ends hl) s i o.
Proof using.
  intros Hp Hs. apply bind_ret. eapply settled_calls; [done|apply Hp|]. intros e' h' s' (-> & H1 & H2) Hs'.
  eapply settled_ret; [done|]. intros s'' (? & ? & ? & ?). split_and!; [done..|]. by eapply host_end_weaken.
Qed.

Lemma host_close_device_ok e hl :
  hwp W (host_close_device e) (kept good e hl)
    (RDev WorkDev :: hl).
Proof using. by apply (hwp_release _ good must _ (RDev WorkDev) e (RDev WorkDev :: hl) hl mret). Qed.

Lemma host_destroy_mmap_ok e hl :
  hwp W (host_destroy_mmap e) (kept good e hl)
    ([RMmap HostMmap; RDev WorkDev] ++ hl).
Proof using.
  eapply (hwp_release _ good must _ (RMmap HostMmap)); [done..|]. intros e1 H1 H2.
  eapply hwp_mono; [|apply host_close_device_ok]. intros e2 h' (-> & ? & ?). split_and!; [done|auto|].
  intros Hg. rewrite <- H2; auto.
Qed.

Lemma host_free_buffer_ok a e hl s i o : transferred a ([RMmap HostMmap; RDev WorkDev] ++ hl) e s i o ->
  wp W KH (host_free_buffer a e) (ends hl) s i o.
Proof using.
  clear Hsize. intros ((c & Hm) & Hh & Ha & HMo & He) s1 Hr. split; [done|].
  assert (Hm1 : exists c1, mem s1 = {[a := c1]}).
  { destruct Hr as [->|(Ho & _ & Hmv)]; [by exists c|]. rewrite Ha in Hmv by done. unfold move, dma_write in Hmv.
    destruct h; [destruct Hmv as (b & _ & _ & ->); by exists c|]. subst s1. rewrite Hm, lookup_singleton_eq. cbn.
    rewrite insert_singleton_eq. by eexists. }
  destruct Hm1 as (c1 & Hm1). split; [rewrite Hm1, lookup_singleton_eq; by eexists|].
  change (wp W KH (host_destroy_mmap e) (ends hl) (set_mem (delete a (mem s1)) s1) i o).
  eapply host_label; [intros e'; apply host_destroy_mmap_ok|].
  split_and!; cbn; [by rewrite Hm1, delete_singleton_eq|by rewrite (f_held _ HF _ _ _ _ Hr)|done|].
  by apply (host_end_rly _ _ _ _ _ Hr) in He.
Qed.

(** From the opening of the device on. *)
Lemma host_copy_ok cfg hl :
  copies = true -> is_file_found_locally cfg = bool_decide (is_Some h) -> file_size cfg = size ->
  wp W KH (host_copy cfg) (ends hl) (Side h ∅ hl None) [dir_d] [dir_h].
Proof using Hsize.
  intros Hc Hloc Hsz. assert (Hst : steady KH [dir_d] [dir_h]) by (apply steady_H; cbn; lia).
  assert (Hfail : forall e l, ok e = false -> good = false -> settled l (ok e) (Side h ∅ l None) [dir_d] [dir_h]).
  { intros e l He Hg. rewrite He. split_and!; [done|done|apply HM_one|by apply host_fails]. }
  assert (Hret : forall e l, ok e = false -> good = false -> wp W KH (mret e) (ends l) (Side h ∅ l None) [dir_d] [dir_h]).
  { intros e l He Hg. eapply settled_ret; [by apply Hfail|done]. }
  eapply wp_calls; [apply HF|done|apply HM_one|apply open_with_capabilities_ok|].
  intros [e p] h' [[[= -> ->] ->]|(He & _ & -> & Hg)]; cbn [fst snd set_held fs mem held dma] in *; [cbn [ok negb]|rewrite He; by apply Hret].
  eapply (wp_calls _ _ _ (fun e h' => e = DOCA_SUCCESS /\ h' = RMmap HostMmap :: RDev WorkDev :: hl \/
     ok e = false /\ good = false /\ h' = RDev WorkDev :: hl)); [apply HF|done|apply HM_one| |].
  { apply hwp_tail; [done|]. intros e1 He. destruct (may_call _ _ _ _ e1 He ltac:(discriminate)) as [->|[[Hg _] He']]; [by left|].
    right. unfold after_held. cbn. by rewrite He'. }
  intros e1 h1 [[-> ->]|(He & Hg & ->)]; cbn [set_held fs mem held dma ok negb].
  2: { rewrite He. eapply (host_label _ [RDev WorkDev]); [intros; apply host_close_device_ok|]. by apply Hfail. }
  assert (Hdes : forall e, ok e = false -> good = false ->
    wp W KH (host_destroy_mmap e) (ends hl) (Side h ∅ (RMmap HostMmap :: RDev WorkDev :: hl) None) [dir_d] [dir_h]).
  { intros e0 He Hg. eapply host_label; [intros; apply host_destroy_mmap_ok|]. by apply Hfail. }
  eapply wp_plain; [apply HF|done|intros; apply HM_one|done..| |].
  2: { intros Hg e2 He2. rewrite He2. by apply Hdes. }
  cbn [ok negb]. rewrite Hsz. eapply wp_alloc; [apply HF|done|intros; apply HM_one|unfold DmaCopySpec.size; lia| | |].
  - exists 1. by split.
  - intros a c _ Ha Hca. cbn [ok negb]. apply wp_bind; [apply HF|].
    eapply wp_mono; [|by eapply (host_transfer_ok cfg a _ h)]. intros e2 s2 i2 o2 Ht. by apply host_free_buffer_ok.
  - intros Hg e2 a He2. rewrite He2. by apply Hdes.
Qed.

(** The negotiation ends with the DPU's direction, and the size is that of the
    file; or the host has nothing more to do. *)
Definition host_cfg (n : Z) : dma_copy_cfg := Cfg DMA_COPY_MODE_HOST (bool_decide (is_Some h)) n.

Lemma HM_nil : HM [].
Proof using. split; [cbn; lia|]. exists [], 1. split_and!; [done|done|done|]. by eexists. Qed.

Lemma host_negotiate_ok hl (Q : doca_error * ptr * dma_copy_cfg -> _) :
  (copies = true -> Q (DOCA_SUCCESS, Obj, host_cfg size) (Side h ∅ hl None) [dir_d] [dir_h]) ->
  (forall e p cfg i o, ok e = false -> p <> Garbage -> (length o <> 4)%nat ->
     settled hl (ok e) (Side h ∅ hl None) i o -> Q (e, p, cfg) (Side h ∅ hl None) i o) ->
  wp W KH (host_negotiate_dma_direction_and_size (host_cfg (len h))) Q (Side h ∅ hl None) [] [].
Proof using Hsize.
  intros H1 H2.
  assert (Hst : forall i, steady KH i [dir_h]) by (intros i; apply steady_H; cbn; lia).
  assert (Hst0 : steady KH [] []) by (apply steady_H; cbn; lia).
  assert (Hbad : forall e p cfg i o, good = false -> ok e = false -> p <> Garbage -> HM o -> (length o <> 4)%nat ->
    wp W KH (mret (e, p, cfg)) Q (Side h ∅ hl None) i o).
  { intros e p cfg i o Hg He Hp HMo Ho. apply wp_ret; [by apply steady_H; left|done|]. apply H2; try done.
    rewrite He. split_and!; [done|done|done|by apply host_fails]. }
  unfold host_negotiate_dma_direction_and_size.
  do 2 (eapply wp_plain; [apply HF|done|intros; apply HM_nil|done..| |];
    [|intros Hg e He; rewrite He; apply Hbad; auto using HM_nil; done]; cbn [ok negb]).
  cbn [is_file_found_locally file_size host_cfg].
  replace (if bool_decide (is_Some h) then cc_msg_dma_direction true (htonq (len h)) else cc_msg_dma_direction false 0)
    with dir_h by (by destruct h).
  apply wp_send; [done|apply HM_nil| |].
  2: { intros e [Hg He]%fails_false. rewrite He. apply Hbad; auto using HM_nil; done. }
  cbn [ok negb app]. apply wp_recv; [done|apply HM_one|intros _; by left| |].
  2: { intros e [Hg He]%fails_false. rewrite He. apply Hbad; auto using HM_one; done. }
  intros m [r Hm]. apply DM_first in Hm as [[-> Hc]|[-> Hc]]; cbn [ok negb app].
  - assert (Hlen : Z.of_nat (length dir_d) = sizeof_direction) by (by destruct d).
    split; [lia|]. rewrite Hlen, Z.eqb_refl. cbn [negb]. apply wp_ret; [done|apply HM_one|].
    replace (if bool_decide (is_Some h) then _ else _) with (host_cfg size); [by apply H1|].
    clear - Hc Hsize. unfold host_cfg, set_file_size, DmaCopySpec.copies, DmaCopySpec.size, DmaCopySpec.src, DmaCopySpec.dir_d in *.
    destruct h as [f|], d as [g|]; try done. cbn [mode is_file_found_locally file_size]. f_equal.
    by destruct (direction_roundtrip false (len (Some g)) Hsize) as (_ & -> & _).
  - split; [done|]. cbn. apply wp_ret; [done|apply HM_one|]. apply H2; try done.
    split_and!; [done|done|apply HM_one|]. split_and!; [done|done|]. intros Hg. rewrite (Hc Hg). by split_and!.
Qed.

(** ** The program *)

Lemma host_start_ok hl :
  wp W KH (host_start_dma_copy (host_cfg (len h)))
    (fun x s i o => x.2 <> Garbage /\ settled hl (ok x.1) s i o) (Side h ∅ hl None) [] [].
Proof using Hsize.
  apply wp_bind; [apply HF|]. apply host_negotiate_ok.
  - intros Hc. cbn [ok negb]. apply wp_bind; [apply HF|]. eapply wp_mono; [|by apply host_copy_ok].
    intros e s i o Hs. by eapply settled_ret.
  - intros e p cfg i o He Hp Ho Hs. rewrite He in *. cbn [negb]. eapply settled_ret; [done|]. intros s' Hs'.
    cbn [fst snd]. by rewrite He.
Qed.

(** All that the host's program does, from main on. *)
Lemma host_main_ok :
  wp W KH (main DMA_COPY_MODE_HOST) (fun code => settled [] (code =? EXIT_SUCCESS)) (Side h ∅ [] None) [] [].
Proof using Hsize.
  apply wp_main; [apply HF|apply steady_H; cbn; lia|intros; apply HM_nil| |].
  - eapply wp_mono; [|apply host_start_ok]. intros [e p] s i o [Hp Hs]. cbn [fst snd] in *.
    unfold finish. cbn [fst snd]. apply wp_bind; [apply HF|].
    eapply settled_calls; [exact Hs|by apply (destroy_cc_ok _ _ _ _ _ []); [left|]|]. intros _ h' s1 -> Hs1.
    eapply settled_ret; [done|]. intros s2 Hs2.
    eapply (settled_calls _ (fun _ h' => h' = [])); [done|apply hwp_tail; [done|]; by intros e' _|].
    intros _ h' s3 -> Hs3. eapply settled_ret; [done|]. intros s4 Hs4. by destruct (ok e).
  - intros Hg. split_and!; [done|done|apply HM_nil|by apply host_fails].
Qed.
End Host.
