(* ===== verification/DmaCopyDpu.v ===== *)
(** * DMA copy: the DPU keeps its contract

    [wp] of the DPU's program (DmaCopy.v) under [KD] (DmaCopySpec.v): for all
    answers of the libraries and all messages of the host, it ends as [dpu_end]
    says and releases everything, but for the task when saving its file fails. *)

From stdpp Require Import gmap.
From S2P Require Import Prelude Pack Proc ProcSpec DocaCommon DocaSpec DmaCopy DmaCopySpec.
#[local] Open Scope Z_scope.

Section Dpu.
Context (h d : option (list Z)) (mx : Z) (good : bool) (must : dcall -> bool).
Context (Hsize : in_u 64 (size h d)).
(** Creating the core objects is assumed to succeed: when it fails the code
    reads pointers it never wrote. *)
Context (Hmust : forall c, core_call c = true -> must c = true).
Notation W := (doca_world (dma_engine mx) good must).
Notation KD := (KD h d mx good must).
Notation delivered := (delivered d good must).
Notation HM := (HM h d mx).
Notation DM := (DM h d mx good).
Notation copies := (copies h d mx).
Notation size := (size h d).
Notation dir_h := (dir_h h).
Notation dir_d := (dir_d d).
Notation host_log := (host_log h d).
Notation HF := (KD_framed h d mx good must).

Definition acked (k : nat) : list (list Z) := dir_d :: replicate k yes.

(** How the DPU ends: [r] tells whether with success. *)
Definition dpu_end (r : bool) (s : side dres) (o : list (list Z)) : Prop :=
  DM o /\ (o = acked 4 -> delivered s) /\ (is_Some d -> fs s = d) /\
  (good = true -> if copies then r = true /\ o = acked 4 else r = false /\ o = [no] /\ fs s = d).

Lemma steady_D i o : steady KD i o.
Proof using. by intros s s' ->. Qed.

Lemma inv_D i o s : DM o -> o <> acked 4 -> inv KD s i o.
Proof using. by split. Qed.

Lemma DM_acked k : copies = true -> (k <= 4)%nat -> DM (acked k).
Proof using. intros Hc Hk. right. right. split; [done|]. exists k. split; [done|by left]. Qed.

Lemma DM_acked_no k : copies = true -> good = false -> (k <= 3)%nat -> DM (acked k ++ [no]).
Proof using. intros Hc Hg Hk. right. right. split; [done|]. exists k. split; [lia|by right]. Qed.

Lemma acked_ne k : (k < 4)%nat -> acked k <> acked 4.
Proof using. intros Hk E. apply (f_equal length) in E. cbn in E. rewrite length_replicate in E. lia. Qed.

Lemma acked_no_ne k : acked k ++ [no] <> acked 4.
Proof using.
  intros E. assert (Hin : no ∈ acked 4) by (rewrite <- E; apply elem_of_app; right; left).
  apply elem_of_cons in Hin as [E'|[E' _]%elem_of_replicate]; [by destruct (dir_d_no d)|done].
Qed.

Lemma acked_S k : acked k ++ [yes] = acked (S k).
Proof using. unfold acked. cbn. by rewrite <- replicate_cons_app. Qed.

(** The messages of the host, in order. *)
Lemma HM_first m r : HM (m :: r) -> m = dir_h.
Proof using. intros (_ & desc & a & _ & _ & x & [= -> _]). done. Qed.

Lemma HM_second m r : HM (dir_h :: m :: r) -> Z.of_nat (length m) <= CC_MAX_MSG_SIZE.
Proof using. by intros (_ & desc & a & Hd & _ & x & [= -> _]). Qed.

Lemma HM_third desc m r : HM (dir_h :: desc :: m :: r) -> exists a, 0 < a < 2 ^ 64 /\ m = u64_bytes (htonq a).
Proof using. intros (_ & desc' & a & _ & Ha & x & [= _ <- _]). by exists a. Qed.

Lemma HM_fourth desc a m r : HM (dir_h :: desc :: a :: m :: r) -> m = u64_bytes (htonq size).
Proof using. by intros (_ & desc' & a' & _ & _ & x & [= _ _ <- _]). Qed.

(** ** Receiving *)

Notation post A := (A -> side dres -> list (list Z) -> list (list Z) -> Prop).

(** The refusals: a failure status, if it can be sent. *)
Lemma wp_refuse {A} (Q : post A) p k s i :
  copies = true -> good = false -> (k <= 3)%nat ->
  (forall o, (o = acked k \/ o = acked k ++ [no]) -> wp W KD p Q s i o) ->
  wp W KD (_ ← send_status_msg STATUS_FAILURE; p) Q s i (acked k).
Proof using.
  intros Hc Hg Hk Hp. apply wp_send; [apply steady_D|apply inv_D; [by apply DM_acked; [|lia]|apply acked_ne; lia]| |].
  - apply Hp. by right.
  - intros e _. apply Hp. by left.
Qed.

(** An end in failure, on a machine where something can fail. *)
Definition gives_up (k : nat) (o : list (list Z)) : Prop := copies = true /\ good = false /\ (k <= 3)%nat /\ (o = acked k \/ o = acked k ++ [no]).

Lemma gives_up_inv k o i s : gives_up k o -> inv KD s i o.
Proof using.
  intros (Hc & Hg & Hk & [-> | ->]); apply inv_D; auto using DM_acked_no, acked_no_ne; [apply DM_acked; auto|apply acked_ne; lia].
Qed.

Lemma gives_up_end k o s : gives_up k o -> (is_Some d -> fs s = d) -> dpu_end false s o.
Proof using.
  intros Hg Hf. destruct (gives_up_inv k o [] s Hg) as [H1 H2]. split_and!; [done..|].
  destruct Hg as (_ & Hg & _). congruence.
Qed.

Lemma dpu_receive_export_desc_ok {A} (Q : post A) (k : doca_error * list Z -> prog dcall A) s :
  copies = true ->
  (forall desc, wp W KD (k (DOCA_SUCCESS, desc)) Q s [dir_h; desc] (acked 1)) ->
  (forall e desc i o, ok e = false -> gives_up 0 o -> wp W KD (k (e, desc)) Q s i o) ->
  wp W KD (dpu_receive_export_desc ≫= k) Q s [dir_h] (acked 0).
Proof using.
  intros Hc H1 H2. apply wp_bind; [apply HF|].
  assert (Hi : forall i, inv KD s i (acked 0)) by (intros i; apply inv_D; [by apply DM_acked; [|lia]|apply acked_ne; lia]).
  apply wp_recv; [apply steady_D|done| | |].
  - intros _. right. exists 0%nat. split_and!; [lia|done|done].
  - intros m [r Hm]. split; [exact (HM_second _ _ Hm)|]. cbn [ok negb app].
    apply wp_send; [apply steady_D|apply Hi| |].
    + rewrite acked_S. apply wp_ret; [apply steady_D|apply inv_D; [by apply DM_acked; [|lia]|apply acked_ne; lia]|]. apply H1.
    + intros e [Hg He]%fails_false. apply wp_ret; [apply steady_D|apply Hi|]. apply H2; [done|]. split_and!; [done|done|lia|by left].
  - intros e [Hg He]%fails_false. rewrite He. cbn [negb]. apply wp_refuse; [done|done|lia|]. intros o Ho.
    assert (Hgu : gives_up 0 o) by (split_and!; [done|done|lia|done]).
    apply wp_ret; [apply steady_D|by eapply gives_up_inv|]. by apply H2.
Qed.

Lemma dpu_receive_u64_ok {A} (Q : post A) (k : doca_error * Z -> prog dcall A) s i n :
  copies = true -> (1 <= n <= 2)%nat -> length i = S n ->
  (forall m r, HM (i ++ m :: r) -> exists v, in_u 64 v /\ m = u64_bytes (htonq v)) ->
  (forall v, in_u 64 v -> (exists r, HM ((i ++ [u64_bytes (htonq v)]) ++ r)) ->
     wp W KD (k (DOCA_SUCCESS, v)) Q s (i ++ [u64_bytes (htonq v)]) (acked (S n))) ->
  (forall e v i o, ok e = false -> gives_up n o -> wp W KD (k (e, v)) Q s i o) ->
  wp W KD (dpu_receive_u64 ≫= k) Q s i (acked n).
Proof using.
  intros Hc Hn Hlen Hm H1 H2. apply wp_bind; [apply HF|].
  assert (Hi : forall i, inv KD s i (acked n)) by (intros i'; apply inv_D; [by apply DM_acked; [|lia]|apply acked_ne; lia]).
  apply wp_recv; [apply steady_D|apply Hi| | |].
  - intros _. right. exists n. split_and!; [lia|done|done].
  - intros m [r Hr]. destruct (Hm m r Hr) as (v & Hv & ->). rewrite length_u64. split; [done|]. cbn [ok negb].
    change (Z.of_nat 8 =? 8) with true. cbn [negb]. rewrite u64_roundtrip by done.
    destruct (Z.ltb_spec SIZE_MAX v) as [Hbig|_]; [unfold SIZE_MAX, in_u in *; lia|].
    apply wp_send; [apply steady_D|apply Hi| |].
    + rewrite acked_S. apply wp_ret; [apply steady_D|apply inv_D; [by apply DM_acked; [|lia]|apply acked_ne; lia]|].
      apply H1; [done|]. exists r. by rewrite <- app_assoc.
    + intros e [Hg He]%fails_false. apply wp_ret; [apply steady_D|apply Hi|]. apply H2; [done|]. split_and!; [done|done|lia|by left].
  - intros e [Hg He]%fails_false. rewrite He. cbn [negb]. apply wp_refuse; [done|done|lia|]. intros o Ho.
    assert (Hgu : gives_up n o) by (split_and!; [done|done|lia|done]).
    apply wp_ret; [apply steady_D|by eapply gives_up_inv|]. by apply H2.
Qed.

(** ** The copy *)

Section Copy.
Context (cfg : dma_copy_cfg) (a a' : Z) (desc : list Z) (M : gmap Z (list Z)) (R : list dres).
Context (Hc : copies = true) (Ha' : 0 < a' < 2 ^ 64)
  (Hloc : is_file_found_locally cfg = bool_decide (is_Some d)) (Hsz : file_size cfg = size).
Notation i4 := (host_log desc a').
Notation o4 := (acked 3).
Notation st f c l dm := (Side f (<[a := c]> M) l dm).

(** A buffer of the file's size, with the file where it is here. *)
Definition ready (c : list Z) : Prop := length c = length (src h d) /\ forall g, d = Some g -> c = g.

Lemma src_d g : d = Some g -> src h d = g.
Proof using Hc. clear - Hc. intros ->. unfold DmaCopySpec.copies in Hc. by destruct h. Qed.

Lemma inv_o4 s : inv KD s i4 o4.
Proof using Hc. apply inv_D; [by apply DM_acked; [|lia]|apply acked_ne; lia]. Qed.

Lemma run_dma_task_ok {A} (Q : post A) (k : Z * doca_error -> prog dcall A) f c l :
  ready c ->
  (forall b, ready b -> wp W KD (k (0, DOCA_SUCCESS)) Q (st f b l (Some b)) i4 o4) ->
  (good = false -> forall e c' dm, ok e = false -> wp W KD (k (0, e)) Q (st f c' l dm) i4 o4) ->
  wp W KD (run_dma_task (bool_decide (is_Some d)) a a' size 1 ≫= k) Q (st f c l None) i4 o4.
Proof using Hc Ha'.
  clear Hloc. intros [Hl Hg] H1 H2. apply wp_bind; [apply HF|]. unfold run_dma_task.
  assert (Haddr : a' = addr_of i4) by (symmetry; apply u64_roundtrip; unfold in_u; lia).
  assert (Hdone : forall e c' dm, ok e = true -> ready c' -> dm = Some c' \/ False ->
    wp W KD (mret (if ok e then dma_memcpy_completed_callback 1 else dma_memcpy_error_callback 1 e))
      (fun x s i o => wp W KD (k x) Q s i o) (st f c' l dm) i4 o4).
  { intros e c' dm He Hr [->|[]]. rewrite He. apply wp_ret; [apply steady_D|apply inv_o4|]. by apply H1. }
  assert (Herr : forall e c' dm, fails W e ->
    wp W KD (mret (if ok e then dma_memcpy_completed_callback 1 else dma_memcpy_error_callback 1 e))
      (fun x s i o => wp W KD (k x) Q s i o) (st f c' l dm) i4 o4).
  { intros e c' dm [Hgd He]%fails_false. rewrite He. apply wp_ret; [apply steady_D|apply inv_o4|]. by apply H2. }
  apply wp_bind; [apply HF|]. destruct (is_Some_dec d) as [Hd|Hd];
    [rewrite bool_decide_eq_true_2 by done|rewrite bool_decide_eq_false_2 by done].
  - destruct Hd as [g Hd]. pose proof (Hg g Hd) as ->.
    eapply wp_load; [apply steady_D|apply inv_o4|cbn; by rewrite lookup_insert_eq|unfold DmaCopySpec.size; by rewrite (src_d g)|].
    apply bind_ret. apply wp_dma_write; [apply steady_D|apply inv_o4|by split_and!| |].
    + apply wp_ret; [apply steady_D|apply inv_o4|]. by apply Hdone; [|split|left].
    + intros e He. apply wp_ret; [apply steady_D|apply inv_o4|]. by apply Herr.
  - apply wp_dma_read; [apply steady_D|apply inv_o4|unfold DmaCopySpec.size; lia| | |].
    + split_and!; try done. by apply eq_None_not_Some.
    + intros b Hb. unfold DmaCopySpec.size in Hb. cbn [ok].
      eapply wp_store; [apply steady_D|apply inv_o4|cbn; by rewrite lookup_insert_eq|lia|].
      cbn [mem set_dma set_mem fs held dma]. rewrite insert_insert_eq. unfold overwrite. rewrite drop_ge, app_nil_r by lia.
      apply wp_ret; [apply steady_D|apply inv_o4|]. apply Hdone; [done| |by left]. split; [lia|].
      intros g Hdg. destruct Hd. by exists g.
    + intros e He. pose proof (fails_false _ _ _ _ He) as [_ He']. cbn beta iota. rewrite He'. apply wp_ret; [apply steady_D|apply inv_o4|]. by apply Herr.
Qed.

(** The task is given back, unless saving what it brought fails. *)
Lemma dpu_submit_ok {A} (Q : post A) (k : doca_error -> prog dcall A) c l :
  ready c ->
  (forall f' b dm, delivered (st f' b l dm) -> (is_Some d -> f' = d) -> wp W KD (k DOCA_SUCCESS) Q (st f' b l dm) i4 o4) ->
  (good = false -> forall e f' b dm lk, ok e = false -> leak lk -> (is_Some d -> f' = d) ->
     wp W KD (k e) Q (st f' b (lk ++ l) dm) i4 o4) ->
  forall f, (is_Some d -> f = d) -> wp W KD (dpu_submit_dma_task cfg size a a' 1 ≫= k) Q (st f c l None) i4 o4.
Proof using Hc Ha' Hloc Hsz Hsize.
  intros Hr H1 H2 f Hf. apply wp_bind; [apply HF|]. unfold dpu_submit_dma_task.
  assert (Hbad : forall e f b dm lk, good = false -> ok e = false -> leak lk -> (is_Some d -> f = d) ->
    wp W KD (mret e) (fun e s i o => wp W KD (k e) Q s i o) (st f b (lk ++ l) dm) i4 o4).
  { intros e f1 b dm lk Hg He Hl Hf1. apply wp_ret; [apply steady_D|apply inv_o4|]. by apply H2. }
  do 2 (eapply wp_plain; [apply HF|apply steady_D|apply inv_o4|done..| |];
    [|intros Hg e He; rewrite He; by apply (Hbad e f c None []); try left]; cbn [ok negb]).
  eapply (wp_calls _ _ _ (fun e h' => e = DOCA_SUCCESS /\ h' = RTask :: l \/ ok e = false /\ good = false /\ h' = l));
    [apply HF|apply steady_D|apply inv_o4| |].
  { apply hwp_tail; [done|]. intros e He. destruct (may_call _ _ _ _ e He ltac:(discriminate)) as [->|[[Hg _] He']]; [by left|].
    right. unfold after_held. cbn. by rewrite He'. }
  intros e h' [[-> ->]|(He & Hg & ->)]; cbn [ok negb set_held fs mem held dma].
  2: { rewrite He. by apply (Hbad e f c None []); try left. }
  assert (Hfree : forall e s, held s = RTask :: l -> wp W KD (mret e) (fun e s i o => wp W KD (k e) Q s i o) (set_held l s) i4 o4 ->
    wp W KD (_ ← call task_free; mret e) (fun e s i o => wp W KD (k e) Q s i o) s i4 o4).
  { intros e s Hs Hk. eapply (wp_calls _ _ _ (fun _ h' => h' = l)); [apply HF|apply steady_D|apply inv_o4| |by intros _ h' ->].
    rewrite Hs. apply hwp_tail; [done|]. by intros e' _. }
  eapply wp_plain; [apply HF|apply steady_D|apply inv_o4|done..| |].
  2: { intros Hg e He. rewrite He. cbn [negb]. apply Hfree; [done|]. by apply (Hbad e f c None []); try left. }
  cbn [ok negb]. rewrite Hloc. apply run_dma_task_ok; [done| |].
  2: { intros Hg e b dm He. cbn [Z.ltb Z.compare]. rewrite He. apply Hfree; [done|]. by apply (Hbad e f b dm []); try left. }
  intros b Hb. cbn [Z.ltb Z.compare ok negb]. destruct Hb as [Hlb Hgb].
  destruct (decide (is_Some d)) as [Hd|Hd]; [rewrite bool_decide_eq_true_2 by done|rewrite bool_decide_eq_false_2 by done]; cbn [negb].
  - apply Hfree; [done|]. apply wp_ret; [apply steady_D|apply inv_o4|]. apply H1; [|done].
    destruct Hd as [g Hd]. unfold DmaCopySpec.delivered. rewrite Hd. cbn. split; [|done]. rewrite Hf by (by eexists). done.
  - assert (Hnd : d = None) by (by apply eq_None_not_Some).
    eapply wp_save; [apply HF|apply steady_D|apply inv_o4|by rewrite lookup_insert_eq|unfold DmaCopySpec.size in Hsz; lia| |].
    + intros f' Hf'. cbn [ok negb]. apply Hfree; [done|]. apply wp_ret; [apply steady_D|apply inv_o4|]. apply H1; [|done].
      unfold DmaCopySpec.delivered. rewrite Hnd. by exists b.
    + intros Hg e f' He. rewrite He. cbn [negb]. apply (Hbad e f' b (Some b) [RTask]); try done. by right.
Qed.

(** ** Clean-up of the copy *)

Lemma dpu_destroy_remote_mmap_ok e lk : leak lk ->
  hwp W (dpu_destroy_remote_mmap e) (kept good e (lk ++ R)) (lk ++ RMmap RemoteMmap :: R).
Proof using. by intros [-> | ->]; eapply (hwp_release _ good must _ (RMmap RemoteMmap) e _ _ mret). Qed.

Lemma dpu_destroy_remote_buf_ok e lk : leak lk ->
  hwp W (dpu_destroy_remote_buf e) (kept good e (lk ++ R)) (lk ++ RBuf RemoteBuf :: RMmap RemoteMmap :: R).
Proof using.
  intros Hl. eapply (hwp_release _ good must _ (RBuf RemoteBuf) e _ (lk ++ RMmap RemoteMmap :: R));
    [done|done|done|by destruct Hl as [-> | ->]|by destruct Hl as [-> | ->]|]. intros e1 H1 H2.
  eapply hwp_mono; [|by apply dpu_destroy_remote_mmap_ok]. intros e2 h'. apply label_kept_trans with (h1 := []). by split_and!.
Qed.

Lemma dpu_destroy_local_buf_ok e lk : leak lk ->
  hwp W (dpu_destroy_local_buf e) (kept good e (lk ++ R)) (lk ++ RBuf LocalBuf :: RBuf RemoteBuf :: RMmap RemoteMmap :: R).
Proof using.
  intros Hl. eapply (hwp_release _ good must _ (RBuf LocalBuf) e _ (lk ++ RBuf RemoteBuf :: RMmap RemoteMmap :: R));
    [done|done|done|by destruct Hl as [-> | ->]|by destruct Hl as [-> | ->]|]. intros e1 H1 H2.
  eapply hwp_mono; [|by apply dpu_destroy_remote_buf_ok]. intros e2 h'. apply label_kept_trans with (h1 := []). by split_and!.
Qed.

(** How a stretch of the DPU's program ends that began with [R] held and a
    buffer at [a]. *)
Definition leaks (r : bool) (lk : list dres) : Prop := lk = [] \/ lk = [RTask] /\ r = false /\ good = false.
Definition stretch (r : doca_error) (s : side dres) (i o : list (list Z)) : Prop :=
  inv KD s i o /\ exists f c dm lk, s = st f c (lk ++ R) dm /\ leaks (ok r) lk /\ dpu_end (ok r) s o.

Lemma dpu_end_held r l s o : dpu_end r s o -> dpu_end r (set_held l s) o.
Proof using. done. Qed.

Lemma dpu_end_weaken r r' s o : (good = true -> r' = r) -> dpu_end r s o -> dpu_end r' s o.
Proof using. intros Hr (H1 & H2 & H3 & H4). split_and!; [done..|]. intros Hg. rewrite (Hr Hg). by apply H4. Qed.

Lemma label_end (p : doca_error -> prog dcall doca_error) e f c dm lk rs i o :
  hwp W (p e) (kept good e (lk ++ R)) (lk ++ rs) -> leaks (ok e) lk ->
  inv KD (st f c (lk ++ rs) dm) i o -> dpu_end (ok e) (st f c (lk ++ rs) dm) o ->
  wp W KD (p e) stretch (st f c (lk ++ rs) dm) i o.
Proof using.
  intros Hp Hl Hi He. apply bind_ret. eapply wp_calls; [apply HF|apply steady_D|done|exact Hp|].
  intros e' h' (-> & Hk & Hkg).
  assert (Hi' : inv KD (st f c (lk ++ R) dm) i o) by (by apply (f_inv _ HF (st f c (lk ++ rs) dm))).
  apply wp_ret; [apply steady_D|done|]. split; [done|]. exists f, c, dm, lk. split_and!; [done| |].
  - destruct Hl as [->|(-> & He' & Hg)]; [by left|right]. split_and!; [done| |done].
    destruct (ok e') eqn:E; [|done]. by rewrite Hk in He'.
  - apply (dpu_end_weaken (ok e)); [|exact He]. intros Hg. by rewrite (Hkg Hg).
Qed.

Lemma quits_label (p : doca_error -> prog dcall doca_error) e f c dm lk rs i o k :
  hwp W (p e) (kept good e (lk ++ R)) (lk ++ rs) -> leak lk -> ok e = false -> gives_up k o -> (is_Some d -> f = d) ->
  wp W KD (p e) stretch (st f c (lk ++ rs) dm) i o.
Proof using.
  intros Hp Hl He Hg Hf. apply label_end; [done| |by eapply gives_up_inv|rewrite He; by eapply gives_up_end].
  destruct Hl as [->|Hl]; [by left|right]. by destruct Hg as (_ & ? & _).
Qed.

(** From the construction of the two buffers on. *)
Lemma dpu_copy_ok c f : length c = length (src h d) -> (is_Some d -> f = d) ->
  wp W KD (dpu_copy cfg a a' size 1) stretch (st f c (RMmap RemoteMmap :: R) None) i4 o4.
Proof using Hc Ha' Hloc Hsz Hsize.
  intros Hr Hf. unfold dpu_copy.
  assert (Hget : forall b m p n l (k : doca_error -> prog dcall doca_error) c1,
    wp W KD (k DOCA_SUCCESS) stretch (st f c1 (RBuf b :: l) None) i4 o4 ->
    (good = false -> forall e, ok e = false -> wp W KD (k e) stretch (st f c1 l None) i4 o4) ->
    wp W KD (call (buf_get_by_addr b m p n) ≫= k) stretch (st f c1 l None) i4 o4).
  { intros b m p n l k c1 H1 H2.
    eapply (wp_calls _ _ _ (fun e h' => e = DOCA_SUCCESS /\ h' = RBuf b :: l \/ ok e = false /\ good = false /\ h' = l));
      [apply HF|apply steady_D|apply inv_o4| |].
    - apply hwp_tail; [done|]. intros e He. destruct (may_call _ _ _ _ e He ltac:(discriminate)) as [->|[[Hg _] He']]; [by left|].
      right. unfold after_held. cbn. by rewrite He'.
    - intros e h' [[-> ->]|(He & Hg & ->)]; [exact H1|by apply H2]. }
  assert (Href : forall (p : doca_error -> prog dcall doca_error) e f1 c1 dm lk rs, good = false -> ok e = false -> leak lk ->
    (is_Some d -> f1 = d) -> (forall e lk, leak lk -> hwp W (p e) (kept good e (lk ++ R)) (lk ++ rs)) ->
    wp W KD (_ ← send_status_msg STATUS_FAILURE; p e) stretch (st f1 c1 (lk ++ rs) dm) i4 o4).
  { intros p e f1 c1 dm lk rs Hg He Hl Hf1 Hp. apply wp_refuse; [done|done|lia|]. intros o Ho.
    apply (quits_label _ _ _ _ _ _ _ _ _ 3); [by apply Hp|done|done|split_and!; [done|done|lia|done]|done]. }
  apply Hget. 2: { intros Hg e He. rewrite He. apply (Href _ _ _ _ _ []); try done; [by left|apply dpu_destroy_remote_mmap_ok]. }
  cbn [ok negb]. apply Hget. 2: { intros Hg e He. rewrite He. apply (Href _ _ _ _ _ []); try done; [by left|apply dpu_destroy_remote_buf_ok]. }
  cbn [ok negb].
  set (rest := fun result : doca_error => if negb (ok result) then _ ← send_status_msg STATUS_FAILURE; dpu_destroy_local_buf result else
    result ← dpu_submit_dma_task cfg size a a' 1;
    _ ← send_status_msg (if ok result then STATUS_SUCCESS else STATUS_FAILURE);
    dpu_destroy_local_buf result).
  assert (Hrest : forall c1, ready c1 ->
    wp W KD (rest DOCA_SUCCESS) stretch (st f c1 (RBuf LocalBuf :: RBuf RemoteBuf :: RMmap RemoteMmap :: R) None) i4 o4).
  { intros c1 Hr1. unfold rest. cbn [ok negb]. apply dpu_submit_ok; [done| | |done].
    - intros f' b dm Hdel Hf'. cbn [ok]. apply wp_send; [apply steady_D|apply inv_o4| |].
      + rewrite acked_S. apply (label_end _ _ _ _ _ []); [apply (dpu_destroy_local_buf_ok _ []); by left|by left| |].
        * split; [by apply DM_acked|]. by intros _.
        * split_and!; [by apply DM_acked|by intros _|done|]. intros _. by rewrite Hc.
      + intros e [Hg He]%fails_false. apply (label_end _ _ _ _ _ []); [apply (dpu_destroy_local_buf_ok _ []); by left|by left|apply inv_o4|].
        split_and!; [apply DM_acked; [done|lia]| |done|congruence]. intros E. by apply acked_ne in E; [|lia].
    - intros Hg e f' b dm lk He Hl Hf'. rewrite He. apply (Href dpu_destroy_local_buf); try done. by apply dpu_destroy_local_buf_ok. }
  change (wp W KD ((if is_file_found_locally cfg then fill_buffer_with_file_content cfg a else mret DOCA_SUCCESS) ≫= rest)
    stretch (st f c (RBuf LocalBuf :: RBuf RemoteBuf :: RMmap RemoteMmap :: R) None) i4 o4).
  rewrite Hloc. destruct (decide (is_Some d)) as [Hd|Hd]; [rewrite bool_decide_eq_true_2 by done|rewrite bool_decide_eq_false_2 by done].
  - destruct Hd as [g Hd]. pose proof (src_d g Hd) as Hsrc. rewrite Hsrc in Hr.
    assert (Hfg : f = Some g) by (rewrite Hf; [done|by eexists]). rewrite Hfg.
    eapply wp_fill; [apply HF|apply steady_D|apply inv_o4|by rewrite lookup_insert_eq|done| | |].
    + rewrite Hsz. unfold DmaCopySpec.size. by rewrite Hsrc.
    + rewrite insert_insert_eq, <- Hfg. apply Hrest. split; [by rewrite Hsrc|]. intros g'. congruence.
    + intros Hg e c' He _. rewrite insert_insert_eq. unfold rest. rewrite He. cbn [negb].
      apply (Href dpu_destroy_local_buf e (Some g) c' None []); try done; [by left|apply dpu_destroy_local_buf_ok].
  - apply Hrest. split; [done|]. intros g Hdg. destruct Hd. by exists g.
Qed.
End Copy.

(** ** From the negotiation to the end *)

Section Work.
Context (cfg : dma_copy_cfg) (R : list dres) (f : option (list Z)) (Hf : is_Some d -> f = d)
  (Hc : copies = true) (Hloc : is_file_found_locally cfg = bool_decide (is_Some d)) (Hsz : file_size cfg = size).

Lemma inv_acked k i s : (k <= 3)%nat -> inv KD s i (acked k).
Proof using Hc. intros Hk. apply inv_D; [by apply DM_acked; [|lia]|apply acked_ne; lia]. Qed.

Lemma quits a M e f1 c i o k : ok e = false -> gives_up k o -> (is_Some d -> f1 = d) ->
  wp W KD (mret e) (stretch a M R) (Side f1 (<[a := c]> M) R None) i o.
Proof using.
  intros He Hg Hf1. apply wp_ret; [apply steady_D|by eapply gives_up_inv|]. split; [by eapply gives_up_inv|].
  exists f1, c, None, []. split_and!; [done|by left|]. rewrite He. by eapply gives_up_end.
Qed.

Lemma dpu_transfer_ok a M c : length c = length (src h d) ->
  wp W KD (dpu_transfer cfg a 1) (stretch a M R) (Side f (<[a := c]> M) R None) [dir_h] (acked 0).
Proof using Hc Hf Hloc Hsz Hsize.
  intros Hl. unfold dpu_transfer. apply dpu_receive_export_desc_ok; [done| |].
  2: { intros e desc i o He Hg. rewrite He. by eapply quits. }
  intros desc. cbn [ok negb].
  eapply (wp_calls _ _ _ (fun e h' => e = DOCA_SUCCESS /\ h' = RMmap RemoteMmap :: R \/ ok e = false /\ good = false /\ h' = R));
    [apply HF|apply steady_D|apply inv_acked; lia| |].
  { apply hwp_tail; [done|]. intros e He. destruct (may_call _ _ _ _ e He ltac:(discriminate)) as [->|[[Hg _] He']]; [by left|].
    right. unfold after_held. cbn. by rewrite He'. }
  intros e h' [[-> ->]|(He & Hg & ->)]; cbn [ok negb set_held fs mem held dma].
  2: { rewrite He. apply (quits _ _ _ _ _ _ _ 1); [done|split_and!; [done|done|lia|by left]|done]. }
  assert (Hgu : forall e i o k, ok e = false -> gives_up k o ->
    wp W KD (dpu_destroy_remote_mmap e) (stretch a M R) (Side f (<[a := c]> M) (RMmap RemoteMmap :: R) None) i o).
  { intros e i o k He Hg. apply (quits_label a M R _ _ _ _ _ [] _ _ _ k); try done; [|by left].
    apply (dpu_destroy_remote_mmap_ok R _ []). by left. }
  apply wp_bind; [apply HF|]. unfold dpu_receive_addr_and_offset.
  eapply (dpu_receive_u64_ok _ _ _ [dir_h; desc] 1); [done|lia|done| | |].
  { intros m r Hm. destruct (HM_third _ _ _ Hm) as (a' & Ha' & ->). exists a'. split; [unfold in_u; lia|done]. }
  2: { intros e v i o He Hg. cbn beta iota. rewrite He. cbn [negb]. apply wp_ret; [apply steady_D|by eapply gives_up_inv|].
       rewrite He. by eapply Hgu. }
  intros v Hv [r Hr]. cbn [ok negb app] in *.
  destruct (HM_third _ _ _ Hr) as (a' & Ha' & Hva). apply (f_equal (fun m => ntohq true (bytes_u64 m))) in Hva.
  rewrite !u64_roundtrip in Hva by (unfold in_u in *; lia). subst a'.
  eapply (dpu_receive_u64_ok _ _ _ [dir_h; desc; _] 2); [done|lia|done| | |].
  { intros m r' Hm. exists size. split; [done|]. exact (HM_fourth _ _ _ _ Hm). }
  2: { intros e v' i o He Hg. apply wp_ret; [apply steady_D|by eapply gives_up_inv|]. rewrite He. by eapply Hgu. }
  intros n Hn [r' Hr']. cbn [ok negb app] in *.
  pose proof (HM_fourth _ _ _ _ Hr') as Hva. apply (f_equal (fun m => ntohq true (bytes_u64 m))) in Hva.
  rewrite !u64_roundtrip in Hva by done. subst n.
  apply wp_ret; [apply steady_D|apply inv_acked; lia|]. cbn [ok negb]. by apply dpu_copy_ok.
Qed.

(** What the work leaves behind. *)
Definition worked (M : gmap Z (list Z)) (r : doca_error) (s : side dres) (i o : list (list Z)) : Prop :=
  inv KD s i o /\ exists f dm lk, s = Side f M (lk ++ R) dm /\ leaks (ok r) lk /\ dpu_end (ok r) s o.

Lemma dpu_work_ok sa cs flags :
  wp W KD (dpu_work cfg flags 1) (worked {[sa := cs]}) (Side f {[sa := cs]} R None) [dir_h] (acked 0).
Proof using Hc Hf Hloc Hsz Hsize.
  unfold dpu_work. rewrite Hsz. eapply wp_alloc; [apply HF|apply steady_D|intros; apply inv_acked; lia|unfold DmaCopySpec.size; lia| | |].
  - destruct (decide (sa = 1)) as [->|Hne]; [exists 2|exists 1]; cbn [mem]; rewrite lookup_singleton_ne by done; done.
  - intros a c Ha Hr Hcl. unfold DmaCopySpec.size in Hcl. cbn [ok negb mem set_mem fs held dma] in *. apply wp_bind; [apply HF|].
    eapply wp_mono; [|apply dpu_transfer_ok; lia]. intros r s i o (Hi & f' & c' & dm & lk & -> & Hl & He).
    apply wp_free; [apply steady_D|done|cbn; rewrite lookup_insert_eq; by eexists|].
    cbn [mem set_mem fs held dma]. rewrite delete_insert_id by done.
    assert (Hi' : inv KD (Side f' {[sa := cs]} (lk ++ R) dm) i o) by (by apply (f_inv _ HF _ _ _ _ eq_refl eq_refl Hi)).
    apply wp_ret; [apply steady_D|done|]. split; [done|]. by exists f', dm, lk.
  - intros Hg e a He. rewrite He. cbn [negb]. assert (Hgu : gives_up 0 (acked 0)) by (split_and!; [done|done|lia|by left]).
    apply wp_ret; [apply steady_D|by eapply gives_up_inv|]. split; [by eapply gives_up_inv|].
    exists f, None, []. split_and!; [done|by left|]. rewrite He. by eapply gives_up_end.
Qed.
End Work.

(** ** The negotiation *)

Definition dpu_cfg (n : Z) : dma_copy_cfg := Cfg DMA_COPY_MODE_DPU (bool_decide (is_Some d)) n.

Lemma end_silent s : good = false -> fs s = d -> inv KD s [] [] /\ dpu_end false s [].
Proof using. intros Hg Hs. split; [by split; [left|]|]. split_and!; [by left|done|done|congruence]. Qed.

Lemma end_refused s i : (good = true -> copies = false) -> fs s = d -> inv KD s i [no] /\ dpu_end false s [no].
Proof using.
  intros Hg Hs. assert (DM [no]) by (right; left; done). assert ([no] = acked 4 -> delivered s) by (intros [= E]; by destruct (dir_d_no d)).
  split; [done|]. split_and!; [done..|]. intros Hgood. by rewrite (Hg Hgood).
Qed.

(** What the DPU makes of the two directions. *)
Lemma directions :
  msg_file_in_host dir_h = bool_decide (is_Some h) /\ Z.of_nat (length dir_h) = sizeof_direction /\
  (h = None \/ ntohq true (msg_file_size dir_h) = size) /\
  (d = None \/ is_Some h \/ len d = size) /\
  copies = xorb (bool_decide (is_Some h)) (bool_decide (is_Some d)) && (size <=? mx).
Proof using Hsize.
  unfold DmaCopySpec.copies, DmaCopySpec.size, DmaCopySpec.src, DmaCopySpec.dir_h in *.
  destruct h as [f|].
  - destruct (direction_roundtrip true (len (Some f)) Hsize) as (H1 & H2 & H3). cbn zeta in *.
    rewrite H1, H2, H3. destruct d; split_and!; auto.
  - destruct d; split_and!; auto.
Qed.

Lemma dpu_negotiate_ok (Q : post (doca_error * ptr * dma_copy_cfg)) s : fs s = d ->
  (copies = true -> Q (DOCA_SUCCESS, Obj, dpu_cfg size) s [dir_h] (acked 0)) ->
  (forall e p cfg i o, ok e = false -> p <> Garbage -> inv KD s i o -> dpu_end false s o -> Q (e, p, cfg) s i o) ->
  wp W KD (dpu_negotiate_dma_direction_and_size (dpu_cfg (len d)) mx) Q s [] [].
Proof using Hsize.
  intros Hs H1 H2. destruct directions as (Dfile & Dlen & Dh & Dd & Dc).
  assert (Hi0 : forall i s, inv KD s i []) by (intros i s0; by split; [left|]).
  assert (Hend : forall e p cfg i o, ok e = false -> p <> Garbage -> inv KD s i o -> dpu_end false s o ->
    wp W KD (mret (e, p, cfg)) Q s i o).
  { intros e p cfg i o He Hp Hi Hd. apply wp_ret; [apply steady_D|done|]. by apply H2. }
  assert (Hsilent : forall i, good = false -> inv KD s i [] /\ dpu_end false s []) by (intros i Hg; split; [apply Hi0|by apply end_silent]).
  assert (Href : forall e p cfg i, ok e = false -> p <> Garbage -> (good = true -> copies = false) ->
    wp W KD (_ ← send_status_msg STATUS_FAILURE; mret (e, p, cfg)) Q s i []).
  { intros e p cfg i He Hp Hg. apply wp_send; [apply steady_D|apply Hi0| |].
    - apply Hend; try done; by apply (end_refused s i).
    - intros e' [Hg' _]%fails_false. apply Hend; try done; by apply (Hsilent []). }
  unfold dpu_negotiate_dma_direction_and_size.
  eapply wp_plain; [apply HF|apply steady_D|intros; apply Hi0|done..| |];
    [cbn [ok negb]|intros Hg e He; rewrite He; cbn [negb]; apply Hend; try done; by apply (Hsilent [])].
  apply wp_recv; [apply steady_D|apply Hi0|intros _; by left| |].
  2: { intros e [Hg He]%fails_false. rewrite He. cbn [negb]. apply Href; try done. congruence. }
  intros m [r Hm]. apply HM_first in Hm as ->. rewrite Dlen. split; [done|].
  cbn [ok negb app]. change (sizeof_direction =? sizeof_direction) with true. cbn [negb].
  cbn [is_file_found_locally dpu_cfg]. rewrite Dfile.
  destruct (bool_decide (is_Some d) && bool_decide (is_Some h)) eqn:E1.
  { apply Href; try done. intros _. rewrite Dc. by destruct (bool_decide (is_Some d)), (bool_decide (is_Some h)). }
  destruct (negb (bool_decide (is_Some d)) && negb (bool_decide (is_Some h))) eqn:E2.
  { apply Href; try done. intros _. rewrite Dc. by destruct (bool_decide (is_Some d)), (bool_decide (is_Some h)). }
  replace (if bool_decide (is_Some d) then dpu_cfg (len d) else _) with (dpu_cfg size).
  2: { unfold set_file_size, dpu_cfg. cbn [mode is_file_found_locally file_size].
       repeat case_bool_decide; try done; destruct Dd as [->|[?|Dd]]; try done; destruct Dh as [->|Dh]; try done;
         rewrite ?Dd, ?Dh; try done; by match goal with H : is_Some None |- _ => destruct H end. }
  assert (Dx : xorb (bool_decide (is_Some h)) (bool_decide (is_Some d)) = true)
    by (by destruct (bool_decide (is_Some d)), (bool_decide (is_Some h))).
  rewrite Dx in Dc. cbn [andb] in Dc. cbn [file_size dpu_cfg].
  destruct (Z.ltb_spec mx size) as [Hbig|Hfit].
  - assert (Hno : copies = false) by (rewrite Dc; by apply Z.leb_gt).
    apply wp_send; [apply steady_D|apply Hi0| |].
    + cbn [ok negb]. apply Hend; try done; by apply (end_refused s [dir_h]).
    + intros e [Hg He]%fails_false. rewrite He. cbn [negb]. apply Hend; try done; by apply (Hsilent []).
  - assert (Hyes : copies = true) by (rewrite Dc; by apply Z.leb_le).
    replace (if bool_decide (is_Some d) then cc_msg_dma_direction false (htonq (len d)) else cc_msg_dma_direction true 0) with dir_d
      by (by destruct d).
    apply wp_send; [apply steady_D|apply Hi0| |].
    + apply wp_ret; [apply steady_D|apply (inv_acked Hyes 0); lia|]. by apply H1.
    + intros e [Hg He]%fails_false. apply Hend; try done; by apply (Hsilent []).
Qed.

(** ** The resources *)

Definition ready_core (st : core) : Prop :=
  dev st = Obj /\ src_mmap st = Obj /\ dst_mmap st = Obj /\ buf_inv st = Obj /\ pe st = Obj.
Definition engine_res (hl : list dres) : list dres := REngine :: core_res ++ RDev WorkDev :: hl.

Section Resources.
Context (i o : list (list Z)) (f : option (list Z)) (dm : option (list Z)) (Hinv : forall m l, inv KD (Side f m l dm) i o).

(** Everything is created, or nothing is. *)
Lemma dpu_alloc_ok (Q : post (doca_error * dma_copy_resources)) hl :
  (forall sa cs st, ready_core st -> Q (DOCA_SUCCESS, Resources sa st Obj) (Side f {[sa := cs]} (engine_res hl) dm) i o) ->
  (good = false -> forall e r, ok e = false -> Q (e, r) (Side f ∅ hl dm) i o) ->
  wp W KD allocate_dma_copy_resources Q (Side f ∅ hl dm) i o.
Proof using Hinv Hmust.
  intros H1 H2. unfold allocate_dma_copy_resources.
  apply wp_malloc; [apply steady_D|apply Hinv|done|by exists 1| |intros Hg; apply wp_ret; [apply steady_D|apply Hinv|]; by apply H2].
  intros sa cs _ Ha _. cbn [mem set_mem fs held dma]. rewrite insert_empty.
  assert (Hfree : forall r e, state_addr r = sa -> ok e = false -> good = false ->
    wp W KD (alloc_free_state r e) Q (Side f {[sa := cs]} hl dm) i o).
  { intros r e Hr He Hg. apply wp_free; [apply steady_D|apply Hinv|cbn; rewrite Hr, lookup_singleton_eq; by eexists|].
    cbn [mem set_mem fs held dma]. rewrite Hr, delete_singleton_eq. apply wp_ret; [apply steady_D|apply Hinv|]. by apply H2. }
  assert (Hcore : forall r e, state_addr r = sa -> ready_core (state r) -> ok e = false -> good = false ->
    wp W KD (alloc_destroy_core_objects r e) Q (Side f {[sa := cs]} (core_res ++ RDev WorkDev :: hl) dm) i o).
  { intros r e Hr (R1 & R2 & R3 & R4 & R5) He Hg.
    eapply wp_calls; [apply HF|apply steady_D|apply Hinv|by apply (destroy_core_objects_ok _ good must _ []); [left|..]|].
    intros [e1 st1] h1 [-> _]. cbn [set_held fs mem held dma app]. apply Hfree; [done| |done]. by rewrite ok_propagate, He. }
  assert (Hdma : forall r e, state_addr r = sa -> ready_core (state r) -> ok e = false -> good = false ->
    wp W KD (alloc_destroy_dma r e) Q (Side f {[sa := cs]} (engine_res hl) dm) i o).
  { intros r e Hr Hst He Hg. eapply (wp_calls _ _ _ (fun _ h' => h' = core_res ++ RDev WorkDev :: hl)); [apply HF|apply steady_D|apply Hinv| |].
    - apply hwp_tail; [done|]. by intros e1 _.
    - intros e1 h1 ->. cbn [set_held fs mem held dma]. apply Hcore; [done|done| |done]. by rewrite ok_propagate, He. }
  eapply wp_calls; [apply HF|apply steady_D|apply Hinv|apply open_with_capabilities_ok|].
  intros [e p] h1 [[[= -> ->] ->]|(He & _ & -> & Hg)]; cbn [fst snd set_held fs mem held dma] in *; [cbn [ok negb]|rewrite He; by apply Hfree].
  eapply wp_calls; [apply HF|apply steady_D|apply Hinv|by apply create_core_objects_ok|].
  intros [e st] h1 [[[= -> ->] ->]|(He & _ & c & [_ Hc] & Hcc)]; [|by rewrite (Hmust _ Hcc) in Hc].
  cbn [ok negb set_held fs mem held dma state_addr state].
  eapply (wp_calls _ _ _ (fun e h' => e = DOCA_SUCCESS /\ h' = engine_res hl \/ ok e = false /\ good = false /\ h' = core_res ++ RDev WorkDev :: hl));
    [apply HF|apply steady_D|apply Hinv| |].
  { apply hwp_tail; [done|]. intros e He. destruct (may_call _ _ _ _ e He ltac:(discriminate)) as [->|[[Hg _] He']]; [by left|].
    right. unfold after_held. cbn. by rewrite He'. }
  intros e1 h1 [[-> ->]|(He & Hg & ->)]; cbn [set_held fs mem held dma ok negb].
  2: { rewrite He. by apply Hcore. }
  do 2 (eapply wp_plain; [apply HF|apply steady_D|apply Hinv|done..| |]; [cbn [ok negb]|intros Hg e He; rewrite He; by apply Hdma]).
  apply wp_ret; [apply steady_D|apply Hinv|]. by apply H1.
Qed.

Lemma dpu_destroy_ok (Q : post doca_error) r e sa cs lk hl : leak lk -> ready_core (state r) -> dma_ctx r = Obj -> state_addr r = sa ->
  (forall e', (ok e' = true -> ok e = true) -> (good = true -> e' = e) -> Q e' (Side f ∅ (lk ++ hl) dm) i o) ->
  wp W KD (dpu_destroy_dma_resources r e) Q (Side f {[sa := cs]} (lk ++ engine_res hl) dm) i o.
Proof using Hinv.
  intros Hl (R1 & R2 & R3 & R4 & R5) Hr <- HQ. unfold dpu_destroy_dma_resources. apply wp_bind; [apply HF|].
  unfold destroy_dma_copy_resources. rewrite Hr.
  eapply wp_calls; [apply HF|apply steady_D|apply Hinv| |].
  { apply (destroy_obj_ok _ good must _ REngine _ _ (lk ++ core_res ++ RDev WorkDev :: hl)); try done; by destruct Hl as [-> | ->]. }
  intros e1 h1 (-> & _ & G1). cbn [set_held fs mem held dma].
  eapply wp_calls; [apply HF|apply steady_D|apply Hinv|by apply destroy_core_objects_ok|].
  intros [e2 st2] h2 [-> G2]. cbn [set_held fs mem held dma fst snd] in *.
  apply wp_free; [apply steady_D|apply Hinv|cbn; rewrite lookup_singleton_eq; by eexists|].
  cbn [mem set_mem set_held fs held dma]. rewrite delete_singleton_eq. apply wp_ret; [apply steady_D|apply Hinv|].
  apply wp_ret; [apply steady_D|apply Hinv|]. apply HQ.
  - rewrite ok_propagate. by intros [? _]%andb_prop.
  - intros Hg. rewrite (G1 Hg), (G2 Hg). by destruct e.
Qed.

Lemma dpu_stop_dma_ok (Q : post doca_error) r e sa cs lk hl : leak lk -> ready_core (state r) -> dma_ctx r = Obj -> state_addr r = sa ->
  (forall e', (ok e' = true -> ok e = true) -> (good = true -> e' = e) -> Q e' (Side f ∅ (lk ++ hl) dm) i o) ->
  wp W KD (dpu_stop_dma r e) Q (Side f {[sa := cs]} (lk ++ RRunning :: engine_res hl) dm) i o.
Proof using Hinv.
  intros Hl Hst Hr Hsa HQ. unfold dpu_stop_dma.
  eapply wp_calls; [apply HF|apply steady_D|apply Hinv|by apply request_stop_ctx_ok|].
  intros e1 h1 [-> G1]. cbn [set_held fs mem held dma].
  apply dpu_destroy_ok; [done|done|done|done|]. intros e2 A B. apply HQ.
  - intros He. apply A in He. rewrite ok_propagate in He. by apply andb_prop in He as [? _].
  - intros Hg. rewrite (B Hg), (G1 Hg). by destruct e.
Qed.
End Resources.

(** ** The program *)

Definition settled (hl : list dres) (r : bool) (s : side dres) (i o : list (list Z)) : Prop :=
  inv KD s i o /\ exists f dm lk, s = Side f ∅ (lk ++ hl) dm /\ leaks r lk /\ dpu_end r s o.

Lemma inv_frame f m l dm m' l' i o : inv KD (Side f m l dm) i o -> inv KD (Side f m' l' dm) i o.
Proof using. intros Hi. by apply (f_inv _ HF _ _ _ _ eq_refl eq_refl Hi). Qed.

Lemma dpu_start_ok hl :
  wp W KD (dpu_start_dma_copy (dpu_cfg (len d))) (fun x s i o => x.2 <> Garbage /\ settled hl (ok x.1) s i o)
    (Side d ∅ hl None) [] [].
Proof using Hmust Hsize.
  assert (Hi0 : forall m l, inv KD (Side d m l None) [] []) by (intros m l; by split; [left|]).
  assert (Hquit : forall e, ok e = false -> good = false -> settled hl (ok e) (Side d ∅ hl None) [] []).
  { intros e He Hg. split; [done|]. exists d, None, []. split_and!; [done|by left|]. rewrite He. by apply end_silent. }
  apply wp_bind; [apply HF|]. apply dpu_alloc_ok; [done| |].
  2: { intros Hg e r He. rewrite He. cbn [negb]. apply wp_ret; [apply steady_D|apply Hi0|]. split; [done|]. cbn [fst].  by apply Hquit. }
  intros sa cs st Hst. cbn [ok negb].
  assert (Hearly : forall e, ok e = false -> good = false ->
    wp W KD (result ← dpu_destroy_dma_resources (Resources sa st Obj) e; mret (result, Null))
      (fun x s i o => x.2 <> Garbage /\ settled hl (ok x.1) s i o) (Side d {[sa := cs]} (engine_res hl) None) [] []).
  { intros e He Hg. apply wp_bind; [apply HF|]. apply (dpu_destroy_ok _ _ _ _ Hi0 _ _ _ _ _ []); try done; [by left|].
    intros e' Hk _. apply wp_ret; [apply steady_D|apply Hi0|]. split; [done|]. apply Hquit; [|done].
    destruct (ok e') eqn:E; [|done]. by rewrite Hk in He. }
  eapply (wp_calls _ _ _ (fun x h' => h' = engine_res hl /\ (x = (DOCA_SUCCESS, mx) \/ ok x.1 = false /\ good = false)));
    [apply HF|apply steady_D|apply Hi0| |].
  { split; [done|]. intros e n b He Ho. split; [done|]. destruct (may_call _ _ _ _ e He ltac:(discriminate)) as [->|[[Hg _] He']]; [|by right].
    left. cbn in Ho. by rewrite Ho. }
  intros [e n] h1 [-> [[= -> ->]|[He Hg]]]; cbn [fst snd set_held fs mem held dma] in *; [cbn [ok negb]|rewrite He; by apply Hearly].
  eapply (wp_calls _ _ _ (fun _ h' => h' = engine_res hl)); [apply HF|apply steady_D|apply Hi0|apply hwp_tail; [done|]; by intros e _|].
  intros e h1 ->. cbn [set_held fs mem held dma].
  eapply (wp_calls _ _ _ (fun e h' => e = DOCA_SUCCESS /\ h' = RRunning :: engine_res hl \/ ok e = false /\ good = false /\ h' = engine_res hl));
    [apply HF|apply steady_D|apply Hi0| |].
  { apply hwp_tail; [done|]. intros e1 He. destruct (may_call _ _ _ _ e1 He ltac:(discriminate)) as [->|[[Hg _] He']]; [by left|].
    right. unfold after_held. cbn. by rewrite He'. }
  intros e1 h1 [[-> ->]|(He & Hg & ->)]; cbn [set_held fs mem held dma ok negb].
  2: { rewrite He. by apply Hearly. }
  assert (Hstop : forall e p f dm lk i o, p <> Garbage -> leaks (ok e) lk -> inv KD (Side f ∅ [] dm) i o -> dpu_end (ok e) (Side f ∅ [] dm) o ->
    wp W KD (result ← dpu_stop_dma (Resources sa st Obj) e; mret (result, p))
      (fun x s i o => x.2 <> Garbage /\ settled hl (ok x.1) s i o) (Side f {[sa := cs]} (lk ++ RRunning :: engine_res hl) dm) i o).
  { intros e2 p f dm lk i o Hp Hl Hi He. apply wp_bind; [apply HF|].
    apply dpu_stop_dma_ok; try done; [by destruct Hl as [?|[? _]]; [left|right]|].
    intros e3 Hk Hkg. apply wp_ret; [apply steady_D|by eapply inv_frame|]. split; [done|]. cbn [fst].
    split; [by eapply inv_frame|]. exists f, dm, lk. split_and!; [done| |].
    - destruct Hl as [->|(-> & He' & Hg)]; [by left|right]. split_and!; [done| |done].
      destruct (ok e3) eqn:E; [|done]. by rewrite Hk in He'.
    - apply (dpu_end_weaken (ok e2)); [intros Hg; by rewrite (Hkg Hg)|done]. }
  apply wp_bind; [apply HF|]. apply dpu_negotiate_ok; [done| |].
  - intros Hc. cbn [ok negb]. apply wp_bind; [apply HF|]. eapply wp_mono; [|by apply dpu_work_ok].
    intros e2 s i o (Hi & f & dm & lk & -> & Hl & He). apply Hstop; try done.
  - intros e2 p cfg i o He Hp Hi Hd. rewrite He. cbn [negb]. apply wp_bind; [apply HF|].
    apply wp_ret; [apply steady_D|done|]. apply (Hstop e2 p d None []); try done; [by left|by rewrite He].
Qed.

(** All that the DPU's program does, from main on. *)
Lemma dpu_main_ok :
  wp W KD (main DMA_COPY_MODE_DPU) (fun code => settled [] (code =? EXIT_SUCCESS)) (Side d ∅ [] None) [] [].
Proof using Hmust Hsize.
  assert (Hi0 : forall s, inv KD s [] []) by (intros s; by split; [left|]).
  apply wp_main; [apply HF|apply steady_D|apply Hi0| |].
  - eapply wp_mono; [|apply dpu_start_ok]. intros [e p] s i o (Hp & Hi & f & dm & lk & -> & Hl & He). cbn [fst snd] in *.
    unfold finish. cbn [fst snd]. apply wp_bind; [apply HF|].
    assert (Hlk : leak lk) by (by destruct Hl as [?|[? _]]; [left|right]).
    eapply wp_calls; [apply HF|apply steady_D|done|by apply destroy_cc_ok|]. intros _ h' ->.
    cbn [set_held fs mem held dma]. apply wp_ret; [apply steady_D|done|].
    eapply (wp_calls _ _ _ (fun _ h' => h' = lk ++ [])); [apply HF|apply steady_D|done| |].
    { apply hwp_tail; [by destruct Hlk as [-> | ->]|]. intros e' _. by destruct Hlk as [-> | ->]. }
    intros _ h' ->. apply wp_ret; [apply steady_D|done|]. split; [done|]. exists f, dm, lk. by destruct (ok e).
  - intros Hg. split; [apply Hi0|]. exists d, None, []. split_and!; [done|by left|]. by apply end_silent.
Qed.
End Dpu.
