(* ===== verification/DmaCopyTheorems.v ===== *)
(** * DMA copy: what the two programs achieve together

    The host and the DPU started together ([start]) on a machine ([machine]),
    in any interleaving: integrity and release of every resource whatever call
    fails but the creation of the core objects,
    and, when nothing fails, the same outcome as a reference definition
    ([reference]) on every run. *)

From stdpp Require Import gmap relations.
From S2P Require Import Prelude Pack Proc ProcSpec DocaCommon DocaSpec DmaCopy DmaCopySpec.
From S2P Require DmaCopyHost DmaCopyDpu.
#[local] Open Scope Z_scope.

(** The two programs at their start, each with its file or none. *)
Definition start (h d : option (list Z)) : sys dcall dres Z Z :=
  Sys (main DMA_COPY_MODE_HOST) (Side h ∅ [] None) (main DMA_COPY_MODE_DPU) (Side d ∅ [] None) [] [].

(** The calls assumed not to fail: the creation of the core objects, after whose
    failure the DPU is undefined ([core_failure_undefined]), and, if [closes],
    the closing of a file. *)
Definition reliable (closes : bool) (c : dcall) : bool := match c with fclose => closes | _ => core_call c end.

(** A machine with DMA buffers of at most [mx] bytes; unless it is [good],
    every other call may fail. *)
Definition machine (mx : Z) (good closes : bool) : world dcall dres := doca_world (dma_engine mx) good (reliable closes).

(** How a run ended: which sides succeeded, and the files. *)
Definition outcome (y : sys dcall dres Z Z) : option (bool * bool * option (list Z) * option (list Z)) :=
  match hp y, dp y with
  | Ret a, Ret b => Some (a =? EXIT_SUCCESS, b =? EXIT_SUCCESS, fs (hs y), fs (ds y))
  | _, _ => None
  end.

(** The reference: a file that one side has and the engine can take ends up on
    both; otherwise both fail and nothing changes. *)
Definition reference (h d : option (list Z)) (mx : Z) : bool * bool * option (list Z) * option (list Z) :=
  match h, d with
  | Some f, None | None, Some f => if Z.of_nat (length f) <=? mx then (true, true, Some f, Some f) else (false, false, h, d)
  | _, _ => (false, false, h, d)
  end.

Section Pair.
Context (h d : option (list Z)) (mx : Z) (good closes : bool) (Hsize : in_u 64 (size h d)).
Notation W := (machine mx good closes).
Notation KH := (KH h d mx good).
Notation KD := (KD h d mx good (reliable closes)).
Notation stored := (stored good (reliable closes)).

Definition QH (code : Z) : side dres -> list (list Z) -> list (list Z) -> Prop :=
  DmaCopyHost.settled h d mx good (reliable closes) [] (code =? EXIT_SUCCESS).
Definition QD (code : Z) : side dres -> list (list Z) -> list (list Z) -> Prop :=
  DmaCopyDpu.settled h d mx good (reliable closes) [] (code =? EXIT_SUCCESS).

Notation pair := (pair_ok W KH KD QH QD).

Lemma start_pair : pair (start h d).
Proof using Hsize.
  exists [], [], [], []. split_and!; try done.
  - by apply DmaCopyHost.host_main_ok.
  - apply DmaCopyDpu.dpu_main_ok; [done|]. by intros [].
Qed.

Lemma reach_pair y : rtc (sstep W) (start h d) y -> pair y.
Proof using Hsize.
  intros Hr. eapply pair_reach; [apply KH_framed|apply KD_framed|apply fit|apply start_pair|done].
Qed.

(** Who had the file keeps it, and the other side has what closing its copy
    stored. *)
Definition both_have (sh sd : side dres) : Prop :=
  match h with
  | Some f => fs sh = Some f /\ stored f (fs sd)
  | None => fs sd = d /\ stored (src h d) (fs sh)
  end.

(** When the host has succeeded, both sides have the file. *)
Lemma files_agree iH oH iD oD sh sd td th :
  linked KH KD sh iH oH sd iD oD td th -> DmaCopyHost.host_success h d mx good (reliable closes) sh iH ->
  both_have sh sd.
Proof using Hsize.
  intros (HH & [HD Hdel] & E1 & E2 & Edma) (Hc & Hi & Hs).
  assert (oD = dir_d d :: replicate 4 yes) as Ho.
  { subst iH. rewrite E2 in HD |- *. destruct th as [|m r]; [by rewrite app_nil_r|].
    destruct (DM_ack h d mx good 4 m r HD) as [? _]. lia. }
  specialize (Hdel Ho). unfold delivered, copies, both_have, src in *.
  destruct h as [f|], d as [g|]; try done; cbn [default].
  - destruct Hs as [Hf Hb], Hdel as (b & Hfd & Hdma). split; [done|]. rewrite <- (Hb b) by congruence. exact Hfd.
  - destruct Hdel as [Hfd Hdma]. rewrite <- Edma in Hdma. split; [done|]. by apply Hs.
Qed.

Lemma host_done y : pair y -> hp y = Ret EXIT_SUCCESS ->
  copies h d mx = true /\ both_have (hs y) (ds y).
Proof using Hsize.
  intros (iH & oH & iD & oD & HH & HD & E1 & E2 & E3) Hret.
  pose proof (pair_linked _ _ _ (f_ok _ (KH_framed _ _ _ _)) (f_ok _ (KD_framed _ _ _ _ _)) _ _ y _ _ _ _ HH HD E1 E2 E3) as HL.
  rewrite Hret in HH. apply wp_ret_inv in HH as [_ (_ & _ & _ & Hs & _)]; [|apply KH_framed].
  specialize (Hs eq_refl). split; [by destruct Hs|]. by eapply files_agree.
Qed.

Lemma dpu_done y c : pair y -> dp y = Ret c -> exists i o, QD c (ds y) i o.
Proof using.
  intros (iH & oH & iD & oD & _ & HD & _) Hret. rewrite Hret in HD.
  apply wp_ret_inv in HD as [_ HQ]; [by exists iD, oD|apply KD_framed].
Qed.

Lemma machine_ok : world_ok W.
Proof using.
  intros c. exists DOCA_SUCCESS.
  destruct c; try (exists 1, []; split; [by left|]; cbn; lia || done); [exists mx, []; split; [by left|done]].
Qed.

Lemma both_proceed y : pair y -> proceeds W (hp y) (hs y) /\ proceeds W (dp y) (ds y).
Proof using.
  intros (iH & oH & iD & oD & HH & HD & _).
  split; [eapply (wp_proceeds W KH)|eapply (wp_proceeds W KD)];
    [apply KH_framed|apply machine_ok|exact HH|apply KD_framed|apply machine_ok|exact HD].
Qed.
End Pair.

Section Good.
Context (h d : option (list Z)) (mx : Z) (closes : bool) (Hsize : in_u 64 (size h d)).
Notation W := (machine mx true closes).
Notation KH := (KH h d mx true).
Notation KD := (KD h d mx true (reliable closes)).

Lemma wait_lengths_H i o : blk KH i o ->
  length i = 0%nat /\ length o = 1%nat \/ exists k, (k <= 3)%nat /\ i = dir_d d :: replicate k yes /\ length o = Nat.min (k + 2) 4.
Proof using. intros [[-> ?]|?]; [by left|by right]. Qed.

Lemma waits : no_deadlock KH KD (QH h d mx true closes) (QD h d mx true closes).
Proof using.
  assert (Hno : forall k, [no] <> dir_d d :: replicate k yes).
  { intros k E. apply (f_equal (hd [])) in E. by destruct (dir_d_no d). }
  assert (Hlen : forall k, length (dir_d d :: replicate k yes) = S k) by (intros k; cbn; by rewrite length_replicate).
  split.
  - intros sh iH oH sd iD oD (_ & _ & E1 & E2 & _) HbH HbD. rewrite app_nil_r in E1, E2. subst iD oD.
    destruct HbH as [[-> Hl]|(k & Hk & -> & Hl)], HbD as [[Hi Ho]|(k' & Hk' & Hi & Ho)];
      try (subst oH; discriminate); try discriminate.
    apply (f_equal length) in Ho. rewrite !Hlen in Ho. lia.
  - intros b sh iH oH sd iD oD td (_ & _ & _ & E2 & _) HbH (_ & f & dm & lk & _ & _ & _ & _ & _ & He).
    specialize (He eq_refl). rewrite app_nil_r in E2. subst oD.
    destruct HbH as [[-> Hl]|(k & Hk & -> & Hl)], (copies h d mx).
    + destruct He as [_ He]. discriminate He.
    + by destruct He as (_ & ? & _).
    + destruct He as [_ He]. apply (f_equal length) in He. unfold DmaCopyDpu.acked in He. rewrite !Hlen in He. lia.
    + destruct He as (_ & He & _). by destruct (Hno k).
  - intros a sh iH oH sd iD oD th (_ & _ & E1 & E2 & _) (_ & _ & _ & Hs & _ & He) HbD.
    specialize (He eq_refl). rewrite app_nil_r in E1. subst iD. destruct (copies h d mx).
    + destruct He as [_ Hl]. destruct HbD as [[-> _]|(k & Hk & Hi & _)]; [done|lia].
    + destruct He as (_ & -> & _). rewrite E2 in HbD. destruct HbD as [[_ [=]]|(k & _ & _ & Ho)].
      apply (f_equal (hd [])) in Ho. by destruct (dir_d_no d).
  - intros sh iH oH. split; intros ? ? [].
Qed.

(** On a machine where nothing fails every final state is the reference's. *)
Lemma outcome_reference y : pair_ok W KH KD (QH h d mx true closes) (QD h d mx true closes) y -> both_done y ->
  outcome y = Some (reference h d mx).
Proof using Hsize.
  intros Hp (a & b & Ha & Hb). pose proof Hp as (iH & oH & iD & oD & HH & HD & _).
  rewrite Ha in HH. rewrite Hb in HD.
  apply wp_ret_inv in HH as [_ (_ & _ & _ & _ & HfH & HgH)]; [|apply KH_framed].
  apply wp_ret_inv in HD as [_ (_ & f & dm & lk & Hs & _ & _ & _ & HfD & HgD)]; [|apply KD_framed].
  specialize (HgH eq_refl). specialize (HgD eq_refl). unfold outcome. rewrite Ha, Hb.
  destruct (copies h d mx) eqn:Hc.
  - destruct HgH as [HrH _], HgD as [HrD _]. rewrite HrH, HrD.
    apply Z.eqb_eq in HrH as ->. destruct (host_done h d mx true closes Hsize y Hp Ha) as (_ & Hf).
    unfold both_have, stored, copies, size, src in *. unfold reference.
    destruct h, d; try done; cbv [from_option id] in Hc, Hf; rewrite Hc; destruct Hf as (-> & c & -> & _ & ->); auto.
  - destruct HgH as (-> & _ & ->), HgD as (-> & _ & ->).
    unfold copies, size, src in *. unfold reference. destruct h, d; try done; cbv [from_option id] in Hc; by rewrite Hc.
Qed.

(** No run goes on for ever, and none gets stuck. *)
Lemma always_reference : always_ends W (fun y => outcome y = Some (reference h d mx)) (start h d).
Proof using Hsize.
  eapply (pair_ends W KH KD); [apply KH_framed|apply KD_framed|apply fit|apply (machine_ok mx true closes)|done|apply waits| |by apply start_pair].
  apply outcome_reference.
Qed.
End Good.

(** ** What a failure to create the core objects leads to *)

(** The structure the objects are kept in comes from malloc, uninitialised:
    after a failure of the first call the clean-up reads a pointer that was
    never written. *)
Lemma core_failure_undefined mx a s :
  pstep (doca_world (dma_engine mx) false (fun _ => false))
    ('(result, st) ← create_core_objects (set_dev Obj garbage_core) 2;
     if negb (ok result) then alloc_destroy_core_objects (Resources a st Null) result
     else mret (result, Resources a st Null)) s Tau Undef s.
Proof.
  split; [done|]. split; [done|]. exists DOCA_ERROR_NO_MEMORY, 0, []. split_and!; [by right|done|done|by destruct s].
Qed.

(** Saving the received bytes reports success although closing the file failed
    and lost them all. *)
Lemma close_failure_unnoticed mx :
  let W := machine mx false false in let cfg := Cfg DMA_COPY_MODE_HOST false 2 in
  let s f hl := Side f {[64 := [7; 8]]} hl None in
  steps W (save_buffer_into_a_file cfg 64) (s None []) (replicate 4 Tau) (mret DOCA_SUCCESS) (s (Some []) []).
Proof.
  cbn zeta. eapply steps_cons. { split; [done|]. left. done. }
  eapply steps_cons. { split_and!; [done..|]. by exists [7; 8]. }
  eapply steps_cons. { split; [done|]. by exists [], 2%nat. }
  eapply steps_cons; [|apply steps_nil]. split_and!; [done..|].
  exists DOCA_ERROR_IO_FAILED, [7; 8], 0%nat. split_and!; try done; [by right|cbn; lia].
Qed.

(** ** Properties *)

(** C7: the outcome of a DMA copy does not depend on the interleaving: on a
    machine where no call fails, every run of the two programs is finite, gets
    stuck nowhere, and ends with the exit codes and the files of the reference
    definition: the file that exactly one side has ends up on both, if the DMA
    engine takes its size; otherwise both fail and no file changes. *)
Theorem dma_copy_equiv h d mx closes : in_u 64 (size h d) ->
  always_ends (machine mx true closes) (fun y => outcome y = Some (reference h d mx)) (start h d).
Proof. apply always_reference. Qed.

Lemma dma_copy_equiv_witness :
  always_ends (machine 4096 true false) (fun y => outcome y = Some (true, true, Some [7; 8], Some [7; 8])) (start None (Some [7; 8])).
Proof. refine (dma_copy_equiv None (Some [7; 8]) 4096 false _). vm_compute. split; congruence. Defined.

(** C9: whatever call fails but the creation of the core objects, and however
    the two programs interleave: when the host exits with success, exactly one
    side had a file at the start, the DMA engine takes its size, this side still
    has it, and the file of the other side is a prefix of it: all of it, if
    nothing can go wrong or at least closing a file stores what is left in the
    buffer of its stream.  (The programs do not look at the result of fclose; a
    failure to create the core objects is undefined behaviour,
    [core_failure_undefined].) *)
Theorem dma_copy_integrity h d mx good closes y : in_u 64 (size h d) ->
  rtc (sstep (machine mx good closes)) (start h d) y -> hp y = Ret EXIT_SUCCESS ->
  exists f copy, Z.of_nat (length f) <= mx /\
    (h = Some f /\ d = None /\ fs (hs y) = Some f /\ fs (ds y) = Some copy \/
     h = None /\ d = Some f /\ fs (ds y) = Some f /\ fs (hs y) = Some copy) /\
    copy `prefix_of` f /\ (good = true \/ closes = true -> copy = f).
Proof.
  intros Hs Hr Hret.
  destruct (host_done h d mx good closes Hs y (reach_pair h d mx good closes Hs y Hr) Hret) as (Hc & Hb).
  unfold copies, size, both_have, stored, src in *.
  destruct h as [f|], d as [g|]; try done; apply Z.leb_le in Hc; destruct Hb as (Hf & copy & ? & ? & ?);
    eexists _, copy; eauto 10.
Qed.

Lemma dma_copy_integrity_witness : exists y, rtc (sstep (machine 4096 true false)) (start (Some [7; 8]) None) y /\
  fs (ds y) = Some [7; 8].
Proof.
  assert (Hs : in_u 64 (size (Some [7; 8]) None)) by (vm_compute; split; congruence).
  destruct (always_ends_some _ _ _ (always_reference (Some [7; 8]) None 4096 false Hs)) as (y & Hr & Ho).
  exists y. split; [exact Hr|].
  assert (Hret : hp y = Ret EXIT_SUCCESS).
  { unfold outcome in Ho. destruct (hp y) eqn:E; try discriminate Ho. destruct (dp y); try discriminate Ho.
    injection Ho as Ha _ _ _. apply Z.eqb_eq in Ha. by rewrite Ha. }
  destruct (dma_copy_integrity (Some [7; 8]) None 4096 true false y Hs Hr Hret) as (f & copy & _ & Hf & _ & Hall).
  destruct Hf as [(H & _ & _ & Hd)|(H & _)]; [|discriminate H].
  rewrite Hd, (Hall (or_introl eq_refl)). symmetry. exact H.
Defined.

(** C10: whatever call fails but the creation of the core objects (whose failure
    is undefined behaviour, [core_failure_undefined]), and however the two
    programs interleave, neither does anything undefined: it has ended, waits,
    or what it does next can be done ([proceeds]: its accesses stay within
    memory it owns, and it releases only what it holds); a side that has ended holds no memory, no device, no
    endpoint, no memory map, no DMA engine and no open file; only the DPU may
    hold one thing, the DMA task, and only when it ended with a failure. *)
Theorem dma_copy_releases h d mx good closes y : in_u 64 (size h d) ->
  rtc (sstep (machine mx good closes)) (start h d) y ->
  (proceeds (machine mx good closes) (hp y) (hs y) /\ proceeds (machine mx good closes) (dp y) (ds y)) /\
  (forall c, hp y = Ret c -> mem (hs y) = ∅ /\ held (hs y) = []) /\
  (forall c, dp y = Ret c -> mem (ds y) = ∅ /\ (held (ds y) = [] \/ held (ds y) = [RTask] /\ c <> EXIT_SUCCESS)).
Proof.
  intros Hs Hr. pose proof (reach_pair h d mx good closes Hs y Hr) as Hp. split; [by eapply both_proceed|]. split.
  - intros c Hret. destruct Hp as (iH & oH & iD & oD & HH & _). rewrite Hret in HH.
    apply wp_ret_inv in HH as [_ (? & ? & _)]; [done|apply KH_framed].
  - intros c Hret. destruct (dpu_done h d mx good closes y c Hp Hret) as (i & o & _ & f & dm & lk & -> & Hl & _). split; [done|].
    destruct Hl as [->|(-> & Hc & _)]; [by left|right]. split; [done|]. intros ->. discriminate Hc.
Qed.

Lemma dma_copy_releases_witness : exists y, rtc (sstep (machine 4096 true false)) (start (Some [7; 8]) None) y /\ held (hs y) = [].
Proof.
  assert (Hs : in_u 64 (size (Some [7; 8]) None)) by (vm_compute; split; congruence).
  destruct (always_ends_some _ _ _ (always_reference (Some [7; 8]) None 4096 false Hs)) as (y & Hr & Ho).
  exists y. split; [exact Hr|]. unfold outcome in Ho. destruct (hp y) eqn:E; try discriminate Ho.
  destruct (dma_copy_releases (Some [7; 8]) None 4096 true false y Hs Hr) as (_ & Hh & _). by apply (Hh a).
Defined.
