(* ===== verification/FileIntegrity.v ===== *)
(** * File integrity (src/applications/file_integrity)

    A client on the host sends a file to a server on the DPU, with its SHA-256:
    both sides of file_integrity_core.c and main of file_integrity.c, over the
    library calls of DocaCommon.v.  The SHA engine is a parameter; a task that is
    fed in parts keeps what it was fed.  [work] holds the core objects and what
    the libraries remember: the memory that the two memory maps release when they
    are destroyed, the length of the result in the destination buffer, whether
    the context runs.  A receive that times out fails with DOCA_ERROR_AGAIN. *)

From stdpp Require Import gmap.
From S2P Require Import Prelude CString Pack Proc DocaCommon.
#[local] Open Scope Z_scope.

Definition MAX_MSG_SIZE : Z := 4032.
Definition MAX_FILE_NAME : nat := 255.
Definition MAX_MSG : Z := 512.
Definition SLEEP_IN_NANOS : Z := 10 * 1000.
Definition DEFAULT_TIMEOUT : Z := 10.
Definition LOG_NUM_SHA_TASKS : Z := 0.

Inductive file_integrity_mode := NO_VALID_INPUT | CLIENT | SERVER.

Record file_integrity_config := Cfg {
  mode : file_integrity_mode; file_path : cstring; cc_dev_pci_addr : cstring; cc_dev_rep_pci_addr : cstring;
  timeout : Z
}.

(** ** Messages, as bytes of memory *)

Definition u32_bytes (v : Z) : list Z := rev (be_bytes 4 v).
Definition bytes_u32 (b : list Z) : Z := be_value (rev b).
Definition htonl (v : Z) : Z := be_value (rev (be_bytes 4 v)).
Definition ntohl : Z -> Z := htonl.

Definition finish_text : list Z := str "Server was done receiving messages" ++ [0].

(** snprintf with "%02x", byte by byte *)
Definition hex_digit (d : Z) : Z := if d <? 10 then 48 + d else 87 + d.
Definition sha_output_text (sha : list Z) : list Z :=
  flat_map (fun b => [hex_digit (b / 16); hex_digit (b mod 16)]) sha ++ [0].

(** ** Arguments *)

Inductive arg := ArgPci (s : cstring) | ArgRep (s : cstring) | ArgFile (s : cstring) | ArgTimeout (n : Z).

Definition file_callback (path : cstring) (c : file_integrity_config) : doca_error * file_integrity_config :=
  if (strnlen path MAX_FILE_NAME =? MAX_FILE_NAME)%nat then (DOCA_ERROR_INVALID_VALUE, c)
  else (DOCA_SUCCESS, Cfg (mode c) (strlcpy path MAX_FILE_NAME) (cc_dev_pci_addr c) (cc_dev_rep_pci_addr c) (timeout c)).

Definition dev_pci_addr_callback (dev_pci_addr : cstring) (c : file_integrity_config) : doca_error * file_integrity_config :=
  if (strnlen dev_pci_addr DOCA_DEVINFO_PCI_ADDR_SIZE =? DOCA_DEVINFO_PCI_ADDR_SIZE)%nat then (DOCA_ERROR_INVALID_VALUE, c)
  else (DOCA_SUCCESS,
    Cfg (mode c) (file_path c) (strlcpy dev_pci_addr DOCA_DEVINFO_PCI_ADDR_SIZE) (cc_dev_rep_pci_addr c) (timeout c)).

Definition rep_pci_addr_callback (rep_pci_addr : cstring) (c : file_integrity_config) : doca_error * file_integrity_config :=
  match mode c with
  | SERVER =>
      if (strnlen rep_pci_addr DOCA_DEVINFO_REP_PCI_ADDR_SIZE =? DOCA_DEVINFO_REP_PCI_ADDR_SIZE)%nat
      then (DOCA_ERROR_INVALID_VALUE, c)
      else (DOCA_SUCCESS,
        Cfg (mode c) (file_path c) (cc_dev_pci_addr c) (strlcpy rep_pci_addr DOCA_DEVINFO_REP_PCI_ADDR_SIZE) (timeout c))
  | _ => (DOCA_SUCCESS, c)
  end.

Definition timeout_callback (n : Z) (c : file_integrity_config) : doca_error * file_integrity_config :=
  if n <=? 0 then (DOCA_ERROR_INVALID_VALUE, c)
  else (DOCA_SUCCESS, Cfg (mode c) (file_path c) (cc_dev_pci_addr c) (cc_dev_rep_pci_addr c) n).

(** doca_argp_start runs the callbacks of the parameters it finds, until one
    fails. *)
Definition argp_callback (a : arg) : file_integrity_config -> doca_error * file_integrity_config :=
  match a with
  | ArgPci s => dev_pci_addr_callback s
  | ArgRep s => rep_pci_addr_callback s
  | ArgFile s => file_callback s
  | ArgTimeout n => timeout_callback n
  end.
Fixpoint argp_callbacks (args : list arg) (c : file_integrity_config) : doca_error * file_integrity_config :=
  match args with
  | [] => (DOCA_SUCCESS, c)
  | a :: args' =>
      let '(result, c) := argp_callback a c in
      if negb (ok result) then (result, c) else argp_callbacks args' c
  end.

Definition args_validation_callback (c : file_integrity_config) : io doca_error :=
  match mode c with
  | CLIENT => found ← Access Ret; mret (if found : bool then DOCA_SUCCESS else DOCA_ERROR_NOT_FOUND)
  | SERVER => mret (match cc_dev_rep_pci_addr c with [] => DOCA_ERROR_NOT_FOUND | _ => DOCA_SUCCESS end)
  | NO_VALID_INPUT => mret DOCA_SUCCESS
  end.

Definition register_file_integrity_params : io doca_error :=
  result ← register_param;
  if negb (ok result) then mret result else
  result ← register_param;
  if negb (ok result) then mret result else
  result ← register_param;
  if negb (ok result) then mret result else
  result ← register_param;
  if negb (ok result) then mret result else
  result ← call argp_register_version_callback;
  if negb (ok result) then mret result else
  result ← call argp_register_validation_callback;
  mret result.

(** ** The objects of a run *)

(** What the source memory map covers: the mapping of the file, or a buffer on
    the stack, which munmap refuses because it is not the start of a page. *)
Inductive src_range := FileMapping | StackBuffer.

Record work := Work {
  state : core; dst_doca_buf : ptr; dst_buffer : Z; data_len : Z;
  src_cb : option src_range; dst_cb : bool; running : bool
}.
Definition work0 (dst : ptr) : work :=
  Work (Core Null Null Null Null Null Null) dst 0 0 None false false.

Definition set_state st w := Work st (dst_doca_buf w) (dst_buffer w) (data_len w) (src_cb w) (dst_cb w) (running w).
Definition set_dst p a w := Work (state w) p a (data_len w) (src_cb w) (dst_cb w) (running w).
Definition set_len n w := Work (state w) (dst_doca_buf w) (dst_buffer w) n (src_cb w) (dst_cb w) (running w).
Definition set_src_cb r w := Work (state w) (dst_doca_buf w) (dst_buffer w) (data_len w) (Some r) (dst_cb w) (running w).
Definition set_dst_cb w := Work (state w) (dst_doca_buf w) (dst_buffer w) (data_len w) (src_cb w) true (running w).
Definition set_running w := Work (state w) (dst_doca_buf w) (dst_buffer w) (data_len w) (src_cb w) (dst_cb w) true.

Definition munmap (r : src_range) : io unit :=
  match r with FileMapping => _ ← call file_unmap; mret tt | StackBuffer => mret tt end.

(** [unmap_cb] and [free_cb], called when the memory maps are destroyed *)
Definition callbacks (w : work) : free_cbs := fun m =>
  match m with
  | SrcMmap => match src_cb w with Some r => Some (munmap r) | None => None end
  | DstMmap => if dst_cb w then Some (free (dst_buffer w)) else None
  | _ => None
  end.

(** doca_buf_dec_refcount must not be called with NULL. *)
Definition dec_refcount (p : ptr) (b : dbuf) : io unit :=
  match p with Obj => _ ← call (buf_dec_refcount b); mret tt | _ => Undef end.

Definition calloc (n : Z) : io (option Z) :=
  r ← Malloc n Ret;
  match r with
  | None => mret None
  | Some p => _ ← store p (replicate (Z.to_nat n) 0); mret (Some p)
  end.

Definition zlen (b : list Z) : Z := Z.of_nat (length b).

(** ** The communication channel *)

Definition set_endpoint_properties (mode : file_integrity_mode) : io doca_error :=
  result ← call ep_set_device;
  if negb (ok result) then mret result else
  result ← call (ep_set_max_msg_size MAX_MSG_SIZE);
  if negb (ok result) then mret result else
  result ← call (ep_set_send_queue_size MAX_MSG);
  if negb (ok result) then mret result else
  result ← call (ep_set_recv_queue_size MAX_MSG);
  if negb (ok result) then mret result else
  match mode with
  | SERVER => result ← call ep_set_device_rep; if negb (ok result) then mret result else mret DOCA_SUCCESS
  | _ => mret DOCA_SUCCESS
  end.

(** ** Hashing *)

Section Programs.
(** The block size of the engine's partial tasks, which the documentation of
    doca_sha_task_partial_hash_set_src requires of the caller, and where the
    buffer [received_msg] lies on the stack. *)
Context (sha_block received_msg : Z).

Definition populate_dst_buf (w : work) : io (doca_error * work) :=
  '(result, min_dst_sha_buffer_size) ← call_num sha_cap_get_min_dst_buffer_size;
  if negb (ok result) then mret (result, w) else
  r ← calloc min_dst_sha_buffer_size;
  match r with
  | None => mret (DOCA_ERROR_NO_MEMORY, w)
  | Some dst_buffer =>
      let w := set_dst (dst_doca_buf w) dst_buffer w in
      result ← call (mmap_set_memrange DstMmap dst_buffer min_dst_sha_buffer_size);
      if negb (ok result) then _ ← free dst_buffer; mret (result, w) else
      result ← call (mmap_set_free_cb DstMmap);
      if negb (ok result) then _ ← free dst_buffer; mret (result, w) else
      let w := set_dst_cb w in
      result ← call (mmap_start DstMmap);
      if negb (ok result) then _ ← free dst_buffer; mret (result, w) else
      result ← call (buf_get_by_addr DstBuf DstMmap dst_buffer min_dst_sha_buffer_size);
      mret (result, if ok result then set_dst Obj dst_buffer w else w)
  end.

(** The engine has written its result into the destination buffer. *)
Definition sha_result (digest : list Z) (w : work) : io work :=
  _ ← store (dst_buffer w) digest;
  mret (set_len (zlen digest) w).

(** From the submission of the task on: the wait for its end, in which the
    callbacks set [task_result]. *)
Definition run_hash_task (data : list Z) (w : work) : io (doca_error * work) :=
  result ← call task_submit;
  if negb (ok result) then _ ← call task_free; _ ← dec_refcount Obj SrcBuf; mret (result, w) else
  '(task_result, digest) ← call_bytes (sha_done data);
  w ← (if ok task_result then sha_result digest w else mret w);
  _ ← call task_free;
  _ ← dec_refcount Obj SrcBuf;
  mret (task_result, w).

Definition calculate_sha (range : src_range) (addr : Z) (file_data : list Z) (w : work) : io (doca_error * work) :=
  let file_size := zlen file_data in
  result ← call (mmap_set_memrange SrcMmap addr file_size);
  if negb (ok result) then _ ← munmap range; mret (result, w) else
  result ← call (mmap_set_free_cb SrcMmap);
  if negb (ok result) then _ ← munmap range; mret (result, w) else
  let w := set_src_cb range w in
  result ← call (mmap_start SrcMmap);
  if negb (ok result) then _ ← munmap range; mret (result, w) else
  result ← call (buf_get_by_addr SrcBuf SrcMmap addr file_size);
  if negb (ok result) then mret (result, w) else
  result ← call (buf_set_data SrcBuf file_size);
  if negb (ok result) then _ ← dec_refcount Obj SrcBuf; mret (result, w) else
  '(result, w) ← populate_dst_buf w;
  if negb (ok result) then _ ← dec_refcount Obj SrcBuf; mret (result, w) else
  _ ← call ctx_set_user_data;
  result ← call ctx_start;
  if negb (ok result) then _ ← dec_refcount Obj SrcBuf; mret (result, w) else
  let w := set_running w in
  result ← call (task_alloc_init SrcBuf DstBuf);
  if negb (ok result) then _ ← dec_refcount Obj SrcBuf; mret (result, w) else
  run_hash_task file_data w.

(** The labels of receive_and_calculate_partial_sha. *)
Definition partial_destroy_src_buf (result : doca_error) (w : work) : io (doca_error * work) :=
  _ ← dec_refcount Obj SrcBuf;
  mret (result, w).
Definition partial_free_task (result : doca_error) (w : work) : io (doca_error * work) :=
  _ ← call task_free;
  partial_destroy_src_buf result w.

(** A part of the hash; what was fed before is [fed].  A part that is not the
    last one must fill blocks, and the last one must not be the first. *)
Definition feed_ok (fed : list (list Z)) (m : list Z) (final : bool) : bool :=
  if final then negb (match fed with [] => true | _ => false end) else zlen m mod sha_block =? 0.

Definition run_partial_task (fed : list (list Z)) (m : list Z) (final : bool) (w : work) : io (doca_error * work) :=
  if negb (feed_ok fed m final) then Undef else
  '(task_result, digest) ← call_bytes (sha_partial_done (fed ++ [m]) final);
  w ← (if ok task_result && final then sha_result digest w else mret w);
  mret (task_result, w).

(** The body of the loop over the messages, for the last [n] of them; [off] is
    the offset of the file.  When the task fails [result] is still that of its
    submission. *)
Fixpoint receive_parts (n : nat) (fed : list (list Z)) (off : Z) (w : work) : io (doca_error * work) :=
  match n with
  | O => partial_free_task DOCA_SUCCESS w
  | S n' =>
      let final := match n' with O => true | _ => false end in
      '(result, m) ← recv MAX_MSG_SIZE;
      if negb (ok result) then
        partial_free_task (match result with DOCA_ERROR_AGAIN => DOCA_ERROR_TIME_OUT | e => e end) w
      else
      result ← call (buf_set_data SrcBuf (zlen m));
      if negb (ok result) then partial_free_task result w else
      result ← call (task_partial_hash_set_src SrcBuf);
      if negb (ok result) then partial_free_task result w else
      written ← Fput off m Ret;
      if negb (written =? zlen m) then partial_free_task DOCA_ERROR_IO_FAILED w else
      result ← (if final then call task_partial_hash_set_is_final_buffer else mret DOCA_SUCCESS);
      if negb (ok result) then partial_free_task result w else
      result ← call task_submit;
      if negb (ok result) then partial_free_task result w else
      '(task_result, w) ← run_partial_task fed m final w;
      if negb (ok task_result) then partial_free_task result w else
      receive_parts n' (fed ++ [m]) (off + zlen m) w
  end.

Definition receive_and_calculate_partial_sha (total_msgs : Z) (w : work) : io (doca_error * work) :=
  '(result, max_source_buffer_size) ← call_num sha_cap_get_max_src_buffer_size;
  if negb (ok result) then mret (result, w) else
  if max_source_buffer_size <? MAX_MSG_SIZE then mret (DOCA_ERROR_BAD_STATE, w) else
  '(result, w) ← populate_dst_buf w;
  if negb (ok result) then mret (result, w) else
  _ ← call ctx_set_user_data;
  result ← call ctx_start;
  if negb (ok result) then mret (result, w) else
  let w := set_running w in
  result ← call (mmap_set_memrange SrcMmap received_msg MAX_MSG_SIZE);
  if negb (ok result) then mret (result, w) else
  result ← call (mmap_start SrcMmap);
  if negb (ok result) then mret (result, w) else
  result ← call (buf_get_by_addr SrcBuf SrcMmap received_msg MAX_MSG_SIZE);
  if negb (ok result) then mret (result, w) else
  result ← call (task_partial_hash_alloc_init SrcBuf DstBuf);
  if negb (ok result) then partial_destroy_src_buf result w else
  receive_parts (Z.to_nat total_msgs) [] 0 w.

(** ** The client *)

(** The messages after the first [i] of [total]. *)
Fixpoint send_parts (n : nat) (partial_block_size : Z) (file_data : list Z) : io doca_error :=
  match n with
  | O => mret DOCA_SUCCESS
  | S n' =>
      let msg_len := Z.min (zlen file_data) partial_block_size in
      result ← send (take (Z.to_nat msg_len) file_data);
      if negb (ok result) then mret result else
      send_parts n' partial_block_size (drop (Z.to_nat msg_len) file_data)
  end.

(** A block size of zero, or above the message size, leads to a division by
    zero. *)
Definition send_file (file_data : list Z) : io doca_error :=
  '(result, min_partial_block_size) ← call_num sha_cap_get_partial_hash_block_size;
  if negb (ok result) then mret result else
  if min_partial_block_size =? 0 then Undef else
  let partial_block_size := MAX_MSG_SIZE - MAX_MSG_SIZE mod min_partial_block_size in
  if partial_block_size =? 0 then Undef else
  let total_msgs := u32 (1 + (zlen file_data - 1) / partial_block_size) in
  result ← send (u32_bytes (htonl total_msgs));
  if negb (ok result) then mret result else
  send_parts (Z.to_nat total_msgs) partial_block_size file_data.

Definition close_file {A} (x : A) : io A := _ ← call fclose; mret x.

(** From the SHA of the file on. *)
Definition client_send (file_data : list Z) (w : work) : io (doca_error * work) :=
  result ← call (buf_get_data_len DstBuf);
  if negb (ok result) then _ ← dec_refcount (dst_doca_buf w) DstBuf; close_file (result, w) else
  let hash_length := data_len w in
  result ← call (buf_get_data DstBuf);
  if negb (ok result) then _ ← dec_refcount (dst_doca_buf w) DstBuf; close_file (result, w) else
  r ← calloc (hash_length * 2 + 1);
  match r with
  | None => _ ← dec_refcount (dst_doca_buf w) DstBuf; close_file (DOCA_ERROR_NO_MEMORY, w)
  | Some sha_output =>
      sha_msg ← load (dst_buffer w) hash_length;
      _ ← store sha_output (sha_output_text sha_msg);
      _ ← free sha_output;
      result ← send sha_msg;
      if negb (ok result) then _ ← dec_refcount (dst_doca_buf w) DstBuf; close_file (result, w) else
      _ ← dec_refcount (dst_doca_buf w) DstBuf;
      result ← send_file file_data;
      if negb (ok result) then close_file (result, w) else
      _ ← call fclose;
      '(result, _) ← recv MAX_MSG_SIZE;
      mret (result, w)
  end.

Definition file_integrity_client (w : work) : io (doca_error * work) :=
  opened ← Fopen false Ret;
  if negb opened then mret (DOCA_ERROR_IO_FAILED, w) else
  statbuf ← Fsize Ret;
  match statbuf with
  | None => close_file (DOCA_ERROR_IO_FAILED, w)
  | Some st_size =>
      '(result, max_source_buffer_size) ← call_num sha_cap_get_max_src_buffer_size;
      if negb (ok result) then close_file (result, w) else
      if (st_size <=? 0) || (max_source_buffer_size <? st_size) then close_file (DOCA_ERROR_INVALID_VALUE, w) else
      '(result, addr, file_data) ← Fmap file_map (fun e a b => Ret (e, a, b));
      if negb (ok result) then close_file (DOCA_ERROR_NO_MEMORY, w) else
      '(result, w) ← calculate_sha FileMapping addr file_data w;
      if negb (ok result) then close_file (result, w) else
      client_send file_data w
  end.

(** ** The server *)

(** The iterations of a wait with a timeout; their number is an int. *)
Definition num_of_iterations (timeout : Z) : io unit :=
  if decide (timeout * 1000 * 1000 < 2 ^ 31) then mret tt else Undef.

(** From the comparison of the digests on. *)
Definition server_compare (received_sha : Z) (w : work) : io (doca_error * work) :=
  result ← call (buf_get_data_len DstBuf);
  if negb (ok result) then _ ← dec_refcount (dst_doca_buf w) DstBuf; mret (result, w) else
  let hash_length := data_len w in
  result ← call (buf_get_data DstBuf);
  if negb (ok result) then _ ← dec_refcount (dst_doca_buf w) DstBuf; mret (result, w) else
  r ← calloc (hash_length * 2 + 1);
  match r with
  | None => (* doca_task_free and doca_buf_dec_refcount of NULL *) Undef
  | Some sha_output =>
      file_sha ← load (dst_buffer w) hash_length;
      _ ← store sha_output (sha_output_text file_sha);
      _ ← free sha_output;
      received ← load received_sha hash_length;
      _ ← (if decide (file_sha = received) then mret tt else _ ← Fremove Ret; mret tt);
      _ ← dec_refcount (dst_doca_buf w) DstBuf;
      mret (DOCA_SUCCESS, w)
  end.

(** Reads the file into place and hashes it. *)
Definition server_file (total_msgs : Z) (w : work) : io (doca_error * work) :=
  if total_msgs =? 1 then
    '(result, m) ← recv MAX_MSG_SIZE;
    if negb (ok result) then mret (result, w) else
    written ← Fput 0 m Ret;
    if negb (written =? zlen m) then mret (DOCA_ERROR_IO_FAILED, w) else
    calculate_sha StackBuffer received_msg m w
  else receive_and_calculate_partial_sha total_msgs w.

(** What comes before the label finish_msg. *)
Definition server_receive (received_sha : Z) (w : work) : io (doca_error * work) :=
  '(result, sha_msg) ← recv MAX_MSG_SIZE;
  if negb (ok result) then mret (result, w) else
  _ ← store received_sha sha_msg;
  '(result, m) ← recv MAX_MSG_SIZE;
  if negb (ok result) then mret (result, w) else
  if negb (zlen m =? 4) then mret (DOCA_SUCCESS, w) else
  let total_msgs := ntohl (bytes_u32 m) in
  if total_msgs <? 1 then mret (DOCA_ERROR_UNEXPECTED, w) else
  created ← Fcreate Ret;
  if negb created then mret (DOCA_ERROR_IO_FAILED, w) else
  '(result, w) ← server_file total_msgs w;
  _ ← call fclose;
  if negb (ok result) then _ ← dec_refcount (dst_doca_buf w) DstBuf; mret (result, w) else
  server_compare received_sha w.

Definition file_integrity_server (app_cfg : file_integrity_config) (w : work) : io (doca_error * work) :=
  _ ← num_of_iterations (timeout app_cfg);
  '(result, received_sha_msg_size) ← call_num sha_cap_get_min_dst_buffer_size;
  if negb (ok result) then mret (result, w) else
  '(result, _) ← call_num sha_cap_get_partial_hash_block_size;
  if negb (ok result) then mret (result, w) else
  r ← calloc received_sha_msg_size;
  match r with
  | None => mret (DOCA_ERROR_NO_MEMORY, w)
  | Some received_sha =>
      '(result, w) ← server_receive received_sha w;
      tmp_result ← send finish_text;
      let result := if ok tmp_result then result else propagate result tmp_result in
      _ ← free received_sha;
      mret (result, w)
  end.

(** ** Start and end *)

Definition sha_partial_hash_is_supported (i : Z) : io doca_error := call (cap_is_supported i).

(** The labels of file_integrity_init. *)
Definition init_cc_ep_destroy (result : doca_error) : io doca_error :=
  _ ← call comm_channel_ep_destroy;
  mret result.
Definition init_dev_close (result : doca_error) : io doca_error :=
  _ ← call (dev_close CcDev);
  init_cc_ep_destroy result.
Definition init_rep_dev_close (mode : file_integrity_mode) (result : doca_error) : io doca_error :=
  _ ← match mode with SERVER => call dev_rep_close | _ => mret DOCA_SUCCESS end;
  init_dev_close result.
Definition init_destroy_core_objs (mode : file_integrity_mode) (st : core) (result : doca_error) : io doca_error :=
  _ ← destroy_core_objects no_cbs st;
  init_rep_dev_close mode result.

(** The tasks of the SHA context, and the connection. *)
Definition init_connect (mode : file_integrity_mode) : io doca_error :=
  result ← call (task_set_conf LOG_NUM_SHA_TASKS);
  if negb (ok result) then mret result else
  match mode with
  | CLIENT =>
      result ← call comm_channel_ep_connect;
      if negb (ok result) then mret result else call comm_channel_peer_addr_update_info
  | _ =>
      result ← call (task_set_conf LOG_NUM_SHA_TASKS);
      if negb (ok result) then mret result else call comm_channel_ep_listen
  end.

Definition file_integrity_init (app_cfg : file_integrity_config) (w : work)
    : io (doca_error * file_integrity_config * work) :=
  let m := mode app_cfg in
  let app_cfg := if timeout app_cfg =? 0
    then Cfg m (file_path app_cfg) (cc_dev_pci_addr app_cfg) (cc_dev_rep_pci_addr app_cfg) DEFAULT_TIMEOUT
    else app_cfg in
  let fail st result := result ← init_destroy_core_objs m st result; mret (result, app_cfg, set_state st w) in
  result ← call comm_channel_ep_create;
  if negb (ok result) then mret (result, app_cfg, w) else
  '(result, _) ← open_doca_device_with_pci CcDev None;
  if negb (ok result) then result ← init_cc_ep_destroy result; mret (result, app_cfg, w) else
  '(result, _) ← match m with SERVER => open_doca_device_rep_with_pci | _ => mret (DOCA_SUCCESS, Null) end;
  if negb (ok result) then result ← init_dev_close result; mret (result, app_cfg, w) else
  result ← set_endpoint_properties m;
  if negb (ok result) then result ← init_rep_dev_close m result; mret (result, app_cfg, w) else
  '(result, dev) ← open_doca_device_with_capabilities WorkDev sha_partial_hash_is_supported;
  if negb (ok result) then result ← init_rep_dev_close m result; mret (result, app_cfg, w) else
  let st := set_dev dev (state w) in
  result ← call engine_create;
  if negb (ok result) then _ ← call comm_channel_ep_destroy; fail st result else
  let st := set_ctx Obj st in
  '(result, st) ← create_core_objects st 2;
  if negb (ok result) then fail st result else
  result ← call pe_connect_ctx;
  if negb (ok result) then fail st result else
  result ← init_connect m;
  if negb (ok result) then fail st result else
  mret (DOCA_SUCCESS, app_cfg, set_state st w).

(** A context that does not run cannot be stopped. *)
Definition stop_ctx (w : work) : io doca_error :=
  if running w then request_stop_ctx else mret DOCA_ERROR_BAD_STATE.

Definition file_integrity_cleanup (m : file_integrity_mode) (w : work) : io unit :=
  _ ← call comm_channel_ep_disconnect;
  _ ← match m with
      | SERVER => result ← call ep_get_device_rep; if ok result then call dev_rep_close else mret result
      | _ => mret DOCA_SUCCESS
      end;
  result ← call ep_get_device;
  _ ← (if ok result then call (dev_close CcDev) else mret result);
  _ ← call comm_channel_ep_destroy;
  has_pe ← not_null (pe (state w));
  has_ctx ← not_null (ctx (state w));
  _ ← (if has_pe && has_ctx then stop_ctx w else mret DOCA_SUCCESS);
  _ ← call engine_destroy;
  _ ← destroy_core_objects (callbacks w) (state w);
  mret tt.

(** ** main *)

(** The client's variable for the destination buffer is not initialised. *)
Definition file_integrity (app_cfg : file_integrity_config) (w : work) : io (doca_error * work) :=
  match mode app_cfg with
  | CLIENT => file_integrity_client (set_dst Garbage 0 w)
  | _ => file_integrity_server app_cfg w
  end.

(** Between doca_argp_init and doca_argp_destroy. *)
Definition run (m : file_integrity_mode) (args : list arg) : io Z :=
  result ← register_file_integrity_params;
  if negb (ok result) then mret EXIT_FAILURE else
  result ← call argp_start;
  if negb (ok result) then mret EXIT_FAILURE else
  let '(result, app_cfg) := argp_callbacks args (Cfg m [] [] [] 0) in
  if negb (ok result) then mret EXIT_FAILURE else
  result ← args_validation_callback app_cfg;
  if negb (ok result) then mret EXIT_FAILURE else
  '(result, app_cfg, w) ← file_integrity_init app_cfg (work0 Null);
  if negb (ok result) then mret EXIT_FAILURE else
  '(result, w) ← file_integrity app_cfg w;
  _ ← file_integrity_cleanup m w;
  mret (if ok result then EXIT_SUCCESS else EXIT_FAILURE).

Definition main (m : file_integrity_mode) (args : list arg) : io Z :=
  result ← call (log_backend 0);
  if negb (ok result) then mret EXIT_FAILURE else
  result ← call (log_backend 1);
  if negb (ok result) then mret EXIT_FAILURE else
  result ← call (log_backend 2);
  if negb (ok result) then mret EXIT_FAILURE else
  result ← call argp_init;
  if negb (ok result) then mret EXIT_FAILURE else
  exit_status ← run m args;
  _ ← call argp_destroy;
  mret exit_status.
End Programs.
