(* ===== verification/FileIntegritySpec.v ===== *)
(** * File integrity: the SHA engine, messages and the parts both sides share

    What the engine promises ([sha_ok]), the messages the client sends
    ([client_log]), what a server makes of the messages it receives
    ([server_outcome]), and the rules for the parts of FileIntegrity.v that both
    sides run, on a machine where the libraries do what they are asked. *)

From stdpp Require Import gmap.
From S2P Require Import Prelude CString Pack Proc ProcSpec DocaCommon DocaSpec FileIntegrity.
#[local] Open Scope Z_scope.

(** ** The engine *)

(** A digest function with the size of its results, the size of the blocks of
    its partial tasks, and the largest buffer it takes. *)
Record sha_engine := Sha { sha : list Z -> list Z; sha_len : Z; sha_block : Z; sha_max_src : Z }.

(** A hash task gives the digest of its buffer; the last part of a partial task
    gives the digest of all its parts. *)
Definition sha_answers (E : sha_engine) (c : dcall) (n : Z) (b : list Z) : Prop :=
  match c with
  | sha_cap_get_min_dst_buffer_size => n = sha_len E
  | sha_cap_get_partial_hash_block_size => n = sha_block E
  | sha_cap_get_max_src_buffer_size => n = sha_max_src E
  | sha_done data => b = sha E data
  | sha_partial_done chunks true => b = sha E (concat chunks)
  | _ => True
  end.

Record sha_ok (E : sha_engine) : Prop := {
  sha_length : forall data, zlen (sha E data) = sha_len E;
  sha_len_fits : 0 <= sha_len E <= MAX_MSG_SIZE;
  sha_block_fits : 1 <= sha_block E <= MAX_MSG_SIZE;
  sha_max_fits : MAX_MSG_SIZE <= sha_max_src E
}.

(** ** Messages *)

(** The client's messages carry this many bytes of the file, but for the last. *)
Definition part_size (E : sha_engine) : Z := MAX_MSG_SIZE - MAX_MSG_SIZE mod sha_block E.
Definition total_of (E : sha_engine) (f : list Z) : Z := 1 + (zlen f - 1) / part_size E.

Fixpoint parts (n k : nat) (f : list Z) : list (list Z) :=
  match n with O => [] | S n' => take k f :: parts n' k (drop k f) end.

Definition client_log (E : sha_engine) (f : list Z) : list (list Z) :=
  sha E f :: u32_bytes (htonl (total_of E f)) :: parts (Z.to_nat (total_of E f)) (Z.to_nat (part_size E)) f.

(** The number of messages a message announces. *)
Definition announced (c : list Z) : Z := if zlen c =? 4 then ntohl (bytes_u32 c) else 0.

(** The messages a server can receive, a hypothesis on its client: the digest is
    not longer than the buffer the server has for it (the server copies it with
    no check, and overflows the heap), no message is longer than the channel
    allows, and a part that is not the last fills blocks of the engine (the
    engine requires it, the server does not check it). *)
Fixpoint parts_fit (E : sha_engine) (n : nat) (ps : list (list Z)) : Prop :=
  match ps with
  | [] => True
  | p :: ps' => zlen p <= MAX_MSG_SIZE /\ ((1 < n)%nat -> zlen p mod sha_block E = 0) /\ parts_fit E (n - 1) ps'
  end.
Definition receivable (E : sha_engine) (i : list (list Z)) : Prop :=
  match i with
  | [] => True
  | [d] => zlen d <= sha_len E
  | d :: c :: ps => zlen d <= sha_len E /\ zlen c <= MAX_MSG_SIZE /\ parts_fit E (Z.to_nat (announced c)) ps
  end.

(** The server waits for another message. *)
Definition wants (i : list (list Z)) : Prop :=
  match i with
  | d :: c :: ps => (length ps < Z.to_nat (announced c))%nat
  | _ => True
  end.

(** The digest as it lies in the server's buffer. *)
Definition padded (E : sha_engine) (d : list Z) : list Z := overwrite d (replicate (Z.to_nat (sha_len E)) 0).

(** What a server that had the file [old] makes of the messages it received:
    whether it succeeds, and its file.  What is written covers the start of the
    old file; a file whose digest is not the one received is removed. *)
Definition server_outcome (E : sha_engine) (old : option (list Z)) (i : list (list Z)) : bool * option (list Z) :=
  match i with
  | d :: c :: ps =>
      if negb (zlen c =? 4) then (true, old)
      else if announced c <? 1 then (false, old)
      else if decide (sha E (concat ps) = padded E d)
      then (true, Some (write_at 0 (concat ps) (default [] old)))
      else (true, None)
  | _ => (false, old)
  end.

(** ** Facts about messages *)

Section Messages.
Context (E : sha_engine) (HE : sha_ok E).

Lemma part_size_range : 1 <= part_size E <= MAX_MSG_SIZE /\ part_size E mod sha_block E = 0.
Proof using HE.
  pose proof (sha_block_fits _ HE) as Hb. unfold part_size. set (b := sha_block E) in *.
  pose proof (Z.mod_pos_bound MAX_MSG_SIZE b ltac:(lia)).
  pose proof (Z.div_mod MAX_MSG_SIZE b ltac:(lia)) as Hd. split.
  - assert (1 <= MAX_MSG_SIZE / b) by (apply Z.div_le_lower_bound; lia). nia.
  - replace (MAX_MSG_SIZE - MAX_MSG_SIZE mod b) with (MAX_MSG_SIZE / b * b) by lia. apply Z.mod_mul. lia.
Qed.

Lemma total_range f : f <> [] -> 1 <= total_of E f.
Proof using HE.
  intros Hf. unfold total_of. pose proof part_size_range as [? _].
  assert (0 <= (zlen f - 1) / part_size E); [|lia]. apply Z.div_pos; [|lia]. unfold zlen. destruct f; [done|cbn [length]; lia].
Qed.

Lemma concat_parts n k f : (length f <= n * k)%nat -> concat (parts n k f) = f.
Proof using.
  revert f. induction n as [|n IH]; intros f Hl; cbn.
  - destruct f; [done|cbn in Hl; lia].
  - rewrite IH; [apply take_drop|]. rewrite length_drop. lia.
Qed.

Lemma length_parts n k f : length (parts n k f) = n.
Proof using. revert f. induction n as [|n IH]; intros f; cbn; [done|by rewrite IH]. Qed.

Lemma whole_parts f : f <> [] -> concat (parts (Z.to_nat (total_of E f)) (Z.to_nat (part_size E)) f) = f.
Proof using HE.
  intros Hf. apply concat_parts. pose proof (total_range f Hf). pose proof part_size_range as [? _]. unfold total_of in *.
  pose proof (Z.div_mod (zlen f - 1) (part_size E) ltac:(lia)) as Hd.
  pose proof (Z.mod_pos_bound (zlen f - 1) (part_size E) ltac:(lia)). unfold zlen in *.
  apply Nat2Z.inj_le. rewrite Nat2Z.inj_mul, !Z2Nat.id by lia. nia.
Qed.

(** All parts but the last are full, when there is enough for them. *)
Lemma parts_are_fit n k f : Z.of_nat k = part_size E -> ((n - 1) * k <= length f)%nat -> parts_fit E n (parts n k f).
Proof using HE.
  intros Hk. pose proof part_size_range as [? Hm]. revert f. induction n as [|n IH]; intros f Hl; cbn [parts parts_fit]; [done|].
  split_and!.
  - unfold zlen. rewrite length_take. lia.
  - intros Hn. unfold zlen. rewrite length_take_le, Hk; [done|]. destruct n; [lia|]. cbn in Hl. lia.
  - replace (S n - 1)%nat with n by lia. apply IH. rewrite length_drop. destruct n; [cbn; lia|]. cbn in *. lia.
Qed.

Lemma ntohl_htonl v : in_u 32 v -> ntohl (bytes_u32 (u32_bytes (htonl v))) = v.
Proof using.
  intros Hv. unfold ntohl, htonl, bytes_u32, u32_bytes. rewrite rev_involutive.
  set (w := be_value (rev (be_bytes 4 v))).
  assert (Hw : be_bytes 4 w = rev (be_bytes 4 v)).
  { unfold w. change 4%nat with (length (rev (be_bytes 4 v))) at 1. apply be_bytes_value. apply Forall_rev, be_bytes_ok. }
  rewrite Hw. change 4%nat with (length (rev (be_bytes 4 v))) at 1.
  rewrite be_bytes_value by (apply Forall_rev, be_bytes_ok).
  rewrite rev_involutive, be_value_bytes. apply Z.mod_small. apply Hv.
Qed.

Lemma announced_total f : in_u 32 (total_of E f) -> announced (u32_bytes (htonl (total_of E f))) = total_of E f.
Proof using.
  intros Hv. unfold announced, u32_bytes at 1, zlen. rewrite length_rev, length_be_bytes. cbn. by apply ntohl_htonl.
Qed.

Lemma padded_full d : zlen d = sha_len E -> padded E d = d.
Proof using. intros Hd. unfold padded, overwrite. rewrite drop_ge, app_nil_r; [done|]. rewrite length_replicate. unfold zlen in *. lia. Qed.

(** The text of a digest fits the buffer that is allocated for it. *)
Lemma sha_output_fits d n : zlen d = n -> (length (sha_output_text d) <= length (replicate (Z.to_nat (n * 2 + 1)) 0%Z))%nat.
Proof using.
  intros <-. unfold sha_output_text. rewrite length_app, length_replicate.
  assert (Hl : forall l, length (flat_map (fun b => [hex_digit (b / 16); hex_digit (b mod 16)]) l) = (2 * length l)%nat).
  { induction l as [|x l IH]; cbn in *; lia. }
  rewrite Hl. unfold zlen. cbn [length]. lia.
Qed.

(** Writing part after part is writing the whole. *)
Lemma write_at_0 b f : write_at 0 b f = b ++ drop (length b) f.
Proof using. done. Qed.

Lemma write_at_app a b f : write_at (length a) b (write_at 0 a f) = write_at 0 (a ++ b) f.
Proof using.
  rewrite !write_at_0. unfold write_at. rewrite take_app_length, length_app.
  replace (length a - (length a + length (drop (length a) f)))%nat with 0%nat by lia. cbn [replicate app].
  rewrite <- !app_assoc, drop_app_add, drop_drop, length_app. done.
Qed.

Lemma write_at_nil f : write_at 0 [] f = f.
Proof using. by rewrite write_at_0. Qed.
End Messages.

(** ** Programs on a machine where nothing fails *)

Section Good.
Context (E : sha_engine) (HE : sha_ok E) (received_msg : Z) (must : dcall -> bool).
Notation W := (doca_world (sha_answers E) true must).
Context (K : contract dres) (HQ : quiet K).
Notation post A := (A -> side dres -> list (list Z) -> list (list Z) -> Prop).

Section Rules.
Context (i o : list (list Z)) (HC : calm K i o).

Lemma g_calloc {A} (Q : post A) n (k : option Z -> prog dcall A) f m h d : 0 <= n -> (size m < 1000)%nat ->
  (forall a, m !! a = None -> 0 < a < 2 ^ 64 ->
     wp W K (k (Some a)) Q (Side f (<[a := replicate (Z.to_nat n) 0]> m) h d) i o) ->
  wp W K (calloc n ≫= k) Q (Side f m h d) i o.
Proof using HC HQ.
  intros Hn Hm Hk. g_step. unfold calloc. eapply (g_malloc _ _ K HQ i o HC); [done|by apply fresh_addr|].
  intros a b Ha Hr Hb. cbv beta iota.
  eapply (g_store _ _ K HQ i o HC); [apply lookup_insert_eq|rewrite length_replicate; lia|]. cbv beta. g_step.
  rewrite insert_insert_eq. replace (overwrite _ b) with (replicate (Z.to_nat n) 0); [by apply Hk|].
  unfold overwrite. rewrite drop_ge, app_nil_r; [done|]. rewrite length_replicate. lia.
Qed.

Lemma g_dec_refcount {A} (Q : post A) b (k : unit -> prog dcall A) f m h d : usable_held W (buf_dec_refcount b) h = true ->
  wp W K (k tt) Q (Side f m (after_held W (buf_dec_refcount b) DOCA_SUCCESS h) d) i o ->
  wp W K (dec_refcount Obj b ≫= k) Q (Side f m h d) i o.
Proof using HC HQ. intros Hu Hk. g_step. unfold dec_refcount. eapply (g_call _ _ K HQ i o HC); [done..|]. cbv beta. by g_step. Qed.

Lemma g_populate {A} (Q : post A) st p a0 n0 c b r (k : doca_error * work -> prog dcall A) f m h d : (size m < 1000)%nat ->
  (forall a, m !! a = None -> 0 < a < 2 ^ 64 ->
     wp W K (k (DOCA_SUCCESS, Work st Obj a n0 c true r)) Q
       (Side f (<[a := replicate (Z.to_nat (sha_len E)) 0]> m) (RBuf DstBuf :: h) d) i o) ->
  wp W K (populate_dst_buf (Work st p a0 n0 c b r) ≫= k) Q (Side f m h d) i o.
Proof using HC HE HQ.
  intros Hm Hk. g_step. unfold populate_dst_buf. g_step. intros n bs Hn. change (n = sha_len E) in Hn. subst n.
  eapply g_calloc; [apply sha_len_fits, HE|done|]. intros a Ha Hr. cbv beta iota zeta.
  do 4 g_step. g_step. by apply Hk.
Qed.
(** The engine's result goes over the destination buffer. *)
Lemma g_sha_result {A} (Q : post A) st p a n0 c b r digest x (k : work -> prog dcall A) f m h d :
  m !! a = Some x -> zlen digest = sha_len E -> zlen x = sha_len E ->
  wp W K (k (Work st p a (sha_len E) c b r)) Q (Side f (<[a := digest]> m) h d) i o ->
  wp W K (sha_result digest (Work st p a n0 c b r) ≫= k) Q (Side f m h d) i o.
Proof using HC HQ.
  intros Hx Hd Hl Hk. g_step. unfold sha_result. eapply (g_store _ _ K HQ i o HC); [exact Hx|unfold zlen in *; cbn; lia|].
  cbv beta. g_step. rewrite Hd. replace (overwrite digest x) with digest; [exact Hk|].
  unfold overwrite. rewrite drop_ge, app_nil_r; [done|]. unfold zlen in *. lia.
Qed.

Lemma zlen_zeros : zlen (replicate (Z.to_nat (sha_len E)) 0) = sha_len E.
Proof using HE. unfold zlen. rewrite length_replicate, Z2Nat.id; [done|]. apply sha_len_fits, HE. Qed.

Lemma g_calculate_sha {A} (Q : post A) range addr data st p a0 (k : doca_error * work -> prog dcall A) f m h d :
  (size m < 1000)%nat ->
  (forall a, m !! a = None ->
     wp W K (k (DOCA_SUCCESS, Work st Obj a (sha_len E) (Some range) true true)) Q
       (Side f (<[a := sha E data]> m) (RRunning :: RBuf DstBuf :: h) d) i o) ->
  wp W K (calculate_sha range addr data (Work st p a0 0 None false false) ≫= k) Q (Side f m h d) i o.
Proof using HC HE HQ.
  intros Hm Hk. g_step. unfold calculate_sha. do 5 g_step.
  apply g_populate; [done|]. intros a Ha _. cbv beta iota. g_simp. do 3 g_step.
  unfold run_hash_task. g_step. g_step. intros n digest ->. g_simp.
  eapply (g_sha_result _ st Obj a 0); [apply lookup_insert_eq|apply sha_length, HE|apply zlen_zeros|].
  g_step. apply g_dec_refcount; [done|]. g_simp. g_step. rewrite insert_insert_eq. by apply Hk.
Qed.
(** ** Start and end *)

(** What a side holds between [file_integrity_init] and the cleanup. *)
Definition ep_res (m : file_integrity_mode) : list dres :=
  match m with SERVER => [RRep; RDev CcDev; REp] | _ => [RDev CcDev; REp] end.
Definition init_res (m : file_integrity_mode) : list dres := core_res ++ REngine :: RDev WorkDev :: ep_res m.
Definition full : core := Core Obj Obj Obj Obj Obj Obj.
Definition with_timeout (c : file_integrity_config) : file_integrity_config :=
  if timeout c =? 0 then Cfg (mode c) (file_path c) (cc_dev_pci_addr c) (cc_dev_rep_pci_addr c) DEFAULT_TIMEOUT else c.

Ltac hg := eapply good_call; [discriminate|reflexivity|]; cbv beta; g_simp.

Lemma set_endpoint_ok m h : hwp W (set_endpoint_properties m) (fun e h' => e = DOCA_SUCCESS /\ h' = h) h.
Proof using. unfold set_endpoint_properties. do 4 hg. destruct m; [done..|]. by hg. Qed.

Lemma init_connect_ok m h : hwp W (init_connect m) (fun e h' => e = DOCA_SUCCESS /\ h' = h) h.
Proof using. unfold init_connect. hg. destruct m; hg; by (eapply good_tail; [discriminate|reflexivity|]). Qed.

Lemma init_ok c p h : hwp W (file_integrity_init c (work0 p))
  (fun x h' => x = (DOCA_SUCCESS, with_timeout c, set_state full (work0 p)) /\ h' = init_res (mode c) ++ h) h.
Proof using.
  unfold file_integrity_init. fold (with_timeout c). set (m := mode c). hg.
  apply hwp_bind. eapply hwp_mono; [|apply open_with_pci_ok]. intros x h' [[-> ->]|(_ & _ & _ & ?)]; [|done]. cbv beta iota. g_simp.
  apply hwp_bind. eapply (hwp_mono _ _ (fun x h' => x.1 = DOCA_SUCCESS /\ h' = ep_res m ++ h)).
  2: { destruct m; [done..|]. eapply hwp_mono; [|apply open_rep_with_pci_ok].
       intros x h' [[-> ->]|(_ & _ & _ & ?)]; done. }
  intros [e1 p1] h1 [E1 ->]. cbn [fst] in E1. subst e1. cbv beta iota. g_simp.
  apply hwp_bind. eapply hwp_mono; [|apply set_endpoint_ok]. intros e h' [-> ->]. cbv beta. g_simp.
  apply hwp_bind. eapply hwp_mono; [|apply open_with_capabilities_ok]. intros x h' [[-> ->]|(_ & _ & _ & ?)]; [|done]. cbv beta iota zeta. g_simp.
  hg. apply hwp_bind. eapply hwp_mono; [|by apply create_core_objects_ok]. intros x h' [[-> ->]|(_ & _ & c0 & [? _] & _)]; [|done].
  cbv beta iota. g_simp. hg.
  apply hwp_bind. eapply hwp_mono; [|apply init_connect_ok]. intros e h' [-> ->]. cbv beta. g_simp. split; [done|].
  unfold init_res. by rewrite <- app_assoc.
Qed.
(** What a run adds to it. *)
Definition run_res (w : work) : list dres :=
  (if running w then [RRunning] else []) ++ match src_cb w with Some FileMapping => [RMapping] | _ => [] end.
Definition run_mem (w : work) (x : list Z) : gmap Z (list Z) := if dst_cb w then {[dst_buffer w := x]} else ∅.

Lemma stop_ctx_ok w h : hwp W (stop_ctx w) (fun _ h' => h' = h) ((if running w then [RRunning] else []) ++ h).
Proof using.
  unfold stop_ctx. destruct (running w); [|done].
  eapply hwp_mono; [|apply (request_stop_ctx_ok _ _ _ []); by left]. by intros e h' [-> _].
Qed.

(** Destroying a memory map runs its callback. *)
Lemma g_destroy_objs {A} (Q : post A) w x f h (k : doca_error * core -> prog dcall A) d :
  (forall y, wp W K (k y) Q (Side f ∅ h d) i o) ->
  wp W K (destroy_core_objects (callbacks w) full ≫= k) Q
    (Side f (run_mem w x) (match src_cb w with Some FileMapping => [RMapping] | _ => [] end ++
       core_res ++ RDev WorkDev :: h) d) i o.
Proof using HC HQ.
  intros Hk. g_step. unfold destroy_core_objects, destroy_mmap, callbacks, run_mem, destroy_obj, full, core_res.
  cbn [pe buf_inv dst_mmap src_mmap dev set_pe set_buf_inv set_dst_mmap set_src_mmap set_dev not_null app].
  destruct (src_cb w) as [[]|], (dst_cb w); cbn [munmap app]; repeat (g_step; try (eexists; apply lookup_singleton_eq));
    rewrite ?delete_singleton_eq; apply Hk.
Qed.

Lemma g_cleanup {A} (Q : post A) m w x f h (k : unit -> prog dcall A) d :
  m <> NO_VALID_INPUT -> state w = full -> wp W K (k tt) Q (Side f ∅ h d) i o ->
  wp W K (file_integrity_cleanup m w ≫= k) Q (Side f (run_mem w x) (run_res w ++ init_res m ++ h) d) i o.
Proof using HC HQ.
  intros Hm Hw Hk. g_step. unfold file_integrity_cleanup. rewrite Hw.
  change (not_null (pe full)) with (mret true : prog dcall bool). change (not_null (ctx full)) with (mret true : prog dcall bool).
  assert (Hend : wp W K (_ ← call engine_destroy; _ ← destroy_core_objects (callbacks w) full; mret tt)
    (fun b s i o => wp W K (k b) Q s i o)
    (Side f (run_mem w x) (match src_cb w with Some FileMapping => [RMapping] | _ => [] end ++
       core_res ++ REngine :: RDev WorkDev :: h) d) i o).
  { assert (Hl : wp W K (_ ← destroy_core_objects (callbacks w) full; mret tt)
      (fun b s i o => wp W K (k b) Q s i o) (Side f (run_mem w x) (match src_cb w with Some FileMapping => [RMapping] | _ => [] end ++
       core_res ++ RDev WorkDev :: h) d) i o).
    { apply g_destroy_objs. intros y. cbv beta. by g_step. }
    destruct (src_cb w) as [[]|] eqn:Ec; cbn [app core_res] in *; by g_step. }
  pose proof (stop_ctx_ok w) as Hstop. unfold run_res, init_res.
  destruct m; [done| |]; destruct (running w), (src_cb w) as [[]|]; cbn [app core_res ep_res] in *; repeat g_step.
  all: apply bind_ret; eapply (g_hwp _ _ K HQ i o HC); [apply Hstop|]; intros ? ? ->; cbv beta; by g_step.
Qed.
End Rules.

(** ** main *)

(** A command line the program accepts, with the configuration it gives. *)
Definition accepted (m : file_integrity_mode) (args : list arg) (c : file_integrity_config) (f : option (list Z)) : Prop :=
  argp_callbacks args (Cfg m [] [] [] 0) = (DOCA_SUCCESS, c) /\
  match m with NO_VALID_INPUT => False | CLIENT => is_Some f | SERVER => cc_dev_rep_pci_addr c <> [] end.

Lemma callbacks_keep_mode args c e c' : argp_callbacks args c = (e, c') -> mode c' = mode c.
Proof using.
  assert (H1 : forall a c, mode (argp_callback a c).2 = mode c).
  { intros a c0. destruct a; cbn [argp_callback];
      unfold dev_pci_addr_callback, rep_pci_addr_callback, file_callback, timeout_callback; repeat case_match; done. }
  revert c. induction args as [|a args IH]; intros c; cbn [argp_callbacks]; [by intros [= _ <-]|].
  specialize (H1 a c). destruct (argp_callback a c) as [e1 c1]. cbn in H1. destruct (negb (ok e1)); [by intros [= _ <-]|].
  intros H. by rewrite (IH c1 H).
Qed.

Lemma g_validate {A} (Q : post A) i o (HC : calm K i o) m args c f (k : doca_error -> prog dcall A) h d : accepted m args c f ->
  wp W K (k DOCA_SUCCESS) Q (Side f ∅ h d) i o ->
  wp W K (args_validation_callback c ≫= k) Q (Side f ∅ h d) i o.
Proof using HQ.
  intros [Hc Hm] Hk. g_step. unfold args_validation_callback. rewrite (callbacks_keep_mode _ _ _ _ Hc). cbn [mode].
  destruct m; [done| |].
  - g_step. rewrite bool_decide_eq_true_2 by done. by g_step.
  - destruct (cc_dev_rep_pci_addr c); [done|]. by g_step.
Qed.

Lemma register_ok h : hwp W register_file_integrity_params (fun e h' => e = DOCA_SUCCESS /\ h' = h) h.
Proof using.
  eapply (hwp_mono _ _ (plain true h)); [intros e h' [-> He]; by rewrite He|].
  unfold register_file_integrity_params. do 4 (apply (plain_then _ (fun _ => _)); [apply register_param_ok|]).
  apply (plain_seq _ (fun _ => _)); [done..|]. apply hwp_bind. eapply hwp_mono; [|by apply plain_call]. by intros e h' ?.
Qed.

(** main, when the work in the middle leaves what [run_res] says. *)
Lemma g_main (Q : post Z) i o (HC : calm K i o) b m args c f d :
  accepted m args c f ->
  wp W K (file_integrity b received_msg (with_timeout c) (set_state full (work0 Null)))
    (fun x s i o => calm K i o /\ state x.2 = full /\
       exists f' y, s = Side f' (run_mem x.2 y) (run_res x.2 ++ init_res m ++ [RArgp]) d /\
         Q (if ok x.1 then EXIT_SUCCESS else EXIT_FAILURE) (Side f' ∅ [] d) i o)
    (Side f ∅ (init_res m ++ [RArgp]) d) i o ->
  wp W K (main b received_msg m args) Q (Side f ∅ [] d) i o.
Proof using HQ.
  intros Ha Hw. pose proof Ha as [Hc _]. unfold main. do 4 g_step. g_step. unfold run.
  eapply (g_hwp _ _ K HQ i o HC); [apply register_ok|]. intros e h' [-> ->]. cbv beta. g_simp. g_step.
  rewrite Hc. g_simp. eapply g_validate; [exact HC|exact Ha|]. cbv beta. g_simp.
  eapply (g_hwp _ _ K HQ i o HC); [apply init_ok|]. intros x h' [-> ->]. cbv beta iota. g_simp.
  rewrite (callbacks_keep_mode _ _ _ _ Hc). cbn [mode]. apply (g_bind _ _ K HQ).
  eapply wp_mono; [|exact Hw]. intros [e w] s i' o' (HC' & Hst & f' & y & -> & HQ'). cbn [fst snd] in *. cbv beta iota.
  eapply (g_cleanup i' o' HC'); [|done|]. { intros ->. by destruct Ha. }
  cbv beta. g_step. by do 2 g_step.
Qed.
End Good.
