(* ===== verification/FileIntegritySides.v ===== *)
(** * File integrity: both sides keep their contracts

    [wp] of the client and of the server of FileIntegrity.v: the client under the
    contract that the server answers when it has everything, the server under
    the contract that it may receive any messages that are [receivable]. *)

From stdpp Require Import gmap.
From S2P Require Import Prelude CString Pack Proc ProcSpec DocaCommon DocaSpec FileIntegrity FileIntegritySpec.
#[local] Open Scope Z_scope.

Section Contracts.
Context (E : sha_engine).

(** The client that has the file [f]. *)
Definition KC (f : list Z) : contract dres := {|
  inv := fun _ _ o => o `prefix_of` client_log E f;
  rm := fun i _ m => i = [] /\ m = finish_text;
  rly := fun _ _ s s' => s' = s;
  blk := fun i o => i = [] /\ o = client_log E f;
  gd_read := fun _ _ _ _ _ => False;
  gd_write := fun _ _ _ _ _ => False
|}.

Definition KS : contract dres := {|
  inv := fun _ _ o => o = [] \/ o = [finish_text];
  rm := fun i _ m => receivable E (i ++ [m]);
  rly := fun _ _ s s' => s' = s;
  blk := fun i o => o = [] /\ wants i;
  gd_read := fun _ _ _ _ _ => False;
  gd_write := fun _ _ _ _ _ => False
|}.

Lemma KC_quiet f : quiet (KC f).
Proof using. split; [|by intros i o s s']. split; cbn; try done; [split; cbn; [done|]|..]; by intros; subst. Qed.

Lemma KS_quiet : quiet KS.
Proof using. split; [|by intros i o s s']. split; cbn; try done; [split; cbn; [done|]|..]; by intros; subst. Qed.
End Contracts.

(** ** The client *)

Section Client.
Context (E : sha_engine) (HE : sha_ok E) (f : list Z) (Hf : f <> []) (Hmax : zlen f <= sha_max_src E)
  (Ht : in_u 32 (total_of E f)).
Notation W := (doca_world (sha_answers E) true (fun _ => false)).
Notation K := (KC E f).
Notation HQ := (KC_quiet E f).
Notation post A := (A -> side dres -> list (list Z) -> list (list Z) -> Prop).
Notation log := (client_log E f).

Lemma client_calm i o : o `prefix_of` log -> calm K i o.
Proof using. by intros Ho s. Qed.

Lemma g_send_parts {A} (Q : post A) n g i o (k : doca_error -> prog dcall A) s :
  o ++ parts n (Z.to_nat (part_size E)) g `prefix_of` log ->
  wp W K (k DOCA_SUCCESS) Q s i (o ++ parts n (Z.to_nat (part_size E)) g) ->
  wp W K (send_parts n (part_size E) g ≫= k) Q s i o.
Proof using HE.
  pose proof (part_size_range E HE) as [Hp _].
  revert g o. induction n as [|n IH]; intros g o Ho Hk; cbn [send_parts parts] in *.
  { by rewrite app_nil_r in Hk. }
  assert (HC : calm K i o) by (apply client_calm; etrans; [by apply prefix_app_r|exact Ho]).
  apply (g_bind _ _ K HQ). apply (g_send _ _ K HQ _ _ HC). cbn [ok negb].
  replace (take (Z.to_nat (Z.min (zlen g) (part_size E))) g) with (take (Z.to_nat (part_size E)) g).
  2: { destruct (Z.le_ge_cases (part_size E) (zlen g)); [by rewrite Z.min_r|]. unfold zlen in *. rewrite !take_ge; [done|lia..]. }
  replace (drop (Z.to_nat (Z.min (zlen g) (part_size E))) g) with (drop (Z.to_nat (part_size E)) g).
  2: { destruct (Z.le_ge_cases (part_size E) (zlen g)); [by rewrite Z.min_r|]. unfold zlen in *. rewrite !drop_ge; [done|lia..]. }
  apply wp_bind_inv; [apply quiet_ok, HQ|]. rewrite (cons_middle _ o), app_assoc in Ho, Hk. by apply IH.
Qed.

Lemma g_send_file {A} (Q : post A) i (k : doca_error -> prog dcall A) s0 m h d :
  wp W K (k DOCA_SUCCESS) Q (Side s0 m h d) i log ->
  wp W K (send_file f ≫= k) Q (Side s0 m h d) i [sha E f].
Proof using HE Hf Ht.
  intros Hk. pose proof (part_size_range E HE) as [Hp _]. pose proof (sha_block_fits _ HE) as Hb.
  pose proof HQ as HQ. assert (HC : calm K i [sha E f]) by (apply client_calm; by eexists).
  g_step. unfold send_file. g_step. intros n bs Hn. change (n = sha_block E) in Hn. subst n.
  destruct (Z.eqb_spec (sha_block E) 0) as [?|_]; [lia|]. fold (part_size E).
  destruct (Z.eqb_spec (part_size E) 0) as [?|_]; [lia|]. fold (total_of E f). rewrite (wrap_id 32) by done.
  assert (HC' : calm K i ([sha E f] ++ [u32_bytes (htonl (total_of E f))])) by (apply client_calm; by eexists).
  g_step. apply bind_ret, g_send_parts; [done|]. cbn [app]. apply (g_ret _ _ K HQ i log); [by apply client_calm|]. exact Hk.
Qed.
(** What a client that has ended with [code] leaves. *)
Definition client_end (code : Z) (s : side dres) (i o : list (list Z)) : Prop :=
  code = EXIT_SUCCESS /\ s = Side (Some f) ∅ [] None /\ i = [finish_text] /\ o = log.

Lemma g_client_send {A} (Q : post A) st a r cb (k : doca_error * work -> prog dcall A) m h d :
  m !! a = Some (sha E f) -> (size m < 1000)%nat ->
  wp W K (k (DOCA_SUCCESS, Work st Obj a (sha_len E) r cb true)) Q (Side (Some f) m (RRunning :: RMapping :: h) d) [finish_text] log ->
  wp W K (client_send f (Work st Obj a (sha_len E) r cb true) ≫= k) Q
    (Side (Some f) m (RRunning :: RBuf DstBuf :: RMapping :: RFile :: h) d) [] [].
Proof using HE Hf Ht.
  intros Ha Hm Hk. pose proof HQ as HQ. assert (HC : calm K [] []) by (apply client_calm; by eexists).
  g_step. unfold client_send. cbn [data_len dst_buffer dst_doca_buf]. do 2 g_step.
  pose proof (sha_len_fits _ HE). eapply g_calloc; [done|done|lia|done|]. intros b Hb _. cbv beta iota.
  assert (a <> b) by (intros ->; congruence).
  eapply (g_load _ _ K HQ [] [] HC); [rewrite lookup_insert_ne by done; exact Ha|by rewrite <- (sha_length _ HE f)|]. cbv beta.
  eapply (g_store _ _ K HQ [] [] HC); [apply lookup_insert_eq| |].
  { apply sha_output_fits, sha_length, HE. }
  cbv beta. rewrite insert_insert_eq. g_step; [eexists; apply lookup_insert_eq|]. rewrite delete_insert_id by done.
  g_step. cbn [app]. assert (HC1 : calm K [] [sha E f]) by (apply client_calm; by eexists).
  apply g_dec_refcount; [done..|]. g_simp. apply g_send_file. g_simp.
  assert (HC2 : calm K [] log) by by apply client_calm. g_step.
  apply (g_recv _ _ K HQ [] log HC2); [done|]. intros msg [_ ->]. split; [done|]. cbv beta iota.
  assert (HC3 : calm K [finish_text] log) by by apply client_calm. g_step. exact Hk.
Qed.

(** All that the client's program does. *)
Lemma client_main_ok b args c : accepted CLIENT args c (Some f) -> b = sha_block E ->
  forall rcv, wp W K (main b rcv CLIENT args) client_end (Side (Some f) ∅ [] None) [] [].
Proof using HE Hf Hmax Ht.
  intros Ha -> rcv. pose proof HQ as HQ. assert (HC : calm K [] []) by (apply client_calm; by eexists).
  eapply g_main; [exact HQ|exact HC|exact Ha|]. unfold file_integrity, with_timeout.
  replace (mode (if timeout c =? 0 then _ else c)) with CLIENT by (destruct Ha as [Hc _];
    pose proof (callbacks_keep_mode _ _ _ _ Hc); by destruct (timeout c =? 0)).
  unfold file_integrity_client. do 2 g_step. g_step. intros n bs Hn. change (n = sha_max_src E) in Hn. subst n.
  replace ((_ <=? 0) || _) with false.
  2: { symmetry. apply orb_false_intro; [apply Z.leb_gt|by apply Z.ltb_ge]. destruct f; [done|cbn; lia]. }
  g_step. intros addr. g_simp. apply g_calculate_sha; [done..|by rewrite map_size_empty; lia|]. intros a _. cbv beta iota. g_simp.
  apply bind_ret, g_client_send; [apply lookup_insert_eq|rewrite map_size_insert_None, map_size_empty by done; lia|].
  assert (HC3 : calm K [finish_text] log) by by apply client_calm. g_step.
  split_and!; [done|done|]. exists (Some f), (sha E f). by split_and!.
Qed.
End Client.

(** ** The server *)

Section Server.
Context (E : sha_engine) (HE : sha_ok E) (old : option (list Z)) (received_msg : Z).
Notation W := (doca_world (sha_answers E) true (fun _ => false)).
Notation K := (KS E).
Notation post A := (A -> side dres -> list (list Z) -> list (list Z) -> Prop).

Lemma server_calm i o : o = [] \/ o = [finish_text] -> calm K i o.
Proof using. by intros Ho s. Qed.

Lemma parts_fit_last n fed m : parts_fit E n (fed ++ [m]) ->
  zlen m <= MAX_MSG_SIZE /\ ((1 < n - length fed)%nat -> zlen m mod sha_block E = 0).
Proof using.
  revert n. induction fed as [|p fed IH]; intros n; cbn [app parts_fit length].
  - intros (? & ? & _). split; [done|]. intros. apply H0. lia.
  - intros (_ & _ & H). apply IH in H as [? H]. split; [done|]. intros. apply H. lia.
Qed.

(** The parts that are still to come, one after the other. *)
Lemma g_receive_parts {A} (Q : post A) st a c dg n fed (k : doca_error * work -> prog dcall A) f m h d :
  Z.of_nat (length fed + S n) = announced c -> (0 < length fed + n)%nat -> (exists x, m !! a = Some x /\ zlen x = sha_len E) ->
  (forall ps, Z.of_nat (length ps) = announced c ->
     wp W K (k (DOCA_SUCCESS, Work st Obj a (sha_len E) None true true)) Q
       (Side (Some (write_at 0 (concat ps) f)) (<[a := sha E (concat ps)]> m) (RRunning :: h) d) (dg :: c :: ps) []) ->
  wp W K (receive_parts (sha_block E) (S n) fed (zlen (concat fed)) (Work st Obj a 0 None true true) ≫= k) Q
    (Side (Some (write_at 0 (concat fed) f)) m (RTask :: RBuf SrcBuf :: RRunning :: h) d) (dg :: c :: fed) [].
Proof using HE.
  intros Hn Hpos (x & Hx & Hlx) Hk. pose proof (KS_quiet E) as HQ. apply (g_bind _ _ K HQ).
  revert fed Hn Hpos. induction n as [|n IH]; intros fed Hn Hpos.
  all: cbn [receive_parts]; assert (HC : calm K (dg :: c :: fed) []) by (by apply server_calm; left).
  all: apply (g_recv _ _ K HQ _ [] HC); [split; [done|]; cbn; lia|]; intros msg Hm; cbn [rm KS app] in Hm.
  all: replace (receivable E (dg :: c :: fed ++ [msg])) with
    (zlen dg <= sha_len E /\ zlen c <= MAX_MSG_SIZE /\ parts_fit E (Z.to_nat (announced c)) (fed ++ [msg])) in Hm by done.
  all: destruct Hm as (_ & _ & Hm); apply parts_fit_last in Hm as [Hlm Hfit]; (split; [done|]).
  all: cbn [app]; assert (HC1 : calm K (dg :: c :: fed ++ [msg]) []) by (by apply server_calm; left).
  all: g_simp; do 3 g_step; unfold zlen at 2; rewrite Z.eqb_refl; g_simp; g_step.
  all: replace (write_at _ msg _) with (write_at 0 (concat (fed ++ [msg])) f)
    by (unfold zlen; rewrite Nat2Z.id, write_at_app, concat_app; cbn [concat]; by rewrite app_nil_r).
  - g_step. g_step. unfold run_partial_task. destruct fed as [|p fed]; [cbn in Hpos; lia|]. cbn [feed_ok negb].
    g_step. intros n digest ->. g_simp.
    eapply (g_sha_result E _ K HQ _ [] HC1); [exact Hx|apply (sha_length _ HE)|done|]. g_step. g_simp.
    unfold partial_free_task, partial_destroy_src_buf. g_step. eapply (g_dec_refcount E _ K HQ _ [] HC1); [done|]. g_simp. g_step.
    apply Hk. rewrite <- Hn. rewrite length_app. cbn. lia.
  - g_step. g_step. unfold run_partial_task. cbn [feed_ok].
    rewrite (proj2 (Z.eqb_eq _ _)) by (apply Hfit; lia). cbn [negb]. g_step. intros n0 digest _. g_simp. g_step. g_step. g_simp.
    replace (zlen (concat fed) + zlen msg) with (zlen (concat (fed ++ [msg])))
      by (unfold zlen; rewrite concat_app, length_app; cbn [concat]; rewrite app_nil_r; lia).
    apply (IH (fed ++ [msg])); rewrite length_app; cbn [length]; lia.
Qed.
(** The work the server has done when the digest is in its buffer. *)
Definition hashed (st : core) (a : Z) (range : option src_range) : work := Work st Obj a (sha_len E) range true true.

Lemma g_server_file {A} (Q : post A) st c dg (k : doca_error * work -> prog dcall A) f m h d :
  1 <= announced c -> (size m < 1000)%nat ->
  (forall a range ps, m !! a = None -> range <> Some FileMapping -> Z.of_nat (length ps) = announced c ->
     wp W K (k (DOCA_SUCCESS, hashed st a range)) Q
       (Side (Some (write_at 0 (concat ps) f)) (<[a := sha E (concat ps)]> m) (RRunning :: RBuf DstBuf :: h) d) (dg :: c :: ps) []) ->
  wp W K (server_file (sha_block E) received_msg (announced c) (Work st Null 0 0 None false false) ≫= k) Q
    (Side (Some f) m h d) [dg; c] [].
Proof using HE.
  intros Hc Hm Hk. pose proof (KS_quiet E) as HQ. assert (HC : calm K [dg; c] []) by (by apply server_calm; left).
  g_step. unfold server_file. destruct (Z.eqb_spec (announced c) 1) as [H1|H1].
  - apply (g_recv _ _ K HQ _ [] HC); [split; [done|]; cbn; lia|]. intros msg Hmsg. cbn [rm KS app receivable parts_fit] in Hmsg.
    split; [by destruct Hmsg as (_ & _ & ? & _)|]. cbn [app].
    assert (HC1 : calm K [dg; c; msg] []) by (by apply server_calm; left). cbv beta iota. g_simp.
    g_step. unfold zlen at 1. rewrite Z.eqb_refl. g_simp.
    apply bind_ret. apply g_calculate_sha; [done..|]. intros a Ha. cbv beta iota. g_step.
    specialize (Hk a (Some StackBuffer) [msg] Ha). cbn [concat] in Hk. rewrite app_nil_r in Hk. apply Hk; [done|].
    cbn. by rewrite H1.
  - unfold receive_and_calculate_partial_sha. g_step. intros n bs Hn. change (n = sha_max_src E) in Hn. subst n.
    rewrite (proj2 (Z.ltb_ge _ _)) by (apply sha_max_fits, HE).
    apply g_populate; [done..|]. intros a Ha _. cbv beta iota. g_simp. do 6 g_step.
    destruct (Z.to_nat (announced c)) as [|[|n]] eqn:En; [lia..|].
    apply bind_ret. change 0 with (zlen (concat [])). rewrite <- (write_at_nil f) at 1.
    apply (g_receive_parts _ _ _ _ _ _ []); [cbn; lia|cbn; lia|eexists; split; [apply lookup_insert_eq|by apply zlen_zeros]|].
    intros ps Hps. rewrite insert_insert_eq. assert (HC1 : calm K (dg :: c :: ps) []) by (by apply server_calm; left). g_step.
    by apply (Hk a None ps).
Qed.

Lemma g_server_compare {A} (Q : post A) st a range rs x y i (k : doca_error * work -> prog dcall A) f m h d :
  m !! a = Some x -> m !! rs = Some y -> zlen x = sha_len E -> zlen y = sha_len E -> (size m < 1000)%nat ->
  wp W K (k (DOCA_SUCCESS, hashed st a range)) Q (Side (if decide (x = y) then f else None) m (RRunning :: h) d) i [] ->
  wp W K (server_compare rs (hashed st a range) ≫= k) Q (Side f m (RRunning :: RBuf DstBuf :: h) d) i [].
Proof using HE.
  intros Hx Hy Hlx Hly Hm Hk. pose proof (KS_quiet E) as HQ. assert (HC : calm K i []) by (by apply server_calm; left).
  pose proof (sha_len_fits _ HE). g_step. unfold server_compare, hashed. cbn [data_len dst_buffer dst_doca_buf]. do 2 g_step.
  eapply g_calloc; [done|done|lia|done|]. intros b Hb _. cbv beta iota.
  assert (a <> b) by (intros ->; congruence). assert (rs <> b) by (intros ->; congruence).
  eapply (g_load _ _ K HQ i [] HC); [by rewrite lookup_insert_ne|done|]. cbv beta.
  eapply (g_store _ _ K HQ i [] HC); [apply lookup_insert_eq|by apply sha_output_fits|].
  cbv beta. rewrite insert_insert_eq. g_step; [eexists; apply lookup_insert_eq|]. rewrite delete_insert_id by done.
  eapply (g_load _ _ K HQ i [] HC); [exact Hy|done|]. cbv beta.
  destruct (decide (x = y)); [g_step|do 3 g_step]; (apply g_dec_refcount; [done..|]); g_simp; by g_step.
Qed.
Lemma g_server_receive {A} (Q : post A) st rs (k : doca_error * work -> prog dcall A) h d :
  (forall e w f x y i, state w = st -> (ok e, f) = server_outcome E old i -> ~ wants i -> run_mem w x !! rs = None ->
     wp W K (k (e, w)) Q (Side f (<[rs := y]> (run_mem w x)) (run_res w ++ h) d) i []) ->
  wp W K (server_receive (sha_block E) received_msg rs (Work st Null 0 0 None false false) ≫= k) Q
    (Side old {[rs := replicate (Z.to_nat (sha_len E)) 0]} h d) [] [].
Proof using HE.
  intros Hk. pose proof (KS_quiet E) as HQ. pose proof (sha_len_fits _ HE).
  assert (HC : forall i, calm K i []) by (intros i; by apply server_calm; left).
  pose proof (HC []) as HC0. g_step. unfold server_receive.
  apply (g_recv _ _ K HQ _ [] HC0); [done|]. intros dg Hdg. cbn [rm KS app receivable] in Hdg. split; [unfold zlen in *; lia|]. cbv beta iota. g_simp.
  pose proof (HC [dg]) as HC1. cbn [app].
  eapply (g_store _ _ K HQ _ [] HC1); [apply lookup_singleton_eq|rewrite length_replicate; unfold zlen in *; lia|].
  cbv beta. rewrite insert_singleton_eq. fold (padded E dg).
  apply (g_recv _ _ K HQ _ [] HC1); [done|]. intros c Hc. cbn [rm KS app receivable parts_fit] in Hc.
  split; [by destruct Hc as (_ & ? & _)|]. cbv beta iota. g_simp. cbn [app]. pose proof (HC [dg; c]) as HC2.
  assert (Hearly : forall e, (ok e, old) = server_outcome E old [dg; c] -> announced c < 1 ->
    wp W K (k (e, Work st Null 0 0 None false false)) Q (Side old {[rs := padded E dg]} h d) [dg; c] []).
  { intros e He Ha. rewrite <- insert_empty.
    refine (Hk e (Work st Null 0 0 None false false) old [] (padded E dg) [dg; c] eq_refl He _ _); [cbn; lia|done]. }
  destruct (zlen c =? 4) eqn:H4; cbn [negb].
  2: { g_step. apply Hearly; [cbn; by rewrite H4|]. unfold announced. rewrite H4. lia. }
  replace (ntohl (bytes_u32 c)) with (announced c) by (unfold announced; by rewrite H4).
  destruct (Z.ltb_spec (announced c) 1) as [Ha|Ha].
  { g_step. apply Hearly; [|done]. cbn. rewrite H4. by rewrite (proj2 (Z.ltb_lt _ _) Ha). }
  g_step. apply g_server_file; [done|by rewrite map_size_singleton; lia|]. intros a range ps Hfresh Hrange Hps. cbv beta iota.
  assert (a <> rs) as Hars by (intros ->; by rewrite lookup_singleton_eq in Hfresh).
  pose proof (HC (dg :: c :: ps)) as HC3. g_step. apply bind_ret.
  eapply (g_server_compare _ _ _ _ rs (sha E (concat ps)) (padded E dg));
    [apply lookup_insert_eq|by rewrite lookup_insert_ne, lookup_singleton_eq|apply sha_length, HE| | |].
  - unfold padded, overwrite, zlen in *. rewrite length_app, length_drop, length_replicate. lia.
  - rewrite map_size_insert_None, map_size_singleton; [lia|]. by rewrite lookup_singleton_ne.
  - g_step. rewrite <- (insert_empty rs), insert_insert_ne, insert_empty by done.
    assert (Hw : run_res (hashed st a range) = [RRunning]) by (unfold run_res, hashed; cbn; by destruct range as [[]|]).
    specialize (Hk DOCA_SUCCESS (hashed st a range)). rewrite Hw in Hk.
    refine (Hk _ (sha E (concat ps)) (padded E dg) (dg :: c :: ps) eq_refl _ _ _).
    + cbn [server_outcome]. rewrite H4, (proj2 (Z.ltb_ge _ _)) by done. cbn [negb ok]. by case_decide.
    + cbn [wants]. lia.
    + unfold run_mem, hashed. cbn [dst_cb dst_buffer]. by rewrite lookup_singleton_ne.
Qed.

(** What a server that has ended with [code] leaves. *)
Definition server_end (code : Z) (s : side dres) (i o : list (list Z)) : Prop :=
  (code =? EXIT_SUCCESS, fs s) = server_outcome E old i /\ mem s = ∅ /\ held s = [] /\ o = [finish_text] /\ ~ wants i.

(** All that the server's program does. *)
Lemma server_main_ok args c : accepted SERVER args c old -> timeout (with_timeout c) * 1000 * 1000 < 2 ^ 31 ->
  wp W K (main (sha_block E) received_msg SERVER args) server_end (Side old ∅ [] None) [] [].
Proof using HE.
  intros Ha Ht. pose proof (KS_quiet E) as HQ. pose proof (sha_len_fits _ HE).
  assert (HC : calm K [] []) by (by apply server_calm; left).
  eapply g_main; [exact HQ|exact HC|exact Ha|]. unfold file_integrity.
  replace (mode (with_timeout c)) with SERVER by (destruct Ha as [Hc _]; unfold with_timeout;
    pose proof (callbacks_keep_mode _ _ _ _ Hc); by destruct (timeout c =? 0)).
  unfold file_integrity_server, num_of_iterations. rewrite decide_True by done. g_step.
  g_step. intros n bs Hn. change (n = sha_len E) in Hn. subst n. g_step. intros n bs' _. g_simp.
  apply g_calloc; [done|done|lia|by rewrite map_size_empty; lia|]. intros rs Hrs _. cbv beta iota.
  rewrite insert_empty. apply g_server_receive. intros e w f x y i Hst Hout Hw Hfresh. cbv beta iota.
  assert (HC1 : calm K i []) by (by apply server_calm; left). g_step. cbn [app].
  assert (HC2 : calm K i [finish_text]) by (by apply server_calm; right).
  g_step; [eexists; apply lookup_insert_eq|]. rewrite delete_insert_id by done. g_step.
  split_and!; [done|done|]. exists f, x. split; [done|]. split_and!; try done. cbn [fs]. rewrite <- Hout. by destruct (ok e).
Qed.
End Server.
