(* ===== verification/FileIntegrityTheorems.v ===== *)
(** * File integrity: what the programs achieve

    The server with any client ([server_with_any_client]); the client and the
    server together ([file_integrity_equiv]); and what happens when a message
    does not come in time ([timeout_undefined]) or the digest is longer than the
    buffer for it ([overflow_undefined]). *)

From stdpp Require Import gmap relations.
From S2P Require Import Prelude CString Pack Proc ProcSpec DocaCommon DocaSpec FileIntegrity FileIntegritySpec FileIntegritySides.
#[local] Open Scope Z_scope.

(** A machine whose libraries do what they are asked, or any machine. *)
Definition machine (E : sha_engine) (good : bool) : world dcall dres := doca_world (sha_answers E) good (fun _ => false).

(** ** The messages of the client are receivable *)

Lemma parts_fit_app E n ps qs : parts_fit E n (ps ++ qs) -> parts_fit E n ps.
Proof. revert n. induction ps as [|p ps IH]; intros n; [done|]. cbn. intros (? & ? & ?). split_and!; eauto. Qed.

Lemma receivable_app E i j : receivable E (i ++ j) -> receivable E i.
Proof.
  destruct i as [|d [|c ps]]; [done| |].
  - destruct j; cbn; naive_solver.
  - cbn [app]. intros (? & ? & H). cbn. split_and!; [done|done|]. by eapply parts_fit_app.
Qed.

Section Log.
Context (E : sha_engine) (HE : sha_ok E) (f : list Z) (Hf : f <> []) (Ht : in_u 32 (total_of E f)).
Notation log := (client_log E f).

Lemma log_receivable : receivable E log.
Proof using HE Hf Ht.
  unfold client_log. cbn [receivable]. split_and!; [by rewrite (sha_length _ HE)|done|].
  rewrite announced_total by done. apply parts_are_fit; [done| |].
  - pose proof (part_size_range E HE) as [? _]. lia.
  - pose proof (total_range E HE f Hf). pose proof (part_size_range E HE) as [? _]. unfold total_of in *.
    assert (Hd : (zlen f - 1) / part_size E * part_size E <= zlen f - 1) by (rewrite Z.mul_comm; apply Z.mul_div_le; lia).
    apply Nat2Z.inj_le. rewrite Nat2Z.inj_mul, Nat2Z.inj_sub, !Z2Nat.id by lia. unfold zlen in *. nia.
Qed.

Lemma log_complete i : i `prefix_of` log -> ~ wants i -> i = log.
Proof using Ht.
  intros Hp Hw. destruct i as [|d [|c ps]]; [by destruct Hw|by destruct Hw|].
  destruct Hp as [x Hx]. unfold client_log in *. cbn [app] in Hx. injection Hx as <- <- Hx.
  cbn [wants] in Hw. rewrite announced_total in Hw by done.
  pose proof (f_equal length Hx) as Hl. rewrite length_parts, length_app in Hl.
  destruct x; [by rewrite Hx, app_nil_r|cbn in Hl; lia].
Qed.

Lemma log_wants : ~ wants log.
Proof using Ht. unfold client_log. cbn [wants]. rewrite announced_total, length_parts by done. lia. Qed.

Lemma log_outcome old : server_outcome E old log = (true, Some (f ++ drop (length f) (default [] old))).
Proof using HE Hf Ht.
  unfold client_log. cbn [server_outcome].
  assert (zlen (u32_bytes (htonl (total_of E f))) =? 4 = true) as ->
    by (unfold u32_bytes, zlen; by rewrite length_rev, length_be_bytes).
  rewrite announced_total by done. pose proof (total_range E HE f Hf). rewrite (proj2 (Z.ltb_ge _ _)) by done. cbn [negb].
  by rewrite whole_parts, padded_full, decide_True, write_at_0 by (done || apply (sha_length _ HE)).
Qed.
End Log.

(** ** The pair *)

(** The two programs at their start: the client with the file [f], the server
    with [old] or none. *)
Definition start (b rc rs : Z) (cargs sargs : list arg) (f : list Z) (old : option (list Z)) : sys dcall dres Z Z :=
  Sys (main b rc CLIENT cargs) (Side (Some f) ∅ [] None) (main b rs SERVER sargs) (Side old ∅ [] None) [] [].

(** How a run ended: which sides succeeded, their files, and whether both gave
    back their memory and all they held. *)
Definition outcome (y : sys dcall dres Z Z) : option (bool * bool * option (list Z) * option (list Z) * bool) :=
  match hp y, dp y with
  | Ret a, Ret b => Some (a =? EXIT_SUCCESS, b =? EXIT_SUCCESS, fs (hs y), fs (ds y),
      bool_decide (mem (hs y) = ∅ /\ held (hs y) = [] /\ mem (ds y) = ∅ /\ held (ds y) = []))
  | _, _ => None
  end.

Section Pair.
Context (E : sha_engine) (HE : sha_ok E) (f : list Z) (Hf : f <> []) (Hmax : zlen f <= sha_max_src E)
  (Ht : in_u 32 (total_of E f)) (old : option (list Z)).
Notation W := (machine E true).
Notation KC := (KC E f).
Notation KS := (KS E).

Lemma file_world_ok : world_ok W.
Proof using.
  intros c. exists DOCA_SUCCESS.
  assert (Ho : exists n b, outs W c n b).
  { destruct c; try (exists 1, []; cbn; lia || done).
    - by exists (sha_len E), [].
    - by exists (sha_block E), [].
    - by exists (sha_max_src E), [].
    - by exists 0, (sha E data).
    - exists 0, (sha E (concat chunks)). by destruct final. }
  destruct Ho as (n & b & Ho). exists n, b. split; [by left|done].
Qed.

Lemma logs_fit : compat KC KS.
Proof using HE Hf Ht.
  split; cbn; try done.
  - intros sh iH oH sd iD oD td m th (_ & Ho & _ & E2 & _). cbn in Ho.
    destruct Ho as [-> | ->]; [by destruct iH|]. destruct iH as [|x iH]; [split; [done|cbn [app] in E2; congruence]|].
    exfalso. apply (f_equal length) in E2. cbn in E2. rewrite length_app in E2. cbn in E2. lia.
  - intros sh iH oH sd iD oD td m th (Hp & _ & E1 & _ & _). cbn in Hp. rewrite E1 in Hp. destruct Hp as [x Hx].
    apply (receivable_app E _ (td ++ x)). replace ((iD ++ [m]) ++ td ++ x) with (client_log E f); [by apply log_receivable|].
    rewrite Hx, <- !app_assoc. done.
Qed.

Notation QC := (client_end E f).
Notation QS := (server_end E old).

Lemma no_waiting : no_deadlock KC KS QC QS.
Proof using Ht.
  split; cbn.
  - intros sh iH oH sd iD oD (_ & _ & E1 & _) [_ ->] [_ Hw]. rewrite app_nil_r in E1. subst iD. by apply log_wants in Hw.
  - intros b sh iH oH sd iD oD td (_ & _ & _ & E2 & _) [-> _] (_ & _ & _ & -> & _). discriminate E2.
  - intros a sh iH oH sd iD oD th (_ & _ & E1 & _) (_ & _ & _ & ->) [_ Hw]. rewrite app_nil_r in E1. subst iD.
    by apply log_wants in Hw.
  - intros sh iH oH. by split; intros ? ? [].
Qed.

Lemma done_outcome y : pair_ok W KC KS QC QS y -> both_done y ->
  outcome y = Some (true, true, Some f, Some (f ++ drop (length f) (default [] old)), true).
Proof using HE Hf Ht.
  intros (iH & oH & iD & oD & HH & HD & E1 & E2 & _) (a & b & Ha & Hb). rewrite Ha in HH. rewrite Hb in HD.
  apply wp_ret_inv in HH as [_ (-> & Hs & _ & ->)]; [|apply quiet_ok, KC_quiet].
  apply wp_ret_inv in HD as [_ (Hout & Hm & Hh & _ & Hw)]; [|apply quiet_ok, KS_quiet].
  assert (iD = client_log E f) as -> by (apply (log_complete E f Ht); [by exists (to_dpu y)|done]).
  rewrite log_outcome in Hout by done. injection Hout as Hb' Hfs. unfold outcome. rewrite Ha, Hb, Hs, Hm, Hh, Hfs, Hb'.
  cbn [fs mem held]. by rewrite bool_decide_eq_true_2.
Qed.
End Pair.

(** ** One side *)

Lemma received_app (l1 l2 : list label) : received (l1 ++ l2) = received l1 ++ received l2.
Proof. unfold received. apply flat_map_app. Qed.

Lemma server_steps E old rcv args c ls p s : sha_ok E -> accepted SERVER args c old ->
  timeout (with_timeout c) * 1000 * 1000 < 2 ^ 31 ->
  steps (machine E true) (main (sha_block E) rcv SERVER args) (Side old ∅ [] None) ls p s -> receivable E (received ls) ->
  wp (machine E true) (KS E) p (server_end E old) s (received ls) (transmitted ls).
Proof.
  intros HE Ha Ht Hs Hr.
  refine (wp_steps _ _ _ _ _ _ _ ls [] [] (quiet_ok _ (KS_quiet E)) _ _ Hs _); [by intros ? ? ? ? ? []|by eapply server_main_ok|].
  intros ls1 m ls2 ->. cbn. apply (receivable_app E _ (received ls2)). rewrite <- app_assoc. by rewrite received_app in Hr.
Qed.

(** ** What can go wrong *)

(** A server that has opened its file and does not get the next message in time
    passes NULL to doca_buf_dec_refcount. *)
Lemma timeout_undefined E b rcv rs st h : exists ls s',
  steps (machine E false) (server_receive b rcv rs (Work st Null 0 0 None false false)) (Side None {[rs := [0]]} (RFile :: h) None)
    ls Undef s' /\ received ls = [[]; u32_bytes (htonl 1)].
Proof.
  eexists [In []; Tau; In (u32_bytes (htonl 1)); Tau; Tau; Tau], _. split; [|done].
  eapply steps_cons. { split; [done|]. left. exists []. by split_and!. }
  eapply steps_cons. { cbn. split; [done|]. exists [0]. split_and!; [apply lookup_singleton_eq|cbn; lia|done..]. }
  eapply steps_cons. { split; [done|]. left. exists (u32_bytes (htonl 1)). by split_and!. }
  eapply steps_cons. { split; [done|]. left. by split_and!. }
  eapply steps_cons. { split; [done|]. right. split; [done|]. exists DOCA_ERROR_AGAIN. split; [split; [done|discriminate]|reflexivity]. }
  eapply steps_cons. { split; [done|]. split; [done|]. exists DOCA_SUCCESS, 0, []. split_and!; [by left; left|done..]. }
  apply steps_nil.
Qed.

(** A digest that is longer than the server's buffer is copied over its end. *)
Lemma overflow_undefined E b rcv rs w h d : sha_ok E -> zlen d <= MAX_MSG_SIZE -> sha_len E < zlen d -> exists p s',
  steps (machine E true) (server_receive b rcv rs w) (Side None {[rs := replicate (Z.to_nat (sha_len E)) 0]} h None)
    [In d] p s' /\ ~ proceeds (machine E true) p s'.
Proof.
  intros HE Hm Hl. pose proof (sha_len_fits _ HE). do 2 eexists. split.
  - eapply steps_cons; [|apply steps_nil]. split; [done|]. left. exists d. by split_and!.
  - intros [[a [=]]|[(cap & k & [=])|(l & p' & s' & _ & c & Hc & Hle & _)]].
    cbn [mem] in Hc. rewrite lookup_singleton_eq in Hc. injection Hc as <-. rewrite length_replicate in Hle. unfold zlen in *. lia.
Qed.

(** ** Properties *)

(** C11: a file is transferred and verified.  When the libraries do what they are
    asked and no message is waited for in vain, the client has a file that is not
    empty and that the SHA engine takes, and both command lines are accepted, then
    every run of the two programs, in any interleaving, is finite, gets stuck
    nowhere, and ends with success on both sides; the client has its file; the
    server's file starts with it and goes on with what the server's own file held
    beyond that length (the file is not truncated); and both have given back
    everything.  (Runs in which a wait times out are not among them:
    [timeout_undefined].) *)
Theorem file_integrity_equiv E f old rc rs cargs sargs c c' :
  sha_ok E -> f <> [] -> zlen f <= sha_max_src E -> in_u 32 (total_of E f) ->
  accepted CLIENT cargs c (Some f) -> accepted SERVER sargs c' old -> timeout (with_timeout c') * 1000 * 1000 < 2 ^ 31 ->
  always_ends (machine E true)
    (fun y => outcome y = Some (true, true, Some f, Some (f ++ drop (length f) (default [] old)), true))
    (start (sha_block E) rc rs cargs sargs f old).
Proof.
  intros HE Hf Hmax Ht Hc Hs Hto.
  eapply (pair_ends (machine E true) (KC E f) (KS E)); [apply quiet_ok, KC_quiet|apply quiet_ok, KS_quiet|by apply logs_fit|
    by apply file_world_ok|done|by apply (no_waiting E f Ht old)|intros y Hy Hd; by apply (done_outcome E HE f)|].
  exists [], [], [], []. split_and!; [by eapply client_main_ok|by eapply server_main_ok|done..].
Qed.

(** C12: what a server does with the messages of any client, as long as they fit
    its buffers ([receivable]: a longer digest overflows the heap,
    [overflow_undefined]), each comes before the wait for it times out (otherwise
    [timeout_undefined]) and the libraries do what they are asked: it does nothing
    undefined (it has ended, waits for a message, or what it does next can be
    done), and when it ends it has answered once, holds nothing, and its exit
    code and file are those of [server_outcome]: it succeeds, and the file stays,
    only if the digest of all the parts is the digest it received first (or the
    number of parts did not come in four bytes, and nothing was done). *)
Theorem file_integrity_server E old rcv args c ls p s :
  sha_ok E -> accepted SERVER args c old -> timeout (with_timeout c) * 1000 * 1000 < 2 ^ 31 ->
  steps (machine E true) (main (sha_block E) rcv SERVER args) (Side old ∅ [] None) ls p s -> receivable E (received ls) ->
  proceeds (machine E true) p s /\
  forall code, p = Ret code ->
    (code =? EXIT_SUCCESS, fs s) = server_outcome E old (received ls) /\ transmitted ls = [finish_text] /\
    mem s = ∅ /\ held s = [].
Proof.
  intros HE Ha Ht Hs Hr. pose proof (server_steps _ _ _ _ _ _ _ _ HE Ha Ht Hs Hr) as Hw. split.
  - eapply (wp_proceeds _ (KS E)); [apply quiet_ok, KS_quiet|by apply file_world_ok|exact Hw].
  - intros code ->. apply wp_ret_inv in Hw as [_ (? & ? & ? & ? & _)]; [done|apply quiet_ok, KS_quiet].
Qed.

(** ** Witnesses *)

(** An engine with a digest of two bytes. *)
Definition toy : sha_engine := Sha (fun data => take 2 (data ++ [0; 0])) 2 64 8192.
Lemma toy_ok : sha_ok toy.
Proof.
  split; [|vm_compute; split; congruence|vm_compute; split; congruence|vm_compute; congruence].
  intros data. unfold zlen, toy. cbn [sha sha_len]. rewrite length_take, length_app. cbn [length]. rewrite Nat.min_l by lia. reflexivity.
Qed.
Definition toy_args : list arg := [ArgRep (str "3b:00.0")].
Definition toy_cfg : file_integrity_config := Cfg SERVER [] [] (str "3b:00.0") 0.

Lemma file_integrity_equiv_witness :
  always_ends (machine toy true)
    (fun y => outcome y = Some (true, true, Some [7; 8], Some [7; 8; 3], true))
    (start 64 0 0 [] toy_args [7; 8] (Some [1; 2; 3])).
Proof.
  refine (file_integrity_equiv toy [7; 8] (Some [1; 2; 3]) 0 0 [] toy_args (Cfg CLIENT [] [] [] 0) toy_cfg toy_ok _ _ _ _ _ _).
  - discriminate.
  - vm_compute. congruence.
  - vm_compute. split; congruence.
  - split; [reflexivity|]. by eexists.
  - split; [reflexivity|]. discriminate.
  - reflexivity.
Defined.

Lemma file_integrity_server_witness : exists ls code s,
  steps (machine toy true) (main 64 0 SERVER toy_args) (Side None ∅ [] None) ls (Ret code) s /\
  (code =? EXIT_SUCCESS, fs s) = server_outcome toy None (received ls) /\ held s = [].
Proof.
  assert (Ha : accepted SERVER toy_args toy_cfg None) by (split; [reflexivity|discriminate]).
  assert (Ht : in_u 32 (total_of toy [7; 8])) by (vm_compute; split; congruence).
  assert (Hlog : receivable toy (client_log toy [7; 8])) by (apply log_receivable; [apply toy_ok|discriminate|exact Ht]).
  destruct (wp_runs (machine toy true) (KS toy) (main 64 0 SERVER toy_args) (server_end toy None) (Side None ∅ [] None) [] []
    (client_log toy [7; 8])) as (ls & code & s & rest & Hs & Hrest).
  - apply quiet_ok, KS_quiet.
  - by intros ? ? ? ? ? [].
  - by intros ? ? ? ? ? [].
  - apply (file_world_ok toy).
  - reflexivity.
  - by apply (server_main_ok toy toy_ok None 0 toy_args toy_cfg).
  - intros ms1 m ms2 o' E. cbn. apply (receivable_app toy _ ms2). rewrite <- app_assoc. cbn. by rewrite <- E.
  - intros o' [_ Hw]. by apply (log_wants toy [7; 8] Ht) in Hw.
  - exists ls, code, s. split; [exact Hs|]. rewrite Hrest in Hlog. apply receivable_app in Hlog.
    destruct (file_integrity_server toy None 0 toy_args toy_cfg ls (Ret code) s toy_ok Ha eq_refl Hs Hlog) as [_ Hret].
    destruct (Hret code eq_refl) as (Hout & _ & _ & Hh). split; [exact Hout|exact Hh].
Defined.
