(* ===== verification/AllreduceReducer.v ===== *)
(** * Reduction of vectors (allreduce)

    applications/allreduce/src/allreduce_reducer.c, the version for the CPU:
    element-wise summation and product of vectors of bytes, ints, floats and
    doubles.  A byte wraps around; the overflow of an int is undefined; floats
    and doubles are the binary32 and binary64 numbers of IEEE 754, rounded to
    nearest, with one NaN.

    A vector is the list of its elements, read and written from its start;
    reading or writing past its end is undefined. *)

From Stdlib Require Import SpecFloat.
From stdpp Require Import list.
From S2P Require Import Prelude.
#[local] Open Scope Z_scope.

(** ** Elements *)

Inductive allreduce_datatype := ALLREDUCE_BYTE | ALLREDUCE_INT | ALLREDUCE_FLOAT | ALLREDUCE_DOUBLE.
Inductive allreduce_operation := ALLREDUCE_SUM | ALLREDUCE_PROD.

#[global] Instance datatype_eq_dec : EqDecision allreduce_datatype.
Proof. solve_decision. Defined.
#[global] Instance operation_eq_dec : EqDecision allreduce_operation.
Proof. solve_decision. Defined.

Definition element (dt : allreduce_datatype) : Type :=
  match dt with ALLREDUCE_BYTE | ALLREDUCE_INT => Z | ALLREDUCE_FLOAT | ALLREDUCE_DOUBLE => spec_float end.

Definition allreduce_datatype_size (dt : allreduce_datatype) : Z :=
  match dt with ALLREDUCE_BYTE => 1 | ALLREDUCE_INT => 4 | ALLREDUCE_FLOAT => 4 | ALLREDUCE_DOUBLE => 8 end.

(** The result of an int operation, undefined when it is out of range. *)
Definition int_result (x : Z) : option Z := if (- 2 ^ 31 <=? x) && (x <? 2 ^ 31) then Some x else None.

(** The bodies of the loops of [summation] and [product]. *)
Definition elem_add (dt : allreduce_datatype) : element dt -> element dt -> option (element dt) :=
  match dt with
  | ALLREDUCE_BYTE => fun a b => Some (u8 (a + b))
  | ALLREDUCE_INT => fun a b => int_result (a + b)
  | ALLREDUCE_FLOAT => fun a b => Some (SFadd 24 128 a b)
  | ALLREDUCE_DOUBLE => fun a b => Some (SFadd 53 1024 a b)
  end.

Definition elem_mul (dt : allreduce_datatype) : element dt -> element dt -> option (element dt) :=
  match dt with
  | ALLREDUCE_BYTE => fun a b => Some (u8 (a * b))
  | ALLREDUCE_INT => fun a b => int_result (a * b)
  | ALLREDUCE_FLOAT => fun a b => Some (SFmul 24 128 a b)
  | ALLREDUCE_DOUBLE => fun a b => Some (SFmul 53 1024 a b)
  end.

(** ** Vectors *)

(** [for (i = 0; i < length; ++i) dst[i] = f(dst[i], src[i])] *)
Fixpoint for_elements {A} (f : A -> A -> option A) (length : nat) (dst src : list A) : option (list A) :=
  match length with
  | O => Some dst
  | S length' =>
      match dst, src with
      | d :: dst', s :: src' => x ← f d s; rest ← for_elements f length' dst' src'; Some (x :: rest)
      | _, _ => None
      end
  end.

Definition summation (dt : allreduce_datatype) (dst src : list (element dt)) (length : nat) : option (list (element dt)) :=
  for_elements (elem_add dt) length dst src.

Definition product (dt : allreduce_datatype) (dst src : list (element dt)) (length : nat) : option (list (element dt)) :=
  for_elements (elem_mul dt) length dst src.

(** What allreduce_reduce does to the destination; the vectors are not touched
    when there is no element. *)
Definition reduce_vectors (op : allreduce_operation) (dt : allreduce_datatype) (length : nat)
    (dst src : list (element dt)) : option (list (element dt)) :=
  match op with
  | ALLREDUCE_SUM => summation dt dst src length
  | ALLREDUCE_PROD => product dt dst src length
  end.

Definition elem_op (op : allreduce_operation) (dt : allreduce_datatype) : element dt -> element dt -> option (element dt) :=
  match op with ALLREDUCE_SUM => elem_add dt | ALLREDUCE_PROD => elem_mul dt end.

Lemma reduce_vectors_elem op dt n dst src : reduce_vectors op dt n dst src = for_elements (elem_op op dt) n dst src.
Proof. by destruct op. Qed.

(** ** What the loops compute *)

Section Elements.
Context {A : Type} (f : A -> A -> option A).

Lemma for_elements_inv n dst src r :
  for_elements f n dst src = Some r ->
  (n <= length dst)%nat /\ (n <= length src)%nat /\ length r = length dst /\ drop n r = drop n dst /\
  forall i a b, (i < n)%nat -> dst !! i = Some a -> src !! i = Some b -> r !! i = f a b.
Proof.
  revert dst src r. induction n as [|n IH]; intros dst src r E; cbn in E.
  { injection E as <-. repeat split; lia. }
  destruct dst as [|d dst], src as [|s src]; try done.
  destruct (f d s) as [x|] eqn:Hf; [|done]. cbn in E.
  destruct (for_elements f n dst src) as [rest|] eqn:Hr; [|done]. injection E as <-.
  destruct (IH _ _ _ Hr) as (? & ? & ? & ? & Hi). cbn [length drop]. repeat split; [lia..|done|].
  intros [|i] a b Hlt; cbn; [congruence|]. apply Hi. lia.
Qed.

Lemma for_elements_total n dst src :
  (forall a b, a ∈ dst -> b ∈ src -> is_Some (f a b)) ->
  (n <= length dst)%nat -> (n <= length src)%nat -> is_Some (for_elements f n dst src).
Proof.
  revert dst src. induction n as [|n IH]; intros dst src Hf Hd Hs; [by eexists|].
  destruct dst as [|d dst], src as [|s src]; cbn in Hd, Hs; try lia. cbn [for_elements].
  destruct (Hf d s) as [x ->]; [by left|by left|]. cbn.
  destruct (IH dst src) as [rest ->]; [|lia|lia|by eexists].
  intros a b Ha Hb. apply Hf; by right.
Qed.

(** On vectors of equal length, the loop over all elements. *)
Lemma for_elements_nil dst src : for_elements f 0 dst src = Some dst.
Proof. done. Qed.
End Elements.

(** ** Sequences of reductions *)

Section Sequences.
Context (op : allreduce_operation) (dt : allreduce_datatype).
Notation vector := (list (element dt)).

(** The vectors of [l] are reduced into [acc], one after the other. *)
Fixpoint reduce_list (n : nat) (acc : vector) (l : list vector) : option vector :=
  match l with
  | [] => Some acc
  | v :: l' => acc' ← reduce_vectors op dt n acc v; reduce_list n acc' l'
  end.

Lemma elem_op_total a b : dt <> ALLREDUCE_INT -> is_Some (elem_op op dt a b).
Proof. destruct op, dt; try done; by eexists. Qed.

Lemma reduce_total n dst src :
  dt <> ALLREDUCE_INT -> (n <= length dst)%nat -> (n <= length src)%nat ->
  exists r, reduce_vectors op dt n dst src = Some r /\ length r = length dst.
Proof.
  intros Hdt Hd Hs. rewrite reduce_vectors_elem.
  destruct (for_elements_total (elem_op op dt) n dst src) as [r Hr]; [|done..|].
  - intros a b _ _. by apply elem_op_total.
  - exists r. split; [done|]. by apply for_elements_inv in Hr as (_ & _ & Hl & _).
Qed.

Lemma reduce_list_total n acc l :
  dt <> ALLREDUCE_INT -> (n <= length acc)%nat -> Forall (fun v : vector => (n <= length v)%nat) l ->
  exists r, reduce_list n acc l = Some r /\ length r = length acc.
Proof.
  intros Hdt. revert acc. induction l as [|v l IH]; intros acc Ha Hl; [by eexists|].
  apply Forall_cons in Hl as [Hv Hl]. cbn [reduce_list].
  destruct (reduce_total n acc v) as (a & -> & Hla); [done..|]. cbn [mbind option_bind].
  destruct (IH a) as (r & -> & Hlr); [lia|done|]. exists r. split; [done|lia].
Qed.

(** Only the first [n] elements take part. *)
Lemma for_elements_app {A} (f : A -> A -> option A) n d t s u :
  length d = n -> length s = n -> for_elements f n (d ++ t) (s ++ u) = (fun r => r ++ t) <$> for_elements f n d s.
Proof.
  revert d s. induction n as [|n IH]; intros [|x d] [|y s] Hd Hs; try done.
  cbn [app for_elements]. destruct (f x y) as [z|]; [|done]. cbn [mbind option_bind].
  rewrite IH by (cbn in *; lia). by destruct (for_elements f n d s).
Qed.

Lemma reduce_app n d t s u :
  length d = n -> length s = n ->
  reduce_vectors op dt n (d ++ t) (s ++ u) = (fun r => r ++ t) <$> reduce_vectors op dt n d s.
Proof. intros. rewrite !reduce_vectors_elem. by apply for_elements_app. Qed.

Lemma reduce_length n d s r : reduce_vectors op dt n d s = Some r -> length r = length d.
Proof. rewrite reduce_vectors_elem. by intros (_ & _ & ? & _)%for_elements_inv. Qed.

Lemma reduce_list_app n d t l tails :
  length d = n -> Forall (fun v : vector => length v = n) l -> length tails = length l ->
  reduce_list n (d ++ t) (zip_with app l tails) = (fun r => r ++ t) <$> reduce_list n d l.
Proof.
  revert d tails. induction l as [|v l IH]; intros d [|u tails] Hd Hl Ht; try done.
  apply Forall_cons in Hl as [Hv Hl]. cbn [zip_with reduce_list]. rewrite reduce_app by done.
  destruct (reduce_vectors op dt n d v) as [r|] eqn:E; [|done]. cbn [fmap option_fmap option_map mbind option_bind].
  apply IH; [|done|by injection Ht]. by rewrite (reduce_length _ _ _ _ E).
Qed.
End Sequences.

(** ** Bytes

    On bytes both operations are those of the integers modulo 256: they are
    total, commutative and associative, so that the order in which vectors are
    reduced does not matter. *)

Definition byte_op (op : allreduce_operation) (a b : Z) : Z :=
  match op with ALLREDUCE_SUM => u8 (a + b) | ALLREDUCE_PROD => u8 (a * b) end.

Lemma elem_op_byte op a b : elem_op op ALLREDUCE_BYTE a b = Some (byte_op op a b).
Proof. by destruct op. Qed.

Lemma byte_op_comm op a b : byte_op op a b = byte_op op b a.
Proof. destruct op; cbn; f_equal; lia. Qed.

Lemma byte_op_assoc op a b c : byte_op op a (byte_op op b c) = byte_op op (byte_op op a b) c.
Proof.
  destruct op; cbn; unfold wrap.
  - rewrite Z.add_mod_idemp_r, Z.add_mod_idemp_l by lia. f_equal. lia.
  - rewrite Z.mul_mod_idemp_r, Z.mul_mod_idemp_l by lia. f_equal. lia.
Qed.

Lemma reduce_bytes op n (a b : list Z) :
  length a = n -> length b = n -> reduce_vectors op ALLREDUCE_BYTE n a b = Some (zip_with (byte_op op) a b).
Proof.
  intros <-. rewrite reduce_vectors_elem. revert b. induction a as [|x a IH]; intros [|y b] Hl; cbn in Hl; try done.
  cbn [length for_elements zip_with]. rewrite elem_op_byte. cbn. by rewrite IH by lia.
Qed.
