(* ===== verification/Allreduce.v ===== *)
(** * One participant of allreduce

    applications/allreduce/src: the operations of allreduce_core.c on requests,
    super requests and vectors, the callbacks of the daemon (allreduce_daemon.c)
    and of the client (allreduce_client.c), and how allreduce_ucx.c calls them;
    the version for the CPU.

    The state is that of one process.  Vectors of the vectors pool, super
    requests and requests live in heaps by address; a use after the address was
    given back is undefined, and so is a failed assertion.  The hash table maps
    operation ids to super requests.  Operations that UCX has not completed are
    kept by number.  What the environment decides - whether an allocation
    succeeds, whether a posted operation completes at once, later or with an
    error, and what a pool element holds when it is handed out - is a function of
    a counter. *)

From stdpp Require Import gmap list.
From Stdlib Require Import SpecFloat.
From S2P Require Import Prelude AllreduceReducer.
#[local] Open Scope Z_scope.
#[local] Open Scope doca_scope.

(** ** Configuration *)

Inductive allreduce_role := ALLREDUCE_CLIENT | ALLREDUCE_DAEMON.
Inductive allreduce_mode := ALLREDUCE_NON_OFFLOADED_MODE | ALLREDUCE_OFFLOAD_MODE.

#[global] Instance role_eq_dec : EqDecision allreduce_role.
Proof. solve_decision. Defined.
#[global] Instance mode_eq_dec : EqDecision allreduce_mode.
Proof. solve_decision. Defined.

Record allreduce_config := Config {
  role : allreduce_role;
  mode : allreduce_mode;
  num_clients : Z;
  vector_size : Z;
  datatype : allreduce_datatype;
  operation : allreduce_operation;
  batch_size : Z;
  dest_num : nat           (* dest_addresses.num *)
}.

(** ** State *)

(** A vector of the pool, or one of the client's [allreduce_vectors]. *)
Inductive vec_ptr := Pool (n : nat) | Own (i : nat).

#[global] Instance vec_ptr_eq_dec : EqDecision vec_ptr.
Proof. solve_decision. Defined.

Record allreduce_super_request := SuperReq {
  requests_list : list nat;                 (* allreduce_requests_list *)
  num_requests : Z;                         (* num_allreduce_requests *)
  num_operations : Z;                       (* num_allreduce_operations *)
  result_vector_owner : bool;
  result_vector : option vec_ptr;
  peer_result_vector : option vec_ptr;
  recv_vector_iter : Z;
  recv_vectors : option (list (option vec_ptr));   (* None: NULL *)
  header_id : Z;
  result_vector_size : Z
}.

Record allreduce_request := Request {
  req_super : option nat;
  req_id : Z;
  req_connection : nat;
  req_vector : option vec_ptr;
  req_vector_size : Z
}.

(** How UCX answers a posted operation (request_process): it is completed, it
    will be completed by a callback, or it failed. *)
Inductive outcome := Finished | InProgress | Failed.

Section Participant.
Context (cfg : allreduce_config).

Notation vector := (list (element (datatype cfg))).
Notation elem_size := (allreduce_datatype_size (datatype cfg)).

(** Messages that were sent, with the data that was in the buffer. *)
Inductive message :=
| ToPeer (peer : nat) (id : Z) (data : vector)        (* ALLREDUCE_OP_AM_ID *)
| ToClient (connection : nat) (id : Z) (data : vector)  (* ALLREDUCE_CTRL_AM_ID *)
| ToDaemon (id : Z) (data : vector).                  (* ALLREDUCE_CTRL_AM_ID *)

(** Operations UCX has not completed, by the callback and its argument; the data
    of a receive operation is in the buffer when it completes. *)
Inductive ucx_request :=
| SendVector (a : nat)        (* allreduce_complete_operation_callback *)
| SendResult (r : nat)        (* daemon_allreduce_complete_client_operation_callback *)
| SendControl                 (* allreduce_offloaded_complete_ctrl_send_callback *)
| RecvVector (p : vec_ptr) (data : vector) (a : nat)    (* _allreduce_gather_callback *)
| RecvRequest (p : vec_ptr) (data : vector) (r : nat)   (* daemon_am_recv_data_complete_callback *)
| RecvResult (p : vec_ptr) (data : vector) (a : nat).   (* client_am_recv_data_complete_callback *)

Class Environment := {
  alloc_ok : nat -> bool;
  ucx_outcome : nat -> outcome;
  stale : nat -> vector      (* what a pool element holds *)
}.

Record state := State {
  vecs : gmap nat vector;                       (* vectors of vecs_pool that are handed out *)
  own : list vector;                            (* allreduce_vectors *)
  supers : gmap nat allreduce_super_request;
  super_requests_hash : gmap Z nat;             (* allreduce_super_requests_hash *)
  requests : gmap nat allreduce_request;
  ucx : gmap nat ucx_request;
  sent : list message;
  client_active : Z;                            (* client_active_allreduce_requests *)
  next_id : Z;                                  (* allreduce_next_id *)
  callback_errno : doca_error;
  counter : nat                                 (* of allocations and posted operations *)
}.

Definition set_vecs f (s : state) : state :=
  State (f (vecs s)) (own s) (supers s) (super_requests_hash s) (requests s) (ucx s) (sent s) (client_active s)
    (next_id s) (callback_errno s) (counter s).
Definition set_own f (s : state) : state :=
  State (vecs s) (f (own s)) (supers s) (super_requests_hash s) (requests s) (ucx s) (sent s) (client_active s)
    (next_id s) (callback_errno s) (counter s).
Definition set_supers f (s : state) : state :=
  State (vecs s) (own s) (f (supers s)) (super_requests_hash s) (requests s) (ucx s) (sent s) (client_active s)
    (next_id s) (callback_errno s) (counter s).
Definition set_hash f (s : state) : state :=
  State (vecs s) (own s) (supers s) (f (super_requests_hash s)) (requests s) (ucx s) (sent s) (client_active s)
    (next_id s) (callback_errno s) (counter s).
Definition set_requests f (s : state) : state :=
  State (vecs s) (own s) (supers s) (super_requests_hash s) (f (requests s)) (ucx s) (sent s) (client_active s)
    (next_id s) (callback_errno s) (counter s).
Definition set_ucx f (s : state) : state :=
  State (vecs s) (own s) (supers s) (super_requests_hash s) (requests s) (f (ucx s)) (sent s) (client_active s)
    (next_id s) (callback_errno s) (counter s).
Definition set_sent f (s : state) : state :=
  State (vecs s) (own s) (supers s) (super_requests_hash s) (requests s) (ucx s) (f (sent s)) (client_active s)
    (next_id s) (callback_errno s) (counter s).
Definition set_active f (s : state) : state :=
  State (vecs s) (own s) (supers s) (super_requests_hash s) (requests s) (ucx s) (sent s) (f (client_active s))
    (next_id s) (callback_errno s) (counter s).
Definition set_next_id f (s : state) : state :=
  State (vecs s) (own s) (supers s) (super_requests_hash s) (requests s) (ucx s) (sent s) (client_active s)
    (f (next_id s)) (callback_errno s) (counter s).
Definition set_errno f (s : state) : state :=
  State (vecs s) (own s) (supers s) (super_requests_hash s) (requests s) (ucx s) (sent s) (client_active s)
    (next_id s) (f (callback_errno s)) (counter s).
Definition set_counter f (s : state) : state :=
  State (vecs s) (own s) (supers s) (super_requests_hash s) (requests s) (ucx s) (sent s) (client_active s)
    (next_id s) (callback_errno s) (f (counter s)).

Definition modify (f : state -> state) : ST state unit := s ← get; put (f s).

(** The fields of a super request that are assigned. *)
Definition set_list l (r : allreduce_super_request) : allreduce_super_request :=
  SuperReq l (num_requests r) (num_operations r) (result_vector_owner r) (result_vector r) (peer_result_vector r)
    (recv_vector_iter r) (recv_vectors r) (header_id r) (result_vector_size r).
Definition set_num_requests n (r : allreduce_super_request) : allreduce_super_request :=
  SuperReq (requests_list r) n (num_operations r) (result_vector_owner r) (result_vector r) (peer_result_vector r)
    (recv_vector_iter r) (recv_vectors r) (header_id r) (result_vector_size r).
Definition set_num_operations n (r : allreduce_super_request) : allreduce_super_request :=
  SuperReq (requests_list r) (num_requests r) n (result_vector_owner r) (result_vector r) (peer_result_vector r)
    (recv_vector_iter r) (recv_vectors r) (header_id r) (result_vector_size r).
Definition set_result p (r : allreduce_super_request) : allreduce_super_request :=
  SuperReq (requests_list r) (num_requests r) (num_operations r) (result_vector_owner r) p (peer_result_vector r)
    (recv_vector_iter r) (recv_vectors r) (header_id r) (result_vector_size r).
Definition set_client_result p size (r : allreduce_super_request) : allreduce_super_request :=
  SuperReq (requests_list r) (num_requests r) (num_operations r) false p (peer_result_vector r)
    (recv_vector_iter r) (recv_vectors r) (header_id r) size.
Definition set_peer_result p (r : allreduce_super_request) : allreduce_super_request :=
  SuperReq (requests_list r) (num_requests r) (num_operations r) (result_vector_owner r) (result_vector r) p
    (recv_vector_iter r) (recv_vectors r) (header_id r) (result_vector_size r).
Definition set_recv n l (r : allreduce_super_request) : allreduce_super_request :=
  SuperReq (requests_list r) (num_requests r) (num_operations r) (result_vector_owner r) (result_vector r)
    (peer_result_vector r) n l (header_id r) (result_vector_size r).

(** ** Memory *)

Context `{Environment}.

Definition tick : ST state nat := s ← get; _ ← modify (set_counter S); mret (counter s).

(** An allocation from a pool: the address of the element. *)
Definition alloc : ST state (option nat) :=
  k ← tick; mret (if alloc_ok k then Some k else None).

Definition allreduce_aloc_vec_vecs_pool : ST state (option vec_ptr) :=
  o ← alloc;
  match o with
  | Some k => _ ← modify (set_vecs <[k := stale k]>); mret (Some (Pool k))
  | None => mret None
  end.

(** Only an element that is handed out may be given back. *)
Definition allreduce_free_vec_vecs_pool (p : option vec_ptr) : ST state unit :=
  s ← get;
  match p with
  | Some (Pool k) => if decide (is_Some (vecs s !! k)) then modify (set_vecs (delete k)) else undef
  | _ => undef
  end.

Definition load (p : option vec_ptr) : ST state vector :=
  s ← get;
  match p with
  | Some (Pool k) => match vecs s !! k with Some v => mret v | None => undef end
  | Some (Own i) => match own s !! i with Some v => mret v | None => undef end
  | None => undef
  end.

(** After a [load] of the same vector. *)
Definition store (p : option vec_ptr) (v : vector) : ST state unit :=
  match p with
  | Some (Pool k) => modify (set_vecs <[k := v]>)
  | Some (Own i) => modify (set_own <[i := v]>)
  | None => undef
  end.

Definition get_super (a : nat) : ST state allreduce_super_request :=
  s ← get; match supers s !! a with Some r => mret r | None => undef end.
Definition set_super (a : nat) (r : allreduce_super_request) : ST state unit := modify (set_supers <[a := r]>).
Definition update_super (a : nat) (f : allreduce_super_request -> allreduce_super_request) : ST state unit :=
  r ← get_super a; set_super a (f r).

Definition get_request (q : nat) : ST state allreduce_request :=
  s ← get; match requests s !! q with Some r => mret r | None => undef end.
Definition set_request (q : nat) (r : allreduce_request) : ST state unit := modify (set_requests <[q := r]>).

(** [for] over a list of results that are ignored. *)
Fixpoint for_each {A} (f : A -> ST state unit) (l : list A) : ST state unit :=
  match l with [] => mret tt | x :: l' => _ ← f x; for_each f l' end.

Definition allreduce_free_vecs_vecs_pool (vs : list (option vec_ptr)) : ST state unit :=
  for_each allreduce_free_vec_vecs_pool vs.

(** The first [n] elements of [recv_vectors]. *)
Definition first_vectors (r : allreduce_super_request) (n : Z) : ST state (list (option vec_ptr)) :=
  if n =? 0 then mret []
  else match recv_vectors r with
       | Some l => if n <=? Z.of_nat (length l) then mret (take (Z.to_nat n) l) else undef
       | None => undef
       end.

(** ** Reduction (allreduce_reducer.c) *)

Definition allreduce_reduce (a : nat) (src_vec : option vec_ptr) (is_peer : bool) : ST state unit :=
  r ← get_super a;
  let dst_vec := if is_peer then peer_result_vector r else result_vector r in
  if result_vector_size r =? 0 then mret tt
  else
    dst ← load dst_vec;
    src ← load src_vec;
    match reduce_vectors (operation cfg) (datatype cfg) (Z.to_nat (result_vector_size r)) dst src with
    | Some v => store dst_vec v
    | None => undef
    end.

Definition allreduce_reduce_all (a : nat) (is_peers : bool) : ST state unit :=
  r ← get_super a;
  let n := if is_peers then recv_vector_iter r
           else if result_vector_owner r then u64 (num_clients cfg - 1) else num_clients cfg in
  vectors ← first_vectors r n;
  for_each (fun p => allreduce_reduce a p is_peers) vectors.

(** ** Requests and super requests (allreduce_core.c) *)

Definition allreduce_request_destroy (q : nat) : ST state unit :=
  r ← get_request q;
  _ ← (match req_vector r with Some p => allreduce_free_vec_vecs_pool (Some p) | None => mret tt end);
  modify (set_requests (delete q)).

(** [size] is the length of the message in bytes. *)
Definition allreduce_request_allocate (connection : nat) (id size : Z) : ST state (option nat) :=
  o ← alloc;
  match o with
  | None => mret None
  | Some q =>
      p ← allreduce_aloc_vec_vecs_pool;
      match p with
      | None => mret None
      | Some p =>
          _ ← set_request q (Request None id connection (Some p) (size `div` elem_size));
          mret (Some q)
      end
  end.

Definition allreduce_super_request_destroy (a : nat) : ST state unit :=
  r ← get_super a;
  _ ← (match result_vector r with
       | Some p => if result_vector_owner r then allreduce_free_vec_vecs_pool (Some p) else mret tt
       | None => mret tt
       end);
  _ ← (match peer_result_vector r with Some p => allreduce_free_vec_vecs_pool (Some p) | None => mret tt end);
  _ ← (if 0 <? num_requests r then for_each allreduce_request_destroy (requests_list r) else mret tt);
  modify (set_supers (delete a)).

(** g_hash_table_remove with the destroy callback of the table. *)
Definition allreduce_super_request_finish (id : Z) : ST state unit :=
  s ← get;
  match super_requests_hash s !! id with
  | Some a => _ ← modify (set_hash (delete id)); allreduce_super_request_destroy a
  | None => mret tt
  end.

Definition allreduce_super_request_allocate (id length : Z) (result : option vec_ptr) : ST state (option nat) :=
  o ← alloc;
  match o with
  | None => mret None
  | Some a =>
      bufs ← (if (dest_num cfg <=? 1)%nat then mret (Some None)
              else b ← alloc;
                   mret (match b with Some _ => Some (Some (replicate (dest_num cfg) None)) | None => None end));
      match bufs with
      | None => mret None
      | Some recv =>
          _ ← set_super a (SuperReq [] 0 (u64 (2 * Z.of_nat (dest_num cfg) + 1))
                (bool_decide (result = None)) result None 0 recv id length);
          mret (Some a)
      end
  end.

Definition allreduce_super_request_get (id length : Z) (result : option vec_ptr) : ST state (option nat) :=
  s ← get;
  match super_requests_hash s !! id with
  | Some a => mret (Some a)
  | None =>
      o ← allreduce_super_request_allocate id length result;
      match o with
      | None => mret None
      | Some a => _ ← modify (set_hash <[id := a]>); mret (Some a)
      end
  end.

(** ** Posting operations (allreduce_ucx.c) *)

(** INVOKE_CALLBACK: the first error stays. *)
Definition invoke_callback (call : ST state doca_error) : ST state unit :=
  result ← call;
  modify (set_errno (fun e => if decide (e = DOCA_SUCCESS) then result else e)).

(** The status of a completion is [true] for UCS_OK.  The callers ignore the
    result. *)
Definition allreduce_ucx_am_send (m : message) (op : ucx_request) (callback : bool -> ST state doca_error) :
    ST state unit :=
  k ← tick;
  _ ← modify (set_sent (fun l => l ++ [m]));
  match ucx_outcome k with
  | Finished => invoke_callback (callback true)
  | Failed => invoke_callback (callback false)
  | InProgress => modify (set_ucx <[k := op]>)
  end.

(** The data of a message in the buffer it is received into. *)
Definition receive (p : vec_ptr) (data : vector) : ST state unit :=
  buf ← load (Some p);
  if (length data <=? length buf)%nat then store (Some p) (data ++ drop (length data) buf) else undef.

Definition allreduce_ucx_am_recv (p : option vec_ptr) (data : vector) (op : vec_ptr -> ucx_request)
    (callback : bool -> ST state doca_error) : ST state doca_error :=
  k ← tick;
  match p with
  | None => undef
  | Some p =>
      match ucx_outcome k with
      | Finished => _ ← receive p data; _ ← invoke_callback (callback true); mret DOCA_SUCCESS
      | Failed => _ ← invoke_callback (callback false); mret DOCA_ERROR_UNEXPECTED
      | InProgress => _ ← modify (set_ucx <[k := op p]>); mret DOCA_SUCCESS
      end
  end.

(** ** Scatter, gather and completion (allreduce_core.c) *)

Definition daemon_allreduce_complete_client_operation_callback (q : nat) (ok : bool) : ST state doca_error :=
  r ← get_request q;
  match req_super r with
  | None => undef
  | Some a =>
      _ ← allreduce_request_destroy q;
      _ ← update_super a (fun r => set_num_requests (u64 (num_requests r - 1)) r);
      r ← get_super a;
      _ ← (if num_requests r =? 0 then allreduce_super_request_finish (header_id r) else mret tt);
      mret DOCA_SUCCESS
  end.

(** What is in the result vector; an empty vector may have no buffer. *)
Definition result_data (r : allreduce_super_request) : ST state vector :=
  if result_vector_size r =? 0 then mret []
  else
    v ← load (result_vector r);
    if result_vector_size r <=? Z.of_nat (length v) then mret (take (Z.to_nat (result_vector_size r)) v) else undef.

(** One turn of the loop that answers the clients. *)
Definition send_result (a q : nat) : ST state unit :=
  _ ← update_super a (fun r => set_list (filter (fun q' => q' <> q) (requests_list r)) r);
  r ← get_super a;
  data ← result_data r;
  rq ← get_request q;
  allreduce_ucx_am_send (ToClient (req_connection rq) (header_id r) data) (SendResult q)
    (daemon_allreduce_complete_client_operation_callback q).

Definition allreduce_complete_operation_callback (a : nat) (ok : bool) : ST state doca_error :=
  if negb ok then mret DOCA_ERROR_IO_FAILED
  else
    _ ← update_super a (fun r => set_num_operations (u64 (num_operations r - 1)) r);
    r ← get_super a;
    if 0 <? num_operations r then mret DOCA_SUCCESS
    else
      _ ← (match peer_result_vector r with
           | Some p =>
               _ ← allreduce_reduce a (Some p) false;
               _ ← allreduce_free_vec_vecs_pool (Some p);
               update_super a (set_peer_result None)
           | None => mret tt
           end);
      r ← get_super a;
      vectors ← first_vectors r (recv_vector_iter r);
      _ ← allreduce_free_vecs_vecs_pool vectors;
      if decide (role cfg = ALLREDUCE_CLIENT) then
        if decide (requests_list r = []) then
          _ ← modify (set_active (fun n => u64 (n - 1)));
          _ ← allreduce_super_request_finish (header_id r);
          mret DOCA_SUCCESS
        else undef
      else
        _ ← for_each (send_result a) (requests_list r);
        mret DOCA_SUCCESS.

Definition send_vector (a i : nat) : ST state unit :=
  r ← get_super a;
  data ← result_data r;
  allreduce_ucx_am_send (ToPeer i (header_id r) data) (SendVector a) (allreduce_complete_operation_callback a).

(** The result of the last call is ignored. *)
Definition allreduce_scatter (a : nat) : ST state unit :=
  _ ← for_each (send_vector a) (seq 0 (dest_num cfg));
  _ ← allreduce_complete_operation_callback a true;
  mret tt.

Definition _allreduce_gather_callback (a : nat) (ok : bool) : ST state doca_error :=
  if negb ok then mret DOCA_ERROR_IO_FAILED
  else
    r ← get_super a;
    _ ← (if (recv_vector_iter r + 1 =? Z.of_nat (dest_num cfg)) && (0 <? recv_vector_iter r)
         then allreduce_reduce_all a true else mret tt);
    allreduce_complete_operation_callback a ok.

(** The place of an incoming vector. *)
Definition keep_vector (p : vec_ptr) (r : allreduce_super_request) : option allreduce_super_request :=
  if recv_vector_iter r <? Z.of_nat (dest_num cfg) then
    match peer_result_vector r with
    | Some _ =>
        l ← recv_vectors r;
        l' ← wr l (recv_vector_iter r) (Some p);
        Some (set_recv (recv_vector_iter r + 1) (Some l') r)
    | None => Some (set_peer_result (Some p) r)
    end
  else None.

Definition allreduce_gather_callback (id : Z) (data : vector) : ST state doca_error :=
  o ← allreduce_super_request_get id (Z.of_nat (length data)) None;
  match o with
  | None => mret DOCA_ERROR_NO_MEMORY
  | Some a =>
      p ← allreduce_aloc_vec_vecs_pool;
      match p with
      | None => mret DOCA_ERROR_NO_MEMORY
      | Some p =>
          r ← get_super a;
          match keep_vector p r with
          | None => undef
          | Some r' =>
              _ ← set_super a r';
              allreduce_ucx_am_recv (Some p) data (fun p => RecvVector p data a) (_allreduce_gather_callback a)
          end
      end
  end.

(** ** The daemon (allreduce_daemon.c) *)

(** The vector of a request becomes the result, or is reduced into it. *)
Definition attach_vector (a q : nat) : ST state unit :=
  rq ← get_request q;
  r ← get_super a;
  _ ← (match result_vector r with
       | Some _ => _ ← allreduce_reduce a (req_vector rq) false; allreduce_free_vec_vecs_pool (req_vector rq)
       | None => update_super a (set_result (req_vector rq))
       end);
  set_request q (Request (req_super rq) (req_id rq) (req_connection rq) None (req_vector_size rq)).

Definition daemon_am_recv_data_complete_callback (q : nat) (ok : bool) : ST state doca_error :=
  rq ← get_request q;
  if negb ok || (vector_size cfg <? req_vector_size rq) then undef
  else
    o ← allreduce_super_request_get (req_id rq) (req_vector_size rq) None;
    match o with
    | None => _ ← allreduce_request_destroy q; mret DOCA_ERROR_NO_MEMORY
    | Some a =>
        _ ← set_request q (Request (Some a) (req_id rq) (req_connection rq) (req_vector rq) (req_vector_size rq));
        _ ← update_super a (fun r => set_list (requests_list r ++ [q]) (set_num_requests (u64 (num_requests r + 1)) r));
        _ ← attach_vector a q;
        r ← get_super a;
        _ ← (if num_requests r =? num_clients cfg then allreduce_scatter a else mret tt);
        mret DOCA_SUCCESS
    end.

Definition daemon_am_recv_ctrl_callback (connection : nat) (id : Z) (data : vector) : ST state doca_error :=
  o ← allreduce_request_allocate connection id (Z.of_nat (length data) * elem_size);
  match o with
  | None => mret DOCA_ERROR_NO_MEMORY
  | Some q =>
      rq ← get_request q;
      allreduce_ucx_am_recv (req_vector rq) data (fun p => RecvRequest p data q) (daemon_am_recv_data_complete_callback q)
  end.

(** ** The client (allreduce_client.c) *)

Definition client_am_recv_data_complete_callback (a : nat) (ok : bool) : ST state doca_error :=
  if negb ok then undef
  else
    _ ← modify (set_active (fun n => u64 (n - 1)));
    r ← get_super a;
    _ ← allreduce_super_request_finish (header_id r);
    mret DOCA_SUCCESS.

(** The length in bytes is passed as the length of the result. *)
Definition client_am_recv_ctrl_callback (id : Z) (data : vector) : ST state doca_error :=
  o ← allreduce_super_request_get id (Z.of_nat (length data) * elem_size) None;
  match o with
  | None => mret DOCA_ERROR_NOT_FOUND
  | Some a =>
      r ← get_super a;
      allreduce_ucx_am_recv (result_vector r) data (fun p => RecvResult p data a) (client_am_recv_data_complete_callback a)
  end.

Definition allreduce_offloaded_complete_ctrl_send_callback (ok : bool) : ST state doca_error :=
  mret (if ok then DOCA_SUCCESS else DOCA_ERROR_IO_FAILED).

Definition allreduce_offloaded_submit (a : nat) : ST state unit :=
  r ← get_super a;
  data ← result_data r;
  allreduce_ucx_am_send (ToDaemon (header_id r) data) SendControl allreduce_offloaded_complete_ctrl_send_callback.

Definition allreduce_non_offloaded_submit (a : nat) : ST state unit := allreduce_scatter a.

Definition submit_func (a : nat) : ST state unit :=
  match mode cfg with
  | ALLREDUCE_OFFLOAD_MODE => allreduce_offloaded_submit a
  | ALLREDUCE_NON_OFFLOADED_MODE => allreduce_non_offloaded_submit a
  end.

(** One turn of the loop of allreduce_batch_submit. *)
Definition submit_one (size : Z) : ST state unit :=
  s ← get;
  let id := next_id s in
  _ ← modify (set_next_id (fun n => u64 (n + 1)));
  let mine := Own (Z.to_nat (id `mod` batch_size cfg)) in
  o ← allreduce_super_request_get id size (Some mine);
  match o with
  | None => mret tt
  | Some a =>
      r ← get_super a;
      _ ← (if decide (result_vector r = None) then set_super a (set_client_result (Some mine) size r) else mret tt);
      _ ← modify (set_active (fun n => u64 (n + 1)));
      submit_func a
  end.

(** [batch] turns; a batch size of 0 in the configuration divides by zero. *)
Definition allreduce_batch_submit (size : Z) (batch : nat) : ST state unit :=
  if (size =? 0) || (size =? vector_size cfg) then
    if (0 <? batch)%nat && (batch_size cfg =? 0) then undef
    else for_each (fun _ => submit_one size) (seq 0 batch)
  else undef.

(** [i % UINT8_MAX], [i % INT_MAX], [(float)i], [(double)i] *)
Definition initial_element (dt : allreduce_datatype) (i : Z) : element dt :=
  match dt with
  | ALLREDUCE_BYTE => i `mod` 255
  | ALLREDUCE_INT => i `mod` (2 ^ 31 - 1)
  | ALLREDUCE_FLOAT => binary_normalize 24 128 i 0 false
  | ALLREDUCE_DOUBLE => binary_normalize 53 1024 i 0 false
  end.

Definition initial_vector : vector :=
  map (fun i => initial_element (datatype cfg) (Z.of_nat i)) (seq 0 (Z.to_nat (vector_size cfg))).

(** The vectors have [vector_size] elements (allreduce_vectors_init). *)
Definition allreduce_vectors_reset : ST state unit :=
  modify (set_own (fun l => map (fun _ => initial_vector) l)).

(** ** Events *)

(** What happens to a process: a message of another daemon or client
    ([OpMessage]), of a client or the daemon ([CtrlMessage]), the completion of an
    operation, and on a client the submission of operations. *)
Inductive event :=
| OpMessage (id : Z) (data : vector)
| CtrlMessage (connection : nat) (id : Z) (data : vector)
| Completion (k : nat) (ok : bool)
| Submit (size : Z) (batch : nat)
| Reset.

(** The callback of a completed operation. *)
Definition complete (op : ucx_request) (ok : bool) : ST state unit :=
  match op with
  | SendVector a => invoke_callback (allreduce_complete_operation_callback a ok)
  | SendResult q => invoke_callback (daemon_allreduce_complete_client_operation_callback q ok)
  | SendControl => invoke_callback (allreduce_offloaded_complete_ctrl_send_callback ok)
  | RecvVector p data a =>
      _ ← (if ok then receive p data else mret tt); invoke_callback (_allreduce_gather_callback a ok)
  | RecvRequest p data q =>
      _ ← (if ok then receive p data else mret tt); invoke_callback (daemon_am_recv_data_complete_callback q ok)
  | RecvResult p data a =>
      _ ← (if ok then receive p data else mret tt); invoke_callback (client_am_recv_data_complete_callback a ok)
  end.

(** The handlers that communication_init, daemon_run and client_run register. *)
Definition step (e : event) : ST state unit :=
  match e with
  | OpMessage id data =>
      if decide (role cfg = ALLREDUCE_DAEMON \/ mode cfg = ALLREDUCE_NON_OFFLOADED_MODE)
      then invoke_callback (allreduce_gather_callback id data) else mret tt
  | CtrlMessage connection id data =>
      if decide (role cfg = ALLREDUCE_DAEMON) then invoke_callback (daemon_am_recv_ctrl_callback connection id data)
      else if decide (mode cfg = ALLREDUCE_OFFLOAD_MODE) then invoke_callback (client_am_recv_ctrl_callback id data)
      else mret tt
  | Completion k ok =>
      s ← get;
      match ucx s !! k with
      | Some op => _ ← modify (set_ucx (delete k)); complete op ok
      | None => mret tt
      end
  | Submit size batch => allreduce_batch_submit size batch
  | Reset => allreduce_vectors_reset
  end.

Definition run (es : list event) : ST state unit := for_each step es.

Definition initial (vectors : list vector) : state :=
  State ∅ vectors ∅ ∅ ∅ ∅ [] 0 0 DOCA_SUCCESS 0.
End Participant.

Arguments ToPeer {cfg}. Arguments ToClient {cfg}. Arguments ToDaemon {cfg}.
Arguments SendVector {cfg}. Arguments SendResult {cfg}. Arguments SendControl {cfg}.
Arguments RecvVector {cfg}. Arguments RecvRequest {cfg}. Arguments RecvResult {cfg}.
Arguments alloc_ok {cfg _}. Arguments ucx_outcome {cfg _}. Arguments stale {cfg _}.
Arguments State {cfg}. Arguments vecs {cfg}. Arguments own {cfg}. Arguments supers {cfg}.
Arguments super_requests_hash {cfg}. Arguments requests {cfg}. Arguments ucx {cfg}. Arguments sent {cfg}.
Arguments client_active {cfg}. Arguments next_id {cfg}. Arguments callback_errno {cfg}. Arguments counter {cfg}.
Arguments set_vecs {cfg}. Arguments set_own {cfg}. Arguments set_supers {cfg}. Arguments set_hash {cfg}.
Arguments set_requests {cfg}. Arguments set_ucx {cfg}. Arguments set_sent {cfg}. Arguments set_active {cfg}.
Arguments set_next_id {cfg}. Arguments set_errno {cfg}. Arguments set_counter {cfg}. Arguments modify {cfg}.
Arguments OpMessage {cfg}. Arguments CtrlMessage {cfg}. Arguments Completion {cfg}. Arguments Submit {cfg}.
Arguments Reset {cfg}.
Arguments tick {cfg}. Arguments alloc {cfg _}. Arguments allreduce_aloc_vec_vecs_pool {cfg _}.
Arguments allreduce_free_vec_vecs_pool {cfg}. Arguments load {cfg}. Arguments store {cfg}.
Arguments get_super {cfg}. Arguments set_super {cfg}. Arguments update_super {cfg}.
Arguments get_request {cfg}. Arguments set_request {cfg}. Arguments for_each {cfg A}.
Arguments allreduce_free_vecs_vecs_pool {cfg}. Arguments first_vectors {cfg}.
Arguments allreduce_reduce {cfg}. Arguments allreduce_reduce_all {cfg}.
Arguments allreduce_request_destroy {cfg}. Arguments allreduce_request_allocate {cfg _}.
Arguments allreduce_super_request_destroy {cfg}. Arguments allreduce_super_request_finish {cfg}.
Arguments allreduce_super_request_allocate {cfg _}. Arguments allreduce_super_request_get {cfg _}.
Arguments invoke_callback {cfg}. Arguments allreduce_ucx_am_send {cfg _}. Arguments receive {cfg}.
Arguments allreduce_ucx_am_recv {cfg _}. Arguments daemon_allreduce_complete_client_operation_callback {cfg}.
Arguments result_data {cfg}. Arguments send_result {cfg _}. Arguments allreduce_complete_operation_callback {cfg _}.
Arguments send_vector {cfg _}. Arguments allreduce_scatter {cfg _}. Arguments _allreduce_gather_callback {cfg _}.
Arguments allreduce_gather_callback {cfg _}. Arguments attach_vector {cfg}.
Arguments daemon_am_recv_data_complete_callback {cfg _}. Arguments daemon_am_recv_ctrl_callback {cfg _}.
Arguments client_am_recv_data_complete_callback {cfg}. Arguments client_am_recv_ctrl_callback {cfg _}.
Arguments allreduce_offloaded_complete_ctrl_send_callback {cfg}. Arguments allreduce_offloaded_submit {cfg _}.
Arguments allreduce_non_offloaded_submit {cfg _}. Arguments submit_func {cfg _}. Arguments submit_one {cfg _}.
Arguments allreduce_batch_submit {cfg _}. Arguments allreduce_vectors_reset {cfg}.
Arguments complete {cfg _}. Arguments step {cfg _}. Arguments run {cfg _}. Arguments initial {cfg}.
