(* ===== verification/AllreduceSpec.v ===== *)
(** * The operations of allreduce on explicit states

    What the handlers of Allreduce.v do for a client that exchanges vectors with
    its peers: for each of them the state it leaves, in the cases the protocol
    leads to.  AllreduceClient.v builds the invariant of the client on them. *)

From stdpp Require Import gmap list.
From S2P Require Import Prelude AllreduceReducer Allreduce.
#[local] Open Scope Z_scope.

Ltac bind_with H := rewrite (ST_bind_Some _ _ _ _ _ H).

Section Operations.
Context (cfg : allreduce_config).
Notation vector := (list (element (datatype cfg))).
Notation P := (dest_num cfg).
Implicit Types (st : state cfg) (a k : nat) (v : vector).

(** ** Memory *)

Definition put_vec (p : vec_ptr) v st : state cfg :=
  match p with Pool k => set_vecs <[k := v]> st | Own i => set_own <[i := v]> st end.
Definition vec_at (p : vec_ptr) st : option vector :=
  match p with Pool k => vecs st !! k | Own i => own st !! i end.

Lemma state_ext st st' :
  vecs st = vecs st' -> own st = own st' -> supers st = supers st' -> super_requests_hash st = super_requests_hash st' ->
  requests st = requests st' -> ucx st = ucx st' -> sent st = sent st' -> client_active st = client_active st' ->
  next_id st = next_id st' -> callback_errno st = callback_errno st' -> counter st = counter st' -> st = st'.
Proof. destruct st, st'; cbn; intros; by subst. Qed.

Lemma modify_eq f st : modify f st = Some (tt, f st).
Proof. done. Qed.

Lemma load_eq p v st : vec_at p st = Some v -> load (Some p) st = Some (v, st).
Proof.
  intros Hv. unfold load. rewrite (ST_bind_Some get _ st st st) by done.
  destruct p; cbn in Hv; by rewrite Hv.
Qed.

Lemma store_eq p v st : store (Some p) v st = Some (tt, put_vec p v st).
Proof. by destruct p. Qed.

Lemma put_vec_id p v st : vec_at p st = Some v -> put_vec p v st = st.
Proof.
  destruct st, p; cbn; intros Hv; unfold set_vecs, set_own; cbn; f_equal.
  - by apply insert_id.
  - by apply list_insert_id.
Qed.

Lemma get_super_eq a r st : supers st !! a = Some r -> get_super a st = Some (r, st).
Proof. intros Hr. unfold get_super. rewrite (ST_bind_Some get _ st st st) by done. by rewrite Hr. Qed.

Lemma update_super_eq a r f st :
  supers st !! a = Some r -> update_super a f st = Some (tt, set_supers <[a := f r]> st).
Proof. intros Hr. unfold update_super. by bind_with (get_super_eq _ _ _ Hr). Qed.

Lemma free_eq k v st :
  vecs st !! k = Some v -> allreduce_free_vec_vecs_pool (Some (Pool k)) st = Some (tt, set_vecs (delete k) st).
Proof.
  intros Hv. unfold allreduce_free_vec_vecs_pool. rewrite (ST_bind_Some get _ st st st) by done.
  by rewrite decide_True by (by eexists).
Qed.

(** The elements of [ks] given back one after the other. *)
Fixpoint del (ks : list nat) (m : gmap nat vector) : gmap nat vector :=
  match ks with [] => m | k :: ks' => del ks' (delete k m) end.

Lemma del_lookup ks m k : del ks m !! k = if decide (k ∈ ks) then None else m !! k.
Proof.
  revert m. induction ks as [|k' ks IH]; intros m; cbn [del]; [by rewrite decide_False by (by apply not_elem_of_nil)|].
  rewrite IH. destruct (decide (k = k')) as [->|Hne].
  - rewrite lookup_delete_eq, (decide_True (P := k' ∈ k' :: ks)) by (by left). by case_decide.
  - rewrite lookup_delete_ne by done. destruct (decide (k ∈ ks)).
    + by rewrite decide_True by (by right).
    + rewrite decide_False; [done|]. by intros [?|?]%elem_of_cons.
Qed.

Lemma free_all_eq ks st :
  NoDup ks -> Forall (fun k => is_Some (vecs st !! k)) ks ->
  allreduce_free_vecs_vecs_pool (map (fun k => Some (Pool k)) ks) st = Some (tt, set_vecs (del ks) st).
Proof.
  unfold allreduce_free_vecs_vecs_pool.
  revert st. induction ks as [|k ks IH]; intros st Hnd Hall; [by destruct st|].
  apply NoDup_cons in Hnd as [Hk Hnd]. apply Forall_cons in Hall as [[v Hv] Hall]. cbn [map for_each].
  bind_with (free_eq _ _ _ Hv). rewrite IH; [done|done|].
  rewrite Forall_forall in *. intros k' Hk'. cbn. rewrite lookup_delete_ne by (by intros ->). by apply Hall.
Qed.

Lemma receive_eq p buf data st :
  vec_at p st = Some buf -> (length data <= length buf)%nat ->
  receive p data st = Some (tt, put_vec p (data ++ drop (length data) buf) st).
Proof.
  intros Hv Hl. unfold receive. bind_with (load_eq _ _ _ Hv).
  destruct (Nat.leb_spec (length data) (length buf)); [|lia]. apply store_eq.
Qed.

Lemma invoke_eq (m : ST (state cfg) doca_error) st st' :
  m st = Some (DOCA_SUCCESS, st') -> callback_errno st' = DOCA_SUCCESS -> invoke_callback m st = Some (tt, st').
Proof.
  intros Hm He. unfold invoke_callback. bind_with Hm. unfold modify. cbn.
  by destruct st'; cbn in *; subst.
Qed.

(** ** Reduction *)

Lemma reduce_eq a r p dp n dst src w (is_peer : bool) st :
  supers st !! a = Some r -> result_vector_size r = Z.of_nat n ->
  (if is_peer then peer_result_vector r else result_vector r) = Some dp ->
  vec_at dp st = Some dst -> vec_at p st = Some src ->
  reduce_vectors (operation cfg) (datatype cfg) n dst src = Some w ->
  allreduce_reduce a (Some p) is_peer st = Some (tt, put_vec dp w st).
Proof.
  intros Hr Hn Hdp Hd Hs Hw. unfold allreduce_reduce. bind_with (get_super_eq _ _ _ Hr). rewrite Hn, Hdp.
  destruct (Z.eqb_spec (Z.of_nat n) 0) as [E|E].
  - replace n with 0%nat in Hw by lia. rewrite reduce_vectors_elem in Hw. injection Hw as <-.
    by rewrite put_vec_id.
  - bind_with (load_eq _ _ _ Hd). bind_with (load_eq _ _ _ Hs). rewrite Nat2Z.id, Hw. apply store_eq.
Qed.

Lemma Forall2_elem_impl {A B} (Q R : A -> B -> Prop) l (l' : list B) :
  Forall2 Q l l' -> (forall x y, x ∈ l -> Q x y -> R x y) -> Forall2 R l l'.
Proof.
  induction 1 as [|x y l l' Hq _ IH]; intros HR; constructor; [apply HR; [by left|done]|].
  apply IH. intros x' y' Hx. apply HR. by right.
Qed.

(** Vectors of the pool reduced into the vector at [k0]. *)
Lemma reduce_each_eq a r k0 n ks vs v0 w st :
  supers st !! a = Some r -> result_vector_size r = Z.of_nat n -> peer_result_vector r = Some (Pool k0) ->
  vecs st !! k0 = Some v0 -> k0 ∉ ks -> Forall2 (fun k v => vecs st !! k = Some v) ks vs ->
  reduce_list (operation cfg) (datatype cfg) n v0 vs = Some w ->
  for_each (fun p => allreduce_reduce a p true) (map (fun k => Some (Pool k)) ks) st = Some (tt, set_vecs <[k0 := w]> st).
Proof.
  intros Hr Hn Hp H0 Hnin Hall. revert v0 st Hr H0 Hall.
  induction ks as [|k ks IH] in vs, Hnin |- *; intros v0 st Hr H0 Hall Hw; cbn [map for_each].
  - apply Forall2_nil_inv_l in Hall as ->. injection Hw as <-.
    pose proof (put_vec_id (Pool k0) v0 st H0) as E. cbn in E. by rewrite E.
  - apply Forall2_cons_inv_l in Hall as (v & vs' & Hv & Hall & ->). cbn [reduce_list] in Hw.
    destruct (reduce_vectors _ _ n v0 v) as [a1|] eqn:E1; [|done]. cbn [mbind option_bind] in Hw.
    apply not_elem_of_cons in Hnin as [Hne Hnin].
    bind_with (reduce_eq a r (Pool k) (Pool k0) n v0 v a1 true st Hr Hn Hp H0 Hv E1). cbn [put_vec].
    rewrite (IH vs' Hnin a1); [|done|apply lookup_insert_eq| |done].
    + f_equal. f_equal. destruct st; unfold set_vecs; cbn. f_equal. apply insert_insert_eq.
    + eapply Forall2_elem_impl; [exact Hall|]. intros k' v' Hk' Hv'. cbn.
      rewrite lookup_insert_ne; [done|]. by intros ->.
Qed.

(** ** Super requests of a client

    [ps] are the vectors received from peers, in the order of their arrival. *)

Definition shape (id num : Z) (n : nat) (res : option vec_ptr) (ps : list nat) : allreduce_super_request :=
  SuperReq [] 0 num (bool_decide (res = None)) res (Pool <$> head ps) (Z.of_nat (length (tail ps)))
    (if (P <=? 1)%nat then None
     else Some (map (fun k => Some (Pool k)) (tail ps) ++ replicate (P - length (tail ps)) None))
    id (Z.of_nat n).

Lemma first_vectors_eq id num n res ps st :
  (length ps <= P)%nat ->
  first_vectors (shape id num n res ps) (Z.of_nat (length (tail ps))) st =
    Some (map (fun k => Some (Pool k)) (tail ps), st).
Proof.
  intros Hl. unfold first_vectors. destruct ps as [|k0 [|k ks]]; [done..|]. cbn [tail length] in *.
  destruct (Z.eqb_spec (Z.of_nat (S (length ks))) 0); [lia|]. cbn [recv_vectors shape tail].
  destruct (Nat.leb_spec P 1); [lia|].
  destruct (Z.leb_spec (Z.of_nat (S (length ks)))
    (Z.of_nat (length (map (fun k => Some (Pool k)) (k :: ks) ++ replicate (P - length (k :: ks)) None)))) as [_|Hgt].
  - rewrite take_app_length'; [done|]. rewrite length_map. cbn [length]. lia.
  - rewrite length_app, length_map in Hgt. cbn [length] in Hgt. lia.
Qed.

Lemma keep_vector_eq id num n res ps k :
  (length ps < P)%nat ->
  keep_vector cfg (Pool k) (shape id num n res ps) = Some (shape id num n res (ps ++ [k])).
Proof.
  intros Hl. unfold keep_vector. cbn [recv_vector_iter shape].
  destruct ps as [|k0 ks]; cbn [tail head length] in *.
  - destruct (Z.ltb_spec (Z.of_nat 0) (Z.of_nat P)); [done|lia].
  - destruct (Z.ltb_spec (Z.of_nat (length ks)) (Z.of_nat P)); [|lia]. cbn [peer_result_vector shape head fmap option_fmap option_map].
    cbn [recv_vectors shape tail]. destruct (Nat.leb_spec P 1); [lia|]. cbn [mbind option_bind].
    rewrite wr_Some by (rewrite length_app, length_map, length_replicate; lia). cbn [mbind option_bind].
    f_equal. unfold set_recv, shape. cbn. destruct (Nat.leb_spec P 1); [lia|].
    replace (P - length ks)%nat with (S (P - length (ks ++ [k])))%nat by (rewrite length_app; cbn; lia).
    f_equal; [rewrite length_app; cbn; lia|]. do 2 f_equal.
    rewrite Nat2Z.id, insert_app_r_alt by (rewrite length_map; lia). rewrite length_map, Nat.sub_diag. cbn.
    by rewrite map_app, <- app_assoc.
Qed.

Section Completion.
Context `{Env : !Environment cfg}.

Lemma complete_more a id num n res ps st :
  supers st !! a = Some (shape id num n res ps) -> 1 < num < 2 ^ 64 ->
  allreduce_complete_operation_callback a true st = Some (DOCA_SUCCESS, set_supers <[a := shape id (num - 1) n res ps]> st).
Proof.
  intros Hr Hnum. unfold allreduce_complete_operation_callback. cbn [negb].
  bind_with (update_super_eq a _ (fun r => set_num_operations (u64 (num_operations r - 1)) r) st Hr).
  cbn [num_operations shape]. rewrite wrap_small by lia.
  replace (set_num_operations (num - 1) (shape id num n res ps)) with (shape id (num - 1) n res ps) by done.
  bind_with (get_super_eq a (shape id (num - 1) n res ps) (set_supers <[a := shape id (num - 1) n res ps]> st) (lookup_insert_eq _ _ _)).
  cbn [num_operations shape]. by destruct (Z.ltb_spec 0 (num - 1)); [|lia].
Qed.

(** The super request when the peers' vectors are in the result. *)
Definition reduced id n i ps : allreduce_super_request := set_peer_result None (shape id 0 n (Some (Own i)) ps).

(** The result and the peers' vectors; the first of [ps] is the reduction of
    all of them. *)
Definition result_of (n : nat) (x r : vector) (ps : list nat) st : Prop :=
  match ps with
  | [] => r = x
  | k0 :: _ => exists acc, vecs st !! k0 = Some acc /\ reduce_vectors (operation cfg) (datatype cfg) n x acc = Some r
  end.

Lemma reduce_peers_eq a id n i x r ps st :
  supers st !! a = Some (shape id 0 n (Some (Own i)) ps) -> own st !! i = Some x -> result_of n x r ps st ->
  (match peer_result_vector (shape id 0 n (Some (Own i)) ps) with
   | Some p =>
       _ ← allreduce_reduce a (Some p) false;
       _ ← allreduce_free_vec_vecs_pool (Some p);
       update_super a (set_peer_result None)
   | None => mret tt
   end) st =
  Some (tt, set_supers <[a := reduced id n i ps]> (set_vecs (del (take 1 ps)) (set_own <[i := r]> st))).
Proof.
  intros Hr Hx Hres. destruct ps as [|k0 ks]; cbn [peer_result_vector shape head fmap option_fmap option_map result_of take del] in *.
  - subst r. destruct st; unfold set_supers, set_vecs, set_own; cbn in *. f_equal. f_equal.
    rewrite (insert_id supers) by done. by rewrite list_insert_id.
  - destruct Hres as (acc & Hacc & Hw).
    bind_with (reduce_eq a _ (Pool k0) (Own i) n x acc r false st Hr eq_refl eq_refl Hx Hacc Hw). cbn [put_vec].
    rewrite (ST_bind_Some _ _ _ tt (set_vecs (delete k0) (set_own <[i := r]> st))) by (by apply (free_eq _ acc)).
    by rewrite (update_super_eq a (shape id 0 n (Some (Own i)) (k0 :: ks))).
Qed.

Lemma finish_eq a id n i ps st :
  super_requests_hash st !! id = Some a -> supers st !! a = Some (reduced id n i ps) ->
  allreduce_super_request_finish id st = Some (tt, set_supers (delete a) (set_hash (delete id) st)).
Proof.
  intros Hh Hr. unfold allreduce_super_request_finish. rewrite (ST_bind_Some get _ st st st) by done. rewrite Hh.
  rewrite (ST_bind_Some _ _ _ tt (set_hash (delete id) st)) by done. unfold allreduce_super_request_destroy.
  rewrite (ST_bind_Some _ _ _ (reduced id n i ps) (set_hash (delete id) st)) by (by apply get_super_eq). done.
Qed.

Lemma complete_last a id n i x r ps st :
  role cfg = ALLREDUCE_CLIENT ->
  supers st !! a = Some (shape id 1 n (Some (Own i)) ps) -> super_requests_hash st !! id = Some a ->
  own st !! i = Some x -> NoDup ps -> (length ps <= P)%nat -> Forall (fun k => is_Some (vecs st !! k)) ps ->
  result_of n x r ps st ->
  allreduce_complete_operation_callback a true st =
    Some (DOCA_SUCCESS,
      State (del ps (vecs st)) (<[i := r]> (own st)) (delete a (supers st)) (delete id (super_requests_hash st))
        (requests st) (ucx st) (sent st) (u64 (client_active st - 1)) (next_id st) (callback_errno st) (counter st)).
Proof.
  intros Hrole Hr Hh Hx Hnd Hl Hall Hres. unfold allreduce_complete_operation_callback. cbn [negb].
  bind_with (update_super_eq a _ (fun r => set_num_operations (u64 (num_operations r - 1)) r) st Hr).
  change (set_num_operations _ _) with (shape id 0 n (Some (Own i)) ps).
  set (st1 := set_supers _ st).
  assert (Hr1 : supers st1 !! a = Some (shape id 0 n (Some (Own i)) ps)) by apply lookup_insert_eq.
  bind_with (get_super_eq _ _ _ Hr1). change (0 <? num_operations _) with false. cbn iota.
  assert (Hres1 : result_of n x r ps st1) by done.
  bind_with (reduce_peers_eq a id n i x r ps st1 Hr1 Hx Hres1). set (st2 := set_supers _ _).
  assert (Hr2 : supers st2 !! a = Some (reduced id n i ps)) by apply lookup_insert_eq.
  bind_with (get_super_eq _ _ _ Hr2). bind_with (first_vectors_eq id 0 n (Some (Own i)) ps st2 Hl).
  rewrite (ST_bind_Some _ _ _ tt (set_vecs (del (tail ps)) st2)).
  2: { apply free_all_eq; [by destruct ps as [|? ?]; [|apply NoDup_cons in Hnd as []]|].
       destruct ps as [|k0 ks]; cbn [tail]; [constructor|]. apply Forall_cons in Hall as [_ Hall].
       apply NoDup_cons in Hnd as [Hk0 _]. rewrite Forall_forall in *. intros k Hk.
       change (is_Some (delete k0 (vecs st) !! k)). rewrite lookup_delete_ne by (by intros ->). by apply Hall. }
  rewrite decide_True by done. rewrite decide_True by done.
  bind_with (modify_eq (set_active (fun m => u64 (m - 1))) (set_vecs (del (tail ps)) st2)).
  rewrite (ST_bind_Some _ _ _ _ _ (finish_eq a id n i ps (set_active (fun m => u64 (m - 1)) (set_vecs (del (tail ps)) st2)) Hh Hr2)).
  unfold mret, ST_ret. f_equal. f_equal. subst st1 st2. apply state_ext; try reflexivity.
  - by destruct ps as [|? [|? ?]].
  - change (delete a (<[a := reduced id n i ps]> (<[a := shape id 0 n (Some (Own i)) ps]> (supers st))) =
      delete a (supers st)). by rewrite !delete_insert_eq.
Qed.

(** ** Scatter *)

Lemma result_data_eq id num n i x ps st :
  own st !! i = Some x -> (n <= length x)%nat ->
  result_data (shape id num n (Some (Own i)) ps) st = Some (take n x, st).
Proof.
  intros Hx Hn. unfold result_data. cbn [result_vector_size shape result_vector].
  destruct (Z.eqb_spec (Z.of_nat n) 0) as [E|E]; [by replace n with 0%nat by lia|].
  bind_with (load_eq (Own i) x st Hx). rewrite Nat2Z.id. by destruct (Z.leb_spec (Z.of_nat n) (Z.of_nat (length x))); [|lia].
Qed.

Definition post (m : message cfg) st : state cfg := set_sent (fun l => l ++ [m]) (set_counter S st).

(** What posting sends leaves: those in [open] will be completed later, the
    others have been counted. *)
Record posted a id n i x ps (l : list nat) num st st' (open : gset nat) : Prop := {
  posted_state : st' = State (vecs st) (own st) (<[a := shape id (num - (Z.of_nat (length l) - Z.of_nat (size open))) n (Some (Own i)) ps]> (supers st))
    (super_requests_hash st) (requests st) (ucx st') (sent st ++ map (fun j => ToPeer j id (take n x)) l)
    (client_active st) (next_id st) (callback_errno st) (counter st');
  posted_counter : (counter st <= counter st')%nat;
  posted_ucx : forall k, ucx st' !! k = if decide (k ∈ open) then Some (SendVector a) else ucx st !! k;
  posted_open : forall k, k ∈ open -> (counter st <= k < counter st')%nat;
  posted_size : (size open <= length l)%nat
}.

Lemma send_vector_eq a id n i x ps j num st :
  (forall k, ucx_outcome k <> Failed) ->
  supers st !! a = Some (shape id num n (Some (Own i)) ps) -> own st !! i = Some x -> (n <= length x)%nat ->
  1 < num < 2 ^ 64 -> callback_errno st = DOCA_SUCCESS ->
  exists st' open, send_vector a j st = Some (tt, st') /\ posted a id n i x ps [j] num st st' open.
Proof.
  intros Hout Hr Hx Hn Hnum He. set (st1 := post (ToPeer j id (take n x)) st).
  unfold send_vector. bind_with (get_super_eq _ _ _ Hr). bind_with (result_data_eq id num n i x ps st Hx Hn).
  unfold allreduce_ucx_am_send.
  rewrite (ST_bind_Some _ _ _ (counter st) (set_counter S st)) by done.
  rewrite (ST_bind_Some _ _ _ tt st1) by done.
  pose proof (Hout (counter st)) as Hk. destruct (ucx_outcome (counter st)) eqn:Ho; [| |done].
  - exists (set_supers <[a := shape id (num - 1) n (Some (Own i)) ps]> st1), ∅. split.
    + apply invoke_eq; [|done]. apply complete_more; [done|lia].
    + split; cbn.
      * rewrite size_empty. by replace (num - (1 - Z.of_nat 0)) with (num - 1) by lia.
      * lia.
      * intros k. by rewrite decide_False by set_solver.
      * set_solver.
      * rewrite size_empty. lia.
  - exists (set_ucx <[counter st := SendVector a]> st1), {[ counter st ]}. split; [done|]. split; cbn.
    + rewrite size_singleton, Z.sub_0_r, insert_id by done. done.
    + lia.
    + intros k. destruct (decide (k = counter st)) as [->|Hne].
      * rewrite decide_True by set_solver. apply lookup_insert_eq.
      * rewrite decide_False by set_solver. by apply lookup_insert_ne.
    + intros k ->%elem_of_singleton. lia.
    + by rewrite size_singleton.
Qed.

Lemma send_vectors_eq a id n i x ps l num st :
  (forall k, ucx_outcome k <> Failed) ->
  supers st !! a = Some (shape id num n (Some (Own i)) ps) -> own st !! i = Some x -> (n <= length x)%nat ->
  Z.of_nat (length l) < num < 2 ^ 64 -> callback_errno st = DOCA_SUCCESS ->
  exists st' open, for_each (send_vector a) l st = Some (tt, st') /\ posted a id n i x ps l num st st' open.
Proof.
  intros Hout. revert num st. induction l as [|j l IH]; intros num st Hr Hx Hn Hnum He.
  { exists st, ∅. split; [done|]. split; cbn.
    - rewrite size_empty, Z.sub_diag, Z.sub_0_r, insert_id, app_nil_r by done. by destruct st.
    - lia.
    - intros k. by rewrite decide_False by set_solver.
    - set_solver.
    - by rewrite size_empty. }
  cbn [for_each length] in *.
  destruct (send_vector_eq a id n i x ps j num st Hout Hr Hx Hn ltac:(lia) He) as (st2 & open1 & E2 & [Hst2 Hc2 Hu2 Ho2 Hs2]). cbn [length] in *.
  assert (Hr2 : supers st2 !! a = Some (shape id (num - (1 - Z.of_nat (size open1))) n (Some (Own i)) ps))
    by (rewrite Hst2; apply lookup_insert_eq).
  assert (Ho : own st2 = own st) by (by rewrite Hst2).
  destruct (IH (num - (1 - Z.of_nat (size open1))) st2) as (st3 & open2 & E3 & [Hst3 Hc3 Hu3 Ho3 Hs3]); [done| | |lia| |].
  { by rewrite Ho. } { done. } { by rewrite Hst2. }
  exists st3, (open1 ∪ open2). split.
  { by bind_with E2. }
  assert (Hdisj : open1 ## open2).
  { intros k H1%Ho2 H2%Ho3. lia. }
  split.
  - rewrite Hst3 at 1. rewrite Hst2 at 1 2 3 4 5 6 7 8. cbn [vecs own supers super_requests_hash requests sent client_active next_id callback_errno].
    f_equal.
    + rewrite insert_insert_eq. f_equal. f_equal. cbn [length]. rewrite size_union by done. lia.
    + cbn [map]. by rewrite <- app_assoc.
    + by rewrite Hst2.
  - lia.
  - intros k. rewrite Hu3, Hu2. destruct (decide (k ∈ open2)), (decide (k ∈ open1)), (decide (k ∈ open1 ∪ open2)); set_solver.
  - intros k [?%Ho2|?%Ho3]%elem_of_union; lia.
  - rewrite size_union by done. cbn [length]. lia.
Qed.

(** ** Gather *)

(** The last of the peers' vectors makes the reduction of all of them. *)
Definition gathered (k0 : nat) (acc : vector) (ps : list nat) st : state cfg :=
  if (length ps =? P)%nat then set_vecs <[k0 := acc]> st else st.

Lemma gather_callback_eq a id num n res k0 ks v0 vs acc st :
  supers st !! a = Some (shape id num n res (k0 :: ks)) -> NoDup (k0 :: ks) ->
  (length (k0 :: ks) <= P)%nat ->
  Forall2 (fun k v => vecs st !! k = Some v) (k0 :: ks) (v0 :: vs) ->
  (length (k0 :: ks) = P -> reduce_list (operation cfg) (datatype cfg) n v0 vs = Some acc) ->
  _allreduce_gather_callback a true st = allreduce_complete_operation_callback a true (gathered k0 acc (k0 :: ks) st).
Proof.
  intros Hr Hnd Hl Hall Hacc. unfold _allreduce_gather_callback. cbn [negb].
  bind_with (get_super_eq _ _ _ Hr).
  rewrite (ST_bind_Some _ _ _ tt (gathered k0 acc (k0 :: ks) st)); [done|].
  cbn [recv_vector_iter shape tail]. unfold gathered. cbn [length] in *.
  apply Forall2_cons in Hall as [Hv0 Hall]. apply NoDup_cons in Hnd as [Hk0 _].
  destruct (Nat.eqb_spec (S (length ks)) P) as [E|E].
  - destruct (Z.eqb_spec (Z.of_nat (length ks) + 1) (Z.of_nat P)); [|lia]. cbn [andb].
    specialize (Hacc E). destruct ks as [|k ks].
    + apply Forall2_nil_inv_l in Hall as ->. injection Hacc as <-. cbn.
      pose proof (put_vec_id (Pool k0) v0 st Hv0) as E1. cbn in E1. by rewrite E1.
    + destruct (Z.ltb_spec 0 (Z.of_nat (length (k :: ks)))); [|cbn in *; lia].
      unfold allreduce_reduce_all. bind_with (get_super_eq _ _ _ Hr).
      bind_with (first_vectors_eq id num n res (k0 :: k :: ks) st Hl).
      by apply (reduce_each_eq a (shape id num n res (k0 :: k :: ks)) k0 n (k :: ks) vs v0).
  - destruct (Z.eqb_spec (Z.of_nat (length ks) + 1) (Z.of_nat P)); [lia|]. done.
Qed.

(** ** A new super request *)

Definition with_super a id len (res : option vec_ptr) st : state cfg :=
  State (vecs st) (own st) (<[a := shape id (2 * Z.of_nat P + 1) len res []]> (supers st))
    (<[id := a]> (super_requests_hash st)) (requests st) (ucx st) (sent st) (client_active st) (next_id st)
    (callback_errno st) (if (P <=? 1)%nat then S (counter st) else S (S (counter st))).

Lemma get_new_eq id len res st :
  (forall k, alloc_ok k = true) -> super_requests_hash st !! id = None -> 2 * Z.of_nat P + 1 < 2 ^ 64 ->
  allreduce_super_request_get id (Z.of_nat len) res st = Some (Some (counter st), with_super (counter st) id len res st).
Proof.
  intros Hok Hh HP. unfold allreduce_super_request_get. rewrite (ST_bind_Some get _ st st st) by done. rewrite Hh.
  rewrite (ST_bind_Some _ _ _ (Some (counter st)) (set_supers <[counter st := shape id (2 * Z.of_nat P + 1) len res []]>
    (set_counter (if (P <=? 1)%nat then S else (fun k => S (S k))) st))).
  { set (st1 := set_supers _ _). bind_with (modify_eq (set_hash <[id := counter st]>) st1).
    unfold mret, ST_ret. do 2 f_equal. apply state_ext; try reflexivity. subst st1. cbn. by destruct (P <=? 1)%nat. }
  unfold allreduce_super_request_allocate.
  rewrite (ST_bind_Some _ _ _ (Some (counter st)) (set_counter S st)).
  2: { unfold alloc. rewrite (ST_bind_Some _ _ _ (counter st) (set_counter S st)) by done. by rewrite Hok. }
  rewrite (ST_bind_Some _ _ _ (Some (if (P <=? 1)%nat then None else Some (replicate P None)))
    (set_counter (if (P <=? 1)%nat then S else (fun k => S (S k))) st)).
  - unfold set_super. rewrite (ST_bind_Some _ _ _ tt (set_supers <[counter st := shape id (2 * Z.of_nat P + 1) len res []]>
      (set_counter (if (P <=? 1)%nat then S else (fun k => S (S k))) st))); [done|].
    unfold modify. rewrite (ST_bind_Some get _ _ _ _ eq_refl). unfold put. f_equal. f_equal. f_equal. f_equal.
    unfold shape. rewrite wrap_small by lia. cbn. by rewrite Nat.sub_0_r.
  - destruct (P <=? 1)%nat; [by destruct st|]. unfold alloc.
    rewrite (ST_bind_Some _ _ _ (Some (S (counter st))) (set_counter (fun k => S (S k)) st)); [done|].
    rewrite (ST_bind_Some _ _ _ (S (counter st)) (set_counter (fun k => S (S k)) st)) by done. by rewrite Hok.
Qed.

Lemma get_old_eq id a len res st :
  super_requests_hash st !! id = Some a -> allreduce_super_request_get id len res st = Some (Some a, st).
Proof. intros Hh. unfold allreduce_super_request_get. rewrite (ST_bind_Some get _ st st st) by done. by rewrite Hh. Qed.

Lemma alloc_vec_eq st :
  (forall k, alloc_ok k = true) ->
  allreduce_aloc_vec_vecs_pool st =
    Some (Some (Pool (counter st)), set_vecs <[counter st := stale (counter st)]> (set_counter S st)).
Proof.
  intros Hok. unfold allreduce_aloc_vec_vecs_pool.
  rewrite (ST_bind_Some _ _ _ (Some (counter st)) (set_counter S st)); [done|].
  unfold alloc. rewrite (ST_bind_Some _ _ _ (counter st) (set_counter S st)) by done. by rewrite Hok.
Qed.
End Completion.
End Operations.
