(* ===== verification/AllreduceClient.v ===== *)
(** * Clients that exchange vectors with their peers

    The invariant of a non-offloaded client: what is in memory for each operation
    in progress, that every vector of the pool belongs to one of them, what was
    sent, and what the client's own vectors hold.  Each event keeps it. *)

From stdpp Require Import gmap list.
From S2P Require Import Prelude AllreduceReducer Allreduce AllreduceSpec.
#[local] Open Scope Z_scope.

Section Client.
Context (cfg : allreduce_config) `{Env : !Environment cfg}.
Notation vector := (list (element (datatype cfg))).
Notation P := (dest_num cfg).
Notation reduce := (reduce_vectors (operation cfg) (datatype cfg)).
Notation reduce_all := (reduce_list (operation cfg) (datatype cfg)).

(** The number of elements of operation [id], on all participants. *)
Context (size_of : Z -> nat).
Implicit Types (st : state cfg) (base : list vector) (hist : Z -> list vector) (id : Z).

(** ** Results *)

(** What the vector [x] becomes when the peers sent [ds], in this order. *)
Definition result (n : nat) (x : vector) (ds : list vector) : option vector :=
  match ds with
  | [] => Some x
  | d :: ds' => a ← reduce_all n d ds'; r ← reduce n (take n x) a; Some (r ++ drop n x)
  end.

(** ** An operation in progress

    [received] are the peers' vectors that arrived completely, with their
    addresses; [incoming] is one that is being received, with the number of the
    receive operation; [open_sends] are the sends that are not completed. *)
Record ghost := Ghost {
  addr : nat;
  received : list (nat * vector);
  incoming : option (nat * nat * vector);
  open_sends : gset nat
}.
Implicit Types (g : ghost) (G : gmap Z ghost).

Definition ptrs g : list nat :=
  map fst (received g) ++ match incoming g with Some (_, p, _) => [p] | None => [] end.
Definition datas g : list vector :=
  map snd (received g) ++ match incoming g with Some (_, _, d) => [d] | None => [] end.

(** What is in the buffer of a vector that was received. *)
Definition full (x : nat * vector) : vector := x.2 ++ drop (length x.2) (stale x.1).

(** The vectors of the pool: the first one is the reduction of all when they
    are complete. *)
Definition contents (n : nat) (l : list (nat * vector)) : option (list vector) :=
  if (length l =? P)%nat then
    match map full l with [] => Some [] | v :: vs => a ← reduce_all n v vs; Some (a :: vs) end
  else Some (map full l).

(** num_allreduce_operations; [sub]: the operation was submitted. *)
Definition remaining (sub : bool) g : Z :=
  2 * Z.of_nat P + 1 - Z.of_nat (length (received g))
  - (if sub then Z.of_nat P + 1 - Z.of_nat (size (open_sends g)) else 0).

(** The client's vector of an operation. *)
Definition idx id : nat := Z.to_nat (id `mod` batch_size cfg).

(** What is in memory for operation [id]; [extra] operations are not counted
    yet. *)
Record live (extra : Z) base st id g : Prop := {
  live_hash : super_requests_hash st !! id = Some (addr g);
  live_super : supers st !! addr g =
    Some (shape cfg id (remaining (id <? next_id st) g + extra) (size_of id)
            (if id <? next_id st then Some (Own (idx id)) else None) (ptrs g));
  live_contents : exists vs, contents (size_of id) (received g) = Some vs /\
    Forall2 (fun k v => vecs st !! k = Some v) (map fst (received g)) vs;
  live_incoming : forall k p d, incoming g = Some (k, p, d) ->
    vecs st !! p = Some (stale p) /\ ucx st !! k = Some (RecvVector (Pool p) d (addr g)) /\ (k < counter st)%nat;
  live_sends : forall k, k ∈ open_sends g -> ucx st !! k = Some (SendVector (addr g)) /\ (k < counter st)%nat;
  live_own : id < next_id st -> own st !! idx id = base !! idx id;
  live_sizes : Forall (fun d => length d = size_of id) (datas g);
  live_nodup : NoDup (ptrs g);
  live_length : (length (ptrs g) <= P)%nat;
  live_fresh : Forall (fun k => (k < counter st)%nat) (addr g :: ptrs g);
  live_open : (size (open_sends g) <= P)%nat;
  live_quiet : next_id st <= id -> open_sends g = ∅;
  live_waits : 1 <= remaining (id <? next_id st) g + extra
}.

(** The messages to peers for an operation. *)
Definition is_for id (m : message cfg) : bool := match m with ToPeer _ id' _ => id' =? id | _ => false end.
Definition sent_for id st : list (message cfg) := filter (fun m => is_for id m = true) (sent st).

Definition op_addr (op : ucx_request cfg) : option nat :=
  match op with SendVector a | RecvVector _ _ a => Some a | _ => None end.

(** ** The invariant

    [lo] is the first operation of the current batch and [base] the client's
    vectors when it began; [hist id] are the vectors peers sent for [id] so far.
    [busy] is an operation that has one operation to be counted. *)
Record inv (busy : option Z) (lo : Z) base hist st G : Prop := {
  inv_live : forall id g, G !! id = Some g -> live (if decide (busy = Some id) then 1 else 0) base st id g;
  inv_hash : forall id a, super_requests_hash st !! id = Some a -> is_Some (G !! id);
  inv_supers : forall a r, supers st !! a = Some r -> exists id g, G !! id = Some g /\ addr g = a;
  inv_vecs : forall k v, vecs st !! k = Some v -> exists id g, G !! id = Some g /\ k ∈ ptrs g;
  inv_apart : forall id1 id2 g1 g2 k,
    G !! id1 = Some g1 -> G !! id2 = Some g2 -> k ∈ ptrs g1 -> k ∈ ptrs g2 -> id1 = id2;
  inv_ucx : forall k op, ucx st !! k = Some op ->
    exists id g, G !! id = Some g /\ op_addr op = Some (addr g) /\
      (k ∈ open_sends g \/ exists p d, incoming g = Some (k, p, d));
  inv_requests : requests st = ∅;
  inv_errno : callback_errno st = DOCA_SUCCESS;
  inv_active : client_active st = Z.of_nat (size (filter (fun id => id < next_id st) (dom G)));
  inv_base : Z.of_nat (length base) = batch_size cfg /\ length (own st) = length base;
  inv_lengths : Forall (fun v => Z.of_nat (length v) = vector_size cfg) base /\
    Forall (fun v => Z.of_nat (length v) = vector_size cfg) (own st);
  inv_window : 0 <= lo <= next_id st /\ next_id st - lo <= batch_size cfg /\ next_id st < 2 ^ 64;
  inv_from : forall id g, G !! id = Some g -> lo <= id;
  inv_hist : forall id g, G !! id = Some g -> hist id = datas g;
  inv_absent : forall id, 0 <= id -> G !! id = None ->
    next_id st <= id /\ hist id = [] \/ id < next_id st /\ length (hist id) = P;
  inv_result : forall id, lo <= id < next_id st -> G !! id = None ->
    exists x r, base !! idx id = Some x /\ own st !! idx id = Some r /\ result (size_of id) x (hist id) = Some r;
  inv_unused : forall id, next_id st <= id < lo + batch_size cfg -> own st !! idx id = base !! idx id;
  inv_sent : forall id, lo <= id ->
    sent_for id st = if id <? next_id st
                     then map (fun j => ToPeer j id (take (size_of id) (default [] (base !! idx id)))) (seq 0 P) else []
}.

(** The operations of a batch use different vectors. *)
Lemma idx_apart busy lo base hist st G id1 id2 :
  inv busy lo base hist st G -> lo <= id1 < lo + batch_size cfg -> lo <= id2 < lo + batch_size cfg -> idx id1 = idx id2 ->
  id1 = id2.
Proof.
  intros HI H1 H2 E. unfold idx in E. destruct (inv_window _ _ _ _ _ _ HI) as (Hlo & Hw & _).
  assert (0 < batch_size cfg) by lia.
  pose proof (Z.mod_pos_bound id1 (batch_size cfg)). pose proof (Z.mod_pos_bound id2 (batch_size cfg)).
  assert (Em : id1 `mod` batch_size cfg = id2 `mod` batch_size cfg) by lia.
  pose proof (Z.div_mod id1 (batch_size cfg)). pose proof (Z.div_mod id2 (batch_size cfg)).
  assert (id1 / batch_size cfg = id2 / batch_size cfg); nia.
Qed.

(** The address of an operation determines it. *)
Lemma addr_apart busy lo base hist st G id1 id2 g1 g2 :
  inv busy lo base hist st G -> G !! id1 = Some g1 -> G !! id2 = Some g2 -> addr g1 = addr g2 -> id1 = id2.
Proof.
  intros HI H1 H2 E. pose proof (live_super _ _ _ _ _ (inv_live _ _ _ _ _ _ HI _ _ H1)) as S1.
  pose proof (live_super _ _ _ _ _ (inv_live _ _ _ _ _ _ HI _ _ H2)) as S2.
  rewrite E, S2 in S1. injection S1 as E1. unfold shape in E1. congruence.
Qed.

(** ** Steps on one operation

    What a step on operation [id] at address [a] leaves as it is. *)
Record frame (lo : Z) id (a : nat) (old : list nat) st st' : Prop := {
  frame_hash : forall id', id' <> id -> super_requests_hash st' !! id' = super_requests_hash st !! id';
  frame_supers : forall a', a' <> a -> supers st' !! a' = supers st !! a';
  frame_vecs : forall k, k ∉ old -> (k < counter st)%nat -> vecs st' !! k = vecs st !! k;
  frame_ucx : forall k op, op_addr op <> Some a -> ucx st !! k = Some op -> ucx st' !! k = Some op;
  frame_own : forall id', lo <= id' < lo + batch_size cfg -> id' <> id -> own st' !! idx id' = own st !! idx id';
  frame_counter : (counter st <= counter st')%nat;
  frame_requests : requests st' = requests st;
  frame_errno : callback_errno st' = callback_errno st;
  frame_sent : forall id', id' <> id -> sent_for id' st' = sent_for id' st;
  frame_next : next_id st' = next_id st \/
    id = next_id st /\ next_id st' = id + 1 /\ id + 1 - lo <= batch_size cfg /\ id + 1 < 2 ^ 64
}.

Lemma frame_sub lo id a old st st' id' :
  frame lo id a old st st' -> id' <> id -> (id' <? next_id st') = (id' <? next_id st).
Proof.
  intros F Hne. destruct (frame_next _ _ _ _ _ _ F) as [->|(-> & -> & _)]; [done|].
  destruct (Z.ltb_spec id' (next_id st + 1)), (Z.ltb_spec id' (next_id st)); lia.
Qed.

Lemma live_frame lo id a old st st' base id' g' :
  frame lo id a old st st' -> id' <> id -> addr g' <> a -> lo <= id' -> next_id st <= lo + batch_size cfg ->
  (forall k, k ∈ ptrs g' -> k ∉ old) -> live 0 base st id' g' -> live 0 base st' id' g'.
Proof.
  intros F Hne Ha Hlo Hw Hold [Lh Ls Lc Li Lo Lown Lsz Lnd Llen Lfr Lop Lq Lw].
  pose proof (frame_sub _ _ _ _ _ _ _ F Hne) as Esub.
  pose proof (frame_counter _ _ _ _ _ _ F) as Hc.
  assert (Hv : forall k, k ∈ ptrs g' -> vecs st' !! k = vecs st !! k).
  { intros k Hk. apply (frame_vecs _ _ _ _ _ _ F); [by apply Hold|].
    apply Forall_cons in Lfr as [_ Lfr]. rewrite Forall_forall in Lfr. by apply Lfr. }
  assert (Hsub : id' < next_id st' <-> id' < next_id st).
  { rewrite <- !Z.ltb_lt. by rewrite Esub. }
  split; try done.
  - by rewrite (frame_hash _ _ _ _ _ _ F).
  - rewrite (frame_supers _ _ _ _ _ _ F) by done. by rewrite Esub.
  - destruct Lc as (vs & E & Hall). exists vs. split; [done|].
    eapply Forall2_elem_impl; [exact Hall|]. intros k v Hk Hkv. cbn. rewrite Hv; [done|].
    unfold ptrs. apply elem_of_app. by left.
  - intros k p d E. destruct (Li _ _ _ E) as (? & ? & ?). split; [|split; [|lia]].
    + rewrite Hv; [done|]. unfold ptrs. rewrite E. apply elem_of_app. right. by left.
    + apply (frame_ucx _ _ _ _ _ _ F); [cbn; congruence|done].
  - intros k Hk. destruct (Lo _ Hk) as [? ?]. split; [|lia]. apply (frame_ucx _ _ _ _ _ _ F); [cbn; congruence|done].
  - intros Hlt. rewrite (frame_own _ _ _ _ _ _ F); [|lia|done]. apply Lown. lia.
  - eapply Forall_impl; [exact Lfr|]. cbn. intros. lia.
  - intros Hge. apply Lq. lia.
  - by rewrite Esub.
Qed.

(** What the step does with the operation itself. *)
Record effect (busy : option Z) (lo : Z) base hist' st st' id (a : nat) (old : list nat) (og : option ghost) : Prop := {
  effect_vecs : forall k v, vecs st' !! k = Some v -> k ∈ old \/ (counter st <= k)%nat ->
    exists g', og = Some g' /\ k ∈ ptrs g';
  effect_ucx : forall k op, ucx st' !! k = Some op -> ucx st !! k = Some op /\ op_addr op <> Some a \/
    exists g', og = Some g' /\ op_addr op = Some (addr g') /\ (k ∈ open_sends g' \/ exists p d, incoming g' = Some (k, p, d));
  effect_lengths : length (own st') = length (own st) /\ Forall (fun v => Z.of_nat (length v) = vector_size cfg) (own st');
  effect_ghost :
    match og with
    | Some g' => addr g' = a /\ live (if decide (busy = Some id) then 1 else 0) base st' id g' /\
        (forall k, k ∈ ptrs g' -> k ∈ old \/ (counter st <= k)%nat) /\ hist' id = datas g'
    | None => supers st' !! a = None /\ super_requests_hash st' !! id = None /\ id < next_id st' /\
        length (hist' id) = P /\
        exists x r, base !! idx id = Some x /\ own st' !! idx id = Some r /\ result (size_of id) x (hist' id) = Some r
    end;
  effect_own : next_id st' <= id -> own st' !! idx id = own st !! idx id;
  effect_sent : sent_for id st' = if id <? next_id st'
    then map (fun j => ToPeer j id (take (size_of id) (default [] (base !! idx id)))) (seq 0 P) else []
}.

Definition replace id (og : option ghost) G : gmap Z ghost :=
  match og with Some g' => <[id := g']> G | None => delete id G end.

Lemma replace_ne id og G id' : id' <> id -> replace id og G !! id' = G !! id'.
Proof. intros. destruct og; cbn; [by rewrite lookup_insert_ne|by rewrite lookup_delete_ne]. Qed.

Lemma replace_eq id og G : replace id og G !! id = og.
Proof. destruct og; cbn; [apply lookup_insert_eq|apply lookup_delete_eq]. Qed.

Definition old_ptrs id G : list nat := match G !! id with Some g => ptrs g | None => [] end.

(** Other operations have other addresses and vectors. *)
Lemma apart_others busy lo base hist st G id a :
  inv busy lo base hist st G -> match G !! id with Some g => addr g = a | None => (counter st <= a)%nat end ->
  forall id' g', id' <> id -> G !! id' = Some g' ->
    addr g' <> a /\ forall k, k ∈ ptrs g' -> k ∉ old_ptrs id G /\ (k < counter st)%nat.
Proof.
  intros HI Ha id' g' Hne H'.
  pose proof (live_fresh _ _ _ _ _ (inv_live _ _ _ _ _ _ HI _ _ H')) as Hf.
  apply Forall_cons in Hf as [Hf Hfs]. rewrite Forall_forall in Hfs. unfold old_ptrs.
  destruct (G !! id) as [g|] eqn:Hg.
  - split; [intros E; apply Hne; subst a; by eapply addr_apart|]. intros k Hk. split; [|by apply Hfs].
    intros Hk'. apply Hne. by eapply (inv_apart _ _ _ _ _ _ HI _ _ _ _ _ H' Hg).
  - split; [lia|]. intros k Hk. split; [by apply not_elem_of_nil|by apply Hfs].
Qed.

Lemma inv_step busy busy' lo base hist hist' st st' G id a og :
  inv busy lo base hist st G -> busy = None \/ busy = Some id -> busy' = None \/ busy' = Some id ->
  match G !! id with Some g => addr g = a | None => (counter st <= a)%nat end -> lo <= id ->
  frame lo id a (old_ptrs id G) st st' -> effect busy' lo base hist' st st' id a (old_ptrs id G) og ->
  (forall id', id' <> id -> hist' id' = hist id') ->
  client_active st' = Z.of_nat (size (filter (fun i => i < next_id st') (dom (replace id og G)))) ->
  inv busy' lo base hist' st' (replace id og G).
Proof.
  intros HI Hb Hb' Ha Hlo F [Ev Eu El Eg Eo Es] Hh Hact.
  pose proof (apart_others _ _ _ _ _ _ _ _ HI Ha) as Hother.
  assert (Haddr : forall id' g', id' <> id -> G !! id' = Some g' -> addr g' <> a) by (intros; by apply (Hother id' g')).
  assert (Hold : forall id' g' k, id' <> id -> G !! id' = Some g' -> k ∈ ptrs g' -> k ∉ old_ptrs id G /\ (k < counter st)%nat)
    by (intros id' g' k ? ?; by apply (Hother id' g')).
  assert (Hextra : forall id' b, b = None \/ b = Some id -> id' <> id -> (if decide (b = Some id') then 1 else 0) = 0).
  { intros id' b [->| ->] Hne; rewrite decide_False; congruence. }
  assert (Hsub : forall id', id' <> id -> (id' < next_id st' <-> id' < next_id st)).
  { intros id' Hne. rewrite <- !Z.ltb_lt. by rewrite (frame_sub _ _ _ _ _ _ _ F Hne). }
  destruct (inv_base _ _ _ _ _ _ HI) as [Hb1 Hb2]. destruct (inv_lengths _ _ _ _ _ _ HI) as [Hl1 Hl2].
  destruct (inv_window _ _ _ _ _ _ HI) as (Hw1 & Hw2 & Hw3).
  split.
  - intros id' g' H'. destruct (decide (id' = id)) as [->|Hne].
    + rewrite replace_eq in H'. subst og. by destruct Eg as (_ & ? & _).
    + rewrite replace_ne in H' by done. rewrite Hextra by done.
      eapply live_frame; [exact F|done|by eapply Haddr|by eapply inv_from|lia| |].
      * intros k Hk. by eapply (Hold id' g' k).
      * pose proof (inv_live _ _ _ _ _ _ HI _ _ H') as L. by rewrite Hextra in L.
  - intros id' a' H'. destruct (decide (id' = id)) as [->|Hne].
    + rewrite replace_eq. destruct og; [by eexists|]. destruct Eg as (_ & E & _). congruence.
    + rewrite replace_ne by done. rewrite (frame_hash _ _ _ _ _ _ F) in H' by done. by eapply inv_hash.
  - intros a' r H'. destruct (decide (a' = a)) as [->|Hne].
    + destruct og as [g'|]; [|by destruct Eg as (E & _); congruence]. destruct Eg as (E & _).
      exists id, g'. by rewrite replace_eq.
    + rewrite (frame_supers _ _ _ _ _ _ F) in H' by done. apply (inv_supers _ _ _ _ _ _ HI) in H' as (id' & g' & H' & E).
      exists id', g'. rewrite replace_ne; [done|]. intros ->. rewrite H' in Ha. congruence.
  - intros k v H'. destruct (decide (k ∈ old_ptrs id G \/ (counter st <= k)%nat)) as [Hk|Hk].
    + destruct (Ev _ _ H' Hk) as (g' & -> & ?). exists id, g'. by rewrite replace_eq.
    + rewrite (frame_vecs _ _ _ _ _ _ F) in H' by (first [lia | tauto]).
      apply (inv_vecs _ _ _ _ _ _ HI) in H' as (id' & g' & H' & Hkg). exists id', g'. rewrite replace_ne; [done|].
      intros ->. apply Hk. left. unfold old_ptrs. by rewrite H'.
  - intros id1 id2 g1 g2 k H1 H2 K1 K2.
    destruct (decide (id1 = id)) as [->|N1], (decide (id2 = id)) as [->|N2]; [done|..].
    + rewrite replace_eq in H1. rewrite replace_ne in H2 by done. subst og. destruct Eg as (_ & _ & Hp & _).
      destruct (Hold _ _ _ N2 H2 K2) as [? ?]. destruct (Hp _ K1); [done|lia].
    + rewrite replace_eq in H2. rewrite replace_ne in H1 by done. subst og. destruct Eg as (_ & _ & Hp & _).
      destruct (Hold _ _ _ N1 H1 K1) as [? ?]. destruct (Hp _ K2); [done|lia].
    + rewrite replace_ne in H1, H2 by done. by eapply (inv_apart _ _ _ _ _ _ HI).
  - intros k op H'. destruct (Eu _ _ H') as [[H1 H2]|(g' & -> & ? & ?)].
    + destruct (inv_ucx _ _ _ _ _ _ HI _ _ H1) as (id' & g' & Hg' & Hop & Hk). exists id', g'.
      rewrite replace_ne; [done|]. intros ->. rewrite Hg' in Ha. congruence.
    + exists id, g'. by rewrite replace_eq.
  - rewrite (frame_requests _ _ _ _ _ _ F). by eapply inv_requests.
  - rewrite (frame_errno _ _ _ _ _ _ F). by eapply inv_errno.
  - done.
  - split; [done|]. destruct El. congruence.
  - split; [done|]. by destruct El.
  - destruct (frame_next _ _ _ _ _ _ F) as [->|(-> & -> & ? & ?)]; lia.
  - intros id' g' H'. destruct (decide (id' = id)) as [->|Hne]; [done|]. rewrite replace_ne in H' by done. by eapply inv_from.
  - intros id' g' H'. destruct (decide (id' = id)) as [->|Hne].
    + rewrite replace_eq in H'. subst og. by destruct Eg as (_ & _ & _ & ?).
    + rewrite replace_ne in H' by done. rewrite Hh by done. by eapply inv_hist.
  - intros id' H0 H'. destruct (decide (id' = id)) as [->|Hne].
    + rewrite replace_eq in H'. subst og. right. by destruct Eg as (_ & _ & ? & ? & _).
    + rewrite replace_ne in H' by done. rewrite Hh by done. specialize (Hsub id' Hne).
      destruct (inv_absent _ _ _ _ _ _ HI id' H0 H') as [[? ?]|[? ?]]; [left|right]; (split; [lia|done]).
  - intros id' Hw H'. destruct (decide (id' = id)) as [->|Hne].
    + rewrite replace_eq in H'. subst og. by destruct Eg as (_ & _ & _ & _ & ?).
    + rewrite replace_ne in H' by done. rewrite Hh by done. specialize (Hsub id' Hne).
      rewrite (frame_own _ _ _ _ _ _ F) by lia. apply (inv_result _ _ _ _ _ _ HI); [lia|done].
  - intros id' Hw. pose proof (frame_next _ _ _ _ _ _ F) as Hn. destruct (decide (id' = id)) as [->|Hne].
    + rewrite Eo by lia. apply (inv_unused _ _ _ _ _ _ HI). lia.
    + rewrite (frame_own _ _ _ _ _ _ F) by (lia || done). apply (inv_unused _ _ _ _ _ _ HI). lia.
  - intros id' Hle. destruct (decide (id' = id)) as [->|Hne]; [done|].
    rewrite (frame_sent _ _ _ _ _ _ F), (frame_sub _ _ _ _ _ _ _ F) by done. by apply (inv_sent _ _ _ _ _ _ HI).
Qed.

(** ** The client and its environment *)

(** A non-offloaded client whose allocations succeed and whose operations do not
    fail, with vectors of the configured size.  Overflowing sums of ints are
    undefined; the other types are total. *)
Record cooperative : Prop := {
  coop_role : role cfg = ALLREDUCE_CLIENT;
  coop_mode : mode cfg = ALLREDUCE_NON_OFFLOADED_MODE;
  coop_type : datatype cfg <> ALLREDUCE_INT;
  coop_alloc : forall k, alloc_ok k = true;
  coop_ucx : forall k, ucx_outcome k <> Failed;
  coop_stale : forall k, Z.of_nat (length (stale k)) = vector_size cfg;
  coop_sizes : forall id, Z.of_nat (size_of id) <= vector_size cfg;
  coop_peers : 2 * Z.of_nat P + 2 < 2 ^ 64
}.

Context (Hcoop : cooperative).

Lemma reduce_all_length n d l r :
  (n <= length d)%nat -> Forall (fun v : vector => (n <= length v)%nat) l -> reduce_all n d l = Some r -> length r = length d.
Proof.
  intros Hd Hl E. destruct (reduce_list_total (operation cfg) (datatype cfg) n d l (coop_type Hcoop) Hd Hl) as (r' & E' & Hr').
  congruence.
Qed.

Lemma contents_result n x st (l : list (nat * vector)) vs :
  Z.of_nat n <= vector_size cfg -> Z.of_nat (length x) = vector_size cfg -> length l = P ->
  Forall (fun d => length d = n) (map snd l) -> contents n l = Some vs ->
  Forall2 (fun k v => vecs st !! k = Some v) (map fst l) vs ->
  exists r, result_of cfg n x r (map fst l) st /\ result n x (map snd l) = Some r /\ length r = length x.
Proof.
  intros Hn Hx Hl Hsz Hc Hall. unfold contents in Hc. rewrite (proj2 (Nat.eqb_eq _ _)) in Hc by done.
  destruct l as [|[k d] l]; [by exists x|]. cbn [map fst snd] in *. apply Forall_cons in Hsz as [Hd Hsz].
  pose proof (coop_stale Hcoop) as Hstale.
  assert (Efull : map full l = zip_with app (map snd l) (map (fun y => drop n (stale y.1)) l)).
  { clear -Hsz. induction l as [|[k d] l IH]; [done|]. apply Forall_cons in Hsz as [Hd Hsz]. cbn in *. by rewrite IH, <- Hd. }
  change (full (k, d)) with (d ++ drop (length d) (stale k)) in Hc. rewrite Efull, Hd, reduce_list_app in Hc by (rewrite ?length_map; done).
  destruct (reduce_all n d (map snd l)) as [a|] eqn:Ea; [|done]. injection Hc as <-.
  apply Forall2_cons in Hall as [Hk _].
  assert (Hla : length a = n).
  { rewrite (reduce_all_length n d (map snd l) a); [done|lia| |done]. eapply Forall_impl; [exact Hsz|]. cbn. intros. lia. }
  destruct (reduce_total (operation cfg) (datatype cfg) n (take n x) a (coop_type Hcoop)) as (r & Er & Hr);
    [rewrite length_take; lia|lia|].
  exists (r ++ drop n x). split; [|split].
  - exists (a ++ drop n (stale k)). split; [done|].
    rewrite <- (take_drop n x) at 1. rewrite reduce_app by (rewrite ?length_take; lia). by rewrite Er.
  - cbn [result]. rewrite Ea. cbn [mbind option_bind]. by rewrite Er.
  - rewrite length_app, Hr, length_take, length_drop. lia.
Qed.

(** ** Completion of an operation that is counted *)

Lemma filter_dom_same G id (Q : Z -> Prop) `{!forall i, Decision (Q i)} g g' :
  G !! id = Some g -> filter Q (dom (<[id := g']> G)) = filter Q (dom G).
Proof.
  intros HG. apply set_eq. intros i. rewrite !elem_of_filter, !elem_of_dom.
  destruct (decide (i = id)) as [->|Hne]; [rewrite lookup_insert_eq, HG; split; intros [? _]; (split; [done|by eexists])|].
  by rewrite lookup_insert_ne.
Qed.

Lemma filter_dom_delete G id (Q : Z -> Prop) `{!forall i, Decision (Q i)} g :
  G !! id = Some g -> Q id -> size (filter Q (dom G)) = S (size (filter Q (dom (delete id G)))).
Proof.
  intros HG HQ. replace (filter Q (dom G)) with ({[ id ]} ∪ filter Q (dom (delete id G))).
  - rewrite size_union, size_singleton; [done|]. rewrite disjoint_singleton_l, elem_of_filter, elem_of_dom.
    rewrite lookup_delete_eq. intros [_ [? ?]]. done.
  - apply set_eq. intros i. rewrite elem_of_union, elem_of_singleton, !elem_of_filter, !elem_of_dom.
    destruct (decide (i = id)) as [->|Hne].
    + rewrite HG. split; [|by left]. intros _. split; [done|by eexists].
    + rewrite lookup_delete_ne by done. split; [intros [?|?]|]; [done|done|by right].
Qed.

Lemma active_bound busy lo base hist st G :
  inv busy lo base hist st G -> Z.of_nat (size (filter (fun i => i < next_id st) (dom G))) <= next_id st - lo.
Proof.
  intros HI. destruct (inv_window _ _ _ _ _ _ HI) as (Hw & _).
  transitivity (Z.of_nat (size (list_to_set (seqZ lo (next_id st - lo)) : gset Z))).
  - apply inj_le, subseteq_size. intros i [Hi [g Hg]%elem_of_dom]%elem_of_filter.
    apply elem_of_list_to_set, elem_of_seqZ. pose proof (inv_from _ _ _ _ _ _ HI _ _ Hg). lia.
  - rewrite size_list_to_set by apply NoDup_seqZ. rewrite length_seqZ. lia.
Qed.

(** What is common to the completions of one operation. *)
Lemma complete_facts lo base hist st G id g :
  inv (Some id) lo base hist st G -> G !! id = Some g ->
  live 1 base st id g /\ lo <= id /\ (length (received g) <= P)%nat /\
  remaining (id <? next_id st) g <= 2 * Z.of_nat P + 1.
Proof.
  intros HI Hg. pose proof (inv_live _ _ _ _ _ _ HI _ _ Hg) as L. rewrite decide_True in L by done.
  assert (Hrec : (length (received g) <= P)%nat).
  { pose proof (live_length _ _ _ _ _ L) as Hl. unfold ptrs in Hl. rewrite length_app, length_map in Hl. lia. }
  pose proof (live_open _ _ _ _ _ L) as Hopen.
  split; [done|]. split; [by eapply inv_from|]. split; [done|]. unfold remaining; destruct (id <? next_id st); lia.
Qed.

(** The last completion stores the result and gives everything back. *)
Lemma complete_last_inv lo base hist st G id g :
  inv (Some id) lo base hist st G -> G !! id = Some g -> remaining (id <? next_id st) g = 0 ->
  exists st', allreduce_complete_operation_callback (addr g) true st = Some (DOCA_SUCCESS, st') /\
    inv None lo base hist st' (delete id G) /\ next_id st' = next_id st.
Proof.
  intros HI Hg E0. destruct (complete_facts _ _ _ _ _ _ _ HI Hg) as (L & Hlo & Hrec & Hrem).
  pose proof (coop_peers Hcoop) as HP. pose proof (live_open _ _ _ _ _ L) as Hopen.
  assert (Hsub : id < next_id st).
  { destruct (Z.ltb_spec id (next_id st)) as [?|Hge]; [done|]. unfold remaining in E0.
    destruct (Z.ltb_spec id (next_id st)); lia. }
  rewrite (proj2 (Z.ltb_lt _ _) Hsub) in *.
  assert (Hall : length (received g) = P) by (unfold remaining in E0; lia).
  assert (Hnone : incoming g = None).
  { pose proof (live_length _ _ _ _ _ L) as Hl. unfold ptrs in Hl. rewrite length_app, length_map in Hl.
    destruct (incoming g) as [[[? ?] ?]|]; [cbn in Hl; lia|done]. }
  assert (Hps : ptrs g = map fst (received g)) by (unfold ptrs; by rewrite Hnone, app_nil_r).
  assert (Hds : datas g = map snd (received g)) by (unfold datas; by rewrite Hnone, app_nil_r).
  assert (Hos : open_sends g = ∅) by (apply leibniz_equiv, size_empty_inv; unfold remaining in E0; lia).
  destruct (inv_base _ _ _ _ _ _ HI) as [Hb1 Hb2]. destruct (inv_lengths _ _ _ _ _ _ HI) as [Hl1 Hl2].
  destruct (inv_window _ _ _ _ _ _ HI) as (Hw1 & Hw2 & Hw3).
  assert (Hidx : (idx id < length base)%nat).
  { unfold idx. pose proof (Z.mod_pos_bound id (batch_size cfg)). lia. }
  destruct (lookup_lt_is_Some_2 base (idx id) Hidx) as [x Hx].
  assert (Hox : own st !! idx id = Some x) by (by rewrite (live_own _ _ _ _ _ L)).
  assert (Hxl : Z.of_nat (length x) = vector_size cfg).
  { rewrite Forall_forall in Hl1. apply Hl1. by eapply list_elem_of_lookup_2. }
  destruct (live_contents _ _ _ _ _ L) as (vs & Hvs & Hall2).
  pose proof (live_sizes _ _ _ _ _ L) as Hsz. rewrite Hds in Hsz.
  destruct (contents_result (size_of id) x st (received g) vs (coop_sizes Hcoop id) Hxl Hall Hsz Hvs Hall2)
    as (r & Hr & Hres & Hrl).
  pose proof (live_super _ _ _ _ _ L) as Hs. rewrite (proj2 (Z.ltb_lt _ _) Hsub), E0 in Hs.
  assert (Hin : Forall (fun k => is_Some (vecs st !! k)) (ptrs g)).
  { rewrite Hps. rewrite Forall_lookup. intros j k Hk.
    destruct (Forall2_lookup_l _ _ _ _ _ Hall2 Hk) as (v & _ & Hv). by eexists. }
  rewrite <- Hps in Hr.
  eexists. split; [|split].
  - apply (complete_last cfg (addr g) id (size_of id) (idx id) x r (ptrs g) st); try done; try apply L.
    by apply (coop_role Hcoop).
  - eapply (inv_step (Some id) None lo base hist hist st _ G id (addr g) None); try done; try (by left); try (by right).
    + by rewrite Hg.
    + unfold old_ptrs. rewrite Hg. split; try done; cbn [vecs own supers super_requests_hash requests ucx sent next_id callback_errno counter].
      *  intros id' Hne. by rewrite lookup_delete_ne.
      *  intros a' Hne. by rewrite lookup_delete_ne.
      *  intros k Hk _. rewrite del_lookup. by rewrite decide_False.
      *  intros id' Hid' Hne. rewrite list_lookup_insert_ne; [done|]. intros E. apply Hne.
         eapply idx_apart; [exact HI|..]; [lia|lia|done].
      *  by left.
    + unfold old_ptrs. rewrite Hg. split; cbn [vecs own supers super_requests_hash requests ucx sent next_id callback_errno counter].
      *  intros k v Hv [Hk|Hk]; rewrite del_lookup in Hv.
         -- by rewrite decide_True in Hv.
         -- case_decide; [done|]. apply (inv_vecs _ _ _ _ _ _ HI) in Hv as (id' & g' & Hg' & Hk').
            pose proof (live_fresh _ _ _ _ _ (inv_live _ _ _ _ _ _ HI _ _ Hg')) as Hf.
            apply Forall_cons in Hf as [_ Hf]. rewrite Forall_forall in Hf. specialize (Hf _ Hk'). lia.
      *  intros k op Hk. left. split; [done|]. intros Hop.
         destruct (inv_ucx _ _ _ _ _ _ HI _ _ Hk) as (id' & g' & Hg' & Hop' & Hkeys).
         assert (id' = id) as -> by (eapply addr_apart; [exact HI|exact Hg'|exact Hg|congruence]).
         rewrite Hg in Hg'. injection Hg' as <-. rewrite Hos, Hnone in Hkeys. set_solver.
      *  rewrite length_insert. split; [done|]. apply Forall_insert; [done|]. by rewrite Hrl.
      *  rewrite !lookup_delete_eq. split; [done|]. split; [done|]. split; [done|].
         rewrite (inv_hist _ _ _ _ _ _ HI _ _ Hg), Hds, length_map. split; [done|].
         exists x, r. split; [done|]. split; [|done]. apply list_lookup_insert_eq. lia.
      *  lia.
      *  apply (inv_sent _ _ _ _ _ _ HI). done.
    + cbn [client_active next_id replace]. rewrite (inv_active _ _ _ _ _ _ HI).
      pose proof (active_bound _ _ _ _ _ _ HI) as Hbound.
      rewrite (filter_dom_delete G id _ g Hg Hsub) in *. rewrite wrap_small; lia.
  - done.
Qed.

(** Another completion is only counted. *)
Lemma complete_more_inv lo base hist st G id g :
  inv (Some id) lo base hist st G -> G !! id = Some g -> remaining (id <? next_id st) g <> 0 ->
  exists st', allreduce_complete_operation_callback (addr g) true st = Some (DOCA_SUCCESS, st') /\
    inv None lo base hist st' (<[id := g]> G) /\ next_id st' = next_id st.
Proof.
  intros HI Hg N0. destruct (complete_facts _ _ _ _ _ _ _ HI Hg) as (L & Hlo & Hrec & Hrem).
  pose proof (coop_peers Hcoop) as HP. pose proof (live_waits _ _ _ _ _ L) as Hw.
  pose proof (live_super _ _ _ _ _ L) as Hs.
  eexists. split; [|split].
  - eapply complete_more; [exact Hs|lia].
  - replace (remaining (id <? next_id st) g + 1 - 1) with (remaining (id <? next_id st) g + 0) by lia.
    eapply (inv_step (Some id) None lo base hist hist st _ G id (addr g) (Some g)); try done; try (by left); try (by right).
    + by rewrite Hg.
    + unfold old_ptrs. rewrite Hg. split; try done.
      *  intros a' Hne. cbn. by rewrite lookup_insert_ne.
      *  by left.
    + unfold old_ptrs. rewrite Hg. split.
      *  intros k v Hv [Hk|Hk]; [by exists g|]. cbn in Hv. apply (inv_vecs _ _ _ _ _ _ HI) in Hv as (id' & g' & Hg' & Hk').
         pose proof (live_fresh _ _ _ _ _ (inv_live _ _ _ _ _ _ HI _ _ Hg')) as Hf.
         apply Forall_cons in Hf as [_ Hf]. rewrite Forall_forall in Hf. specialize (Hf _ Hk'). lia.
      *  intros k op Hk. destruct (inv_ucx _ _ _ _ _ _ HI _ _ Hk) as (id' & g' & Hg' & Hop' & Hkeys).
         destruct (decide (op_addr op = Some (addr g))) as [Hop|Hop]; [right|by left].
         assert (id' = id) as -> by (eapply addr_apart; [exact HI|exact Hg'|exact Hg|congruence]).
         rewrite Hg in Hg'. injection Hg' as <-. by exists g.
      *  split; [done|]. by apply (inv_lengths _ _ _ _ _ _ HI).
      *  split; [done|]. rewrite decide_False by done. split; [|split; [by left|by apply (inv_hist _ _ _ _ _ _ HI)]].
         destruct L as [Lh Ls Lc Li Lo Lown Lsz Lnd Llen Lfr Lop Lq Lw]. split; try done.
         -- cbn. by rewrite lookup_insert_eq.
         -- cbn [next_id set_supers] in *. lia.
      *  done.
      *  by apply (inv_sent _ _ _ _ _ _ HI).
    + cbn [client_active next_id set_supers replace]. rewrite (inv_active _ _ _ _ _ _ HI).
      by rewrite (filter_dom_same G id _ g g Hg).
  - done.
Qed.

Lemma complete_inv lo base hist st G id g :
  inv (Some id) lo base hist st G -> G !! id = Some g ->
  exists st' og, allreduce_complete_operation_callback (addr g) true st = Some (DOCA_SUCCESS, st') /\
    inv None lo base hist st' (replace id og G) /\ next_id st' = next_id st.
Proof.
  intros HI Hg. destruct (Z.eq_dec (remaining (id <? next_id st) g) 0) as [E0|N0].
  - destruct (complete_last_inv _ _ _ _ _ _ _ HI Hg E0) as (st' & ?). by exists st', None.
  - destruct (complete_more_inv _ _ _ _ _ _ _ HI Hg N0) as (st' & ?). by exists st', (Some g).
Qed.

(** ** Completions *)

Lemma in_old G id g k : G !! id = Some g -> k ∈ ptrs g -> k ∈ old_ptrs id G.
Proof. unfold old_ptrs. by intros ->. Qed.

Lemma no_new_vecs busy lo base hist st G k v :
  inv busy lo base hist st G -> vecs st !! k = Some v -> (k < counter st)%nat.
Proof.
  intros HI Hv. apply (inv_vecs _ _ _ _ _ _ HI) in Hv as (id' & g' & Hg' & Hk').
  pose proof (live_fresh _ _ _ _ _ (inv_live _ _ _ _ _ _ HI _ _ Hg')) as Hf.
  apply Forall_cons in Hf as [_ Hf]. rewrite Forall_forall in Hf. by apply Hf.
Qed.

(** An operation of UCX belongs to one operation in progress. *)
Lemma ucx_owner busy lo base hist st G id g k op :
  inv busy lo base hist st G -> G !! id = Some g -> ucx st !! k = Some op -> op_addr op = Some (addr g) ->
  (k ∈ open_sends g /\ op = SendVector (addr g)) \/
  (k ∉ open_sends g /\ exists p d, incoming g = Some (k, p, d) /\ op = RecvVector (Pool p) d (addr g)).
Proof.
  intros HI Hg Hk Hop. destruct (inv_ucx _ _ _ _ _ _ HI _ _ Hk) as (id' & g' & Hg' & Hop' & Hkeys).
  assert (id' = id) as -> by (eapply addr_apart; [exact HI|exact Hg'|exact Hg|congruence]).
  rewrite Hg in Hg'. injection Hg' as <-. pose proof (inv_live _ _ _ _ _ _ HI _ _ Hg) as L.
  destruct Hkeys as [Ho|(p & d & Hi)].
  - left. split; [done|]. destruct (live_sends _ _ _ _ _ L _ Ho). congruence.
  - right. destruct (live_incoming _ _ _ _ _ L _ _ _ Hi) as (_ & E & _). split.
    + intros Ho. destruct (live_sends _ _ _ _ _ L _ Ho). congruence.
    + exists p, d. split; [done|]. congruence.
Qed.

Lemma ucx_fresh busy lo base hist st G k :
  inv busy lo base hist st G -> (counter st <= k)%nat -> ucx st !! k = None.
Proof.
  intros HI Hc. destruct (ucx st !! k) as [op|] eqn:E; [|done].
  destruct (inv_ucx _ _ _ _ _ _ HI _ _ E) as (id & g & Hg & _ & Hk).
  pose proof (inv_live _ _ _ _ _ _ HI _ _ Hg) as L. destruct Hk as [Hk|(p & d & Hk)].
  - destruct (live_sends _ _ _ _ _ L _ Hk). lia.
  - destruct (live_incoming _ _ _ _ _ L _ _ _ Hk) as (_ & _ & ?). lia.
Qed.

Lemma completion_send_inv lo base hist st G id g k :
  inv None lo base hist st G -> G !! id = Some g -> k ∈ open_sends g ->
  inv (Some id) lo base hist (set_ucx (delete k) st)
    (<[id := Ghost (addr g) (received g) (incoming g) (open_sends g ∖ {[ k ]})]> G).
Proof.
  intros HI Hg Hk. pose proof (inv_live _ _ _ _ _ _ HI _ _ Hg) as L. rewrite decide_False in L by done.
  assert (Hsub : id < next_id st).
  { destruct (Z.ltb_spec id (next_id st)); [done|]. rewrite (live_quiet _ _ _ _ _ L) in Hk by done. set_solver. }
  assert (Hsize : size (open_sends g) = S (size (open_sends g ∖ {[ k ]}))).
  { rewrite (union_difference_L {[ k ]} (open_sends g)) at 1 by set_solver.
    rewrite size_union by set_solver. by rewrite size_singleton. }
  eapply (inv_step None (Some id) lo base hist hist st _ G id (addr g) (Some _)); try done; try (by left); try (by right).
  - by rewrite Hg.
  - by eapply inv_from.
  - split; try done; [|by left]. intros k' op Hop Hk'. cbn. rewrite lookup_delete_ne; [done|]. intros <-.
    destruct (live_sends _ _ _ _ _ L _ Hk) as [E _]. rewrite Hk' in E. injection E as ->. by apply Hop.
  - split.
    + intros k' v Hv [Hk'|Hk'].
      * unfold old_ptrs in Hk'. rewrite Hg in Hk'. by eexists.
      * change (vecs st !! k' = Some v) in Hv. eapply no_new_vecs in Hv; [|exact HI]. lia.
    + intros k' op Hk'. cbn in Hk'. destruct (decide (k' = k)) as [->|Hne]; [by rewrite lookup_delete_eq in Hk'|].
      rewrite lookup_delete_ne in Hk' by done. destruct (decide (op_addr op = Some (addr g))) as [Hop|Hop]; [right|by left].
      eexists. split; [done|]. split; [done|].
      destruct (ucx_owner _ _ _ _ _ _ _ _ _ _ HI Hg Hk' Hop) as [[? _]|(_ & p & d & ? & _)]; [left; cbn; set_solver|].
      right. by exists p, d.
    + split; [done|]. by apply (inv_lengths _ _ _ _ _ _ HI).
    + split; [done|]. rewrite decide_True by done. split; [|split].
      * destruct L as [Lh Ls Lc Li Lo Lown Lsz Lnd Llen Lfr Lop Lq Lw].
        assert (Erem : remaining true (Ghost (addr g) (received g) (incoming g) (open_sends g ∖ {[ k ]})) + 1 = remaining true g + 0)
          by (unfold remaining; cbn [received open_sends]; lia).
        rewrite (proj2 (Z.ltb_lt _ _) Hsub) in *.
        split; try done; cbn [next_id set_ucx]; rewrite ?(proj2 (Z.ltb_lt _ _) Hsub).
        -- rewrite Erem. done.
        -- intros k' p d E. destruct (Li _ _ _ E) as (? & E2 & ?). split; [done|]. split; [|done]. cbn.
           rewrite lookup_delete_ne; [done|]. intros <-. destruct (Lo _ Hk). congruence.
        -- cbn [open_sends]. intros k' Hk'. destruct (Lo k') as [? ?]; [set_solver|]. split; [|done]. cbn.
           rewrite lookup_delete_ne; [done|]. set_solver.
        -- cbn [open_sends]. lia.
        -- intros ?. lia.
        -- rewrite Erem. done.
      * intros k' Hk'. left. by eapply in_old.
      * by apply (inv_hist _ _ _ _ _ _ HI id g).
    + done.
    + apply (inv_sent _ _ _ _ _ _ HI). by eapply inv_from.
  - cbn [client_active next_id set_ucx replace]. rewrite (inv_active _ _ _ _ _ _ HI).
    by rewrite (filter_dom_same G id _ g _ Hg).
Qed.

Lemma full_length k d n : Z.of_nat n <= vector_size cfg -> length d = n -> Z.of_nat (length (full (k, d))) = vector_size cfg.
Proof.
  intros Hn Hd. unfold full. cbn. pose proof (coop_stale Hcoop k). rewrite length_app, length_drop. lia.
Qed.

Lemma reduce_full n x l :
  Z.of_nat n <= vector_size cfg -> Forall (fun d => length d = n) (map snd (x :: l)) ->
  is_Some (reduce_all n (full x) (map full l)).
Proof.
  intros Hn Hl. assert (Hf : Forall (fun v : vector => (n <= length v)%nat) (map full (x :: l))).
  { rewrite Forall_forall in Hl. apply Forall_forall. intros v (y & -> & Hy)%list_elem_of_fmap. destruct y as [k d].
    pose proof (full_length k d n Hn) as Hfl. enough (length d = n) by lia. apply Hl.
    by apply (list_elem_of_fmap_2 snd _ (k, d)). }
  apply Forall_cons in Hf as [H1 H2].
  destruct (reduce_list_total (operation cfg) (datatype cfg) n (full x) (map full l) (coop_type Hcoop) H1 H2) as (r & -> & _).
  by eexists.
Qed.

(** The last of the vectors makes the reduction of all. *)
Lemma contents_gathered n x l acc :
  (length (x :: l) = P -> reduce_all n (full x) (map full l) = Some acc) ->
  contents n (x :: l) = Some (if (length (x :: l) =? P)%nat then acc :: map full l else map full (x :: l)).
Proof.
  intros Hacc. unfold contents. destruct (Nat.eqb_spec (length (x :: l)) P) as [E|E]; [|done].
  cbn [map]. by rewrite (Hacc E).
Qed.

(** The state when a receive operation is complete, [m] being the vectors. *)
Definition arrived (m : gmap nat vector) k st : state cfg := set_vecs (fun _ => m) (set_ucx (delete k) st).

Lemma arrived_live lo base hist st G id g k p d vs m :
  inv None lo base hist st G -> G !! id = Some g -> incoming g = Some (k, p, d) ->
  contents (size_of id) (received g ++ [(p, d)]) = Some vs ->
  Forall2 (fun q v => m !! q = Some v) (ptrs g) vs ->
  live 1 base (arrived m k st) id (Ghost (addr g) (received g ++ [(p, d)]) None (open_sends g)).
Proof.
  intros HI Hg Hin Hc Hall. pose proof (inv_live _ _ _ _ _ _ HI _ _ Hg) as [Lh Ls Lc Li Lo Lown Lsz Lnd Llen Lfr Lop Lq Lw].
  rewrite decide_False in * by done. set (g' := Ghost _ _ _ _).
  assert (Hp : ptrs g' = ptrs g) by (unfold g', ptrs; cbn; by rewrite Hin, app_nil_r, map_app).
  assert (Hd : datas g' = datas g) by (unfold g', datas; cbn; by rewrite Hin, app_nil_r, map_app).
  assert (Erem : forall b, remaining b g' + 1 = remaining b g + 0).
  { intros b. unfold remaining, g'. cbn [received open_sends]. rewrite length_app. cbn. lia. }
  split; cbn [arrived set_vecs set_ucx vecs own supers super_requests_hash ucx next_id counter];
    rewrite ?Hp, ?Hd, ?Erem; try done.
  - exists vs. split; [done|]. by replace (map fst (received g')) with (ptrs g) by (rewrite <- Hp; apply app_nil_r).
  - intros q Hq. destruct (Lo _ Hq) as [Lo1 ?]. split; [|done]. rewrite lookup_delete_ne; [done|].
    intros <-. destruct (Li _ _ _ Hin) as (_ & E & _). congruence.
Qed.

Lemma arrived_inv lo base hist st G id g k p d vs m :
  inv None lo base hist st G -> G !! id = Some g -> incoming g = Some (k, p, d) ->
  (forall q, q ∉ ptrs g -> m !! q = vecs st !! q) ->
  contents (size_of id) (received g ++ [(p, d)]) = Some vs ->
  Forall2 (fun q v => m !! q = Some v) (ptrs g) vs ->
  inv (Some id) lo base hist (arrived m k st) (<[id := Ghost (addr g) (received g ++ [(p, d)]) None (open_sends g)]> G).
Proof.
  intros HI Hg Hin Hm Hc Hall. pose proof (arrived_live _ _ _ _ _ _ _ _ _ _ _ _ HI Hg Hin Hc Hall) as L'.
  pose proof (inv_live _ _ _ _ _ _ HI _ _ Hg) as L. rewrite decide_False in L by done. set (g' := Ghost _ _ _ _) in *.
  destruct (live_incoming _ _ _ _ _ L _ _ _ Hin) as (_ & Hk & _).
  assert (Hp : ptrs g' = ptrs g) by (unfold g', ptrs; cbn; by rewrite Hin, app_nil_r, map_app).
  assert (Hd : datas g' = datas g) by (unfold g', datas; cbn; by rewrite Hin, app_nil_r, map_app).
  assert (Hold : old_ptrs id G = ptrs g) by (unfold old_ptrs; by rewrite Hg).
  eapply (inv_step None (Some id) lo base hist hist st _ G id (addr g) (Some g')); try done; try (by left); try (by right).
  - by rewrite Hg.
  - by eapply inv_from.
  - rewrite Hold. split; try done; [| |by left].
    + intros q Hq _. by apply Hm.
    + intros k' op Hop Hk'. cbn. rewrite lookup_delete_ne; [done|]. intros <-. rewrite Hk in Hk'. injection Hk' as <-. by apply Hop.
  - rewrite Hold. split; cbn [arrived set_vecs set_ucx vecs own ucx].
    + intros q v Hv Hq. exists g'. split; [done|]. rewrite Hp. destruct (decide (q ∈ ptrs g)) as [?|Hn]; [done|].
      destruct Hq as [?|Hq]; [done|]. rewrite Hm in Hv by done. eapply no_new_vecs in Hv; [|exact HI]. lia.
    + intros k' op Hk'. destruct (decide (k' = k)) as [->|Hne]; [by rewrite lookup_delete_eq in Hk'|].
      rewrite lookup_delete_ne in Hk' by done. destruct (decide (op_addr op = Some (addr g))) as [Hop|Hop]; [right|by left].
      exists g'. split; [done|]. split; [done|].
      destruct (ucx_owner _ _ _ _ _ _ _ _ _ _ HI Hg Hk' Hop) as [[? _]|(_ & q & d' & E & _)]; [by left|].
      rewrite Hin in E. congruence.
    + split; [done|]. by apply (inv_lengths _ _ _ _ _ _ HI).
    + rewrite decide_True by done. split; [done|]. split; [exact L'|]. rewrite Hp, Hd. split; [by left|]. by apply (inv_hist _ _ _ _ _ _ HI).
    + done.
    + apply (inv_sent _ _ _ _ _ _ HI). by eapply inv_from.
  - cbn [client_active next_id arrived set_vecs set_ucx replace]. rewrite (inv_active _ _ _ _ _ _ HI).
    by rewrite (filter_dom_same G id _ g _ Hg).
Qed.

(** A vector that has been received. *)
Lemma completion_recv_inv lo base hist st G id g k p d :
  inv None lo base hist st G -> G !! id = Some g -> incoming g = Some (k, p, d) ->
  exists st2 m,
    receive (Pool p) d (set_ucx (delete k) st) = Some (tt, st2) /\
    _allreduce_gather_callback (addr g) true st2 = allreduce_complete_operation_callback (addr g) true (arrived m k st) /\
    inv (Some id) lo base hist (arrived m k st)
      (<[id := Ghost (addr g) (received g ++ [(p, d)]) None (open_sends g)]> G).
Proof.
  intros HI Hg Hin. pose proof (inv_live _ _ _ _ _ _ HI _ _ Hg) as L. rewrite decide_False in L by done.
  destruct (live_incoming _ _ _ _ _ L _ _ _ Hin) as (Hp & _ & _).
  assert (Hps : ptrs g = map fst (received g ++ [(p, d)])) by (unfold ptrs; by rewrite Hin, map_app).
  assert (Hds : datas g = map snd (received g ++ [(p, d)])) by (unfold datas; by rewrite Hin, map_app).
  pose proof (live_sizes _ _ _ _ _ L) as Hsz. pose proof (live_length _ _ _ _ _ L) as Hlen.
  pose proof (live_nodup _ _ _ _ _ L) as Hnd. rewrite Hps, length_map, length_app in Hlen. cbn [length] in Hlen.
  assert (Hd : length d = size_of id).
  { rewrite Forall_forall in Hsz. apply Hsz. rewrite Hds, map_app. apply elem_of_app. right. by left. }
  pose proof (coop_stale Hcoop p) as Hst. pose proof (coop_sizes Hcoop id) as Hcs.
  set (m2 := <[p := full (p, d)]> (vecs st)).
  destruct (live_contents _ _ _ _ _ L) as (vs & Hvs & Hall).
  unfold contents in Hvs. rewrite (proj2 (Nat.eqb_neq _ _)) in Hvs by lia. injection Hvs as <-.
  assert (Hall2 : Forall2 (fun q v => m2 !! q = Some v) (map fst (received g ++ [(p, d)])) (map full (received g ++ [(p, d)]))).
  { rewrite !map_app. apply Forall2_app; [|by constructor; [apply lookup_insert_eq|]].
    eapply Forall2_elem_impl; [exact Hall|]. intros q v Hq Hv. cbn. subst m2. rewrite lookup_insert_ne; [done|]. intros <-.
    rewrite Hps, map_app in Hnd. apply NoDup_app in Hnd as (_ & Hnd & _). apply (Hnd p Hq). by left. }
  pose proof (live_super _ _ _ _ _ L) as Hs. pose proof (live_length _ _ _ _ _ L) as Hlen2.
  assert (Hinp : p ∈ ptrs g) by (unfold ptrs; rewrite Hin; apply elem_of_app; right; by left).
  assert (Hm2 : forall q, q ∉ ptrs g -> m2 !! q = vecs st !! q) by (intros q Hq; apply lookup_insert_ne; by intros ->).
  destruct (received g ++ [(p, d)]) as [|[k0 d0] l] eqn:El; [by destruct (received g)|].
  destruct (reduce_full (size_of id) (k0, d0) l Hcs) as [acc Hacc]; [by rewrite <- Hds|].
  assert (Hk0 : k0 ∈ ptrs g) by (rewrite Hps; by left).
  exists (arrived m2 k st), (if (length (ptrs g) =? P)%nat then <[k0 := acc]> m2 else m2).
  split; [|split].
  - rewrite (receive_eq cfg (Pool p) (stale p) d (set_ucx (delete k) st)); [done|done|lia].
  - rewrite Hps in *. etransitivity.
    + eapply gather_callback_eq; [exact Hs|done|done|exact Hall2|]. intros _. exact Hacc.
    + f_equal. unfold gathered, arrived. by destruct (Nat.eqb _ _).
  - rewrite <- El. eapply arrived_inv; [done|done|exact Hin| |rewrite El; apply contents_gathered; by intros _|].
    + intros q Hq. destruct (Nat.eqb _ _); [|by apply Hm2]. rewrite lookup_insert_ne by (by intros ->). by apply Hm2.
    + rewrite Hps in *. rewrite length_map. destruct (Nat.eqb _ _); [|done]. cbn [map fst] in *.
      apply Forall2_cons in Hall2 as [_ Hall2]. constructor; [apply lookup_insert_eq|].
      eapply Forall2_elem_impl; [exact Hall2|]. intros q v Hq Hqv. cbn. rewrite lookup_insert_ne; [done|].
      intros <-. by apply NoDup_cons in Hnd as [? _].
Qed.

(** The callback of a vector that has been received. *)
Lemma finish_recv lo base hist st G id g k p d :
  inv None lo base hist st G -> G !! id = Some g -> incoming g = Some (k, p, d) ->
  exists st1 st' G', receive (Pool p) d (set_ucx (delete k) st) = Some (tt, st1) /\
    invoke_callback (_allreduce_gather_callback (addr g) true) st1 = Some (tt, st') /\
    inv None lo base hist st' G' /\ next_id st' = next_id st.
Proof.
  intros HI Hg Hin.
  destruct (completion_recv_inv _ _ _ _ _ _ _ _ _ _ HI Hg Hin) as (st1 & m & Hr & Hc & HI1).
  destruct (complete_inv _ _ _ _ _ _ _ HI1 (lookup_insert_eq _ _ _)) as (st' & og & Hc' & HI' & Hn').
  exists st1, st', (replace id og (<[id := Ghost (addr g) (received g ++ [(p, d)]) None (open_sends g)]> G)).
  split; [done|]. split; [|split; [done|]].
  - apply invoke_eq; [by rewrite Hc|]. by apply (inv_errno _ _ _ _ _ _ HI').
  - by rewrite Hn'.
Qed.

Lemma completion_inv lo base hist st G k :
  inv None lo base hist st G ->
  exists st' G', step (Completion k true) st = Some (tt, st') /\ inv None lo base hist st' G' /\ next_id st' = next_id st.
Proof.
  intros HI. unfold step. rewrite (ST_bind_Some get _ st st st) by done.
  destruct (ucx st !! k) as [op|] eqn:Hk; [|by exists st, G].
  rewrite (ST_bind_Some _ _ _ _ _ (modify_eq cfg (set_ucx (delete k)) st)).
  destruct (inv_ucx _ _ _ _ _ _ HI _ _ Hk) as (id & g & Hg & Hop & _).
  destruct (ucx_owner _ _ _ _ _ _ _ _ _ _ HI Hg Hk Hop) as [[Ho ->]|(_ & p & d & Hin & ->)].
  - pose proof (completion_send_inv _ _ _ _ _ _ _ _ HI Hg Ho) as HI1.
    destruct (complete_inv _ _ _ _ _ _ _ HI1 (lookup_insert_eq _ _ _)) as (st' & og & Hc & HI' & Hn).
    eexists st', _. split; [|split; [exact HI'|done]]. apply invoke_eq; [exact Hc|]. by apply (inv_errno _ _ _ _ _ _ HI').
  - destruct (finish_recv _ _ _ _ _ _ _ _ _ _ HI Hg Hin) as (st1 & st' & G' & Hr & Hi & HI' & Hn).
    exists st', G'. split; [|done]. cbn [complete]. by rewrite (ST_bind_Some _ _ _ _ _ Hr).
Qed.

(** ** Messages of peers *)

(** The super request of an operation a peer began, or of one to be submitted. *)
Lemma with_super_inv lo base hist st G id :
  inv None lo base hist st G -> G !! id = None -> next_id st <= id -> hist id = [] -> 
  inv None lo base hist (with_super cfg (counter st) id (size_of id) None st)
    (<[id := Ghost (counter st) [] None ∅]> G).
Proof.
  intros HI Hg Hge Hh. pose proof (coop_peers Hcoop) as HP. set (g' := Ghost _ _ _ _).
  destruct (inv_window _ _ _ _ _ _ HI) as (Hlo & _ & _).
  assert (Hsub : (id <? next_id st) = false) by (by apply Z.ltb_ge).
  eapply (inv_step None None lo base hist hist st _ G id (counter st) (Some g')); try done; try (by left).
  - by rewrite Hg.
  - lia.
  - split; try done; unfold with_super; cbn.
    + intros id' Hne. by rewrite lookup_insert_ne.
    + intros a' Hne. by rewrite lookup_insert_ne.
    + destruct (P <=? 1)%nat; lia.
    + by left.
  - unfold old_ptrs. rewrite Hg. split; unfold with_super; cbn [vecs own supers super_requests_hash requests ucx sent next_id callback_errno counter].
    + intros q v Hv [Hq|Hq]; [by apply not_elem_of_nil in Hq|]. eapply no_new_vecs in Hv; [|exact HI]. lia.
    + intros k' op Hk'. left. split; [done|]. destruct (inv_ucx _ _ _ _ _ _ HI _ _ Hk') as (id' & g & Hg' & -> & _).
      pose proof (live_fresh _ _ _ _ _ (inv_live _ _ _ _ _ _ HI _ _ Hg')) as Hf. apply Forall_cons in Hf as [Hf _].
      intros E. injection E as E. lia.
    + split; [done|]. by apply (inv_lengths _ _ _ _ _ _ HI).
    + split; [done|]. rewrite decide_False by done. split; [|split; [by intros ? ?%not_elem_of_nil|done]].
      assert (Hrem : remaining false g' + 0 = 2 * Z.of_nat P + 1) by (unfold remaining; cbn [received length g']; lia).
      split; cbn [next_id with_super vecs own supers super_requests_hash ucx counter]; rewrite ?Hsub, ?Hrem; try done.
      * apply lookup_insert_eq.
      * apply lookup_insert_eq.
      * exists []. split; [|constructor]. unfold contents, g'. cbn [received map]. by destruct (Nat.eqb _ _).
      * lia.
      * constructor.
      * unfold g', ptrs. cbn. lia.
      * constructor; [|constructor]. unfold g'. cbn [addr]. destruct (P <=? 1)%nat; lia.
      * unfold g'. cbn [open_sends]. rewrite size_empty. lia.
      * lia.
    + done.
    + apply (inv_sent _ _ _ _ _ _ HI). lia.
  - unfold with_super. cbn [client_active next_id replace]. rewrite (inv_active _ _ _ _ _ _ HI).
    rewrite dom_insert_L, filter_union_L, filter_singleton_False_L by (try apply _; cbn; lia). by rewrite union_empty_l_L.
Qed.

(** The vectors received for each operation after [data] was sent for [id]. *)
Definition heard hist id (data : vector) : Z -> list vector :=
  fun i => if decide (i = id) then hist i ++ [data] else hist i.

(** The state when the receive operation was posted. *)
Definition posted_recv id g (data : vector) st : state cfg :=
  State (<[counter st := stale (counter st)]> (vecs st)) (own st)
    (<[addr g := shape cfg id (remaining (id <? next_id st) g) (size_of id)
        (if id <? next_id st then Some (Own (idx id)) else None) (ptrs g ++ [counter st])]> (supers st))
    (super_requests_hash st) (requests st) (<[S (counter st) := RecvVector (Pool (counter st)) data (addr g)]> (ucx st))
    (sent st) (client_active st) (next_id st) (callback_errno st) (S (S (counter st))).

Lemma posted_recv_live lo base hist st G id g data :
  inv None lo base hist st G -> G !! id = Some g -> incoming g = None -> (length (received g) < P)%nat ->
  length data = size_of id ->
  live 0 base (posted_recv id g data st) id
    (Ghost (addr g) (received g) (Some (S (counter st), counter st, data)) (open_sends g)).
Proof.
  intros HI Hg Hin Hlt Hd. pose proof (inv_live _ _ _ _ _ _ HI _ _ Hg) as [Lh Ls Lc Li Lo Lown Lsz Lnd Llen Lfr Lop Lq Lw].
  rewrite decide_False in * by done. set (g' := Ghost _ _ _ _).
  assert (Hps : ptrs g' = ptrs g ++ [counter st]) by (unfold ptrs, g'; cbn; by rewrite Hin, app_nil_r).
  assert (Hds : datas g' = datas g ++ [data]) by (unfold datas, g'; cbn; by rewrite Hin, app_nil_r).
  assert (Hps' : ptrs g = map fst (received g)) by (unfold ptrs; by rewrite Hin, app_nil_r).
  apply Forall_cons in Lfr as [Lfa Lfr].
  assert (Hnew : counter st ∉ ptrs g) by (rewrite Forall_forall in Lfr; intros Hx%Lfr; lia).
  assert (Hrem : forall b, remaining b g' = remaining b g) by done.
  split; cbn [posted_recv vecs own supers super_requests_hash requests ucx sent next_id callback_errno counter];
    rewrite ?Hps, ?Hds, ?Hrem, ?Z.add_0_r in *; try done.
  - apply lookup_insert_eq.
  - destruct Lc as (vs & E & Hall). exists vs. split; [done|].
    eapply Forall2_elem_impl; [exact Hall|]. intros q v Hq Hqv. cbn. rewrite lookup_insert_ne; [done|].
    intros <-. apply Hnew. by rewrite Hps'.
  - intros k p d E. injection E as <- <- <-. split; [apply lookup_insert_eq|]. split; [apply lookup_insert_eq|lia].
  - intros k Hk. destruct (Lo _ Hk). split; [|lia]. rewrite lookup_insert_ne; [done|lia].
  - apply Forall_app. split; [done|]. by constructor.
  - apply NoDup_app. split; [done|]. split; [|apply NoDup_singleton]. by intros q Hq ->%list_elem_of_singleton.
  - rewrite length_app, Hps', length_map. cbn. lia.
  - change (addr g') with (addr g). rewrite Forall_cons, Forall_app, Forall_singleton. split; [lia|]. split; [|lia].
    eapply Forall_impl; [exact Lfr|]. cbn. lia.
Qed.

Lemma posted_recv_inv lo base hist st G id g data :
  inv None lo base hist st G -> G !! id = Some g -> incoming g = None -> (length (received g) < P)%nat ->
  length data = size_of id ->
  inv None lo base (heard hist id data) (posted_recv id g data st)
    (<[id := Ghost (addr g) (received g) (Some (S (counter st), counter st, data)) (open_sends g)]> G).
Proof.
  intros HI Hg Hin Hlt Hd. pose proof (inv_live _ _ _ _ _ _ HI _ _ Hg) as L. rewrite decide_False in L by done.
  pose proof (posted_recv_live _ _ _ _ _ _ _ _ HI Hg Hin Hlt Hd) as L'. set (g' := Ghost _ _ _ _) in *.
  assert (Hps : ptrs g' = ptrs g ++ [counter st]) by (unfold ptrs, g'; cbn; by rewrite Hin, app_nil_r).
  assert (Hds : datas g' = datas g ++ [data]) by (unfold datas, g'; cbn; by rewrite Hin, app_nil_r).
  assert (Hucx : ucx st !! S (counter st) = None) by (eapply ucx_fresh; [exact HI|lia]).
  eapply (inv_step None None lo base hist (heard hist id data) st _ G id (addr g) (Some g')); try done; try (by left).
  - by rewrite Hg.
  - by eapply inv_from.
  - split; try done; cbn [posted_recv vecs own supers super_requests_hash requests ucx sent next_id callback_errno counter];
      [| | |lia|by left].
    + intros a' Hne. by rewrite lookup_insert_ne.
    + intros k _ Hk. rewrite lookup_insert_ne; [done|lia].
    + intros k op _ Hk. rewrite lookup_insert_ne; [done|]. intros <-. congruence.
  - split; cbn [posted_recv vecs own supers super_requests_hash requests ucx sent next_id callback_errno counter].
    + intros q v Hv [Hq|Hq].
      * unfold old_ptrs in Hq. rewrite Hg in Hq. exists g'. split; [done|]. rewrite Hps. apply elem_of_app. by left.
      * destruct (decide (q = counter st)) as [->|Hne].
        -- exists g'. split; [done|]. rewrite Hps. apply elem_of_app. right. by left.
        -- rewrite lookup_insert_ne in Hv by done. eapply no_new_vecs in Hv; [|exact HI]. lia.
    + intros k op Hk. destruct (decide (k = S (counter st))) as [->|Hne].
      * rewrite lookup_insert_eq in Hk. injection Hk as <-. right. exists g'. split; [done|]. split; [done|].
        right. by eexists _, _.
      * rewrite lookup_insert_ne in Hk by done.
        destruct (decide (op_addr op = Some (addr g))) as [Hop|Hop]; [right|by left].
        exists g'. split; [done|]. split; [done|].
        destruct (ucx_owner _ _ _ _ _ _ _ _ _ _ HI Hg Hk Hop) as [[? _]|(_ & q & d' & E & _)]; [by left|].
        rewrite Hin in E. done.
    + split; [done|]. by apply (inv_lengths _ _ _ _ _ _ HI).
    + split; [done|]. rewrite decide_False by done. split; [|split].
      * exact L'.
      * intros q. rewrite Hps. intros [Hq|Hq]%elem_of_app; [left; by eapply in_old|right].
        apply list_elem_of_singleton in Hq as ->. lia.
      * unfold heard. rewrite decide_True, Hds by done. by rewrite (inv_hist _ _ _ _ _ _ HI id g).
    + done.
    + apply (inv_sent _ _ _ _ _ _ HI). by eapply inv_from.
  - intros id' Hne. unfold heard. by rewrite decide_False.
  - cbn [client_active next_id posted_recv replace]. rewrite (inv_active _ _ _ _ _ _ HI).
    by rewrite (filter_dom_same G id _ g _ Hg).
Qed.

(** The super request of an operation: the one it has, or a new one. *)
Lemma get_inv lo base hist st G id :
  inv None lo base hist st G -> 0 <= id -> (length (hist id) < P)%nat ->
  exists st' G' g, allreduce_super_request_get id (Z.of_nat (size_of id)) None st = Some (Some (addr g), st') /\
    inv None lo base hist st' G' /\ G' !! id = Some g /\ next_id st' = next_id st /\
    (G !! id = None /\ incoming g = None \/ G !! id = Some g).
Proof.
  intros HI H0 Hlt. destruct (G !! id) as [g|] eqn:Hg.
  - exists st, G, g. split; [|by auto]. apply get_old_eq. by apply (inv_live _ _ _ _ _ _ HI _ _ Hg).
  - destruct (inv_absent _ _ _ _ _ _ HI id H0 Hg) as [[Hge Hh]|[_ Hh]]; [|lia].
    eexists (with_super cfg (counter st) id (size_of id) None st), _, (Ghost (counter st) [] None ∅).
    split; [|split; [by apply with_super_inv|]].
    + apply get_new_eq; [apply (coop_alloc Hcoop)| |pose proof (coop_peers Hcoop); lia].
      destruct (super_requests_hash st !! id) eqn:E; [|done]. apply (inv_hash _ _ _ _ _ _ HI) in E as [? E]. congruence.
    + split; [apply lookup_insert_eq|]. split; [done|]. by left.
Qed.

(** The vector is received into a new element of the pool. *)
Lemma receive_message_inv lo base hist st G id g data :
  inv None lo base hist st G -> G !! id = Some g -> incoming g = None -> (length (received g) < P)%nat ->
  length data = size_of id ->
  exists r r' st0 st' G', allreduce_aloc_vec_vecs_pool st = Some (Some (Pool (counter st)), st0) /\
    get_super (addr g) st0 = Some (r, st0) /\ keep_vector cfg (Pool (counter st)) r = Some r' /\
    allreduce_ucx_am_recv (Some (Pool (counter st))) data (fun p => RecvVector p data (addr g))
      (_allreduce_gather_callback (addr g)) (set_supers <[addr g := r']> st0) = Some (DOCA_SUCCESS, st') /\
    inv None lo base (heard hist id data) st' G' /\ next_id st' = next_id st.
Proof.
  intros HI Hg Hin Hlt Hd. pose proof (inv_live _ _ _ _ _ _ HI _ _ Hg) as L. rewrite decide_False in L by done.
  pose proof (posted_recv_inv _ _ _ _ _ _ _ _ HI Hg Hin Hlt Hd) as HI1.
  pose proof (live_super _ _ _ _ _ L) as Hs. rewrite Z.add_0_r in Hs.
  eexists _, _, _. unfold allreduce_ucx_am_recv.
  pose proof (coop_ucx Hcoop (S (counter st))) as Hout. destruct (ucx_outcome (S (counter st))) eqn:Ho; [| |done].
  - destruct (finish_recv _ _ _ _ _ _ _ _ _ _ HI1 (lookup_insert_eq _ _ _) eq_refl) as (st1 & st' & G' & Hr & Hi & HI' & Hn).
    exists st', G'. split; [apply alloc_vec_eq; apply (coop_alloc Hcoop)|]. split; [by apply get_super_eq|].
    split; [apply keep_vector_eq; unfold ptrs; rewrite Hin, app_nil_r, length_map; lia|].
    split; [|by split].
    rewrite (ST_bind_Some tick _ _ _ _ eq_refl). cbn [counter set_supers set_vecs set_counter]. rewrite Ho.
    match type of Hr with receive _ _ ?s = _ =>
      match goal with |- (_ ← receive _ _; _) ?s' = _ => replace s' with s end end.
    + rewrite (ST_bind_Some _ _ _ _ _ Hr). by rewrite (ST_bind_Some _ _ _ _ _ Hi).
    + apply state_ext; try done. cbn [posted_recv ucx set_ucx]. rewrite delete_insert_id; [done|].
      eapply ucx_fresh; [exact HI|lia].
  - eexists _, _. split; [apply alloc_vec_eq; apply (coop_alloc Hcoop)|]. split; [by apply get_super_eq|].
    split; [apply keep_vector_eq; unfold ptrs; rewrite Hin, app_nil_r, length_map; lia|].
    split; [|split; [exact HI1|done]].
    rewrite (ST_bind_Some tick _ _ _ _ eq_refl). cbn [counter set_supers set_vecs set_counter]. rewrite Ho.
    rewrite (ST_bind_Some _ _ _ _ _ (modify_eq cfg _ _)). done.
Qed.

Lemma message_inv lo base hist st G id data :
  inv None lo base hist st G -> 0 <= id -> (length (hist id) < P)%nat -> length data = size_of id ->
  (forall g, G !! id = Some g -> incoming g = None) ->
  exists st' G', step (OpMessage id data) st = Some (tt, st') /\ inv None lo base (heard hist id data) st' G' /\
    next_id st' = next_id st.
Proof.
  intros HI H0 Hlt Hd Hnone.
  destruct (get_inv _ _ _ _ _ _ HI H0 Hlt) as (st1 & G1 & g & Eget & HI1 & Hg & Hn & Hcase).
  assert (Hin : incoming g = None) by (destruct Hcase as [[_ ?]|?]; auto).
  assert (Hrec : (length (received g) < P)%nat).
  { rewrite (inv_hist _ _ _ _ _ _ HI1 id g) in Hlt by done. unfold datas in Hlt. rewrite Hin in Hlt.
    rewrite length_app, length_map in Hlt. cbn in Hlt. lia. }
  destruct (receive_message_inv _ _ _ _ _ _ _ _ HI1 Hg Hin Hrec Hd) as (r & r' & st2 & st' & G' & E1 & E2 & E3 & E4 & HI' & Hn').
  exists st', G'. split; [|split; [done|congruence]]. cbn [step].
  rewrite decide_True by (right; apply (coop_mode Hcoop)). apply invoke_eq; [|by apply (inv_errno _ _ _ _ _ _ HI')].
  unfold allreduce_gather_callback. rewrite Hd. rewrite (ST_bind_Some _ _ _ _ _ Eget).
  rewrite (ST_bind_Some _ _ _ _ _ E1). rewrite (ST_bind_Some _ _ _ _ _ E2). rewrite E3.
  rewrite (ST_bind_Some _ _ _ tt (set_supers <[addr g := r']> st2)) by done. exact E4.
Qed.

(** ** Submission *)

(** The state when the operation has the client's vector, before its vectors
    are sent. *)
Definition submitted id g st : state cfg :=
  State (vecs st) (own st)
    (<[addr g := shape cfg id (remaining false g) (size_of id) (Some (Own (idx id))) (ptrs g)]> (supers st))
    (super_requests_hash st) (requests st) (ucx st) (sent st) (u64 (client_active st + 1)) (u64 (id + 1))
    (callback_errno st) (counter st).

Lemma submit_one_eq lo base hist st G :
  inv None lo base hist st G -> next_id st < lo + batch_size cfg ->
  exists st1 G1 g, submit_one (Z.of_nat (size_of (next_id st))) st = submit_func (addr g) (submitted (next_id st) g st1) /\
    inv None lo base hist st1 G1 /\ G1 !! next_id st = Some g /\ next_id st1 = next_id st.
Proof.
  intros HI Hw. set (id := next_id st). destruct (inv_window _ _ _ _ _ _ HI) as (Hlo & _ & _).
  assert (Hsub : (id <? next_id st) = false) by (apply Z.ltb_ge; subst id; lia).
  unfold submit_one. rewrite (ST_bind_Some get _ st st st) by done. fold id. fold (idx id).
  rewrite (ST_bind_Some _ _ _ _ _ (modify_eq cfg _ st)).
  destruct (G !! id) as [g|] eqn:Hg.
  - pose proof (inv_live _ _ _ _ _ _ HI _ _ Hg) as L. rewrite decide_False in L by done.
    pose proof (live_super _ _ _ _ _ L) as Hs. rewrite Hsub, Z.add_0_r in Hs.
    exists st, G, g. split; [|done].
    rewrite (ST_bind_Some _ _ _ _ _ (get_old_eq cfg id (addr g) _ (Some (Own (idx id))) (set_next_id (fun n => u64 (n + 1)) st)
      (live_hash _ _ _ _ _ L))).
    rewrite (ST_bind_Some _ _ _ _ _ (get_super_eq cfg (addr g) _ (set_next_id (fun n => u64 (n + 1)) st) Hs)).
    rewrite decide_True by done. done.
  - destruct (inv_absent _ _ _ _ _ _ HI id) as [[_ Hh]|[? _]]; [lia|done| |lia].
    exists (with_super cfg (counter st) id (size_of id) None st), (<[id := Ghost (counter st) [] None ∅]> G), (Ghost (counter st) [] None ∅).
    split; [|split; [by apply with_super_inv|split; [apply lookup_insert_eq|done]]].
    rewrite (ST_bind_Some _ _ _ _ _ (get_new_eq cfg id (size_of id) (Some (Own (idx id))) (set_next_id (fun n => u64 (n + 1)) st)
      (coop_alloc Hcoop) ltac:(destruct (super_requests_hash st !! id) eqn:E; [apply (inv_hash _ _ _ _ _ _ HI) in E as [? E]; congruence|done])
      ltac:(pose proof (coop_peers Hcoop); lia))).
    rewrite (ST_bind_Some _ _ _ _ _ (get_super_eq cfg _ _ (with_super cfg _ id _ _ _) (lookup_insert_eq _ _ _))).
    rewrite decide_False by done.
    rewrite (ST_bind_Some _ _ _ tt _ eq_refl). rewrite (ST_bind_Some _ _ _ _ _ (modify_eq cfg _ _)).
    f_equal. apply state_ext; try done. cbn [with_super submitted supers set_active set_next_id counter addr].
    rewrite insert_insert_eq. f_equal. f_equal. unfold remaining. cbn. lia.
Qed.

Lemma filter_sent id id' (v : vector) l :
  filter (fun m : message cfg => is_for id' m = true) (map (fun j => ToPeer j id v) l) =
    if id =? id' then map (fun j => ToPeer j id v) l else [].
Proof.
  induction l as [|j l IH]; cbn [map]; [by destruct (id =? id')|].
  rewrite filter_cons, IH. cbn [is_for]. by destruct (id =? id').
Qed.

(** What the posted sends leave, by field. *)
Record scattered id g x st st' (open : gset nat) : Prop := {
  scattered_hash : super_requests_hash st' = super_requests_hash st;
  scattered_supers : supers st' =
    <[addr g := shape cfg id (remaining true (Ghost (addr g) (received g) (incoming g) open) + 1) (size_of id)
        (Some (Own (idx id))) (ptrs g)]> (supers st);
  scattered_vecs : vecs st' = vecs st;
  scattered_own : own st' = own st;
  scattered_requests : requests st' = requests st;
  scattered_sent : sent st' = sent st ++ map (fun j => ToPeer j id (take (size_of id) x)) (seq 0 P);
  scattered_active : client_active st' = u64 (client_active st + 1);
  scattered_next : next_id st' = u64 (id + 1);
  scattered_errno : callback_errno st' = callback_errno st;
  scattered_counter : (counter st <= counter st')%nat;
  scattered_ucx : forall k, ucx st' !! k = if decide (k ∈ open) then Some (SendVector (addr g)) else ucx st !! k;
  scattered_open : forall k, k ∈ open -> (counter st <= k < counter st')%nat;
  scattered_size : (size open <= P)%nat
}.

Lemma posted_scattered id g x st st' open :
  posted cfg (addr g) id (size_of id) (idx id) x (ptrs g) (seq 0 P) (remaining false g) (submitted id g st) st' open ->
  scattered id g x st st' open.
Proof.
  intros [Est Hcnt Hucx Hopen Hsize]. rewrite length_seq in Est, Hsize. split; try done; try (by rewrite Est).
  rewrite Est. cbn [supers submitted]. rewrite insert_insert_eq. do 2 f_equal. unfold remaining. cbn [received open_sends]. lia.
Qed.

Lemma scattered_live lo base hist st G g x st' open :
  let id := next_id st in
  inv None lo base hist st G -> G !! id = Some g -> id < lo + batch_size cfg -> id + 1 < 2 ^ 64 ->
  scattered id g x st st' open -> live 1 base st' id (Ghost (addr g) (received g) (incoming g) open).
Proof.
  intros id HI Hg Hw H64 [E1 E2 E3 E4 E5 E6 E7 E8 E9 Hcnt Hucx Hopen Hsize]. destruct (inv_window _ _ _ _ _ _ HI) as (Hlo & _ & _).
  pose proof (inv_live _ _ _ _ _ _ HI _ _ Hg) as [Lh Ls Lc Li Lo Lown Lsz Lnd Llen Lfr Lop Lq Lw].
  rewrite wrap_small in E8 by lia. assert (Hsub : (id <? next_id st') = true) by (apply Z.ltb_lt; lia).
  split; rewrite ?Hsub, ?E1, ?E2, ?E3, ?E4; try done.
  - apply lookup_insert_eq.
  - intros k p d E. destruct (Li _ _ _ E) as (? & E' & ?). split; [done|]. split; [|lia].
    rewrite Hucx, decide_False; [done|]. intros Ho%Hopen. lia.
  - intros k Hk. split; [|apply Hopen in Hk; lia]. by rewrite Hucx, decide_True.
  - intros _. apply (inv_unused _ _ _ _ _ _ HI). lia.
  - eapply Forall_impl; [exact Lfr|]. cbn. lia.
  - intros ?. lia.
  - unfold remaining. cbn [received open_sends].
    assert (length (received g) <= P)%nat by (unfold ptrs in Llen; rewrite length_app, length_map in Llen; lia). lia.
Qed.

(** The vectors have been sent to all peers; one operation of the super request
    is not counted yet. *)
Lemma scattered_inv lo base hist st G g x st' open :
  let id := next_id st in
  inv None lo base hist st G -> G !! id = Some g -> id < lo + batch_size cfg -> id + 1 < 2 ^ 64 -> base !! idx id = Some x ->
  posted cfg (addr g) id (size_of id) (idx id) x (ptrs g) (seq 0 P) (remaining false g) (submitted id g st) st' open ->
  inv (Some id) lo base hist st' (<[id := Ghost (addr g) (received g) (incoming g) open]> G).
Proof.
  intros id HI Hg Hw H64 Hx Hp%posted_scattered. pose proof (scattered_live _ _ _ _ _ _ _ _ _ HI Hg Hw H64 Hp) as L'.
  destruct Hp as [E1 E2 E3 E4 E5 E6 E7 E8 E9 Hcnt Hucx Hopen Hsize]. destruct (inv_window _ _ _ _ _ _ HI) as (Hlo & _ & _).
  pose proof (inv_live _ _ _ _ _ _ HI _ _ Hg) as L. rewrite decide_False in L by done. set (g' := Ghost _ _ _ _) in *.
  pose proof (active_bound _ _ _ _ _ _ HI) as Hbound. pose proof (inv_active _ _ _ _ _ _ HI) as Hact.
  assert (Hq : open_sends g = ∅) by (by apply (live_quiet _ _ _ _ _ L)).
  rewrite wrap_small in E8 by lia. assert (Hsub : (id <? next_id st') = true) by (apply Z.ltb_lt; lia).
  assert (Hids : filter (fun i => i < next_id st') (dom (<[id := g']> G)) = {[id]} ∪ filter (fun i => i < next_id st) (dom G)).
  { apply leibniz_equiv. intros i. rewrite elem_of_filter, dom_insert, elem_of_union, elem_of_union, elem_of_filter, elem_of_singleton.
    rewrite E8. unfold id. split; [|intros [->|[? ?]]; (split; [lia|tauto])].
    intros [Hlt [->|Hd]]; [by left|]. destruct (decide (i = next_id st)); [by left|right]. split; [lia|done]. }
  eapply (inv_step None (Some id) lo base hist hist st _ G id (addr g) (Some g')); try done; try (by left); try (by right).
  - by rewrite Hg.
  - lia.
  - split; rewrite ?E1, ?E2, ?E3, ?E4, ?E5, ?E8, ?E9; try done; [| | |right; lia].
    + intros a' Hne. by rewrite lookup_insert_ne.
    + intros k op _ Hk. rewrite Hucx. rewrite decide_False; [done|]. intros Ho%Hopen.
      rewrite (ucx_fresh _ _ _ _ _ _ k HI) in Hk by lia. done.
    + intros id' Hne. unfold sent_for. rewrite E6, filter_app.
      rewrite filter_sent, (proj2 (Z.eqb_neq _ _)) by congruence. apply app_nil_r.
  - split.
    + intros k v Hv [Hk|Hk].
      * unfold old_ptrs in Hk. rewrite Hg in Hk. by exists g'.
      * rewrite E3 in Hv. eapply no_new_vecs in Hv; [|exact HI]. lia.
    + intros k op Hk. rewrite Hucx in Hk. destruct (decide (k ∈ open)) as [Ho|Ho].
      * injection Hk as <-. right. exists g'. split; [done|]. split; [done|]. by left.
      * destruct (decide (op_addr op = Some (addr g))) as [Hop|Hop]; [right|by left].
        exists g'. split; [done|]. split; [done|].
        destruct (ucx_owner _ _ _ _ _ _ _ _ _ _ HI Hg Hk Hop) as [[? _]|(_ & q & d' & E & _)]; [set_solver|].
        right. by exists q, d'.
    + rewrite E4. split; [done|]. by apply (inv_lengths _ _ _ _ _ _ HI).
    + split; [done|]. rewrite decide_True by done. split; [|split; [by left; eapply in_old|by apply (inv_hist _ _ _ _ _ _ HI id g)]].
      exact L'.
    + by rewrite E4.
    + unfold sent_for. rewrite E6, filter_app, Hsub. fold (sent_for id st).
      rewrite (inv_sent _ _ _ _ _ _ HI) by lia. rewrite (proj2 (Z.ltb_ge _ _)) by lia. cbn [app]. rewrite Hx. cbn [default].
      by rewrite filter_sent, Z.eqb_refl.
  - rewrite E7. cbn [replace]. rewrite Hids, size_union, size_singleton, wrap_small, Hact; [lia| |].
    + pose proof (inv_window _ _ _ _ _ _ HI). lia.
    + apply disjoint_singleton_l. rewrite elem_of_filter. lia.
Qed.

Lemma submit_one_inv lo base hist st G :
  inv None lo base hist st G -> next_id st < lo + batch_size cfg -> next_id st + 1 < 2 ^ 64 ->
  exists st' G', submit_one (Z.of_nat (size_of (next_id st))) st = Some (tt, st') /\
    inv None lo base hist st' G' /\ next_id st' = next_id st + 1.
Proof.
  intros HI Hw H64. destruct (submit_one_eq _ _ _ _ _ HI Hw) as (st1 & G1 & g & -> & HI1 & Hg & Hn).
  rewrite <- Hn in *. set (id := next_id st1) in *. destruct (inv_window _ _ _ _ _ _ HI1) as (Hlo & _ & _).
  destruct (inv_base _ _ _ _ _ _ HI1) as [Hb1 _]. destruct (inv_lengths _ _ _ _ _ _ HI1) as [Hl1 _].
  destruct (lookup_lt_is_Some_2 base (idx id)) as [x Hx].
  { unfold idx. pose proof (Z.mod_pos_bound id (batch_size cfg)). lia. }
  assert (Hox : own st1 !! idx id = Some x) by (rewrite (inv_unused _ _ _ _ _ _ HI1); [done|lia]).
  assert (Hxl : Z.of_nat (length x) = vector_size cfg) by (rewrite Forall_forall in Hl1; apply Hl1; by eapply list_elem_of_lookup_2).
  pose proof (coop_sizes Hcoop id) as Hsz. pose proof (coop_peers Hcoop) as HP.
  pose proof (inv_live _ _ _ _ _ _ HI1 _ _ Hg) as L.
  assert (Hrec : (length (received g) <= P)%nat).
  { pose proof (live_length _ _ _ _ _ L) as Hl. unfold ptrs in Hl. rewrite length_app, length_map in Hl. lia. }
  destruct (send_vectors_eq cfg (addr g) id (size_of id) (idx id) x (ptrs g) (seq 0 P) (remaining false g) (submitted id g st1))
    as (st2 & open & E & Hposted).
  - apply (coop_ucx Hcoop).
  - apply lookup_insert_eq.
  - done.
  - lia.
  - rewrite length_seq. unfold remaining. lia.
  - by apply (inv_errno _ _ _ _ _ _ HI1).
  - assert (Hn2 : next_id st2 = id + 1).
    { rewrite (posted_state _ _ _ _ _ _ _ _ _ _ _ _ Hposted). cbn. rewrite wrap_small by lia. done. }
    pose proof (scattered_inv _ _ _ _ _ _ x _ _ HI1 Hg Hw H64 Hx Hposted) as HI2.
    destruct (complete_inv _ _ _ _ _ _ _ HI2 (lookup_insert_eq _ _ _)) as (st3 & og & Hc & HI3 & Hn3).
    eexists st3, _. split; [|split; [exact HI3|congruence]].
    unfold submit_func. rewrite (coop_mode Hcoop). unfold allreduce_non_offloaded_submit, allreduce_scatter.
    rewrite (ST_bind_Some _ _ _ _ _ E). by rewrite (ST_bind_Some _ _ _ _ _ Hc).
Qed.

(** A batch starts when all submitted operations are complete. *)
Lemma next_batch lo base hist st G :
  inv None lo base hist st G -> client_active st = 0 -> inv None (next_id st) (own st) hist st G.
Proof.
  intros HI Hact. destruct (inv_base _ _ _ _ _ _ HI) as [Hb1 Hb2].
  destruct (inv_lengths _ _ _ _ _ _ HI) as [Hl1 Hl2]. destruct (inv_window _ _ _ _ _ _ HI) as (Hw1 & Hw2 & Hw3).
  assert (Hge : forall id g, G !! id = Some g -> next_id st <= id).
  { intros id g Hg. rewrite (inv_active _ _ _ _ _ _ HI) in Hact. apply Z.nlt_ge. intros Hlt.
    assert (Hs : size (filter (fun i => i < next_id st) (dom G)) = 0%nat) by lia.
    apply size_empty_inv in Hs. apply (not_elem_of_empty (C := gset Z) id), Hs.
    rewrite elem_of_filter, elem_of_dom. by split; [|eexists]. }
  split; try (by apply HI); try done; try lia.
  - intros id g Hg. pose proof (inv_live _ _ _ _ _ _ HI _ _ Hg) as [Lh Ls Lc Li Lo Lown Lsz Lnd Llen Lfr Lop Lq Lw].
    specialize (Hge _ _ Hg). split; try done; lia.
  - intros id Hle. rewrite (inv_sent _ _ _ _ _ _ HI) by lia. by rewrite (proj2 (Z.ltb_ge _ _)).
Qed.

Lemma submit_batch_inv lo base hist st G (n : nat) (l : list nat) size :
  inv None lo base hist st G -> next_id st + Z.of_nat (length l) <= lo + batch_size cfg ->
  next_id st + Z.of_nat (length l) < 2 ^ 64 ->
  (forall id, next_id st <= id < next_id st + Z.of_nat (length l) -> size = Z.of_nat (size_of id)) ->
  exists st' G', for_each (fun _ => submit_one size) l st = Some (tt, st') /\ inv None lo base hist st' G' /\
    next_id st' = next_id st + Z.of_nat (length l).
Proof.
  revert st G. induction l as [|i l IH]; intros st G HI Hw H64 Hsz; cbn [for_each length] in *.
  { exists st, G. split; [done|]. split; [done|lia]. }
  destruct (submit_one_inv _ _ _ _ _ HI) as (st1 & G1 & E1 & HI1 & Hn1); [lia..|].
  destruct (IH st1 G1 HI1) as (st2 & G2 & E2 & HI2 & Hn2); [lia|lia| |].
  { intros id Hid. apply Hsz. lia. }
  exists st2, G2. split; [|split; [done|lia]]. rewrite (Hsz (next_id st)) by lia.
  rewrite (ST_bind_Some _ _ _ _ _ E1). rewrite <- (Hsz (next_id st)) by lia. exact E2.
Qed.

Lemma submit_inv lo base hist st G size batch :
  inv None lo base hist st G -> client_active st = 0 -> Z.of_nat batch <= batch_size cfg ->
  next_id st + Z.of_nat batch < 2 ^ 64 -> size = 0 \/ size = vector_size cfg ->
  (forall id, next_id st <= id < next_id st + Z.of_nat batch -> size = Z.of_nat (size_of id)) ->
  exists st' G', step (Submit size batch) st = Some (tt, st') /\ inv None (next_id st) (own st) hist st' G' /\
    next_id st' = next_id st + Z.of_nat batch.
Proof.
  intros HI Hact Hb H64 Hsize Hsz. pose proof (next_batch _ _ _ _ _ HI Hact) as HI1.
  destruct (submit_batch_inv _ _ _ _ _ batch (seq 0 batch) size HI1) as (st' & G' & E & HI' & Hn); rewrite ?length_seq; try lia.
  { intros id Hid. apply Hsz. done. }
  exists st', G'. rewrite length_seq in Hn. split; [|done]. cbn [step]. unfold allreduce_batch_submit.
  replace ((size =? 0) || (size =? vector_size cfg)) with true
    by (symmetry; apply orb_true_iff; rewrite !Z.eqb_eq; done).
  destruct (Nat.ltb_spec 0 batch) as [?|?], (Z.eqb_spec (batch_size cfg) 0) as [?|?]; cbn [andb]; try exact E. lia.
Qed.

Lemma reset_inv lo base hist st G :
  inv None lo base hist st G -> client_active st = 0 ->
  exists st', step Reset st = Some (tt, st') /\
    inv None (next_id st) (map (fun _ => initial_vector cfg) (own st)) hist st' G /\ next_id st' = next_id st /\
    own st' = map (fun _ => initial_vector cfg) (own st).
Proof.
  intros HI Hact. pose proof (next_batch _ _ _ _ _ HI Hact) as HI1. eexists. split; [apply modify_eq|]. split; [|done].
  destruct (inv_base _ _ _ _ _ _ HI1) as [Hb1 Hb2].
  assert (Hl : Forall (fun v : vector => Z.of_nat (length v) = vector_size cfg) (map (fun _ => initial_vector cfg) (own st))).
  { apply Forall_forall. intros v (y & -> & _)%list_elem_of_fmap. unfold initial_vector. rewrite length_map, length_seq.
    pose proof (coop_stale Hcoop 0%nat). lia. }
  split; try (by apply HI1); cbn [own set_own next_id]; try done.
  - intros id g Hg. pose proof (inv_from _ _ _ _ _ _ HI1 _ _ Hg).
    pose proof (inv_live _ _ _ _ _ _ HI1 _ _ Hg) as [Lh Ls Lc Li Lo Lown Lsz Lnd Llen Lfr Lop Lq Lw]. split; done.
  - by rewrite length_map.
  - intros id Hw. lia.
  - intros id Hle. transitivity (sent_for id st); [done|]. rewrite (inv_sent _ _ _ _ _ _ HI1) by done. by rewrite (proj2 (Z.ltb_ge _ _)).
Qed.
End Client.
