(* ===== verification/AllreduceTheorems.v ===== *)
(** * What clients that exchange vectors achieve

    Runs of a non-offloaded client: the events that may happen to it, and what
    the client guarantees for all of them; then a set of clients that send their
    vectors to one another. *)

From stdpp Require Import gmap list.
From S2P Require Import Prelude AllreduceReducer Allreduce AllreduceSpec AllreduceClient.
#[local] Open Scope Z_scope.

Section Runs.
Context (cfg : allreduce_config) `{Env : !Environment cfg} (size_of : Z -> nat).
Notation vector := (list (element (datatype cfg))).
Notation P := (dest_num cfg).
Implicit Types (st : state cfg) (es : list (event cfg)) (e : event cfg).

(** ** Runs *)

(** The vectors that peers sent for operation [id], in the order of arrival. *)
Definition message_for (id : Z) e : option vector :=
  match e with OpMessage id' data => if id' =? id then Some data else None | _ => None end.
Definition history es (id : Z) : list vector := omap (message_for id) es.

(** A vector for operation [id] is being received. *)
Definition receives (a : nat) (op : ucx_request cfg) : bool :=
  match op with RecvVector _ _ a' => (a' =? a)%nat | _ => false end.
Definition receiving (id : Z) st : bool :=
  match super_requests_hash st !! id with
  | Some a => existsb (fun x => receives a x.2) (map_to_list (ucx st))
  | None => false
  end.

(** The protocol, after [es]: peers send one vector each for an operation, of the
    size of the operation; operations of UCX do not fail; the client submits a
    batch, or resets its vectors, when the batch before is complete
    (allreduce_batch_submit is called with a size of 0 or the size of the
    vectors). *)
Definition protocol es st e : bool :=
  match e with
  | OpMessage id data =>
      (0 <=? id) && (length (history es id) <? P)%nat && (length data =? size_of id)%nat
  | CtrlMessage _ _ _ => true
  | Completion _ ok => ok
  | Submit size batch =>
      (client_active st =? 0) && (Z.of_nat batch <=? batch_size cfg) && (next_id st + Z.of_nat batch <? 2 ^ 64) &&
      ((size =? 0) || (size =? vector_size cfg)) &&
      forallb (fun i => size =? Z.of_nat (size_of (next_id st + Z.of_nat i))) (seq 0 batch)
  | Reset => client_active st =? 0
  end.

(** No vector arrives for an operation of which one is still being received.
    The source does not ensure it: it posts overlapping receives, and reduces
    vectors that are not complete ([overlapping_receives_wrong]). *)
Definition sequential st e : bool := match e with OpMessage id _ => negb (receiving id st) | _ => true end.

(** The events of the runs considered, a hypothesis on the client's peers and
    on UCX. *)
Definition permitted es st e : bool := protocol es st e && sequential st e.

Inductive trace (vectors : list vector) : list (event cfg) -> state cfg -> Prop :=
| trace_initial : trace vectors [] (initial vectors)
| trace_step es e st st' :
    trace vectors es st -> permitted es st e = true -> step e st = Some (tt, st') -> trace vectors (es ++ [e]) st'.

(** A run by computation. *)
Fixpoint follow (past es : list (event cfg)) st : option (state cfg) :=
  match es with
  | [] => Some st
  | e :: es' =>
      if permitted past st e
      then match step e st with Some (_, st') => follow (past ++ [e]) es' st' | None => None end
      else None
  end.

(** The vectors the client starts with. *)
Definition proper_vectors (vectors : list vector) : Prop :=
  Z.of_nat (length vectors) = batch_size cfg /\ Forall (fun v => Z.of_nat (length v) = vector_size cfg) vectors.

(** No batch begins. *)
Definition same_batch e : bool := match e with Submit _ _ | Reset => false | _ => true end.

(** The client's vector of operation [id]. *)
Definition mine (id : Z) st : option vector := own st !! idx cfg id.

(** ** Runs and the invariant *)

Lemma follow_trace vectors past es st st' :
  trace vectors past st -> follow past es st = Some st' -> trace vectors (past ++ es) st'.
Proof.
  revert past st. induction es as [|e es IH]; intros past st Ht E; cbn in E.
  { injection E as <-. by rewrite app_nil_r. }
  destruct (permitted past st e) eqn:Hp; [|done]. destruct (step e st) as [[[] st1]|] eqn:Hs; [|done].
  replace (past ++ e :: es) with ((past ++ [e]) ++ es) by (by rewrite <- app_assoc).
  apply (IH _ st1); [|done]. by apply (trace_step _ _ _ st).
Qed.

Lemma trace_snoc vectors es e st' :
  trace vectors (es ++ [e]) st' ->
  exists st, trace vectors es st /\ permitted es st e = true /\ step e st = Some (tt, st').
Proof.
  intros Ht. inversion Ht as [E|es1 e1 st st1 H1 H2 H3 E]; [by destruct es|].
  apply app_inj_tail in E as [-> ->]. by exists st.
Qed.

Lemma trace_unique vectors es st1 st2 : trace vectors es st1 -> trace vectors es st2 -> st1 = st2.
Proof.
  intros H1. revert st2. induction H1 as [|es e st st' H1 IH Hp Hs]; intros st2 H2.
  - inversion H2 as [|es e ? ? ? ? ? E]; [done|]. by destruct es.
  - apply trace_snoc in H2 as (st0 & H2 & _ & Hs2). rewrite <- (IH _ H2) in Hs2. congruence.
Qed.

Lemma history_snoc es e id :
  history (es ++ [e]) id = history es id ++ (match message_for id e with Some d => [d] | None => [] end).
Proof. unfold history. rewrite omap_app. cbn. by destruct (message_for id e). Qed.

Lemma inv_history busy lo base hist hist' st G :
  (forall id, hist' id = hist id) -> inv cfg size_of busy lo base hist st G -> inv cfg size_of busy lo base hist' st G.
Proof.
  intros E HI. split; try (by apply HI).
  - intros id g Hg. rewrite E. by apply HI.
  - intros id H0 Hg. rewrite E. by apply (inv_absent _ _ _ _ _ _ _ _ HI).
  - intros id Hw Hg. rewrite E. by apply (inv_result _ _ _ _ _ _ _ _ HI).
Qed.
Context (Hcoop : cooperative cfg size_of).

Lemma receiving_incoming busy lo base hist st G id g :
  inv cfg size_of busy lo base hist st G -> G !! id = Some g -> receiving id st = false -> incoming cfg g = None.
Proof.
  intros HI Hg Hr. pose proof (inv_live _ _ _ _ _ _ _ _ HI _ _ Hg) as L.
  destruct (incoming cfg g) as [[[k p] d]|] eqn:Hin; [|done]. exfalso.
  destruct (live_incoming _ _ _ _ _ _ _ L _ _ _ Hin) as (_ & Hk & _).
  unfold receiving in Hr. rewrite (live_hash _ _ _ _ _ _ _ L) in Hr.
  apply not_true_iff_false in Hr. apply Hr, existsb_exists. exists (k, RecvVector (Pool p) d (addr cfg g)).
  split; [by apply list_elem_of_In, elem_of_map_to_list|]. apply Nat.eqb_refl.
Qed.

(** The batch an event belongs to: its first operation and the client's vectors
    when it began. *)
Definition batch_after e st st' (x : Z * list vector) : Z * list vector :=
  match e with
  | Submit _ _ => (next_id st, own st)
  | Reset => (next_id st, own st')
  | _ => x
  end.

Definition id_after e st : Z := match e with Submit _ batch => next_id st + Z.of_nat batch | _ => next_id st end.

Lemma step_inv lo base es st G e :
  inv cfg size_of None lo base (history es) st G -> permitted es st e = true ->
  exists st' G' lo' base', step e st = Some (tt, st') /\ inv cfg size_of None lo' base' (history (es ++ [e])) st' G' /\
    (lo', base') = batch_after e st st' (lo, base) /\ next_id st' = id_after e st.
Proof.
  intros HI Hp.
  assert (Hsame : forall lo' base' st' G', (forall id, message_for id e = None) ->
    inv cfg size_of None lo' base' (history es) st' G' -> inv cfg size_of None lo' base' (history (es ++ [e])) st' G').
  { intros lo' base' st' G' Hn. apply inv_history. intros id. by rewrite history_snoc, Hn, app_nil_r. }
  unfold permitted in Hp. apply andb_true_iff in Hp as [Hp Hr].
  destruct e as [id data|c id data|k ok|size batch|]; cbn [protocol sequential] in Hp, Hr.
  - rewrite negb_true_iff in Hr. rewrite !andb_true_iff, Z.leb_le, Nat.ltb_lt, Nat.eqb_eq in Hp. destruct Hp as [[H0 Hlt] Hd].
    destruct (message_inv cfg size_of Hcoop lo base _ st G id data HI H0 Hlt Hd) as (st' & G' & E & HI' & Hn).
    { intros g Hg. by eapply receiving_incoming. }
    exists st', G', lo, base. split; [done|]. split; [|done]. revert HI'. apply inv_history. intros i.
    rewrite history_snoc. unfold heard. cbn [message_for].
    destruct (Z.eqb_spec id i) as [->|Hne]; [by rewrite decide_True|].
    rewrite decide_False by congruence. by rewrite app_nil_r.
  - exists st, G, lo, base. split; [|by auto]. cbn [step].
    rewrite decide_False by (rewrite (coop_role _ _ Hcoop); done). rewrite decide_False by (rewrite (coop_mode _ _ Hcoop); done). done.
  - subst ok. destruct (completion_inv cfg size_of Hcoop _ _ _ _ _ k HI) as (st' & G' & E & HI' & Hn).
    exists st', G', lo, base. by auto.
  - rewrite !andb_true_iff, orb_true_iff, forallb_forall, Z.leb_le, Z.ltb_lt, !Z.eqb_eq in Hp.
    destruct Hp as [[[[Hact Hb] H64] Hsize] Hall].
    destruct (submit_inv cfg size_of Hcoop _ _ _ _ _ size batch HI Hact Hb H64 Hsize) as (st' & G' & E & HI' & Hn).
    { intros id Hid. specialize (Hall (Z.to_nat (id - next_id st))). rewrite Z.eqb_eq in Hall.
      rewrite Hall; [|apply in_seq; lia]. do 2 f_equal. lia. }
    exists st', G', (next_id st), (own st). by auto.
  - rewrite Z.eqb_eq in Hp. destruct (reset_inv cfg size_of Hcoop _ _ _ _ _ HI Hp) as (st' & E & HI' & Hn & Ho).
    exists st', G, (next_id st), (map (fun _ => initial_vector cfg) (own st)). cbn. rewrite Ho. by auto.
Qed.

Lemma initial_inv vectors : proper_vectors vectors -> inv cfg size_of None 0 vectors (history []) (initial vectors) ∅.
Proof.
  intros [Hl Hv]. split; cbn; try done; try lia; try (intros; set_solver).
  intros id Hid. by rewrite (proj2 (Z.ltb_ge _ _)).
Qed.

Lemma trace_inv vectors es st :
  proper_vectors vectors -> trace vectors es st -> exists lo base G, inv cfg size_of None lo base (history es) st G.
Proof.
  intros Hv. induction 1 as [|es e st st' _ (lo & base & G & HI) Hp Hs].
  - exists 0, vectors, ∅. by apply initial_inv.
  - destruct (step_inv _ _ _ _ _ _ HI Hp) as (st1 & G' & lo' & base' & E & HI' & _).
    exists lo', base', G'. congruence.
Qed.

(** What holds of a batch from its submission on. *)
Lemma batch_inv vectors es size batch es' st st' :
  proper_vectors vectors -> trace vectors es st -> trace vectors (es ++ Submit size batch :: es') st' ->
  forallb same_batch es' = true ->
  exists G, inv cfg size_of None (next_id st) (own st) (history (es ++ Submit size batch :: es')) st' G /\
    next_id st' = next_id st + Z.of_nat batch.
Proof.
  intros Hv Hst. revert st'. induction es' as [|e es' IH] using rev_ind; intros st' Ht Hb.
  - apply trace_snoc in Ht as (st0 & Ht & Hp & Hs). rewrite (trace_unique _ _ _ _ Ht Hst) in *.
    destruct (trace_inv _ _ _ Hv Hst) as (lo & base & G & HI).
    destruct (step_inv _ _ _ _ _ _ HI Hp) as (st1 & G' & lo' & base' & E & HI' & Eb & En). injection Eb as -> ->.
    exists G'. rewrite Hs in E. injection E as <-. done.
  - change (es ++ Submit size batch :: es' ++ [e]) with (es ++ (Submit size batch :: es') ++ [e]) in *.
    rewrite app_assoc in *. apply trace_snoc in Ht as (st0 & Ht & Hp & Hs).
    rewrite forallb_app in Hb. apply andb_true_iff in Hb as [Hb1 Hb2]. cbn in Hb2. rewrite andb_true_r in Hb2.
    destruct (IH _ Ht Hb1) as (G & HI & Hn).
    destruct (step_inv _ _ _ _ _ _ HI Hp) as (st1 & G' & lo' & base' & E & HI' & Eb & En).
    rewrite Hs in E. injection E as <-. exists G'. destruct e; try done; injection Eb as -> ->; cbn in En; by rewrite En, Hn.
Qed.

(** ** What a client guarantees *)

(** C26: a client that is not offloaded, whose data are not ints (their sums may
    overflow), and whose allocations and UCX operations do not fail
    ([cooperative]) handles each event of its runs without undefined behaviour (a
    use of memory that was given back, an access out of bounds, a failed
    assertion) and without an error.  The runs are those in which peers keep to
    the protocol and no vector arrives for an operation while another one of the
    same operation is being received ([protocol], [sequential]); vectors, the
    completions of UCX and submissions may otherwise come in any order. *)
Theorem client_never_stuck vectors es st e :
  proper_vectors vectors -> trace vectors es st -> protocol es st e = true -> sequential st e = true ->
  exists st', step e st = Some (tt, st') /\ callback_errno st' = DOCA_SUCCESS.
Proof.
  intros Hv Ht Hp Hq. destruct (trace_inv _ _ _ Hv Ht) as (lo & base & G & HI).
  destruct (step_inv lo base es st G e HI) as (st' & G' & lo' & base' & E & HI' & _); [by apply andb_true_iff|].
  exists st'. split; [done|]. by apply (inv_errno _ _ _ _ _ _ _ _ HI').
Qed.

(** When a batch is complete, each of its operations has received one vector of
    every peer, has sent its own to every peer, and holds the reduction. *)
Lemma batch_outcome vectors es size batch es' st st' id :
  proper_vectors vectors -> trace vectors es st -> trace vectors (es ++ Submit size batch :: es') st' ->
  forallb same_batch es' = true -> client_active st' = 0 -> next_id st <= id < next_id st + Z.of_nat batch ->
  let heard := history (es ++ Submit size batch :: es') id in
  length heard = P /\
  exists x r, mine id st = Some x /\ mine id st' = Some r /\ result cfg (size_of id) x heard = Some r /\
    sent_for cfg id st' = map (fun j => ToPeer j id (take (size_of id) x)) (seq 0 P).
Proof.
  intros Hv Ht Ht' Hb Hact Hid heard. destruct (batch_inv _ _ _ _ _ _ _ Hv Ht Ht' Hb) as (G & HI & Hn).
  destruct (inv_window _ _ _ _ _ _ _ _ HI) as (Hlo & _ & _).
  assert (Hg : G !! id = None).
  { destruct (G !! id) as [g|] eqn:Hg; [|done]. pose proof (inv_from _ _ _ _ _ _ _ _ (next_batch _ _ _ _ _ _ _ HI Hact) _ _ Hg). lia. }
  destruct (inv_absent _ _ _ _ _ _ _ _ HI id) as [[? _]|[_ Hl]]; [|done|lia|].
  { destruct (trace_inv _ _ _ Hv Ht) as (lo & base & G0 & HI0). pose proof (inv_window _ _ _ _ _ _ _ _ HI0). lia. }
  split; [done|]. destruct (inv_result _ _ _ _ _ _ _ _ HI id) as (x & r & Hx & Hr & Hres); [lia|done|].
  exists x, r. split; [done|]. split; [done|]. split; [done|].
  rewrite (inv_sent _ _ _ _ _ _ _ _ HI) by lia. rewrite (proj2 (Z.ltb_lt _ _)) by lia. by rewrite Hx.
Qed.

(** C27: in the runs of C26 (a client that is not offloaded and does not reduce
    ints, nothing fails, at most one vector of an operation is being received at
    a time; overlapping receives give wrong results, [overlapping_receives_wrong]):
    when a batch is complete, each of its operations has received one vector of
    every peer, has sent the vector it had at the submission to every peer, and
    has replaced it by the reduction of it with those of the peers. *)
Theorem batch_result vectors es size batch es' st st' id :
  proper_vectors vectors -> trace vectors es st -> trace vectors (es ++ Submit size batch :: es') st' ->
  forallb same_batch es' = true -> client_active st' = 0 -> next_id st <= id < next_id st + Z.of_nat batch ->
  let heard := history (es ++ Submit size batch :: es') id in
  length heard = P /\
  exists x r, mine id st = Some x /\ mine id st' = Some r /\ result cfg (size_of id) x heard = Some r /\
    sent_for cfg id st' = map (fun j => ToPeer j id (take (size_of id) x)) (seq 0 P).
Proof. apply batch_outcome. Qed.

(** C34: A batch completes: when every peer has sent its vectors and UCX has
    completed all operations, no operation of the client is active. *)
Theorem batch_completes vectors es st :
  proper_vectors vectors -> trace vectors es st -> ucx st = ∅ ->
  (forall id, 0 <= id < next_id st -> length (history es id) = P) -> client_active st = 0.
Proof.
  intros Hv Ht Hu Hall. destruct (trace_inv _ _ _ Hv Ht) as (lo & base & G & HI).
  destruct (inv_window _ _ _ _ _ _ _ _ HI) as (Hlo & _ & _). rewrite (inv_active _ _ _ _ _ _ _ _ HI).
  enough (filter (fun i => i < next_id st) (dom G) = ∅) as -> by (by rewrite size_empty).
  apply leibniz_equiv, elem_of_equiv_empty. intros id [Hlt [g Hg]%elem_of_dom]%elem_of_filter.
  pose proof (inv_from _ _ _ _ _ _ _ _ HI _ _ Hg) as Hge. pose proof (inv_live _ _ _ _ _ _ _ _ HI _ _ Hg) as L.
  rewrite decide_False in L by done. pose proof (live_waits _ _ _ _ _ _ _ L) as Hw.
  specialize (Hall id ltac:(lia)). rewrite (inv_hist _ _ _ _ _ _ _ _ HI _ _ Hg) in Hall.
  assert (Hin : incoming cfg g = None).
  { destruct (incoming cfg g) as [[[k p] d]|] eqn:E; [|done]. destruct (live_incoming _ _ _ _ _ _ _ L _ _ _ E) as (_ & Hk & _).
    by rewrite Hu, lookup_empty in Hk. }
  assert (Hos : open_sends cfg g = ∅).
  { apply leibniz_equiv, elem_of_equiv_empty. intros k Hk. destruct (live_sends _ _ _ _ _ _ _ L _ Hk) as [E _].
    by rewrite Hu, lookup_empty in E. }
  unfold datas in Hall. rewrite Hin, app_nil_r, length_map in Hall.
  rewrite (proj2 (Z.ltb_lt _ _) Hlt) in Hw. unfold remaining in Hw. rewrite Hos, size_empty, Hall in Hw. lia.
Qed.

(** The vectors of the pool that a super request holds. *)
Definition held (r : allreduce_super_request) : list vec_ptr :=
  option_list (peer_result_vector r) ++ omap (fun p => p) (take (Z.to_nat (recv_vector_iter r)) (default [] (recv_vectors r))).

Lemma held_shape id num n res ps : (length ps <= P)%nat -> held (shape cfg id num n res ps) = map Pool ps.
Proof.
  intros Hl. unfold held, shape. cbn [peer_result_vector recv_vector_iter recv_vectors]. rewrite Nat2Z.id.
  destruct ps as [|k0 ks]; cbn [head tail length fmap option_fmap option_map option_list] in *.
  - destruct (P <=? 1)%nat; [done|]. by rewrite take_0.
  - cbn [map app]. f_equal. destruct (Nat.leb_spec P 1).
    + destruct ks; [done|cbn in *; lia].
    + unfold from_option, Datatypes.id. rewrite take_app_length' by (by rewrite length_map). clear. induction ks; cbn; [done|]. by f_equal.
Qed.

(** No memory is lost: each vector of the pool that is handed out is held by
    a super request in the hash table, which has an entry for the operations in
    progress only; nothing is left when it is empty. *)
Theorem memory_accounted vectors es st :
  proper_vectors vectors -> trace vectors es st ->
  (forall k v, vecs st !! k = Some v ->
     exists id a r, super_requests_hash st !! id = Some a /\ supers st !! a = Some r /\ Pool k ∈ held r) /\
  client_active st = Z.of_nat (size (filter (fun id => id < next_id st) (dom (super_requests_hash st)))) /\
  (super_requests_hash st = ∅ -> vecs st = ∅ /\ supers st = ∅ /\ requests st = ∅ /\ ucx st = ∅).
Proof.
  intros Hv Ht. destruct (trace_inv _ _ _ Hv Ht) as (lo & base & G & HI).
  assert (Hd : dom G = dom (super_requests_hash st)).
  { apply leibniz_equiv. intros id. rewrite !elem_of_dom. split.
    - intros [g Hg]. rewrite (live_hash _ _ _ _ _ _ _ (inv_live _ _ _ _ _ _ _ _ HI _ _ Hg)). by eexists.
    - intros [a Ha]. by eapply inv_hash. }
  split; [|split].
  - intros k v Hk. destruct (inv_vecs _ _ _ _ _ _ _ _ HI _ _ Hk) as (id & g & Hg & Hp).
    pose proof (inv_live _ _ _ _ _ _ _ _ HI _ _ Hg) as L. eexists id, (addr cfg g), _.
    split; [apply L|]. split; [apply L|]. rewrite held_shape by apply L. by apply list_elem_of_fmap_2.
  - rewrite <- Hd. by apply (inv_active _ _ _ _ _ _ _ _ HI).
  - intros E. rewrite E, dom_empty_L in Hd. apply dom_empty_inv_L in Hd as ->.
    split; [|split; [|split]].
    + apply map_empty. intros k. destruct (vecs st !! k) eqn:Hk; [|done].
      apply (inv_vecs _ _ _ _ _ _ _ _ HI) in Hk as (id & g & Hg & _). by rewrite lookup_empty in Hg.
    + apply map_empty. intros k. destruct (supers st !! k) eqn:Hk; [|done].
      apply (inv_supers _ _ _ _ _ _ _ _ HI) in Hk as (id & g & Hg & _). by rewrite lookup_empty in Hg.
    + by apply (inv_requests _ _ _ _ _ _ _ _ HI).
    + apply map_empty. intros k. destruct (ucx st !! k) eqn:Hk; [|done].
      apply (inv_ucx _ _ _ _ _ _ _ _ HI) in Hk as (id & g & Hg & _). by rewrite lookup_empty in Hg.
Qed.
End Runs.

(** ** Runs of one client

    A client with two peers and vectors of two bytes. *)

Definition example_config : allreduce_config :=
  Config ALLREDUCE_CLIENT ALLREDUCE_NON_OFFLOADED_MODE 1 2 ALLREDUCE_BYTE ALLREDUCE_SUM 1 2.

(** Every second operation completes at once. *)
#[local] Instance example_environment : Environment example_config :=
  { alloc_ok _ := true; ucx_outcome k := if Nat.even k then Finished else InProgress; stale _ := [100; 100] }.

Definition example_size (id : Z) : nat := 2.
Definition example_vectors : list (list Z) := [[1; 2]].
Definition example_initial : state example_config := initial (cfg := example_config) example_vectors.
Definition peer_vector (id : Z) (data : list Z) : event example_config := OpMessage (cfg := example_config) id data.

Definition example_before : list (event example_config) := [peer_vector 0 [3; 4]; Completion 3 true].
Definition example_after : list (event example_config) :=
  [peer_vector 0 [10; 20]; Completion 7 true; Completion 5 true].
Definition example_events : list (event example_config) := example_before ++ Submit 2 1 :: example_after.

Lemma example_cooperative : cooperative example_config example_size.
Proof. split; cbn; try done; intros; lia || by destruct (Nat.even _). Qed.

Lemma example_proper : proper_vectors example_config example_vectors.
Proof. split; [done|]. repeat constructor. Qed.

Lemma example_trace es st :
  follow example_config example_size [] es example_initial = Some st ->
  trace example_config example_size example_vectors es st.
Proof. apply (follow_trace example_config example_size example_vectors [] es example_initial). constructor. Qed.

(** The restriction to one receive at a time is needed: when two vectors of
    an operation are received at the same time, _allreduce_gather_callback
    reduces them at each of the two completions, the first time with what was in
    the buffer before, and the result is wrong: 1 + 3 + 10 and 2 + 4 + 20 are 14
    and 26. *)
Theorem overlapping_receives_wrong :
  exists st, run (cfg := example_config)
      [peer_vector 0 [3; 4]; peer_vector 0 [10; 20]; Completion 3 true; Completion 5 true; Submit 2 1; Completion 7 true]
      example_initial = Some (tt, st) /\
    client_active st = 0 /\ mine example_config 0 st = Some [114; 126] /\
    result example_config 2 [1; 2] [[3; 4]; [10; 20]] = Some [14; 26].
Proof. eexists. split; [vm_compute; reflexivity|]. split; [reflexivity|]. by split; vm_compute. Qed.

(** ** Witnesses *)

Lemma client_never_stuck_witness :
  exists st st', follow example_config example_size [] example_before example_initial = Some st /\
    step (cfg := example_config) (Submit 2 1) st = Some (tt, st') /\ callback_errno st' = DOCA_SUCCESS.
Proof.
  eexists. assert (H : forall st, follow example_config example_size [] example_before example_initial = Some st ->
    exists st', step (cfg := example_config) (Submit 2 1) st = Some (tt, st') /\ callback_errno st' = DOCA_SUCCESS).
  { intros st Hf. apply (client_never_stuck example_config example_size example_cooperative example_vectors example_before st).
    - exact example_proper.
    - exact (example_trace _ _ Hf).
    - vm_compute in Hf. injection Hf as <-. vm_compute. reflexivity.
    - reflexivity. }
  destruct (H _ ltac:(vm_compute; reflexivity)) as (st' & H1 & H2). exists st'.
  split; [vm_compute; reflexivity|]. split; [exact H1|exact H2].
Defined.

Lemma batch_result_witness :
  exists st st' x r, follow example_config example_size [] example_events example_initial = Some st' /\
    follow example_config example_size [] example_before example_initial = Some st /\
    mine example_config 0 st = Some x /\ mine example_config 0 st' = Some r /\
    result example_config 2 x [[3; 4]; [10; 20]] = Some r.
Proof.
  destruct (follow example_config example_size [] example_before example_initial) as [st|] eqn:E1; [|exact (False_rect _ ltac:(vm_compute in E1; discriminate E1))].
  destruct (follow example_config example_size [] example_events example_initial) as [st'|] eqn:E2; [|exact (False_rect _ ltac:(vm_compute in E2; discriminate E2))].
  destruct (batch_result example_config example_size example_cooperative example_vectors example_before 2 1 example_after st st' 0)
    as (_ & x & r & Hx & Hr & Hres & _).
  - exact example_proper.
  - exact (example_trace _ _ E1).
  - exact (example_trace _ _ E2).
  - reflexivity.
  - vm_compute in E2. injection E2 as <-. vm_compute. reflexivity.
  - vm_compute in E1. injection E1 as <-. vm_compute. split; [discriminate|reflexivity].
  - exists st, st', x, r. split; [reflexivity|]. split; [reflexivity|]. split; [assumption|]. split; assumption.
Defined.

Lemma batch_completes_witness :
  exists st, follow example_config example_size [] example_events example_initial = Some st /\ client_active st = 0.
Proof.
  destruct (follow example_config example_size [] example_events example_initial) as [st|] eqn:E; [|exact (False_rect _ ltac:(vm_compute in E; discriminate E))].
  exists st. split; [reflexivity|].
  apply (batch_completes example_config example_size example_cooperative example_vectors example_events st example_proper (example_trace _ _ E)).
  - vm_compute in E. injection E as <-. vm_compute. reflexivity.
  - vm_compute in E. injection E as <-. intros id Hid. assert (id = 0) as -> by (cbn in Hid; lia). vm_compute. reflexivity.
Defined.

Lemma memory_accounted_witness :
  exists st, follow example_config example_size [] example_events example_initial = Some st /\
    super_requests_hash st = ∅ /\ vecs st = ∅ /\ supers st = ∅ /\ requests st = ∅ /\ ucx st = ∅.
Proof.
  destruct (follow example_config example_size [] example_events example_initial) as [st|] eqn:E; [|exact (False_rect _ ltac:(vm_compute in E; discriminate E))].
  exists st. split; [reflexivity|].
  destruct (memory_accounted example_config example_size example_cooperative example_vectors example_events st example_proper (example_trace _ _ E))
    as (_ & _ & Hempty).
  assert (Hh : super_requests_hash st = ∅) by (vm_compute in E; injection E as <-; vm_compute; reflexivity).
  split; [exact Hh|]. exact (Hempty Hh).
Defined.
