(* ===== verification/AllreduceNetwork.v ===== *)
(** * Clients that send their vectors to one another

    A set of non-offloaded clients with vectors of bytes, each with the others as
    its peers (dest_addresses).  When a batch is complete on all of them, the
    messages that arrived are those that were sent, and no client received two
    vectors of one operation at the same time, all hold the same result. *)

From stdpp Require Import gmap list.
From S2P Require Import Prelude AllreduceReducer Allreduce AllreduceSpec AllreduceClient AllreduceTheorems.
#[local] Open Scope Z_scope.

(** ** Reduction of bytes, in any order *)

(** The sum or the product of numbers, modulo 256. *)
Definition reduction (op : allreduce_operation) (l : list Z) : Z :=
  u8 (match op with ALLREDUCE_SUM => foldr Z.add 0 l | ALLREDUCE_PROD => foldr Z.mul 1 l end).

Lemma reduction_perm op l l' : l ≡ₚ l' -> reduction op l = reduction op l'.
Proof.
  intros Hp. unfold reduction. f_equal. induction Hp; destruct op; cbn in *; lia.
Qed.

Lemma reduction_cons op x y l : u8 y = reduction op l -> byte_op op x y = reduction op (x :: l).
Proof.
  unfold reduction, wrap. destruct op; cbn; unfold wrap; intros E.
  - by rewrite <- Zplus_mod_idemp_r, E, Zplus_mod_idemp_r.
  - by rewrite <- Zmult_mod_idemp_r, E, Zmult_mod_idemp_r.
Qed.

Lemma reduction_byte_op op x y l : reduction op (byte_op op x y :: l) = reduction op (x :: y :: l).
Proof.
  unfold reduction, wrap. destruct op; cbn; unfold wrap.
  - rewrite Zplus_mod_idemp_l. f_equal. ring.
  - rewrite Zmult_mod_idemp_l. f_equal. ring.
Qed.

(** Element [e] of a vector. *)
Definition at_element (e : nat) (v : list Z) : Z := default 0 (v !! e).

Lemma reduce_bytes_element op n (a b r : list Z) e :
  reduce_vectors op ALLREDUCE_BYTE n a b = Some r -> (e < n)%nat ->
  r !! e = Some (byte_op op (at_element e a) (at_element e b)).
Proof.
  rewrite reduce_vectors_elem. intros E He. destruct (for_elements_inv _ _ _ _ _ E) as (Ha & Hb & _ & _ & Hr).
  destruct (lookup_lt_is_Some_2 a e (Nat.lt_le_trans _ _ _ He Ha)) as [x Hx].
  destruct (lookup_lt_is_Some_2 b e (Nat.lt_le_trans _ _ _ He Hb)) as [y Hy].
  etransitivity; [exact (Hr e x y He Hx Hy)|]. unfold at_element. rewrite Hx, Hy. apply elem_op_byte.
Qed.

Lemma reduce_list_bytes op n (d : list Z) ds a e :
  reduce_list op ALLREDUCE_BYTE n d ds = Some a -> (e < n)%nat ->
  u8 (at_element e a) = reduction op (map (at_element e) (d :: ds)).
Proof.
  intros E He. revert d E. induction ds as [|v ds IH]; intros d E; cbn [reduce_list] in E.
  - injection E as <-. unfold reduction. destruct op; cbn; f_equal; lia.
  - destruct (reduce_vectors op ALLREDUCE_BYTE n d v) as [d'|] eqn:Hd; [|done]. cbn [mbind option_bind] in E.
    rewrite (IH _ E). cbn [map]. rewrite <- reduction_byte_op. unfold at_element at 1.
    by rewrite (reduce_bytes_element op n d v d' e Hd He).
Qed.

Lemma result_bytes nc vs op bs (P n : nat) (x r : list Z) ds e :
  let cfg := Config ALLREDUCE_CLIENT ALLREDUCE_NON_OFFLOADED_MODE nc vs ALLREDUCE_BYTE op bs P in
  result cfg n x ds = Some r -> ds <> [] -> (e < n)%nat -> (n <= length x)%nat ->
  r !! e = Some (reduction op (map (at_element e) (x :: ds))).
Proof.
  intros cfg E Hds He Hn. destruct ds as [|d ds]; [done|].
  change ((a ← reduce_list op ALLREDUCE_BYTE n d ds; b ← reduce_vectors op ALLREDUCE_BYTE n (take n x : list Z) a;
    Some (b ++ drop n x)) = Some r) in E.
  destruct (reduce_list op ALLREDUCE_BYTE n d ds) as [a|] eqn:Ha; [|done]. cbn [mbind option_bind] in E.
  destruct (reduce_vectors op ALLREDUCE_BYTE n (take n x) a) as [b|] eqn:Hb; [|done]. cbn [mbind option_bind] in E.
  injection E as <-. pose proof (reduce_bytes_element _ _ _ _ _ e Hb He) as Hr.
  rewrite lookup_app_l by (by eapply lookup_lt_Some). rewrite Hr. cbn [map]. f_equal.
  rewrite <- (reduction_cons op (at_element e x) (at_element e a)) by (by eapply reduce_list_bytes).
  f_equal. unfold at_element. f_equal. by apply (lookup_take_lt (A := Z)).
Qed.

(** ** The clients *)

Section Network.
Context (nc vsize : Z) (op : allreduce_operation) (bsize : Z) (N : nat).

(** The configuration of each of the [N] clients. *)
Definition peer_config : allreduce_config :=
  Config ALLREDUCE_CLIENT ALLREDUCE_NON_OFFLOADED_MODE nc vsize ALLREDUCE_BYTE op bsize (N - 1).
Notation cfg := peer_config.

Context (size_of : Z -> nat) (Env : nat -> Environment cfg).

(** [dest i p]: the participant that is peer [p] of client [i]. *)
Context (dest : nat -> nat -> nat).

(** Each client has each other client as a peer, once. *)
Definition full_mesh : Prop :=
  forall i, (i < N)%nat -> map (dest i) (seq 0 (N - 1)) ≡ₚ filter (fun j => j <> i) (seq 0 N).

(** A run of a client that ends with a batch. *)
Record batch_run := BatchRun {
  start : list (list Z);
  before : list (event cfg);
  batch_length : Z;
  batch_count : nat;
  after : list (event cfg);
  submit_state : state cfg;
  end_state : state cfg
}.

Definition events (b : batch_run) : list (event cfg) := before b ++ Submit (batch_length b) (batch_count b) :: after b.

(** The run of client [i] is one of the program, in which vectors of one operation
    are received one after the other, and its batch is complete. *)
Record complete_run (i : nat) (b : batch_run) : Prop := {
  complete_start : proper_vectors cfg (start b);
  complete_before : trace cfg (Env := Env i) size_of (start b) (before b) (submit_state b);
  complete_events : trace cfg (Env := Env i) size_of (start b) (events b) (end_state b);
  complete_after : forallb (same_batch cfg) (after b) = true;
  complete_active : client_active (end_state b) = 0
}.

Definition in_batch (id : Z) (b : batch_run) : Prop :=
  next_id (submit_state b) <= id < next_id (submit_state b) + Z.of_nat (batch_count b).

(** The vectors for operation [id] that client [j] sent to [i]. *)
Definition vectors_to (i : nat) (id : Z) (j : nat) (b : batch_run) : list (list Z) :=
  omap (fun m : message cfg => match m with
                | ToPeer p id' d => if (id' =? id) && (dest j p =? i)%nat then Some d else None
                | _ => None
                end) (sent (end_state b)).

(** Each client received what was sent to it. *)
Definition delivered (id : Z) (runs : nat -> batch_run) : Prop :=
  forall i, (i < N)%nat ->
    history cfg (events (runs i)) id ≡ₚ concat (map (fun j => vectors_to i id j (runs j)) (seq 0 N)).

(** The vector of client [j] for [id] when it was submitted. *)
Definition submitted_vector (id : Z) (b : batch_run) : list Z := default [] (mine cfg id (submit_state b)).

Lemma vectors_to_sent i id j b d (l : list nat) :
  sent_for cfg id (end_state b) = map (fun p => ToPeer p id d) l ->
  vectors_to i id j b = omap (fun q => if (q =? i)%nat then Some d else None) (map (dest j) l).
Proof.
  unfold vectors_to, sent_for. generalize (sent (end_state b)). intros ms. revert l.
  induction ms as [|m ms IH]; intros l E.
  { by destruct l. }
  rewrite filter_cons in E. destruct (decide (is_for cfg id m = true)) as [Hm|Hm].
  - destruct l as [|p l]; [done|]. injection E as -> E. cbn. rewrite Z.eqb_refl. cbn [andb].
    destruct (dest j p =? i)%nat; [f_equal|]; by apply IH.
  - cbn. destruct m as [p id' d'|c id' d'|id' d']; try by apply IH. cbn in Hm.
    destruct (id' =? id); [done|]. by apply IH.
Qed.

Lemma one_of (i : nat) (d : list Z) (l : list nat) :
  NoDup l -> omap (fun q => if (q =? i)%nat then Some d else None) l = if decide (i ∈ l) then [d] else [].
Proof.
  induction 1 as [|q l Hq _ IH]; [done|]. cbn. destruct (Nat.eqb_spec q i) as [->|Hne].
  - rewrite decide_True by (by left). f_equal. rewrite IH. by rewrite decide_False.
  - rewrite IH. destruct (decide (i ∈ l)).
    + by rewrite decide_True by (by right).
    + rewrite decide_False; [done|]. intros [->|?]%elem_of_cons; done.
Qed.

Lemma vectors_to_one id runs i j d :
  full_mesh -> (j < N)%nat -> (i < N)%nat ->
  sent_for cfg id (end_state (runs j)) = map (fun p => ToPeer p id d) (seq 0 (N - 1)) ->
  vectors_to i id j (runs j) ≡ₚ if decide (j <> i) then [d] else [].
Proof.
  intros Hm Hj Hi Hs. rewrite (vectors_to_sent i id j _ _ _ Hs), (Hm j Hj).
  rewrite one_of by (apply NoDup_filter, NoDup_seq).
  destruct (decide (j <> i)) as [Hne|He], (decide (i ∈ filter (fun j' => j' <> j) (seq 0 N))) as [Hin|Hin]; [done| | |done].
  - destruct Hin. apply list_elem_of_filter. split; [congruence|]. apply elem_of_seq. lia.
  - apply list_elem_of_filter in Hin as [? _]. destruct He. congruence.
Qed.

Lemma concat_others {A} (f : nat -> list A) (d : nat -> A) i l :
  (forall j, j ∈ l -> f j ≡ₚ if decide (j <> i) then [d j] else []) ->
  concat (map f l) ≡ₚ map d (filter (fun j => j <> i) l).
Proof.
  induction l as [|j l IH]; intros Hf; [done|]. cbn [map concat]. rewrite filter_cons.
  rewrite (Hf j) by (by left). rewrite IH by (intros j' Hj'; apply Hf; by right).
  by destruct (decide (j <> i)).
Qed.

Lemma all_participants i : (i < N)%nat -> i :: filter (fun j => j <> i) (seq 0 N) ≡ₚ seq 0 N.
Proof.
  intros Hi. apply NoDup_Permutation.
  - constructor; [|apply NoDup_filter, NoDup_seq]. by intros [? _]%list_elem_of_filter.
  - apply NoDup_seq.
  - intros j. rewrite elem_of_cons, list_elem_of_filter, !elem_of_seq. destruct (decide (j = i)); intuition lia.
Qed.

(** C8: Allreduce of bytes among clients that are not offloaded: when the clients
    have completed a batch, their messages were delivered and nothing failed, and
    on no client a vector arrived for an operation while another one of that
    operation was being received ([sequential]; otherwise the result is wrong,
    [overlapping_receives_wrong]), then each byte of the vector of an operation
    is, on all of them, the sum or the product modulo 256 of the bytes all clients
    submitted: the order in which the peers' vectors arrived, and in which
    operations completed, makes no difference. *)
Theorem clients_agree id runs :
  (2 <= N)%nat -> full_mesh ->
  (forall i, (i < N)%nat -> cooperative cfg (Env := Env i) size_of /\ complete_run i (runs i) /\ in_batch id (runs i)) ->
  delivered id runs ->
  forall i, (i < N)%nat -> exists r, mine cfg id (end_state (runs i)) = Some r /\
    forall e, (e < size_of id)%nat ->
      r !! e = Some (reduction op (map (fun j => at_element e (submitted_vector id (runs j))) (seq 0 N))).
Proof.
  intros HN Hm Hruns Hdel i Hi.
  assert (Hres : forall j, (j < N)%nat ->
    length (history cfg (events (runs j)) id) = (N - 1)%nat /\
    exists x r, mine cfg id (submit_state (runs j)) = Some x /\ mine cfg id (end_state (runs j)) = Some r /\
      result cfg (size_of id) x (history cfg (events (runs j)) id) = Some r /\
      sent_for cfg id (end_state (runs j)) = map (fun p => ToPeer p id (take (size_of id) x)) (seq 0 (N - 1)) /\
      Z.of_nat (length x) = vsize).
  { intros j Hj. destruct (Hruns j Hj) as (Hc & [H1 H2 H3 H4 H5] & Hb).
    destruct (batch_outcome cfg (Env := Env j) size_of Hc _ _ _ _ _ _ _ id H1 H2 H3 H4 H5 Hb) as (Hl & x & r & Hx & Hr & Hrs & Hs).
    split; [done|]. exists x, r. split; [done|]. split; [done|]. split; [done|]. split; [done|].
    destruct (trace_inv cfg (Env := Env j) size_of Hc _ _ _ H1 H2) as (lo & base & G & HI).
    destruct (inv_lengths _ _ _ _ _ _ _ _ HI) as [_ Hlen]. rewrite Forall_forall in Hlen. apply Hlen.
    by eapply list_elem_of_lookup_2. }
  set (d := fun j => take (size_of id) (submitted_vector id (runs j))).
  destruct (Hres i Hi) as (Hl & x & r & Hx & Hr & Hrs & _ & Hlen). exists r. split; [done|]. intros e He.
  assert (Hheard : history cfg (events (runs i)) id ≡ₚ map d (filter (fun j => j <> i) (seq 0 N))).
  { rewrite (Hdel i Hi). apply concat_others. intros j Hj. apply elem_of_seq in Hj.
    destruct (Hres j) as (_ & xj & rj & Hxj & _ & _ & Hs & _); [lia|].
    apply vectors_to_one; [done|lia|done|]. unfold d, submitted_vector. by rewrite Hxj. }
  destruct (Hruns i Hi) as (Hc & _ & _). pose proof (coop_sizes _ _ Hc id) as Hsz.
  pose proof (proj2 (Nat2Z.inj_le _ _) (Z.le_trans _ _ _ Hsz (Z.eq_le_incl _ _ (eq_sym Hlen)))) as Hnx.
  etransitivity; [apply (result_bytes nc vsize op bsize (N - 1) (size_of id) x r _ e Hrs); [|done|exact Hnx]|].
  - intros E. rewrite E in Hl. cbn in Hl. lia.
  - f_equal. apply reduction_perm. rewrite Hheard.
    etransitivity; [|apply Permutation_map, (all_participants i Hi)]. cbn [map].
    assert (Hxi : submitted_vector id (runs i) = x) by (unfold submitted_vector; by rewrite Hx).
    rewrite Hxi. constructor. rewrite map_map. apply Permutation_refl', map_ext. intros j. unfold d, at_element.
    f_equal. by apply (lookup_take_lt (A := Z)).
Qed.
End Network.

(** ** Three clients *)

Definition three_config : allreduce_config := peer_config 1 2 ALLREDUCE_SUM 1 3.

Definition three_environment (i : nat) : Environment three_config :=
  Build_Environment three_config (fun _ => true) (fun k => if Nat.even (k + i) then Finished else InProgress)
    (fun _ => [100; 100] : list Z).

Definition three_size (id : Z) : nat := 2.
Definition three_dest (i p : nat) : nat := if (p <? i)%nat then p else S p.
Definition three_vector (i : nat) : list Z := nth i [[1; 2]; [3; 4]; [255; 20]] [].

(** The vector of client [j], and the completion of what is open. *)
Definition three_message (j : nat) : list (event three_config) :=
  OpMessage (cfg := three_config) 0 (three_vector j : list Z) :: map (fun k => Completion k true) (seq 0 12).

Definition three_before (i : nat) : list (event three_config) := three_message (three_dest i 1).
Definition three_after (i : nat) : list (event three_config) := three_message (three_dest i 0).
Definition three_events (i : nat) : list (event three_config) := three_before i ++ Submit 2 1 :: three_after i.

Definition three_state (i : nat) (es : list (event three_config)) : state three_config :=
  let start := initial (cfg := three_config) ([three_vector i] : list (list Z)) in
  default start (follow three_config (Env := three_environment i) three_size [] es start).

Definition three_run (i : nat) : batch_run 1 2 ALLREDUCE_SUM 1 3 :=
  BatchRun 1 2 ALLREDUCE_SUM 1 3 [three_vector i] (three_before i) 2 1 (three_after i)
    (three_state i (three_before i)) (three_state i (three_events i)).

Lemma three_trace i es :
  is_Some (follow three_config (Env := three_environment i) three_size [] es (initial (cfg := three_config) ([three_vector i] : list (list Z)))) ->
  trace three_config (Env := three_environment i) three_size ([three_vector i] : list (list Z)) es (three_state i es).
Proof.
  intros [st E]. unfold three_state. rewrite E.
  apply (follow_trace three_config (Env := three_environment i) three_size ([three_vector i] : list (list Z)) [] es
    (initial (cfg := three_config) ([three_vector i] : list (list Z))) st); [constructor|exact E].
Qed.

Lemma three_cooperative i : cooperative three_config (Env := three_environment i) three_size.
Proof. split; cbn; try done; intros; lia || by destruct (Nat.even _). Qed.

Lemma three_complete i : (i < 3)%nat -> complete_run 1 2 ALLREDUCE_SUM 1 3 three_size three_environment i (three_run i).
Proof.
  intros Hi. destruct i as [|[|[|i]]]; [..|lia]; (split; [split; [done|repeat constructor]|..]);
    try (apply three_trace; vm_compute; by eexists); by vm_compute.
Qed.

Lemma clients_agree_witness :
  exists r, mine three_config 0 (end_state _ _ _ _ _ (three_run 2)) = Some r /\ r !! 0%nat = Some 3 /\ r !! 1%nat = Some 26.
Proof.
  destruct (clients_agree 1 2 ALLREDUCE_SUM 1 3 three_size three_environment three_dest 0 three_run) with (i := 2%nat) as (r & Hr & He).
  - lia.
  - intros i Hi. destruct i as [|[|[|i]]]; [..|lia]; vm_compute; repeat constructor.
  - intros i Hi. split; [apply three_cooperative|]. split; [apply (three_complete i Hi)|].
    destruct i as [|[|[|i]]]; [..|lia]; split; vm_compute; (discriminate || reflexivity).
  - intros i Hi. destruct i as [|[|[|i]]]; [..|lia]; vm_compute; repeat constructor.
  - lia.
  - exists r. split; [exact Hr|]. split.
    + exact (He 0%nat (le_n_S _ _ (le_0_n _))).
    + exact (He 1%nat (le_n 2)).
Defined.
