(* ===== verification/FlowPipes.v ===== *)
(** * Pipes of the hardware

    What the NAT and the firewall program ask of the platform - the flow
    library, DPDK, the C library - as a history of calls with their replies, and
    what the pipes they made do to a packet.  [Platform] answers a call by what
    was called before; [Steering] is the hardware, whose law says in terms of the
    history what include/doca_flow.h and doca_flow_grpc_client.h document: a
    packet enters the root pipe of its port, the entry whose fields it has
    decides, and a pipe's miss forwarding applies when there is none.

    A pipe is known by the number of the call that created it, an entry by the
    number the library returned. *)

From stdpp Require Import gmap.
From S2P Require Import Prelude CString FlowTypes.
#[local] Open Scope Z_scope.

(** ** Descriptions of pipes (include/doca_flow.h) *)

Inductive doca_flow_l3_meta := L3_META_NONE | L3_META_IPV4 | L3_META_IPV6.
Inductive doca_flow_l4_meta := L4_META_NONE | L4_META_TCP | L4_META_UDP | L4_META_ICMP | L4_META_ESP.

(** [parser_meta.outer_l3_type], [parser_meta.outer_l4_type] and the members of
    FlowTypes. *)
Record pipe_match := PipeMatch {
  meta_l3 : doca_flow_l3_meta; meta_l4 : doca_flow_l4_meta; fields : doca_flow_match
}.
Definition pipe_match0 : pipe_match := PipeMatch L3_META_NONE L4_META_NONE match0.
Definition m_outer (m : pipe_match) : doca_flow_header_format := outer (fields m).

(** struct doca_flow_fwd with its type *)
Inductive pipe_fwd := ToPort (port : Z) | ToPipe (pipe : nat) | ToDrop.

(** struct doca_flow_pipe_cfg with what its pointers point to at the call. *)
Record pipe_cfg := PipeConf {
  p_name : cstring; p_type : doca_flow_pipe_type; p_root : bool; p_port : Z; p_nb_actions : Z;
  p_match : option pipe_match; p_actions : option doca_flow_actions
}.

(** A field of a pipe whose value the entries give. *)
Definition all_ones (n : nat) : bytes := replicate n 255.
(** rte_cpu_to_be_16 of an int *)
Definition cpu_to_be_16 (x : Z) : bytes := be_bytes 2 (u16 x).

Inductive flow_flags := DOCA_FLOW_NO_WAIT | DOCA_FLOW_WAIT_FOR_BATCH.

(** ** Calls *)

Inductive call :=
| LogBackend (n : Z)
| ArgpInit | ArgpParamCreate | ArgpRegisterParam | ArgpRegisterVersion | ArgpRegisterValidation
| ArgpStart (dpdk : bool) | ArgpGetGrpcAddr | ArgpDestroy | GrpcClientCreate
| QueuesAndPortsInit | QueuesAndPortsFini | DpdkFini
| FlowInit (queues : Z) | FlowDestroy
| PortStart (id : Z) | PortPair (a b : Z) | PortStop (id : Z)
| PipeCreate (c : pipe_cfg) (fwd miss : option pipe_fwd)
| PipeAddEntry (queue : Z) (pipe : nat) (m : pipe_match) (a : option doca_flow_actions) (fwd : option pipe_fwd)
    (flags : flow_flags) (ctx : bool)
| ControlAddEntry (queue priority : Z) (pipe : nat) (m : pipe_match) (fwd : pipe_fwd)
| EntriesProcess (port queue timeout max : Z)
| EntryGetStatus (entry : Z) | PipeRmEntry (queue entry : Z) (flags : flow_flags)
| PortPipesFlush (port : Z) | PortPipesDump (port : Z)
| EthDevInfoGet (port : Z)
| Access (path : cstring) | Fopen (path : cstring) | FseekEnd | Ftell | FseekSet | Fread (n : Z) | Fclose
| Malloc (n : Z) | FreeBuffer | CallocRules (n : Z) | FreeRules
| EalInit | HashCreate | JsonParse.

(** One call of the entry callback: whether its user context is set, whether
    the entry was processed with success, whether the operation was an addition. *)
Record completion := Completion { c_ctx : bool; c_ok : bool; c_add : bool }.

(** The code the call returns (for a pointer: whether it is set), a number, bytes
    that it writes, the callbacks it runs. *)
Record reply := Reply { r_err : doca_error; r_num : Z; r_bytes : list Z; r_done : list completion }.

Abbreviation event := (call * reply)%type.

Definition ok (e : doca_error) : bool := match e with DOCA_SUCCESS => true | _ => false end.

(** ** Resources *)

Inductive res := RArgp | RPorts | RDpdk | RFlow | RPort (id : Z) | RFile | RBuffer | RRules | RHash
| RJson.                                                   (* the object json_tokener_parse returned *)

#[global] Instance res_eq_dec : EqDecision res.
Proof. solve_decision. Defined.

(** doca_argp_start initialises DPDK for a program that registered its
    [dpdk_init] (doca_argp_set_dpdk_program). *)
Definition acquires (c : call) : option res :=
  match c with
  | ArgpInit => Some RArgp | ArgpStart true => Some RDpdk | QueuesAndPortsInit => Some RPorts | FlowInit _ => Some RFlow
  | PortStart id => Some (RPort id) | Fopen _ => Some RFile | Malloc _ => Some RBuffer | CallocRules _ => Some RRules
  | EalInit => Some RDpdk | HashCreate => Some RHash | JsonParse => Some RJson
  | _ => None
  end.
Definition releases (c : call) : option res :=
  match c with
  | ArgpDestroy => Some RArgp | DpdkFini => Some RDpdk | QueuesAndPortsFini => Some RPorts | FlowDestroy => Some RFlow
  | PortStop id => Some (RPort id) | Fclose => Some RFile | FreeBuffer => Some RBuffer | FreeRules => Some RRules
  | _ => None
  end.

Fixpoint remove1 (r : res) (l : list res) : list res :=
  match l with [] => [] | x :: l' => if decide (x = r) then l' else x :: remove1 r l' end.

Definition hold (l : list res) (e : event) : list res :=
  let l := match releases e.1 with Some r => remove1 r l | None => l end in
  match acquires e.1 with Some r => if ok (r_err e.2) then r :: l else l | None => l end.
Definition held (h : list event) : list res := foldl hold [] h.

(** The JSON objects that were parsed.  No program modelled here calls
    json_object_put, so they stay held ([held_json]). *)
Definition parsed_object (e : event) : option res :=
  match e with (JsonParse, r) => if ok (r_err r) then Some RJson else None | _ => None end.
Definition parsed_objects (h : list event) : list res := omap parsed_object h.

(** Releasing what is not held - a double free, a port that was not started -
    is undefined. *)
Definition usable (h : list event) (c : call) : bool :=
  match releases c with Some r => bool_decide (r ∈ held h) | None => true end.

(** ** Making calls *)

Class Platform := reply_to : list event -> call -> reply.

Section Calls.
Context `{P : Platform}.

Definition invoke (c : call) : ST (list event) reply := fun h =>
  if usable h c then let r := reply_to h c in Some (r, h ++ [(c, r)]) else None.

Definition call_err (c : call) : ST (list event) doca_error := r ← invoke c; mret (r_err r).
Definition call_unit (c : call) : ST (list event) unit := _ ← invoke c; mret tt.

(** doca_flow_pipe_create: the code, and the number of the call. *)
Definition pipe_create (c : pipe_cfg) (fwd miss : option pipe_fwd) : ST (list event) (doca_error * nat) :=
  h ← get; result ← call_err (PipeCreate c fwd miss); mret (result, length h).
End Calls.

(** ** What the pipes do to a packet *)

(** The outer headers of a packet, addresses and ports as bytes. *)
Record pkt := Pkt {
  pk_ip4 : bool; pk_l4 : doca_flow_l4_type_ext; pk_src : bytes; pk_dst : bytes; pk_sport : bytes; pk_dport : bytes
}.

Inductive verdict := Sent (port : Z) (p : pkt) | Dropped.

(** A field of the pipe's match: zero is not matched, all ones is given by the
    entry, anything else is the value itself. *)
Definition ignored (t : bytes) : bool := bool_decide (Forall (fun b => b = 0) t).
Definition changeable (t : bytes) : bool := bool_decide (Forall (fun b => b = 255) t).
Definition field_has (t e v : bytes) : bool :=
  if ignored t then true else if changeable t then bool_decide (v = e) else bool_decide (v = t).

Definition types_have (m : pipe_match) (p : pkt) : bool :=
  match meta_l3 m with L3_META_NONE => true | L3_META_IPV4 => pk_ip4 p | L3_META_IPV6 => false end &&
  match meta_l4 m with
  | L4_META_NONE => true
  | L4_META_TCP => bool_decide (pk_l4 p = L4_TCP)
  | L4_META_UDP => bool_decide (pk_l4 p = L4_UDP)
  | _ => false
  end &&
  match l3_type (m_outer m) with L3_NONE => true | L3_IP4 => pk_ip4 p | L3_IP6 => false end &&
  match l4_type_ext (m_outer m) with
  | L4_NONE => true
  | L4_TRANSPORT => bool_decide (pk_l4 p = L4_TCP \/ pk_l4 p = L4_UDP)
  | t => bool_decide (pk_l4 p = t)
  end.

(** The packet has the fields of an entry [m] of a pipe whose match is [t]. *)
Definition has (t m : pipe_match) (p : pkt) : bool :=
  types_have t p &&
  field_has (ip4_src (m_outer t)) (ip4_src (m_outer m)) (pk_src p) &&
  field_has (ip4_dst (m_outer t)) (ip4_dst (m_outer m)) (pk_dst p) &&
  field_has (l4_src_port (m_outer t)) (l4_src_port (m_outer m)) (pk_sport p) &&
  field_has (l4_dst_port (m_outer t)) (l4_dst_port (m_outer m)) (pk_dport p).

(** The types of an entry are those of its pipe.  Whether another type in the
    entry counts is not documented: then nothing is said about the packet. *)
Definition type_agrees (t m : pipe_match) (p : pkt) : bool :=
  let ty := l4_type_ext (m_outer m) in
  bool_decide (ty = L4_NONE \/ ty = l4_type_ext (m_outer t) \/ ty = pk_l4 p).

(** A field of the pipe's actions, and of the entry's. *)
Definition field_set (t e v : bytes) : bytes := if ignored t then v else if changeable t then e else t.
Definition rewrite_pkt (t a : doca_flow_actions) (p : pkt) : pkt :=
  Pkt (pk_ip4 p) (pk_l4 p)
    (field_set (ip4_src (a_outer t)) (ip4_src (a_outer a)) (pk_src p))
    (field_set (ip4_dst (a_outer t)) (ip4_dst (a_outer a)) (pk_dst p))
    (field_set (l4_src_port (a_outer t)) (l4_src_port (a_outer a)) (pk_sport p))
    (field_set (l4_dst_port (a_outer t)) (l4_dst_port (a_outer a)) (pk_dport p)).

Record entry := Entry { e_match : pipe_match; e_actions : option doca_flow_actions; e_fwd : option pipe_fwd }.

(** The entry that an accepted call adds to [pipe]. *)
Definition entry_of (pipe : nat) (e : event) : option entry :=
  if ok (r_err e.2) then
    match e.1 with
    | PipeAddEntry _ pipe' m a fwd _ _ => if decide (pipe' = pipe) then Some (Entry m a fwd) else None
    | ControlAddEntry _ _ pipe' m fwd => if decide (pipe' = pipe) then Some (Entry m None (Some fwd)) else None
    | _ => None
    end
  else None.
Definition entries (h : list event) (pipe : nat) : list entry := omap (entry_of pipe) h.

(** Where a pipe sends a packet, and with which headers; [None] where the
    documentation does not say: several entries, or a miss without forwarding. *)
Definition decide_pipe (h : list event) (pipe : nat) (p : pkt) : option (pipe_fwd * pkt) :=
  match h !! pipe with
  | Some (PipeCreate c fwd miss, r) =>
      if negb (ok (r_err r)) then None else
      match p_type c with
      | PIPE_BASIC =>
          let t := default pipe_match0 (p_match c) in
          match List.filter (fun e => has t (e_match e) p) (entries h pipe) with
          | [] => option_map (fun f => (f, p)) miss
          | [e] =>
              if type_agrees t (e_match e) p then
                let p' := match p_actions c, e_actions e with Some ta, Some a => rewrite_pkt ta a p | _, _ => p end in
                option_map (fun f => (f, p')) (match e_fwd e with Some f => Some f | None => fwd end)
              else None
          | _ => None
          end
      | PIPE_CONTROL =>
          match List.filter (fun e => has (e_match e) (e_match e) p) (entries h pipe) with
          | [e] => option_map (fun f => (f, p)) (e_fwd e)
          | _ => None
          end
      end
  | _ => None
  end.

(** From pipe to pipe; a pipe can only be sent to when it exists, so the number
    falls. *)
Fixpoint steer (fuel : nat) (h : list event) (pipe : nat) (p : pkt) : option verdict :=
  match fuel with
  | O => None
  | S fuel' =>
      match decide_pipe h pipe p with
      | Some (ToPort q, p') => Some (Sent q p')
      | Some (ToDrop, _) => Some Dropped
      | Some (ToPipe next, p') => if (next <? pipe)%nat then steer fuel' h next p' else None
      | None => None
      end
  end.

(** The root pipes of a port. *)
Definition is_root_of (port : Z) (e : event) : bool :=
  match e with (PipeCreate c _ _, r) => ok (r_err r) && p_root c && (p_port c =? port) | _ => false end.
Definition roots (h : list event) (port : Z) : list nat :=
  omap (fun '(i, e) => if is_root_of port e then Some i else None) (imap pair h).

(** ** When entries are in the hardware *)

Definition added_with_ctx (e : event) : Z :=
  match e.1 with PipeAddEntry _ _ _ _ _ _ true => if ok (r_err e.2) then 1 else 0 | _ => 0 end.
Definition counted (c : completion) : bool := c_ctx c && c_add c.
Definition counts (cs : list completion) : Z := Z.of_nat (length (List.filter counted cs)).
Definition fails_in (cs : list completion) : bool := existsb (fun c => counted c && negb (c_ok c)) cs.

Definition total_of (f : event -> Z) (h : list event) : Z := foldr Z.add 0 (map f h).
Definition added (h : list event) : Z := total_of added_with_ctx h.
Definition done_by (e : event) : list completion :=
  match e.1 with EntriesProcess _ _ _ _ => r_done e.2 | _ => [] end.
Definition completed (h : list event) : Z := total_of (fun e => counts (done_by e)) h.

(** Every entry with a context has been reported, with success; every other one
    has been asked for, with the answer that it succeeded (0). *)
Definition status_known (h : list event) (e : event) : bool :=
  match e with
  | (PipeAddEntry _ _ _ _ _ _ false, r) =>
      negb (ok (r_err r)) ||
      existsb (fun e' => match e' with
                         | (EntryGetStatus id, r') => (id =? r_num r) && ok (r_err r') && (r_num r' =? 0)
                         | _ => false
                         end) h
  | _ => true
  end.
Definition removes (e : event) : bool :=
  match e.1 with PipeRmEntry _ _ _ | PortPipesFlush _ => true | _ => false end.
Definition offloaded (h : list event) : bool :=
  (added h =? completed h) && forallb (fun e => negb (fails_in (done_by e)) && status_known h e && negb (removes e)) h.

(** The hardware: what becomes of a packet that arrives at a port, once the
    calls of the history have been made. *)
Class Steering := {
  forward : list event -> Z -> pkt -> verdict;
  forward_law : forall h port pipe p v,
    RPort port ∈ held h -> RFlow ∈ held h -> offloaded h = true -> roots h port = [pipe] ->
    steer (S pipe) h pipe p = Some v -> forward h port p = v
}.

(** ** Lemmas *)

Definition zlen {A} (l : list A) : Z := Z.of_nat (length l).

Lemma held_snoc h e : held (h ++ [e]) = hold (held h) e.
Proof. unfold held. by rewrite foldl_app. Qed.

Lemma filter_remove1 r l : r <> RJson -> filter (.= RJson) (remove1 r l) = filter (.= RJson) l.
Proof.
  intros Hr. induction l as [|x l IH]; [done|]. cbn [remove1]. rewrite filter_cons. case_decide as E.
  - subst. by rewrite decide_False.
  - by rewrite filter_cons, IH.
Qed.

Lemma held_json h : filter (.= RJson) (held h) ≡ₚ parsed_objects h.
Proof.
  induction h as [|[c r] h IH] using rev_ind; [done|]. unfold parsed_objects in *.
  rewrite held_snoc, omap_app, Permutation_app_comm, <- IH. unfold hold. cbn [fst snd].
  assert (Hrel : filter (.= RJson) (match releases c with Some x => remove1 x (held h) | None => held h end) =
    filter (.= RJson) (held h)).
  { destruct (releases c) as [x|] eqn:E; [|done]. apply filter_remove1. by destruct c; simplify_eq/=. }
  destruct c; try (destruct dpdk); cbn [acquires] in *; rewrite ?Hrel; try done; cbn [omap list_omap parsed_object];
    destruct (ok (r_err r)); rewrite ?filter_cons, ?Hrel; done.
Qed.

Lemma entries_app h es pipe : entries (h ++ es) pipe = entries h pipe ++ entries es pipe.
Proof. apply omap_app. Qed.

Lemma entries_cons e es pipe : entries (e :: es) pipe = entries [e] pipe ++ entries es pipe.
Proof. apply (entries_app [e] es). Qed.

Lemma total_app f h es : total_of f (h ++ es) = total_of f h + total_of f es.
Proof. induction h as [|e h IH]; cbn; [done|]. unfold total_of in *. cbn. lia. Qed.

(** Calls that add, process and ask: they acquire, release and create nothing. *)
Definition plain_call (c : call) : bool :=
  match c with
  | PipeAddEntry _ _ _ _ _ _ true | ControlAddEntry _ _ _ _ _ | EntriesProcess _ _ _ _ | EthDevInfoGet _ => true
  | _ => false
  end.
Definition plain (es : list event) : Prop := Forall (fun e => plain_call e.1 = true) es.

Lemma plain_nil : plain [].
Proof. constructor. Qed.
Lemma plain_app es fs : plain es -> plain fs -> plain (es ++ fs).
Proof. apply Forall_app_2. Qed.
Lemma plain_one c r : plain_call c = true -> plain [(c, r)].
Proof. intros. by repeat constructor. Qed.
#[export] Hint Resolve plain_nil plain_app plain_one : doca.

Lemma held_plain h es : plain es -> held (h ++ es) = held h.
Proof.
  intros Hp. revert h. induction Hp as [|[c r] es Hc Hes IH]; intros h; [by rewrite app_nil_r|].
  change (held (h ++ (c, r) :: es)) with (held (h ++ [(c, r)] ++ es)).
  rewrite app_assoc, IH, held_snoc. destruct c; try done.
Qed.

(** Indices of the events that satisfy a test. *)
Definition positions (f : event -> bool) (h : list event) : list nat :=
  omap (fun '(i, e) => if f e then Some i else None) (imap pair h).

Lemma positions_shift f h n :
  omap (fun '(i, e) => if f e : bool then Some i else None) (imap (fun i => pair (n + i)%nat) h) =
  map (Nat.add n) (positions f h).
Proof.
  unfold positions. revert n. induction h as [|e h IH]; intros n; [done|].
  rewrite !imap_cons. cbn [omap list_omap].
  assert (Hs : forall k, imap ((fun i => pair (k + i)%nat) ∘ S) h = imap (fun i => pair (S k + i)%nat) h).
  { intros k. apply imap_ext. intros i x _. cbn. f_equal. lia. }
  rewrite (Hs n), (IH (S n)). change (imap (pair ∘ S) h) with (imap (fun i => @pair nat event (1 + i)%nat) h).
  rewrite (IH 1%nat). destruct (f e); cbn [map]; rewrite ?map_map; [f_equal|]; apply map_ext; intros; lia.
Qed.

Lemma positions_app f h es : positions f (h ++ es) = positions f h ++ map (Nat.add (length h)) (positions f es).
Proof.
  unfold positions at 1. rewrite imap_app, omap_app. f_equal. apply positions_shift.
Qed.

Lemma positions_none f h : Forall (fun e => f e = false) h -> positions f h = [].
Proof.
  induction h as [|e h IH]; intros Hf; [done|]. apply Forall_cons_1 in Hf as [He Hh].
  change (e :: h) with ([e] ++ h). rewrite positions_app, (IH Hh). cbn. by rewrite He.
Qed.

Lemma roots_app h es port : roots (h ++ es) port = roots h port ++ map (Nat.add (length h)) (roots es port).
Proof. apply (positions_app (is_root_of port)). Qed.

Lemma roots_cons e es port : roots (e :: es) port = roots [e] port ++ map S (roots es port).
Proof. apply (roots_app [e] es). Qed.

Lemma roots_one e port : roots [e] port = if is_root_of port e then [0%nat] else [].
Proof. unfold roots. cbn [imap omap list_omap]. cbn. by destruct (is_root_of port e). Qed.

Lemma roots_none h port : Forall (fun e => is_root_of port e = false) h -> roots h port = [].
Proof. apply (positions_none (is_root_of port)). Qed.

Lemma roots_plain es port : plain es -> roots es port = [].
Proof.
  intros Hp. apply roots_none. eapply Forall_impl; [exact Hp|]. intros [[] r]; done.
Qed.

(** Calls that create pipes besides. *)
Definition tame_call (c : call) : bool := match c with PipeCreate _ _ _ => true | _ => plain_call c end.
Definition tame (es : list event) : Prop := Forall (fun e => tame_call e.1 = true) es.

Lemma plain_tame es : plain es -> tame es.
Proof. intros H. eapply Forall_impl; [exact H|]. intros [[] r]; done. Qed.
Lemma tame_app es fs : tame es -> tame fs -> tame (es ++ fs).
Proof. apply Forall_app_2. Qed.
Lemma tame_one c r : tame_call c = true -> tame [(c, r)].
Proof. intros. by repeat constructor. Qed.
#[export] Hint Resolve plain_tame tame_app tame_one : doca.

Lemma held_tame h es : tame es -> held (h ++ es) = held h.
Proof.
  intros Hp. revert h. induction Hp as [|[c r] es Hc Hes IH]; intros h; [by rewrite app_nil_r|].
  change (held (h ++ (c, r) :: es)) with (held (h ++ [(c, r)] ++ es)).
  rewrite app_assoc, IH, held_snoc. destruct c; try done.
Qed.

(** *** Pipes *)

(** No entry for a pipe that does not exist. *)
Definition fresh (h : list event) : Prop := forall q, (length h <= q)%nat -> entries h q = [].

Lemma decide_pipe_ext h es pipe p :
  (pipe < length h)%nat -> entries es pipe = [] -> decide_pipe (h ++ es) pipe p = decide_pipe h pipe p.
Proof.
  intros Hlt He. unfold decide_pipe. rewrite lookup_app_l by done. by rewrite entries_app, He, app_nil_r.
Qed.

Lemma steer_ext fuel h es pipe p :
  (pipe < length h)%nat -> (forall q, (q < length h)%nat -> entries es q = []) ->
  steer fuel (h ++ es) pipe p = steer fuel h pipe p.
Proof.
  intros Hlt He. revert pipe p Hlt. induction fuel as [|fuel IH]; intros pipe p Hlt; [done|]. cbn [steer].
  rewrite decide_pipe_ext by auto. destruct (decide_pipe h pipe p) as [[[q|next|] p']|]; try done.
  destruct (Nat.ltb_spec next pipe); [|done]. apply IH. lia.
Qed.

(** A pipe whose entries are made of a list. *)
Lemma decide_basic {A} h pipe c fwd miss r t ta (m : A -> pipe_match) (a : A -> doca_flow_actions) l p :
  h !! pipe = Some (PipeCreate c fwd miss, r) -> ok (r_err r) = true -> p_type c = PIPE_BASIC ->
  p_match c = Some t -> p_actions c = Some ta -> entries h pipe = map (fun x => Entry (m x) (Some (a x)) None) l ->
  decide_pipe h pipe p =
  match List.filter (fun x => has t (m x) p) l with
  | [] => option_map (fun f => (f, p)) miss
  | [x] => if type_agrees t (m x) p then option_map (fun f => (f, rewrite_pkt ta (a x) p)) fwd else None
  | _ => None
  end.
Proof.
  intros Hh Hr Hc Hm Ha He. unfold decide_pipe. rewrite Hh, Hr, Hc, Hm, Ha, He. cbn [negb default].
  assert (Hf : List.filter (fun e => has t (e_match e) p) (map (fun x => Entry (m x) (Some (a x)) None) l) =
    map (fun x => Entry (m x) (Some (a x)) None) (List.filter (fun x => has t (m x) p) l)).
  { clear He. induction l as [|x l IH]; [done|]. cbn. destruct (has t (m x) p); cbn; by rewrite IH. }
  cbn [from_option id] in *. rewrite Hf.
  by destruct (List.filter (fun x => has t (m x) p) l) as [|x [|y l']].
Qed.

(** *** Entries that were added and not yet reported *)

Definition pending (h : list event) : Z := added h - completed h.
Definition no_failure (es : list event) : Prop := Forall (fun e => fails_in (done_by e) = false) es.

Lemma pending_app h es : pending (h ++ es) = pending h + pending es.
Proof. unfold pending, added, completed. rewrite !total_app. lia. Qed.

Lemma counts_nonneg cs : 0 <= counts cs.
Proof. unfold counts. lia. Qed.

Lemma offloaded_intro h :
  pending h = 0 -> no_failure h -> Forall (fun e => removes e = false) h ->
  Forall (fun e => match e.1 with PipeAddEntry _ _ _ _ _ _ false => False | _ => True end) h ->
  offloaded h = true.
Proof.
  intros Hp Hf Hr Hc. unfold offloaded. apply andb_true_intro. split; [unfold pending in Hp; lia|].
  apply forallb_forall. intros e He%list_elem_of_In.
  unfold no_failure in Hf. rewrite Forall_forall in Hf, Hr, Hc. rewrite (Hf e He), (Hr e He).
  specialize (Hc e He). destruct e as [[] r]; try done. cbn in Hc. by destruct ctx.
Qed.

(** *** Running calls *)

Section CallLemmas.
Context `{P : Platform}.

Lemma runs_invoke c h (Q : reply -> list event -> Prop) :
  usable h c = true -> Q (reply_to h c) (h ++ [(c, reply_to h c)]) -> runs (invoke c) h Q.
Proof. intros Hu HQ. exists (reply_to h c), (h ++ [(c, reply_to h c)]). split; [|done]. unfold invoke. by rewrite Hu. Qed.

Lemma runs_call_err c h (Q : doca_error -> list event -> Prop) :
  usable h c = true -> Q (r_err (reply_to h c)) (h ++ [(c, reply_to h c)]) -> runs (call_err c) h Q.
Proof. intros. apply runs_bind, runs_invoke; [done|]. by apply runs_ret. Qed.

Lemma runs_call_unit c h (Q : unit -> list event -> Prop) :
  usable h c = true -> Q tt (h ++ [(c, reply_to h c)]) -> runs (call_unit c) h Q.
Proof. intros. apply runs_bind, runs_invoke; [done|]. by apply runs_ret. Qed.

Lemma runs_pipe_create c fwd miss h (Q : doca_error * nat -> list event -> Prop) :
  Q (r_err (reply_to h (PipeCreate c fwd miss)), length h) (h ++ [(PipeCreate c fwd miss, reply_to h (PipeCreate c fwd miss))]) ->
  runs (pipe_create c fwd miss) h Q.
Proof.
  intros. apply runs_bind, runs_get, runs_bind, runs_call_err; [done|]. by apply runs_ret.
Qed.
End CallLemmas.

Lemma ok_success e : ok e = true <-> e = DOCA_SUCCESS.
Proof. by destruct e. Qed.

(** What a call that succeeds or fails leaves held. *)
Lemma hold_call h c r :
  held (h ++ [(c, r)]) =
  (let l := match releases c with Some x => remove1 x (held h) | None => held h end in
   match acquires c with Some x => if ok (r_err r) then x :: l else l | None => l end).
Proof. by rewrite held_snoc. Qed.
