(* ===== verification/Json.v ===== *)
(** * JSON files

    json-c as an interface, and how the NAT and the firewall program read a file
    into memory before they parse it (the same text in nat_core.c, firewall_core.c
    and, but for the read, config.c).  The functions are as the source has them: a
    failing fseek gives success with a NULL buffer, the buffer is not terminated,
    and parsing NULL or a buffer without a NUL is undefined.  What the programs
    rely on is the class [ReadableFile] (NatRun.v), a hypothesis of the theorems. *)

From S2P Require Import Prelude CString FlowTypes FlowPipes.
#[local] Open Scope Z_scope.

Inductive json_type :=
| json_type_null | json_type_boolean | json_type_double | json_type_int | json_type_object | json_type_array | json_type_string.

#[global] Instance json_type_eq_dec : EqDecision json_type.
Proof. solve_decision. Defined.

(** struct json_object; NULL, which also stands for the JSON null, is [None].
    A function is undefined ([None]) on an object of another type where it
    asserts the type. *)
Class JsonC := {
  json : Type;
  json_tokener_parse : cstring -> option json;
  json_object_object_get_ex : option json -> cstring -> option (option json);
  json_object_get_type : option json -> json_type;
  json_object_get_string : option json -> cstring;
  json_object_get_int : option json -> Z;
  json_object_get_int64 : option json -> Z;
  json_object_get_boolean : option json -> bool;
  json_object_array_length : option json -> option Z;
  json_object_array_get_idx : option json -> Z -> option json;
  (* the array has a length, an int is the nearest one of C *)
  array_length_law : forall j, json_object_get_type j = json_type_array ->
    exists n, json_object_array_length j = Some n /\ 0 <= n;
  get_int64_law : forall j, - 2 ^ 63 <= json_object_get_int64 j < 2 ^ 63;
  get_int_law : forall j, json_object_get_type j = json_type_int ->
    json_object_get_int j = Z.max (- 2 ^ 31) (Z.min (2 ^ 31 - 1) (json_object_get_int64 j))
}.

(** A string in memory ends at its first NUL; without one it is read past its
    end. *)
Fixpoint c_str (mem : bytes) : option cstring :=
  match mem with
  | [] => None
  | 0 :: _ => Some []
  | c :: mem' => s ← c_str mem'; Some (c :: s)
  end.

Section Files.
Context `{P : Platform}.

(** [json_data] is NULL when [None]; the file length, and the buffer with the
    contents that malloc gives it: nothing is written to it here. *)
Definition allocate_json_buffer_dynamic : ST (list event) (doca_error * Z * option bytes) :=
  result ← call_err FseekEnd;
  if ok result then
    r ← invoke Ftell;
    let buf_len := r_num r in
    if buf_len <? 0 then mret (DOCA_ERROR_IO_FAILED, 0, None) else
    m ← invoke (Malloc (buf_len + 1));
    if negb (ok (r_err m)) then mret (DOCA_ERROR_NO_MEMORY, 0, None) else
    let json_data := r_bytes m in
    result ← call_err FseekSet;
    if negb (ok result) then
      _ ← call_unit FreeBuffer;
      mret (DOCA_ERROR_IO_FAILED, 0, None)
    else mret (DOCA_SUCCESS, buf_len, Some json_data)
  else mret (DOCA_SUCCESS, 0, None).

(** fread into the buffer: how many bytes came, and the buffer after it. *)
Definition fread_json (file_length : Z) (json_data : option bytes) : ST (list event) (Z * option bytes) :=
  r ← invoke (Fread file_length);
  let b := take (Z.to_nat file_length) (r_bytes r) in
  mret (Z.of_nat (length b), option_map (fun buf => b ++ drop (length b) buf) json_data).
End Files.

(** json_tokener_parse of a buffer: the object it returns, if any, is the
    caller's. *)
Definition json_reply {A} (j : option A) : reply :=
  Reply (match j with Some _ => DOCA_SUCCESS | None => DOCA_ERROR_INVALID_VALUE end) 0 [] [].
Definition parse_buffer `{J : JsonC} (json_data : option bytes) : ST (list event) (option json) := fun h =>
  match json_data with
  | None => None
  | Some mem =>
      s ← c_str mem;
      let parsed_json := json_tokener_parse s in
      Some (parsed_json, h ++ [(JsonParse, json_reply parsed_json)])
  end.
