(* ===== verification/RuleText.v ===== *)
(** * Files of rules, as text

    What a parsed file of the NAT or the firewall holds: strings and numbers
    under their keys, and an array of rules; with the lemmas on addresses, ports
    and lists that the theorems about the rules share. *)

From S2P Require Import Prelude CString FlowTypes FlowFields FlowParserSpec FlowPipes Json.
#[local] Open Scope Z_scope.

Section Text.
Context `{J : JsonC}.

Definition string_at (j : option json) (k s : cstring) : Prop :=
  exists o, json_object_object_get_ex j k = Some o /\ json_object_get_type o = json_type_string /\ json_object_get_string o = s.
Definition int_at (j : option json) (k : cstring) (n : Z) : Prop :=
  exists o, json_object_object_get_ex j k = Some o /\ json_object_get_type o = json_type_int /\ json_object_get_int o = n.

(** An array under "rules" whose elements describe those of [l]. *)
Definition array_of {A} (elem : option json -> A -> Prop) (j : option json) (l : list A) : Prop :=
  exists rules, json_object_object_get_ex j (str "rules") = Some rules /\
    json_object_array_length rules = Some (zlen l) /\
    forall i x, l !! i = Some x -> elem (json_object_array_get_idx rules (Z.of_nat i)) x.

Lemma parse_ip_at o k i old :
  ip4_ok i -> string_at o k (ip4_text i) ->
  exists x, json_object_object_get_ex o k = Some x /\ json_object_get_type x = json_type_string /\
    parse_ipv4_str (json_object_get_string x) old = (DOCA_SUCCESS, ip4_bytes i).
Proof. intros (? & ? & ? & ?) (x & ? & ? & E). exists x. split_and!; [done..|]. rewrite E. by apply parse_ipv4_dotted. Qed.
End Text.

(** ** Addresses and ports *)

(** Ports as they are in packets. *)
Definition be16 (x : Z) : bytes := be_bytes 2 x.
Lemma be16_cpu x : in_u 16 x -> cpu_to_be_16 x = be16 x.
Proof. intros H. unfold cpu_to_be_16, be16. by rewrite wrap_small. Qed.
Lemma be16_inj x y : in_u 16 x -> in_u 16 y -> be16 x = be16 y -> x = y.
Proof.
  intros Hx Hy E%(f_equal be_value). unfold be16 in E. rewrite !be_value_bytes in E. by rewrite !Z.mod_small in E.
Qed.

#[global] Instance ip4_eq_dec : EqDecision ip4.
Proof. solve_decision. Defined.

Lemma ip4_bytes_inj i j : ip4_bytes i = ip4_bytes j -> i = j.
Proof. destruct i, j. by intros [= -> -> -> ->]. Qed.

(** ** Lists *)

Lemma filter_none {A} (f : A -> bool) l : (forall y, y ∈ l -> f y = false) -> List.filter f l = [].
Proof. induction l as [|x l IH]; intros H; [done|]. cbn. rewrite (H x) by by left. apply IH. intros y Hy. apply H. by right. Qed.

Lemma filter_only {A} (f : A -> bool) l x :
  x ∈ l -> f x = true -> (forall y, y ∈ l -> f y = true -> y = x) -> NoDup l -> List.filter f l = [x].
Proof.
  intros Hx Hf Hu Hnd. induction Hnd as [|y l Hy Hnd IH]; [set_solver|]. cbn.
  apply elem_of_cons in Hx as [<-|Hx].
  - rewrite Hf. f_equal. apply filter_none. intros z Hz. destruct (f z) eqn:E; [|done].
    rewrite (Hu z) in Hz by (try done; by right). done.
  - destruct (f y) eqn:E; [rewrite (Hu y) in Hy by (try done; by left); done|].
    apply IH; [done|]. intros z Hz. apply Hu. by right.
Qed.

(** Lists of pairs that a key tells apart. *)
Lemma key_unique {A K} (key : A -> K) l x y : NoDup (map key l) -> x ∈ l -> y ∈ l -> key x = key y -> x = y.
Proof.
  intros Hnd Hx Hy. induction l as [|z l IH]; [set_solver|]. apply NoDup_cons in Hnd as [Hz Hnd].
  assert (Hin : forall v, v ∈ l -> key z <> key v) by (intros v Hv E; apply Hz, list_elem_of_fmap; by exists v).
  apply elem_of_cons in Hx as [->|Hx], Hy as [->|Hy]; [done| | |by apply IH]; intros E.
  - by destruct (Hin y Hy).
  - by destruct (Hin x Hx).
Qed.
