(* ===== verification/Nat.v ===== *)
(** * Network address translation (src/applications/nat)

    nat_core.c and main of nat.c: the arguments, the rules of a JSON file, the
    pipes that translate the packets of the two ports, the destruction.  The state
    is the history of the calls (FlowPipes); the doca_be32_t of an address is its
    bytes.  The loops over the rules and over the completions take fuel: the
    number of rules, and [polls]. *)

From S2P Require Import Prelude CString FlowTypes FlowFields FlowPipes Json.
#[local] Open Scope Z_scope.

Definition NAT_PORTS_NUM : nat := 2.
Definition DEFAULT_TIMEOUT_US : Z := 10000.
Definition NB_ACTIONS_ARR : Z := 1.
Definition MAX_PORT_NAME : nat := 30.
Definition QUEUE_DEPTH : Z := 256.
Definition MAX_FILE_NAME : nat := 255.
Definition MAX_INTF_NAME : nat := 5.
Definition EXIT_SUCCESS : Z := 0.
Definition EXIT_FAILURE : Z := 1.

Inductive nat_mode := STATIC | DYNAMIC | PAT | NAT_INVALID_MODE.

Record nat_cfg := Cfg { mode : nat_mode; lan_intf_id : Z; wan_intf_id : Z; json_path : cstring; has_json : bool }.

Record nat_rule_match := Rule { local_ip : bytes; local_port : Z; global_ip : bytes; global_port : Z }.

(** ** Arguments *)

Inductive arg := ArgMode (s : cstring) | ArgRules (s : cstring) | ArgLan (s : cstring) | ArgWan (s : cstring).

(** [strstr(s, p) != NULL] *)
Fixpoint strstr (s p : cstring) : bool :=
  starts_with p s || match s with [] => false | _ :: s' => strstr s' p end.

Section Arguments.
Context `{P : Platform}.

Definition nat_mode_callback (m : cstring) (c : nat_cfg) : doca_error * nat_cfg :=
  let set m := Cfg m (lan_intf_id c) (wan_intf_id c) (json_path c) (has_json c) in
  if strcmp m (str "static") then (DOCA_SUCCESS, set STATIC)
  else if strcmp m (str "pat") then (DOCA_SUCCESS, set PAT)
  else (DOCA_ERROR_INVALID_VALUE, set NAT_INVALID_MODE).

(** The name starts with "sf": strstr finds it at its start. *)
Definition lan_intf_callback (lan_intf : cstring) (c : nat_cfg) : doca_error * nat_cfg :=
  if (strnlen lan_intf (MAX_INTF_NAME + 1) =? MAX_INTF_NAME + 1)%nat then (DOCA_ERROR_INVALID_VALUE, c)
  else if negb (starts_with (str "sf") lan_intf) then (DOCA_ERROR_INVALID_VALUE, c)
  else (DOCA_SUCCESS, Cfg (mode c) (atoi (drop 2 lan_intf)) (wan_intf_id c) (json_path c) (has_json c)).

Definition wan_intf_callback (wan_intf : cstring) (c : nat_cfg) : doca_error * nat_cfg :=
  if (strnlen wan_intf (MAX_INTF_NAME + 1) =? MAX_INTF_NAME + 1)%nat then (DOCA_ERROR_INVALID_VALUE, c)
  else if negb (starts_with (str "sf") wan_intf) then (DOCA_ERROR_INVALID_VALUE, c)
  else (DOCA_SUCCESS, Cfg (mode c) (lan_intf_id c) (atoi (drop 2 wan_intf)) (json_path c) (has_json c)).

Definition nat_rules_callback (path : cstring) (c : nat_cfg) : ST (list event) (doca_error * nat_cfg) :=
  if (strnlen path MAX_FILE_NAME =? MAX_FILE_NAME)%nat then mret (DOCA_ERROR_INVALID_VALUE, c)
  else
    result ← call_err (Access path);
    if negb (ok result) then mret (DOCA_ERROR_NOT_FOUND, c)
    else mret (DOCA_SUCCESS, Cfg (mode c) (lan_intf_id c) (wan_intf_id c) (strlcpy path MAX_FILE_NAME) true).

Definition nat_args_validation_callback (c : nat_cfg) : doca_error :=
  if wan_intf_id c =? lan_intf_id c then DOCA_ERROR_INVALID_VALUE else DOCA_SUCCESS.

Definition register_param : ST (list event) doca_error :=
  result ← call_err ArgpParamCreate;
  if negb (ok result) then mret result else call_err ArgpRegisterParam.

Definition register_nat_params : ST (list event) doca_error :=
  result ← register_param;
  if negb (ok result) then mret result else
  result ← register_param;
  if negb (ok result) then mret result else
  result ← register_param;
  if negb (ok result) then mret result else
  result ← register_param;
  if negb (ok result) then mret result else
  result ← call_err ArgpRegisterVersion;
  if negb (ok result) then mret result else
  result ← call_err ArgpRegisterValidation;
  mret result.

Definition argp_callback (a : arg) (c : nat_cfg) : ST (list event) (doca_error * nat_cfg) :=
  match a with
  | ArgMode s => mret (nat_mode_callback s c)
  | ArgRules s => nat_rules_callback s c
  | ArgLan s => mret (lan_intf_callback s c)
  | ArgWan s => mret (wan_intf_callback s c)
  end.
Fixpoint argp_callbacks (args : list arg) (c : nat_cfg) : ST (list event) (doca_error * nat_cfg) :=
  match args with
  | [] => mret (DOCA_SUCCESS, c)
  | a :: args' =>
      '(result, c) ← argp_callback a c;
      if negb (ok result) then mret (result, c) else argp_callbacks args' c
  end.

(** doca_argp_start: the callbacks of the arguments until one fails, the
    validation, then the initialisation of DPDK. *)
Definition argp_start (args : list arg) (c : nat_cfg) : ST (list event) (doca_error * nat_cfg) :=
  '(result, c) ← argp_callbacks args c;
  if negb (ok result) then mret (result, c) else
  let result := nat_args_validation_callback c in
  if negb (ok result) then mret (result, c) else
  result ← call_err (ArgpStart true);
  mret (result, c).
End Arguments.

(** ** Rules *)

Section Rules.
Context `{P : Platform} `{J : JsonC}.

Definition create_local_ip (cur_rule : option json) (r : nat_rule_match) : doca_error * nat_rule_match :=
  match json_object_object_get_ex cur_rule (str "local ip") with
  | None => (DOCA_ERROR_INVALID_VALUE, r)
  | Some local_ip_obj =>
      if decide (json_object_get_type local_ip_obj = json_type_string) then
        let '(result, ip) := parse_ipv4_str (json_object_get_string local_ip_obj) (local_ip r) in
        (result, Rule ip (local_port r) (global_ip r) (global_port r))
      else (DOCA_ERROR_INVALID_VALUE, r)
  end.

Definition create_global_ip (cur_rule : option json) (r : nat_rule_match) : doca_error * nat_rule_match :=
  match json_object_object_get_ex cur_rule (str "global ip") with
  | None => (DOCA_ERROR_INVALID_VALUE, r)
  | Some global_ip_obj =>
      if decide (json_object_get_type global_ip_obj = json_type_string) then
        let '(result, ip) := parse_ipv4_str (json_object_get_string global_ip_obj) (global_ip r) in
        (result, Rule (local_ip r) (local_port r) ip (global_port r))
      else (DOCA_ERROR_INVALID_VALUE, r)
  end.

Definition create_local_port (cur_rule : option json) (r : nat_rule_match) : doca_error * nat_rule_match :=
  match json_object_object_get_ex cur_rule (str "local port") with
  | None => (DOCA_ERROR_INVALID_VALUE, r)
  | Some local_port_obj =>
      if decide (json_object_get_type local_port_obj = json_type_int)
      then (DOCA_SUCCESS, Rule (local_ip r) (json_object_get_int local_port_obj) (global_ip r) (global_port r))
      else (DOCA_ERROR_INVALID_VALUE, r)
  end.

Definition create_global_port (cur_rule : option json) (r : nat_rule_match) : doca_error * nat_rule_match :=
  match json_object_object_get_ex cur_rule (str "global port") with
  | None => (DOCA_ERROR_INVALID_VALUE, r)
  | Some global_port_obj =>
      if decide (json_object_get_type global_port_obj = json_type_int)
      then (DOCA_SUCCESS, Rule (local_ip r) (local_port r) (global_ip r) (json_object_get_int global_port_obj))
      else (DOCA_ERROR_INVALID_VALUE, r)
  end.

(** What calloc gives. *)
Definition rule0 : nat_rule_match := Rule (zeros 4) 0 (zeros 4) 0.

Definition static_rule (cur_rule : option json) : doca_error * nat_rule_match :=
  let '(result, r) := create_local_ip cur_rule rule0 in
  if negb (ok result) then (result, r) else create_global_ip cur_rule r.

Definition pat_rule (parsed_global_ip : bytes) (cur_rule : option json) : doca_error * nat_rule_match :=
  let '(result, r) := create_local_ip cur_rule rule0 in
  if negb (ok result) then (result, r) else
  let '(result, r) := create_local_port cur_rule r in
  if negb (ok result) then (result, r) else
  let '(result, r) := create_global_port cur_rule r in
  if negb (ok result) then (result, r) else
  (DOCA_SUCCESS, Rule (local_ip r) (local_port r) parsed_global_ip (global_port r)).

(** [for (i = 0; i < *nat_num_rules; i++)] from [i] on, [n] rules to go: the
    rules, or the error of the first bad one. *)
Fixpoint parse_rules (make : option json -> doca_error * nat_rule_match) (rules : option json) (n : nat) (i : Z)
    : doca_error * list nat_rule_match :=
  match n with
  | O => (DOCA_SUCCESS, [])
  | S n' =>
      let '(result, r) := make (json_object_array_get_idx rules i) in
      if negb (ok result) then (result, []) else
      let '(result, rs) := parse_rules make rules n' (i + 1) in (result, r :: rs)
  end.

(** The array of rules; json_object_array_length asserts that there is one. *)
Definition create_rules (make : option json -> doca_error * nat_rule_match) (rules : option json)
    : ST (list event) (doca_error * Z * option (list nat_rule_match)) := fun h =>
  match json_object_array_length rules with
  | None => None
  | Some len =>
      let nat_num_rules := s32 len in
      (result ← call_err (CallocRules nat_num_rules);
       if negb (ok result) then mret (DOCA_ERROR_NO_MEMORY, nat_num_rules, None) else
       let '(result, rules_arr) := parse_rules make rules (Z.to_nat nat_num_rules) 0 in
       if negb (ok result) then _ ← call_unit FreeRules; mret (result, nat_num_rules, None)
       else mret (DOCA_SUCCESS, nat_num_rules, Some rules_arr)) h
  end.

Definition create_static_mode_rules (parsed_json : option json)
    : ST (list event) (doca_error * Z * option (list nat_rule_match)) :=
  match json_object_object_get_ex parsed_json (str "rules") with
  | None => mret (DOCA_ERROR_INVALID_VALUE, 0, None)
  | Some rules => create_rules static_rule rules
  end.

Definition create_pat_mode_rules (parsed_json : option json)
    : ST (list event) (doca_error * Z * option (list nat_rule_match)) :=
  match json_object_object_get_ex parsed_json (str "global ip") with
  | None => mret (DOCA_ERROR_INVALID_VALUE, 0, None)
  | Some global_ip_obj =>
      if decide (json_object_get_type global_ip_obj = json_type_string) then
        let '(result, parsed_global_ip) := parse_ipv4_str (json_object_get_string global_ip_obj) (zeros 4) in
        if negb (ok result) then mret (result, 0, None) else
        match json_object_object_get_ex parsed_json (str "rules") with
        | None => mret (DOCA_ERROR_INVALID_VALUE, 0, None)
        | Some rules => create_rules (pat_rule parsed_global_ip) rules
        end
      else mret (DOCA_ERROR_INVALID_VALUE, 0, None)
  end.

Definition parsing_nat_rules (file_path : cstring) (m : nat_mode)
    : ST (list event) (doca_error * Z * option (list nat_rule_match)) :=
  result ← call_err (Fopen file_path);
  if negb (ok result) then mret (DOCA_ERROR_IO_FAILED, 0, None) else
  '(result, file_length, json_data) ← allocate_json_buffer_dynamic;
  if negb (ok result) then _ ← call_unit Fclose; mret (result, 0, None) else
  '(_, json_data) ← fread_json file_length json_data;
  _ ← call_unit Fclose;
  parsed_json ← parse_buffer json_data;
  _ ← call_unit FreeBuffer;
  match m with
  | STATIC => create_static_mode_rules parsed_json
  | PAT => create_pat_mode_rules parsed_json
  | _ => mret (DOCA_ERROR_INVALID_VALUE, 0, None)
  end.
End Rules.

(** ** Ports *)

Section Ports.
Context `{P : Platform}.

(** The static array [ports]: which pointers are set. *)
Definition nat_port_create (portid : Z) (ports : list bool) : ST (list event) (doca_error * list bool) :=
  result ← call_err (PortStart portid);
  if negb (ok result) then mret (result, ports) else
  match wr ports portid true with Some ports => mret (DOCA_SUCCESS, ports) | None => undef end.

(** The loop from [portid] on, [n] ports to go. *)
Fixpoint stop_ports (n : nat) (portid : Z) (ports : list bool) : ST (list event) unit :=
  match n with
  | O => mret tt
  | S n' =>
      match rd ports portid with
      | None => undef
      | Some started =>
          _ ← (if started : bool then call_unit (PortStop portid) else mret tt);
          stop_ports n' (portid + 1) ports
      end
  end.
Definition nat_stop_ports (nb_ports : Z) (ports : list bool) : ST (list event) unit :=
  stop_ports (Z.to_nat nb_ports) 0 ports.

Definition nat_destroy (nb_ports : Z) (nat_rules : option (list nat_rule_match)) (ports : list bool)
    : ST (list event) unit :=
  _ ← nat_stop_ports nb_ports ports;
  _ ← call_unit FlowDestroy;
  match nat_rules with Some _ => call_unit FreeRules | None => mret tt end.

(** The loop of nat_init from [portid] on, [n] ports to go. *)
Fixpoint init_ports (n : nat) (portid : Z) (ports : list bool) : ST (list event) (doca_error * list bool) :=
  match n with
  | O => mret (DOCA_SUCCESS, ports)
  | S n' =>
      '(result, ports) ← nat_port_create portid ports;
      if negb (ok result) then
        _ ← nat_stop_ports portid ports;
        _ ← call_unit FlowDestroy;
        mret (result, ports)
      else if (portid =? 0) || (portid mod 2 =? 0) then init_ports n' (portid + 1) ports
      else
        result ← call_err (PortPair portid (Z.lxor portid 1));
        if negb (ok result) then
          _ ← nat_stop_ports (portid + 1) ports;
          _ ← call_unit FlowDestroy;
          mret (result, ports)
        else init_ports n' (portid + 1) ports
  end.

Definition nat_init (nb_queues nb_ports : Z) : ST (list event) (doca_error * list bool) :=
  let ports := replicate NAT_PORTS_NUM false in
  result ← call_err (FlowInit nb_queues);
  if negb (ok result) then mret (result, ports) else
  init_ports (Z.to_nat nb_ports) 0 ports.
End Ports.

(** ** Pipes *)

(** struct entries_status *)
Record entries_status := Status { is_failure : bool; nb_processed : Z }.
Definition status0 : entries_status := Status false 0.

Definition check_for_valid_entry (st : entries_status) (c : completion) : entries_status :=
  if negb (c_ctx c) || negb (c_add c) then st
  else Status (is_failure st || negb (c_ok c)) (nb_processed st + 1).

Section Pipes.
Context `{P : Platform}.
Context (polls : nat).

Definition entries_process (port_id max : Z) (st : entries_status) : ST (list event) (doca_error * entries_status) :=
  r ← invoke (EntriesProcess port_id 0 DEFAULT_TIMEOUT_US max);
  mret (r_err r, foldl check_for_valid_entry st (r_done r)).

(** Process entries to make a space for the next entries *)
Definition make_space (port_id nb_entries : Z) (st : entries_status)
    : ST (list event) (doca_error * Z * entries_status) :=
  if nb_entries =? QUEUE_DEPTH then
    '(result, st) ← entries_process port_id nb_entries st;
    if negb (ok result) then mret (result, nb_entries, st) else
    if is_failure st || (nb_processed st =? 0) then mret (DOCA_ERROR_BAD_STATE, nb_entries, st) else
    mret (DOCA_SUCCESS, nb_entries - nb_processed st, Status (is_failure st) 0)
  else mret (DOCA_SUCCESS, nb_entries, st).

(** Processing pipes entries *)
Fixpoint drain (fuel : nat) (port_id nb_entries : Z) (st : entries_status) : ST (list event) doca_error :=
  match fuel with
  | O => undef
  | S fuel' =>
      if 0 <? nb_entries - nb_processed st then
        '(result, st) ← entries_process port_id (nb_entries - nb_processed st) st;
        if negb (ok result) then mret result else
        if is_failure st then mret DOCA_ERROR_BAD_STATE else
        drain fuel' port_id nb_entries st
      else mret DOCA_SUCCESS
  end.

(** The loop over the rules, from [ruleid] on, whose counter has 16 bits.  [add]
    is what its body does before the entries are processed: the new number of
    entries, or [None] where it continues with the next rule. *)
Fixpoint rules_loop (add : nat_rule_match -> Z -> ST (list event) (option Z)) (fuel : nat) (port_id ruleid : Z)
    (nat_rules : list nat_rule_match) (nat_num_rules nb_entries : Z) (st : entries_status)
    : ST (list event) (doca_error * Z * entries_status) :=
  if ruleid <? nat_num_rules then
    match fuel, rd nat_rules ruleid with
    | S fuel', Some r =>
        added ← add r nb_entries;
        match added with
        | None => rules_loop add fuel' port_id (u16 (ruleid + 1)) nat_rules nat_num_rules nb_entries st
        | Some nb_entries =>
            '(result, nb_entries, st) ← make_space port_id nb_entries st;
            if negb (ok result) then mret (result, nb_entries, st) else
            rules_loop add fuel' port_id (u16 (ruleid + 1)) nat_rules nat_num_rules nb_entries st
        end
    | _, _ => undef
    end
  else mret (DOCA_SUCCESS, nb_entries, st).

(** The loop and the processing of what is left. *)
Definition add_rules (add : nat_rule_match -> Z -> ST (list event) (option Z)) (port_id : Z)
    (nat_rules : list nat_rule_match) (nat_num_rules : Z) : ST (list event) doca_error :=
  '(result, nb_entries, st) ← rules_loop add (Z.to_nat nat_num_rules) port_id 0 nat_rules nat_num_rules 0 status0;
  if negb (ok result) then mret result else
  drain polls port_id nb_entries st.

Definition entry_flags (nb_entries last : Z) : flow_flags :=
  if nb_entries =? last then DOCA_FLOW_NO_WAIT else DOCA_FLOW_WAIT_FOR_BATCH.

(** Addresses, and the ports of the union of tcp and udp, in a match or in actions. *)
Definition with_outer (f : doca_flow_header_format -> doca_flow_header_format) (m : pipe_match) : pipe_match :=
  PipeMatch (meta_l3 m) (meta_l4 m) (set_outer (f (m_outer m)) (fields m)).
Definition with_a_outer (f : doca_flow_header_format -> doca_flow_header_format) (a : doca_flow_actions)
    : doca_flow_actions := set_a_outer (f (a_outer a)) a.
Definition src_ip (x : bytes) := set_l3 0 x.
Definition dst_ip (x : bytes) := set_l3 4 x.
Definition src_port (x : bytes) := set_l4 0 x.
Definition dst_port (x : bytes) := set_l4 2 x.

Definition nat_pipe_cfg (name : cstring) (root : bool) (port_id : Z) (m : pipe_match) (a : doca_flow_actions)
    : pipe_cfg := PipeConf name PIPE_BASIC root port_id NB_ACTIONS_ARR (Some m) (Some a).

(** The rules of a static pipe: an entry each, which is left out when it is not
    accepted. *)
Definition static_entry (nat_pipe : nat) (m : pipe_match) (a : doca_flow_actions) (nb_entries : Z)
    : ST (list event) (option Z) :=
  result ← call_err (PipeAddEntry 0 nat_pipe m (Some a) None (entry_flags nb_entries (QUEUE_DEPTH - 1)) true);
  mret (if ok result then Some (nb_entries + 1) else None).

Definition build_static_local_pipe (port_id : Z) (nat_rules : list nat_rule_match) (nat_num_rules : Z)
    : ST (list event) doca_error :=
  let m := PipeMatch L3_META_IPV4 L4_META_NONE
             (set_outer (set_l3_type L3_IP4 (src_ip (all_ones 4) header0)) match0) in
  let a := with_a_outer (fun h => src_ip (all_ones 4) (set_l3_type L3_IP4 h)) actions0 in
  '(result, nat_pipe) ← pipe_create (nat_pipe_cfg (str "NAT_STATIC_PIPE") true port_id m a)
                          (Some (ToPort (Z.lxor port_id 1))) (Some ToDrop);
  if negb (ok result) then mret result else
  add_rules (fun r => static_entry nat_pipe (with_outer (src_ip (local_ip r)) pipe_match0)
                        (with_a_outer (src_ip (global_ip r)) actions0))
    port_id nat_rules nat_num_rules.

Definition build_static_global_pipe (port_id : Z) (nat_rules : list nat_rule_match) (nat_num_rules : Z)
    : ST (list event) doca_error :=
  let m := PipeMatch L3_META_IPV4 L4_META_NONE
             (set_outer (set_l3_type L3_IP4 (dst_ip (all_ones 4) header0)) match0) in
  let a := with_a_outer (fun h => dst_ip (all_ones 4) (set_l3_type L3_IP4 h)) actions0 in
  '(result, nat_pipe) ← pipe_create (nat_pipe_cfg (str "NAT_STATIC_PIPE") true port_id m a)
                          (Some (ToPort (Z.lxor port_id 1))) (Some ToDrop);
  if negb (ok result) then mret result else
  add_rules (fun r => static_entry nat_pipe (with_outer (dst_ip (global_ip r)) pipe_match0)
                        (with_a_outer (dst_ip (local_ip r)) actions0))
    port_id nat_rules nat_num_rules.

Definition create_control_pipe (port_id : Z) : ST (list event) (doca_error * nat) :=
  pipe_create (PipeConf (str "CONTROL_PIPE") PIPE_CONTROL true port_id 0 None None) None None.

Definition add_control_pipe_entries (control_pipe udp_pipe tcp_pipe : nat) : ST (list event) doca_error :=
  let priority := 0 in
  let m := PipeMatch L3_META_IPV4 L4_META_UDP match0 in
  result ← call_err (ControlAddEntry 0 priority control_pipe m (ToPipe udp_pipe));
  if negb (ok result) then mret result else
  let m := PipeMatch L3_META_IPV4 L4_META_TCP (fields m) in
  result ← call_err (ControlAddEntry 0 priority control_pipe m (ToPipe tcp_pipe));
  if negb (ok result) then mret result else
  mret DOCA_SUCCESS.

Definition finish_pat (port_id : Z) (nat_udp_pipe nat_tcp_pipe : nat) : ST (list event) doca_error :=
  '(result, control_pipe) ← create_control_pipe port_id;
  if negb (ok result) then mret result else
  result ← add_control_pipe_entries control_pipe nat_udp_pipe nat_tcp_pipe;
  if negb (ok result) then mret result else
  mret DOCA_SUCCESS.

(** The two entries of a rule, whose results are not looked at.  The match and
    the actions of the second start from those of the first. *)
Definition pat_entries (nat_tcp_pipe nat_udp_pipe : nat) (m m' : pipe_match) (a a' : doca_flow_actions)
    (nb_entries : Z) : ST (list event) (option Z) :=
  let flags := entry_flags nb_entries (QUEUE_DEPTH - 2) in
  _ ← call_err (PipeAddEntry 0 nat_tcp_pipe m (Some a) None DOCA_FLOW_WAIT_FOR_BATCH true);
  _ ← call_err (PipeAddEntry 0 nat_udp_pipe m' (Some a') None flags true);
  mret (Some (nb_entries + 2)).

Definition build_pat_local_pipe (port_id : Z) (nat_rules : list nat_rule_match) (nat_num_rules : Z)
    : ST (list event) doca_error :=
  (* tcp *)
  let set h := src_port (all_ones 2) (set_l4_type L4_TCP (src_ip (all_ones 4) (set_l3_type L3_IP4 h))) in
  let m := with_outer set pipe_match0 in
  let a := with_a_outer set actions0 in
  let fwd := ToPort (Z.lxor port_id 1) in
  '(result, nat_tcp_pipe) ← pipe_create (nat_pipe_cfg (str "NAT_PAT_PIPE") false port_id m a) (Some fwd) (Some ToDrop);
  if negb (ok result) then mret result else
  (* udp *)
  let set h := src_port (all_ones 2) (set_l4_type L4_UDP (src_port (zeros 2) h)) in
  let m := with_outer set m in
  let a := with_a_outer set a in
  '(result, nat_udp_pipe) ← pipe_create (nat_pipe_cfg (str "NAT_PAT_PIPE") false port_id m a) (Some fwd) (Some ToDrop);
  if negb (ok result) then mret result else
  result ← add_rules (fun r =>
    let m := with_outer (fun h => src_port (cpu_to_be_16 (local_port r)) (src_ip (local_ip r) h)) pipe_match0 in
    let a := with_a_outer (fun h => src_port (cpu_to_be_16 (global_port r)) (src_ip (global_ip r) h)) actions0 in
    let m' := with_outer (src_port (cpu_to_be_16 (local_port r))) m in
    let a' := with_a_outer (src_port (cpu_to_be_16 (global_port r))) a in
    pat_entries nat_tcp_pipe nat_udp_pipe m m' a a') port_id nat_rules nat_num_rules;
  if negb (ok result) then mret result else
  finish_pat port_id nat_udp_pipe nat_tcp_pipe.

Definition build_pat_global_pipe (port_id : Z) (nat_rules : list nat_rule_match) (nat_num_rules : Z)
    : ST (list event) doca_error :=
  let set h := dst_port (all_ones 2) (set_l4_type L4_TCP (set_l3_type L3_IP4 (dst_ip (all_ones 4) h))) in
  let m := with_outer set pipe_match0 in
  let a := with_a_outer set actions0 in
  let fwd := ToPort (Z.lxor port_id 1) in
  '(result, nat_tcp_pipe) ← pipe_create (nat_pipe_cfg (str "NAT_PAT_PIPE") false port_id m a) (Some fwd) (Some ToDrop);
  if negb (ok result) then mret result else
  let set h := dst_port (all_ones 2) (set_l4_type L4_UDP (dst_port (zeros 2) h)) in
  let m := with_outer set m in
  let a := with_a_outer set a in
  '(result, nat_udp_pipe) ← pipe_create (nat_pipe_cfg (str "NAT_PAT_PIPE") false port_id m a) (Some fwd) (Some ToDrop);
  if negb (ok result) then mret result else
  result ← add_rules (fun r =>
    let m := with_outer (fun h => dst_port (cpu_to_be_16 (global_port r)) (dst_ip (global_ip r) h)) pipe_match0 in
    let a := with_a_outer (fun h => dst_port (cpu_to_be_16 (local_port r)) (dst_ip (local_ip r) h)) actions0 in
    let m' := with_outer (dst_port (cpu_to_be_16 (local_port r))) m in
    let a' := with_a_outer (dst_port (cpu_to_be_16 (global_port r))) a in
    pat_entries nat_tcp_pipe nat_udp_pipe m m' a a') port_id nat_rules nat_num_rules;
  if negb (ok result) then mret result else
  finish_pat port_id nat_udp_pipe nat_tcp_pipe.

(** [snprintf(name, MAX_PORT_NAME, "mlx5_core.sf.%d", id)] *)
Definition fmt_d (n : Z) : cstring := if n <? 0 then 45 :: dec (- n) else dec n.
Definition port_intf_name (id : Z) : cstring := take (MAX_PORT_NAME - 1) (str "mlx5_core.sf." ++ fmt_d id).

(** Which pipe a port gets; a device without a name is none of the two. *)
Definition build_for (local global : Z -> list nat_rule_match -> Z -> ST (list event) doca_error) (portid : Z)
    (info : reply) (c : nat_cfg) (nat_rules : list nat_rule_match) (nat_num_rules : Z) : ST (list event) doca_error :=
  if ok (r_err info) && strstr (r_bytes info) (port_intf_name (lan_intf_id c)) then local portid nat_rules nat_num_rules
  else if ok (r_err info) && strstr (r_bytes info) (port_intf_name (wan_intf_id c)) then global portid nat_rules nat_num_rules
  else mret DOCA_ERROR_INVALID_VALUE.

(** The loop from [portid] on, [n] ports to go. *)
Fixpoint pipes_init (n : nat) (portid : Z) (nat_rules : list nat_rule_match) (nat_num_rules : Z) (c : nat_cfg)
    : ST (list event) doca_error :=
  match n with
  | O => mret DOCA_SUCCESS
  | S n' =>
      info ← invoke (EthDevInfoGet portid);
      if r_num info <? 0 then mret DOCA_ERROR_DRIVER else
      result ← (match mode c with
                | STATIC => build_for build_static_local_pipe build_static_global_pipe portid info c nat_rules nat_num_rules
                | PAT => build_for build_pat_local_pipe build_pat_global_pipe portid info c nat_rules nat_num_rules
                | _ => mret DOCA_SUCCESS
                end);
      if negb (ok result) then mret result else
      pipes_init n' (portid + 1) nat_rules nat_num_rules c
  end.
Definition nat_pipes_init (nat_rules : list nat_rule_match) (nat_num_rules : Z) (c : nat_cfg) (nb_ports : Z)
    : ST (list event) doca_error := pipes_init (Z.to_nat nb_ports) 0 nat_rules nat_num_rules c.
End Pipes.

(** ** main *)

(** Where main stands when it stops going forward: at the label it jumps to, or
    waiting for traffic, after which it goes on at nat_cleanup. *)
Inductive stage :=
| ExitNow | ArgpCleanup | DpdkDestroy | DpdkCleanup
| NatCleanup (nat_rules : option (list nat_rule_match)) (ports : list bool)
| Waiting (nat_rules : option (list nat_rule_match)) (ports : list bool).

Section Main.
Context `{P : Platform} `{J : JsonC}.
Context (polls : nat).

Definition NB_PORTS : Z := 2.

(** main up to the wait for traffic *)
Definition start (args : list arg) : ST (list event) stage :=
  result ← call_err (LogBackend 0);
  if negb (ok result) then mret ExitNow else
  result ← call_err (LogBackend 1);
  if negb (ok result) then mret ExitNow else
  result ← call_err (LogBackend 2);
  if negb (ok result) then mret ExitNow else
  result ← call_err ArgpInit;
  if negb (ok result) then mret ExitNow else
  result ← register_nat_params;
  if negb (ok result) then mret ArgpCleanup else
  '(result, app_cfg) ← argp_start args (Cfg STATIC 0 0 [] false);
  if negb (ok result) then mret ArgpCleanup else
  r ← invoke QueuesAndPortsInit;
  if negb (ok (r_err r)) then mret DpdkDestroy else
  '(result, ports) ← nat_init (r_num r) NB_PORTS;
  if negb (ok result) then mret DpdkCleanup else
  '(result, nat_num_rules, nat_rules) ← parsing_nat_rules (json_path app_cfg) (mode app_cfg);
  match nat_rules with
  | Some rules =>
      if negb (ok result) then mret (NatCleanup nat_rules ports) else
      result ← nat_pipes_init polls rules nat_num_rules app_cfg NB_PORTS;
      if negb (ok result) then mret (NatCleanup nat_rules ports) else
      mret (Waiting nat_rules ports)
  | None => if negb (ok result) then mret (NatCleanup nat_rules ports) else undef
  end.

(** The labels at the end of main. *)
Definition argp_destroy (exit_status : Z) : ST (list event) Z := _ ← call_unit ArgpDestroy; mret exit_status.
Definition dpdk_destroy (exit_status : Z) : ST (list event) Z := _ ← call_unit DpdkFini; argp_destroy exit_status.
Definition dpdk_cleanup (exit_status : Z) : ST (list event) Z :=
  _ ← call_unit QueuesAndPortsFini; dpdk_destroy exit_status.
Definition nat_cleanup (exit_status : Z) (nat_rules : option (list nat_rule_match)) (ports : list bool)
    : ST (list event) Z := _ ← nat_destroy NB_PORTS nat_rules ports; dpdk_cleanup exit_status.

Definition finish (s : stage) : ST (list event) Z :=
  match s with
  | ExitNow => mret EXIT_FAILURE
  | ArgpCleanup => argp_destroy EXIT_FAILURE
  | DpdkDestroy => dpdk_destroy EXIT_FAILURE
  | DpdkCleanup => dpdk_cleanup EXIT_FAILURE
  | NatCleanup nat_rules ports => nat_cleanup EXIT_FAILURE nat_rules ports
  | Waiting nat_rules ports => nat_cleanup EXIT_SUCCESS nat_rules ports
  end.

Definition main (args : list arg) : ST (list event) Z := s ← start args; finish s.
End Main.
