(* ===== verification/NatSpec.v ===== *)
(** * What the functions of the NAT do

    The entries a rule becomes, the loops over rules and completions, the four
    functions that build pipes, opening and closing: each is defined on every
    platform that reports its entries ([PromptFlow]), leaves the resources it
    says, and on a platform where calls succeed makes the pipes of the rules. *)

From S2P Require Import Prelude CString FlowTypes FlowFields FlowPipes Json Nat.
#[local] Open Scope Z_scope.

(** Processing reports no entry that was not added, and some if any is left. *)
Class PromptFlow `{P : Platform} : Prop := {
  process_bounded : forall h port queue timeout max,
    counts (r_done (reply_to h (EntriesProcess port queue timeout max))) <= Z.max 0 (pending h);
  process_prompt : forall h port queue timeout max,
    let r := reply_to h (EntriesProcess port queue timeout max) in
    ok (r_err r) = true -> 0 < max -> 0 < pending h -> 0 < counts (r_done r)
}.

(** A platform on which everything succeeds; one that accepts every entry. *)
Definition succeeds (P : Platform) : Prop :=
  forall h c, ok (r_err (reply_to h c)) = true /\ forallb c_ok (r_done (reply_to h c)) = true /\ 0 <= r_num (reply_to h c).
Definition accepting (P : Platform) : Prop :=
  forall h queue pipe m a fwd flags ctx, ok (r_err (reply_to h (PipeAddEntry queue pipe m a fwd flags ctx))) = true.

Lemma succeeds_accepting P : succeeds P -> accepting P.
Proof. intros H h q pi m a f fl cx. apply H. Qed.

Lemma succeeds_no_failure P h c : succeeds P -> fails_in (r_done (reply_to h c)) = false.
Proof.
  intros HP. destruct (HP h c) as (_ & H & _). unfold fails_in. induction (r_done (reply_to h c)) as [|x l IH]; [done|].
  cbn in *. apply andb_true_iff in H as [-> H]. rewrite (IH H). by rewrite andb_false_r.
Qed.

Lemma callbacks_status st cs :
  foldl check_for_valid_entry st cs = Status (is_failure st || fails_in cs) (nb_processed st + counts cs).
Proof.
  revert st. induction cs as [|c cs IH]; intros [f n]; cbn.
  - rewrite orb_false_r. f_equal. unfold counts. cbn. lia.
  - rewrite IH. unfold check_for_valid_entry, fails_in, counts, counted. cbn [existsb List.filter].
    destruct c as [[] g []]; cbn [c_ctx c_ok c_add negb andb orb List.filter List.length is_failure nb_processed]; rewrite ?orb_assoc; f_equal; lia.
Qed.

Lemma pending_one c r :
  pending [(c, r)] = (match c with PipeAddEntry _ _ _ _ _ _ true => if ok (r_err r) then 1 else 0 | _ => 0 end) -
                     match c with EntriesProcess _ _ _ _ => counts (r_done r) | _ => 0 end.
Proof.
  unfold pending, added, completed, total_of, added_with_ctx, done_by.
  destruct c; cbn; repeat case_match; change (counts []) with 0; lia.
Qed.

(** Events that add no entry to a pipe that exists, or none at all. *)
Definition no_entries (es : list event) : Prop := forall q, entries es q = [].

Definition adds_entry (c : call) : bool :=
  match c with PipeAddEntry _ _ _ _ _ _ _ | ControlAddEntry _ _ _ _ _ => true | _ => false end.

Lemma no_entries_one c r : adds_entry c = false -> no_entries [(c, r)].
Proof. intros Hc q. unfold entries. cbn. unfold entry_of. cbn. destruct (ok (r_err r)); [|done]. by destruct c. Qed.

Lemma no_entries_app es fs : no_entries es -> no_entries fs -> no_entries (es ++ fs).
Proof. intros H1 H2 q. by rewrite entries_app, H1, H2. Qed.

Section Loops.
Context `{P : Platform} `{PF : !PromptFlow}.

(** The counters of a loop agree with the history. *)
Definition counts_agree (h : list event) (nb_entries : Z) (st : entries_status) : Prop :=
  pending h = nb_entries - nb_processed st /\ 0 <= pending h /\ is_failure st = false.

(** What holds after processing: more history, and, if it succeeded, [Q]. *)
Definition progressed (h h' : list event) (res : doca_error) (Q : list event -> Prop) : Prop :=
  exists es, h' = h ++ es /\ plain es /\ (succeeds P -> ok res = true) /\ (ok res = true -> no_failure es /\ Q es).

Lemma progressed_refl h (Q : list event -> Prop) : Q [] -> progressed h h DOCA_SUCCESS Q.
Proof. intros. exists []. rewrite app_nil_r. split_and!; try done; [constructor|]. split; [constructor|done]. Qed.

Lemma progressed_trans h h1 h' res (Q1 Q2 Q : list event -> Prop) :
  progressed h h1 DOCA_SUCCESS Q1 -> progressed h1 h' res Q2 ->
  (forall es fs, Q1 es -> Q2 fs -> Q (es ++ fs)) -> progressed h h' res Q.
Proof.
  intros (es & -> & Hp & _ & H1) (fs & -> & Hp2 & Hs & H2) HQ. exists (es ++ fs).
  destruct (H1 eq_refl) as [Hn Hq]. split_and!; [by rewrite app_assoc|by apply plain_app|done|].
  intros Hok. destruct (H2 Hok). split; [by apply Forall_app_2|by apply HQ].
Qed.

Lemma progressed_error h h1 res Q1 Q :
  ok res = false -> progressed h h1 res Q1 -> progressed h h1 res Q.
Proof. intros He (es & -> & Hp & Hs & _). exists es. split_and!; try done. by rewrite He. Qed.

Lemma entries_process_ok port max st h nb :
  counts_agree h nb st -> 0 < max -> 0 < pending h ->
  runs (entries_process port max st) h (fun '(res, st') h' =>
    exists es, h' = h ++ es /\ plain es /\ no_entries es /\ pending h' = nb - nb_processed st' /\ 0 <= pending h' /\
      nb_processed st <= nb_processed st' /\
      (is_failure st' = false -> no_failure es) /\
      (ok res = true -> nb_processed st < nb_processed st') /\ (succeeds P -> ok res = true /\ is_failure st' = false)).
Proof.
  intros (Hp & Hn & Hf) Hmax Hpos. apply runs_bind, runs_invoke; [done|]. apply runs_ret.
  set (r := reply_to h _). eexists. split; [done|].
  assert (Hb : counts (r_done r) <= Z.max 0 (pending h)) by apply process_bounded.
  assert (Hq : ok (r_err r) = true -> 0 < counts (r_done r)) by (intros; by apply process_prompt).
  rewrite callbacks_status, Hf, pending_app, pending_one. cbn [is_failure nb_processed orb].
  pose proof (counts_nonneg (r_done r)). split_and!; try lia.
  - by apply plain_one.
  - by apply no_entries_one.
  - intros E. by repeat constructor.
  - intros E. specialize (Hq E). lia.
  - intros HP. split; [apply HP|by apply succeeds_no_failure].
Qed.

Lemma nat_drain_ok fuel port nb st h :
  counts_agree h nb st -> pending h < Z.of_nat fuel ->
  runs (drain fuel port nb st) h (fun res h' =>
    progressed h h' res (fun es => no_entries es /\ pending h' = 0)).
Proof.
  revert st h. induction fuel as [|fuel IH]; intros st h Hc Hf; [destruct Hc; lia|].
  destruct Hc as (Hp & Hn & Hs). cbn [drain]. case_bool.
  - apply runs_bind. eapply runs_mono; [apply entries_process_ok; [done|lia..]|].
    intros [res st'] h' (es & -> & Hpl & Hne & Hp' & Hn' & Hmono & Hnf & Hlt & Hgood). cbn beta iota.
    destruct (ok res) eqn:Hok; cbn [negb]; [|apply runs_ret].
    + specialize (Hlt eq_refl). destruct (is_failure st') eqn:Hfail; [apply runs_ret|].
      * exists es. split_and!; try done. intros HP. by destruct (Hgood HP).
      * eapply runs_mono; [apply IH; [done|lia]|]. intros res' h2 Hr.
        eapply (progressed_trans _ (h ++ es) _ _ no_entries); [|exact Hr|].
        -- exists es. split_and!; try done. intros _. split; [by apply Hnf|done].
        -- intros a b Ha [Hb Hz]. split; [by apply no_entries_app|done].
    + exists es. split_and!; try done; [|by rewrite Hok]. intros HP. by destruct (Hgood HP).
  - apply runs_ret, progressed_refl. split; [done|lia].
Qed.

Lemma make_space_ok port nb st h :
  counts_agree h nb st -> nb_processed st = 0 -> 0 <= nb ->
  runs (make_space port nb st) h (fun '(res, nb', st') h' =>
    progressed h h' res (fun es => no_entries es /\ counts_agree h' nb' st' /\ nb_processed st' = 0 /\
      0 <= nb' /\ pending h' <= pending h)).
Proof.
  intros Hc Hst Hnb. unfold make_space, QUEUE_DEPTH. destruct (Z.eqb_spec nb 256) as [->|].
  - destruct Hc as (Hp & Hn & Hs). apply runs_bind. eapply runs_mono; [apply entries_process_ok; [done|lia..]|].
    intros [res st'] h' (es & -> & Hpl & Hne & Hp' & Hn' & Hmono & Hnf & Hlt & Hgood). cbn beta iota.
    destruct (ok res) eqn:Hok; cbn [negb].
    + specialize (Hlt eq_refl). destruct (is_failure st') eqn:Hfail; cbn [orb]; [|case_bool; [lia|]]; apply runs_ret.
      * exists es. split_and!; try done. intros HP. by destruct (Hgood HP).
      * exists es. split_and!; try done. intros _. split; [by apply Hnf|].
        split; [done|]. unfold counts_agree. cbn [nb_processed is_failure]. split_and!; try done; lia.
    + apply runs_ret. exists es. split_and!; try done; [|by rewrite Hok]. intros HP. by destruct (Hgood HP).
  - apply runs_ret. cbn beta iota. apply progressed_refl. destruct Hc. split_and!; try done; try lia.
Qed.

(** What the body of a loop adds for a rule: at most two entries, in the queue,
    on a platform that accepts them those of [ents]. *)
Definition add_ok (add : nat_rule_match -> Z -> ST (list event) (option Z)) (ents : nat -> nat_rule_match -> list entry) :
    Prop :=
  forall r nb h, runs (add r nb) h (fun o h' =>
    exists es, h' = h ++ es /\ plain es /\ no_failure es /\
      match o with None => pending es = 0 | Some nb' => nb' = nb + pending es /\ 0 <= pending es <= 2 end /\
      (accepting P -> forall q, entries es q = ents q r)).

Lemma rules_loop_end h nb st rules rid (ents : nat -> nat_rule_match -> list entry) :
  counts_agree h nb st -> zlen rules = rid ->
  progressed h h DOCA_SUCCESS (fun es => counts_agree h nb st /\ pending h <= pending h + 2 * (zlen rules - rid) /\
    (accepting P -> forall q, entries es q = concat (map (ents q) (drop (Z.to_nat rid) rules)))).
Proof.
  intros Hc Hr. apply progressed_refl. split_and!; [done|lia|]. intros _ q.
  rewrite drop_ge by (unfold zlen in *; lia). done.
Qed.

Lemma rules_loop_ok add ents fuel port rules rid nb st h :
  add_ok add ents -> counts_agree h nb st -> nb_processed st = 0 -> 0 <= nb -> 0 <= rid ->
  zlen rules < 2 ^ 16 -> zlen rules - rid <= Z.of_nat fuel -> (rid <= zlen rules) ->
  runs (rules_loop add fuel port rid rules (zlen rules) nb st) h (fun '(res, nb', st') h' =>
    progressed h h' res (fun es => counts_agree h' nb' st' /\ pending h' <= pending h + 2 * (zlen rules - rid) /\
      (accepting P -> forall q, entries es q = concat (map (ents q) (drop (Z.to_nat rid) rules))))).
Proof.
  intros Hadd. revert rid nb st h. induction fuel as [|fuel IH]; intros rid nb st h Hc Hst Hnb Hrid Hlen Hfuel Hle;
    cbn [rules_loop]; (destruct (Z.ltb_spec rid (zlen rules)); [try lia|apply runs_ret; apply rules_loop_end; [done|lia]]).
  destruct (rd_Some rules rid) as [r Hr]; [unfold zlen in *; lia|]. rewrite Hr.
  assert (Hd : drop (Z.to_nat rid) rules = r :: drop (Z.to_nat (rid + 1)) rules).
  { unfold rd in Hr. rewrite decide_True in Hr by done.
    replace (Z.to_nat (rid + 1)) with (S (Z.to_nat rid)) by lia. by apply drop_S. }
  rewrite wrap_small by lia.
  apply runs_bind. eapply runs_mono; [apply Hadd|]. intros o h1 (es & -> & Hpl & Hnf & Ho & Hents).
  destruct Hc as (Hp & Hn & Hs).
  assert (H0 : progressed h (h ++ es) DOCA_SUCCESS
    (fun es => accepting P -> forall q, entries es q = ents q r)) by (exists es; split_and!; done).
  destruct o as [nb'|].
  + destruct Ho as [-> Ho]. apply runs_bind. eapply runs_mono; [apply make_space_ok; [|done|lia]|].
    { split_and!; try done; rewrite pending_app; lia. }
    intros [[res nb1] st1] h1 Hm. cbn beta iota. destruct (ok res) eqn:Hok; cbn [negb].
    * apply ok_success in Hok as ->. pose proof Hm as (fs & -> & _ & _ & HQ).
      destruct (HQ eq_refl) as (_ & Hfs & Hc1 & Hst1 & Hnb1 & Hpe).
      rewrite (pending_app h es) in Hpe.
      eapply runs_mono; [apply IH; try done; lia|]. intros [[res2 nb2] st2] h2 H2. cbn beta iota in H2 |- *.
      eapply progressed_trans; [exact (progressed_trans _ _ _ _ _ _
        (fun x => accepting P -> forall q, entries x q = ents q r) H0 Hm
        (fun a b Ha Hb Hacc q => eq_trans (entries_app a b q) ltac:(rewrite (Ha Hacc q), (proj1 Hb q); apply app_nil_r)))|exact H2|].
      intros a b Ha (Hb1 & Hb2 & Hb3). split_and!; [done|lia|]. intros Hacc q.
      by rewrite entries_app, Hd, (Ha Hacc q), (Hb3 Hacc q).
    * apply runs_ret. cbn beta iota. apply (progressed_error _ _ _ (fun _ => True)); [done|].
      eapply progressed_trans; [exact H0|exact Hm|done].
  + eapply runs_mono; [apply IH; try done; try lia|].
    { split_and!; try done; rewrite pending_app; lia. }
    intros [[res2 nb2] st2] h2 H2. cbn beta iota in H2 |- *. eapply progressed_trans; [exact H0|exact H2|].
    intros a b Ha (Hb1 & Hb2 & Hb3). rewrite pending_app in Hb2. split_and!; [done|lia|]. intros Hacc q.
    by rewrite entries_app, Hd, (Ha Hacc q), (Hb3 Hacc q).
Qed.

Context (polls : nat) (Hpolls : 2 ^ 17 < Z.of_nat polls).

Lemma add_rules_ok add ents port rules h :
  add_ok add ents -> pending h = 0 -> zlen rules < 2 ^ 16 ->
  runs (add_rules polls add port rules (zlen rules)) h (fun res h' =>
    progressed h h' res (fun es => pending h' = 0 /\
      (accepting P -> forall q, entries es q = concat (map (ents q) rules)))).
Proof.
  intros Hadd Hp Hlen. apply runs_bind.
  eapply runs_mono; [apply (rules_loop_ok _ ents); try done; try (unfold zlen in *; lia); split_and!; cbn; lia|].
  intros [[res nb] st] h1 H1. cbn beta iota. destruct (ok res) eqn:Hok; cbn [negb].
  - apply ok_success in Hok as ->. pose proof H1 as (es & -> & _ & _ & HQ). destruct (HQ eq_refl) as (_ & Hc & Hpe & _).
    eapply runs_mono; [apply nat_drain_ok; [done|lia]|]. intros res h2 H2.
    eapply progressed_trans; [exact H1|exact H2|]. intros a b (_ & _ & Ha) [Hb Hz]. split; [done|].
    intros Hacc q. by rewrite entries_app, (Ha Hacc q), (Hb q), app_nil_r.
  - apply runs_ret. by apply (progressed_error _ _ _ _ _ Hok H1).
Qed.
End Loops.

(** ** What a pipe does to a packet *)

Definition set_src (a : bytes) (p : pkt) : pkt := Pkt (pk_ip4 p) (pk_l4 p) a (pk_dst p) (pk_sport p) (pk_dport p).
Definition set_dst (a : bytes) (p : pkt) : pkt := Pkt (pk_ip4 p) (pk_l4 p) (pk_src p) a (pk_sport p) (pk_dport p).
Definition set_sport (x : bytes) (p : pkt) : pkt := Pkt (pk_ip4 p) (pk_l4 p) (pk_src p) (pk_dst p) x (pk_dport p).
Definition set_dport (x : bytes) (p : pkt) : pkt := Pkt (pk_ip4 p) (pk_l4 p) (pk_src p) (pk_dst p) (pk_sport p) x.

(** Translation with the only rule that a packet has; a packet without a rule is
    dropped, and nothing is said when two rules have it. *)
Definition translate (has_rule : nat_rule_match -> bool) (tr : nat_rule_match -> pkt -> pkt) (out : Z)
    (rules : list nat_rule_match) (p : pkt) : option verdict :=
  match List.filter has_rule rules with
  | [] => Some Dropped
  | [r] => Some (Sent out (tr r p))
  | _ => None
  end.

Definition static_local (port : Z) (rules : list nat_rule_match) (p : pkt) : option verdict :=
  translate (fun r => pk_ip4 p && bool_decide (pk_src p = local_ip r)) (fun r => set_src (global_ip r))
    (Z.lxor port 1) rules p.
Definition static_global (port : Z) (rules : list nat_rule_match) (p : pkt) : option verdict :=
  translate (fun r => pk_ip4 p && bool_decide (pk_dst p = global_ip r)) (fun r => set_dst (local_ip r))
    (Z.lxor port 1) rules p.

(** Only TCP and UDP packets are spoken of. *)
Definition is_l4 (t : doca_flow_l4_type_ext) (p : pkt) : bool := bool_decide (pk_l4 p = t).
Definition pat_local (port : Z) (rules : list nat_rule_match) (p : pkt) : option verdict :=
  if pk_ip4 p && (is_l4 L4_TCP p || is_l4 L4_UDP p) then
    translate (fun r => bool_decide (pk_src p = local_ip r) && bool_decide (pk_sport p = cpu_to_be_16 (local_port r)))
      (fun r p => set_sport (cpu_to_be_16 (global_port r)) (set_src (global_ip r) p)) (Z.lxor port 1) rules p
  else None.

(** A UDP packet from the WAN is looked for by the local port, which becomes the
    global one. *)
Definition pat_global (port : Z) (rules : list nat_rule_match) (p : pkt) : option verdict :=
  if negb (pk_ip4 p) then None
  else if is_l4 L4_TCP p then
    translate (fun r => bool_decide (pk_dst p = global_ip r) && bool_decide (pk_dport p = cpu_to_be_16 (global_port r)))
      (fun r p => set_dport (cpu_to_be_16 (local_port r)) (set_dst (local_ip r) p)) (Z.lxor port 1) rules p
  else if is_l4 L4_UDP p then
    translate (fun r => bool_decide (pk_dst p = global_ip r) && bool_decide (pk_dport p = cpu_to_be_16 (local_port r)))
      (fun r p => set_dport (cpu_to_be_16 (global_port r)) (set_dst (local_ip r) p)) (Z.lxor port 1) rules p
  else None.

(** Addresses have four bytes. *)
Definition rule_ok (r : nat_rule_match) : Prop := length (local_ip r) = 4%nat /\ length (global_ip r) = 4%nat.

Lemma length_cpu_to_be_16 x : length (cpu_to_be_16 x) = 2%nat.
Proof. apply length_be_bytes. Qed.

(** Turn lists of known length into their elements. *)
Ltac explode l H :=
  let a := fresh "b" in let b := fresh "b" in let c := fresh "b" in let d := fresh "b" in
  first [ destruct l as [|a [|b [|c [|d [|? ?]]]]]; cbn [length] in H; try discriminate H
        | destruct l as [|a [|b [|? ?]]]; cbn [length] in H; try discriminate H ].

(** Evaluate what a field of a pipe's match or actions asks for. *)
Ltac eval_template :=
  repeat match goal with
  | |- context [ignored ?x] => let v := eval vm_compute in (ignored x) in replace (ignored x) with v by (vm_compute; reflexivity)
  | |- context [changeable ?x] => let v := eval vm_compute in (changeable x) in replace (changeable x) with v by (vm_compute; reflexivity)
  end.

Section Builds.
Context `{P : Platform} `{PF : !PromptFlow}.
Context (polls : nat) (Hpolls : 2 ^ 17 < Z.of_nat polls).

(** A pipe (or several) for a port was built, that treat packets as [f] says. *)
Definition built (h h' : list event) (port : Z) (res : doca_error) (f : pkt -> option verdict) : Prop :=
  exists es, h' = h ++ es /\ tame es /\ (ok res = true -> pending h' = 0) /\
    (succeeds P -> res = DOCA_SUCCESS /\ no_failure es /\ (fresh h -> fresh h') /\
      (forall q, (q < length h)%nat -> entries es q = []) /\
      (forall port', port' <> port -> roots es port' = []) /\
      (fresh h -> exists pipe, (pipe < length h')%nat /\ (length h <= pipe)%nat /\
        roots es port = [(pipe - length h)%nat] /\
        forall p v, f p = Some v -> steer (S pipe) h' pipe p = Some v)).

Definition static_ents (nat_pipe : nat) (m : nat_rule_match -> pipe_match) (a : nat_rule_match -> doca_flow_actions)
    (q : nat) (r : nat_rule_match) : list entry :=
  if decide (q = nat_pipe) then [Entry (m r) (Some (a r)) None] else [].

Lemma entry_of_add queue pipe m a fwd flags ctx r q :
  entries [(PipeAddEntry queue pipe m a fwd flags ctx, r)] q =
  if ok (r_err r) then if decide (pipe = q) then [Entry m a fwd] else [] else [].
Proof. unfold entries. cbn. unfold entry_of. cbn. destruct (ok (r_err r)); [|done]. by destruct (decide (pipe = q)). Qed.

Lemma pending_add queue pipe m a fwd flags r :
  pending [(PipeAddEntry queue pipe m a fwd flags true, r)] = if ok (r_err r) then 1 else 0.
Proof. rewrite pending_one. destruct (ok _); lia. Qed.

Lemma no_failure_add queue pipe m a fwd flags ctx r : no_failure [(PipeAddEntry queue pipe m a fwd flags ctx, r)].
Proof. by repeat constructor. Qed.

Lemma static_add_ok nat_pipe m a :
  add_ok (fun r => static_entry nat_pipe (m r) (a r)) (static_ents nat_pipe m a).
Proof.
  intros r nb h. apply runs_bind, runs_call_err; [done|]. apply runs_ret.
  eexists. split; [done|]. split; [by apply plain_one|]. split; [apply no_failure_add|]. rewrite pending_add.
  split; [destruct (ok _); lia|]. intros Hacc q. rewrite entry_of_add, Hacc. unfold static_ents. by case_decide; case_decide.
Qed.

Definition pat_ents (tcp udp : nat) (m m' : nat_rule_match -> pipe_match) (a a' : nat_rule_match -> doca_flow_actions)
    (q : nat) (r : nat_rule_match) : list entry :=
  static_ents tcp m a q r ++ static_ents udp m' a' q r.

(** Entries of the two pipes that are not accepted are counted all the same. *)
Lemma pat_add_ok tcp udp m m' a a' :
  accepting P ->
  add_ok (fun r => pat_entries tcp udp (m r) (m' r) (a r) (a' r)) (pat_ents tcp udp m m' a a').
Proof.
  intros Hacc r nb h. apply runs_bind, runs_call_err; [done|]. apply runs_bind, runs_call_err; [done|]. apply runs_ret.
  eexists. rewrite <- app_assoc. split; [done|]. split; [by repeat constructor|]. split; [by repeat constructor|].
  rewrite pending_app, !pending_add, !Hacc. split; [lia|].
  intros _ q. rewrite entries_app, !entry_of_add, !Hacc. unfold pat_ents, static_ents.
  f_equal; by case_decide; case_decide.
Qed.

(** A list of rules in the entries of one pipe. *)
Lemma concat_ents pipe m a (rules : list nat_rule_match) :
  concat (map (static_ents pipe m a pipe) rules) = map (fun r => Entry (m r) (Some (a r)) None) rules.
Proof. induction rules as [|r rules IH]; [done|]. cbn. rewrite IH. unfold static_ents. by rewrite decide_True. Qed.
Lemma concat_ents_other pipe q m a (rules : list nat_rule_match) :
  q <> pipe -> concat (map (static_ents pipe m a q) rules) = [].
Proof. intros Hq. induction rules as [|r rules IH]; [done|]. cbn. rewrite IH. unfold static_ents. by rewrite decide_False. Qed.

(** A pipe of the rules decides by translation. *)
Lemma steer_rules fuel h pipe c r t ta m a out rules hr tr p :
  h !! pipe = Some (PipeCreate c (Some (ToPort out)) (Some ToDrop), r) -> ok (r_err r) = true ->
  p_type c = PIPE_BASIC -> p_match c = Some t -> p_actions c = Some ta ->
  entries h pipe = map (fun r => Entry (m r) (Some (a r)) None) rules ->
  Forall (fun r => has t (m r) p = hr r /\ type_agrees t (m r) p = true /\ rewrite_pkt ta (a r) p = tr r p) rules ->
  steer (S fuel) h pipe p = translate hr tr out rules p.
Proof.
  intros Hh Hr Hc Ht Ha He Hall. rewrite Forall_forall in Hall. cbn [steer].
  rewrite (decide_basic _ _ _ _ _ _ _ _ _ _ _ p Hh Hr Hc Ht Ha He). unfold translate.
  rewrite (List.filter_ext_in _ hr) by (intros x Hx%list_elem_of_In; by apply Hall).
  destruct (List.filter hr rules) as [|x [|y l]] eqn:Hfl; try done.
  assert (Hx : x ∈ rules).
  { assert (In x (List.filter hr rules)) as [Hin _]%filter_In by (rewrite Hfl; by left). by apply list_elem_of_In. }
  destruct (Hall x Hx) as (_ & -> & ->). done.
Qed.

Lemma build_rules_ok c port out rules m a t ta (f : pkt -> option verdict) hr tr h :
  p_type c = PIPE_BASIC -> p_root c = true -> p_port c = port -> p_match c = Some t -> p_actions c = Some ta ->
  (forall p, Forall (fun r => has t (m r) p = hr p r /\ type_agrees t (m r) p = true /\ rewrite_pkt ta (a r) p = tr r p) rules) ->
  (forall p, f p = translate (hr p) tr out rules p) ->
  pending h = 0 -> zlen rules < 2 ^ 16 ->
  runs ('(result, nat_pipe) ← pipe_create c (Some (ToPort out)) (Some ToDrop);
        if negb (ok result) then mret result else
        add_rules polls (fun r => static_entry nat_pipe (m r) (a r)) port rules (zlen rules)) h
    (fun res h' => built h h' port res f).
Proof.
  intros Hc Hroot Hport Ht Ha Hall Hf Hp Hlen. apply runs_bind, runs_pipe_create.
  set (call := PipeCreate _ _ _). set (r := reply_to h call).
  assert (Hp1 : pending (h ++ [(call, r)]) = 0) by (rewrite pending_app, pending_one; cbn; lia).
  destruct (ok (r_err r)) eqn:Hok; cbn [negb].
  - eapply runs_mono; [apply add_rules_ok; [done|apply static_add_ok|done|done]|].
    intros res h' (es & -> & Hpl & Hs & HQ). exists ((call, r) :: es). rewrite <- app_assoc in *. change ([(call, r)] ++ es) with ((call, r) :: es) in *. split; [done|].
    split; [apply Forall_cons; split; [done|by apply plain_tame]|].
    assert (Hpe : ok res = true -> pending (h ++ (call, r) :: es) = 0).
    { intros E. destruct (HQ E) as (_ & Hz & _). done. }
    split; [done|]. intros HP. pose proof (Hs HP) as E. destruct (HQ E) as (Hnf & _ & Hents).
    specialize (Hents (succeeds_accepting _ HP)).
    assert (Hne : forall q, q <> length h -> entries ((call, r) :: es) q = []).
    { intros q Hq. rewrite (entries_cons (call, r) es). rewrite (no_entries_one call r eq_refl q), Hents. by apply concat_ents_other. }
    assert (Hlt : forall q, (q < length h)%nat -> entries ((call, r) :: es) q = []) by (intros; apply Hne; lia).
    split; [by apply ok_success|]. split; [apply Forall_cons; split; done|].
    split; [|split; [done|split]].
    + intros Hfr q. rewrite length_app. cbn [length]. intros Hq. rewrite entries_app, Hfr, Hne by lia. done.
    + intros port' Hpo. rewrite (roots_cons (call, r) es), (roots_plain es port' Hpl). cbn. rewrite Hok, Hroot, Hport.
      destruct (Z.eqb_spec port port'); [by subst|done].
    + intros Hfr. exists (length h). rewrite length_app. cbn [length]. split; [lia|]. split; [lia|].
      rewrite (roots_cons (call, r) es), (roots_plain es port Hpl). rewrite Nat.sub_diag.
      assert (roots [(call, r)] port = [0%nat]) as ->.
      { unfold roots. cbn. rewrite Hok, Hroot, Hport, Z.eqb_refl. done. }
      split; [done|]. intros p v Hv.
      erewrite steer_rules with (hr := hr p) (tr := tr) (out := out) (rules := rules); [by rewrite <- Hf| |exact Hok|done|exact Ht|exact Ha| |apply Hall].
      * rewrite lookup_app_r by lia. by rewrite Nat.sub_diag.
      * rewrite entries_app, (Hfr (length h)) by lia. cbn [app].
        rewrite (entries_cons (call, r) es), (no_entries_one call r eq_refl), Hents. apply concat_ents.
  - apply runs_ret. exists [(call, r)]. split; [done|]. split; [by repeat constructor|].
    split; [by rewrite Hok|]. intros HP. destruct (HP h call) as (E & _). fold r in E. congruence.
Qed.

(** *** The pipes of the NAT *)

Lemma build_static_local_ok port rules h :
  Forall rule_ok rules -> pending h = 0 -> zlen rules < 2 ^ 16 ->
  runs (build_static_local_pipe polls port rules (zlen rules)) h
    (fun res h' => built h h' port res (static_local port rules)).
Proof.
  intros Hr Hp Hlen. eapply build_rules_ok; try done. intros p. eapply Forall_impl; [exact Hr|].
  intros [l lp g gp] [Hl Hg]. cbn [local_ip global_ip] in *. explode l Hl. explode g Hg.
  split_and!; [|done|]; [unfold has, types_have, field_has|unfold rewrite_pkt, field_set]; eval_template; cbn;
    [destruct (pk_ip4 p); cbn; by rewrite ?andb_true_r|done].
Qed.

Lemma build_static_global_ok port rules h :
  Forall rule_ok rules -> pending h = 0 -> zlen rules < 2 ^ 16 ->
  runs (build_static_global_pipe polls port rules (zlen rules)) h
    (fun res h' => built h h' port res (static_global port rules)).
Proof.
  intros Hr Hp Hlen. eapply build_rules_ok; try done. intros p. eapply Forall_impl; [exact Hr|].
  intros [l lp g gp] [Hl Hg]. cbn [local_ip global_ip] in *. explode l Hl. explode g Hg.
  split_and!; [|done|]; [unfold has, types_have, field_has|unfold rewrite_pkt, field_set]; eval_template; cbn;
    [destruct (pk_ip4 p); cbn; by rewrite ?andb_true_r|done].
Qed.

(** What the two functions of the PAT mode share. *)
Definition build_pat (c1 c2 : pipe_cfg) (fwd : pipe_fwd) (m m' : nat_rule_match -> pipe_match)
    (a a' : nat_rule_match -> doca_flow_actions) (port : Z) (rules : list nat_rule_match) : ST (list event) doca_error :=
  '(result, tcp) ← pipe_create c1 (Some fwd) (Some ToDrop);
  if negb (ok result) then mret result else
  '(result, udp) ← pipe_create c2 (Some fwd) (Some ToDrop);
  if negb (ok result) then mret result else
  result ← add_rules polls (fun r => pat_entries tcp udp (m r) (m' r) (a r) (a' r)) port rules (zlen rules);
  if negb (ok result) then mret result else
  finish_pat port udp tcp.

Lemma built_failed h es port res f :
  tame es -> ok res = false -> ~ succeeds P -> built h (h ++ es) port res f.
Proof. intros. exists es. split_and!; try done. intros E. congruence. Qed.

Lemma call_failed h c : ok (r_err (reply_to h c)) = false -> ~ succeeds P.
Proof. intros E HP. destruct (HP h c) as [E' _]. congruence. Qed.

Lemma app_3 {A} (h a b c : list A) : ((h ++ a) ++ b) ++ c = h ++ (a ++ b ++ c).
Proof. by rewrite <- !app_assoc. Qed.

(** The last calls of the PAT mode: the control pipe and its entries. *)
Definition control_events (ctl udp tcp : nat) (port : Z) (r1 r2 r3 : reply) : list event :=
  [(PipeCreate (PipeConf (str "CONTROL_PIPE") PIPE_CONTROL true port 0 None None) None None, r1);
   (ControlAddEntry 0 0 ctl (PipeMatch L3_META_IPV4 L4_META_UDP match0) (ToPipe udp), r2);
   (ControlAddEntry 0 0 ctl (PipeMatch L3_META_IPV4 L4_META_TCP match0) (ToPipe tcp), r3)].

Lemma finish_pat_ok port udp tcp h :
  runs (finish_pat port udp tcp) h (fun res h' =>
    (exists es, h' = h ++ es /\ tame es /\ pending es = 0 /\ ok res = false /\ ~ succeeds P) \/
    (exists r1 r2 r3, h' = h ++ control_events (length h) udp tcp port r1 r2 r3 /\ res = DOCA_SUCCESS /\
      ok (r_err r1) = true /\ ok (r_err r2) = true /\ ok (r_err r3) = true)).
Proof.
  apply runs_bind, runs_pipe_create.
  destruct (ok (r_err (reply_to h _))) eqn:H1; cbn [negb].
  2:{ apply runs_ret. left. eexists. split_and!; [done|by apply tame_one|by rewrite pending_one|done|by eapply call_failed]. }
  apply runs_bind, runs_bind, runs_call_err; [done|].
  destruct (ok (r_err (reply_to (h ++ _) _))) eqn:H2; cbn [negb].
  2:{ apply runs_ret. rewrite H2. cbn [negb]. apply runs_ret. left. eexists.
      split_and!; [symmetry; apply app_assoc|repeat apply tame_app; by apply tame_one|by rewrite pending_app, !pending_one|done|by eapply call_failed]. }
  apply runs_bind, runs_call_err; [done|].
  destruct (ok (r_err (reply_to ((h ++ _) ++ _) _))) eqn:H3; cbn [negb].
  2:{ apply runs_ret. rewrite H3. cbn [negb]. apply runs_ret. left. eexists.
      split_and!; [apply app_3|repeat apply tame_app; by apply tame_one|by rewrite !pending_app, !pending_one|done|by eapply call_failed]. }
  apply runs_ret, runs_ret. right. do 3 eexists. split_and!; [exact (app_3 h [_] [_] [_])|done|exact H1|exact H2|exact H3].
Qed.

Lemma entries_control ctl udp tcp port r1 r2 r3 q :
  ok (r_err r2) = true -> ok (r_err r3) = true ->
  entries (control_events ctl udp tcp port r1 r2 r3) q =
  if decide (ctl = q) then
    [Entry (PipeMatch L3_META_IPV4 L4_META_UDP match0) None (Some (ToPipe udp));
     Entry (PipeMatch L3_META_IPV4 L4_META_TCP match0) None (Some (ToPipe tcp))]
  else [].
Proof.
  intros H2 H3. unfold entries, control_events. cbn. unfold entry_of. cbn. rewrite H2, H3.
  destruct (ok (r_err r1)), (decide (ctl = q)); done.
Qed.

Lemma concat_pat_ents tcp udp m m' a a' (rules : list nat_rule_match) q :
  tcp <> udp ->
  concat (map (pat_ents tcp udp m m' a a' q) rules) =
  if decide (q = tcp) then map (fun r => Entry (m r) (Some (a r)) None) rules
  else if decide (q = udp) then map (fun r => Entry (m' r) (Some (a' r)) None) rules else [].
Proof.
  intros Hne. unfold pat_ents, static_ents. destruct (decide (q = tcp)) as [->|].
  - destruct (decide (tcp = udp)); [done|]. induction rules as [|r l IH]; [done|]. cbn in *. by rewrite IH.
  - destruct (decide (q = udp)); (induction rules as [|r l IH]; [done|]); cbn in *; by rewrite IH.
Qed.

(** The history of a build in PAT mode on which everything succeeded. *)
Section Success.
Context (h es : list event) (c1 c2 : pipe_cfg) (out port : Z) (k1 k2 r1 r2 r3 : reply).
Context (rules : list nat_rule_match) (m m' : nat_rule_match -> pipe_match) (a a' : nat_rule_match -> doca_flow_actions).
Context (H1 : ok (r_err k1) = true) (H2 : ok (r_err k2) = true).
Context (G1 : ok (r_err r1) = true) (G2 : ok (r_err r2) = true) (G3 : ok (r_err r3) = true).
Context (Hfresh : fresh h) (Hplain : plain es).

Let tcp := length h.
Let udp := S (length h).
Let create c k : event := (PipeCreate c (Some (ToPort out)) (Some ToDrop), k).
Let ctl := (length h + 2 + length es)%nat.
Let new := create c1 k1 :: create c2 k2 :: es ++ control_events ctl udp tcp port r1 r2 r3.

Context (Hents : forall q, entries es q = concat (map (pat_ents tcp udp m m' a a' q) rules)).

Lemma pat_new_entries q :
  entries new q = entries es q ++ entries (control_events ctl udp tcp port r1 r2 r3) q.
Proof.
  assert (Hc : forall c k, entries [create c k] q = []) by (intros; by apply no_entries_one).
  unfold new. rewrite entries_cons, Hc, entries_cons, Hc. apply entries_app.
Qed.

Lemma pat_rules_entries q :
  entries es q =
  if decide (q = tcp) then map (fun r => Entry (m r) (Some (a r)) None) rules
  else if decide (q = udp) then map (fun r => Entry (m' r) (Some (a' r)) None) rules else [].
Proof.
  rewrite Hents. apply concat_pat_ents. unfold tcp, udp. lia.
Qed.

Lemma pat_old_entries q : (q < length h)%nat -> entries new q = [].
Proof.
  intros Hq. rewrite pat_new_entries, pat_rules_entries, entries_control by done. unfold tcp, udp, ctl.
  rewrite !decide_False by lia. done.
Qed.

Lemma pat_fresh : fresh (h ++ new).
Proof.
  intros q Hq. rewrite length_app in Hq. unfold new in Hq. cbn [length] in Hq. rewrite length_app in Hq. cbn [length control_events] in Hq.
  rewrite entries_app, Hfresh, pat_new_entries, pat_rules_entries, entries_control by (done || lia).
  unfold tcp, udp, ctl. rewrite !decide_False by lia. done.
Qed.

Lemma pat_lookup_ctl :
  (h ++ new) !! ctl = Some (PipeCreate (PipeConf (str "CONTROL_PIPE") PIPE_CONTROL true port 0 None None) None None, r1).
Proof.
  unfold ctl, new. rewrite lookup_app_r by lia. replace (_ - _)%nat with (2 + length es)%nat by lia.
  change (create c1 k1 :: create c2 k2 :: ?x) with ([create c1 k1; create c2 k2] ++ x).
  rewrite lookup_app_r by (cbn; lia). rewrite lookup_app_r by (cbn; lia).
  replace (_ - _ - _)%nat with 0%nat by (cbn; lia). done.
Qed.

Lemma pat_roots port' : p_root c1 = false -> p_root c2 = false ->
  roots new port' = if decide (port = port') then [(ctl - length h)%nat] else [].
Proof.
  intros E1 E2. unfold new, control_events. rewrite (roots_cons _ (create c2 k2 :: _)), (roots_cons _ (es ++ _)), roots_app,
    (roots_plain _ _ Hplain), (roots_cons _ [_; _]), (roots_cons _ [_]), !roots_one.
  unfold create, is_root_of. rewrite E1, E2, G1, !andb_false_r. cbn [negb andb p_root p_port app map].
  destruct (Z.eqb_spec port port') as [<-|].
  - rewrite decide_True by reflexivity. cbn [map app]. f_equal. unfold ctl. lia.
  - rewrite decide_False by assumption. reflexivity.
Qed.

(** The control pipe sends TCP packets to the one pipe and UDP packets to the other. *)
Lemma pat_steer p (is_tcp : bool) :
  pk_ip4 p = true -> pk_l4 p = (if is_tcp then L4_TCP else L4_UDP) ->
  steer (S ctl) (h ++ new) ctl p = steer ctl (h ++ new) (if is_tcp then tcp else udp) p.
Proof.
  intros Hip Hl4. cbn [steer]. unfold decide_pipe at 1. rewrite pat_lookup_ctl, G1. cbn [negb p_type].
  assert (entries (h ++ new) ctl = entries (control_events ctl udp tcp port r1 r2 r3) ctl) as ->.
  { rewrite entries_app, Hfresh, pat_new_entries, pat_rules_entries by (unfold ctl; lia).
    unfold tcp, udp, ctl. by rewrite !decide_False by lia. }
  rewrite entries_control, decide_True by done.
  assert (Hlt : ((if is_tcp then tcp else udp) <? ctl)%nat = true)
    by (apply Nat.ltb_lt; unfold tcp, udp, ctl; destruct is_tcp; lia).
  cbn [List.filter e_match]. unfold has, types_have, field_has. eval_template.
  cbn -[Nat.ltb steer]. rewrite Hip, Hl4. destruct is_tcp;
    repeat match goal with
    | |- context [bool_decide ?Q] => first [rewrite (bool_decide_true Q) by done|rewrite (bool_decide_false Q) by done]
    end; cbn -[Nat.ltb steer]; by rewrite Hlt.
Qed.
End Success.

Definition basic_pipe (c : pipe_cfg) (t : pipe_match) (ta : doca_flow_actions) : Prop :=
  p_type c = PIPE_BASIC /\ p_root c = false /\ p_match c = Some t /\ p_actions c = Some ta.

(** The entries of a rule in a pipe do with a packet what [hr] and [tr] say. *)
Definition entry_means (t : pipe_match) (ta : doca_flow_actions) (m : nat_rule_match -> pipe_match)
    (a : nat_rule_match -> doca_flow_actions) (hr : nat_rule_match -> bool) (tr : nat_rule_match -> pkt -> pkt)
    (p : pkt) (r : nat_rule_match) : Prop :=
  has t (m r) p = hr r /\ type_agrees t (m r) p = true /\ rewrite_pkt ta (a r) p = tr r p.

Lemma build_pat_ok c1 c2 t1 t2 ta1 ta2 out m m' a a' port rules f hr1 tr1 hr2 tr2 h :
  basic_pipe c1 t1 ta1 -> basic_pipe c2 t2 ta2 ->
  (forall p, pk_ip4 p = true -> pk_l4 p = L4_TCP -> Forall (entry_means t1 ta1 m a (hr1 p) tr1 p) rules) ->
  (forall p, pk_ip4 p = true -> pk_l4 p = L4_UDP -> Forall (entry_means t2 ta2 m' a' (hr2 p) tr2 p) rules) ->
  (forall p v, f p = Some v -> pk_ip4 p = true /\
    (pk_l4 p = L4_TCP /\ translate (hr1 p) tr1 out rules p = Some v \/
     pk_l4 p = L4_UDP /\ translate (hr2 p) tr2 out rules p = Some v)) ->
  accepting P -> pending h = 0 -> zlen rules < 2 ^ 16 ->
  runs (build_pat c1 c2 (ToPort out) m m' a a' port rules) h (fun res h' => built h h' port res f).
Proof.
  intros (T1 & R1 & M1 & A1) (T2 & R2 & M2 & A2) He1 He2 Hf Hacc Hp Hlen. apply runs_bind, runs_pipe_create.
  set (k1 := reply_to h _). destruct (ok (r_err k1)) eqn:H1; cbn [negb].
  2:{ apply runs_ret, built_failed; [by apply tame_one|done|by eapply call_failed]. }
  apply runs_bind, runs_pipe_create. set (k2 := reply_to (h ++ _) _). rewrite <- app_assoc. cbn [app].
  destruct (ok (r_err k2)) eqn:H2; cbn [negb].
  2:{ apply runs_ret, built_failed; [by repeat constructor|done|by eapply call_failed]. }
  assert (Hp2 : pending (h ++ [(PipeCreate c1 (Some (ToPort out)) (Some ToDrop), k1);
                               (PipeCreate c2 (Some (ToPort out)) (Some ToDrop), k2)]) = 0).
  { change [?x; ?y] with ([x] ++ [y]). rewrite !pending_app, !pending_one. lia. }
  apply runs_bind. eapply runs_mono; [apply add_rules_ok; [done|by apply pat_add_ok|done|done]|].
  rewrite length_app. cbn [length]. rewrite Nat.add_1_r. intros res h3 (es & -> & Hpl & Hs & HQ).
  rewrite <- app_assoc. cbn [app]. rewrite <- app_assoc in HQ. cbn [app] in HQ.
  destruct (ok res) eqn:Hres; cbn [negb].
  2:{ apply runs_ret, built_failed; [repeat (apply Forall_cons; split; [done|]); by apply plain_tame|done|].
      intros HP. by specialize (Hs HP). }
  destruct (HQ eq_refl) as (Hnf & Hpe & Hents). specialize (Hents Hacc).
  eapply runs_mono; [apply finish_pat_ok|].
  intros res' h' [(fs & -> & Ht & Hpf & Hr & Hns)|(r1 & r2 & r3 & -> & -> & G1 & G2 & G3)].
  { rewrite <- app_assoc. apply built_failed; [|done|done]. apply tame_app; [|done].
    repeat (apply Forall_cons; split; [done|]). by apply plain_tame. }
  rewrite length_app. cbn [length]. replace (length h + S (S (length es)))%nat with (length h + 2 + length es)%nat by lia.
  rewrite <- app_assoc. cbn [app]. eexists. split; [done|].
  split. { repeat (apply Forall_cons; split; [done|]). apply tame_app; [by apply plain_tame|by repeat constructor]. }
  assert (Hp6 : pending (control_events (length h + 2 + length es) (S (length h)) (length h) port r1 r2 r3) = 0).
  { unfold control_events. change [?x; ?y; ?z] with ([x] ++ [y] ++ [z]). rewrite !pending_app, !pending_one. lia. }
  split.
  { intros _. change (?x :: ?y :: es ++ ?z) with ((x :: y :: es) ++ z). rewrite app_assoc, pending_app. lia. }
  intros HP. split; [done|].
  split. { repeat (apply Forall_cons; split; [done|]). apply Forall_app_2; [done|by repeat constructor]. }
  split; [intros Hfr; by eapply (pat_fresh h es)|].
  split; [intros q Hq; by eapply (pat_old_entries h es)|].
  split. { intros port' Hpo. erewrite (pat_roots h es); try done. by rewrite decide_False by auto. }
  intros Hfr. exists (length h + 2 + length es)%nat.
  split; [rewrite length_app; cbn [length]; rewrite length_app; cbn [length control_events]; lia|]. split; [lia|].
  split. { erewrite (pat_roots h es); try done. by rewrite decide_True. }
  intros p v (Hip & [[Hl4 Hv]|[Hl4 Hv]])%Hf.
  - erewrite (pat_steer h es c1 c2 out port k1 k2 r1 r2 r3 rules m m' a a' G1 G2 G3 Hfr Hents p true Hip Hl4).
    rewrite <- Hv. replace (length h + 2 + length es)%nat with (S (length h + 1 + length es)) at 1 by lia.
    eapply (steer_rules _ _ _ _ k1); [|exact H1|exact T1|exact M1|exact A1| |by apply He1].
    + rewrite lookup_app_r by lia. by rewrite Nat.sub_diag.
    + rewrite entries_app, Hfr by lia. cbn [app]. erewrite pat_new_entries.
      rewrite (pat_rules_entries h es rules m m' a a' Hents), decide_True, entries_control, decide_False by (done || lia).
      apply app_nil_r.
  - erewrite (pat_steer h es c1 c2 out port k1 k2 r1 r2 r3 rules m m' a a' G1 G2 G3 Hfr Hents p false Hip Hl4).
    rewrite <- Hv. replace (length h + 2 + length es)%nat with (S (length h + 1 + length es)) at 1 by lia.
    eapply (steer_rules _ _ _ _ k2); [|exact H2|exact T2|exact M2|exact A2| |by apply He2].
    + rewrite lookup_app_r by lia. by replace (S (length h) - length h)%nat with 1%nat by lia.
    + rewrite entries_app, Hfr by lia. cbn [app]. erewrite pat_new_entries.
      rewrite (pat_rules_entries h es rules m m' a a' Hents), decide_False, decide_True, entries_control, decide_False by (done || lia).
      apply app_nil_r.
Qed.

(** An entry of the NAT, computed. *)
Ltac entry_means_tac :=
  let r := fresh "r" in let Hl := fresh in let Hg := fresh in
  intros [? ? ? ?] [Hl Hg]; cbn [local_ip global_ip local_port global_port] in *;
  match type of Hl with length ?l = _ => explode l Hl end;
  match type of Hg with length ?l = _ => explode l Hg end;
  unfold entry_means, has, types_have, field_has, rewrite_pkt, field_set, type_agrees; eval_template;
  split_and!; [|done|done]; cbn -[cpu_to_be_16];
  repeat match goal with H : pk_ip4 _ = true |- _ => rewrite H | H : pk_l4 _ = _ |- _ => rewrite H end;
  repeat match goal with
  | |- context [cpu_to_be_16 ?x] =>
      let E := fresh in pose proof (length_cpu_to_be_16 x) as E;
      destruct (cpu_to_be_16 x) as [|? [|? [|? ?]]]; try discriminate E; clear E
  end; cbn; rewrite (bool_decide_true (_ = _)) by done; cbn; by rewrite ?andb_true_r.

Lemma build_pat_local_ok port rules h :
  accepting P -> Forall rule_ok rules -> pending h = 0 -> zlen rules < 2 ^ 16 ->
  runs (build_pat_local_pipe polls port rules (zlen rules)) h
    (fun res h' => built h h' port res (pat_local port rules)).
Proof.
  intros Hacc Hr Hp Hlen.
  eapply (build_pat_ok _ _ _ _ _ _ (Z.lxor port 1) _ _ _ _ port rules _
    (fun p r => bool_decide (pk_src p = local_ip r) && bool_decide (pk_sport p = cpu_to_be_16 (local_port r)))
    (fun r p => set_sport (cpu_to_be_16 (global_port r)) (set_src (global_ip r) p))
    (fun p r => bool_decide (pk_src p = local_ip r) && bool_decide (pk_sport p = cpu_to_be_16 (local_port r)))
    (fun r p => set_sport (cpu_to_be_16 (global_port r)) (set_src (global_ip r) p))); try done.
  - intros p Hip Hl4. eapply Forall_impl; [exact Hr|]. entry_means_tac.
  - intros p Hip Hl4. eapply Forall_impl; [exact Hr|]. entry_means_tac.
  - intros p v. unfold pat_local, is_l4. destruct (pk_ip4 p); [|done]. cbn [andb].
    case_bool_decide; [intros Hv; split; [done|by left]|]. case_bool_decide; [intros Hv; split; [done|by right]|done].
Qed.

Lemma build_pat_global_ok port rules h :
  accepting P -> Forall rule_ok rules -> pending h = 0 -> zlen rules < 2 ^ 16 ->
  runs (build_pat_global_pipe polls port rules (zlen rules)) h
    (fun res h' => built h h' port res (pat_global port rules)).
Proof.
  intros Hacc Hr Hp Hlen.
  eapply (build_pat_ok _ _ _ _ _ _ (Z.lxor port 1) _ _ _ _ port rules _
    (fun p r => bool_decide (pk_dst p = global_ip r) && bool_decide (pk_dport p = cpu_to_be_16 (global_port r)))
    (fun r p => set_dport (cpu_to_be_16 (local_port r)) (set_dst (local_ip r) p))
    (fun p r => bool_decide (pk_dst p = global_ip r) && bool_decide (pk_dport p = cpu_to_be_16 (local_port r)))
    (fun r p => set_dport (cpu_to_be_16 (global_port r)) (set_dst (local_ip r) p))); try done.
  - intros p Hip Hl4. eapply Forall_impl; [exact Hr|]. entry_means_tac.
  - intros p Hip Hl4. eapply Forall_impl; [exact Hr|]. entry_means_tac.
  - intros p v. unfold pat_global, is_l4. destruct (pk_ip4 p); [|done]. cbn [negb].
    case_bool_decide; [intros Hv; split; [done|by left]|]. case_bool_decide; [intros Hv; split; [done|by right]|done].
Qed.
End Builds.
