(* ===== verification/NatRun.v ===== *)
(** * Runs of the NAT

    What main does up to the wait for traffic and after it: the resources that
    are held at each of its labels on every platform, and on a platform where
    calls succeed the rules it reads and the pipes it leaves behind. *)

From S2P Require Import Prelude CString FlowTypes FlowFields FlowParser FlowParserSpec FlowPipes Json Nat NatSpec.
#[local] Open Scope Z_scope.

(** ** Calls before there are pipes *)

Definition setup_call (c : call) : bool :=
  match c with
  | PipeCreate _ _ _ | PipeAddEntry _ _ _ _ _ _ _ | ControlAddEntry _ _ _ _ _ | EntriesProcess _ _ _ _
  | PipeRmEntry _ _ _ | PortPipesFlush _ => false
  | _ => true
  end.
Definition setup (es : list event) : Prop := Forall (fun e => setup_call e.1 = true) es.

(** More history by such calls only. *)
Definition grows (h h' : list event) : Prop := exists es, h' = h ++ es /\ setup es.

Lemma grows_refl h : grows h h.
Proof. exists []. split; [by rewrite app_nil_r|constructor]. Qed.
Lemma grows_trans h1 h2 h3 : grows h1 h2 -> grows h2 h3 -> grows h1 h3.
Proof.
  intros (es & -> & He) (fs & -> & Hf). exists (es ++ fs). split; [by rewrite app_assoc|by apply Forall_app_2].
Qed.
Lemma grows_one h c r : setup_call c = true -> grows h (h ++ [(c, r)]).
Proof. intros. exists [(c, r)]. split; [done|by repeat constructor]. Qed.
Lemma grows_setup h h' : grows h h' -> setup h -> setup h'.
Proof. intros (es & -> & He) Hh. by apply Forall_app_2. Qed.
#[export] Hint Resolve grows_refl grows_one : doca.

Lemma setup_entries h q : setup h -> entries h q = [].
Proof.
  induction 1 as [|[c r] h Hc Hh IH]; [done|]. rewrite entries_cons, IH, no_entries_one; [done|]. by destruct c.
Qed.
Lemma setup_fresh h : setup h -> fresh h.
Proof. intros Hh q _. by apply setup_entries. Qed.
Lemma setup_roots h port : setup h -> roots h port = [].
Proof. intros Hh. apply roots_none. eapply Forall_impl; [exact Hh|]. by intros [[] r]. Qed.
Lemma setup_pending h : setup h -> pending h = 0.
Proof.
  induction 1 as [|[c r] h Hc Hh IH]; [done|]. change ((c, r) :: h) with ([(c, r)] ++ h).
  rewrite pending_app, IH, pending_one. by destruct c.
Qed.
Lemma setup_no_failure h : setup h -> no_failure h.
Proof. intros Hh. eapply Forall_impl; [exact Hh|]. by intros [[] r]. Qed.

(** What is held after a call, from what was held before and whether it
    succeeded. *)
Definition after_held (c : call) (success : bool) (l : list res) : list res :=
  let l := match releases c with Some r => remove1 r l | None => l end in
  match acquires c with Some r => if success then r :: l else l | None => l end.
Definition releasable (c : call) (l : list res) : bool :=
  match releases c with Some r => bool_decide (r ∈ l) | None => true end.

Section Runs.
Context `{P : Platform}.

Lemma run_invoke c h l (Q : reply -> list event -> Prop) :
  held h = l -> setup_call c = true -> releasable c l = true ->
  (forall h', grows h h' -> held h' = after_held c (ok (r_err (reply_to h c))) l ->
    (succeeds P -> ok (r_err (reply_to h c)) = true) -> Q (reply_to h c) h') ->
  runs (invoke c) h Q.
Proof.
  intros Hl Hc Hr HQ. apply runs_invoke; [unfold usable; by rewrite Hl|]. apply HQ.
  - by apply grows_one.
  - rewrite held_snoc. unfold hold, after_held. by rewrite Hl.
  - intros HP. apply HP.
Qed.

Lemma run_call_err c h l (Q : doca_error -> list event -> Prop) :
  held h = l -> setup_call c = true -> releasable c l = true ->
  (forall e h', grows h h' -> held h' = after_held c (ok e) l -> (succeeds P -> ok e = true) -> Q e h') ->
  runs (call_err c) h Q.
Proof. intros Hl Hc Hr HQ. apply runs_bind. eapply run_invoke; try done. intros. apply runs_ret. by apply HQ. Qed.

Lemma run_call_unit c h l (Q : unit -> list event -> Prop) :
  held h = l -> setup_call c = true -> releasable c l = true -> acquires c = None ->
  (forall h', grows h h' -> held h' = after_held c true l -> Q tt h') ->
  runs (call_unit c) h Q.
Proof.
  intros Hl Hc Hr Ha HQ. apply runs_bind. eapply run_invoke; try done. intros h' Hg Hh _. apply runs_ret. apply HQ; [done|].
  unfold after_held in *. by rewrite Ha in *.
Qed.

(** A part of main that leaves what is held as it was. *)
Definition keeps (l : list res) (h : list event) (e : doca_error) (h' : list event) : Prop :=
  grows h h' /\ held h' = l /\ (succeeds P -> ok e = true).
End Runs.

(** One call; the branch where it fails, if there is one, comes first. *)
Ltac call_step :=
  first [ apply runs_bind; eapply run_call_err
        | apply runs_bind; eapply run_call_unit
        | apply runs_bind; eapply run_invoke ]; [eassumption|reflexivity|reflexivity|..]; try reflexivity;
  let e := fresh "e" in let h := fresh "h" in let Hg := fresh "Hg" in let Hh := fresh "Hh" in let Hs := fresh "Hs" in
  first [ intros e h Hg Hh Hs; destruct (ok e) eqn:?; cbn [negb]; cbn in Hh
        | intros h Hg Hh; cbn in Hh ].

(** The history grew, in one or more steps. *)
Ltac solve_grows := repeat (first [eassumption | apply grows_refl | eapply grows_trans; [eassumption|]]).

(** A result that is not reached on a platform where calls succeed. *)
Ltac no_success := let HP := fresh in intros HP;
  repeat match goal with H : succeeds _ -> _ |- _ => specialize (H HP) end; congruence.

(** A function that [keeps] what is held, whose failure is returned. *)
Ltac keeps_step H :=
  apply runs_bind; eapply runs_mono; [apply H; eassumption|];
  let e := fresh "e" in let h := fresh "h" in let Hg := fresh "Hg" in let Hh := fresh "Hh" in let Hs := fresh "Hs" in
  intros e h (Hg & Hh & Hs); destruct (ok e) eqn:?; cbn [negb];
  [|apply runs_ret; unfold keeps; split_and!; [solve_grows|done|no_success]].

Section Start.
Context `{P : Platform} `{PF : !PromptFlow} `{J : JsonC}.

Lemma nat_param_ok h l :
  held h = l -> runs register_param h (fun e h' => grows h h' /\ held h' = l /\ (succeeds P -> ok e = true)).
Proof.
  intros Hl. call_step.
  - eapply run_call_err; [eassumption|done|done|]. intros e1 h2 Hg2 Hh2 Hs2. split_and!; [solve_grows|by rewrite Hh2|done].
  - apply runs_ret. split_and!; [solve_grows|done|no_success].
Qed.

Lemma register_nat_params_ok h l : held h = l -> runs register_nat_params h (keeps l h).
Proof.
  intros Hl. unfold register_nat_params. do 4 keeps_step @nat_param_ok.
  call_step; [|apply runs_ret; unfold keeps; split_and!; [solve_grows|done|no_success]].
  call_step; apply runs_ret; unfold keeps; split_and!; try solve_grows; try done; no_success.
Qed.

(** The configuration that the arguments give when the file of the rules exists. *)
Definition apply_arg (a : arg) (c : nat_cfg) : doca_error * nat_cfg :=
  match a with
  | ArgMode s => nat_mode_callback s c
  | ArgRules s =>
      if (strnlen s MAX_FILE_NAME =? MAX_FILE_NAME)%nat then (DOCA_ERROR_INVALID_VALUE, c)
      else (DOCA_SUCCESS, Cfg (mode c) (lan_intf_id c) (wan_intf_id c) (strlcpy s MAX_FILE_NAME) true)
  | ArgLan s => lan_intf_callback s c
  | ArgWan s => wan_intf_callback s c
  end.
Fixpoint apply_args (args : list arg) (c : nat_cfg) : doca_error * nat_cfg :=
  match args with
  | [] => (DOCA_SUCCESS, c)
  | a :: args' => let '(e, c) := apply_arg a c in if negb (ok e) then (e, c) else apply_args args' c
  end.

Lemma argp_callback_ok a c h l :
  held h = l ->
  runs (argp_callback a c) h (fun '(e, c') h' => grows h h' /\ held h' = l /\ (succeeds P -> (e, c') = apply_arg a c) /\
    (ok e = true -> mode c' = mode c \/ mode c' = STATIC \/ mode c' = PAT /\ a = ArgMode (str "pat"))).
Proof.
  intros Hl. destruct a as [s|s|s|s]; cbn [argp_callback apply_arg].
  - apply runs_ret. unfold nat_mode_callback. cbn zeta. destruct (strcmp s (str "static")); [by split_and!; auto with doca|].
    destruct (strcmp s (str "pat")) eqn:E2; split_and!; auto with doca; [|done].
    intros _. apply strcmp_eq in E2 as ->. by right; right.
  - unfold nat_rules_callback. destruct (_ =? _)%nat; [apply runs_ret; split_and!; auto with doca|].
    call_step; apply runs_ret; split_and!; try solve_grows; try done; auto. no_success.
  - apply runs_ret. unfold lan_intf_callback. repeat case_bool; split_and!; auto with doca.
  - apply runs_ret. unfold wan_intf_callback. repeat case_bool; split_and!; auto with doca.
Qed.

Lemma argp_callbacks_ok args c h l :
  held h = l ->
  runs (argp_callbacks args c) h (fun '(e, c') h' => grows h h' /\ held h' = l /\ (succeeds P -> (e, c') = apply_args args c) /\
    (ok e = true -> mode c' = mode c \/ mode c' = STATIC \/ mode c' = PAT /\ ArgMode (str "pat") ∈ args)).
Proof.
  revert c h. induction args as [|a args IH]; intros c h Hl; cbn [argp_callbacks apply_args].
  - apply runs_ret. split_and!; auto with doca.
  - apply runs_bind. eapply runs_mono; [by apply argp_callback_ok|]. intros [e c1] h1 (Hg & Hh & Hs & Hm).
    destruct (ok e) eqn:Hok; cbn [negb].
    + eapply runs_mono; [by apply IH|]. intros [e2 c2] h2 (Hg2 & Hh2 & Hs2 & Hm2).
      split_and!; [solve_grows|done| |].
      * intros HP. specialize (Hs HP). destruct (apply_arg a c) as [e' c']. injection Hs as <- <-. rewrite Hok. by apply Hs2.
      * intros E2. destruct (Hm2 E2) as [->|[->|[-> H]]]; [|by right; left|right; right; split; [done|by right]].
        destruct (Hm eq_refl) as [->|[->|[-> ->]]]; [by left|by right; left|right; right; split; [done|by left]].
    + apply runs_ret. split_and!; [done|done| |by rewrite Hok].
      intros HP. specialize (Hs HP). destruct (apply_arg a c) as [e' c']. injection Hs as <- <-. by rewrite Hok.
Qed.

(** [config args]: what main reads from its arguments. *)
Definition cfg0 : nat_cfg := Cfg STATIC 0 0 [] false.
Definition config (args : list arg) : option nat_cfg :=
  let '(e, c) := apply_args args cfg0 in
  if ok e && ok (nat_args_validation_callback c) then Some c else None.

Lemma argp_start_ok args h :
  held h = [RArgp] ->
  runs (argp_start args cfg0) h (fun '(e, c) h' => grows h h' /\
    held h' = (if ok e then [RDpdk; RArgp] else [RArgp]) /\
    (succeeds P -> forall c', config args = Some c' -> ok e = true /\ c = c') /\
    (ok e = true -> mode c = STATIC \/ mode c = PAT /\ ArgMode (str "pat") ∈ args)).
Proof.
  intros Hl. apply runs_bind. eapply runs_mono; [by apply argp_callbacks_ok|].
  intros [e c] h1 (Hg & Hh & Hs & Hm). unfold config. destruct (ok e) eqn:Hok; cbn [negb].
  - destruct (ok (nat_args_validation_callback c)) eqn:Hv; cbn [negb].
    + call_step; apply runs_ret; (split_and!; [solve_grows|by rewrite Heqb| |]).
      * intros HP c'. rewrite <- (Hs HP), Hok, Hv. by intros [= ->].
      * intros _. destruct (Hm eq_refl) as [->|[->|H]]; [by left|by left|by right].
      * no_success.
      * by rewrite Heqb.
    + apply runs_ret. rewrite Hv. split_and!; try done. intros HP c'. rewrite <- (Hs HP), Hok, Hv. done.
  - apply runs_ret. rewrite Hok. split_and!; try done. intros HP c'. rewrite <- (Hs HP), Hok. done.
Qed.
End Start.

(** ** Opening and closing *)

(** What main holds where nat_init and nat_destroy are called. *)
Definition base : list res := [RPorts; RDpdk; RArgp].
Definition running : list res := RPort 1 :: RPort 0 :: RFlow :: base.

(** The JSON object of a file that was parsed stays held. *)
Definition maybe_json (j : list res) : Prop := j = [] \/ j = [RJson].

(** What is held at the end: nothing but the JSON object of the file, if one was
    parsed; the exit code is one of the two. *)
Definition released (x : Z) (h : list event) : Prop :=
  held h = parsed_objects h /\ (length (parsed_objects h) <= 1)%nat /\ (x = EXIT_SUCCESS \/ x = EXIT_FAILURE).

Lemma released_json x h j :
  maybe_json j -> held h = j -> x = EXIT_SUCCESS \/ x = EXIT_FAILURE -> released x h.
Proof.
  intros Hj Hh Hx. pose proof (held_json h) as Hp. rewrite Hh in Hp. unfold released.
  destruct Hj as [-> | ->]; cbn in Hp.
  - apply Permutation_nil_l in Hp. rewrite Hh, <- Hp. split_and!; [done|by auto with arith|done].
  - apply Permutation_singleton_l in Hp. rewrite Hh, <- Hp. split_and!; [done|by auto with arith|done].
Qed.

Section Ports.
Context `{P : Platform}.

Lemma nat_init_ok q h :
  held h = base ->
  runs (nat_init q NB_PORTS) h (fun '(e, ports) h' => grows h h' /\ (succeeds P -> ok e = true) /\
    if ok e then ports = [true; true] /\ held h' = running else held h' = base).
Proof.
  intros Hl. unfold nat_init. change (Z.to_nat NB_PORTS) with 2%nat. cbn [replicate NAT_PORTS_NUM init_ports].
  call_step; [|apply runs_ret; rewrite Heqb; split_and!; [solve_grows|no_success|done]].
  apply runs_bind. unfold nat_port_create. call_step.
  2:{ apply runs_ret. rewrite Heqb0. cbn [negb]. unfold nat_stop_ports. cbn [Z.to_nat stop_ports]. apply runs_bind, runs_ret.
      call_step. apply runs_ret. rewrite Heqb0. split_and!; [solve_grows|no_success|done]. }
  cbn. apply runs_ret. cbn [negb ok]. cbn. apply runs_bind. call_step.
  2:{ apply runs_ret. rewrite Heqb1. cbn [negb]. apply runs_bind. unfold nat_stop_ports. cbn. call_step. apply runs_ret.
      call_step. apply runs_ret. rewrite Heqb1. split_and!; [solve_grows|no_success|done]. }
  cbn. apply runs_ret. cbn [negb ok]. cbn. call_step.
  - apply runs_ret. split_and!; [solve_grows|done|]. done.
  - apply runs_bind. unfold nat_stop_ports. cbn. call_step. call_step. apply runs_ret. call_step. apply runs_ret.
    rewrite Heqb2. split_and!; [solve_grows|no_success|done].
Qed.


(** The loops of nat_destroy over two started ports. *)
Lemma nat_destroy_ok rules j h :
  maybe_json j -> held h = (match rules with Some _ => [RRules] | None => [] end) ++ j ++ running ->
  runs (nat_destroy NB_PORTS rules [true; true]) h (fun _ h' => held h' = j ++ base).
Proof.
  intros Hj Hl. unfold nat_destroy, nat_stop_ports. change (Z.to_nat NB_PORTS) with 2%nat. cbn. apply runs_bind.
  destruct Hj as [-> | ->], rules; cbn in Hl; do 2 call_step; apply runs_ret; call_step;
    first [by apply runs_ret | eapply run_call_unit; [eassumption|done|done|done|done]].
Qed.
End Ports.

(** ** Reading the rules *)

(** fseek goes to the end of the file, and the memory that malloc gives happens
    to end in a zero: the programs do not write one. *)
Class ReadableFile `{P : Platform} : Prop := {
  seek_works : forall h, ok (r_err (reply_to h FseekEnd)) = true;
  malloc_terminated : forall h n, 0 <= n ->
    exists g, length g = Z.to_nat n /\ r_bytes (reply_to h (Malloc (n + 1))) = g ++ [0]
}.

(** Where a file has rules they are an array, of less than 2^16. *)
Class RulesArrays `{J : JsonC} : Prop :=
  rules_array : forall s rules, json_object_object_get_ex (json_tokener_parse s) (str "rules") = Some rules ->
    exists n, json_object_array_length rules = Some n /\ 0 <= n < 2 ^ 16.

(** The file holds the text [s]. *)
Definition has_text (P : Platform) (s : cstring) : Prop :=
  Forall (fun c => c <> 0) s /\
  (forall h, r_num (reply_to h Ftell) = zlen s) /\ (forall h, r_bytes (reply_to h (Fread (zlen s))) = s).

Lemma c_str_ends b : exists s, c_str (b ++ [0]) = Some s.
Proof.
  induction b as [|c b [s IH]]; [by exists []|]. cbn [app c_str]. rewrite IH. obind. destruct c; by eexists.
Qed.

Lemma c_str_text s : Forall (fun c => c <> 0) s -> c_str (s ++ [0]) = Some s.
Proof.
  induction 1 as [|c s Hc Hs IH]; [done|]. cbn [app c_str]. rewrite IH. obind. by destruct c.
Qed.

Section Rules.
Context `{P : Platform} `{RF : !ReadableFile} `{J : JsonC} `{RA : !RulesArrays}.

Lemma allocate_json_ok h l :
  held h = RFile :: l ->
  runs allocate_json_buffer_dynamic h (fun '(e, len, data) h' => grows h h' /\ (succeeds P -> ok e = true) /\
    if ok e then held h' = RBuffer :: RFile :: l /\
      exists g, data = Some (g ++ [0]) /\ length g = Z.to_nat len /\ 0 <= len /\ (forall s, has_text P s -> len = zlen s)
    else held h' = RFile :: l).
Proof.
  intros Hl. unfold allocate_json_buffer_dynamic. apply runs_bind, runs_bind.
  eapply run_invoke; [eassumption|done|done|]. intros h1 Hg1 Hh1 _. cbn in Hh1. apply runs_ret. rewrite seek_works.
  apply runs_bind. eapply run_invoke; [eassumption|done|done|]. intros h2 Hg2 Hh2 Hs2. cbn in Hh2.
  set (len := r_num _). destruct (Z.ltb_spec len 0) as [Hneg|Hpos].
  { apply runs_ret. split_and!; [solve_grows| |done]. intros HP. destruct (HP h1 Ftell) as (_ & _ & Hn). fold len in Hn. lia. }
  apply runs_bind. eapply run_invoke; [eassumption|done|done|]. intros h3 Hg3 Hh3 Hs3. cbn in Hh3.
  destruct (ok (r_err (reply_to h2 _))) eqn:Hm; cbn [negb].
  2:{ apply runs_ret. split_and!; [solve_grows|no_success|done]. }
  call_step.
  - apply runs_ret. split_and!; [solve_grows|done|]. split; [done|].
    destruct (malloc_terminated h2 len Hpos) as (g & Hgl & ->). exists g. split_and!; [done|done|done|].
    intros s (_ & Hn & _). apply Hn.
  - call_step. apply runs_ret. split_and!; [solve_grows| |done]. no_success.
Qed.

Lemma fread_json_ok len g h l :
  held h = l -> length g = Z.to_nat len ->
  runs (fread_json len (Some (g ++ [0]))) h (fun '(x, data) h' => grows h h' /\ held h' = l /\
    exists b, data = Some (b ++ [0]) /\ forall s, has_text P s -> len = zlen s -> b = s /\ x = zlen s).
Proof.
  intros Hl Hg. apply runs_bind. eapply run_invoke; [eassumption|done|done|]. intros h1 Hg1 Hh1 _. cbn in Hh1.
  apply runs_ret. split_and!; [solve_grows|done|].
  set (r := reply_to h _). set (b := take _ (r_bytes r)). cbn [option_map].
  assert (Hb : (length b <= length g)%nat) by (unfold b; rewrite length_take; lia).
  exists (b ++ drop (length b) g). split; [by rewrite drop_app_le, app_assoc by done|].
  intros s (_ & _ & Hs) ->. unfold b, r. rewrite Hs. unfold zlen in *. rewrite Nat2Z.id in *.
  rewrite firstn_all, drop_ge by lia. split; [apply app_nil_r|done].
Qed.

Lemma parse_buffer_ok b h l (Q : option json -> list event -> Prop) :
  held h = l ->
  (forall s h' j, c_str (b ++ [0]) = Some s -> grows h h' -> maybe_json j -> held h' = j ++ l -> Q (json_tokener_parse s) h') ->
  runs (parse_buffer (Some (b ++ [0]))) h Q.
Proof.
  intros Hl HQ. destruct (c_str_ends b) as [s Hs]. do 2 eexists. split; [unfold parse_buffer; by rewrite Hs|]. cbn beta zeta.
  apply (HQ s _ (match json_tokener_parse s with Some _ => [RJson] | None => [] end)); [done|by apply grows_one|..].
  - destruct (json_tokener_parse s); [by right|by left].
  - rewrite held_snoc, Hl. by destruct (json_tokener_parse s).
Qed.

(** The buffer is freed beneath the object. *)
Lemma free_buffer_ok {A} (k : unit -> ST (list event) A) h j l (Q : A -> list event -> Prop) :
  maybe_json j -> held h = j ++ RBuffer :: l ->
  (forall h', grows h h' -> held h' = j ++ l -> runs (k tt) h' Q) -> runs (call_unit FreeBuffer ≫= k) h Q.
Proof.
  intros Hj Hl HQ. apply runs_bind. eapply run_call_unit; [exact Hl|done|by destruct Hj as [-> | ->]|done|].
  intros h' Hg Hh. apply HQ; [done|]. by destruct Hj as [-> | ->].
Qed.

(** The rules a parsed file describes. *)
Definition rules_in (make : option json -> doca_error * nat_rule_match) (rules : option json) :
    option (list nat_rule_match) :=
  match json_object_array_length rules with
  | None => None
  | Some n => let '(e, rs) := parse_rules make rules (Z.to_nat n) 0 in if ok e then Some rs else None
  end.
Definition rules_of (m : nat_mode) (j : option json) : option (list nat_rule_match) :=
  match m with
  | STATIC => rules ← json_object_object_get_ex j (str "rules"); rules_in static_rule rules
  | PAT =>
      ip ← json_object_object_get_ex j (str "global ip");
      if decide (json_object_get_type ip = json_type_string) then
        let '(e, parsed) := parse_ipv4_str (json_object_get_string ip) (zeros 4) in
        if ok e then rules ← json_object_object_get_ex j (str "rules"); rules_in (pat_rule parsed) rules else None
      else None
  | _ => None
  end.

Lemma parse_ipv4_length s old : length old = 4%nat -> length (snd (parse_ipv4_str s old)) = 4%nat.
Proof.
  intros Ho. unfold parse_ipv4_str. destruct (strcmp _ _); [apply length_be_bytes|].
  destruct (ipv4_octets 3 s) as [[[|a [|b [|c [|]]]] ptr]|]; try done.
Qed.

Lemma parse_rules_ok make rules n i :
  (forall j e r, make j = (e, r) -> rule_ok r) ->
  let '(e, rs) := parse_rules make rules n i in Forall rule_ok rs /\ (ok e = true -> length rs = n).
Proof.
  intros Hm. revert i. induction n as [|n IH]; intros i; cbn [parse_rules]; [done|].
  destruct (make _) as [e r] eqn:E. apply Hm in E. destruct (ok e) eqn:Hok; cbn [negb]; [|by rewrite Hok].
  specialize (IH (i + 1)). destruct (parse_rules make rules n (i + 1)) as [e' rs]. destruct IH as [H1 H2].
  split; [by constructor|]. intros E'. cbn. by rewrite H2.
Qed.

Lemma local_ip_ok j r e r' : rule_ok r -> create_local_ip j r = (e, r') -> rule_ok r'.
Proof.
  intros [Hl Hg]. unfold create_local_ip. destruct (json_object_object_get_ex _ _) as [v|]; [|by intros [= <- <-]].
  case_decide; [|by intros [= <- <-]].
  pose proof (parse_ipv4_length (json_object_get_string v) _ Hl). destruct (parse_ipv4_str _ _). by intros [= <- <-].
Qed.
Lemma global_ip_ok j r e r' : rule_ok r -> create_global_ip j r = (e, r') -> rule_ok r'.
Proof.
  intros [Hl Hg]. unfold create_global_ip. destruct (json_object_object_get_ex _ _) as [v|]; [|by intros [= <- <-]].
  case_decide; [|by intros [= <- <-]].
  pose proof (parse_ipv4_length (json_object_get_string v) _ Hg). destruct (parse_ipv4_str _ _). by intros [= <- <-].
Qed.
Lemma local_port_ok j r e r' : rule_ok r -> create_local_port j r = (e, r') -> rule_ok r'.
Proof. intros Hr. unfold create_local_port. repeat case_match; by intros [= <- <-]. Qed.
Lemma global_port_ok j r e r' : rule_ok r -> create_global_port j r = (e, r') -> rule_ok r'.
Proof. intros Hr. unfold create_global_port. repeat case_match; by intros [= <- <-]. Qed.

Lemma static_rule_ok j e r : static_rule j = (e, r) -> rule_ok r.
Proof.
  unfold static_rule. destruct (create_local_ip j rule0) as [e1 r1] eqn:E1. apply local_ip_ok in E1; [|done].
  case_bool; [by intros [= <- <-]|]. intros E2. by eapply global_ip_ok.
Qed.

Lemma pat_rule_ok ip j e r : length ip = 4%nat -> pat_rule ip j = (e, r) -> rule_ok r.
Proof.
  intros Hip. unfold pat_rule. destruct (create_local_ip j rule0) as [e1 r1] eqn:E1. apply local_ip_ok in E1; [|done].
  case_bool; [by intros [= <- <-]|]. destruct (create_local_port j r1) as [e2 r2] eqn:E2. apply local_port_ok in E2; [|done].
  case_bool; [by intros [= <- <-]|]. destruct (create_global_port j r2) as [e3 r3] eqn:E3. apply global_port_ok in E3; [|done].
  case_bool; [by intros [= <- <-]|]. destruct E3 as [H1 H2]. by intros [= <- <-].
Qed.

(** The outcome of reading rules: an array that is held, or nothing. *)
Definition rules_read (l : list res) (want : option (list nat_rule_match)) (h : list event)
    (x : doca_error * Z * option (list nat_rule_match)) (h' : list event) : Prop :=
  let '(e, n, rules) := x in
  grows h h' /\ (succeeds P -> forall rs, want = Some rs -> ok e = true /\ rules = Some rs) /\
  if ok e then exists rs, rules = Some rs /\ n = zlen rs /\ zlen rs < 2 ^ 16 /\ Forall rule_ok rs /\ held h' = RRules :: l
  else rules = None /\ held h' = l.

Lemma create_rules_ok make s rules h l :
  json_object_object_get_ex (json_tokener_parse s) (str "rules") = Some rules ->
  (forall j e r, make j = (e, r) -> rule_ok r) -> held h = l ->
  runs (create_rules make rules) h (rules_read l (rules_in make rules) h).
Proof.
  intros Hj Hm Hl. destruct (rules_array s rules Hj) as (n & Hn & Hr). unfold create_rules, rules_in, runs. rewrite Hn.
  assert (s32 n = n) as -> by solve_wrap.
  match goal with |- exists a s', ?m h = _ /\ ?Q a s' => change (runs m h Q) end.
  pose proof (parse_rules_ok make rules (Z.to_nat n) 0 Hm) as Hp. call_step.
  - destruct (parse_rules make rules (Z.to_nat n) 0) as [e' rs]. destruct Hp as [Hok Hlen].
    destruct (ok e') eqn:E; cbn [negb].
    + apply runs_ret. split_and!; [solve_grows|by intros _ rs' [= ->]|]. exists rs.
      assert (zlen rs = n) by (unfold zlen; rewrite Hlen by done; lia). split_and!; try done; lia.
    + call_step. apply runs_ret. split_and!; [solve_grows|done|]. by rewrite E.
  - apply runs_ret. split_and!; [solve_grows| |done]. intros HP. specialize (Hs HP). done.
Qed.

Lemma no_rules_read l e n h : held h = l -> ok e = false -> rules_read l None h (e, n, None) h.
Proof. intros Hl He. cbn. rewrite He. split_and!; auto with doca. done. Qed.

Lemma create_mode_rules_ok m s h l :
  m = STATIC \/ m = PAT -> held h = l ->
  runs (match m with
        | STATIC => create_static_mode_rules (json_tokener_parse s)
        | PAT => create_pat_mode_rules (json_tokener_parse s)
        | _ => mret (DOCA_ERROR_INVALID_VALUE, 0, None)
        end) h (rules_read l (rules_of m (json_tokener_parse s)) h).
Proof.
  intros [->| ->] Hl; cbn [rules_of].
  - unfold create_static_mode_rules. destruct (json_object_object_get_ex _ _) as [rules|] eqn:E; obind.
    + eapply create_rules_ok; [exact E|apply static_rule_ok|done].
    + by apply runs_ret, no_rules_read.
  - unfold create_pat_mode_rules. destruct (json_object_object_get_ex _ (str "global ip")) as [ip|]; obind;
      [|by apply runs_ret, no_rules_read].
    case_decide; [|by apply runs_ret, no_rules_read].
    pose proof (parse_ipv4_length (json_object_get_string ip) (zeros 4) eq_refl) as Hlen.
    destruct (parse_ipv4_str _ _) as [e parsed]. cbn in Hlen. destruct (ok e) eqn:He; cbn [negb];
      [|by apply runs_ret, no_rules_read].
    destruct (json_object_object_get_ex _ (str "rules")) as [rules|] eqn:E; obind; [|by apply runs_ret, no_rules_read].
    eapply create_rules_ok; [exact E| |done]. intros j e' r. by apply pat_rule_ok.
Qed.

Lemma parsing_nat_rules_ok path m h l :
  m = STATIC \/ m = PAT -> held h = l ->
  runs (parsing_nat_rules path m) h (fun '(e, n, rules) h' => grows h h' /\
    (succeeds P -> forall s rs, has_text P s -> rules_of m (json_tokener_parse s) = Some rs -> ok e = true /\ rules = Some rs) /\
    exists j, maybe_json j /\
    if ok e then exists rs, rules = Some rs /\ n = zlen rs /\ zlen rs < 2 ^ 16 /\ Forall rule_ok rs /\ held h' = RRules :: j ++ l
    else rules = None /\ held h' = j ++ l).
Proof.
  intros Hm Hl. unfold parsing_nat_rules. call_step.
  2:{ apply runs_ret. split_and!; [solve_grows|no_success|]. exists []. by split; [left|]. }
  apply runs_bind. eapply runs_mono; [by apply allocate_json_ok|]. intros [[e1 len] data] h1 (Hg1 & Hs1 & H1). cbn beta iota.
  destruct (ok e1) eqn:He1; cbn [negb].
  2:{ call_step. apply runs_ret. rewrite He1. split_and!; [solve_grows|no_success|]. exists []. by split; [left|]. }
  destruct H1 as (Hh1 & g & -> & Hlg & Hlen & Htext). apply runs_bind. eapply runs_mono; [by apply fread_json_ok|].
  intros [x data] h2 (Hg2 & Hh2 & b & -> & Hb). cbn beta iota. call_step.
  apply runs_bind. eapply parse_buffer_ok; [eassumption|]. intros s h4 j Hcs Hg4 Hj Hh4.
  eapply free_buffer_ok; [exact Hj|exact Hh4|]. intros h6 Hg6 Hh6.
  eapply runs_mono; [by apply create_mode_rules_ok|]. intros [[e2 n] rules] h5 (Hg5 & Hs5 & H5).
  split_and!; [solve_grows| |by exists j]. intros HP s' rs Ht Hrs.
  assert (s = s') as ->.
  { rewrite (proj1 (Hb s' Ht (Htext s' Ht))), c_str_text in Hcs by apply Ht. congruence. }
  by apply Hs5.
Qed.
End Rules.

(** ** The pipes of both ports *)

Lemma setup_tame_forall (Q : event -> Prop) h es fs :
  setup h -> tame es -> tame fs -> (forall e, setup_call e.1 = true \/ tame_call e.1 = true -> Q e) ->
  Forall Q ((h ++ es) ++ fs).
Proof.
  intros Hh He Hf HQ. repeat apply Forall_app_2; [eapply Forall_impl; [exact Hh|]|eapply Forall_impl; [exact He|]|
    eapply Forall_impl; [exact Hf|]]; intros e H; apply HQ; auto.
Qed.

(** A port whose root pipe treats packets as [f] says. *)
Definition served (h : list event) (port : Z) (f : pkt -> option verdict) : Prop :=
  exists pipe, (pipe < length h)%nat /\ roots h port = [pipe] /\
    forall p v, f p = Some v -> steer (S pipe) h pipe p = Some v.

Lemma served_ext h es port f :
  served h port f -> roots es port = [] -> (forall q, (q < length h)%nat -> entries es q = []) -> served (h ++ es) port f.
Proof.
  intros (pipe & Hlt & Hr & Hst) Hes He. exists pipe. split_and!.
  - rewrite length_app. lia.
  - by rewrite roots_app, Hr, Hes.
  - intros p v Hv. rewrite steer_ext by done. by apply Hst.
Qed.

(** Which of the two treatments a port gets: by the name of its device. *)
Definition port_side (m : nat_mode) (c : nat_cfg) (name : cstring) (port : Z) (rules : list nat_rule_match) :
    option (pkt -> option verdict) :=
  if strstr name (port_intf_name (lan_intf_id c)) then
    Some (match m with PAT => pat_local | _ => static_local end port rules)
  else if strstr name (port_intf_name (wan_intf_id c)) then
    Some (match m with PAT => pat_global | _ => static_global end port rules)
  else None.

Definition named (P : Platform) (name : Z -> cstring) : Prop :=
  forall h port, r_bytes (reply_to h (EthDevInfoGet port)) = name port.

Section Pipes.
Context `{P : Platform} `{PF : !PromptFlow}.
Context (polls : nat) (Hpolls : 2 ^ 17 < Z.of_nat polls).
Context (m : nat_mode) (Hm : m = STATIC \/ m = PAT) (Hacc : m = PAT -> accepting P).
Context (rules : list nat_rule_match) (Hrules : Forall rule_ok rules) (Hlen : zlen rules < 2 ^ 16).
Context (c : nat_cfg) (Hc : mode c = m).

Lemma built_tame h h' port res f : built h h' port res f -> exists es, h' = h ++ es /\ tame es /\ (ok res = true -> pending h' = 0).
Proof. intros (es & ? & ? & ? & _). by exists es. Qed.

(** The body of the loop over the ports, after the name is known. *)
Definition build_port (port : Z) (info : reply) : ST (list event) doca_error :=
  match mode c with
  | STATIC => build_for (build_static_local_pipe polls) (build_static_global_pipe polls) port info c rules (zlen rules)
  | PAT => build_for (build_pat_local_pipe polls) (build_pat_global_pipe polls) port info c rules (zlen rules)
  | _ => mret DOCA_SUCCESS
  end.

(** Built as said, or at least without harm. *)
Definition port_built (h h' : list event) (port : Z) (res : doca_error) (f : option (pkt -> option verdict)) : Prop :=
  (exists es, h' = h ++ es /\ tame es /\ (ok res = true -> pending h' = 0)) /\
  forall g, f = Some g -> built h h' port res g.

Lemma build_for_ok local global port info h fl fg :
  pending h = 0 ->
  runs (local port rules (zlen rules)) h (fun res h' => built h h' port res fl) ->
  runs (global port rules (zlen rules)) h (fun res h' => built h h' port res fg) ->
  runs (build_for local global port info c rules (zlen rules)) h (fun res h' => port_built h h' port res
    (if ok (r_err info) && strstr (r_bytes info) (port_intf_name (lan_intf_id c)) then Some fl
     else if ok (r_err info) && strstr (r_bytes info) (port_intf_name (wan_intf_id c)) then Some fg else None)).
Proof.
  intros Hp Hl Hg. unfold build_for.
  destruct (_ && _); [|destruct (_ && _)].
  - eapply runs_mono; [exact Hl|]. intros res h' Hb. split; [exact (built_tame _ _ _ _ _ Hb)|by intros ? [= <-]].
  - eapply runs_mono; [exact Hg|]. intros res h' Hb. split; [exact (built_tame _ _ _ _ _ Hb)|by intros ? [= <-]].
  - apply runs_ret. split; [|done]. exists []. rewrite app_nil_r. split_and!; [done|constructor|done].
Qed.

Lemma nat_build_port_ok port info h :
  pending h = 0 ->
  runs (build_port port info) h (fun res h' => port_built h h' port res
    (if ok (r_err info) then port_side m c (r_bytes info) port rules else None)).
Proof.
  intros Hp. unfold build_port, port_side. rewrite Hc.
  destruct Hm as [E|E]; rewrite E in *.
  - eapply runs_mono; [eapply build_for_ok; [done|by apply build_static_local_ok|by apply build_static_global_ok]|].
    intros res h' H. by destruct (ok (r_err info)).
  - specialize (Hacc eq_refl).
    eapply runs_mono; [eapply build_for_ok; [done|by apply build_pat_local_ok|by apply build_pat_global_ok]|].
    intros res h' H. by destruct (ok (r_err info)).
Qed.

(** One turn of the loop: the name, the pipe of the port. *)
Lemma pipes_init_S n portid h :
  pipes_init polls (S n) portid rules (zlen rules) c h =
  (info ← invoke (EthDevInfoGet portid);
   if r_num info <? 0 then mret DOCA_ERROR_DRIVER else
   result ← build_port portid info;
   if negb (ok result) then mret result else pipes_init polls n (portid + 1) rules (zlen rules) c) h.
Proof. done. Qed.

(** After a turn on a platform where calls succeed, and a name is known. *)
Definition turn_done (h h' : list event) (port : Z) (f : pkt -> option verdict) : Prop :=
  exists es, h' = h ++ es /\ no_failure es /\ (fresh h -> fresh h') /\
    (forall q, (q < length h)%nat -> entries es q = []) /\ (forall port', port' <> port -> roots es port' = []) /\
    (fresh h -> roots h port = [] -> served h' port f).

Lemma nat_turn_ok portid h :
  pending h = 0 ->
  runs (info ← invoke (EthDevInfoGet portid);
        if r_num info <? 0 then mret DOCA_ERROR_DRIVER else build_port portid info) h (fun res h' =>
    (exists es, h' = h ++ es /\ tame es /\ (ok res = true -> pending h' = 0)) /\
    (succeeds P -> forall name f, named P name -> port_side m c (name portid) portid rules = Some f ->
      res = DOCA_SUCCESS /\ turn_done h h' portid f)).
Proof.
  intros Hp. apply runs_bind, runs_invoke; [done|]. set (info := reply_to h _).
  assert (Hp1 : pending (h ++ [(EthDevInfoGet portid, info)]) = 0) by (rewrite pending_app, pending_one; lia).
  destruct (Z.ltb_spec (r_num info) 0) as [Hneg|_].
  - apply runs_ret. split; [exists [(EthDevInfoGet portid, info)]; split_and!; [done|by apply tame_one|done]|].
    intros HP name f _ _. destruct (HP h (EthDevInfoGet portid)) as (_ & _ & Hpos). fold info in Hpos. lia.
  - eapply runs_mono; [by apply nat_build_port_ok|]. intros res h' [(es & -> & Ht & Hpe) Hb]. split.
    { exists ([(EthDevInfoGet portid, info)] ++ es). rewrite app_assoc. split_and!; [done|by apply tame_app; [apply tame_one|]|done]. }
    intros HP name f Hn Hf. destruct (HP h (EthDevInfoGet portid)) as (Hok & _). fold info in Hok.
    assert (Hname : r_bytes info = name portid) by apply Hn. rewrite Hok, Hname in Hb.
    destruct (Hb f Hf) as (fs & Heq & _ & _ & Hs). apply app_inv_head in Heq as <-.
    destruct (Hs HP) as (-> & Hnf & Hfr & Hold & Hro & Hsv). split; [done|].
    assert (Hfr1 : fresh h -> fresh (h ++ [(EthDevInfoGet portid, info)])).
    { intros H q Hq. rewrite entries_app, H, no_entries_one; [done|done|]. rewrite length_app in Hq. lia. }
    exists ([(EthDevInfoGet portid, info)] ++ es). rewrite app_assoc. split_and!; [done| |auto| | |].
    + apply Forall_app_2; [by repeat constructor|done].
    + intros q Hq. rewrite entries_app, no_entries_one, Hold; [done| |done]. rewrite length_app. lia.
    + intros port' Hpo. rewrite roots_app, (Hro port' Hpo). by rewrite roots_one.
    + intros Hf0 Hr0. destruct (Hsv (Hfr1 Hf0)) as (pipe & Hlt & Hge & Hroot & Hst). exists pipe. split_and!; [done| |done].
      rewrite !roots_app, Hr0, Hroot, roots_one. cbn [is_root_of app map]. f_equal. lia.
Qed.

Lemma runs_turn n portid h (Q : doca_error -> list event -> Prop) :
  runs (info ← invoke (EthDevInfoGet portid);
        if r_num info <? 0 then mret DOCA_ERROR_DRIVER else build_port portid info) h
    (fun res h1 => runs (if negb (ok res) then mret res else pipes_init polls n (portid + 1) rules (zlen rules) c) h1 Q) ->
  runs (pipes_init polls (S n) portid rules (zlen rules) c) h Q.
Proof.
  intros (res & h1 & Heq & HQ). unfold runs in *. rewrite pipes_init_S. revert Heq.
  unfold mbind, ST_bind. destruct (invoke (EthDevInfoGet portid) h) as [[info h2]|]; [|done].
  destruct (r_num info <? 0); [by intros [= <- <-]|]. by intros ->.
Qed.

Lemma nat_pipes_init_ok h :
  setup h ->
  runs (nat_pipes_init polls rules (zlen rules) c NB_PORTS) h (fun res h' =>
    held h' = held h /\
    (succeeds P -> forall name f0 f1, named P name ->
      port_side m c (name 0) 0 rules = Some f0 -> port_side m c (name 1) 1 rules = Some f1 ->
      res = DOCA_SUCCESS /\ offloaded h' = true /\ served h' 0 f0 /\ served h' 1 f1)).
Proof.
  intros Hs. unfold nat_pipes_init. change (Z.to_nat NB_PORTS) with 2%nat.
  apply runs_turn. eapply runs_mono; [apply (nat_turn_ok 0 h); by apply setup_pending|].
  intros res h1 [(es & -> & Ht & Hpe) H1]. destruct (ok res) eqn:Hok; cbn [negb].
  2:{ apply runs_ret. split; [by apply held_tame|]. intros HP name f0 f1 Hn Hf0 _.
      destruct (H1 HP name f0 Hn Hf0) as [-> _]. done. }
  specialize (Hpe eq_refl). apply runs_turn. eapply runs_mono; [by apply (nat_turn_ok 1)|].
  intros res2 h2 [(fs & -> & Ht2 & Hpe2) H2].
  assert (Hheld : held ((h ++ es) ++ fs) = held h) by (by rewrite !held_tame).
  assert (Hfin : forall res', (res2 = DOCA_SUCCESS -> res' = DOCA_SUCCESS) -> held ((h ++ es) ++ fs) = held h /\
    (succeeds P -> forall name f0 f1, named P name ->
      port_side m c (name 0) 0 rules = Some f0 -> port_side m c (name 1) 1 rules = Some f1 ->
      res' = DOCA_SUCCESS /\ offloaded ((h ++ es) ++ fs) = true /\ served ((h ++ es) ++ fs) 0 f0 /\ served ((h ++ es) ++ fs) 1 f1)).
  { intros res' Hres. split; [done|]. intros HP name f0 f1 Hn Hf0 Hf1.
    destruct (H1 HP name f0 Hn Hf0) as (_ & es' & Heq & Hnf & Hfr & Hold & Hro & Hsv). apply app_inv_head in Heq as <-.
    destruct (H2 HP name f1 Hn Hf1) as (-> & fs' & Heq & Hnf2 & Hfr2 & Hold2 & Hro2 & Hsv2). apply app_inv_head in Heq as <-.
    split; [by apply Hres|]. split; [|split].
    - apply offloaded_intro.
      + by apply Hpe2.
      + apply Forall_app_2; [apply Forall_app_2; [by apply setup_no_failure|done]|done].
      + apply setup_tame_forall; [done..|]. by intros [[] r] [H|H].
      + apply setup_tame_forall; [done..|]. intros [[] r] [H|H]; try done; cbn in H |- *; by destruct ctx.
    - apply served_ext; [|by apply Hro2|done]. apply Hsv; [by apply setup_fresh|by apply setup_roots].
    - apply Hsv2; [by apply Hfr, setup_fresh|]. by rewrite roots_app, (setup_roots _ _ Hs), Hro. }
  destruct (ok res2) eqn:Hok2; cbn [negb pipes_init].
  - apply runs_ret. by apply Hfin.
  - apply runs_ret. by apply Hfin.
Qed.
End Pipes.
