(* ===== verification/PipeDemo.v ===== *)
(** * A platform on which everything succeeds

    A concrete json-c, platform and hardware, on which the theorems about the NAT
    and the firewall are applied. *)

From S2P Require Import Prelude CString FlowTypes FlowPipes Json NatSpec NatRun.
#[local] Open Scope Z_scope.

Inductive jtree := JStr (s : cstring) | JInt (n : Z) | JBool (b : bool) | JObj (l : list (cstring * jtree)) | JArr (l : list jtree).

Fixpoint jget (l : list (cstring * jtree)) (k : cstring) : option jtree :=
  match l with [] => None | (k', v) :: l' => if strcmp k k' then Some v else jget l' k end.

(** A numeral outside the range of int64_t becomes its nearest end. *)
Definition int64 (n : Z) : Z := Z.max (- 2 ^ 63) (Z.min (2 ^ 63 - 1) n).

#[refine] Definition demo_json (text : cstring) (tree : jtree) : JsonC := {|
  json := jtree;
  json_tokener_parse := fun s => if strcmp s text then Some tree else None;
  json_object_object_get_ex := fun j k => match j with Some (JObj l) => option_map Some (jget l k) | _ => None end;
  json_object_get_type := fun j =>
    match j with
    | None => json_type_null | Some (JStr _) => json_type_string | Some (JInt _) => json_type_int
    | Some (JBool _) => json_type_boolean
    | Some (JObj _) => json_type_object | Some (JArr _) => json_type_array
    end;
  json_object_get_string := fun j => match j with Some (JStr s) => s | _ => [] end;
  json_object_get_int := fun j => match j with Some (JInt n) => Z.max (- 2 ^ 31) (Z.min (2 ^ 31 - 1) (int64 n)) | _ => 0 end;
  json_object_get_int64 := fun j => match j with Some (JInt n) => int64 n | _ => 0 end;
  json_object_get_boolean := fun j => match j with Some (JBool b) => b | _ => false end;
  json_object_array_length := fun j => match j with Some (JArr l) => Some (zlen l) | _ => None end;
  json_object_array_get_idx := fun j i => match j with Some (JArr l) => l !! Z.to_nat i | _ => None end
|}.
Proof.
  - intros [[]|]; try done. intros _. eexists. split; [done|]. unfold zlen. lia.
  - intros [[]|]; unfold int64; lia.
  - by intros [[]|].
Defined.

(** Everything succeeds; entries are reported when they are processed. *)
Definition demo_reply (text : cstring) (name : Z -> cstring) : Platform := fun h c =>
  match c with
  | EntriesProcess _ _ _ _ =>
      Reply DOCA_SUCCESS 0 [] (replicate (Z.to_nat (pending h)) (Completion true true true))
  | Ftell => Reply DOCA_SUCCESS (zlen text) [] []
  | Fread _ => Reply DOCA_SUCCESS 0 text []
  | Malloc n => Reply DOCA_SUCCESS 0 (zeros (Z.to_nat n)) []
  | EthDevInfoGet port => Reply DOCA_SUCCESS 0 (name port) []
  | _ => Reply DOCA_SUCCESS 0 [] []
  end.

Lemma counts_replicate n : counts (replicate n (Completion true true true)) = Z.of_nat n.
Proof. unfold counts. f_equal. induction n as [|n IH]; [done|]. cbn. by rewrite IH. Qed.

Lemma demo_prompt text name : @PromptFlow (demo_reply text name).
Proof.
  split; intros; cbn; rewrite counts_replicate; lia.
Qed.

Lemma demo_readable text name : @ReadableFile (demo_reply text name).
Proof.
  split; [done|]. intros h n Hn. exists (zeros (Z.to_nat n)). split; [apply length_replicate|].
  cbn. rewrite Z2Nat.inj_add by lia. unfold zeros. by rewrite replicate_add.
Qed.

Lemma demo_succeeds text name : succeeds (demo_reply text name).
Proof.
  intros h c. destruct c; cbn; try (split_and!; done || lia).
  - split_and!; [done| |done]. by induction (Z.to_nat (pending h)).
  - split_and!; try done. unfold zlen. lia.
Qed.

Lemma demo_has_text text name : Forall (fun c => c <> 0) text -> has_text (demo_reply text name) text.
Proof. done. Qed.

(** The hardware does what the documentation says and drops what it does not
    speak of. *)
#[refine] Definition demo_hardware : Steering := {|
  forward := fun h port p => match roots h port with [pipe] => default Dropped (steer (S pipe) h pipe p) | _ => Dropped end
|}.
Proof. by intros h port pipe p v _ _ _ -> ->. Defined.

Definition demo_text : cstring := str "{...}".
Definition demo_name (lan wan : cstring) (port : Z) : cstring := if port =? 0 then lan else wan.
Lemma demo_arrays tree :
  (forall rules, json_object_object_get_ex (JsonC := demo_json demo_text tree) (Some tree) (str "rules") = Some rules ->
    exists n, json_object_array_length (JsonC := demo_json demo_text tree) rules = Some n /\ 0 <= n < 2 ^ 16) ->
  @RulesArrays (demo_json demo_text tree).
Proof.
  intros H s rules. change (json_tokener_parse s) with (if strcmp s demo_text then Some tree else None).
  destruct (strcmp s demo_text); [apply H|done].
Qed.

Definition demo_polls : nat := Z.to_nat (2 ^ 18).
Lemma demo_polls_enough : 2 ^ 17 < Z.of_nat demo_polls.
Proof. unfold demo_polls. rewrite Z2Nat.id; lia. Qed.

