(* ===== verification/NatTheorems.v ===== *)
(** * Theorems on the NAT

    The program as a whole: what it holds at the end of every run
    ([nat_releases]), and what the hardware does to packets while it waits for
    traffic, for every platform on which calls succeed and every hardware that
    follows the law of [Steering]. *)

From S2P Require Import Prelude CString FlowTypes FlowFields FlowParserSpec FlowPipes Json Nat NatSpec NatRun RuleText PipeDemo.
#[local] Open Scope Z_scope.

Section Runs.
Context `{P : Platform} `{PF : !PromptFlow} `{RF : !ReadableFile} `{J : JsonC} `{RA : !RulesArrays}.
Context (polls : nat) (Hpolls : 2 ^ 17 < Z.of_nat polls).

(** What is held where main stands. *)
Definition holds_at (s : stage) (h : list event) : Prop :=
  match s with
  | ExitNow => held h = []
  | ArgpCleanup => held h = [RArgp]
  | DpdkDestroy => held h = [RDpdk; RArgp]
  | DpdkCleanup => held h = base
  | NatCleanup rules ports | Waiting rules ports =>
      ports = [true; true] /\ exists j, maybe_json j /\
        held h = (match rules with Some _ => [RRules] | None => [] end) ++ j ++ running
  end.

(** The pipes are in place. *)
Definition ready (s : stage) (h : list event) (rs : list nat_rule_match) (f0 f1 : pkt -> option verdict) : Prop :=
  s = Waiting (Some rs) [true; true] /\ offloaded h = true /\ served h 0 f0 /\ served h 1 f1.

Lemma start_ok args :
  ArgMode (str "pat") ∉ args \/ accepting P ->
  runs (start polls args) [] (fun s h => holds_at s h /\
    (succeeds P -> forall text c rs name f0 f1,
      config args = Some c -> has_text P text -> rules_of (mode c) (json_tokener_parse text) = Some rs ->
      named P name -> port_side (mode c) c (name 0) 0 rs = Some f0 -> port_side (mode c) c (name 1) 1 rs = Some f1 ->
      ready s h rs f0 f1)).
Proof.
  intros Hacc. unfold start. assert (H0 : held [] = []) by done.
  do 3 (call_step; [|apply runs_ret; split; [done|no_success]]).
  call_step; [|apply runs_ret; split; [done|no_success]].
  apply runs_bind. eapply runs_mono; [by apply register_nat_params_ok|]. intros e3 h3 (Hg3 & Hh3 & Hs3).
  destruct (ok e3) eqn:He3; cbn [negb]; [|apply runs_ret; split; [done|no_success]].
  apply runs_bind. eapply runs_mono; [by apply argp_start_ok|]. intros [e4 c] h4 (Hg4 & Hh4 & Hs4 & Hm4).
  destruct (ok e4) eqn:He4; cbn [negb].
  2:{ apply runs_ret. split; [done|]. intros HP ? c' ? ? ? ? Hc. by destruct (Hs4 HP c' Hc). }
  specialize (Hm4 eq_refl). apply runs_bind. eapply run_invoke; [done|done|done|]. intros h5 Hg5 Hh5 Hs5.
  cbn in Hh5. destruct (ok (r_err (reply_to h4 _))) eqn:He5; cbn [negb];
    [|apply runs_ret; split; [done|no_success]].
  apply runs_bind. eapply runs_mono; [by apply nat_init_ok|]. intros [e6 ports] h6 (Hg6 & Hs6 & H6).
  destruct (ok e6) eqn:He6; cbn [negb]; [|apply runs_ret; split; [done|no_success]].
  destruct H6 as [-> Hh6].
  assert (Hmode : mode c = STATIC \/ mode c = PAT) by (destruct Hm4 as [|[]]; auto).
  apply runs_bind. eapply runs_mono; [by apply parsing_nat_rules_ok|]. intros [[e7 n] rules] h7 (Hg7 & Hs7 & j & Hj & H7).
  assert (Hset : setup h7).
  { assert (Hgrow : grows [] h7) by solve_grows. destruct Hgrow as (es & -> & Hes). done. }
  destruct (ok e7) eqn:He7; cbn [negb].
  - destruct H7 as (rs & -> & -> & Hlen & Hrs & Hh7). apply runs_bind.
    eapply runs_mono; [eapply (nat_pipes_init_ok polls Hpolls (mode c)); try done|].
    { intros Hp. destruct Hacc as [Hno|]; [|done]. destruct Hm4 as [E|[_ Hin]]; [congruence|done]. }
    intros e8 h8 [Hh8 Hs8]. rewrite Hh7 in Hh8.
    assert (Hready : succeeds P -> forall text c' rs' name f0 f1,
      config args = Some c' -> has_text P text -> rules_of (mode c') (json_tokener_parse text) = Some rs' ->
      named P name -> port_side (mode c') c' (name 0) 0 rs' = Some f0 -> port_side (mode c') c' (name 1) 1 rs' = Some f1 ->
      e8 = DOCA_SUCCESS /\ rs' = rs /\ offloaded h8 = true /\ served h8 0 f0 /\ served h8 1 f1).
    { intros HP text c' rs' name f0 f1 Hc Ht Hr Hn Hf0 Hf1. destruct (Hs4 HP c' Hc) as [_ ->].
      destruct (Hs7 HP text rs' Ht Hr) as [_ [= ->]]. destruct (Hs8 HP name f0 f1 Hn Hf0 Hf1) as (-> & ? & ? & ?). done. }
    destruct (ok e8) eqn:He8; cbn [negb]; apply runs_ret; (split; [split; [done|by exists j]|]);
      intros HP text c' rs' name f0 f1 Hc Ht Hr Hn Hf0 Hf1;
      destruct (Hready HP text c' rs' name f0 f1 Hc Ht Hr Hn Hf0 Hf1) as (-> & -> & ?); done.
  - destruct H7 as [-> Hh7]. apply runs_ret. split; [split; [done|by exists j]|].
    intros HP text c' rs' name f0 f1 Hc Ht Hr. destruct (Hs4 HP c' Hc) as [_ ->].
    by destruct (Hs7 HP text rs' Ht Hr).
Qed.

Lemma finish_ok s h : holds_at s h -> runs (finish s) h released.
Proof.
  assert (Hargp : forall x j h, x = EXIT_SUCCESS \/ x = EXIT_FAILURE -> maybe_json j -> held h = j ++ [RArgp] ->
    runs (argp_destroy x) h released).
  { intros x j h1 Hx Hj H1. unfold argp_destroy.
    destruct Hj as [-> | ->]; call_step; apply runs_ret; (eapply released_json; [|exact Hh|done]); [by left|by right]. }
  assert (Hdpdk : forall x j h, x = EXIT_SUCCESS \/ x = EXIT_FAILURE -> maybe_json j -> held h = j ++ [RDpdk; RArgp] ->
    runs (dpdk_destroy x) h released).
  { intros x j h1 Hx Hj H1. unfold dpdk_destroy.
    pose proof Hj as [-> | ->]; cbn in H1; call_step; by eapply Hargp. }
  assert (Hports : forall x j h, x = EXIT_SUCCESS \/ x = EXIT_FAILURE -> maybe_json j -> held h = j ++ base ->
    runs (dpdk_cleanup x) h released).
  { intros x j h1 Hx Hj H1. unfold dpdk_cleanup. pose proof Hj as [-> | ->]; cbn in H1; call_step; by eapply Hdpdk. }
  assert (Hnat : forall x rules j h, x = EXIT_SUCCESS \/ x = EXIT_FAILURE -> maybe_json j ->
    held h = (match rules with Some _ => [RRules] | None => [] end) ++ j ++ running ->
    runs (nat_cleanup x rules [true; true]) h released).
  { intros x rules j h1 Hx Hj H1. unfold nat_cleanup. apply runs_bind. eapply runs_mono; [by apply (nat_destroy_ok _ j)|].
    intros [] h2 H2. by apply (Hports _ j). }
  assert (H0 : maybe_json []) by by left.
  destruct s as [| | | |rules ports|rules ports]; cbn [holds_at finish]; intros Hheld.
  - apply runs_ret. apply (released_json _ _ []); auto.
  - apply (Hargp _ []); auto.
  - apply (Hdpdk _ []); auto.
  - apply (Hports _ []); auto.
  - destruct Hheld as (-> & j & Hj & Hheld). apply (Hnat _ _ j); auto.
  - destruct Hheld as (-> & j & Hj & Hheld). apply (Hnat _ _ j); auto.
Qed.
End Runs.

(** ** The file of the rules *)

Section Text.
Context `{J : JsonC}.

Lemma array_rules {A} make elem (rule : A -> nat_rule_match) j l :
  (forall o x, x ∈ l -> elem o x -> make o = (DOCA_SUCCESS, rule x)) ->
  array_of elem j l -> (rules ← json_object_object_get_ex j (str "rules"); rules_in make rules) = Some (map rule l).
Proof.
  intros Hm (rules & Hj & Hn & Hall). rewrite Hj. obind. unfold rules_in. rewrite Hn. unfold zlen. rewrite Nat2Z.id.
  assert (Hp : forall l1 l2, l = l1 ++ l2 ->
    parse_rules make rules (length l2) (Z.of_nat (length l1)) = (DOCA_SUCCESS, map rule l2)).
  { intros l1 l2. revert l1. induction l2 as [|x l2 IH]; intros l1 ->; [done|]. cbn [length parse_rules map].
    rewrite (Hm _ x); [|set_solver|by apply Hall, list_lookup_middle].
    cbn [ok negb]. replace (Z.of_nat (length l1) + 1) with (Z.of_nat (length (l1 ++ [x]))) by (rewrite length_app; cbn; lia).
    by rewrite IH by (by rewrite <- app_assoc). }
  specialize (Hp [] l eq_refl). change (Z.of_nat (length (@nil A))) with 0 in Hp. by rewrite Hp.
Qed.

(** {"rules": [{"local ip": "a.b.c.d", "global ip": "a.b.c.d"}, ...]} *)
Definition static_elem (o : option json) (x : ip4 * ip4) : Prop :=
  string_at o (str "local ip") (ip4_text x.1) /\ string_at o (str "global ip") (ip4_text x.2).
Definition static_file (j : option json) (l : list (ip4 * ip4)) : Prop :=
  array_of static_elem j l /\ Forall (fun x => ip4_ok x.1 /\ ip4_ok x.2) l.
Definition static_nat (x : ip4 * ip4) : nat_rule_match := Rule (ip4_bytes x.1) 0 (ip4_bytes x.2) 0.

Lemma static_file_rules j l : static_file j l -> rules_of STATIC j = Some (map static_nat l).
Proof.
  intros [Hl Hok]. rewrite Forall_forall in Hok. cbn [rules_of]. eapply array_rules; [|exact Hl].
  intros o x Hx [Hlo Hgl]. destruct (Hok x Hx) as [H1 H2]. unfold static_rule, create_local_ip, create_global_ip.
  destruct (parse_ip_at o _ _ (local_ip rule0) H1 Hlo) as (y & -> & -> & Hy). rewrite decide_True, Hy by done.
  cbn [ok negb local_ip local_port global_ip global_port].
  cbn [rule0 global_ip].
  destruct (parse_ip_at o _ _ (zeros 4) H2 Hgl) as (z & -> & -> & Hz). rewrite decide_True by done.
  by rewrite Hz.
Qed.

(** {"global ip": "a.b.c.d", "rules": [{"local ip": .., "local port": n, "global port": n}, ...]} *)
Record pat_line := Line { from_ip : ip4; from_port : Z; as_port : Z }.
Definition pat_elem (o : option json) (x : pat_line) : Prop :=
  string_at o (str "local ip") (ip4_text (from_ip x)) /\
  int_at o (str "local port") (from_port x) /\ int_at o (str "global port") (as_port x).
Definition pat_file (j : option json) (g : ip4) (l : list pat_line) : Prop :=
  string_at j (str "global ip") (ip4_text g) /\ ip4_ok g /\ array_of pat_elem j l /\
  Forall (fun x => ip4_ok (from_ip x) /\ in_u 16 (from_port x) /\ in_u 16 (as_port x)) l.
Definition pat_nat (g : ip4) (x : pat_line) : nat_rule_match :=
  Rule (ip4_bytes (from_ip x)) (from_port x) (ip4_bytes g) (as_port x).

Lemma pat_file_rules j g l : pat_file j g l -> rules_of PAT j = Some (map (pat_nat g) l).
Proof.
  intros (Hgs & Hg & Hl & Hok). rewrite Forall_forall in Hok. cbn [rules_of].
  destruct (parse_ip_at j _ g (zeros 4) Hg Hgs) as (y & -> & Hy & Hp). obind. rewrite decide_True, Hp by done. cbn [ok].
  eapply array_rules; [|exact Hl].
  intros o x Hx (Hlo & (lp & Hlp & Hlt & Hln) & (gp & Hgp & Hgt & Hgn)). destruct (Hok x Hx) as [H1 _].
  unfold pat_rule, create_local_ip, create_local_port, create_global_port.
  destruct (parse_ip_at o _ _ (local_ip rule0) H1 Hlo) as (z & -> & -> & Hz). rewrite decide_True, Hz by done.
  cbn [ok negb local_ip local_port global_ip global_port].
  rewrite Hlp, decide_True, Hgp by done. cbn [ok negb]. rewrite decide_True by done. cbn. by rewrite Hln, Hgn.
Qed.
End Text.

(** ** What the hardware does while main waits *)

Section Forwarding.
Context `{P : Platform} `{PF : !PromptFlow} `{RF : !ReadableFile} `{J : JsonC} `{RA : !RulesArrays} `{HW : Steering}.
Context (polls : nat) (Hpolls : 2 ^ 17 < Z.of_nat polls).

(** Main waits for traffic, and packets are treated as said at the two ports. *)
Definition treats (f0 f1 : pkt -> option verdict) (s : stage) (h : list event) : Prop :=
  (exists rs, s = Waiting (Some rs) [true; true]) /\
  (forall p v, f0 p = Some v -> forward h 0 p = v) /\ (forall p v, f1 p = Some v -> forward h 1 p = v).

(** The names of the devices of the two ports and the configuration. *)
Definition ports_named (c : nat_cfg) (name : Z -> cstring) : Prop :=
  named P name /\ strstr (name 0) (port_intf_name (lan_intf_id c)) = true /\
  strstr (name 1) (port_intf_name (lan_intf_id c)) = false /\ strstr (name 1) (port_intf_name (wan_intf_id c)) = true.

Lemma start_treats args c text rs name f0 f1 :
  succeeds P -> config args = Some c -> has_text P text -> rules_of (mode c) (json_tokener_parse text) = Some rs ->
  named P name -> port_side (mode c) c (name 0) 0 rs = Some f0 -> port_side (mode c) c (name 1) 1 rs = Some f1 ->
  runs (start polls args) [] (treats f0 f1).
Proof.
  intros HP Hc Ht Hr Hn H0 H1. eapply runs_mono; [apply (start_ok polls Hpolls); right; by apply succeeds_accepting|].
  intros s h [Hh Hs]. destruct (Hs HP _ _ _ _ _ _ Hc Ht Hr Hn H0 H1) as (-> & Hoff & (p0 & ? & Hr0 & Hs0) & (p1 & ? & Hr1 & Hs1)).
  destruct Hh as (_ & j & _ & Hh). split; [by eexists|].
  split; intros p v Hv; (eapply forward_law; [rewrite Hh; set_solver|rewrite Hh; set_solver|done|..]); eauto.
Qed.

Lemma start_sides args c text rs name :
  succeeds P -> config args = Some c -> has_text P text -> rules_of (mode c) (json_tokener_parse text) = Some rs ->
  ports_named c name ->
  runs (start polls args) [] (match mode c with
    | PAT => treats (pat_local 0 rs) (pat_global 1 rs) | _ => treats (static_local 0 rs) (static_global 1 rs) end).
Proof.
  intros HP Hc Ht Hr (Hn & E0 & E1 & E2).
  assert (H0 := start_treats args c text rs name).
  unfold port_side in H0. rewrite E0, E1, E2 in H0. specialize (H0 _ _ HP Hc Ht Hr Hn eq_refl eq_refl).
  by destruct (mode c).
Qed.
End Forwarding.

(** ** Translation and its inverse *)

(** The packet that answers a packet. *)
Definition answer (p : pkt) : pkt := Pkt (pk_ip4 p) (pk_l4 p) (pk_dst p) (pk_src p) (pk_dport p) (pk_sport p).

(** A rule that alone has a packet translates it. *)
Lemma translate_only {A} (rule : A -> nat_rule_match) hr tr out l x p :
  x ∈ l -> NoDup l -> hr (rule x) = true -> (forall y, y ∈ l -> hr (rule y) = true -> y = x) ->
  translate hr tr out (map rule l) p = Some (Sent out (tr (rule x) p)).
Proof.
  intros Hx Hnd Hf Hu. unfold translate.
  assert (Hm : List.filter hr (map rule l) = map rule (List.filter (fun x => hr (rule x)) l)).
  { clear. induction l as [|y l IH]; [done|]. cbn. destruct (hr (rule y)); cbn; by rewrite IH. }
  by rewrite Hm, (filter_only _ l x).
Qed.

Lemma translate_none {A} (rule : A -> nat_rule_match) hr tr out l p :
  (forall y, y ∈ l -> hr (rule y) = false) -> translate hr tr out (map rule l) p = Some Dropped.
Proof.
  intros Hu. unfold translate. assert (List.filter hr (map rule l) = []) as ->; [|done].
  apply filter_none. intros z (y & -> & Hy)%list_elem_of_fmap. by apply Hu.
Qed.

#[local] Arguments cpu_to_be_16 : simpl never.
#[local] Arguments be16 : simpl never.

Lemma strstr_app a p b : strstr (a ++ p ++ b) p = true.
Proof.
  induction a as [|x a IH]; cbn [app strstr].
  - destruct (p ++ b) eqn:E; cbn [strstr]; rewrite <- E; by rewrite starts_with_app.
  - by rewrite IH, orb_true_r.
Qed.

(** Numbers of interfaces, which the callbacks keep below 1000. *)
Lemma port_intf_short n : 0 <= n < 1000 -> port_intf_name n = str "mlx5_core.sf." ++ dec n.
Proof.
  intros Hn. unfold port_intf_name, fmt_d. rewrite (proj2 (Z.ltb_ge n 0)) by lia. apply take_ge.
  assert (length (dec n) <= 3)%nat; [|rewrite length_app; change (length (str "mlx5_core.sf.")) with 13%nat; unfold MAX_PORT_NAME; lia].
  assert (n / 10 / 10 < 10) by (apply Z.div_lt_upper_bound; [lia|]; apply Z.div_lt_upper_bound; lia).
  unfold dec. cbn [dec_digits]. repeat (case_bool; try lia); rewrite ?length_app; cbn [length]; lia.
Qed.

(** ** Theorems *)

Section Theorems.
Context `{P : Platform} `{PF : !PromptFlow} `{RF : !ReadableFile} `{J : JsonC} `{RA : !RulesArrays}.
Context (polls : nat) (Hpolls : 2 ^ 17 < Z.of_nat polls).

(** C15: whatever calls of the platform fail, under these conditions main comes to
    an end with success or failure, has released nothing twice, and holds nothing
    - no port, buffer, file, rules array or library - but the JSON object of the
    file, if it has parsed one, which it never gives back ([parsed_objects]; see
    the findings).  The conditions: the mode "pat" is not given, or the hardware
    accepts entries (otherwise a loop does not end); fseek reaches the end of the
    file and the memory after the bytes read happens to hold a zero
    ([ReadableFile]: neither is ensured by the code); the rules of the file are
    an array of less than 2^16 ([RulesArrays]: json_object_array_length asserts
    the array). *)
Theorem nat_releases args :
  ArgMode (str "pat") ∉ args \/ accepting P ->
  runs (main polls args) [] released.
Proof.
  intros Hacc. apply runs_bind. eapply runs_mono; [by apply start_ok|]. intros s h [Hh _]. by apply finish_ok.
Qed.

Context `{HW : Steering} (HP : succeeds P).

(** Static rules: what main reads from the file, and what both ports do. *)
Lemma static_treats args c text l name :
  config args = Some c -> mode c = STATIC -> has_text P text -> static_file (json_tokener_parse text) l ->
  ports_named c name ->
  runs (start polls args) [] (treats (static_local 0 (map static_nat l)) (static_global 1 (map static_nat l))).
Proof.
  intros Hc Hm Ht Hl Hn.
  pose proof (start_sides polls Hpolls args c text (map static_nat l) name HP Hc Ht) as H. rewrite Hm in H.
  apply H; [by apply static_file_rules|done].
Qed.

Lemma pat_treats args c text g l name :
  config args = Some c -> mode c = PAT -> has_text P text -> pat_file (json_tokener_parse text) g l ->
  ports_named c name ->
  runs (start polls args) [] (treats (pat_local 0 (map (pat_nat g) l)) (pat_global 1 (map (pat_nat g) l))).
Proof.
  intros Hc Hm Ht Hl Hn.
  pose proof (start_sides polls Hpolls args c text (map (pat_nat g) l) name HP Hc Ht) as H. rewrite Hm in H.
  apply H; [by apply pat_file_rules|done].
Qed.

(** C4: in static mode, with a file that maps each local address of [l] to a
    global address of its own, an IPv4 packet from a local address leaves the
    WAN port with the global address as its source and all else unchanged, the
    answer to it leaves the LAN port addressed to the local address, and IPv4
    packets that no line of the file speaks of are dropped at both ports. *)
Theorem nat_static_translates args c text l name :
  config args = Some c -> mode c = STATIC -> has_text P text -> static_file (json_tokener_parse text) l ->
  ports_named c name -> NoDup l.*1 -> NoDup l.*2 ->
  runs (start polls args) [] (fun s h =>
    (exists rules ports, s = Waiting (Some rules) ports) /\
    forall p, pk_ip4 p = true ->
      (forall x y, (x, y) ∈ l -> pk_src p = ip4_bytes x ->
         exists q, forward h 0 p = Sent 1 q /\ q = set_src (ip4_bytes y) p /\ forward h 1 (answer q) = Sent 0 (answer p)) /\
      ((forall x, x ∈ l.*1 -> pk_src p <> ip4_bytes x) -> forward h 0 p = Dropped) /\
      ((forall y, y ∈ l.*2 -> pk_dst p <> ip4_bytes y) -> forward h 1 p = Dropped)).
Proof.
  intros Hc Hm Ht Hl Hn H1 H2. eapply runs_mono; [by apply (static_treats args c text l name)|].
  intros s h ([rs ->] & F0 & F1). split; [by do 2 eexists|]. intros p Hp.
  assert (Hnd : NoDup l) by (by apply NoDup_fmap_1 in H1).
  split_and!.
  - intros x y Hxy Hs. exists (set_src (ip4_bytes y) p). split; [|split; [done|]].
    + apply F0. unfold static_local. rewrite Hp. rewrite (translate_only static_nat _ _ _ l (x, y)); [done..| |]; cbn.
      * by rewrite bool_decide_true.
      * intros [x' y'] Hin E%bool_decide_eq_true. cbn in E. rewrite Hs in E. apply ip4_bytes_inj in E as <-.
        by apply (key_unique fst l).
    + apply F1. unfold static_global. cbn [answer set_src pk_ip4]. rewrite Hp.
      rewrite (translate_only static_nat _ _ _ l (x, y)); [|done..| |]; cbn.
      * destruct p; cbn in *. by subst.
      * by rewrite bool_decide_true.
      * intros [x' y'] Hin E%bool_decide_eq_true. cbn in E. apply ip4_bytes_inj in E as <-.
        by apply (key_unique snd l).
  - intros Hno. apply F0. apply translate_none. intros [x y] Hin. rewrite Hp. cbn. apply bool_decide_false, Hno.
    by apply list_elem_of_fmap; exists (x, y).
  - intros Hno. apply F1. apply translate_none. intros [x y] Hin. rewrite Hp. cbn. apply bool_decide_false, Hno.
    by apply list_elem_of_fmap; exists (x, y).
Qed.

(** The rules of a PAT file whose lines differ in what comes from the LAN and in
    the global port. *)
Definition lines_differ (l : list pat_line) : Prop :=
  NoDup (map (fun x => (from_ip x, from_port x)) l) /\ NoDup (map as_port l).

(** What leaves the WAN port for a packet of a line. *)
Definition masked (g : ip4) (x : pat_line) (p : pkt) : pkt := set_sport (be16 (as_port x)) (set_src (ip4_bytes g) p).
Definition comes_from (x : pat_line) (p : pkt) : Prop :=
  pk_src p = ip4_bytes (from_ip x) /\ pk_sport p = be16 (from_port x).

Lemma pat_local_out j g l x p :
  pat_file j g l -> lines_differ l -> x ∈ l -> pk_ip4 p = true -> pk_l4 p = L4_TCP \/ pk_l4 p = L4_UDP -> comes_from x p ->
  pat_local 0 (map (pat_nat g) l) p = Some (Sent 1 (masked g x p)).
Proof.
  intros (_ & _ & _ & Hok) [H1 H2] Hx Hp Ht [Hs Hsp]. rewrite Forall_forall in Hok. unfold pat_local, is_l4. rewrite Hp.
  assert (bool_decide (pk_l4 p = L4_TCP) || bool_decide (pk_l4 p = L4_UDP) = true) as ->.
  { destruct Ht as [-> | ->]; done. }
  cbn [andb]. pose proof (NoDup_fmap_1 _ _ H2) as Hnd. destruct (Hok x Hx) as (_ & Hfx & Hax).
  rewrite (translate_only (pat_nat g) _ _ _ l x); [|done..| |]; cbn.
  - unfold masked. by rewrite be16_cpu.
  - by rewrite Hs, Hsp, be16_cpu, !bool_decide_true.
  - intros y Hy (E1%bool_decide_eq_true & E2%bool_decide_eq_true)%andb_true_iff. destruct (Hok y Hy) as (_ & Hfy & _).
    rewrite Hs in E1. apply ip4_bytes_inj in E1. rewrite Hsp, be16_cpu in E2 by done. apply be16_inj in E2; [|done..].
    apply (key_unique (fun x => (from_ip x, from_port x)) l); [done..|]. congruence.
Qed.

(** C13: in PAT mode, a TCP packet from the local address and port of a line
    leaves the WAN port with the global address and the port of the line, and
    the answer to it reaches that local address and port. *)
Theorem nat_pat_tcp_roundtrip args c text g l name :
  config args = Some c -> mode c = PAT -> has_text P text -> pat_file (json_tokener_parse text) g l ->
  ports_named c name -> lines_differ l ->
  runs (start polls args) [] (fun s h =>
    (exists rules ports, s = Waiting (Some rules) ports) /\
    forall p x, pk_ip4 p = true -> pk_l4 p = L4_TCP -> x ∈ l -> comes_from x p ->
      forward h 0 p = Sent 1 (masked g x p) /\ forward h 1 (answer (masked g x p)) = Sent 0 (answer p)).
Proof.
  intros Hc Hm Ht Hl Hn Hd. eapply runs_mono; [by apply (pat_treats args c text g l name)|].
  intros s h ([rs ->] & F0 & F1). split; [by do 2 eexists|]. intros p x Hp Htcp Hx Hfrom. split.
  { apply F0. eapply pat_local_out; eauto. }
  apply F1. unfold pat_global, is_l4. cbn [answer masked set_sport set_src pk_ip4 pk_l4]. rewrite Hp, Htcp. cbn [negb].
  rewrite bool_decide_true by done. pose proof (NoDup_fmap_1 _ _ (proj2 Hd)) as Hnd.
  destruct Hl as (_ & _ & _ & Hok). rewrite Forall_forall in Hok. destruct (Hok x Hx) as (_ & Hfx & Hax).
  rewrite (translate_only (pat_nat g) _ _ _ l x); [|done..| |]; cbn.
  - destruct Hfrom as [E1 E2]. rewrite be16_cpu by done. destruct p; cbn in *. by subst.
  - by rewrite be16_cpu, !bool_decide_true.
  - intros y Hy (_ & E%bool_decide_eq_true)%andb_true_iff. destruct (Hok y Hy) as (_ & _ & Hay).
    rewrite be16_cpu in E by done. apply be16_inj in E; [|done..]. by apply (key_unique as_port l); [apply Hd|..].
Qed.

(** C14: in PAT mode the UDP packets of a line leave with the global address and
    port as well, but the WAN port looks for their answers by the local port:
    unless the global port happens to be the local port of a line, the answer
    is dropped. *)
Theorem nat_pat_udp_answers_dropped args c text g l name :
  config args = Some c -> mode c = PAT -> has_text P text -> pat_file (json_tokener_parse text) g l ->
  ports_named c name -> lines_differ l ->
  runs (start polls args) [] (fun s h =>
    (exists rules ports, s = Waiting (Some rules) ports) /\
    forall p x, pk_ip4 p = true -> pk_l4 p = L4_UDP -> x ∈ l -> comes_from x p ->
      forward h 0 p = Sent 1 (masked g x p) /\
      ((forall y, y ∈ l -> from_port y <> as_port x) -> forward h 1 (answer (masked g x p)) = Dropped)).
Proof.
  intros Hc Hm Ht Hl Hn Hd. eapply runs_mono; [by apply (pat_treats args c text g l name)|].
  intros s h ([rs ->] & F0 & F1). split; [by do 2 eexists|]. intros p x Hp Hudp Hx Hfrom. split.
  { apply F0. eapply pat_local_out; eauto. }
  intros Hno. apply F1. unfold pat_global, is_l4. cbn [answer masked set_sport set_src pk_ip4 pk_l4]. rewrite Hp, Hudp.
  cbn [negb]. rewrite bool_decide_false, bool_decide_true by done.
  destruct Hl as (_ & _ & _ & Hok). rewrite Forall_forall in Hok. destruct (Hok x Hx) as (_ & _ & Hax).
  apply translate_none. intros y Hy. destruct (Hok y Hy) as (_ & Hfy & _). cbn.
  rewrite bool_decide_true, be16_cpu by done. apply bool_decide_false. intros E%be16_inj; [|done..].
  by destruct (Hno y Hy).
Qed.

(** The port of a device is found by a prefix of its name.  When the number
    of the WAN interface starts with that of the LAN interface (sf1 and sf12),
    both ports get the LAN pipe: in static mode every answer, from whatever is
    not itself a local address, is dropped. *)
Theorem nat_interface_prefix args c text l name a b rest :
  config args = Some c -> mode c = STATIC -> has_text P text -> static_file (json_tokener_parse text) l ->
  0 <= lan_intf_id c < 1000 -> 0 <= wan_intf_id c < 1000 -> dec (wan_intf_id c) = dec (lan_intf_id c) ++ rest ->
  named P name -> name 0 = a ++ str "mlx5_core.sf." ++ dec (lan_intf_id c) ->
  name 1 = b ++ str "mlx5_core.sf." ++ dec (wan_intf_id c) ->
  runs (start polls args) [] (fun s h =>
    (exists rules ports, s = Waiting (Some rules) ports) /\
    forall p, pk_ip4 p = true -> (forall x, x ∈ l.*1 -> pk_src p <> ip4_bytes x) -> forward h 1 p = Dropped).
Proof.
  intros Hc Hm Ht Hl Hlan Hwan Hpre Hn Hn0 Hn1.
  assert (Hname : port_intf_name (lan_intf_id c) = str "mlx5_core.sf." ++ dec (lan_intf_id c)) by by apply port_intf_short.
  assert (Hside : forall port, strstr (name port) (port_intf_name (lan_intf_id c)) = true ->
    port_side (mode c) c (name port) port (map static_nat l) = Some (static_local port (map static_nat l))).
  { intros port E. unfold port_side. by rewrite E, Hm. }
  eapply runs_mono; [eapply (start_treats polls Hpolls args c text (map static_nat l) name)|]; try done.
  - rewrite Hm. by apply static_file_rules.
  - apply Hside. rewrite Hn0, Hname, <- (app_nil_r (str "mlx5_core.sf." ++ _)) at 1. apply strstr_app.
  - apply Hside. rewrite Hn1, Hname, Hpre, (app_assoc (str "mlx5_core.sf.")). apply strstr_app.
  - intros s h ([rs ->] & _ & F1). split; [by do 2 eexists|]. intros p Hp Hno. apply F1.
    apply translate_none. intros [x y] Hin. rewrite Hp. cbn. apply bool_decide_false, Hno.
    by apply list_elem_of_fmap; exists (x, y).
Qed.
End Theorems.

(** ** Concrete files and runs *)

Definition static_tree : jtree :=
  JObj [(str "rules", JArr [
    JObj [(str "local ip", JStr (str "10.0.0.1")); (str "global ip", JStr (str "20.0.0.1"))];
    JObj [(str "local ip", JStr (str "10.0.0.2")); (str "global ip", JStr (str "20.0.0.2"))]])].
Definition static_lines : list (ip4 * ip4) := [(Ip 10 0 0 1, Ip 20 0 0 1); (Ip 10 0 0 2, Ip 20 0 0 2)].
Definition pat_tree : jtree :=
  JObj [(str "global ip", JStr (str "20.0.0.9")); (str "rules", JArr [
    JObj [(str "local ip", JStr (str "10.0.0.1")); (str "local port", JInt 5000); (str "global port", JInt 6000)];
    JObj [(str "local ip", JStr (str "10.0.0.2")); (str "local port", JInt 5000); (str "global port", JInt 6001)]])].
Definition pat_lines : list pat_line := [Line (Ip 10 0 0 1) 5000 6000; Line (Ip 10 0 0 2) 5000 6001].
Definition demo_args (m lan wan : cstring) : list arg :=
  [ArgMode m; ArgRules (str "rules.json"); ArgLan lan; ArgWan wan].

Definition demo_platform : Platform := demo_reply demo_text (demo_name (str "p0 mlx5_core.sf.2") (str "p1 mlx5_core.sf.3")).
Definition static_json : JsonC := demo_json demo_text static_tree.
Definition pat_json : JsonC := demo_json demo_text pat_tree.
Lemma static_arrays : @RulesArrays static_json.
Proof. apply demo_arrays. intros rules [= <-]. eexists. split; [reflexivity|]. by vm_compute. Qed.
Lemma pat_arrays : @RulesArrays pat_json.
Proof. apply demo_arrays. intros rules [= <-]. eexists. split; [reflexivity|]. by vm_compute. Qed.

Lemma nat_releases_witness :
  runs (@main demo_platform static_json demo_polls (demo_args (str "static") (str "sf2") (str "sf3"))) []
    released.
Proof.
  apply (@nat_releases demo_platform (demo_prompt _ _) (demo_readable _ _) static_json static_arrays demo_polls demo_polls_enough).
  right. apply succeeds_accepting, demo_succeeds.
Defined.

(** A run that leaves the object of its file behind. *)
Example json_object_left :
  option_map (fun '(x, h) => (x, held h))
    (@main demo_platform static_json demo_polls (demo_args (str "static") (str "sf2") (str "sf3")) [])
  = Some (EXIT_SUCCESS, [RJson]).
Proof. vm_compute. reflexivity. Qed.

Definition static_cfg : nat_cfg := Cfg STATIC 2 3 (str "rules.json") true.
Definition pat_cfg : nat_cfg := Cfg PAT 2 3 (str "rules.json") true.
Lemma static_tree_file : @static_file static_json (Some static_tree) static_lines.
Proof.
  split; [|by repeat constructor].
  eexists. split; [reflexivity|]. split; [reflexivity|].
  intros [|[|i]] x [= <-]; split; eexists; split_and!; reflexivity.
Qed.
Lemma demo_ports m : ports_named (P := demo_platform) (Cfg m 2 3 (str "rules.json") true)
  (demo_name (str "p0 mlx5_core.sf.2") (str "p1 mlx5_core.sf.3")).
Proof. split; [done|]. by vm_compute. Qed.

Lemma pat_tree_file : @pat_file pat_json (Some pat_tree) (Ip 20 0 0 9) pat_lines.
Proof.
  split; [eexists; split_and!; reflexivity|]. split; [by repeat constructor|]. split; [|by repeat constructor].
  eexists. split; [reflexivity|]. split; [reflexivity|].
  intros [|[|i]] x [= <-]; split; [|split| |split]; eexists; split_and!; reflexivity.
Qed.

Lemma nat_static_translates_witness :
  let p := Pkt true L4_UDP (ip4_bytes (Ip 10 0 0 2)) (ip4_bytes (Ip 8 8 8 8)) (be16 9) (be16 53) in
  runs (@start demo_platform static_json demo_polls (demo_args (str "static") (str "sf2") (str "sf3"))) [] (fun _ h =>
    forward (Steering := demo_hardware) h 0 p = Sent 1 (set_src (ip4_bytes (Ip 20 0 0 2)) p)).
Proof.
  intros p. eapply runs_mono; [eapply (@nat_static_translates demo_platform (demo_prompt _ _) (demo_readable _ _) static_json
    static_arrays demo_polls demo_polls_enough demo_hardware (demo_succeeds _ _)
    (demo_args (str "static") (str "sf2") (str "sf3")) static_cfg demo_text static_lines _)|].
  - reflexivity.
  - reflexivity.
  - apply demo_has_text. by repeat constructor.
  - apply static_tree_file.
  - apply demo_ports.
  - apply (bool_decide_unpack _); by vm_compute.
  - apply (bool_decide_unpack _); by vm_compute.
  - intros s h [_ H]. destruct (H p eq_refl) as [H1 _].
    destruct (H1 (Ip 10 0 0 2) (Ip 20 0 0 2)) as (q & Hq & -> & _); [by right; left|reflexivity|exact Hq].
Defined.

Lemma demo_lines_differ : lines_differ pat_lines.
Proof. split; apply (bool_decide_unpack _); by vm_compute. Qed.

Lemma nat_pat_tcp_roundtrip_witness :
  let p := Pkt true L4_TCP (ip4_bytes (Ip 10 0 0 2)) (ip4_bytes (Ip 8 8 8 8)) (be16 5000) (be16 80) in
  let q := Pkt true L4_TCP (ip4_bytes (Ip 20 0 0 9)) (ip4_bytes (Ip 8 8 8 8)) (be16 6001) (be16 80) in
  runs (@start demo_platform pat_json demo_polls (demo_args (str "pat") (str "sf2") (str "sf3"))) [] (fun _ h =>
    forward (Steering := demo_hardware) h 0 p = Sent 1 q /\
    forward (Steering := demo_hardware) h 1 (answer q) = Sent 0 (answer p)).
Proof.
  intros p q. eapply runs_mono; [eapply (@nat_pat_tcp_roundtrip demo_platform (demo_prompt _ _) (demo_readable _ _) pat_json
    pat_arrays demo_polls demo_polls_enough demo_hardware (demo_succeeds _ _)
    (demo_args (str "pat") (str "sf2") (str "sf3")) pat_cfg demo_text (Ip 20 0 0 9) pat_lines _)|].
  - reflexivity.
  - reflexivity.
  - apply demo_has_text. by repeat constructor.
  - apply pat_tree_file.
  - apply demo_ports.
  - apply demo_lines_differ.
  - intros s h [_ H]. apply (H p (Line (Ip 10 0 0 2) 5000 6001)); try reflexivity; [by right; left|done].
Defined.

Lemma nat_pat_udp_answers_dropped_witness :
  let p := Pkt true L4_UDP (ip4_bytes (Ip 10 0 0 2)) (ip4_bytes (Ip 8 8 8 8)) (be16 5000) (be16 53) in
  let q := Pkt true L4_UDP (ip4_bytes (Ip 20 0 0 9)) (ip4_bytes (Ip 8 8 8 8)) (be16 6001) (be16 53) in
  runs (@start demo_platform pat_json demo_polls (demo_args (str "pat") (str "sf2") (str "sf3"))) [] (fun _ h =>
    forward (Steering := demo_hardware) h 0 p = Sent 1 q /\
    forward (Steering := demo_hardware) h 1 (answer q) = Dropped).
Proof.
  intros p q. eapply runs_mono; [eapply (@nat_pat_udp_answers_dropped demo_platform (demo_prompt _ _) (demo_readable _ _) pat_json
    pat_arrays demo_polls demo_polls_enough demo_hardware (demo_succeeds _ _)
    (demo_args (str "pat") (str "sf2") (str "sf3")) pat_cfg demo_text (Ip 20 0 0 9) pat_lines _)|].
  - reflexivity.
  - reflexivity.
  - apply demo_has_text. by repeat constructor.
  - apply pat_tree_file.
  - apply demo_ports.
  - apply demo_lines_differ.
  - intros s h [_ H]. destruct (H p (Line (Ip 10 0 0 2) 5000 6001)) as [H1 H2]; try reflexivity; [by right; left|done|].
    split; [exact H1|]. apply H2. intros y [->|[->|[]%elem_of_nil]%elem_of_cons]%elem_of_cons; done.
Defined.

(** Interfaces 1 and 12. *)
Definition prefix_platform : Platform := demo_reply demo_text (demo_name (str "mlx5_core.sf.1") (str "mlx5_core.sf.12")).

Lemma nat_interface_prefix_witness :
  let p := Pkt true L4_UDP (ip4_bytes (Ip 8 8 8 8)) (ip4_bytes (Ip 20 0 0 2)) (be16 53) (be16 9) in
  runs (@start prefix_platform static_json demo_polls (demo_args (str "static") (str "sf1") (str "sf12"))) [] (fun _ h =>
    forward (Steering := demo_hardware) h 1 p = Dropped).
Proof.
  intros p. eapply runs_mono; [eapply (@nat_interface_prefix prefix_platform (demo_prompt _ _) (demo_readable _ _) static_json
    static_arrays demo_polls demo_polls_enough demo_hardware (demo_succeeds _ _)
    (demo_args (str "static") (str "sf1") (str "sf12")) (Cfg STATIC 1 12 (str "rules.json") true) demo_text static_lines
    (demo_name (str "mlx5_core.sf.1") (str "mlx5_core.sf.12")) [] [] (str "2"))|]; try reflexivity; try (cbn; lia).
  - apply demo_has_text. by repeat constructor.
  - apply static_tree_file.
  - done.
  - intros s h [_ H]. apply (H p eq_refl). cbn. intros x [->|[->|[]%elem_of_nil]%elem_of_cons]%elem_of_cons; done.
Defined.
