(* ===== verification/Firewall.v ===== *)
(** * Firewall (src/applications/firewall)

    firewall_core.c and main of firewall.c: the arguments, the rules of a JSON
    file, the two pipes of each port, the entries that drop packets - those of
    the file in static mode, those that the command line asks for in interactive
    mode -, the destruction.  The state is the history of the calls (FlowPipes)
    to the gRPC client of the flow library; the command line is FlowParser. *)

From S2P Require Import Prelude CString FlowTypes FlowFields FlowPipes Json.
From S2P Require FlowParser.
#[local] Open Scope Z_scope.

Definition NB_ACTIONS_ARR : Z := 1.
Definition DEFAULT_TIMEOUT_US : Z := 10000.
Definition NB_PORTS : nat := 2.
Definition MAX_FILE_NAME : nat := 255.
Definition EXIT_SUCCESS : Z := 0.
Definition EXIT_FAILURE : Z := 1.

Inductive firewall_running_mode := FIREWALL_MODE_INVALID | FIREWALL_MODE_STATIC | FIREWALL_MODE_INTERACTIVE.

Record firewall_cfg := Cfg { mode : firewall_running_mode; json_path : cstring; has_json : bool }.

Record rule_match := Rule {
  protocol : doca_flow_l4_type_ext; src_ip : bytes; dst_ip : bytes; src_port : Z; dst_port : Z
}.

(** struct port_pipe_ids of each port: the array fw_ports_pipes_ids. *)
Definition port_pipe_ids := list nat.

(** ** Arguments *)

Inductive arg := ArgMode (s : cstring) | ArgRules (s : cstring).

Section Arguments.
Context `{P : Platform}.

Definition firewall_mode_callback (m : cstring) (c : firewall_cfg) : doca_error * firewall_cfg :=
  if strcmp m (str "static") then (DOCA_SUCCESS, Cfg FIREWALL_MODE_STATIC (json_path c) (has_json c))
  else if strcmp m (str "interactive") then (DOCA_SUCCESS, Cfg FIREWALL_MODE_INTERACTIVE (json_path c) (has_json c))
  else (DOCA_ERROR_INVALID_VALUE, c).

Definition firewall_rules_callback (path : cstring) (c : firewall_cfg) : ST (list event) (doca_error * firewall_cfg) :=
  if (strnlen path MAX_FILE_NAME =? MAX_FILE_NAME)%nat then mret (DOCA_ERROR_INVALID_VALUE, c)
  else
    result ← call_err (Access path);
    if negb (ok result) then mret (DOCA_ERROR_NOT_FOUND, c)
    else mret (DOCA_SUCCESS, Cfg (mode c) (strlcpy path MAX_FILE_NAME) true).

Definition firewall_args_validation_callback (c : firewall_cfg) : doca_error :=
  match mode c, has_json c with
  | FIREWALL_MODE_STATIC, false => DOCA_ERROR_INVALID_VALUE
  | _, _ => DOCA_SUCCESS
  end.

Definition register_param : ST (list event) doca_error :=
  result ← call_err ArgpParamCreate;
  if negb (ok result) then mret result else call_err ArgpRegisterParam.

Definition register_firewall_params : ST (list event) doca_error :=
  result ← register_param;
  if negb (ok result) then mret result else
  result ← register_param;
  if negb (ok result) then mret result else
  result ← call_err ArgpRegisterVersion;
  if negb (ok result) then mret result else
  result ← call_err ArgpRegisterValidation;
  if negb (ok result) then mret result else
  mret DOCA_SUCCESS.

Definition argp_callback (a : arg) (c : firewall_cfg) : ST (list event) (doca_error * firewall_cfg) :=
  match a with
  | ArgMode s => mret (firewall_mode_callback s c)
  | ArgRules s => firewall_rules_callback s c
  end.
Fixpoint argp_callbacks (args : list arg) (c : firewall_cfg) : ST (list event) (doca_error * firewall_cfg) :=
  match args with
  | [] => mret (DOCA_SUCCESS, c)
  | a :: args' =>
      '(result, c) ← argp_callback a c;
      if negb (ok result) then mret (result, c) else argp_callbacks args' c
  end.

(** doca_argp_start: the callbacks of the arguments until one fails, the
    validation. *)
Definition argp_start (args : list arg) (c : firewall_cfg) : ST (list event) (doca_error * firewall_cfg) :=
  '(result, c) ← argp_callbacks args c;
  if negb (ok result) then mret (result, c) else
  let result := firewall_args_validation_callback c in
  if negb (ok result) then mret (result, c) else
  result ← call_err (ArgpStart false);
  mret (result, c).
End Arguments.

(** ** Rules *)

Section Rules.
Context `{P : Platform} `{J : JsonC}.

Definition create_protocol (cur_rule : option json) (r : rule_match) : doca_error * rule_match :=
  match json_object_object_get_ex cur_rule (str "protocol") with
  | None => (DOCA_ERROR_INVALID_VALUE, r)
  | Some protocol_obj =>
      if decide (json_object_get_type protocol_obj = json_type_string) then
        let '(result, x) := parse_protocol_string (json_object_get_string protocol_obj) (protocol r) in
        (result, Rule x (src_ip r) (dst_ip r) (src_port r) (dst_port r))
      else (DOCA_ERROR_INVALID_VALUE, r)
  end.

Definition create_src_ip (cur_rule : option json) (r : rule_match) : doca_error * rule_match :=
  match json_object_object_get_ex cur_rule (str "src-ip") with
  | None => (DOCA_ERROR_INVALID_VALUE, r)
  | Some src_ip_obj =>
      if decide (json_object_get_type src_ip_obj = json_type_string) then
        let '(result, x) := parse_ipv4_str (json_object_get_string src_ip_obj) (src_ip r) in
        (result, Rule (protocol r) x (dst_ip r) (src_port r) (dst_port r))
      else (DOCA_ERROR_INVALID_VALUE, r)
  end.

Definition create_dst_ip (cur_rule : option json) (r : rule_match) : doca_error * rule_match :=
  match json_object_object_get_ex cur_rule (str "dst-ip") with
  | None => (DOCA_ERROR_INVALID_VALUE, r)
  | Some dst_ip_obj =>
      if decide (json_object_get_type dst_ip_obj = json_type_string) then
        let '(result, x) := parse_ipv4_str (json_object_get_string dst_ip_obj) (dst_ip r) in
        (result, Rule (protocol r) (src_ip r) x (src_port r) (dst_port r))
      else (DOCA_ERROR_INVALID_VALUE, r)
  end.

Definition create_src_port (cur_rule : option json) (r : rule_match) : doca_error * rule_match :=
  match json_object_object_get_ex cur_rule (str "src-port") with
  | None => (DOCA_ERROR_INVALID_VALUE, r)
  | Some src_port_obj =>
      if decide (json_object_get_type src_port_obj = json_type_int)
      then (DOCA_SUCCESS, Rule (protocol r) (src_ip r) (dst_ip r) (json_object_get_int src_port_obj) (dst_port r))
      else (DOCA_ERROR_INVALID_VALUE, r)
  end.

Definition create_dst_port (cur_rule : option json) (r : rule_match) : doca_error * rule_match :=
  match json_object_object_get_ex cur_rule (str "dst-port") with
  | None => (DOCA_ERROR_INVALID_VALUE, r)
  | Some dst_port_obj =>
      if decide (json_object_get_type dst_port_obj = json_type_int)
      then (DOCA_SUCCESS, Rule (protocol r) (src_ip r) (dst_ip r) (src_port r) (json_object_get_int dst_port_obj))
      else (DOCA_ERROR_INVALID_VALUE, r)
  end.

(** What calloc gives. *)
Definition rule0 : rule_match := Rule L4_NONE (zeros 4) (zeros 4) 0 0.

Definition drop_rule (cur_rule : option json) : doca_error * rule_match :=
  let '(result, r) := create_protocol cur_rule rule0 in
  if negb (ok result) then (result, r) else
  let '(result, r) := create_src_ip cur_rule r in
  if negb (ok result) then (result, r) else
  let '(result, r) := create_dst_ip cur_rule r in
  if negb (ok result) then (result, r) else
  let '(result, r) := create_src_port cur_rule r in
  if negb (ok result) then (result, r) else
  create_dst_port cur_rule r.

(** [for (i = 0; i < *n_rules; i++)] from [i] on, [n] rules to go: the rules, or
    the error of the first bad one. *)
Fixpoint parse_rules (rules : option json) (n : nat) (i : Z) : doca_error * list rule_match :=
  match n with
  | O => (DOCA_SUCCESS, [])
  | S n' =>
      let '(result, r) := drop_rule (json_object_array_get_idx rules i) in
      if negb (ok result) then (result, []) else
      let '(result, rs) := parse_rules rules n' (i + 1) in (result, r :: rs)
  end.

(** json_object_array_length asserts that there is an array. *)
Definition create_drop_rules (rules : option json) : ST (list event) (doca_error * Z * option (list rule_match)) := fun h =>
  match json_object_array_length rules with
  | None => None
  | Some len =>
      let n_rules := s32 len in
      (result ← call_err (CallocRules n_rules);
       if negb (ok result) then mret (DOCA_ERROR_NO_MEMORY, n_rules, None) else
       let '(result, rules_arr) := parse_rules rules (Z.to_nat n_rules) 0 in
       if negb (ok result) then _ ← call_unit FreeRules; mret (result, n_rules, None)
       else mret (DOCA_SUCCESS, n_rules, Some rules_arr)) h
  end.

Definition init_drop_rules (file_path : cstring) : ST (list event) (doca_error * Z * option (list rule_match)) :=
  result ← call_err (Fopen file_path);
  if negb (ok result) then mret (DOCA_ERROR_IO_FAILED, 0, None) else
  '(result, file_length, json_data) ← allocate_json_buffer_dynamic;
  if negb (ok result) then _ ← call_unit Fclose; mret (result, 0, None) else
  '(n, json_data) ← fread_json file_length json_data;
  if negb (n =? file_length) then
    _ ← call_unit Fclose;
    _ ← (match json_data with Some _ => call_unit FreeBuffer | None => mret tt end);
    mret (DOCA_ERROR_IO_FAILED, 0, None)
  else
    _ ← call_unit Fclose;
    parsed_json ← parse_buffer json_data;
    match json_object_object_get_ex parsed_json (str "rules") with
    | None => _ ← call_unit FreeBuffer; mret (DOCA_ERROR_INVALID_VALUE, 0, None)
    | Some rules => _ ← call_unit FreeBuffer; create_drop_rules rules
    end.
End Rules.

(** ** Pipes *)

Section Pipes.
Context `{P : Platform}.

(** What the three functions that add entries do after an addition whose
    result and entry number are in [r]. *)
Definition entry_installed (port_id queue : Z) (entry_id : Z) : ST (list event) doca_error :=
  result ← call_err (EntriesProcess port_id queue DEFAULT_TIMEOUT_US 1);
  if negb (ok result) then mret result else
  r ← invoke (EntryGetStatus entry_id);
  if negb (ok (r_err r)) || negb (r_num r =? 0) then mret DOCA_ERROR_BAD_STATE else
  mret DOCA_SUCCESS.

Definition fw_pipe_cfg (name : cstring) (root : bool) (port_id : Z) (m : pipe_match) : pipe_cfg :=
  PipeConf name PIPE_BASIC root port_id NB_ACTIONS_ARR (Some m) (Some actions0).

Definition build_hairpin_pipe (port_id : Z) : ST (list event) (doca_error * nat) :=
  let m := pipe_match0 in
  let fwd := ToPort (Z.lxor port_id 1) in
  '(result, pipe_id) ← pipe_create (fw_pipe_cfg (str "HAIRPIN_PIPE") false port_id m) (Some fwd) None;
  if negb (ok result) then mret (result, pipe_id) else
  r ← invoke (PipeAddEntry 0 pipe_id m (Some actions0) (Some fwd) DOCA_FLOW_NO_WAIT false);
  if negb (ok (r_err r)) then mret (r_err r, pipe_id) else
  result ← entry_installed port_id 0 (r_num r);
  mret (result, pipe_id).

Definition drop_match : pipe_match :=
  PipeMatch L3_META_IPV4 L4_META_NONE
    (set_outer (set_l4 2 (all_ones 2) (set_l4 0 (all_ones 2) (set_l4_type L4_TRANSPORT
      (set_l3 0 (all_ones 4) (set_l3 4 (all_ones 4) (set_l3_type L3_IP4 header0)))))) match0).

Definition build_drop_pipe (port_id : Z) (next_pipe_id : nat) : ST (list event) (doca_error * nat) :=
  pipe_create (fw_pipe_cfg (str "DROP_PIPE") true port_id drop_match) (Some ToDrop) (Some (ToPipe next_pipe_id)).

(** The match of a rule, over that of the rule before: the destination port of
    the rule is the source port of the match, and the other way round. *)
Definition entry_match (r : rule_match) (m : doca_flow_match) : doca_flow_match :=
  set_outer (set_l4 2 (cpu_to_be_16 (src_port r)) (set_l4 0 (cpu_to_be_16 (dst_port r))
    (set_l3 0 (src_ip r) (set_l3 4 (dst_ip r) (set_l4_type (protocol r) (outer m)))))) m.

(** [for (i = 0; i < n_rules; i++)] over the rules from [i] on. *)
Fixpoint add_entries (port_id : Z) (transport_pipe_id : nat) (drop_rules : list rule_match) (m : doca_flow_match)
    : ST (list event) doca_error :=
  match drop_rules with
  | [] => mret DOCA_SUCCESS
  | rule :: drop_rules' =>
      let m := entry_match rule m in
      r ← invoke (PipeAddEntry 0 transport_pipe_id (PipeMatch L3_META_NONE L4_META_NONE m) (Some actions0) (Some ToDrop)
                    DOCA_FLOW_NO_WAIT false);
      if negb (ok (r_err r)) then mret (r_err r) else
      result ← entry_installed port_id 0 (r_num r);
      if negb (ok result) then mret result else
      add_entries port_id transport_pipe_id drop_rules' m
  end.
Definition add_drop_entries (port_id : Z) (transport_pipe_id : nat) (drop_rules : list rule_match) (n_rules : Z)
    : ST (list event) doca_error :=
  if decide (n_rules <= Z.of_nat (length drop_rules))
  then add_entries port_id transport_pipe_id (take (Z.to_nat n_rules) drop_rules) match0 else undef.

(** The loop over the ports from [port_id] on, [n] to go. *)
Fixpoint add_port_rules (n : nat) (port_id : Z) (ids : port_pipe_ids) (drop_rules : list rule_match) (n_rules : Z)
    : ST (list event) doca_error :=
  match n with
  | O => _ ← call_unit FreeRules; mret DOCA_SUCCESS
  | S n' =>
      match rd ids port_id with
      | None => undef
      | Some transport_pipe_id =>
          result ← add_drop_entries port_id transport_pipe_id drop_rules n_rules;
          if negb (ok result) then _ ← call_unit FreeRules; mret result
          else add_port_rules n' (port_id + 1) ids drop_rules n_rules
      end
  end.
Definition firewall_add_drop_rules (ids : port_pipe_ids) (drop_rules : list rule_match) (n_rules : Z)
    : ST (list event) doca_error := add_port_rules NB_PORTS 0 ids drop_rules n_rules.

(** The loop of firewall_pipes_init from [port_id] on, [n] ports to go. *)
Fixpoint pipes_init (n : nat) (port_id : Z) (ids : port_pipe_ids) : ST (list event) (doca_error * port_pipe_ids) :=
  match n with
  | O => mret (DOCA_SUCCESS, ids)
  | S n' =>
      '(result, hairpin_pipe_id) ← build_hairpin_pipe port_id;
      if negb (ok result) then mret (result, ids) else
      '(result, transport_pipe_id) ← build_drop_pipe port_id hairpin_pipe_id;
      if negb (ok result) then mret (result, ids) else
      match wr ids port_id transport_pipe_id with
      | None => undef
      | Some ids => pipes_init n' (port_id + 1) ids
      end
  end.
Definition firewall_pipes_init : ST (list event) (doca_error * port_pipe_ids) :=
  pipes_init NB_PORTS 0 (replicate NB_PORTS 0%nat).

(** ** The callbacks of the command line *)

(** fw_ports_pipes_ids[port_id] is not checked.  When the addition fails, the
    number of the entry is not written, but its status is asked for. *)
Definition pipe_add_entry (ids : port_pipe_ids) (port_id : Z) (m : doca_flow_match) : ST (list event) unit :=
  match rd ids port_id with
  | None => undef
  | Some transport_pipe_id =>
      r ← invoke (PipeAddEntry 0 transport_pipe_id (PipeMatch L3_META_NONE L4_META_NONE m) None None DOCA_FLOW_NO_WAIT
                    false);
      result ← call_err (EntriesProcess 0 port_id DEFAULT_TIMEOUT_US 1);
      if negb (ok result) then mret tt else
      if negb (ok (r_err r)) then undef else
      call_unit (EntryGetStatus (r_num r))
  end.

Definition pipe_rm_entry (entry_id : Z) : ST (list event) unit :=
  call_unit (PipeRmEntry 0 entry_id DOCA_FLOW_NO_WAIT).
Definition port_pipes_flush (port_id : Z) : ST (list event) unit := call_unit (PortPipesFlush port_id).
Definition port_pipes_dump (port_id : Z) : ST (list event) unit := call_unit (PortPipesDump port_id).

(** register_actions_on_flow_parser: which callbacks are set, and what they are. *)
Definition registered : FlowParser.callbacks := FlowParser.Callbacks false false true false false false true true false true.
Definition run_callback (ids : port_pipe_ids) (c : FlowParser.call) : ST (list event) unit :=
  match c with
  | FlowParser.FwAddEntry port_id m => pipe_add_entry ids port_id m
  | FlowParser.FwRmEntry entry_id => pipe_rm_entry entry_id
  | FlowParser.FlushPipes port_id => port_pipes_flush port_id
  | FlowParser.DumpPipes port_id _ => port_pipes_dump port_id
  | _ => undef
  end.
Fixpoint run_callbacks (ids : port_pipe_ids) (cs : list FlowParser.call) : ST (list event) unit :=
  match cs with
  | [] => mret tt
  | c :: cs' => _ ← run_callback ids c; run_callbacks ids cs'
  end.

(** ** Ports *)

Fixpoint stop_ports (n : nat) (portid : Z) : ST (list event) unit :=
  match n with O => mret tt | S n' => _ ← call_unit (PortStop portid); stop_ports n' (portid + 1) end.
Definition firewall_ports_stop (nb_ports : Z) : ST (list event) unit := stop_ports (Z.to_nat nb_ports) 0.

(** The loop of firewall_ports_init from [port_id] on, [n] ports to go. *)
Fixpoint init_ports (n : nat) (port_id : Z) : ST (list event) doca_error :=
  match n with
  | O => mret DOCA_SUCCESS
  | S n' =>
      result ← call_err (PortStart port_id);
      if negb (ok result) then
        _ ← firewall_ports_stop port_id;
        _ ← call_unit FlowDestroy;
        mret result
      else if (port_id =? 0) || (port_id mod 2 =? 0) then init_ports n' (port_id + 1)
      else
        result ← call_err (PortPair port_id (Z.lxor port_id 1));
        if negb (ok result) then
          _ ← firewall_ports_stop (port_id + 1);
          _ ← call_unit FlowDestroy;
          mret result
        else init_ports n' (port_id + 1)
  end.

Definition firewall_ports_init : ST (list event) doca_error :=
  _ ← call_unit GrpcClientCreate;
  result ← call_err (FlowInit 1);
  if negb (ok result) then mret result else init_ports NB_PORTS 0.
End Pipes.

(** ** main *)

(** Where main stands when it stops going forward: at the end, to which it
    returns or jumps with what it has acquired, or at the end of what its mode
    does, with the packets still being treated. *)
Inductive stage := ExitNow | ArgpCleanup | PortsDestroy | Waiting.

Section Main.
Context `{P : Platform} `{J : JsonC}.
(** Of the command line: whether it can be opened and memory and files are had,
    what is typed, and the structures of the parser. *)
Context (strndup_ok : bool) (malloc : Z -> bool) (fopen : cstring -> bool).
Context (cl : bool) (input : list FlowParser.command) (p : FlowParser.parser).

Definition interactive (ids : port_pipe_ids) : ST (list event) doca_error :=
  match FlowParser.flow_parser_init strndup_ok malloc fopen registered cl true input p with
  | FlowParser.Ret (result, _, cs) => _ ← run_callbacks ids cs; mret result
  | _ => undef
  end.

(** main up to the wait for traffic or the end of the command line *)
Definition start (args : list arg) : ST (list event) stage :=
  result ← call_err (LogBackend 0);
  if negb (ok result) then mret ExitNow else
  result ← call_err (LogBackend 1);
  if negb (ok result) then mret ExitNow else
  result ← call_err (LogBackend 2);
  if negb (ok result) then mret ExitNow else
  result ← call_err ArgpInit;
  if negb (ok result) then mret ExitNow else
  result ← register_firewall_params;
  if negb (ok result) then mret ArgpCleanup else
  '(result, firewall_cfg) ← argp_start args (Cfg FIREWALL_MODE_INVALID [] false);
  if negb (ok result) then mret ArgpCleanup else
  result ← call_err ArgpGetGrpcAddr;
  if negb (ok result) then mret ArgpCleanup else
  result ← firewall_ports_init;
  if negb (ok result) then mret ArgpCleanup else
  '(result, ids) ← firewall_pipes_init;
  if negb (ok result) then mret PortsDestroy else
  match mode firewall_cfg with
  | FIREWALL_MODE_STATIC =>
      '(result, n_rules, drop_rules) ← init_drop_rules (json_path firewall_cfg);
      if negb (ok result) then mret PortsDestroy else
      match drop_rules with
      | None => undef
      | Some drop_rules =>
          result ← firewall_add_drop_rules ids drop_rules n_rules;
          if negb (ok result) then mret PortsDestroy else mret Waiting
      end
  | FIREWALL_MODE_INTERACTIVE =>
      result ← interactive ids;
      if negb (ok result) then mret PortsDestroy else mret Waiting
  | FIREWALL_MODE_INVALID => mret Waiting
  end.

(** The labels at the end of main. *)
Definition argp_destroy (exit_status : Z) : ST (list event) Z := _ ← call_unit ArgpDestroy; mret exit_status.
Definition ports_destroy (exit_status : Z) : ST (list event) Z :=
  _ ← firewall_ports_stop 2;
  _ ← call_unit FlowDestroy;
  argp_destroy exit_status.

Definition finish (s : stage) : ST (list event) Z :=
  match s with
  | ExitNow => mret EXIT_FAILURE
  | ArgpCleanup => argp_destroy EXIT_FAILURE
  | PortsDestroy => ports_destroy EXIT_FAILURE
  | Waiting => ports_destroy EXIT_SUCCESS
  end.

Definition main (args : list arg) : ST (list event) Z := s ← start args; finish s.
End Main.
