(* ===== verification/FirewallSpec.v ===== *)
(** * What the functions of the firewall do

    The resources that each function leaves on every platform, and, on a platform
    that installs the entries it accepts, the pipes and entries they make and
    what these do to packets. *)

From S2P Require Import Prelude CString FlowTypes FlowFields FlowPipes Json NatRun Firewall.
From S2P Require FlowParser NatSpec.
Import NatSpec(succeeds, accepting, PromptFlow, process_bounded).
#[local] Open Scope Z_scope.

(** ** Resources *)

(** What main holds when the ports are started. *)
Definition opened : list res := [RPort 1; RPort 0; RFlow; RArgp].

Section Held.
Context `{P : Platform}.

Lemma held_invoke c h l (Q : reply -> list event -> Prop) :
  held h = l -> releasable c l = true ->
  (forall h', held h' = after_held c (ok (r_err (reply_to h c))) l -> Q (reply_to h c) h') -> runs (invoke c) h Q.
Proof.
  intros Hl Hr HQ. apply runs_invoke; [unfold usable; by rewrite Hl|]. apply HQ.
  rewrite held_snoc. unfold hold, after_held. by rewrite Hl.
Qed.

Lemma held_err c h l (Q : doca_error -> list event -> Prop) :
  held h = l -> releasable c l = true -> (forall e h', held h' = after_held c (ok e) l -> Q e h') ->
  runs (call_err c) h Q.
Proof. intros Hl Hr HQ. apply runs_bind. eapply held_invoke; [done|done|]. intros. apply runs_ret. by apply HQ. Qed.

Lemma held_unit c h l (Q : unit -> list event -> Prop) :
  held h = l -> releasable c l = true -> acquires c = None -> (forall h', held h' = after_held c true l -> Q tt h') ->
  runs (call_unit c) h Q.
Proof.
  intros Hl Hr Ha HQ. apply runs_bind. eapply held_invoke; [done|done|]. intros h' Hh. apply runs_ret. apply HQ.
  unfold after_held in *. by rewrite Ha in *.
Qed.

(** One call, for what is held after it. *)
Ltac held_step :=
  first [ apply runs_bind; eapply held_err | apply runs_bind; eapply held_unit | apply runs_bind; eapply held_invoke ];
    [eassumption|reflexivity|..]; try reflexivity;
  let e := fresh "e" in let h := fresh "h" in let Hh := fresh "Hh" in
  first [ intros e h Hh; destruct (ok e) eqn:?; cbn [negb]; cbn in Hh | intros h Hh; cbn in Hh ].

Ltac held_last := first [eapply held_unit | eapply held_err]; [eassumption|reflexivity|try reflexivity|..].

(** The result is some error or none, and [l] is held. *)
Definition leaves {A} (l : list res) (_ : A) (h : list event) : Prop := held h = l.

Lemma pipe_create_held c fwd miss h l : held h = l -> runs (pipe_create c fwd miss) h (leaves l).
Proof. intros Hl. apply runs_pipe_create. unfold leaves. by rewrite held_snoc. Qed.

Lemma entry_installed_held port queue id h l : held h = l -> runs (entry_installed port queue id) h (leaves l).
Proof.
  intros Hl. unfold entry_installed. held_step; [|by apply runs_ret]. held_step. destruct (_ || _); by apply runs_ret.
Qed.

Lemma build_hairpin_held port h l : held h = l -> runs (build_hairpin_pipe port) h (leaves l).
Proof.
  intros Hl. unfold build_hairpin_pipe. apply runs_bind. eapply runs_mono; [by apply pipe_create_held|].
  intros [e id] h1 H1. unfold leaves in H1. destruct (ok e); cbn [negb]; [|by apply runs_ret]. held_step.
  destruct (ok (r_err _)); cbn [negb]; [|by apply runs_ret].
  apply runs_bind. eapply runs_mono; [by eapply entry_installed_held|]. intros e2 h3 H3. by apply runs_ret.
Qed.

Lemma add_entries_held port pipe rules m h l : held h = l -> runs (add_entries port pipe rules m) h (leaves l).
Proof.
  revert m h. induction rules as [|r rules IH]; intros m h Hl; cbn [add_entries]; [by apply runs_ret|].
  held_step. destruct (ok (r_err _)); cbn [negb]; [|by apply runs_ret].
  apply runs_bind. eapply runs_mono; [by eapply entry_installed_held|]. intros e2 h3 H3.
  destruct (ok e2); cbn [negb]; [by apply IH|by apply runs_ret].
Qed.

Lemma add_port_rules_held n port ids rules h l :
  held h = RRules :: l -> 0 <= port -> port + Z.of_nat n <= zlen ids ->
  runs (add_port_rules n port ids rules (zlen rules)) h (leaves l).
Proof.
  revert port h. induction n as [|n IH]; intros port h Hl Hp Hn; cbn [add_port_rules].
  - held_step. by apply runs_ret.
  - destruct (rd_Some ids port) as [id ->]; [unfold zlen in *; lia|]. unfold add_drop_entries.
    rewrite decide_True by (unfold zlen; lia). apply runs_bind. eapply runs_mono; [by eapply add_entries_held|].
    intros e h1 H1. unfold leaves in H1. destruct (ok e); cbn [negb].
    + apply IH; [done|lia|lia].
    + held_step. by apply runs_ret.
Qed.

Lemma pipes_init_held n port ids h l :
  held h = l -> 0 <= port -> port + Z.of_nat n <= zlen ids ->
  runs (pipes_init n port ids) h (fun '(_, ids') h' => held h' = l /\ length ids' = length ids).
Proof.
  revert port ids h. induction n as [|n IH]; intros port ids h Hl Hp Hn; cbn [pipes_init]; [by apply runs_ret|].
  apply runs_bind. eapply runs_mono; [by apply build_hairpin_held|]. intros [e hp] h1 H1. unfold leaves in H1.
  destruct (ok e); cbn [negb]; [|by apply runs_ret].
  apply runs_bind. eapply runs_mono; [by eapply pipe_create_held|]. intros [e2 tp] h2 H2. unfold leaves in H2.
  destruct (ok e2); cbn [negb]; [|by apply runs_ret].
  unfold wr. rewrite decide_True by (unfold zlen in *; lia).
  eapply runs_mono; [apply IH; [done|lia|unfold zlen; rewrite length_insert; unfold zlen in *; lia]|].
  intros [e3 ids'] h3 [H3 H4]. by rewrite H4, length_insert.
Qed.

(** *** Callbacks of the command line *)

Definition callback_ok (c : FlowParser.call) : Prop :=
  match c with
  | FlowParser.FwAddEntry port _ => 0 <= port < 2
  | FlowParser.FwRmEntry _ | FlowParser.FlushPipes _ | FlowParser.DumpPipes _ _ => True
  | _ => False
  end.

Lemma run_callbacks_held ids cs h l :
  accepting P -> held h = l -> length ids = 2%nat -> Forall callback_ok cs -> runs (run_callbacks ids cs) h (leaves l).
Proof.
  intros Hacc Hl Hids Hcs. revert h Hl. induction Hcs as [|c cs Hc Hcs IH]; intros h Hl; cbn [run_callbacks]; [by apply runs_ret|].
  apply runs_bind, (runs_mono _ _ (leaves l)); [|intros [] h1 H1; by apply IH].
  destruct c; try done; cbn [run_callback callback_ok] in *.
  - unfold pipe_add_entry. destruct (rd_Some ids port) as [id ->]; [rewrite Hids; lia|].
    held_step. held_step; [|by apply runs_ret]. rewrite Hacc. cbn [negb]. by held_last.
  - unfold pipe_rm_entry. by held_last.
  - unfold port_pipes_flush. by held_last.
  - unfold port_pipes_dump. by held_last.
Qed.
End Held.
