(* ===== verification/FirewallRun.v ===== *)
(** * Runs of the firewall

    The arguments, the ports and the file of the rules: what main does before it
    adds entries, on every platform, with the configuration and the rules it reads
    on a platform where calls succeed. *)

From S2P Require Import Prelude CString FlowTypes FlowFields FlowPipes Json NatRun Firewall FirewallSpec.
From S2P Require NatSpec.
Import NatSpec(succeeds).
#[local] Open Scope Z_scope.

Section Start.
Context `{P : Platform}.

Lemma fw_param_ok h l : held h = l -> runs register_param h (keeps l h).
Proof.
  intros Hl. unfold keeps. call_step.
  - eapply run_call_err; [eassumption|done|done|]. intros e1 h2 Hg2 Hh2 Hs2. split_and!; [solve_grows|by rewrite Hh2|done].
  - apply runs_ret. split_and!; [solve_grows|done|no_success].
Qed.

Lemma register_firewall_params_ok h l : held h = l -> runs register_firewall_params h (keeps l h).
Proof.
  intros Hl. unfold register_firewall_params. do 2 keeps_step fw_param_ok.
  call_step; [|apply runs_ret; unfold keeps; split_and!; [solve_grows|done|no_success]].
  call_step; apply runs_ret; unfold keeps; split_and!; try solve_grows; try done; no_success.
Qed.

(** The configuration that the arguments give when the file of the rules exists. *)
Definition apply_arg (a : arg) (c : firewall_cfg) : doca_error * firewall_cfg :=
  match a with
  | ArgMode s => firewall_mode_callback s c
  | ArgRules s =>
      if (strnlen s MAX_FILE_NAME =? MAX_FILE_NAME)%nat then (DOCA_ERROR_INVALID_VALUE, c)
      else (DOCA_SUCCESS, Cfg (mode c) (strlcpy s MAX_FILE_NAME) true)
  end.
Fixpoint apply_args (args : list arg) (c : firewall_cfg) : doca_error * firewall_cfg :=
  match args with
  | [] => (DOCA_SUCCESS, c)
  | a :: args' => let '(e, c) := apply_arg a c in if negb (ok e) then (e, c) else apply_args args' c
  end.

Definition by_args (args : list arg) (c c' : firewall_cfg) : Prop :=
  mode c' = mode c \/ mode c' = FIREWALL_MODE_STATIC \/
  mode c' = FIREWALL_MODE_INTERACTIVE /\ ArgMode (str "interactive") ∈ args.

Lemma fw_callback_ok a c h l :
  held h = l ->
  runs (argp_callback a c) h (fun '(e, c') h' => grows h h' /\ held h' = l /\ (succeeds P -> (e, c') = apply_arg a c) /\
    by_args [a] c c').
Proof.
  intros Hl. unfold by_args. destruct a as [s|s]; cbn [argp_callback apply_arg].
  - apply runs_ret. unfold firewall_mode_callback. destruct (strcmp s (str "static")); [split_and!; auto with doca|].
    destruct (strcmp s (str "interactive")) eqn:E2; split_and!; auto with doca.
    apply strcmp_eq in E2 as ->. right; right. split; [done|by left].
  - unfold firewall_rules_callback. destruct (_ =? _)%nat; [apply runs_ret; split_and!; auto with doca|].
    call_step; apply runs_ret; split_and!; try solve_grows; try done; auto. no_success.
Qed.

Lemma fw_callbacks_ok args c h l :
  held h = l ->
  runs (argp_callbacks args c) h (fun '(e, c') h' => grows h h' /\ held h' = l /\ (succeeds P -> (e, c') = apply_args args c) /\
    by_args args c c').
Proof.
  revert c h. induction args as [|a args IH]; intros c h Hl; cbn [argp_callbacks apply_args].
  - apply runs_ret. split_and!; auto with doca. by left.
  - apply runs_bind. eapply runs_mono; [by apply fw_callback_ok|]. intros [e c1] h1 (Hg & Hh & Hs & Hm).
    assert (Hw : forall c', mode c' = mode c1 -> by_args (a :: args) c c').
    { intros c' E. unfold by_args in *. rewrite E. destruct Hm as [?|[?|[? Hin]]]; auto. right; right.
      split; [done|]. apply elem_of_cons in Hin as [->|Hin]; [by left|by apply elem_of_nil in Hin]. }
    destruct (ok e) eqn:Hok; cbn [negb].
    + eapply runs_mono; [by apply IH|]. intros [e2 c2] h2 (Hg2 & Hh2 & Hs2 & Hm2).
      split_and!; [solve_grows|done| |].
      * intros HP. specialize (Hs HP). destruct (apply_arg a c) as [e' c']. injection Hs as <- <-. rewrite Hok. by apply Hs2.
      * destruct Hm2 as [E|[E|[E Hin]]]; [by apply Hw|by right; left|right; right; split; [done|by right]].
    + apply runs_ret. split_and!; [done|done| |by apply Hw].
      intros HP. specialize (Hs HP). destruct (apply_arg a c) as [e' c']. injection Hs as <- <-. by rewrite Hok.
Qed.

(** [config args]: what main reads from its arguments. *)
Definition cfg0 : firewall_cfg := Cfg FIREWALL_MODE_INVALID [] false.
Definition config (args : list arg) : option firewall_cfg :=
  let '(e, c) := apply_args args cfg0 in
  if ok e && ok (firewall_args_validation_callback c) then Some c else None.

Lemma fw_argp_start_ok args h :
  held h = [RArgp] ->
  runs (argp_start args cfg0) h (fun '(e, c) h' => grows h h' /\ held h' = [RArgp] /\
    (succeeds P -> forall c', config args = Some c' -> ok e = true /\ c = c') /\
    (mode c = FIREWALL_MODE_INTERACTIVE -> ArgMode (str "interactive") ∈ args)).
Proof.
  intros Hl. apply runs_bind. eapply runs_mono; [by apply fw_callbacks_ok|].
  intros [e c] h1 (Hg & Hh & Hs & Hm). unfold config.
  assert (Hi : mode c = FIREWALL_MODE_INTERACTIVE -> ArgMode (str "interactive") ∈ args).
  { intros E. unfold by_args in Hm. rewrite E in Hm. by destruct Hm as [|[|[]]]. }
  destruct (ok e) eqn:Hok; cbn [negb].
  - destruct (ok (firewall_args_validation_callback c)) eqn:Hv; cbn [negb].
    + call_step; apply runs_ret; (split_and!; [solve_grows|done| |done]).
      * intros HP c'. rewrite <- (Hs HP), Hok, Hv. by intros [= ->].
      * no_success.
    + apply runs_ret. split_and!; try done. intros HP c'. rewrite <- (Hs HP), Hok, Hv. done.
  - apply runs_ret. split_and!; try done. intros HP c'. rewrite <- (Hs HP), Hok. done.
Qed.

(** ** Ports *)

Lemma firewall_ports_init_ok h :
  held h = [RArgp] ->
  runs firewall_ports_init h (fun e h' => grows h h' /\ (succeeds P -> ok e = true) /\
    held h' = if ok e then opened else [RArgp]).
Proof.
  intros Hl. unfold firewall_ports_init, firewall_ports_stop. cbn [NB_PORTS init_ports].
  call_step. call_step; [|apply runs_ret; rewrite Heqb; split_and!; [solve_grows|no_success|done]].
  call_step.
  2:{ unfold firewall_ports_stop. cbn. apply runs_bind, runs_ret. call_step. apply runs_ret. rewrite Heqb0.
      split_and!; [solve_grows|no_success|done]. }
  cbn [Z.eqb orb]. call_step.
  2:{ unfold firewall_ports_stop. cbn. apply runs_bind. call_step. apply runs_ret. call_step. apply runs_ret. rewrite Heqb1.
      split_and!; [solve_grows|no_success|done]. }
  cbn. call_step.
  - apply runs_ret. split_and!; [solve_grows|done|]. done.
  - apply runs_bind. unfold firewall_ports_stop. cbn. call_step. call_step. apply runs_ret. call_step. apply runs_ret.
    rewrite Heqb2. split_and!; [solve_grows|no_success|done].
Qed.

Lemma ports_destroy_ok x j h :
  maybe_json j -> held h = j ++ opened -> x = EXIT_SUCCESS \/ x = EXIT_FAILURE ->
  runs (ports_destroy x) h (fun y h' => held h' = j /\ (y = EXIT_SUCCESS \/ y = EXIT_FAILURE)).
Proof.
  intros Hj Hl Hx. unfold ports_destroy, firewall_ports_stop, argp_destroy. apply runs_bind. cbn.
  destruct Hj as [-> | ->]; cbn in Hl; do 2 call_step; apply runs_ret; do 2 call_step; by apply runs_ret.
Qed.
End Start.

(** ** Reading the rules *)

(** Where a file has rules they are an array whose length is an int. *)
Class RulesArray `{J : JsonC} : Prop :=
  rules_array : forall s rules, json_object_object_get_ex (json_tokener_parse s) (str "rules") = Some rules ->
    exists n, json_object_array_length rules = Some n /\ 0 <= n < 2 ^ 31.

Section Rules.
Context `{P : Platform} `{RF : !ReadableFile} `{J : JsonC} `{RA : !RulesArray}.

(** The rules a parsed file describes. *)
Definition rules_of (j : option json) : option (list rule_match) :=
  rules ← json_object_object_get_ex j (str "rules");
  match json_object_array_length rules with
  | None => None
  | Some n => let '(e, rs) := parse_rules rules (Z.to_nat n) 0 in if ok e then Some rs else None
  end.

Lemma parse_rules_length rules n i :
  let '(e, rs) := parse_rules rules n i in ok e = true -> length rs = n.
Proof.
  revert i. induction n as [|n IH]; intros i; cbn [parse_rules]; [done|].
  destruct (drop_rule _) as [e r]. destruct (ok e) eqn:He; cbn [negb]; [|by rewrite He].
  specialize (IH (i + 1)). destruct (parse_rules rules n (i + 1)) as [e2 rs]. intros E. cbn. by rewrite IH.
Qed.

(** The result of reading: rules in memory, or none. *)
Definition rules_read (l : list res) (want : option (list rule_match)) (h : list event)
    (x : doca_error * Z * option (list rule_match)) (h' : list event) : Prop :=
  let '(e, n, rules) := x in
  grows h h' /\ (succeeds P -> forall rs, want = Some rs -> ok e = true /\ rules = Some rs) /\
  if ok e then exists rs, rules = Some rs /\ n = zlen rs /\ held h' = RRules :: l else held h' = l.

Lemma create_drop_rules_ok s rules h l :
  json_object_object_get_ex (json_tokener_parse s) (str "rules") = Some rules -> held h = l ->
  runs (create_drop_rules rules) h (rules_read l (rules_of (json_tokener_parse s)) h).
Proof.
  intros Hj Hl. destruct (rules_array s rules Hj) as (n & Hn & Hr). unfold create_drop_rules, rules_of, runs.
  rewrite Hj. obind. rewrite Hn. assert (s32 n = n) as -> by solve_wrap.
  match goal with |- exists a s', ?m h = _ /\ ?Q a s' => change (runs m h Q) end.
  pose proof (parse_rules_length rules (Z.to_nat n) 0) as Hlen. call_step.
  - destruct (parse_rules rules (Z.to_nat n) 0) as [e' rs]. destruct (ok e') eqn:E; cbn [negb].
    + apply runs_ret. split_and!; [solve_grows|by intros _ rs' [= ->]|]. exists rs.
      split_and!; [done| |done]. unfold zlen. rewrite Hlen by done. lia.
    + call_step. apply runs_ret. split_and!; [solve_grows|done|]. by rewrite E.
  - apply runs_ret. split_and!; [solve_grows| |done]. intros HP. specialize (Hs HP). done.
Qed.

Lemma init_drop_rules_ok path h l :
  held h = l ->
  runs (init_drop_rules path) h (fun '(e, n, rules) h' => grows h h' /\
    (succeeds P -> forall s rs, has_text P s -> rules_of (json_tokener_parse s) = Some rs -> ok e = true /\ rules = Some rs) /\
    exists j, maybe_json j /\
    if ok e then exists rs, rules = Some rs /\ n = zlen rs /\ held h' = RRules :: j ++ l else held h' = j ++ l).
Proof.
  assert (H0 : maybe_json []) by by left.
  intros Hl. unfold init_drop_rules. call_step.
  2:{ apply runs_ret. split_and!; [solve_grows|no_success|by exists []]. }
  apply runs_bind. eapply runs_mono; [by apply allocate_json_ok|]. intros [[e1 len] data] h1 (Hg1 & Hs1 & H1). cbn beta iota.
  destruct (ok e1) eqn:He1; cbn [negb].
  2:{ call_step. apply runs_ret. rewrite He1. split_and!; [solve_grows|no_success|by exists []]. }
  destruct H1 as (Hh1 & g & -> & Hlg & Hlen & Htext). apply runs_bind. eapply runs_mono; [by apply fread_json_ok|].
  intros [x data] h2 (Hg2 & Hh2 & b & -> & Hb). cbn beta iota. destruct (Z.eqb_spec x len) as [->|Hne]; cbn [negb].
  2:{ call_step. call_step. apply runs_ret. split_and!; [solve_grows| |by exists []].
      intros _ s ? Ht ?. destruct Hne. rewrite (proj2 (Hb s Ht (Htext s Ht))). by rewrite <- (Htext s Ht). }
  call_step. apply runs_bind. eapply parse_buffer_ok; [eassumption|]. intros s h4 j Hcs Hg4 Hj Hh4.
  assert (Hsame : forall s', has_text P s' -> s' = s).
  { intros s' Ht. rewrite (proj1 (Hb s' Ht (Htext s' Ht))), c_str_text in Hcs by apply Ht. congruence. }
  destruct (json_object_object_get_ex (json_tokener_parse s) (str "rules")) as [rules|] eqn:Hrl;
    (eapply free_buffer_ok; [exact Hj|exact Hh4|]; intros h7 Hg7 Hh7).
  - eapply runs_mono; [by eapply create_drop_rules_ok|]. intros [[e2 n] rs] h5 (Hg5 & Hs5 & H5).
    split_and!; [solve_grows| |by exists j]. intros HP s' rs' Ht Hrs. rewrite (Hsame s' Ht) in Hrs. by apply Hs5.
  - apply runs_ret. split_and!; [solve_grows| |by exists j]. intros _ s' rs' Ht Hrs. rewrite (Hsame s' Ht) in Hrs.
    unfold rules_of in Hrs. by rewrite Hrl in Hrs.
Qed.
End Rules.
