(* ===== verification/FirewallPipes.v ===== *)
(** * The pipes of the firewall at work

    On a platform where calls succeed and entries that were processed are
    installed: the two pipes of each port, the entries that are added to the drop
    pipe, and what becomes of a packet. *)

From S2P Require Import Prelude CString FlowTypes FlowFields FlowPipes Json NatSpec NatRun.
From S2P Require Import Firewall FirewallSpec FirewallRun.
#[local] Open Scope Z_scope.

(** Everything succeeds, and the status of an entry is success once the queue
    of its port has been processed. *)
Definition installs (P : Platform) : Prop :=
  succeeds P /\
  forall h1 queue pipe m a fwd flags r port timeout max r' c f ms rc,
    h1 !! pipe = Some (PipeCreate c f ms, rc) -> p_port c = port -> ok (r_err r) = true -> ok (r_err r') = true ->
    r_num (reply_to (h1 ++ [(PipeAddEntry queue pipe m a fwd flags false, r); (EntriesProcess port queue timeout max, r')])
             (EntryGetStatus (r_num r))) = 0.

(** ** Histories without entries in flight *)

(** No entry with a context, no report of one, nothing removed. *)
Definition settled_event (e : event) : Prop := added_with_ctx e = 0 /\ counts (done_by e) = 0 /\ removes e = false.
Definition settled (h : list event) : Prop := Forall settled_event h /\ Forall (fun e => status_known h e = true) h.

Lemma status_known_app h es e : status_known h e = true -> status_known (h ++ es) e = true.
Proof.
  destruct e as [[] r]; try done. cbn [status_known]. destruct ctx; [done|].
  destruct (negb _); cbn [orb]; [done|]. by rewrite existsb_app, orb_true_iff; left.
Qed.

Lemma settled_app h es :
  settled h -> Forall settled_event es -> Forall (fun e => status_known (h ++ es) e = true) es -> settled (h ++ es).
Proof.
  intros [H1 H2] He Hs. split; [by apply Forall_app_2|]. apply Forall_app_2; [|done].
  eapply Forall_impl; [exact H2|]. intros e. apply status_known_app.
Qed.

Lemma settled_setup h : setup h -> settled h.
Proof.
  intros Hs. split; (eapply Forall_impl; [exact Hs|]); intros [[] r] H; try done; by destruct ctx.
Qed.

Lemma settled_grows h h' : settled h -> grows h h' -> settled h'.
Proof.
  intros Hh (es & -> & Hes). apply settled_app; [done|by apply settled_setup|].
  eapply Forall_impl; [exact Hes|]. intros [[] r] H; try done; by destruct ctx.
Qed.

Lemma counts_zero_fails cs : counts cs = 0 -> fails_in cs = false.
Proof.
  unfold counts, fails_in. induction cs as [|c cs IH]; [done|]. cbn [List.filter existsb].
  destruct (counted c); cbn [andb orb List.length]; [lia|done].
Qed.

Lemma settled_pending h : Forall settled_event h -> pending h = 0.
Proof.
  induction 1 as [|e h (Ha & Hc & _) Hh IH]; [done|]. change (e :: h) with ([e] ++ h). rewrite pending_app, IH.
  unfold pending, added, completed, total_of. cbn [map foldr]. lia.
Qed.

Lemma settled_offloaded h : settled h -> offloaded h = true.
Proof.
  intros [H1 H2]. unfold offloaded. pose proof (settled_pending h H1) as Hp. unfold pending in Hp.
  apply andb_true_intro. split; [lia|]. apply forallb_forall. intros e He%list_elem_of_In.
  rewrite Forall_forall in H1, H2. destruct (H1 e He) as (_ & Hc & ->). by rewrite (counts_zero_fails _ Hc), (H2 e He).
Qed.

(** ** Adding an entry *)

(** [h'] is [h] with more entries of [pipe], in the hardware. *)
Definition entered (h h' : list event) (pipe : nat) (ens : list entry) : Prop :=
  exists es, h' = h ++ es /\ settled h' /\ held h' = held h /\
    (forall q, entries es q = if decide (q = pipe) then ens else []) /\ (forall port, roots es port = []).

Section Entries.
Context `{P : Platform} `{PF : !PromptFlow} (HP : installs P).

Lemma good h c : ok (r_err (reply_to h c)) = true.
Proof. apply HP. Qed.

Lemma enter_events h pipe m a fwd port c f ms rc :
  settled h -> h !! pipe = Some (PipeCreate c f ms, rc) -> p_port c = port ->
  let add := PipeAddEntry 0 pipe m a fwd DOCA_FLOW_NO_WAIT false in
  let r := reply_to h add in
  let h1 := h ++ [(add, r)] in
  let proc := EntriesProcess port 0 DEFAULT_TIMEOUT_US 1 in
  let h2 := h1 ++ [(proc, reply_to h1 proc)] in
  let get := EntryGetStatus (r_num r) in
  r_num (reply_to h2 get) = 0 /\ entered h (h2 ++ [(get, reply_to h2 get)]) pipe [Entry m a fwd].
Proof.
  intros Hs Hpipe Hport. cbv zeta. set (add := PipeAddEntry _ _ _ _ _ _ _). set (r := reply_to h add).
  set (proc := EntriesProcess _ _ _ _). set (r' := reply_to _ proc). set (get := EntryGetStatus _).
  set (h2 := (h ++ [(add, r)]) ++ [(proc, r')]). set (r'' := reply_to h2 get).
  assert (Hr : ok (r_err r) = true) by apply good. assert (Hr' : ok (r_err r') = true) by apply good.
  assert (H0 : r_num r'' = 0).
  { subst r'' h2. rewrite <- app_assoc. cbn [app]. eapply (proj2 HP); [exact Hpipe|done|done|done]. }
  assert (Hsp : pending (h ++ [(add, r)]) = 0) by (rewrite pending_app, pending_one, (settled_pending h) by apply Hs; done).
  assert (Hc : counts (r_done r') = 0).
  { pose proof (process_bounded (h ++ [(add, r)]) port 0 DEFAULT_TIMEOUT_US 1) as Hb.
    pose proof (counts_nonneg (r_done r')). fold proc r' in Hb. lia. }
  split; [done|]. exists [(add, r); (proc, r'); (get, r'')]. subst h2. rewrite <- !app_assoc. cbn [app].
  split; [done|]. split.
  - apply settled_app; [done|by repeat constructor|]. repeat constructor. cbn [status_known add].
    rewrite Hr. cbn [negb orb]. rewrite existsb_app. cbn [existsb get add proc].
    rewrite Z.eqb_refl, H0. unfold r''. rewrite good. cbn [andb orb Z.eqb]. by rewrite !orb_true_r.
  - split; [unfold held; by rewrite foldl_app|split].
    + intros q. rewrite (entries_cons (add, r)). unfold add at 1. rewrite entry_of_add, Hr.
      rewrite (entries_cons (proc, r')), !no_entries_one by done. rewrite app_nil_r. by case_decide; case_decide.
    + intros q. by apply roots_none; repeat constructor.
Qed.

(** An accepted entry is processed and its status asked for. *)
Lemma entry_installed_ok h pipe m a fwd port c f ms rc :
  settled h -> h !! pipe = Some (PipeCreate c f ms, rc) -> p_port c = port ->
  let add := PipeAddEntry 0 pipe m a fwd DOCA_FLOW_NO_WAIT false in
  runs (entry_installed port 0 (r_num (reply_to h add))) (h ++ [(add, reply_to h add)])
    (fun res h' => res = DOCA_SUCCESS /\ entered h h' pipe [Entry m a fwd]).
Proof.
  intros Hs Hpipe Hport. cbv zeta. destruct (enter_events h pipe m a fwd port c f ms rc Hs Hpipe Hport) as [H0 He].
  unfold entry_installed. apply runs_bind, runs_call_err; [done|]. rewrite good. cbn [negb].
  apply runs_bind, runs_invoke; [done|]. rewrite good, H0. cbn [negb orb Z.eqb]. by apply runs_ret.
Qed.

(** The two pipes of a port; the drop pipe has the entries [es]. *)
Definition port_ready (h : list event) (port : Z) (hp tp : nat) (es : list entry) : Prop :=
  (hp < tp < length h)%nat /\
  (exists r, h !! hp = Some (PipeCreate (fw_pipe_cfg (str "HAIRPIN_PIPE") false port pipe_match0)
                              (Some (ToPort (Z.lxor port 1))) None, r) /\ ok (r_err r) = true) /\
  entries h hp = [Entry pipe_match0 (Some actions0) (Some (ToPort (Z.lxor port 1)))] /\
  (exists r, h !! tp = Some (PipeCreate (fw_pipe_cfg (str "DROP_PIPE") true port drop_match) (Some ToDrop)
                              (Some (ToPipe hp)), r) /\ ok (r_err r) = true) /\
  entries h tp = es /\ roots h port = [tp].

Lemma port_ready_ext h fs port hp tp es :
  port_ready h port hp tp es -> entries fs hp = [] -> roots fs port = [] ->
  port_ready (h ++ fs) port hp tp (es ++ entries fs tp).
Proof.
  intros (Hlt & (r & Hr & Hok) & Hh & (r2 & Hr2 & Hok2) & Ht & Hro) Hfs Hrf. unfold port_ready.
  rewrite length_app, !entries_app, roots_app, Hh, Ht, Hro, Hfs, Hrf. split_and!; [lia..| |done| |done|done].
  - exists r. by rewrite lookup_app_l by lia.
  - exists r2. by rewrite lookup_app_l by lia.
Qed.

Lemma settled_create h c f ms r : settled h -> settled (h ++ [(PipeCreate c f ms, r)]).
Proof. intros Hs. apply settled_app; [done|by repeat constructor|by repeat constructor]. Qed.

Lemma fresh_create h c f ms r : fresh h -> fresh (h ++ [(PipeCreate c f ms, r)]).
Proof.
  intros Hf q Hq. rewrite length_app in Hq. rewrite entries_app, no_entries_one, app_nil_r by done. apply Hf. lia.
Qed.

Lemma fresh_entered h h' pipe ens : fresh h -> (pipe < length h)%nat -> entered h h' pipe ens -> fresh h'.
Proof.
  intros Hf Hp (es & -> & _ & _ & He & _) q Hq. rewrite length_app in Hq.
  rewrite entries_app, Hf, He by lia. rewrite decide_False by lia. done.
Qed.

(** The pipes of one port, on a history in which it has none. *)
Lemma build_port_ok port h :
  settled h -> fresh h -> roots h port = [] ->
  runs ('(result, hairpin_pipe_id) ← build_hairpin_pipe port;
        if negb (ok result) then mret (result, 0%nat) else build_drop_pipe port hairpin_pipe_id) h
    (fun '(res, tp) h' => res = DOCA_SUCCESS /\ exists es, h' = h ++ es /\ settled h' /\ fresh h' /\ held h' = held h /\
      (forall q, (q < length h)%nat -> entries es q = []) /\ (forall port', port' <> port -> roots es port' = []) /\
      port_ready h' port (length h) tp []).
Proof.
  intros Hs Hf Hr. unfold build_hairpin_pipe. apply runs_bind, runs_bind, runs_pipe_create.
  set (c := PipeCreate _ _ _). set (r := reply_to h c). assert (Hok : ok (r_err r) = true) by apply good. rewrite Hok. cbn [negb].
  set (h1 := h ++ [(c, r)]).
  assert (Hl1 : h1 !! length h = Some (c, r)) by (unfold h1; by rewrite lookup_app_r, Nat.sub_diag by lia).
  apply runs_bind, runs_invoke; [done|]. rewrite good. cbn [negb].
  apply runs_bind. eapply runs_mono; [eapply entry_installed_ok; [by apply settled_create|exact Hl1|done]|].
  intros e h2 [-> He]. apply runs_ret. cbn [ok negb]. unfold build_drop_pipe. apply runs_pipe_create.
  assert (Hlen : length h1 = S (length h)) by (unfold h1; rewrite length_app; cbn; lia).
  assert (Hf2 : fresh h2) by (eapply fresh_entered; [by apply fresh_create| |exact He]; rewrite length_app; cbn [length]; lia).
  destruct He as (es & -> & Hs2 & Hh2 & Hes & Hro).
  set (c2 := PipeCreate _ _ _). set (r2 := reply_to _ c2). assert (Hok2 : ok (r_err r2) = true) by apply good.
  assert (Htp : length (h1 ++ es) = (S (length h) + length es)%nat) by (by rewrite length_app, Hlen). rewrite Htp.
  split; [by apply ok_success|]. exists ([(c, r)] ++ es ++ [(c2, r2)]). unfold h1. rewrite <- !app_assoc. split; [done|].
  assert (Heq : h ++ [(c, r)] ++ es ++ [(c2, r2)] = (h1 ++ es) ++ [(c2, r2)]) by (unfold h1; by rewrite <- !app_assoc).
  rewrite Heq. split; [by apply settled_create|]. split; [by apply fresh_create|].
  split; [rewrite held_snoc; cbn [hold fst c2 releases acquires]; rewrite Hh2; unfold h1; by rewrite held_snoc|].
  assert (Hent : forall q, entries ([(c, r)] ++ es ++ [(c2, r2)]) q = entries es q).
  { intros q. rewrite !entries_app, !no_entries_one, app_nil_r by done. done. }
  split; [intros q Hq; rewrite Hent, Hes, decide_False by lia; done|].
  split; [intros port' Hpo; rewrite !roots_app, Hro, !roots_one; cbn [is_root_of c c2 fw_pipe_cfg p_root p_port];
    rewrite (proj2 (Z.eqb_neq port port')), !andb_false_r by done; done|].
  split; [rewrite length_app, Htp; cbn [length]; lia|]. split.
  { exists r. split; [|done]. rewrite lookup_app_l, lookup_app_l by (rewrite ?length_app; lia). exact Hl1. }
  split. { rewrite <- Heq, entries_app, Hent, Hf, Hes by lia. by rewrite decide_True. }
  split. { exists r2. split; [|done]. rewrite lookup_app_r by lia.
    by rewrite Htp, Nat.sub_diag. }
  split. { rewrite <- Heq, entries_app, Hent, Hf, Hes, decide_False by lia. done. }
  rewrite <- Heq, !roots_app, Hr, Hro, !roots_one. cbn [is_root_of c c2 fw_pipe_cfg p_root p_port].
  rewrite Hok, Hok2, Z.eqb_refl, andb_false_r. cbn [andb app map length]. f_equal. lia.
Qed.

Lemma pipes_init_turn n port ids h (Q : doca_error * port_pipe_ids -> list event -> Prop) :
  runs ('(result, hairpin_pipe_id) ← build_hairpin_pipe port;
        if negb (ok result) then mret (result, 0%nat) else build_drop_pipe port hairpin_pipe_id) h
    (fun '(res, tp) h' => res = DOCA_SUCCESS /\ exists ids', wr ids port tp = Some ids' /\ runs (pipes_init n (port + 1) ids') h' Q) ->
  runs (pipes_init (S n) port ids) h Q.
Proof.
  intros ([res tp] & h1 & Heq & -> & ids' & Hw & HQ). cbn [pipes_init]. unfold runs in *. revert Heq.
  unfold mbind, ST_bind. destruct (build_hairpin_pipe port h) as [[[e hp] h2]|]; [|done].
  destruct (ok e) eqn:Hok; cbn [negb]; [|intros [= E _ _]; by rewrite E in Hok]. intros ->. cbn [ok negb]. by rewrite Hw.
Qed.

(** Both ports have their pipes, with the entries [e0] and [e1]. *)
Definition ready (h : list event) (t0 t1 : nat) (e0 e1 : list entry) : Prop :=
  settled h /\ exists h0 h1, port_ready h 0 h0 t0 e0 /\ port_ready h 1 h1 t1 e1 /\ NoDup [h0; t0; h1; t1].

Lemma firewall_pipes_init_ok h :
  setup h ->
  runs firewall_pipes_init h (fun '(res, ids) h' => res = DOCA_SUCCESS /\ held h' = held h /\
    exists t0 t1, ids = [t0; t1] /\ ready h' t0 t1 [] []).
Proof.
  intros Hs. unfold firewall_pipes_init. cbn [NB_PORTS replicate]. apply pipes_init_turn.
  eapply runs_mono; [apply build_port_ok; [by apply settled_setup|by apply setup_fresh|by apply setup_roots]|].
  intros [e t0] h1 (-> & es & -> & Hs1 & Hf1 & Hh1 & Hes & Hro & Hp0). split; [done|]. exists [t0; 0%nat]. split; [done|].
  apply pipes_init_turn. eapply runs_mono; [apply build_port_ok; [done|done|]|].
  { by rewrite roots_app, (setup_roots _ _ Hs), Hro. }
  intros [e2 t1] h2 (-> & fs & -> & Hs2 & Hf2 & Hh2 & Hfs & Hro2 & Hp1). split; [done|]. exists [t0; t1]. split; [done|].
  apply runs_ret. split; [done|]. split; [congruence|]. exists t0, t1. split; [done|]. split; [done|].
  destruct Hp0 as (Hlt0 & Hp0). destruct Hp1 as (Hlt1 & Hp1).
  exists (length h), (length (h ++ es)). split; [|split; [done|]].
  - pose proof (port_ready_ext (h ++ es) fs 0 (length h) t0 []) as E. rewrite (Hfs t0) in E by lia.
    apply E; [done|apply Hfs; lia|apply Hro2; lia].
  - repeat (apply NoDup_cons; split; [rewrite ?elem_of_cons, ?elem_of_nil; lia|]). by apply NoDup_nil.
Qed.

Lemma ready_entered0 h h' t0 t1 e0 e1 ens : ready h t0 t1 e0 e1 -> entered h h' t0 ens -> ready h' t0 t1 (e0 ++ ens) e1.
Proof.
  intros (Hs & h0 & h1 & H0 & H1 & Hnd) (es & -> & Hs' & _ & He & Hr). split; [done|]. exists h0, h1.
  assert (Hne : h0 <> t0 /\ h1 <> t0 /\ t1 <> t0).
  { rewrite !NoDup_cons, !elem_of_cons in Hnd. intuition. }
  destruct Hne as (N1 & N2 & N3). split; [|split; [|done]].
  - pose proof (port_ready_ext h es 0 h0 t0 e0 H0) as E. rewrite !He, (decide_True (P := t0 = t0)) in E by done.
    apply E; [by rewrite decide_False|done].
  - pose proof (port_ready_ext h es 1 h1 t1 e1 H1) as E. rewrite !He, (decide_False (P := t1 = t0)), app_nil_r in E by done.
    apply E; [by rewrite decide_False|done].
Qed.

Lemma ready_entered1 h h' t0 t1 e0 e1 ens : ready h t0 t1 e0 e1 -> entered h h' t1 ens -> ready h' t0 t1 e0 (e1 ++ ens).
Proof.
  intros (Hs & h0 & h1 & H0 & H1 & Hnd) (es & -> & Hs' & _ & He & Hr). split; [done|]. exists h0, h1.
  assert (Hne : h1 <> t1 /\ h0 <> t1 /\ t0 <> t1).
  { rewrite !NoDup_cons, !elem_of_cons in Hnd. intuition. }
  destruct Hne as (N1 & N2 & N3). split; [|split; [|done]].
  - pose proof (port_ready_ext h es 0 h0 t0 e0 H0) as E. rewrite !He, (decide_False (P := t0 = t1)), app_nil_r in E by done.
    apply E; [by rewrite decide_False|done].
  - pose proof (port_ready_ext h es 1 h1 t1 e1 H1) as E. rewrite !He, (decide_True (P := t1 = t1)) in E by done.
    apply E; [by rewrite decide_False|done].
Qed.

Lemma ready_grows h h' t0 t1 e0 e1 : ready h t0 t1 e0 e1 -> grows h h' -> ready h' t0 t1 e0 e1.
Proof.
  intros (Hs & h0 & h1 & H0 & H1 & Hnd) Hg. split; [by eapply settled_grows|]. destruct Hg as (es & -> & Hes).
  exists h0, h1. split; [|split; [|done]].
  - rewrite <- (app_nil_r e0), <- (setup_entries es t0) by done. by apply port_ready_ext; [|apply setup_entries|apply setup_roots].
  - rewrite <- (app_nil_r e1), <- (setup_entries es t1) by done. by apply port_ready_ext; [|apply setup_entries|apply setup_roots].
Qed.

Lemma entered_refl h pipe : settled h -> entered h h pipe [].
Proof. intros Hs. exists []. rewrite app_nil_r. split_and!; try done. intros q. by case_decide. Qed.

Lemma entered_trans h1 h2 h3 pipe e1 e2 :
  entered h1 h2 pipe e1 -> entered h2 h3 pipe e2 -> entered h1 h3 pipe (e1 ++ e2).
Proof.
  intros (es & -> & _ & Hh & He & Hr) (fs & -> & Hs & Hh2 & He2 & Hr2). exists (es ++ fs). rewrite app_assoc.
  split_and!; [done|done|congruence| |].
  - intros q. rewrite entries_app, He, He2. by case_decide.
  - intros q. by rewrite roots_app, Hr, Hr2.
Qed.

Lemma entered_lookup h h' pipe ens q x : entered h h' pipe ens -> h !! q = Some x -> h' !! q = Some x.
Proof. intros (es & -> & _) Hx. by apply lookup_app_l_Some. Qed.

(** ** The entries of the two modes *)

Definition bare (m : doca_flow_match) : pipe_match := PipeMatch L3_META_NONE L4_META_NONE m.

(** The matches of the rules of a file, one after the other. *)
Fixpoint rule_matches (rules : list rule_match) (m : doca_flow_match) : list doca_flow_match :=
  match rules with [] => [] | r :: rules' => let m := entry_match r m in m :: rule_matches rules' m end.
Definition static_entry (m : doca_flow_match) : entry := Entry (bare m) (Some actions0) (Some ToDrop).
Definition typed_entry (m : doca_flow_match) : entry := Entry (bare m) None None.

Lemma add_entries_ok port pipe rules m h c f ms rc :
  settled h -> h !! pipe = Some (PipeCreate c f ms, rc) -> p_port c = port ->
  runs (add_entries port pipe rules m) h
    (fun res h' => res = DOCA_SUCCESS /\ entered h h' pipe (map static_entry (rule_matches rules m))).
Proof.
  intros Hs Hpipe Hport. revert m h Hs Hpipe. induction rules as [|r rules IH]; intros m h Hs Hpipe; cbn [add_entries].
  - apply runs_ret. split; [done|by apply entered_refl].
  - apply runs_bind, runs_invoke; [done|]. rewrite good. cbn [negb].
    apply runs_bind. eapply runs_mono; [by eapply entry_installed_ok|]. intros res h1 [-> He]. cbn [ok negb].
    eapply runs_mono; [apply IH; [|by eapply entered_lookup]|].
    { by destruct He as (es & -> & Hs' & _). }
    intros res h2 [-> He2]. split; [done|]. cbn [rule_matches map]. by apply (entered_trans _ _ _ _ [_] _ He He2).
Qed.

Lemma typed_entries_ok ids t0 ms h c f mi rc :
  settled h -> rd ids 0 = Some t0 -> h !! t0 = Some (PipeCreate c f mi, rc) -> p_port c = 0 ->
  runs (run_callbacks ids (map (FlowParser.FwAddEntry 0) ms)) h (fun _ h' => entered h h' t0 (map typed_entry ms)).
Proof.
  intros Hs Hid Hpipe Hport. revert h Hs Hpipe. induction ms as [|m ms IH]; intros h Hs Hpipe; cbn [map run_callbacks].
  - apply runs_ret. by apply entered_refl.
  - apply runs_bind. cbn [run_callback]. unfold pipe_add_entry. rewrite Hid.
    destruct (enter_events h t0 (bare m) None None 0 c f mi rc Hs Hpipe Hport) as [H0 He].
    apply runs_bind, runs_invoke; [done|]. apply runs_bind, runs_call_err; [done|]. rewrite good. cbn [negb].
    rewrite good. cbn [negb]. apply runs_call_unit; [done|].
    eapply runs_mono; [apply IH; [|by eapply entered_lookup]|].
    { by destruct He as (es & _ & Hs' & _). }
    intros u h2 He2. by apply (entered_trans _ _ _ _ [_] _ He He2).
Qed.

(** ** Packets *)

(** An entry of the drop pipe drops, by its own forwarding or that of its pipe. *)
Definition drops (e : entry) : Prop := e_fwd e = Some ToDrop \/ e_fwd e = None.

Lemma steer_ready h port hp tp es p :
  port_ready h port hp tp es -> Forall drops es ->
  steer (S tp) h tp p =
  match List.filter (fun e => has drop_match (e_match e) p) es with
  | [] => Some (Sent (Z.lxor port 1) p)
  | [e] => if type_agrees drop_match (e_match e) p then Some Dropped else None
  | _ => None
  end.
Proof.
  intros (Hlt & (r & Hr & Hok) & Hh & (r2 & Hr2 & Hok2) & Ht & Hro) Hd. cbn [steer].
  unfold decide_pipe at 1. rewrite Hr2, Hok2, Ht. cbn [negb fw_pipe_cfg p_type p_match p_actions default from_option id].
  destruct (List.filter _ es) as [|e [|e2 l]] eqn:Hf; [|..|done].
  - cbn [option_map]. rewrite (proj2 (Nat.ltb_lt hp tp)) by lia.
    destruct tp as [|tp]; [lia|]. cbn [steer]. unfold decide_pipe. rewrite Hr, Hok, Hh.
    cbn [negb fw_pipe_cfg p_type p_match p_actions default from_option id List.filter e_match].
    assert (Hall : has pipe_match0 pipe_match0 p = true) by (unfold has, types_have, field_has; eval_template; done).
    rewrite Hall. cbn [e_match e_actions e_fwd]. unfold type_agrees. rewrite bool_decide_true by (by left).
    cbn [option_map]. unfold rewrite_pkt, field_set. eval_template. by destruct p.
  - destruct (type_agrees _ _ _); [|done]. rewrite Forall_forall in Hd.
    assert (He : e ∈ es).
    { apply list_elem_of_In. apply (List.filter_In (fun e => has drop_match (e_match e) p) e es). rewrite Hf. by left. }
    destruct (Hd e He) as [-> | ->]; done.
Qed.

Context `{HW : Steering}.

(** What the hardware does at the two ports. *)
Lemma ready_forward h l t0 t1 e0 e1 :
  ready h t0 t1 e0 e1 -> held h = l ++ opened -> Forall drops e0 -> Forall drops e1 ->
  forall port es p v, port = 0 /\ es = e0 \/ port = 1 /\ es = e1 ->
  match List.filter (fun e => has drop_match (e_match e) p) es with
  | [] => Some (Sent (Z.lxor port 1) p)
  | [e] => if type_agrees drop_match (e_match e) p then Some Dropped else None
  | _ => None
  end = Some v -> forward h port p = v.
Proof.
  intros (Hs & h0 & h1 & H0 & H1 & _) Hh Hd0 Hd1 port es p v Hport Hv.
  destruct Hport as [[-> ->]|[-> ->]].
  - eapply forward_law; [rewrite Hh; set_solver|rewrite Hh; set_solver|by apply settled_offloaded|apply H0|].
    by rewrite (steer_ready h 0 h0 t0 e0).
  - eapply forward_law; [rewrite Hh; set_solver|rewrite Hh; set_solver|by apply settled_offloaded|apply H1|].
    by rewrite (steer_ready h 1 h1 t1 e1).
Qed.
End Entries.
