(* ===== verification/FirewallTheorems.v ===== *)
(** * Theorems on the firewall

    The program as a whole: what it holds at the end of every run
    ([firewall_releases]), and which packets the two ports drop and forward once
    the rules are in place, those of a file ([firewall_static_filters]) and those
    typed at the command line ([firewall_interactive_filters]). *)

From S2P Require Import Prelude CString FlowTypes FlowFields FlowPipes Json RuleText NatSpec NatRun PipeDemo.
From S2P Require Import Firewall FirewallSpec FirewallRun FirewallPipes.
From S2P Require FlowParser FlowParserSpec.
Import FlowParserSpec(ip4, Ip, ip4_text, ip4_bytes, ip4_ok, fw_rule, FwRule, tcp, sip, dip, sport, dport, fw_rule_ok,
  fw_rule_fields, fw_rule_match).
#[local] Open Scope Z_scope.

Lemma runs_also {S A} (m : ST S A) s (Q1 : A -> S -> Prop) (B : Prop) (Q2 : A -> S -> Prop) :
  runs m s Q1 -> (B -> runs m s Q2) -> runs m s (fun a s' => Q1 a s' /\ (B -> Q2 a s')).
Proof.
  intros (a & s' & E & H1) H2. exists a, s'. split; [done|]. split; [done|]. intros HB.
  destruct (H2 HB) as (a2 & s2 & E2 & H). by simplify_eq.
Qed.

(** A failure that does not happen where calls succeed. *)
Ltac not_installing := intros [HP _];
  repeat match goal with H : succeeds _ -> _ |- _ => specialize (H HP) end; congruence.

Section Runs.
Context `{P : Platform} `{PF : !PromptFlow} `{RF : !ReadableFile} `{J : JsonC} `{RA : !RulesArray}.
Context (strndup_ok : bool) (malloc : Z -> bool) (fopen : cstring -> bool).
Context (cl : bool) (input : list FlowParser.command) (p : FlowParser.parser).

(** What is held where main stands. *)
Definition holds_at (s : stage) (h : list event) : Prop :=
  match s with
  | ExitNow => held h = []
  | ArgpCleanup => held h = [RArgp]
  | PortsDestroy | Waiting => exists j, maybe_json j /\ held h = j ++ opened
  end.

Lemma holds_opened s h : held h = opened -> s = PortsDestroy \/ s = Waiting -> holds_at s h.
Proof using. intros Hh [-> | ->]; (exists []; split; [by left|done]). Qed.

(** What main does once the pipes are built. *)
Definition run_mode (c : firewall_cfg) (ids : port_pipe_ids) : ST (list event) stage :=
  match mode c with
  | FIREWALL_MODE_STATIC =>
      '(result, n_rules, drop_rules) ← init_drop_rules (json_path c);
      if negb (ok result) then mret PortsDestroy else
      match drop_rules with
      | None => undef
      | Some drop_rules =>
          result ← firewall_add_drop_rules ids drop_rules n_rules;
          if negb (ok result) then mret PortsDestroy else mret Waiting
      end
  | FIREWALL_MODE_INTERACTIVE =>
      result ← interactive strndup_ok malloc fopen cl input p ids;
      if negb (ok result) then mret PortsDestroy else mret Waiting
  | FIREWALL_MODE_INVALID => mret Waiting
  end.

(** Up to there. *)
Lemma start_prefix args (Q : stage -> list event -> Prop) :
  (forall s h, holds_at s h -> (installs P -> config args = None) -> Q s h) ->
  (forall c ids h, held h = opened -> length ids = 2%nat ->
     (mode c = FIREWALL_MODE_INTERACTIVE -> ArgMode (str "interactive") ∈ args) ->
     (installs P -> forall c', config args = Some c' -> c = c' /\ exists t0 t1, ids = [t0; t1] /\ ready h t0 t1 [] []) ->
     runs (run_mode c ids) h Q) ->
  runs (start strndup_ok malloc fopen cl input p args) [] Q.
Proof.
  intros Hstop Hgo. unfold start. fold cfg0. assert (H0 : held [] = []) by done.
  do 4 (call_step; [|apply runs_ret, Hstop; [done|not_installing]]).
  apply runs_bind. eapply runs_mono; [by apply register_firewall_params_ok|]. intros e3 h3 (Hg3 & Hh3 & Hs3).
  destruct (ok e3) eqn:He3; cbn [negb]; [|apply runs_ret, Hstop; [done|not_installing]].
  apply runs_bind. eapply runs_mono; [by apply fw_argp_start_ok|]. intros [e4 c] h4 (Hg4 & Hh4 & Hs4 & Hm4).
  assert (Hc : installs P -> forall c', config args = Some c' -> ok e4 = true /\ c = c') by (intros [HP _]; by apply Hs4).
  assert (Hnone : (installs P -> forall c', config args = Some c' -> False) -> installs P -> config args = None).
  { intros H HI. destruct (config args) as [c0|] eqn:E; [by destruct (H HI c0)|done]. }
  destruct (ok e4) eqn:He4; cbn [negb].
  2:{ apply runs_ret, Hstop; [done|]. apply Hnone. intros HI c' E. by destruct (Hc HI c' E). }
  call_step; [|apply runs_ret, Hstop; [done|not_installing]].
  apply runs_bind. eapply runs_mono; [by apply firewall_ports_init_ok|]. intros e6 h6 (Hg6 & Hs6 & H6).
  destruct (ok e6) eqn:He6; cbn [negb]; [|apply runs_ret, Hstop; [done|not_installing]].
  assert (Hset : setup h6).
  { assert (Hgrow : grows [] h6) by solve_grows. destruct Hgrow as (es & -> & Hes). done. }
  apply runs_bind. eapply runs_mono.
  { eapply (runs_also _ _ _ (installs P)); [unfold firewall_pipes_init; by apply pipes_init_held|].
    intros HI. by apply (firewall_pipes_init_ok HI). }
  intros [e7 ids] h7 [[Hh7 Hids] H7]. destruct (ok e7) eqn:He7; cbn [negb].
  - apply Hgo; [done|done|done|]. intros HI c' E. split; [by apply Hc|].
    by destruct (H7 HI) as (_ & _ & t0 & t1 & -> & Hr); exists t0, t1.
  - apply runs_ret, Hstop; [apply holds_opened; auto|]. intros HI. destruct (H7 HI) as (-> & _). done.
Qed.

(** What is typed is read without a fault, and entries are asked for on the two
    ports only. *)
Definition session_ok : Prop :=
  exists res p' cs, FlowParser.flow_parser_init strndup_ok malloc fopen registered cl true input p = FlowParser.Ret (res, p', cs) /\
    Forall callback_ok cs.

Lemma run_mode_holds c ids h :
  held h = opened -> length ids = 2%nat -> (mode c = FIREWALL_MODE_INTERACTIVE -> session_ok /\ accepting P) ->
  runs (run_mode c ids) h holds_at.
Proof.
  intros Hl Hids Hi. unfold run_mode. destruct (mode c); [apply runs_ret, holds_opened; auto| |].
  - apply runs_bind. eapply runs_mono; [by apply init_drop_rules_ok|]. intros [[e n] rules] h1 (_ & _ & j & Hj & H1).
    destruct (ok e) eqn:He; cbn [negb]; [|apply runs_ret; by exists j].
    destruct H1 as (rs & -> & -> & Hh1). apply runs_bind.
    eapply runs_mono; [apply add_port_rules_held; [done|lia|unfold zlen; rewrite Hids; unfold NB_PORTS; lia]|].
    intros e2 h2 H2. destruct (ok e2); cbn [negb]; apply runs_ret; by exists j.
  - destruct (Hi eq_refl) as [(res & p' & cs & Heq & Hcs) Hacc]. unfold interactive. rewrite Heq.
    apply runs_bind, runs_bind. eapply runs_mono; [by eapply run_callbacks_held|]. intros [] h1 H1.
    apply runs_ret. destruct (ok res); cbn [negb]; apply runs_ret, holds_opened; auto.
Qed.

Lemma finish_holds s h :
  holds_at s h -> runs (finish s) h released.
Proof.
  assert (Hr : forall x h j, maybe_json j -> held h = j -> x = EXIT_SUCCESS \/ x = EXIT_FAILURE -> released x h).
  { apply released_json. }
  unfold holds_at. destruct s; cbn [finish]; intros Hh.
  - apply runs_ret. apply (Hr _ _ []); auto. by left.
  - unfold argp_destroy. call_step. apply runs_ret. apply (Hr _ _ []); auto. by left.
  - destruct Hh as (j & Hj & Hh). eapply runs_mono; [apply (ports_destroy_ok _ j); auto|]. intros x h' [? ?]. by apply (Hr _ _ j).
  - destruct Hh as (j & Hj & Hh). eapply runs_mono; [apply (ports_destroy_ok _ j); auto|]. intros x h' [? ?]. by apply (Hr _ _ j).
Qed.

(** C16: whatever calls of the platform fail, under these conditions main comes to
    an end with success or failure, has released nothing twice, and holds nothing
    - no port, buffer, file, rules array or library - but the JSON object of the
    file, if it has parsed one, which it never gives back ([parsed_objects]; see
    the findings).  The conditions: the mode "interactive" is not given, or what
    is typed is read without a fault and names the two ports only ([session_ok])
    and the hardware accepts entries; fseek reaches the end of the file and the
    memory after the bytes read happens to hold a zero ([ReadableFile]: neither
    is ensured by the code); the rules of the file are an array ([RulesArray]:
    json_object_array_length asserts it). *)
Theorem firewall_releases args :
  ArgMode (str "interactive") ∉ args \/ session_ok /\ accepting P ->
  runs (main strndup_ok malloc fopen cl input p args) [] released.
Proof.
  intros Hacc. apply runs_bind. apply start_prefix; [intros s h Hh _; by apply finish_holds|].
  intros c ids h Hl Hids Hi _. eapply runs_mono; [apply run_mode_holds; [done|done|]|apply finish_holds].
  intros Hm. destruct Hacc as [Hno|]; [by destruct (Hno (Hi Hm))|done].
Qed.
End Runs.

(** ** Rules and packets *)

Section Packets.
Implicit Types (r : fw_rule) (q : pkt).

(** The addresses and the ports of a packet are those of a rule; its protocol too. *)
Definition near r q : Prop :=
  pk_src q = ip4_bytes (sip r) /\ pk_dst q = ip4_bytes (dip r) /\ pk_sport q = be16 (sport r) /\ pk_dport q = be16 (dport r).
Definition describes r q : Prop :=
  pk_ip4 q = true /\ pk_l4 q = (if tcp r then L4_TCP else L4_UDP) /\ near r q.

(** No two rules have the same addresses and ports. *)
Definition key r := (sip r, dip r, sport r, dport r).

Definition near_b r q : bool :=
  bool_decide (pk_src q = ip4_bytes (sip r)) && bool_decide (pk_dst q = ip4_bytes (dip r)) &&
  bool_decide (pk_sport q = be16 (sport r)) && bool_decide (pk_dport q = be16 (dport r)).
Definition hit r q : bool := pk_ip4 q && bool_decide (pk_l4 q = L4_TCP \/ pk_l4 q = L4_UDP) && near_b r q.

Lemma near_b_spec r q : near_b r q = true <-> near r q.
Proof. unfold near_b, near. rewrite !andb_true_iff, !bool_decide_eq_true. tauto. Qed.

(** A match that asks for the packets of a rule. *)
Definition asks r (m : doca_flow_match) : Prop :=
  ip4_src (outer m) = ip4_bytes (sip r) /\ ip4_dst (outer m) = ip4_bytes (dip r) /\
  l4_src_port (outer m) = be16 (sport r) /\ l4_dst_port (outer m) = be16 (dport r) /\
  l4_type_ext (outer m) = if tcp r then L4_TCP else L4_UDP.

Lemma asks_has r m q : asks r m -> has drop_match (bare m) q = hit r q.
Proof.
  intros (E1 & E2 & E3 & E4 & _). unfold has, types_have, field_has, hit, near_b. eval_template.
  change (m_outer (bare m)) with (outer m). rewrite E1, E2, E3, E4.
  generalize (ip4_bytes (sip r)), (ip4_bytes (dip r)), (be16 (sport r)), (be16 (dport r)). intros a b c d.
  cbn. destruct (pk_ip4 q); cbn; [|done]. by rewrite !andb_assoc.
Qed.

Lemma asks_agrees r m q : asks r m -> describes r q -> type_agrees drop_match (bare m) q = true.
Proof.
  intros (_ & _ & _ & _ & E) (_ & Hl & _). unfold type_agrees. change (m_outer (bare m)) with (outer m). rewrite E, Hl.
  apply bool_decide_true. by right; right.
Qed.

Lemma describes_hit r q : describes r q -> hit r q = true.
Proof.
  intros (Hq & Hl & Hn). unfold hit. rewrite Hq, Hl. apply near_b_spec in Hn as ->.
  rewrite bool_decide_true by (destruct (tcp r); auto). done.
Qed.

Lemma hit_key r r' q : fw_rule_ok r -> fw_rule_ok r' -> hit r q = true -> hit r' q = true -> key r = key r'.
Proof.
  intros (_ & _ & Hs & Hd) (_ & _ & Hs' & Hd') (_ & H1%near_b_spec)%andb_true_iff (_ & H2%near_b_spec)%andb_true_iff.
  destruct H1 as (A1 & A2 & A3 & A4), H2 as (B1 & B2 & B3 & B4). unfold key.
  rewrite A1 in B1. rewrite A2 in B2. rewrite A3 in B3. rewrite A4 in B4.
  apply ip4_bytes_inj in B1, B2. apply be16_inj in B3, B4; try done. congruence.
Qed.

Lemma filter_asks (mk : doca_flow_match -> entry) l ms q :
  (forall m, e_match (mk m) = bare m) -> Forall2 asks l ms ->
  exists ms', List.filter (fun e => has drop_match (e_match e) q) (map mk ms) = map mk ms' /\
    Forall2 asks (List.filter (fun r => hit r q) l) ms'.
Proof.
  intros Hmk. induction 1 as [|r m l ms Hr Hl (ms' & E & IH)]; [by exists []|]. cbn. rewrite Hmk, (asks_has r m q Hr), E.
  destruct (hit r q); [exists (m :: ms')|exists ms']; by auto.
Qed.

(** The drop pipe with the entries of rules: described packets are dropped,
    packets that are near to no rule, and those it does not look at, pass. *)
Lemma rules_verdict (mk : doca_flow_match -> entry) l ms out q :
  (forall m, e_match (mk m) = bare m) -> Forall2 asks l ms -> Forall fw_rule_ok l -> NoDup (map key l) ->
  let v := match List.filter (fun e => has drop_match (e_match e) q) (map mk ms) with
           | [] => Some (Sent out q)
           | [e] => if type_agrees drop_match (e_match e) q then Some Dropped else None
           | _ => None
           end in
  (forall r, r ∈ l -> describes r q -> v = Some Dropped) /\
  ((forall r, r ∈ l -> ~ near r q) \/ pk_ip4 q = false \/ ~ (pk_l4 q = L4_TCP \/ pk_l4 q = L4_UDP) -> v = Some (Sent out q)).
Proof.
  intros Hmk Hl Hok Hnd v. rewrite Forall_forall in Hok. subst v.
  destruct (filter_asks mk l ms q Hmk Hl) as (ms' & -> & Hms). split.
  - intros r Hr Hd. rewrite (filter_only _ l r) in Hms; [|done|by apply describes_hit| |by apply NoDup_fmap_1 in Hnd].
    + apply Forall2_cons_inv_l in Hms as (m & ms2 & Hm & Hnil & ->). apply Forall2_nil_inv_l in Hnil as ->.
      cbn [map]. by rewrite Hmk, (asks_agrees r m q).
    + intros r' Hr' Hh. apply (key_unique key l); [done..|].
      apply (hit_key _ _ q); [by apply Hok|by apply Hok|done|by apply describes_hit].
  - intros Hno. rewrite filter_none in Hms.
    + apply Forall2_nil_inv_l in Hms as ->. done.
    + intros r Hr. unfold hit. apply not_true_iff_false. rewrite !andb_true_iff, bool_decide_eq_true, near_b_spec.
      intros [[Hq Ht] Hn]. destruct Hno as [Hno|[Hno|Hno]]; [by apply (Hno r)|congruence|done].
Qed.
End Packets.

(** ** Rules of a file *)

(** {"rules": [{"protocol": "tcp", "src-ip": "a.b.c.d", "dst-ip": .., "src-port": n, "dst-port": n}, ...]} *)
Section Text.
Context `{J : JsonC}.

Definition drop_elem (o : option json) (r : fw_rule) : Prop :=
  string_at o (str "protocol") (if tcp r then str "tcp" else str "udp") /\
  string_at o (str "src-ip") (ip4_text (sip r)) /\ string_at o (str "dst-ip") (ip4_text (dip r)) /\
  int_at o (str "src-port") (sport r) /\ int_at o (str "dst-port") (dport r).
Definition drop_file (j : option json) (l : list fw_rule) : Prop := array_of drop_elem j l /\ Forall fw_rule_ok l.

Definition rule_of (r : fw_rule) : rule_match :=
  Rule (if tcp r then L4_TCP else L4_UDP) (ip4_bytes (sip r)) (ip4_bytes (dip r)) (sport r) (dport r).

Lemma drop_elem_rule o r : fw_rule_ok r -> drop_elem o r -> drop_rule o = (DOCA_SUCCESS, rule_of r).
Proof.
  intros (H1 & H2 & _) ((x & Hx & Hxt & Hxs) & Hs & Hd & (sp & Hsp & Hspt & Hspn) & (dp & Hdp & Hdpt & Hdpn)).
  unfold drop_rule, create_protocol. rewrite Hx, decide_True, Hxs by done.
  assert (Hp : forall old, parse_protocol_string (if tcp r then str "tcp" else str "udp") old =
    (DOCA_SUCCESS, if tcp r then L4_TCP else L4_UDP)) by (intros; by destruct (tcp r)).
  rewrite Hp. cbn [ok negb]. unfold create_src_ip.
  destruct (parse_ip_at o _ _ (src_ip rule0) H1 Hs) as (y & -> & -> & Hy). rewrite decide_True by done.
  cbn [protocol src_ip dst_ip src_port dst_port]. rewrite Hy. cbn [ok negb]. unfold create_dst_ip.
  destruct (parse_ip_at o _ _ (dst_ip rule0) H2 Hd) as (z & -> & -> & Hz). rewrite decide_True by done.
  cbn [protocol src_ip dst_ip src_port dst_port]. rewrite Hz. cbn [ok negb]. unfold create_src_port.
  rewrite Hsp, decide_True by done. cbn [ok negb]. unfold create_dst_port. rewrite Hdp, decide_True by done.
  cbn [protocol src_ip dst_ip src_port dst_port]. by rewrite Hspn, Hdpn.
Qed.

Lemma drop_file_rules j l : drop_file j l -> rules_of j = Some (map rule_of l).
Proof.
  intros [(rules & Hj & Hn & Hall) Hok]. rewrite Forall_forall in Hok. unfold rules_of. rewrite Hj. obind. rewrite Hn.
  unfold zlen. rewrite Nat2Z.id.
  assert (Hp : forall l1 l2, l = l1 ++ l2 ->
    parse_rules rules (length l2) (Z.of_nat (length l1)) = (DOCA_SUCCESS, map rule_of l2)).
  { intros l1 l2. revert l1. induction l2 as [|x l2 IH]; intros l1 ->; [done|]. cbn [length parse_rules map].
    rewrite (drop_elem_rule _ x); [|apply Hok; set_solver|by apply Hall, list_lookup_middle].
    cbn [ok negb]. replace (Z.of_nat (length l1) + 1) with (Z.of_nat (length (l1 ++ [x]))) by (rewrite length_app; cbn; lia).
    by rewrite IH by (by rewrite <- app_assoc). }
  specialize (Hp [] l eq_refl). change (Z.of_nat (length (@nil fw_rule))) with 0 in Hp. by rewrite Hp.
Qed.
End Text.

(** The rule with its ports exchanged. *)
Definition exchanged (r : fw_rule) : fw_rule := FwRule (tcp r) (sip r) (dip r) (dport r) (sport r).

Definition roomy (m : doca_flow_match) : Prop := (8 <= length (l3 (outer m)))%nat /\ (4 <= length (l4 (outer m)))%nat.

Lemma length_be16 x : length (be16 x) = 2%nat.
Proof. apply length_be_bytes. Qed.

Lemma entry_match_asks r m :
  fw_rule_ok r -> roomy m -> asks (exchanged r) (entry_match (rule_of r) m) /\ roomy (entry_match (rule_of r) m).
Proof.
  intros (_ & _ & Hs & Hd) [H3 H4]. destruct m as [fl pm [sm dm et v0 v1 t3 b3 t4 b4] tn inn]. cbn [outer l3 l4] in *.
  unfold asks, roomy, entry_match, rule_of. rewrite !be16_cpu by done. destruct r as [t s d sp dp]. cbn [sport dport] in *.
  pose proof (length_be16 sp) as Lsp. pose proof (length_be16 dp) as Ldp.
  cbn [exchanged tcp sip dip sport dport protocol src_ip dst_ip src_port dst_port].
  generalize dependent (be16 sp). generalize dependent (be16 dp). intros bd Ld bs Ls. explode bd Ld. explode bs Ls.
  do 8 (destruct b3 as [|? b3]; cbn [length] in H3; [lia|]). do 4 (destruct b4 as [|? b4]; cbn [length] in H4; [lia|]).
  unfold ip4_bytes. split; [by split_and!|]. cbn. lia.
Qed.

Lemma rule_matches_asks l m :
  Forall fw_rule_ok l -> roomy m -> Forall2 asks (map exchanged l) (rule_matches (map rule_of l) m).
Proof.
  intros Hl. revert m. induction Hl as [|r l Hr Hl IH]; intros m Hm; cbn; [constructor|].
  destruct (entry_match_asks r m Hr Hm) as [Ha Hroom]. constructor; [done|by apply IH].
Qed.

Lemma exchanged_keys l : NoDup (map key l) -> NoDup (map key (map exchanged l)).
Proof.
  intros Hl. assert (map key (map exchanged l) = map (fun '(a, b, c, d) => (a, b, d, c)) (map key l)) as ->.
  { by rewrite !map_map. }
  apply NoDup_fmap_2; [|exact Hl]. intros [[[a b] c] d] [[[a' b'] c'] d']. by intros [= -> -> -> ->].
Qed.

Lemma exchanged_ok l : Forall fw_rule_ok l -> Forall fw_rule_ok (map exchanged l).
Proof. intros Hl. apply Forall_fmap. eapply Forall_impl; [exact Hl|]. intros r (? & ? & ? & ?). by split_and!. Qed.

Section Modes.
Context `{P : Platform} `{PF : !PromptFlow} `{RF : !ReadableFile} `{J : JsonC} `{RA : !RulesArray} `{HW : Steering}.
Context (strndup_ok : bool) (malloc : Z -> bool) (fopen : cstring -> bool).
Context (cl : bool) (input : list FlowParser.command) (p : FlowParser.parser) (HP : installs P).

(** The entries of the rules, at both ports. *)
Lemma static_mode_ok t0 t1 rules l h :
  held h = RRules :: l -> ready h t0 t1 [] [] ->
  runs (firewall_add_drop_rules [t0; t1] rules (zlen rules)) h (fun res h' => res = DOCA_SUCCESS /\ held h' = l /\
    let es := map static_entry (rule_matches rules match0) in ready h' t0 t1 es es).
Proof.
  intros Hh Hr. pose proof Hr as (Hs & p0 & p1 & H0 & H1 & Hnd). unfold firewall_add_drop_rules. cbn [NB_PORTS add_port_rules].
  change (rd [t0; t1] 0) with (Some t0). change (rd [t0; t1] (0 + 1)) with (Some t1). unfold add_drop_entries.
  unfold zlen. rewrite !decide_True, Nat2Z.id, firstn_all by lia.
  destruct H0 as (_ & _ & _ & (r0 & Hc0 & _) & _). destruct H1 as (_ & _ & _ & (r1 & Hc1 & _) & _).
  apply runs_bind. eapply runs_mono; [by eapply (add_entries_ok HP)|]. intros e h1 [-> He]. cbn [ok negb].
  pose proof (ready_entered0 _ _ _ _ _ _ _ Hr He) as Hr1.
  apply runs_bind. eapply runs_mono; [eapply (add_entries_ok HP); [apply Hr1|by eapply entered_lookup|done]|].
  intros e h2 [-> He2]. cbn [ok negb]. pose proof (ready_entered1 _ _ _ _ _ _ _ Hr1 He2) as Hr2.
  assert (Hh2 : held h2 = RRules :: l).
  { destruct He as (? & _ & _ & E1 & _), He2 as (? & _ & _ & E2 & _). congruence. }
  call_step. apply runs_ret. split; [done|]. split; [done|]. by eapply ready_grows.
Qed.

(** C5: in static mode, with a file of rules that differ in addresses and
    ports, both ports drop the packets that a rule describes with its source and
    destination port exchanged - the code swaps them - and forward to the other
    port what has the addresses and ports of no rule so exchanged: the packets
    that a rule describes as it is written pass, unless it or another rule has
    the same ports the other way round. *)
Theorem firewall_static_filters args c text l :
  config args = Some c -> mode c = FIREWALL_MODE_STATIC -> has_text P text -> drop_file (json_tokener_parse text) l ->
  NoDup (map key l) ->
  runs (start strndup_ok malloc fopen cl input p args) [] (fun s h => s = Waiting /\ forall port q, port = 0 \/ port = 1 ->
    (forall r, r ∈ l -> describes (exchanged r) q -> forward h port q = Dropped) /\
    ((forall r, r ∈ l -> ~ near (exchanged r) q) -> forward h port q = Sent (Z.lxor port 1) q)).
Proof.
  intros Hc Hm Ht [Hl Hok] Hnd. apply start_prefix; [intros s h _ H; by rewrite (H HP) in Hc|].
  intros c' ids h Hh _ _ H. destruct (H HP c Hc) as (-> & t0 & t1 & -> & Hr). unfold run_mode. rewrite Hm.
  apply runs_bind. eapply runs_mono; [by apply init_drop_rules_ok|]. intros [[e n] rules] h1 (Hg & Hs & j & Hj & H1).
  destruct (Hs (proj1 HP) text (map rule_of l) Ht) as [He ->]; [by apply drop_file_rules|].
  rewrite He in H1 |- *. cbn [negb]. destruct H1 as (rs & [= <-] & -> & Hh1).
  apply runs_bind. eapply runs_mono; [apply static_mode_ok; [done|by eapply ready_grows]|].
  intros e2 h2 (-> & Hh2 & Hr2). cbn [ok negb]. apply runs_ret. split; [done|]. intros port q Hport.
  set (es := map static_entry (rule_matches (map rule_of l) match0)) in *.
  assert (Hd : Forall drops es) by (apply Forall_fmap, Forall_true; intros m; by left).
  pose proof (ready_forward HP _ j _ _ _ _ Hr2 Hh2 Hd Hd port es q) as Hf.
  destruct (rules_verdict static_entry (map exchanged l) (rule_matches (map rule_of l) match0) (Z.lxor port 1) q)
    as [V1 V2]; [done|by apply rule_matches_asks; [|split; cbn; lia]|by apply exchanged_ok|by apply exchanged_keys|].
  split.
  - intros r Hr' Hdes. apply Hf; [by destruct Hport; auto|]. apply (V1 (exchanged r)); [|done].
    apply list_elem_of_fmap. by exists r.
  - intros Hno. apply Hf; [by destruct Hport; auto|]. apply V2. left. intros r' (r & -> & Hr')%list_elem_of_fmap. by apply Hno.
Qed.
End Modes.

(** ** Rules that are typed *)

(** The commands that install rules on the first port. *)
Definition commands_of (l : list fw_rule) : list FlowParser.command :=
  concat (map (fun r => [FlowParser.CmdStruct (str "entry_match") (FlowParserSpec.render (fw_rule_fields r));
                         FlowParser.CmdAddEntry (str "port_id=" ++ dec 0)]) l).

Lemma commands_run ok malloc fopen l p :
  Forall fw_rule_ok l ->
  exists p', FlowParser.interact ok malloc fopen registered true (commands_of l) p =
    FlowParser.Ret (p', map (FlowParser.FwAddEntry 0) (map fw_rule_match l)).
Proof.
  intros Hl. revert p. induction Hl as [|r l Hr Hl IH]; intros p; [by exists p|].
  destruct (FlowParserSpec.fw_rule_commands ok malloc fopen registered p r 0 Hr) as [p1 E]; [done|done|].
  destruct (IH p1) as [p2 E2]. exists p2. unfold commands_of in *. cbn [map concat app]. by rewrite E, E2.
Qed.

Lemma typed_asks l : Forall2 asks l (map fw_rule_match l).
Proof. induction l as [|r l IH]; cbn; constructor; [by split_and!|done]. Qed.

Section Interactive.
Context `{P : Platform} `{PF : !PromptFlow} `{RF : !ReadableFile} `{J : JsonC} `{RA : !RulesArray} `{HW : Steering}.
Context (strndup_ok : bool) (malloc : Z -> bool) (fopen : cstring -> bool) (p : FlowParser.parser) (HP : installs P).

(** C6: in interactive mode, a rule that is typed for port 0 - "create
    entry_match" with the addresses, protocol and ports, then "add entry" -
    makes that port drop exactly the packets it describes, ports as written;
    what is near to no rule passes to port 1, and port 1 passes everything. *)
Theorem firewall_interactive_filters args c l :
  config args = Some c -> mode c = FIREWALL_MODE_INTERACTIVE -> Forall fw_rule_ok l -> NoDup (map key l) ->
  runs (start strndup_ok malloc fopen true (commands_of l) p args) [] (fun s h => s = Waiting /\ forall q,
    (forall r, r ∈ l -> describes r q -> forward h 0 q = Dropped) /\
    ((forall r, r ∈ l -> ~ near r q) -> forward h 0 q = Sent 1 q) /\
    forward h 1 q = Sent 0 q).
Proof.
  intros Hc Hm Hok Hnd. apply start_prefix; [intros s h _ H; by rewrite (H HP) in Hc|].
  intros c' ids h Hh _ _ H. destruct (H HP c Hc) as (-> & t0 & t1 & -> & Hr). unfold run_mode. rewrite Hm.
  destruct (commands_run strndup_ok malloc fopen l (FlowParser.reset_doca_flow_structs p) Hok) as [p' Hcmd].
  unfold interactive, FlowParser.flow_parser_init. cbn [negb]. rewrite Hcmd. cbn [FlowParser.obnd].
  pose proof Hr as (Hs & p0 & p1 & (_ & _ & _ & (r0 & Hc0 & _) & _) & _).
  apply runs_bind, runs_bind. eapply runs_mono; [by apply (typed_entries_ok HP [t0; t1] t0 _ _ _ _ _ r0 Hs eq_refl Hc0)|].
  intros [] h1 He. apply runs_ret. cbn [ok negb]. apply runs_ret. split; [done|]. intros q.
  pose proof (ready_entered0 _ _ _ _ _ _ _ Hr He) as Hr1. cbn [app] in Hr1.
  assert (Hh1 : held h1 = opened) by (destruct He as (? & _ & _ & -> & _); done).
  assert (Hd : Forall drops (map typed_entry (map fw_rule_match l))).
  { apply Forall_fmap, Forall_true. intros m. by right. }
  pose proof (ready_forward HP _ [] _ _ _ _ Hr1 Hh1 Hd (Forall_nil_2 _)) as Hf.
  destruct (rules_verdict typed_entry l (map fw_rule_match l) (Z.lxor 0 1) q) as [V1 V2]; [done|apply typed_asks|done|done|].
  split; [|split].
  - intros r Hr' Hdes. eapply Hf; [by left|]. by apply (V1 r).
  - intros Hno. eapply Hf; [by left|]. apply V2. by left.
  - by apply (Hf 1 [] q); [right|].
Qed.
End Interactive.

(** ** Concrete runs *)

Definition fw_tree : jtree :=
  JObj [(str "rules", JArr [
    JObj [(str "protocol", JStr (str "tcp")); (str "src-ip", JStr (str "10.0.0.1")); (str "dst-ip", JStr (str "10.0.0.2"));
          (str "src-port", JInt 1000); (str "dst-port", JInt 80)];
    JObj [(str "protocol", JStr (str "udp")); (str "src-ip", JStr (str "10.0.0.3")); (str "dst-ip", JStr (str "10.0.0.2"));
          (str "src-port", JInt 53); (str "dst-port", JInt 53)]])].
Definition fw_lines : list fw_rule :=
  [FwRule true (Ip 10 0 0 1) (Ip 10 0 0 2) 1000 80; FwRule false (Ip 10 0 0 3) (Ip 10 0 0 2) 53 53].
Definition fw_json : JsonC := demo_json demo_text fw_tree.
Definition fw_platform : Platform := demo_reply demo_text (fun _ => []).
Definition fw_args (m : cstring) : list arg := [ArgMode m; ArgRules (str "rules.json")].

Lemma fw_array : @RulesArray fw_json.
Proof.
  intros s rules. change (json_tokener_parse s) with (if strcmp s demo_text then Some fw_tree else None).
  destruct (strcmp s demo_text); [|done]. intros [= <-]. eexists. split; [reflexivity|]. by vm_compute.
Qed.
Lemma fw_installs : installs fw_platform.
Proof. split; [apply demo_succeeds|done]. Qed.
Lemma fw_file : @drop_file fw_json (Some fw_tree) fw_lines.
Proof.
  split; [|by repeat constructor]. eexists. split; [reflexivity|]. split; [reflexivity|].
  intros [|[|i]] x [= <-]; repeat split; eexists; split_and!; reflexivity.
Qed.
Lemma fw_keys : NoDup (map key fw_lines).
Proof. apply (bool_decide_unpack _). by vm_compute. Qed.

Definition never (_ : Z) : bool := false.
Definition no_file (_ : cstring) : bool := false.
Definition flush_input : list FlowParser.command := [FlowParser.CmdFlushPipe (str "port_id=1"); FlowParser.CmdQuit].

Lemma firewall_releases_witness :
  runs (@main fw_platform fw_json true never no_file true flush_input FlowParser.parser0 (fw_args (str "interactive"))) []
    released.
Proof.
  apply (@firewall_releases fw_platform (demo_prompt _ _) (demo_readable _ _) fw_json fw_array).
  right. split; [|apply succeeds_accepting, demo_succeeds].
  eexists _, _, _. split; [vm_compute; reflexivity|]. by repeat constructor.
Defined.

(** A packet of the first rule passes, one with its ports exchanged does not. *)
Lemma firewall_static_filters_witness :
  let q sp dp := Pkt true L4_TCP (ip4_bytes (Ip 10 0 0 1)) (ip4_bytes (Ip 10 0 0 2)) (be16 sp) (be16 dp) in
  runs (@start fw_platform fw_json true never no_file true [] FlowParser.parser0 (fw_args (str "static"))) [] (fun _ h =>
    forward (Steering := demo_hardware) h 0 (q 1000 80) = Sent 1 (q 1000 80) /\
    forward (Steering := demo_hardware) h 0 (q 80 1000) = Dropped).
Proof.
  intros q. eapply runs_mono; [eapply (@firewall_static_filters fw_platform (demo_prompt _ _) (demo_readable _ _) fw_json
    fw_array demo_hardware true never no_file true [] FlowParser.parser0 fw_installs (fw_args (str "static"))
    (Cfg FIREWALL_MODE_STATIC (str "rules.json") true) demo_text fw_lines)|].
  - reflexivity.
  - reflexivity.
  - apply demo_has_text. by repeat constructor.
  - apply fw_file.
  - apply fw_keys.
  - intros s h [_ H]. split; [apply (H 0); [by left|]|apply (H 0 (q 80 1000)) with (r := FwRule true (Ip 10 0 0 1) (Ip 10 0 0 2) 1000 80); [by left|by left|by split_and!]].
    intros r [->|[->|[]%elem_of_nil]%elem_of_cons]%elem_of_cons (E1 & E2 & E3 & E4); done.
Defined.

Lemma firewall_interactive_filters_witness :
  let q sp dp := Pkt true L4_TCP (ip4_bytes (Ip 10 0 0 1)) (ip4_bytes (Ip 10 0 0 2)) (be16 sp) (be16 dp) in
  runs (@start fw_platform fw_json true never no_file true (commands_of fw_lines) FlowParser.parser0
          (fw_args (str "interactive"))) [] (fun _ h =>
    forward (Steering := demo_hardware) h 0 (q 1000 80) = Dropped /\
    forward (Steering := demo_hardware) h 0 (q 80 1000) = Sent 1 (q 80 1000)).
Proof.
  intros q. eapply runs_mono; [eapply (@firewall_interactive_filters fw_platform (demo_prompt _ _) fw_json demo_hardware true never no_file FlowParser.parser0 fw_installs (fw_args (str "interactive"))
    (Cfg FIREWALL_MODE_INTERACTIVE (str "rules.json") true) fw_lines)|].
  - reflexivity.
  - reflexivity.
  - by repeat constructor.
  - apply fw_keys.
  - intros s h [_ H]. split.
    + destruct (H (q 1000 80)) as [H1 _]. apply (H1 (FwRule true (Ip 10 0 0 1) (Ip 10 0 0 2) 1000 80)); [by left|by split_and!].
    + destruct (H (q 80 1000)) as (_ & H2 & _). apply H2.
      intros r [->|[->|[]%elem_of_nil]%elem_of_cons]%elem_of_cons (E1 & E2 & E3 & E4); done.
Defined.
