(* ===== verification/GatewayConfig.v ===== *)
(** * Configuration of the IPsec gateway

    config.c and the start of main (ipsec_security_gw.c): the arguments, the
    settings and rules of the JSON file, their validation.  The configuration
    under construction is the state of a monad in which [None] is undefined
    behaviour - an access outside the arrays of rules or of a key, an array
    function on something else; a parser takes the value its out parameter has. *)

From S2P Require Import Prelude CString FlowTypes FlowFields AntiReplay Mbuf EspPacket FlowPipes.
From S2P Require Import GatewayAddr GatewayRules Policy Json.
#[local] Open Scope Z_scope.
#[local] Open Scope doca_scope.

Definition MAX_CORES : Z := 32.
Definition MAX_FILE_NAME : nat := 255.
Definition MAX_SOCKET_PATH_NAME : nat := 108.
Definition DOCA_DEVINFO_PCI_ADDR_SIZE : nat := 13.
Definition DOCA_DEVINFO_IFACE_NAME_SIZE : nat := 256.
Definition DEFAULT_NB_CORES : Z := 4.

(** A table of addresses as rte_hash_create gives it. *)
Class Ip6Table (T : Type) `{Ip6Hash T} := {
  rte_hash_create : T;
  rte_hash_create_law : forall k, h6_lookup rte_hash_create k < 0
}.

(** struct ipsec_security_gw_dev_info *)
Record gw_dev_info := DevInfo {
  pci_addr : cstring; iface_name : cstring; open_by_pci : bool; open_by_name : bool; has_device : bool
}.

(** struct ipsec_security_gw_config: what the configuration sets.  Arrays that
    are not allocated and the table that is not created are [None]. *)
Record app_config {T : Type} := AppCfg {
  gw : gw_config;
  json_path : cstring;
  app_ip6_table : option T;
  encrypt_array : option (list gw_encrypt_rule);
  decrypt_array : option (list gw_decrypt_rule);
  nb_encrypted : Z;
  nb_decrypted : Z;
  secured_dev : gw_dev_info;
  unsecured_dev : gw_dev_info;
  socket_path : cstring;
  nb_cores : Z
}.
Arguments app_config : clear implicits.

Section Setters.
Context {T : Type}.
Implicit Types c : app_config T.

Definition set_gw (g : gw_config) c : app_config T :=
  AppCfg T g (json_path c) (app_ip6_table c) (encrypt_array c) (decrypt_array c) (nb_encrypted c) (nb_decrypted c)
    (secured_dev c) (unsecured_dev c) (socket_path c) (nb_cores c).
Definition set_json_path (p : cstring) c : app_config T :=
  AppCfg T (gw c) p (app_ip6_table c) (encrypt_array c) (decrypt_array c) (nb_encrypted c) (nb_decrypted c)
    (secured_dev c) (unsecured_dev c) (socket_path c) (nb_cores c).
Definition set_table (t : T) c : app_config T :=
  AppCfg T (gw c) (json_path c) (Some t) (encrypt_array c) (decrypt_array c) (nb_encrypted c) (nb_decrypted c)
    (secured_dev c) (unsecured_dev c) (socket_path c) (nb_cores c).
Definition set_encrypt_array (rs : list gw_encrypt_rule) c : app_config T :=
  AppCfg T (gw c) (json_path c) (app_ip6_table c) (Some rs) (decrypt_array c) (nb_encrypted c) (nb_decrypted c)
    (secured_dev c) (unsecured_dev c) (socket_path c) (nb_cores c).
Definition set_decrypt_array (rs : list gw_decrypt_rule) c : app_config T :=
  AppCfg T (gw c) (json_path c) (app_ip6_table c) (encrypt_array c) (Some rs) (nb_encrypted c) (nb_decrypted c)
    (secured_dev c) (unsecured_dev c) (socket_path c) (nb_cores c).
Definition set_counts (e d : Z) c : app_config T :=
  AppCfg T (gw c) (json_path c) (app_ip6_table c) (encrypt_array c) (decrypt_array c) e d
    (secured_dev c) (unsecured_dev c) (socket_path c) (nb_cores c).
Definition set_devs (s u : gw_dev_info) c : app_config T :=
  AppCfg T (gw c) (json_path c) (app_ip6_table c) (encrypt_array c) (decrypt_array c) (nb_encrypted c) (nb_decrypted c)
    s u (socket_path c) (nb_cores c).
Definition set_socket_path (p : cstring) c : app_config T :=
  AppCfg T (gw c) (json_path c) (app_ip6_table c) (encrypt_array c) (decrypt_array c) (nb_encrypted c) (nb_decrypted c)
    (secured_dev c) (unsecured_dev c) p (nb_cores c).
Definition set_cores (n : Z) c : app_config T :=
  AppCfg T (gw c) (json_path c) (app_ip6_table c) (encrypt_array c) (decrypt_array c) (nb_encrypted c) (nb_decrypted c)
    (secured_dev c) (unsecured_dev c) (socket_path c) n.
End Setters.

(** Members of struct ipsec_security_gw_config inside [gw]. *)
Definition set_mode (m : ipsec_security_gw_mode) (g : gw_config) : gw_config :=
  GwConfig (Config (sw_sn_inc_enable (base g)) (sw_antireplay (base g)) m (sn_initial (base g)))
    (flow_mode g) (offload g) (socket_conf g).
Definition set_flow_mode (m : ipsec_security_gw_flow_mode) (g : gw_config) : gw_config :=
  GwConfig (base g) m (offload g) (socket_conf g).
Definition set_offload (o : ipsec_security_gw_esp_offload) (g : gw_config) : gw_config :=
  GwConfig (base g) (flow_mode g) o (socket_conf g).
Definition set_socket_conf (b : bool) (g : gw_config) : gw_config := GwConfig (base g) (flow_mode g) (offload g) b.
Definition set_sw_sn_inc (b : bool) (g : gw_config) : gw_config :=
  GwConfig (Config b (sw_antireplay (base g)) (mode (base g)) (sn_initial (base g))) (flow_mode g) (offload g) (socket_conf g).
Definition set_sw_antireplay (b : bool) (g : gw_config) : gw_config :=
  GwConfig (Config (sw_sn_inc_enable (base g)) b (mode (base g)) (sn_initial (base g))) (flow_mode g) (offload g) (socket_conf g).
Definition set_sn_initial (n : Z) (g : gw_config) : gw_config :=
  GwConfig (Config (sw_sn_inc_enable (base g)) (sw_antireplay (base g)) (mode (base g)) n) (flow_mode g) (offload g) (socket_conf g).

(** [struct ipsec_security_gw_config app_cfg = {0}] *)
Definition gw_config0 : gw_config :=
  GwConfig (Config false false IPSEC_SECURITY_GW_TUNNEL 0) IPSEC_SECURITY_GW_VNF IPSEC_SECURITY_GW_ESP_OFFLOAD_BOTH false.
Definition dev_info0 : gw_dev_info := DevInfo [] [] false false false.
Definition app_config0 {T} : app_config T := AppCfg T gw_config0 [] None None None 0 0 dev_info0 dev_info0 [] 0.

(** Members of the rules. *)
Definition set_sa_icv (x : Z) (a : gw_sa_attrs) : gw_sa_attrs :=
  SaAttrs x (sa_key_type a) (sa_enc_key_data a) (sa_salt a) (sa_direction a).
Definition set_sa_key_type (x : doca_encryption_key_type) (a : gw_sa_attrs) : gw_sa_attrs :=
  SaAttrs (sa_icv_length a) x (sa_enc_key_data a) (sa_salt a) (sa_direction a).
Definition set_sa_key (x : list Z) (a : gw_sa_attrs) : gw_sa_attrs :=
  SaAttrs (sa_icv_length a) (sa_key_type a) x (sa_salt a) (sa_direction a).
Definition set_sa_salt (x : Z) (a : gw_sa_attrs) : gw_sa_attrs :=
  SaAttrs (sa_icv_length a) (sa_key_type a) (sa_enc_key_data a) x (sa_direction a).

Definition set_e_l3 (x : doca_flow_l3_type) (r : gw_encrypt_rule) : gw_encrypt_rule :=
  GwEnc x (e_protocol r) (e_addrs r) (e_src_port r) (e_dst_port r) (e_encap_l3_type r) (e_encap_dst r) (e_esp_spi r)
    (e_current_sn r) (e_sa r) (e_sa_attrs r).
Definition set_e_protocol (x : doca_flow_l4_type_ext) (r : gw_encrypt_rule) : gw_encrypt_rule :=
  GwEnc (e_l3_type r) x (e_addrs r) (e_src_port r) (e_dst_port r) (e_encap_l3_type r) (e_encap_dst r) (e_esp_spi r)
    (e_current_sn r) (e_sa r) (e_sa_attrs r).
Definition set_e_encap_l3 (x : doca_flow_l3_type) (r : gw_encrypt_rule) : gw_encrypt_rule :=
  GwEnc (e_l3_type r) (e_protocol r) (e_addrs r) (e_src_port r) (e_dst_port r) x (e_encap_dst r) (e_esp_spi r)
    (e_current_sn r) (e_sa r) (e_sa_attrs r).
Definition set_e_encap_dst (x : bytes) (r : gw_encrypt_rule) : gw_encrypt_rule :=
  GwEnc (e_l3_type r) (e_protocol r) (e_addrs r) (e_src_port r) (e_dst_port r) (e_encap_l3_type r)
    (splice 0 x (e_encap_dst r)) (e_esp_spi r) (e_current_sn r) (e_sa r) (e_sa_attrs r).
Definition set_e_ports (x y : Z) (r : gw_encrypt_rule) : gw_encrypt_rule :=
  GwEnc (e_l3_type r) (e_protocol r) (e_addrs r) x y (e_encap_l3_type r) (e_encap_dst r) (e_esp_spi r)
    (e_current_sn r) (e_sa r) (e_sa_attrs r).
Definition set_e_spi (x : Z) (r : gw_encrypt_rule) : gw_encrypt_rule :=
  GwEnc (e_l3_type r) (e_protocol r) (e_addrs r) (e_src_port r) (e_dst_port r) (e_encap_l3_type r) (e_encap_dst r) x
    (e_current_sn r) (e_sa r) (e_sa_attrs r).

Definition set_d_l3 (x : doca_flow_l3_type) (r : gw_decrypt_rule) : gw_decrypt_rule :=
  GwDec x (d_dst r) (d_esp_spi r) (d_inner_l3_type r) (d_sa r) (d_sa_attrs r) (d_entries r).
Definition set_d_dst (x : bytes) (r : gw_decrypt_rule) : gw_decrypt_rule :=
  GwDec (d_l3_type r) (splice 0 x (d_dst r)) (d_esp_spi r) (d_inner_l3_type r) (d_sa r) (d_sa_attrs r) (d_entries r).
Definition set_d_spi (x : Z) (r : gw_decrypt_rule) : gw_decrypt_rule :=
  GwDec (d_l3_type r) (d_dst r) x (d_inner_l3_type r) (d_sa r) (d_sa_attrs r) (d_entries r).
Definition set_d_inner (x : doca_flow_l3_type) (r : gw_decrypt_rule) : gw_decrypt_rule :=
  GwDec (d_l3_type r) (d_dst r) (d_esp_spi r) x (d_sa r) (d_sa_attrs r) (d_entries r).
Definition set_d_sa_attrs (a : gw_sa_attrs) (r : gw_decrypt_rule) : gw_decrypt_rule :=
  GwDec (d_l3_type r) (d_dst r) (d_esp_spi r) (d_inner_l3_type r) (d_sa r) a (d_entries r).

(** ** Keys *)

Definition tolower (c : Z) : Z := if (65 <=? c) && (c <=? 90) then c + 32 else c.

(** A digit of a key; the arithmetic is that of uint8_t. *)
Definition key_digit (c : Z) : option Z :=
  if (48 <=? c) && (c <=? 57) then Some (u8 (c - 48))
  else if (97 <=? tolower c) && (tolower c <=? 102) then Some (u8 (c - 97 + 10))
  else None.

(** [for (i = 0; i < key_size; i++)] from [i] on; the string has [key_size]
    characters. *)
Fixpoint hex_loop (key_hex : cstring) (i : Z) (key : bytes) : option (doca_error * bytes) :=
  match key_hex with
  | [] => Some (DOCA_SUCCESS, key)
  | c :: key_hex' =>
      match key_digit c with
      | None => Some (DOCA_ERROR_INVALID_VALUE, key)
      | Some digit =>
          b ← rd key (i / 2);
          key ← wr key (i / 2) (u8 (Z.shiftl b 4 + digit));
          hex_loop key_hex' (i + 1) key
      end
  end.
Definition parse_hex_to_bytes (key_hex : cstring) (key_size : nat) (key : bytes) : option (doca_error * bytes) :=
  hex_loop (take key_size key_hex) 0 key.

(** ** Members of a rule *)

Section Members.
Context `{J : JsonC}.
Implicit Types cur_rule : option json.

Definition create_key cur_rule (key_type : doca_encryption_key_type) (key : bytes) : option (doca_error * bytes) :=
  match json_object_object_get_ex cur_rule (str "key") with
  | None => Some (DOCA_ERROR_INVALID_VALUE, key)
  | Some json_key =>
      if decide (json_object_get_type json_key = json_type_string) then
        let key_str := json_object_get_string json_key in
        let max_key_size := (match key_type with DOCA_ENCRYPTION_KEY_AESGCM_128 => 32 | _ => 64 end)%nat in
        let key_len := strnlen key_str (max_key_size + 1) in
        if (key_len =? max_key_size + 1)%nat then Some (DOCA_ERROR_INVALID_VALUE, key)
        else if negb (key_len mod 2 =? 0)%nat then Some (DOCA_ERROR_INVALID_VALUE, key)
        else parse_hex_to_bytes key_str key_len key
      else Some (DOCA_ERROR_INVALID_VALUE, key)
  end.

Definition create_key_type cur_rule (old : doca_encryption_key_type) : doca_error * doca_encryption_key_type :=
  match json_object_object_get_ex cur_rule (str "key-type") with
  | None => (DOCA_SUCCESS, DOCA_ENCRYPTION_KEY_AESGCM_256)
  | Some json_key_type =>
      if decide (json_object_get_type json_key_type = json_type_int) then
        let key_len := json_object_get_int json_key_type in
        if key_len =? 128 then (DOCA_SUCCESS, DOCA_ENCRYPTION_KEY_AESGCM_128)
        else if key_len =? 256 then (DOCA_SUCCESS, DOCA_ENCRYPTION_KEY_AESGCM_256)
        else (DOCA_ERROR_INVALID_VALUE, old)
      else (DOCA_ERROR_INVALID_VALUE, old)
  end.

Definition create_salt cur_rule (old : Z) : doca_error * Z :=
  match json_object_object_get_ex cur_rule (str "salt") with
  | None => (DOCA_SUCCESS, 6)
  | Some json_salt =>
      if decide (json_object_get_type json_salt = json_type_int) then (DOCA_SUCCESS, u32 (json_object_get_int json_salt))
      else (DOCA_ERROR_INVALID_VALUE, old)
  end.

Definition parse_icv_length (json_config : option json) (old : Z) : doca_error * Z :=
  match json_object_object_get_ex json_config (str "icv-length") with
  | None => (DOCA_SUCCESS, DOCA_IPSEC_ICV_LENGTH_16)
  | Some icv_length_config =>
      if decide (json_object_get_type icv_length_config = json_type_int) then
        let icv_length_int := json_object_get_int icv_length_config in
        if icv_length_int =? 8 then (DOCA_SUCCESS, DOCA_IPSEC_ICV_LENGTH_8)
        else if icv_length_int =? 12 then (DOCA_SUCCESS, DOCA_IPSEC_ICV_LENGTH_12)
        else if icv_length_int =? 16 then (DOCA_SUCCESS, DOCA_IPSEC_ICV_LENGTH_16)
        else (DOCA_ERROR_INVALID_VALUE, old)
      else (DOCA_ERROR_INVALID_VALUE, old)
  end.

Definition create_protocol cur_rule (old : doca_flow_l4_type_ext) : doca_error * doca_flow_l4_type_ext :=
  match json_object_object_get_ex cur_rule (str "protocol") with
  | None => (DOCA_ERROR_INVALID_VALUE, old)
  | Some json_protocol =>
      if decide (json_object_get_type json_protocol = json_type_string)
      then parse_protocol_string (json_object_get_string json_protocol) old
      else (DOCA_ERROR_INVALID_VALUE, old)
  end.

Definition create_l3_type cur_rule (ip_version_string : cstring) (old : doca_flow_l3_type) : doca_error * doca_flow_l3_type :=
  match json_object_object_get_ex cur_rule ip_version_string with
  | None => (DOCA_SUCCESS, L3_IP4)
  | Some json_ip =>
      if decide (json_object_get_type json_ip = json_type_int) then
        let ip := json_object_get_int json_ip in
        if ip =? 4 then (DOCA_SUCCESS, L3_IP4)
        else if ip =? 6 then (DOCA_SUCCESS, L3_IP6)
        else (DOCA_ERROR_INVALID_VALUE, old)
      else (DOCA_ERROR_INVALID_VALUE, old)
  end.

Definition create_ipv4 cur_rule (ip_type : cstring) (ip : bytes) : doca_error * bytes :=
  match json_object_object_get_ex cur_rule ip_type with
  | None => (DOCA_ERROR_INVALID_VALUE, ip)
  | Some json_ip =>
      if decide (json_object_get_type json_ip = json_type_string) then parse_ipv4_str (json_object_get_string json_ip) ip
      else (DOCA_ERROR_INVALID_VALUE, ip)
  end.

Definition create_ipv6 cur_rule (ip_type : cstring) (ip : bytes) : doca_error * bytes :=
  match json_object_object_get_ex cur_rule ip_type with
  | None => (DOCA_ERROR_INVALID_VALUE, ip)
  | Some json_ip =>
      if decide (json_object_get_type json_ip = json_type_string) then parse_ipv6_str (json_object_get_string json_ip) ip
      else (DOCA_ERROR_INVALID_VALUE, ip)
  end.

Definition create_port cur_rule (port_type : cstring) (port : Z) : doca_error * Z :=
  match json_object_object_get_ex cur_rule port_type with
  | None => (DOCA_ERROR_INVALID_VALUE, port)
  | Some json_port =>
      if decide (json_object_get_type json_port = json_type_int) then (DOCA_SUCCESS, json_object_get_int json_port)
      else (DOCA_ERROR_INVALID_VALUE, port)
  end.

Definition create_spi cur_rule (esp_spi : Z) : doca_error * Z :=
  match json_object_object_get_ex cur_rule (str "spi") with
  | None => (DOCA_ERROR_INVALID_VALUE, esp_spi)
  | Some json_spi =>
      if decide (json_object_get_type json_spi = json_type_int) then (DOCA_SUCCESS, u32 (json_object_get_int json_spi))
      else (DOCA_ERROR_INVALID_VALUE, esp_spi)
  end.
End Members.

(** ** Rules *)

(** A parser whose out parameter is a member of the state. *)
Definition out {S A} (get : S -> A) (set : A -> S -> S) (p : A -> doca_error * A) : ST S doca_error := fun s =>
  let '(result, x) := p (get s) in Some (result, set x s).
Definition out_opt {S A} (get : S -> A) (set : A -> S -> S) (p : A -> option (doca_error * A)) : ST S doca_error := fun s =>
  '(result, x) ← p (get s); Some (result, set x s).

Section Rules.
Context {T : Type} `{Ip6Hash T} `{J : JsonC}.

(** Work on a rule of an array: [None] when the index is outside. *)
Definition on_encrypt {A} (i : Z) (m : ST gw_encrypt_rule A) : ST (app_config T) A := fun c =>
  rs ← encrypt_array c;
  r ← rd rs i;
  '(a, r) ← m r;
  rs ← wr rs i r;
  Some (a, set_encrypt_array rs c).
Definition on_decrypt {A} (i : Z) (m : ST gw_decrypt_rule A) : ST (app_config T) A := fun c =>
  rs ← decrypt_array c;
  r ← rd rs i;
  '(a, r) ← m r;
  rs ← wr rs i r;
  Some (a, set_decrypt_array rs c).

(** rte_hash_lookup in the table of the configuration, and rte_hash_add_key
    when the address is not there. *)
Definition add_ip6 (k : bytes) : ST (app_config T) doca_error := fun c =>
  t ← app_ip6_table c;
  let '(result, t) := ip6_table_add k t in
  Some (result, set_table t c).

Definition parse_encrypt_ipv4 (cur_rule : option json) : ST gw_encrypt_rule doca_error :=
  out ip4_src_ip (set_addrs 0) (create_ipv4 cur_rule (str "src-ip")) >>?
  out ip4_dst_ip (set_addrs 4) (create_ipv4 cur_rule (str "dst-ip")) >>?
  mret DOCA_SUCCESS.

Definition parse_encrypt_ipv6 (cur_rule : option json) (i : Z) : ST (app_config T) doca_error :=
  on_encrypt i (out ip6_src_ip (set_addrs 0) (create_ipv6 cur_rule (str "src-ip"))) >>?
  on_encrypt i (out ip6_dst_ip (set_addrs 16) (create_ipv6 cur_rule (str "dst-ip"))) >>?
  r ← on_encrypt i get;
  add_ip6 (ip6_src_ip r) >>?
  r ← on_encrypt i get;
  add_ip6 (ip6_dst_ip r) >>?
  mret DOCA_SUCCESS.

Definition parse_encrypt_encap_ip (cur_rule : option json) : ST gw_encrypt_rule doca_error :=
  r ← get;
  if decide (e_encap_l3_type r = L3_IP4) then
    out (fun r => take 4 (e_encap_dst r)) set_e_encap_dst (create_ipv4 cur_rule (str "encap-dst-ip")) >>?
    mret DOCA_SUCCESS
  else
    out e_encap_dst set_e_encap_dst (create_ipv6 cur_rule (str "encap-dst-ip")) >>?
    mret DOCA_SUCCESS.

(** The members of [sa_attrs], in both kinds of rules. *)
Definition parse_sa_members (cur_rule : option json) : ST gw_sa_attrs doca_error :=
  out sa_key_type set_sa_key_type (create_key_type cur_rule) >>?
  a ← get;
  out_opt sa_enc_key_data set_sa_key (create_key cur_rule (sa_key_type a)) >>?
  out sa_icv_length set_sa_icv (parse_icv_length cur_rule) >>?
  out sa_salt set_sa_salt (create_salt cur_rule) >>?
  mret DOCA_SUCCESS.

(** [m] on a member. *)
Definition zoom {S A B} (get : S -> A) (set : A -> S -> S) (m : ST A B) : ST S B := fun s =>
  '(b, x) ← m (get s); Some (b, set x s).

(** One turn of the loop over the decryption rules. *)
Definition parse_decrypt_rule (cur_rule : option json) : ST gw_decrypt_rule doca_error :=
  out d_l3_type set_d_l3 (create_l3_type cur_rule (str "ip-version")) >>?
  r ← get;
  (if decide (d_l3_type r = L3_IP4)
   then out (fun r => take 4 (d_dst r)) set_d_dst (create_ipv4 cur_rule (str "dst-ip"))
   else out d_dst set_d_dst (create_ipv6 cur_rule (str "dst-ip"))) >>?
  out d_esp_spi set_d_spi (create_spi cur_rule) >>?
  out d_inner_l3_type set_d_inner (create_l3_type cur_rule (str "inner-ip-version")) >>?
  zoom d_sa_attrs set_d_sa_attrs
    (parse_sa_members cur_rule >>?
     a ← get; _ ← put (set_direction DOCA_IPSEC_DIRECTION_INGRESS_DECRYPT a); mret DOCA_SUCCESS).

(** From rule [i] on, [n] rules to go. *)
Fixpoint decrypt_rules_loop (json_rules : option json) (n : nat) (i : Z) : ST (app_config T) doca_error :=
  match n with
  | O => mret DOCA_SUCCESS
  | S n' =>
      on_decrypt i (parse_decrypt_rule (json_object_array_get_idx json_rules i)) >>?
      decrypt_rules_loop json_rules n' (i + 1)
  end.

Definition parse_json_decrypt_rules (json_rules : option json) : ST (app_config T) doca_error :=
  match json_object_array_length json_rules with
  | None => undef
  | Some len =>
      c ← get;
      _ ← put (set_counts (nb_encrypted c) (s32 len) c);
      if MAX_NB_RULES <? s32 len then mret DOCA_ERROR_INVALID_VALUE
      else decrypt_rules_loop json_rules (Z.to_nat (s32 len)) 0
  end.

Definition parse_encrypt_rule (cur_rule : option json) (i : Z) : ST (app_config T) doca_error :=
  on_encrypt i
    (out e_l3_type set_e_l3 (create_l3_type cur_rule (str "ip-version")) >>?
     out e_protocol set_e_protocol (create_protocol cur_rule) >>?
     out e_encap_l3_type set_e_encap_l3 (create_l3_type cur_rule (str "encap-ip-version"))) >>?
  r ← on_encrypt i get;
  (if decide (e_l3_type r = L3_IP4) then on_encrypt i (parse_encrypt_ipv4 cur_rule)
   else parse_encrypt_ipv6 cur_rule i) >>?
  c ← get;
  (if decide (mode (base (gw c)) = IPSEC_SECURITY_GW_TUNNEL) then on_encrypt i (parse_encrypt_encap_ip cur_rule)
   else mret DOCA_SUCCESS) >>?
  on_encrypt i
    (out e_src_port (fun x r => set_e_ports x (e_dst_port r) r) (create_port cur_rule (str "src-port")) >>?
     out e_dst_port (fun x r => set_e_ports (e_src_port r) x r) (create_port cur_rule (str "dst-port")) >>?
     out e_esp_spi set_e_spi (create_spi cur_rule) >>?
     zoom e_sa_attrs set_e_sa_attrs
       (parse_sa_members cur_rule >>?
        a ← get; _ ← put (set_direction DOCA_IPSEC_DIRECTION_EGRESS_ENCRYPT a); mret DOCA_SUCCESS)).

Fixpoint encrypt_rules_loop (json_rules : option json) (n : nat) (i : Z) : ST (app_config T) doca_error :=
  match n with
  | O => mret DOCA_SUCCESS
  | S n' =>
      parse_encrypt_rule (json_object_array_get_idx json_rules i) i >>? encrypt_rules_loop json_rules n' (i + 1)
  end.

Definition parse_json_encrypt_rules (json_rules : option json) : ST (app_config T) doca_error :=
  match json_object_array_length json_rules with
  | None => undef
  | Some len =>
      c ← get;
      _ ← put (set_counts (s32 len) (nb_decrypted c) c);
      if MAX_NB_RULES <? s32 len then mret DOCA_ERROR_INVALID_VALUE
      else encrypt_rules_loop json_rules (Z.to_nat (s32 len)) 0
  end.
End Rules.

(** ** Settings *)

Section Settings.
Context `{J : JsonC}.
Implicit Types json_config : option json.

Definition parse_esp_offload json_config (g : gw_config) : doca_error * gw_config :=
  match json_object_object_get_ex json_config (str "esp-header-offload") with
  | None => (DOCA_SUCCESS, g)
  | Some esp_header_offload =>
      if decide (json_object_get_type esp_header_offload = json_type_string) then
        let offload_str := json_object_get_string esp_header_offload in
        if strcmp offload_str (str "both") then (DOCA_SUCCESS, set_offload IPSEC_SECURITY_GW_ESP_OFFLOAD_BOTH g)
        else if strcmp offload_str (str "encap") then (DOCA_SUCCESS, set_offload IPSEC_SECURITY_GW_ESP_OFFLOAD_ENCAP g)
        else if strcmp offload_str (str "decap") then (DOCA_SUCCESS, set_offload IPSEC_SECURITY_GW_ESP_OFFLOAD_DECAP g)
        else if strcmp offload_str (str "none") then (DOCA_SUCCESS, set_offload IPSEC_SECURITY_GW_ESP_OFFLOAD_NONE g)
        else (DOCA_ERROR_INVALID_VALUE, g)
      else (DOCA_ERROR_INVALID_VALUE, g)
  end.

Definition parse_antireplay json_config (g : gw_config) : doca_error * gw_config :=
  match json_object_object_get_ex json_config (str "sw-antireplay-enable") with
  | None => (DOCA_SUCCESS, g)
  | Some sw_antireplay_enable =>
      if decide (json_object_get_type sw_antireplay_enable = json_type_boolean)
      then (DOCA_SUCCESS, set_sw_antireplay (json_object_get_boolean sw_antireplay_enable) g)
      else (DOCA_ERROR_INVALID_VALUE, g)
  end.

Definition parse_sn_inc json_config (g : gw_config) : doca_error * gw_config :=
  match json_object_object_get_ex json_config (str "sw-sn-inc-enable") with
  | None => (DOCA_SUCCESS, g)
  | Some sw_sn_inc_enable =>
      if decide (json_object_get_type sw_sn_inc_enable = json_type_boolean)
      then (DOCA_SUCCESS, set_sw_sn_inc (json_object_get_boolean sw_sn_inc_enable) g)
      else (DOCA_ERROR_INVALID_VALUE, g)
  end.

Definition parse_sn_initial json_config (g : gw_config) : doca_error * gw_config :=
  match json_object_object_get_ex json_config (str "sn-initial") with
  | None => (DOCA_SUCCESS, g)
  | Some sn_init_config =>
      if decide (json_object_get_type sn_init_config = json_type_int) then
        let sn_init := json_object_get_int64 sn_init_config in
        if (sn_init <? 0) || (UINT32_MAX <? sn_init) then (DOCA_ERROR_INVALID_VALUE, g)
        else (DOCA_SUCCESS, set_sn_initial (u64 sn_init) g)
      else (DOCA_ERROR_INVALID_VALUE, g)
  end.

Definition parse_switch_config json_config (g : gw_config) : doca_error * gw_config :=
  match json_object_object_get_ex json_config (str "switch") with
  | None => (DOCA_SUCCESS, g)
  | Some switch_config =>
      if decide (json_object_get_type switch_config = json_type_boolean) then
        let is_switch := json_object_get_boolean switch_config in
        (DOCA_SUCCESS, if is_switch then set_flow_mode IPSEC_SECURITY_GW_SWITCH g else g)
      else (DOCA_ERROR_INVALID_VALUE, g)
  end.

Definition parse_json_config json_config (g : gw_config) : doca_error * gw_config :=
  let '(result, g) := parse_switch_config json_config g in
  if negb (ok result) then (result, g) else
  let '(result, g) := parse_sn_initial json_config g in
  if negb (ok result) then (result, g) else
  let '(result, g) := parse_esp_offload json_config g in
  if negb (ok result) then (result, g) else
  let '(result, g) := parse_sn_inc json_config g in
  if negb (ok result) then (result, g) else
  parse_antireplay json_config g.
End Settings.

Definition offloads_encap (g : gw_config) : bool :=
  bool_decide (offload g = IPSEC_SECURITY_GW_ESP_OFFLOAD_BOTH) || bool_decide (offload g = IPSEC_SECURITY_GW_ESP_OFFLOAD_ENCAP).
Definition offloads_decap (g : gw_config) : bool :=
  bool_decide (offload g = IPSEC_SECURITY_GW_ESP_OFFLOAD_BOTH) || bool_decide (offload g = IPSEC_SECURITY_GW_ESP_OFFLOAD_DECAP).

Definition validate_config {T} (c : app_config T) : doca_error :=
  let g := gw c in
  if negb (has_device (secured_dev c)) then DOCA_ERROR_INVALID_VALUE
  else if bool_decide (flow_mode g = IPSEC_SECURITY_GW_VNF) && negb (has_device (unsecured_dev c)) then DOCA_ERROR_INVALID_VALUE
  else if bool_decide (flow_mode g = IPSEC_SECURITY_GW_VNF) &&
          (open_by_pci (unsecured_dev c) && open_by_name (unsecured_dev c)) then DOCA_ERROR_INVALID_VALUE
  else if open_by_pci (secured_dev c) && open_by_name (secured_dev c) then DOCA_ERROR_INVALID_VALUE
  else if sw_sn_inc_enable (base g) && offloads_encap g then DOCA_ERROR_INVALID_VALUE
  else if sw_antireplay (base g) && offloads_decap g then DOCA_ERROR_INVALID_VALUE
  else DOCA_SUCCESS.

(** ** Arguments *)

Inductive gw_arg :=
| ArgSecured (s : cstring) | ArgUnsecured (s : cstring) | ArgSecuredName (s : cstring) | ArgUnsecuredName (s : cstring)
| ArgNbCores (n : Z) | ArgConfig (s : cstring) | ArgMode (s : cstring) | ArgSocket (s : cstring).

Definition parse_pci_param (addr : cstring) (d : gw_dev_info) : doca_error * gw_dev_info :=
  if (strnlen addr DOCA_DEVINFO_PCI_ADDR_SIZE =? DOCA_DEVINFO_PCI_ADDR_SIZE)%nat then (DOCA_ERROR_INVALID_VALUE, d)
  else (DOCA_SUCCESS, DevInfo (strlcpy addr DOCA_DEVINFO_PCI_ADDR_SIZE) (iface_name d) true (open_by_name d) true).

Definition parse_iface_name_param (name : cstring) (d : gw_dev_info) : doca_error * gw_dev_info :=
  if (strnlen name DOCA_DEVINFO_IFACE_NAME_SIZE =? DOCA_DEVINFO_IFACE_NAME_SIZE)%nat then (DOCA_ERROR_INVALID_VALUE, d)
  else (DOCA_SUCCESS, DevInfo (pci_addr d) (strlcpy name DOCA_DEVINFO_IFACE_NAME_SIZE) (open_by_pci d) true true).

(** The history of the calls and the configuration. *)
Record world {T : Type} := World { hist : list event; app : app_config T }.
Arguments world : clear implicits.

Section Program.
Context {T : Type} `{IT : Ip6Table T} `{P : Platform} `{J : JsonC}.

(** Parts that work on one of the two. *)
Definition sys {A} (m : ST (list event) A) : ST (world T) A := fun w => '(a, h) ← m (hist w); Some (a, World T h (app w)).
Definition cfg {A} (m : ST (app_config T) A) : ST (world T) A := fun w => '(a, c) ← m (app w); Some (a, World T (hist w) c).

Definition secured_callback (s : cstring) : ST (app_config T) doca_error :=
  out secured_dev (fun d c => set_devs d (unsecured_dev c) c) (parse_pci_param s).
Definition unsecured_callback (s : cstring) : ST (app_config T) doca_error :=
  out unsecured_dev (fun d c => set_devs (secured_dev c) d c) (parse_pci_param s).
Definition secured_name_callback (s : cstring) : ST (app_config T) doca_error :=
  out secured_dev (fun d c => set_devs d (unsecured_dev c) c) (parse_iface_name_param s).
Definition unsecured_name_callback (s : cstring) : ST (app_config T) doca_error :=
  out unsecured_dev (fun d c => set_devs (secured_dev c) d c) (parse_iface_name_param s).

(** The first byte of the int, on a little-endian machine. *)
Definition nb_cores_callback (n : Z) : ST (app_config T) doca_error :=
  out nb_cores set_cores (fun _ => (DOCA_SUCCESS, u8 n)).

Definition config_callback (path : cstring) : ST (world T) doca_error :=
  if (strnlen path MAX_FILE_NAME =? MAX_FILE_NAME)%nat then mret DOCA_ERROR_INVALID_VALUE else
  result ← sys (call_err (Access path));
  if negb (ok result) then mret DOCA_ERROR_NOT_FOUND else
  cfg (out json_path set_json_path (fun _ => (DOCA_SUCCESS, strlcpy path MAX_FILE_NAME))).

Definition offload_mode_callback (m : cstring) : ST (app_config T) doca_error :=
  out gw set_gw (fun g =>
    if strcmp m (str "tunnel") then (DOCA_SUCCESS, set_mode IPSEC_SECURITY_GW_TUNNEL g)
    else if strcmp m (str "transport") then (DOCA_SUCCESS, set_mode IPSEC_SECURITY_GW_TRANSPORT g)
    else if strcmp m (str "udp_transport") then (DOCA_SUCCESS, set_mode IPSEC_SECURITY_GW_UDP_TRANSPORT g)
    else (DOCA_ERROR_INVALID_VALUE, g)).

Definition socket_callback (path : cstring) : ST (app_config T) doca_error :=
  if (strnlen path MAX_SOCKET_PATH_NAME =? MAX_SOCKET_PATH_NAME)%nat then mret DOCA_ERROR_INVALID_VALUE else
  c ← get;
  _ ← put (set_gw (set_socket_conf true (gw c)) (set_socket_path (strlcpy path MAX_SOCKET_PATH_NAME) c));
  mret DOCA_SUCCESS.

Definition gw_callback (a : gw_arg) : ST (world T) doca_error :=
  match a with
  | ArgSecured s => cfg (secured_callback s)
  | ArgUnsecured s => cfg (unsecured_callback s)
  | ArgSecuredName s => cfg (secured_name_callback s)
  | ArgUnsecuredName s => cfg (unsecured_name_callback s)
  | ArgNbCores n => cfg (nb_cores_callback n)
  | ArgConfig s => config_callback s
  | ArgMode s => cfg (offload_mode_callback s)
  | ArgSocket s => cfg (socket_callback s)
  end.
Fixpoint gw_callbacks (args : list gw_arg) : ST (world T) doca_error :=
  match args with [] => mret DOCA_SUCCESS | a :: args' => gw_callback a >>? gw_callbacks args' end.

(** doca_argp_param_create and doca_argp_register_param, for [n] parameters. *)
Fixpoint register_params (n : nat) : ST (list event) doca_error :=
  match n with
  | O => mret DOCA_SUCCESS
  | S n' => call_err ArgpParamCreate >>? call_err ArgpRegisterParam >>? register_params n'
  end.
Definition register_ipsec_security_gw_params : ST (list event) doca_error :=
  register_params 8 >>? call_err ArgpRegisterVersion.

(** ** The file *)

Definition create_ip6_table : ST (world T) doca_error :=
  result ← sys (call_err HashCreate);
  if negb (ok result) then mret DOCA_ERROR_DRIVER else
  c ← cfg get;
  _ ← cfg (put (set_table rte_hash_create c));
  mret DOCA_SUCCESS.

(** What follows the reading of the file; the buffer is freed after it, on
    every path. *)
Definition parse_rules_of (parsed_json : option json) : ST (world T) doca_error :=
  (match json_object_object_get_ex parsed_json (str "config") with
   | Some json_config => cfg (out gw set_gw (parse_json_config json_config))
   | None => mret DOCA_SUCCESS
   end) >>?
  c ← cfg get;
  mret (validate_config c) >>?
  if socket_conf (gw c) then mret DOCA_SUCCESS else
  match json_object_object_get_ex parsed_json (str "encrypt-rules") with
  | None => mret DOCA_ERROR_INVALID_VALUE
  | Some json_encrypt_rules =>
      match json_object_object_get_ex parsed_json (str "decrypt-rules") with
      | None => mret DOCA_ERROR_INVALID_VALUE
      | Some json_decrypt_rules =>
          cfg (parse_json_encrypt_rules json_encrypt_rules) >>? cfg (parse_json_decrypt_rules json_decrypt_rules)
      end
  end.

Definition ipsec_security_gw_parse_config : ST (world T) doca_error :=
  result ← sys (call_err (CallocRules MAX_NB_RULES));
  if negb (ok result) then mret DOCA_ERROR_NO_MEMORY else
  c ← cfg get;
  _ ← cfg (put (set_decrypt_array (replicate (Z.to_nat MAX_NB_RULES) decrypt_rule0) c));
  result ← sys (call_err (CallocRules MAX_NB_RULES));
  if negb (ok result) then mret DOCA_ERROR_NO_MEMORY else
  c ← cfg get;
  _ ← cfg (put (set_encrypt_array (replicate (Z.to_nat MAX_NB_RULES) encrypt_rule0) c));
  create_ip6_table >>?
  c ← cfg get;
  _ ← cfg (put (set_gw (set_flow_mode IPSEC_SECURITY_GW_VNF (gw c)) c));
  result ← sys (call_err (Fopen (json_path c)));
  if negb (ok result) then mret DOCA_ERROR_IO_FAILED else
  '(result, file_length, json_data) ← sys allocate_json_buffer_dynamic;
  if negb (ok result) then _ ← sys (call_unit Fclose); mret result else
  '(_, json_data) ← sys (fread_json file_length json_data);
  _ ← sys (call_unit Fclose);
  parsed_json ← sys (parse_buffer json_data);
  result ← parse_rules_of parsed_json;
  _ ← sys (call_unit FreeBuffer);
  mret result.

(** main up to the configuration: [None] when it has returned, else the exit
    label [argp_destroy] or the configuration. *)
Inductive gw_stage := GwReturned | GwArgpDestroy | GwConfigured.

Definition gw_start (args : list gw_arg) : ST (world T) gw_stage :=
  c ← cfg get;
  _ ← cfg (put (set_cores DEFAULT_NB_CORES c));
  result ← sys (call_err (LogBackend 0));
  if negb (ok result) then mret GwReturned else
  result ← sys (call_err (LogBackend 1));
  if negb (ok result) then mret GwReturned else
  result ← sys (call_err (LogBackend 2));
  if negb (ok result) then mret GwReturned else
  result ← sys (call_err ArgpInit);
  if negb (ok result) then mret GwReturned else
  result ← sys register_ipsec_security_gw_params;
  if negb (ok result) then _ ← sys (call_unit ArgpDestroy); mret GwReturned else
  result ← (gw_callbacks args >>? sys (call_err (ArgpStart false)));
  if negb (ok result) then _ ← sys (call_unit ArgpDestroy); mret GwReturned else
  result ← sys (call_err EalInit);
  if negb (ok result) then mret GwArgpDestroy else
  result ← ipsec_security_gw_parse_config;
  if negb (ok result) then _ ← sys (call_unit ArgpDestroy); mret GwReturned else
  mret GwConfigured.
End Program.
