(* ===== verification/GatewayConfigSpec.v ===== *)
(** * The parts of the gateway's configuration

    What each parser of GatewayConfig does for any file: it stays inside the
    arrays of rules and the keys, changes the rule it is called for and nothing
    else, and leaves the addresses of accepted IPv6 rules in the table. *)

From S2P Require Import Prelude CString FlowTypes FlowFields FlowPipes NatRun AntiReplay Mbuf EspPacket.
From S2P Require Import GatewayAddr GatewayRules Policy Json GatewayConfig.
#[local] Open Scope Z_scope.
#[local] Open Scope doca_scope.

(** ** Sizes *)

Definition enc_shape (r : gw_encrypt_rule) : Prop :=
  length (e_addrs r) = 32%nat /\ length (e_encap_dst r) = 16%nat /\ length (sa_enc_key_data (e_sa_attrs r)) = 32%nat.
Definition dec_shape (r : gw_decrypt_rule) : Prop :=
  length (d_dst r) = 16%nat /\ length (sa_enc_key_data (d_sa_attrs r)) = 32%nat.

Lemma length_splice_full off x l n : length l = n -> (off + length x <= n)%nat -> length (splice off x l) = n.
Proof. intros <- ?. by apply length_splice. Qed.

Section Runs.
Context {S : Type}.
Implicit Types s : S.

Lemma runs_out {A} (get : S -> A) set p s Q : Q (fst (p (get s))) (set (snd (p (get s))) s) -> runs (out get set p) s Q.
Proof. intros HQ. unfold runs, out. destruct (p (get s)) as [e x]. by exists e, (set x s). Qed.

Lemma runs_out_opt {A} (get : S -> A) set p s e x Q : p (get s) = Some (e, x) -> Q e (set x s) -> runs (out_opt get set p) s Q.
Proof. intros Hp HQ. unfold runs, out_opt. rewrite Hp. by exists e, (set x s). Qed.

Lemma runs_zoom {A B} (get : S -> A) set (m : ST A B) s Q :
  runs m (get s) (fun b x => Q b (set x s)) -> runs (zoom get set m) s Q.
Proof. intros (b & x & E & HQ). unfold runs, zoom. rewrite E. by exists b, (set x s). Qed.

(** A sequence in which every step keeps [K]; [F] holds of the last result. *)
Lemma runs_step (m k : ST S doca_error) s (K : S -> Prop) (Q : doca_error -> S -> Prop) :
  runs m s (fun _ s' => K s') -> (forall e s', K s' -> e <> DOCA_SUCCESS -> Q e s') ->
  (forall s', K s' -> runs k s' Q) -> runs (m >>? k) s Q.
Proof.
  intros Hm Hf Hk. apply runs_or_return. eapply runs_mono; [exact Hm|]. intros e s' HK. case_decide; auto.
Qed.
End Runs.

(** ** Keys *)

Lemma hex_loop_defined s i key :
  0 <= i -> i + zlen s <= 2 * zlen key -> exists e key', hex_loop s i key = Some (e, key') /\ length key' = length key.
Proof.
  revert i key. induction s as [|c s IH]; intros i key Hi Hl; cbn [hex_loop]; [eauto|].
  cbn [length] in Hl. destruct (key_digit c) as [d|]; [|eauto].
  assert (Hb : 0 <= i / 2 < Z.of_nat (length key)).
  { split; [apply Z.div_pos; lia|]. apply Z.div_lt_upper_bound; lia. }
  destruct (rd_Some key (i / 2) Hb) as [b Hrd]. rewrite Hrd. obind. rewrite wr_Some by done. obind.
  destruct (IH (i + 1) (<[Z.to_nat (i / 2) := u8 (Z.shiftl b 4 + d)]> key)) as (e & k & E & Hk);
    [lia|rewrite length_insert; lia|].
  rewrite E. exists e, k. split; [done|]. by rewrite Hk, length_insert.
Qed.

Section Members.
Context `{J : JsonC}.

Lemma create_key_defined j t key :
  length key = 32%nat -> exists e key', create_key j t key = Some (e, key') /\ length key' = 32%nat.
Proof.
  intros Hk. unfold create_key. destruct (json_object_object_get_ex j _) as [o|]; [|eauto]. case_decide; [|eauto].
  set (max := match t with DOCA_ENCRYPTION_KEY_AESGCM_128 => 32 | _ => 64 end%nat).
  assert (max <= 64)%nat by (unfold max; destruct t; lia).
  set (n := strnlen _ _). assert (n <= max + 1)%nat by (unfold n, strnlen; lia).
  destruct (Nat.eqb_spec n (max + 1)); [eauto|]. case_bool; [eauto|].
  rewrite <- Hk. apply hex_loop_defined; [lia|]. rewrite length_take. lia.
Qed.

Lemma create_ipv4_length j k old : length old = 4%nat -> length (snd (create_ipv4 j k old)) = 4%nat.
Proof.
  intros Ho. unfold create_ipv4. destruct (json_object_object_get_ex j k); [|done]. case_decide; [|done].
  by apply parse_ipv4_length.
Qed.

Lemma create_ipv6_length j k old : length old = 16%nat -> length (snd (create_ipv6 j k old)) = 16%nat.
Proof.
  intros Ho. unfold create_ipv6. destruct (json_object_object_get_ex j k); [|done]. case_decide; [|done].
  by apply parse_ipv6_length.
Qed.

(** The version of an address is one of two. *)
Lemma create_l3_type_ok j k old t : create_l3_type j k old = (DOCA_SUCCESS, t) -> t = L3_IP4 \/ t = L3_IP6.
Proof. unfold create_l3_type. repeat case_match; intros [= <-]; auto. Qed.

Lemma parse_sa_members_ok j a :
  length (sa_enc_key_data a) = 32%nat -> runs (parse_sa_members j) a (fun _ a' => length (sa_enc_key_data a') = 32%nat).
Proof.
  intros Hk. unfold parse_sa_members. apply runs_or_return, runs_out. case_decide; [|done].
  apply runs_bind, runs_get. set (a1 := set_sa_key_type _ a).
  destruct (create_key_defined j (sa_key_type a1) (sa_enc_key_data a1)) as (e & key & E & Hl); [done|].
  apply runs_or_return. eapply runs_out_opt; [exact E|]. case_decide; [|done].
  apply runs_or_return, runs_out. case_decide; [|done]. apply runs_or_return, runs_out. case_decide; by try apply runs_ret.
Qed.

Lemma sa_with_direction_ok j d a :
  length (sa_enc_key_data a) = 32%nat ->
  runs (parse_sa_members j >>? a ← get; _ ← put (set_direction d a); mret DOCA_SUCCESS) a
    (fun _ a' => length (sa_enc_key_data a') = 32%nat).
Proof.
  intros Hk. apply runs_or_return. eapply runs_mono; [by apply parse_sa_members_ok|]. intros e a1 Ha1.
  case_decide; [|done]. apply runs_bind, runs_get, runs_bind, runs_put, runs_ret. done.
Qed.

(** ** A decryption rule *)

Lemma set_d_dst_shape x r : dec_shape r -> (length x <= 16)%nat -> dec_shape (set_d_dst x r).
Proof. intros [Hd Hk] Hx. split; [|done]. cbn. by apply length_splice_full. Qed.

Lemma parse_decrypt_rule_ok j r : dec_shape r -> runs (parse_decrypt_rule j) r (fun _ r' => dec_shape r').
Proof.
  intros Hr. unfold parse_decrypt_rule. eapply (runs_step _ _ _ dec_shape); [by apply runs_out|done|].
  intros r1 Hr1. apply runs_bind, runs_get. eapply (runs_step _ _ _ dec_shape); [|done|].
  { destruct Hr1 as [Hd Hk]. case_decide; apply runs_out, set_d_dst_shape; try done.
    - rewrite create_ipv4_length; [lia|]. rewrite length_take. lia.
    - by rewrite create_ipv6_length. }
  intros r2 Hr2. eapply (runs_step _ _ _ dec_shape); [by apply runs_out|done|].
  intros r3 Hr3. eapply (runs_step _ _ _ dec_shape); [by apply runs_out|done|].
  intros r4 [Hd Hk]. apply runs_zoom. eapply runs_mono; [by apply sa_with_direction_ok|]. by intros e a Ha.
Qed.
End Members.

(** ** The table *)

Section Table.
Context {T : Type} `{IL : Ip6HashLaws T}.

(** Positions of addresses stay. *)
Definition extends (t t' : T) : Prop := forall k, 0 <= h6_lookup t k -> h6_lookup t' k = h6_lookup t k.

Lemma extends_refl t : extends t t.
Proof. done. Qed.
Lemma extends_trans t1 t2 t3 : extends t1 t2 -> extends t2 t3 -> extends t1 t3.
Proof. intros H1 H2 k Hk. rewrite H2; [by apply H1|]. by rewrite H1. Qed.

Lemma ip6_table_add_extends k (t : T) : extends t (snd (ip6_table_add k t)).
Proof.
  unfold ip6_table_add. destruct (Z.ltb_spec (h6_lookup t k) 0); [|done]. destruct (h6_add t k) as [ret t'] eqn:E.
  destruct (Z.ltb_spec ret 0); cbn [snd].
  - by rewrite (h6_add_failed _ _ _ _ E).
  - intros k' Hk'. apply (h6_add_other _ _ _ _ _ E). intros ->. lia.
Qed.

(** The rule has a version, and its IPv6 addresses are in the table. *)
Definition known (t : T) (r : gw_encrypt_rule) : Prop :=
  e_l3_type r = L3_IP4 \/
  e_l3_type r = L3_IP6 /\ 0 <= h6_lookup t (ip6_src_ip r) /\ 0 <= h6_lookup t (ip6_dst_ip r).

Lemma known_extends t t' r : extends t t' -> known t r -> known t' r.
Proof. intros He [?|(? & ? & ?)]; [by left|]. right. by rewrite !He. Qed.

Lemma known_same t r r' : e_l3_type r' = e_l3_type r -> e_addrs r' = e_addrs r -> known t r -> known t r'.
Proof. unfold known, ip6_src_ip, ip6_dst_ip. by intros -> ->. Qed.
End Table.

(** ** One rule of the array *)

Section Arrays.
Context {T : Type} `{IL : Ip6HashLaws T} `{J : JsonC}.
Implicit Types c : app_config T.

(** [c] with rule [i] and the table replaced. *)
Definition upd c (rs : list gw_encrypt_rule) (i : nat) (r : gw_encrypt_rule) (t : T) : app_config T :=
  set_encrypt_array (<[i := r]> rs) (set_table t c).
Definition upd_dec c (rs : list gw_decrypt_rule) (i : nat) (r : gw_decrypt_rule) : app_config T :=
  set_decrypt_array (<[i := r]> rs) c.

Lemma upd_start c rs i r t :
  encrypt_array c = Some rs -> app_ip6_table c = Some t -> rs !! i = Some r -> c = upd c rs i r t.
Proof. intros Hrs Ht Hr. unfold upd. rewrite list_insert_id by done. destruct c. cbn in *. by subst. Qed.

Lemma upd_dec_start c rs i r : decrypt_array c = Some rs -> rs !! i = Some r -> c = upd_dec c rs i r.
Proof. intros Hrs Hr. unfold upd_dec. rewrite list_insert_id by done. destruct c. cbn in *. by subst. Qed.

Lemma rd_at {A} (l : list A) (i : nat) x : (i < length l)%nat -> rd (<[i := x]> l) (Z.of_nat i) = Some x.
Proof. intros. unfold rd. rewrite decide_True by lia. rewrite Nat2Z.id. by apply list_lookup_insert_eq. Qed.

Lemma wr_at {A} (l : list A) (i : nat) x y : (i < length l)%nat -> wr (<[i := x]> l) (Z.of_nat i) y = Some (<[i := y]> l).
Proof. intros. rewrite wr_Some by (rewrite length_insert; lia). by rewrite Nat2Z.id, list_insert_insert_eq. Qed.

Lemma runs_on_encrypt {A} (m : ST gw_encrypt_rule A) c rs i r t Q :
  (i < length rs)%nat -> runs m r (fun a r' => Q a (upd c rs i r' t)) ->
  runs (on_encrypt (Z.of_nat i) m) (upd c rs i r t) Q.
Proof.
  intros Hi (a & r' & E & HQ). exists a, (upd c rs i r' t). split; [|done].
  unfold on_encrypt, upd. cbn [encrypt_array set_encrypt_array]. obind. rewrite rd_at by done. obind. rewrite E. obind.
  by rewrite wr_at by done.
Qed.

Lemma runs_on_decrypt {A} (m : ST gw_decrypt_rule A) c rs i r Q :
  (i < length rs)%nat -> runs m r (fun a r' => Q a (upd_dec c rs i r')) ->
  runs (on_decrypt (Z.of_nat i) m) (upd_dec c rs i r) Q.
Proof.
  intros Hi (a & r' & E & HQ). exists a, (upd_dec c rs i r'). split; [|done].
  unfold on_decrypt, upd_dec. cbn [decrypt_array set_decrypt_array]. obind. rewrite rd_at by done. obind. rewrite E. obind.
  by rewrite wr_at by done.
Qed.

Lemma runs_add_ip6 k c rs i r t Q :
  Q (fst (ip6_table_add k t)) (upd c rs i r (snd (ip6_table_add k t))) -> runs (add_ip6 k) (upd c rs i r t) Q.
Proof.
  intros HQ. eexists _, _. split; [|exact HQ]. unfold add_ip6, upd. cbn. by destruct (ip6_table_add k t).
Qed.

(** ** An encryption rule *)

Lemma set_addrs_shape off x r : enc_shape r -> (off + length x <= 32)%nat -> enc_shape (set_addrs off x r).
Proof. intros (Ha & ? & ?) Hx. repeat split; try done. cbn. by apply length_splice_full. Qed.

Lemma set_e_encap_shape x r : enc_shape r -> (length x <= 16)%nat -> enc_shape (set_e_encap_dst x r).
Proof. intros (? & He & ?) Hx. repeat split; try done. cbn. by apply length_splice_full. Qed.

Lemma ip6_lengths r : enc_shape r ->
  length (ip4_src_ip r) = 4%nat /\ length (ip4_dst_ip r) = 4%nat /\ length (ip6_src_ip r) = 16%nat /\ length (ip6_dst_ip r) = 16%nat.
Proof.
  intros (Ha & _). unfold ip4_src_ip, ip4_dst_ip, ip6_src_ip, ip6_dst_ip. rewrite !length_take, !length_drop. lia.
Qed.

Lemma parse_encrypt_ipv4_ok j r :
  enc_shape r -> runs (parse_encrypt_ipv4 j) r (fun _ r' => enc_shape r' /\ e_l3_type r' = e_l3_type r).
Proof.
  intros Hr. unfold parse_encrypt_ipv4.
  eapply (runs_step _ _ _ (fun r' => enc_shape r' /\ e_l3_type r' = e_l3_type r)); [|done|].
  { apply runs_out. split; [|done]. apply set_addrs_shape; [done|]. rewrite create_ipv4_length; [lia|]. by apply ip6_lengths. }
  intros r1 [Hr1 E1].
  eapply (runs_step _ _ _ (fun r' => enc_shape r' /\ e_l3_type r' = e_l3_type r)); [|done|by intros; apply runs_ret].
  apply runs_out. split; [|done]. apply set_addrs_shape; [done|]. rewrite create_ipv4_length; [lia|]. by apply ip6_lengths.
Qed.

Lemma parse_encrypt_ipv6_ok j c rs i r t :
  enc_shape r -> (i < length rs)%nat ->
  runs (parse_encrypt_ipv6 j (Z.of_nat i)) (upd c rs i r t) (fun e c' => exists r' t',
    c' = upd c rs i r' t' /\ enc_shape r' /\ e_l3_type r' = e_l3_type r /\ extends t t' /\
    (e = DOCA_SUCCESS -> 0 <= h6_lookup t' (ip6_src_ip r') /\ 0 <= h6_lookup t' (ip6_dst_ip r'))).
Proof.
  intros Hr Hi. unfold parse_encrypt_ipv6.
  apply runs_or_return, runs_on_encrypt; [done|]. apply runs_out.
  set (r1 := set_addrs 0 _ r). assert (Hr1 : enc_shape r1).
  { apply set_addrs_shape; [done|]. rewrite create_ipv6_length; [lia|]. by apply ip6_lengths. }
  case_decide; [|by exists r1, t]. apply runs_or_return, runs_on_encrypt; [done|]. apply runs_out.
  set (r2 := set_addrs 16 _ r1). assert (Hr2 : enc_shape r2).
  { apply set_addrs_shape; [done|]. rewrite create_ipv6_length; [lia|]. by apply ip6_lengths. }
  case_decide; [|by exists r2, t]. apply runs_bind, runs_on_encrypt; [done|]. apply runs_get.
  pose proof (ip6_table_add_extends (ip6_src_ip r2) t) as X1.
  destruct (ip6_table_add (ip6_src_ip r2) t) as [e1 t1] eqn:E1. cbn [snd] in X1.
  apply runs_or_return, runs_add_ip6. rewrite E1. cbn [fst snd]. case_decide; [|by exists r2, t1].
  subst e1. apply ip6_table_add_ok in E1 as [K1 _].
  apply runs_bind, runs_on_encrypt; [done|]. apply runs_get. pose proof (ip6_table_add_extends (ip6_dst_ip r2) t1) as X2.
  destruct (ip6_table_add (ip6_dst_ip r2) t1) as [e2 t2] eqn:E2. cbn [snd] in X2.
  apply runs_or_return, runs_add_ip6. rewrite E2. cbn [fst snd].
  assert (X : extends t t2) by by eapply extends_trans.
  case_decide; [|by exists r2, t2]. subst e2. apply ip6_table_add_ok in E2 as [K2 _].
  apply runs_ret. exists r2, t2. split_and!; try done. intros _. by rewrite X2.
Qed.

Lemma parse_encrypt_encap_ok j r :
  enc_shape r -> runs (parse_encrypt_encap_ip j) r (fun _ r' =>
    enc_shape r' /\ e_l3_type r' = e_l3_type r /\ e_addrs r' = e_addrs r).
Proof.
  intros Hr. pose proof Hr as (_ & He & _). unfold parse_encrypt_encap_ip. apply runs_bind, runs_get.
  case_decide; apply runs_or_return, runs_out; (match goal with |- context [set_e_encap_dst ?x r] => set (r1 := set_e_encap_dst x r) end;
    assert (enc_shape r1); [apply set_e_encap_shape; [done|]|case_decide; by try apply runs_ret]).
  - rewrite create_ipv4_length; [lia|]. rewrite length_take. lia.
  - by rewrite create_ipv6_length.
Qed.

(** The last members: ports, SPI, security association. *)
Lemma parse_encrypt_tail_ok j r :
  enc_shape r -> runs
    (out e_src_port (fun x r => set_e_ports x (e_dst_port r) r) (create_port j (str "src-port")) >>?
     out e_dst_port (fun x r => set_e_ports (e_src_port r) x r) (create_port j (str "dst-port")) >>?
     out e_esp_spi set_e_spi (create_spi j) >>?
     zoom e_sa_attrs set_e_sa_attrs
       (parse_sa_members j >>?
        a ← get; _ ← put (set_direction DOCA_IPSEC_DIRECTION_EGRESS_ENCRYPT a); mret DOCA_SUCCESS)) r
    (fun _ r' => enc_shape r' /\ e_l3_type r' = e_l3_type r /\ e_addrs r' = e_addrs r).
Proof.
  intros (Ha & He & Hk). do 3 (apply runs_or_return, runs_out; case_decide; [|done]).
  apply runs_zoom. eapply runs_mono; [by apply sa_with_direction_ok|]. by intros e a Hl.
Qed.

Lemma parse_encrypt_rule_ok j c rs i r t :
  enc_shape r -> (i < length rs)%nat ->
  runs (parse_encrypt_rule j (Z.of_nat i)) (upd c rs i r t) (fun e c' => exists r' t',
    c' = upd c rs i r' t' /\ enc_shape r' /\ extends t t' /\ (e = DOCA_SUCCESS -> known t' r')).
Proof.
  intros Hr Hi. unfold parse_encrypt_rule. apply runs_or_return, runs_on_encrypt; [done|].
  apply runs_or_return, runs_out. set (r1 := set_e_l3 _ r). assert (Hr1 : enc_shape r1) by done.
  case_decide as He1; [|by exists r1, t].
  assert (Hl1 : e_l3_type r1 = L3_IP4 \/ e_l3_type r1 = L3_IP6).
  { eapply create_l3_type_ok. rewrite <- He1. cbn. apply surjective_pairing. }
  apply runs_or_return, runs_out. set (r2 := set_e_protocol _ r1). assert (Hr2 : enc_shape r2) by done.
  case_decide; [|by exists r2, t]. apply runs_out. set (r3 := set_e_encap_l3 _ r2). assert (Hr3 : enc_shape r3) by done.
  case_decide; [|by exists r3, t]. apply runs_bind, runs_on_encrypt; [done|]. apply runs_get.
  apply runs_or_return. eapply (runs_mono _ _ (fun e c' => exists r' t', c' = upd c rs i r' t' /\ enc_shape r' /\
    extends t t' /\ (e = DOCA_SUCCESS -> known t' r'))).
  { case_decide as Hv.
    - apply runs_on_encrypt; [done|]. eapply runs_mono; [by apply parse_encrypt_ipv4_ok|]. intros e r4 [Hr4 E4].
      exists r4, t. split_and!; try done. intros _. left. by rewrite E4.
    - eapply runs_mono; [by apply parse_encrypt_ipv6_ok|]. intros e c' (r4 & t' & -> & Hr4 & E4 & Hx & Hk).
      exists r4, t'. split_and!; try done. intros He. right. rewrite E4. destruct Hl1; [done|]. split; [done|]. by apply Hk. }
  intros e c' (r4 & t' & -> & Hr4 & Hx & Hk). case_decide as He4; [|by exists r4, t']. specialize (Hk He4).
  apply runs_bind, runs_get, runs_or_return.
  eapply (runs_mono _ _ (fun _ c' => exists r', c' = upd c rs i r' t' /\ enc_shape r' /\ known t' r')).
  { case_decide; [|apply runs_ret; by exists r4]. apply runs_on_encrypt; [done|].
    eapply runs_mono; [by apply parse_encrypt_encap_ok|]. intros _ r5 (Hr5 & E5 & A5). exists r5. split_and!; try done.
    by eapply known_same. }
  intros e5 c' (r5 & -> & Hr5 & Hk5). case_decide; [|by exists r5, t']. apply runs_on_encrypt; [done|].
  eapply runs_mono; [by apply parse_encrypt_tail_ok|]. intros e6 r6 (Hr6 & E6 & A6). exists r6, t'. split_and!; try done.
  intros _. by eapply known_same.
Qed.
End Arrays.

(** ** The arrays *)

Section Loops.
Context {T : Type} `{IL : Ip6HashLaws T} `{J : JsonC}.
Implicit Types c : app_config T.

Lemma set_encrypt_twice c rs t rs' t' :
  set_encrypt_array rs' (set_table t' (set_encrypt_array rs (set_table t c))) = set_encrypt_array rs' (set_table t' c).
Proof. done. Qed.

Lemma encrypt_rules_loop_ok j n i c rs t :
  encrypt_array c = Some rs -> app_ip6_table c = Some t -> Forall enc_shape rs -> (i + n <= length rs)%nat ->
  (forall k r, (k < i)%nat -> rs !! k = Some r -> known t r) ->
  runs (encrypt_rules_loop j n (Z.of_nat i)) c (fun e c' => exists rs' t',
    c' = set_encrypt_array rs' (set_table t' c) /\ length rs' = length rs /\ Forall enc_shape rs' /\ extends t t' /\
    (e = DOCA_SUCCESS -> forall k r, (k < i + n)%nat -> rs' !! k = Some r -> known t' r)).
Proof.
  revert i c rs t. induction n as [|n IH]; intros i c rs t Hrs Ht Hall Hl Hk; cbn [encrypt_rules_loop].
  { apply runs_ret. exists rs, t. rewrite Nat.add_0_r. split_and!; try done. destruct c. cbn in *. by subst. }
  destruct (lookup_lt_is_Some_2 rs i) as [r Hr]; [lia|]. apply runs_or_return. rewrite (upd_start c rs i r t Hrs Ht Hr) at 1.
  eapply runs_mono; [apply parse_encrypt_rule_ok; [by eapply Forall_lookup_1|lia]|].
  intros e c1 (r1 & t1 & -> & Hr1 & Hx & Hk1).
  assert (Hall1 : Forall enc_shape (<[i := r1]> rs)) by by apply Forall_insert.
  case_decide as He; [|exists (<[i := r1]> rs), t1; rewrite length_insert; by split_and!].
  replace (Z.of_nat i + 1) with (Z.of_nat (S i)) by lia.
  eapply runs_mono; [apply (IH (S i) _ (<[i := r1]> rs) t1); try done; rewrite ?length_insert; [lia|]|].
  - intros k r2 Hki Hk2. destruct (decide (k = i)) as [->|Hne].
    + rewrite list_lookup_insert_eq in Hk2 by lia. injection Hk2 as <-. by apply Hk1.
    + rewrite list_lookup_insert_ne in Hk2 by done. eapply known_extends; [done|]. eapply Hk; [|done]. lia.
  - intros e2 c2 (rs2 & t2 & -> & Hl2 & Hall2 & Hx2 & Hk2). rewrite length_insert in Hl2. exists rs2, t2.
    split; [apply set_encrypt_twice|]. split_and!; try done; [by eapply extends_trans|].
    intros He2 k r2 Hkn. apply Hk2; [done|lia].
Qed.

Lemma decrypt_rules_loop_ok j n i c rs :
  decrypt_array c = Some rs -> Forall dec_shape rs -> (i + n <= length rs)%nat ->
  runs (decrypt_rules_loop j n (Z.of_nat i)) c (fun _ c' => exists rs',
    c' = set_decrypt_array rs' c /\ length rs' = length rs /\ Forall dec_shape rs').
Proof.
  revert i c rs. induction n as [|n IH]; intros i c rs Hrs Hall Hl; cbn [decrypt_rules_loop].
  { apply runs_ret. exists rs. split_and!; try done. destruct c. cbn in *. by subst. }
  destruct (lookup_lt_is_Some_2 rs i) as [r Hr]; [lia|]. apply runs_or_return. rewrite (upd_dec_start c rs i r Hrs Hr) at 1.
  apply runs_on_decrypt; [lia|]. eapply runs_mono; [apply parse_decrypt_rule_ok; by eapply Forall_lookup_1|].
  intros e r1 Hr1. assert (Hall1 : Forall dec_shape (<[i := r1]> rs)) by by apply Forall_insert.
  case_decide as He; [|exists (<[i := r1]> rs); rewrite length_insert; by split_and!].
  replace (Z.of_nat i + 1) with (Z.of_nat (S i)) by lia.
  eapply runs_mono; [apply (IH (S i) _ (<[i := r1]> rs)); try done; rewrite ?length_insert; lia|].
  intros e2 c2 (rs2 & -> & Hl2 & Hall2). rewrite length_insert in Hl2. exists rs2. by split_and!.
Qed.

(** An array of a file. *)
Definition array_length_ok (rules : option json) : Prop :=
  exists n, json_object_array_length rules = Some n /\ 0 <= n < 2 ^ 31.

Lemma s32_small n : 0 <= n < 2 ^ 31 -> s32 n = n.
Proof. intros. unfold swrap. rewrite Z.mod_small; lia. Qed.

Lemma parse_json_encrypt_rules_ok rules c rs t :
  array_length_ok rules -> encrypt_array c = Some rs -> app_ip6_table c = Some t -> Forall enc_shape rs ->
  zlen rs = MAX_NB_RULES ->
  runs (parse_json_encrypt_rules rules) c (fun e c' => exists n rs' t',
    c' = set_encrypt_array rs' (set_table t' (set_counts n (nb_decrypted c) c)) /\ zlen rs' = MAX_NB_RULES /\
    Forall enc_shape rs' /\
    (e = DOCA_SUCCESS -> 0 <= n <= MAX_NB_RULES /\ forall k r, Z.of_nat k < n -> rs' !! k = Some r -> known t' r)).
Proof.
  intros (n & Hn & Hr) Hrs Ht Hall Hl. unfold parse_json_encrypt_rules. rewrite Hn.
  apply runs_bind, runs_get, runs_bind, runs_put. rewrite s32_small by done. set (c1 := set_counts n (nb_decrypted c) c).
  destruct (Z.ltb_spec MAX_NB_RULES n) as [Hlt|Hle].
  - apply runs_ret. exists n, rs, t. split_and!; try done. destruct c. cbn in *. by subst.
  - eapply runs_mono; [apply (encrypt_rules_loop_ok rules (Z.to_nat n) 0 c1 rs t); try done; lia|].
    intros e c' (rs' & t' & -> & Hl' & Hall' & _ & Hk). exists n, rs', t'. split_and!; try done; [lia|].
    intros He. split; [lia|]. intros k r Hkn. apply Hk; [done|lia].
Qed.

Lemma parse_json_decrypt_rules_ok rules c rs :
  array_length_ok rules -> decrypt_array c = Some rs -> Forall dec_shape rs -> zlen rs = MAX_NB_RULES ->
  runs (parse_json_decrypt_rules rules) c (fun e c' => exists n rs',
    c' = set_decrypt_array rs' (set_counts (nb_encrypted c) n c) /\ zlen rs' = MAX_NB_RULES /\ Forall dec_shape rs' /\
    (e = DOCA_SUCCESS -> 0 <= n <= MAX_NB_RULES)).
Proof.
  intros (n & Hn & Hr) Hrs Hall Hl. unfold parse_json_decrypt_rules. rewrite Hn.
  apply runs_bind, runs_get, runs_bind, runs_put. rewrite s32_small by done. set (c1 := set_counts (nb_encrypted c) n c).
  destruct (Z.ltb_spec MAX_NB_RULES n) as [Hlt|Hle].
  - apply runs_ret. exists n, rs. split_and!; try done. destruct c. cbn in *. by subst.
  - eapply runs_mono; [apply (decrypt_rules_loop_ok rules (Z.to_nat n) 0 c1 rs); try done; lia|].
    intros e c' (rs' & -> & Hl' & Hall'). exists n, rs'. split_and!; try done; [lia|]. intros _. lia.
Qed.
End Loops.

(** ** Settings *)

(** The members of a rule set that do not come from the file. *)
Definition settings_ok (g : gw_config) : Prop := in_u 32 (sn_initial (base g)).

Section Settings.
Context `{J : JsonC}.

Lemma parse_sn_initial_ok j g : settings_ok g -> settings_ok (snd (parse_sn_initial j g)).
Proof.
  intros Hg. unfold parse_sn_initial. destruct (json_object_object_get_ex j _); [|done]. case_decide; [|done].
  cbn zeta. destruct (Z.ltb_spec (json_object_get_int64 o) 0); [done|].
  destruct (Z.ltb_spec UINT32_MAX (json_object_get_int64 o)); [done|]. cbn [orb snd]. unfold settings_ok. cbn.
  rewrite wrap_small; unfold in_u, UINT32_MAX in *; lia.
Qed.

(** The file sets neither the mode nor the socket. *)
Definition keeps_args (g g' : gw_config) : Prop :=
  settings_ok g' /\ socket_conf g' = socket_conf g /\ mode (base g') = mode (base g).

Lemma parse_json_config_ok j g : settings_ok g -> keeps_args g (snd (parse_json_config j g)).
Proof.
  intros Hg. unfold parse_json_config.
  assert (H1 : keeps_args g (snd (parse_switch_config j g))).
  { unfold parse_switch_config. repeat case_match; by split_and!. }
  destruct (parse_switch_config j g) as [e1 g1]. cbn [snd] in H1. destruct (ok e1); cbn [negb]; [|done].
  assert (H2 : keeps_args g (snd (parse_sn_initial j g1))).
  { destruct H1 as (Hs1 & E1 & E2). split; [by apply parse_sn_initial_ok|]. rewrite <- E1, <- E2. unfold parse_sn_initial. repeat case_match; done. }
  destruct (parse_sn_initial j g1) as [e2 g2]. cbn [snd] in H2. destruct (ok e2); cbn [negb]; [|done].
  assert (H3 : keeps_args g (snd (parse_esp_offload j g2))).
  { revert H2. unfold parse_esp_offload. repeat case_match; done. }
  destruct (parse_esp_offload j g2) as [e3 g3]. cbn [snd] in H3. destruct (ok e3); cbn [negb]; [|done].
  assert (H4 : keeps_args g (snd (parse_sn_inc j g3))).
  { revert H3. unfold parse_sn_inc. repeat case_match; done. }
  destruct (parse_sn_inc j g3) as [e4 g4]. cbn [snd] in H4. destruct (ok e4); cbn [negb]; [|done].
  revert H4. unfold parse_antireplay. repeat case_match; done.
Qed.
End Settings.
