(* ===== verification/GatewayConfigRun.v ===== *)
(** * Runs of the gateway's configuration

    What [validate_config] accepts, and the start of main for any arguments and
    any file: what it holds, and what the configuration is when it was accepted. *)

From S2P Require Import Prelude CString FlowTypes FlowFields FlowPipes NatSpec NatRun PipeDemo AntiReplay Mbuf EspPacket.
From S2P Require Import GatewayAddr GatewayRules Policy Json GatewayConfig GatewayConfigSpec.
From S2P Require PolicyTheorems.
#[export] Existing Instances PolicyTheorems.list_ip6 PolicyTheorems.list_ip6_laws.
#[local] Open Scope Z_scope.
#[local] Open Scope doca_scope.

(** ** Validation *)

(** What the gateway may be started with. *)
Record valid {T} (c : app_config T) : Prop := {
  v_secured : has_device (secured_dev c) = true;
  v_secured_one : open_by_pci (secured_dev c) = true -> open_by_name (secured_dev c) = false;
  v_unsecured : flow_mode (gw c) = IPSEC_SECURITY_GW_VNF ->
    has_device (unsecured_dev c) = true /\ (open_by_pci (unsecured_dev c) = true -> open_by_name (unsecured_dev c) = false);
  v_sn_inc : sw_sn_inc_enable (base (gw c)) = true -> offloads_encap (gw c) = false;
  v_antireplay : sw_antireplay (base (gw c)) = true -> offloads_decap (gw c) = false
}.

Lemma validate_config_valid {T} (c : app_config T) : validate_config c = DOCA_SUCCESS <-> valid c.
Proof.
  unfold validate_config. split.
  - intros Hv.
    destruct (has_device (secured_dev c)) eqn:E1; [|done]. cbn [negb] in Hv.
    destruct (decide (flow_mode (gw c) = IPSEC_SECURITY_GW_VNF)) as [E2|E2];
      [rewrite !bool_decide_true in Hv by done | rewrite !bool_decide_false in Hv by done];
      destruct (has_device (unsecured_dev c)) eqn:E3; cbn [negb andb] in Hv; try done.
    all: destruct (open_by_pci (unsecured_dev c)) eqn:E4, (open_by_name (unsecured_dev c)) eqn:E5; cbn [andb] in Hv; try done.
    all: destruct (open_by_pci (secured_dev c)) eqn:E6, (open_by_name (secured_dev c)) eqn:E7; cbn [andb] in Hv; try done.
    all: destruct (sw_sn_inc_enable (base (gw c))) eqn:E8, (offloads_encap (gw c)) eqn:E9; cbn [andb] in Hv; try done.
    all: destruct (sw_antireplay (base (gw c))) eqn:E10, (offloads_decap (gw c)) eqn:E11; cbn [andb] in Hv; try done.
    all: split; try (intros; congruence); intros Hm; first [done | split; [done|intros; congruence]].
  - intros [H1 H2 H3 H4 H5]. rewrite H1. cbn [negb].
    assert (bool_decide (flow_mode (gw c) = IPSEC_SECURITY_GW_VNF) && negb (has_device (unsecured_dev c)) = false) as ->.
    { case_bool_decide as Hf; [|done]. by destruct (H3 Hf) as [-> _]. }
    assert (bool_decide (flow_mode (gw c) = IPSEC_SECURITY_GW_VNF) &&
            (open_by_pci (unsecured_dev c) && open_by_name (unsecured_dev c)) = false) as ->.
    { case_bool_decide as Hf; [|done]. destruct (H3 Hf) as [_ Ho].
      destruct (open_by_pci (unsecured_dev c)) eqn:Eo; [by rewrite Ho|done]. }
    destruct (open_by_pci (secured_dev c)) eqn:Ep; [rewrite H2 by done|]; cbn [andb].
    all: destruct (sw_sn_inc_enable (base (gw c))) eqn:Es; [rewrite H4 by done|]; cbn [andb].
    all: destruct (sw_antireplay (base (gw c))) eqn:Ea; [rewrite H5 by done|]; done.
Qed.

(** ** The configuration after the file *)

Section Configured.
Context {T : Type} `{IL : Ip6HashLaws T} `{IT : !Ip6Table T}.

(** The arrays are there, and have their sizes. *)
Definition arrays (c : app_config T) rs ds t : Prop :=
  encrypt_array c = Some rs /\ decrypt_array c = Some ds /\ app_ip6_table c = Some t /\
  zlen rs = MAX_NB_RULES /\ zlen ds = MAX_NB_RULES /\ Forall enc_shape rs /\ Forall dec_shape ds.

(** What holds when the configuration was accepted: it is valid, the counters
    stay within the arrays, and the addresses of IPv6 rules are in the table. *)
Definition config_ok (c : app_config T) : Prop :=
  valid c /\ settings_ok (gw c) /\
  0 <= nb_encrypted c <= MAX_NB_RULES /\ 0 <= nb_decrypted c <= MAX_NB_RULES /\
  exists rs ds t, arrays c rs ds t /\ forall k r, Z.of_nat k < nb_encrypted c -> rs !! k = Some r -> known t r.

(** Before the file is parsed. *)
Definition prepared (c : app_config T) : app_config T :=
  set_gw (set_flow_mode IPSEC_SECURITY_GW_VNF (gw c))
    (set_table rte_hash_create (set_encrypt_array (replicate (Z.to_nat MAX_NB_RULES) encrypt_rule0)
       (set_decrypt_array (replicate (Z.to_nat MAX_NB_RULES) decrypt_rule0) c))).

Lemma prepared_arrays c :
  arrays (prepared c) (replicate (Z.to_nat MAX_NB_RULES) encrypt_rule0) (replicate (Z.to_nat MAX_NB_RULES) decrypt_rule0)
    rte_hash_create.
Proof. split_and!; try done; by apply Forall_replicate. Qed.

(** The start of a run: no rules yet. *)
Definition fresh_config (c : app_config T) : Prop := nb_encrypted c = 0 /\ nb_decrypted c = 0 /\ settings_ok (gw c).

Context `{P : Platform} `{J : JsonC}.

Lemma runs_sys {A} (m : ST (list event) A) (w : world T) Q :
  runs m (hist w) (fun a h => Q a (World T h (app w))) -> runs (sys m) w Q.
Proof. intros (a & h & E & HQ). exists a, (World T h (app w)). split; [|done]. unfold sys. by rewrite E. Qed.

Lemma runs_cfg {A} (m : ST (app_config T) A) (w : world T) Q :
  runs m (app w) (fun a c => Q a (World T (hist w) c)) -> runs (cfg m) w Q.
Proof. intros (a & c & E & HQ). exists a, (World T (hist w) c). split; [|done]. unfold cfg. by rewrite E. Qed.

(** The rules of a file are arrays. *)
Definition rule_arrays (j : option json) : Prop :=
  forall k rules, k = str "encrypt-rules" \/ k = str "decrypt-rules" ->
    json_object_object_get_ex j k = Some rules -> array_length_ok rules.

Lemma parse_rules_of_ok j h c rs ds t :
  rule_arrays j -> fresh_config c -> arrays c rs ds t ->
  runs (parse_rules_of j) (World T h c) (fun e w => hist w = h /\ (e = DOCA_SUCCESS -> config_ok (app w))).
Proof.
  intros Hj (Hn1 & Hn2 & Hs) (Hrs & Hds & Ht & Hl1 & Hl2 & Hf1 & Hf2). unfold parse_rules_of. apply runs_or_return.
  eapply (runs_mono _ _ (fun _ w => exists g, w = World T h (set_gw g c) /\ settings_ok g)).
  { destruct (json_object_object_get_ex j _) as [o|].
    - apply runs_cfg, runs_out. cbn [hist app]. eexists. split; [done|]. by apply parse_json_config_ok.
    - apply runs_ret. exists (gw c). split; [by destruct c|done]. }
  intros e1 w1 (g & -> & Hg). case_decide as He1; [|by split]. apply runs_bind, runs_cfg, runs_get. cbn [app hist].
  set (c1 := set_gw g c). apply runs_or_return, runs_ret. case_decide as Hv; [|by split].
  apply validate_config_valid in Hv. change (socket_conf (gw c1)) with (socket_conf g). destruct (socket_conf g).
  { apply runs_ret. split; [done|]. intros _. split; [done|]. split; [done|].
    change (0 <= nb_encrypted c <= MAX_NB_RULES /\ 0 <= nb_decrypted c <= MAX_NB_RULES /\
      exists rs ds t, arrays c rs ds t /\ forall k r, Z.of_nat k < nb_encrypted c -> rs !! k = Some r -> known t r).
    rewrite Hn1, Hn2. split; [done|]. split; [done|]. exists rs, ds, t. split; [done|]. intros k r Hk. lia. }
  destruct (json_object_object_get_ex j (str "encrypt-rules")) as [er|] eqn:Ee; [|apply runs_ret; by split].
  destruct (json_object_object_get_ex j (str "decrypt-rules")) as [dr|] eqn:Ed; [|apply runs_ret; by split].
  apply runs_or_return, runs_cfg.
  eapply runs_mono; [apply (parse_json_encrypt_rules_ok er c1 rs t); try done; by eapply Hj; [left|]|].
  intros e2 c2 (n & rs' & t' & -> & Hl1' & Hf1' & Hk). cbn [app hist].
  case_decide as He2; [|by split]. destruct (Hk He2) as [Hn Hk']. apply runs_cfg.
  eapply runs_mono; [eapply (parse_json_decrypt_rules_ok dr); try done; by eapply Hj; [right|]|].
  intros e3 c3 (n3 & ds' & -> & Hl2' & Hf2' & Hk3). split; [done|]. intros He3.
  split; [by destruct Hv; split|]. split; [done|]. split; [done|]. split; [by apply Hk3|].
  exists rs', ds', t'. split; [done|]. apply Hk'.
Qed.
End Configured.

(** ** The file *)

Section File.
Context {T : Type} `{IL : Ip6HashLaws T} `{IT : !Ip6Table T}.
Context `{P : Platform} `{RF : !ReadableFile} `{J : JsonC}.
Context (Hj : forall s, rule_arrays (json_tokener_parse s)).

(** What stays held after a failure: what was allocated before it, with the JSON
    object of a file that was parsed. *)
Inductive left_over (l : list res) : list res -> Prop :=
| left_0 : left_over l l
| left_1 : left_over l (RRules :: l)
| left_2 : left_over l (RRules :: RRules :: l)
| left_3 : left_over l (RHash :: RRules :: RRules :: l)
| left_4 : left_over l (RJson :: RHash :: RRules :: RRules :: l).
#[local] Hint Constructors left_over : core.

(** On a platform where calls succeed, the result is that of the text. *)
Definition from_text (c : app_config T) (e : doca_error) (c' : app_config T) : Prop :=
  succeeds P -> forall s, has_text P s ->
  exists h, parse_rules_of (json_tokener_parse s) (World T h (prepared c)) = Some (e, World T h c').

Lemma parse_config_ok h c l :
  held h = l -> fresh_config c ->
  runs ipsec_security_gw_parse_config (World T h c) (fun e w => grows h (hist w) /\ left_over l (held (hist w)) /\
    from_text c e (app w) /\
    (e = DOCA_SUCCESS -> (exists j, maybe_json j /\ held (hist w) = j ++ RHash :: RRules :: RRules :: l) /\
      config_ok (app w))).
Proof.
  intros Hl Hf. unfold ipsec_security_gw_parse_config.
  apply runs_bind, runs_sys. eapply run_call_err; [eassumption|done|done|]. intros e1 h1 Hg1 Hh1 Hs1. cbn in Hh1.
  destruct (ok e1) eqn:E1; cbn [negb hist app].
  2:{ apply runs_ret. cbn [hist app]. rewrite Hh1. split_and!; [solve_grows|auto| |done]. intros HP. by specialize (Hs1 HP). }
  apply runs_bind, runs_cfg, runs_get, runs_bind, runs_cfg, runs_put. cbn [hist app].
  apply runs_bind, runs_sys. eapply run_call_err; [eassumption|done|done|]. intros e2 h2 Hg2 Hh2 Hs2. cbn in Hh2.
  destruct (ok e2) eqn:E2; cbn [negb hist app].
  2:{ apply runs_ret. cbn [hist app]. rewrite Hh2. split_and!; [solve_grows|auto| |done]. intros HP. by specialize (Hs2 HP). }
  apply runs_bind, runs_cfg, runs_get, runs_bind, runs_cfg, runs_put. cbn [hist app].
  apply runs_or_return. unfold create_ip6_table. apply runs_bind, runs_sys.
  eapply run_call_err; [eassumption|done|done|]. intros e3 h3 Hg3 Hh3 Hs3. cbn in Hh3.
  destruct (ok e3) eqn:E3; cbn [negb hist app].
  2:{ apply runs_ret. cbn [hist app]. rewrite Hh3, decide_False by done. split_and!; [solve_grows|auto| |done].
      intros HP. by specialize (Hs3 HP). }
  apply runs_bind, runs_cfg, runs_get, runs_bind, runs_cfg, runs_put, runs_ret. rewrite decide_True by done. cbn [hist app].
  apply runs_bind, runs_cfg, runs_get, runs_bind, runs_cfg, runs_put. cbn [hist app].
  match goal with |- context [World T h3 ?c1] => change c1 with (prepared c) end.
  apply runs_bind, runs_sys. eapply run_call_err; [eassumption|done|done|]. intros e4 h4 Hg4 Hh4 Hs4. cbn in Hh4.
  destruct (ok e4) eqn:E4; cbn [negb hist app].
  2:{ apply runs_ret. cbn [hist app]. rewrite Hh4. split_and!; [solve_grows|auto| |done]. intros HP. by specialize (Hs4 HP). }
  apply runs_bind, runs_sys. cbn [hist app]. eapply runs_mono; [by apply allocate_json_ok|].
  intros [[e5 len] data] h5 (Hg5 & Hs5 & H5). destruct (ok e5) eqn:E5; cbn [negb].
  2:{ apply runs_bind, runs_sys. cbn [hist]. eapply run_call_unit; [exact H5|done|done|done|]. intros h6 Hg6 Hh6. cbn in Hh6.
      apply runs_ret. cbn [hist app]. rewrite Hh6. split_and!; [solve_grows|auto| |].
      - intros HP. by specialize (Hs5 HP).
      - by intros ->. }
  destruct H5 as (Hh5 & g & -> & Hg & Hlen & Htext).
  apply runs_bind, runs_sys. cbn [hist app]. eapply runs_mono; [by apply fread_json_ok|].
  intros [x data] h6 (Hg6 & Hh6 & b & -> & Hb).
  apply runs_bind, runs_sys. cbn [hist app]. eapply run_call_unit; [exact Hh6|done|done|done|].
  intros h7 Hg7 Hh7. cbn in Hh7. apply runs_bind, runs_sys. cbn [hist app].
  eapply parse_buffer_ok; [exact Hh7|]. intros s h8 j Hs Hg8 Hj8 Hh8.
  apply runs_bind. destruct (parse_rules_of_ok (json_tokener_parse s) h8 (prepared c) _ _ _ (Hj s) Hf (prepared_arrays c))
    as (e & w & E & Hw & Hok).
  exists e, w. split; [exact E|]. apply runs_bind, runs_sys. rewrite Hw.
  eapply run_call_unit; [exact Hh8|done|by destruct Hj8 as [-> | ->]|done|]. intros h9 Hg9 Hh9.
  replace (after_held FreeBuffer true _) with (j ++ RHash :: RRules :: RRules :: l) in Hh9
    by (by destruct Hj8 as [-> | ->]). apply runs_ret. cbn [hist app].
  rewrite Hh9. split_and!; [solve_grows|by destruct Hj8 as [-> | ->]; cbn [app]; auto| |].
  - intros HP text Ht. destruct (Hb text Ht (Htext text Ht)) as [-> _]. rewrite c_str_text in Hs by apply Ht.
    injection Hs as <-. exists h8. rewrite E. destruct w. cbn in *. by subst.
  - intros He. split; [by exists j|]. by apply Hok.
Qed.

Lemma register_params_ok n h l :
  held h = l -> runs (register_params n) h (fun e h' => grows h h' /\ held h' = l).
Proof.
  revert h. induction n as [|n IH]; intros h Hl; cbn [register_params]; [apply runs_ret; by split; [apply grows_refl|]|].
  apply runs_or_return. eapply run_call_err; [eassumption|done|done|]. intros e1 h1 Hg1 Hh1 _. cbn in Hh1.
  case_decide; [|done]. apply runs_or_return. eapply run_call_err; [eassumption|done|done|]. intros e2 h2 Hg2 Hh2 _. cbn in Hh2.
  case_decide; [|by split; [eapply grows_trans|]]. eapply runs_mono; [by apply IH|]. intros e h3 [Hg3 Hh3].
  split; [solve_grows|done].
Qed.

(** A callback changes neither the rules nor the initial sequence number. *)
Lemma gw_callback_ok a h c l :
  held h = l -> fresh_config c ->
  runs (gw_callback a) (World T h c) (fun _ w => held (hist w) = l /\ fresh_config (app w)).
Proof.
  intros Hl Hf. destruct a as [s|s|s|s|n|s|s|s]; cbn [gw_callback].
  1-5: by apply runs_cfg, runs_out.
  - unfold config_callback. case_bool; [by apply runs_ret|]. apply runs_bind, runs_sys. cbn [hist app].
    eapply run_call_err; [eassumption|done|done|]. intros e h1 Hg1 Hh1 _. cbn in Hh1.
    destruct (ok e); cbn [negb]; [|by apply runs_ret]. by apply runs_cfg, runs_out.
  - apply runs_cfg, runs_out. cbn [fst snd hist app]. split; [done|]. destruct Hf as (? & ? & ?).
    repeat case_bool; by split_and!.
  - apply runs_cfg. unfold socket_callback. case_bool; [by apply runs_ret|].
    apply runs_bind, runs_get, runs_bind, runs_put, runs_ret. done.
Qed.

Lemma gw_callbacks_ok args h c l :
  held h = l -> fresh_config c ->
  runs (gw_callbacks args) (World T h c) (fun _ w => held (hist w) = l /\ fresh_config (app w)).
Proof.
  revert h c. induction args as [|a args IH]; intros h c Hl Hf; cbn [gw_callbacks]; [by apply runs_ret|].
  apply runs_or_return. eapply runs_mono; [by apply gw_callback_ok|]. intros e [h1 c1] [Hh1 Hf1]. case_decide; [|done].
  by apply IH.
Qed.

(** Where main is after its start, and what it holds there. *)
Definition started (s : gw_stage) (w : world T) : Prop :=
  match s with
  | GwReturned => held (hist w) = [] \/ left_over [RDpdk] (held (hist w))
  | GwArgpDestroy => held (hist w) = [RArgp]
  | GwConfigured => (exists j, maybe_json j /\ held (hist w) = j ++ [RHash; RRules; RRules; RDpdk; RArgp]) /\ config_ok (app w)
  end.

Lemma gw_start_ok args : runs (gw_start args) (World T [] app_config0) (fun s w => started s w).
Proof.
  unfold gw_start. assert (H0 : held [] = []) by done.
  apply runs_bind, runs_cfg, runs_get, runs_bind, runs_cfg, runs_put. cbn [hist app]. set (c := set_cores _ _).
  assert (Hc : fresh_config c) by done.
  do 3 (apply runs_bind, runs_sys; cbn [hist app]; eapply run_call_err; [eassumption|done|done|];
    intros ?e ?h _ ?Hh _; match goal with |- context [ok ?e] => destruct (ok e) end; cbn [negb];
    [|apply runs_ret; by left]).
  apply runs_bind, runs_sys. cbn [hist app]. eapply run_call_err; [eassumption|done|done|]. intros e3 h3 _ Hh3 _. cbn in Hh3.
  destruct (ok e3); cbn [negb]; [|apply runs_ret; by left].
  apply runs_bind, runs_sys. cbn [hist app].
  eapply (runs_mono _ _ (fun _ h' => held h' = [RArgp])).
  { unfold register_ipsec_security_gw_params. apply runs_or_return.
    eapply runs_mono; [by apply register_params_ok|]. intros x h4 [_ Hh4]. case_decide; [|done].
    eapply run_call_err; [exact Hh4|done|done|]. by intros e5 h5 _ Hh5 _. }
  intros e4 h4 Hh4. destruct (ok e4); cbn [negb].
  2:{ apply runs_bind, runs_sys. cbn [hist app]. eapply run_call_unit; [exact Hh4|done|done|done|]. intros h5 _ Hh5.
      apply runs_ret. by left. }
  apply runs_bind. eapply (runs_mono _ _ (fun _ w => held (hist w) = [RArgp] /\ fresh_config (app w))).
  { apply runs_or_return. eapply runs_mono; [by apply gw_callbacks_ok|]. intros e5 [h5 c5] [Hh5 Hc5]. cbn [hist app] in *.
    case_decide; [|done]. apply runs_sys. cbn [hist app].
    eapply run_call_err; [exact Hh5|done|done|]. by intros e6 h6 _ Hh6 _. }
  intros e6 [h6 c6] [Hh6 Hc6]. cbn [hist app] in *. destruct (ok e6); cbn [negb].
  2:{ apply runs_bind, runs_sys. cbn [hist app]. eapply run_call_unit; [exact Hh6|done|done|done|]. intros h7 _ Hh7.
      apply runs_ret. by left. }
  apply runs_bind, runs_sys. cbn [hist app]. eapply run_call_err; [exact Hh6|done|done|]. intros e7 h7 _ Hh7 _. cbn in Hh7.
  destruct (ok e7); cbn [negb]; [|by apply runs_ret].
  apply runs_bind. eapply runs_mono; [by apply parse_config_ok|]. intros e8 [h8 c8] (_ & Hleft & _ & Hok). cbn [hist app] in *.
  destruct (ok e8) eqn:E8; cbn [negb]; [|].
  - apply runs_ret. destruct e8; try done. by apply Hok.
  - apply runs_bind, runs_sys. cbn [hist app]. revert Hleft. rename h8 into g8. intros Hleft.
    assert (Hr : exists l, held g8 = l /\ releasable ArgpDestroy l = true /\ left_over [RDpdk] (after_held ArgpDestroy true l)).
    { by destruct Hleft; eexists; (split; [reflexivity|]); split. }
    destruct Hr as (l8 & Hl8 & Hr & Hlo). eapply run_call_unit; [exact Hl8|done|done|done|].
    intros h9 _ Hh9. apply runs_ret. right. cbn [hist]. by rewrite Hh9.
Qed.

(** C22: for any arguments and any text of the configuration file, under two
    conditions without which the source itself is undefined - the file can be read
    as text ([ReadableFile]: fseek finds its end, and the memory after the bytes
    that were read holds the NUL that config.c:985 relies on and does not write)
    and what the file gives as rules are arrays ([rule_arrays]: json-c asserts it
    where config.c:504 and the decryption rules take a length) - and whichever of
    the other calls fail, the start of main is defined: no access leaves the
    arrays of 1024 rules or the 32 bytes of a key.  Where it goes on it holds the
    table, the two arrays, DPDK and the argument parser, no file and no buffer,
    besides the JSON object of the file, which the program never releases, and
    the configuration is one that may be run: a device for each port that the mode
    needs and one way of opening it, no software sequence numbers or anti-replay
    where the hardware does that work, counters within the arrays, an initial
    sequence number of 32 bits, and every IPv6 address of an encryption rule in
    the table.  Where it returns early neither a file nor a buffer stays open, but
    the arrays, the table and the JSON object may be left behind. *)
Theorem gateway_config_safe args :
  runs (gw_start args) (World T [] app_config0) started.
Proof. apply gw_start_ok. Qed.
End File.

(** ** A file that tries to overrun the arrays *)

(** A list of addresses as the table. *)
#[export] Instance list_ip6_table : Ip6Table (list bytes) := {| rte_hash_create := [] : list bytes; rte_hash_create_law := fun _ => eq_refl |}.

Definition long_tree : jtree :=
  JObj [(str "encrypt-rules", JArr (replicate 1025 (JInt 0))); (str "decrypt-rules", JArr [])].
Definition gw_platform : Platform := demo_reply demo_text (fun _ => []).

Lemma demo_rule_arrays tree :
  (forall k rules, k = str "encrypt-rules" \/ k = str "decrypt-rules" ->
    json_object_object_get_ex (JsonC := demo_json demo_text tree) (Some tree) k = Some rules ->
    @array_length_ok (demo_json demo_text tree) rules) ->
  forall s, @rule_arrays (demo_json demo_text tree) (@json_tokener_parse (demo_json demo_text tree) s).
Proof.
  intros H s k rules Hk. change (json_tokener_parse s) with (if strcmp s demo_text then Some tree else None).
  destruct (strcmp s demo_text); [by apply H|done].
Qed.

Definition two_ports : list gw_arg := [ArgSecured (str "03:00.0"); ArgUnsecuredName (str "ens1f1"); ArgConfig (str "rules.json"); ArgMode (str "transport")].

Lemma gateway_config_safe_witness :
  runs (@gw_start (list bytes) _ _ gw_platform (demo_json demo_text long_tree) two_ports) (World (list bytes) [] app_config0) started.
Proof.
  apply (@gateway_config_safe (list bytes) _ _ _ gw_platform (demo_readable demo_text (fun _ => [])) (demo_json demo_text long_tree)).
  apply demo_rule_arrays. intros k rules [-> | ->] [= <-]; eexists; (split; [reflexivity|]); vm_compute; split; congruence.
Defined.

(** The file is refused. *)
Example long_file_refused :
  exists w, @gw_start (list bytes) _ _ gw_platform (demo_json demo_text long_tree) two_ports (World (list bytes) [] app_config0)
    = Some (GwReturned, w) /\ held (hist w) = [RJson; RHash; RRules; RRules; RDpdk].
Proof. eexists. split; vm_compute; reflexivity. Qed.
