(* ===== verification/GatewayConfigTheorems.v ===== *)
(** * Theorems on the gateway's configuration

    A file that describes settings and rules: the rules as a person writes them
    ([enc_line], [dec_line]), their text in JSON, and the rules of the gateway
    that they are ([gateway_config_rules]); and the hardware entries that come of
    them ([gateway_config_installed]). *)

From S2P Require Import Prelude CString FlowTypes FlowFields FlowParserSpec FlowPipes NatSpec NatRun RuleText PipeDemo.
From S2P Require Import InetPton AntiReplay Mbuf EspPacket.
From S2P Require Import GatewayAddr GatewayRules Policy Json GatewayConfig GatewayConfigSpec GatewayConfigRun.
#[local] Open Scope Z_scope.
#[local] Open Scope doca_scope.

(** ** Keys *)

(** Two lower-case digits for each byte. *)
Definition key_text (bs : bytes) : cstring := concat (map (fun b => [hex_char (b / 16); hex_char (b mod 16)]) bs).

Lemma key_digit_hex v : 0 <= v < 16 -> key_digit (hex_char v) = Some v.
Proof.
  intros Hv. assert (H : forallb (fun v => bool_decide (key_digit (hex_char v) = Some v)) (seqZ 0 16) = true) by reflexivity.
  rewrite forallb_forall in H. apply (bool_decide_eq_true_1 _), H, list_elem_of_In, elem_of_seqZ. lia.
Qed.

Lemma length_key_text bs : length (key_text bs) = (2 * length bs)%nat.
Proof. induction bs as [|b bs IH]; [done|]. change (length (key_text (b :: bs))) with (S (S (length (key_text bs)))). rewrite IH. cbn [length]. lia. Qed.

Lemma rd_middle {A} (l1 l2 : list A) x i : i = zlen l1 -> rd (l1 ++ x :: l2) i = Some x.
Proof. intros ->. unfold rd. rewrite decide_True by lia. rewrite Nat2Z.id. by apply list_lookup_middle. Qed.

Lemma wr_middle {A} (l1 l2 : list A) x y i : i = zlen l1 -> wr (l1 ++ x :: l2) i y = Some (l1 ++ y :: l2).
Proof.
  intros ->. rewrite wr_Some by (rewrite length_app; cbn; lia). rewrite Nat2Z.id. f_equal.
  rewrite insert_app_r_alt by lia. by rewrite Nat.sub_diag.
Qed.

Lemma hex_loop_text bs before rest :
  Forall byte_ok bs ->
  hex_loop (key_text bs) (2 * zlen before) (before ++ zeros (length bs) ++ rest) = Some (DOCA_SUCCESS, before ++ bs ++ rest).
Proof.
  revert before. induction bs as [|b bs IH]; intros before Hbs; [done|]. apply Forall_cons in Hbs as [Hb Hbs].
  unfold byte_ok, in_u in Hb. change (2 ^ 8) with 256 in Hb.
  change (key_text (b :: bs)) with (hex_char (b / 16) :: hex_char (b mod 16) :: key_text bs). cbn [length].
  change (zeros (S (length bs))) with (0 :: zeros (length bs)).
  assert (0 <= b / 16 < 16) by (split; [apply Z.div_pos; lia|apply Z.div_lt_upper_bound; lia]).
  assert (0 <= b mod 16 < 16) by (apply Z.mod_pos_bound; lia).
  assert (E1 : 2 * zlen before / 2 = zlen before) by (rewrite Z.mul_comm; by apply Z.div_mul).
  assert (E2 : (2 * zlen before + 1) / 2 = zlen before).
  { rewrite Z.add_comm, Z.mul_comm, Z.div_add by lia. done. }
  cbn [hex_loop]. change ((0 :: zeros (length bs)) ++ rest) with (0 :: zeros (length bs) ++ rest).
  rewrite key_digit_hex, E1, rd_middle by done. obind. rewrite wr_middle by done. obind.
  rewrite key_digit_hex, E2, rd_middle by done. obind. rewrite wr_middle by done. obind.
  assert (Ev : u8 (Z.shiftl (u8 (Z.shiftl 0 4 + b / 16)) 4 + b mod 16) = b).
  { rewrite !Z.shiftl_mul_pow2 by lia. change (2 ^ 4) with 16. rewrite (wrap_small 8 (0 * 16 + b / 16)) by lia.
    pose proof (Z.div_mod b 16 ltac:(lia)). rewrite wrap_small; lia. }
  rewrite Ev. replace (2 * zlen before + 1 + 1) with (2 * zlen (before ++ [b])) by (rewrite length_app; cbn; lia).
  specialize (IH (before ++ [b]) Hbs). rewrite <- !app_assoc in IH. apply IH.
Qed.

(** What the key of a fresh rule becomes. *)
Definition key_data (bs : bytes) : bytes := bs ++ zeros (32 - length bs).

Lemma parse_key_text bs :
  Forall byte_ok bs -> (length bs <= 32)%nat ->
  parse_hex_to_bytes (key_text bs) (length (key_text bs)) (zeros 32) = Some (DOCA_SUCCESS, key_data bs).
Proof.
  intros Hbs Hl. unfold parse_hex_to_bytes. rewrite firstn_all.
  pose proof (hex_loop_text bs [] (zeros (32 - length bs)) Hbs) as E. cbn [app] in E.
  unfold zeros in E. rewrite <- replicate_add, Nat.add_sub_assoc, Nat.add_comm, Nat.add_sub in E by done. apply E.
Qed.

(** ** Rules in words *)

Inductive addr := V4 (i : ip4) | V6 (groups : list Z).

Definition addr_ok (a : addr) : Prop := match a with V4 i => ip4_ok i | V6 gs => ip6_ok gs end.
Definition addr_version (a : addr) : Z := match a with V4 _ => 4 | V6 _ => 6 end.
Definition addr_l3 (a : addr) : doca_flow_l3_type := match a with V4 _ => L3_IP4 | V6 _ => L3_IP6 end.
Definition addr_text (a : addr) : cstring := match a with V4 i => ip4_text i | V6 gs => groups_text gs end.
Definition addr_bytes (a : addr) : bytes := match a with V4 i => ip4_bytes i | V6 gs => groups_bytes gs end.

(** A key of 128 or 256 bits, the length of the check value, the salt. *)
Record sa_line := SaLine { l_key : bytes; l_icv : Z; l_salt : Z }.
Record enc_line := EncLine {
  el_src : addr; el_dst : addr; el_tcp : bool; el_sport : Z; el_dport : Z; el_encap : addr; el_spi : Z; el_sa : sa_line
}.
Record dec_line := DecLine { dl_dst : addr; dl_inner : addr; dl_spi : Z; dl_sa : sa_line }.

Definition sa_line_ok (x : sa_line) : Prop :=
  Forall byte_ok (l_key x) /\ (length (l_key x) = 16%nat \/ length (l_key x) = 32%nat) /\
  (l_icv x = 8 \/ l_icv x = 12 \/ l_icv x = 16) /\ 0 <= l_salt x < 2 ^ 31.
Definition enc_line_ok (x : enc_line) : Prop :=
  addr_ok (el_src x) /\ addr_ok (el_dst x) /\ addr_version (el_src x) = addr_version (el_dst x) /\ addr_ok (el_encap x) /\
  0 <= el_spi x < 2 ^ 31 /\ sa_line_ok (el_sa x).
Definition dec_line_ok (x : dec_line) : Prop := addr_ok (dl_dst x) /\ 0 <= dl_spi x < 2 ^ 31 /\ sa_line_ok (dl_sa x).

(** The rules of the gateway. *)
Definition line_key_type (x : sa_line) : doca_encryption_key_type :=
  if (length (l_key x) =? 16)%nat then DOCA_ENCRYPTION_KEY_AESGCM_128 else DOCA_ENCRYPTION_KEY_AESGCM_256.
Definition line_sa (d : doca_ipsec_direction) (x : sa_line) : gw_sa_attrs :=
  SaAttrs (l_icv x) (line_key_type x) (key_data (l_key x)) (l_salt x) d.
Definition enc_rule (tunnel : bool) (x : enc_line) : gw_encrypt_rule :=
  let a := addr_bytes (el_src x) ++ addr_bytes (el_dst x) in
  GwEnc (addr_l3 (el_src x)) (if el_tcp x then L4_TCP else L4_UDP) (a ++ zeros (32 - length a)) (el_sport x) (el_dport x)
    (addr_l3 (el_encap x))
    (if tunnel then addr_bytes (el_encap x) ++ zeros (16 - length (addr_bytes (el_encap x))) else zeros 16)
    (el_spi x) 0 None (line_sa DOCA_IPSEC_DIRECTION_EGRESS_ENCRYPT (el_sa x)).
Definition dec_rule (x : dec_line) : gw_decrypt_rule :=
  GwDec (addr_l3 (dl_dst x)) (addr_bytes (dl_dst x) ++ zeros (16 - length (addr_bytes (dl_dst x)))) (dl_spi x)
    (addr_l3 (dl_inner x)) None (line_sa DOCA_IPSEC_DIRECTION_INGRESS_DECRYPT (dl_sa x)) (replicate 4 false).

Lemma length_addr a : addr_ok a -> length (addr_bytes a) = match a with V4 _ => 4%nat | V6 _ => 16%nat end.
Proof. destruct a as [i|gs]; intros H; [done|]. destruct H as [Hl _]. cbn. by do 9 (destruct gs as [|? gs]; try done). Qed.

Section Text.
Context `{J : JsonC}.
Implicit Types o : option json.

(** A number that has a default when it is missing. *)
Definition default_int_at o (k : cstring) (default n : Z) : Prop :=
  (json_object_object_get_ex o k = None /\ n = default) \/ int_at o k n.

Definition sa_elem o (x : sa_line) : Prop :=
  default_int_at o (str "key-type") 256 (8 * zlen (l_key x)) /\ string_at o (str "key") (key_text (l_key x)) /\
  default_int_at o (str "icv-length") 16 (l_icv x) /\ default_int_at o (str "salt") 6 (l_salt x).
Definition enc_elem (tunnel : bool) o (x : enc_line) : Prop :=
  default_int_at o (str "ip-version") 4 (addr_version (el_src x)) /\
  string_at o (str "protocol") (if el_tcp x then str "tcp" else str "udp") /\
  default_int_at o (str "encap-ip-version") 4 (addr_version (el_encap x)) /\
  string_at o (str "src-ip") (addr_text (el_src x)) /\ string_at o (str "dst-ip") (addr_text (el_dst x)) /\
  (tunnel = true -> string_at o (str "encap-dst-ip") (addr_text (el_encap x))) /\
  int_at o (str "src-port") (el_sport x) /\ int_at o (str "dst-port") (el_dport x) /\ int_at o (str "spi") (el_spi x) /\
  sa_elem o (el_sa x).
Definition dec_elem o (x : dec_line) : Prop :=
  default_int_at o (str "ip-version") 4 (addr_version (dl_dst x)) /\ string_at o (str "dst-ip") (addr_text (dl_dst x)) /\
  int_at o (str "spi") (dl_spi x) /\ default_int_at o (str "inner-ip-version") 4 (addr_version (dl_inner x)) /\
  sa_elem o (dl_sa x).

(** *** Members *)

Lemma l3_at o k a old : default_int_at o k 4 (addr_version a) -> create_l3_type o k old = (DOCA_SUCCESS, addr_l3 a).
Proof.
  unfold create_l3_type. intros [[-> E]|(x & -> & Ht & E)].
  - by destruct a.
  - rewrite decide_True, E by done. by destruct a.
Qed.

Lemma ipv4_at o k i old : ip4_ok i -> string_at o k (ip4_text i) -> create_ipv4 o k old = (DOCA_SUCCESS, ip4_bytes i).
Proof.
  intros Hi Hs. unfold create_ipv4. destruct (parse_ip_at o k i old Hi Hs) as (x & -> & Ht & Hp). by rewrite decide_True.
Qed.

Lemma ipv6_at o k gs old :
  ip6_ok gs -> length old = 16%nat -> string_at o k (groups_text gs) -> create_ipv6 o k old = (DOCA_SUCCESS, groups_bytes gs).
Proof.
  intros Hg Hl (x & Hx & Ht & E). unfold create_ipv6. rewrite Hx, decide_True, E by done. by apply parse_ipv6_text.
Qed.

Lemma protocol_at o (tcp : bool) old :
  string_at o (str "protocol") (if tcp then str "tcp" else str "udp") ->
  create_protocol o old = (DOCA_SUCCESS, if tcp then L4_TCP else L4_UDP).
Proof. intros (x & Hx & Ht & E). unfold create_protocol. rewrite Hx, decide_True, E by done. by destruct tcp. Qed.

Lemma port_at o k n old : int_at o k n -> create_port o k old = (DOCA_SUCCESS, n).
Proof. intros (x & Hx & Ht & E). unfold create_port. rewrite Hx, decide_True by done. by rewrite E. Qed.

Lemma spi_at o n old : int_at o (str "spi") n -> 0 <= n < 2 ^ 31 -> create_spi o old = (DOCA_SUCCESS, n).
Proof.
  intros (x & Hx & Ht & E) Hn. unfold create_spi. rewrite Hx, decide_True, E by done. by rewrite wrap_small by lia.
Qed.

Lemma sa_at o x d :
  sa_elem o x -> sa_line_ok x ->
  runs (parse_sa_members o >>? a ← get; _ ← put (set_direction d a); mret DOCA_SUCCESS) sa_attrs0
    (fun e a => e = DOCA_SUCCESS /\ a = line_sa d x).
Proof.
  intros (Ht & Hk & Hi & Hs) (Hb & Hl & Hicv & Hsalt). unfold parse_sa_members.
  assert (Et : forall old, create_key_type o old = (DOCA_SUCCESS, line_key_type x)).
  { intros old. unfold create_key_type, line_key_type.
    destruct Ht as [[-> E]|(y & -> & Hy & E)]; [|rewrite decide_True, E by done]; by destruct Hl as [Hl|Hl]; rewrite Hl in *. }
  assert (Ek : create_key o (line_key_type x) (zeros 32) = Some (DOCA_SUCCESS, key_data (l_key x))).
  { destruct Hk as (y & Hy & Hyt & E). unfold create_key. rewrite Hy, decide_True, E by done. cbn zeta.
    set (max := match line_key_type x with DOCA_ENCRYPTION_KEY_AESGCM_128 => 32 | _ => 64 end%nat).
    assert (Hm : length (key_text (l_key x)) = max).
    { rewrite length_key_text. unfold max, line_key_type. by destruct Hl as [Hl|Hl]; rewrite Hl. }
    unfold strnlen. rewrite Nat.min_l by lia. rewrite (proj2 (Nat.eqb_neq _ _)) by lia.
    assert (length (key_text (l_key x)) mod 2 =? 0 = true)%nat as ->.
    { rewrite length_key_text, Nat.mul_comm. by rewrite Nat.Div0.mod_mul. }
    apply parse_key_text; [done|]. destruct Hl as [Hl|Hl]; lia. }
  assert (Ei : forall old, parse_icv_length o old = (DOCA_SUCCESS, l_icv x)).
  { intros old. unfold parse_icv_length. destruct Hi as [[-> E]|(y & -> & Hy & E)]; [by rewrite E|].
    rewrite decide_True, E by done. by destruct Hicv as [E'|[E'|E']]; rewrite E'. }
  assert (Es : forall old, create_salt o old = (DOCA_SUCCESS, l_salt x)).
  { intros old. unfold create_salt. destruct Hs as [[-> E]|(y & -> & Hy & E)]; [by rewrite E|].
    rewrite decide_True, E by done. by rewrite wrap_small by lia. }
  apply runs_or_return.
  apply runs_or_return, runs_out. rewrite Et, decide_True by done. cbn [fst snd].
  apply runs_bind, runs_get, runs_or_return. eapply runs_out_opt; [exact Ek|]. rewrite decide_True by done.
  apply runs_or_return, runs_out. rewrite Ei, decide_True by done. cbn [fst snd].
  apply runs_or_return, runs_out. rewrite Es, decide_True by done. cbn [fst snd]. apply runs_ret. rewrite decide_True by done.
  apply runs_bind, runs_get, runs_bind, runs_put, runs_ret. done.
Qed.

(** *** Rules *)

Lemma splice_zeros a n : splice 0 a (zeros n) = a ++ zeros (n - length a).
Proof. unfold splice, zeros. cbn [take app]. by rewrite drop_replicate. Qed.

Lemma splice_next a b n : splice (length a) b (a ++ zeros n) = a ++ b ++ zeros (n - length b).
Proof.
  unfold splice, zeros. rewrite take_app_length, drop_app_ge by lia. rewrite drop_replicate. do 3 f_equal. lia.
Qed.

Lemma dec_rule_at o x :
  dec_elem o x -> dec_line_ok x ->
  runs (parse_decrypt_rule o) decrypt_rule0 (fun e r => e = DOCA_SUCCESS /\ r = dec_rule x).
Proof.
  intros (Hv & Hd & Hs & Hi & Ha) (Hok & Hspi & Hsa). unfold parse_decrypt_rule.
  apply runs_or_return, runs_out. rewrite (l3_at _ _ _ _ Hv), decide_True by done. cbn [fst snd].
  apply runs_bind, runs_get, runs_or_return.
  eapply (runs_mono _ _ (fun e r => e = DOCA_SUCCESS /\
    r = set_d_dst (addr_bytes (dl_dst x)) (set_d_l3 (addr_l3 (dl_dst x)) decrypt_rule0))).
  { destruct (dl_dst x) as [i|gs]; cbn [addr_l3 d_l3_type set_d_l3 addr_text addr_bytes] in *;
      [rewrite decide_True by done|rewrite decide_False by done]; apply runs_out.
    - by rewrite (ipv4_at _ _ _ _ Hok Hd).
    - by rewrite (ipv6_at _ _ gs _ Hok) by done. }
  intros e r [-> ->]. rewrite decide_True by done.
  apply runs_or_return, runs_out. rewrite (spi_at _ _ _ Hs Hspi), decide_True by done. cbn [fst snd].
  apply runs_or_return, runs_out. rewrite (l3_at _ _ _ _ Hi), decide_True by done. cbn [fst snd].
  apply runs_zoom. eapply runs_mono; [by apply (sa_at o (dl_sa x))|]. intros e a [-> ->]. split; [done|].
  unfold set_d_sa_attrs, set_d_inner, set_d_spi, set_d_dst, set_d_l3, dec_rule, decrypt_rule0. cbn [d_dst d_l3_type d_esp_spi
    d_inner_l3_type d_sa d_sa_attrs d_entries]. by rewrite splice_zeros.
Qed.

(** The addresses, from an empty rule. *)
Lemma ipv4_addrs_at o r i j :
  string_at o (str "src-ip") (ip4_text i) -> string_at o (str "dst-ip") (ip4_text j) -> ip4_ok i -> ip4_ok j ->
  e_addrs r = zeros 32 ->
  runs (parse_encrypt_ipv4 o) r (fun e r' => e = DOCA_SUCCESS /\
    r' = set_addrs 4 (ip4_bytes j) (set_addrs 0 (ip4_bytes i) r)).
Proof.
  intros Hs Hd Hi Hj Hr. unfold parse_encrypt_ipv4.
  apply runs_or_return, runs_out. rewrite (ipv4_at _ _ _ _ Hi Hs), decide_True by done. cbn [fst snd].
  apply runs_or_return, runs_out. rewrite (ipv4_at _ _ _ _ Hj Hd), decide_True by done. cbn [fst snd]. by apply runs_ret.
Qed.
End Text.

(** A table that takes every address. *)
Class RoomyTable (T : Type) `{Ip6Hash T} : Prop := h6_add_accepts : forall t k, 0 <= fst (h6_add t k).

Section Rules.
Context {T : Type} `{IL : Ip6HashLaws T} `{RT : !RoomyTable T} `{J : JsonC}.
Implicit Types c : app_config T.

Lemma ip6_table_add_accepts k (t : T) : fst (ip6_table_add k t) = DOCA_SUCCESS.
Proof.
  unfold ip6_table_add. case_bool; [|done]. pose proof (h6_add_accepts t k). destruct (h6_add t k) as [id t'].
  cbn [fst] in *. by rewrite (proj2 (Z.ltb_ge id 0)) by done.
Qed.

Lemma ipv6_addrs_at o c rs i r t gs gs' :
  string_at o (str "src-ip") (groups_text gs) -> string_at o (str "dst-ip") (groups_text gs') -> ip6_ok gs -> ip6_ok gs' ->
  enc_shape r -> (i < length rs)%nat ->
  runs (parse_encrypt_ipv6 o (Z.of_nat i)) (upd c rs i r t) (fun e c' => exists t', e = DOCA_SUCCESS /\
    c' = upd c rs i (set_addrs 16 (groups_bytes gs') (set_addrs 0 (groups_bytes gs) r)) t').
Proof.
  intros Hs Hd Hg Hg' Hr Hi. unfold parse_encrypt_ipv6. pose proof (ip6_lengths r Hr) as (_ & _ & L1 & _).
  apply runs_or_return, runs_on_encrypt; [done|]. apply runs_out. rewrite (ipv6_at _ _ gs _ Hg L1 Hs), decide_True by done.
  cbn [fst snd]. set (r1 := set_addrs 0 _ r).
  assert (enc_shape r1) as Hr1 by (apply set_addrs_shape; [done|]; pose proof (length_addr (V6 gs) Hg); cbn in *; lia).
  pose proof (ip6_lengths r1 Hr1) as (_ & _ & _ & L2).
  apply runs_or_return, runs_on_encrypt; [done|]. apply runs_out. rewrite (ipv6_at _ _ gs' _ Hg' L2 Hd), decide_True by done.
  cbn [fst snd]. set (r2 := set_addrs 16 _ r1). apply runs_bind, runs_on_encrypt; [done|]. apply runs_get.
  apply runs_or_return, runs_add_ip6. rewrite ip6_table_add_accepts, decide_True by done.
  apply runs_bind, runs_on_encrypt; [done|]. apply runs_get.
  apply runs_or_return, runs_add_ip6. rewrite ip6_table_add_accepts, decide_True by done. apply runs_ret. by eexists.
Qed.

Lemma enc_rule_at o (tunnel : bool) x c rs i t :
  enc_elem tunnel o x -> enc_line_ok x -> (i < length rs)%nat -> (tunnel = true <-> mode (base (gw c)) = IPSEC_SECURITY_GW_TUNNEL) ->
  runs (parse_encrypt_rule o (Z.of_nat i)) (upd c rs i encrypt_rule0 t) (fun e c' => exists t', e = DOCA_SUCCESS /\
    c' = upd c rs i (enc_rule tunnel x) t').
Proof.
  intros (Hv & Hp & Hev & Hs & Hd & He & Hsp & Hdp & Hspi & Hsa) (Hsrc & Hdst & Hvv & Henc & Hn & Hsaok) Hi Htun.
  unfold parse_encrypt_rule. apply runs_or_return, runs_on_encrypt; [done|].
  apply runs_or_return, runs_out. rewrite (l3_at _ _ _ _ Hv), decide_True by done. cbn [fst snd].
  apply runs_or_return, runs_out. rewrite (protocol_at _ _ _ Hp), decide_True by done. cbn [fst snd].
  apply runs_out. rewrite (l3_at _ _ _ _ Hev), decide_True by done. cbn [fst snd].
  set (r1 := set_e_encap_l3 _ _). apply runs_bind, runs_on_encrypt; [done|]. apply runs_get. apply runs_or_return.
  set (a := addr_bytes (el_src x) ++ addr_bytes (el_dst x)).
  set (r2 := GwEnc (e_l3_type r1) (e_protocol r1) (a ++ zeros (32 - length a)) 0 0 (e_encap_l3_type r1) (zeros 16) 0 0 None sa_attrs0).
  eapply (runs_mono _ _ (fun e c' => exists t', e = DOCA_SUCCESS /\ c' = upd c rs i r2 t')).
  { assert (Hr2 : r2 = set_addrs (length (addr_bytes (el_src x))) (addr_bytes (el_dst x)) (set_addrs 0 (addr_bytes (el_src x)) r1)).
    { unfold set_addrs. cbn [e_l3_type e_protocol e_addrs e_src_port e_dst_port e_encap_l3_type e_encap_dst e_esp_spi e_current_sn
        e_sa e_sa_attrs r1 set_e_encap_l3 set_e_protocol set_e_l3 encrypt_rule0]. rewrite splice_zeros, splice_next.
      unfold r2, a. rewrite <- app_assoc, length_app, Nat.sub_add_distr. done. }
    rewrite Hr2. change (e_l3_type r1) with (addr_l3 (el_src x)). clear Hr2 r2 a.
    destruct (el_src x) as [j|gs], (el_dst x) as [j'|gs']; try done; cbn [addr_l3 addr_bytes addr_text] in *;
      [rewrite decide_True by done|rewrite decide_False by done].
    - apply runs_on_encrypt; [done|]. eapply runs_mono; [by apply (ipv4_addrs_at o r1 j j')|].
      intros e r [-> ->]. exists t. done.
    - eapply runs_mono; [by apply (ipv6_addrs_at o c rs i r1 t gs gs')|]. intros e c' (t' & -> & ->). exists t'.
      pose proof (length_addr (V6 gs) Hsrc) as Hl. cbn [addr_bytes] in Hl. by rewrite Hl. }
  intros e c' (t' & -> & ->). rewrite decide_True by done. apply runs_bind, runs_get, runs_or_return.
  set (encap := addr_bytes (el_encap x)).
  set (r3 := if tunnel then set_e_encap_dst encap r2 else r2).
  eapply (runs_mono _ _ (fun e c' => e = DOCA_SUCCESS /\ c' = upd c rs i r3 t')).
  { change (gw (upd c rs i r2 t')) with (gw c). unfold r3. destruct tunnel.
    2:{ rewrite decide_False; [by apply runs_ret|]. intros E. by destruct Htun as [_ E'%(fun f => f E)]. }
    rewrite decide_True by by apply Htun. apply runs_on_encrypt; [done|]. unfold parse_encrypt_encap_ip.
    apply runs_bind, runs_get. change (e_encap_l3_type r2) with (addr_l3 (el_encap x)). specialize (He eq_refl). unfold encap.
    destruct (el_encap x) as [j|gs]; cbn [addr_l3 addr_bytes addr_text] in *;
      [rewrite decide_True by done|rewrite decide_False by done]; apply runs_or_return, runs_out.
    - rewrite (ipv4_at _ _ _ _ Henc He), decide_True by done. by apply runs_ret.
    - rewrite (ipv6_at _ _ gs _ Henc), decide_True by done. by apply runs_ret. }
  intros e c' [-> ->]. rewrite decide_True by done. apply runs_on_encrypt; [done|].
  apply runs_or_return, runs_out. rewrite (port_at _ _ _ _ Hsp), decide_True by done. cbn [fst snd].
  apply runs_or_return, runs_out. rewrite (port_at _ _ _ _ Hdp), decide_True by done. cbn [fst snd].
  apply runs_or_return, runs_out. rewrite (spi_at _ _ _ Hspi Hn), decide_True by done. cbn [fst snd].
  assert (e_sa_attrs r3 = sa_attrs0) as Ha3 by (unfold r3; by destruct tunnel).
  apply runs_zoom. eapply runs_mono.
  { cbn [e_sa_attrs set_e_spi set_e_ports]. rewrite Ha3. by apply (sa_at o (el_sa x)). }
  intros e' a' [-> ->]. exists t'. split; [done|]. f_equal. unfold r3, enc_rule. fold a. fold encap.
  destruct tunnel; [|done]. unfold set_e_encap_dst. change (e_encap_dst r2) with (zeros 16). by rewrite splice_zeros.
Qed.
End Rules.

(** ** Files in words *)

Record settings := Settings {
  st_switch : bool; st_sn_initial : Z; st_offload : ipsec_security_gw_esp_offload; st_sn_inc : bool; st_antireplay : bool
}.
Definition settings0 : settings := Settings false 0 IPSEC_SECURITY_GW_ESP_OFFLOAD_BOTH false false.
Definition settings_gw (x : settings) (g : gw_config) : gw_config :=
  GwConfig (Config (st_sn_inc x) (st_antireplay x) (mode (base g)) (st_sn_initial x))
    (if st_switch x then IPSEC_SECURITY_GW_SWITCH else IPSEC_SECURITY_GW_VNF) (st_offload x) (socket_conf g).
Definition offload_text (o : ipsec_security_gw_esp_offload) : cstring :=
  match o with
  | IPSEC_SECURITY_GW_ESP_OFFLOAD_BOTH => str "both" | IPSEC_SECURITY_GW_ESP_OFFLOAD_ENCAP => str "encap"
  | IPSEC_SECURITY_GW_ESP_OFFLOAD_DECAP => str "decap" | IPSEC_SECURITY_GW_ESP_OFFLOAD_NONE => str "none"
  end.

(** Only the arguments have set something. *)
Definition args_only {T} (c : app_config T) : Prop :=
  nb_encrypted c = 0 /\ nb_decrypted c = 0 /\
  gw c = GwConfig (Config false false (mode (base (gw c))) 0) (flow_mode (gw c)) IPSEC_SECURITY_GW_ESP_OFFLOAD_BOTH (socket_conf (gw c)).

Section Files.
Context `{J : JsonC}.
Implicit Types o j : option json.

Definition default_bool_at o (k : cstring) (b : bool) : Prop :=
  (json_object_object_get_ex o k = None /\ b = false) \/
  exists x, json_object_object_get_ex o k = Some x /\ json_object_get_type x = json_type_boolean /\ json_object_get_boolean x = b.
Definition default_int64_at o (k : cstring) (n : Z) : Prop :=
  (json_object_object_get_ex o k = None /\ n = 0) \/
  exists x, json_object_object_get_ex o k = Some x /\ json_object_get_type x = json_type_int /\ json_object_get_int64 x = n.
Definition default_offload_at o (k : cstring) (f : ipsec_security_gw_esp_offload) : Prop :=
  (json_object_object_get_ex o k = None /\ f = IPSEC_SECURITY_GW_ESP_OFFLOAD_BOTH) \/ string_at o k (offload_text f).

Definition settings_elem o (x : settings) : Prop :=
  default_bool_at o (str "switch") (st_switch x) /\ default_int64_at o (str "sn-initial") (st_sn_initial x) /\
  in_u 32 (st_sn_initial x) /\ default_offload_at o (str "esp-header-offload") (st_offload x) /\
  default_bool_at o (str "sw-sn-inc-enable") (st_sn_inc x) /\ default_bool_at o (str "sw-antireplay-enable") (st_antireplay x).

(** The array under [k] describes those of [l]. *)
Definition array_at {A} (elem : option json -> A -> Prop) j (k : cstring) (l : list A) : Prop :=
  exists rules, json_object_object_get_ex j k = Some rules /\ json_object_array_length rules = Some (zlen l) /\
    forall i x, l !! i = Some x -> elem (json_object_array_get_idx rules (Z.of_nat i)) x.

Definition config_file (tunnel : bool) j (x : settings) (l1 : list enc_line) (l2 : list dec_line) : Prop :=
  ((json_object_object_get_ex j (str "config") = None /\ x = settings0) \/
   exists o, json_object_object_get_ex j (str "config") = Some o /\ settings_elem o x) /\
  array_at (enc_elem tunnel) j (str "encrypt-rules") l1 /\ array_at dec_elem j (str "decrypt-rules") l2 /\
  Forall enc_line_ok l1 /\ Forall dec_line_ok l2 /\ zlen l1 <= MAX_NB_RULES /\ zlen l2 <= MAX_NB_RULES.

Lemma settings_at o x g :
  settings_elem o x -> g = settings_gw settings0 g -> parse_json_config o g = (DOCA_SUCCESS, settings_gw x g).
Proof.
  intros (Hsw & Hsn & Hr & Hof & Hinc & Har) Hg. rewrite Hg at 1. generalize (mode (base g)) as m, (socket_conf g) as s. clear Hg.
  intros m s. unfold parse_json_config.
  assert (E1 : parse_switch_config o (settings_gw settings0 g) =
    (DOCA_SUCCESS, settings_gw (Settings (st_switch x) 0 IPSEC_SECURITY_GW_ESP_OFFLOAD_BOTH false false) g)).
  { unfold parse_switch_config. destruct Hsw as [[-> ->]|(y & -> & Ht & ->)]; [done|]. rewrite decide_True by done. by destruct (st_switch x). }
  rewrite E1. cbn [ok negb]. set (g1 := settings_gw _ g).
  assert (E2 : parse_sn_initial o g1 =
    (DOCA_SUCCESS, settings_gw (Settings (st_switch x) (st_sn_initial x) IPSEC_SECURITY_GW_ESP_OFFLOAD_BOTH false false) g)).
  { unfold parse_sn_initial. destruct Hsn as [[-> ->]|(y & -> & Ht & ->)]; [done|]. rewrite decide_True by done. unfold in_u in Hr.
    rewrite (proj2 (Z.ltb_ge _ 0)), (proj2 (Z.ltb_ge UINT32_MAX _)) by (unfold UINT32_MAX; lia). cbn [orb].
    by rewrite wrap_small by lia. }
  rewrite E2. cbn [ok negb]. set (g2 := settings_gw _ g).
  assert (E3 : parse_esp_offload o g2 =
    (DOCA_SUCCESS, settings_gw (Settings (st_switch x) (st_sn_initial x) (st_offload x) false false) g)).
  { unfold parse_esp_offload. destruct Hof as [[-> ->]|(y & -> & Ht & ->)]; [done|]. rewrite decide_True by done. by destruct (st_offload x). }
  rewrite E3. cbn [ok negb]. set (g3 := settings_gw _ g).
  assert (E4 : parse_sn_inc o g3 =
    (DOCA_SUCCESS, settings_gw (Settings (st_switch x) (st_sn_initial x) (st_offload x) (st_sn_inc x) false) g)).
  { unfold parse_sn_inc. destruct Hinc as [[-> ->]|(y & -> & Ht & ->)]; [done|]. by rewrite decide_True by done. }
  rewrite E4. cbn [ok negb]. unfold parse_antireplay.
  destruct Har as [[-> E]|(y & -> & Ht & ->)]; [|by rewrite decide_True by done]. unfold settings_gw. by rewrite E.
Qed.
End Files.

Section Described.
Context {T : Type} `{IL : Ip6HashLaws T} `{RT : !RoomyTable T} `{IT : !Ip6Table T} `{J : JsonC}.
Implicit Types c : app_config T.

Lemma enc_loop_at rules (tunnel : bool) l c before m t :
  (tunnel = true <-> mode (base (gw c)) = IPSEC_SECURITY_GW_TUNNEL) ->
  (forall k x, l !! k = Some x -> enc_elem tunnel (json_object_array_get_idx rules (zlen before + Z.of_nat k)) x) ->
  Forall enc_line_ok l -> encrypt_array c = Some (before ++ replicate m encrypt_rule0) -> (length l <= m)%nat ->
  app_ip6_table c = Some t ->
  runs (encrypt_rules_loop rules (length l) (zlen before)) c (fun e c' => exists t', e = DOCA_SUCCESS /\
    c' = set_encrypt_array (before ++ map (enc_rule tunnel) l ++ replicate (m - length l) encrypt_rule0) (set_table t' c)).
Proof.
  intros Htun. revert c before m t Htun. induction l as [|x l IH]; intros c before m t Htun Hel Hok Hc Hm Ht;
    cbn [length encrypt_rules_loop map app].
  { apply runs_ret. exists t. rewrite Nat.sub_0_r. split; [done|]. destruct c. cbn in *. by subst. }
  apply Forall_cons in Hok as [Hx Hok]. destruct m as [|m]; [cbn in Hm; lia|].
  set (rs := before ++ replicate (S m) encrypt_rule0) in *.
  assert (Hlen : (length before < length rs)%nat) by (unfold rs; rewrite length_app; cbn; lia).
  assert (Hr : rs !! length before = Some encrypt_rule0) by (unfold rs; by apply list_lookup_middle).
  apply runs_or_return. rewrite (upd_start c rs _ _ t Hc Ht Hr) at 1.
  eapply runs_mono; [apply (enc_rule_at _ tunnel x); try done|].
  { specialize (Hel 0%nat x eq_refl). by rewrite Z.add_0_r in Hel. }
  intros e c1 (t1 & -> & ->). rewrite decide_True by done.
  replace (zlen before + 1) with (zlen (before ++ [enc_rule tunnel x])) by (rewrite length_app; cbn; lia).
  assert (Hins : <[length before := enc_rule tunnel x]> rs = (before ++ [enc_rule tunnel x]) ++ replicate m encrypt_rule0).
  { unfold rs. rewrite insert_app_r_alt by lia. rewrite Nat.sub_diag. cbn. by rewrite <- app_assoc. }
  eapply runs_mono; [apply (IH _ (before ++ [enc_rule tunnel x]) m t1); try done; [|unfold upd; cbn; by rewrite Hins|cbn in Hm; lia]|].
  - intros k y Hk. specialize (Hel (S k) y Hk). rewrite length_app. cbn [length].
    by replace (Z.of_nat (length before + 1) + Z.of_nat k) with (zlen before + Z.of_nat (S k)) by lia.
  - intros e c2 (t2 & -> & ->). exists t2. split; [done|]. unfold upd. rewrite set_encrypt_twice. by rewrite <- app_assoc.
Qed.

Lemma dec_loop_at rules l c before m :
  (forall k x, l !! k = Some x -> dec_elem (json_object_array_get_idx rules (zlen before + Z.of_nat k)) x) ->
  Forall dec_line_ok l -> decrypt_array c = Some (before ++ replicate m decrypt_rule0) -> (length l <= m)%nat ->
  runs (decrypt_rules_loop rules (length l) (zlen before)) c (fun e c' => e = DOCA_SUCCESS /\
    c' = set_decrypt_array (before ++ map dec_rule l ++ replicate (m - length l) decrypt_rule0) c).
Proof.
  revert c before m. induction l as [|x l IH]; intros c before m Hel Hok Hc Hm; cbn [length decrypt_rules_loop map app].
  { apply runs_ret. rewrite Nat.sub_0_r. split; [done|]. destruct c. cbn in *. by subst. }
  apply Forall_cons in Hok as [Hx Hok]. destruct m as [|m]; [cbn in Hm; lia|].
  set (rs := before ++ replicate (S m) decrypt_rule0) in *.
  assert (Hlen : (length before < length rs)%nat) by (unfold rs; rewrite length_app; cbn; lia).
  assert (Hr : rs !! length before = Some decrypt_rule0) by (unfold rs; by apply list_lookup_middle).
  apply runs_or_return. rewrite (upd_dec_start c rs _ _ Hc Hr) at 1. apply runs_on_decrypt; [done|].
  specialize (Hel 0%nat x eq_refl) as Hel0. rewrite Z.add_0_r in Hel0.
  eapply runs_mono; [by apply (dec_rule_at _ x)|]. intros e r [-> ->]. rewrite decide_True by done.
  replace (zlen before + 1) with (zlen (before ++ [dec_rule x])) by (rewrite length_app; cbn; lia).
  assert (Hins : <[length before := dec_rule x]> rs = (before ++ [dec_rule x]) ++ replicate m decrypt_rule0).
  { unfold rs. rewrite insert_app_r_alt by lia. rewrite Nat.sub_diag. cbn. by rewrite <- app_assoc. }
  eapply runs_mono; [apply (IH _ (before ++ [dec_rule x]) m); try done; [|unfold upd_dec; cbn; by rewrite Hins|cbn in Hm; lia]|].
  - intros k y Hk. specialize (Hel (S k) y Hk). rewrite length_app. cbn [length].
    by replace (Z.of_nat (length before + 1) + Z.of_nat k) with (zlen before + Z.of_nat (S k)) by lia.
  - intros e c2 (-> & ->). split; [done|]. unfold upd_dec. by rewrite <- app_assoc.
Qed.

(** The configuration that a file describes. *)
Definition described (tunnel : bool) (x : settings) (l1 : list enc_line) (l2 : list dec_line) (t : T) c : app_config T :=
  AppCfg T (settings_gw x (gw c)) (json_path c) (Some t)
    (Some (map (enc_rule tunnel) l1 ++ replicate (Z.to_nat MAX_NB_RULES - length l1) encrypt_rule0))
    (Some (map dec_rule l2 ++ replicate (Z.to_nat MAX_NB_RULES - length l2) decrypt_rule0))
    (zlen l1) (zlen l2) (secured_dev c) (unsecured_dev c) (socket_path c) (nb_cores c).

Lemma parse_rules_at j tunnel x l1 l2 h c :
  config_file tunnel j x l1 l2 -> args_only c -> socket_conf (gw c) = false ->
  (tunnel = true <-> mode (base (gw c)) = IPSEC_SECURITY_GW_TUNNEL) ->
  runs (parse_rules_of j) (World T h (prepared c)) (fun e w =>
    (valid (set_gw (settings_gw x (gw c)) c) -> e = DOCA_SUCCESS /\ exists t, w = World T h (described tunnel x l1 l2 t c)) /\
    (~ valid (set_gw (settings_gw x (gw c)) c) -> e = DOCA_ERROR_INVALID_VALUE)).
Proof.
  intros (Hset & (er & Her & Hel & He) & (dr & Hdr & Hdl & Hd) & Ho1 & Ho2 & Hl1 & Hl2) (Hn1 & Hn2 & Hgw) Hsock Htun.
  unfold parse_rules_of. apply runs_or_return.
  set (g := settings_gw x (gw c)).
  eapply (runs_mono _ _ (fun e w => e = DOCA_SUCCESS /\ w = World T h (set_gw g (prepared c)))).
  { assert (Hg0 : gw (prepared c) = settings_gw settings0 (gw (prepared c))) by (cbn; by rewrite Hgw).
    destruct Hset as [[-> ->]|(o & -> & Ho)].
    - apply runs_ret. split; [done|]. f_equal. unfold g. cbn in Hg0. unfold prepared, set_gw. cbn. f_equal. by rewrite Hgw.
    - apply runs_cfg, runs_out. cbn [hist app]. rewrite (settings_at o x _ Ho Hg0). split; [done|]. done. }
  intros e w [-> ->]. rewrite decide_True by done. apply runs_bind, runs_cfg, runs_get. cbn [hist app].
  apply runs_or_return, runs_ret. change (validate_config (set_gw g (prepared c))) with (validate_config (set_gw g c)).
  case_decide as Hv.
  2:{ split; [intros Hval; by apply validate_config_valid in Hval|]. intros _. revert Hv. unfold validate_config.
      repeat case_bool; done. }
  apply validate_config_valid in Hv. change (socket_conf (gw (set_gw g (prepared c)))) with (socket_conf (gw c)). rewrite Hsock, Her, Hdr.
  apply runs_or_return, runs_cfg. cbn [hist app]. unfold parse_json_encrypt_rules. rewrite Hel.
  apply runs_bind, runs_get, runs_bind, runs_put. unfold MAX_NB_RULES in *. rewrite s32_small by lia.
  rewrite (proj2 (Z.ltb_ge 1024 _)) by lia. rewrite Nat2Z.id.
  eapply runs_mono; [apply (enc_loop_at er tunnel l1 _ [] 1024 rte_hash_create); try done; lia|].
  intros e c1 (t1 & -> & ->). rewrite decide_True by done. apply runs_cfg. cbn [hist app]. unfold parse_json_decrypt_rules. rewrite Hdl.
  apply runs_bind, runs_get, runs_bind, runs_put. rewrite s32_small by lia.
  rewrite (proj2 (Z.ltb_ge _ _)) by (unfold MAX_NB_RULES; lia). rewrite Nat2Z.id.
  eapply runs_mono; [apply (dec_loop_at dr l2 _ [] 1024); try done; lia|].
  intros e c2 (-> & ->). split; [|by intros ?]. intros _. split; [done|]. exists t1. done.
Qed.
End Described.

(** ** Theorems *)

Section Theorems.
Context {T : Type} `{IL : Ip6HashLaws T} `{RT : !RoomyTable T} `{IT : !Ip6Table T}.
Context `{P : Platform} `{RF : !ReadableFile} `{J : JsonC} (Hj : forall s, rule_arrays (json_tokener_parse s)).

(** The result of the parser, and where it succeeds a configuration that may be
    run. *)
Lemma parse_config_described h c text tunnel x l1 l2 :
  succeeds P -> has_text P text -> config_file tunnel (json_tokener_parse text) x l1 l2 ->
  args_only c -> socket_conf (gw c) = false -> (tunnel = true <-> mode (base (gw c)) = IPSEC_SECURITY_GW_TUNNEL) ->
  runs ipsec_security_gw_parse_config (World T h c) (fun e w =>
    (e = DOCA_SUCCESS -> config_ok (app w)) /\
    (valid (set_gw (settings_gw x (gw c)) c) -> e = DOCA_SUCCESS /\ exists t, app w = described tunnel x l1 l2 t c) /\
    (~ valid (set_gw (settings_gw x (gw c)) c) -> e = DOCA_ERROR_INVALID_VALUE)).
Proof.
  intros HP Ht Hfile Hc Hsock Htun.
  assert (Hf : fresh_config c) by (destruct Hc as (? & ? & Hg); split_and!; try done; unfold settings_ok; by rewrite Hg).
  eapply runs_mono; [by apply (parse_config_ok Hj)|]. intros e w (_ & _ & Htext & Hok).
  destruct (Htext HP text Ht) as (h1 & E).
  destruct (parse_rules_at _ tunnel x l1 l2 h1 c Hfile Hc Hsock Htun) as (e' & w' & E' & Hv & Hnv).
  rewrite E in E'. injection E' as <- <-. split; [by apply Hok|]. split; [|done]. intros Hval.
  destruct (Hv Hval) as (-> & t & [= Happ]). split; [done|]. by exists t.
Qed.

(** C3: a configuration file means what it says.  When the calls of the platform
    succeed and the file describes settings, encryption rules and decryption rules
    (at most 1024 of each; IPv4 or IPv6, keys of 128 or 256 bits in lower-case
    digits, missing members at their defaults), the gateway refuses it exactly
    when the settings may not be run with the arguments; otherwise its settings
    and its arrays are those of the file, rule by rule and byte by byte, the other
    places are empty, and the addresses of IPv6 rules are in the table. *)
Theorem gateway_config_rules h c text tunnel x l1 l2 :
  succeeds P -> has_text P text -> config_file tunnel (json_tokener_parse text) x l1 l2 ->
  args_only c -> socket_conf (gw c) = false -> (tunnel = true <-> mode (base (gw c)) = IPSEC_SECURITY_GW_TUNNEL) ->
  runs ipsec_security_gw_parse_config (World T h c) (fun e w =>
    (valid (set_gw (settings_gw x (gw c)) c) -> e = DOCA_SUCCESS /\
       exists t, app w = described tunnel x l1 l2 t c /\ Forall (fun y => known t (enc_rule tunnel y)) l1) /\
    (~ valid (set_gw (settings_gw x (gw c)) c) -> e = DOCA_ERROR_INVALID_VALUE)).
Proof.
  intros HP Ht Hfile Hc Hsock Htun. eapply runs_mono; [by eapply parse_config_described|].
  intros e w (Hok & Hv & Hnv). split; [|done]. intros Hval. destruct (Hv Hval) as (-> & t & Happ).
  split; [done|]. exists t. split; [done|]. destruct (Hok eq_refl) as (_ & _ & _ & _ & rs & ds & t' & Harr & Hk).
  rewrite Happ in Harr, Hk. destruct Harr as ([= <-] & _ & [= <-] & _). apply Forall_lookup. intros k y Hy.
  apply (Hk k); [apply lookup_lt_Some in Hy; cbn; lia|]. apply lookup_app_l_Some. by rewrite list_lookup_fmap, Hy.
Qed.
End Theorems.

(** A key is checked for its longest length only: no digits are a key of 256 bits
    that is zero. *)
Lemma empty_key_accepted `{J : JsonC} o t :
  string_at o (str "key") [] -> create_key o t (zeros 32) = Some (DOCA_SUCCESS, zeros 32).
Proof.
  intros (x & Hx & Ht & E). unfold create_key. rewrite Hx, decide_True, E by done. cbn zeta. by destruct t.
Qed.

(** An upper-case digit passes the test but is not what it is taken for: in the
    low half of a byte it adds 224 to the byte. *)
Lemma upper_case_key_wrong hi lo :
  0 <= hi < 16 -> 10 <= lo < 16 ->
  parse_hex_to_bytes [hex_char hi; 55 + lo] 2 [0] = Some (DOCA_SUCCESS, [u8 (hi * 16 + lo + 224)]) /\
  u8 (hi * 16 + lo + 224) <> hi * 16 + lo.
Proof.
  intros Hhi Hlo. unfold parse_hex_to_bytes. cbn [take hex_loop]. rewrite key_digit_hex by done.
  assert (key_digit (55 + lo) = Some (lo + 224)) as ->.
  { unfold key_digit, tolower. rewrite (proj2 (Z.leb_gt (55 + lo) 57)), andb_false_r by lia.
    rewrite (proj2 (Z.leb_le 65 _)), (proj2 (Z.leb_le _ 90)) by lia. cbn [andb].
    rewrite (proj2 (Z.leb_le 97 _)), (proj2 (Z.leb_le _ 102)) by lia. cbn [andb]. f_equal. solve_wrap. }
  change (0 / 2) with 0. change ((0 + 1) / 2) with 0. change (rd [0] 0) with (Some 0). obind.
  match goal with |- context [wr [0] 0 ?v] => change (wr [0] 0 v) with (Some [v]) end.
  obind. match goal with |- context [rd [?v] 0] => change (rd [v] 0) with (Some v) end. obind.
  match goal with |- context [wr [?u] 0 ?v] => change (wr [u] 0 v) with (Some [v]) end. obind.
  rewrite !Z.shiftl_mul_pow2 by lia. split; [|solve_wrap]. do 3 f_equal. solve_wrap.
Qed.

(** Numbers beyond an int become the largest one: two associations of a file can
    end up with one SPI. *)
Lemma large_spi_clamped `{J : JsonC} o x old :
  json_object_object_get_ex o (str "spi") = Some x -> json_object_get_type x = json_type_int ->
  2 ^ 31 <= json_object_get_int64 x -> create_spi o old = (DOCA_SUCCESS, 2 ^ 31 - 1).
Proof.
  intros Hx Ht Hn. unfold create_spi. rewrite Hx, decide_True, get_int_law by done.
  rewrite Z.min_l, Z.max_r by lia. done.
Qed.

(** ** A file *)

Definition line_ipv4 : enc_line :=
  EncLine (V4 (Ip 10 0 0 1)) (V4 (Ip 10 0 0 2)) false 4660 80 (V4 (Ip 192 168 0 9)) 7 (SaLine (replicate 16 170) 16 6).
Definition line_ipv6 : enc_line :=
  EncLine (V6 [8193; 3512; 0; 0; 0; 0; 0; 1]) (V6 [8193; 3512; 0; 0; 0; 0; 0; 2]) true 22 5000 (V6 [65152; 0; 0; 0; 0; 0; 0; 9]) 8
    (SaLine (replicate 32 27) 12 99).
Definition line_in : dec_line := DecLine (V4 (Ip 192 168 0 8)) (V6 []) 9 (SaLine (replicate 32 1) 8 6).
Definition demo_settings : settings := Settings false 1 IPSEC_SECURITY_GW_ESP_OFFLOAD_NONE true true.

Definition gw_tree : jtree :=
  JObj
    [(str "config",
      JObj [(str "esp-header-offload", JStr (str "none")); (str "sw-sn-inc-enable", JBool true);
            (str "sw-antireplay-enable", JBool true); (str "sn-initial", JInt 1)]);
     (str "encrypt-rules",
      JArr
        [JObj [(str "protocol", JStr (str "udp")); (str "src-ip", JStr (str "10.0.0.1")); (str "dst-ip", JStr (str "10.0.0.2"));
               (str "src-port", JInt 4660); (str "dst-port", JInt 80); (str "encap-dst-ip", JStr (str "192.168.0.9"));
               (str "spi", JInt 7); (str "key-type", JInt 128); (str "key", JStr (key_text (replicate 16 170)))];
         JObj [(str "ip-version", JInt 6); (str "protocol", JStr (str "tcp")); (str "src-ip", JStr (str "2001:db8:0:0:0:0:0:1"));
               (str "dst-ip", JStr (str "2001:db8:0:0:0:0:0:2")); (str "src-port", JInt 22); (str "dst-port", JInt 5000);
               (str "encap-ip-version", JInt 6); (str "encap-dst-ip", JStr (str "fe80:0:0:0:0:0:0:9")); (str "spi", JInt 8);
               (str "key", JStr (key_text (replicate 32 27))); (str "icv-length", JInt 12); (str "salt", JInt 99)]]);
     (str "decrypt-rules",
      JArr
        [JObj [(str "dst-ip", JStr (str "192.168.0.8")); (str "inner-ip-version", JInt 6); (str "spi", JInt 9);
               (str "key", JStr (key_text (replicate 32 1))); (str "icv-length", JInt 8)]])].
Definition gw_json : JsonC := demo_json demo_text gw_tree.

Lemma gw_arrays s : @rule_arrays gw_json (@json_tokener_parse gw_json s).
Proof.
  apply demo_rule_arrays. intros k rules [-> | ->] [= <-]; eexists; (split; [reflexivity|]); vm_compute; split; congruence.
Qed.

#[local] Ltac solve_at :=
  first [ left; split; reflexivity
        | right; eexists; split_and!; reflexivity
        | eexists; split_and!; reflexivity ].

Lemma demo_config_file :
  @config_file gw_json true (@json_tokener_parse gw_json demo_text) demo_settings [line_ipv4; line_ipv6] [line_in].
Proof.
  split_and!.
  - right. eexists. split; [reflexivity|]. split_and!; try solve_at; done.
  - eexists. split_and!; [reflexivity..|]. intros [|[|i]] x Hx; try discriminate; injection Hx as <-; repeat split; solve_at.
  - eexists. split_and!; [reflexivity..|]. intros [|i] x Hx; try discriminate; injection Hx as <-; repeat split; solve_at.
  - repeat constructor; cbn; auto; lia.
  - repeat constructor; cbn; auto; lia.
  - done.
  - done.
Qed.

(** Both ports are given by name. *)
Definition demo_app : app_config (list bytes) :=
  set_devs (DevInfo [] (str "ens1f0") false true true) (DevInfo [] (str "ens1f1") false true true) app_config0.

#[export] Instance list_ip6_roomy : RoomyTable (list bytes).
Proof.
  intros t k. cbn. destruct (Z.leb_spec 0 (PolicyTheorems.key_index t k)); cbn; lia.
Qed.

Lemma gateway_config_rules_witness :
  runs (@ipsec_security_gw_parse_config (list bytes) _ _ gw_platform gw_json) (World (list bytes) [] demo_app) (fun e w =>
    e = DOCA_SUCCESS /\ nb_encrypted (app w) = 2 /\ nb_decrypted (app w) = 1 /\
    exists rs r, encrypt_array (app w) = Some rs /\ rs !! 1%nat = Some r /\ ip6_dst_ip r = groups_bytes [8193; 3512; 0; 0; 0; 0; 0; 2] /\
      sa_enc_key_data (e_sa_attrs r) = replicate 32 27).
Proof.
  eapply runs_mono; [apply (@gateway_config_rules (list bytes) _ _ _ _ gw_platform (demo_readable demo_text _) gw_json gw_arrays
    [] demo_app demo_text true demo_settings [line_ipv4; line_ipv6] [line_in])|].
  - apply demo_succeeds.
  - apply demo_has_text. repeat constructor; done.
  - apply demo_config_file.
  - by split_and!.
  - done.
  - done.
  - intros e w [Hv _]. destruct Hv as (-> & t & -> & _); [by split|]. split_and!; [done..|]. do 2 eexists. split_and!; reflexivity.
Defined.
