(* ===== verification/GatewayConfigInstall.v ===== *)
(** * From the configuration file to the hardware

    The encryption rules of a file, as flow_encrypt.c gives them to the hardware:
    the security association of each line, what its first entry matches, what its
    second entry puts in front of the packets. *)

From S2P Require Import Prelude CString FlowTypes FlowFields FlowParserSpec FlowPipes.
From S2P Require NatSpec NatRun.
From S2P Require Import RuleText PipeDemo InetPton Pack AntiReplay Mbuf EspPacket EspPacketSpec.
From S2P Require Import GatewayAddr GatewayRules Policy PolicySpec PolicyInstall PolicyTheorems.
From S2P Require Import Json GatewayConfig GatewayConfigSpec GatewayConfigRun GatewayConfigTheorems.
#[local] Open Scope Z_scope.
#[local] Open Scope doca_scope.

(** ** What the headers of a rule hold *)

(** The SPI and, in tunnel mode, the outer destination in the data that the
    hardware puts in front of a packet. *)
Definition spi_offset (cfg : gw_config) (x : enc_line) : nat :=
  match mode (base cfg), el_encap x with
  | IPSEC_SECURITY_GW_TUNNEL, V4 _ => 34
  | IPSEC_SECURITY_GW_TUNNEL, V6 _ => 54
  | IPSEC_SECURITY_GW_TRANSPORT, _ => 0
  | IPSEC_SECURITY_GW_UDP_TRANSPORT, _ => 8
  end.
Definition header_of (cfg : gw_config) (x : enc_line) (data : list Z) : Prop :=
  take 4 (drop (spi_offset cfg x) data) = be_bytes 4 (el_spi x) /\
  (mode (base cfg) = IPSEC_SECURITY_GW_TUNNEL ->
   match el_encap x with V4 i => take 4 (drop 30 data) = ip4_bytes i | V6 gs => take 16 (drop 38 data) = groups_bytes gs end).

(** A word of an address, taken apart again. *)
Lemma raw_bytes_word a b c d :
  byte_ok a -> byte_ok b -> byte_ok c -> byte_ok d -> raw_bytes (le_value [a; b; c; d]) = [a; b; c; d].
Proof.
  unfold byte_ok, in_u. change (2 ^ 8) with 256. intros. unfold raw_bytes. rewrite !GET_BYTE_be by lia. cbn [le_value].
  rewrite !Z.shiftr_div_pow2 by lia. cbn [Z.mul Pos.mul]. change (2 ^ 0) with 1. change (2 ^ 8) with 256.
  change (2 ^ 16) with 65536. change (2 ^ 24) with 16777216. repeat f_equal; Z.div_mod_to_equations; lia.
Qed.

Lemma group_bytes_ok gs : Forall (in_u 16) gs -> Forall byte_ok (groups_bytes gs).
Proof.
  induction 1 as [|g gs Hg _ IH]; [constructor|]. unfold groups_bytes in *. cbn [map concat app group].
  repeat constructor; [..|exact IH]; unfold byte_ok, in_u in *; change (2 ^ 16) with 65536 in *; change (2 ^ 8) with 256;
    Z.div_mod_to_equations; lia.
Qed.

(** The places of the header that depend on the rule. *)
Lemma tunnel4_header rule :
  take 4 (drop 34 (create_ipv4_tunnel_encap rule false)) = be_bytes 4 (esp_spi rule) /\
  take 4 (drop 30 (create_ipv4_tunnel_encap rule false)) = raw_bytes (encap_dst rule).1.1.1.
Proof. unfold create_ipv4_tunnel_encap. destruct (encap_dst rule) as [[[? ?] ?] ?]. by rewrite <- put_be_bytes. Qed.

Lemma tunnel6_header rule :
  take 4 (drop 54 (create_ipv6_tunnel_encap rule false)) = be_bytes 4 (esp_spi rule) /\
  take 16 (drop 38 (create_ipv6_tunnel_encap rule false)) =
    raw_bytes (encap_dst rule).1.1.1 ++ raw_bytes (encap_dst rule).1.1.2 ++
    raw_bytes (encap_dst rule).1.2 ++ raw_bytes (encap_dst rule).2.
Proof. unfold create_ipv6_tunnel_encap. destruct (encap_dst rule) as [[[? ?] ?] ?]. by rewrite <- put_be_bytes. Qed.

Lemma raw_words (b : bytes) :
  length b = 16%nat -> Forall byte_ok b ->
  raw_bytes (be32_word b 0) ++ raw_bytes (be32_word b 1) ++ raw_bytes (be32_word b 2) ++ raw_bytes (be32_word b 3) = b.
Proof.
  intros Hl Hb. do 16 (destruct b as [|? b]; [done|]). destruct b; [|done].
  repeat (apply Forall_cons in Hb as [? Hb]). unfold be32_word. cbn [Nat.mul Nat.add drop take].
  by rewrite !raw_bytes_word by done.
Qed.

Lemma encap_header cfg tunnel x sa i :
  (tunnel = true <-> mode (base cfg) = IPSEC_SECURITY_GW_TUNNEL) -> enc_line_ok x ->
  header_of cfg x (a_encap_data (encrypt_actions cfg (set_e_sa sa (enc_rule tunnel x)) i)).
Proof.
  intros Htun (_ & _ & _ & He & _). unfold header_of, encrypt_actions, spi_offset.
  destruct (mode (base cfg)); cbn [a_encap_data].
  - rewrite (proj2 Htun eq_refl). unfold create_ipsec_encrypt_shared_object_tunnel. cbn [set_e_sa enc_rule e_encap_l3_type].
    pose proof (tunnel4_header (path_encrypt_rule (set_e_sa sa (enc_rule true x)))) as [H4 H4'].
    pose proof (tunnel6_header (path_encrypt_rule (set_e_sa sa (enc_rule true x)))) as [H6 H6'].
    cbn [esp_spi encap_dst path_encrypt_rule set_e_sa enc_rule e_encap_dst e_esp_spi fst snd] in *.
    pose proof (length_addr (el_encap x) He) as Hl.
    destruct (el_encap x) as [j|gs]; cbn [addr_l3 addr_bytes] in *;
      [rewrite decide_True by done|rewrite decide_False by done].
    + rewrite H4, H4'. split; [done|]. intros _. destruct j as [a b c d], He as (Ha & Hb & Hc & Hd).
      by apply raw_bytes_word.
    + rewrite H6, H6'. split; [done|]. intros _. rewrite Hl. cbn [Nat.sub]. change (zeros 0) with (@nil Z).
      rewrite app_nil_r. apply raw_words; [done|]. apply group_bytes_ok, He.
  - split; [|done]. unfold create_ipsec_encrypt_shared_object_transport, create_transport_encap. by rewrite <- put_be_bytes.
  - split; [|done]. unfold create_ipsec_encrypt_shared_object_transport_over_udp, create_udp_transport_encap. by rewrite <- put_be_bytes.
Qed.

(** ** What the first entry of a rule matches *)

(** IPv6 sources are matched by an entry of their own, which is not this one. *)
Definition line_match (x : enc_line) (m : gw_match) : Prop :=
  let o := m_outer m in
  l4_type_ext o = (if el_tcp x then L4_TCP else L4_UDP) /\
  l4_src_port o = be_bytes 2 (u16 (el_sport x)) /\ l4_dst_port o = be_bytes 2 (u16 (el_dport x)) /\
  match el_src x, el_dst x with
  | V4 i, V4 j => ip4_src o = ip4_bytes i /\ ip4_dst o = ip4_bytes j
  | V6 _, V6 gs => take 16 (drop 16 (l3 o)) = groups_bytes gs
  | _, _ => False
  end.

Lemma line_matches tunnel x sa id :
  enc_line_ok x -> line_match x (five_tuple_match (set_e_sa sa (enc_rule tunnel x)) id).
Proof.
  intros (Hs & Hd & Hv & _). pose proof (length_addr _ Hs) as Ls. pose proof (length_addr _ Hd) as Ld.
  unfold line_match, five_tuple_match. cbn [set_e_sa enc_rule e_l3_type e_protocol e_src_port e_dst_port].
  unfold ip4_src_ip, ip4_dst_ip, ip6_dst_ip. cbn [e_addrs set_e_sa enc_rule].
  destruct (el_src x) as [i|gs], (el_dst x) as [j|gs']; try done; cbn [addr_l3 addr_bytes] in *;
    [rewrite decide_True by done|rewrite decide_False by done].
  - destruct i as [a b c d], j as [a' b' c' d']. by destruct (el_tcp x).
  - rewrite length_app, Ls, Ld. change (zeros (32 - (16 + 16))) with (@nil Z). rewrite app_nil_r.
    rewrite drop_app_length' by done. rewrite take_ge by lia.
    generalize dependent (groups_bytes gs'). intros b Lb; intros. do 16 (destruct b as [|? b]; [done|]). destruct b; [|done].
    by destruct (el_tcp x).
Qed.

(** ** Theorems *)

(** What the hardware holds for line [x] in place [i]: an association with its
    key, an entry that marks its packets with the place, the association under
    that number, and the entry that encrypts packets with the mark, in front of
    which it puts the header of the line. *)
Definition installed_line (cfg : gw_config) (i : Z) (x : enc_line) (h : list hw_call) : Prop :=
  exists task sa pipe m f1 pipe' m' a f2,
    (SaCreate task ∈ h /\ t_key task = key_data (l_key (el_sa x)) /\ t_key_type task = line_key_type (el_sa x) /\
       t_icv_length task = l_icv (el_sa x) /\ t_salt task = l_salt (el_sa x) /\
       t_direction task = DOCA_IPSEC_DIRECTION_EGRESS_ENCRYPT /\ t_sn_initial task = sn_initial (base cfg)) /\
    (PipeAddEntry pipe m (Some (mark i)) f1 hairpin_status ∈ h /\ line_match x m) /\
    SharedResourceCfg DOCA_IPSEC_DIRECTION_EGRESS_ENCRYPT sa i ∈ h /\
    (PipeAddEntry pipe' m' (Some a) f2 crypt_status ∈ h /\ m_pkt_meta m' = u32 i /\ a_crypto_id a = i /\
       a_icv_size a = l_icv (el_sa x) /\ header_of cfg x (a_encap_data a)).

Lemma configured_line cfg tunnel i x sa h :
  (tunnel = true <-> mode (base cfg) = IPSEC_SECURITY_GW_TUNNEL) -> enc_line_ok x ->
  configured cfg i (set_e_sa sa (enc_rule tunnel x)) h -> installed_line cfg i x h.
Proof.
  intros Htun Hx (id & f1 & f2 & Hsa & Hm & Hc & He).
  exists (sa_attrs_of (line_sa DOCA_IPSEC_DIRECTION_EGRESS_ENCRYPT (el_sa x)) cfg), sa.
  do 2 eexists. exists f1. do 3 eexists. exists f2. split_and!; try done.
  - by apply line_matches.
  - by destruct (mode (base cfg)) eqn:Em; unfold encrypt_actions; rewrite Em.
  - by destruct (mode (base cfg)) eqn:Em; unfold encrypt_actions; rewrite Em.
  - by apply encap_header.
Qed.

Section Theorems.
Context {T : Type} `{IL : Ip6HashLaws T} `{RT : !RoomyTable T} `{IT : !Ip6Table T}.
Context `{P : Platform} `{RF : !NatRun.ReadableFile} `{J : JsonC} (Hj : forall s, rule_arrays (json_tokener_parse s)).
Context `{HW : Hardware}.

(** What add_encrypt_entries makes of the configured array. *)
Lemma described_installed polls lookup tunnel x l1 l2 t (c : app_config T) s :
  let cfg := settings_gw x (gw c) in
  forall (PH : PromptHardware cfg),
  (1024 <= polls)%nat -> idle cfg s -> (tunnel = true <-> mode (base cfg) = IPSEC_SECURITY_GW_TUNNEL) ->
  Forall enc_line_ok l1 -> zlen l1 <= MAX_NB_RULES ->
  exists rs res rs' s', encrypt_array (described tunnel x l1 l2 t c) = Some rs /\
    add_encrypt_entries polls lookup cfg rs (zlen l1) s = Some ((res, rs'), s') /\
    (res = DOCA_SUCCESS -> idle cfg s' /\ forall i y, l1 !! i = Some y -> installed_line cfg (Z.of_nat i) y (calls s')).
Proof.
  intros cfg PH Hpolls Hid Htun Hok Hl. unfold described. cbn [encrypt_array]. change MAX_NB_RULES with 1024 in *.
  set (rs := map _ _ ++ _). assert (Hn : length rs = 1024%nat) by (unfold rs; rewrite length_app, length_map, length_replicate; lia).
  destruct (add_encrypt_entries_ok polls cfg lookup rs (zlen l1) s) as ([res rs'] & s' & E & HQ); [done..|lia|].
  exists rs, res, rs', s'. split; [done|]. split; [done|]. intros Hr. destruct (HQ Hr) as (Hid' & _ & Hc).
  split; [done|]. intros i y Hy. destruct (Hc i (enc_rule tunnel y)) as (sa & _ & Hcfg).
  - apply lookup_lt_Some in Hy. lia.
  - unfold rs. apply lookup_app_l_Some. by rewrite list_lookup_fmap, Hy.
  - eapply configured_line; [done| |exact Hcfg]. by eapply Forall_lookup_1.
Qed.

End Theorems.

(** ** The file of the examples *)

Definition demo_cfg : gw_config := settings_gw demo_settings (gw demo_app).


(** The insertion does succeed there, in four polls. *)
Definition demo_insertion : option (doca_error * doca_error) :=
  match @ipsec_security_gw_parse_config (list bytes) _ _ gw_platform gw_json (World (list bytes) [] demo_app) with
  | Some (e, w) =>
      match app_ip6_table (app w), encrypt_array (app w) with
      | Some t, Some rs =>
          match @add_encrypt_entries (hw_ok demo_cfg) 4 (h6_lookup t) (gw (app w)) rs (nb_encrypted (app w)) (HwState [] status0 status0) with
          | Some (res, _, _) => Some (e, res)
          | None => None
          end
      | _, _ => None
      end
  | None => None
  end.

Example demo_installs : demo_insertion = Some (DOCA_SUCCESS, DOCA_SUCCESS).
Proof. vm_compute. reflexivity. Qed.
